(* ===== verification/_CoqProject ===== *)
-Q . S2P
Prelude.v
Float64.v
Platform.v
Json.v
Models.v
Metrics.v
Retry.v
Revenue.v
Samples.v
Qualification.v
Store.v
Response.v
Auction.v
Pulsar.v
BuyerRouter.v
AuctionSteps.v
PingTreeRouter.v
WriteBehind.v
FlushClaims.v
Encryption.v
Batcher.v
LeadRequest.v
LeadHandler.v
PulsarHttp.v
Cache.v
Ssm.v
Config.v
Accounts.v
ApiAuth.v
Office.v
Campaigns.v
PingTreeAdmin.v
Buyers.v
RuleSets.v
OfficeRuns.v
RuleSetClaims.v
BuyerClaims.v
OfficeClaims.v
Security.v
SecurityClaims.v
LeadReports.v
ReportClaims.v
Migrations.v
Cleanup.v
CleanupClaims.v
PreChecks.v
PostClaims.v
Lookups.v
LookupClaims.v
Validate.v
Health.v
Tools.v
Shutdown.v
