(* ===== verification/Prelude.v ===== *)
(** * LeadsNebula: a verification library for the lead-routing core

    The program (a Rust workspace, [crates/core] and [crates/api]) takes leads from
    publishers over HTTP and sells them to buyers.  A _ping_ asks the buyers of the
    publisher's ping tree for a bid, with no personal data; the best bid wins and the
    publisher gets a promise.  A _post_ of that promise sends the lead to the winner.
    A _fullpost_ does both in one request.  What a request changes is written partly
    at once and partly by a queue that runs behind.

    ** Parts, files and correspondence

    - [Prelude.v]: results, the state-and-error effect, the stable sort, list and
      integer lemmas, tactics.  [Float64.v]: [f64] as the executable IEEE-754 values
      of the Standard Library.  [Platform.v]: strings as bytes, and the class
      [Platform] of the functions of other crates and Unicode tables the sources
      call (printing of numbers, base64, case mapping, dates), with a reference
      instance.  [Json.v]: [serde_json::Value] and [str::parse::<f64>].
    - [Models.v]: [crates/core/src/models/*.rs], the enums, the rows, and the read
      queries as functions on tables.  [Metrics.v]: [services/auction_timing.rs] and
      [services/diagnostic_metrics.rs].  [Samples.v]: values for the witnesses.
    - [Qualification.v]: [services/qualification_engine.rs].
    - [Store.v]: the rows the routing path writes, the tasks of the queue, and the
      state [World] of the effectful code with its statements.
    - [Response.v], [Auction.v]: the result types and the selection of the winner
      ([select_winner], and the selection of a fullpost), [services/ping_tree_router.rs].
    - [Pulsar.v]: [services/pulsar.rs], the internal buyer.
    - [BuyerRouter.v]: [services/buyer_router.rs], one buyer: payloads, integration,
      direct call or HTTP, reading of the reply.
    - [AuctionSteps.v], [PingTreeRouter.v]: [services/ping_tree_router.rs]: the pool of
      concurrent tasks as a transition system, and [route] with its phases.
    - [WriteBehind.v], [Batcher.v]: [services/write_behind_queue.rs]: the flush of a
      batch, and the task that collects batches, as a step relation.  [FlushClaims.v]: what
      a flush stores when statements fail.
    - [LeadRequest.v], [LeadHandler.v]: [crates/api/src/routes/leads.rs]: the body of a
      request, its checks, the rate limit; and the handler [create_lead].
    - [PreChecks.v]: the query on the configuration that finds the campaign and the
      buyer of a new lead, and the other reads of the handler on tables.
    - [Cache.v]: [crates/core/src/cache.rs] over [redis.rs]: an in-memory level and
      Redis, as stores with expiry known by their laws, used on any state with a cache
      and a clock ([HasCache]).  [Encryption.v]: [crates/core/src/encryption.rs], the
      [Codec] it gives to the queue, and how the dashboard reads a column.
    - [Accounts.v]: log in, second factor and forgotten password of the back office
      ([crates/api/src/routes/auth.rs], [middleware/jwt_auth.rs], and [auth.rs], [hmac.rs],
      [otp.rs], [password_policy.rs], [password_reset.rs] of the core) on the tables of
      the accounts.  [ApiAuth.v]: the API keys and signatures of publishers
      ([middleware/api_auth.rs], [middleware/hmac.rs]), through the cache.
    - The back office, [crates/api/src/routes/dashboard.rs], on tables of its own
      ([Office]): [Office.v], what its handlers share (statements, dynamic updates as
      the text that is pushed, the audit log) and publishers; [Campaigns.v], campaigns;
      [PingTreeAdmin.v], ping trees, the campaigns in them and the publishers assigned
      to them, with [models/ping_tree_publisher.rs]; [Buyers.v], buyers, verticals and
      integrations; [RuleSets.v], the rule sets of a buyer and its ZIP lists.
      [OfficeRuns.v]: their calls in any order, and what an invariant of the tables has
      to show ([OfficeInvariant], [RuleSetInvariant]).  [RuleSetClaims.v],
      [BuyerClaims.v], [OfficeClaims.v]: their properties, and what the router finds in
      their tables.
    - [Security.v]: the routes under [/api/security] of the same file: second factor,
      passkeys, reset mail and log, on the tables of the accounts and the back office
      ([Site]).  [SecurityClaims.v]: their properties, with the log ins of [Accounts.v].
    - [LeadReports.v]: what the same file shows of leads, their list and one lead with its
      requests and calls to buyers, and of the audit log.  [ReportClaims.v]: their
      properties, with the rows the queue writes.
    - [Lookups.v]: what the router and the handler read through the cache, from a database
      that changes with time, and the warm-up ([crates/api/src/cache_warmup.rs]).
      [LookupClaims.v]: how old what they read can be.
    - [Migrations.v], [Cleanup.v]: two tools of the operators, [run-migrations.rs] and
      [cleanup-instance-data.rs] of [crates/utils/src/bin]; [CleanupClaims.v]: what the
      second one deletes.  [Validate.v]: [validate-config.rs], the checks before a
      deployment.  [Tools.v]: [manage_instances.rs] and [cleanup-deleted-buyers.rs].
    - [Health.v]: [crates/api/src/routes/health.rs], the counters of [core/src/redis.rs] and
      the guard for test data of [services/database.rs].
    - [PostClaims.v]: any number of handlers that post the same promise, interleaved
      statement by statement with the updates of the queue, as labelled steps and runs.
    - [PulsarHttp.v]: [crates/api/src/routes/pulsar.rs], the internal buyer as an endpoint.
    - [Ssm.v]: [crates/core/src/ssm.rs] and [services/ssm_key_cache.rs], the parameter
      store behind memory and Redis, and how a handler loads the key of personal data.
      [Config.v]: [crates/api/src/config.rs] and the environment file of [main.rs]: the
      settings and the start.
    - [Shutdown.v]: the mode the server starts in and its end ([main.rs]): the signal, the
      flush of the queue and the requests in progress, as a transition system with the
      batcher.
    - [Retry.v]: [services/retry.rs], back-off and the circuit breaker, with concurrent
      calls as steps.  [Revenue.v]: [services/revenue_calculator.rs].

    A request flows through them as in the code: [LeadHandler.create_lead] calls
    [PingTreeRouter.route], which calls [BuyerRouter.route] for each campaign, which
    calls [Pulsar] or the HTTP client; the answers go to [Auction.select_winner]; what
    the router and the handler put in [w_queue] is what [Batcher] receives and
    [WriteBehind.flush_batch] writes.  [LeadHandler.end_to_end] runs a ping, the
    flush, a post and a second post of the same promise through all of them.

    ** How effects are modelled

    - Effectful code has type [eff S E A]: a function from the state to a result and
      the state reached, errors included, so that what was done before an error stays.
      [service] is this effect over [World]: the tables, the queue, the timing and
      metrics of the request, the clock, and the outcomes database statements will
      have.  A statement takes the next outcome: an error makes it fail and change
      nothing; when the list is empty, statements succeed.  Theorems quantify over
      the outcomes, or state the healthy case [w_outcomes w = []].
    - How a service stops short is a [Failure]: an error, which a [match] on the
      result catches ([catch]), or a panic, which unwinds.  Pure code that can panic
      has type [Panics].
    - Random values, new identifiers, clock readings and durations are fields of
      records ([PulsarDraws], [CallDraws], [TaskDraws], [AuctionDraws],
      [RequestDraws]), one per use in the code; theorems quantify over them.
    - The order in which concurrent answers arrive is [auction_order]; which orders
      there are is the subject of [AuctionSteps.v].
    - What the code reads through the cache, and the statements that only read
      configuration, are fields of [RouteLoads] and [RequestLoads]: the cache may
      return an older value, so theorems hold for every value.  [Lookups.router_loads]
      is what builds them with a cache, and bounds their age.
      [PingTreeRouter.loads_of_tables] builds them from tables with the queries of
      [Models.v].
    - Other crates are parameters: the HTTP client and [serde_json::from_str]
      ([Services]), printing and encryption of stored values ([Codec]), retries
      ([retry_spawn], with the laws [RetryLaws]), UUID parsing and two-decimal
      formatting ([ApiLib]), ciphers and base64 ([Crypto]), password hashes and tokens
      ([AuthLib]), serialization ([Serde]), text of decimal
      numbers ([DecimalText]), rounding to a column of decimals ([DecimalCast]), WebAuthn and
      URLs ([SecurityLib]), lower case in the database, dates and percent signs ([ReportLib]), sqlx's
      migrator ([Sqlx]), what foreign keys do when rows are deleted ([Deletion]) and what
      is checked and filled in when one is inserted ([Insertion]), TOML and YAML ([Toml],
      [Yaml]), a store that counts ([CountingStore]).  Each has a concrete instance, on which the
      witnesses evaluate.
    - The parameter store is a function of the time it is asked, or a list of pages; the
      environment, the files present and the answers of the services at the start are the
      records [ConfigSources] and [StartReplies]; Unicode tables of names are [NameChars].
    - Statements the handler spawns without waiting are returned with its answer
      ([answer_spawned]), to be run at any later moment.

    ** What the theorems show

    - The auction: who wins, and which price is reported ([ping_auction_winner],
      [select_winner_optimal], [select_fullpost_winner_optimal]), what it does
      on every branch and when it panics ([ping_auction_total], [select_winner_panics_iff]), that at most
      ten external buyers are asked at once and that it completes
      ([external_pings_bounded], [auction_completes]), and that routing one lead
      touches no other ([route_only_own_lead]).
    - Posts: no promise is sold twice ([no_double_sale]) but by an empty post id of a
      buyer ([empty_post_id_sells_twice]) or an update without a token that runs late
      ([late_update_sells_twice], [late_update_reopens_promise]); what happens to the token when the
      routing ends in an error
      ([routing_error_locks_promise]); the price of the two steps
      ([two_step_price], [fullpost_price_not_ping_bid]).
    - What buyers are told: [ping_payload_without_pii], [post_payload_extends_ping],
      [routed_lead_drops_request_data], [internal_buyer_never_http].
    - Qualification: [evaluate_rejects_iff], and that posts skip it
      ([post_ignores_qualification]).
    - The queue: what it receives is flushed once ([batcher_exactly_once],
      [batcher_drains]) unless it is shut down ([shutdown_tick_drops_channel]); a
      flush keeps the keys of leads and the references of responses
      ([flush_batch_keeps_db_wf]), stores a response at most once and touches the leads that
      tasks name only, whatever fails ([flush_stores_at_most_once]), creates
      leads idempotently ([creation_idempotent]), and delivers responses
      ([buyer_responses_delivered]); at the end of the server every task is flushed, left
      or dropped ([server_accounts_for_every_task]), an idle server loses nothing and one
      with requests in progress loses theirs ([idle_shutdown_loses_nothing],
      [requests_in_progress_are_lost]), and the end is reached ([shutdown_completes]); what
      each update writes
      ([standard_update_spec], [post_sale_never_stamped], [accepted_ping_stored_as_sold]).
    - The endpoint: the body reads back ([lead_body_roundtrip]), the rate limit
      ([rate_limit_bound]), what its pre-checks find and when it panics
      ([precheck_rows_spec], [token_does_not_choose], [create_panics_on_configuration]),
      what is stored of a request ([creation_payload_keeps_pii]).
    - The cache: both levels together implement a read of bounded age
      ([cache_refines_stale_read]); how long the first one answers alone
      ([first_level_ignores_ttl]); what a failure of Redis does ([redis_failure_is_final]);
      what is counted ([redis_lookups_counted_twice]).
    - The lookups of the router: after a warm-up and any use of the cache they answer with
      values of bounded age ([router_loads_are_recent]), without a cache with the tables'
      own ([uncached_loads_are_of_tables]); for how long the warm-up keeps a buyer
      ([warmed_buyer_lasts_a_day]).
    - Encryption: stored data reads back ([stored_pii_reads_back]), and when reading
      panics ([decrypt_envelope_panics_iff]).
    - Accounts: who logs in ([login_grants_iff]), how the second factor is passed or
      avoided ([login_token_opens_session], [backup_code_spent_twice]), what a reset link
      does ([reset_link_single_use_no_expiry], [forgot_password_reveals_account],
      [failed_mail_blocks_reset]), and that the tables stay well formed
      ([handlers_keep_accounts_wf]).
    - Security settings: a call changes what is the user's own ([security_calls_stay_own]);
      the factor that is set up is asked for and each backup code works once
      ([enrolled_factor_is_asked]), and the password
      alone removes it ([password_alone_disables_otp]); codes without a setup
      ([verify_without_setup]); passkeys ([registration_adds_one], [relying_party_in_domain]).
    - Publishers: whose requests pass ([api_key_admits_iff], [signature_admits_iff]) and
      for how long a verdict holds ([verdict_lasts_an_hour]).
    - The back office: any run keeps the tables well formed ([office_calls_keep_wf]); what
      the calls do on healthy statements ([update_publisher_spec], [created_key_reads_back],
      [generated_secret_verifies_nothing], [create_campaign_spec], [update_campaign_spec],
      [remove_campaign_spec], [add_publisher_spec], [update_ping_tree_spec]); what the
      router makes of it ([routing_is_assignment], [deleted_tree_strands_publisher]); and
      who may call ([any_user_takes_over_publisher]).
    - Buyers and rule sets: at most one active rule set per buyer over any run
      ([one_active_rule_set]), ZIP codes are never lost ([zips_only_grow]) and read back
      ([rule_set_zips_read_back]), what a failed creation leaves ([create_rule_set_spec]),
      what an update of a buyer does ([update_buyer_spec]), and which integration an
      internal buyer gets ([internal_buyer_integration]).
    - Reports on leads: who sees a lead ([details_of_own_leads_only]), that the pages are
      slices of the leads, newest first, and show every lead once when no two were made at
      the same time ([pages_show_every_lead], [tied_leads_repeat]), what pages far out do
      ([far_pages]),
      what is shown of a price ([sold_price_only_in_details]), of a request without a key
      ([details_reveal_request_without_key]) and of a ping nobody won ([no_ping_wins]).
    - Keys and settings: how old a parameter can be ([parameter_age]), what an outage of
      the store does to new leads ([outage_loses_personal_data]), that a loaded key can be
      used and is the environment's own ([loaded_key_usable]), that the environment file
      reads back ([env_file_reads_back]), what is taken out of the database URL
      ([sanitize_database_url_spec]) and what the start depends on
      ([redis_never_stops_the_start]).
    - Retries and the breaker: the calls and waits of a retry ([retry_with_backoff_spec]); the breaker
      implements a circuit of three states ([breaker_refines_circuit]), also under
      concurrency nothing runs while it is open ([refused_within_timeout]), but a late
      success closes it ([reopened_circuit_closed_at_once]).
    - Revenue: the split ([calculate_revenue_spec], [small_price_costs_publisher]) and its
      record ([revenue_recorded_once], [revenue_recorded_twice]).
    - The endpoint of the internal buyer: [http_is_unqualified_pulsar], [pulsar_http_spec].
    - The tools: what success of the migration tool means ([finished_migrations_are_recorded],
      [up_to_date_ignores_contents], [new_database_is_not_migrated]), what it executes a
      second time ([modified_migrations_run_again]) and how often it tries
      ([migrator_runs_bounded]); that a clean-up deletes exactly an instance's rows or
      nothing ([cleanup_exact_or_nothing]), and whom the clean-up of test data takes
      ([names_like_tests_are_deleted], [test_cleanup_needs_api_keys]); what the exit code
      of the validator says ([exit_code_spec], [secrets_exit_code]), that its secrets are
      loaded and its parameters are not enough ([found_secrets_are_loaded],
      [validated_parameters_do_not_load]); that the guard of the instance tool comes too
      late ([refused_after_deletion]) and which buyers are deleted ([deleted_buyers_are_gone]).
    - Health: [health_is_the_database], [idle_alert_iff], [guard_patterns].
    - Pulsar, metrics and queries: [route_fullpost_direct_spec], [ping_ids_distinct],
      [get_stage_percentiles_spec], [find_by_buyer_ids_correct].

    ** Bounds

    Recursion is structural but for [Batcher.batcher_run], which follows a list of
    events, and [WriteBehind.retry_insert], whose fuel is the three attempts of the
    code.  Counters wrap at 64 bits; priorities are within [i32] where the code uses
    [i32::MAX].  [Retry.retry_loop] has fuel for one call more than the retries, which is
    what it makes ([retry_with_backoff_spec]).  The loop over the leads of a clean-up has
    fuel; more than the number of leads is enough ([cleanup_exact_or_nothing]).  A search
    in a message has the length of the message as fuel.

    ** What is not modelled

    Log lines; the delays of the chaos mode and of the retries of statements, which change
    no value; the other tools of [crates/utils/src/bin], which run a few statements and print;
    the wiring of routes, the set-up of connection pools, the generated description of the
    API and the client of the mail service; the tasks handlers spawn without waiting, as
    part of the end of the server.  Parts of the warm-up and lookups that run at once are modelled one
    after the other; they are for different keys.  The handlers of the
    dashboard set no row-level security context, and the model has none. *)

From stdpp Require Import base list sorting strings gmap.
From Stdlib Require Import ZArith Lia.

#[export] Set Warnings "-clear-no-such-hyp,-register-all".

Declare Scope nebula_scope.
Delimit Scope nebula_scope with nebula.
Open Scope nebula_scope.

(** ** Results *)

(** Rust's [Result<T, E>], with the error type first so that [Result E] is a
    type constructor the monad notations apply to. *)
Inductive Result (E T : Type) : Type :=
  | Ok (t : T)
  | Err (e : E).
Arguments Ok {E T} t.
Arguments Err {E T} e.

#[export] Instance Result_ret E : MRet (Result E) := λ T t, Ok t.
#[export] Instance Result_bind E : MBind (Result E) := λ T U k m,
  match m with Ok t => k t | Err e => Err e end.

(** [Result::is_ok]. *)
Definition is_ok {E T} (r : Result E T) : bool :=
  match r with Ok _ => true | Err _ => false end.

(** [Option::ok_or_else]. *)
Definition ok_or {E T} (e : E) (o : option T) : Result E T :=
  match o with Some t => Ok t | None => Err e end.

(** [Result::map_err]. *)
Definition map_err {E F T} (f : E → F) (r : Result E T) : Result F T :=
  match r with Ok t => Ok t | Err e => Err (f e) end.

(** [Result::unwrap_or_default] and [Result::unwrap_or]. *)
Definition result_or {E T} (d : T) (r : Result E T) : T :=
  match r with Ok t => t | Err _ => d end.

(** Outcome of code that can panic: the panic message is the error. *)
Abbreviation Panics := (Result string).

(** ** Effects: state passing with errors that keep the state reached *)

Definition eff (S E A : Type) : Type := S → Result E A * S.

#[export] Instance eff_ret S E : MRet (eff S E) := λ A a s, (Ok a, s).
#[export] Instance eff_bind S E : MBind (eff S E) := λ A B k m s,
  match m s with
  | (Ok a, s') => k a s'
  | (Err e, s') => (Err e, s')
  end.

Definition eff_err {S E A} (e : E) : eff S E A := λ s, (Err e, s).
Definition eff_lift {S E A} (r : Result E A) : eff S E A := λ s, (r, s).
Definition eff_modify {S E} (f : S → S) : eff S E unit := λ s, (Ok tt, f s).
Definition eff_gets {S E A} (f : S → A) : eff S E A := λ s, (Ok (f s), s).

(** How a service stops short: with an error value, which [?] passes on and a [match]
    catches, or with a panic, which unwinds through both. *)
Inductive Failure : Type :=
  | Failed (e : string)
  | Panicked (message : string).

(** [r?]. *)
Definition fallible {S A} (r : Result string A) : eff S Failure A := eff_lift (map_err Failed r).
(** [r.expect(...)], and code that may panic. *)
Definition unwrap {S A} (r : Panics A) : eff S Failure A := eff_lift (map_err Panicked r).

(** [match m { Ok(..) => .., Err(..) => .. }] and [let _ = m;]: an error of [m] is a
    value, its effects stay. *)
Definition catch {S A} (m : eff S Failure A) : eff S Failure (Result string A) := λ s,
  match m s with
  | (Ok a, s') => (Ok (Ok a), s')
  | (Err (Failed e), s') => (Ok (Err e), s')
  | (Err (Panicked message), s') => (Err (Panicked message), s')
  end.

(** A task that is spawned, whatever becomes of it; and a cleanup that a panic does
    not skip. *)
Definition eff_try {S E F A} (m : eff S E A) : eff S F (Result E A) := λ s,
  let '(r, s') := m s in (Ok r, s').

Lemma eff_bind_ok {S E A B} (m : eff S E A) (k : A → eff S E B) s a s' :
  m s = (Ok a, s') → (m ≫= k) s = k a s'.
Proof. unfold mbind, eff_bind. by intros ->. Qed.

Lemma eff_bind_err {S E A B} (m : eff S E A) (k : A → eff S E B) s e s' :
  m s = (Err e, s') → (m ≫= k) s = (Err e, s').
Proof. unfold mbind, eff_bind. by intros ->. Qed.

Lemma eff_bind_inv {S E A B} (m : eff S E A) (k : A → eff S E B) s r s'' :
  (m ≫= k) s = (r, s'') →
  (∃ a s', m s = (Ok a, s') ∧ k a s' = (r, s'')) ∨
  (∃ e, m s = (Err e, s'') ∧ r = Err e).
Proof.
  unfold mbind, eff_bind. destruct (m s) as [[a|e] s'] eqn:Hm; intros H.
  - left. by exists a, s'.
  - right. simplify_eq. eauto.
Qed.

Lemma eff_bind_eq {S E A B} (m : eff S E A) (k : A → eff S E B) s :
  (m ≫= k) s = match m s with (Ok a, s') => k a s' | (Err e, s') => (Err e, s') end.
Proof. done. Qed.

Lemma eff_ret_bind {S E A B} (a : A) (k : A → eff S E B) s : (mret a ≫= k) s = k a s.
Proof. done. Qed.

Lemma eff_gets_bind {S E A B} (f : S → A) (k : A → eff S E B) s : (eff_gets f ≫= k) s = k (f s) s.
Proof. done. Qed.

Lemma eff_lift_bind {S E A B} (r : Result E A) (k : A → eff S E B) s :
  (eff_lift r ≫= k) s = match r with Ok a => k a s | Err e => (Err e, s) end.
Proof. by destruct r. Qed.

(** One step of an effectful computation. *)
Ltac eff_step := first [rewrite eff_gets_bind | rewrite eff_lift_bind | rewrite eff_bind_eq].

(** *** Invariants of effectful code *)

(** Whatever it returns, [m] keeps the invariant. *)
Definition preserves {S E A} (I : S → Prop) (m : eff S E A) : Prop := ∀ s, I s → I (m s).2.

Create HintDb effects.

Section preserves.
Context {S E : Type} (I : S → Prop).

Lemma preserves_pure {A} (m : eff S E A) : (∀ s, (m s).2 = s) → preserves I m.
Proof. intros Hm s Hs. by rewrite Hm. Qed.

Lemma preserves_ret {A} (a : A) : preserves I (mret (M := eff S E) a).
Proof. by apply preserves_pure. Qed.
Lemma preserves_err {A} (e : E) : preserves I (eff_err (A := A) e).
Proof. by apply preserves_pure. Qed.
Lemma preserves_lift {A} (r : Result E A) : preserves I (eff_lift r).
Proof. by apply preserves_pure. Qed.
Lemma preserves_gets {A} (f : S → A) : preserves I (eff_gets (E := E) f).
Proof. by apply preserves_pure. Qed.

Lemma preserves_modify (f : S → S) : (∀ s, I s → I (f s)) → preserves I (eff_modify (E := E) f).
Proof. intros Hf s Hs. by apply Hf. Qed.

Lemma preserves_bind {A B} (m : eff S E A) (k : A → eff S E B) :
  preserves I m → (∀ a, preserves I (k a)) → preserves I (m ≫= k).
Proof.
  intros Hm Hk s Hs. rewrite eff_bind_eq. specialize (Hm s Hs). destruct (m s) as [[a|e] s']; [by apply Hk|done].
Qed.

(** A bind whose first part says something of its result. *)
Lemma preserves_from {A B} (Q : A → Prop) (m : eff S E A) (k : A → eff S E B) :
  (∀ s, I s → I (m s).2 ∧ ∀ a, (m s).1 = Ok a → Q a) → (∀ a, Q a → preserves I (k a)) → preserves I (m ≫= k).
Proof.
  intros Hm Hk s Hs. rewrite eff_bind_eq. destruct (Hm s Hs) as [Hi Hq]. destruct (m s) as [[a|e] s']; [|done].
  apply (Hk a); [by apply Hq|done].
Qed.

Lemma preserves_try {F A} (m : eff S E A) : preserves I m → preserves I (eff_try (F := F) m).
Proof. intros Hm s Hs. specialize (Hm s Hs). unfold eff_try. by destruct (m s). Qed.
End preserves.

#[export] Hint Resolve preserves_ret preserves_err preserves_lift preserves_gets preserves_try : effects.

(** Through the control flow of a handler, to its statements. *)
Ltac preserves_tac := repeat first
  [ solve [eauto with effects] | apply preserves_bind; [|intros ?]
  | match goal with |- preserves _ (match ?x with _ => _ end) => destruct x end
  | match goal with |- preserves _ (if ?x then _ else _) => destruct x end ].

(** ** The stable sort of [slice::sort_by] *)

Section sort_by.
Context {A : Type} (cmp : A → A → comparison).

(** [x] goes in front of the first element it is not greater than, so equal
    elements keep their order. *)
Fixpoint insert_by (x : A) (l : list A) : list A :=
  match l with
  | [] => [x]
  | y :: l' =>
      match cmp x y with
      | Gt => y :: insert_by x l'
      | _ => x :: y :: l'
      end
  end.

Definition sort_by (l : list A) : list A := foldr insert_by [] l.

Lemma insert_by_perm x l : insert_by x l ≡ₚ x :: l.
Proof.
  induction l as [|y l IH]; simpl; [done|].
  destruct (cmp x y); try done. rewrite IH. apply perm_swap.
Qed.

Lemma sort_by_perm l : sort_by l ≡ₚ l.
Proof.
  induction l as [|x l IH]; simpl; [done|].
  by rewrite insert_by_perm, IH.
Qed.

Lemma sort_by_length l : length (sort_by l) = length l.
Proof. by rewrite sort_by_perm. Qed.

Lemma elem_of_sort_by x l : x ∈ sort_by l ↔ x ∈ l.
Proof. by rewrite sort_by_perm. Qed.

Lemma sort_by_nil_inv l : sort_by l = [] → l = [].
Proof. intros H. apply Permutation_nil. by rewrite <-H, sort_by_perm. Qed.

(** The comparator orders the elements that satisfy [P]. *)
Definition cmp_le (x y : A) : Prop := cmp x y ≠ Gt.

Record OrdersOn (P : A → Prop) : Prop := {
  orders_total : ∀ x y, P x → P y → cmp x y = Gt → cmp_le y x;
  orders_trans : ∀ x y z, P x → P y → P z → cmp_le x y → cmp_le y z → cmp_le x z
}.

Lemma insert_by_sorted P x l :
  OrdersOn P → P x → Forall P l →
  StronglySorted cmp_le l → StronglySorted cmp_le (insert_by x l).
Proof.
  intros Ho Hx Hl. induction 1 as [|y l Hs IH Hall]; simpl.
  { repeat constructor. }
  apply Forall_cons in Hl as [Hy Hl].
  destruct (cmp x y) eqn:Hxy.
  1,2: assert (cmp_le x y) by (unfold cmp_le; congruence);
       constructor; [by constructor|]; constructor; [done|];
       rewrite !Forall_forall in *; intros z Hz;
       eapply (orders_trans _ Ho x y z); eauto.
  constructor; [by apply IH|].
  rewrite insert_by_perm. constructor; [|done].
  by eapply orders_total.
Qed.

Lemma sort_by_sorted P l :
  OrdersOn P → Forall P l → StronglySorted cmp_le (sort_by l).
Proof.
  intros Ho. induction 1 as [|x l Hx Hl IH]; simpl; [constructor|].
  eapply insert_by_sorted; eauto. by rewrite sort_by_perm.
Qed.

(** The head of a sorted list is a minimum. *)
Lemma sort_by_head_min P l x l' :
  OrdersOn P → Forall P l → (∀ y, P y → cmp_le y y) →
  sort_by l = x :: l' → ∀ y, y ∈ l → cmp_le x y.
Proof.
  intros Ho Hl Hrefl Hs y Hy.
  pose proof (sort_by_sorted P l Ho Hl) as Hsort.
  rewrite <-elem_of_sort_by, Hs in Hy. rewrite Hs in Hsort.
  apply StronglySorted_inv in Hsort as [_ Hall].
  apply elem_of_cons in Hy as [->|Hy].
  - apply Hrefl. rewrite Forall_forall in Hl. apply Hl.
    rewrite <-elem_of_sort_by, Hs. by left.
  - by rewrite Forall_forall in Hall; apply Hall.
Qed.
End sort_by.

(** ** Small list functions of the standard library *)

Lemma Forall_filter_bool {A} (P : A → Prop) (keep : A → bool) (l : list A) : Forall P l → Forall P (List.filter keep l).
Proof. induction 1 as [|x l Hx Hl IH]; cbn; [done|]. destruct (keep x); [by constructor|done]. Qed.

Lemma filter_idemp {A} (p : A → bool) l : List.filter p (List.filter p l) = List.filter p l.
Proof. induction l as [|x l IH]; [done|]. cbn. destruct (p x) eqn:Hx; [cbn; by rewrite Hx, IH|done]. Qed.

Lemma elem_of_list_filter_bool {A} (p : A → bool) l x :
  x ∈ List.filter p l ↔ x ∈ l ∧ p x = true.
Proof. by rewrite !list_elem_of_In, List.filter_In. Qed.

(** [Iterator::take_while]. *)
Fixpoint take_while {A} (p : A → bool) (l : list A) : list A :=
  match l with
  | [] => []
  | x :: l' => if p x then x :: take_while p l' else []
  end.

Lemma take_while_Forall {A} (p : A → bool) l : Forall (λ x, p x = true) (take_while p l).
Proof. induction l as [|x l IH]; simpl; [done|]. destruct (p x) eqn:?; eauto. Qed.

Lemma take_while_incl {A} (p : A → bool) l x : x ∈ take_while p l → x ∈ l.
Proof.
  induction l as [|y l IH]; simpl; [done|].
  destruct (p y); [|by intros ?%elem_of_nil].
  intros [->|?]%elem_of_cons; [by left|right; auto].
Qed.

(** [Iterator::min_by_key] with an integer key: the first minimum. *)
Fixpoint min_by_key {A} (key : A → Z) (l : list A) : option A :=
  match l with
  | [] => None
  | x :: l' =>
      match min_by_key key l' with
      | None => Some x
      | Some y => if (key x <=? key y)%Z then Some x else Some y
      end
  end.

Lemma min_by_key_elem {A} (key : A → Z) l x : min_by_key key l = Some x → x ∈ l.
Proof.
  revert x. induction l as [|y l IH]; simpl; [done|]. intros x.
  destruct (min_by_key key l) as [z|].
  - destruct (key y <=? key z)%Z; intros [= <-]; [by left|right; auto].
  - intros [= <-]. by left.
Qed.

Lemma min_by_key_min {A} (key : A → Z) l x :
  min_by_key key l = Some x → ∀ y, y ∈ l → (key x ≤ key y)%Z.
Proof.
  revert x. induction l as [|z l IH]; simpl; [done|]. intros x.
  destruct (min_by_key key l) as [w|] eqn:Hm.
  - destruct (Z.leb_spec (key z) (key w)); intros [= <-] y [->|Hy]%elem_of_cons; try lia.
    + specialize (IH w eq_refl y Hy). lia.
    + by apply IH.
  - intros [= <-] y [->|Hy]%elem_of_cons; [lia|].
    destruct l as [|u l]; [by apply elem_of_nil in Hy|].
    simpl in Hm. destruct (min_by_key key l); [destruct (_ <=? _)%Z|]; done.
Qed.

Lemma min_by_key_some {A} (key : A → Z) l : l ≠ [] → is_Some (min_by_key key l).
Proof.
  destruct l as [|x l]; [done|]. intros _. simpl.
  destruct (min_by_key key l); [destruct (_ <=? _)%Z|]; eauto.
Qed.

Lemma StronglySorted_mono {A} (R R' : A → A → Prop) l :
  (∀ x y, R x y → R' x y) → StronglySorted R l → StronglySorted R' l.
Proof.
  intros HR. induction 1 as [|x l Hs IH Hall]; constructor; [done|].
  eapply Forall_impl; [exact Hall|]. auto.
Qed.

(** The first element of a sorted list that passes a test precedes the others that do. *)
Lemma find_sorted_first {A} (R : A → A → Prop) (p : A → bool) l x :
  StronglySorted R l → List.find p l = Some x →
  ∀ y, y ∈ l → p y = true → y = x ∨ R x y.
Proof.
  induction 1 as [|z l Hs IH Hall]; simpl; [done|].
  destruct (p z) eqn:Hz.
  - intros [= <-] y [->|Hy]%elem_of_cons _; [by left|]. right.
    by rewrite Forall_forall in Hall; apply Hall.
  - intros Hf y [->|Hy]%elem_of_cons Hpy; [congruence|]. by apply IH.
Qed.

(** [Iterator::find] returns the first element that passes. *)
Lemma find_Some_split {A} (p : A → bool) l x :
  List.find p l = Some x ↔
  ∃ pre post, l = pre ++ x :: post ∧ Forall (λ y, p y = false) pre ∧ p x = true.
Proof.
  split.
  - induction l as [|y l IH]; simpl; [done|]. destruct (p y) eqn:Hy.
    + intros [= ->]. by exists [], l.
    + intros (pre & post & -> & ? & ?)%IH. exists (y :: pre), post. split_and!; auto.
  - intros (pre & post & -> & Hpre & Hx). induction Hpre as [|y pre Hy _ IH]; simpl.
    + by rewrite Hx.
    + by rewrite Hy.
Qed.

(** ** Machine integers *)

Definition u64_modulus : Z := 2 ^ 64.
Definition u64_wrap (z : Z) : Z := z mod u64_modulus.
(** [x as i32] keeps the low 32 bits. *)
Definition as_i32 (z : Z) : Z := ((z + 2 ^ 31) mod 2 ^ 32 - 2 ^ 31)%Z.
(** [AtomicU64::fetch_add] wraps around. *)
Definition u64_fetch_add (x d : Z) : Z := u64_wrap (x + d).
(** [saturating_sub] on unsigned integers. *)
Definition u64_saturating_sub (x y : Z) : Z := Z.max 0 (x - y).
Definition i32_max : Z := 2 ^ 31 - 1.
Definition i32_min : Z := - 2 ^ 31.

(** ** Tactics *)

(** Splits the boolean conjunctions of the context. *)
Ltac destruct_andb :=
  repeat match goal with
  | H : (_ && _)%bool = true |- _ => apply andb_true_iff in H as [? ?]
  | H : (_ || _)%bool = false |- _ => apply orb_false_iff in H as [? ?]
  | H : negb _ = true |- _ => apply negb_true_iff in H
  | H : negb _ = false |- _ => apply negb_false_iff in H
  end.

(** Case analysis on every [if] and [match] scrutinee of the goal. *)
Ltac case_all := repeat case_match; simplify_eq/=; try done.

(** Membership in an explicit list. *)
Ltac member := repeat first [by left | right].

Create HintDb nebula.
#[export] Hint Resolve take_while_Forall min_by_key_elem : nebula.
Create Rewrite HintDb nebula_rw.
#[export] Hint Rewrite @sort_by_length : nebula_rw.
