(* ===== verification/Float64.v ===== *)
(** * IEEE-754 binary64 values

    Rust's [f64] as the Standard Library's executable [spec_float] at precision
    53 and exponent bound 1024: every operation below is the correctly rounded
    one and evaluates.  The lemmas give the order of the non-NaN values, which is
    what the sorting and filtering of bids and prices rely on. *)

From stdpp Require Import base list strings.
From Stdlib Require Import ZArith Lia.
From Stdlib Require Export Floats.SpecFloat.
From S2P Require Import Prelude.

Abbreviation f64 := spec_float.

Definition f64_prec : Z := 53.
Definition f64_emax : Z := 1024.

#[export] Instance spec_float_eq_dec : EqDecision spec_float.
Proof. solve_decision. Defined.

(** ** Operations *)

(** [z as f64]: round to nearest, ties to even. *)
Definition f64_of_Z (z : Z) : f64 := binary_normalize f64_prec f64_emax z 0 false.

(** The value of the decimal literal [m * 10^e]. *)
Definition f64_of_decimal (m e : Z) : f64 :=
  match m, e with
  | Z0, _ => S754_zero false
  | _, Zneg k =>
      SFdiv f64_prec f64_emax
        (S754_finite (Z.ltb m 0) (Z.to_pos (Z.abs m)) 0)
        (S754_finite false (Z.to_pos (10 ^ Zpos k)) 0)
  | _, _ => f64_of_Z (m * 10 ^ e)
  end.

Definition f64_zero : f64 := S754_zero false.
Definition f64_add (x y : f64) : f64 := SFadd f64_prec f64_emax x y.
Definition f64_sub (x y : f64) : f64 := SFsub f64_prec f64_emax x y.
Definition f64_mul (x y : f64) : f64 := SFmul f64_prec f64_emax x y.
Definition f64_div (x y : f64) : f64 := SFdiv f64_prec f64_emax x y.
Definition f64_abs (x : f64) : f64 := SFabs x.
(** [PartialOrd::partial_cmp]. *)
Definition f64_partial_cmp (x y : f64) : option comparison := SFcompare x y.
Definition f64_lt (x y : f64) : bool := SFltb x y.
Definition f64_le (x y : f64) : bool := SFleb x y.
Definition f64_gt (x y : f64) : bool := SFltb y x.
Definition f64_eqb (x y : f64) : bool := SFeqb x y.
Definition f64_is_nan (x : f64) : bool :=
  match x with S754_nan => true | _ => false end.
Definition f64_is_finite (x : f64) : bool :=
  match x with S754_nan | S754_infinity _ => false | _ => true end.
(** [f64::max]: a NaN operand is ignored. *)
Definition f64_max (x y : f64) : f64 :=
  if f64_is_nan x then y else if f64_is_nan y then x
  else if f64_lt x y then y else x.

(** [f64::round]: to the nearest integer, halves away from zero. *)
Definition f64_round (x : f64) : f64 :=
  match x with
  | S754_finite s m e =>
      if (0 <=? e)%Z then x
      else
        let d := (2 ^ (- e))%Z in
        let q := ((2 * Zpos m + d) / (2 * d))%Z in
        if (q =? 0)%Z then S754_zero s else f64_of_Z (if s then - q else q)%Z
  | _ => x
  end.

(** [x as u64]: truncation, saturating, NaN to zero. *)
Definition f64_to_u64 (x : f64) : Z :=
  match x with
  | S754_nan | S754_zero _ => 0
  | S754_infinity s => if s then 0 else u64_modulus - 1
  | S754_finite s m e =>
      if s then 0 else Z.min (u64_modulus - 1) (Z.shiftl (Zpos m) e)
  end.

(** ** The order of the values that are not NaN *)

(** A key that orders the values lexicographically. *)
Definition f64_key (x : f64) : Z * Z * Z :=
  match x with
  | S754_infinity true => (-2, 0, 0)
  | S754_finite true m e => (-1, - e, - Zpos m)
  | S754_zero _ | S754_nan => (0, 0, 0)
  | S754_finite false m e => (1, e, Zpos m)
  | S754_infinity false => (2, 0, 0)
  end%Z.

Definition key_compare (a b : Z * Z * Z) : comparison :=
  let '(a1, a2, a3) := a in
  let '(b1, b2, b3) := b in
  match (a1 ?= b1)%Z with
  | Eq => match (a2 ?= b2)%Z with Eq => (a3 ?= b3)%Z | c => c end
  | c => c
  end.

Lemma f64_partial_cmp_key x y :
  f64_is_nan x = false → f64_is_nan y = false →
  f64_partial_cmp x y = Some (key_compare (f64_key x) (f64_key y)).
Proof.
  assert (Hopp : ∀ a b : Z, (- a ?= - b)%Z = CompOpp (a ?= b)%Z).
  { intros. by rewrite Z.compare_opp, <-Z.compare_antisym. }
  destruct x as [[]|[]| |[] m e], y as [[]|[]| |[] m' e']; try done; intros _ _;
    unfold f64_partial_cmp, SFcompare, f64_key, key_compare; try done.
  simpl. rewrite Hopp. by destruct (e ?= e')%Z.
Qed.

Lemma f64_partial_cmp_nan x y :
  f64_is_nan x = true ∨ f64_is_nan y = true → f64_partial_cmp x y = None.
Proof. intros [H|H]; revert H; by destruct x as [[]|[]| |[] m e], y as [[]|[]| |[] m' e']. Qed.

Lemma key_compare_refl a : key_compare a a = Eq.
Proof. destruct a as [[a1 a2] a3]. unfold key_compare. by rewrite !Z.compare_refl. Qed.

Lemma key_compare_antisym a b : key_compare b a = CompOpp (key_compare a b).
Proof.
  destruct a as [[a1 a2] a3], b as [[b1 b2] b3]. unfold key_compare.
  rewrite (Z.compare_antisym a1 b1), (Z.compare_antisym a2 b2), (Z.compare_antisym a3 b3).
  by destruct (a1 ?= b1)%Z, (a2 ?= b2)%Z, (a3 ?= b3)%Z.
Qed.

(** The lexicographic order in a form [lia] works with. *)
Lemma key_compare_spec a b :
  let '(a1, a2, a3) := a in
  let '(b1, b2, b3) := b in
  match key_compare a b with
  | Lt => (a1 < b1 ∨ a1 = b1 ∧ (a2 < b2 ∨ a2 = b2 ∧ a3 < b3))%Z
  | Eq => (a1 = b1 ∧ a2 = b2 ∧ a3 = b3)%Z
  | Gt => (b1 < a1 ∨ a1 = b1 ∧ (b2 < a2 ∨ a2 = b2 ∧ b3 < a3))%Z
  end.
Proof.
  destruct a as [[a1 a2] a3], b as [[b1 b2] b3]. unfold key_compare.
  destruct (Z.compare_spec a1 b1), (Z.compare_spec a2 b2), (Z.compare_spec a3 b3); lia.
Qed.

Lemma key_compare_trans a b c :
  key_compare a b ≠ Gt → key_compare b c ≠ Gt → key_compare a c ≠ Gt.
Proof.
  intros Hab Hbc Hac.
  pose proof (key_compare_spec a b). pose proof (key_compare_spec b c).
  pose proof (key_compare_spec a c).
  destruct a as [[a1 a2] a3], b as [[b1 b2] b3], c as [[c1 c2] c3].
  rewrite Hac in *.
  destruct (key_compare (a1, a2, a3) (b1, b2, b3)), (key_compare (b1, b2, b3) (c1, c2, c3));
    try congruence; lia.
Qed.

Lemma key_compare_eq_l a b c : key_compare a b = Eq → key_compare a c = key_compare b c.
Proof.
  intros Hab. pose proof (key_compare_spec a b) as H. rewrite Hab in H.
  destruct a as [[a1 a2] a3], b as [[b1 b2] b3]. by destruct H as (-> & -> & ->).
Qed.
Lemma key_compare_eq_r a b c : key_compare a b = Eq → key_compare c a = key_compare c b.
Proof.
  intros Hab. pose proof (key_compare_spec a b) as H. rewrite Hab in H.
  destruct a as [[a1 a2] a3], b as [[b1 b2] b3]. by destruct H as (-> & -> & ->).
Qed.

(** ** Facts the clients use *)

(** The comparisons of values that are not NaN, by their keys. *)
Lemma f64_gt_key x y :
  f64_is_nan x = false → f64_is_nan y = false →
  f64_gt x y = match key_compare (f64_key y) (f64_key x) with Lt => true | _ => false end.
Proof.
  intros Hx Hy. unfold f64_gt, SFltb.
  change (SFcompare y x) with (f64_partial_cmp y x). by rewrite f64_partial_cmp_key.
Qed.

Lemma f64_eqb_key x y :
  f64_is_nan x = false → f64_is_nan y = false →
  f64_eqb x y = match key_compare (f64_key x) (f64_key y) with Eq => true | _ => false end.
Proof.
  intros Hx Hy. unfold f64_eqb, SFeqb.
  change (SFcompare x y) with (f64_partial_cmp x y). by rewrite f64_partial_cmp_key.
Qed.

(** A value that compares above another one is not NaN. *)
Lemma f64_gt_not_nan x y : f64_gt x y = true → f64_is_nan x = false.
Proof. by destruct x as [[]|[]| |[] m e], y as [[]|[]| |[] m' e']. Qed.

Lemma f64_gt_zero_cases x :
  f64_gt x f64_zero = true →
  x = S754_infinity false ∨ ∃ m e, x = S754_finite false m e.
Proof. destruct x as [[]|[]| |[] m e]; try done; eauto. Qed.

Lemma f64_sub_self x : f64_is_finite x = true → f64_sub x x = S754_zero false.
Proof.
  destruct x as [[]|[]| |[] m e]; try done; intros _;
    unfold f64_sub, SFsub; by rewrite Z.sub_diag.
Qed.

(** Literals are what the compiler produces. *)
Example f64_literal_0_01 : f64_of_decimal 1 (-2) = S754_finite false 5764607523034235 (-59).
Proof. reflexivity. Qed.
Example f64_literal_0_8 : f64_of_decimal 8 (-1) = S754_finite false 7205759403792794 (-53).
Proof. reflexivity. Qed.
Example f64_sum : f64_eqb (f64_add (f64_of_decimal 1 (-1)) (f64_of_decimal 2 (-1)))
                    (f64_of_decimal 3 (-1)) = false.
Proof. reflexivity. Qed.

Example f64_round_half : f64_round (f64_of_decimal 25 (-1)) = f64_of_Z 3.
Proof. reflexivity. Qed.
Example f64_round_neg : f64_round (f64_of_decimal (-25) (-1)) = f64_of_Z (-3).
Proof. reflexivity. Qed.
Example f64_round_small : f64_round (f64_of_decimal 4 (-1)) = f64_zero.
Proof. reflexivity. Qed.
