(* ===== verification/Platform.v ===== *)
(** * Text, identifiers and the code the program links against

    Strings are byte strings (a Rust [String] is its UTF-8 bytes).  The class
    [Platform] carries the functions of third-party crates and the Unicode tables
    that the sources call; [IdentifierLaws] states what the identifiers rely on.
    [reference_platform] is a concrete instance, on which witnesses evaluate. *)

From stdpp Require Import base list strings gmap numbers pretty.
From Stdlib Require Import Ascii String ZArith Lia.
From S2P Require Import Prelude Float64.

Open Scope string_scope.

(** The 128 bits of a [uuid::Uuid]. *)
Abbreviation Uuid := N.
(** A [chrono::DateTime<Utc>], in microseconds since the epoch. *)
Abbreviation DateTime := Z.

(** ** String functions of the standard library *)

(** [str::starts_with]. *)
Definition starts_with (p s : string) : bool := String.prefix p s.

(** [str::strip_prefix]. *)
Fixpoint strip_prefix (p s : string) : option string :=
  match p, s with
  | EmptyString, _ => Some s
  | String a p', String b s' => if decide (a = b) then strip_prefix p' s' else None
  | String _ _, EmptyString => None
  end.

(** [str::ends_with]. *)
Definition ends_with (suffix s : string) : bool :=
  let n := (String.length s - String.length suffix)%nat in
  (String.length suffix <=? String.length s)%nat && String.eqb (String.substring n (String.length suffix) s) suffix.

(** [hay.contains(needle)]. *)
Fixpoint str_contains (needle hay : string) : bool :=
  String.prefix needle hay ||
  match hay with EmptyString => false | String _ hay' => str_contains needle hay' end.

(** [str::chars().take(n)] on ASCII text. *)
Definition str_take (n : nat) (s : string) : string := String.substring 0 n s.

(** [str::replace(c, "")] for a one-byte pattern. *)
Fixpoint str_remove (c : ascii) (s : string) : string :=
  match s with
  | EmptyString => EmptyString
  | String a s' => if decide (a = c) then str_remove c s' else String a (str_remove c s')
  end.

(** [s.split(',').next()]. *)
Fixpoint before_comma (s : string) : string :=
  match s with
  | EmptyString => EmptyString
  | String a s' => if Ascii.eqb a "," then EmptyString else String a (before_comma s')
  end.

(** [str::replace(c, d)] for one-byte pattern and replacement. *)
Fixpoint str_replace_char (c d : ascii) (s : string) : string :=
  match s with
  | EmptyString => EmptyString
  | String a s' => String (if decide (a = c) then d else a) (str_replace_char c d s')
  end.

Fixpoint str_map (f : ascii → ascii) (s : string) : string :=
  match s with EmptyString => EmptyString | String a s' => String (f a) (str_map f s') end.

Fixpoint str_forallb (p : ascii → bool) (s : string) : bool :=
  match s with EmptyString => true | String a s' => p a && str_forallb p s' end.

(** [Vec<String>::join]. *)
Definition str_join (sep : string) (l : list string) : string := String.concat sep l.

Definition ascii_between (lo hi : nat) (a : ascii) : bool :=
  (lo <=? nat_of_ascii a)%nat && (nat_of_ascii a <=? hi)%nat.
Definition is_ascii (a : ascii) : bool := ascii_between 0 127 a.
Definition ascii_lower (a : ascii) : ascii :=
  if ascii_between 65 90 a then ascii_of_nat (nat_of_ascii a + 32) else a.
Definition ascii_upper (a : ascii) : ascii :=
  if ascii_between 97 122 a then ascii_of_nat (nat_of_ascii a - 32) else a.

(** [char::is_whitespace] on the UTF-8 bytes of a character: the code points of one,
    two and three bytes with the property. *)
Definition is_space (a : ascii) : bool := ascii_between 9 13 a || ascii_between 32 32 a.
Definition is_space2 (a b : ascii) : bool := ascii_between 194 194 a && (ascii_between 133 133 b || ascii_between 160 160 b).
Definition is_space3 (a b c : ascii) : bool :=
  (ascii_between 225 225 a && ascii_between 154 154 b && ascii_between 128 128 c)
  || (ascii_between 226 226 a && ascii_between 128 128 b
      && (ascii_between 128 138 c || ascii_between 168 169 c || ascii_between 175 175 c))
  || (ascii_between 226 226 a && ascii_between 129 129 b && ascii_between 159 159 c)
  || (ascii_between 227 227 a && ascii_between 128 128 b && ascii_between 128 128 c).

(** [str::trim]: what is left of a text without its leading white space, then up to
    its last other character. *)
Fixpoint trim_start (s : string) : string :=
  match s with
  | String a s1 =>
      if is_space a then trim_start s1 else
      match s1 with
      | String b s2 =>
          if is_space2 a b then trim_start s2 else
          match s2 with
          | String c s3 => if is_space3 a b c then trim_start s3 else s
          | EmptyString => s
          end
      | EmptyString => s
      end
  | EmptyString => s
  end.
Fixpoint trim_end (s : string) : string :=
  match s with
  | String a s' => if String.eqb (trim_start s) "" then EmptyString else String a (trim_end s')
  | EmptyString => s
  end.
Definition str_trim (s : string) : string := trim_end (trim_start s).

(** [headers.get(k).and_then(|h| h.to_str().ok())]. *)
Definition header_text (headers : gmap string (option string)) (k : string) : option string := mjoin (headers !! k).

(** ** What the program links against *)

Class Platform := {
  (** [str::to_lowercase] and [str::to_uppercase], with the Unicode tables. *)
  to_lowercase : string → string;
  to_uppercase : string → string;
  (** [f64::to_string], the shortest decimal that reads back. *)
  f64_to_string : f64 → string;
  (** [Uuid::to_string] (the uuid crate). *)
  uuid_to_string : Uuid → string;
  (** [hex::encode] (the hex crate) of a byte string. *)
  hex_encode : string → string;
  (** [BASE64_STD.encode] (the base64 crate). *)
  base64_encode : string → string;
  (** chrono: [DateTime::format("%Y%m%d%H%M%S")] and [DateTime::to_rfc3339]. *)
  format_compact : DateTime → string;
  to_rfc3339 : DateTime → string;
  (** chrono's [Serialize] of a [DateTime<Utc>] and of a [NaiveDate]. *)
  serialize_datetime : DateTime → string;
  serialize_date : Z → string
}.

(** What identifiers rely on: base64 and hexadecimal texts determine the bytes,
    and upper-cased hexadecimal text is made of digits and capital letters. *)
Class IdentifierLaws (P : Platform) : Prop := {
  base64_encode_inj :: Inj (=) (=) base64_encode;
  hex_upper_inj :: Inj (=) (=) (λ b, to_uppercase (hex_encode b));
  hex_upper_digits b :
    str_forallb (λ a, ascii_between 48 57 a || ascii_between 65 70 a) (to_uppercase (hex_encode b)) = true
}.

(** ** A concrete platform *)

Definition hex_digit (n : N) : ascii :=
  if (n <? 10)%N then ascii_of_N (48 + n) else ascii_of_N (87 + n).

(** The [digits] low hexadecimal digits of [n], most significant first. *)
Fixpoint hex_digits (digits : nat) (n : N) (acc : string) : string :=
  match digits with
  | O => acc
  | S d => hex_digits d (n / 16)%N (String (hex_digit (n mod 16)) acc)
  end.

Definition reference_uuid_to_string (u : Uuid) : string :=
  let h := hex_digits 32 u "" in
  String.substring 0 8 h +:+ "-" +:+ String.substring 8 4 h +:+ "-" +:+
  String.substring 12 4 h +:+ "-" +:+ String.substring 16 4 h +:+ "-" +:+
  String.substring 20 12 h.

Fixpoint reference_hex_encode (s : string) : string :=
  match s with
  | EmptyString => EmptyString
  | String a s' => hex_digits 2 (N_of_ascii a) (reference_hex_encode s')
  end.

Definition base64_char (n : N) : ascii :=
  if (n <? 26)%N then ascii_of_N (65 + n)
  else if (n <? 52)%N then ascii_of_N (71 + n)
  else if (n <? 62)%N then ascii_of_N (n - 4)
  else if (n =? 62)%N then "+"%char else "/"%char.

Fixpoint reference_base64_encode (s : string) : string :=
  match s with
  | EmptyString => EmptyString
  | String a EmptyString =>
      let n := (N_of_ascii a * 65536)%N in
      String (base64_char (n / 262144)) (String (base64_char (n / 4096 mod 64)) "==")
  | String a (String b EmptyString) =>
      let n := (N_of_ascii a * 65536 + N_of_ascii b * 256)%N in
      String (base64_char (n / 262144)) (String (base64_char (n / 4096 mod 64))
        (String (base64_char (n / 64 mod 64)) "="))
  | String a (String b (String c s')) =>
      let n := (N_of_ascii a * 65536 + N_of_ascii b * 256 + N_of_ascii c)%N in
      String (base64_char (n / 262144)) (String (base64_char (n / 4096 mod 64))
        (String (base64_char (n / 64 mod 64)) (String (base64_char (n mod 64))
          (reference_base64_encode s'))))
  end.

(** Decimal text of the values that are whole numbers; other values are not
    printed by the witnesses. *)
Definition reference_f64_to_string (x : f64) : string :=
  match x with
  | S754_finite s m e =>
      let n := Z.shiftl (Zpos m) e in
      pretty (if s then (- n)%Z else n)
  | S754_zero s => if s then "-0" else "0"
  | S754_infinity s => if s then "-inf" else "inf"
  | S754_nan => "NaN"
  end.

Definition reference_platform : Platform := {|
  to_lowercase := str_map ascii_lower;
  to_uppercase := str_map ascii_upper;
  f64_to_string := reference_f64_to_string;
  uuid_to_string := reference_uuid_to_string;
  hex_encode := reference_hex_encode;
  base64_encode := reference_base64_encode;
  format_compact := λ t, pretty (t / 1000000)%Z;
  to_rfc3339 := λ t, pretty t;
  serialize_datetime := λ t, pretty t;
  serialize_date := λ t, pretty t
|}.

(** ** Lemmas *)

Lemma string_app_cons a (s t : string) : String a s +:+ t = String a (s +:+ t).
Proof. reflexivity. Qed.

Lemma starts_with_app p s : starts_with p (p +:+ s) = true.
Proof.
  unfold starts_with. induction p as [|a p IH]; [by destruct s|].
  rewrite string_app_cons. simpl.
  destruct (ascii_dec a a) as [?|Hn]; [apply IH|by destruct Hn].
Qed.

Lemma strip_prefix_Some p s t : strip_prefix p s = Some t ↔ s = p +:+ t.
Proof.
  revert s. induction p as [|a p IH]; intros s; simpl.
  { split; [by intros [= ->]|by intros ->]. }
  rewrite string_app_cons. destruct s as [|b s]; [done|]. case_decide as Hab.
  - subst. rewrite IH. split; [by intros ->|by intros [= ->]].
  - split; [done|]. intros [= ->]. congruence.
Qed.

Lemma str_contains_app_l p s t : str_contains p t = true → str_contains p (s +:+ t) = true.
Proof.
  intros H. induction s as [|a s IH]; [done|].
  rewrite string_app_cons.
  cbn [str_contains]. by rewrite IH, orb_true_r.
Qed.

Lemma str_contains_prefix p s : str_contains p (p +:+ s) = true.
Proof.
  pose proof (starts_with_app p s) as H. unfold starts_with in H.
  by destruct (p +:+ s); cbn [str_contains]; rewrite H.
Qed.

Lemma string_app_assoc (a b c : string) : (a +:+ b) +:+ c = a +:+ (b +:+ c).
Proof. induction a as [|x a IH]; [done|]. by rewrite !string_app_cons, IH. Qed.

Lemma string_app_inj_r (a b c : string) : a +:+ b = a +:+ c → b = c.
Proof. induction a as [|x a IH]; [done|]. rewrite !string_app_cons. intros [= H]. auto. Qed.

Example reference_uuid_example :
  reference_uuid_to_string 0x123e4567e89b12d3a456426614174000%N =
  "123e4567-e89b-12d3-a456-426614174000".
Proof. reflexivity. Qed.
Example reference_base64_example : reference_base64_encode "lead|1" = "bGVhZHwx".
Proof. reflexivity. Qed.

(** ** The concrete platform satisfies the laws *)

Definition base64_indices : list N := N.of_nat <$> seq 0 64.

Lemma elem_of_base64_indices n : (n < 64)%N → n ∈ base64_indices.
Proof.
  intros Hn. unfold base64_indices. apply list_elem_of_fmap. exists (N.to_nat n).
  split; [lia|]. apply elem_of_seq. lia.
Qed.

Lemma base64_char_inj n m : (n < 64)%N → (m < 64)%N → base64_char n = base64_char m → n = m.
Proof.
  intros Hn Hm.
  assert (H : Forall (λ n, Forall (λ m, base64_char n = base64_char m → n = m) base64_indices) base64_indices).
  { refine (bool_decide_unpack _ _). vm_compute. exact I. }
  rewrite Forall_forall in H. specialize (H n (elem_of_base64_indices n Hn)).
  rewrite Forall_forall in H. exact (H m (elem_of_base64_indices m Hm)).
Qed.

Lemma base64_char_not_pad n : (n < 64)%N → base64_char n ≠ "="%char.
Proof.
  intros Hn.
  assert (H : Forall (λ n, base64_char n ≠ "="%char) base64_indices).
  { refine (bool_decide_unpack _ _). vm_compute. exact I. }
  rewrite Forall_forall in H. exact (H n (elem_of_base64_indices n Hn)).
Qed.

Lemma N_of_ascii_inj a b : N_of_ascii a = N_of_ascii b → a = b.
Proof. intros H. by rewrite <-(ascii_N_embedding a), <-(ascii_N_embedding b), H. Qed.


(** The base64 digits of a 24-bit group determine it. *)
Lemma base64_group_inj n n' :
  (n < 16777216 → n' < 16777216 →
  base64_char (n / 262144) = base64_char (n' / 262144) →
  base64_char (n / 4096 mod 64) = base64_char (n' / 4096 mod 64) →
  base64_char (n / 64 mod 64) = base64_char (n' / 64 mod 64) →
  base64_char (n mod 64) = base64_char (n' mod 64) →
  n = n')%N.
Proof.
  intros Hn Hn' H1 H2 H3 H4.
  assert (Hdiv : (∀ x, x < 16777216 → x / 262144 < 64)%N) by (intros; apply N.Div0.div_lt_upper_bound; lia).
  apply base64_char_inj in H1; [|by apply Hdiv..].
  apply base64_char_inj in H2, H3, H4; try (apply N.mod_lt; lia).
  clear -H1 H2 H3 H4. revert H1 H2 H3 H4. zify. Z.to_euclidean_division_equations. lia.
Qed.

Lemma base64_pad n : base64_char (n mod 64) ≠ "="%char.
Proof. apply base64_char_not_pad, N.mod_lt. lia. Qed.

Lemma reference_base64_encode_inj : Inj (=) (=) reference_base64_encode.
Proof.
  intros s. induction s as [s IH] using (induction_ltof1 _ String.length). unfold ltof in IH.
  intros t. pose proof N_ascii_bounded as Hb.
  assert (Hz : ∀ x, (x * 65536 / 64 mod 64 = 0 ∧ x * 65536 mod 64 = 0)%N).
  { intros x. zify. Z.to_euclidean_division_equations. lia. }
  assert (Hz' : ∀ x y, ((x * 65536 + y * 256) mod 64 = 0)%N).
  { intros x y. zify. Z.to_euclidean_division_equations. lia. }
  destruct s as [|a [|b [|c s]]], t as [|a' [|b' [|c' t]]]; cbn [reference_base64_encode]; intros Heq; try done.
  all: repeat match goal with
    | x : ascii |- _ =>
        lazymatch goal with _ : (N_of_ascii x < 256)%N |- _ => fail | _ => pose proof (Hb x) end
    end.
  all: injection Heq; clear Heq; intros; try (exfalso; eapply base64_pad; by eauto).
  - assert (Heq : (N_of_ascii a * 65536 = N_of_ascii a' * 65536)%N).
    { apply base64_group_inj; auto; try lia; by rewrite ?(proj1 (Hz _)), ?(proj2 (Hz _)). }
    f_equal. apply N_of_ascii_inj. lia.
  - assert (Heq : (N_of_ascii a * 65536 + N_of_ascii b * 256 = N_of_ascii a' * 65536 + N_of_ascii b' * 256)%N).
    { apply base64_group_inj; auto; try lia. by rewrite !Hz'. }
    f_equal; [|f_equal]; apply N_of_ascii_inj; lia.
  - assert (Heq : (N_of_ascii a * 65536 + N_of_ascii b * 256 + N_of_ascii c =
      N_of_ascii a' * 65536 + N_of_ascii b' * 256 + N_of_ascii c')%N).
    { apply base64_group_inj; auto; lia. }
    rewrite (N_of_ascii_inj a a'), (N_of_ascii_inj b b'), (N_of_ascii_inj c c') by lia.
    do 3 f_equal. apply IH; [simpl; lia|done].
Qed.

(** Hexadecimal text: two digits per byte. *)
Definition nibbles : list N := N.of_nat <$> seq 0 16.

Lemma mod16_nibble n : (n mod 16)%N ∈ nibbles.
Proof.
  assert (H : (n mod 16 < 16)%N) by (by apply N.mod_lt).
  revert H. generalize (n mod 16)%N. intros m Hm. unfold nibbles. apply list_elem_of_fmap.
  exists (N.to_nat m). split; [lia|]. apply elem_of_seq. lia.
Qed.

Lemma hex_upper_digit_inj n m :
  n ∈ nibbles → m ∈ nibbles → ascii_upper (hex_digit n) = ascii_upper (hex_digit m) → n = m.
Proof.
  assert (H : Forall (λ n, Forall (λ m, ascii_upper (hex_digit n) = ascii_upper (hex_digit m) → n = m) nibbles) nibbles).
  { refine (bool_decide_unpack _ _). vm_compute. exact I. }
  rewrite Forall_forall in H. intros Hn Hm. specialize (H n Hn). rewrite Forall_forall in H. by apply H.
Qed.

Lemma hex_upper_digit n :
  n ∈ nibbles → (λ a, ascii_between 48 57 a || ascii_between 65 70 a) (ascii_upper (hex_digit n)) = true.
Proof. revert n. rewrite <-Forall_forall. refine (bool_decide_unpack _ _). vm_compute. exact I. Qed.

Lemma reference_hex_upper_inj : Inj (=) (=) (λ b, str_map ascii_upper (reference_hex_encode b)).
Proof.
  intros s. induction s as [|a s IH]; intros [|b t]; try done.
  cbn [reference_hex_encode hex_digits str_map]. intros Heq. injection Heq as H1 H2 H3.
  f_equal; [|by apply IH]. apply N_of_ascii_inj.
  apply hex_upper_digit_inj in H1, H2; try apply mod16_nibble.
  pose proof (N_ascii_bounded a). pose proof (N_ascii_bounded b).
  revert H1 H2. zify. Z.to_euclidean_division_equations. lia.
Qed.

#[export] Instance reference_identifier_laws : IdentifierLaws reference_platform.
Proof.
  split; simpl.
  - apply reference_base64_encode_inj.
  - apply reference_hex_upper_inj.
  - intros b. induction b as [|a b IH]; [done|].
    cbn [reference_hex_encode hex_digits str_map str_forallb]. by rewrite !hex_upper_digit, IH by apply mod16_nibble.
Qed.

(** ** Texts joined with separators *)

Definition no_char (c : ascii) (s : string) : bool := str_forallb (λ a, negb (Ascii.eqb a c)) s.

Lemma str_forallb_impl (p q : ascii → bool) s :
  (∀ a, p a = true → q a = true) → str_forallb p s = true → str_forallb q s = true.
Proof.
  intros Hpq. induction s as [|a s IH]; simpl; [done|].
  intros [Ha Hs]%andb_true_iff. by rewrite (Hpq a Ha), IH.
Qed.

(** The text before the first separator is determined. *)
Lemma split_at_char c s s' t t' :
  no_char c s = true → no_char c s' = true →
  s +:+ String c t = s' +:+ String c t' → s = s' ∧ t = t'.
Proof.
  unfold no_char. revert s'. induction s as [|a s IH]; intros [|b s']; simpl; rewrite ?string_app_cons.
  - by intros _ _ [= ->].
  - intros _ [Hb _]%andb_true_iff [= -> _]. by rewrite Ascii.eqb_refl in Hb.
  - intros [Hb _]%andb_true_iff _ [= -> _]. by rewrite Ascii.eqb_refl in Hb.
  - intros [_ Hs]%andb_true_iff [_ Hs']%andb_true_iff [= -> H].
    by destruct (IH s' Hs Hs' H) as [-> ->].
Qed.

Lemma string_length_app (s t : string) : String.length (s +:+ t) = (String.length s + String.length t)%nat.
Proof. induction s as [|a s IH]; [done|]. rewrite string_app_cons. simpl. by rewrite IH. Qed.

Lemma suffix_inj (s t u v : string) :
  String.length u = String.length v → s +:+ u = t +:+ v → u = v.
Proof.
  intros Hl Heq. revert t Heq. induction s as [|a s IH]; intros [|b t] Heq; [done| | |].
  - rewrite string_app_cons in Heq. apply (f_equal String.length) in Heq.
    change (String.length u = S (String.length (t +:+ v))) in Heq. rewrite string_length_app in Heq. lia.
  - rewrite string_app_cons in Heq. apply (f_equal String.length) in Heq.
    change (S (String.length (s +:+ u)) = String.length v) in Heq. rewrite string_length_app in Heq. lia.
  - rewrite !string_app_cons in Heq. injection Heq as _ Heq. eauto.
Qed.

(** Decimal text has digits only, and a sign. *)
Lemma pretty_N_go_forallb (p : ascii → bool) x s :
  (∀ n, p (pretty_N_char n) = true) → str_forallb p s = true → str_forallb p (pretty_N_go x s) = true.
Proof.
  intros Hp. revert s. induction (N.lt_wf_0 x) as [x _ IH]. intros s Hs.
  assert (x = 0 ∨ 0 < x)%N as [->|Hx] by lia; [by rewrite pretty_N_go_0|].
  rewrite pretty_N_go_step by done. apply IH.
  - apply N.div_lt; lia.
  - simpl. by rewrite Hp, Hs.
Qed.

Lemma pretty_Z_no_bar (z : Z) : no_char "|" (pretty z) = true.
Proof.
  assert (H : ∀ n, no_char "|" (pretty_N_go n "") = true).
  { intros n. apply pretty_N_go_forallb; [|done]. intros d. unfold pretty_N_char.
    by repeat case_match. }
  assert (Hn : ∀ n : N, no_char "|" (pretty n) = true).
  { intros n. unfold pretty, pretty_N. case_decide; [done|apply H]. }
  destruct z; unfold pretty, pretty_Z; [done|apply Hn|].
  unfold no_char. rewrite string_app_cons. simpl. apply Hn.
Qed.
