(* ===== verification/Json.v ===== *)
(** * JSON values

    [serde_json::Value] with the default map (a [BTreeMap]: keys sorted by their
    bytes, one entry per key), the accessors the sources use on it, and the
    [str::parse::<f64>] that reads numbers sent as strings. *)

From stdpp Require Import base list strings gmap.
From Stdlib Require Import Ascii String ZArith Lia Sorted.
From S2P Require Import Prelude Float64 Platform.

Open Scope string_scope.
Open Scope list_scope.

(** ** Values *)

(** [serde_json::Number]. *)
Inductive number : Type :=
  | PosInt (n : Z)
  | NegInt (z : Z)
  | Float (x : f64).

Inductive json : Type :=
  | JNull
  | JBool (b : bool)
  | JNumber (n : number)
  | JString (s : string)
  | JArray (l : list json)
  | JObject (o : list (string * json)).

(** [serde_json::Map<String, Value>]. *)
Abbreviation jmap := (list (string * json)).

(** ** Maps *)

Fixpoint map_get (k : string) (o : jmap) : option json :=
  match o with
  | [] => None
  | (k', v) :: o' => if decide (k = k') then Some v else map_get k o'
  end.

(** [Map::insert]: the value of a present key is replaced, a new key goes to its
    place in the key order. *)
Fixpoint map_insert (k : string) (v : json) (o : jmap) : jmap :=
  match o with
  | [] => [(k, v)]
  | (k', v') :: o' =>
      match String.compare k k' with
      | Lt => (k, v) :: (k', v') :: o'
      | Eq => (k, v) :: o'
      | Gt => (k', v') :: map_insert k v o'
      end
  end.

(** [Map::remove]. *)
Definition map_remove (k : string) (o : jmap) : jmap :=
  List.filter (λ kv, negb (String.eqb k kv.1)) o.

Definition map_keys (o : jmap) : list string := o.*1.

Definition key_lt (x y : string) : Prop := String.compare x y = Lt.

(** The representation invariant: keys in strictly increasing order. *)
Definition map_wf (o : jmap) : Prop := StronglySorted key_lt (map_keys o).

(** A map built by insertions, as [json!({...})] does. *)
Definition map_of (l : list (string * json)) : jmap :=
  foldl (λ o kv, map_insert kv.1 kv.2 o) [] l.
Definition json_object (l : list (string * json)) : json := JObject (map_of l).

(** A sequence of [if let Some(v) = e { map.insert(k, v); }]. *)
Definition insert_present (entries : list (string * option json)) (o : jmap) : jmap :=
  foldl (λ o kv, match kv.2 with Some v => map_insert kv.1 v o | None => o end) o entries.

(** ** Accessors of [Value] *)

(** [Value::get] with a string index. *)
Definition jget (k : string) (v : json) : option json :=
  match v with JObject o => map_get k o | _ => None end.
Definition as_object (v : json) : option jmap :=
  match v with JObject o => Some o | _ => None end.
Definition as_array (v : json) : option (list json) :=
  match v with JArray l => Some l | _ => None end.
Definition as_str (v : json) : option string :=
  match v with JString s => Some s | _ => None end.
Definition as_bool (v : json) : option bool :=
  match v with JBool b => Some b | _ => None end.
Definition number_as_f64 (n : number) : f64 :=
  match n with PosInt z | NegInt z => f64_of_Z z | Float x => x end.
Definition as_f64 (v : json) : option f64 :=
  match v with JNumber n => Some (number_as_f64 n) | _ => None end.
(** [None] for what is not within [i64]. *)
Definition as_i64 (v : json) : option Z :=
  match v with
  | JNumber (PosInt z) => if (z <? 2 ^ 63)%Z then Some z else None
  | JNumber (NegInt z) => Some z
  | _ => None
  end.
Definition is_string (v : json) : bool := match v with JString _ => true | _ => false end.
Definition is_boolean (v : json) : bool := match v with JBool _ => true | _ => false end.
Definition is_number (v : json) : bool := match v with JNumber _ => true | _ => false end.

(** ** [json!(x)] for the Rust types the sources convert *)

(** A NaN or an infinity becomes [null]. *)
Definition json_of_f64 (x : f64) : json :=
  if f64_is_finite x then JNumber (Float x) else JNull.
Definition json_of_i32 (z : Z) : json := JNumber (if (z <? 0)%Z then NegInt z else PosInt z).
Definition json_of_u64 (n : Z) : json := JNumber (PosInt n).
Definition json_of_option {A} (f : A → json) (o : option A) : json :=
  match o with Some a => f a | None => JNull end.
Definition json_of_opt_str : option string → json := json_of_option JString.

(** ** [str::parse::<f64>] *)

Definition digit_value (a : ascii) : option Z :=
  if ascii_between 48 57 a then Some (Z.of_nat (nat_of_ascii a) - 48)%Z else None.

(** Reads decimal digits: the value so far, how many, and the rest. *)
Fixpoint read_digits (acc : Z) (n : nat) (s : string) : Z * nat * string :=
  match s with
  | EmptyString => (acc, n, s)
  | String a s' =>
      match digit_value a with
      | Some d => read_digits (10 * acc + d)%Z (S n) s'
      | None => (acc, n, s)
      end
  end.

Definition read_sign (s : string) : bool * string :=
  match s with
  | String "-" s' => (true, s')
  | String "+" s' => (false, s')
  | _ => (false, s)
  end.

(** The exponent part, which must end the text. *)
Definition read_exponent (s : string) : option Z :=
  match s with
  | EmptyString => Some 0%Z
  | String "e" s' | String "E" s' =>
      let '(neg, s'') := read_sign s' in
      match read_digits 0 0 s'' with
      | (_, O, _) => None
      | (z, _, EmptyString) => Some (if neg then (- z)%Z else z)
      | _ => None
      end
  | _ => None
  end.

Definition parse_number (s : string) : option f64 :=
  let '(int, n_int, s1) := read_digits 0 0 s in
  let '(all, n_frac, s2) :=
    match s1 with
    | String "." s1' => read_digits int 0 s1'
    | _ => (int, O, s1)
    end in
  if (n_int + n_frac =? 0)%nat then None
  else e ← read_exponent s2; Some (f64_of_decimal all (e - Z.of_nat n_frac)).

Definition parse_f64 (s : string) : option f64 :=
  let '(neg, s') := read_sign s in
  let magnitude :=
    let l := str_map ascii_lower s' in
    if String.eqb l "inf" || String.eqb l "infinity" then Some (S754_infinity false)
    else if String.eqb l "nan" then Some S754_nan
    else parse_number s' in
  if neg then SFopp <$> magnitude else magnitude.

(** ** Lemmas on maps *)

Lemma string_compare_refl s : String.compare s s = Eq.
Proof.
  pose proof (String.compare_antisym s s) as H. by destruct (String.compare s s).
Qed.

Lemma string_compare_eq s t : String.compare s t = Eq → s = t.
Proof. apply String.compare_eq_iff. Qed.

Lemma ascii_compare_lt_trans a b c :
  Ascii.compare a b = Lt → Ascii.compare b c = Lt → Ascii.compare a c = Lt.
Proof. unfold Ascii.compare. rewrite !N.compare_lt_iff. lia. Qed.

Lemma key_lt_trans : Transitive key_lt.
Proof.
  unfold key_lt. intros s. induction s as [|a s IH]; intros [|b t] [|c u]; simpl; try done.
  destruct (Ascii.compare a b) eqn:Hab; try done;
    destruct (Ascii.compare b c) eqn:Hbc; try done; intros H1 H2.
  - apply Ascii.compare_eq_iff in Hab as ->. rewrite Hbc. eauto.
  - apply Ascii.compare_eq_iff in Hab as ->. by rewrite Hbc.
  - apply Ascii.compare_eq_iff in Hbc as ->. by rewrite Hab.
  - by rewrite (ascii_compare_lt_trans _ _ _ Hab Hbc).
Qed.

Lemma string_compare_gt s t : String.compare s t = Gt → key_lt t s.
Proof. unfold key_lt. rewrite String.compare_antisym. by destruct (String.compare t s). Qed.

Lemma map_get_insert_eq k v o : map_get k (map_insert k v o) = Some v.
Proof.
  induction o as [|[k' v'] o IH]; simpl; [by rewrite decide_True|].
  destruct (String.compare k k') eqn:Hc; simpl; try by rewrite decide_True.
  rewrite decide_False; [done|]. intros ->. by rewrite string_compare_refl in Hc.
Qed.

Lemma map_get_insert_ne k k' v o : k ≠ k' → map_get k (map_insert k' v o) = map_get k o.
Proof.
  intros Hne. induction o as [|[k'' v'] o IH]; simpl; [by rewrite decide_False|].
  destruct (String.compare k' k'') eqn:Hc; simpl.
  - apply string_compare_eq in Hc as <-. by rewrite !decide_False.
  - by rewrite decide_False.
  - by rewrite IH.
Qed.

Lemma map_get_remove_eq k o : map_get k (map_remove k o) = None.
Proof.
  induction o as [|[k' v'] o IH]; simpl; [done|].
  destruct (String.eqb_spec k k'); simpl; [done|]. by rewrite decide_False.
Qed.

Lemma map_get_remove_ne k k' o : k ≠ k' → map_get k (map_remove k' o) = map_get k o.
Proof.
  intros Hne. induction o as [|[k'' v'] o IH]; simpl; [done|].
  destruct (String.eqb_spec k' k''); simpl.
  - subst. by rewrite IH, decide_False.
  - by rewrite IH.
Qed.

Lemma map_insert_keys k v o x : x ∈ map_keys (map_insert k v o) ↔ x = k ∨ x ∈ map_keys o.
Proof.
  unfold map_keys. induction o as [|[k' v'] o IH]; simpl.
  { rewrite list_elem_of_singleton. set_solver. }
  destruct (String.compare k k') eqn:Hc; csimpl; rewrite ?elem_of_cons.
  - apply string_compare_eq in Hc as ->. set_solver.
  - set_solver.
  - rewrite IH. set_solver.
Qed.

Lemma map_insert_wf k v o : map_wf o → map_wf (map_insert k v o).
Proof.
  unfold map_wf. induction o as [|[k' v'] o IH]; [repeat constructor|].
  intros Hs. pose proof Hs as Hs0. apply StronglySorted_inv in Hs as [Hs Hall]. simpl.
  destruct (String.compare k k') eqn:Hc.
  - apply string_compare_eq in Hc as <-. by constructor.
  - constructor; [done|]. constructor; [done|].
    eapply Forall_impl; [exact Hall|]. intros x. by apply key_lt_trans.
  - constructor; [by apply IH|]. apply Forall_forall. intros x Hx.
    apply map_insert_keys in Hx as [->|Hx]; [by apply string_compare_gt|].
    rewrite Forall_forall in Hall. by apply Hall.
Qed.

Lemma map_of_wf l : map_wf (map_of l).
Proof.
  unfold map_of. assert (H : map_wf []) by constructor. revert H. generalize (@nil (string * json)).
  induction l as [|[k v] l IH]; simpl; [done|]. intros o Ho. by apply IH, map_insert_wf.
Qed.

Lemma insert_present_notin entries o k :
  k ∉ entries.*1 → map_get k (insert_present entries o) = map_get k o.
Proof.
  unfold insert_present. revert o. induction entries as [|[k' [v|]] es IH]; intros o; csimpl; [done| |];
    rewrite not_elem_of_cons; intros [Hne Hn]; rewrite IH by done; [|done].
  by apply map_get_insert_ne.
Qed.

Lemma insert_present_in entries o k v :
  NoDup entries.*1 → (k, v) ∈ entries →
  map_get k (insert_present entries o) = match v with Some j => Some j | None => map_get k o end.
Proof.
  revert o. induction entries as [|[k' v'] es IH]; intros o; csimpl; [by intros _ ?%elem_of_nil|].
  intros [Hn Hnd]%NoDup_cons [[= <- <-]|Hin]%elem_of_cons.
  - unfold insert_present. simpl. fold (insert_present es).
    change (foldl _ ?x es) with (insert_present es x). rewrite insert_present_notin by done.
    destruct v; [apply map_get_insert_eq|done].
  - change (insert_present ((k', v') :: es) o)
      with (insert_present es (match v' with Some v => map_insert k' v o | None => o end)).
    rewrite IH by done. destruct v; [done|]. destruct v'; [|done].
    apply map_get_insert_ne. intros ->. apply Hn. apply list_elem_of_fmap. by exists (k', None).
Qed.

#[export] Hint Resolve map_insert_wf map_of_wf : nebula.
#[export] Hint Rewrite map_get_insert_eq map_get_remove_eq : nebula_rw.

Example parse_f64_100_005 : parse_f64 "100.005" = Some (f64_of_decimal 100005 (-3)).
Proof. reflexivity. Qed.
Example parse_f64_inf : parse_f64 "-Infinity" = Some (S754_infinity true).
Proof. reflexivity. Qed.
Example parse_f64_exp : parse_f64 "+2.5e1" = Some (f64_of_Z 25).
Proof. reflexivity. Qed.
Example parse_f64_bad : parse_f64 "." = None ∧ parse_f64 "" = None ∧ parse_f64 "1 " = None.
Proof. done. Qed.
