(* ===== verification/Models.v ===== *)
(** * Data model and read queries

    The enums and row types of [crates/core/src/models], the tables of the
    database as lists of rows, and the [SELECT]s of the model files as functions
    on those tables.  Where an [ORDER BY] leaves ties, the rows keep the order of
    the table. *)

From stdpp Require Import base list strings gmap numbers.
From Stdlib Require Import ZArith QArith_base Lia Sorted.
From S2P Require Import Prelude Float64 Platform Json.

Open Scope string_scope.
Open Scope list_scope.

(** A [rust_decimal::Decimal], by its exact value. *)
Abbreviation Decimal := Q.

(** ** Enums *)

Inductive LeadStatus : Type :=
  | LeadProcessing
  | LeadPingAccepted
  | LeadSold
  | LeadRejected
  | LeadTimeout
  | LeadInvalid
  | LeadError
  | LeadTest.

Definition LeadStatus_as_str (s : LeadStatus) : string :=
  match s with
  | LeadProcessing => "processing"
  | LeadPingAccepted => "ping_accepted"
  | LeadSold => "sold"
  | LeadRejected => "rejected"
  | LeadTimeout => "timeout"
  | LeadInvalid => "invalid"
  | LeadError => "error"
  | LeadTest => "test"
  end.

Inductive BuyerStatus : Type :=
  | BuyerActive
  | BuyerIncomplete
  | BuyerInactive
  | BuyerSuspended.

Definition BuyerStatus_as_str (s : BuyerStatus) : string :=
  match s with
  | BuyerActive => "active"
  | BuyerIncomplete => "incomplete"
  | BuyerInactive => "inactive"
  | BuyerSuspended => "suspended"
  end.

Inductive CampaignStatus : Type :=
  | CampaignActive
  | CampaignPaused
  | CampaignInactive.

Definition CampaignStatus_as_str (s : CampaignStatus) : string :=
  match s with
  | CampaignActive => "active"
  | CampaignPaused => "paused"
  | CampaignInactive => "inactive"
  end.

Inductive PublisherStatus : Type :=
  | PublisherActive
  | PublisherInactive
  | PublisherSuspended.

Definition PublisherStatus_as_str (s : PublisherStatus) : string :=
  match s with
  | PublisherActive => "active"
  | PublisherInactive => "inactive"
  | PublisherSuspended => "suspended"
  end.

#[export] Instance LeadStatus_eq_dec : EqDecision LeadStatus.
Proof. solve_decision. Defined.
#[export] Instance BuyerStatus_eq_dec : EqDecision BuyerStatus.
Proof. solve_decision. Defined.
#[export] Instance CampaignStatus_eq_dec : EqDecision CampaignStatus.
Proof. solve_decision. Defined.
#[export] Instance PublisherStatus_eq_dec : EqDecision PublisherStatus.
Proof. solve_decision. Defined.

(** ** Rows *)

Record Lead : Type := {
  lead_uuid : Uuid;
  lead_event_id : string;
  lead_lead_id : option string;
  lead_publisher_id : option Uuid;
  lead_vertical_id : Uuid;
  lead_campaign_id : option Uuid;
  lead_buyer_id : option Uuid;
  lead_request_type : string;
  lead_strategy : string;
  lead_status : LeadStatus;
  lead_promise_id : option string;
  lead_ping_id : option string;
  lead_post_id : option string;
  lead_session_id : option string;
  lead_request_stage : option string;
  lead_first_name_encrypted : option string;
  lead_last_name_encrypted : option string;
  lead_email_encrypted : option string;
  lead_cell_phone_encrypted : option string;
  lead_street_address_encrypted : option string;
  lead_city_encrypted : option string;
  lead_state_encrypted : option string;
  lead_zip_encrypted : option string;
  lead_ip_address_encrypted : option string;
  lead_email_sha256 : option string;
  lead_phone_sha256 : option string;
  lead_ip_address_hash : option string;
  lead_email_domain : option string;
  lead_tcpa_consent : bool;
  lead_tcpa_language : string;
  lead_is_test : bool;
  lead_user_agent : option string;
  lead_referrer : option string;
  lead_website_url : option string;
  lead_click_id : option string;
  lead_url_consent : option string;
  lead_best_call_time : option string;
  lead_date_of_birth : option Z;
  lead_home_phone : option string;
  lead_jornaya_lead_id : option string;
  lead_trusted_form_url : option string;
  lead_fbp_cookie : option string;
  lead_fbc_cookie : option string;
  lead_utm_params : option json;
  lead_submitted_at : option DateTime;
  lead_sold_at : option DateTime;
  lead_retry_count : Z;
  lead_next_retry_at : option DateTime;
  lead_vertical_data : json;
  lead_created_at : DateTime;
  lead_updated_at : DateTime
}.

(** The columns the routing path writes, the others as they were. *)
Definition lead_with (l : Lead) (status : LeadStatus) (campaign_id buyer_id : option Uuid)
    (promise_id ping_id post_id : option string) (sold_at : option DateTime)
    (vertical_data : json) (updated_at : DateTime) : Lead := {|
  lead_uuid := lead_uuid l;
  lead_event_id := lead_event_id l;
  lead_lead_id := lead_lead_id l;
  lead_publisher_id := lead_publisher_id l;
  lead_vertical_id := lead_vertical_id l;
  lead_campaign_id := campaign_id;
  lead_buyer_id := buyer_id;
  lead_request_type := lead_request_type l;
  lead_strategy := lead_strategy l;
  lead_status := status;
  lead_promise_id := promise_id;
  lead_ping_id := ping_id;
  lead_post_id := post_id;
  lead_session_id := lead_session_id l;
  lead_request_stage := lead_request_stage l;
  lead_first_name_encrypted := lead_first_name_encrypted l;
  lead_last_name_encrypted := lead_last_name_encrypted l;
  lead_email_encrypted := lead_email_encrypted l;
  lead_cell_phone_encrypted := lead_cell_phone_encrypted l;
  lead_street_address_encrypted := lead_street_address_encrypted l;
  lead_city_encrypted := lead_city_encrypted l;
  lead_state_encrypted := lead_state_encrypted l;
  lead_zip_encrypted := lead_zip_encrypted l;
  lead_ip_address_encrypted := lead_ip_address_encrypted l;
  lead_email_sha256 := lead_email_sha256 l;
  lead_phone_sha256 := lead_phone_sha256 l;
  lead_ip_address_hash := lead_ip_address_hash l;
  lead_email_domain := lead_email_domain l;
  lead_tcpa_consent := lead_tcpa_consent l;
  lead_tcpa_language := lead_tcpa_language l;
  lead_is_test := lead_is_test l;
  lead_user_agent := lead_user_agent l;
  lead_referrer := lead_referrer l;
  lead_website_url := lead_website_url l;
  lead_click_id := lead_click_id l;
  lead_url_consent := lead_url_consent l;
  lead_best_call_time := lead_best_call_time l;
  lead_date_of_birth := lead_date_of_birth l;
  lead_home_phone := lead_home_phone l;
  lead_jornaya_lead_id := lead_jornaya_lead_id l;
  lead_trusted_form_url := lead_trusted_form_url l;
  lead_fbp_cookie := lead_fbp_cookie l;
  lead_fbc_cookie := lead_fbc_cookie l;
  lead_utm_params := lead_utm_params l;
  lead_submitted_at := lead_submitted_at l;
  lead_sold_at := sold_at;
  lead_retry_count := lead_retry_count l;
  lead_next_retry_at := lead_next_retry_at l;
  lead_vertical_data := vertical_data;
  lead_created_at := lead_created_at l;
  lead_updated_at := updated_at
|}.

Record Campaign : Type := {
  campaign_id : Uuid;
  campaign_buyer_id : Uuid;
  campaign_publisher_id : Uuid;
  campaign_instance_id : Uuid;
  campaign_name : option string;
  campaign_vertical : string;
  campaign_campaign_token : string;
  campaign_status : CampaignStatus;
  campaign_is_documentation_test : bool;
  campaign_deleted_at : option DateTime;
  campaign_created_at : DateTime;
  campaign_updated_at : DateTime
}.

Definition Campaign_active (c : Campaign) : bool :=
  bool_decide (campaign_status c = CampaignActive) && bool_decide (campaign_deleted_at c = None).

Record Buyer : Type := {
  buyer_id : Uuid;
  buyer_name : string;
  buyer_instance_id : Uuid;
  buyer_instance_user_id : option Uuid;
  buyer_vertical_id : option Uuid;
  buyer_buyer_integration_id : option Uuid;
  buyer_status : BuyerStatus;
  buyer_deleted_at : option DateTime;
  buyer_created_at : DateTime;
  buyer_updated_at : DateTime;
  buyer_contact_info : json;
  buyer_ein_tin : option string;
  buyer_address_street : option string;
  buyer_address_city : option string;
  buyer_address_state : option string;
  buyer_address_zip : option string;
  buyer_email_address : option string;
  buyer_representative_first_name : option string;
  buyer_representative_last_name : option string;
  buyer_documents : json;
  buyer_post_type : option string;
  buyer_buyer_type : option string
}.

Definition Buyer_active (b : Buyer) : bool :=
  bool_decide (buyer_status b = BuyerActive) && bool_decide (buyer_deleted_at b = None).

Record BuyerIntegration : Type := {
  integration_id : Uuid;
  integration_name : string;
  integration_slug : string;
  integration_vertical_id : Uuid;
  integration_description : option string;
  integration_configuration_template : json;
  integration_default_timeout : option Decimal;
  integration_posting_url_template : option string;
  integration_is_internal : bool;
  integration_status : string;
  integration_created_at : DateTime;
  integration_updated_at : DateTime
}.

Record Publisher : Type := {
  publisher_id : Uuid;
  publisher_name : string;
  publisher_email : string;
  publisher_api_key_hash : string;
  publisher_api_key_prefix : string;
  publisher_api_key_encrypted : option string;
  publisher_status : PublisherStatus;
  publisher_total_requests : Z;
  publisher_last_request_at : option DateTime;
  publisher_instance_id : Uuid;
  publisher_instance_user_id : option Uuid;
  publisher_is_documentation_test : bool;
  publisher_hmac_secret_hash : option string;
  publisher_hmac_secret_prefix : option string;
  publisher_hmac_required : bool;
  publisher_hmac_secret_encrypted : option string;
  publisher_deleted_at : option DateTime;
  publisher_created_at : DateTime;
  publisher_updated_at : DateTime;
  publisher_representative_first_name : option string;
  publisher_representative_last_name : option string;
  publisher_address_street : option string;
  publisher_address_city : option string;
  publisher_address_state : option string;
  publisher_address_zip : option string;
  publisher_timezone : option string;
  publisher_ein_tin : option string
}.

Definition Publisher_active (p : Publisher) : bool :=
  bool_decide (publisher_status p = PublisherActive) && bool_decide (publisher_deleted_at p = None).

Record BuyerQualificationConfig : Type := {
  config_id : Uuid;
  config_buyer_id : Uuid;
  config_vertical_id : Uuid;
  config_buyer_integration_id : option Uuid;
  config_rule_set_name : string;
  config_config : json;
  config_rules_order : list string;
  config_enabled : bool;
  config_is_active : bool;
  config_timeout_seconds : option f64;
  config_created_at : DateTime;
  config_updated_at : DateTime
}.

Record PingTree : Type := {
  tree_id : Uuid;
  tree_instance_id : Uuid;
  tree_name : string;
  tree_vertical : string;
  tree_strategy : string;
  tree_status : string;
  tree_priority : option Z;
  tree_deleted_at : option DateTime;
  tree_created_at : DateTime;
  tree_updated_at : DateTime
}.

Definition PingTree_is_active (t : PingTree) : bool :=
  String.eqb (tree_status t) "active" && bool_decide (tree_deleted_at t = None).

Record PingTreeCampaign : Type := {
  ptc_id : Uuid;
  ptc_ping_tree_id : Uuid;
  ptc_campaign_id : Uuid;
  ptc_priority : option Z;
  ptc_min_price : option f64;
  ptc_max_price : option f64;
  ptc_enabled : bool;
  ptc_created_at : DateTime;
  ptc_updated_at : DateTime
}.

Record PingTreePublisher : Type := {
  ptp_id : Uuid;
  ptp_ping_tree_id : Uuid;
  ptp_publisher_id : Uuid;
  ptp_vertical : string;
  ptp_revshare_percentage : option Decimal;
  ptp_revshare_flat_amount : option Decimal;
  ptp_created_at : DateTime;
  ptp_updated_at : DateTime
}.

Record Vertical : Type := {
  vertical_id : Uuid;
  vertical_name : string;
  vertical_slug : string;
  vertical_is_active : bool;
  vertical_created_at : DateTime;
  vertical_updated_at : DateTime
}.

(** ** Tables and queries *)

Record Tables : Type := {
  ping_trees : list PingTree;
  ping_tree_publishers : list PingTreePublisher;
  ping_tree_campaigns : list PingTreeCampaign;
  campaigns : list Campaign;
  buyers : list Buyer;
  buyer_integrations : list BuyerIntegration;
  buyer_qualification_configs : list BuyerQualificationConfig
}.

(** [ORDER BY priority ASC NULLS LAST, created_at ASC]. *)
Definition priority_order (p1 : option Z) (t1 : DateTime) (p2 : option Z) (t2 : DateTime) : comparison :=
  match p1, p2 with
  | Some x, Some y => match (x ?= y)%Z with Eq => (t1 ?= t2)%Z | c => c end
  | Some _, None => Lt
  | None, Some _ => Gt
  | None, None => (t1 ?= t2)%Z
  end.

(** [PingTree::find_for_routing]: the tree of the publisher for the vertical,
    with the revshare of the assignment. *)
Definition find_for_routing (db : Tables) (publisher : Uuid) (vertical : string)
    : option (PingTree * option Decimal * option Decimal) :=
  let rows :=
    pt ← ping_trees db;
    ptp ← ping_tree_publishers db;
    if bool_decide (tree_id pt = ptp_ping_tree_id ptp)
       && bool_decide (ptp_publisher_id ptp = publisher)
       && String.eqb (tree_vertical pt) vertical
       && bool_decide (tree_deleted_at pt = None)
    then [(pt, ptp_revshare_percentage ptp, ptp_revshare_flat_amount ptp)] else [] in
  head (sort_by (λ a b, priority_order (tree_priority a.1.1) (tree_created_at a.1.1)
                                       (tree_priority b.1.1) (tree_created_at b.1.1)) rows).

(** [PingTreeCampaign::find_enabled_for_ping_tree]. *)
Definition find_enabled_for_ping_tree (db : Tables) (tree : Uuid) : list PingTreeCampaign :=
  let rows :=
    ptc ← ping_tree_campaigns db;
    c ← campaigns db;
    if bool_decide (ptc_campaign_id ptc = campaign_id c)
       && bool_decide (ptc_ping_tree_id ptc = tree)
       && ptc_enabled ptc
       && bool_decide (campaign_status c = CampaignActive)
       && bool_decide (campaign_deleted_at c = None)
    then [ptc] else [] in
  sort_by (λ a b, priority_order (ptc_priority a) (ptc_created_at a)
                                 (ptc_priority b) (ptc_created_at b)) rows.

(** [Buyer::find_by_id]. *)
Definition Buyer_find_by_id (db : Tables) (id : Uuid) : option Buyer :=
  List.find (λ b, bool_decide (buyer_id b = id) && bool_decide (buyer_deleted_at b = None)) (buyers db).

(** [BuyerIntegration::find_by_id]. *)
Definition BuyerIntegration_find_by_id (db : Tables) (id : Uuid) : option BuyerIntegration :=
  List.find (λ bi, bool_decide (integration_id bi = id) && String.eqb (integration_status bi) "available")
    (buyer_integrations db).

(** [Campaign::find_by_ids_with_associations]: the two [LEFT JOIN]s are on primary
    keys, so each campaign gives one row. *)
Definition find_by_ids_with_associations (db : Tables) (ids : list Uuid)
    : list (Campaign * option Buyer * option BuyerIntegration) :=
  match ids with
  | [] => []
  | _ =>
      c ← campaigns db;
      if bool_decide (campaign_id c ∈ ids) && bool_decide (campaign_deleted_at c = None) then
        let b := Buyer_find_by_id db (campaign_buyer_id c) in
        let bi := b' ← b; i ← buyer_buyer_integration_id b'; BuyerIntegration_find_by_id db i in
        [(c, b, bi)]
      else []
  end.

(** The rows [find_by_buyer_ids] reads: enabled and active, newest first. *)
Definition active_configs (db : Tables) (ids : list Uuid) : list BuyerQualificationConfig :=
  sort_by (λ a b, (config_created_at b ?= config_created_at a)%Z)
    (List.filter (λ c, bool_decide (config_buyer_id c ∈ ids) && config_enabled c && config_is_active c)
       (buyer_qualification_configs db)).

(** [result.entry(config.buyer_id).and_modify(|e| if e.is_none() ...)]. *)
Definition add_config (m : gmap Uuid (option BuyerQualificationConfig)) (c : BuyerQualificationConfig)
    : gmap Uuid (option BuyerQualificationConfig) :=
  alter (λ e, match e with None => Some c | Some _ => e end) (config_buyer_id c) m.

(** [BuyerQualificationConfig::find_by_buyer_ids], with its [EXISTS] early exit. *)
Definition find_by_buyer_ids (db : Tables) (ids : list Uuid)
    : gmap Uuid (option BuyerQualificationConfig) :=
  match ids with
  | [] => ∅
  | _ =>
      let no_config := foldl (λ m id, <[id := None]> m) ∅ ids in
      let has_configs :=
        existsb (λ c, bool_decide (config_buyer_id c ∈ ids) && config_enabled c && config_is_active c)
          (buyer_qualification_configs db) in
      if negb has_configs then no_config
      else foldl add_config no_config (active_configs db ids)
  end.

(** ** Lemmas *)

Lemma priority_order_orders {A} (p : A → option Z) (t : A → DateTime) :
  OrdersOn (λ a b, priority_order (p a) (t a) (p b) (t b)) (λ _, True).
Proof.
  split.
  - intros x y _ _. unfold cmp_le, priority_order.
    destruct (p x) as [a|], (p y) as [b|]; try done;
      rewrite ?(Z.compare_antisym (t y)), ?(Z.compare_antisym b);
      repeat match goal with |- context [(?a ?= ?b)%Z] => destruct (Z.compare_spec a b) end;
      simpl; try done; lia.
  - intros x y z _ _ _. unfold cmp_le, priority_order.
    destruct (p x) as [a|], (p y) as [b|], (p z) as [c|]; try done;
      repeat match goal with |- context [(?a ?= ?b)%Z] => destruct (Z.compare_spec a b) end;
      simpl; try done; intros; lia.
Qed.

Lemma foldl_insert_None_lookup ids id (m : gmap Uuid (option BuyerQualificationConfig)) :
  foldl (λ m id, <[id := None]> m) m ids !! id =
    if bool_decide (id ∈ ids) then Some None else m !! id.
Proof.
  revert m. induction ids as [|i ids IH]; intros m; simpl; [done|].
  rewrite IH. destruct (bool_decide (id ∈ ids)) eqn:Hin.
  - apply bool_decide_eq_true in Hin. rewrite bool_decide_true; [done|by right].
  - apply bool_decide_eq_false in Hin. destruct (decide (id = i)) as [->|Hne].
    + rewrite lookup_insert_eq, bool_decide_true; [done|by left].
    + rewrite lookup_insert_ne, bool_decide_false; [done| |done].
      rewrite elem_of_cons. naive_solver.
Qed.

Lemma add_config_lookup m c id :
  add_config m c !! id =
    if decide (id = config_buyer_id c)
    then (λ e, match e with None => Some c | Some _ => e end) <$> m !! id
    else m !! id.
Proof.
  unfold add_config. rewrite lookup_alter. case_decide; case_decide; congruence.
Qed.

(** Per buyer, the fold keeps the first configuration of the list. *)
Lemma foldl_add_config_lookup cs m id :
  foldl add_config m cs !! id =
    match m !! id with
    | Some None => Some (List.find (λ c, bool_decide (config_buyer_id c = id)) cs)
    | o => o
    end.
Proof.
  revert m. induction cs as [|c cs IH]; intros m; simpl.
  { by destruct (m !! id) as [[?|]|]. }
  rewrite IH, add_config_lookup. case_decide as Hid.
  - subst. rewrite bool_decide_true by done. by destruct (m !! _) as [[?|]|].
  - rewrite bool_decide_false by done. by destruct (m !! _) as [[?|]|].
Qed.

(** A row [find_by_buyer_ids] may return for the buyer. *)
Definition usable_config (db : Tables) (id : Uuid) (c : BuyerQualificationConfig) : Prop :=
  c ∈ buyer_qualification_configs db ∧ config_buyer_id c = id ∧
  config_enabled c = true ∧ config_is_active c = true.

Lemma elem_of_active_configs db ids c :
  c ∈ active_configs db ids ↔ config_buyer_id c ∈ ids ∧ usable_config db (config_buyer_id c) c.
Proof.
  unfold active_configs, usable_config. rewrite elem_of_sort_by, list_elem_of_In, List.filter_In, <-list_elem_of_In.
  rewrite !andb_true_iff, bool_decide_eq_true. naive_solver.
Qed.

Lemma active_configs_sorted db ids :
  StronglySorted (λ a b, (config_created_at b ≤ config_created_at a)%Z) (active_configs db ids).
Proof.
  unfold active_configs.
  eapply StronglySorted_mono; [|apply (sort_by_sorted _ (λ _, True))].
  - intros a b. unfold cmp_le. by destruct (Z.compare_spec (config_created_at b) (config_created_at a)); intros; try lia.
  - split.
    + intros x y _ _. unfold cmp_le. rewrite (Z.compare_antisym (config_created_at y)).
      by destruct (config_created_at y ?= config_created_at x)%Z.
    + intros x y z _ _ _. unfold cmp_le.
      repeat match goal with |- context [(?a ?= ?b)%Z] => destruct (Z.compare_spec a b) end;
        intros; try done; lia.
  - by apply Forall_true.
Qed.

(** [find_by_buyer_ids] has one entry per requested buyer; the entry is the
    newest enabled and active configuration of that buyer, [None] exactly when the
    buyer has none, whether or not the [EXISTS] early exit is taken. *)
Theorem find_by_buyer_ids_correct (db : Tables) (ids : list Uuid) (id : Uuid) :
  match find_by_buyer_ids db ids !! id with
  | None => id ∉ ids
  | Some None => id ∈ ids ∧ ∀ c, ¬ usable_config db id c
  | Some (Some c) =>
      id ∈ ids ∧ usable_config db id c ∧
      ∀ c', usable_config db id c' → (config_created_at c' ≤ config_created_at c)%Z
  end.
Proof.
  assert (Heq : find_by_buyer_ids db ids !! id =
    if bool_decide (id ∈ ids)
    then Some (List.find (λ c, bool_decide (config_buyer_id c = id)) (active_configs db ids)) else None).
  { destruct ids as [|i ids']; [done|]. unfold find_by_buyer_ids.
    set (ids := i :: ids'). case_match eqn:Hex; cbv zeta.
    - apply negb_true_iff in Hex. rewrite foldl_insert_None_lookup, lookup_empty.
      case_bool_decide; [|done]. do 2 f_equal. symmetry. unfold active_configs.
      replace (List.filter _ _) with (@nil BuyerQualificationConfig); [done|].
      symmetry. induction (buyer_qualification_configs db) as [|c l IH]; simpl in *; [done|].
      apply orb_false_iff in Hex as [-> Hex]. auto.
    - rewrite foldl_add_config_lookup, foldl_insert_None_lookup, lookup_empty.
      by case_bool_decide. }
  rewrite Heq. case_bool_decide as Hin; [|done].
  destruct (List.find _ _) as [c|] eqn:Hf.
  - pose proof Hf as [Hc Hid]%List.find_some. rewrite bool_decide_eq_true in Hid. subst id.
    apply list_elem_of_In, elem_of_active_configs in Hc as [_ Hc].
    split_and!; [done..|]. intros c' Hc'. pose proof Hc' as (_ & Hid' & _).
    edestruct (find_sorted_first _ _ _ _ (active_configs_sorted db ids) Hf c') as [->|H]; [| |lia|done].
    + apply elem_of_active_configs. by rewrite Hid'.
    + by apply bool_decide_eq_true.
  - split; [done|]. intros c Hc. pose proof Hc as (_ & Hid & _).
    pose proof (List.find_none _ _ Hf c) as Hn. rewrite bool_decide_eq_false, <-list_elem_of_In in Hn.
    apply Hn; [|done]. apply elem_of_active_configs. by rewrite Hid.
Qed.
