(* ===== verification/Metrics.v ===== *)
(** * Timing and diagnostic metrics

    [auction_timing.rs] (the staged timing and the atomic counters) and
    [diagnostic_metrics.rs].  An [Instant] is a number of microseconds, read from
    the clock by the caller; the atomic counters are 64-bit and wrap around. *)

From stdpp Require Import base list strings gmap.
From Stdlib Require Import ZArith Lia Sorted.
From S2P Require Import Prelude Float64 Platform Json.

Open Scope string_scope.
Open Scope list_scope.

Abbreviation Instant := Z.

(** [later.duration_since(earlier).as_millis() as u64]: a duration is never
    negative. *)
Definition elapsed_millis (earlier later : Instant) : Z :=
  u64_wrap (Z.max 0 (later - earlier) / 1000).

(** ** [AuctionTiming] *)

Record TimingStage : Type := {
  stage_name : string;
  stage_started_at : Instant;
  stage_completed_at : option Instant;
  stage_duration_ms : option Z;
  stage_metadata : json
}.

Record AuctionTiming : Type := {
  timing_lead_arrived_at : Instant;
  timing_stages : list TimingStage
}.

Definition AuctionTiming_new (now : Instant) : AuctionTiming :=
  {| timing_lead_arrived_at := now; timing_stages := [] |}.

Definition start_stage (now : Instant) (name : string) (metadata : json) (t : AuctionTiming)
    : nat * AuctionTiming :=
  let stage := {| stage_name := name; stage_started_at := now; stage_completed_at := None;
                  stage_duration_ms := None; stage_metadata := metadata |} in
  let stages := timing_stages t ++ [stage] in
  (pred (length stages), {| timing_lead_arrived_at := timing_lead_arrived_at t; timing_stages := stages |}).

Definition complete_stage (now : Instant) (index : nat) (metadata : option json) (t : AuctionTiming)
    : AuctionTiming :=
  match timing_stages t !! index with
  | None => t
  | Some stage =>
      let stage' := {| stage_name := stage_name stage;
                       stage_started_at := stage_started_at stage;
                       stage_completed_at := Some now;
                       stage_duration_ms := Some (elapsed_millis (stage_started_at stage) now);
                       stage_metadata := default (stage_metadata stage) metadata |} in
      {| timing_lead_arrived_at := timing_lead_arrived_at t;
         timing_stages := <[index := stage']> (timing_stages t) |}
  end.

Definition AuctionTiming_elapsed_ms (now : Instant) (t : AuctionTiming) : Z :=
  elapsed_millis (timing_lead_arrived_at t) now.

Definition AuctionTiming_to_json (now : Instant) (lead_id : string) (t : AuctionTiming) : json :=
  json_object [
    ("lead_id", JString lead_id);
    ("total_ms", json_of_u64 (AuctionTiming_elapsed_ms now t));
    ("stages", JArray ((λ s, json_object [
        ("name", JString (stage_name s));
        ("duration_ms", json_of_option json_of_u64 (stage_duration_ms s));
        ("metadata", stage_metadata s)]) <$> timing_stages t))].

(** ** [AtomicAuctionTiming] *)

Record AtomicAuctionTiming : Type := {
  atomic_lead_arrived_at : Instant;
  pre_checks_ms : Z;
  ping_auction_ms : Z;
  qualification_ms : Z;
  post_sent_ms : Z;
  total_ms : Z
}.

Definition AtomicAuctionTiming_new (now : Instant) : AtomicAuctionTiming := {|
  atomic_lead_arrived_at := now; pre_checks_ms := 0; ping_auction_ms := 0;
  qualification_ms := 0; post_sent_ms := 0; total_ms := 0
|}.

Definition timing_record_pre_checks (duration_ms : Z) (t : AtomicAuctionTiming) : AtomicAuctionTiming := {|
  atomic_lead_arrived_at := atomic_lead_arrived_at t; pre_checks_ms := duration_ms;
  ping_auction_ms := ping_auction_ms t; qualification_ms := qualification_ms t;
  post_sent_ms := post_sent_ms t; total_ms := total_ms t
|}.

Definition timing_record_ping_auction (duration_ms : Z) (t : AtomicAuctionTiming) : AtomicAuctionTiming := {|
  atomic_lead_arrived_at := atomic_lead_arrived_at t; pre_checks_ms := pre_checks_ms t;
  ping_auction_ms := duration_ms; qualification_ms := qualification_ms t;
  post_sent_ms := post_sent_ms t; total_ms := total_ms t
|}.

Definition timing_record_qualification (duration_ms : Z) (t : AtomicAuctionTiming) : AtomicAuctionTiming := {|
  atomic_lead_arrived_at := atomic_lead_arrived_at t; pre_checks_ms := pre_checks_ms t;
  ping_auction_ms := ping_auction_ms t; qualification_ms := duration_ms;
  post_sent_ms := post_sent_ms t; total_ms := total_ms t
|}.

Definition timing_record_post_sent (duration_ms : Z) (t : AtomicAuctionTiming) : AtomicAuctionTiming := {|
  atomic_lead_arrived_at := atomic_lead_arrived_at t; pre_checks_ms := pre_checks_ms t;
  ping_auction_ms := ping_auction_ms t; qualification_ms := qualification_ms t;
  post_sent_ms := duration_ms; total_ms := total_ms t
|}.

Definition timing_record_total (now : Instant) (t : AtomicAuctionTiming) : AtomicAuctionTiming := {|
  atomic_lead_arrived_at := atomic_lead_arrived_at t; pre_checks_ms := pre_checks_ms t;
  ping_auction_ms := ping_auction_ms t; qualification_ms := qualification_ms t;
  post_sent_ms := post_sent_ms t; total_ms := elapsed_millis (atomic_lead_arrived_at t) now
|}.

(** ** [DiagnosticMetrics] *)

Record DiagnosticMetrics : Type := {
  db_queries : Z;
  db_query_time_ms : Z;
  cache_hits : Z;
  cache_misses : Z;
  ping_auction_time_ms : Z;
  ping_auction_count : Z;
  post_time_ms : Z;
  post_count : Z;
  stage_timings : gmap string (list Z)
}.

Definition DiagnosticMetrics_new : DiagnosticMetrics := {|
  db_queries := 0; db_query_time_ms := 0; cache_hits := 0; cache_misses := 0;
  ping_auction_time_ms := 0; ping_auction_count := 0; post_time_ms := 0; post_count := 0;
  stage_timings := ∅
|}.

Definition record_query (duration_ms : Z) (m : DiagnosticMetrics) : DiagnosticMetrics := {|
  db_queries := u64_fetch_add (db_queries m) 1;
  db_query_time_ms := u64_fetch_add (db_query_time_ms m) duration_ms;
  cache_hits := cache_hits m; cache_misses := cache_misses m;
  ping_auction_time_ms := ping_auction_time_ms m; ping_auction_count := ping_auction_count m;
  post_time_ms := post_time_ms m; post_count := post_count m; stage_timings := stage_timings m
|}.

Definition record_cache_hit (m : DiagnosticMetrics) : DiagnosticMetrics := {|
  db_queries := db_queries m; db_query_time_ms := db_query_time_ms m;
  cache_hits := u64_fetch_add (cache_hits m) 1; cache_misses := cache_misses m;
  ping_auction_time_ms := ping_auction_time_ms m; ping_auction_count := ping_auction_count m;
  post_time_ms := post_time_ms m; post_count := post_count m; stage_timings := stage_timings m
|}.

Definition record_cache_miss (m : DiagnosticMetrics) : DiagnosticMetrics := {|
  db_queries := db_queries m; db_query_time_ms := db_query_time_ms m;
  cache_hits := cache_hits m; cache_misses := u64_fetch_add (cache_misses m) 1;
  ping_auction_time_ms := ping_auction_time_ms m; ping_auction_count := ping_auction_count m;
  post_time_ms := post_time_ms m; post_count := post_count m; stage_timings := stage_timings m
|}.

Definition metrics_record_ping_auction (duration_ms : Z) (m : DiagnosticMetrics) : DiagnosticMetrics := {|
  db_queries := db_queries m; db_query_time_ms := db_query_time_ms m;
  cache_hits := cache_hits m; cache_misses := cache_misses m;
  ping_auction_time_ms := u64_fetch_add (ping_auction_time_ms m) duration_ms;
  ping_auction_count := u64_fetch_add (ping_auction_count m) 1;
  post_time_ms := post_time_ms m; post_count := post_count m; stage_timings := stage_timings m
|}.

Definition record_post (duration_ms : Z) (m : DiagnosticMetrics) : DiagnosticMetrics := {|
  db_queries := db_queries m; db_query_time_ms := db_query_time_ms m;
  cache_hits := cache_hits m; cache_misses := cache_misses m;
  ping_auction_time_ms := ping_auction_time_ms m; ping_auction_count := ping_auction_count m;
  post_time_ms := u64_fetch_add (post_time_ms m) duration_ms;
  post_count := u64_fetch_add (post_count m) 1; stage_timings := stage_timings m
|}.

(** [times.drain(0..times.len() - 1000)] when there are more than 1000. *)
Definition keep_last_1000 (times : list Z) : list Z :=
  if (1000 <? length times)%nat then drop (length times - 1000) times else times.

Definition record_stage_timing (stage_name : string) (duration_ms : Z) (m : DiagnosticMetrics)
    : DiagnosticMetrics :=
  let times := default [] (stage_timings m !! stage_name) ++ [duration_ms] in
  {| db_queries := db_queries m; db_query_time_ms := db_query_time_ms m;
     cache_hits := cache_hits m; cache_misses := cache_misses m;
     ping_auction_time_ms := ping_auction_time_ms m; ping_auction_count := ping_auction_count m;
     post_time_ms := post_time_ms m; post_count := post_count m;
     stage_timings := <[stage_name := keep_last_1000 times]> (stage_timings m) |}.

(** The sum wraps, as in the release profile. *)
Definition get_cache_hit_rate (m : DiagnosticMetrics) : f64 :=
  let hits := cache_hits m in
  let total := u64_wrap (hits + cache_misses m) in
  if (total =? 0)%Z then f64_zero
  else f64_mul (f64_div (f64_of_Z hits) (f64_of_Z total)) (f64_of_Z 100).

Definition get_avg_ping_auction_time_ms (m : DiagnosticMetrics) : f64 :=
  if (ping_auction_count m =? 0)%Z then f64_zero
  else f64_div (f64_of_Z (ping_auction_time_ms m)) (f64_of_Z (ping_auction_count m)).

Definition get_avg_post_time_ms (m : DiagnosticMetrics) : f64 :=
  if (post_count m =? 0)%Z then f64_zero
  else f64_div (f64_of_Z (post_time_ms m)) (f64_of_Z (post_count m)).

(** [a / b] on [usize]: a zero divisor panics. *)
Definition usize_div (a b : nat) : Panics nat :=
  match b with O => Err "attempt to divide by zero" | _ => Ok (a / b)%nat end.

(** [v[i]]. *)
Definition index_at {A} (v : list A) (i : nat) : Panics A := ok_or "index out of bounds" (v !! i).

(** [100.min(sorted.len() - 1)] is the divisor of the last index: the method call
    binds tighter than the division. *)
Definition get_stage_percentiles (stage_name : string) (m : DiagnosticMetrics) : Panics (option (Z * Z * Z)) :=
  match stage_timings m !! stage_name with
  | None => Ok None
  | Some [] => Ok None
  | Some times =>
      let sorted := sort_by Z.compare times in
      let len := length sorted in
      i50 ← usize_div (len * 50) 100;
      p50 ← index_at sorted i50;
      i95 ← usize_div (len * 95) 100;
      p95 ← index_at sorted i95;
      i99 ← usize_div (len * 99) (Nat.min 100 (len - 1));
      p99 ← index_at sorted i99;
      Ok (Some (p50, p95, p99))
  end.

(** ** Telemetry shared by the routers *)

(** The optional [Arc]s a router holds. *)
Record Telemetry : Type := {
  tele_timing : option AtomicAuctionTiming;
  tele_metrics : option DiagnosticMetrics
}.

(** [if let Some(ref t) = self.timing { ... }]. *)
Definition with_timing (f : AtomicAuctionTiming → AtomicAuctionTiming) (t : Telemetry) : Telemetry :=
  {| tele_timing := f <$> tele_timing t; tele_metrics := tele_metrics t |}.
Definition with_metrics (f : DiagnosticMetrics → DiagnosticMetrics) (t : Telemetry) : Telemetry :=
  {| tele_timing := tele_timing t; tele_metrics := f <$> tele_metrics t |}.

(** ** Lemmas *)

Lemma keep_last_1000_drop ts : keep_last_1000 ts = drop (length ts - 1000) ts.
Proof.
  unfold keep_last_1000. destruct (Nat.ltb_spec 1000 (length ts)); [done|].
  by replace (length ts - 1000)%nat with O by lia.
Qed.

Lemma keep_last_1000_snoc ts x :
  keep_last_1000 (keep_last_1000 ts ++ [x]) = keep_last_1000 (ts ++ [x]).
Proof.
  rewrite !keep_last_1000_drop, length_app, length_drop, length_app. simpl.
  destruct (le_lt_dec (length ts) 1000) as [Hle|Hgt].
  - replace (length ts - 1000)%nat with O by lia. simpl. rewrite Nat.sub_0_r. done.
  - rewrite !skipn_app, skipn_skipn. rewrite length_drop.
    f_equal; f_equal; lia.
Qed.

Lemma Z_compare_orders : OrdersOn Z.compare (λ _, True).
Proof.
  split; unfold cmp_le.
  - intros x y _ _. rewrite Z.compare_gt_iff. intros H. change (y ≤ x)%Z. lia.
  - intros x y z _ _ _ H1 H2. change (x ≤ z)%Z. change (x ≤ y)%Z in H1. change (y ≤ z)%Z in H2. lia.
Qed.

Lemma usize_div_100 a : usize_div a 100 = Ok (a / 100)%nat.
Proof. reflexivity. Qed.

Lemma index_at_lt {A} (v : list A) i : (i < length v)%nat → ∃ x, index_at v i = Ok x ∧ v !! i = Some x.
Proof.
  intros Hi. destruct (lookup_lt_is_Some_2 v i Hi) as [x Hx]. exists x. unfold index_at. by rewrite Hx.
Qed.

Lemma percent_index len p : (0 < len)%nat → (p < 100)%nat → (len * p / 100 < len)%nat.
Proof. intros. apply Nat.Div0.div_lt_upper_bound. nia. Qed.

Lemma sorted_lookup_le l i j x y :
  StronglySorted Z.le l → (i ≤ j)%nat → l !! i = Some x → l !! j = Some y → (x ≤ y)%Z.
Proof.
  intros Hs. revert i j. induction Hs as [|a l Hs IH Hall]; intros [|i] [|j] Hij Hx Hy; simplify_eq/=; try lia.
  - rewrite Forall_forall in Hall. apply Hall. by eapply list_elem_of_lookup_2.
  - eapply IH; [|done..]. lia.
Qed.

(** ** Properties *)

(** what a stage keeps after any interleaved sequence of recordings is the
    last thousand of its own, oldest first; in particular never more than a
    thousand. *)
Theorem stage_timings_window (recordings : list (string * Z)) (name : string) :
  let own := (List.filter (λ r, String.eqb r.1 name) recordings).*2 in
  let m := foldl (λ m r, record_stage_timing r.1 r.2 m) DiagnosticMetrics_new recordings in
  default [] (stage_timings m !! name) = drop (length own - 1000) own ∧
  (length (default [] (stage_timings m !! name)) ≤ 1000)%nat.
Proof.
  intros own m.
  assert (Heq : default [] (stage_timings m !! name) = keep_last_1000 own).
  { subst own m. induction recordings as [|[n d] rs IH] using rev_ind; [done|].
    rewrite foldl_app, List.filter_app, fmap_app. simpl.
    set (m := foldl _ _ rs) in *. destruct (String.eqb_spec n name) as [->|Hne]; simpl.
    - rewrite lookup_insert_eq. simpl. rewrite IH. apply keep_last_1000_snoc.
    - rewrite lookup_insert_ne, app_nil_r by done. exact IH. }
  rewrite Heq, keep_last_1000_drop. split; [done|]. rewrite length_drop. lia.
Qed.

(** the percentiles of a stage panic exactly when it has from 1 to 100
    timings: the divisor [100.min(len - 1)] makes the last index run past the end,
    or is zero.  With more than 100 timings the result is the values at the 50, 95
    and 99 per cent positions of the sorted timings, in increasing order. *)
Theorem get_stage_percentiles_spec (name : string) (m : DiagnosticMetrics) :
  match stage_timings m !! name with
  | None | Some [] => get_stage_percentiles name m = Ok None
  | Some times =>
      let len := length times in
      let sorted := sort_by Z.compare times in
      if (len <=? 100)%nat then is_ok (get_stage_percentiles name m) = false
      else ∃ p50 p95 p99, get_stage_percentiles name m = Ok (Some (p50, p95, p99)) ∧
             sorted !! (len * 50 / 100)%nat = Some p50 ∧ sorted !! (len * 95 / 100)%nat = Some p95 ∧
             sorted !! (len * 99 / 100)%nat = Some p99 ∧ (p50 ≤ p95 ≤ p99)%Z
  end.
Proof.
  unfold get_stage_percentiles. destruct (stage_timings m !! name) as [[|t ts]|]; [done| |done].
  set (times := t :: ts) in *. cbv zeta. rewrite sort_by_length.
  assert (Hlen : (0 < length times)%nat) by (simpl; lia). unfold mbind, Result_bind.
  rewrite !usize_div_100.
  assert (Hix : ∀ p, (p < 100)%nat → ∃ x, index_at (sort_by Z.compare times) (length times * p / 100) = Ok x ∧
    sort_by Z.compare times !! (length times * p / 100)%nat = Some x).
  { intros p Hp. apply index_at_lt. rewrite sort_by_length. by apply percent_index. }
  destruct (Hix 50%nat) as (p50 & H50 & L50); [lia|]. destruct (Hix 95%nat) as (p95 & H95 & L95); [lia|].
  rewrite H50, H95. destruct (Nat.leb_spec (length times) 100) as [Hle|Hgt].
  - replace (Nat.min 100 (length times - 1)) with (length times - 1)%nat by lia.
    destruct (length times - 1)%nat as [|k] eqn:Hk; [done|]. unfold usize_div.
    unfold index_at. rewrite lookup_ge_None_2; [done|]. rewrite sort_by_length.
    apply Nat.div_le_lower_bound; [lia|]. nia.
  - replace (Nat.min 100 (length times - 1)) with 100%nat by lia. rewrite usize_div_100.
    destruct (Hix 99%nat) as (p99 & H99 & L99); [lia|]. rewrite H99.
    exists p50, p95, p99. split_and!; try done.
    all: eapply sorted_lookup_le; [|apply Nat.Div0.div_le_mono; apply Nat.mul_le_mono_l|eassumption..]; [|lia].
    all: eapply StronglySorted_mono; [|eapply sort_by_sorted; [apply Z_compare_orders|by apply Forall_true]]; done.
Qed.

(** a started stage is completed at its own index: the stage keeps its name,
    gets the milliseconds between the two clock readings, and no other stage
    changes. *)
Theorem start_complete_stage (t : AuctionTiming) (t0 t1 : Instant) (name : string) (meta : json) (meta' : option json) :
  let '(i, started) := start_stage t0 name meta t in
  let t' := complete_stage t1 i meta' started in
  (∃ s, timing_stages t' !! i = Some s ∧ stage_name s = name ∧ stage_completed_at s = Some t1 ∧
     stage_duration_ms s = Some (elapsed_millis t0 t1) ∧ stage_metadata s = default meta meta') ∧
  (∀ j, j ≠ i → timing_stages t' !! j = timing_stages t !! j) ∧
  length (timing_stages t') = S (length (timing_stages t)).
Proof.
  unfold start_stage, complete_stage. simpl. rewrite length_app. simpl. rewrite Nat.add_1_r. simpl.
  rewrite (list_lookup_middle _ [] _ _ eq_refl). simpl.
  assert (Hlt : (length (timing_stages t) < length (timing_stages t ++
    [{| stage_name := name; stage_started_at := t0; stage_completed_at := None; stage_duration_ms := None;
        stage_metadata := meta |}]))%nat) by (rewrite length_app; simpl; lia).
  split_and!.
  - eexists. rewrite list_lookup_insert_eq by done. by split_and!.
  - intros j Hj. rewrite list_lookup_insert_ne by done.
    destruct (lt_dec j (length (timing_stages t))); [by rewrite lookup_app_l|].
    rewrite !lookup_ge_None_2; [done|lia|rewrite length_app; simpl; lia].
  - rewrite length_insert, length_app. simpl. lia.
Qed.

Example percentiles_of_one_timing :
  get_stage_percentiles "ping_auction" (record_stage_timing "ping_auction" 12 DiagnosticMetrics_new) =
  Err "attempt to divide by zero".
Proof. reflexivity. Qed.
