(* ===== verification/Retry.v ===== *)
(** * Retries with backoff, and the circuit breaker

    [crates/core/src/services/retry.rs].  [retry_with_backoff] runs an operation of any
    state; the time it sleeps is a function on that state.  The circuit breaker is modelled
    twice: a call as a whole, and a call as the sequence of its critical sections (every
    [lock().await] and every atomic is one), so that concurrent calls interleave between
    them.  An [Instant] and the timeout are numbers of microseconds. *)

From stdpp Require Import base list strings relations.
From Stdlib Require Import ZArith Lia.
From S2P Require Import Prelude Float64 Metrics.

Open Scope string_scope.
Open Scope list_scope.

(** ** Retries *)

Record RetryConfig : Type := {
  max_retries : Z;
  initial_delay_ms : Z;
  max_delay_ms : Z;
  multiplier : f64
}.

Definition RetryConfig_default : RetryConfig := {|
  max_retries := 3; initial_delay_ms := 100; max_delay_ms := 1000; multiplier := f64_of_Z 2
|}.

(** The product is cut to an unsigned integer, then capped. *)
Definition next_delay (config : RetryConfig) (delay_ms : Z) : Z :=
  Z.min (f64_to_u64 (f64_mul (f64_of_Z delay_ms) (multiplier config))) (max_delay_ms config).

Section retry.
Context {S E T : Type} (f : eff S E T) (sleep : Z → S → S) (config : RetryConfig).

Fixpoint retry_loop (fuel : nat) (attempt delay_ms : Z) (s : S) : option (Result E T * S) :=
  match fuel with
  | O => None
  | Datatypes.S fuel =>
      match f s with
      | (Ok t, s') => Some (Ok t, s')
      | (Err e, s') =>
          if (max_retries config <=? attempt)%Z then Some (Err e, s')
          else retry_loop fuel (attempt + 1) (next_delay config delay_ms) (sleep delay_ms s')
      end
  end.

Definition retry_with_backoff (s : S) : option (Result E T * S) :=
  retry_loop (Datatypes.S (Z.to_nat (max_retries config))) 0 (initial_delay_ms config) s.

(** The [n]-th delay, and the state in which the [n]-th call is made when the ones
    before have failed. *)
Definition delay_at (n : nat) : Z := Nat.iter n (next_delay config) (initial_delay_ms config).

Fixpoint before_call (n : nat) (s : S) : S :=
  match n with
  | O => s
  | Datatypes.S n => sleep (delay_at n) (f (before_call n s)).2
  end.

Lemma retry_loop_spec (left k : nat) s :
  (Z.of_nat k + Z.of_nat left = max_retries config)%Z →
  ∃ n, (k <= n)%nat ∧ (Z.of_nat n <= max_retries config)%Z ∧
    (∀ i, (k <= i < n)%nat → is_ok (f (before_call i s)).1 = false) ∧
    retry_loop (Datatypes.S left) (Z.of_nat k) (delay_at k) (before_call k s) = Some (f (before_call n s)) ∧
    (is_ok (f (before_call n s)).1 = true ∨ Z.of_nat n = max_retries config).
Proof.
  revert k. induction left as [|left IH]; intros k Hk; cbn [retry_loop];
    destruct (f (before_call k s)) as [[t|e] s'] eqn:Hf.
  1,3: solve [exists k; rewrite Hf; split_and!; auto with lia; intros; lia].
  - exists k. rewrite Hf, (proj2 (Z.leb_le _ _)) by lia. split_and!; auto with lia.
  - rewrite (proj2 (Z.leb_gt _ _)) by lia.
    destruct (IH (Datatypes.S k)) as (n & Hkn & Hn & Hfail & Hrun & Hend); [lia|].
    exists n. split_and!; [lia|done| |..|done].
    + intros i Hi. destruct (decide (i = k)) as [->|]; [by rewrite Hf|apply Hfail; lia].
    + by rewrite <-Hrun, Nat2Z.inj_succ, <-Z.add_1_r; cbn [before_call]; rewrite Hf.
Qed.

(** The result is that of the first call that succeeds, or of the last one allowed, made
    in the state the calls and delays before leave; and there is always a result. *)
Theorem retry_with_backoff_spec (s : S) (Hmax : (0 <= max_retries config)%Z) :
  ∃ n, (Z.of_nat n <= max_retries config)%Z ∧
    (∀ i, (i < n)%nat → is_ok (f (before_call i s)).1 = false) ∧
    retry_with_backoff s = Some (f (before_call n s)) ∧
    (is_ok (f (before_call n s)).1 = true ∨ Z.of_nat n = max_retries config).
Proof.
  destruct (retry_loop_spec (Z.to_nat (max_retries config)) 0 s) as (n & _ & Hn & Hfail & Hrun & Hend); [lia|].
  exists n. split_and!; auto with lia.
Qed.

(** Every delay but the first is capped. *)
Lemma delay_at_capped (n : nat) : (delay_at (Datatypes.S n) <= max_delay_ms config)%Z.
Proof. cbn. unfold next_delay. lia. Qed.
End retry.

(** The delays of the default configuration never reach its cap. *)
Example default_delays : delay_at RetryConfig_default <$> [0; 1; 2]%nat = [100; 200; 400]%Z.
Proof. reflexivity. Qed.

(** An operation that fails twice: what is left, and the time slept. *)
Definition fails_first : eff (nat * Z) string unit := λ '(n, t),
  match n with O => (Ok tt, (O, t)) | Datatypes.S n => (Err "error", (n, t)) end.

Lemma retry_with_backoff_spec_witness :
  retry_with_backoff fails_first (λ d '(n, t), (n, t + d)%Z) RetryConfig_default (2%nat, 0%Z)
    = Some (Ok tt, (0%nat, 300%Z)) ∧
  ∃ n, (Z.of_nat n <= 3)%Z ∧
    (∀ i, (i < n)%nat → is_ok (fails_first (before_call fails_first (λ d '(n, t), (n, t + d)%Z) RetryConfig_default i (2%nat, 0%Z))).1 = false) ∧
    retry_with_backoff fails_first (λ d '(n, t), (n, t + d)%Z) RetryConfig_default (2%nat, 0%Z)
      = Some (fails_first (before_call fails_first (λ d '(n, t), (n, t + d)%Z) RetryConfig_default n (2%nat, 0%Z))) ∧
    (is_ok (fails_first (before_call fails_first (λ d '(n, t), (n, t + d)%Z) RetryConfig_default n (2%nat, 0%Z))).1 = true
     ∨ Z.of_nat n = 3%Z).
Proof.
  split; [reflexivity|].
  apply (retry_with_backoff_spec fails_first (λ d '(n, t), (n, t + d)%Z) RetryConfig_default (2%nat, 0%Z)). done.
Defined.

(** ** The circuit breaker *)

Inductive CircuitState : Type := Closed | Open | HalfOpen.

#[export] Instance CircuitState_eq_dec : EqDecision CircuitState.
Proof. solve_decision. Defined.

Record CircuitBreaker : Type := {
  circuit_state : CircuitState;
  failure_count : Z;
  success_count : Z;
  last_failure_time : option Instant;
  failure_threshold : Z;
  success_threshold : Z;
  circuit_timeout : Z
}.

Definition CircuitBreaker_new (failures successes timeout : Z) : CircuitBreaker := {|
  circuit_state := Closed; failure_count := 0; success_count := 0; last_failure_time := None;
  failure_threshold := failures; success_threshold := successes; circuit_timeout := timeout
|}.

Definition breaker_with (b : CircuitBreaker) (state : CircuitState) (failures successes : Z) (last : option Instant) : CircuitBreaker := {|
  circuit_state := state; failure_count := failures; success_count := successes; last_failure_time := last;
  failure_threshold := failure_threshold b; success_threshold := success_threshold b; circuit_timeout := circuit_timeout b
|}.

Definition set_state (s : CircuitState) (b : CircuitBreaker) : CircuitBreaker :=
  breaker_with b s (failure_count b) (success_count b) (last_failure_time b).
Definition set_failures (n : Z) (b : CircuitBreaker) : CircuitBreaker :=
  breaker_with b (circuit_state b) n (success_count b) (last_failure_time b).
Definition set_successes (n : Z) (b : CircuitBreaker) : CircuitBreaker :=
  breaker_with b (circuit_state b) (failure_count b) n (last_failure_time b).
Definition set_last_failure (now : Instant) (b : CircuitBreaker) : CircuitBreaker :=
  breaker_with b (circuit_state b) (failure_count b) (success_count b) (Some now).

(** [last.elapsed() >= self.timeout]. *)
Definition timeout_passed (last now : Instant) (b : CircuitBreaker) : bool := (circuit_timeout b <=? Z.max 0 (now - last))%Z.

Definition circuit_is_open : string := "Circuit breaker is open".

(** *** A call as a whole *)

Definition on_success (b : CircuitBreaker) : CircuitBreaker :=
  match circuit_state b with
  | HalfOpen =>
      let success := u64_fetch_add (success_count b) 1 in
      let b := set_successes success b in
      if (success_threshold b <=? success)%Z then set_failures 0 (set_state Closed b) else b
  | Closed => set_failures 0 b
  | Open => b
  end.

Definition on_failure (now : Instant) (b : CircuitBreaker) : CircuitBreaker :=
  match circuit_state b with
  | HalfOpen => set_successes 0 (set_last_failure now (set_state Open b))
  | Closed =>
      let failures := u64_fetch_add (failure_count b) 1 in
      let b := set_last_failure now (set_failures failures b) in
      if (failure_threshold b <=? failures)%Z then set_state Open b else b
  | Open => set_last_failure now b
  end.

(** Whether the operation may run, and the state it runs in. *)
Definition circuit_admit (now : Instant) (b : CircuitBreaker) : option CircuitBreaker :=
  match circuit_state b with
  | Open =>
      last ← last_failure_time b;
      if timeout_passed last now b then Some (set_successes 0 (set_state HalfOpen b)) else None
  | _ => Some b
  end.

Section call.
Context {T : Type}.

(** [start] and [finish]: when the call begins and when the operation, which would return
    [outcome], has ended. *)
Definition circuit_call (start finish : Instant) (outcome : Result string T) (b : CircuitBreaker)
    : Result string T * CircuitBreaker :=
  match circuit_admit start b with
  | None => (Err circuit_is_open, b)
  | Some b => (outcome, if is_ok outcome then on_success b else on_failure finish b)
  end.
End call.

Definition is_open (b : CircuitBreaker) : bool := bool_decide (circuit_state b = Open).

(** *** A call as its critical sections *)

Section steps.
Context {T : Type}.

(** Where a call is; the result of the operation once it has run. *)
Inductive CallPc : Type :=
  | CallStart
  | CallReadFailure
  | CallHalfOpen
  | CallResetSuccesses
  | CallRun
  | SuccessRead (t : T)
  | SuccessCount (t : T)
  | SuccessClose (t : T)
  | SuccessResetFailures (t : T)
  | FailureRead (e : string)
  | FailureReopen (e : string)
  | FailureReopenTime (e : string)
  | FailureResetSuccesses (e : string)
  | FailureCount (e : string)
  | FailureTime (failures : Z) (e : string)
  | FailureOpen (e : string)
  | FailureTouch (e : string)
  | CallDone (r : Result string T).

(** One critical section at the instant [now]; [outcome] is read where the operation ends. *)
Definition call_step (now : Instant) (outcome : Result string T) (pc : CallPc) (b : CircuitBreaker) : CallPc * CircuitBreaker :=
  match pc with
  | CallStart => (match circuit_state b with Open => CallReadFailure | _ => CallRun end, b)
  | CallReadFailure =>
      (match last_failure_time b with
       | Some last => if timeout_passed last now b then CallHalfOpen else CallDone (Err circuit_is_open)
       | None => CallDone (Err circuit_is_open)
       end, b)
  | CallHalfOpen => (CallResetSuccesses, set_state HalfOpen b)
  | CallResetSuccesses => (CallRun, set_successes 0 b)
  | CallRun => (match outcome with Ok t => SuccessRead t | Err e => FailureRead e end, b)
  | SuccessRead t =>
      (match circuit_state b with
       | HalfOpen => SuccessCount t | Closed => SuccessResetFailures t | Open => CallDone (Ok t)
       end, b)
  | SuccessCount t =>
      let success := u64_fetch_add (success_count b) 1 in
      (if (success_threshold b <=? success)%Z then SuccessClose t else CallDone (Ok t), set_successes success b)
  | SuccessClose t => (SuccessResetFailures t, set_state Closed b)
  | SuccessResetFailures t => (CallDone (Ok t), set_failures 0 b)
  | FailureRead e =>
      (match circuit_state b with
       | HalfOpen => FailureReopen e | Closed => FailureCount e | Open => FailureTouch e
       end, b)
  | FailureReopen e => (FailureReopenTime e, set_state Open b)
  | FailureReopenTime e => (FailureResetSuccesses e, set_last_failure now b)
  | FailureResetSuccesses e => (CallDone (Err e), set_successes 0 b)
  | FailureCount e =>
      let failures := u64_fetch_add (failure_count b) 1 in (FailureTime failures e, set_failures failures b)
  | FailureTime failures e =>
      (if (failure_threshold b <=? failures)%Z then FailureOpen e else CallDone (Err e), set_last_failure now b)
  | FailureOpen e => (CallDone (Err e), set_state Open b)
  | FailureTouch e => (CallDone (Err e), set_last_failure now b)
  | CallDone r => (CallDone r, b)
  end.

(** The sections after the operation has ended run at [finish], those before at [start]. *)
Definition has_run (pc : CallPc) : bool :=
  match pc with
  | CallStart | CallReadFailure | CallHalfOpen | CallResetSuccesses | CallRun => false
  | _ => true
  end.

(** A call without others beside it. *)
Definition alone_step (start finish : Instant) (outcome : Result string T) (c : CallPc * CircuitBreaker) : CallPc * CircuitBreaker :=
  call_step (if has_run c.1 then finish else start) outcome c.1 c.2.

Fixpoint run_alone (n : nat) (start finish : Instant) (outcome : Result string T) (c : CallPc * CircuitBreaker) : CallPc * CircuitBreaker :=
  match n with
  | O => c
  | Datatypes.S n => run_alone n start finish outcome (alone_step start finish outcome c)
  end.

Lemma run_alone_S n start finish outcome c :
  run_alone (Datatypes.S n) start finish outcome c = run_alone n start finish outcome (alone_step start finish outcome c).
Proof. done. Qed.

Lemma run_alone_done n start finish outcome r b : run_alone n start finish outcome (CallDone r, b) = (CallDone r, b).
Proof. induction n as [|n IH]; [done|]. by rewrite run_alone_S. Qed.

Ltac alone := repeat first
  [ rewrite run_alone_done
  | progress cbn [fst snd circuit_state failure_count success_count last_failure_time failure_threshold success_threshold
      circuit_timeout breaker_with set_state set_failures set_successes set_last_failure has_run is_ok call_step alone_step
      mbind option_bind]
  | rewrite run_alone_S
  | case_match; simplify_eq ].

(** Alone, the sections of a call do what the call as a whole does. *)
Lemma call_alone (start finish : Instant) (outcome : Result string T) (b : CircuitBreaker) :
  run_alone 9 start finish outcome (CallStart, b) =
  let '(r, b') := circuit_call start finish outcome b in (CallDone r, b').
Proof.
  unfold circuit_call, circuit_admit, on_success, on_failure.
  destruct b as [[] fc sc [last|] ft st tmo], outcome as [t|e]; alone; done.
Qed.
End steps.
Arguments CallPc T : clear implicits.

(** *** Calls one after the other *)

(** What a circuit breaker is: failures in a row are counted; once there are enough, calls
    are refused for the timeout; then enough successes without a failure close it. *)
Inductive Circuit : Type :=
  | Counting (failures : Z)
  | Tripped (since : Instant)
  | Probing (successes : Z).

Section spec.
Context {T : Type} (failures successes timeout : Z).

Definition probe (finish : Instant) (ok : bool) (n : Z) : Circuit :=
  if ok then if (successes <=? n + 1)%Z then Counting 0 else Probing (n + 1) else Tripped finish.

(** Whether the call is admitted, and the circuit after it. *)
Definition spec_call (start finish : Instant) (ok : bool) (c : Circuit) : bool * Circuit :=
  match c with
  | Counting n =>
      (true, if ok then Counting 0 else if (failures <=? n + 1)%Z then Tripped finish else Counting (n + 1))
  | Tripped since => if (timeout <=? Z.max 0 (start - since))%Z then (true, probe finish ok 0) else (false, c)
  | Probing n => (true, probe finish ok n)
  end.

(** The start, the end and the outcome of each call. *)
Abbreviation Calls := (list (Instant * Instant * Result string T)).

Fixpoint spec_calls (calls : Calls) (c : Circuit) : list (Result string T) * Circuit :=
  match calls with
  | [] => ([], c)
  | (start, finish, outcome) :: calls =>
      let '(admitted, c) := spec_call start finish (is_ok outcome) c in
      let '(results, c) := spec_calls calls c in
      ((if admitted then outcome else Err circuit_is_open) :: results, c)
  end.

Fixpoint circuit_calls (calls : Calls) (b : CircuitBreaker) : list (Result string T) * CircuitBreaker :=
  match calls with
  | [] => ([], b)
  | (start, finish, outcome) :: calls =>
      let '(r, b) := circuit_call start finish outcome b in
      let '(results, b) := circuit_calls calls b in
      (r :: results, b)
  end.

(** The breaker and the circuit it is: the counter that matters is below its threshold. *)
Definition breaker_is (b : CircuitBreaker) (c : Circuit) : Prop :=
  failure_threshold b = failures ∧ success_threshold b = successes ∧ circuit_timeout b = timeout ∧
  match circuit_state b, c with
  | Closed, Counting n => failure_count b = n ∧ (0 <= n < Z.max 1 failures)%Z
  | Open, Tripped since => last_failure_time b = Some since
  | HalfOpen, Probing n => success_count b = n ∧ (0 <= n < Z.max 1 successes)%Z
  | _, _ => False
  end.

Lemma fetch_add_below (n m : Z) : (0 <= n < Z.max 1 m)%Z → (m < u64_modulus)%Z → u64_fetch_add n 1 = (n + 1)%Z.
Proof.
  intros Hn Hm. unfold u64_fetch_add, u64_wrap. apply Z.mod_small. unfold u64_modulus in *. lia.
Qed.

Context (Hfailures : (failures < u64_modulus)%Z) (Hsuccesses : (successes < u64_modulus)%Z).

Lemma on_success_is b n finish : breaker_is b (Probing n) → breaker_is (on_success b) (probe finish true n).
Proof.
  destruct b as [[] fc sc last ft st tmo]; intros (? & ? & ? & Hb); cbn in *; try done. destruct Hb as [-> Hn]; subst.
  unfold on_success, probe. cbn. erewrite fetch_add_below by done.
  destruct (Z.leb_spec successes (n + 1)); split_and!; cbn; auto with lia.
Qed.

Lemma on_failure_is b n finish : breaker_is b (Probing n) → breaker_is (on_failure finish b) (probe finish false n).
Proof. destruct b as [[] fc sc last ft st tmo]; intros (? & ? & ? & Hb); cbn in *; by subst. Qed.

Lemma probe_is b n finish (outcome : Result string T) :
  breaker_is b (Probing n) →
  breaker_is (if is_ok outcome then on_success b else on_failure finish b) (probe finish (is_ok outcome) n).
Proof. destruct outcome; [apply on_success_is|apply on_failure_is]. Qed.

Lemma circuit_call_is start finish (outcome : Result string T) b c :
  breaker_is b c →
  let '(r, b') := circuit_call start finish outcome b in
  let '(admitted, c') := spec_call start finish (is_ok outcome) c in
  r = (if admitted then outcome else Err circuit_is_open) ∧ breaker_is b' c'.
Proof.
  intros Hb. destruct b as [[] fc sc last ft st tmo], c as [n|since|n]; pose proof Hb as (? & ? & ? & Hn); try done; cbn in Hn.
  - destruct Hn as [-> Hn]. cbn in *. subst. split; [done|]. destruct outcome as [t|e]; cbn; [by split_and!; cbn; auto with lia|].
    unfold on_failure. cbn. erewrite fetch_add_below by done.
    destruct (Z.leb_spec failures (n + 1)); split_and!; cbn; auto with lia.
  - cbn in *. subst. unfold circuit_call, circuit_admit, timeout_passed. cbn -[breaker_is is_ok probe on_success on_failure].
    destruct (_ <=? _)%Z; [|done]. split; [done|]. apply probe_is. split_and!; cbn; auto with lia.
  - cbn -[breaker_is is_ok probe on_success on_failure]. split; [done|]. by apply probe_is.
Qed.

(** C20: On calls that follow each other the breaker is the abstract circuit: which calls run
    their operation, what they return, and the state after them. *)
Theorem breaker_refines_circuit (calls : Calls) :
  let '(results, b) := circuit_calls calls (CircuitBreaker_new failures successes timeout) in
  let '(results', c) := spec_calls calls (Counting 0) in
  results = results' ∧ breaker_is b c.
Proof.
  assert (H0 : breaker_is (CircuitBreaker_new failures successes timeout) (Counting 0)) by (split_and!; cbn; auto with lia).
  revert H0. generalize (CircuitBreaker_new failures successes timeout), (Counting 0).
  induction calls as [|[[start finish] outcome] calls IH]; intros b c Hb; [done|]. cbn.
  pose proof (circuit_call_is start finish outcome b c Hb) as Hcall.
  destruct (circuit_call _ _ _ _) as [r b'], (spec_call _ _ _ _) as [admitted c'], Hcall as [-> Hb'].
  specialize (IH b' c' Hb'). destruct (circuit_calls _ _), (spec_calls _ _), IH as [-> ?]. done.
Qed.
End spec.

(** Two failures open the breaker, a call within the timeout is refused, a later one
    succeeds and closes it. *)
Definition sample_calls : list (Instant * Instant * Result string nat) :=
  [(0, 10, Err "a"); (20, 30, Err "b"); (40, 50, Ok 1%nat); (1040, 1050, Ok 2%nat); (1060, 1070, Ok 3%nat)]%Z.

Example sample_calls_results :
  (circuit_calls sample_calls (CircuitBreaker_new 2 1 1000)).1 =
  [Err "a"; Err "b"; Err circuit_is_open; Ok 2%nat; Ok 3%nat].
Proof. reflexivity. Qed.

Lemma breaker_refines_circuit_witness :
  (2 < u64_modulus)%Z ∧ (1 < u64_modulus)%Z ∧
  let '(results, b) := circuit_calls sample_calls (CircuitBreaker_new 2 1 1000) in
  let '(results', c) := spec_calls 2 1 1000 sample_calls (Counting 0) in
  results = results' ∧ breaker_is 2 1 1000 b c.
Proof. split_and!; [done..|]. apply (breaker_refines_circuit 2 1 1000); done. Defined.

(** *** Concurrent calls *)

Section concurrent.
Context {T : Type}.

Record CircuitSystem : Type := {
  sys_breaker : CircuitBreaker;
  sys_now : Instant;
  sys_calls : list (CallPc T)
}.

Inductive circuit_step : CircuitSystem → CircuitSystem → Prop :=
  | circuit_begin b now calls :
      circuit_step {| sys_breaker := b; sys_now := now; sys_calls := calls |}
        {| sys_breaker := b; sys_now := now; sys_calls := calls ++ [CallStart] |}
  | circuit_wait b now calls d :
      (0 <= d)%Z →
      circuit_step {| sys_breaker := b; sys_now := now; sys_calls := calls |}
        {| sys_breaker := b; sys_now := (now + d)%Z; sys_calls := calls |}
  | circuit_advance b now calls i pc outcome :
      calls !! i = Some pc →
      circuit_step {| sys_breaker := b; sys_now := now; sys_calls := calls |}
        {| sys_breaker := (call_step now outcome pc b).2; sys_now := now;
           sys_calls := <[i := (call_step now outcome pc b).1]> calls |}.

Definition circuit_start (b : CircuitBreaker) (now : Instant) : CircuitSystem :=
  {| sys_breaker := b; sys_now := now; sys_calls := [] |}.

(** The calls that rely on the time of a failure being stored. *)
Definition after_failure (pc : CallPc T) : bool :=
  match pc with
  | CallReadFailure | CallHalfOpen | FailureReopen _ | FailureReopenTime _ | FailureOpen _ => true
  | _ => false
  end.

Definition circuit_inv (s : CircuitSystem) : Prop :=
  (∀ last, last_failure_time (sys_breaker s) = Some last → (last <= sys_now s)%Z) ∧
  (circuit_state (sys_breaker s) ≠ Closed → is_Some (last_failure_time (sys_breaker s))) ∧
  ∀ i pc, sys_calls s !! i = Some pc → after_failure pc = true → is_Some (last_failure_time (sys_breaker s)).

Lemma call_step_inv now outcome pc b :
  (∀ last, last_failure_time b = Some last → (last <= now)%Z) →
  (circuit_state b ≠ Closed → is_Some (last_failure_time b)) →
  (after_failure pc = true → is_Some (last_failure_time b)) →
  let '(pc', b') := call_step now outcome pc b in
  (∀ last, last_failure_time b' = Some last → (last <= now)%Z) ∧
  (circuit_state b' ≠ Closed → is_Some (last_failure_time b')) ∧
  (after_failure pc' = true → is_Some (last_failure_time b')) ∧
  (is_Some (last_failure_time b) → is_Some (last_failure_time b')).
Proof.
  intros Hnow Hs Hpc. destruct b as [st fc sc last fth sth tmo]. cbn in *.
  destruct pc; cbn in *; repeat case_match; cbn in *; split_and!; try done; eauto; intros; simplify_eq; auto with lia.
Qed.

Lemma circuit_step_inv s s' : circuit_inv s → circuit_step s s' → circuit_inv s'.
Proof.
  intros (Hnow & Hs & Hpc). destruct 1 as [b now calls|b now calls d Hd|b now calls i pc outcome Hi]; cbn in *.
  - split_and!; [done..|]. intros i pc [Hi|[_ Hi]]%lookup_app_Some; [by eapply Hpc|].
    by apply list_lookup_singleton_Some in Hi as [_ <-].
  - split_and!; [|done..]. intros last Hl. cbn. specialize (Hnow last Hl). lia.
  - pose proof (call_step_inv now outcome pc b Hnow Hs (Hpc i pc Hi)) as Hc.
    unfold circuit_inv. cbn. destruct (call_step now outcome pc b) as [pc' b'], Hc as (? & ? & ? & Hmono).
    split_and!; [done..|]. intros j pc'' [(-> & <- & _)|[_ Hj]]%list_lookup_insert_Some; [done|].
    intros Ha. by eapply Hmono, Hpc.
Qed.

Lemma circuit_reachable_inv failures successes timeout now s :
  rtc circuit_step (circuit_start (CircuitBreaker_new failures successes timeout) now) s → circuit_inv s.
Proof.
  intros Hr. assert (H0 : circuit_inv (circuit_start (CircuitBreaker_new failures successes timeout) now)) by done.
  induction Hr as [|s1 s2 s3 Hstep _ IH]; [done|]. by eapply IH, circuit_step_inv.
Qed.

(** Whatever the interleaving, a call is refused only within the timeout of a failure: the
    branch for an open breaker without a failure is never taken. *)
Theorem refused_within_timeout (failures successes timeout : Z) (now : Instant) (s : CircuitSystem) (i : nat)
    (outcome : Result string T) (r : Result string T)
    (Hr : rtc circuit_step (circuit_start (CircuitBreaker_new failures successes timeout) now) s)
    (Hi : sys_calls s !! i = Some CallReadFailure)
    (Hrefused : (call_step (sys_now s) outcome CallReadFailure (sys_breaker s)).1 = CallDone r) :
  r = Err circuit_is_open ∧
  ∃ last, last_failure_time (sys_breaker s) = Some last ∧
    (last <= sys_now s < last + circuit_timeout (sys_breaker s))%Z.
Proof.
  pose proof (circuit_reachable_inv _ _ _ _ _ Hr) as (Hnow & _ & Hpc).
  destruct (Hpc i _ Hi eq_refl) as [last Hlast]. cbn in Hrefused. rewrite Hlast in Hrefused.
  unfold timeout_passed in Hrefused. specialize (Hnow last Hlast).
  destruct (Z.leb_spec (circuit_timeout (sys_breaker s)) (Z.max 0 (sys_now s - last))); [done|].
  simplify_eq. split; [done|]. exists last. split; [done|]. lia.
Qed.

(** *** Runs *)

Inductive CircuitAction : Type :=
  | Begin
  | Wait (d : Z)
  | Advance (i : nat) (outcome : Result string T).

Definition circuit_act (a : CircuitAction) (s : CircuitSystem) : option CircuitSystem :=
  match a with
  | Begin => Some {| sys_breaker := sys_breaker s; sys_now := sys_now s; sys_calls := sys_calls s ++ [CallStart] |}
  | Wait d =>
      if (0 <=? d)%Z then Some {| sys_breaker := sys_breaker s; sys_now := (sys_now s + d)%Z; sys_calls := sys_calls s |}
      else None
  | Advance i outcome =>
      pc ← sys_calls s !! i;
      let '(pc', b') := call_step (sys_now s) outcome pc (sys_breaker s) in
      Some {| sys_breaker := b'; sys_now := sys_now s; sys_calls := <[i := pc']> (sys_calls s) |}
  end.

Fixpoint circuit_run (actions : list CircuitAction) (s : CircuitSystem) : option CircuitSystem :=
  match actions with
  | [] => Some s
  | a :: actions => s' ← circuit_act a s; circuit_run actions s'
  end.

Lemma circuit_act_step a s s' : circuit_act a s = Some s' → circuit_step s s'.
Proof.
  destruct s as [b now calls], a as [|d|i outcome]; cbn.
  - intros [= <-]. constructor.
  - destruct (Z.leb_spec 0 d); [|done]. intros [= <-]. by constructor.
  - intros (pc & Hpc & Hs')%bind_Some.
    destruct (call_step now outcome pc b) as [pc' b'] eqn:Hc. simplify_eq.
    pose proof (circuit_advance b now calls i pc outcome Hpc) as Hstep. by rewrite Hc in Hstep.
Qed.

Lemma circuit_run_rtc actions s s' : circuit_run actions s = Some s' → rtc circuit_step s s'.
Proof.
  revert s. induction actions as [|a actions IH]; cbn; [by intros s [= ->]|].
  intros s (s1 & H1 & H2)%bind_Some. eapply rtc_l; [by eapply circuit_act_step|by apply IH].
Qed.
End concurrent.
Arguments CircuitSystem T : clear implicits.

Definition advances (i n : nat) (outcome : Result string nat) : list CircuitAction := repeat (Advance i outcome) n.

(** The first call fails and opens the circuit.  A second after, two calls probe it at once;
    the second one begins when the first has set the state, and fails before the first one
    counts its success. *)
Definition reopening : list CircuitAction :=
  Begin :: advances 0 7 (Err "down") ++ Wait 1000000 ::
  Begin :: advances 1 6 (Ok 1%nat) ++ Begin :: advances 2 6 (Err "down").
Definition late_success : list CircuitAction := advances 1 3 (Ok 1%nat).

Definition probed_system : CircuitSystem nat := circuit_start (CircuitBreaker_new 1 1 1000000) 0.
Definition after_run (actions : list CircuitAction) (s : CircuitSystem nat) : CircuitSystem nat :=
  default s (circuit_run actions s).

Lemma after_run_rtc actions s : rtc circuit_step s (after_run actions s).
Proof. unfold after_run. destruct (circuit_run actions s) eqn:H; [by eapply circuit_run_rtc|done]. Qed.

(** A failure has just opened the circuit again, and in the same instant, without any
    timeout, the late success of the other call closes it and forgets the failures. *)
Theorem reopened_circuit_closed_at_once :
  ∃ s1 s2 : CircuitSystem nat,
    rtc circuit_step probed_system s1 ∧
    is_open (sys_breaker s1) = true ∧ last_failure_time (sys_breaker s1) = Some (sys_now s1) ∧
    rtc circuit_step s1 s2 ∧ sys_now s2 = sys_now s1 ∧
    circuit_state (sys_breaker s2) = Closed ∧ failure_count (sys_breaker s2) = 0%Z.
Proof.
  exists (after_run reopening probed_system), (after_run late_success (after_run reopening probed_system)).
  split_and!; try apply after_run_rtc; vm_compute; reflexivity.
Qed.

Definition one_failure : list CircuitAction := Begin :: advances 0 7 (Err "down") ++ [Wait 10; Begin] ++ advances 1 1 (Ok 1%nat).

Lemma refused_within_timeout_witness :
  ∃ s : CircuitSystem nat, sys_calls s !! 1%nat = Some CallReadFailure ∧
    ∃ last, last_failure_time (sys_breaker s) = Some last ∧ (last <= sys_now s < last + circuit_timeout (sys_breaker s))%Z.
Proof.
  set (s := {| sys_breaker := breaker_with (CircuitBreaker_new 1 1 1000) Open 1 0 (Some 0%Z); sys_now := 10;
               sys_calls := [CallDone (Err "down"); CallReadFailure] |} : CircuitSystem nat).
  exists s. split; [reflexivity|].
  apply (refused_within_timeout 1 1 1000 0 s 1 (Ok 1%nat) (Err circuit_is_open)).
  - apply (circuit_run_rtc one_failure). reflexivity.
  - reflexivity.
  - reflexivity.
Defined.
