(* ===== verification/Revenue.v ===== *)
(** * The revenue of a sold lead

    [crates/core/src/services/revenue_calculator.rs]: the split of the price on IEEE-754
    values, and the record of it, made unless the lead has one.  No schema in the
    repository has the table [lead_revenues]; it is a list of rows without constraints. *)

From stdpp Require Import base list strings.
From Stdlib Require Import ZArith Lia.
From S2P Require Import Prelude Float64 Platform Json Models.

Open Scope string_scope.
Open Scope list_scope.

(** ** The split *)

Definition PLATFORM_FEE : f64 := f64_of_decimal 15 (-4).

Record RevenueCalculation : Type := {
  gross_sale_price : f64;
  platform_fee : f64;
  publisher_payment : f64;
  admin_fee_amount : f64
}.

Definition publisher_share (after_platform_fee : f64) (percentage flat : option f64) : f64 :=
  match percentage, flat with
  | Some p, _ => f64_mul after_platform_fee (f64_div p (f64_of_Z 100))
  | None, Some flat => f64_max (f64_sub after_platform_fee flat) f64_zero
  | None, None => f64_mul after_platform_fee (f64_of_decimal 8 (-1))
  end.

(** [sqlx::Error::RowNotFound]. *)
Definition row_not_found : string := "no rows returned by a query that expected to return at least one row".

Definition calculate_revenue (lead_value : f64) (percentage flat : option f64) : Result string RevenueCalculation :=
  if f64_le lead_value f64_zero then Err row_not_found
  else
    let after_platform_fee := f64_sub lead_value PLATFORM_FEE in
    let payment := publisher_share after_platform_fee percentage flat in
    Ok {| gross_sale_price := lead_value; platform_fee := PLATFORM_FEE; publisher_payment := payment;
          admin_fee_amount := f64_sub after_platform_fee payment |}.

(** ** The record *)

Record LeadRevenue : Type := {
  revenue_id : Uuid;
  revenue_lead_id : Uuid;
  revenue_lead_sale_id : option Uuid;
  revenue_gross_sale_price : f64;
  revenue_buyer_payment : f64;
  revenue_platform_fee : f64;
  revenue_admin_fee_percentage : option f64;
  revenue_admin_fee_amount : f64;
  revenue_publisher_payment : f64;
  revenue_publisher_id : Uuid;
  revenue_buyer_id : Uuid;
  revenue_campaign_id : Uuid;
  revenue_admin_id : option Uuid;
  revenue_payment_status : string
}.

(** The table, and which of the next statements fail. *)
Record Revenues : Type := {
  revenue_rows : list LeadRevenue;
  revenue_outcomes : list (option string)
}.

Definition revenue_statement {A} (f : list LeadRevenue → A * list LeadRevenue) : eff Revenues string A := λ w,
  match revenue_outcomes w with
  | Some e :: rest => (Err e, {| revenue_rows := revenue_rows w; revenue_outcomes := rest |})
  | outcomes =>
      let '(a, rows) := f (revenue_rows w) in (Ok a, {| revenue_rows := rows; revenue_outcomes := List.tl outcomes |})
  end.

Definition admin_fee_percentage (c : RevenueCalculation) : option f64 :=
  if f64_gt (gross_sale_price c) f64_zero
  then Some (f64_mul (f64_div (admin_fee_amount c) (gross_sale_price c)) (f64_of_Z 100)) else None.

Definition new_revenue (id lead : Uuid) (sale : option Uuid) (c : RevenueCalculation) (publisher buyer campaign : Uuid) : LeadRevenue := {|
  revenue_id := id; revenue_lead_id := lead; revenue_lead_sale_id := sale;
  revenue_gross_sale_price := gross_sale_price c; revenue_buyer_payment := gross_sale_price c;
  revenue_platform_fee := platform_fee c; revenue_admin_fee_percentage := admin_fee_percentage c;
  revenue_admin_fee_amount := admin_fee_amount c; revenue_publisher_payment := publisher_payment c;
  revenue_publisher_id := publisher; revenue_buyer_id := buyer; revenue_campaign_id := campaign;
  revenue_admin_id := None; revenue_payment_status := "pending" |}.

Definition of_lead (lead : Uuid) (r : LeadRevenue) : bool := bool_decide (revenue_lead_id r = lead).

(** The two statements: the check, and the insertion. *)
Definition existing_revenue (lead : Uuid) : eff Revenues string (option Uuid) :=
  revenue_statement (λ rows, (revenue_id <$> List.find (of_lead lead) rows, rows)).
Definition insert_revenue (r : LeadRevenue) : eff Revenues string unit :=
  revenue_statement (λ rows, (tt, rows ++ [r])).

(** What follows the check. *)
Definition record_revenue (r : LeadRevenue) (existing : option Uuid) : eff Revenues string Uuid :=
  match existing with
  | Some id => mret id
  | None => _ ← insert_revenue r; mret (revenue_id r)
  end.

Definition create_lead_revenue (id lead : Uuid) (sale : option Uuid) (c : RevenueCalculation) (publisher buyer campaign : Uuid)
    : eff Revenues string Uuid :=
  existing ← existing_revenue lead;
  record_revenue (new_revenue id lead sale c publisher buyer campaign) existing.

(** ** Lemmas *)

Definition revenues_of (lead : Uuid) (w : Revenues) : list LeadRevenue := List.filter (of_lead lead) (revenue_rows w).

Definition one_revenue (w : Revenues) : Prop := ∀ lead, (length (revenues_of lead w) <= 1)%nat.

Lemma revenue_statement_ok {A} (f : list LeadRevenue → A * list LeadRevenue) rows :
  revenue_statement f {| revenue_rows := rows; revenue_outcomes := [] |} =
  (Ok (f rows).1, {| revenue_rows := (f rows).2; revenue_outcomes := [] |}).
Proof. unfold revenue_statement. cbn. by destruct (f rows). Qed.

Lemma find_filter_None {A} (p : A → bool) l : List.find p l = None → List.filter p l = [].
Proof. induction l as [|x l IH]; cbn; [done|]. by destruct (p x). Qed.

Lemma find_Some_filter {A} (p : A → bool) l x : List.find p l = Some x → ∃ rest, List.filter p l = x :: rest.
Proof. induction l as [|y l IH]; cbn; [done|]. destruct (p y); [intros [= ->]; eauto|done]. Qed.

(** The check leaves the rows, and when it succeeds it has found the lead's row. *)
Lemma existing_revenue_spec lead w r w' :
  existing_revenue lead w = (r, w') →
  revenue_rows w' = revenue_rows w ∧ ∀ found, r = Ok found → found = revenue_id <$> List.find (of_lead lead) (revenue_rows w).
Proof.
  unfold existing_revenue, revenue_statement. destruct (revenue_outcomes w) as [|[e|] rest]; cbn;
    intros [= <- <-]; split; cbn; auto; intros; by simplify_eq.
Qed.

Lemma insert_revenue_rows r w res w' :
  insert_revenue r w = (res, w') →
  revenue_rows w' = if is_ok res then revenue_rows w ++ [r] else revenue_rows w.
Proof.
  unfold insert_revenue, revenue_statement. by destruct (revenue_outcomes w) as [|[e|] rest]; cbn; intros [= <- <-].
Qed.

(** ** Properties *)

(** Calls that follow each other, with whatever failing statements, make at most one record
    of a lead and change none; one that succeeds answers with the id of the lead's record. *)
Theorem revenue_recorded_once (id lead : Uuid) (sale : option Uuid) (c : RevenueCalculation) (publisher buyer campaign : Uuid)
    (w w' : Revenues) (r : Result string Uuid) (Hw : one_revenue w)
    (Hrun : create_lead_revenue id lead sale c publisher buyer campaign w = (r, w')) :
  one_revenue w' ∧ revenue_rows w `prefix_of` revenue_rows w' ∧
  ∀ found, r = Ok found → revenue_id <$> revenues_of lead w' = [found].
Proof.
  set (row := new_revenue id lead sale c publisher buyer campaign).
  unfold create_lead_revenue in Hrun. fold row in Hrun.
  apply eff_bind_inv in Hrun as [(existing & w1 & H1 & Hrun)|(e & H1 & ->)].
  2:{ apply existing_revenue_spec in H1 as [Hrows _]. unfold one_revenue, revenues_of. rewrite Hrows. by split_and!. }
  apply existing_revenue_spec in H1 as [Hrows Hfound]. specialize (Hfound _ eq_refl). subst existing.
  destruct (List.find (of_lead lead) (revenue_rows w)) as [old|] eqn:Hfind; cbn in Hrun.
  - injection Hrun as <- <-. unfold one_revenue, revenues_of. rewrite Hrows. split_and!; [done..|].
    intros found [= <-]. destruct (find_Some_filter _ _ _ Hfind) as [rest Hrest]. rewrite Hrest.
    specialize (Hw lead). unfold revenues_of in Hw. rewrite Hrest in Hw. by destruct rest; cbn in *; [|lia].
  - apply find_filter_None in Hfind.
    apply eff_bind_inv in Hrun as [(u & w2 & H2 & [= <- <-])|(e & H2 & ->)]; apply insert_revenue_rows in H2;
      cbn in H2; unfold one_revenue, revenues_of; rewrite H2, Hrows; [|by split_and!].
    split_and!; [|by eexists|].
    + intros l. rewrite List.filter_app, length_app. cbn. unfold of_lead at 2. cbn.
      case_bool_decide as Hl; [|specialize (Hw l); unfold revenues_of in Hw; cbn; lia].
      subst l. by rewrite Hfind.
    + intros found [= <-]. rewrite List.filter_app, Hfind. cbn. unfold of_lead. cbn. by rewrite bool_decide_true.
Qed.

(** The check and the insertion are two statements: when two calls for a lead without a
    record both check before either inserts, the lead has two records and each call
    answers with the id of its own. *)
Theorem revenue_recorded_twice (id1 id2 lead : Uuid) (sale : option Uuid) (c : RevenueCalculation)
    (publisher buyer campaign : Uuid) (rows : list LeadRevenue) (Hnone : List.find (of_lead lead) rows = None) :
  let w := {| revenue_rows := rows; revenue_outcomes := [] |} in
  let row id := new_revenue id lead sale c publisher buyer campaign in
  ∃ w', (first ← existing_revenue lead; second ← existing_revenue lead;
         r1 ← record_revenue (row id1) first; r2 ← record_revenue (row id2) second; mret (r1, r2)) w
        = (Ok (id1, id2), w') ∧
    revenue_id <$> revenues_of lead w' = [id1; id2].
Proof.
  cbn zeta. eexists. unfold existing_revenue, record_revenue, insert_revenue. split.
  - do 2 (rewrite eff_bind_eq, revenue_statement_ok; cbn [fst snd]; rewrite Hnone; cbn [fmap option_fmap option_map]).
    do 2 (rewrite !eff_bind_eq, revenue_statement_ok; cbn [fst snd mret eff_ret]). reflexivity.
  - unfold revenues_of. cbn [revenue_rows]. rewrite <-app_assoc, List.filter_app, (find_filter_None _ _ Hnone). cbn.
    unfold of_lead. cbn. by rewrite bool_decide_true.
Qed.

Lemma f64_max_zero (x : f64) : f64_lt (f64_max x f64_zero) f64_zero = false ∧ f64_is_nan (f64_max x f64_zero) = false.
Proof.
  unfold f64_max. destruct x as [[]|[]| |[] m e]; try done.
Qed.

(** The split: only a price that is not positive is refused (a NaN is not); a percentage
    wins over a flat amount that is given as well; what a flat amount leaves the publisher
    is never negative nor NaN. *)
Theorem calculate_revenue_spec (lead_value : f64) (percentage flat : option f64) :
  match calculate_revenue lead_value percentage flat with
  | Err _ => f64_is_nan lead_value = false ∧ f64_gt lead_value f64_zero = false
  | Ok c =>
      (f64_is_nan lead_value = true ∨ f64_gt lead_value f64_zero = true) ∧
      gross_sale_price c = lead_value ∧
      (is_Some percentage → calculate_revenue lead_value percentage None = Ok c) ∧
      (percentage = None → is_Some flat →
       f64_lt (publisher_payment c) f64_zero = false ∧ f64_is_nan (publisher_payment c) = false)
  end.
Proof.
  unfold calculate_revenue. destruct (f64_le lead_value f64_zero) eqn:Hle.
  - by destruct lead_value as [[]|[]| |[] m e].
  - split_and!; [destruct lead_value as [[]|[]| |[] m e]; by auto|done|by intros [p ->]|].
    intros -> [x ->]. apply f64_max_zero.
Qed.

(** A price below the platform fee makes the publisher's share of it negative. *)
Theorem small_price_costs_publisher :
  ∃ lead_value c, calculate_revenue lead_value (Some (f64_of_Z 80)) None = Ok c ∧
    f64_gt lead_value f64_zero = true ∧ f64_lt (publisher_payment c) f64_zero = true.
Proof. exists (f64_of_decimal 1 (-3)). eexists. by split_and!. Qed.

(** ** Witnesses *)

Definition sample_calculation : RevenueCalculation := result_or
  {| gross_sale_price := f64_zero; platform_fee := f64_zero; publisher_payment := f64_zero; admin_fee_amount := f64_zero |}
  (calculate_revenue (f64_of_Z 50) None (Some (f64_of_Z 10))).

Lemma revenue_recorded_once_witness :
  let w := {| revenue_rows := []; revenue_outcomes := [] |} in
  ∃ w', one_revenue w ∧ create_lead_revenue 1 2 None sample_calculation 3 4 5 w = (Ok 1%N, w') ∧
    revenue_id <$> revenues_of 2 w' = [1%N].
Proof.
  cbn zeta. eexists. split_and!; [intros l; cbn; lia|reflexivity|].
  eapply (revenue_recorded_once 1 2 None sample_calculation 3 4 5 {| revenue_rows := []; revenue_outcomes := [] |});
    [intros l; cbn; lia|reflexivity..].
Defined.

Lemma revenue_recorded_twice_witness :
  ∃ w', revenue_id <$> revenues_of 2 w' = [1%N; 6%N].
Proof.
  destruct (revenue_recorded_twice 1 6 2 None sample_calculation 3 4 5 [] eq_refl) as (w' & _ & H). by exists w'.
Defined.
