(* ===== verification/Samples.v ===== *)
(** * Concrete inputs

    Small values of the data model on which the witnesses evaluate. *)

From stdpp Require Import base list strings gmap.
From Stdlib Require Import ZArith.
From S2P Require Import Prelude Float64 Platform Json Models Metrics.

Open Scope string_scope.
Open Scope list_scope.

Definition sample_lead (status : LeadStatus) (campaign : option Uuid) (promise : option string)
    (vertical_data : json) : Lead := {|
  lead_uuid := 1%N;
  lead_event_id := "evt_1";
  lead_lead_id := Some "lead_001";
  lead_publisher_id := Some 7%N;
  lead_vertical_id := 3%N;
  lead_campaign_id := campaign;
  lead_buyer_id := None;
  lead_request_type := "ping";
  lead_strategy := "pingPost";
  lead_status := status;
  lead_promise_id := promise;
  lead_ping_id := None;
  lead_post_id := Some "";
  lead_session_id := None;
  lead_request_stage := None;
  lead_first_name_encrypted := Some "enc_first";
  lead_last_name_encrypted := Some "enc_last";
  lead_email_encrypted := Some "enc_email";
  lead_cell_phone_encrypted := Some "enc_phone";
  lead_street_address_encrypted := None;
  lead_city_encrypted := None;
  lead_state_encrypted := None;
  lead_zip_encrypted := Some "enc_zip";
  lead_ip_address_encrypted := Some "enc_ip";
  lead_email_sha256 := None;
  lead_phone_sha256 := None;
  lead_ip_address_hash := None;
  lead_email_domain := None;
  lead_tcpa_consent := true;
  lead_tcpa_language := "en";
  lead_is_test := false;
  lead_user_agent := None;
  lead_referrer := None;
  lead_website_url := None;
  lead_click_id := None;
  lead_url_consent := None;
  lead_best_call_time := None;
  lead_date_of_birth := None;
  lead_home_phone := None;
  lead_jornaya_lead_id := None;
  lead_trusted_form_url := None;
  lead_fbp_cookie := None;
  lead_fbc_cookie := None;
  lead_utm_params := None;
  lead_submitted_at := None;
  lead_sold_at := None;
  lead_retry_count := 0;
  lead_next_retry_at := None;
  lead_vertical_data := vertical_data;
  lead_created_at := 0;
  lead_updated_at := 0
|}.

Definition sample_campaign (id buyer : Uuid) : Campaign := {|
  campaign_id := id;
  campaign_buyer_id := buyer;
  campaign_publisher_id := 7%N;
  campaign_instance_id := 9%N;
  campaign_name := None;
  campaign_vertical := "solar";
  campaign_campaign_token := "token";
  campaign_status := CampaignActive;
  campaign_is_documentation_test := false;
  campaign_deleted_at := None;
  campaign_created_at := 0;
  campaign_updated_at := 0
|}.

Definition sample_integration (slug : string) (url : option string) (internal : bool) : BuyerIntegration := {|
  integration_id := 20%N;
  integration_name := "integration";
  integration_slug := slug;
  integration_vertical_id := 3%N;
  integration_description := None;
  integration_configuration_template := JNull;
  integration_default_timeout := None;
  integration_posting_url_template := url;
  integration_is_internal := internal;
  integration_status := "available";
  integration_created_at := 0;
  integration_updated_at := 0
|}.

Definition sample_config (config : json) (rules : list string) : BuyerQualificationConfig := {|
  config_id := 30%N;
  config_buyer_id := 11%N;
  config_vertical_id := 3%N;
  config_buyer_integration_id := None;
  config_rule_set_name := "rules";
  config_config := config;
  config_rules_order := rules;
  config_enabled := true;
  config_is_active := true;
  config_timeout_seconds := None;
  config_created_at := 0;
  config_updated_at := 0
|}.

(** A configuration that rejects leads without an own home, and prices up the
    credit rating "good". *)
Definition sample_rules : json := json_object [
  ("own_home_rule", json_object [
     ("rules", JArray [json_object [("value", JString "No"); ("action", JString "reject")]])]);
  ("credit_rating_rules", json_object [
     ("rules", JArray [json_object [("value", JString "Good"); ("action", JString "accept");
                                    ("price_multiplier", JNumber (Float (f64_of_decimal 15 (-1))))]])]);
  ("roof_type_rejected", JArray [JString "Flat"])].

Definition no_telemetry : Telemetry := {| tele_timing := None; tele_metrics := None |}.
