(* ===== verification/Qualification.v ===== *)
(** * The qualification engine

    [crates/core/src/services/qualification_engine.rs]: the rules of a buyer's
    configuration evaluated against a lead's [vertical_data]. *)

From stdpp Require Import base list strings gmap.
From Stdlib Require Import ZArith Lia.
From S2P Require Import Prelude Float64 Platform Json Models Samples.

Open Scope string_scope.
Open Scope list_scope.

Record QualificationResult : Type := {
  accepted : bool;
  reason : string;
  price_multiplier : option f64
}.

Definition accept (why : string) : QualificationResult :=
  {| accepted := true; reason := why; price_multiplier := None |}.
Definition reject (why : string) : QualificationResult :=
  {| accepted := false; reason := why; price_multiplier := None |}.

Record QualificationEngine : Type := {
  engine_lead : Lead;
  engine_request_type : string;
  engine_qualification_config : option BuyerQualificationConfig
}.

Section engine.
Context `{Platform}.

Definition ping_rules : list string :=
  ["zip_blacklist"; "zip_whitelist"; "monthly_bill"; "own_home";
   "purchase_timeframe"; "credit_rating"; "roof_shade"; "utility_provider"].

Definition filter_rules_by_request_type (e : QualificationEngine) (rules_order : list string) : list string :=
  if String.eqb (engine_request_type e) "ping"
  then List.filter (λ rule, existsb (String.eqb rule) ping_rules) rules_order
  else rules_order.

Definition get_value (e : QualificationEngine) (field : string) : option json :=
  jget field (lead_vertical_data (engine_lead e)).

Definition get_string_value (e : QualificationEngine) (field : string) : option string :=
  v ← get_value e field;
  if is_string v then as_str v
  else if is_boolean v then (λ b : bool, if b then "true" else "false") <$> as_bool v
  else if is_number v then f64_to_string <$> as_f64 v
  else None.

Definition evaluate_zip_blacklist (e : QualificationEngine) : QualificationResult :=
  match get_string_value e "zip" with
  | None => accept "Zip code not provided"
  | Some _ => accept "Zip blacklist check passed (not implemented)"
  end.

Definition evaluate_zip_whitelist (e : QualificationEngine) : QualificationResult :=
  match get_string_value e "zip" with
  | None => accept "Zip code not provided"
  | Some _ => accept "Zip whitelist check passed (not implemented)"
  end.

(** The [rules] array of a rule configuration, empty when absent. *)
Definition rules_of (rule_config : option jmap) : list json :=
  default [] (c ← rule_config; v ← map_get "rules" c; as_array v).

Definition action_of (rule : json) : string :=
  default "accept" (v ← jget "action" rule; as_str v).

Definition normalize_own_home (v : json) : string :=
  if is_boolean v then (if default false (as_bool v) then "yes" else "no")
  else to_lowercase (default "" (as_str v)).

Definition normalize_rule_value (s : string) : string :=
  let l := to_lowercase s in
  if String.eqb l "yes" || String.eqb l "true" then "yes"
  else if String.eqb l "no" || String.eqb l "false" then "no"
  else l.

Definition own_home_rule_matches (own_home_str : string) (rule : json) : bool :=
  match v ← jget "value" rule; as_str v with
  | Some rule_value => String.eqb (normalize_rule_value rule_value) own_home_str
  | None => false
  end.

Definition evaluate_own_home (e : QualificationEngine) (rule_config : option jmap) : QualificationResult :=
  match rules_of rule_config with
  | [] => accept "No own_home rules configured - accepting by default"
  | rules =>
      match get_value e "own_home" with
      | None => accept "Own home field missing - accepting by default"
      | Some v =>
          let own_home_str := normalize_own_home v in
          match List.find (own_home_rule_matches own_home_str) rules with
          | None => accept ("No rule configured for own_home value: " +:+ own_home_str)
          | Some r =>
              if String.eqb (to_lowercase (action_of r)) "reject"
              then reject ("Lead does not meet own_home requirement (value: " +:+ own_home_str +:+ ")")
              else accept "Own home requirement met"
          end
      end
  end.

Definition evaluate_roof_shade (e : QualificationEngine) (rule_config : option jmap) : QualificationResult :=
  match rule_config with
  | None | Some [] => accept "No roof_shade rules configured - accepting by default"
  | Some c =>
      match get_string_value e "roof_shade" with
      | None => accept "Roof shade field missing - accepting by default"
      | Some roof_shade_str =>
          match map_get roof_shade_str c with
          | None => accept ("No rule configured for roof shade: " +:+ roof_shade_str)
          | Some rule =>
              if String.eqb (action_of rule) "reject"
              then reject ("Roof shade " +:+ roof_shade_str +:+ " is not acceptable")
              else accept ("Roof shade " +:+ roof_shade_str +:+ " is acceptable")
          end
      end
  end.

Definition credit_rule_matches (credit_rating_str : string) (rule : json) : bool :=
  match v ← jget "value" rule; as_str v with
  | Some rule_value => String.eqb (to_lowercase rule_value) credit_rating_str
  | None => false
  end.

Definition evaluate_credit_rating (e : QualificationEngine) (rule_config : option jmap) : QualificationResult :=
  match rules_of rule_config with
  | [] => accept "No credit_rating rules configured - accepting by default"
  | rules =>
      match get_string_value e "credit_rating" with
      | None => accept "Credit rating field missing - accepting by default"
      | Some credit_rating =>
          let credit_rating_str := to_lowercase credit_rating in
          match List.find (credit_rule_matches credit_rating_str) rules with
          | None => accept ("No rule configured for credit rating value: " +:+ credit_rating_str)
          | Some r =>
              if String.eqb (to_lowercase (action_of r)) "reject"
              then reject ("Credit rating " +:+ credit_rating_str +:+ " is not acceptable")
              else {| accepted := true;
                      reason := "Credit rating " +:+ credit_rating_str +:+ " is acceptable";
                      price_multiplier := v ← jget "price_multiplier" r; as_f64 v |}
          end
      end
  end.

Definition evaluate_monthly_bill (e : QualificationEngine) (_rule_config : option jmap) : QualificationResult :=
  accept "Monthly bill check passed (not implemented)".

Definition evaluate_utility_provider (e : QualificationEngine) (_rule_config : option jmap) : QualificationResult :=
  accept "Utility provider check passed (not implemented)".

Definition evaluate_purchase_timeframe (e : QualificationEngine) (_rule_config : option jmap) : QualificationResult :=
  accept "Purchase timeframe check passed (not implemented)".

Definition evaluate_property_type (e : QualificationEngine) (rejected : list string) : QualificationResult :=
  match rejected with
  | [] => accept "No property_type rejection rules configured - accepting by default"
  | _ =>
      match get_string_value e "property_type" with
      | None => accept "Property type field missing - accepting by default"
      | Some property_type =>
          let property_type_str := to_lowercase property_type in
          if existsb (λ r, String.eqb (to_lowercase r) property_type_str) rejected
          then reject ("Property type " +:+ property_type_str +:+ " is rejected")
          else accept ("Property type " +:+ property_type_str +:+ " is acceptable")
      end
  end.

Definition evaluate_roof_type (e : QualificationEngine) (rejected : list string) : QualificationResult :=
  match rejected with
  | [] => accept "No roof_type rejection rules configured - accepting by default"
  | _ =>
      match get_string_value e "roof_type" with
      | None => accept "Roof type field missing - accepting by default"
      | Some roof_type =>
          let roof_type_str := to_lowercase roof_type in
          if existsb (λ r, String.eqb (to_lowercase r) roof_type_str) rejected
          then reject ("Roof type " +:+ roof_type_str +:+ " is rejected")
          else accept ("Roof type " +:+ roof_type_str +:+ " is acceptable")
      end
  end.

(** [config.get(name).and_then(as_array)], its strings collected. *)
Definition string_array (config : json) (name : string) : list string :=
  default [] (jget name config ≫= λ v, (λ arr : list json, omap as_str arr) <$> as_array v).

Definition evaluate_rule (e : QualificationEngine) (rule_name : string) (config : json) : QualificationResult :=
  let rule_config name := v ← jget name config; as_object v in
  if String.eqb rule_name "zip_blacklist" then evaluate_zip_blacklist e
  else if String.eqb rule_name "zip_whitelist" then evaluate_zip_whitelist e
  else if String.eqb rule_name "own_home" then evaluate_own_home e (rule_config "own_home_rule")
  else if String.eqb rule_name "roof_shade" then evaluate_roof_shade e (rule_config "roof_shade_rules")
  else if String.eqb rule_name "credit_rating" then evaluate_credit_rating e (rule_config "credit_rating_rules")
  else if String.eqb rule_name "monthly_bill" then evaluate_monthly_bill e (rule_config "monthly_bill_rules")
  else if String.eqb rule_name "utility_provider" then
    evaluate_utility_provider e (rule_config "utility_provider_rules")
  else if String.eqb rule_name "property_type" then
    evaluate_property_type e (string_array config "property_type_rejected")
  else if String.eqb rule_name "roof_type" then
    evaluate_roof_type e (string_array config "roof_type_rejected")
  else if String.eqb rule_name "purchase_timeframe" then
    evaluate_purchase_timeframe e (rule_config "purchase_timeframe_rules")
  else accept ("Unknown rule: " +:+ rule_name).

(** The [for] loop of [evaluate]: the first rejection is returned. *)
Fixpoint evaluate_rules (e : QualificationEngine) (config : json) (rules : list string) : QualificationResult :=
  match rules with
  | [] => accept "All qualification rules passed"
  | rule_name :: rules' =>
      let result := evaluate_rule e rule_name config in
      if accepted result then evaluate_rules e config rules' else result
  end.

Definition evaluate (e : QualificationEngine) : QualificationResult :=
  match engine_qualification_config e with
  | None => accept "No qualification config found - defaulting to accept"
  | Some config =>
      if negb (config_enabled config) || negb (config_is_active config)
      then accept "Qualification config is disabled - defaulting to accept"
      else evaluate_rules e (config_config config)
             (filter_rules_by_request_type e (config_rules_order config))
  end.

End engine.

(** ** Lemmas *)

Section lemmas.
Context `{Platform}.

Lemma evaluate_rule_request_type l rt rt' cfg cfg' rule config :
  evaluate_rule {| engine_lead := l; engine_request_type := rt; engine_qualification_config := cfg |} rule config =
  evaluate_rule {| engine_lead := l; engine_request_type := rt'; engine_qualification_config := cfg' |} rule config.
Proof. reflexivity. Qed.

Lemma elem_of_filter_rules e rules r :
  r ∈ filter_rules_by_request_type e rules ↔
  r ∈ rules ∧ (engine_request_type e = "ping" → r ∈ ping_rules).
Proof.
  unfold filter_rules_by_request_type. destruct (String.eqb_spec (engine_request_type e) "ping") as [Heq|Hne].
  - rewrite list_elem_of_In, List.filter_In, <-list_elem_of_In, existsb_exists.
    split.
    + intros [? (x & Hx & ->%String.eqb_eq)]. rewrite <-list_elem_of_In in Hx. done.
    + intros [? Hp]. split; [done|]. exists r. rewrite <-list_elem_of_In, String.eqb_refl. auto.
  - naive_solver.
Qed.

(** The loop returns the first rejection, or the final acceptance. *)
Lemma evaluate_rules_cases e config rules :
  (Forall (λ r, accepted (evaluate_rule e r config) = true) rules ∧
   evaluate_rules e config rules = accept "All qualification rules passed") ∨
  (∃ pre r post, rules = pre ++ r :: post ∧
     Forall (λ r, accepted (evaluate_rule e r config) = true) pre ∧
     accepted (evaluate_rule e r config) = false ∧
     evaluate_rules e config rules = evaluate_rule e r config).
Proof.
  induction rules as [|r rules IH]; simpl; [by left|].
  destruct (accepted (evaluate_rule e r config)) eqn:Hr.
  - destruct IH as [[Hall ->]|(pre & r' & post & -> & Hpre & Hr' & ->)].
    + left. by split; [constructor|].
    + right. exists (r :: pre), r', post. split_and!; [done|by constructor|done|done].
  - right. exists [], r, rules. by split_and!.
Qed.

(** A result that rejects carries no multiplier. *)
Lemma evaluate_rule_reject_multiplier e rule config :
  accepted (evaluate_rule e rule config) = false → price_multiplier (evaluate_rule e rule config) = None.
Proof.
  unfold evaluate_rule, evaluate_zip_blacklist, evaluate_zip_whitelist, evaluate_own_home,
    evaluate_roof_shade, evaluate_credit_rating, evaluate_property_type, evaluate_roof_type,
    evaluate_monthly_bill, evaluate_utility_provider, evaluate_purchase_timeframe.
  repeat (case_match; simpl; try done).
Qed.

Lemma evaluate_rule_rejecting e rule config :
  accepted (evaluate_rule e rule config) = false →
  rule ∈ ["own_home"; "roof_shade"; "credit_rating"; "property_type"; "roof_type"].
Proof.
  unfold evaluate_rule, evaluate_zip_blacklist, evaluate_zip_whitelist,
    evaluate_monthly_bill, evaluate_utility_provider, evaluate_purchase_timeframe.
  repeat match goal with
  | |- context [String.eqb rule ?n] => destruct (String.eqb_spec rule n) as [->|?]
  end; simpl; try (by repeat case_match); intros _; rewrite !elem_of_cons; tauto.
Qed.

Lemma evaluate_ping_reject (l : Lead) (cfg : option BuyerQualificationConfig) (rt : string) :
  accepted (evaluate {| engine_lead := l; engine_request_type := "ping";
                        engine_qualification_config := cfg |}) = false →
  accepted (evaluate {| engine_lead := l; engine_request_type := rt;
                        engine_qualification_config := cfg |}) = false.
Proof.
  unfold evaluate; simpl. destruct cfg as [c|]; [|done].
  destruct (negb (config_enabled c) || negb (config_is_active c)); [done|].
  set (ep := {| engine_lead := l; engine_request_type := "ping"; engine_qualification_config := Some c |}).
  set (eo := {| engine_lead := l; engine_request_type := rt; engine_qualification_config := Some c |}).
  destruct (evaluate_rules_cases ep (config_config c) (filter_rules_by_request_type ep (config_rules_order c)))
    as [[_ ->]|(pre & r & post & Hpre & _ & Hr & ->)]; [done|]. intros _.
  destruct (evaluate_rules_cases eo (config_config c) (filter_rules_by_request_type eo (config_rules_order c)))
    as [[Hall _]|(pre' & r' & post' & _ & _ & Hr' & ->)]; [|done].
  rewrite Forall_forall in Hall. specialize (Hall r). exfalso.
  rewrite (evaluate_rule_request_type l rt "ping" (Some c) (Some c)) in Hall. fold ep in Hall.
  rewrite Hr in Hall. discriminate Hall.
  assert (Hin : r ∈ filter_rules_by_request_type ep (config_rules_order c)) by (rewrite Hpre; set_solver).
  apply elem_of_filter_rules in Hin as [Hin Hping]. apply elem_of_filter_rules. naive_solver.
Qed.

End lemmas.

(** ** Properties *)

Section properties.
Context `{Platform}.

(** C38: a lead is rejected exactly when its buyer has an enabled, active
    configuration with an applicable rule that rejects it, where for a ping only
    the rules on ping fields apply; and the result reported is that of the first
    applicable rule, in the configured order, that rejects. *)
Theorem evaluate_rejects_iff (e : QualificationEngine) :
  accepted (evaluate e) = false ↔
  ∃ c pre r post,
    engine_qualification_config e = Some c ∧ config_enabled c = true ∧ config_is_active c = true ∧
    List.filter (λ r, implb (String.eqb (engine_request_type e) "ping") (existsb (String.eqb r) ping_rules))
      (config_rules_order c) = pre ++ r :: post ∧
    Forall (λ r', accepted (evaluate_rule e r' (config_config c)) = true) pre ∧
    accepted (evaluate_rule e r (config_config c)) = false ∧
    evaluate e = evaluate_rule e r (config_config c).
Proof.
  assert (Hf : ∀ rules, List.filter (λ r, implb (String.eqb (engine_request_type e) "ping")
      (existsb (String.eqb r) ping_rules)) rules = filter_rules_by_request_type e rules).
  { intros rules. unfold filter_rules_by_request_type. destruct (String.eqb _ _); simpl; [done|].
    induction rules as [|r rules IH]; simpl; congruence. }
  split; [|by intros (c & pre & r & post & _ & _ & _ & _ & _ & Hr & ->)].
  unfold evaluate. destruct (engine_qualification_config e) as [c|]; [|done].
  destruct (config_enabled c) eqn:He, (config_is_active c) eqn:Ha; simpl; try done.
  destruct (evaluate_rules_cases e (config_config c) (filter_rules_by_request_type e (config_rules_order c)))
    as [[_ ->]|(pre & r & post & Hpre & Hall & Hr & ->)]; [done|].
  intros _. exists c, pre, r, post. by rewrite Hf.
Qed.

(** a lead the engine rejects at ping time is rejected for every request
    type: ping never applies a rule that post and fullpost do not. *)
Theorem ping_not_stricter (l : Lead) (cfg : option BuyerQualificationConfig) (rt : string) :
  accepted (evaluate {| engine_lead := l; engine_request_type := "ping";
                        engine_qualification_config := cfg |}) = false →
  accepted (evaluate {| engine_lead := l; engine_request_type := rt;
                        engine_qualification_config := cfg |}) = false.
Proof. apply evaluate_ping_reject. Qed.

(** at ping time only the own-home, roof-shade and credit-rating rules can
    reject; the zip lists, the monthly bill, the utility provider and the purchase
    timeframe never do, whatever the configuration says. *)
Theorem ping_rejection_causes (e : QualificationEngine) :
  engine_request_type e = "ping" → accepted (evaluate e) = false →
  ∃ c r, engine_qualification_config e = Some c ∧ r ∈ config_rules_order c ∧
    r ∈ ["own_home"; "roof_shade"; "credit_rating"] ∧ evaluate e = evaluate_rule e r (config_config c).
Proof.
  intros Hping. unfold evaluate. destruct (engine_qualification_config e) as [c|]; [|done].
  destruct (negb (config_enabled c) || negb (config_is_active c)); [done|].
  destruct (evaluate_rules_cases e (config_config c) (filter_rules_by_request_type e (config_rules_order c)))
    as [[_ ->]|(pre & r & post & Hpre & _ & Hr & ->)]; [done|]. intros _.
  assert (Hin : r ∈ filter_rules_by_request_type e (config_rules_order c)) by (rewrite Hpre; set_solver).
  apply elem_of_filter_rules in Hin as [Hin Hrp]. specialize (Hrp Hping).
  exists c, r. split_and!; [done|done| |done].
  apply evaluate_rule_rejecting in Hr. unfold ping_rules in Hrp.
  rewrite !elem_of_cons, elem_of_nil in *. naive_solver.
Qed.

(** the own-home rule rejects exactly when the lead has the field, some rule
    of the configuration matches the normalised value, and the first one that
    matches has the action "reject". *)
Theorem own_home_first_match (e : QualificationEngine) (rule_config : option jmap) :
  accepted (evaluate_own_home e rule_config) = false ↔
  ∃ v pre r post,
    get_value e "own_home" = Some v ∧ rules_of rule_config = pre ++ r :: post ∧
    Forall (λ r', own_home_rule_matches (normalize_own_home v) r' = false) pre ∧
    own_home_rule_matches (normalize_own_home v) r = true ∧
    to_lowercase (action_of r) = "reject".
Proof.
  assert (Hiff : accepted (evaluate_own_home e rule_config) = false ↔
    ∃ v r, get_value e "own_home" = Some v ∧
      List.find (own_home_rule_matches (normalize_own_home v)) (rules_of rule_config) = Some r ∧
      to_lowercase (action_of r) = "reject").
  { unfold evaluate_own_home. destruct (rules_of rule_config) as [|r0 rules]; [naive_solver|].
    destruct (get_value e "own_home") as [v|]; [|naive_solver].
    destruct (List.find _ (r0 :: rules)) as [r|] eqn:Hf; [|split; [done|naive_solver]].
    destruct (String.eqb_spec (to_lowercase (action_of r)) "reject"); simpl; [|split; [done|naive_solver]].
    split; [by exists v, r|done]. }
  rewrite Hiff. setoid_rewrite find_Some_split. naive_solver.
Qed.

(** no evaluation reports a price multiplier: the one a credit-rating rule
    computes for an accepted lead is dropped when the remaining rules pass. *)
Theorem evaluate_no_multiplier (e : QualificationEngine) : price_multiplier (evaluate e) = None.
Proof.
  unfold evaluate. destruct (engine_qualification_config e) as [c|]; [|done].
  destruct (negb (config_enabled c) || negb (config_is_active c)); [done|].
  destruct (evaluate_rules_cases e (config_config c) (filter_rules_by_request_type e (config_rules_order c)))
    as [[_ ->]|(pre & r & post & _ & _ & Hr & ->)]; [done|]. by apply evaluate_rule_reject_multiplier.
Qed.

End properties.

(** ** Witnesses *)

Definition sample_engine (rt : string) (vertical_data : list (string * json)) (rules : list string)
    : QualificationEngine := {|
  engine_lead := Samples.sample_lead LeadProcessing None None (json_object vertical_data);
  engine_request_type := rt;
  engine_qualification_config := Some (Samples.sample_config Samples.sample_rules rules)
|}.

Lemma ping_not_stricter_witness :
  let e := sample_engine "ping" [("own_home", JBool false)] ["own_home"] in
  @accepted (@evaluate reference_platform (sample_engine "post" [("own_home", JBool false)] ["own_home"])) = false.
Proof.
  apply (@ping_not_stricter reference_platform
    (engine_lead (sample_engine "ping" [("own_home", JBool false)] ["own_home"]))
    (engine_qualification_config (sample_engine "ping" [("own_home", JBool false)] ["own_home"])) "post").
  reflexivity.
Defined.

Lemma ping_rejection_causes_witness :
  let e := sample_engine "ping" [("own_home", JBool false)] ["roof_type"; "own_home"] in
  ∃ c r, engine_qualification_config e = Some c ∧ r ∈ config_rules_order c ∧
    r ∈ ["own_home"; "roof_shade"; "credit_rating"] ∧
    @evaluate reference_platform e = @evaluate_rule reference_platform e r (config_config c).
Proof.
  apply (@ping_rejection_causes reference_platform
    (sample_engine "ping" [("own_home", JBool false)] ["roof_type"; "own_home"])); reflexivity.
Defined.

(** The multiplier of a matching credit rule is computed ... *)
Example credit_rule_multiplier :
  price_multiplier (@evaluate_rule reference_platform
    (sample_engine "post" [("credit_rating", JString "GOOD")] ["credit_rating"]) "credit_rating" Samples.sample_rules)
  = Some (f64_of_decimal 15 (-1)).
Proof. reflexivity. Qed.
