(* ===== verification/Store.v ===== *)
(** * The database and the queue

    The tables the routing path writes, as lists and finite maps of rows, the task
    type of the write-behind queue ([BackgroundTask], write_behind_queue.rs), and
    the state the effectful services run on: database, queue, telemetry, clock and
    the outcomes that database statements will have.  A statement fails when the
    next outcome is an error; otherwise it runs. *)

From stdpp Require Import base list strings gmap.
From Stdlib Require Import ZArith Lia Sorted.
From S2P Require Import Prelude Float64 Platform Json Models Metrics.

Open Scope string_scope.
Open Scope list_scope.

(** ** Tasks *)

Record LeadCreationData : Type := {
  lc_uuid : Uuid;
  lc_event_id : string;
  lc_lead_id : option string;
  lc_publisher_id : Uuid;
  lc_vertical_id : Uuid;
  lc_request_type : string;
  lc_strategy : string;
  lc_promise_id : option string;
  lc_buyer_id : Uuid;
  lc_campaign_id : Uuid;
  lc_tcpa_consent : bool;
  lc_tcpa_language : string;
  lc_is_test : bool;
  lc_session_id : string;
  lc_vertical_data : json;
  lc_first_name : option string;
  lc_last_name : option string;
  lc_email : option string;
  lc_cell_phone : option string;
  lc_street_address : option string;
  lc_city : option string;
  lc_state : option string;
  lc_zip : option string;
  lc_ip_address : option string;
  lc_request_payload : json;
  lc_pii_encryption_key : option string
}.

Record LeadUpdateData : Type := {
  lu_lead_id : Uuid;
  lu_status : LeadStatus;
  lu_campaign_id : option Uuid;
  lu_buyer_id : option Uuid;
  lu_promise_id : option string;
  lu_ping_id : option string;
  lu_post_id : option string;
  lu_sold_at : bool;
  lu_inprog_token : option string;
  lu_vertical_data : option json
}.

Record BuyerResponseData : Type := {
  br_lead_id : Uuid;
  br_campaign_id : Uuid;
  br_ping_id : option string;
  br_post_id : option string;
  br_buyer_id : option Uuid;
  br_payload : json;
  br_lead_id_str : option string
}.

Record PayloadUpdateData : Type := {
  pu_lead_id : Uuid;
  pu_payload_type : string;
  pu_payload : json;
  pu_post_id : option string;
  pu_request_payload_encrypted : option string;
  pu_response_payload_encrypted : option string;
  pu_ping_payloads_row_id : option Uuid;
  pu_external_ping_id : option string
}.

Record PulsarLogData : Type := {
  pl_lead_id : Uuid;
  pl_ping_id : option string;
  pl_buyer_id : Uuid;
  pl_accepted : bool;
  pl_final_bid_price : Decimal
}.

Inductive BackgroundTask : Type :=
  | PulsarLog (log : PulsarLogData)
  | LeadUpdate (update : LeadUpdateData)
  | BuyerResponseTask (response : BuyerResponseData)
  | PayloadUpdate (update : PayloadUpdateData)
  | LeadCreation (creation : LeadCreationData).

(** ** Tables *)

Record BuyerResponseRow : Type := {
  row_lead_id : Uuid;
  row_campaign_id : Uuid;
  row_ping_id : option string;
  row_post_id : option string;
  row_buyer_id : option Uuid;
  row_payload : json
}.

Record PingRow : Type := {
  ping_row_ping_id : string;
  ping_row_lead_id : Uuid;
  ping_row_promise_id : option string;
  ping_row_state : string
}.

Record PingPayloadRow : Type := {
  pp_ping_id : option Z;
  pp_lead_id : Uuid;
  pp_payload : option json;
  pp_request_payload_encrypted : string;
  pp_response_payload_encrypted : option string;
  pp_external_ping_id : option string;
  pp_created_at : DateTime;
  pp_updated_at : DateTime
}.

Record PostPayloadRow : Type := {
  post_row_lead_id : Uuid;
  post_row_post_id : option string;
  post_row_payload : json;
  post_row_encrypted : option (string * string)
}.

Record Db : Type := {
  db_leads : gmap Uuid Lead;
  db_buyer_responses : list BuyerResponseRow;
  db_pings : list PingRow;
  db_ping_payloads : list PingPayloadRow;
  db_post_payloads : list PostPayloadRow;
  db_pulsar_logs : list PulsarLogData
}.

Definition on_leads (f : gmap Uuid Lead → gmap Uuid Lead) (db : Db) : Db := {|
  db_leads := f (db_leads db); db_buyer_responses := db_buyer_responses db; db_pings := db_pings db;
  db_ping_payloads := db_ping_payloads db; db_post_payloads := db_post_payloads db;
  db_pulsar_logs := db_pulsar_logs db
|}.

Definition on_buyer_responses (f : list BuyerResponseRow → list BuyerResponseRow) (db : Db) : Db := {|
  db_leads := db_leads db; db_buyer_responses := f (db_buyer_responses db); db_pings := db_pings db;
  db_ping_payloads := db_ping_payloads db; db_post_payloads := db_post_payloads db;
  db_pulsar_logs := db_pulsar_logs db
|}.

Definition on_pings (f : list PingRow → list PingRow) (db : Db) : Db := {|
  db_leads := db_leads db; db_buyer_responses := db_buyer_responses db; db_pings := f (db_pings db);
  db_ping_payloads := db_ping_payloads db; db_post_payloads := db_post_payloads db;
  db_pulsar_logs := db_pulsar_logs db
|}.

Definition on_ping_payloads (f : list PingPayloadRow → list PingPayloadRow) (db : Db) : Db := {|
  db_leads := db_leads db; db_buyer_responses := db_buyer_responses db; db_pings := db_pings db;
  db_ping_payloads := f (db_ping_payloads db); db_post_payloads := db_post_payloads db;
  db_pulsar_logs := db_pulsar_logs db
|}.

Definition on_post_payloads (f : list PostPayloadRow → list PostPayloadRow) (db : Db) : Db := {|
  db_leads := db_leads db; db_buyer_responses := db_buyer_responses db; db_pings := db_pings db;
  db_ping_payloads := db_ping_payloads db; db_post_payloads := f (db_post_payloads db);
  db_pulsar_logs := db_pulsar_logs db
|}.

Definition on_pulsar_logs (f : list PulsarLogData → list PulsarLogData) (db : Db) : Db := {|
  db_leads := db_leads db; db_buyer_responses := db_buyer_responses db; db_pings := db_pings db;
  db_ping_payloads := db_ping_payloads db; db_post_payloads := db_post_payloads db;
  db_pulsar_logs := f (db_pulsar_logs db)
|}.

(** [Lead::find_by_lead_id] and [SELECT uuid FROM leads WHERE lead_id = $1]: the
    column is unique. *)
Definition leads_by_lead_id (lead_id : string) (db : Db) : option Lead :=
  List.find (λ l, bool_decide (lead_lead_id l = Some lead_id)) (map_to_list (db_leads db)).*2.

(** [Lead::find_by_promise_id]. *)
Definition leads_by_promise_id (promise_id : string) (db : Db) : option Lead :=
  List.find (λ l, bool_decide (lead_promise_id l = Some promise_id)) (map_to_list (db_leads db)).*2.

(** [UPDATE leads SET ... WHERE uuid = $1]: no effect without the row. *)
Definition update_lead_row (f : Lead → Lead) (id : Uuid) : Db → Db := on_leads (alter f id).

(** ** JSON columns *)

Fixpoint jsonb_merge (o1 o2 : jmap) : jmap :=
  match o2 with
  | [] => o1
  | (k, v) :: o2' => jsonb_merge (map_insert k v o1) o2'
  end.

(** The operator [||] on [jsonb]: objects are merged, the right one winning; other
    values are concatenated as arrays. *)
Definition jsonb_concat (a b : json) : json :=
  match a, b with
  | JObject o1, JObject o2 => JObject (jsonb_merge o1 o2)
  | JArray l1, JArray l2 => JArray (l1 ++ l2)
  | JArray l1, v => JArray (l1 ++ [v])
  | v, JArray l2 => JArray (v :: l2)
  | v, w => JArray [v; w]
  end.

(** [COALESCE($1, column)]. *)
Definition coalesce {A} (new old : option A) : option A :=
  match new with Some a => Some a | None => old end.

(** ** The state of the services *)

Record World : Type := {
  w_db : Db;
  w_queue : list BackgroundTask;
  w_telemetry : Telemetry;
  w_now : DateTime;
  w_outcomes : list (option string)
}.

Abbreviation service := (eff World Failure).

Definition set_db (db : Db) (w : World) : World :=
  {| w_db := db; w_queue := w_queue w; w_telemetry := w_telemetry w; w_now := w_now w; w_outcomes := w_outcomes w |}.
Definition on_telemetry (f : Telemetry → Telemetry) (w : World) : World :=
  {| w_db := w_db w; w_queue := w_queue w; w_telemetry := f (w_telemetry w); w_now := w_now w;
     w_outcomes := w_outcomes w |}.
Definition on_queue (f : list BackgroundTask → list BackgroundTask) (w : World) : World :=
  {| w_db := w_db w; w_queue := f (w_queue w); w_telemetry := w_telemetry w; w_now := w_now w;
     w_outcomes := w_outcomes w |}.
Definition set_outcomes (o : list (option string)) (w : World) : World :=
  {| w_db := w_db w; w_queue := w_queue w; w_telemetry := w_telemetry w; w_now := w_now w; w_outcomes := o |}.

(** [sqlx::query(...).execute(pool).await]: a statement that changes the database. *)
Definition exec {A} (stmt : DateTime → Db → Result string A * Db) : service A := λ w,
  match w_outcomes w with
  | Some e :: rest => (Err (Failed e), set_outcomes rest w)
  | outcomes =>
      let '(r, db) := stmt (w_now w) (w_db w) in
      (map_err Failed r, set_outcomes (tail outcomes) (set_db db w))
  end.

(** An [UPDATE] that cannot violate a constraint. *)
Definition exec_update (f : DateTime → Db → Db) : service unit := exec (λ now db, (Ok tt, f now db)).

(** [queue.enqueue(task)]: the channel is unbounded. *)
Definition enqueue (task : BackgroundTask) : service unit := eff_modify (on_queue (λ q, q ++ [task])).

Definition record_timing (f : AtomicAuctionTiming → AtomicAuctionTiming) : service unit :=
  eff_modify (on_telemetry (with_timing f)).
Definition record_metrics (f : DiagnosticMetrics → DiagnosticMetrics) : service unit :=
  eff_modify (on_telemetry (with_metrics f)).

(** [for x in l { body(x)?; }]. *)
Fixpoint for_each {S E A} (body : A → eff S E unit) (l : list A) : eff S E unit :=
  match l with
  | [] => mret tt
  | x :: l' => _ ← body x; for_each body l'
  end.

(** ** Lemmas *)

Lemma jsonb_merge_get k o1 o2 :
  map_wf o2 → map_get k (jsonb_merge o1 o2) = match map_get k o2 with Some v => Some v | None => map_get k o1 end.
Proof.
  revert o1. induction o2 as [|[k' v'] o2 IH]; intros o1 Hwf; simpl; [done|].
  unfold map_wf, map_keys in Hwf. csimpl. apply StronglySorted_inv in Hwf as [Hwf Hall].
  rewrite (IH _ Hwf). case_decide as Hk.
  - subst. assert (Hnone : map_get k' o2 = None).
    { clear -Hall. induction o2 as [|[k v] o2 IH]; simpl; [done|]. csimpl.
      apply Forall_cons in Hall as [Hlt Hall]. rewrite decide_False; [auto|].
      intros ->. unfold key_lt in Hlt. by rewrite string_compare_refl in Hlt. }
    by rewrite Hnone, map_get_insert_eq.
  - destruct (map_get k o2); [done|]. by rewrite map_get_insert_ne.
Qed.

Lemma jsonb_merge_wf o1 o2 : map_wf o1 → map_wf (jsonb_merge o1 o2).
Proof. revert o1. induction o2 as [|[k v] o2 IH]; simpl; auto with nebula. Qed.

(** Enqueueing and recording never fail. *)
Lemma for_each_enqueue l w :
  for_each enqueue l w = (Ok tt, on_queue (λ q, q ++ l) w).
Proof.
  revert w. induction l as [|t l IH]; intros w; simpl.
  - destruct w as [db q te n o]. unfold mret, eff_ret, on_queue. simpl. by rewrite app_nil_r.
  - unfold mbind, eff_bind, enqueue, eff_modify in *. rewrite IH. unfold on_queue. simpl.
    by rewrite <-app_assoc.
Qed.

(** ** What a service changes *)

(** [m] relates the states before and after. *)
Definition respects {A} (R : World → World → Prop) (m : service A) : Prop := ∀ w, R w (m w).2.

Section relation.
Context (R : World → World → Prop) `{!Reflexive R} `{!Transitive R}.

Lemma respects_ret {A} (a : A) : respects R (mret a).
Proof. intros w. by simpl. Qed.
Lemma respects_lift {A} (x : Result Failure A) : respects R (eff_lift x).
Proof. intros w. by simpl. Qed.
Lemma respects_bind {A B} (m : service A) (k : A → service B) :
  respects R m → (∀ a, respects R (k a)) → respects R (m ≫= k).
Proof.
  intros Hm Hk w. unfold mbind, eff_bind. specialize (Hm w).
  destruct (m w) as [[a|e] w'] eqn:E; simpl in *; [|done]. etrans; [exact Hm|apply Hk].
Qed.
Lemma respects_gets {A} (f : World → A) : respects R (eff_gets f).
Proof. intros w. by simpl. Qed.
Lemma respects_try {A} (m : service A) : respects R m → respects R (eff_try m : service _).
Proof. intros Hm w. unfold eff_try. specialize (Hm w). by destruct (m w). Qed.
Lemma respects_catch {A} (m : service A) : respects R m → respects R (catch m).
Proof. intros Hm w. unfold catch. specialize (Hm w). by destruct (m w) as [[a|[e|e]] w']. Qed.
Lemma respects_for_each {A} (f : A → service unit) l : (∀ x, respects R (f x)) → respects R (for_each f l).
Proof.
  intros Hf. induction l as [|x l IH]; simpl; [apply respects_ret|].
  apply respects_bind; [apply Hf|done].
Qed.
End relation.

(** ** When a service panics *)

(** The panics of [m] have a message in [P]. *)
Definition panics_in {A} (P : string → Prop) (m : service A) : Prop := ∀ w e, (m w).1 = Err (Panicked e) → P e.

Section panics.
Context (P : string → Prop).

Lemma panics_ret {A} (a : A) : panics_in P (mret a).
Proof. by intros w e. Qed.
Lemma panics_gets {A} (f : World → A) : panics_in P (eff_gets f).
Proof. by intros w e. Qed.
Lemma panics_modify (f : World → World) : panics_in P (eff_modify f).
Proof. by intros w e. Qed.
Lemma panics_fallible {A} (r : Result string A) : panics_in P (fallible r).
Proof. intros w e. by destruct r. Qed.
Lemma panics_unwrap {A} (r : Panics A) : (∀ e, r = Err e → P e) → panics_in P (unwrap r).
Proof. intros Hr w e. destruct r; [done|]. intros [= ->]. by apply Hr. Qed.
Lemma panics_exec {A} (stmt : DateTime → Db → Result string A * Db) : panics_in P (exec stmt).
Proof.
  intros w e. unfold exec. destruct (w_outcomes w) as [|[e'|] o]; [|done|];
    destruct (stmt _ _) as [[a|e''] db]; done.
Qed.
Lemma panics_bind {A B} (m : service A) (k : A → service B) :
  panics_in P m → (∀ a, panics_in P (k a)) → panics_in P (m ≫= k).
Proof.
  intros Hm Hk w e. unfold mbind, eff_bind. specialize (Hm w e).
  destruct (m w) as [[a|f] w'] eqn:E; simpl in *; [apply Hk|]. intros [= ->]. auto.
Qed.
Lemma panics_catch {A} (m : service A) : panics_in P m → panics_in P (catch m).
Proof.
  intros Hm w e. unfold catch. specialize (Hm w e). destruct (m w) as [[a|[f|f]] w']; simpl in *; try done.
  intros [= ->]. auto.
Qed.
Lemma panics_for_each {A} (f : A → service unit) l : (∀ x, panics_in P (f x)) → panics_in P (for_each f l).
Proof.
  intros Hf. induction l as [|x l IH]; simpl; [apply panics_ret|]. apply panics_bind; [apply Hf|done].
Qed.
End panics.

(** A service that never panics: what it catches is an error or a value. *)
Abbreviation safe := (panics_in (λ _, False)).

Lemma catch_safe {A} (m : service A) w : safe m → ∃ r, catch m w = (Ok r, (m w).2).
Proof.
  intros Hm. unfold catch. specialize (Hm w). destruct (m w) as [[a|[e|e]] w']; simpl in *; [by eexists..|].
  by destruct (Hm e).
Qed.

(** Goes through the binds and the branches of a service. *)
Ltac panics_step :=
  match goal with
  | |- panics_in _ (mbind _ _) => apply panics_bind; [|intros ?]
  | |- panics_in _ (mret _) => apply panics_ret
  | |- panics_in _ (fallible _) => apply panics_fallible
  | |- panics_in _ (eff_gets _) => apply panics_gets
  | |- panics_in _ (eff_modify _) => apply panics_modify
  | |- panics_in _ (enqueue _) => apply panics_modify
  | |- panics_in _ (record_timing _) => apply panics_modify
  | |- panics_in _ (record_metrics _) => apply panics_modify
  | |- panics_in _ (exec _) => apply panics_exec
  | |- panics_in _ (exec_update _) => apply panics_exec
  | |- panics_in _ (catch _) => apply panics_catch
  | |- panics_in _ (for_each _ _) => apply panics_for_each; intros ?
  | |- panics_in _ (if ?b then _ else _) => destruct b
  | |- panics_in _ (match ?x with _ => _ end) => destruct x
  | |- panics_in _ (let _ := _ in _) => cbv zeta
  end.

#[export] Hint Resolve jsonb_merge_wf : nebula.
