(* ===== verification/Response.v ===== *)
(** * Responses of buyers and results of routing

    The two result types of [crates/core/src/services]: what one buyer answers
    ([BuyerResponse], buyer_router.rs) and what the routing of a lead reports
    ([RoutingResult], ping_tree_router.rs). *)

From stdpp Require Import base list strings.
From Stdlib Require Import ZArith.
From S2P Require Import Prelude Float64 Platform Json.

Open Scope string_scope.
Open Scope list_scope.

Record BuyerResponse : Type := {
  resp_success : bool;
  resp_status : string;
  resp_error : option string;
  resp_message : option string;
  resp_promise_id : option string;
  resp_ping_id : option string;
  resp_post_id : option string;
  resp_price : option f64;
  resp_bid : option f64
}.

Record RoutingResult : Type := {
  rr_success : bool;
  rr_status : string;
  rr_error : option string;
  rr_promise_id : option string;
  rr_ping_id : option string;
  rr_post_id : option string;
  rr_price : option f64;
  rr_campaign_id : option Uuid;
  rr_buyer_id : option Uuid;
  rr_per_buyer_timings : option (list json)
}.

(** The fields every failure leaves empty. *)
Definition failure_response (status : string) (error : option string) : BuyerResponse := {|
  resp_success := false; resp_status := status; resp_error := error; resp_message := None;
  resp_promise_id := None; resp_ping_id := None; resp_post_id := None;
  resp_price := None; resp_bid := None
|}.

Definition failure_result (status error : string) : RoutingResult := {|
  rr_success := false; rr_status := status; rr_error := Some error;
  rr_promise_id := None; rr_ping_id := None; rr_post_id := None; rr_price := None;
  rr_campaign_id := None; rr_buyer_id := None; rr_per_buyer_timings := None
|}.

(** An answer of a campaign's buyer, with the campaign and its priority in the
    ping tree. *)
Abbreviation Entry := (BuyerResponse * Uuid * option Z)%type.
Definition entry_response (e : Entry) : BuyerResponse := e.1.1.
Definition entry_campaign (e : Entry) : Uuid := e.1.2.
Definition entry_priority (e : Entry) : option Z := e.2.
