(* ===== verification/Auction.v ===== *)
(** * Winner selection

    [select_winner] of ping_tree_router.rs, which picks the buyer of a ping by
    bid, and the selection of [route_fullpost], which picks one by price.  The
    random draw that breaks the last ties is an argument. *)

From stdpp Require Import base list strings.
From Stdlib Require Import ZArith Lia Sorted.
From S2P Require Import Prelude Float64 Platform Json Response.

Open Scope string_scope.
Open Scope list_scope.

(** ** Definitions *)

Definition PRICE_EPSILON : f64 := f64_of_decimal 1 (-2).

(** [value.unwrap_or(0.0)]. *)
Definition value_or_zero (o : option f64) : f64 := default f64_zero o.

(** [value.is_some() && value.unwrap_or(0.0) > 0.0]. *)
Definition positive (o : option f64) : bool :=
  bool_decide (is_Some o) && f64_gt (value_or_zero o) f64_zero.

(** The comparator of both sorts: value descending, then priority ascending, a
    missing priority last. *)
Definition value_then_priority (value : BuyerResponse → option f64) (a b : Entry) : comparison :=
  let value_a := value_or_zero (value (entry_response a)) in
  let value_b := value_or_zero (value (entry_response b)) in
  match f64_partial_cmp value_b value_a with
  | Some Eq =>
      let pri_a := default i32_max (entry_priority a) in
      let pri_b := default i32_max (entry_priority b) in
      (pri_a ?= pri_b)%Z
  | Some ord => ord
  | None => Eq
  end.

(** [(bid - highest_bid).abs() < PRICE_EPSILON]. *)
Definition within_epsilon (highest_bid bid : f64) : bool :=
  f64_lt (f64_abs (f64_sub bid highest_bid)) PRICE_EPSILON.

(** [select_winner]; [draw] is [rand::random::<usize>()].  The remainder by an
    empty list of candidates panics. *)
Definition select_winner (draw : Z) (responses : list Entry) : Panics Entry :=
  let sorted :=
    sort_by (value_then_priority resp_bid)
      (List.filter (λ e, positive (resp_bid (entry_response e))) responses) in
  match sorted with
  | [] =>
      match responses with
      | first :: _ => Ok first
      | [] => Err "No responses provided to select_winner"
      end
  | top :: _ =>
      let highest_bid := value_or_zero (resp_bid (entry_response top)) in
      let candidates :=
        take_while (λ e, within_epsilon highest_bid (value_or_zero (resp_bid (entry_response e)))) sorted in
      match candidates with
      | [only] => Ok only
      | _ =>
          let with_priority := List.filter (λ e, bool_decide (is_Some (entry_priority e))) candidates in
          match min_by_key (λ e, default 0%Z (entry_priority e)) with_priority with
          | Some winner => Ok winner
          | None =>
              if (Z.of_nat (length candidates) =? 0)%Z
              then Err "attempt to calculate the remainder with a divisor of zero"
              else ok_or "index out of bounds"
                     (candidates !! Z.to_nat (draw mod Z.of_nat (length candidates)))
          end
      end
  end.

(** The responses [route_fullpost] considers: successful, with a positive price,
    not timed out. *)
Definition fullpost_valid_responses (responses : list Entry) : list Entry :=
  List.filter (λ e, let resp := entry_response e in
    resp_success resp && positive (resp_price resp) && negb (String.eqb (resp_status resp) "timeout")) responses.

(** The responses the ping auction considers: successful, with a positive bid and
    a promise id, not timed out. *)
Definition ping_valid_responses (responses : list Entry) : list Entry :=
  List.filter (λ e, let resp := entry_response e in
    resp_success resp && positive (resp_bid resp) && bool_decide (is_Some (resp_promise_id resp))
    && negb (String.eqb (resp_status resp) "timeout")) responses.

(** The winner of [route_fullpost]: the head of the sorted responses. *)
Definition select_fullpost_winner (valid_responses : list Entry) : Result string Entry :=
  ok_or "No valid responses" (head (sort_by (value_then_priority resp_price) valid_responses)).

(** ** Lemmas *)

Section value_order.
Context (value : BuyerResponse → option f64).
Local Abbreviation val e := (value_or_zero (value (entry_response e))).
Local Abbreviation vkey e := (f64_key (val e)).

Definition comparable (e : Entry) : Prop := f64_is_nan (val e) = false.

Lemma positive_comparable o : positive o = true → f64_is_nan (value_or_zero o) = false.
Proof. unfold positive. intros [_ H]%andb_true_iff. by eapply f64_gt_not_nan. Qed.

Lemma positive_value o : positive o = true → ∃ x, o = Some x ∧ f64_gt x f64_zero = true.
Proof. intros H. destruct o as [x|]; [|done]. exists x. by apply andb_true_iff in H as [_ H]. Qed.

Lemma value_then_priority_key a b :
  comparable a → comparable b →
  value_then_priority value a b =
  match key_compare (vkey b) (vkey a) with
  | Eq => (default i32_max (entry_priority a) ?= default i32_max (entry_priority b))%Z
  | c => c
  end.
Proof. intros Ha Hb. unfold value_then_priority. rewrite f64_partial_cmp_key by done. by destruct (key_compare _ _). Qed.

Lemma value_then_priority_orders : OrdersOn (value_then_priority value) comparable.
Proof.
  split.
  - intros x y Hx Hy. unfold cmp_le. rewrite !value_then_priority_key by done.
    rewrite (key_compare_antisym (vkey y) (vkey x)).
    rewrite (Z.compare_antisym (default i32_max (entry_priority x))).
    by destruct (key_compare (vkey y) (vkey x)), (default i32_max (entry_priority x) ?= _)%Z.
  - intros x y z Hx Hy Hz. unfold cmp_le. rewrite !value_then_priority_key by done. intros Hxy Hyz.
    destruct (key_compare (vkey y) (vkey x)) eqn:E1; try done;
      destruct (key_compare (vkey z) (vkey y)) eqn:E2; try done.
    + rewrite (key_compare_eq_l _ _ _ E2), E1.
      repeat match goal with H : context [(?a ?= ?b)%Z] |- _ => destruct (Z.compare_spec a b) end; try done;
      match goal with |- context [(?a ?= ?b)%Z] => destruct (Z.compare_spec a b) end; try done; lia.
    + by rewrite <-(key_compare_eq_r _ _ _ E1), E2.
    + by rewrite (key_compare_eq_l _ _ _ E2), E1.
    + pose proof (key_compare_trans (vkey z) (vkey y) (vkey x)) as Ht. rewrite E1, E2 in Ht.
      destruct (key_compare (vkey z) (vkey x)) eqn:E3; try done; [|by destruct Ht].
      exfalso. rewrite (key_compare_eq_l _ _ _ E3), key_compare_antisym, E1 in E2. done.
Qed.

Lemma value_then_priority_refl e : comparable e → cmp_le (value_then_priority value) e e.
Proof.
  intros He. unfold cmp_le. rewrite value_then_priority_key by done.
  by rewrite key_compare_refl, Z.compare_refl.
Qed.

(** What the head of the sort is: a maximum of the value, and a minimum of the
    priority among the maxima. *)
Lemma value_then_priority_le a b :
  comparable a → comparable b → cmp_le (value_then_priority value) a b →
  f64_gt (val b) (val a) = false ∧
  (f64_eqb (val b) (val a) = true →
   default i32_max (entry_priority a) ≤ default i32_max (entry_priority b))%Z.
Proof.
  intros Ha Hb. unfold cmp_le. rewrite value_then_priority_key by done.
  rewrite f64_gt_key, f64_eqb_key by done. rewrite (key_compare_antisym (vkey a)).
  by destruct (key_compare (vkey a) (vkey b)).
Qed.
End value_order.

(** ** The candidates of a ping *)

Section candidates.
Context (rs : list Entry).
Local Abbreviation bid e := (value_or_zero (resp_bid (entry_response e))).
Local Abbreviation valid e := (positive (resp_bid (entry_response e))).

Definition sorted_valid : list Entry :=
  sort_by (value_then_priority resp_bid) (List.filter (λ e, positive (resp_bid (entry_response e))) rs).

Lemma elem_of_sorted_valid e : e ∈ sorted_valid ↔ e ∈ rs ∧ valid e = true.
Proof. unfold sorted_valid. by rewrite elem_of_sort_by, elem_of_list_filter_bool. Qed.

Lemma sorted_valid_top top rest e :
  sorted_valid = top :: rest → e ∈ rs → valid e = true →
  f64_gt (bid e) (bid top) = false ∧
  (f64_eqb (bid e) (bid top) = true →
   default i32_max (entry_priority top) ≤ default i32_max (entry_priority e))%Z.
Proof.
  intros Hs He Hv.
  assert (Htop : valid top = true) by (apply elem_of_sorted_valid; rewrite Hs; by left).
  apply value_then_priority_le; [by apply positive_comparable..|].
  eapply sort_by_head_min with (P := comparable resp_bid); [| | |exact Hs|].
  - apply value_then_priority_orders.
  - apply Forall_forall. intros x [_ Hx]%elem_of_list_filter_bool. by apply positive_comparable.
  - intros x. apply value_then_priority_refl.
  - by apply elem_of_list_filter_bool.
Qed.

(** An infinite highest bid leaves no candidate; a finite one is its own. *)
Lemma within_epsilon_self x : within_epsilon x x = f64_is_finite x.
Proof.
  destruct (f64_is_finite x) eqn:Hf.
  - unfold within_epsilon. by rewrite f64_sub_self.
  - by destruct x as [|[]| |].
Qed.

(** Bids equal to the highest one are candidates. *)
Lemma within_epsilon_eq x y : f64_eqb x y = true → f64_is_finite y = true → within_epsilon y x = true.
Proof.
  intros He Hf.
  assert (Hn : f64_is_nan x = false ∧ f64_is_nan y = false)
    by (split; [by destruct x, y|by destruct y]).
  rewrite f64_eqb_key in He by tauto.
  pose proof (key_compare_spec (f64_key x) (f64_key y)) as H.
  destruct (key_compare (f64_key x) (f64_key y)); try done.
  assert (Heq : x = y ∨ ∃ s s', x = S754_zero s ∧ y = S754_zero s').
  { destruct x as [[]|[]| |[] m e], y as [[]|[]| |[] m' e']; simpl in *; try tauto; try lia; eauto;
      left; f_equal; lia. }
  destruct Heq as [->|(s & s' & -> & ->)]; [by rewrite within_epsilon_self|by destruct s, s'].
Qed.

(** Values between two equal ones are equal to both. *)
Lemma f64_squeeze h x y :
  f64_is_nan h = false → f64_is_nan x = false → f64_is_nan y = false →
  f64_gt x h = false → f64_gt y x = false → f64_eqb y h = true → f64_eqb x h = true.
Proof.
  intros Hh Hx Hy. rewrite !f64_gt_key, !f64_eqb_key by done.
  intros H1 H2 H3. destruct (key_compare (f64_key y) (f64_key h)) eqn:E; try done.
  rewrite (key_compare_eq_r _ _ _ E) in H2. rewrite key_compare_antisym in H2.
  by destruct (key_compare (f64_key h) (f64_key x)) eqn:E'; rewrite key_compare_antisym, E'.
Qed.

(** All the responses that bid the highest value are candidates. *)
Lemma take_while_candidates h l e :
  f64_is_nan h = false → f64_is_finite h = true →
  StronglySorted (cmp_le (value_then_priority resp_bid)) l →
  (∀ x, x ∈ l → valid x = true ∧ f64_gt (bid x) h = false) →
  e ∈ l → f64_eqb (bid e) h = true →
  e ∈ take_while (λ x, within_epsilon h (value_or_zero (resp_bid (entry_response x)))) l.
Proof.
  intros Hn Hf Hs Hall He Heq. induction Hs as [|x l Hs IH Hx]; [by apply elem_of_nil in He|].
  assert (Hbx : f64_eqb (bid x) h = true).
  { apply elem_of_cons in He as [->|He]; [done|].
    destruct (Hall x) as [Hvx Hgx]; [by left|]. destruct (Hall e) as [Hve _]; [by right|].
    apply (f64_squeeze h (bid x) (bid e)); try done; try by apply positive_comparable.
    rewrite Forall_forall in Hx.
    apply (value_then_priority_le resp_bid x e); [by apply positive_comparable..|by apply Hx]. }
  simpl. rewrite (within_epsilon_eq _ _ Hbx Hf). apply elem_of_cons in He as [->|He]; [by left|].
  right. apply IH; [|done]. intros y Hy. apply Hall. by right.
Qed.

Lemma sorted_valid_sorted : StronglySorted (cmp_le (value_then_priority resp_bid)) sorted_valid.
Proof.
  eapply sort_by_sorted with (P := comparable resp_bid); [apply value_then_priority_orders|].
  apply Forall_forall. intros x [_ Hx]%elem_of_list_filter_bool. by apply positive_comparable.
Qed.

(** The choice among the candidates. *)
Lemma select_winner_finite draw top rest :
  sorted_valid = top :: rest → f64_is_finite (bid top) = true →
  let candidates :=
    take_while (λ e, within_epsilon (bid top) (value_or_zero (resp_bid (entry_response e)))) sorted_valid in
  ∃ w, select_winner draw rs = Ok w ∧ w ∈ candidates ∧
    (∀ e p, e ∈ candidates → entry_priority e = Some p →
       ∃ q, entry_priority w = Some q ∧ (q ≤ p)%Z).
Proof.
  intros Hs Hf cs. unfold select_winner. fold sorted_valid. rewrite Hs. rewrite <-Hs. fold cs.
  assert (Hcs : ∃ cs', cs = top :: cs').
  { unfold cs. rewrite Hs. simpl. rewrite within_epsilon_self, Hf. eauto. }
  destruct Hcs as [cs' Hcs]. destruct cs' as [|c2 cs'].
  { rewrite Hcs. exists top. split_and!; [done|by left|].
    intros e p ->%list_elem_of_singleton ->. exists p. split; [done|lia]. }
  rewrite Hcs, <-Hcs.
  set (wp := List.filter (λ e, bool_decide (is_Some (entry_priority e))) cs).
  assert (Hwp : ∀ e p, e ∈ cs → entry_priority e = Some p → e ∈ wp).
  { intros e p He Hp. apply elem_of_list_filter_bool. split; [done|].
    apply bool_decide_eq_true_2. by exists p. }
  destruct (min_by_key _ wp) as [w|] eqn:Hm.
  - exists w. pose proof (min_by_key_elem _ _ _ Hm) as Hw.
    apply elem_of_list_filter_bool in Hw as [Hw [q Hq]%bool_decide_eq_true]. split_and!; [done|done|].
    intros e p He Hp. exists q. split; [done|].
    pose proof (min_by_key_min _ _ _ Hm e (Hwp e p He Hp)) as Hle. simpl in Hle. by rewrite Hp, Hq in Hle.
  - assert (Hlen : (0 < Z.of_nat (length cs))%Z) by (rewrite Hcs; simpl; lia).
    rewrite (proj2 (Z.eqb_neq _ _)) by lia.
    destruct (lookup_lt_is_Some_2 cs (Z.to_nat (draw mod Z.of_nat (length cs)))) as [w Hw].
    { pose proof (Z.mod_pos_bound draw (Z.of_nat (length cs)) Hlen). lia. }
    rewrite Hw. exists w. split_and!; [done|by eapply list_elem_of_lookup_2|].
    intros e p He Hp. specialize (Hwp e p He Hp).
    destruct (min_by_key_some (λ e, default 0%Z (entry_priority e)) wp) as [w' Hw'].
    { intros Hnil. rewrite Hnil in Hwp. by apply elem_of_nil in Hwp. }
    congruence.
Qed.

Lemma select_winner_infinite draw top rest :
  sorted_valid = top :: rest → f64_is_finite (bid top) = false →
  select_winner draw rs = Err "attempt to calculate the remainder with a divisor of zero".
Proof.
  intros Hs Hf. unfold select_winner. fold sorted_valid. rewrite Hs. simpl.
  by rewrite within_epsilon_self, Hf.
Qed.

Lemma sorted_valid_nil draw :
  sorted_valid = [] → select_winner draw rs = ok_or "No responses provided to select_winner" (head rs).
Proof. intros Hs. unfold select_winner. fold sorted_valid. rewrite Hs. by destruct rs. Qed.
End candidates.

(** The choice among all the responses. *)
Lemma select_winner_optimal_aux (draw : Z) (rs : list Entry) :
  (∃ e, e ∈ rs ∧ positive (resp_bid (entry_response e)) = true) →
  (∀ e, e ∈ rs → resp_bid (entry_response e) ≠ Some (S754_infinity false)) →
  ∃ w b top h,
    select_winner draw rs = Ok w ∧ w ∈ rs ∧ resp_bid (entry_response w) = Some b ∧ f64_gt b f64_zero = true ∧
    top ∈ rs ∧ resp_bid (entry_response top) = Some h ∧ within_epsilon h b = true ∧
    (∀ e x, e ∈ rs → resp_bid (entry_response e) = Some x → f64_gt x f64_zero = true → f64_gt x h = false) ∧
    (∀ e x p, e ∈ rs → resp_bid (entry_response e) = Some x → f64_eqb x h = true → entry_priority e = Some p →
       ∃ q, entry_priority w = Some q ∧ (q ≤ p)%Z).
Proof.
  intros (e0 & He0 & Hv0) Hinf.
  destruct (sorted_valid rs) as [|top rest] eqn:Hs.
  { assert (He : e0 ∈ sorted_valid rs) by (by apply elem_of_sorted_valid).
    rewrite Hs in He. by apply elem_of_nil in He. }
  assert (Htop : top ∈ sorted_valid rs) by (rewrite Hs; by left).
  apply elem_of_sorted_valid in Htop as [Htin Htv].
  destruct (positive_value _ Htv) as (h & Hh & Hhpos).
  assert (Hfin : f64_is_finite h = true).
  { specialize (Hinf top Htin). rewrite Hh in Hinf.
    apply f64_gt_zero_cases in Hhpos as [->|(m & ex & ->)]; done. }
  destruct (select_winner_finite rs draw top rest Hs) as (w & Hw & Hwc & Hpri); [by rewrite Hh|].
  rewrite Hh in Hwc, Hpri. simpl in Hwc, Hpri.
  pose proof (take_while_incl _ _ _ Hwc) as Hws. apply elem_of_sorted_valid in Hws as [Hwin Hwv].
  destruct (positive_value _ Hwv) as (b & Hb & Hbpos).
  assert (Hmax : ∀ e, e ∈ rs → positive (resp_bid (entry_response e)) = true →
    f64_gt (value_or_zero (resp_bid (entry_response e))) h = false).
  { intros e He Hv. destruct (sorted_valid_top rs top rest e Hs He Hv) as [Hgt _]. by rewrite Hh in Hgt. }
  exists w, b, top, h. split_and!; try done.
  - pose proof (take_while_Forall (λ e, within_epsilon h (value_or_zero (resp_bid (entry_response e))))
      (sorted_valid rs)) as Hall.
    rewrite Forall_forall in Hall. specialize (Hall w Hwc). simpl in Hall. by rewrite Hb in Hall.
  - intros e x He Hx Hpos. specialize (Hmax e He). rewrite Hx in Hmax. by apply Hmax.
  - intros e x p He Hx Heq. apply Hpri.
    assert (Hxv : positive (Some x) = true).
    { unfold positive. simpl. apply f64_gt_zero_cases in Hhpos as [->|(m & ex & ->)]; [done|].
      by destruct x as [[]|[]| |[] m' e']. }
    apply take_while_candidates; try done.
    + by eapply f64_gt_not_nan.
    + apply sorted_valid_sorted.
    + intros y Hy. apply elem_of_sorted_valid in Hy as [Hy Hyv]. auto.
    + apply elem_of_sorted_valid. by rewrite Hx.
    + by rewrite Hx.
Qed.

(** ** Properties *)

(** the selection panics exactly when there is no response at all or when
    some response bids positive infinity; in particular it never panics on
    finite bids, whatever the random draw. *)
Theorem select_winner_panics_iff (draw : Z) (rs : list Entry) :
  is_ok (select_winner draw rs) = false ↔
  rs = [] ∨ ∃ e, e ∈ rs ∧ resp_bid (entry_response e) = Some (S754_infinity false).
Proof.
  destruct (sorted_valid rs) as [|top rest] eqn:Hs.
  - rewrite (sorted_valid_nil rs draw Hs). destruct rs as [|e0 rs]; simpl; [naive_solver|].
    split; [done|]. intros [?|(e & He & Hb)]; [done|].
    assert (He' : e ∈ sorted_valid (e0 :: rs)) by (apply elem_of_sorted_valid; by rewrite Hb).
    rewrite Hs in He'. by apply elem_of_nil in He'.
  - assert (Htop : top ∈ sorted_valid rs) by (rewrite Hs; by left).
    apply elem_of_sorted_valid in Htop as [Hin Hv].
    destruct (positive_value _ Hv) as (x & Hx & Hpos).
    destruct (f64_is_finite x) eqn:Hf.
    + destruct (select_winner_finite rs draw top rest Hs) as (w & -> & _); [by rewrite Hx|].
      split; [done|]. intros [->|(e & He & Hb)]; [by apply elem_of_nil in Hin|].
      destruct (sorted_valid_top rs top rest e Hs He) as [Hgt _]; [by rewrite Hb|].
      rewrite Hb, Hx in Hgt. simpl in Hgt.
      apply f64_gt_zero_cases in Hpos as [->|(m & ex & ->)]; done.
    + rewrite (select_winner_infinite rs draw top rest Hs) by (by rewrite Hx). simpl.
      split; [|done]. intros _. right. exists top. split; [done|].
      apply f64_gt_zero_cases in Hpos as [->|(m & ex & ->)]; done.
Qed.

(** C7: when some response has a valid bid and no bid is infinite, the winner is
    one of the responses, its bid is valid and within the price epsilon of the
    highest valid bid, and no response that bids the highest value has a better
    priority than the winner. *)
Theorem select_winner_optimal (draw : Z) (rs : list Entry) :
  (∃ e, e ∈ rs ∧ positive (resp_bid (entry_response e)) = true) →
  (∀ e, e ∈ rs → resp_bid (entry_response e) ≠ Some (S754_infinity false)) →
  ∃ w b top h,
    select_winner draw rs = Ok w ∧ w ∈ rs ∧ resp_bid (entry_response w) = Some b ∧ f64_gt b f64_zero = true ∧
    top ∈ rs ∧ resp_bid (entry_response top) = Some h ∧ within_epsilon h b = true ∧
    (∀ e x, e ∈ rs → resp_bid (entry_response e) = Some x → f64_gt x f64_zero = true → f64_gt x h = false) ∧
    (∀ e x p, e ∈ rs → resp_bid (entry_response e) = Some x → f64_eqb x h = true → entry_priority e = Some p →
       ∃ q, entry_priority w = Some q ∧ (q ≤ p)%Z).
Proof. apply select_winner_optimal_aux. Qed.

(** when no response has a valid bid, the first response is returned as it
    came: the selection never turns an error into a sale. *)
Theorem select_winner_no_valid_bid (draw : Z) (e0 : Entry) (rs : list Entry) :
  (∀ e, e ∈ e0 :: rs → positive (resp_bid (entry_response e)) = false) →
  select_winner draw (e0 :: rs) = Ok e0.
Proof.
  intros Hno. rewrite sorted_valid_nil; [done|].
  destruct (sorted_valid (e0 :: rs)) as [|e l] eqn:Hs; [done|].
  assert (He : e ∈ sorted_valid (e0 :: rs)) by (rewrite Hs; by left).
  apply elem_of_sorted_valid in He as [He Hv]. by rewrite Hno in Hv.
Qed.

(** the fullpost winner is a valid response with the highest price, and
    among the responses at that price one with the best priority; there is one as
    soon as there is a valid response. *)
Theorem select_fullpost_winner_optimal (rs : list Entry) :
  fullpost_valid_responses rs ≠ [] →
  ∃ w price,
    select_fullpost_winner (fullpost_valid_responses rs) = Ok w ∧ w ∈ rs ∧
    resp_success (entry_response w) = true ∧ resp_price (entry_response w) = Some price ∧
    f64_gt price f64_zero = true ∧
    (∀ e x, e ∈ rs → resp_success (entry_response e) = true → resp_status (entry_response e) ≠ "timeout" →
       resp_price (entry_response e) = Some x → f64_gt x f64_zero = true →
       f64_gt x price = false ∧
       (f64_eqb x price = true →
        default i32_max (entry_priority w) ≤ default i32_max (entry_priority e))%Z).
Proof.
  intros Hne. unfold select_fullpost_winner.
  destruct (sort_by (value_then_priority resp_price) (fullpost_valid_responses rs)) as [|w rest] eqn:Hs.
  { by apply sort_by_nil_inv in Hs. }
  assert (Hall : ∀ e, e ∈ fullpost_valid_responses rs ↔
    e ∈ rs ∧ resp_success (entry_response e) = true ∧ positive (resp_price (entry_response e)) = true ∧
    resp_status (entry_response e) ≠ "timeout").
  { intros e. unfold fullpost_valid_responses.
    rewrite elem_of_list_filter_bool, !andb_true_iff, negb_true_iff, String.eqb_neq. tauto. }
  assert (Hw : w ∈ fullpost_valid_responses rs).
  { rewrite <-(elem_of_sort_by (value_then_priority resp_price)), Hs. by left. }
  apply Hall in Hw as (Hin & Hok & Hv & _). destruct (positive_value _ Hv) as (price & Hprice & Hpos).
  exists w, price. split_and!; try done. intros e x He Heok Hst Hx Hxpos.
  assert (Hev : positive (resp_price (entry_response e)) = true) by (rewrite Hx; done).
  destruct (value_then_priority_le resp_price w e) as [Hgt Hpri]; [by apply positive_comparable..| |].
  - eapply sort_by_head_min with (P := comparable resp_price); [| | |exact Hs|].
    + apply value_then_priority_orders.
    + apply Forall_forall. intros y Hy. apply Hall in Hy as (_ & _ & Hy & _). by apply positive_comparable.
    + intros y. apply value_then_priority_refl.
    + by apply Hall.
  - rewrite Hx, Hprice in *. done.
Qed.

(** ** Witnesses *)

Definition sample_bid (bid : string) : BuyerResponse := {|
  resp_success := true; resp_status := "accepted"; resp_error := None; resp_message := None;
  resp_promise_id := Some "PROMISE_0A"; resp_ping_id := Some "FP_0"; resp_post_id := None;
  resp_price := parse_f64 bid; resp_bid := parse_f64 bid
|}.

Definition sample_entries : list Entry :=
  [(sample_bid "100", 1%N, Some 3%Z); (sample_bid "100.005", 2%N, None); (sample_bid "100.005", 3%N, Some 7%Z)].

Lemma select_winner_optimal_witness :
  entry_campaign <$> (match select_winner 0 sample_entries with Ok w => Some w | Err _ => None end) = Some 1%N ∧
  ∃ w b top h,
    select_winner 0 sample_entries = Ok w ∧ w ∈ sample_entries ∧
    resp_bid (entry_response w) = Some b ∧ f64_gt b f64_zero = true ∧
    top ∈ sample_entries ∧ resp_bid (entry_response top) = Some h ∧ within_epsilon h b = true ∧
    (∀ e x, e ∈ sample_entries → resp_bid (entry_response e) = Some x → f64_gt x f64_zero = true → f64_gt x h = false) ∧
    (∀ e x p, e ∈ sample_entries → resp_bid (entry_response e) = Some x → f64_eqb x h = true → entry_priority e = Some p →
       ∃ q, entry_priority w = Some q ∧ (q ≤ p)%Z).
Proof.
  split; [vm_compute; reflexivity|]. apply (select_winner_optimal 0 sample_entries).
  - exists (sample_bid "100", 1%N, Some 3%Z). split; [by left|reflexivity].
  - intros e He. unfold sample_entries in He. rewrite !elem_of_cons, elem_of_nil in He.
    destruct He as [->|[->|[->|[]]]]; vm_compute; discriminate.
Defined.

Lemma select_winner_no_valid_bid_witness :
  select_winner 5 [(sample_bid "0", 1%N, None); (sample_bid "-4", 2%N, Some 1%Z)] =
  Ok (sample_bid "0", 1%N, None).
Proof.
  apply (select_winner_no_valid_bid 5 (sample_bid "0", 1%N, None) [(sample_bid "-4", 2%N, Some 1%Z)]).
  intros e He. rewrite !elem_of_cons, elem_of_nil in He. destruct He as [->|[->|[]]]; reflexivity.
Defined.

Lemma select_fullpost_winner_optimal_witness :
  let rs := [(sample_bid "80", 1%N, Some 3%Z); (sample_bid "90", 2%N, None); (sample_bid "90", 3%N, Some 7%Z)] in
  ∃ w price,
    select_fullpost_winner (fullpost_valid_responses rs) = Ok w ∧ w ∈ rs ∧
    resp_success (entry_response w) = true ∧ resp_price (entry_response w) = Some price ∧
    f64_gt price f64_zero = true ∧
    (∀ e x, e ∈ rs → resp_success (entry_response e) = true → resp_status (entry_response e) ≠ "timeout" →
       resp_price (entry_response e) = Some x → f64_gt x f64_zero = true →
       f64_gt x price = false ∧
       (f64_eqb x price = true →
        default i32_max (entry_priority w) ≤ default i32_max (entry_priority e))%Z).
Proof.
  apply (select_fullpost_winner_optimal
    [(sample_bid "80", 1%N, Some 3%Z); (sample_bid "90", 2%N, None); (sample_bid "90", 3%N, Some 7%Z)]).
  vm_compute. discriminate.
Defined.
