(* ===== verification/Pulsar.v ===== *)
(** * The internal buyer

    [crates/core/src/services/pulsar.rs]: the identifiers Pulsar hands out and its
    answers to ping, post and fullpost, in the async and the sync version.  Clock
    readings and random values are the fields of [PulsarDraws], one per use; a
    delay of the chaos mode has no other effect on an answer. *)

From stdpp Require Import base list strings gmap numbers pretty.
From Stdlib Require Import Ascii String ZArith Lia.
From S2P Require Import Prelude Float64 Platform Json Models Samples Qualification Response Auction.

Open Scope string_scope.
Open Scope list_scope.

Record PulsarDraws : Type := {
  draw_ping_now : DateTime;
  draw_ping_nonce : string;
  draw_rejected_now : DateTime;
  draw_rejected_nonce : string;
  draw_promise : string;
  draw_bid : Z;
  draw_post_now : DateTime;
  draw_price : Z
}.

(** [std::env::var("CHAOS").unwrap_or_default() == "1"]. *)
Definition should_inject_chaos (chaos_env : option string) : bool :=
  String.eqb (default "" chaos_env) "1".

(** The milliseconds slept by [inject_chaos_delay], from a random [u64]. *)
Definition inject_chaos_delay (chaos_env : option string) (draw : Z) : option Z :=
  if should_inject_chaos chaos_env then Some (draw mod 150 + 50)%Z else None.

(** [(rand::random::<u32>() % 200 + 100) as f64]. *)
Definition random_price (draw : Z) : f64 := f64_of_Z (draw mod 200 + 100).

Section pulsar.
Context `{Platform}.

(** [DateTime::timestamp_millis]. *)
Definition timestamp_millis (t : DateTime) : Z := (t / 1000)%Z.

Definition generate_promise_id (bytes : string) : string :=
  "PROMISE_" +:+ to_uppercase (hex_encode bytes).

Definition ping_id_payload (lead_id : string) (now : DateTime) (bytes outcome : string) : string :=
  let ts_ms := timestamp_millis now in
  let nonce := to_uppercase (hex_encode bytes) in
  lead_id +:+ "|" +:+ pretty ts_ms +:+ "|" +:+ nonce +:+ "|" +:+ outcome.

Definition generate_ping_id (lead_id : string) (now : DateTime) (bytes : string) : string :=
  "FP_" +:+ base64_encode (ping_id_payload lead_id now bytes "accepted").

Definition generate_rejected_ping_id (lead_id : string) (now : DateTime) (bytes : string) : string :=
  "FP_" +:+ base64_encode (ping_id_payload lead_id now bytes "rejected").

Definition generate_post_id (lead_id : string) (now : DateTime) : string :=
  let timestamp := format_compact now in
  "RP_" +:+ base64_encode (lead_id +:+ "|" +:+ timestamp +:+ "|sold").

(** [lead.lead_id.clone().unwrap_or_else(|| lead.uuid.to_string())]. *)
Definition pulsar_lead_id (lead : Lead) : string :=
  default (uuid_to_string (lead_uuid lead)) (lead_lead_id lead).

Definition qualify (lead : Lead) (request_type : string) (cfg : option BuyerQualificationConfig) : QualificationResult :=
  evaluate {| engine_lead := lead; engine_request_type := request_type; engine_qualification_config := cfg |}.

Definition route_ping_direct (d : PulsarDraws) (lead : Lead)
    (qualification_config : option BuyerQualificationConfig) : Result string BuyerResponse :=
  let lead_id := pulsar_lead_id lead in
  let ping_id := generate_ping_id lead_id (draw_ping_now d) (draw_ping_nonce d) in
  let promise_id := "PROMISE_" +:+ to_uppercase (hex_encode (draw_promise d)) in
  let accepted := accepted (qualify lead "ping" qualification_config) in
  if negb accepted then
    let rejected_ping_id := generate_rejected_ping_id lead_id (draw_rejected_now d) (draw_rejected_nonce d) in
    Ok {| resp_success := false;
          resp_status := "rejected";
          resp_ping_id := Some rejected_ping_id;
          resp_post_id := None;
          resp_promise_id := None;
          resp_price := None;
          resp_bid := None;
          resp_error := Some "Lead rejected by qualification rules";
          resp_message := Some "Lead did not meet qualification requirements" |}
  else
    Ok {| resp_success := true;
          resp_status := "accepted";
          resp_ping_id := Some ping_id;
          resp_post_id := None;
          resp_promise_id := Some promise_id;
          resp_price := None;
          resp_bid := Some (random_price (draw_bid d));
          resp_error := None;
          resp_message := Some "Lead accepted for ping" |}.

Definition route_post_direct (d : PulsarDraws) (lead : Lead) (promise_id : string)
    (qualification_config : option BuyerQualificationConfig) (ping_bid : option f64)
    : Result string BuyerResponse :=
  let lead_id := pulsar_lead_id lead in
  let accepted := accepted (qualify lead "post" qualification_config) in
  if negb accepted then
    Ok {| resp_success := false;
          resp_status := "rejected";
          resp_ping_id := None;
          resp_post_id := None;
          resp_promise_id := Some promise_id;
          resp_price := None;
          resp_bid := None;
          resp_error := Some "Lead rejected by qualification rules";
          resp_message := Some "Lead did not meet qualification requirements" |}
  else
    let timestamp := format_compact (draw_post_now d) in
    let payload := lead_id +:+ "|" +:+ timestamp +:+ "|sold" in
    let post_id := "RP_" +:+ base64_encode payload in
    let price := match ping_bid with Some b => Some b | None => Some (random_price (draw_price d)) end in
    Ok {| resp_success := true;
          resp_status := "sold";
          resp_ping_id := None;
          resp_post_id := Some post_id;
          resp_promise_id := Some promise_id;
          resp_price := price;
          resp_bid := None;
          resp_error := None;
          resp_message := Some "Lead accepted and sold" |}.

(** The response of a fullpost: the post's, with the ping's [ping_id]. *)
Definition with_ping_id (ping_id : option string) (post_response : BuyerResponse) : BuyerResponse := {|
  resp_success := resp_success post_response;
  resp_status := resp_status post_response;
  resp_ping_id := ping_id;
  resp_post_id := resp_post_id post_response;
  resp_promise_id := resp_promise_id post_response;
  resp_price := resp_price post_response;
  resp_bid := None;
  resp_error := resp_error post_response;
  resp_message := resp_message post_response
|}.

Definition route_fullpost_direct (d : PulsarDraws) (lead : Lead)
    (qualification_config : option BuyerQualificationConfig) : Result string BuyerResponse :=
  ping_response ← route_ping_direct d lead qualification_config;
  if negb (resp_success ping_response) then Ok ping_response
  else
    promise_id ← ok_or "Ping succeeded but no promise_id returned" (resp_promise_id ping_response);
    post_response ← route_post_direct d lead promise_id qualification_config (resp_bid ping_response);
    Ok (with_ping_id (resp_ping_id ping_response) post_response).

(** The sync versions, which draw the identifiers after the evaluation. *)
Definition route_ping_direct_sync (d : PulsarDraws) (lead : Lead)
    (qualification_config : option BuyerQualificationConfig) : Result string BuyerResponse :=
  let lead_id := pulsar_lead_id lead in
  let qual_result := qualify lead "ping" qualification_config in
  if negb (accepted qual_result) then
    Ok {| resp_success := false;
          resp_status := "rejected";
          resp_ping_id := Some (generate_rejected_ping_id lead_id (draw_rejected_now d) (draw_rejected_nonce d));
          resp_post_id := None;
          resp_promise_id := None;
          resp_price := None;
          resp_bid := None;
          resp_error := Some "Lead rejected by qualification rules";
          resp_message := Some "Lead did not meet qualification requirements" |}
  else
    let ping_id := generate_ping_id lead_id (draw_ping_now d) (draw_ping_nonce d) in
    let promise_id := generate_promise_id (draw_promise d) in
    Ok {| resp_success := true;
          resp_status := "accepted";
          resp_ping_id := Some ping_id;
          resp_post_id := None;
          resp_promise_id := Some promise_id;
          resp_price := None;
          resp_bid := Some (random_price (draw_bid d));
          resp_error := None;
          resp_message := Some "Lead accepted for ping" |}.

Definition route_post_direct_sync (d : PulsarDraws) (lead : Lead) (promise_id : string)
    (qualification_config : option BuyerQualificationConfig) (ping_bid : option f64)
    : Result string BuyerResponse :=
  let lead_id := pulsar_lead_id lead in
  let qual_result := qualify lead "post" qualification_config in
  if negb (accepted qual_result) then
    Ok {| resp_success := false;
          resp_status := "rejected";
          resp_ping_id := None;
          resp_post_id := None;
          resp_promise_id := Some promise_id;
          resp_price := None;
          resp_bid := None;
          resp_error := Some "Lead rejected by qualification rules";
          resp_message := Some "Lead did not meet qualification requirements" |}
  else
    let post_id := generate_post_id lead_id (draw_post_now d) in
    let price := match ping_bid with Some b => Some b | None => Some (random_price (draw_price d)) end in
    Ok {| resp_success := true;
          resp_status := "sold";
          resp_ping_id := None;
          resp_post_id := Some post_id;
          resp_promise_id := Some promise_id;
          resp_price := price;
          resp_bid := None;
          resp_error := None;
          resp_message := Some "Lead accepted and sold" |}.

Definition route_fullpost_direct_sync (d : PulsarDraws) (lead : Lead)
    (qualification_config : option BuyerQualificationConfig) : Result string BuyerResponse :=
  ping_response ← route_ping_direct_sync d lead qualification_config;
  if negb (resp_success ping_response) then Ok ping_response
  else
    promise_id ← ok_or "Ping succeeded but no promise_id returned" (resp_promise_id ping_response);
    post_response ← route_post_direct_sync d lead promise_id qualification_config (resp_bid ping_response);
    Ok (with_ping_id (resp_ping_id ping_response) post_response).

End pulsar.

(** ** Lemmas *)

Section lemmas.
Context `{Platform}.

Lemma random_price_bounds draw :
  positive (Some (random_price draw)) = true ∧ f64_is_finite (random_price draw) = true ∧
  f64_le (f64_of_Z 100) (random_price draw) = true ∧ f64_le (random_price draw) (f64_of_Z 299) = true.
Proof.
  unfold random_price. assert (Hb : (0 ≤ draw mod 200 < 200)%Z) by (apply Z.mod_pos_bound; lia).
  assert (Hall : Forall (λ n, positive (Some (f64_of_Z (Z.of_nat n + 100))) = true ∧
      f64_is_finite (f64_of_Z (Z.of_nat n + 100)) = true ∧
      f64_le (f64_of_Z 100) (f64_of_Z (Z.of_nat n + 100)) = true ∧
      f64_le (f64_of_Z (Z.of_nat n + 100)) (f64_of_Z 299) = true) (seq 0 200)).
  { refine (bool_decide_unpack _ _). vm_compute. exact I. }
  rewrite Forall_forall in Hall. specialize (Hall (Z.to_nat (draw mod 200))).
  rewrite Z2Nat.id in Hall by lia. apply Hall. apply elem_of_seq. lia.
Qed.

Lemma ping_direct_eq d lead cfg : route_ping_direct d lead cfg = route_ping_direct_sync d lead cfg.
Proof. reflexivity. Qed.

Lemma post_direct_eq d lead promise cfg bid :
  route_post_direct d lead promise cfg bid = route_post_direct_sync d lead promise cfg bid.
Proof. reflexivity. Qed.

Lemma Some_option_iff {A} (o : option A) (b : bool) :
  match o with Some _ => b = true | None => b = false end → (is_Some o ↔ b = true).
Proof. destruct o, b; intros Hob; try done. Qed.

(** What the post evaluation accepts, the ping evaluation accepts. *)
Lemma qualify_post_ping lead cfg :
  accepted (qualify lead "post" cfg) = true → accepted (qualify lead "ping" cfg) = true.
Proof.
  intros Hpost. destruct (accepted (qualify lead "ping" cfg)) eqn:Hping; [done|].
  rewrite <-Hpost. symmetry. by apply evaluate_ping_reject.
Qed.
End lemmas.

(** ** Properties *)

Section properties.
Context `{Platform}.

(** a fullpost to Pulsar always answers, and the async and the sync version
    give the same answer.  It sells the lead exactly when the post rules accept
    it; the price is then the bid of its own ping, a whole number of dollars from
    100 to 299, and the answer carries the three identifiers.  Otherwise there is
    no price and no post id, and the answer has a promise id exactly when the ping
    rules had accepted the lead. *)
Theorem route_fullpost_direct_spec (d : PulsarDraws) (lead : Lead) (cfg : option BuyerQualificationConfig) :
  ∃ r, route_fullpost_direct_sync d lead cfg = Ok r ∧ route_fullpost_direct d lead cfg = Ok r ∧
    resp_success r = accepted (qualify lead "post" cfg) ∧ is_Some (resp_ping_id r) ∧
    (if resp_success r
     then ∃ n : Z, (100 ≤ n ≤ 299)%Z ∧ resp_price r = Some (f64_of_Z n) ∧
          resp_bid <$> (match route_ping_direct d lead cfg with Ok p => Some p | Err _ => None end)
            = Some (resp_price r) ∧
          positive (resp_price r) = true ∧ resp_status r = "sold" ∧
          resp_promise_id r = Some (generate_promise_id (draw_promise d)) ∧
          resp_post_id r = Some (generate_post_id (pulsar_lead_id lead) (draw_post_now d))
     else resp_status r = "rejected" ∧ resp_price r = None ∧ resp_post_id r = None ∧
          (is_Some (resp_promise_id r) ↔ accepted (qualify lead "ping" cfg) = true)).
Proof.
  assert (Heq : route_fullpost_direct d lead cfg = route_fullpost_direct_sync d lead cfg) by reflexivity.
  rewrite Heq. unfold route_fullpost_direct_sync, route_ping_direct_sync, route_post_direct_sync, route_ping_direct.
  pose proof (qualify_post_ping lead cfg) as Hpp.
  destruct (accepted (qualify lead "ping" cfg)) eqn:Hping; simpl; unfold mbind, Result_bind; simpl.
  - destruct (accepted (qualify lead "post" cfg)); simpl; eexists; split_and!; eauto; try done; try by apply Some_option_iff.
    exists (draw_bid d mod 200 + 100)%Z.
    pose proof (Z.mod_pos_bound (draw_bid d) 200 ltac:(lia)).
    destruct (random_price_bounds (draw_bid d)) as [Hpos _]. split_and!; done || lia.
  - eexists; split_and!; eauto; try done; try by apply Some_option_iff.
    + destruct (accepted (qualify lead "post" cfg)); [by specialize (Hpp eq_refl)|done].
    + simpl; split_and!; done.
Qed.

(** the answer of Pulsar to a post request takes the price the caller gives
    it, and to a ping request bids a valid amount exactly when it accepts; in
    both the async and the sync version agree. *)
Theorem route_ping_post_direct_spec (d : PulsarDraws) (lead : Lead) (cfg : option BuyerQualificationConfig)
    (promise : string) (ping_bid : option f64) :
  (∃ r, route_ping_direct d lead cfg = Ok r ∧ route_ping_direct_sync d lead cfg = Ok r ∧
     resp_success r = accepted (qualify lead "ping" cfg) ∧
     positive (resp_bid r) = resp_success r ∧ resp_price r = None ∧
     (is_Some (resp_promise_id r) ↔ resp_success r = true)) ∧
  (∃ r, route_post_direct d lead promise cfg ping_bid = Ok r ∧
     route_post_direct_sync d lead promise cfg ping_bid = Ok r ∧
     resp_success r = accepted (qualify lead "post" cfg) ∧ resp_promise_id r = Some promise ∧
     resp_bid r = None ∧ (is_Some (resp_post_id r) ↔ resp_success r = true) ∧
     resp_price r = (if resp_success r then Some (default (random_price (draw_price d)) ping_bid) else None)).
Proof.
  split.
  - unfold route_ping_direct, route_ping_direct_sync.
    destruct (accepted (qualify lead "ping" cfg)); simpl; eexists; split_and!; try done; try apply Some_option_iff; try done.
    apply random_price_bounds.
  - unfold route_post_direct, route_post_direct_sync.
    destruct (accepted (qualify lead "post" cfg)), ping_bid; simpl; eexists; split_and!;
      try done; try apply Some_option_iff; try done.
Qed.

Context `{!IdentifierLaws _}.

Lemma hex_upper_no_bar b : no_char "|" (to_uppercase (hex_encode b)) = true.
Proof.
  eapply str_forallb_impl; [|apply hex_upper_digits].
  intros a. destruct (Ascii.eqb_spec a "|") as [->|Hne]; done.
Qed.

(** ping ids do not collide: for one lead the id determines the
    millisecond and the nonce it was drawn with, and the id of an accepted ping
    is never the id of a rejected one, of whatever lead. *)
Theorem ping_ids_distinct (lead_id lead_id' : string) (t t' : DateTime) (b b' : string) :
  (generate_ping_id lead_id t b = generate_ping_id lead_id t' b' →
     timestamp_millis t = timestamp_millis t' ∧ b = b') ∧
  (generate_rejected_ping_id lead_id t b = generate_rejected_ping_id lead_id t' b' →
     timestamp_millis t = timestamp_millis t' ∧ b = b') ∧
  generate_ping_id lead_id t b ≠ generate_rejected_ping_id lead_id' t' b'.
Proof.
  assert (Hsame : ∀ outcome, ping_id_payload lead_id t b outcome = ping_id_payload lead_id t' b' outcome →
    timestamp_millis t = timestamp_millis t' ∧ b = b').
  { intros outcome Heq. unfold ping_id_payload in Heq.
    apply string_app_inj_r, string_app_inj_r in Heq.
    apply split_at_char in Heq as [Ht Heq]; [|apply pretty_Z_no_bar..].
    apply split_at_char in Heq as [Hn _]; [|apply hex_upper_no_bar..].
    split; [by apply (inj pretty)|by apply hex_upper_inj]. }
  unfold generate_ping_id, generate_rejected_ping_id. split_and!.
  1,2: intros Heq%string_app_inj_r; apply (inj base64_encode) in Heq; eauto.
  intros Heq%string_app_inj_r. apply (inj base64_encode) in Heq. unfold ping_id_payload in Heq.
  rewrite <-!string_app_assoc in Heq. by apply suffix_inj in Heq.
Qed.
End properties.

(** ** Witnesses *)

Definition sample_draws : PulsarDraws := {|
  draw_ping_now := 1700000000123456;
  draw_ping_nonce := "abcdef";
  draw_rejected_now := 1700000000123999;
  draw_rejected_nonce := "ghijkl";
  draw_promise := "mnopqr";
  draw_bid := 4294967295;
  draw_post_now := 1700000000200000;
  draw_price := 7
|}.

Lemma ping_ids_distinct_witness :
  @generate_ping_id reference_platform "lead_001" 0 "abcdef" ≠
  @generate_rejected_ping_id reference_platform "lead_001" 0 "abcdef".
Proof.
  apply (@ping_ids_distinct reference_platform reference_identifier_laws "lead_001" "lead_001" 0 0 "abcdef" "abcdef").
Defined.

Example fullpost_sample :
  resp_price <$> (match @route_fullpost_direct reference_platform sample_draws
      (Samples.sample_lead LeadProcessing None None (json_object [])) None with Ok r => Some r | Err _ => None end)
  = Some (Some (f64_of_Z 195)).
Proof. vm_compute. reflexivity. Qed.
