(* ===== verification/BuyerRouter.v ===== *)
(** * Routing to one buyer

    [crates/core/src/services/buyer_router.rs]: the router of one campaign, which
    finds the buyer's integration, answers through Pulsar for internal buyers and
    over HTTP for external ones, builds the payloads and reads the replies.  The
    HTTP client, [serde_json::from_str] and the cached lookups are parameters; the
    timings recorded on the way are the state of the effect. *)

From stdpp Require Import base list strings gmap.
From Stdlib Require Import ZArith Lia.
From S2P Require Import Prelude Float64 Platform Json Models Samples Qualification Response Auction Pulsar Metrics.

Open Scope string_scope.
Open Scope list_scope.

Record BuyerRouter : Type := {
  router_lead : Lead;
  router_campaigns : list Campaign;
  router_request_type : string;
  router_preloaded_integration : option BuyerIntegration;
  router_preloaded_qual_config : option BuyerQualificationConfig
}.

Definition BuyerRouter_new (lead : Lead) (campaigns : list Campaign) (request_type : string) : BuyerRouter := {|
  router_lead := lead; router_campaigns := campaigns; router_request_type := request_type;
  router_preloaded_integration := None; router_preloaded_qual_config := None
|}.

Definition with_preloaded_integration (integration : option BuyerIntegration) (r : BuyerRouter) : BuyerRouter := {|
  router_lead := router_lead r; router_campaigns := router_campaigns r;
  router_request_type := router_request_type r;
  router_preloaded_integration := integration;
  router_preloaded_qual_config := router_preloaded_qual_config r
|}.

Definition with_preloaded_qual_config (config : option BuyerQualificationConfig) (r : BuyerRouter) : BuyerRouter := {|
  router_lead := router_lead r; router_campaigns := router_campaigns r;
  router_request_type := router_request_type r;
  router_preloaded_integration := router_preloaded_integration r;
  router_preloaded_qual_config := config
|}.

(** ** What the router calls *)

Record HttpRequest : Type := {
  request_endpoint : string;
  request_headers : list (string * string);
  request_body : json;
  request_timeout_ms : Z
}.

(** A response that arrived: its status, and its body or the error of reading it. *)
Record HttpResponse : Type := {
  response_status : Z;
  response_text : Result string string
}.

Record Services : Type := {
  (** [HTTP_CLIENT.post(...).send()]. *)
  http_send : HttpRequest → Result string HttpResponse;
  (** [serde_json::from_str]. *)
  json_from_str : string → option json;
  (** The lookups of [get_buyer_integration], from the cache or the database. *)
  lookup_buyer : Uuid → Result string (option Buyer);
  lookup_integration : Uuid → Result string (option BuyerIntegration)
}.

(** The values one call draws: the clock, the random bytes, the new ids. *)
Record CallDraws : Type := {
  call_pulsar : PulsarDraws;
  call_elapsed_ms : Z;
  call_ping_uuid : Uuid;
  call_post_uuid : Uuid
}.

(** [StatusCode::is_success]. *)
Definition is_success_status (status : Z) : bool := ((200 <=? status) && (status <? 300))%Z.

Section router.
Context `{Platform} (sv : Services).

Abbreviation routing := (eff Telemetry string).

(** ** Payloads *)

(** [vertical_data_obj.and_then(|obj| obj.get(key)).cloned()]. *)
Definition get_field (r : BuyerRouter) (key : string) : option json :=
  obj ← as_object (lead_vertical_data (router_lead r)); map_get key obj.

Definition ping_payload_fields (r : BuyerRouter) (campaign : Campaign) (vertical_slug : string)
    : list (string * option json) :=
  let lead := router_lead r in [
    ("publisher_id", (λ id, JString (uuid_to_string id)) <$> lead_publisher_id lead);
    ("vertical", Some (JString vertical_slug));
    ("request_type", Some (JString "ping"));
    ("campaign_token", Some (JString (campaign_campaign_token campaign)));
    ("lead_id", JString <$> lead_lead_id lead);
    ("source", JString <$> lead_website_url lead);
    ("zip", JString <$> lead_zip_encrypted lead);
    ("ip_address", JString <$> lead_ip_address_encrypted lead);
    ("monthly_bill", get_field r "monthly_bill");
    ("own_home", get_field r "own_home");
    ("tcpa_consent", Some (JBool (lead_tcpa_consent lead)));
    ("tcpa_language", Some (JString (lead_tcpa_language lead)));
    ("purchase_timeframe", get_field r "purchase_timeframe");
    ("credit_rating", get_field r "credit_rating");
    ("property_type", get_field r "property_type");
    ("roof_shade", get_field r "roof_shade");
    ("roof_type", get_field r "roof_type");
    ("utility_provider", get_field r "utility_provider");
    ("jornaya_lead_id", JString <$> lead_jornaya_lead_id lead);
    ("trusted_form_url", JString <$> lead_trusted_form_url lead);
    ("user_agent", JString <$> lead_user_agent lead)].

Definition build_ping_payload (r : BuyerRouter) (campaign : Campaign) (vertical_slug : string) : json :=
  json_object [("lead", JObject (insert_present (ping_payload_fields r campaign vertical_slug) []))].

Definition post_payload_fields (r : BuyerRouter) (campaign : Campaign) (promise_id vertical_slug : string)
    : list (string * option json) :=
  let lead := router_lead r in [
    ("publisher_id", (λ id, JString (uuid_to_string id)) <$> lead_publisher_id lead);
    ("vertical", Some (JString vertical_slug));
    ("request_type", Some (JString "post"));
    ("promise_id", Some (JString promise_id));
    ("campaign_token", Some (JString (campaign_campaign_token campaign)));
    ("lead_id", JString <$> lead_lead_id lead);
    ("source", JString <$> lead_website_url lead);
    ("first_name", JString <$> lead_first_name_encrypted lead);
    ("last_name", JString <$> lead_last_name_encrypted lead);
    ("email", JString <$> lead_email_encrypted lead);
    ("mobile_phone", JString <$> lead_cell_phone_encrypted lead);
    ("street_address", JString <$> lead_street_address_encrypted lead);
    ("city", JString <$> lead_city_encrypted lead);
    ("state", JString <$> lead_state_encrypted lead);
    ("zip", JString <$> lead_zip_encrypted lead);
    ("ip_address", JString <$> lead_ip_address_encrypted lead);
    ("monthly_bill", get_field r "monthly_bill");
    ("own_home", get_field r "own_home");
    ("purchase_timeframe", get_field r "purchase_timeframe");
    ("credit_rating", get_field r "credit_rating");
    ("property_type", get_field r "property_type");
    ("roof_shade", get_field r "roof_shade");
    ("roof_type", get_field r "roof_type");
    ("utility_provider", get_field r "utility_provider");
    ("tcpa_consent", Some (JBool (lead_tcpa_consent lead)));
    ("tcpa_language", Some (JString (lead_tcpa_language lead)));
    ("jornaya_lead_id", JString <$> lead_jornaya_lead_id lead);
    ("trusted_form_url", JString <$> lead_trusted_form_url lead);
    ("user_agent", JString <$> lead_user_agent lead)].

Definition build_post_payload (r : BuyerRouter) (campaign : Campaign) (promise_id vertical_slug : string) : json :=
  json_object [("lead", JObject (insert_present (post_payload_fields r campaign promise_id vertical_slug) []))].

(** [serde_json::to_value(&lead)], by the derived [Serialize]. *)
Definition LeadStatus_variant (s : LeadStatus) : string :=
  match s with
  | LeadProcessing => "Processing"
  | LeadPingAccepted => "PingAccepted"
  | LeadSold => "Sold"
  | LeadRejected => "Rejected"
  | LeadTimeout => "Timeout"
  | LeadInvalid => "Invalid"
  | LeadError => "Error"
  | LeadTest => "Test"
  end.

Definition json_of_uuid (u : Uuid) : json := JString (uuid_to_string u).
Definition json_of_datetime (t : DateTime) : json := JString (serialize_datetime t).

Definition lead_to_value (l : Lead) : list (string * json) := [
  ("uuid", json_of_uuid (lead_uuid l)); ("event_id", JString (lead_event_id l));
  ("lead_id", json_of_opt_str (lead_lead_id l));
  ("publisher_id", json_of_option json_of_uuid (lead_publisher_id l));
  ("vertical_id", json_of_uuid (lead_vertical_id l));
  ("campaign_id", json_of_option json_of_uuid (lead_campaign_id l));
  ("buyer_id", json_of_option json_of_uuid (lead_buyer_id l));
  ("request_type", JString (lead_request_type l)); ("strategy", JString (lead_strategy l));
  ("status", JString (LeadStatus_variant (lead_status l)));
  ("promise_id", json_of_opt_str (lead_promise_id l)); ("ping_id", json_of_opt_str (lead_ping_id l));
  ("post_id", json_of_opt_str (lead_post_id l)); ("session_id", json_of_opt_str (lead_session_id l));
  ("request_stage", json_of_opt_str (lead_request_stage l));
  ("first_name_encrypted", json_of_opt_str (lead_first_name_encrypted l));
  ("last_name_encrypted", json_of_opt_str (lead_last_name_encrypted l));
  ("email_encrypted", json_of_opt_str (lead_email_encrypted l));
  ("cell_phone_encrypted", json_of_opt_str (lead_cell_phone_encrypted l));
  ("street_address_encrypted", json_of_opt_str (lead_street_address_encrypted l));
  ("city_encrypted", json_of_opt_str (lead_city_encrypted l));
  ("state_encrypted", json_of_opt_str (lead_state_encrypted l));
  ("zip_encrypted", json_of_opt_str (lead_zip_encrypted l));
  ("ip_address_encrypted", json_of_opt_str (lead_ip_address_encrypted l));
  ("email_sha256", json_of_opt_str (lead_email_sha256 l)); ("phone_sha256", json_of_opt_str (lead_phone_sha256 l));
  ("ip_address_hash", json_of_opt_str (lead_ip_address_hash l));
  ("email_domain", json_of_opt_str (lead_email_domain l)); ("tcpa_consent", JBool (lead_tcpa_consent l));
  ("tcpa_language", JString (lead_tcpa_language l)); ("is_test", JBool (lead_is_test l));
  ("user_agent", json_of_opt_str (lead_user_agent l)); ("referrer", json_of_opt_str (lead_referrer l));
  ("website_url", json_of_opt_str (lead_website_url l)); ("click_id", json_of_opt_str (lead_click_id l));
  ("url_consent", json_of_opt_str (lead_url_consent l));
  ("best_call_time", json_of_opt_str (lead_best_call_time l));
  ("date_of_birth", json_of_option (λ d, JString (serialize_date d)) (lead_date_of_birth l));
  ("home_phone", json_of_opt_str (lead_home_phone l));
  ("jornaya_lead_id", json_of_opt_str (lead_jornaya_lead_id l));
  ("trusted_form_url", json_of_opt_str (lead_trusted_form_url l));
  ("fbp_cookie", json_of_opt_str (lead_fbp_cookie l)); ("fbc_cookie", json_of_opt_str (lead_fbc_cookie l));
  ("utm_params", json_of_option id (lead_utm_params l));
  ("submitted_at", json_of_option json_of_datetime (lead_submitted_at l));
  ("sold_at", json_of_option json_of_datetime (lead_sold_at l));
  ("retry_count", json_of_i32 (lead_retry_count l));
  ("next_retry_at", json_of_option json_of_datetime (lead_next_retry_at l));
  ("vertical_data", lead_vertical_data l);
  ("created_at", json_of_datetime (lead_created_at l)); ("updated_at", json_of_datetime (lead_updated_at l))].

Definition build_fullpost_payload (r : BuyerRouter) : json :=
  json_object [("lead",
    JObject (map_insert "request_type" (JString "fullpost") (map_of (lead_to_value (router_lead r)))))].

(** ** Replies *)

(** [v.get(k).and_then(as_f64).or_else(|| v.get(k).and_then(as_str).and_then(parse))]. *)
Definition read_amount (k : string) (v : json) : option f64 :=
  match x ← jget k v; as_f64 x with
  | Some a => Some a
  | None => s ← (x ← jget k v; as_str x); parse_f64 s
  end.

Definition read_str (k : string) (v : json) : option string := x ← jget k v; as_str x.

(** The fields of a reply, once the body is JSON. *)
Definition response_of_json (d : CallDraws) (status : Z) (request_type : string) (j : json) : BuyerResponse :=
  let success := default (is_success_status status) (x ← jget "success" j; as_bool x) in {|
    resp_success := success;
    resp_status := default (if success then "accepted" else "rejected") (read_str "status" j);
    resp_error := read_str "error" j;
    resp_message := read_str "message" j;
    resp_promise_id := read_str "promise_id" j;
    resp_ping_id :=
      match read_str "ping_id" j with
      | Some s => Some s
      | None => if String.eqb request_type "ping"
                then Some ("ping_" +:+ uuid_to_string (call_ping_uuid d)) else None
      end;
    resp_post_id :=
      match read_str "post_id" j with
      | Some s => Some s
      | None => if String.eqb request_type "post"
                then Some ("post_" +:+ uuid_to_string (call_post_uuid d)) else None
      end;
    resp_price := read_amount "price" j;
    resp_bid := read_amount "bid" j
  |}.

Definition parse_buyer_response (d : CallDraws) (response : HttpResponse) (request_type : string)
    : Result string BuyerResponse :=
  body ← map_err (λ e, "Failed to read response body: " +:+ e) (response_text response);
  let j := match json_from_str sv body with
           | Some j => j
           | None => json_object [("success", JBool false); ("status", JString "error");
                                  ("error", JString ("Invalid JSON response: " +:+ body))]
           end in
  Ok (response_of_json d (response_status response) request_type j).

(** ** The buyer's integration *)

Definition get_buyer_integration (r : BuyerRouter) (campaign : Campaign) : Result string BuyerIntegration :=
  match router_preloaded_integration r with
  | Some integration => Ok integration
  | None =>
      found ← lookup_buyer sv (campaign_buyer_id campaign);
      buyer ← ok_or ("Buyer not found: " +:+ uuid_to_string (campaign_buyer_id campaign)) found;
      if negb (Buyer_active buyer) then
        Err ("Buyer " +:+ uuid_to_string (buyer_id buyer) +:+ " is not active (status: " +:+
             BuyerStatus_as_str (buyer_status buyer) +:+ ")")
      else
        integration_id ← ok_or "Buyer has no integration configured" (buyer_buyer_integration_id buyer);
        found ← lookup_integration sv integration_id;
        ok_or ("Buyer integration not found: " +:+ uuid_to_string integration_id) found
  end.

(** [integration.is_internal] buyers must be Pulsar. *)
Definition check_internal (integration : BuyerIntegration) : Result string unit :=
  if negb (starts_with "pulsar" (integration_slug integration)) then
    Err ("Invalid internal buyer configuration: " +:+ integration_slug integration +:+
         " (must start with 'pulsar')")
  else Ok tt.

Definition content_type : string * string := ("Content-Type", "application/json").
Definition internal_buyer_header (campaign : Campaign) : string * string :=
  ("X-Internal-Buyer-ID", uuid_to_string (campaign_buyer_id campaign)).

Definition missing_endpoint : string := "Missing endpoint for external buyer integration".

(** [client.post(...).send()] with the error the three routes return. *)
Definition send (req : HttpRequest) : Result string HttpResponse :=
  map_err (λ e, "HTTP request failed: " +:+ e) (http_send sv req).

(** ** The routes *)

Definition route_ping (d : CallDraws) (r : BuyerRouter) (campaign : Campaign) : routing BuyerResponse :=
  integration ← eff_lift (match router_preloaded_integration r with
                          | Some preloaded => Ok preloaded
                          | None => get_buyer_integration r campaign
                          end);
  if integration_is_internal integration then
    _ ← eff_lift (check_internal integration);
    let result := route_ping_direct_sync (call_pulsar d) (router_lead r) (router_preloaded_qual_config r) in
    _ ← eff_modify (with_timing (timing_record_ping_auction (call_elapsed_ms d)));
    _ ← eff_modify (with_metrics (record_query (call_elapsed_ms d)));
    eff_lift result
  else
    endpoint ← eff_lift (ok_or missing_endpoint (integration_posting_url_template integration));
    let payload := build_ping_payload r campaign (campaign_vertical campaign) in
    response ← eff_lift (send {| request_endpoint := endpoint; request_headers := [content_type];
                                 request_body := payload; request_timeout_ms := 500 |});
    _ ← eff_modify (with_metrics (record_query (call_elapsed_ms d)));
    eff_lift (parse_buyer_response d response "ping").

Definition route_post (d : CallDraws) (r : BuyerRouter) (campaign : Campaign) : routing BuyerResponse :=
  promise_id ← eff_lift (ok_or "Missing promise_id for post request" (lead_promise_id (router_lead r)));
  integration ← eff_lift (get_buyer_integration r campaign);
  if integration_is_internal integration then
    _ ← eff_lift (check_internal integration);
    let ping_bid := v ← jget "winning_bid" (lead_vertical_data (router_lead r)); as_f64 v in
    let result := route_post_direct_sync (call_pulsar d) (router_lead r) promise_id
                    (router_preloaded_qual_config r) ping_bid in
    _ ← eff_modify (with_timing (timing_record_post_sent (call_elapsed_ms d)));
    _ ← eff_modify (with_metrics (record_query (call_elapsed_ms d)));
    eff_lift result
  else
    endpoint ← eff_lift (ok_or missing_endpoint (integration_posting_url_template integration));
    let payload := build_post_payload r campaign promise_id (campaign_vertical campaign) in
    response ← eff_lift (send {| request_endpoint := endpoint;
                                 request_headers := [content_type; internal_buyer_header campaign];
                                 request_body := payload; request_timeout_ms := 3000 |});
    _ ← eff_modify (with_timing (timing_record_post_sent (call_elapsed_ms d)));
    _ ← eff_modify (with_metrics (record_query (call_elapsed_ms d)));
    eff_lift (parse_buyer_response d response "post").

Definition route_fullpost (d : CallDraws) (r : BuyerRouter) (campaign : Campaign) : routing BuyerResponse :=
  integration ← eff_lift (get_buyer_integration r campaign);
  if integration_is_internal integration then
    _ ← eff_lift (check_internal integration);
    let result := route_fullpost_direct_sync (call_pulsar d) (router_lead r) (router_preloaded_qual_config r) in
    _ ← eff_modify (with_timing (timing_record_post_sent (call_elapsed_ms d)));
    _ ← eff_modify (with_metrics (record_query (call_elapsed_ms d)));
    eff_lift result
  else
    endpoint ← eff_lift (ok_or missing_endpoint (integration_posting_url_template integration));
    let payload := build_fullpost_payload r in
    response ← eff_lift (send {| request_endpoint := endpoint;
                                 request_headers := [content_type; internal_buyer_header campaign];
                                 request_body := payload; request_timeout_ms := 5000 |});
    _ ← eff_modify (with_timing (timing_record_post_sent (call_elapsed_ms d)));
    _ ← eff_modify (with_metrics (record_query (call_elapsed_ms d)));
    eff_lift (parse_buyer_response d response "fullpost").

Definition route (d : CallDraws) (r : BuyerRouter) : routing BuyerResponse :=
  campaign ← eff_lift (ok_or "No campaign provided to BuyerRouter" (head (router_campaigns r)));
  if String.eqb (router_request_type r) "ping" then route_ping d r campaign
  else if String.eqb (router_request_type r) "post" then route_post d r campaign
  else if String.eqb (router_request_type r) "fullpost" then route_fullpost d r campaign
  else mret (failure_response "error" (Some ("Unknown request_type: " +:+ router_request_type r))).

End router.

(** ** The personal data of a lead *)

(** [l] with the personal data replaced. *)
Definition lead_with_pii (l : Lead) (first_name last_name email cell_phone street_address city state : option string)
    (date_of_birth : option Z) (home_phone : option string) : Lead := {|
  lead_uuid := lead_uuid l;
  lead_event_id := lead_event_id l;
  lead_lead_id := lead_lead_id l;
  lead_publisher_id := lead_publisher_id l;
  lead_vertical_id := lead_vertical_id l;
  lead_campaign_id := lead_campaign_id l;
  lead_buyer_id := lead_buyer_id l;
  lead_request_type := lead_request_type l;
  lead_strategy := lead_strategy l;
  lead_status := lead_status l;
  lead_promise_id := lead_promise_id l;
  lead_ping_id := lead_ping_id l;
  lead_post_id := lead_post_id l;
  lead_session_id := lead_session_id l;
  lead_request_stage := lead_request_stage l;
  lead_first_name_encrypted := first_name;
  lead_last_name_encrypted := last_name;
  lead_email_encrypted := email;
  lead_cell_phone_encrypted := cell_phone;
  lead_street_address_encrypted := street_address;
  lead_city_encrypted := city;
  lead_state_encrypted := state;
  lead_zip_encrypted := lead_zip_encrypted l;
  lead_ip_address_encrypted := lead_ip_address_encrypted l;
  lead_email_sha256 := lead_email_sha256 l;
  lead_phone_sha256 := lead_phone_sha256 l;
  lead_ip_address_hash := lead_ip_address_hash l;
  lead_email_domain := lead_email_domain l;
  lead_tcpa_consent := lead_tcpa_consent l;
  lead_tcpa_language := lead_tcpa_language l;
  lead_is_test := lead_is_test l;
  lead_user_agent := lead_user_agent l;
  lead_referrer := lead_referrer l;
  lead_website_url := lead_website_url l;
  lead_click_id := lead_click_id l;
  lead_url_consent := lead_url_consent l;
  lead_best_call_time := lead_best_call_time l;
  lead_date_of_birth := date_of_birth;
  lead_home_phone := home_phone;
  lead_jornaya_lead_id := lead_jornaya_lead_id l;
  lead_trusted_form_url := lead_trusted_form_url l;
  lead_fbp_cookie := lead_fbp_cookie l;
  lead_fbc_cookie := lead_fbc_cookie l;
  lead_utm_params := lead_utm_params l;
  lead_submitted_at := lead_submitted_at l;
  lead_sold_at := lead_sold_at l;
  lead_retry_count := lead_retry_count l;
  lead_next_retry_at := lead_next_retry_at l;
  lead_vertical_data := lead_vertical_data l;
  lead_created_at := lead_created_at l;
  lead_updated_at := lead_updated_at l
|}.

Definition router_with_lead (l : Lead) (r : BuyerRouter) : BuyerRouter := {|
  router_lead := l; router_campaigns := router_campaigns r; router_request_type := router_request_type r;
  router_preloaded_integration := router_preloaded_integration r;
  router_preloaded_qual_config := router_preloaded_qual_config r
|}.

(** The object a payload has under ["lead"]. *)
Definition payload_lead (payload : json) : jmap := default [] (o ← jget "lead" payload; as_object o).

(** [sv] with another HTTP client. *)
Definition with_http (send : HttpRequest → Result string HttpResponse) (sv : Services) : Services := {|
  http_send := send; json_from_str := json_from_str sv;
  lookup_buyer := lookup_buyer sv; lookup_integration := lookup_integration sv
|}.

(** ** Lemmas *)

Section lemmas.
Context `{Platform}.

Lemma payload_lead_object (o : jmap) : payload_lead (json_object [("lead", JObject o)]) = o.
Proof. reflexivity. Qed.

Lemma ping_payload_keys r c slug : (ping_payload_fields r c slug).*1 =
  ["publisher_id"; "vertical"; "request_type"; "campaign_token"; "lead_id"; "source"; "zip"; "ip_address";
   "monthly_bill"; "own_home"; "tcpa_consent"; "tcpa_language"; "purchase_timeframe"; "credit_rating";
   "property_type"; "roof_shade"; "roof_type"; "utility_provider"; "jornaya_lead_id"; "trusted_form_url";
   "user_agent"].
Proof. reflexivity. Qed.

Lemma ping_payload_keys_NoDup r c slug : NoDup (ping_payload_fields r c slug).*1.
Proof. rewrite ping_payload_keys. refine (bool_decide_unpack _ _). vm_compute. exact I. Qed.

Lemma post_payload_keys_NoDup r c p slug : NoDup (post_payload_fields r c p slug).*1.
Proof. 
  change (NoDup ["publisher_id"; "vertical"; "request_type"; "promise_id"; "campaign_token"; "lead_id"; "source";
    "first_name"; "last_name"; "email"; "mobile_phone"; "street_address"; "city"; "state"; "zip"; "ip_address";
    "monthly_bill"; "own_home"; "purchase_timeframe"; "credit_rating"; "property_type"; "roof_shade"; "roof_type";
    "utility_provider"; "tcpa_consent"; "tcpa_language"; "jornaya_lead_id"; "trusted_form_url"; "user_agent"]).
  refine (bool_decide_unpack _ _). vm_compute. exact I.
Qed.

(** A present key of a payload comes from its list of fields. *)
Lemma insert_present_inv (fields : list (string * option json)) k v :
  NoDup fields.*1 → map_get k (insert_present fields []) = Some v → (k, Some v) ∈ fields.
Proof.
  intros Hnd Hget. destruct (decide (k ∈ fields.*1)) as [Hin|Hn].
  - apply list_elem_of_fmap in Hin as ([k' v'] & -> & Hin). simpl in *.
    rewrite (insert_present_in _ _ _ _ Hnd Hin) in Hget. by destruct v'; simplify_eq.
  - by rewrite insert_present_notin in Hget.
Qed.

Lemma get_buyer_integration_http r campaign send sv :
  get_buyer_integration (with_http send sv) r campaign = get_buyer_integration sv r campaign.
Proof. reflexivity. Qed.
End lemmas.

Section post_lemma.
Context `{Platform} (sv : Services).

(** A post to an internal buyer whose rules accept the lead is a sale. *)
Lemma internal_post_sold (d : CallDraws) (r : BuyerRouter) (c : Campaign)
    (integration : BuyerIntegration) (promise : string) (t : Telemetry) :
  head (router_campaigns r) = Some c →
  get_buyer_integration sv r c = Ok integration →
  integration_is_internal integration = true → starts_with "pulsar" (integration_slug integration) = true →
  router_request_type r = "post" → lead_promise_id (router_lead r) = Some promise →
  accepted (qualify (router_lead r) "post" (router_preloaded_qual_config r)) = true →
  ∃ resp t', route sv d r t = (Ok resp, t') ∧ resp_success resp = true ∧ resp_status resp = "sold" ∧
    resp_price resp = Some (default (random_price (draw_price (call_pulsar d)))
                              (v ← jget "winning_bid" (lead_vertical_data (router_lead r)); as_f64 v)) ∧
    resp_promise_id resp = Some promise ∧ is_Some (resp_post_id resp) ∧ resp_error resp = None ∧
    t' = with_metrics (record_query (call_elapsed_ms d))
           (with_timing (timing_record_post_sent (call_elapsed_ms d)) t).
Proof.
  intros Hc Hi Hint Hslug Hrt Hp Hacc. unfold route, route_post. rewrite Hc, Hrt.
  unfold mbind, eff_bind, eff_lift, eff_modify; simpl. rewrite Hp; simpl. rewrite Hi, Hint. unfold check_internal.
  rewrite Hslug; simpl. unfold route_post_direct_sync. rewrite Hacc. simpl.
  eexists _, _. split_and!; try done. simpl.
  by destruct (jget "winning_bid" _) as [[]|].
Qed.
End post_lemma.

(** ** Properties *)

Section properties.
Context `{Platform}.

(** a ping never carries personal data: the payload is the same whatever the
    name, email, phones, street address, city, state and date of birth of the
    lead are, and has none of the keys the post sends them under. *)
Theorem ping_payload_without_pii (r : BuyerRouter) (c : Campaign) (slug : string)
    (fn ln em ph st ci sta hp : option string) (dob : option Z) :
  build_ping_payload (router_with_lead (lead_with_pii (router_lead r) fn ln em ph st ci sta dob hp) r) c slug =
    build_ping_payload r c slug ∧
  Forall (λ k, map_get k (payload_lead (build_ping_payload r c slug)) = None)
    ["first_name"; "last_name"; "email"; "mobile_phone"; "street_address"; "city"; "state"; "home_phone";
     "date_of_birth"; "promise_id"].
Proof.
  split; [reflexivity|]. unfold build_ping_payload. rewrite payload_lead_object.
  apply Forall_forall. intros k Hk. rewrite insert_present_notin; [done|]. rewrite ping_payload_keys.
  revert k Hk. rewrite <-Forall_forall. refine (bool_decide_unpack _ _). vm_compute. exact I.
Qed.

(** the post sends everything the ping sent, unchanged but for the request
    type, and the personal data with the promise id. *)
Theorem post_payload_extends_ping (r : BuyerRouter) (c : Campaign) (promise slug : string) :
  let ping := payload_lead (build_ping_payload r c slug) in
  let post := payload_lead (build_post_payload r c promise slug) in
  (∀ k v, k ≠ "request_type" → map_get k ping = Some v → map_get k post = Some v) ∧
  map_get "request_type" ping = Some (JString "ping") ∧ map_get "request_type" post = Some (JString "post") ∧
  map_get "promise_id" post = Some (JString promise) ∧
  map_get "first_name" post = JString <$> lead_first_name_encrypted (router_lead r) ∧
  map_get "last_name" post = JString <$> lead_last_name_encrypted (router_lead r) ∧
  map_get "email" post = JString <$> lead_email_encrypted (router_lead r) ∧
  map_get "mobile_phone" post = JString <$> lead_cell_phone_encrypted (router_lead r) ∧
  map_get "street_address" post = JString <$> lead_street_address_encrypted (router_lead r) ∧
  map_get "city" post = JString <$> lead_city_encrypted (router_lead r) ∧
  map_get "state" post = JString <$> lead_state_encrypted (router_lead r).
Proof.
  intros ping post. subst ping post. unfold build_ping_payload, build_post_payload. rewrite !payload_lead_object.
  pose proof (post_payload_keys_NoDup r c promise slug) as Hnd.
  assert (Hget : ∀ k o, (k, o) ∈ post_payload_fields r c promise slug →
    map_get k (insert_present (post_payload_fields r c promise slug) []) = o).
  { intros k o Hin. rewrite (insert_present_in _ _ _ _ Hnd Hin). by destruct o. }
  split_and!; try (apply Hget; unfold post_payload_fields; by member).
  - intros k v Hne Hk. apply Hget.
    apply insert_present_inv in Hk; [|apply ping_payload_keys_NoDup].
    unfold ping_payload_fields in Hk. rewrite !elem_of_cons, elem_of_nil in Hk.
    repeat destruct Hk as [Hk|Hk]; try done; rewrite Hk;
      try (by exfalso; apply Hne; congruence); unfold post_payload_fields; member.
  - rewrite (insert_present_in _ _ _ (Some (JString "ping")) (ping_payload_keys_NoDup r c slug)); [done|].
    unfold ping_payload_fields. member.
Qed.
End properties.

Section route_properties.
Context `{Platform} (sv : Services).

(** an internal buyer is never reached over HTTP: whatever the HTTP client
    does, the answer and the recorded timings are the same; and an internal
    integration that is not a Pulsar one fails instead of falling back to HTTP. *)
Theorem internal_buyer_never_http (send : HttpRequest → Result string HttpResponse) (d : CallDraws)
    (r : BuyerRouter) (c : Campaign) (integration : BuyerIntegration) (t : Telemetry) :
  head (router_campaigns r) = Some c →
  get_buyer_integration sv r c = Ok integration →
  integration_is_internal integration = true →
  route (with_http send sv) d r t = route sv d r t ∧
  (starts_with "pulsar" (integration_slug integration) = false →
   router_request_type r ∈ ["ping"; "post"; "fullpost"] → is_Some (lead_promise_id (router_lead r)) →
   route sv d r t = (Err ("Invalid internal buyer configuration: " +:+ integration_slug integration +:+
                          " (must start with 'pulsar')"), t)).
Proof.
  intros Hc Hi Hint.
  assert (Hpre : match router_preloaded_integration r with
                 | Some p => Ok p | None => get_buyer_integration sv r c end = Ok integration).
  { unfold get_buyer_integration in *. by destruct (router_preloaded_integration r). }
  split.
  - unfold route, route_ping, route_post, route_fullpost. rewrite Hc.
    unfold mbind, eff_bind, eff_lift; simpl.
    change (get_buyer_integration (with_http send sv) r c) with (get_buyer_integration sv r c).
    rewrite Hpre, Hi, Hint. done.
  - intros Hslug Hrt [p Hp]. unfold route, route_ping, route_post, route_fullpost. rewrite Hc.
    unfold mbind, eff_bind, eff_lift; simpl. rewrite Hpre, Hi, Hint, Hp. unfold check_internal. rewrite Hslug. simpl.
    rewrite !elem_of_cons, elem_of_nil in Hrt. by destruct Hrt as [->|[->|[->|[]]]].
Qed.

(** the two-step price.  When the lead has a [winning_bid] from its ping and
    the post rules accept it, the post to an internal buyer sells it at exactly
    that bid. *)
Theorem post_price_is_winning_bid (d : CallDraws) (r : BuyerRouter) (c : Campaign)
    (integration : BuyerIntegration) (promise : string) (n : number) (t : Telemetry) :
  head (router_campaigns r) = Some c →
  get_buyer_integration sv r c = Ok integration →
  integration_is_internal integration = true → starts_with "pulsar" (integration_slug integration) = true →
  router_request_type r = "post" → lead_promise_id (router_lead r) = Some promise →
  jget "winning_bid" (lead_vertical_data (router_lead r)) = Some (JNumber n) →
  accepted (qualify (router_lead r) "post" (router_preloaded_qual_config r)) = true →
  ∃ resp t', route sv d r t = (Ok resp, t') ∧ resp_success resp = true ∧ resp_status resp = "sold" ∧
    resp_price resp = Some (number_as_f64 n) ∧ resp_promise_id resp = Some promise ∧ is_Some (resp_post_id resp) ∧
    t' = with_metrics (record_query (call_elapsed_ms d))
           (with_timing (timing_record_post_sent (call_elapsed_ms d)) t).
Proof.
  intros Hc Hi Hint Hslug Hrt Hp Hbid Hacc.
  destruct (internal_post_sold sv d r c integration promise t) as (resp & t' & Hr & Hs & Hst & Hpr & Hpm & Hpo & _ & Ht);
    try done.
  exists resp, t'. rewrite Hbid in Hpr. split_and!; done.
Qed.

(** reading a reply fails only when the body cannot be read.  A body that is
    not JSON counts as a failure with neither price nor bid, whatever the HTTP
    status; a reply without a boolean [success] succeeds exactly on a 2xx status;
    and a ping reply always has a ping id, a post reply a post id. *)
Theorem parse_buyer_response_spec (d : CallDraws) (response : HttpResponse) (rt : string) :
  match response_text response with
  | Err e => parse_buyer_response sv d response rt = Err ("Failed to read response body: " +:+ e)
  | Ok body =>
      ∃ resp, parse_buyer_response sv d response rt = Ok resp ∧
        (rt = "ping" → is_Some (resp_ping_id resp)) ∧ (rt = "post" → is_Some (resp_post_id resp)) ∧
        match json_from_str sv body with
        | None => resp_success resp = false ∧ resp_status resp = "error" ∧
                  resp_price resp = None ∧ resp_bid resp = None ∧ resp_promise_id resp = None
        | Some j =>
            resp_success resp = match jget "success" j with
                                | Some (JBool b) => b
                                | _ => is_success_status (response_status response)
                                end ∧
            (is_Some (resp_bid resp) →
             match jget "bid" j with Some (JNumber _ | JString _) => True | _ => False end)
        end
  end.
Proof.
  unfold parse_buyer_response. destruct (response_text response) as [body|e]; [|done].
  simpl. eexists. split; [done|]. split_and!.
  - intros ->. simpl. by destruct (read_str "ping_id" _).
  - intros ->. simpl. by destruct (read_str "post_id" _).
  - destruct (json_from_str sv body) as [j|]; [|done]. unfold response_of_json. simpl. split.
    + destruct (jget "success" j) as [[]|]; done.
    + unfold read_amount. destruct (jget "bid" j) as [[]|]; simpl; done || by intros [? ?].
Qed.

(** an external buyer that answers the bid ["inf"] makes the auction panic:
    the text is read as an infinite bid, which passes every check of the auction
    and leaves the winner selection without candidates. *)
Theorem infinite_bid_panics (d : CallDraws) (status draw : Z) (campaign : Uuid) (priority : option Z)
    (body promise : string) :
  json_from_str sv body =
    Some (json_object [("success", JBool true); ("promise_id", JString promise); ("bid", JString "inf")]) →
  ∃ resp, parse_buyer_response sv d {| response_status := status; response_text := Ok body |} "ping" = Ok resp ∧
    resp_success resp = true ∧ positive (resp_bid resp) = true ∧ is_Some (resp_promise_id resp) ∧
    is_ok (select_winner draw [(resp, campaign, priority)]) = false.
Proof.
  intros Hj. unfold parse_buyer_response. simpl. rewrite Hj. eexists. split; [done|]. by split_and!.
Qed.
End route_properties.

(** ** Witnesses *)

Definition sample_call : CallDraws := {|
  call_pulsar := sample_draws; call_elapsed_ms := 4; call_ping_uuid := 101%N; call_post_uuid := 102%N
|}.

Definition sample_services : Services := {|
  http_send := λ _, Err "connection refused";
  json_from_str := λ s, if String.eqb s "inf reply" then
    Some (json_object [("success", JBool true); ("promise_id", JString "p"); ("bid", JString "inf")]) else None;
  lookup_buyer := λ _, Ok None;
  lookup_integration := λ _, Ok None
|}.

Definition sample_router (request_type slug : string) : BuyerRouter := {|
  router_lead := sample_lead LeadPingAccepted (Some 1%N) (Some "PROMISE_1")
                   (json_object [("winning_bid", JNumber (Float (f64_of_Z 120)))]);
  router_campaigns := [sample_campaign 1%N 11%N];
  router_request_type := request_type;
  router_preloaded_integration := Some (sample_integration slug None true);
  router_preloaded_qual_config := None
|}.


Lemma internal_buyer_never_http_witness :
  @route reference_platform sample_services sample_call (sample_router "ping" "carina") no_telemetry =
  (Err "Invalid internal buyer configuration: carina (must start with 'pulsar')", no_telemetry).
Proof.
  apply (@internal_buyer_never_http reference_platform sample_services (λ _, Err "") sample_call
    (sample_router "ping" "carina") (sample_campaign 1%N 11%N) (sample_integration "carina" None true) no_telemetry);
    try reflexivity; [by left|by eexists].
Defined.

Lemma post_price_is_winning_bid_witness :
  ∃ resp t', @route reference_platform sample_services sample_call (sample_router "post" "pulsar-solar") no_telemetry
      = (Ok resp, t') ∧ resp_success resp = true ∧ resp_status resp = "sold" ∧
    resp_price resp = Some (f64_of_Z 120) ∧ resp_promise_id resp = Some "PROMISE_1" ∧ is_Some (resp_post_id resp) ∧
    t' = with_metrics (record_query 4) (with_timing (timing_record_post_sent 4) no_telemetry).
Proof.
  apply (@post_price_is_winning_bid reference_platform sample_services sample_call
    (sample_router "post" "pulsar-solar") (sample_campaign 1%N 11%N) (sample_integration "pulsar-solar" None true)
    "PROMISE_1" (Float (f64_of_Z 120)) no_telemetry); reflexivity.
Defined.

Lemma infinite_bid_panics_witness :
  ∃ resp, @parse_buyer_response reference_platform sample_services sample_call
      {| response_status := 200; response_text := Ok "inf reply" |} "ping" = Ok resp ∧
    resp_success resp = true ∧ positive (resp_bid resp) = true ∧ is_Some (resp_promise_id resp) ∧
    is_ok (select_winner 5 [(resp, 1%N, None)]) = false.
Proof.
  apply (@infinite_bid_panics reference_platform sample_services sample_call 200 5 1%N None "inf reply" "p").
  reflexivity.
Defined.
