(* ===== verification/AuctionSteps.v ===== *)
(** * The tasks of an auction as a transition system

    The concurrent part of [route_ping_auction]: the tasks of the campaigns are all
    pushed into a [FuturesUnordered]; a task of an external buyer must acquire one
    of the ten permits of a semaphore before it runs and gives it back when it
    completes, a task of an internal buyer does not; results are collected in the
    order of completion.  [PingTreeRouter.completed] takes that order as an
    argument: this file shows which orders there are. *)

From stdpp Require Import base list relations.
From Stdlib Require Import Lia.
From S2P Require Import Prelude.

(** [Semaphore::new(10)]. *)
Definition ping_permits : nat := 10.

Record PoolState : Type := {
  pool_permits : nat;
  pool_waiting : list nat;
  pool_running : list nat;
  pool_results : list nat
}.

Section pool.
Context (is_internal : nat → bool).

Definition pool_start (n : nat) : PoolState := {|
  pool_permits := ping_permits; pool_waiting := seq 0 n; pool_running := []; pool_results := []
|}.

(** The permits a task holds while it runs. *)
Definition permit_of (i : nat) : nat := if is_internal i then 0 else 1.
Definition permits_held (l : list nat) : nat := sum_list (permit_of <$> l).

Inductive pool_step : PoolState → PoolState → Prop :=
  | step_begin p pre i post running results :
      permit_of i ≤ p →
      pool_step
        {| pool_permits := p; pool_waiting := pre ++ i :: post; pool_running := running; pool_results := results |}
        {| pool_permits := p - permit_of i; pool_waiting := pre ++ post; pool_running := i :: running;
           pool_results := results |}
  | step_complete p waiting pre i post results :
      pool_step
        {| pool_permits := p; pool_waiting := waiting; pool_running := pre ++ i :: post; pool_results := results |}
        {| pool_permits := p + permit_of i; pool_waiting := waiting; pool_running := pre ++ post;
           pool_results := results ++ [i] |}.

Definition pool_reachable (n : nat) : PoolState → Prop := rtc pool_step (pool_start n).

(** What is left to do. *)
Definition pool_work (s : PoolState) : nat := 2 * length (pool_waiting s) + length (pool_running s).

(** ** Lemmas *)

Lemma permits_held_app l k : permits_held (l ++ k) = permits_held l + permits_held k.
Proof. unfold permits_held. by rewrite fmap_app, sum_list_with_app || rewrite fmap_app; induction l; simpl; lia. Qed.

Lemma permits_held_cons i l : permits_held (i :: l) = permit_of i + permits_held l.
Proof. done. Qed.

Definition pool_inv (n : nat) (s : PoolState) : Prop :=
  pool_permits s + permits_held (pool_running s) = ping_permits ∧
  pool_waiting s ++ pool_running s ++ pool_results s ≡ₚ seq 0 n.

Lemma pool_start_inv n : pool_inv n (pool_start n).
Proof. unfold pool_inv, pool_start. simpl. by rewrite app_nil_r. Qed.

Lemma pool_step_inv n s s' : pool_inv n s → pool_step s s' → pool_inv n s'.
Proof.
  intros [Hp Hl] Hstep. destruct Hstep as [p pre i post running results Hi|p waiting pre i post results]; simpl in *.
  - split; simpl; [rewrite permits_held_cons; lia|]. rewrite <-Hl. solve_Permutation.
  - split; simpl.
    + rewrite permits_held_app, permits_held_cons in Hp. rewrite permits_held_app. lia.
    + rewrite <-Hl. solve_Permutation.
Qed.

Lemma pool_reachable_inv n s : pool_reachable n s → pool_inv n s.
Proof.
  unfold pool_reachable. intros Hr. assert (Hs : pool_inv n (pool_start n)) by apply pool_start_inv.
  induction Hr as [|s1 s2 s3 Hstep _ IH]; [done|]. apply IH. by eapply pool_step_inv.
Qed.

Lemma pool_step_work s s' : pool_step s s' → pool_work s' < pool_work s.
Proof. destruct 1; unfold pool_work; simpl; rewrite !length_app; simpl; lia. Qed.

(** A state with work left can move: a running task can complete, and with none
    running all the permits are free. *)
Lemma pool_progress n s : pool_inv n s → pool_work s ≠ 0 → ∃ s', pool_step s s'.
Proof.
  intros [Hp _] Hw. destruct s as [p waiting running results]; unfold pool_work in Hw; simpl in *.
  destruct running as [|i running].
  - destruct waiting as [|i waiting]; simpl in Hw; [lia|].
    eexists. apply (step_begin p [] i waiting). unfold permits_held in Hp. simpl in Hp.
    unfold permit_of, ping_permits in *. destruct (is_internal i); lia.
  - eexists. apply (step_complete p waiting [] i running).
Qed.

(** ** Properties *)

(** at any moment of the auction at most ten external buyers are being
    pinged, however many internal ones are, and every campaign is waiting,
    running or answered, exactly once. *)
Theorem external_pings_bounded (n : nat) (s : PoolState) :
  pool_reachable n s →
  length (filter (λ i, is_internal i = false) (pool_running s)) ≤ 10 ∧
  pool_waiting s ++ pool_running s ++ pool_results s ≡ₚ seq 0 n.
Proof.
  intros Hr. apply pool_reachable_inv in Hr as [Hp Hl]. split; [|done].
  assert (Hh : ∀ l, length (filter (λ i, is_internal i = false) l) = permits_held l).
  { induction l as [|i l IH]; [done|]. rewrite permits_held_cons, filter_cons. unfold permit_of.
    case_decide as Hi; destruct (is_internal i); simpl; congruence || lia. }
  rewrite Hh. unfold ping_permits in Hp. lia.
Qed.

(** C37: the auction always completes: no run is infinite, a state that cannot move
    has collected everything, and then the results are a permutation of the
    campaigns, so that no answer is lost or counted twice. *)
Theorem auction_completes (n : nat) (s : PoolState) :
  pool_reachable n s →
  (∃ s', rtc pool_step s s' ∧ ¬ (∃ s'', pool_step s' s'') ∧ pool_results s' ≡ₚ seq 0 n) ∧
  Acc (flip pool_step) s ∧
  (¬ (∃ s', pool_step s s') → pool_results s ≡ₚ seq 0 n).
Proof.
  intros Hr. apply pool_reachable_inv in Hr.
  assert (Hend : ∀ s, pool_inv n s → ¬ (∃ s', pool_step s s') → pool_results s ≡ₚ seq 0 n).
  { intros s1 Hinv Hstuck. destruct (decide (pool_work s1 = 0)) as [Hw|Hw].
    - destruct Hinv as [_ Hl]. destruct s1 as [p [|] [|] results]; unfold pool_work in Hw; simpl in *; done || lia.
    - destruct Hstuck. by eapply pool_progress. }
  split_and!; [| |by apply Hend].
  - remember (pool_work s) as k eqn:Hk. revert s Hr Hk.
    induction (lt_wf k) as [k _ IH]. intros s Hr ->.
    destruct (decide (pool_work s = 0)) as [Hw|Hw].
    + assert (Hstuck : ¬ (∃ s', pool_step s s')).
      { intros [s' Hs']. apply pool_step_work in Hs'. lia. }
      exists s. split_and!; [done|done|by apply Hend].
    + destruct (pool_progress n s Hr Hw) as [s1 Hs1].
      destruct (IH (pool_work s1) (pool_step_work _ _ Hs1) s1) as (s' & Hrun & Hres); [by eapply pool_step_inv|done|].
      exists s'. split; [by eapply rtc_l|done].
  - clear Hr Hend. induction (Wf_nat.well_founded_ltof _ pool_work s) as [s _ IH].
    constructor. intros s' Hs'. apply IH. by apply pool_step_work.
Qed.
End pool.

(** ** Witnesses *)

Lemma external_pings_bounded_witness :
  length (filter (λ i : nat, false = false) (pool_running (pool_start 12))) ≤ 10 ∧
  pool_waiting (pool_start 12) ++ pool_running (pool_start 12) ++ pool_results (pool_start 12) ≡ₚ seq 0 12.
Proof. apply (external_pings_bounded (λ _, false) 12 (pool_start 12)). apply rtc_refl. Defined.

Lemma auction_completes_witness :
  let s := {| pool_permits := 9; pool_waiting := [1]; pool_running := [0]; pool_results := [] |} in
  (∃ s', rtc (pool_step (λ _, false)) s s' ∧ ¬ (∃ s'', pool_step (λ _, false) s' s'') ∧ pool_results s' ≡ₚ seq 0 2) ∧
  Acc (flip (pool_step (λ _, false))) s ∧
  (¬ (∃ s', pool_step (λ _, false) s s') → pool_results s ≡ₚ seq 0 2).
Proof.
  apply (auction_completes (λ _, false) 2).
  eapply rtc_l; [|apply rtc_refl]. apply (step_begin (λ _, false) 10 [] 0 [1] [] []). apply (Nat.le_add_r 1 9).
Defined.
