(* ===== verification/PingTreeRouter.v ===== *)
(** * Routing over a ping tree

    [crates/core/src/services/ping_tree_router.rs]: the routing of a lead over the
    campaigns of the publisher's ping tree, by ping auction, post or fullpost.  The
    state is the [World] of Store.v; [RouteLoads] is what the router reads from the
    cache or the database; [TaskDraws] holds the clock, timing and random values of
    one buyer's task, and the order in which concurrent tasks complete is an
    argument.  The semaphore that limits external pings only delays tasks; it is
    the subject of AuctionSteps.v. *)

From stdpp Require Import base list strings gmap numbers pretty.
From Stdlib Require Import Ascii ZArith Lia.
From S2P Require Import Prelude Float64 Platform Json Models Samples Qualification Metrics Store.
From S2P Require Import Response Auction Pulsar BuyerRouter.

Open Scope string_scope.
Open Scope list_scope.

Record PingTreeRouter : Type := {
  ptr_lead : Lead;
  ptr_publisher_id : Uuid;
  ptr_vertical : string;
  ptr_request_type : string;
  (** [write_behind_queue.is_some()]. *)
  ptr_has_queue : bool
}.

(** What [route] reads, through the cache when there is one. *)
Record RouteLoads : Type := {
  load_ping_tree : Result string (option (PingTree * option Decimal * option Decimal));
  load_ping_tree_hit : bool;
  load_ping_tree_ms : Z;
  load_ping_tree_campaigns : Uuid → Result string (list PingTreeCampaign);
  (** [stats.hits + stats.misses] grew during the lookup. *)
  load_campaigns_counted : bool;
  load_campaigns_ms : Z;
  load_buyer_ids : list Uuid → list Uuid;
  load_associations : list Uuid → list (Campaign * option Buyer * option BuyerIntegration);
  load_qualification_configs : list Uuid → gmap Uuid (option BuyerQualificationConfig);
  load_parallel_ms : Z
}.

(** The loads without a cache, on given tables. *)
Definition loads_of_tables (db : Tables) (publisher : Uuid) (vertical : string) : RouteLoads := {|
  load_ping_tree := Ok (find_for_routing db publisher vertical);
  load_ping_tree_hit := false;
  load_ping_tree_ms := 1;
  load_ping_tree_campaigns := λ tree, Ok (find_enabled_for_ping_tree db tree);
  load_campaigns_counted := false;
  load_campaigns_ms := 1;
  load_buyer_ids := λ ids,
    remove_dups (campaign_buyer_id <$>
      List.filter (λ c, bool_decide (campaign_id c ∈ ids) && bool_decide (campaign_deleted_at c = None))
        (campaigns db));
  load_associations := find_by_ids_with_associations db;
  load_qualification_configs := find_by_buyer_ids db;
  load_parallel_ms := 1
|}.

(** The values one buyer's task draws: those of the call, its duration until the
    answer, the measured processing time, and the ids generated afterwards. *)
Record TaskDraws : Type := {
  task_call : CallDraws;
  task_route_ms : Z;
  task_processing_ms : Z;
  task_error_uuid : Uuid;
  task_row_uuid : Uuid
}.

(** The values one auction draws. *)
Record AuctionDraws : Type := {
  auction_tasks : nat → TaskDraws;
  auction_order : list nat;
  auction_ms : Z;
  auction_pick : Z;
  auction_promise : string
}.

(** [FuturesUnordered]: the results in the order of completion. *)
Definition completed {A} (order : list nat) (results : list A) : list A := omap (λ i, results !! i) order.

Definition PING_AUCTION_TIMEOUT : Z := 100.

(** The outcome of a task: a timeout, or what the buyer router returned. *)
Abbreviation TaskOutcome := (Result string (Result string BuyerResponse)).

Section ping_tree_router.
Context `{Platform} (sv : Services).

(** ** Updates of the lead *)

Definition error_log (now : DateTime) (err : string) : json :=
  json_object [("timestamp", JString (to_rfc3339 now)); ("error", JString err);
               ("component", JString "ping_tree_router")].

(** [update_lead_status]: only leads still in processing, or test leads. *)
Definition update_lead_status (r : PingTreeRouter) (status : LeadStatus) (error : option string) : service unit :=
  let lead := ptr_lead r in
  if bool_decide (lead_status lead = LeadProcessing) || bool_decide (lead_status lead = LeadTest) then
    now ← eff_gets w_now;
    let vertical_data :=
      match error, lead_vertical_data lead with
      | Some err, JObject obj => JObject (map_insert "error_log" (error_log now err) obj)
      | _, v => v
      end in
    exec_update (λ now, update_lead_row (λ l,
      lead_with l status (lead_campaign_id l) (lead_buyer_id l) (lead_promise_id l) (lead_ping_id l)
        (lead_post_id l) (lead_sold_at l) vertical_data now) (lead_uuid lead))
  else mret tt.

Definition winning_bid_data (winning_bid : option f64) : option json :=
  (λ bid, json_object [("winning_bid", json_of_f64 bid)]) <$> winning_bid.

Definition update_lead_with_winner (r : PingTreeRouter) (campaign : Campaign) (promise_id : string)
    (ping_id : option string) (winning_bid : option f64) : service unit :=
  let vertical_data := winning_bid_data winning_bid in
  exec_update (λ now, update_lead_row (λ l,
    lead_with l LeadPingAccepted (Some (campaign_id campaign)) (Some (campaign_buyer_id campaign))
      (Some promise_id) ping_id (lead_post_id l) (lead_sold_at l)
      (jsonb_concat (lead_vertical_data l) (default (JObject []) vertical_data)) now)
    (lead_uuid (ptr_lead r))).

Definition update_lead_with_post (r : PingTreeRouter) (post_id : string) : service unit :=
  exec_update (λ now, update_lead_row (λ l,
    lead_with l LeadSold (lead_campaign_id l) (lead_buyer_id l) (lead_promise_id l) (lead_ping_id l)
      (Some post_id) (lead_sold_at l) (lead_vertical_data l) now) (lead_uuid (ptr_lead r))).

(** [self.update_lead_status(...).await?; return Ok(RoutingResult { ... })]. *)
Definition fail_routing (r : PingTreeRouter) (status : LeadStatus) (log : string) (result : RoutingResult)
    : service RoutingResult :=
  _ ← update_lead_status r status (Some log);
  mret result.

Definition map_ping_status_to_lead_status (buyer_status : string) (success : bool) : string :=
  let s := to_lowercase buyer_status in
  let one_of l := existsb (String.eqb s) l in
  if one_of ["rejected"; "declined"; "denied"] then "rejected"
  else if one_of ["accepted"] then (if success then "accepted" else "error")
  else if one_of ["timeout"] then "timeout"
  else if one_of ["invalid"; "invalid_lead"; "validation_error"] then "invalid"
  else if one_of ["error"; "server_error"; "internal_error"] then "error"
  else if success then "ping_accepted" else "error".

(** ** The ping auction *)

(** One task of the auction.  Internal buyers answer without timeout; an external
    one that takes longer than [PING_AUCTION_TIMEOUT] is dropped. *)
Definition ping_task (r : PingTreeRouter) (integrations : gmap Uuid (option BuyerIntegration))
    (configs : gmap Uuid (option BuyerQualificationConfig)) (d : TaskDraws) (campaign : Campaign)
    : TaskOutcome * Uuid * TaskDraws :=
  let preloaded_integration := mjoin (integrations !! campaign_buyer_id campaign) in
  let preloaded_qual_config := mjoin (configs !! campaign_buyer_id campaign) in
  let is_internal_buyer := default false (integration_is_internal <$> preloaded_integration) in
  let router :=
    with_preloaded_qual_config preloaded_qual_config
      (with_preloaded_integration preloaded_integration
         (BuyerRouter_new (ptr_lead r) [campaign] (ptr_request_type r))) in
  let routed := (BuyerRouter.route sv (task_call d) router no_telemetry).1 in
  let result :=
    if is_internal_buyer then Ok routed
    else if (PING_AUCTION_TIMEOUT <? task_route_ms d)%Z then Err "Timeout: deadline has elapsed"
    else Ok routed in
  (result, campaign_id campaign, d).

(** Tasks in the order they are created. *)
Definition ping_tasks (r : PingTreeRouter) (integrations : gmap Uuid (option BuyerIntegration))
    (configs : gmap Uuid (option BuyerQualificationConfig)) (d : AuctionDraws) (campaigns : list Campaign)
    : list (TaskOutcome * Uuid * TaskDraws) :=
  imap (λ i c, ping_task r integrations configs (auction_tasks d i) c) campaigns.

Definition priority_of (priority_map : gmap Uuid (option Z)) (campaign : Uuid) : option Z :=
  mjoin (priority_map !! campaign).

Definition find_campaign (campaigns : list Campaign) (id : Uuid) : option Campaign :=
  List.find (λ c, bool_decide (campaign_id c = id)) campaigns.

Definition timeout_message : string := "Buyer did not respond within timeout period".

(** The entry of [responses] and of [per_buyer_timings] for one result. *)
Definition process_result (r : PingTreeRouter) (campaigns : list Campaign) (priority_map : gmap Uuid (option Z))
    (t : TaskOutcome * Uuid * TaskDraws) : Entry * option json :=
  let '(result, id, d) := t in
  let priority := priority_of priority_map id in
  let timing status bid success extra :=
    (λ campaign, json_object ([
      ("campaign_id", json_of_uuid id); ("buyer_id", json_of_uuid (campaign_buyer_id campaign));
      ("processing_time_ms", json_of_u64 (task_processing_ms d)); ("status", JString status);
      ("bid", bid); ("success", JBool success)] ++ extra)) <$> find_campaign campaigns id in
  let failed_ping_id prefix :=
    if String.eqb (ptr_request_type r) "ping" then Some (prefix +:+ uuid_to_string (task_error_uuid d)) else None in
  let failed status error prefix :=
    {| resp_success := false; resp_status := status; resp_error := Some error; resp_message := None;
       resp_promise_id := None; resp_ping_id := failed_ping_id prefix; resp_post_id := None;
       resp_price := None; resp_bid := None |} in
  match result with
  | Ok (Ok response) =>
      ((response, id, priority),
       timing (resp_status response) (json_of_option json_of_f64 (resp_bid response)) (resp_success response) [])
  | Ok (Err e) =>
      ((failed "error" e "ping_error_", id, priority),
       timing "error" JNull false [("error", JString e)])
  | Err _ =>
      ((failed "timeout" timeout_message "ping_timeout_", id, priority),
       timing "timeout" JNull false [("error", JString timeout_message)])
  end.

(** [serde_json::to_value(resp)]. *)
Definition response_to_value (resp : BuyerResponse) : json := json_object [
  ("success", JBool (resp_success resp)); ("status", JString (resp_status resp));
  ("error", json_of_opt_str (resp_error resp)); ("message", json_of_opt_str (resp_message resp));
  ("promise_id", json_of_opt_str (resp_promise_id resp)); ("ping_id", json_of_opt_str (resp_ping_id resp));
  ("post_id", json_of_opt_str (resp_post_id resp)); ("price", json_of_option json_of_f64 (resp_price resp));
  ("bid", json_of_option json_of_f64 (resp_bid resp))].

(** The first 8 characters of the campaign id, without dashes. *)
Definition campaign_suffix (id : Uuid) : string := str_take 8 (str_remove "-" (uuid_to_string id)).

(** [_C<suffix>] is appended unless the id already contains ["_C"]. *)
Definition unique_ping_id (id : Uuid) (ping_id : string) : string :=
  if str_contains "_C" ping_id then ping_id else ping_id +:+ "_C" +:+ campaign_suffix id.

(** The row persisted for a ping response. *)
Definition ping_response_row (r : PingTreeRouter) (campaigns : list Campaign) (ed : Entry * TaskDraws)
    : BuyerResponseData :=
  let '(resp, id, _, d) := ed in
  let ping_id :=
    match resp_ping_id resp with
    | Some p => Some p
    | None => if String.eqb (ptr_request_type r) "ping"
              then Some ("ping_" +:+ uuid_to_string (task_row_uuid d)) else None
    end in
  {| br_lead_id := lead_uuid (ptr_lead r); br_campaign_id := id;
     br_ping_id := unique_ping_id id <$> ping_id; br_post_id := None;
     br_buyer_id := campaign_buyer_id <$> find_campaign campaigns id;
     br_payload := response_to_value resp; br_lead_id_str := lead_lead_id (ptr_lead r) |}.

(** ** The synchronous batch insert *)

Definition row_of_data (b : BuyerResponseData) : BuyerResponseRow := {|
  row_lead_id := br_lead_id b; row_campaign_id := br_campaign_id b; row_ping_id := br_ping_id b;
  row_post_id := br_post_id b; row_buyer_id := br_buyer_id b; row_payload := br_payload b
|}.

Definition fkey_violation : string :=
  "insert or update on table buyer_responses violates foreign key constraint buyer_responses_lead_id_fkey".

(** [INSERT INTO buyer_responses ... SELECT * FROM UNNEST(...)]: all rows or none. *)
Definition insert_buyer_responses (rows : list BuyerResponseData) : service unit :=
  exec (λ _ db,
    if forallb (λ b, bool_decide (is_Some (db_leads db !! br_lead_id b))) rows
    then (Ok tt, on_buyer_responses (λ l, l ++ (row_of_data <$> rows)) db)
    else (Err fkey_violation, db)).

(** [batch_insert_buyer_responses]; [retry_spawn] is [tokio_retry]'s [Retry::spawn]
    with a strategy of three delays. *)
Definition batch_insert_buyer_responses (retry_spawn : service unit → service unit)
    (responses : list BuyerResponseData) : service unit :=
  match responses with
  | [] => mret tt
  | _ =>
      let ping_ids := br_ping_id <$> responses in
      if negb (length ping_ids =? length (remove_dups ping_ids))%nat
      then eff_err (Failed "Duplicate ping_ids in responses")
      else query_result ← catch (retry_spawn (insert_buyer_responses responses));
           fallible (map_err (λ e, "DB error after retries: " +:+ e) query_result)
  end.

(** [if !batch_responses.is_empty()]: enqueue, or insert and ignore the error. *)
Definition persist_ping_responses (retry_spawn : service unit → service unit) (r : PingTreeRouter)
    (rows : list BuyerResponseData) : service unit :=
  if ptr_has_queue r then for_each enqueue (BuyerResponseTask <$> rows)
  else _ ← catch (batch_insert_buyer_responses retry_spawn rows); mret tt.

Definition count_status (status : string) (responses : list Entry) : nat :=
  length (List.filter (λ e, String.eqb (resp_status (entry_response e)) status) responses).

(** The status of a lead without valid responses. *)
Definition no_valid_status (timeout_count rejected_count total : nat) : LeadStatus :=
  if (timeout_count =? total)%nat then LeadTimeout
  else if (0 <? rejected_count)%nat then LeadRejected
  else LeadError.

Definition no_valid_error (timeout_count rejected_count : nat) : string :=
  "No valid buyer responses (" +:+ pretty timeout_count +:+ " timeouts, " +:+ pretty rejected_count +:+ " rejected)".

Definition optional_timings (per_buyer_timings : list json) : option (list json) :=
  match per_buyer_timings with [] => None | _ => Some per_buyer_timings end.

Definition with_timings (timings : option (list json)) (result : RoutingResult) : RoutingResult := {|
  rr_success := rr_success result; rr_status := rr_status result; rr_error := rr_error result;
  rr_promise_id := rr_promise_id result; rr_ping_id := rr_ping_id result; rr_post_id := rr_post_id result;
  rr_price := rr_price result; rr_campaign_id := rr_campaign_id result; rr_buyer_id := rr_buyer_id result;
  rr_per_buyer_timings := timings
|}.

Definition no_valid_ping (r : PingTreeRouter) (responses : list Entry) (per_buyer_timings : list json)
    : service RoutingResult :=
  let timeout_count := count_status "timeout" responses in
  let rejected_count := count_status "rejected" responses in
  let final_status := no_valid_status timeout_count rejected_count (length responses) in
  fail_routing r final_status "No valid buyer responses"
    (with_timings (optional_timings per_buyer_timings)
       (failure_result (LeadStatus_as_str final_status) (no_valid_error timeout_count rejected_count))).

(** The queued update of the lead with the winner. *)
Definition winner_update (r : PingTreeRouter) (campaign : Campaign) (winner : BuyerResponse)
    (winning_bid : option f64) : LeadUpdateData := {|
  lu_lead_id := lead_uuid (ptr_lead r); lu_status := LeadPingAccepted;
  lu_campaign_id := Some (campaign_id campaign); lu_buyer_id := Some (campaign_buyer_id campaign);
  lu_promise_id := resp_promise_id winner; lu_ping_id := resp_ping_id winner; lu_post_id := None;
  lu_sold_at := false; lu_inprog_token := None; lu_vertical_data := winning_bid_data winning_bid
|}.

(** The update of the lead with the winner: queued, or made at once. *)
Definition save_winner (r : PingTreeRouter) (campaign : Campaign) (winner : BuyerResponse)
    (winning_bid : option f64) : service unit :=
  if ptr_has_queue r then enqueue (LeadUpdate (winner_update r campaign winner winning_bid))
  else update_lead_with_winner r campaign (default "" (resp_promise_id winner)) (resp_ping_id winner) winning_bid.

(** [winner_response.price.or(winner_response.bid)]. *)
Definition winning_bid_of (winner : BuyerResponse) : option f64 :=
  match resp_price winner with Some p => Some p | None => resp_bid winner end.

Definition ping_result (winner : BuyerResponse) (campaign : Campaign) (per_buyer_timings : list json)
    : RoutingResult := {|
  rr_success := resp_success winner;
  rr_status := map_ping_status_to_lead_status (resp_status winner) (resp_success winner);
  rr_error := resp_error winner; rr_promise_id := resp_promise_id winner; rr_ping_id := resp_ping_id winner;
  rr_post_id := resp_post_id winner; rr_price := winning_bid_of winner;
  rr_campaign_id := Some (campaign_id campaign); rr_buyer_id := Some (campaign_buyer_id campaign);
  rr_per_buyer_timings := optional_timings per_buyer_timings
|}.

(** [route_ping_auction].  A panic of the winner selection is an error of the
    effect that nothing catches. *)
Definition route_ping_auction (retry_spawn : service unit → service unit) (d : AuctionDraws) (r : PingTreeRouter)
    (campaigns : list Campaign) (priority_map : gmap Uuid (option Z))
    (integrations : gmap Uuid (option BuyerIntegration))
    (configs : gmap Uuid (option BuyerQualificationConfig)) : service RoutingResult :=
  let task_results := completed (auction_order d) (ping_tasks r integrations configs d campaigns) in
  _ ← record_metrics (metrics_record_ping_auction (auction_ms d));
  _ ← record_metrics (record_stage_timing "ping_auction" (auction_ms d));
  let processed := process_result r campaigns priority_map <$> task_results in
  let responses := processed.*1 in
  let per_buyer_timings := omap snd processed in
  let batch := ping_response_row r campaigns <$> zip responses task_results.*2 in
  _ ← persist_ping_responses retry_spawn r batch;
  _ ← record_timing (timing_record_ping_auction (auction_ms d));
  match ping_valid_responses responses with
  | [] => no_valid_ping r responses per_buyer_timings
  | valid_responses =>
      winner ← unwrap (select_winner (auction_pick d) valid_responses);
      campaign ← fallible (ok_or "Winner campaign not found" (find_campaign campaigns (entry_campaign winner)));
      let winning_bid := winning_bid_of (entry_response winner) in
      _ ← save_winner r campaign (entry_response winner) winning_bid;
      mret (ping_result (entry_response winner) campaign per_buyer_timings)
  end.

(** ** Post *)

(** The status of a lead whose post was not a sale. *)
Definition post_failure_status (buyer_status : string) : LeadStatus :=
  if String.eqb buyer_status "rejected" then LeadRejected
  else if String.eqb buyer_status "timeout" then LeadTimeout
  else LeadError.

(** [success && post_id.is_some() && price.is_some() && price.unwrap_or(0.0) > 0.0]. *)
Definition post_is_sale (resp : BuyerResponse) : bool :=
  resp_success resp && bool_decide (is_Some (resp_post_id resp)) && positive (resp_price resp).

Definition post_response_task (r : PingTreeRouter) (campaign : Campaign) (bresp : BuyerResponse) : BackgroundTask :=
  BuyerResponseTask {|
    br_lead_id := lead_uuid (ptr_lead r); br_campaign_id := campaign_id campaign; br_ping_id := None;
    br_post_id := resp_post_id bresp; br_buyer_id := Some (campaign_buyer_id campaign);
    br_payload := response_to_value bresp; br_lead_id_str := lead_lead_id (ptr_lead r) |}.

(** The result reported for a post response; the statuses of the two branches. *)
Definition post_result (success : bool) (status : string) (error : option string) (bresp : BuyerResponse)
    (campaign : Campaign) : RoutingResult := {|
  rr_success := success; rr_status := status; rr_error := error;
  rr_promise_id := resp_promise_id bresp; rr_ping_id := resp_ping_id bresp; rr_post_id := resp_post_id bresp;
  rr_price := resp_price bresp; rr_campaign_id := Some (campaign_id campaign);
  rr_buyer_id := Some (campaign_buyer_id campaign); rr_per_buyer_timings := None
|}.

(** [Ok(bresp)] of [match post_result]. *)
Definition handle_post_response (r : PingTreeRouter) (campaign : Campaign) (bresp : BuyerResponse)
    : service RoutingResult :=
  _ ← (if ptr_has_queue r then enqueue (post_response_task r campaign bresp) else mret tt);
  if post_is_sale bresp then
    _ ← update_lead_with_post r (default "" (resp_post_id bresp));
    mret (post_result true "sold" None bresp campaign)
  else
    let final_status := post_failure_status (resp_status bresp) in
    _ ← update_lead_status r final_status (resp_error bresp);
    mret (post_result false
            (match final_status with LeadRejected => "rejected" | LeadTimeout => "timeout" | _ => "error" end)
            (resp_error bresp) bresp campaign).

(** [Err(e)] of [match post_result]. *)
Definition handle_post_error (r : PingTreeRouter) (campaign : Campaign) (e : string) : service RoutingResult :=
  _ ← update_lead_status r LeadError (Some "Buyer routing failed");
  mret {| rr_success := false; rr_status := "error"; rr_error := Some e; rr_promise_id := None;
          rr_ping_id := None; rr_post_id := None; rr_price := None;
          rr_campaign_id := Some (campaign_id campaign); rr_buyer_id := Some (campaign_buyer_id campaign);
          rr_per_buyer_timings := None |}.

(** The campaign of a post: the lead's own, else the first. *)
Definition post_campaign (r : PingTreeRouter) (campaigns : list Campaign) : option Campaign :=
  match lead_campaign_id (ptr_lead r) with
  | Some id => find_campaign campaigns id
  | None => head campaigns
  end.

(** [route_post]: the buyer router gets neither the integration nor the
    qualification configuration that were preloaded. *)
Definition route_post (d : TaskDraws) (r : PingTreeRouter) (campaigns : list Campaign) : service RoutingResult :=
  let missing :=
    match lead_campaign_id (ptr_lead r) with
    | Some id => negb (existsb (λ c, bool_decide (campaign_id c = id)) campaigns)
    | None => false
    end in
  if missing then
    fail_routing r LeadError "Campaign from ping not found in ping tree"
      (failure_result "error" "Campaign from ping not found in ping tree")
  else
    match post_campaign r campaigns with
    | Some campaign =>
        let buyer_router := BuyerRouter_new (ptr_lead r) [campaign] (ptr_request_type r) in
        let post_result := (BuyerRouter.route sv (task_call d) buyer_router no_telemetry).1 in
        _ ← record_metrics (record_post (task_route_ms d));
        _ ← record_metrics (record_stage_timing "post_sent" (task_route_ms d));
        _ ← record_timing (timing_record_post_sent (task_route_ms d));
        match post_result with
        | Ok bresp => handle_post_response r campaign bresp
        | Err e => handle_post_error r campaign e
        end
    | None =>
        fail_routing r LeadError "No campaign found for post" (failure_result "error" "No campaign found for post")
    end.

(** ** Fullpost *)

(** The result of a fullpost split in ping and post. *)
Definition merge_results (ping_result post_result : RoutingResult) : RoutingResult := {|
  rr_success := rr_success post_result || (rr_success ping_result && bool_decide (is_Some (rr_post_id post_result)));
  rr_status :=
    if rr_success post_result && bool_decide (is_Some (rr_post_id post_result))
       && bool_decide (is_Some (rr_price post_result))
    then "sold"
    else if rr_success ping_result then "ping_accepted"
    else rr_status post_result;
  rr_error := coalesce (rr_error post_result) (rr_error ping_result);
  rr_promise_id := coalesce (rr_promise_id ping_result) (rr_promise_id post_result);
  rr_ping_id := coalesce (rr_ping_id ping_result) (rr_ping_id post_result);
  rr_post_id := rr_post_id post_result;
  rr_price := coalesce (rr_price post_result) (rr_price ping_result);
  rr_campaign_id := coalesce (rr_campaign_id post_result) (rr_campaign_id ping_result);
  rr_buyer_id := coalesce (rr_buyer_id post_result) (rr_buyer_id ping_result);
  rr_per_buyer_timings := coalesce (rr_per_buyer_timings ping_result) (rr_per_buyer_timings post_result)
|}.

Definition router_with (lead : Lead) (request_type : string) (r : PingTreeRouter) : PingTreeRouter := {|
  ptr_lead := lead; ptr_publisher_id := ptr_publisher_id r; ptr_vertical := ptr_vertical r;
  ptr_request_type := request_type; ptr_has_queue := ptr_has_queue r
|}.

(** The lead as the post phase sees it: the promise and the campaign of the ping. *)
Definition lead_after_ping (lead : Lead) (ping : RoutingResult) : Lead :=
  lead_with lead (lead_status lead) (coalesce (rr_campaign_id ping) (lead_campaign_id lead)) (lead_buyer_id lead)
    (coalesce (rr_promise_id ping) (lead_promise_id lead)) (lead_ping_id lead) (lead_post_id lead)
    (lead_sold_at lead) (lead_vertical_data lead) (lead_updated_at lead).

(** The strategy ["ping_post"]. *)
Definition fullpost_as_ping_post (retry_spawn : service unit → service unit) (d : AuctionDraws) (dpost : TaskDraws)
    (r : PingTreeRouter) (campaigns : list Campaign) (priority_map : gmap Uuid (option Z))
    (integrations : gmap Uuid (option BuyerIntegration))
    (configs : gmap Uuid (option BuyerQualificationConfig)) : service RoutingResult :=
  let ping_router := router_with (ptr_lead r) "ping" r in
  ping ← route_ping_auction retry_spawn d ping_router campaigns priority_map integrations configs;
  if negb (rr_success ping) then mret ping
  else
    let post_router := router_with (lead_after_ping (ptr_lead r) ping) "post" r in
    post ← route_post dpost post_router campaigns;
    mret (merge_results ping post).

(** One request of the strategy ["fullpost"]. *)
Definition fullpost_task (r : PingTreeRouter) (d : TaskDraws) (campaign : Campaign) : Result string BuyerResponse :=
  (BuyerRouter.route sv (task_call d) (BuyerRouter_new (ptr_lead r) [campaign] "fullpost") no_telemetry).1.

(** The results in completion order, zipped with the campaign ids in creation
    order; errors are dropped. *)
Definition fullpost_responses (d : AuctionDraws) (r : PingTreeRouter) (campaigns : list Campaign)
    (priority_map : gmap Uuid (option Z)) : list Entry :=
  let campaign_ids := campaign_id <$> campaigns in
  let results := completed (auction_order d) (imap (λ i c, fullpost_task r (auction_tasks d i) c) campaigns) in
  omap (λ cr : Uuid * Result string BuyerResponse,
    match cr.2 with
    | Ok bresp => Some (bresp, cr.1, priority_of priority_map cr.1)
    | Err _ => None
    end) (zip campaign_ids results).

Definition no_valid_fullpost (r : PingTreeRouter) (responses : list Entry) : service RoutingResult :=
  let timeout_count := count_status "timeout" responses in
  let rejected_count :=
    length (List.filter (λ e, negb (resp_success (entry_response e))
                              && negb (String.eqb (resp_status (entry_response e)) "timeout")) responses) in
  let final_status := no_valid_status timeout_count rejected_count (length responses) in
  fail_routing r final_status "No valid buyer responses"
    (failure_result (LeadStatus_as_str final_status) (no_valid_error timeout_count rejected_count)).

(** The update of the lead with the fullpost winner: [post_id] is bound to the
    empty text when the response has none. *)
Definition update_lead_fullpost (r : PingTreeRouter) (campaign : Campaign) (campaign_id : Uuid)
    (final_promise_id post_id : option string) : service unit :=
  exec_update (λ now, update_lead_row (λ l,
    lead_with l LeadSold (Some campaign_id) (Some (campaign_buyer_id campaign))
      (coalesce final_promise_id (lead_promise_id l)) (lead_ping_id l)
      (coalesce (Some (default "" post_id)) (lead_post_id l)) (lead_sold_at l) (lead_vertical_data l) now)
    (lead_uuid (ptr_lead r))).

Definition fullpost_response_row (r : PingTreeRouter) (campaigns : list Campaign) (e : Entry) : BuyerResponseData := {|
  br_lead_id := lead_uuid (ptr_lead r); br_campaign_id := entry_campaign e; br_ping_id := None;
  br_post_id := resp_post_id (entry_response e);
  br_buyer_id := campaign_buyer_id <$> find_campaign campaigns (entry_campaign e);
  br_payload := response_to_value (entry_response e); br_lead_id_str := lead_lead_id (ptr_lead r)
|}.

(** The strategy ["fullpost"]. *)
Definition fullpost_auction (d : AuctionDraws) (r : PingTreeRouter) (campaigns : list Campaign)
    (priority_map : gmap Uuid (option Z)) : service RoutingResult :=
  let responses := fullpost_responses d r campaigns priority_map in
  _ ← record_timing (timing_record_post_sent (auction_ms d));
  _ ← record_metrics (record_stage_timing "fullpost_auction" (auction_ms d));
  match fullpost_valid_responses responses with
  | [] => no_valid_fullpost r responses
  | valid_responses =>
      winner ← fallible (select_fullpost_winner valid_responses);
      let winner_response := entry_response winner in
      campaign ← fallible (ok_or "Winner campaign not found" (find_campaign campaigns (entry_campaign winner)));
      let final_promise_id :=
        match resp_promise_id winner_response with
        | Some p => Some p
        | None => Some ("PROMISE_" +:+ to_uppercase (hex_encode (auction_promise d)))
        end in
      _ ← update_lead_fullpost r campaign (entry_campaign winner) final_promise_id (resp_post_id winner_response);
      _ ← (if ptr_has_queue r
           then for_each enqueue ((λ e, BuyerResponseTask (fullpost_response_row r campaigns e)) <$> responses)
           else mret tt);
      mret {| rr_success := true; rr_status := "sold"; rr_error := None; rr_promise_id := final_promise_id;
              rr_ping_id := None; rr_post_id := resp_post_id winner_response;
              rr_price := resp_price winner_response; rr_campaign_id := Some (entry_campaign winner);
              rr_buyer_id := Some (campaign_buyer_id campaign); rr_per_buyer_timings := None |}
  end.

Definition route_fullpost (retry_spawn : service unit → service unit) (d : AuctionDraws) (dpost : TaskDraws)
    (r : PingTreeRouter) (campaigns : list Campaign) (ping_tree : PingTree) (priority_map : gmap Uuid (option Z))
    (integrations : gmap Uuid (option BuyerIntegration))
    (configs : gmap Uuid (option BuyerQualificationConfig)) : service RoutingResult :=
  if String.eqb (tree_strategy ping_tree) "ping_post"
  then fullpost_as_ping_post retry_spawn d dpost r campaigns priority_map integrations configs
  else fullpost_auction d r campaigns priority_map.

(** ** Routing *)

(** The lookup of the ping tree: a hit is counted when the cache counted one, a
    miss when the lookup took any time. *)
Definition lookup_ping_tree (ld : RouteLoads) : service (option PingTree) :=
  found ← fallible (load_ping_tree ld);
  _ ← (if load_ping_tree_hit ld then record_metrics record_cache_hit
       else if (0 <? load_ping_tree_ms ld)%Z then record_metrics record_cache_miss else mret tt);
  _ ← record_timing (timing_record_pre_checks (load_ping_tree_ms ld));
  mret ((λ t, t.1.1) <$> found).

(** The lookup of the campaigns of the tree: whatever the cache counts, a hit is
    recorded when the sum of its hits and misses grew. *)
Definition lookup_campaigns (ld : RouteLoads) (ping_tree : PingTree) : service (list PingTreeCampaign) :=
  found ← fallible (load_ping_tree_campaigns ld (tree_id ping_tree));
  _ ← (if load_campaigns_counted ld then record_metrics record_cache_hit
       else if (0 <? load_campaigns_ms ld)%Z then record_metrics record_cache_miss else mret tt);
  _ ← record_timing (timing_record_pre_checks (load_campaigns_ms ld));
  _ ← record_metrics (record_query (load_campaigns_ms ld));
  mret found.

(** The integrations by buyer, the last campaign of a buyer deciding. *)
Definition buyer_integration_map (rows : list (Campaign * option Buyer * option BuyerIntegration))
    : gmap Uuid (option BuyerIntegration) :=
  foldl (λ m row, <[campaign_buyer_id row.1.1 := row.2]> m) ∅ rows.

(** The campaigns of the auction, in the order of the ping tree, with their
    priorities. *)
Definition routable_campaigns (all_campaigns : list Campaign) (ping_tree_campaigns : list PingTreeCampaign)
    : list Campaign * gmap Uuid (option Z) :=
  foldl (λ acc ptc,
    match List.find (λ c, bool_decide (campaign_id c = ptc_campaign_id ptc)) all_campaigns with
    | Some campaign =>
        if Campaign_active campaign
        then (acc.1 ++ [campaign], <[campaign_id campaign := ptc_priority ptc]> acc.2) else acc
    | None => acc
    end) ([], ∅) ping_tree_campaigns.

(** Associations, priorities and configurations, loaded in parallel. *)
Definition load_auction (ld : RouteLoads) (ping_tree_campaigns : list PingTreeCampaign)
    : service (list Campaign * gmap Uuid (option Z) * gmap Uuid (option BuyerIntegration)
               * gmap Uuid (option BuyerQualificationConfig)) :=
  let campaign_ids := ptc_campaign_id <$> ping_tree_campaigns in
  let buyer_ids := load_buyer_ids ld campaign_ids in
  let rows := load_associations ld campaign_ids in
  let configs := match buyer_ids with [] => ∅ | _ => load_qualification_configs ld buyer_ids end in
  _ ← record_metrics (record_query (load_parallel_ms ld));
  _ ← record_timing (timing_record_pre_checks (load_parallel_ms ld));
  let integrations := buyer_integration_map rows in
  let '(campaigns, priority_map) := routable_campaigns (rows.*1.*1) ping_tree_campaigns in
  _ ← record_metrics (record_query (load_parallel_ms ld));
  _ ← record_timing (timing_record_qualification (load_parallel_ms ld));
  mret (campaigns, priority_map, integrations, configs).

(** [route]; the timing and the metrics are those of the state. *)
Definition route (retry_spawn : service unit → service unit) (ld : RouteLoads) (d : AuctionDraws) (dpost : TaskDraws)
    (r : PingTreeRouter) : service RoutingResult :=
  found ← lookup_ping_tree ld;
  match found with
  | None =>
      fail_routing r LeadError "Publisher not assigned to any ping tree"
        (failure_result "error" ("Publisher not assigned to any ping tree for vertical: " +:+ ptr_vertical r))
  | Some ping_tree =>
      if negb (PingTree_is_active ping_tree) then
        fail_routing r LeadError ("Ping tree is " +:+ tree_status ping_tree)
          (failure_result "error" ("Ping tree is " +:+ tree_status ping_tree +:+
                                   ". Only active ping trees accept requests."))
      else
        ping_tree_campaigns ← lookup_campaigns ld ping_tree;
        match ping_tree_campaigns with
        | [] =>
            fail_routing r LeadError "No active campaigns found in ping tree"
              (failure_result "error" "No active campaigns found in ping tree")
        | _ =>
            '(campaigns, priority_map, integrations, configs) ← load_auction ld ping_tree_campaigns;
            match campaigns with
            | [] =>
                fail_routing r LeadError "No valid campaigns found"
                  (failure_result "error" "No valid campaigns found")
            | _ =>
                if String.eqb (ptr_request_type r) "ping" then
                  route_ping_auction retry_spawn d r campaigns priority_map integrations configs
                else if String.eqb (ptr_request_type r) "post" then route_post dpost r campaigns
                else if String.eqb (ptr_request_type r) "fullpost" then
                  route_fullpost retry_spawn d dpost r campaigns ping_tree priority_map integrations configs
                else
                  fail_routing r LeadError ("Unknown request_type: " +:+ ptr_request_type r)
                    (failure_result "error" ("Unknown request_type: " +:+ ptr_request_type r))
            end
        end
  end.

End ping_tree_router.

(** ** The retry library *)

(** What the routers rely on of [Retry::spawn]: it only runs its action, stops at the
    first success, succeeds only as its action did last, and panics only when its action does. *)
Class RetryLaws {A} (retry_spawn : service A → service A) : Prop := {
  retry_runs_action (R : World → World → Prop) (m : service A) :
    Reflexive R → Transitive R → (∀ w, R w (m w).2) → ∀ w, R w (retry_spawn m w).2;
  retry_first_success m w a w' : m w = (Ok a, w') → retry_spawn m w = (Ok a, w');
  retry_success m w a w' : retry_spawn m w = (Ok a, w') → ∃ w1, m w1 = (Ok a, w');
  retry_panics (P : string → Prop) m :
    (∀ w e, (m w).1 = Err (Panicked e) → P e) → ∀ w e, (retry_spawn m w).1 = Err (Panicked e) → P e
}.

(** Up to [n] more attempts; a panic is not retried. *)
Fixpoint reference_retry {A} (n : nat) (m : service A) : service A := λ w,
  match n, m w with
  | S n', (Err (Failed _), w') => reference_retry n' m w'
  | _, r => r
  end.

#[export] Instance reference_retry_laws {A} n : RetryLaws (reference_retry (A := A) n).
Proof.
  split.
  - intros R m Hr Ht Hm. induction n as [|n IH]; intros w; simpl; [apply Hm|]. specialize (Hm w) as Hw.
    destruct (m w) as [[a|[e|e]] w'] eqn:E; simpl in *; [done| |done]. etrans; [exact Hw|apply IH].
  - intros m w a w' Hm. destruct n; simpl; by rewrite Hm.
  - intros m w a w'. revert w. induction n as [|n IH]; intros w; simpl; [by exists w|].
    destruct (m w) as [[b|[e|e]] w1] eqn:E; [intros [= <- <-]; by exists w|by apply IH|done].
  - intros P m Hm. induction n as [|n IH]; intros w e; simpl; [apply Hm|]. specialize (Hm w e).
    destruct (m w) as [[a|[e'|e']] w'] eqn:E; simpl in *; [done|apply IH|done].
Qed.

(** ** Lemmas: what a service changes *)

Section frame.
Context `{Platform} (sv : Services).

(** Only the row of lead [id] may change, and a row is neither made nor lost. *)
Definition only_lead (id : Uuid) (w w' : World) : Prop :=
  dom (db_leads (w_db w')) = dom (db_leads (w_db w)) ∧
  (∀ id', id' ≠ id → db_leads (w_db w') !! id' = db_leads (w_db w) !! id').

#[export] Instance only_lead_refl id : Reflexive (only_lead id).
Proof. by split. Qed.
#[export] Instance only_lead_trans id : Transitive (only_lead id).
Proof. intros w1 w2 w3 [H1 H1'] [H2 H2']. split; [congruence|]. intros id' Hne. rewrite H2', H1'; done. Qed.

Lemma only_lead_modify id (f : World → World) :
  (∀ w, w_db (f w) = w_db w) → respects (only_lead id) (eff_modify f).
Proof. intros Hf w. simpl. unfold only_lead. by rewrite Hf. Qed.

Lemma only_lead_exec_update id (g : DateTime → Lead → Lead) :
  respects (only_lead id) (exec_update (λ now, update_lead_row (g now) id)).
Proof.
  intros w. unfold exec_update, exec, only_lead. destruct (w_outcomes w) as [|[e|] rest]; simpl; [|done|].
  all: split; [apply dom_alter_L|]; intros id' Hne; by apply lookup_alter_ne.
Qed.

Lemma only_lead_insert id rows : respects (only_lead id) (insert_buyer_responses rows).
Proof.
  intros w. unfold insert_buyer_responses, exec, only_lead.
  destruct (w_outcomes w) as [|[e|] rest]; [|done|]; by destruct (forallb _ rows).
Qed.

Lemma only_lead_update_status r status error :
  respects (only_lead (lead_uuid (ptr_lead r))) (update_lead_status r status error).
Proof.
  unfold update_lead_status. destruct (_ || _); [|by apply respects_ret].
  apply respects_bind; [apply _|by apply respects_gets|]. intros now. apply only_lead_exec_update.
Qed.

Lemma only_lead_fail r status log result :
  respects (only_lead (lead_uuid (ptr_lead r))) (fail_routing r status log result).
Proof.
  apply respects_bind; [apply _|apply only_lead_update_status|]. intros _. by apply respects_ret.
Qed.

Lemma only_lead_enqueue id task : respects (only_lead id) (enqueue task).
Proof. by apply only_lead_modify. Qed.
Lemma only_lead_record_timing id f : respects (only_lead id) (record_timing f).
Proof. by apply only_lead_modify. Qed.
Lemma only_lead_record_metrics id f : respects (only_lead id) (record_metrics f).
Proof. by apply only_lead_modify. Qed.
End frame.

(** Goes through the binds and the branches of a service. *)
Ltac respects_step :=
  match goal with
  | |- respects _ (mbind _ _) => apply respects_bind; [apply _| |intros ?]
  | |- respects _ (mret _) => by apply respects_ret
  | |- respects _ (fallible _) => by apply respects_lift
  | |- respects _ (unwrap _) => by apply respects_lift
  | |- respects _ (eff_gets _) => by apply respects_gets
  | |- respects _ (for_each _ _) => apply respects_for_each; [apply _..|intros ?]
  | |- respects _ (enqueue _) => apply only_lead_enqueue
  | |- respects _ (record_timing _) => apply only_lead_record_timing
  | |- respects _ (record_metrics _) => apply only_lead_record_metrics
  | |- respects _ (fail_routing _ _ _ _) => apply only_lead_fail
  | |- respects _ (update_lead_status _ _ _) => apply only_lead_update_status
  | |- respects _ (exec_update _) => apply only_lead_exec_update
  | |- respects _ (if ?b then _ else _) => destruct b
  | |- respects _ (match ?x with _ => _ end) => destruct x
  | |- respects _ (let _ := _ in _) => cbv zeta
  end.
Ltac respects_tac := repeat respects_step.

Section frame_routes.
Context `{Platform} (sv : Services) (retry_spawn : service unit → service unit) `{!RetryLaws retry_spawn}.

Lemma only_lead_batch_insert id rows : respects (only_lead id) (batch_insert_buyer_responses retry_spawn rows).
Proof.
  unfold batch_insert_buyer_responses. destruct rows as [|b rows]; [by apply respects_ret|].
  destruct (negb _); [intros w; by simpl|].
  apply respects_bind; [apply _| |intros ?; by apply respects_lift].
  apply respects_catch. intros w. apply (retry_runs_action (only_lead id)); [apply _..|apply only_lead_insert].
Qed.

Lemma only_lead_persist id r rows : respects (only_lead id) (persist_ping_responses retry_spawn r rows).
Proof.
  unfold persist_ping_responses. destruct (ptr_has_queue r); [respects_tac|].
  apply respects_bind; [apply _| |intros ?; by apply respects_ret].
  apply respects_catch, only_lead_batch_insert.
Qed.

Lemma only_lead_ping_auction d r cs pm im cf :
  respects (only_lead (lead_uuid (ptr_lead r))) (route_ping_auction sv retry_spawn d r cs pm im cf).
Proof.
  unfold route_ping_auction, no_valid_ping, save_winner, update_lead_with_winner.
  repeat first [apply only_lead_persist | respects_step].
Qed.

Lemma only_lead_route_post d r cs :
  respects (only_lead (lead_uuid (ptr_lead r))) (route_post sv d r cs).
Proof.
  unfold route_post, handle_post_response, handle_post_error, update_lead_with_post. respects_tac.
Qed.

Lemma only_lead_route_fullpost d dp r cs tree pm im cf :
  respects (only_lead (lead_uuid (ptr_lead r))) (route_fullpost sv retry_spawn d dp r cs tree pm im cf).
Proof.
  unfold route_fullpost, fullpost_as_ping_post, fullpost_auction, no_valid_fullpost, update_lead_fullpost.
  destruct (String.eqb _ _).
  - apply respects_bind; [apply _|apply (only_lead_ping_auction d (router_with (ptr_lead r) "ping" r))|].
    intros ping. destruct (negb _); [by apply respects_ret|].
    apply respects_bind; [apply _| |intros ?; by apply respects_ret].
    apply (only_lead_route_post dp (router_with (lead_after_ping (ptr_lead r) ping) "post" r)).
  - respects_tac.
Qed.

End frame_routes.

(** ** Lemmas: the auction *)

Section auction.
Context `{Platform} (sv : Services) (retry_spawn : service unit → service unit) `{!RetryLaws retry_spawn}.

(** The decision of the auction, after the responses are persisted. *)
Definition auction_decision (d : AuctionDraws) (r : PingTreeRouter) (cs : list Campaign)
    (responses : list Entry) (timings : list json) : service RoutingResult :=
  match ping_valid_responses responses with
  | [] => no_valid_ping r responses timings
  | valid_responses =>
      winner ← unwrap (select_winner (auction_pick d) valid_responses);
      campaign ← fallible (ok_or "Winner campaign not found" (find_campaign cs (entry_campaign winner)));
      _ ← save_winner r campaign (entry_response winner) (winning_bid_of (entry_response winner));
      mret (ping_result (entry_response winner) campaign timings)
  end.

Definition auction_processed (d : AuctionDraws) (r : PingTreeRouter) (cs : list Campaign)
    (pm : gmap Uuid (option Z)) (im : gmap Uuid (option BuyerIntegration))
    (cf : gmap Uuid (option BuyerQualificationConfig)) : list (Entry * option json) :=
  process_result r cs pm <$> completed (auction_order d) (ping_tasks sv r im cf d cs).

(** The rows of the auction, one per completed task. *)
Definition auction_rows (d : AuctionDraws) (r : PingTreeRouter) (cs : list Campaign)
    (pm : gmap Uuid (option Z)) (im : gmap Uuid (option BuyerIntegration))
    (cf : gmap Uuid (option BuyerQualificationConfig)) : list BuyerResponseData :=
  ping_response_row r cs <$> zip (auction_processed d r cs pm im cf).*1
    (completed (auction_order d) (ping_tasks sv r im cf d cs)).*2.

Lemma batch_insert_panics P rows : panics_in P (batch_insert_buyer_responses retry_spawn rows).
Proof.
  unfold batch_insert_buyer_responses. destruct rows as [|b rows]; [by apply panics_ret|].
  destruct (negb _); [by intros w e|]. repeat panics_step. intros w. apply retry_panics. apply panics_exec.
Qed.

(** The only panics of the routing are those of the winner selection. *)
Definition winner_panic (e : string) : Prop := ∃ draw rs, select_winner draw rs = Err e.

Lemma update_status_panics P r status error : panics_in P (update_lead_status r status error).
Proof. unfold update_lead_status. repeat panics_step. Qed.

Lemma fail_routing_panics P r status log result : panics_in P (fail_routing r status log result).
Proof. unfold fail_routing. repeat first [apply update_status_panics | panics_step]. Qed.

Lemma ping_auction_panics d r cs pm im cf :
  panics_in winner_panic (route_ping_auction sv retry_spawn d r cs pm im cf).
Proof.
  unfold route_ping_auction, persist_ping_responses, no_valid_ping, save_winner, update_lead_with_winner.
  repeat first [ apply fail_routing_panics | apply batch_insert_panics
               | apply panics_unwrap; intros e He; by eexists _, _ | panics_step ].
Qed.

Lemma route_post_panics d r cs : panics_in winner_panic (route_post sv d r cs).
Proof.
  unfold route_post, handle_post_response, handle_post_error, update_lead_with_post.
  repeat first [apply fail_routing_panics | apply update_status_panics | panics_step].
Qed.

Lemma route_panics ld d dp r : panics_in winner_panic (route sv retry_spawn ld d dp r).
Proof.
  unfold route, lookup_ping_tree, lookup_campaigns, load_auction, route_fullpost, fullpost_as_ping_post,
    fullpost_auction, no_valid_fullpost, update_lead_fullpost.
  repeat first [ apply fail_routing_panics | apply ping_auction_panics | apply route_post_panics | panics_step ].
Qed.

(** Persisting never fails the auction, and never touches the leads. *)
Lemma persist_ok r rows w :
  ∃ w', persist_ping_responses retry_spawn r rows w = (Ok tt, w') ∧ db_leads (w_db w') = db_leads (w_db w) ∧
    (ptr_has_queue r = true → w' = on_queue (λ q, q ++ (BuyerResponseTask <$> rows)) w) ∧
    (ptr_has_queue r = false → w_queue w' = w_queue w).
Proof.
  unfold persist_ping_responses. destruct (ptr_has_queue r) eqn:Hq.
  { rewrite for_each_enqueue. eexists. split_and!; done. }
  set (R := λ w w', db_leads (w_db w') = db_leads (w_db w) ∧ w_queue w' = w_queue w).
  assert (Rrefl : Reflexive R) by (by split).
  assert (Rtrans : Transitive R) by (intros w1 w2 w3 [] []; split; congruence).
  assert (HR : respects R (batch_insert_buyer_responses retry_spawn rows)).
  { unfold batch_insert_buyer_responses. destruct rows as [|b rows]; [by apply respects_ret|].
    destruct (negb _); [intros w0; by simpl|].
    apply respects_bind; [apply _| |intros ?; by apply respects_lift].
    apply respects_catch. intros w0. apply (retry_runs_action R); [apply _..|]. intros w1.
    unfold insert_buyer_responses, exec. destruct (w_outcomes w1) as [|[e|] rest]; [|done|]; by destruct (forallb _ _). }
  pose proof (batch_insert_panics (λ _, False) rows w) as Hp. specialize (HR w). unfold mbind, eff_bind, catch.
  destruct (batch_insert_buyer_responses retry_spawn rows w) as [[u|[e|e]] w']; simpl in *; [| |by destruct (Hp e)];
    destruct HR; exists w'; split_and!; done.
Qed.

Lemma route_ping_auction_decision d r cs pm im cf w :
  ∃ w', route_ping_auction sv retry_spawn d r cs pm im cf w =
      auction_decision d r cs (auction_processed d r cs pm im cf).*1 (omap snd (auction_processed d r cs pm im cf)) w' ∧
    db_leads (w_db w') = db_leads (w_db w) ∧
    (ptr_has_queue r = true → w_db w' = w_db w ∧ w_outcomes w' = w_outcomes w ∧
       w_queue w' = w_queue w ++ (BuyerResponseTask <$> auction_rows d r cs pm im cf)) ∧
    (ptr_has_queue r = false → w_queue w' = w_queue w).
Proof.
  unfold route_ping_auction.
  fold (auction_processed d r cs pm im cf). fold (auction_rows d r cs pm im cf).
  set (w1 := on_telemetry (with_metrics (record_stage_timing "ping_auction" (auction_ms d)))
              (on_telemetry (with_metrics (metrics_record_ping_auction (auction_ms d))) w)).
  destruct (persist_ok r (auction_rows d r cs pm im cf) w1) as (w2 & Hp & Hl & Hq & Hnq).
  exists (on_telemetry (with_timing (timing_record_ping_auction (auction_ms d))) w2). split_and!.
  - unfold mbind, eff_bind at 1 2, record_metrics, eff_modify. fold w1.
    unfold eff_bind at 1. rewrite Hp. reflexivity.
  - simpl. by rewrite Hl.
  - intros Htrue. rewrite (Hq Htrue). done.
  - intros Hfalse. simpl. by rewrite (Hnq Hfalse).
Qed.

Lemma elem_of_completed {A} (order : list nat) (l : list A) x :
  x ∈ completed order l ↔ ∃ i, i ∈ order ∧ l !! i = Some x.
Proof. unfold completed. by rewrite list_elem_of_omap. Qed.

(** An entry of the auction comes from a completed task. *)
Lemma auction_entry d r cs pm im cf e :
  e ∈ (auction_processed d r cs pm im cf).*1 →
  ∃ i c, i ∈ auction_order d ∧ cs !! i = Some c ∧
    e = (process_result r cs pm (ping_task sv r im cf (auction_tasks d i) c)).1.
Proof.
  unfold auction_processed. intros He.
  apply list_elem_of_fmap in He as (p & -> & Hp). apply list_elem_of_fmap in Hp as (t & -> & Ht).
  apply elem_of_completed in Ht as (i & Hi & Ht). unfold ping_tasks in Ht.
  rewrite list_lookup_imap in Ht. destruct (cs !! i) as [c|] eqn:Hc; simplify_eq/=. eauto.
Qed.

(** A successful entry is the answer of its buyer, in time. *)
Lemma auction_entry_success r cs pm im cf d c :
  let e := (process_result r cs pm (ping_task sv r im cf d c)).1 in
  resp_success (entry_response e) = true →
  entry_campaign e = campaign_id c ∧ entry_priority e = priority_of pm (campaign_id c) ∧
  (ping_task sv r im cf d c).1.1 = Ok (Ok (entry_response e)).
Proof.
  unfold process_result, ping_task. simpl.
  set (routed := (BuyerRouter.route sv _ _ _).1). generalize (default false
    (integration_is_internal <$> mjoin (im !! campaign_buyer_id c))). intros internal.
  destruct internal, (PING_AUCTION_TIMEOUT <? task_route_ms d)%Z, routed; simpl; done.
Qed.

Lemma elem_of_ping_valid rs e :
  e ∈ ping_valid_responses rs ↔ e ∈ rs ∧ resp_success (entry_response e) = true ∧
    positive (resp_bid (entry_response e)) = true ∧ is_Some (resp_promise_id (entry_response e)) ∧
    resp_status (entry_response e) ≠ "timeout".
Proof.
  unfold ping_valid_responses.
  rewrite elem_of_list_filter_bool, !andb_true_iff, negb_true_iff, String.eqb_neq, bool_decide_eq_true. tauto.
Qed.

Lemma find_campaign_id cs c i :
  NoDup (campaign_id <$> cs) → cs !! i = Some c → find_campaign cs (campaign_id c) = Some c.
Proof.
  intros Hnd Hc. unfold find_campaign.
  destruct (List.find _ cs) as [c'|] eqn:Hf.
  - apply find_Some_split in Hf as (pre & post & Hcs & _ & Heq%bool_decide_eq_true).
    assert (Hc' : cs !! length pre = Some c') by (rewrite Hcs; by apply list_lookup_middle).
    assert (i = length pre) as ->.
    { eapply (NoDup_lookup _ i (length pre) (campaign_id c) Hnd).
      - by rewrite list_lookup_fmap, Hc.
      - by rewrite list_lookup_fmap, Hc', <-Heq. }
    congruence.
  - exfalso. apply list_elem_of_lookup_2 in Hc.
    pose proof (List.find_none _ _ Hf c) as Hn. rewrite <-list_elem_of_In in Hn. specialize (Hn Hc).
    simpl in Hn. by rewrite bool_decide_true in Hn.
Qed.
End auction.

(** ** Properties *)

Section properties.
Context `{Platform} (sv : Services) (retry_spawn : service unit → service unit) `{!RetryLaws retry_spawn}.

(** The error of the update of the lead's status: it is made for a lead in processing or a
    test lead, as the next statement. *)
Definition failing_status_update (r : PingTreeRouter) (w : World) : option string :=
  if bool_decide (lead_status (ptr_lead r) = LeadProcessing) || bool_decide (lead_status (ptr_lead r) = LeadTest)
  then match w_outcomes w with Some e :: _ => Some e | _ => None end
  else None.

(** C5: isolation.  Whatever the request, the loads, the answers of the buyers and
    the failures of the database, routing a lead changes no other row of [leads],
    and neither makes nor removes one. *)
Theorem route_only_own_lead (ld : RouteLoads) (d : AuctionDraws) (dpost : TaskDraws) (r : PingTreeRouter) (w : World) :
  let w' := (route sv retry_spawn ld d dpost r w).2 in
  dom (db_leads (w_db w')) = dom (db_leads (w_db w)) ∧
  (∀ id, id ≠ lead_uuid (ptr_lead r) → db_leads (w_db w') !! id = db_leads (w_db w) !! id).
Proof.
  change (only_lead (lead_uuid (ptr_lead r)) w (route sv retry_spawn ld d dpost r w).2).
  revert w. change (respects (only_lead (lead_uuid (ptr_lead r))) (route sv retry_spawn ld d dpost r)).
  unfold route, lookup_ping_tree, lookup_campaigns, load_auction.
  repeat first [apply only_lead_ping_auction; exact RetryLaws0 | apply only_lead_route_post
    | apply only_lead_route_fullpost; exact RetryLaws0 | respects_step].
Qed.

(** C4: the winner of a ping auction.  When the campaigns have distinct ids and no
    answer bids infinity, a successful auction reports a campaign whose buyer answered in
    time with a valid bid and a promise, and reports that buyer and that promise.  The
    price it reports is the price of the answer when it has one, and its bid otherwise.
    The bid is within the price epsilon of the highest valid bid of the completed answers,
    and no answer at the highest bid has a better priority. *)
Theorem ping_auction_winner (d : AuctionDraws) (r : PingTreeRouter) (cs : list Campaign)
    (pm : gmap Uuid (option Z)) (im : gmap Uuid (option BuyerIntegration))
    (cf : gmap Uuid (option BuyerQualificationConfig)) (w w' : World) (res : RoutingResult) :
  let responses := (auction_processed sv d r cs pm im cf).*1 in
  NoDup (campaign_id <$> cs) →
  (∀ e, e ∈ responses → resp_bid (entry_response e) ≠ Some (S754_infinity false)) →
  route_ping_auction sv retry_spawn d r cs pm im cf w = (Ok res, w') → rr_success res = true →
  ∃ i c resp b h,
    i ∈ auction_order d ∧ cs !! i = Some c ∧ (ping_task sv r im cf (auction_tasks d i) c).1.1 = Ok (Ok resp) ∧
    resp_bid resp = Some b ∧ f64_gt b f64_zero = true ∧ is_Some (resp_promise_id resp) ∧
    rr_campaign_id res = Some (campaign_id c) ∧ rr_buyer_id res = Some (campaign_buyer_id c) ∧
    rr_promise_id res = resp_promise_id resp ∧ rr_price res = Some (default b (resp_price resp)) ∧
    within_epsilon h b = true ∧
    (∀ e x, e ∈ ping_valid_responses responses → resp_bid (entry_response e) = Some x → f64_gt x h = false) ∧
    (∀ e x p, e ∈ ping_valid_responses responses → resp_bid (entry_response e) = Some x → f64_eqb x h = true →
       entry_priority e = Some p → ∃ q, priority_of pm (campaign_id c) = Some q ∧ (q ≤ p)%Z).
Proof.
  intros responses Hnd Hinf Hroute Hok.
  destruct (route_ping_auction_decision sv retry_spawn d r cs pm im cf w) as (w1 & Hdec & _).
  rewrite Hdec in Hroute. clear Hdec. unfold auction_decision in Hroute. fold responses in Hroute.
  destruct (ping_valid_responses responses) as [|v0 vs] eqn:Hvs.
  { unfold no_valid_ping, fail_routing in Hroute. apply eff_bind_inv in Hroute as [(? & ? & _ & Hr)|(? & _ & ?)]; [|done].
    unfold mret, eff_ret in Hr. simplify_eq/=. }
  rewrite <-Hvs in *.
  destruct (select_winner_optimal_aux (auction_pick d) (ping_valid_responses responses))
    as (wn & b & top & h & Hsel & Hwin & Hb & Hpos & _ & _ & Heps & Hmax & Hpri).
  { exists v0. assert (Hv0 : v0 ∈ ping_valid_responses responses) by (rewrite Hvs; by left).
    split; [done|]. by apply elem_of_ping_valid in Hv0 as (_ & _ & ? & _). }
  { intros e He. apply Hinf. by apply elem_of_ping_valid in He as [? _]. }
  rewrite Hsel in Hroute. pose proof Hwin as Hwin'.
  apply elem_of_ping_valid in Hwin as (Hin & Hsucc & _ & Hprom & _).
  destruct (auction_entry sv d r cs pm im cf wn Hin) as (i & c & Hi & Hc & Hwn).
  rewrite Hwn in Hsucc. destruct (auction_entry_success sv r cs pm im cf (auction_tasks d i) c Hsucc)
    as (Hcid & Hcpri & Hout). rewrite <-Hwn in Hcid, Hcpri, Hout. rewrite <-Hwn in Hsucc. clear Hwn.
  unfold eff_lift, mbind, eff_bind in Hroute. simpl in Hroute.
  rewrite Hcid, (find_campaign_id cs c i Hnd Hc) in Hroute. simpl in Hroute.
  destruct (save_winner r c (entry_response wn) (winning_bid_of (entry_response wn)) w1) as [[[]|e] w2]; [|done].
  unfold mret, eff_ret in Hroute. simplify_eq/=.
  exists i, c, (entry_response wn), b, h. split_and!; try done.
  - unfold winning_bid_of. rewrite Hb. by destruct (resp_price _).
  - intros e x He Hx. eapply Hmax; [done|done|]. apply elem_of_ping_valid in He as (_ & _ & Hpx & _).
    destruct (positive_value _ Hpx) as (x' & Hx' & Hgt). congruence.
  - rewrite <-Hcpri. exact Hpri.
Qed.

(** C6: what a ping auction with a queue does, on every branch, when the campaigns have
    distinct ids and no answer bids infinity.  It queues one response row per completed
    buyer.  When a completed response is valid it succeeds, whatever statements fail: it
    touches no table and queues the winner's update of the lead.  When none is valid it
    answers the failure, except that the update of the status of a lead in processing can
    fail: then it returns the error of that statement. *)
Theorem ping_auction_total (d : AuctionDraws) (r : PingTreeRouter) (cs : list Campaign)
    (pm : gmap Uuid (option Z)) (im : gmap Uuid (option BuyerIntegration))
    (cf : gmap Uuid (option BuyerQualificationConfig)) (w : World) :
  let responses := (auction_processed sv d r cs pm im cf).*1 in
  let rows := BuyerResponseTask <$> auction_rows sv d r cs pm im cf in
  let '(outcome, w') := route_ping_auction sv retry_spawn d r cs pm im cf w in
  ptr_has_queue r = true → NoDup (campaign_id <$> cs) →
  (∀ e, e ∈ responses → resp_bid (entry_response e) ≠ Some (S754_infinity false)) →
  match ping_valid_responses responses, failing_status_update r w with
  | _ :: _, _ => w_db w' = w_db w ∧ ∃ res u, outcome = Ok res ∧ rr_success res = true ∧
      w_queue w' = w_queue w ++ rows ++ [LeadUpdate u] ∧
      lu_lead_id u = lead_uuid (ptr_lead r) ∧ lu_status u = LeadPingAccepted ∧
      lu_campaign_id u = rr_campaign_id res ∧ lu_buyer_id u = rr_buyer_id res ∧
      lu_promise_id u = rr_promise_id res ∧ lu_vertical_data u = winning_bid_data (rr_price res)
  | [], None => w_queue w' = w_queue w ++ rows ∧
      ∃ res, outcome = Ok res ∧ rr_success res = false ∧ rr_campaign_id res = None ∧ rr_price res = None
  | [], Some e => w_queue w' = w_queue w ++ rows ∧ w_db w' = w_db w ∧ outcome = Err (Failed e)
  end.
Proof.
  intros responses rows.
  destruct (route_ping_auction_decision sv retry_spawn d r cs pm im cf w) as (w1 & -> & _ & Hw1 & _).
  destruct (auction_decision _ _ _ _ _ _) as [outcome w'] eqn:Hdec. intros Hq Hnd Hinf.
  destruct (Hw1 Hq) as (Hdb & Hout & Hqueue). revert Hdec. unfold auction_decision. fold responses. fold rows in Hqueue.
  destruct (ping_valid_responses responses) as [|v0 vs] eqn:Hvs.
  - unfold no_valid_ping, fail_routing, update_lead_status, failing_status_update. rewrite <-Hout.
    destruct (_ || _); unfold mbind, eff_bind, eff_gets, exec_update, exec; [destruct (w_outcomes w1) as [|[e|] rest]|];
      intros [= <- <-]; (split; [done|]); first [by eexists|by split].
  - rewrite <-Hvs.
    destruct (select_winner_optimal_aux (auction_pick d) (ping_valid_responses responses))
      as (wn & b & top & h & Hsel & Hwin & Hb & Hpos & _).
    { exists v0. assert (Hv0 : v0 ∈ ping_valid_responses responses) by (rewrite Hvs; by left).
      split; [done|]. by apply elem_of_ping_valid in Hv0 as (_ & _ & ? & _). }
    { intros e He. apply Hinf. by apply elem_of_ping_valid in He as [? _]. }
    apply elem_of_ping_valid in Hwin as (Hin & Hsucc & _ & Hprom & _).
    destruct (auction_entry sv d r cs pm im cf wn Hin) as (i & c & Hi & Hc & Hwn).
    pose proof Hsucc as Hsucc'. rewrite Hwn in Hsucc.
    destruct (auction_entry_success sv r cs pm im cf (auction_tasks d i) c Hsucc) as (Hcid & _ & _).
    rewrite <-Hwn in Hcid. clear Hwn Hsucc. rewrite Hsel. unfold eff_lift, mbind, eff_bind. simpl.
    rewrite Hcid, (find_campaign_id cs c i Hnd Hc). simpl.
    unfold save_winner. rewrite Hq. unfold enqueue, eff_modify. simpl. intros [= <- <-].
    split; [exact Hdb|]. eexists _, _. split; [done|]. unfold ping_result. simpl. split; [done|].
    rewrite Hqueue, <-app_assoc. by split_and!.
Qed.
End properties.

(** ** Lemmas: post *)

Section post.
Context `{Platform} (sv : Services).

(** The campaign's buyer is active and served by Pulsar, as the lookups see it. *)
Definition pulsar_buyer (c : Campaign) : Prop :=
  ∃ b i integration,
    lookup_buyer sv (campaign_buyer_id c) = Ok (Some b) ∧ Buyer_active b = true ∧
    buyer_buyer_integration_id b = Some i ∧ lookup_integration sv i = Ok (Some integration) ∧
    integration_is_internal integration = true ∧ starts_with "pulsar" (integration_slug integration) = true.

(** The bid stored by the ping, when there is one, is a valid price. *)
Definition stored_bid (l : Lead) : option f64 := v ← jget "winning_bid" (lead_vertical_data l); as_f64 v.

Lemma pulsar_buyer_integration l rt c :
  pulsar_buyer c → ∃ integration, get_buyer_integration sv (BuyerRouter_new l [c] rt) c = Ok integration ∧
    integration_is_internal integration = true ∧ starts_with "pulsar" (integration_slug integration) = true.
Proof.
  intros (b & i & integration & Hb & Hact & Hi & Hint & Hin & Hslug).
  exists integration. split_and!; [|done|done]. unfold get_buyer_integration, mbind, Result_bind. simpl.
  rewrite Hb. simpl. rewrite Hact. simpl. rewrite Hi. simpl. rewrite Hint. done.
Qed.

(** A post to a Pulsar buyer is a sale, at the stored bid or at a random price. *)
Lemma pulsar_post_sold (d : TaskDraws) (r : PingTreeRouter) (cs : list Campaign) (c : Campaign)
    (promise : string) (w : World) :
  ptr_request_type r = "post" → post_campaign r cs = Some c → pulsar_buyer c →
  lead_promise_id (ptr_lead r) = Some promise →
  positive (Some (default (random_price 0) (stored_bid (ptr_lead r)))) = true → w_outcomes w = [] →
  ∃ res w' post_id, route_post sv d r cs w = (Ok res, w') ∧
    rr_success res = true ∧ rr_status res = "sold" ∧
    rr_price res = Some (default (random_price (draw_price (call_pulsar (task_call d)))) (stored_bid (ptr_lead r))) ∧
    rr_promise_id res = Some promise ∧ rr_post_id res = Some post_id ∧
    rr_campaign_id res = Some (campaign_id c) ∧ rr_buyer_id res = Some (campaign_buyer_id c) ∧ rr_error res = None ∧
    db_leads (w_db w') = alter (λ l, lead_with l LeadSold (lead_campaign_id l) (lead_buyer_id l) (lead_promise_id l)
      (lead_ping_id l) (Some post_id) (lead_sold_at l) (lead_vertical_data l) (w_now w))
      (lead_uuid (ptr_lead r)) (db_leads (w_db w)).
Proof.
  intros Hrt Hpc Hpulsar Hprom Hpos Hout. unfold route_post.
  assert (Hmiss : match lead_campaign_id (ptr_lead r) with
    | Some id => negb (existsb (λ c, bool_decide (campaign_id c = id)) cs) | None => false end = false).
  { unfold post_campaign, find_campaign in Hpc. destruct (lead_campaign_id (ptr_lead r)) as [id|]; [|done].
    apply negb_false_iff, existsb_exists. apply List.find_some in Hpc. eauto. }
  rewrite Hmiss, Hpc. rewrite Hrt.
  destruct (pulsar_buyer_integration (ptr_lead r) "post" c Hpulsar) as (integration & Hi & Hint & Hslug).
  destruct (internal_post_sold sv (task_call d) (BuyerRouter_new (ptr_lead r) [c] "post") c integration promise no_telemetry)
    as (resp & t' & Hroute & Hs & Hst & Hpr & Hpm & [pid Hpo] & Herr & _); try done.
  rewrite Hroute. simpl. fold (stored_bid (ptr_lead r)) in Hpr.
  assert (Hsale : post_is_sale resp = true).
  { unfold post_is_sale. rewrite Hs, Hpo, Hpr. simpl.
    change (jget "winning_bid" _ ≫= _) with (stored_bid (ptr_lead r)).
    destruct (stored_bid (ptr_lead r)) as [b|]; [exact Hpos|].
    apply random_price_bounds. }
  unfold handle_post_response. rewrite Hsale, Hpo.
  unfold mbind, eff_bind, record_metrics, record_timing, eff_modify, enqueue. simpl.
  assert (Hrun : ∀ w0, w_outcomes w0 = [] → update_lead_with_post r pid w0 =
    (Ok tt, set_db (update_lead_row (λ l, lead_with l LeadSold (lead_campaign_id l) (lead_buyer_id l)
       (lead_promise_id l) (lead_ping_id l) (Some pid) (lead_sold_at l) (lead_vertical_data l) (w_now w0))
       (lead_uuid (ptr_lead r)) (w_db w0)) w0)).
  { intros w0 Hw0. unfold update_lead_with_post, exec_update, exec. rewrite Hw0. destruct w0; simpl in *. by subst. }
  destruct (ptr_has_queue r); simpl.
  - unfold eff_modify. simpl. rewrite Hrun by done. simpl. eexists _, _, pid. split; [done|].
    unfold post_result; simpl. split_and!; try done.
  - unfold mret, eff_ret. rewrite Hrun by done. simpl. eexists _, _, pid. split; [done|].
    unfold post_result; simpl. split_and!; try done.
Qed.
End post.

(** Reading a list in order gives it back. *)
Lemma omap_lookup_seq {A} (l : list A) : omap (λ i, l !! i) (seq 0 (length l)) = l.
Proof.
  induction l as [|x l IH] using rev_ind; [done|].
  rewrite length_app, seq_app, omap_app. simpl. rewrite list_lookup_middle by done. simpl. f_equal.
  etrans; [|exact IH]. apply list_omap_ext, Forall2_same_length_lookup.
  split; [done|]. intros i x1 x2 Hx1 Hx2. simplify_eq.
  apply lookup_seq in Hx1 as [-> Hlt]. by rewrite lookup_app_l.
Qed.

Lemma omap_zip_imap {A B C D} (key : A → B) (g : nat → A → C) (f : B * C → option D) (l : list A) :
  omap f (zip (key <$> l) (imap g l)) = omap id (imap (λ i x, f (key x, g i x)) l).
Proof.
  revert g. induction l as [|x l IH]; intros g; [done|]. specialize (IH (g ∘ S)).
  simpl. change (list_fmap A B key l) with (key <$> l).
  destruct (f (key x, g 0%nat x)); simpl; [f_equal|]; exact IH.
Qed.

Section more_properties.
Context `{Platform} (sv : Services).

(** the rows of an auction have distinct ping ids for campaigns with distinct
    8-character prefixes, even when the buyers answered with the same id; and the
    suffix is added once. *)
Theorem ping_ids_unique_per_campaign (id id' : Uuid) (p p' : string) :
  (str_contains "_C" p = false → str_contains "_C" p' = false →
   String.length (campaign_suffix id) = String.length (campaign_suffix id') →
   campaign_suffix id ≠ campaign_suffix id' → unique_ping_id id p ≠ unique_ping_id id' p') ∧
  unique_ping_id id' (unique_ping_id id p) = unique_ping_id id p ∧
  str_contains "_C" (unique_ping_id id p) = true.
Proof.
  assert (Hc : str_contains "_C" (unique_ping_id id p) = true).
  { unfold unique_ping_id. destruct (str_contains "_C" p) eqn:Hp; [done|].
    apply str_contains_app_l, str_contains_prefix. }
  split_and!; [|by unfold unique_ping_id at 1; rewrite Hc|done].
  intros Hp Hp' Hlen Hne. unfold unique_ping_id. rewrite Hp, Hp'. intros Heq. apply Hne.
  apply suffix_inj in Heq; [by apply string_app_inj_r in Heq|].
  rewrite !string_length_app. by rewrite Hlen.
Qed.

(** the post phase never applies the buyer's qualification rules.  Whatever
    rules the buyer has, even ones that reject this very lead, a post of a lead
    with a promise to an internal buyer is reported and stored as sold. *)
Theorem post_ignores_qualification (d : TaskDraws) (r : PingTreeRouter) (cs : list Campaign) (c : Campaign)
    (promise : string) (w : World) (rules : BuyerQualificationConfig) :
  ptr_request_type r = "post" → post_campaign r cs = Some c → pulsar_buyer sv c →
  lead_promise_id (ptr_lead r) = Some promise → stored_bid (ptr_lead r) = None → w_outcomes w = [] →
  config_buyer_id rules = campaign_buyer_id c → accepted (qualify (ptr_lead r) "post" (Some rules)) = false →
  ∃ res w' post_id, route_post sv d r cs w = (Ok res, w') ∧ rr_success res = true ∧ rr_status res = "sold" ∧
    (lead_status <$> db_leads (w_db w') !! lead_uuid (ptr_lead r)) =
      (λ _, LeadSold) <$> db_leads (w_db w) !! lead_uuid (ptr_lead r) ∧
    (db_leads (w_db w) !! lead_uuid (ptr_lead r) ≠ None →
     (db_leads (w_db w') !! lead_uuid (ptr_lead r) ≫= lead_post_id) = Some post_id).
Proof.
  intros Hrt Hpc Hp Hprom Hbid Hout _ _.
  destruct (pulsar_post_sold sv d r cs c promise w) as (res & w' & pid & Hr & Hs & Hst & _ & _ & _ & _ & _ & _ & Hdb);
    try done.
  { rewrite Hbid. apply random_price_bounds. }
  exists res, w', pid. split_and!; try done; rewrite Hdb, lookup_alter_eq; by destruct (db_leads (w_db w) !! _).
Qed.

(** attribution of the answers to a fullpost.  When the buyers answer in the
    order they were asked, every answer is counted for the campaign it came from;
    when two buyers answer in the other order, each answer is counted for the
    other buyer's campaign. *)
Theorem fullpost_response_attribution (d : AuctionDraws) (r : PingTreeRouter) (cs : list Campaign)
    (pm : gmap Uuid (option Z)) :
  (auction_order d = seq 0 (length cs) →
   fullpost_responses sv d r cs pm =
   omap id (imap (λ i c, match fullpost_task sv r (auction_tasks d i) c with
                         | Ok resp => Some (resp, campaign_id c, priority_of pm (campaign_id c))
                         | Err _ => None
                         end) cs)) ∧
  (∀ c0 c1 r0 r1, cs = [c0; c1] → auction_order d = [1; 0] →
     fullpost_task sv r (auction_tasks d 0) c0 = Ok r0 → fullpost_task sv r (auction_tasks d 1) c1 = Ok r1 →
     fullpost_responses sv d r cs pm =
       [(r1, campaign_id c0, priority_of pm (campaign_id c0)); (r0, campaign_id c1, priority_of pm (campaign_id c1))]).
Proof.
  split.
  - intros Hord. unfold fullpost_responses, completed. rewrite Hord. clear Hord.
    assert (Hlen : length cs = length (imap (λ i c, fullpost_task sv r (auction_tasks d i) c) cs))
      by (by rewrite length_imap).
    rewrite Hlen, omap_lookup_seq. clear Hlen.
    by rewrite omap_zip_imap.
  - intros c0 c1 r0 r1 -> Hord H0 H1. unfold fullpost_responses, completed. rewrite Hord. simpl.
    unfold compose. by rewrite H0, H1.
Qed.

(** a fullpost split in ping and post reports the sale of the post; but its
    price is not the bid of the ping: the post phase runs on the lead as it was
    before the ping, without the winning bid, so the price is the buyer's random
    one. *)
Theorem fullpost_price_not_ping_bid (retry_spawn : service unit → service unit) (d : AuctionDraws) (dpost : TaskDraws)
    (r : PingTreeRouter) (cs : list Campaign) (pm : gmap Uuid (option Z)) (im : gmap Uuid (option BuyerIntegration))
    (cf : gmap Uuid (option BuyerQualificationConfig)) (c : Campaign) (promise : string)
    (w w1 : World) (ping : RoutingResult) :
  route_ping_auction sv retry_spawn d (router_with (ptr_lead r) "ping" r) cs pm im cf w = (Ok ping, w1) →
  rr_success ping = true → rr_promise_id ping = Some promise → rr_campaign_id ping = Some (campaign_id c) →
  find_campaign cs (campaign_id c) = Some c → pulsar_buyer sv c →
  stored_bid (ptr_lead r) = None → w_outcomes w1 = [] →
  ∃ res w', fullpost_as_ping_post sv retry_spawn d dpost r cs pm im cf w = (Ok res, w') ∧
    rr_success res = true ∧ rr_status res = "sold" ∧ rr_promise_id res = Some promise ∧
    rr_campaign_id res = Some (campaign_id c) ∧
    rr_price res = Some (random_price (draw_price (call_pulsar (task_call dpost)))).
Proof.
  intros Hping Hok Hprom Hcid Hfind Hpulsar Hbid Hout. unfold fullpost_as_ping_post.
  rewrite (eff_bind_ok _ _ _ _ _ Hping), Hok. simpl.
  set (pr := router_with (lead_after_ping (ptr_lead r) ping) "post" r).
  destruct (pulsar_post_sold sv dpost pr cs c promise w1)
    as (res & w' & pid & Hr & Hs & Hst & Hprice & Hpr & Hpid & Hcamp & _); try done.
  - unfold post_campaign, pr, lead_after_ping. simpl. by rewrite Hcid.
  - unfold pr, lead_after_ping. simpl. by rewrite Hprom.
  - change (stored_bid (ptr_lead pr)) with (stored_bid (ptr_lead r)). rewrite Hbid. apply random_price_bounds.
  - rewrite (eff_bind_ok _ _ _ _ _ Hr). eexists _, _. split; [done|].
    change (stored_bid (ptr_lead pr)) with (stored_bid (ptr_lead r)) in Hprice. rewrite Hbid in Hprice.
    unfold merge_results. simpl. rewrite Hs, Hpid, Hprice, Hcamp, Hprom. by split_and!.
Qed.

(** the two-step price.  When the winner of a ping is saved on a lead, the
    row holds the promise and the winning bid; and a post of that row to the
    internal buyer sells it at that bid, under that promise. *)
Theorem two_step_price (r : PingTreeRouter) (c : Campaign) (winner : BuyerResponse) (b : f64) (promise : string)
    (l : Lead) (o : jmap) (w : World) (dpost : TaskDraws) (cs : list Campaign) :
  ptr_has_queue r = false → w_outcomes w = [] →
  db_leads (w_db w) !! lead_uuid (ptr_lead r) = Some l → lead_vertical_data l = JObject o →
  resp_promise_id winner = Some promise →
  winning_bid_of winner = Some b → f64_is_finite b = true → f64_gt b f64_zero = true →
  find_campaign cs (campaign_id c) = Some c → pulsar_buyer sv c →
  ∃ w1 l1, save_winner r c winner (Some b) w = (Ok tt, w1) ∧
    db_leads (w_db w1) !! lead_uuid (ptr_lead r) = Some l1 ∧
    lead_status l1 = LeadPingAccepted ∧ lead_promise_id l1 = Some promise ∧ stored_bid l1 = Some b ∧
    (∀ k v, k ≠ "winning_bid" → map_get k o = Some v → jget k (lead_vertical_data l1) = Some v) ∧
    ∃ res w2, route_post sv dpost (router_with l1 "post" r) cs w1 = (Ok res, w2) ∧
      rr_status res = "sold" ∧ rr_price res = Some b ∧ rr_promise_id res = Some promise.
Proof.
  intros Hq Hout Hl Hvd Hprom Hbid Hfin Hpos Hfind Hpulsar.
  unfold save_winner. rewrite Hq. unfold update_lead_with_winner, exec_update, exec. rewrite Hout. simpl.
  eexists _, _. split; [done|]. split; [simpl; by rewrite lookup_alter_eq, Hl|]. simpl.
  rewrite Hprom, Hvd. simpl.
  assert (Hsb : ∀ l1, lead_vertical_data l1 = JObject (map_insert "winning_bid" (json_of_f64 b) o) →
    stored_bid l1 = Some b).
  { intros l1 Hl1. unfold stored_bid. rewrite Hl1. simpl. rewrite map_get_insert_eq. simpl.
    unfold json_of_f64. by rewrite Hfin. }
  split_and!; try done.
  - by apply Hsb.
  - intros k v Hne Hk. by rewrite map_get_insert_ne.
  - set (l1 := lead_with _ _ _ _ _ _ _ _ _ _).
    set (w1 := set_outcomes _ _).
    destruct (pulsar_post_sold sv dpost (router_with l1 "post" r) cs c promise w1)
      as (res & w2 & pid & Hr & Hs & Hst & Hprice & Hpr & _); try done.
    + change (ptr_lead (router_with l1 "post" r)) with l1. rewrite (Hsb l1 eq_refl).
      unfold positive. simpl. by rewrite Hpos.
    + exists res, w2. change (ptr_lead (router_with l1 "post" r)) with l1 in Hprice.
      rewrite (Hsb l1 eq_refl) in Hprice. by split_and!.
Qed.

(** a failure is recorded only on leads in processing and on test leads: any
    failed routing of a lead with another status leaves the database as it was. *)
Theorem failure_keeps_settled_leads (r : PingTreeRouter) (status : LeadStatus) (log : string)
    (result : RoutingResult) (w : World) :
  fail_routing r status log result w =
  (if decide (lead_status (ptr_lead r) = LeadProcessing ∨ lead_status (ptr_lead r) = LeadTest)
   then match w_outcomes w with
        | Some e :: rest => (Err (Failed e), set_outcomes rest w)
        | o => (Ok result, set_outcomes (tail o) (set_db (update_lead_row (λ l,
                 lead_with l status (lead_campaign_id l) (lead_buyer_id l) (lead_promise_id l) (lead_ping_id l)
                   (lead_post_id l) (lead_sold_at l)
                   (match lead_vertical_data (ptr_lead r) with
                    | JObject obj => JObject (map_insert "error_log" (error_log (w_now w) log) obj)
                    | v => v
                    end) (w_now w)) (lead_uuid (ptr_lead r)) (w_db w)) w))
        end
   else (Ok result, w)).
Proof.
  unfold fail_routing, update_lead_status.
  destruct (decide _) as [Hd|Hd].
  - assert (Hb : bool_decide (lead_status (ptr_lead r) = LeadProcessing)
      || bool_decide (lead_status (ptr_lead r) = LeadTest) = true)
      by (rewrite orb_true_iff, !bool_decide_eq_true; done).
    rewrite Hb. unfold mbind, eff_bind, eff_gets, exec_update, exec. by destruct (w_outcomes w) as [|[e|] rest].
  - assert (Hb : bool_decide (lead_status (ptr_lead r) = LeadProcessing)
      || bool_decide (lead_status (ptr_lead r) = LeadTest) = false)
      by (rewrite orb_false_iff, !bool_decide_eq_false; tauto).
    by rewrite Hb.
Qed.
End more_properties.

(** ** Witnesses *)

Definition sample_buyer (id : Uuid) : Buyer := {|
  buyer_id := id; buyer_name := "buyer"; buyer_instance_id := 9%N; buyer_instance_user_id := None;
  buyer_vertical_id := None; buyer_buyer_integration_id := Some 20%N; buyer_status := BuyerActive;
  buyer_deleted_at := None; buyer_created_at := 0; buyer_updated_at := 0; buyer_contact_info := JNull;
  buyer_ein_tin := None; buyer_address_street := None; buyer_address_city := None; buyer_address_state := None;
  buyer_address_zip := None; buyer_email_address := None; buyer_representative_first_name := None;
  buyer_representative_last_name := None; buyer_documents := JNull; buyer_post_type := None;
  buyer_buyer_type := None
|}.

Definition pulsar_services : Services := {|
  http_send := λ _, Err "connection refused";
  json_from_str := λ _, None;
  lookup_buyer := λ id, Ok (Some (sample_buyer id));
  lookup_integration := λ _, Ok (Some (sample_integration "pulsar-solar" None true))
|}.

Definition sample_ptr (request_type : string) (queue : bool) (lead : Lead) : PingTreeRouter := {|
  ptr_lead := lead; ptr_publisher_id := 7%N; ptr_vertical := "solar"; ptr_request_type := request_type;
  ptr_has_queue := queue
|}.

Definition sample_task (bid : Z) : TaskDraws := {|
  task_call := {| call_pulsar := {|
      draw_ping_now := 0; draw_ping_nonce := "abcdef"; draw_rejected_now := 0; draw_rejected_nonce := "ghijkl";
      draw_promise := "mnopqr"; draw_bid := bid; draw_post_now := 0; draw_price := bid + 50 |};
    call_elapsed_ms := 3; call_ping_uuid := 101%N; call_post_uuid := 102%N |};
  task_route_ms := 4; task_processing_ms := 5; task_error_uuid := 103%N; task_row_uuid := 104%N
|}.

Definition sample_auction (order : list nat) : AuctionDraws := {|
  auction_tasks := λ i, sample_task (10 * Z.of_nat i);
  auction_order := order; auction_ms := 6; auction_pick := 0; auction_promise := "stuvwx"
|}.

Definition sample_campaigns : list Campaign := [sample_campaign 1%N 11%N; sample_campaign 2%N 12%N].
Definition sample_integrations : gmap Uuid (option BuyerIntegration) :=
  <[11%N := Some (sample_integration "pulsar-solar" None true)]>
    (<[12%N := Some (sample_integration "pulsar-solar" None true)]> ∅).
Definition fresh_lead : Lead := sample_lead LeadProcessing None None (json_object [("zip", JString "94107")]).

Definition sample_world (lead : Lead) : World := {|
  w_db := {| db_leads := {[lead_uuid lead := lead]}; db_buyer_responses := []; db_pings := [];
             db_ping_payloads := []; db_post_payloads := []; db_pulsar_logs := [] |};
  w_queue := []; w_telemetry := no_telemetry; w_now := 1000; w_outcomes := []
|}.

Lemma pulsar_services_buyer c : pulsar_buyer pulsar_services c.
Proof.
  exists (sample_buyer (campaign_buyer_id c)), 20%N, (sample_integration "pulsar-solar" None true). by split_and!.
Qed.

Lemma route_only_own_lead_witness :
  let w' := (@route reference_platform pulsar_services (reference_retry 3)
      (loads_of_tables {| ping_trees := []; ping_tree_publishers := []; ping_tree_campaigns := []; campaigns := [];
         buyers := []; buyer_integrations := []; buyer_qualification_configs := [] |} 7%N "solar")
      (sample_auction []) (sample_task 0) (sample_ptr "ping" true fresh_lead) (sample_world fresh_lead)).2 in
  dom (db_leads (w_db w')) = dom (db_leads (w_db (sample_world fresh_lead))) ∧
  (∀ id, id ≠ 1%N → db_leads (w_db w') !! id = db_leads (w_db (sample_world fresh_lead)) !! id).
Proof.
  apply (@route_only_own_lead reference_platform pulsar_services (reference_retry 3) (reference_retry_laws 3)
    (loads_of_tables {| ping_trees := []; ping_tree_publishers := []; ping_tree_campaigns := []; campaigns := [];
       buyers := []; buyer_integrations := []; buyer_qualification_configs := [] |} 7%N "solar")
    (sample_auction []) (sample_task 0) (sample_ptr "ping" true fresh_lead) (sample_world fresh_lead)).
Defined.

(** The ping auction of the two sample campaigns, answered in reverse order. *)
Definition sample_ping (queue : bool) : Result Failure RoutingResult * World :=
  @route_ping_auction reference_platform pulsar_services (reference_retry 3) (sample_auction [1; 0]%nat)
    (sample_ptr "ping" queue fresh_lead) sample_campaigns ∅ sample_integrations ∅ (sample_world fresh_lead).

Definition result_of {E A} (d : A) (r : Result E A) : A := match r with Ok a => a | Err _ => d end.

Definition sample_responses : list Entry :=
  (@auction_processed reference_platform pulsar_services (sample_auction [1; 0]%nat)
    (sample_ptr "ping" true fresh_lead) sample_campaigns ∅ sample_integrations ∅).*1.

Lemma sample_responses_finite e :
  e ∈ sample_responses → resp_bid (entry_response e) ≠ Some (S754_infinity false).
Proof.
  revert e. rewrite <-Forall_forall. refine (bool_decide_unpack _ _). vm_compute. exact I.
Qed.

Lemma ping_auction_winner_witness :
  ∃ i c resp b h,
    i ∈ [1; 0]%nat ∧ sample_campaigns !! i = Some c ∧
    (@ping_task reference_platform pulsar_services (sample_ptr "ping" true fresh_lead) sample_integrations ∅
       (sample_task (10 * Z.of_nat i)) c).1.1 = Ok (Ok resp) ∧
    resp_bid resp = Some b ∧ f64_gt b f64_zero = true ∧ is_Some (resp_promise_id resp) ∧
    rr_campaign_id (result_of (failure_result "" "") (sample_ping true).1) = Some (campaign_id c) ∧
    rr_buyer_id (result_of (failure_result "" "") (sample_ping true).1) = Some (campaign_buyer_id c) ∧
    rr_promise_id (result_of (failure_result "" "") (sample_ping true).1) = resp_promise_id resp ∧
    rr_price (result_of (failure_result "" "") (sample_ping true).1) = Some (default b (resp_price resp)) ∧
    within_epsilon h b = true ∧
    (∀ e x, e ∈ ping_valid_responses sample_responses → resp_bid (entry_response e) = Some x → f64_gt x h = false) ∧
    (∀ e x p, e ∈ ping_valid_responses sample_responses → resp_bid (entry_response e) = Some x →
       f64_eqb x h = true → entry_priority e = Some p → ∃ q, priority_of ∅ (campaign_id c) = Some q ∧ (q ≤ p)%Z).
Proof.
  apply (@ping_auction_winner reference_platform pulsar_services (reference_retry 3) (reference_retry_laws 3)
    (sample_auction [1; 0]%nat) (sample_ptr "ping" true fresh_lead) sample_campaigns ∅ sample_integrations ∅
    (sample_world fresh_lead) (sample_ping true).2 (result_of (failure_result "" "") (sample_ping true).1)).
  - refine (bool_decide_unpack _ _). vm_compute. exact I.
  - exact sample_responses_finite.
  - vm_compute. reflexivity.
  - vm_compute. reflexivity.
Defined.

(** An auction of buyers that reject, whose status update fails. *)
Definition refused_services : Services := {|
  http_send := λ _, Err "connection refused";
  json_from_str := λ _, None;
  lookup_buyer := λ _, Ok None;
  lookup_integration := λ _, Ok None
|}.

Definition failing_world : World := set_outcomes [Some "pool closed"] (sample_world fresh_lead).

Definition failing_ping : Result Failure RoutingResult * World :=
  @route_ping_auction reference_platform refused_services (reference_retry 3) (sample_auction [1; 0]%nat)
    (sample_ptr "ping" true fresh_lead) sample_campaigns ∅ ∅ ∅ failing_world.

Definition refused_responses : list Entry :=
  (@auction_processed reference_platform refused_services (sample_auction [1; 0]%nat)
    (sample_ptr "ping" true fresh_lead) sample_campaigns ∅ ∅ ∅).*1.

Lemma refused_responses_finite e :
  e ∈ refused_responses → resp_bid (entry_response e) ≠ Some (S754_infinity false).
Proof.
  revert e. rewrite <-Forall_forall. refine (bool_decide_unpack _ _). vm_compute. exact I.
Qed.

Lemma ping_auction_total_witness :
  (∃ res u, (sample_ping true).1 = Ok res ∧ rr_success res = true ∧
    w_queue (sample_ping true).2 = [] ++ (BuyerResponseTask <$> @auction_rows reference_platform pulsar_services
      (sample_auction [1; 0]%nat) (sample_ptr "ping" true fresh_lead) sample_campaigns ∅ sample_integrations ∅) ++ [LeadUpdate u]) ∧
  failing_ping.1 = Err (Failed "pool closed").
Proof.
  split.
  - pose proof (@ping_auction_total reference_platform pulsar_services (reference_retry 3) (reference_retry_laws 3)
      (sample_auction [1; 0]%nat) (sample_ptr "ping" true fresh_lead) sample_campaigns ∅ sample_integrations ∅
      (sample_world fresh_lead)) as Ht.
    cbv zeta in Ht. change (route_ping_auction _ _ _ _ _ _ _ _ _) with (sample_ping true) in Ht.
    destruct (sample_ping true) as [outcome w'].
    assert (Hv : ∃ e es, ping_valid_responses sample_responses = e :: es) by (vm_compute; eexists _, _; reflexivity).
    destruct Hv as (e & es & Hv). fold sample_responses in Ht. rewrite Hv in Ht.
    destruct Ht as (_ & res & u & -> & Hs & Hqueue & _);
      [reflexivity|refine (bool_decide_unpack _ _); vm_compute; exact I|exact sample_responses_finite|].
    exists res, u. split; [reflexivity|]. split; [exact Hs|exact Hqueue].
  - pose proof (@ping_auction_total reference_platform refused_services (reference_retry 3) (reference_retry_laws 3)
      (sample_auction [1; 0]%nat) (sample_ptr "ping" true fresh_lead) sample_campaigns ∅ ∅ ∅ failing_world) as Ht.
    cbv zeta in Ht. change (route_ping_auction _ _ _ _ _ _ _ _ _) with failing_ping in Ht.
    destruct failing_ping as [outcome w']. fold refused_responses in Ht.
    assert (Hv : ping_valid_responses refused_responses = []) by (vm_compute; reflexivity).
    rewrite Hv in Ht. change (failing_status_update _ _) with (Some "pool closed") in Ht.
    apply Ht; [reflexivity|refine (bool_decide_unpack _ _); vm_compute; exact I|exact refused_responses_finite].
Defined.

(** An answer with a bid of 100 and a price of 1 is reported with the price. *)
Definition low_price : BuyerResponse := {|
  resp_success := true; resp_status := "accepted"; resp_error := None; resp_message := None;
  resp_promise_id := Some "PROMISE_0A"; resp_ping_id := Some "FP_0"; resp_post_id := None;
  resp_price := Some (f64_of_Z 1); resp_bid := Some (f64_of_Z 100)
|}.
Example reported_price : rr_price (@ping_result reference_platform low_price (sample_campaign 2%N 12%N) []) = Some (f64_of_Z 1).
Proof. reflexivity. Qed.

Definition promised_lead : Lead :=
  sample_lead LeadPingAccepted (Some 1%N) (Some "PROMISE_1") (json_object [("roof_type", JString "Flat")]).

Definition roof_rules : BuyerQualificationConfig := sample_config sample_rules ["roof_type"].

Lemma post_ignores_qualification_witness :
  ∃ res w' post_id, @route_post reference_platform pulsar_services (sample_task 0) (sample_ptr "post" true promised_lead)
      sample_campaigns (sample_world promised_lead) = (Ok res, w') ∧ rr_success res = true ∧ rr_status res = "sold" ∧
    (lead_status <$> db_leads (w_db w') !! 1%N) = (λ _, LeadSold) <$> db_leads (w_db (sample_world promised_lead)) !! 1%N ∧
    (db_leads (w_db (sample_world promised_lead)) !! 1%N ≠ None →
     (db_leads (w_db w') !! 1%N ≫= lead_post_id) = Some post_id).
Proof.
  apply (@post_ignores_qualification reference_platform pulsar_services (sample_task 0)
    (sample_ptr "post" true promised_lead) sample_campaigns (sample_campaign 1%N 11%N) "PROMISE_1"
    (sample_world promised_lead) roof_rules); try reflexivity. apply pulsar_services_buyer.
Defined.

Lemma fullpost_price_not_ping_bid_witness :
  ∃ res w', @fullpost_as_ping_post reference_platform pulsar_services (reference_retry 3) (sample_auction [1; 0]%nat)
      (sample_task 0) (sample_ptr "fullpost" true fresh_lead) sample_campaigns ∅ sample_integrations ∅
      (sample_world fresh_lead) = (Ok res, w') ∧
    rr_success res = true ∧ rr_status res = "sold" ∧ rr_promise_id res = Some "PROMISE_6D6E6F707172" ∧
    rr_campaign_id res = Some 2%N ∧ rr_price res = Some (f64_of_Z 150).
Proof.
  apply (@fullpost_price_not_ping_bid reference_platform pulsar_services (reference_retry 3)
    (sample_auction [1; 0]%nat) (sample_task 0) (sample_ptr "fullpost" true fresh_lead) sample_campaigns ∅
    sample_integrations ∅ (sample_campaign 2%N 12%N) "PROMISE_6D6E6F707172" (sample_world fresh_lead)
    (sample_ping true).2 (result_of (failure_result "" "") (sample_ping true).1)).
  all: try (vm_compute; reflexivity). apply pulsar_services_buyer.
Defined.

(** The ping of that fullpost was won with a bid of 110. *)
Example fullpost_ping_bid : rr_price (result_of (failure_result "" "") (sample_ping true).1) = Some (f64_of_Z 110).
Proof. vm_compute. reflexivity. Qed.

Lemma two_step_price_witness :
  let c := sample_campaign 2%N 12%N in
  ∃ w1 l1, @save_winner (sample_ptr "ping" false fresh_lead) c (sample_bid "120") (Some (f64_of_Z 120))
      (sample_world fresh_lead) = (Ok tt, w1) ∧
    db_leads (w_db w1) !! 1%N = Some l1 ∧
    lead_status l1 = LeadPingAccepted ∧ lead_promise_id l1 = Some "PROMISE_0A" ∧ stored_bid l1 = Some (f64_of_Z 120) ∧
    (∀ k v, k ≠ "winning_bid" → map_get k (map_of [("zip", JString "94107")]) = Some v →
       jget k (lead_vertical_data l1) = Some v) ∧
    ∃ res w2, @route_post reference_platform pulsar_services (sample_task 0)
        (router_with l1 "post" (sample_ptr "ping" false fresh_lead)) sample_campaigns w1 = (Ok res, w2) ∧
      rr_status res = "sold" ∧ rr_price res = Some (f64_of_Z 120) ∧ rr_promise_id res = Some "PROMISE_0A".
Proof.
  apply (@two_step_price reference_platform pulsar_services (sample_ptr "ping" false fresh_lead)
    (sample_campaign 2%N 12%N) (sample_bid "120") (f64_of_Z 120) "PROMISE_0A" fresh_lead
    (map_of [("zip", JString "94107")]) (sample_world fresh_lead) (sample_task 0) sample_campaigns);
    try (vm_compute; reflexivity). apply pulsar_services_buyer.
Defined.
