(* ===== verification/WriteBehind.v ===== *)
(** * The write-behind queue

    [crates/core/src/services/write_behind_queue.rs]: the flush of a batch of
    background tasks, each kind with its statements, in the [service] effect of
    Store.v.  The four kinds that [flush_batch] writes after the lead creations run
    concurrently in the code; they write different tables, and none of them changes
    the ids of the leads that the buyer responses read, so they are run here in the
    order of the [join!].  The batcher task is in Batcher.v. *)

From stdpp Require Import base list strings gmap numbers pretty.
From Stdlib Require Import ZArith Lia.
From S2P Require Import Prelude Float64 Platform Json Models Samples Metrics Store.

Open Scope string_scope.
Open Scope list_scope.

(** What the queue links against: envelope encryption (key, text) and the JSON
    printer of [simd_json]. *)
Record Codec : Type := {
  encrypt_envelope : string → string → Result string string;
  json_to_string : json → option string
}.

(** [match m.await { Err(e) => log, .. }] and [let _ = m.await]. *)
Definition ignore_error (m : service unit) : service unit := _ ← catch m; mret tt.

Section queue.
Context `{Platform} (codec : Codec).

(** ** Pulsar logs *)

Definition batch_insert_pulsar_logs (logs : list PulsarLogData) : service unit :=
  match logs with
  | [] => mret tt
  | _ => exec (λ _ db, (Ok tt, on_pulsar_logs (λ l, l ++ logs) db))
  end.

(** ** Buyer responses *)

(** A [SELECT] that reads one value. *)
Definition select_one {A} (q : Db → option A) : service (option A) := exec (λ _ db, (Ok (q db), db)).

(** [if let Ok(Some(u)) = query]. *)
Definition select_ok {A} (q : Db → option A) : service (option A) :=
  r ← catch (select_one q);
  mret (match r with Ok o => o | Err _ => None end).

Definition lead_by_uuid (id : Uuid) (db : Db) : option Uuid := lead_uuid <$> db_leads db !! id.
Definition lead_by_ping_id (ping_id : string) (db : Db) : option Uuid :=
  ping_row_lead_id <$> List.find (λ p, String.eqb (ping_row_ping_id p) ping_id) (db_pings db).
Definition lead_by_lead_id (lead_id : string) (db : Db) : option Uuid :=
  lead_uuid <$> leads_by_lead_id lead_id db.

Definition resolve_lead_uuid_for_buyer_response (request_uuid : Uuid) (ping_id lead_id_str : option string)
    : service (option Uuid) :=
  u ← select_ok (lead_by_uuid request_uuid);
  match u with
  | Some u => mret (Some u)
  | None =>
      u ← (match ping_id with Some pid => select_ok (lead_by_ping_id pid) | None => mret None end);
      match u with
      | Some u => mret (Some u)
      | None =>
          match lead_id_str with
          | Some lid => if String.eqb lid "" then mret None else select_ok (lead_by_lead_id lid)
          | None => mret None
          end
      end
  end.

Definition fkey_name : string := "buyer_responses_lead_id_fkey".
Definition fkey_error : string :=
  "insert or update on table buyer_responses violates foreign key constraint " +:+ fkey_name.

Definition response_row (actual_lead_id : Uuid) (b : BuyerResponseData) : BuyerResponseRow := {|
  row_lead_id := actual_lead_id; row_campaign_id := br_campaign_id b; row_ping_id := br_ping_id b;
  row_post_id := br_post_id b; row_buyer_id := br_buyer_id b; row_payload := br_payload b
|}.

(** [INSERT INTO buyer_responses ... ON CONFLICT DO NOTHING]: the table has no
    other unique key than its serial one. *)
Definition insert_buyer_response (actual_lead_id : Uuid) (b : BuyerResponseData) : service unit :=
  exec (λ _ db,
    match db_leads db !! actual_lead_id with
    | Some _ => (Ok tt, on_buyer_responses (λ l, l ++ [response_row actual_lead_id b]) db)
    | None => (Err fkey_error, db)
    end).

(** [match uuid_map.get(lead_id) { Some(&u) => u, None => resolve }]. *)
Definition actual_lead_id (uuid_map : gmap Uuid Uuid) (b : BuyerResponseData) : service (option Uuid) :=
  match uuid_map !! br_lead_id b with
  | Some u => mret (Some u)
  | None => resolve_lead_uuid_for_buyer_response (br_lead_id b) (br_ping_id b) (br_lead_id_str b)
  end.

(** First attempts: the responses to retry. *)
Fixpoint insert_responses (uuid_map : gmap Uuid Uuid) (responses : list BuyerResponseData)
    : service (list BuyerResponseData) :=
  match responses with
  | [] => mret []
  | b :: rest =>
      actual ← actual_lead_id uuid_map b;
      again ← (match actual with
               | None => mret true
               | Some u =>
                   r ← catch (insert_buyer_response u b);
                   mret (match r with Ok _ => false | Err e => str_contains fkey_name e end)
               end);
      retry_needed ← insert_responses uuid_map rest;
      mret (if (again : bool) then b :: retry_needed else retry_needed)
  end.

(** [while retry_count < 3 && !inserted]. *)
Fixpoint retry_insert (attempts : nat) (u : Uuid) (b : BuyerResponseData) : service unit :=
  match attempts with
  | O => mret tt
  | S n =>
      r ← catch (insert_buyer_response u b);
      match r with Ok _ => mret tt | Err _ => retry_insert n u b end
  end.

Definition retry_response (uuid_map : gmap Uuid Uuid) (b : BuyerResponseData) : service unit :=
  actual ← actual_lead_id uuid_map b;
  match actual with
  | None => mret tt
  | Some u => retry_insert 3 u b
  end.

Definition batch_insert_buyer_responses (responses : list BuyerResponseData) (uuid_map : gmap Uuid Uuid)
    : service unit :=
  retry_needed ← insert_responses uuid_map responses;
  for_each (retry_response uuid_map) retry_needed.

(** ** Lead updates *)

(** The two flags of the statements of a sold lead. *)
Definition should_update_as_sold (u : LeadUpdateData) : bool :=
  (lu_sold_at u && bool_decide (lu_status u = LeadSold))
  || (bool_decide (is_Some (lu_campaign_id u)) && bool_decide (is_Some (lu_buyer_id u))
      && bool_decide (lu_status u = LeadSold)).

(** [SET status, campaign_id, buyer_id, promise_id, ping_id, post_id] with
    [COALESCE]; [post_id] is bound to [post_id.as_deref().unwrap_or("")]. *)
Definition set_update_columns (u : LeadUpdateData) (sold_at : option DateTime) (vertical_data : json) (now : DateTime)
    (l : Lead) : Lead :=
  lead_with l (lu_status u) (coalesce (lu_campaign_id u) (lead_campaign_id l))
    (coalesce (lu_buyer_id u) (lead_buyer_id l)) (coalesce (lu_promise_id u) (lead_promise_id l))
    (coalesce (lu_ping_id u) (lead_ping_id l))
    (coalesce (Some (default "" (lu_post_id u))) (lead_post_id l))
    sold_at vertical_data now.

(** The update of a sold lead: [vertical_data = COALESCE($8, vertical_data)]. *)
Definition sold_columns (u : LeadUpdateData) (now : DateTime) (l : Lead) : Lead :=
  set_update_columns u (Some now) (default (lead_vertical_data l) (lu_vertical_data u)) now l.

(** [WHERE uuid = $1 AND post_id = $9]. *)
Definition when_post_id (token : string) (f : Lead → Lead) (l : Lead) : Lead :=
  if bool_decide (lead_post_id l = Some token) then f l else l.

Definition update_sold (u : LeadUpdateData) : service unit :=
  exec_update (λ now, update_lead_row
    (match lu_inprog_token u with
     | Some token => when_post_id token (sold_columns u now)
     | None => sold_columns u now
     end) (lu_lead_id u)).

Definition set_post_id (post_id : option string) (l : Lead) : Lead :=
  lead_with l (lead_status l) (lead_campaign_id l) (lead_buyer_id l) (lead_promise_id l) (lead_ping_id l)
    post_id (lead_sold_at l) (lead_vertical_data l) (lead_updated_at l).

(** [UPDATE leads SET post_id = '' WHERE uuid = $1 AND post_id = $2]. *)
Definition reset_inprog_token (token : string) (u : LeadUpdateData) : service unit :=
  exec_update (λ _, update_lead_row (when_post_id token (set_post_id (Some ""))) (lu_lead_id u)).

(** The standard update merges [vertical_data] into the existing one. *)
Definition update_standard (u : LeadUpdateData) : service unit :=
  exec_update (λ now, update_lead_row (λ l,
    set_update_columns u (lead_sold_at l)
      (match lu_vertical_data u with
       | Some vd => jsonb_concat (lead_vertical_data l) vd
       | None => lead_vertical_data l
       end) now l) (lu_lead_id u)).

Definition update_lead (u : LeadUpdateData) : service unit :=
  _ ← (if should_update_as_sold u then ignore_error (update_sold u) else mret tt);
  match lu_inprog_token u with
  | Some token => ignore_error (reset_inprog_token token u)
  | None => ignore_error (update_standard u)
  end.

Definition batch_update_leads (updates : list LeadUpdateData) : service unit := for_each update_lead updates.

(** ** Payload updates *)

(** The index of the newest row of a lead: [ORDER BY created_at DESC LIMIT 1]. *)
Definition newest_ping_payload (lead_id : Uuid) (rows : list PingPayloadRow) : option PingPayloadRow :=
  head (sort_by (λ a b, (pp_created_at b ?= pp_created_at a)%Z)
          (List.filter (λ p, bool_decide (pp_lead_id p = lead_id)) rows)).

(** Applies [f] to the first row with the lead and creation time of the newest. *)
Fixpoint update_first (p : PingPayloadRow → bool) (f : PingPayloadRow → PingPayloadRow) (rows : list PingPayloadRow)
    : list PingPayloadRow :=
  match rows with
  | [] => []
  | r :: rows' => if p r then f r :: rows' else r :: update_first p f rows'
  end.

(** The rows but the first with [p]. *)
Fixpoint remove_first (p : PingPayloadRow → bool) (rows : list PingPayloadRow) : list PingPayloadRow :=
  match rows with
  | [] => []
  | r :: rows' => if p r then rows' else r :: remove_first p rows'
  end.

(** A foreign key to [leads], and the errors of the payload tables. *)
Definition has_lead (db : Db) (lead_id : Uuid) : bool := bool_decide (is_Some (db_leads db !! lead_id)).
Definition unique_error : string := "duplicate key value violates unique constraint".
Definition payload_fkey_error : string := "insert or update on table violates foreign key constraint".

(** An id of the buyer that a row already has: [ux_ping_payloads_external_ping]. *)
Definition external_taken (external : option string) (rows : list PingPayloadRow) : bool :=
  match external with
  | Some e => existsb (λ p, bool_decide (pp_external_ping_id p = Some e)) rows
  | None => false
  end.

(** [UPDATE ping_payloads ... WHERE id = (SELECT id ...)]: the rows affected.  The other
    rows must not have the external id that is set. *)
Definition update_newest_ping_payload (lead_id : Uuid) (external : option string)
    (f : DateTime → PingPayloadRow → PingPayloadRow) : service nat :=
  exec (λ now db,
    match newest_ping_payload lead_id (db_ping_payloads db) with
    | None => (Ok 0%nat, db)
    | Some newest =>
        let is_newest p := bool_decide (pp_lead_id p = lead_id) && (pp_created_at p =? pp_created_at newest)%Z in
        if external_taken external (remove_first is_newest (db_ping_payloads db)) then (Err unique_error, db)
        else (Ok 1%nat, on_ping_payloads (update_first is_newest (f now)) db)
    end).

Definition set_ping_payload (payload : option json) (response external : option string) (now : DateTime)
    (p : PingPayloadRow) : PingPayloadRow := {|
  pp_ping_id := pp_ping_id p; pp_lead_id := pp_lead_id p; pp_payload := payload;
  pp_request_payload_encrypted := pp_request_payload_encrypted p;
  pp_response_payload_encrypted := coalesce response (pp_response_payload_encrypted p);
  pp_external_ping_id := coalesce external (pp_external_ping_id p);
  pp_created_at := pp_created_at p; pp_updated_at := now
|}.

Definition insert_ping_payload (u : PayloadUpdateData) : service unit :=
  exec (λ now db,
    if negb (has_lead db (pu_lead_id u)) then (Err payload_fkey_error, db)
    else if external_taken (pu_external_ping_id u) (db_ping_payloads db) then (Err unique_error, db)
    else (Ok tt, on_ping_payloads (λ rows, rows ++ [{|
      pp_ping_id := None; pp_lead_id := pu_lead_id u; pp_payload := Some (pu_payload u);
      pp_request_payload_encrypted := ""; pp_response_payload_encrypted := pu_response_payload_encrypted u;
      pp_external_ping_id := pu_external_ping_id u; pp_created_at := now; pp_updated_at := now |}]) db)).

(** With a row id the existing payload is kept; without, it is replaced. *)
Definition update_ping_payload (u : PayloadUpdateData) : service unit :=
  let set now p :=
    match pu_ping_payloads_row_id u with
    | Some _ => set_ping_payload (Some (default JNull (pp_payload p))) (pu_response_payload_encrypted u)
                  (pu_external_ping_id u) now p
    | None => set_ping_payload (Some (pu_payload u)) (pu_response_payload_encrypted u)
                (pu_external_ping_id u) now p
    end in
  r ← catch (update_newest_ping_payload (pu_lead_id u) (pu_external_ping_id u) set);
  match r with
  | Ok O => ignore_error (insert_ping_payload u)
  | _ => mret tt
  end.

(** The unique index on [post_id], which leaves rows without one alone. *)
Definition post_id_taken (post_id : option string) (rows : list PostPayloadRow) : bool :=
  match post_id with
  | Some pid => existsb (λ p, bool_decide (post_row_post_id p = Some pid)) rows
  | None => false
  end.

Definition insert_post_payload (u : PayloadUpdateData) : service unit :=
  let encrypted :=
    match pu_request_payload_encrypted u, pu_response_payload_encrypted u with
    | Some er, Some epr => Some (er, epr)
    | _, _ => None
    end in
  exec (λ _ db,
    if negb (has_lead db (pu_lead_id u)) then (Err payload_fkey_error, db)
    else if post_id_taken (pu_post_id u) (db_post_payloads db) then (Err unique_error, db)
    else (Ok tt, on_post_payloads (λ rows, rows ++ [{|
      post_row_lead_id := pu_lead_id u; post_row_post_id := pu_post_id u; post_row_payload := pu_payload u;
      post_row_encrypted := encrypted |}]) db)).

Definition update_payload (u : PayloadUpdateData) : service unit :=
  if String.eqb (pu_payload_type u) "ping" then update_ping_payload u
  else if String.eqb (pu_payload_type u) "post" then ignore_error (insert_post_payload u)
  else mret tt.

Definition batch_update_payloads (updates : list PayloadUpdateData) : service unit := for_each update_payload updates.

(** ** Lead creation *)

(** [encrypt_pii]: nothing is stored without a key, for an empty text, or when the
    encryption fails. *)
Definition encrypt_pii (key value : option string) : option string :=
  match value, key with
  | Some val, Some k =>
      if String.eqb val "" then None
      else match encrypt_envelope codec k val with Ok envelope => Some envelope | Err _ => None end
  | _, _ => None
  end.

Definition new_lead (c : LeadCreationData) (now : DateTime) : Lead := {|
  lead_uuid := lc_uuid c; lead_event_id := lc_event_id c; lead_lead_id := lc_lead_id c;
  lead_publisher_id := Some (lc_publisher_id c); lead_vertical_id := lc_vertical_id c;
  lead_campaign_id := Some (lc_campaign_id c); lead_buyer_id := Some (lc_buyer_id c);
  lead_request_type := lc_request_type c; lead_strategy := lc_strategy c;
  lead_status := if lc_is_test c then LeadTest else LeadProcessing;
  lead_promise_id := lc_promise_id c; lead_ping_id := None; lead_post_id := Some "";
  lead_session_id := Some (lc_session_id c); lead_request_stage := None;
  lead_first_name_encrypted := encrypt_pii (lc_pii_encryption_key c) (lc_first_name c);
  lead_last_name_encrypted := encrypt_pii (lc_pii_encryption_key c) (lc_last_name c);
  lead_email_encrypted := encrypt_pii (lc_pii_encryption_key c) (lc_email c);
  lead_cell_phone_encrypted := encrypt_pii (lc_pii_encryption_key c) (lc_cell_phone c);
  lead_street_address_encrypted := encrypt_pii (lc_pii_encryption_key c) (lc_street_address c);
  lead_city_encrypted := encrypt_pii (lc_pii_encryption_key c) (lc_city c);
  lead_state_encrypted := encrypt_pii (lc_pii_encryption_key c) (lc_state c);
  lead_zip_encrypted := encrypt_pii (lc_pii_encryption_key c) (lc_zip c);
  lead_ip_address_encrypted := encrypt_pii (lc_pii_encryption_key c) (lc_ip_address c);
  lead_email_sha256 := None; lead_phone_sha256 := None; lead_ip_address_hash := None; lead_email_domain := None;
  lead_tcpa_consent := lc_tcpa_consent c; lead_tcpa_language := lc_tcpa_language c; lead_is_test := lc_is_test c;
  lead_user_agent := None; lead_referrer := None; lead_website_url := None; lead_click_id := None;
  lead_url_consent := None; lead_best_call_time := None; lead_date_of_birth := None; lead_home_phone := None;
  lead_jornaya_lead_id := None; lead_trusted_form_url := None; lead_fbp_cookie := None; lead_fbc_cookie := None;
  lead_utm_params := None; lead_submitted_at := Some now; lead_sold_at := None; lead_retry_count := 0;
  lead_next_retry_at := None; lead_vertical_data := lc_vertical_data c; lead_created_at := now;
  lead_updated_at := now
|}.

Definition set_promise_id (promise_id : option string) (now : DateTime) (l : Lead) : Lead :=
  lead_with l (lead_status l) (lead_campaign_id l) (lead_buyer_id l) promise_id (lead_ping_id l)
    (lead_post_id l) (lead_sold_at l) (lead_vertical_data l) now.

(** [event_id] and the primary key are unique as well. *)
Definition violates_unique (c : LeadCreationData) (db : Db) : bool :=
  bool_decide (is_Some (db_leads db !! lc_uuid c))
  || existsb (λ l, String.eqb (lead_event_id l) (lc_event_id c)) (map_to_list (db_leads db)).*2.

(** [INSERT INTO leads ... ON CONFLICT (lead_id) DO UPDATE SET promise_id =
    EXCLUDED.promise_id RETURNING uuid]. *)
Definition insert_lead (c : LeadCreationData) : service Uuid :=
  exec (λ now db,
    match lid ← lc_lead_id c; leads_by_lead_id lid db with
    | Some l => (Ok (lead_uuid l), update_lead_row (set_promise_id (lc_promise_id c) now) (lead_uuid l) db)
    | None =>
        if violates_unique c db
        then (Err unique_error, db)
        else (Ok (lc_uuid c), on_leads (<[lc_uuid c := new_lead c now]>) db)
    end).

(** [tx.commit()]: when it fails the changes since [before] are undone. *)
Definition commit (before : Db) : service unit := λ w,
  match exec (λ _ db, (Ok tt, db)) w with
  | (Ok u, w') => (Ok u, w')
  | (Err e, w') => (Err e, set_db before w')
  end.

Definition begin_transaction : service Db :=
  _ ← exec (λ _ db, (Ok tt, db)); eff_gets w_db.

(** A transaction that is dropped without a commit is rolled back. *)
Definition transaction {A} (body : service A) : service A :=
  before ← begin_transaction;
  r ← eff_try body;
  match r with
  | Ok a => _ ← commit before; mret a
  | Err e => _ ← eff_modify (set_db before); eff_err e
  end.

(** [serde_json]'s text, or ["{}"]. *)
Definition json_text (v : json) : string := default "{}" (json_to_string codec v).

(** The stored request: encrypted when there is a key and the encryption succeeds,
    else the plain text. *)
Definition encrypted_request (key : option string) (payload : json) : string :=
  match key with
  | Some k =>
      match json_to_string codec payload with
      | Some text => match encrypt_envelope codec k text with Ok envelope => envelope | Err _ => json_text payload end
      | None => json_text payload
      end
  | None => json_text payload
  end.

Definition qualification_fields : list string :=
  ["monthly_bill"; "own_home"; "purchase_timeframe"; "credit_rating"; "property_type"; "roof_shade"; "roof_type";
   "utility_provider"].

Definition ping_request_fields : list string :=
  ["lead_id"; "campaign_token"; "zip"; "ip_address"; "monthly_bill"; "own_home"; "tcpa_consent"; "tcpa_language";
   "purchase_timeframe"; "credit_rating"; "property_type"; "roof_shade"; "roof_type"; "utility_provider";
   "jornaya_lead_id"; "trusted_form_url"].

(** [for field in fields { if let Some(val) = obj.get(field) { ping_obj.insert(..) } }]. *)
Definition copy_fields (fields : list string) (source : json) (o : jmap) : jmap :=
  match as_object source with
  | Some obj => insert_present ((λ f, (f, map_get f obj)) <$> fields) o
  | None => o
  end.

(** The payload kept with the ping: without personal data for [ping_post]. *)
Definition ping_only_payload (c : LeadCreationData) : json :=
  if String.eqb (lc_strategy c) "ping_post" then
    let vertical_slug := default "solar" (v ← jget "vertical" (lc_request_payload c); as_str v) in
    let base := map_of [("publisher_id", JString (uuid_to_string (lc_publisher_id c)));
                        ("vertical", JString vertical_slug); ("request_type", JString "ping")] in
    json_object [("lead", JObject (copy_fields qualification_fields (lc_vertical_data c)
                                     (copy_fields ping_request_fields (lc_request_payload c) base)))]
  else lc_request_payload c.

(** [FP_<base64(lead uuid|timestamp|pending)>]. *)
Definition pending_ping_id (lead : Uuid) (now : DateTime) : string :=
  "FP_" +:+ base64_encode (uuid_to_string lead +:+ "|" +:+ format_compact now +:+ "|pending").

(** [INSERT INTO pings ... RETURNING id]: a serial id. *)
Definition insert_ping (c : LeadCreationData) (lead : Uuid) : service Z :=
  exec (λ now db,
    (Ok (Z.of_nat (S (length (db_pings db)))),
     on_pings (λ rows, rows ++ [{| ping_row_ping_id := pending_ping_id lead now; ping_row_lead_id := lead;
                                   ping_row_promise_id := lc_promise_id c; ping_row_state := "processing" |}]) db)).

Definition insert_creation_payload (c : LeadCreationData) (lead : Uuid) (ping_id : Z) : service unit :=
  exec_update (λ now, on_ping_payloads (λ rows, rows ++ [{|
    pp_ping_id := Some ping_id; pp_lead_id := lead; pp_payload := Some (ping_only_payload c);
    pp_request_payload_encrypted := encrypted_request (lc_pii_encryption_key c) (ping_only_payload c);
    pp_response_payload_encrypted := None; pp_external_ping_id := None;
    pp_created_at := now; pp_updated_at := now |}])).

(** The second transaction: the ping and its payload, best effort.  A statement
    that fails aborts the transaction, whose commit then undoes it. *)
Definition create_ping (c : LeadCreationData) (lead : Uuid) : service unit :=
  before ← begin_transaction;
  ping ← insert_ping c lead;
  if (0 <? ping)%Z then
    r ← catch (insert_creation_payload c lead ping);
    _ ← commit before;
    match r with Ok _ => mret tt | Err _ => eff_modify (set_db before) end
  else commit before.

(** One lead creation: the pair for the map of uuids, when the lead is committed. *)
Definition create_lead (c : LeadCreationData) : service (option (Uuid * Uuid)) :=
  r ← catch (transaction (insert_lead c));
  match r with
  | Err _ => mret None
  | Ok lead => _ ← ignore_error (create_ping c lead); mret (Some (lc_uuid c, lead))
  end.

Fixpoint batch_create_leads (creations : list LeadCreationData) : service (gmap Uuid Uuid) :=
  match creations with
  | [] => mret ∅
  | c :: rest =>
      created ← create_lead c;
      uuid_map ← batch_create_leads rest;
      mret (match created with
            | Some (request, lead) => match uuid_map !! request with
                                      | Some _ => uuid_map
                                      | None => <[request := lead]> uuid_map
                                      end
            | None => uuid_map
            end)
  end.

(** ** Flush *)

Definition pulsar_logs_of (batch : list BackgroundTask) : list PulsarLogData :=
  omap (λ t, match t with PulsarLog l => Some l | _ => None end) batch.
Definition buyer_responses_of (batch : list BackgroundTask) : list BuyerResponseData :=
  omap (λ t, match t with BuyerResponseTask b => Some b | _ => None end) batch.
Definition lead_updates_of (batch : list BackgroundTask) : list LeadUpdateData :=
  omap (λ t, match t with LeadUpdate u => Some u | _ => None end) batch.
Definition payload_updates_of (batch : list BackgroundTask) : list PayloadUpdateData :=
  omap (λ t, match t with PayloadUpdate u => Some u | _ => None end) batch.
Definition lead_creations_of (batch : list BackgroundTask) : list LeadCreationData :=
  omap (λ t, match t with LeadCreation c => Some c | _ => None end) batch.

(** [flush_batch]: lead creations first, then the rest; errors are logged. *)
Definition flush_batch (batch : list BackgroundTask) : service unit :=
  match batch with
  | [] => mret tt
  | _ =>
      r ← catch (batch_create_leads (lead_creations_of batch));
      let uuid_map := match r with Ok m => m | Err _ => ∅ end in
      _ ← ignore_error (batch_insert_pulsar_logs (pulsar_logs_of batch));
      _ ← ignore_error (batch_insert_buyer_responses (buyer_responses_of batch) uuid_map);
      _ ← ignore_error (batch_update_leads (lead_updates_of batch));
      ignore_error (batch_update_payloads (payload_updates_of batch))
  end.

End queue.

(** ** Lemmas: what the statements keep *)

(** Keys of the tables: the primary key and the unique [lead_id] of
    [leads], and the foreign key of [buyer_responses]. *)
Record db_wf (db : Db) : Prop := {
  wf_keys : ∀ id l, db_leads db !! id = Some l → lead_uuid l = id;
  wf_lead_ids : ∀ id id' l l' lid, db_leads db !! id = Some l → db_leads db !! id' = Some l' →
    lead_lead_id l = Some lid → lead_lead_id l' = Some lid → id = id';
  wf_responses : ∀ row, row ∈ db_buyer_responses db → is_Some (db_leads db !! row_lead_id row)
}.

(** Existing leads change in [promise_id] and [updated_at] only. *)
Definition leads_kept (db db' : Db) : Prop := ∀ id l, db_leads db !! id = Some l →
  ∃ l', db_leads db' !! id = Some l' ∧ l' = set_promise_id (lead_promise_id l') (lead_updated_at l') l.

Definition wf_kept (db db' : Db) : Prop := db_wf db → db_wf db'.

#[export] Instance wf_kept_refl : Reflexive wf_kept.
Proof. intros db H. exact H. Qed.
#[export] Instance wf_kept_trans : Transitive wf_kept.
Proof. intros a b c H1 H2 H. auto. Qed.
#[export] Instance leads_kept_refl : Reflexive leads_kept.
Proof. intros db id l Hl. exists l. split; [done|]. by destruct l. Qed.
#[export] Instance leads_kept_trans : Transitive leads_kept.
Proof.
  intros a b c H1 H2 id l Hl. destruct (H1 id l Hl) as (l1 & Hl1 & E1).
  destruct (H2 id l1 Hl1) as (l2 & Hl2 & E2). exists l2. split; [done|].
  rewrite E2, E1. done.
Qed.

(** A relation on databases, read on the states of the services. *)
Definition db_rel (R : Db → Db → Prop) (w w' : World) : Prop := R (w_db w) (w_db w').

Section db_rel.
Context (R : Db → Db → Prop) `{!Reflexive R} `{!Transitive R}.

#[global] Instance db_rel_refl : Reflexive (db_rel R).
Proof. intros w. unfold db_rel. done. Qed.
#[global] Instance db_rel_trans : Transitive (db_rel R).
Proof. intros w1 w2 w3. unfold db_rel. by transitivity (w_db w2). Qed.

Lemma respects_exec {A} (stmt : DateTime → Db → Result string A * Db) :
  (∀ now db, R db (stmt now db).2) → respects (db_rel R) (exec stmt).
Proof.
  intros Hs w. unfold exec, db_rel. destruct (w_outcomes w) as [|[e|] rest]; simpl; [|done|].
  all: specialize (Hs (w_now w) (w_db w)); by destruct (stmt _ _).
Qed.

Lemma respects_ignore_error m : respects (db_rel R) m → respects (db_rel R) (ignore_error m).
Proof. intros Hm. unfold ignore_error. apply respects_bind; [apply _|apply respects_catch, Hm|intros _; apply respects_ret, _]. Qed.

Lemma exec_skip w : ∃ r w', exec (λ _ db, (Ok tt, db)) w = (map_err Failed r, w') ∧ w_db w' = w_db w.
Proof.
  unfold exec. destruct (w_outcomes w) as [|[e|] rest]; [exists (Ok tt)|exists (Err e)|exists (Ok tt)];
    eexists; (split; [done|done]).
Qed.

(** A transaction ends in the state of its body or in the state before it. *)
Lemma respects_transaction {A} (body : service A) :
  respects (db_rel R) body → respects (db_rel R) (transaction body).
Proof.
  intros Hb w. unfold transaction, begin_transaction, commit, eff_gets, eff_try, eff_modify, eff_err, mbind, eff_bind, mret, eff_ret, db_rel.
  destruct (exec_skip w) as ([[]|e] & w1 & -> & E1); simpl; [|by rewrite E1].
  specialize (Hb w1). unfold db_rel in Hb. destruct (body w1) as [[a|e] w2]; simpl in *; [|by rewrite E1].
  destruct (exec_skip w2) as ([[]|e] & w3 & -> & E3); simpl; [by rewrite E3, <-E1|by rewrite E1].
Qed.
End db_rel.

(** ** Lemmas: the operations *)

Section kept.
Context `{Platform} (codec : Codec).

Lemma leads_by_lead_id_spec lid db l :
  db_wf db → leads_by_lead_id lid db = Some l →
  db_leads db !! lead_uuid l = Some l ∧ lead_lead_id l = Some lid.
Proof.
  intros Hwf Hf. unfold leads_by_lead_id in Hf. apply List.find_some in Hf as [Hin Hl].
  apply bool_decide_eq_true in Hl. split; [|done].
  apply list_elem_of_In, list_elem_of_fmap in Hin as ([id l0] & -> & Hin). simpl in *.
  apply elem_of_map_to_list in Hin. by rewrite (wf_keys _ Hwf _ _ Hin).
Qed.

Lemma leads_by_lead_id_none lid db id l :
  leads_by_lead_id lid db = None → db_leads db !! id = Some l → lead_lead_id l ≠ Some lid.
Proof.
  intros Hf Hl Heq. unfold leads_by_lead_id in Hf.
  eapply List.find_none in Hf; [|apply list_elem_of_In, (list_elem_of_fmap_2 snd _ (id, l)), elem_of_map_to_list, Hl].
  simpl in Hf. by apply bool_decide_eq_false in Hf.
Qed.

(** An update that keeps the ids keeps the constraints. *)
Lemma update_lead_row_wf f id db :
  (∀ l, lead_uuid (f l) = lead_uuid l ∧ lead_lead_id (f l) = lead_lead_id l) →
  wf_kept db (update_lead_row f id db).
Proof.
  intros Hf Hwf. assert (Hback : ∀ i l, alter f id (db_leads db) !! i = Some l →
    ∃ l0, db_leads db !! i = Some l0 ∧ lead_uuid l = lead_uuid l0 ∧ lead_lead_id l = lead_lead_id l0).
  { intros i l. rewrite lookup_alter_Some. intros [(-> & l0 & Hl0 & ->)|[_ Hl]].
    - exists l0. split; [done|apply Hf].
    - exists l. done. }
  split; simpl.
  - intros i l (l0 & Hl0 & -> & _)%Hback. by apply (wf_keys _ Hwf).
  - intros i i' l l' lid (l0 & Hl0 & _ & ->)%Hback (l1 & Hl1 & _ & ->)%Hback. eapply (wf_lead_ids _ Hwf); eauto.
  - intros row Hrow. rewrite lookup_alter_is_Some. by apply (wf_responses _ Hwf).
Qed.

Lemma insert_lead_row_wf c now db :
  db_leads db !! lc_uuid c = None → (∀ lid, lc_lead_id c = Some lid → leads_by_lead_id lid db = None) →
  wf_kept db (on_leads (<[lc_uuid c := new_lead codec c now]>) db).
Proof.
  intros Hnew Hlid Hwf. split; simpl.
  - intros id l [[<- <-]|[_ Hl]]%lookup_insert_Some; [done|by apply (wf_keys _ Hwf)].
  - intros id id' l l' lid [[<- <-]|[Hne Hl]]%lookup_insert_Some [[<- <-]|[Hne' Hl']]%lookup_insert_Some;
      simpl; intros E E'; [done| | |by eapply (wf_lead_ids _ Hwf)];
      exfalso; eapply leads_by_lead_id_none; eauto.
  - intros row Hrow. apply lookup_insert_is_Some'. right. by apply (wf_responses _ Hwf).
Qed.

Lemma insert_lead_wf c : respects (db_rel wf_kept) (insert_lead codec c).
Proof.
  apply respects_exec; [apply _|]. intros now db. destruct (lid ← lc_lead_id c; _) as [l|] eqn:Hf; simpl.
  - by apply update_lead_row_wf.
  - unfold violates_unique. destruct (bool_decide _) eqn:Hn; simpl; [reflexivity|].
    destruct (existsb _ _); simpl; [reflexivity|]. apply insert_lead_row_wf.
    + by apply bool_decide_eq_false, eq_None_not_Some in Hn.
    + intros lid E. by rewrite E in Hf.
Qed.

Lemma insert_lead_leads_kept c w : db_wf (w_db w) → leads_kept (w_db w) (w_db (insert_lead codec c w).2).
Proof.
  intros Hwf. unfold insert_lead, exec. destruct (w_outcomes w) as [|[e|] rest]; simpl; [|reflexivity|].
  all: destruct (lid ← lc_lead_id c; _) as [l|] eqn:Hf; simpl;
    [|unfold violates_unique; destruct (bool_decide _) eqn:Hn; simpl; [reflexivity|];
      destruct (existsb _ _); simpl; [reflexivity|];
      apply bool_decide_eq_false in Hn; intros id l Hl; exists l; simpl;
      rewrite lookup_insert_ne by (intros <-; apply Hn; eauto); split; [done|by destruct l]].
  all: intros id l0 Hl0; simpl; destruct (decide (lead_uuid l = id)) as [<-|Hne];
    [rewrite lookup_alter_eq, Hl0; simpl; eauto
    |rewrite lookup_alter_ne by done; exists l0; split; [done|by destruct l0]].
Qed.

(** The lead a creation returns is there, under the requested lead id. *)
Lemma insert_lead_result c w u w' :
  db_wf (w_db w) → insert_lead codec c w = (Ok u, w') →
  ∃ l, db_leads (w_db w') !! u = Some l ∧ lead_lead_id l = lc_lead_id c.
Proof.
  intros Hwf. unfold insert_lead, exec. destruct (w_outcomes w) as [|[e|] rest]; [|done|].
  all: destruct (lid ← lc_lead_id c; _) as [l|] eqn:Hf;
    [|destruct (violates_unique c (w_db w)); [done|]; intros [= <- <-]; simpl;
      rewrite lookup_insert_eq; eauto].
  all: apply bind_Some in Hf as (lid & Hlid & Hf); intros [= <- <-]; simpl;
    destruct (leads_by_lead_id_spec lid _ _ Hwf Hf) as [Hl E]; rewrite lookup_alter_eq, Hl; simpl;
    eexists; split; [done|]; simpl; congruence.
Qed.

(** The second transaction of a creation leaves [leads] and [buyer_responses] alone. *)
Definition same_leads (db db' : Db) : Prop :=
  db_leads db' = db_leads db ∧ db_buyer_responses db' = db_buyer_responses db.

#[export] Instance same_leads_refl : Reflexive same_leads.
Proof. done. Qed.
#[export] Instance same_leads_trans : Transitive same_leads.
Proof. intros a b c [H1 H1'] [H2 H2']. split; congruence. Qed.

Lemma same_leads_wf db db' : same_leads db db' → wf_kept db db'.
Proof.
  intros [E E'] [H1 H2 H3]. split; rewrite E; [done|done|]. by rewrite E'.
Qed.

Lemma respects_mono {A} (R R' : Db → Db → Prop) (m : service A) :
  (∀ db db', R db db' → R' db db') → respects (db_rel R) m → respects (db_rel R') m.
Proof. intros HR Hm w. apply HR, Hm. Qed.

Lemma create_ping_same_leads c lead : respects (db_rel same_leads) (create_ping codec c lead).
Proof.
  assert (Hp : respects (db_rel same_leads) (insert_ping c lead)) by (by apply respects_exec; [apply _|]).
  assert (Hq : ∀ z, respects (db_rel same_leads) (insert_creation_payload codec c lead z))
    by (intros z; by apply respects_exec; [apply _|]).
  intros w. unfold create_ping, begin_transaction, commit, eff_gets, catch, eff_modify, mbind, eff_bind, mret, eff_ret.
  destruct (exec_skip w) as ([[]|e] & w1 & -> & E1); unfold db_rel; simpl; rewrite <-E1; [|done].
  specialize (Hp w1). unfold db_rel in Hp. destruct (insert_ping c lead w1) as [[z|e] w2]; simpl in *; [|done].
  destruct (0 <? z)%Z; simpl.
  - specialize (Hq z w2). unfold db_rel in Hq. destruct (insert_creation_payload codec c lead z w2) as [r w3].
    destruct r as [[]|[e|e]]; simpl in *; [| |by etrans].
    all: destruct (exec_skip w3) as ([[]|e'] & w4 & -> & E4); simpl; try done. rewrite E4. by etrans.
  - destruct (exec_skip w2) as ([[]|e'] & w4 & -> & E4); simpl; [by rewrite E4|done].
Qed.

Lemma insert_lead_safe c : safe (insert_lead codec c).
Proof. apply panics_exec. Qed.

Lemma create_ping_safe c lead : safe (create_ping codec c lead).
Proof.
  assert (Hc : ∀ db, safe (commit db)).
  { intros db w e. unfold commit. destruct (exec_skip w) as ([[]|e'] & w' & -> & _); done. }
  unfold create_ping, begin_transaction, insert_ping, insert_creation_payload.
  repeat first [apply Hc | panics_step].
Qed.

Lemma create_lead_wf c : respects (db_rel wf_kept) (create_lead codec c).
Proof.
  unfold create_lead. apply respects_bind; [apply _| |].
  - apply respects_catch, respects_transaction; [apply _|apply insert_lead_wf].
  - intros [u|e]; [|by apply respects_ret, _]. apply respects_bind; [apply _| |intros _; apply respects_ret, _].
    apply respects_ignore_error; [apply _..|].
    eapply respects_mono, create_ping_same_leads. apply same_leads_wf.
Qed.

(** A creation keeps the other leads, and leaves a lead under the id it returns. *)
Lemma create_lead_spec c w r w' :
  db_wf (w_db w) → create_lead codec c w = (r, w') →
  leads_kept (w_db w) (w_db w') ∧
  match r with
  | Ok (Some (request, u)) => request = lc_uuid c ∧
      ∃ l, db_leads (w_db w') !! u = Some l ∧ lead_lead_id l = lc_lead_id c
  | Ok None => True
  | Err _ => False
  end.
Proof.
  intros Hwf. unfold create_lead, transaction, begin_transaction, commit, ignore_error, eff_gets, eff_try, catch, eff_modify, eff_err, mbind, eff_bind, mret, eff_ret.
  destruct (exec_skip w) as ([[]|e] & w1 & -> & E1); simpl; [|intros [= <- <-]; by rewrite E1].
  rewrite <-E1 in Hwf |- *. pose proof (insert_lead_leads_kept c w1 Hwf) as Hk.
  pose proof (insert_lead_result c w1) as Hres. pose proof (insert_lead_safe c w1) as Hs.
  destruct (insert_lead codec c w1) as [[u|[e|e]] w2]; simpl in *; [|intros [= <- <-]; by split|by destruct (Hs e)].
  specialize (Hres u w2 Hwf eq_refl) as (l & Hl & Hid).
  destruct (exec_skip w2) as ([[]|e'] & w3 & -> & E3); simpl; [|by intros [= <- <-]].
  pose proof (create_ping_same_leads c u w3) as [E4 _]. pose proof (create_ping_safe c u w3) as Hs4.
  destruct (create_ping codec c u w3) as [[[]|[e4|e4]] w4]; simpl in *; [| |by destruct (Hs4 e4)].
  all: intros [= <- <-]; rewrite E3 in E4; split; [|split; [done|rewrite E4; eauto]].
  all: intros id l0 Hl0; rewrite E4; by apply Hk.
Qed.

Lemma batch_create_leads_wf cs : respects (db_rel wf_kept) (batch_create_leads codec cs).
Proof.
  induction cs as [|c cs IH]; simpl; [apply respects_ret, _|].
  apply respects_bind; [apply _|apply create_lead_wf|]. intros created.
  apply respects_bind; [apply _|done|intros m; apply respects_ret, _].
Qed.


Lemma batch_create_leads_spec cs w r w' :
  db_wf (w_db w) → batch_create_leads codec cs w = (r, w') →
  leads_kept (w_db w) (w_db w') ∧
  ∃ m, r = Ok m ∧ ∀ request u, m !! request = Some u →
    ∃ c l, c ∈ cs ∧ lc_uuid c = request ∧ db_leads (w_db w') !! u = Some l ∧ lead_lead_id l = lc_lead_id c.
Proof.
  revert w r w'. induction cs as [|c cs IH]; intros w r w' Hwf; simpl.
  { intros [= <- <-]. split; [reflexivity|]. exists ∅. split; [done|]. intros request u. by rewrite lookup_empty. }
  unfold mbind at 1, eff_bind at 1. pose proof (create_lead_wf c w Hwf) as Hwf1.
  destruct (create_lead codec c w) as [[created|e] w1] eqn:Hc;
    apply (create_lead_spec _ _ _ _ Hwf) in Hc as [Hk Hr]; [|done].
  unfold mbind, eff_bind. destruct (batch_create_leads codec cs w1) as [rest w2] eqn:Hb.
  destruct (IH _ _ _ Hwf1 Hb) as (Hk2 & m & -> & Hm). intros [= <- <-].
  split; [by etrans|]. eexists. split; [done|]. intros request u Hu.
  destruct created as [[req lead]|].
  - destruct (m !! req) as [x|] eqn:Hx.
    + destruct (Hm _ _ Hu) as (c' & l & Hin & Hrest). exists c', l. split; [by right|done].
    + apply lookup_insert_Some in Hu as [[<- <-]|[_ Hu]].
      * destruct Hr as (-> & l & Hl & Hid). destruct (Hk2 _ _ Hl) as (l' & Hl' & E).
        exists c, l'. split_and!; [by left|done|done|]. rewrite E. simpl. done.
      * destruct (Hm _ _ Hu) as (c' & l & Hin & Hrest). exists c', l. split; [by right|done].
  - destruct (Hm _ _ Hu) as (c' & l & Hin & Hrest). exists c', l. split; [by right|done].
Qed.

(** *** The other four kinds *)

Lemma other_columns_wf (f : Db → Db) :
  (∀ db, same_leads db (f db)) → respects (db_rel wf_kept) (exec_update (λ _, f)).
Proof. intros Hf. apply respects_exec; [apply _|]. intros now db. apply same_leads_wf, Hf. Qed.

Lemma pulsar_logs_wf logs : respects (db_rel wf_kept) (batch_insert_pulsar_logs logs).
Proof.
  destruct logs; [apply respects_ret, _|]. apply respects_exec; [apply _|]. intros now db. by apply same_leads_wf.
Qed.

Lemma select_ok_wf {A} (q : Db → option A) : respects (db_rel wf_kept) (select_ok q).
Proof.
  apply respects_bind; [apply _| |intros [?|?]; apply respects_ret, _].
  apply respects_catch, respects_exec; [apply _|]. intros now db. reflexivity.
Qed.

Lemma insert_buyer_response_wf u b : respects (db_rel wf_kept) (insert_buyer_response u b).
Proof.
  apply respects_exec; [apply _|]. intros now db. destruct (db_leads db !! u) as [l|] eqn:Hl; simpl; [|reflexivity].
  intros [H1 H2 H3]. split; simpl; [done|done|].
  intros row [Hrow| ->%list_elem_of_singleton]%elem_of_app; [by apply H3|]. simpl. eauto.
Qed.

Lemma actual_lead_id_wf m b : respects (db_rel wf_kept) (actual_lead_id m b).
Proof.
  unfold actual_lead_id, resolve_lead_uuid_for_buyer_response.
  repeat first [ apply respects_ret, _ | apply select_ok_wf | case_match
               | apply respects_bind; [apply _| |intros ?] ].
Qed.

Lemma responses_wf rs m : respects (db_rel wf_kept) (batch_insert_buyer_responses rs m).
Proof.
  unfold batch_insert_buyer_responses. apply respects_bind; [apply _| |intros again].
  - induction rs as [|b rs IH]; simpl; [apply respects_ret, _|].
    apply respects_bind; [apply _|apply actual_lead_id_wf|intros actual].
    apply respects_bind; [apply _| |intros ?].
    + destruct actual; [|apply respects_ret, _]. apply respects_bind; [apply _| |intros ?; apply respects_ret, _].
      apply respects_catch, insert_buyer_response_wf.
    + apply respects_bind; [apply _|done|intros ?; apply respects_ret, _].
  - apply respects_for_each; [apply _..|]. intros b. unfold retry_response.
    apply respects_bind; [apply _|apply actual_lead_id_wf|intros [u|]; [|apply respects_ret, _]].
    generalize 3%nat. intros n. induction n as [|n IH]; simpl; [apply respects_ret, _|].
    apply respects_bind; [apply _|apply respects_catch, insert_buyer_response_wf|].
    intros [?|?]; [apply respects_ret, _|done].
Qed.

Lemma update_lead_wf u : respects (db_rel wf_kept) (update_lead u).
Proof.
  assert (Hup : ∀ f : DateTime → Lead → Lead,
    (∀ now l, lead_uuid (f now l) = lead_uuid l ∧ lead_lead_id (f now l) = lead_lead_id l) →
    respects (db_rel wf_kept) (ignore_error (exec_update (λ now, update_lead_row (f now) (lu_lead_id u))))).
  { intros f Hf. apply respects_ignore_error; [apply _..|]. apply respects_exec; [apply _|].
    intros now db. apply update_lead_row_wf. apply Hf. }
  unfold update_lead. apply respects_bind; [apply _| |intros []].
  - destruct (should_update_as_sold u); [|apply respects_ret, _].
    apply (Hup (λ now, match lu_inprog_token u with Some t => when_post_id t (sold_columns u now) | None => sold_columns u now end)).
    intros now l. destruct (lu_inprog_token u); [|done]. unfold when_post_id. by case_bool_decide.
  - destruct (lu_inprog_token u) as [t|].
    + apply (Hup (λ _, when_post_id t (set_post_id (Some "")))). intros now l. unfold when_post_id. by case_bool_decide.
    + apply (Hup (λ now l, set_update_columns u (lead_sold_at l) _ now l)). done.
Qed.

(** What the payload updates and the logs leave alone. *)
Definition same_rows (db db' : Db) : Prop :=
  db_leads db' = db_leads db ∧ db_buyer_responses db' = db_buyer_responses db ∧ db_pings db' = db_pings db.

#[export] Instance same_rows_refl : Reflexive same_rows.
Proof. done. Qed.
#[export] Instance same_rows_trans : Transitive same_rows.
Proof. intros a b c (H1 & H2 & H3) (H1' & H2' & H3'). split_and!; congruence. Qed.

Lemma update_payload_same_rows u : respects (db_rel same_rows) (update_payload u).
Proof.
  unfold update_payload, update_ping_payload. destruct (String.eqb _ "ping"); [|destruct (String.eqb _ "post")].
  - apply respects_bind; [apply _| |].
    + apply respects_catch, respects_exec; [apply _|]. intros now db.
      destruct (newest_ping_payload _ _); [|reflexivity]. cbv zeta. by case_match.
    + intros [[|n]|e]; try apply respects_ret, _. apply respects_ignore_error; [apply _..|].
      apply respects_exec; [apply _|]. intros now db. destruct (negb _); [done|]. by destruct (external_taken _ _).
  - apply respects_ignore_error; [apply _..|]. apply respects_exec; [apply _|]. intros now db.
    destruct (negb _); [done|]. by destruct (post_id_taken _ _).
  - apply respects_ret, _.
Qed.

Lemma update_payload_wf u : respects (db_rel wf_kept) (update_payload u).
Proof. eapply respects_mono, update_payload_same_rows. intros db db' (H1 & H2 & _). by apply same_leads_wf. Qed.

Lemma flush_batch_wf batch : respects (db_rel wf_kept) (flush_batch codec batch).
Proof.
  unfold flush_batch. destruct batch as [|t batch]; [apply respects_ret, _|].
  apply respects_bind; [apply _|apply respects_catch, batch_create_leads_wf|intros r].
  apply respects_bind; [apply _|apply respects_ignore_error, pulsar_logs_wf; apply _|intros _].
  apply respects_bind; [apply _|apply respects_ignore_error, responses_wf; apply _|intros _].
  apply respects_bind; [apply _|apply respects_ignore_error|intros _; apply respects_ignore_error]; try apply _.
  - apply respects_for_each; [apply _..|]. intros u. apply update_lead_wf.
  - apply respects_for_each; [apply _..|]. intros u. apply update_payload_wf.
Qed.

Lemma select_ok_safe {A} (q : Db → option A) : safe (select_ok q).
Proof. unfold select_ok, select_one. repeat panics_step. Qed.

Lemma insert_buyer_response_safe u b : safe (insert_buyer_response u b).
Proof. apply panics_exec. Qed.

Lemma actual_lead_id_safe m b : safe (actual_lead_id m b).
Proof.
  unfold actual_lead_id, resolve_lead_uuid_for_buyer_response. repeat first [apply select_ok_safe | panics_step].
Qed.

Lemma responses_safe rs m : safe (batch_insert_buyer_responses rs m).
Proof.
  unfold batch_insert_buyer_responses. apply panics_bind; [|intros again; apply panics_for_each; intros b].
  - induction rs as [|b rs IH]; simpl; [apply panics_ret|].
    repeat first [exact IH | apply actual_lead_id_safe | apply insert_buyer_response_safe | panics_step].
  - unfold retry_response. generalize 3%nat. intros n.
    repeat first [apply actual_lead_id_safe | panics_step].
    induction n as [|n IH]; simpl; [apply panics_ret|].
    repeat first [exact IH | apply insert_buyer_response_safe | panics_step].
Qed.

Lemma update_lead_safe u : safe (update_lead u).
Proof. unfold update_lead, ignore_error, update_sold, reset_inprog_token, update_standard. repeat panics_step. Qed.

Lemma update_payload_safe u : safe (update_payload u).
Proof.
  unfold update_payload, update_ping_payload, ignore_error, update_newest_ping_payload, insert_ping_payload,
    insert_post_payload.
  repeat panics_step.
Qed.

Lemma ignore_error_ok (m : service unit) w : safe m → (ignore_error m w).1 = Ok tt.
Proof.
  intros Hm. unfold ignore_error, mbind, eff_bind. by destruct (catch_safe m w Hm) as [r ->].
Qed.

Lemma create_lead_safe c : safe (create_lead codec c).
Proof.
  intros w e. unfold create_lead, mbind, eff_bind.
  assert (Ht : safe (transaction (insert_lead codec c))).
  { clear w e. intros w e. unfold transaction, begin_transaction, commit, eff_gets, eff_try, eff_modify, eff_err, mbind,
      eff_bind, mret, eff_ret. destruct (exec_skip w) as ([[]|e1] & w1 & -> & _); [simpl|done].
    pose proof (insert_lead_safe c w1 e) as Hs. destruct (insert_lead codec c w1) as [[u|f] w2]; simpl in *; [|done].
    by destruct (exec_skip w2) as ([[]|e2] & w3 & -> & _). }
  destruct (catch_safe _ w Ht) as [[u|f] ->]; [|done].
  unfold ignore_error, mbind, eff_bind. by destruct (catch_safe _ (transaction (insert_lead codec c) w).2 (create_ping_safe c u)) as [r ->].
Qed.

Lemma batch_create_leads_safe cs : safe (batch_create_leads codec cs).
Proof.
  induction cs as [|c cs IH]; simpl; [apply panics_ret|].
  repeat first [exact IH | apply create_lead_safe | panics_step].
Qed.

Lemma flush_batch_ok batch w : (flush_batch codec batch w).1 = Ok tt.
Proof.
  unfold flush_batch. destruct batch as [|t batch]; [done|]. unfold mbind, eff_bind.
  destruct (catch_safe _ w (batch_create_leads_safe (lead_creations_of (t :: batch)))) as [r ->].
  generalize (batch_create_leads codec (lead_creations_of (t :: batch)) w).2. clear w. intros w.
  assert (Hskip : ∀ m k w, safe m → (∀ w', (k w').1 = Ok tt) → ((_ ← ignore_error m; k : service unit) w).1 = Ok tt).
  { intros m k w0 Hm Hk. unfold mbind, eff_bind. pose proof (ignore_error_ok m w0 Hm).
    destruct (ignore_error m w0) as [[[]|e] w1]; simplify_eq/=. apply Hk. }
  apply Hskip; [destruct (pulsar_logs_of _); [apply panics_ret|apply panics_exec]|].
  intros w2. apply Hskip; [apply responses_safe|]. intros w3.
  apply Hskip; [apply panics_for_each, update_lead_safe|]. intros w4.
  apply ignore_error_ok, panics_for_each, update_payload_safe.
Qed.

End kept.

(** ** Lemmas: the statements when none fails *)

(** The lead that a response is attached to: through the map of the batch, else by
    uuid, ping id, or external lead id. *)
Definition reachable_lead (uuid_map : gmap Uuid Uuid) (db : Db) (b : BuyerResponseData) : option Uuid :=
  match uuid_map !! br_lead_id b with
  | Some u => Some u
  | None =>
      match lead_by_uuid (br_lead_id b) db with
      | Some u => Some u
      | None =>
          match pid ← br_ping_id b; lead_by_ping_id pid db with
          | Some u => Some u
          | None => lid ← br_lead_id_str b; if String.eqb lid "" then None else lead_by_lead_id lid db
          end
      end
  end.

(** The row a response becomes. *)
Definition delivered (uuid_map : gmap Uuid Uuid) (db : Db) (b : BuyerResponseData) : option BuyerResponseRow :=
  u ← reachable_lead uuid_map db b; _ ← db_leads db !! u; Some (response_row u b).

Definition add_responses (rows : list BuyerResponseRow) (w : World) : World :=
  set_db (on_buyer_responses (λ l, l ++ rows) (w_db w)) w.

Section healthy.
Context `{Platform}.

Lemma exec_healthy {A} (stmt : DateTime → Db → Result string A * Db) w :
  w_outcomes w = [] → exec stmt w = (map_err Failed (stmt (w_now w) (w_db w)).1, set_db (stmt (w_now w) (w_db w)).2 w).
Proof.
  intros Hw. unfold exec. rewrite Hw. destruct (stmt _ _). destruct w; simpl in *. by subst.
Qed.

Lemma set_db_id w : set_db (w_db w) w = w.
Proof. by destruct w. Qed.

Lemma add_responses_nil w : add_responses [] w = w.
Proof.
  unfold add_responses, on_buyer_responses. rewrite app_nil_r. destruct w as [[] q te n o]. done.
Qed.

Lemma add_responses_app rows rows' w : add_responses rows' (add_responses rows w) = add_responses (rows ++ rows') w.
Proof. unfold add_responses, on_buyer_responses, set_db. simpl. by rewrite <-app_assoc. Qed.

Lemma select_ok_healthy {A} (q : Db → option A) w : w_outcomes w = [] → select_ok q w = (Ok (q (w_db w)), w).
Proof.
  intros Hw. unfold select_ok, select_one, catch, mbind, eff_bind. rewrite exec_healthy by done.
  simpl. by rewrite set_db_id.
Qed.

Lemma actual_lead_id_healthy m b w :
  w_outcomes w = [] → actual_lead_id m b w = (Ok (reachable_lead m (w_db w) b), w).
Proof.
  intros Hw. unfold actual_lead_id, reachable_lead. destruct (m !! br_lead_id b); [done|].
  unfold resolve_lead_uuid_for_buyer_response. rewrite (eff_bind_ok _ _ _ _ _ (select_ok_healthy _ w Hw)).
  destruct (lead_by_uuid _ _); [done|]. destruct (br_ping_id b) as [pid|]; simpl.
  - rewrite (eff_bind_ok _ _ _ _ _ (select_ok_healthy _ w Hw)). destruct (lead_by_ping_id _ _); [done|].
    destruct (br_lead_id_str b) as [lid|]; [simpl|done]. destruct (String.eqb lid ""); [done|by apply select_ok_healthy].
  - unfold mbind at 1, eff_bind at 1, mret at 1, eff_ret at 1.
    destruct (br_lead_id_str b) as [lid|]; [simpl|done]. destruct (String.eqb lid ""); [done|by apply select_ok_healthy].
Qed.

Lemma insert_buyer_response_healthy u b w :
  w_outcomes w = [] → insert_buyer_response u b w =
    match db_leads (w_db w) !! u with
    | Some _ => (Ok tt, add_responses [response_row u b] w)
    | None => (Err (Failed fkey_error), w)
    end.
Proof.
  intros Hw. unfold insert_buyer_response. rewrite exec_healthy by done.
  destruct (db_leads (w_db w) !! u); simpl; [done|]. by rewrite set_db_id.
Qed.

(** Inserting responses does not change where others go. *)
Lemma delivered_add m rows w b : delivered m (w_db (add_responses rows w)) b = delivered m (w_db w) b.
Proof. done. Qed.

Lemma insert_responses_healthy m rs w :
  w_outcomes w = [] → insert_responses m rs w =
    (Ok (List.filter (λ b, negb (bool_decide (is_Some (delivered m (w_db w) b)))) rs),
     add_responses (omap (delivered m (w_db w)) rs) w).
Proof.
  revert w. induction rs as [|b rs IH]; intros w Hw; simpl; [by rewrite add_responses_nil|].
  rewrite (eff_bind_ok _ _ _ _ _ (actual_lead_id_healthy m b w Hw)).
  assert (Hd : delivered m (w_db w) b = u ← reachable_lead m (w_db w) b; _ ← db_leads (w_db w) !! u; Some (response_row u b))
    by done.
  destruct (reachable_lead m (w_db w) b) as [u|]; simpl in Hd.
  - unfold catch, mbind, eff_bind, mret, eff_ret. rewrite insert_buyer_response_healthy by done.
    destruct (db_leads (w_db w) !! u) as [l|]; simpl in Hd; rewrite Hd.
    + rewrite IH by done. simpl. by rewrite add_responses_app.
    + rewrite IH by done. done.
  - unfold mbind, eff_bind, mret, eff_ret. rewrite IH, Hd by done. done.
Qed.

Lemma retry_response_healthy m b w :
  w_outcomes w = [] → delivered m (w_db w) b = None → retry_response m b w = (Ok tt, w).
Proof.
  intros Hw Hd. unfold retry_response. rewrite (eff_bind_ok _ _ _ _ _ (actual_lead_id_healthy m b w Hw)).
  unfold delivered in Hd. destruct (reachable_lead m (w_db w) b) as [u|]; [simpl in Hd|done].
  generalize 3%nat. intros n. induction n as [|n IH]; simpl; [done|].
  unfold catch, mbind, eff_bind. rewrite insert_buyer_response_healthy by done.
  destruct (db_leads (w_db w) !! u); [done|]. exact IH.
Qed.

Lemma retry_all_healthy m rs w :
  w_outcomes w = [] → Forall (λ b, delivered m (w_db w) b = None) rs →
  for_each (retry_response m) rs w = (Ok tt, w).
Proof.
  intros Hw. induction 1 as [|b rs Hb Hrs IH]; simpl; [done|].
  by rewrite (eff_bind_ok _ _ _ _ _ (retry_response_healthy m b w Hw Hb)).
Qed.

Lemma exec_update_healthy f w :
  w_outcomes w = [] → exec_update f w = (Ok tt, set_db (f (w_now w) (w_db w)) w).
Proof. intros Hw. unfold exec_update. by rewrite exec_healthy. Qed.

Lemma ignore_healthy f w :
  w_outcomes w = [] → ignore_error (exec_update f) w = (Ok tt, set_db (f (w_now w) (w_db w)) w).
Proof.
  intros Hw. unfold ignore_error, catch, mbind, eff_bind. by rewrite exec_update_healthy.
Qed.
Lemma responses_healthy (responses : list BuyerResponseData) (uuid_map : gmap Uuid Uuid) (w : World) :
  w_outcomes w = [] →
  batch_insert_buyer_responses responses uuid_map w =
    (Ok tt, add_responses (omap (delivered uuid_map (w_db w)) responses) w).
Proof.
  intros Hw. unfold batch_insert_buyer_responses.
  rewrite (eff_bind_ok _ _ _ _ _ (insert_responses_healthy _ _ _ Hw)).
  apply retry_all_healthy; [done|]. apply Forall_forall. intros b.
  rewrite elem_of_list_filter_bool, negb_true_iff, bool_decide_eq_false, delivered_add, <-eq_None_not_Some. tauto.
Qed.
End healthy.

(** ** Properties *)

Section properties.
Context `{Platform} (codec : Codec).

(** a flush never fails, and keeps the keys of [leads] and the foreign key of
    [buyer_responses], whatever tasks it is given and whatever statements fail: one row
    per uuid and per lead id, and every buyer response refers to a lead. *)
Theorem flush_batch_keeps_db_wf (batch : list BackgroundTask) (w : World) :
  db_wf (w_db w) →
  (flush_batch codec batch w).1 = Ok tt ∧ db_wf (w_db (flush_batch codec batch w).2).
Proof. intros Hwf. split; [apply flush_batch_ok|by apply flush_batch_wf]. Qed.

(** creating leads is idempotent on the lead id.  Whatever statements fail,
    every uuid the batch reports as created is mapped to a stored lead with the lead
    id of a creation that asked for it, so buyer responses find the existing row of
    a lead that is submitted again; and of the leads already stored nothing changes
    but the promise id and the time of the update. *)
Theorem creation_idempotent (creations : list LeadCreationData) (w : World) :
  db_wf (w_db w) →
  ∃ uuid_map w', batch_create_leads codec creations w = (Ok uuid_map, w') ∧
    (∀ request u, uuid_map !! request = Some u →
      ∃ c l, c ∈ creations ∧ lc_uuid c = request ∧ db_leads (w_db w') !! u = Some l ∧
        lead_lead_id l = lc_lead_id c) ∧
    (∀ id l, db_leads (w_db w) !! id = Some l →
      ∃ promise now, db_leads (w_db w') !! id = Some (set_promise_id promise now l)).
Proof.
  intros Hwf. destruct (batch_create_leads codec creations w) as [r w'] eqn:Hb.
  destruct (batch_create_leads_spec _ _ _ _ _ Hwf Hb) as (Hk & m & -> & Hm).
  exists m, w'. split_and!; [done|done|]. intros id l Hl. destruct (Hk id l Hl) as (l' & Hl' & E).
  exists (lead_promise_id l'), (lead_updated_at l'). rewrite Hl'. by f_equal.
Qed.

(** The names of [copy_fields] and of the object they are copied into. *)
Lemma copy_fields_get fields source o k :
  k ∉ fields → map_get k (copy_fields fields source o) = map_get k o.
Proof.
  intros Hk. unfold copy_fields. destruct (as_object source) as [obj|]; [|done].
  apply insert_present_notin. rewrite <-list_fmap_compose. simpl. by rewrite list_fmap_id.
Qed.

(** the payload kept with a two-step ping has no personal data: it has no
    field but the ping fields, the qualification fields and the three of its own,
    whatever the publisher sent. *)
Theorem creation_payload_without_pii (c : LeadCreationData) (k : string) :
  lc_strategy c = "ping_post" →
  k ∉ ["publisher_id"; "vertical"; "request_type"] ++ ping_request_fields ++ qualification_fields →
  ∃ lead, ping_only_payload c = json_object [("lead", JObject lead)] ∧ map_get k lead = None ∧
    map_get "request_type" lead = Some (JString "ping").
Proof.
  intros Hs Hk. unfold ping_only_payload. rewrite Hs. simpl String.eqb. cbv iota. eexists. split; [done|].
  rewrite !elem_of_app in Hk. split.
  - rewrite !copy_fields_get by tauto. unfold map_of. cbn [foldl].
    rewrite !map_get_insert_ne; [done|..]; intros ->; apply Hk; left; member.
  - rewrite !copy_fields_get by (apply (bool_decide_unpack _); vm_compute; exact I).
    unfold map_of. cbn [foldl]. by rewrite map_get_insert_eq.
Qed.

(** C35: when no statement fails, the flush stores exactly the responses whose lead
    can be found, each once, in the order they were queued, under that lead; and
    changes nothing else. *)
Theorem buyer_responses_delivered (responses : list BuyerResponseData) (uuid_map : gmap Uuid Uuid) (w : World) :
  w_outcomes w = [] →
  batch_insert_buyer_responses responses uuid_map w =
    (Ok tt, add_responses (omap (delivered uuid_map (w_db w)) responses) w).
Proof. apply responses_healthy. Qed.

(** an update without a token and not to sold, of a stored lead: the columns the
    task leaves open keep their value and [vertical_data] is merged, except
    [post_id], which becomes empty when the task has none. *)
Theorem standard_update_spec (u : LeadUpdateData) (w : World) (l : Lead) :
  w_outcomes w = [] → should_update_as_sold u = false → lu_inprog_token u = None →
  db_leads (w_db w) !! lu_lead_id u = Some l →
  ∃ w' l', update_lead u w = (Ok tt, w') ∧ db_leads (w_db w') = <[lu_lead_id u := l']> (db_leads (w_db w)) ∧
    lead_status l' = lu_status u ∧ lead_sold_at l' = lead_sold_at l ∧
    lead_campaign_id l' = coalesce (lu_campaign_id u) (lead_campaign_id l) ∧
    lead_buyer_id l' = coalesce (lu_buyer_id u) (lead_buyer_id l) ∧
    lead_promise_id l' = coalesce (lu_promise_id u) (lead_promise_id l) ∧
    lead_ping_id l' = coalesce (lu_ping_id u) (lead_ping_id l) ∧
    lead_post_id l' = Some (default "" (lu_post_id u)) ∧
    (∀ o vd k, lead_vertical_data l = JObject o → lu_vertical_data u = Some (JObject vd) → map_wf vd →
      jget k (lead_vertical_data l') = match map_get k vd with Some v => Some v | None => map_get k o end).
Proof.
  intros Hw Hs Ht Hl. unfold update_lead. rewrite Hs, Ht. unfold mbind, eff_bind, mret, eff_ret, update_standard.
  rewrite ignore_healthy by done. eexists _, _. split; [done|]. simpl. split.
  - apply map_eq. intros i. destruct (decide (lu_lead_id u = i)) as [<-|Hne].
    + by rewrite lookup_alter_eq, lookup_insert_eq, Hl.
    + by rewrite lookup_alter_ne, lookup_insert_ne.
  - split_and!; try done. intros o vd k -> -> Hvd. simpl. by apply jsonb_merge_get.
Qed.

(** a sold update without a token marks the lead sold now; but its
    [vertical_data] replaces the stored one, so a key it does not have, such as the
    winning bid, is gone. *)
Theorem sold_update_replaces_vertical_data (u : LeadUpdateData) (w : World) (l : Lead) (vd : jmap) :
  w_outcomes w = [] → should_update_as_sold u = true → lu_inprog_token u = None →
  db_leads (w_db w) !! lu_lead_id u = Some l → lu_vertical_data u = Some (JObject vd) → map_wf vd →
  ∃ w' l', update_lead u w = (Ok tt, w') ∧ db_leads (w_db w') !! lu_lead_id u = Some l' ∧
    lead_status l' = lu_status u ∧ lead_sold_at l' = Some (w_now w) ∧
    (∀ k, jget k (lead_vertical_data l') = map_get k vd).
Proof.
  intros Hw Hs Ht Hl Hvd Hwf. unfold update_lead. rewrite Hs, Ht. unfold mbind, eff_bind, update_sold. rewrite Ht.
  rewrite ignore_healthy by done. unfold update_standard. rewrite ignore_healthy by done.
  eexists _, _. split; [done|]. simpl. rewrite !lookup_alter_eq, Hl. simpl. split; [done|]. simpl.
  rewrite Hvd. split_and!; try done. intros k. simpl. rewrite jsonb_merge_get by done. by destruct (map_get k vd).
Qed.

(** An update that holds a token the row does not have changes nothing. *)
Lemma token_update_noop u token w :
  lu_inprog_token u = Some token →
  (∀ l, db_leads (w_db w) !! lu_lead_id u = Some l → lead_post_id l ≠ Some token) →
  (update_lead u w).1 = Ok tt ∧ w_db (update_lead u w).2 = w_db w.
Proof.
  intros Ht Hne.
  assert (Hrun : ∀ (f : DateTime → Lead → Lead) w0, w_db w0 = w_db w → ∃ w1,
    ignore_error (exec_update (λ now, update_lead_row (when_post_id token (f now)) (lu_lead_id u))) w0 = (Ok tt, w1) ∧
    w_db w1 = w_db w).
  { intros f w0 E. assert (Hid : ∀ now, update_lead_row (when_post_id token (f now)) (lu_lead_id u) (w_db w0) = w_db w0).
    { intros now. unfold update_lead_row, on_leads. rewrite E. destruct (w_db w) as [ls ? ? ? ? ?] eqn:Edb. simpl in *. f_equal.
      apply map_eq. intros i. destruct (decide (lu_lead_id u = i)) as [<-|Hi]; [|by rewrite lookup_alter_ne].
      rewrite lookup_alter_eq. destruct (ls !! lu_lead_id u) as [l|] eqn:Hl; [simpl|done]. unfold when_post_id.
      rewrite bool_decide_eq_false_2; [done|]. by apply Hne. }
    unfold ignore_error, catch, mbind, eff_bind, exec_update, exec.
    destruct (w_outcomes w0) as [|[e|] rest]; eexists; (split; [done|]); simpl; rewrite ?Hid; done. }
  unfold update_lead. rewrite Ht. unfold mbind, eff_bind, update_sold. rewrite Ht. destruct (should_update_as_sold u).
  - destruct (Hrun (λ now, sold_columns u now) w eq_refl) as (w1 & -> & E1).
    destruct (Hrun (λ _, set_post_id (Some "")) w1 E1) as (w2 & E & E2). unfold reset_inprog_token. by rewrite E.
  - destruct (Hrun (λ _, set_post_id (Some "")) w eq_refl) as (w2 & E & E2). unfold mret, eff_ret, reset_inprog_token. by rewrite E.
Qed.
End properties.

(** ** Witnesses *)

#[local] Existing Instance reference_platform.

Definition sample_codec : Codec := {|
  encrypt_envelope := λ key text, Ok ("v1:" +:+ text); json_to_string := λ _, Some "{}"
|}.

Definition sample_row : Lead := sample_lead LeadProcessing None None (json_object [("winning_bid", json_of_u64 150)]).

Definition sample_db (leads : list Lead) : Db := {|
  db_leads := list_to_map ((λ l, (lead_uuid l, l)) <$> leads); db_buyer_responses := []; db_pings := [];
  db_ping_payloads := []; db_post_payloads := []; db_pulsar_logs := []
|}.

Definition sample_store (leads : list Lead) : World := {|
  w_db := sample_db leads; w_queue := []; w_telemetry := no_telemetry; w_now := 5; w_outcomes := []
|}.

Definition sample_creation (id : Uuid) (lead_id : string) (payload : json) : LeadCreationData := {|
  lc_uuid := id; lc_event_id := "evt"; lc_lead_id := Some lead_id; lc_publisher_id := 3%N; lc_vertical_id := 4%N;
  lc_request_type := "ping"; lc_strategy := "ping_post"; lc_promise_id := Some "PR_2"; lc_buyer_id := 11%N;
  lc_campaign_id := 1%N; lc_tcpa_consent := true; lc_tcpa_language := ""; lc_is_test := false;
  lc_session_id := "s"; lc_vertical_data := JObject []; lc_first_name := Some "Ann"; lc_last_name := None;
  lc_email := None; lc_cell_phone := None; lc_street_address := None; lc_city := None; lc_state := None;
  lc_zip := None; lc_ip_address := None; lc_request_payload := payload; lc_pii_encryption_key := Some "key"
|}.

Definition sample_update (status : LeadStatus) (sold : bool) (vd : option json) : LeadUpdateData := {|
  lu_lead_id := lead_uuid sample_row; lu_status := status; lu_campaign_id := None; lu_buyer_id := None;
  lu_promise_id := None; lu_ping_id := None; lu_post_id := None; lu_sold_at := sold; lu_inprog_token := None;
  lu_vertical_data := vd
|}.

Lemma sample_db_wf : db_wf (sample_db [sample_row]).
Proof.
  split; simpl.
  - intros id l. rewrite lookup_insert_Some, lookup_empty. intros [[<- <-]|[_ ?]]; done.
  - intros id id' l l' lid. rewrite !lookup_insert_Some, !lookup_empty. intros [[<- <-]|[_ ?]] [[<- <-]|[_ ?]]; done.
  - intros row ?%elem_of_nil. done.
Qed.

Lemma flush_batch_keeps_db_wf_witness :
  db_wf (w_db (flush_batch sample_codec
    [LeadCreation (sample_creation 8%N "other" JNull); LeadUpdate (sample_update LeadSold true None)]
    (sample_store [sample_row])).2).
Proof. apply (flush_batch_keeps_db_wf sample_codec _ (sample_store [sample_row])), sample_db_wf. Defined.

Lemma creation_idempotent_witness :
  let w := sample_store [sample_row] in
  ∃ uuid_map w', batch_create_leads sample_codec
      [sample_creation 8%N (default "" (lead_lead_id sample_row)) JNull] w = (Ok uuid_map, w') ∧
    uuid_map !! 8%N = Some (lead_uuid sample_row) ∧
    (∀ id l, db_leads (w_db w) !! id = Some l →
      ∃ promise now, db_leads (w_db w') !! id = Some (set_promise_id promise now l)).
Proof.
  destruct (creation_idempotent sample_codec [sample_creation 8%N (default "" (lead_lead_id sample_row)) JNull]
    (sample_store [sample_row]) sample_db_wf) as (m & w' & Hrun & _ & Hk).
  exists m, w'. split; [exact Hrun|]. split; [|exact Hk].
  vm_compute in Hrun. injection Hrun as <- _. reflexivity.
Defined.

Lemma creation_payload_without_pii_witness :
  let c := sample_creation 8%N "other" (json_object [("zip", JString "94107"); ("first_name", JString "Ann")]) in
  ∃ lead, ping_only_payload c = json_object [("lead", JObject lead)] ∧ map_get "first_name" lead = None ∧
    map_get "zip" lead = Some (JString "94107").
Proof.
  destruct (creation_payload_without_pii
    (sample_creation 8%N "other" (json_object [("zip", JString "94107"); ("first_name", JString "Ann")])) "first_name")
    as (lead & E & Hnone & _).
  - reflexivity.
  - apply (bool_decide_unpack _). vm_compute. exact I.
  - exists lead. split; [exact E|]. split; [exact Hnone|]. vm_compute in E. by injection E as <-.
Defined.

Definition sample_response (lead : Uuid) : BuyerResponseData := {|
  br_lead_id := lead; br_campaign_id := 1%N; br_ping_id := None; br_post_id := None; br_buyer_id := Some 11%N;
  br_payload := JNull; br_lead_id_str := None
|}.

Lemma buyer_responses_delivered_witness :
  let w := sample_store [sample_row] in
  batch_insert_buyer_responses [sample_response 9%N; sample_response (lead_uuid sample_row)] ∅ w =
    (Ok tt, add_responses [response_row (lead_uuid sample_row) (sample_response (lead_uuid sample_row))] w).
Proof. cbv zeta. rewrite (buyer_responses_delivered _ _ (sample_store [sample_row]) eq_refl). vm_compute. reflexivity. Defined.

Lemma standard_update_spec_witness :
  let u := sample_update LeadPingAccepted false (Some (json_object [("k", JBool true)])) in
  ∃ w' l', update_lead u (sample_store [sample_row]) = (Ok tt, w') ∧
    db_leads (w_db w') !! lead_uuid sample_row = Some l' ∧ lead_post_id l' = Some "" ∧
    jget "winning_bid" (lead_vertical_data l') = Some (json_of_u64 150).
Proof.
  destruct (standard_update_spec (sample_update LeadPingAccepted false (Some (json_object [("k", JBool true)])))
    (sample_store [sample_row]) sample_row eq_refl eq_refl eq_refl)
    as (w' & l' & Hrun & Hdb & _ & _ & _ & _ & _ & _ & Hpost & Hvd); [vm_compute; reflexivity|].
  exists w', l'. split; [exact Hrun|]. split; [by rewrite Hdb, lookup_insert_eq|]. split; [exact Hpost|].
  rewrite (Hvd _ _ "winning_bid" eq_refl eq_refl); [reflexivity|]. apply map_of_wf.
Defined.

Lemma sold_update_replaces_vertical_data_witness :
  let u := sample_update LeadSold true (Some (json_object [("post_timing", JNull)])) in
  ∃ w' l', update_lead u (sample_store [sample_row]) = (Ok tt, w') ∧
    db_leads (w_db w') !! lead_uuid sample_row = Some l' ∧ lead_sold_at l' = Some 5%Z ∧
    jget "winning_bid" (lead_vertical_data sample_row) = Some (json_of_u64 150) ∧
    jget "winning_bid" (lead_vertical_data l') = None.
Proof.
  destruct (sold_update_replaces_vertical_data (sample_update LeadSold true (Some (json_object [("post_timing", JNull)])))
    (sample_store [sample_row]) sample_row (map_of [("post_timing", JNull)]) eq_refl eq_refl eq_refl)
    as (w' & l' & Hrun & Hl & _ & Hsold & Hvd); [vm_compute; reflexivity|reflexivity|apply map_of_wf|].
  exists w', l'. split_and!; [exact Hrun|exact Hl|exact Hsold|reflexivity|]. by rewrite (Hvd "winning_bid").
Defined.
