(* ===== verification/FlushClaims.v ===== *)
(** * What a flush stores when statements fail

    [WriteBehind.flush_batch] under any outcomes of its statements: which rows of
    [buyer_responses] it adds, and what becomes of the rows of [leads]. *)

From stdpp Require Import base list strings gmap.
From Stdlib Require Import ZArith Lia.
From S2P Require Import Prelude Float64 Platform Json Models Metrics Samples Store WriteBehind.

Open Scope string_scope.
Open Scope list_scope.

(** Two versions of a row that differ in the columns of [lead_with] alone. *)
Definition only_updated (l l' : Lead) : Prop :=
  l' = lead_with l (lead_status l') (lead_campaign_id l') (lead_buyer_id l') (lead_promise_id l') (lead_ping_id l')
         (lead_post_id l') (lead_sold_at l') (lead_vertical_data l') (lead_updated_at l').

#[export] Instance only_updated_refl : Reflexive only_updated.
Proof. intros []. reflexivity. Qed.
#[export] Instance only_updated_trans : Transitive only_updated.
Proof. intros a b c H1 H2. unfold only_updated in *. rewrite H2, H1. reflexivity. Qed.

Lemma only_updated_with l s c b pr pi po so v u : only_updated l (lead_with l s c b pr pi po so v u).
Proof. reflexivity. Qed.

Lemma only_updated_lead_id l l' : only_updated l l' → lead_lead_id l' = lead_lead_id l.
Proof. intros ->. reflexivity. Qed.

Section flush.
Context `{Platform} (codec : Codec).

(** A task of the batch names the row: an update by its uuid, a creation by its lead id. *)
Definition named (updates : list LeadUpdateData) (creations : list LeadCreationData) (id : Uuid) (l : Lead) : Prop :=
  (∃ u, u ∈ updates ∧ lu_lead_id u = id) ∨
  (∃ c lid, c ∈ creations ∧ lc_lead_id c = Some lid ∧ lead_lead_id l = Some lid).

(** No row goes; a row changes in the columns of updates only, and only when a task names
    it; a new row is that of a creation. *)
Record leads_follow (updates : list LeadUpdateData) (creations : list LeadCreationData) (db db' : Db) : Prop := {
  follow_stays id l : db_leads db !! id = Some l →
    ∃ l', db_leads db' !! id = Some l' ∧ only_updated l l' ∧ (¬ named updates creations id l → l' = l);
  follow_new id l' : db_leads db' !! id = Some l' → db_leads db !! id = None →
    ∃ c now, c ∈ creations ∧ lc_uuid c = id ∧ only_updated (new_lead codec c now) l'
}.

(** The lead a response may be stored with: its own, the one its creation was mapped to,
    or the one its ping id or its lead id finds. *)
Definition lead_of_response (creations : list LeadCreationData) (db : Db) (b : BuyerResponseData) (u : Uuid) : Prop :=
  u = br_lead_id b ∨
  (∃ c l, c ∈ creations ∧ lc_uuid c = br_lead_id b ∧ db_leads db !! u = Some l ∧ lead_lead_id l = lc_lead_id c) ∨
  (∃ row, row ∈ db_pings db ∧ br_ping_id b = Some (ping_row_ping_id row) ∧ ping_row_lead_id row = u) ∨
  (∃ l, db_leads db !! u = Some l ∧ is_Some (br_lead_id_str b) ∧ lead_lead_id l = br_lead_id_str b).

(** ** Lemmas: responses *)

Lemma exec_cases {A} (stmt : DateTime → Db → Result string A * Db) w :
  (∃ e w', exec stmt w = (Err (Failed e), w') ∧ w_db w' = w_db w) ∨
  (∃ now w', exec stmt w = (map_err Failed (stmt now (w_db w)).1, w') ∧ w_db w' = (stmt now (w_db w)).2).
Proof.
  unfold exec. destruct (w_outcomes w) as [|[e|] rest]; [right|left|right]; try (by eexists _, _);
    exists (w_now w); destruct (stmt (w_now w) (w_db w)); eexists; by split.
Qed.

Lemma select_ok_cases {A} (q : Db → option A) w :
  ∃ o w', select_ok q w = (Ok o, w') ∧ w_db w' = w_db w ∧ ∀ a, o = Some a → q (w_db w) = Some a.
Proof.
  unfold select_ok, select_one. rewrite eff_bind_eq. unfold catch at 1.
  destruct (exec_cases (λ _ db, (Ok (q db), db)) w) as [(e & w' & -> & Hdb)|(now & w' & -> & Hdb)]; cbn; eexists _, _; by split_and!.
Qed.

(** The tables a response finds its lead in; they stay as they are while responses are
    stored. *)
Section responses.
Context (db0 : Db) (Hwf : db_wf db0) (m : gmap Uuid Uuid).

Definition finds_in_db0 (w : World) : Prop := db_leads (w_db w) = db_leads db0 ∧ db_pings (w_db w) = db_pings db0.

(** The lead of a response, as far as the statements let it be found. *)
Definition candidate (b : BuyerResponseData) (u : Uuid) : Prop := m !! br_lead_id b = Some u ∨ lead_of_response [] db0 b u.

Lemma actual_lead_id_cases b w : finds_in_db0 w →
  ∃ o w', actual_lead_id m b w = (Ok o, w') ∧ w_db w' = w_db w ∧ ∀ u, o = Some u → candidate b u.
Proof using Hwf.
  intros [Hleads Hpings]. unfold actual_lead_id, candidate. destruct (m !! br_lead_id b) as [u|]; [eexists _, w; split_and!; [done|done|by left]|].
  unfold resolve_lead_uuid_for_buyer_response. rewrite eff_bind_eq.
  destruct (select_ok_cases (lead_by_uuid (br_lead_id b)) w) as (o1 & w1 & -> & Hdb1 & H1). destruct o1 as [u1|].
  { eexists _, w1. split_and!; [done|done|]. intros u [= <-]. right. left. specialize (H1 u1 eq_refl). unfold lead_by_uuid in H1.
    rewrite Hleads in H1. destruct (db_leads db0 !! br_lead_id b) as [l|] eqn:Hl; [|done]. injection H1 as <-. by apply (wf_keys _ Hwf). }
  assert (Hping : ∃ o w2, (match br_ping_id b with Some pid => select_ok (lead_by_ping_id pid) | None => mret None end) w1 = (Ok o, w2) ∧
    w_db w2 = w_db w ∧ ∀ u, o = Some u → lead_of_response [] db0 b u).
  { destruct (br_ping_id b) as [pid|] eqn:Hpid; [|by eexists _, w1].
    destruct (select_ok_cases (lead_by_ping_id pid) w1) as (o2 & w2 & -> & Hdb2 & H2). eexists _, w2. split_and!; [done|congruence|].
    intros u ->. specialize (H2 u eq_refl). rewrite Hdb1 in H2. unfold lead_by_ping_id in H2. rewrite Hpings in H2.
    destruct (List.find _ (db_pings db0)) as [row|] eqn:Hf; [|done]. injection H2 as <-.
    apply List.find_some in Hf as [Hin Heq]. apply String.eqb_eq in Heq as <-. apply list_elem_of_In in Hin.
    right; right; left. exists row. by rewrite Hpid. }
  destruct Hping as (o2 & w2 & Hrun & Hdb2 & H2). rewrite eff_bind_eq, Hrun. destruct o2 as [u2|]; [eexists _, w2; split_and!; [done|done|]; intros u [= <-]; right; by apply H2|].
  destruct (br_lead_id_str b) as [lid|] eqn:Hlid; [|by eexists _, w2]. destruct (String.eqb lid ""); [by eexists _, w2|].
  destruct (select_ok_cases (lead_by_lead_id lid) w2) as (o3 & w3 & -> & Hdb3 & H3). eexists _, w3. split_and!; [done|congruence|].
  intros u ->. specialize (H3 u eq_refl). rewrite Hdb2 in H3. unfold lead_by_lead_id in H3.
  replace (leads_by_lead_id lid (w_db w)) with (leads_by_lead_id lid db0) in H3 by (unfold leads_by_lead_id; by rewrite Hleads).
  destruct (leads_by_lead_id lid db0) as [l|] eqn:Hf; [|done]. injection H3 as <-.
  destruct (leads_by_lead_id_spec lid _ _ Hwf Hf) as [Hl Hid]. right. do 3 right. exists l. by rewrite Hlid.
Qed.

(** A task and the row it was stored as. *)
Definition stored_as (b : BuyerResponseData) (row : BuyerResponseRow) : Prop := ∃ u, row = response_row u b ∧ candidate b u.

(** Rows were added for the tasks [stored]. *)
Definition adds (stored : list BuyerResponseData) (w w' : World) : Prop :=
  ∃ rows, w_db w' = on_buyer_responses (λ l, l ++ rows) (w_db w) ∧ Forall2 stored_as stored rows.

Lemma adds_nil w w' : w_db w' = w_db w → adds [] w w'.
Proof. unfold adds. intros ->. exists []. split; [|constructor]. destruct (w_db w). unfold on_buyer_responses. cbn. by rewrite app_nil_r. Qed.

Lemma adds_app stored stored' w w' w'' : adds stored w w' → adds stored' w' w'' → adds (stored ++ stored') w w''.
Proof.
  intros (rows & Hdb & H1) (rows' & Hdb' & H2). exists (rows ++ rows'). rewrite Hdb', Hdb. split; [unfold on_buyer_responses; cbn; by rewrite app_assoc|].
  by apply Forall2_app.
Qed.

Lemma adds_finds stored w w' : adds stored w w' → finds_in_db0 w → finds_in_db0 w'.
Proof. by intros (rows & Hdb & _) [H1 H2]; unfold finds_in_db0; rewrite Hdb. Qed.

Lemma insert_buyer_response_cases u b w : candidate b u →
  (∃ w', insert_buyer_response u b w = (Ok tt, w') ∧ adds [b] w w') ∨
  (∃ e w', insert_buyer_response u b w = (Err (Failed e), w') ∧ adds [] w w').
Proof.
  intros Hu. unfold insert_buyer_response. set (stmt := λ (_ : DateTime) db, _).
  destruct (exec_cases stmt w) as [(e & w' & -> & Hdb)|(now & w' & -> & Hdb)]; [right; eexists _, _; by split; [|apply adds_nil]|].
  revert Hdb. unfold stmt. destruct (db_leads (w_db w) !! u); intros Hdb; [left|right; eexists _, _; by split; [|apply adds_nil]].
  eexists. split; [done|]. exists [response_row u b]. split; [done|]. constructor; [|constructor]. by exists u.
Qed.

Lemma retry_insert_adds n u b w : candidate b u →
  ∃ w' stored, retry_insert n u b w = (Ok tt, w') ∧ sublist stored [b] ∧ adds stored w w'.
Proof.
  intros Hu. revert w. induction n as [|n IH]; intros w; cbn [retry_insert].
  { exists w, []. split_and!; [done|apply sublist_nil_l|by apply adds_nil]. }
  rewrite eff_bind_eq. unfold catch at 1. destruct (insert_buyer_response_cases u b w Hu) as [(w1 & -> & H1)|(e & w1 & -> & H1)].
  - by exists w1, [b].
  - destruct (IH w1) as (w2 & stored & -> & Hsub & H2). exists w2, stored. split_and!; [done|done|]. by apply (adds_app [] stored w w1 w2).
Qed.

Lemma retry_response_adds b w : finds_in_db0 w →
  ∃ w' stored, retry_response m b w = (Ok tt, w') ∧ sublist stored [b] ∧ adds stored w w'.
Proof using Hwf.
  intros Hw. unfold retry_response. rewrite eff_bind_eq. destruct (actual_lead_id_cases b w Hw) as (o & w1 & -> & Hdb & Ho).
  destruct o as [u|]; [|exists w1, []; split_and!; [done|apply sublist_nil_l|by apply adds_nil]].
  destruct (retry_insert_adds 3 u b w1 (Ho u eq_refl)) as (w2 & stored & -> & Hsub & H2). exists w2, stored. split_and!; [done|done|].
  apply (adds_app [] stored w w1 w2); [by apply adds_nil|done].
Qed.

Lemma retry_all_adds rs w : finds_in_db0 w →
  ∃ w' stored, for_each (retry_response m) rs w = (Ok tt, w') ∧ sublist stored rs ∧ adds stored w w'.
Proof using Hwf.
  revert w. induction rs as [|b rs IH]; intros w Hw; cbn [for_each].
  { exists w, []. split_and!; [done|done|by apply adds_nil]. }
  rewrite eff_bind_eq. destruct (retry_response_adds b w Hw) as (w1 & stored & -> & Hsub & H1).
  destruct (IH w1) as (w2 & stored' & -> & Hsub' & H2); [by eapply adds_finds|]. exists w2, (stored ++ stored'). split_and!; [done| |by eapply adds_app].
  apply (sublist_app stored [b] stored' rs); done.
Qed.

Lemma insert_responses_adds rs w : finds_in_db0 w →
  ∃ again w' stored, insert_responses m rs w = (Ok again, w') ∧ stored ++ again ⊆+ rs ∧ adds stored w w'.
Proof using Hwf.
  revert w. induction rs as [|b rs IH]; intros w Hw; cbn [insert_responses].
  { exists [], w, []. split_and!; [done|done|by apply adds_nil]. }
  rewrite eff_bind_eq. destruct (actual_lead_id_cases b w Hw) as (o & w1 & -> & Hdb & Ho).
  assert (Hstep : ∃ again w2 stored, (match o with
      | None => mret true
      | Some u => r ← catch (insert_buyer_response u b); mret (match r with Ok _ => false | Err e => str_contains fkey_name e end)
      end) w1 = (Ok again, w2) ∧ adds stored w w2 ∧ (stored = [] ∨ stored = [b] ∧ again = false)).
  { destruct o as [u|]; [|exists true, w1, []; split_and!; [done|by apply adds_nil|by left]].
    rewrite eff_bind_eq. unfold catch. destruct (insert_buyer_response_cases u b w1 (Ho u eq_refl)) as [(w2 & -> & H2)|(e & w2 & -> & H2)].
    - exists false, w2, [b]. split_and!; [done| |by right]. apply (adds_app [] [b] w w1 w2); [by apply adds_nil|done].
    - eexists _, w2, []. split_and!; [done| |by left]. apply (adds_app [] [] w w1 w2); [by apply adds_nil|done]. }
  destruct Hstep as (again & w2 & stored & Hrun & Hadds & Hone). rewrite eff_bind_eq, Hrun, eff_bind_eq.
  destruct (IH w2) as (more & w3 & stored' & -> & Hsub & Hadds'); [by eapply adds_finds|].
  eexists _, w3, (stored ++ stored'). split_and!; [done| |by eapply adds_app].
  destruct Hone as [->|[-> ->]]; cbn; [|by apply submseteq_skip].
  destruct again; [|by apply submseteq_cons]. rewrite <-Permutation_middle. by apply submseteq_skip.
Qed.

Lemma responses_add rs w : finds_in_db0 w →
  ∃ w' stored, batch_insert_buyer_responses rs m w = (Ok tt, w') ∧ stored ⊆+ rs ∧ adds stored w w'.
Proof using Hwf.
  intros Hw. unfold batch_insert_buyer_responses. rewrite eff_bind_eq.
  destruct (insert_responses_adds rs w Hw) as (again & w1 & stored & -> & Hsub & H1).
  destruct (retry_all_adds again w1) as (w2 & stored' & -> & Hsub' & H2); [by eapply adds_finds|].
  exists w2, (stored ++ stored'). split_and!; [done| |by eapply adds_app]. etrans; [|exact Hsub].
  by apply submseteq_app; [|apply sublist_submseteq].
Qed.
End responses.

(** ** Lemmas: leads *)

Section leads.
Context (updates : list LeadUpdateData) (creations : list LeadCreationData).
Abbreviation follow := (leads_follow updates creations).

Definition flush_rel (db db' : Db) : Prop := db_wf db → db_wf db' ∧ follow db db'.

#[local] Instance follow_refl : Reflexive follow.
Proof. intros db. split; [intros id l Hl; by exists l|]. intros id l -> [=]. Qed.

Lemma named_updated id l l' : only_updated l l' → named updates creations id l' → named updates creations id l.
Proof. unfold named. intros ->%only_updated_lead_id. done. Qed.

#[local] Instance follow_trans : Transitive follow.
Proof.
  intros a b c [S1 N1] [S2 N2]. split.
  - intros id l Hl. destruct (S1 id l Hl) as (l1 & Hl1 & U1 & K1). destruct (S2 id l1 Hl1) as (l2 & Hl2 & U2 & K2).
    exists l2. split; [done|]. split; [by etrans|]. intros Hn. rewrite K2; [by apply K1|]. intros Hn'. by apply Hn, (named_updated id l l1).
  - intros id l' Hl' Hnone. destruct (db_leads b !! id) as [l1|] eqn:Hl1; [|by apply N2].
    destruct (N1 id l1 Hl1 Hnone) as (cr & now & Hc & Hid & U1). destruct (S2 id l1 Hl1) as (l2 & Hl2 & U2 & _).
    rewrite Hl' in Hl2. injection Hl2 as <-. exists cr, now. split_and!; [done..|by etrans].
Qed.

#[local] Instance flush_rel_refl : Reflexive flush_rel.
Proof. by split. Qed.
#[local] Instance flush_rel_trans : Transitive flush_rel.
Proof. intros a b c H1 H2 Hwf. destruct (H1 Hwf) as [Hwf1 F1]. destruct (H2 Hwf1) as [Hwf2 F2]. split; [done|by etrans]. Qed.

Lemma flush_rel_same db db' : db_leads db' = db_leads db → wf_kept db db' → flush_rel db db'.
Proof. intros E Hk Hwf. split; [by apply Hk|]. split; rewrite E; [intros id l Hl; by exists l|]. by intros id l ->. Qed.

Lemma insert_lead_follows c : c ∈ creations → respects (db_rel flush_rel) (insert_lead codec c).
Proof.
  intros Hc. apply respects_exec; [apply _|]. intros now db Hwf.
  destruct (lid ← lc_lead_id c; leads_by_lead_id lid db) as [l|] eqn:Hf; cbn.
  - split; [by apply update_lead_row_wf|]. apply bind_Some in Hf as (lid & Hlid & Hf).
    destruct (leads_by_lead_id_spec lid db l Hwf Hf) as [Hl Hid]. split; cbn.
    + intros id l0 Hl0. destruct (decide (lead_uuid l = id)) as [<-|Hne].
      * rewrite lookup_alter_eq, Hl0. eexists. split; [done|]. split; [apply only_updated_with|]. intros Hn. destruct Hn.
        right. exists c, lid. rewrite Hl in Hl0. by injection Hl0 as <-.
      * rewrite lookup_alter_ne by done. by exists l0.
    + intros id l' Hl' Hnone. exfalso. destruct (decide (lead_uuid l = id)) as [<-|Hne]; [by rewrite Hl in Hnone|].
      rewrite lookup_alter_ne in Hl' by done. congruence.
  - unfold violates_unique. destruct (bool_decide _) eqn:Hn; cbn; [by apply flush_rel_refl|].
    destruct (existsb _ _); cbn; [by apply flush_rel_refl|]. apply bool_decide_eq_false, eq_None_not_Some in Hn. split.
    + apply insert_lead_row_wf; [done| |done]. intros lid E. by rewrite E in Hf.
    + split; cbn.
      * intros id l Hl. exists l. rewrite lookup_insert_ne by congruence. done.
      * intros id l' Hl' Hnone. apply lookup_insert_Some in Hl' as [[<- <-]|[_ Hl']]; [|congruence]. by exists c, now.
Qed.

Lemma create_lead_follows c : c ∈ creations → respects (db_rel flush_rel) (create_lead codec c).
Proof.
  intros Hc. unfold create_lead. apply respects_bind; [apply _| |].
  - apply respects_catch, respects_transaction; [apply _|by apply insert_lead_follows].
  - intros [u|e]; [|by apply respects_ret, _]. apply respects_bind; [apply _| |intros _; apply respects_ret, _].
    apply respects_ignore_error; [apply _..|]. eapply respects_mono, create_ping_same_leads.
    intros db db' [H1 H2]. by apply flush_rel_same, same_leads_wf.
Qed.

Lemma batch_create_follows cs : (∀ c, c ∈ cs → c ∈ creations) → respects (db_rel flush_rel) (batch_create_leads codec cs).
Proof.
  induction cs as [|c cs IH]; intros Hcs; cbn [batch_create_leads]; [apply respects_ret, _|].
  apply respects_bind; [apply _|apply create_lead_follows, Hcs; by left|]. intros created.
  apply respects_bind; [apply _|apply IH; intros c' Hc'; apply Hcs; by right|intros m; apply respects_ret, _].
Qed.

Lemma update_lead_follows u : u ∈ updates → respects (db_rel flush_rel) (update_lead u).
Proof.
  intros Hu. assert (Hup : ∀ f : DateTime → Lead → Lead, (∀ now l, only_updated l (f now l)) →
    respects (db_rel flush_rel) (ignore_error (exec_update (λ now, update_lead_row (f now) (lu_lead_id u))))).
  { intros f Hf. apply respects_ignore_error; [apply _..|]. apply respects_exec; [apply _|]. intros now db Hwf. cbn. split.
    - apply update_lead_row_wf; [|done]. intros l. by rewrite (Hf now l).
    - split; cbn.
      + intros id l Hl. destruct (decide (lu_lead_id u = id)) as [<-|Hne]; [|rewrite lookup_alter_ne by done; by exists l].
        rewrite lookup_alter_eq, Hl. eexists. split; [done|]. split; [apply Hf|]. intros Hn. destruct Hn. left. by exists u.
      + intros id l' Hl' Hnone. exfalso. destruct (decide (lu_lead_id u = id)) as [<-|Hne];
          [rewrite lookup_alter_eq, Hnone in Hl'; done|rewrite lookup_alter_ne in Hl' by done; congruence]. }
  unfold update_lead. apply respects_bind; [apply _| |intros []].
  - destruct (should_update_as_sold u); [|apply respects_ret, _].
    apply (Hup (λ now, match lu_inprog_token u with Some t => when_post_id t (sold_columns u now) | None => sold_columns u now end)).
    intros now l. destruct (lu_inprog_token u); [|apply only_updated_with]. unfold when_post_id. case_bool_decide; [apply only_updated_with|reflexivity].
  - destruct (lu_inprog_token u) as [t|].
    + apply (Hup (λ _, when_post_id t (set_post_id (Some "")))). intros now l. unfold when_post_id. case_bool_decide; [apply only_updated_with|reflexivity].
    + apply (Hup (λ now l, set_update_columns u (lead_sold_at l) _ now l)). intros now l. apply only_updated_with.
Qed.

Lemma updates_follow us : (∀ u, u ∈ us → u ∈ updates) → respects (db_rel flush_rel) (batch_update_leads us).
Proof.
  induction us as [|u us IH]; intros Hus; cbn [batch_update_leads for_each]; [apply respects_ret, _|].
  apply respects_bind; [apply _|apply update_lead_follows, Hus; by left|]. intros _. apply IH. intros u' Hu'. apply Hus. by right.
Qed.

Lemma updates_stage : respects (db_rel flush_rel) (ignore_error (batch_update_leads updates)).
Proof. apply respects_ignore_error; [apply _..|]. by apply updates_follow. Qed.
End leads.

(** What the updates of leads leave alone. *)
Definition same_but_leads (db db' : Db) : Prop :=
  db_buyer_responses db' = db_buyer_responses db ∧ db_pings db' = db_pings db.
#[local] Instance same_but_leads_refl : Reflexive same_but_leads.
Proof. done. Qed.
#[local] Instance same_but_leads_trans : Transitive same_but_leads.
Proof. intros a b c [H1 H2] [H1' H2']. split; congruence. Qed.

Lemma update_lead_same_but_leads u : respects (db_rel same_but_leads) (update_lead u).
Proof.
  assert (Hup : ∀ f : DateTime → Db → Db, (∀ now db, same_but_leads db (f now db)) →
    respects (db_rel same_but_leads) (ignore_error (exec_update f))).
  { intros f Hf. apply respects_ignore_error; [apply _..|]. apply respects_exec; [apply _|]. intros now db. apply Hf. }
  unfold update_lead, update_sold, reset_inprog_token, update_standard. apply respects_bind; [apply _| |intros []].
  - destruct (should_update_as_sold u); [by apply Hup|apply respects_ret, _].
  - destruct (lu_inprog_token u); by apply Hup.
Qed.

Definition same_responses (db db' : Db) : Prop := db_buyer_responses db' = db_buyer_responses db.
#[local] Instance same_responses_refl : Reflexive same_responses.
Proof. done. Qed.
#[local] Instance same_responses_trans : Transitive same_responses.
Proof. unfold same_responses. intros a b c H1 H2. congruence. Qed.

Lemma batch_create_same_responses cs : respects (db_rel same_responses) (batch_create_leads codec cs).
Proof.
  induction cs as [|c cs IH]; cbn [batch_create_leads]; [apply respects_ret, _|].
  apply respects_bind; [apply _| |intros created; apply respects_bind; [apply _|done|intros m; apply respects_ret, _]].
  unfold create_lead. apply respects_bind; [apply _| |].
  - apply respects_catch, respects_transaction; [apply _|]. apply respects_exec; [apply _|]. intros now db.
    destruct (lid ← _; _); [done|]. by destruct (violates_unique c db).
  - intros [u|e]; [|apply respects_ret, _]. apply respects_bind; [apply _| |intros _; apply respects_ret, _].
    apply respects_ignore_error; [apply _..|]. eapply respects_mono, create_ping_same_leads. by intros db db' [_ ?].
Qed.

(** Statements that do not fail go on not failing. *)
Definition stays_quiet (w w' : World) : Prop := w_outcomes w = [] → w_outcomes w' = [].
#[local] Instance stays_quiet_refl : Reflexive stays_quiet.
Proof. intros w Hw. exact Hw. Qed.
#[local] Instance stays_quiet_trans : Transitive stays_quiet.
Proof. intros a b c H1 H2 Hw. auto. Qed.

Lemma quiet_exec {A} (stmt : DateTime → Db → Result string A * Db) : respects stays_quiet (exec stmt).
Proof. intros w Hw. by rewrite exec_healthy. Qed.

Lemma quiet_commit before : respects stays_quiet (commit before).
Proof.
  intros w. pose proof (quiet_exec (λ _ db, (Ok tt, db)) w) as Hq. unfold commit.
  by destruct (exec _ w) as [[[]|e] w'].
Qed.

Ltac quiet_step :=
  lazymatch goal with
  | |- respects _ (exec _) => apply quiet_exec
  | |- respects _ (exec_update _) => apply quiet_exec
  | |- respects _ (commit _) => apply quiet_commit
  | |- respects _ (mret _) => apply respects_ret, _
  | |- respects _ (eff_gets _) => apply respects_gets, _
  | |- respects _ (eff_err _) => apply (respects_lift stays_quiet (Err _))
  | |- respects _ (eff_modify (set_db _)) => intros ? Hquiet; exact Hquiet
  | |- respects _ (catch _) => apply respects_catch
  | |- respects _ (eff_try _) => apply respects_try
  | |- respects _ (ignore_error _) => apply respects_bind; [apply _| |intros ?]
  | |- respects _ (for_each _ _) => apply respects_for_each; [apply _..|intros ?]
  | |- respects _ (_ ≫= _) => apply respects_bind; [apply _| |intros ?]
  | |- respects _ (match ?x with _ => _ end) => destruct x
  end.

Lemma quiet_create cs : respects stays_quiet (batch_create_leads codec cs).
Proof.
  induction cs as [|c cs IH]; cbn [batch_create_leads]; [quiet_step|].
  unfold create_lead, transaction, insert_lead, create_ping, begin_transaction, insert_ping, insert_creation_payload.
  repeat first [exact IH | quiet_step].
Qed.

(** Two databases with the same leads but for what updates change. *)
Lemma follow_mono us creations db db' : leads_follow us [] db db' → leads_follow us creations db db'.
Proof.
  intros [S N]. split.
  - intros id l Hl. destruct (S id l Hl) as (l' & Hl' & U & K). exists l'. split_and!; [done..|]. intros Hn. apply K.
    intros [Hu|(c & _ & Hc%elem_of_nil & _)]; [|done]. apply Hn. by left.
  - intros id l' Hl' Hnone. by destruct (N id l' Hl' Hnone) as (c & _ & Hc%elem_of_nil & _).
Qed.

Lemma follow_stored us db db' id : leads_follow us [] db db' → is_Some (db_leads db' !! id) → is_Some (db_leads db !! id).
Proof.
  intros [_ N] [l' Hl']. destruct (db_leads db !! id) eqn:Hl; [done|]. by destruct (N id l' Hl' Hl) as (c & _ & Hc%elem_of_nil & _).
Qed.

(** The lead of a response is still its lead after the updates. *)
Lemma candidate_belongs us creations db0 db m b u :
  (∀ request u, m !! request = Some u → ∃ c l, c ∈ creations ∧ lc_uuid c = request ∧ db_leads db0 !! u = Some l ∧ lead_lead_id l = lc_lead_id c) →
  leads_follow us [] db0 db → db_pings db = db_pings db0 → candidate db0 m b u → lead_of_response creations db b u.
Proof.
  intros Hm [S _] Hpings. unfold candidate, lead_of_response. rewrite Hpings. intros [Hu|[->|[(c & _ & Hc%elem_of_nil & _)|[Hp|(l & Hl & Hsome & Hid)]]]].
  - destruct (Hm _ _ Hu) as (c & l & Hc & Heq & Hl & Hid). destruct (S u l Hl) as (l' & Hl' & U & _).
    right; left. exists c, l'. split_and!; [done..|]. by rewrite (only_updated_lead_id l l').
  - by left.
  - done.
  - by do 2 right; left.
  - destruct (S u l Hl) as (l' & Hl' & U & _). do 3 right. exists l'. split_and!; [done..|]. by rewrite (only_updated_lead_id l l').
Qed.

(** A response is delivered to its own lead, or the one its creation was mapped to. *)
Lemma delivered_own (creations : list LeadCreationData) db m b :
  (∀ request u, m !! request = Some u → ∃ c l, c ∈ creations ∧ lc_uuid c = request ∧ db_leads db !! u = Some l ∧ lead_lead_id l = lc_lead_id c) →
  db_wf db → is_Some (db_leads db !! br_lead_id b) → ∃ u, delivered m db b = Some (response_row u b).
Proof.
  intros Hm Hwf [l Hl]. unfold delivered, reachable_lead, lead_by_uuid. destruct (m !! br_lead_id b) as [u|] eqn:Hu.
  - destruct (Hm _ _ Hu) as (c & l' & _ & _ & Hl' & _). cbn. rewrite Hl'. by exists u.
  - rewrite Hl. cbn. rewrite (wf_keys _ Hwf _ _ Hl), Hl. by exists (br_lead_id b).
Qed.

Lemma logs_stage logs w :
  same_rows (w_db w) (w_db (ignore_error (batch_insert_pulsar_logs logs) w).2) ∧
  stays_quiet w (ignore_error (batch_insert_pulsar_logs logs) w).2.
Proof.
  split.
  - apply (respects_ignore_error same_rows). destruct logs; [apply respects_ret, _|]. by apply respects_exec; [apply _|].
  - revert w. change (respects stays_quiet (ignore_error (batch_insert_pulsar_logs logs))).
    unfold batch_insert_pulsar_logs. repeat quiet_step.
Qed.

Lemma ignore_error_run (m : service unit) w : safe m → ignore_error m w = (Ok tt, (ignore_error m w).2).
Proof. intros Hm. rewrite (surjective_pairing (ignore_error m w)) at 1. by rewrite ignore_error_ok. Qed.

Lemma flush_run batch w m w1 w3 : batch ≠ [] →
  batch_create_leads codec (lead_creations_of batch) w = (Ok m, w1) →
  batch_insert_buyer_responses (buyer_responses_of batch) m
    (ignore_error (batch_insert_pulsar_logs (pulsar_logs_of batch)) w1).2 = (Ok tt, w3) →
  (flush_batch codec batch w).2 =
    (ignore_error (batch_update_payloads (payload_updates_of batch))
       (ignore_error (batch_update_leads (lead_updates_of batch)) w3).2).2.
Proof.
  intros Hne Hrun1 Hrun3. unfold flush_batch. destruct batch as [|t0 ts]; [done|].
  rewrite eff_bind_eq. unfold catch at 1. rewrite Hrun1. cbv zeta iota.
  rewrite eff_bind_eq, ignore_error_run by (destruct (pulsar_logs_of _); [apply panics_ret|apply panics_exec]).
  rewrite eff_bind_eq. unfold ignore_error at 1. rewrite eff_bind_eq. unfold catch at 1. rewrite Hrun3. cbn [mret eff_ret].
  by rewrite eff_bind_eq, ignore_error_run by (apply panics_for_each, update_lead_safe).
Qed.

(** The stages of a flush: creations, the responses, and the updates. *)
Lemma flush_stages batch w : db_wf (w_db w) → batch ≠ [] →
  let w' := (flush_batch codec batch w).2 in
  let ups := lead_updates_of batch in
  let cres := lead_creations_of batch in
  ∃ m w2 w3,
    (∀ request u, m !! request = Some u → ∃ c l, c ∈ cres ∧ lc_uuid c = request ∧ db_leads (w_db w2) !! u = Some l ∧ lead_lead_id l = lc_lead_id c) ∧
    db_wf (w_db w2) ∧ leads_follow ups cres (w_db w) (w_db w2) ∧ db_buyer_responses (w_db w2) = db_buyer_responses (w_db w) ∧ stays_quiet w w2 ∧
    batch_insert_buyer_responses (buyer_responses_of batch) m w2 = (Ok tt, w3) ∧
    db_wf (w_db w') ∧ leads_follow ups [] (w_db w3) (w_db w') ∧
    db_buyer_responses (w_db w') = db_buyer_responses (w_db w3) ∧ db_pings (w_db w') = db_pings (w_db w3).
Proof.
  intros Hwf Hne w' ups cres. set (w1 := (batch_create_leads codec cres w).2).
  destruct (batch_create_leads_spec codec cres w _ w1 Hwf (surjective_pairing _)) as (_ & m & Hm & Hmap).
  destruct (batch_create_follows ups cres cres (λ c Hc, Hc) w Hwf) as [Hwf1 F1]. fold w1 in Hwf1, F1.
  pose proof (batch_create_same_responses cres w) as R1. fold w1 in R1. unfold db_rel, same_responses in R1.
  set (logs := batch_insert_pulsar_logs (pulsar_logs_of batch)). set (w2 := (ignore_error logs w1).2).
  pose proof (logs_stage (pulsar_logs_of batch) w1) as Hlogs. fold logs w2 in Hlogs.
  destruct Hlogs as [(L2 & R2 & P2) Hq2].
  assert (Hwf2 : db_wf (w_db w2)) by (by apply (same_leads_wf (w_db w1))).
  destruct (responses_add (w_db w2) Hwf2 m (buyer_responses_of batch) w2) as (w3 & stored & Hrun3 & _ & _); [done|].
  assert (Hwf3 : db_wf (w_db w3)) by (pose proof (responses_wf (buyer_responses_of batch) m w2 Hwf2) as Hk; by rewrite Hrun3 in Hk).
  set (w4 := (ignore_error (batch_update_leads ups) w3).2).
  exists m, w2, w3. split; [by rewrite L2|]. split; [done|]. split; [eapply follow_trans; [exact F1|split; rewrite L2; [intros id l Hl; by exists l|by intros id l ->]]|].
  split; [by rewrite R2|]. split; [etrans; [apply quiet_create|exact Hq2]|]. split; [done|].
  destruct (updates_stage ups [] w3 Hwf3) as [Hwf4 F4]. fold w4 in Hwf4, F4.
  assert (S4 : same_but_leads (w_db w3) (w_db w4)).
  { apply (respects_ignore_error same_but_leads), respects_for_each; [apply _..|exact update_lead_same_but_leads]. }
  assert (S5 : same_rows (w_db w4) (w_db w')).
  { replace (w_db w') with (w_db (ignore_error (batch_update_payloads (payload_updates_of batch)) w4).2).
    - apply (respects_ignore_error same_rows), respects_for_each; [apply _..|exact update_payload_same_rows].
    - subst w' w4. rewrite (flush_run batch w m w1 w3 Hne); [done| |done].
      rewrite (surjective_pairing (batch_create_leads codec (lead_creations_of batch) w)). by f_equal. }
  destruct S4 as [R4 P4]. destruct S5 as (L5 & R5 & P5). split; [by apply (same_leads_wf (w_db w4))|].
  split; [|split; congruence]. destruct F4 as [S N]. by split; rewrite L5.
Qed.

(** ** Property *)

(** C34: A flush never fails.  Whatever statements fail in it: each response task is stored at
    most once, as one row that has its columns and a lead it lead_of_response to, and no row of
    [buyer_responses] goes or changes; no lead goes, one that no task names stays as it is,
    the others change in the columns of updates only, and a new one is that of a creation;
    keys stay unique and responses refer to leads.  When no statement fails a response whose
    lead is there at the end is stored. *)
Theorem flush_stores_at_most_once (batch : list BackgroundTask) (w : World) :
  db_wf (w_db w) →
  let w' := (flush_batch codec batch w).2 in
  (flush_batch codec batch w).1 = Ok tt ∧ db_wf (w_db w') ∧
  leads_follow (lead_updates_of batch) (lead_creations_of batch) (w_db w) (w_db w') ∧
  ∃ stored rows,
    db_buyer_responses (w_db w') = db_buyer_responses (w_db w) ++ rows ∧ stored ⊆+ buyer_responses_of batch ∧
    Forall2 (λ b row, ∃ u, row = response_row u b ∧ lead_of_response (lead_creations_of batch) (w_db w') b u) stored rows ∧
    (w_outcomes w = [] → ∀ b, b ∈ buyer_responses_of batch → is_Some (db_leads (w_db w') !! br_lead_id b) →
      ∃ u, response_row u b ∈ rows).
Proof.
  intros Hwf w'. split; [apply flush_batch_ok|]. destruct (decide (batch = [])) as [->|Hne].
  { split_and!; [done|apply follow_refl|]. exists [], []. cbn. rewrite app_nil_r. split_and!; [done..|]. by intros _ b Hb%elem_of_nil. }
  destruct (flush_stages batch w Hwf Hne) as (m & w2 & w3 & Hmap & Hwf2 & F2 & R2 & Hq & Hrun & Hwf' & F & R & Pg). fold w' in Hwf', F, R, Pg.
  destruct (responses_add (w_db w2) Hwf2 m (buyer_responses_of batch) w2) as (w3' & stored & Hrun' & Hsub & rows & Hdb3 & Hrows); [done|].
  rewrite Hrun in Hrun'. injection Hrun' as <-.
  assert (L3 : leads_follow (lead_updates_of batch) [] (w_db w2) (w_db w')) by (destruct F as [S N]; revert S N; rewrite Hdb3; by split).
  split; [done|]. split; [eapply follow_trans; [exact F2|by apply follow_mono]|].
  exists stored, rows. split; [by rewrite R, Hdb3, <-R2|]. split; [done|]. split.
  - eapply Forall2_impl; [exact Hrows|]. intros b row (u & -> & Hu). exists u. split; [done|].
    eapply candidate_belongs; [exact Hmap|exact L3| |exact Hu]. by rewrite Pg, Hdb3.
  - intros Hw b Hb Hsome. rewrite responses_healthy in Hrun by auto. injection Hrun as <-.
    destruct (delivered_own _ _ _ b Hmap Hwf2 (follow_stored _ _ _ _ L3 Hsome)) as [u Hu]. exists u.
    replace rows with (omap (delivered m (w_db w2)) (buyer_responses_of batch)).
    + apply list_elem_of_omap. by exists b.
    + apply (app_inv_head (db_buyer_responses (w_db w2))). by injection Hdb3.
Qed.
End flush.

(** ** Witness *)

#[local] Existing Instance reference_platform.

Definition failing_store : World := {|
  w_db := sample_db [sample_row]; w_queue := []; w_telemetry := no_telemetry; w_now := 5;
  w_outcomes := [None; None; None; None; None; None; None; Some "connection reset"]
|}.

Definition failing_batch : list BackgroundTask :=
  [LeadCreation (sample_creation 8%N "other" JNull); BuyerResponseTask (sample_response (lead_uuid sample_row));
   LeadUpdate (sample_update LeadSold true None)].

Lemma flush_stores_at_most_once_witness :
  ∃ stored, stored ⊆+ [sample_response (lead_uuid sample_row)] ∧
    length (db_buyer_responses (w_db (flush_batch sample_codec failing_batch failing_store).2)) = length stored.
Proof.
  destruct (flush_stores_at_most_once sample_codec failing_batch failing_store sample_db_wf)
    as (_ & _ & _ & stored & rows & Hdb & Hsub & Hrows & _).
  exists stored. split; [exact Hsub|]. rewrite Hdb. cbn. symmetry. by eapply Forall2_length.
Defined.
