(* ===== verification/Encryption.v ===== *)
(** * Encryption of personal data

    [crates/core/src/encryption.rs]: the plain envelope (base64 of nonce and
    ciphertext), the JSON envelope of the lead columns, and the key they use.  The
    ciphers, base64, UTF-8 validation and the JSON text are of other crates and of
    the standard library ([Crypto], with the laws [CryptoLaws]); the framing is the
    program's.  [envelope_codec] is this encryption as the queue uses it, and
    [decrypt_pii] is how [routes/dashboard.rs] reads a column back. *)

From stdpp Require Import base list strings gmap.
From Stdlib Require Import Ascii String ZArith Lia.
From S2P Require Import Prelude Float64 Platform Json Models Metrics Samples Store WriteBehind.

Open Scope string_scope.
Open Scope list_scope.

(** ** What the program links against *)

(** Bytes are strings.  The ciphers of AES-256-GCM take a key of 32 bytes and a nonce
    of 12, and append a tag of 16 bytes. *)
Class Crypto : Type := {
  aes_gcm_encrypt : string → string → string → Result string string;
  aes_gcm_decrypt : string → string → string → Result string string;
  hmac_sha256 : string → string → string;
  pbkdf2_hmac_sha1 : string → string → Z → string;
  base64_decode : string → Result string string;
  string_from_utf8 : string → Result string string;
  json_text : json → string;
  json_from_text : string → Result string json
}.

(** The JSON of an envelope: payload, IV and tag, in base64. *)
Definition envelope_value (p iv tag : string) : json := json_object [
  ("p", JString p); ("h", json_object [("iv", JString iv); ("at", JString tag); ("c", JBool false)])].

(** [is_str text]: the bytes of a Rust string. *)
Class CryptoLaws (P : Platform) (C : Crypto) (is_str : string → Prop) : Prop := {
  aes_gcm_correct key nonce p c :
    String.length key = 32 → String.length nonce = 12 → aes_gcm_encrypt key nonce p = Ok c →
    String.length c = (String.length p + 16)%nat ∧ aes_gcm_decrypt key nonce c = Ok p;
  hmac_sha256_length key p : String.length (hmac_sha256 key p) = 32;
  pbkdf2_length secret salt n : String.length (pbkdf2_hmac_sha1 secret salt n) = 32;
  base64_roundtrip b : base64_decode (base64_encode b) = Ok b;
  utf8_str text : is_str text → string_from_utf8 text = Ok text;
  json_text_roundtrip p iv tag : json_from_text (json_text (envelope_value p iv tag)) = Ok (envelope_value p iv tag)
}.

(** ** Slices *)

Definition take_bytes (n : nat) (s : string) : string := String.substring 0 n s.
Definition drop_bytes (n : nat) (s : string) : string := String.substring n (String.length s - n) s.

(** ** Operations *)

Section encryption.
Context `{Platform} `{Crypto}.

(** The cipher of a key. *)
Record EncryptionService : Type := { cipher_key : string }.

Definition EncryptionService_new (key : string) : Result string EncryptionService :=
  if negb (String.length key =? 32)%nat then Err "Encryption key must be 32 bytes" else Ok {| cipher_key := key |}.

(** [nonce]: the 12 bytes drawn. *)
Definition EncryptionService_encrypt (svc : EncryptionService) (nonce plaintext : string) : Result string string :=
  ciphertext ← map_err (λ e, "Encryption failed: " +:+ e) (aes_gcm_encrypt (cipher_key svc) nonce plaintext);
  Ok (base64_encode (nonce +:+ ciphertext)).

Definition EncryptionService_decrypt (svc : EncryptionService) (ciphertext : string) : Result string string :=
  combined ← base64_decode ciphertext;
  if (String.length combined <? 12)%nat then Err "Invalid ciphertext length"
  else
    plaintext ← map_err (λ e, "Decryption failed: " +:+ e)
      (aes_gcm_decrypt (cipher_key svc) (take_bytes 12 combined) (drop_bytes 12 combined));
    string_from_utf8 plaintext.

Definition derive_key_from_secret (secret salt : string) : string := pbkdf2_hmac_sha1 secret salt 65536.

(** The IV: of the plaintext, or the 12 bytes drawn. *)
Definition envelope_iv (key_bytes plaintext : string) (deterministic : bool) (drawn : string) : string :=
  if deterministic then take_bytes 12 (hmac_sha256 key_bytes plaintext) else drawn.

Definition EncryptionService_encrypt_envelope (key_bytes plaintext : string) (deterministic : bool) (drawn : string)
    : Result string string :=
  if negb (String.length key_bytes =? 32)%nat then Err "Encryption key must be 32 bytes"
  else
    let iv := envelope_iv key_bytes plaintext deterministic drawn in
    ciphertext_with_tag ← map_err (λ e, "encrypt failed: " +:+ e) (aes_gcm_encrypt key_bytes iv plaintext);
    if (String.length ciphertext_with_tag <? 16)%nat then Err "ciphertext too short"
    else
      let tag_pos := (String.length ciphertext_with_tag - 16)%nat in
      Ok (json_text (envelope_value (base64_encode (take_bytes tag_pos ciphertext_with_tag)) (base64_encode iv)
                       (base64_encode (drop_bytes tag_pos ciphertext_with_tag)))).

(** [Key::from_slice] panics for a key of another length. *)
Definition key_from_slice (key_bytes : string) : Panics string :=
  if (String.length key_bytes =? 32)%nat then Ok key_bytes
  else Err "assertion `left == right` failed".

Definition decrypt_envelope (key_bytes envelope : string) : Result Failure string :=
  let failed {T} (r : Result string T) : Result Failure T := map_err Failed r in
  v ← failed (json_from_text envelope);
  payload_b64 ← failed (ok_or "missing payload" (jget "p" v ≫= as_str));
  headers ← failed (ok_or "missing headers" (jget "h" v));
  iv_b64 ← failed (ok_or "missing iv" (jget "iv" headers ≫= as_str));
  at_b64 ← failed (ok_or "missing at" (jget "at" headers ≫= as_str));
  payload ← failed (base64_decode payload_b64);
  iv ← failed (base64_decode iv_b64);
  tag ← failed (base64_decode at_b64);
  if negb (String.length iv =? 12)%nat || negb (String.length tag =? 16)%nat
  then Err (Failed "invalid iv/tag lengths")
  else
    key ← map_err Panicked (key_from_slice key_bytes);
    plaintext ← failed (map_err (λ e, "decrypt failed: " +:+ e) (aes_gcm_decrypt key iv (payload +:+ tag)));
    failed (string_from_utf8 plaintext).

(** How the dashboard reads an encrypted column: the JSON envelope, else the plain
    one, else nothing; a note without a key. *)
Definition decrypt_pii (key : option string) (enc : option string) : Panics (option string) :=
  match key with
  | Some key =>
      match enc with
      | None => Ok None
      | Some e =>
          if String.eqb e "" then Ok None
          else
            match decrypt_envelope key e with
            | Ok text => Ok (Some text)
            | Err (Panicked m) => Err m
            | Err (Failed _) =>
                Ok (match EncryptionService_new key with
                    | Ok svc => match EncryptionService_decrypt svc e with Ok text => Some text | Err _ => None end
                    | Err _ => None
                    end)
            end
      end
  | None =>
      Ok (match enc with
          | Some e => if String.eqb e "" then None else Some "[Encrypted - decryption key unavailable]"
          | None => None
          end)
  end.

(** The encryption the queue and the handler call: deterministic envelopes. *)
Definition envelope_codec (print : json → option string) : Codec := {|
  encrypt_envelope := λ key text, EncryptionService_encrypt_envelope key text true "";
  json_to_string := print
|}.
End encryption.

(** ** Lemmas *)

Lemma substring_length n m s : (n + m ≤ String.length s)%nat → String.length (String.substring n m s) = m.
Proof.
  revert n m. induction s as [|a s IH]; intros [|n] [|m] Hl; simpl in *; try lia.
  - f_equal. apply IH. lia.
  - rewrite IH; lia.
  - apply IH. lia.
Qed.

Lemma substring_all s : String.substring 0 (String.length s) s = s.
Proof. induction s as [|a s IH]; simpl; [done|by f_equal]. Qed.

Lemma substring_0_app n s : (n ≤ String.length s)%nat →
  String.substring 0 n s +:+ String.substring n (String.length s - n) s = s.
Proof.
  revert n. induction s as [|a s IH]; intros [|n] Hl; simpl in *; try done; try lia.
  - change (String a (String.substring 0 (String.length s) s) = String a s). by rewrite substring_all.
  - rewrite string_app_cons. f_equal. apply IH. lia.
Qed.

Lemma take_drop_bytes n s : (n ≤ String.length s)%nat → take_bytes n s +:+ drop_bytes n s = s.
Proof. apply substring_0_app. Qed.
Lemma take_bytes_length n s : (n ≤ String.length s)%nat → String.length (take_bytes n s) = n.
Proof. intros. apply substring_length. lia. Qed.
Lemma drop_bytes_length n s : (n ≤ String.length s)%nat → String.length (drop_bytes n s) = (String.length s - n)%nat.
Proof. intros. apply substring_length. lia. Qed.

Lemma take_bytes_app s t : take_bytes (String.length s) (s +:+ t) = s.
Proof. induction s as [|a s IH]; simpl; [by destruct t|]. unfold take_bytes in *. simpl. by f_equal. Qed.
Lemma drop_bytes_app s t : drop_bytes (String.length s) (s +:+ t) = t.
Proof.
  unfold drop_bytes. rewrite string_length_app, Nat.add_comm, Nat.add_sub.
  induction s as [|a s IH]; simpl; [|done]. induction t as [|b t IH]; simpl; [done|by f_equal].
Qed.

Section lemmas.
Context `{P : Platform} `{C : Crypto} (is_str : string → Prop) `{!CryptoLaws P C is_str}.

Lemma envelope_iv_length key text deterministic drawn :
  (deterministic = false → String.length drawn = 12) → String.length (envelope_iv key text deterministic drawn) = 12.
Proof.
  intros Hd. unfold envelope_iv. destruct deterministic; [|by apply Hd].
  apply take_bytes_length. rewrite hmac_sha256_length. lia.
Qed.

(** What the reader makes of an envelope the writer made. *)
Lemma decrypt_encrypt_envelope key text deterministic drawn envelope :
  is_str text → (deterministic = false → String.length drawn = 12) →
  EncryptionService_encrypt_envelope key text deterministic drawn = Ok envelope →
  decrypt_envelope key envelope = Ok text.
Proof.
  intros Hstr Hd. unfold EncryptionService_encrypt_envelope. destruct (Nat.eqb_spec (String.length key) 32) as [Hk|]; [|done].
  pose proof (envelope_iv_length key text deterministic drawn Hd) as Hiv. cbn [negb].
  set (iv := envelope_iv key text deterministic drawn) in *.
  destruct (aes_gcm_encrypt key iv text) as [c|e] eqn:Ee; [|done]. simpl.
  destruct (aes_gcm_correct key iv text c Hk Hiv Ee) as [Hlen Hdec].
  destruct (Nat.ltb_spec (String.length c) 16); [done|]. intros [= <-].
  unfold decrypt_envelope. rewrite json_text_roundtrip. simpl. rewrite !base64_roundtrip. simpl.
  rewrite Hiv, drop_bytes_length by lia. replace (String.length c - (String.length c - 16))%nat with 16%nat by lia. simpl.
  unfold key_from_slice. rewrite (proj2 (Nat.eqb_eq _ _) Hk). simpl. rewrite take_drop_bytes by lia. rewrite Hdec. simpl.
  by rewrite utf8_str.
Qed.

Lemma decrypt_encrypt svc nonce text c :
  is_str text → String.length (cipher_key svc) = 32 → String.length nonce = 12 →
  EncryptionService_encrypt svc nonce text = Ok c → EncryptionService_decrypt svc c = Ok text.
Proof.
  intros Hstr Hk Hn. unfold EncryptionService_encrypt, EncryptionService_decrypt.
  destruct (aes_gcm_encrypt (cipher_key svc) nonce text) as [b|e] eqn:Ee; [|done]. intros [= <-].
  destruct (aes_gcm_correct _ _ _ _ Hk Hn Ee) as [Hlen Hdec]. rewrite base64_roundtrip. simpl.
  rewrite string_length_app, Hn. destruct (Nat.ltb_spec (12 + String.length b) 12); [lia|].
  rewrite <-Hn, take_bytes_app, drop_bytes_app, Hdec. simpl. by apply utf8_str.
Qed.
End lemmas.

(** ** Properties *)

Section properties.
Context `{P : Platform} `{C : Crypto} (is_str : string → Prop) `{!CryptoLaws P C is_str}.

(** C33: the personal data of a lead reads back.  For every column of a lead that the
    queue creates with the key derived from a secret and a salt, the dashboard shows
    the text of the request when the text could be encrypted, and nothing when the
    request has no text, or an empty one, or it could not be encrypted. *)
Theorem stored_pii_reads_back (secret salt : string) (print : json → option string) (c : LeadCreationData) (now : DateTime)
    (column : Lead → option string) (field : LeadCreationData → option string) :
  let key := derive_key_from_secret secret salt in
  lc_pii_encryption_key c = Some key →
  (column, field) ∈ [
    (lead_first_name_encrypted, lc_first_name); (lead_last_name_encrypted, lc_last_name);
    (lead_email_encrypted, lc_email); (lead_cell_phone_encrypted, lc_cell_phone);
    (lead_street_address_encrypted, lc_street_address); (lead_city_encrypted, lc_city);
    (lead_state_encrypted, lc_state); (lead_zip_encrypted, lc_zip); (lead_ip_address_encrypted, lc_ip_address)] →
  (∀ text, field c = Some text → is_str text) → (∀ v, json_text v ≠ "") →
  decrypt_pii (Some key) (column (new_lead (envelope_codec print) c now)) =
    Ok (text ← field c;
        if String.eqb text "" then None
        else match EncryptionService_encrypt_envelope key text true "" with Ok _ => Some text | Err _ => None end).
Proof.
  intros key Hkey Hin Hstr Hne.
  assert (E : column (new_lead (envelope_codec print) c now) = encrypt_pii (envelope_codec print) (Some key) (field c)).
  { repeat (apply elem_of_cons in Hin as [[= -> ->]|Hin]); [..|by apply elem_of_nil in Hin];
      unfold new_lead; cbn; by rewrite Hkey. }
  rewrite E. unfold encrypt_pii. destruct (field c) as [text|] eqn:Ef; [|done]. simpl.
  destruct (String.eqb text ""); [done|].
  destruct (EncryptionService_encrypt_envelope key text true "") as [envelope|e] eqn:Ee; [|done]. simpl.
  assert (Henv : envelope ≠ "").
  { unfold EncryptionService_encrypt_envelope in Ee. repeat case_match; simplify_eq.
    destruct (aes_gcm_encrypt _ _ _); simpl in *; [|done]. case_match; simplify_eq/=. apply Hne. }
  rewrite (proj2 (String.eqb_neq _ _) Henv).
  by rewrite (decrypt_encrypt_envelope is_str key text true "" envelope (Hstr _ eq_refl)).
Qed.

(** reading an envelope panics exactly for a key that is not of 32 bytes and an
    envelope whose payload, IV and tag are there, in base64, the last two of the
    right length: the writer checks the key, the reader does not. *)
Theorem decrypt_envelope_panics_iff (key_bytes envelope m : string) :
  decrypt_envelope key_bytes envelope = Err (Panicked m) ↔
  m = "assertion `left == right` failed" ∧ String.length key_bytes ≠ 32 ∧
  ∃ v headers payload iv tag payload_b64 iv_b64 at_b64,
    json_from_text envelope = Ok v ∧ jget "p" v = Some (JString payload_b64) ∧ jget "h" v = Some headers ∧
    jget "iv" headers = Some (JString iv_b64) ∧ jget "at" headers = Some (JString at_b64) ∧
    base64_decode payload_b64 = Ok payload ∧ base64_decode iv_b64 = Ok iv ∧ base64_decode at_b64 = Ok tag ∧
    String.length iv = 12 ∧ String.length tag = 16.
Proof.
  assert (Hstr : ∀ o s, o ≫= as_str = Some s ↔ o = Some (JString s)).
  { intros [v|] t; [destruct v|]; simpl; naive_solver. }
  unfold decrypt_envelope. split.
  - intros H. destruct (json_from_text envelope) as [v|e] eqn:E1; [|done]. simpl in H.
    destruct (jget "p" v ≫= as_str) as [p|] eqn:E2; [|done]. simpl in H.
    destruct (jget "h" v) as [h|] eqn:E3; [|done]. simpl in H.
    destruct (jget "iv" h ≫= as_str) as [iv|] eqn:E4; [|done]. simpl in H.
    destruct (jget "at" h ≫= as_str) as [tag|] eqn:E5; [|done]. simpl in H.
    destruct (base64_decode p) as [p'|e] eqn:E6; [|done]. simpl in H.
    destruct (base64_decode iv) as [iv'|e] eqn:E7; [|done]. simpl in H.
    destruct (base64_decode tag) as [tag'|e] eqn:E8; [|done]. simpl in H.
    destruct (Nat.eqb_spec (String.length iv') 12) as [E9|]; [|done].
    destruct (Nat.eqb_spec (String.length tag') 16) as [E10|]; [|done]. simpl in H. unfold key_from_slice in H.
    apply Hstr in E2, E4, E5. destruct (Nat.eqb_spec (String.length key_bytes) 32) as [|E11]; simpl in H.
    + destruct (aes_gcm_decrypt _ _ _) as [t|]; simpl in H; [|done]. by destruct (string_from_utf8 t).
    + injection H as <-. split; [done|]. split; [done|]. by exists v, h, p', iv', tag', p, iv, tag.
  - intros (-> & Hk & v & h & p' & iv' & tag' & p & iv & tag & -> & E2 & E3 & E4 & E5 & E6 & E7 & E8 & E9 & E10).
    simpl. rewrite (proj2 (Hstr _ _) E2). simpl. rewrite E3. simpl. rewrite (proj2 (Hstr _ _) E4). simpl.
    rewrite (proj2 (Hstr _ _) E5). simpl. rewrite E6. simpl. rewrite E7. simpl. rewrite E8. simpl.
    rewrite E9, E10. simpl. unfold key_from_slice. by rewrite (proj2 (Nat.eqb_neq _ _) Hk).
Qed.
End properties.

(** ** Witnesses *)

(** Cipher, base64 and JSON text that are correct and evaluate: the tag is constant,
    base64 is the identity, and a text carries its parts behind their lengths. *)
Definition plain_platform : Platform := {|
  to_lowercase := @to_lowercase reference_platform; to_uppercase := @to_uppercase reference_platform;
  f64_to_string := @f64_to_string reference_platform; uuid_to_string := @uuid_to_string reference_platform;
  hex_encode := @hex_encode reference_platform; base64_encode := λ b, b;
  format_compact := @format_compact reference_platform; to_rfc3339 := @to_rfc3339 reference_platform;
  serialize_datetime := @serialize_datetime reference_platform; serialize_date := @serialize_date reference_platform
|}.

Definition sample_tag : string := "0123456789abcdef".
Definition sample_hash : string := sample_tag +:+ sample_tag.

Fixpoint unary (n : nat) (rest : string) : string :=
  match n with O => String "0"%char rest | S n' => String "1"%char (unary n' rest) end.
Fixpoint read_unary (s : string) : nat * string :=
  match s with
  | String "1"%char s' => let '(n, rest) := read_unary s' in (S n, rest)
  | String _ rest => (0%nat, rest)
  | EmptyString => (0%nat, "")
  end.

Definition framed (s rest : string) : string := unary (String.length s) (s +:+ rest).
Definition read_framed (s : string) : string * string :=
  let '(n, rest) := read_unary s in (take_bytes n rest, drop_bytes n rest).

Definition plain_crypto : Crypto := {|
  aes_gcm_encrypt := λ _ _ p, Ok (p +:+ sample_tag);
  aes_gcm_decrypt := λ _ _ c, Ok (take_bytes (String.length c - 16) c);
  hmac_sha256 := λ _ _, sample_hash;
  pbkdf2_hmac_sha1 := λ _ _ _, sample_hash;
  base64_decode := Ok;
  string_from_utf8 := Ok;
  json_text := λ v,
    let field k o := default "" (jget k o ≫= as_str) in
    let h := default JNull (jget "h" v) in
    framed (field "p" v) (framed (field "iv" h) (framed (field "at" h) ""));
  json_from_text := λ s,
    let '(p, s) := read_framed s in
    let '(iv, s) := read_framed s in
    let '(tag, _) := read_framed s in Ok (envelope_value p iv tag)
|}.

Lemma read_unary_spec n s : read_unary (unary n s) = (n, s).
Proof. induction n as [|n IH]; simpl; [done|by rewrite IH]. Qed.

Lemma read_framed_spec s rest : read_framed (framed s rest) = (s, rest).
Proof. unfold read_framed, framed. by rewrite read_unary_spec, take_bytes_app, drop_bytes_app. Qed.

#[export] Instance plain_crypto_laws : CryptoLaws plain_platform plain_crypto (λ _, True).
Proof.
  split; simpl; try done.
  - intros key nonce p c Hk Hn [= <-]. rewrite string_length_app. simpl. split; [done|].
    by rewrite Nat.add_sub, take_bytes_app.
  - intros p iv tag. by rewrite !read_framed_spec.
Qed.

Definition sample_creation : LeadCreationData := {|
  lc_uuid := 1%N; lc_event_id := "evt_1"; lc_lead_id := Some "lead_001"; lc_publisher_id := 7%N; lc_vertical_id := 3%N;
  lc_request_type := "ping"; lc_strategy := "pingPost"; lc_promise_id := None; lc_buyer_id := 11%N; lc_campaign_id := 2%N;
  lc_tcpa_consent := true; lc_tcpa_language := "en"; lc_is_test := false; lc_session_id := "sess_1";
  lc_vertical_data := JNull; lc_first_name := Some "Ann"; lc_last_name := None; lc_email := Some "ann@example.com";
  lc_cell_phone := None; lc_street_address := None; lc_city := None; lc_state := None; lc_zip := None;
  lc_ip_address := None; lc_request_payload := JNull; lc_pii_encryption_key := Some sample_hash
|}.

Lemma stored_pii_reads_back_witness :
  @decrypt_pii plain_crypto (Some sample_hash)
    (lead_email_encrypted (new_lead (@envelope_codec plain_platform plain_crypto (λ _, None)) sample_creation 0))
  = Ok (Some "ann@example.com").
Proof.
  refine (@stored_pii_reads_back plain_platform plain_crypto (λ _, True) _ "secret" "salt" (λ _, None) sample_creation 0
    lead_email_encrypted lc_email eq_refl _ _ _).
  - member.
  - done.
  - intros v E. simpl in E. unfold framed in E. by destruct (String.length _).
Defined.
