(* ===== verification/Batcher.v ===== *)
(** * The batcher of the write-behind queue

    [crates/core/src/services/write_behind_queue.rs], lines 278-356 and 1576-1618:
    the task that receives background tasks from the channel, collects them and
    flushes a batch of ten, or what there is every 100 ms.  [tokio::select!] may take
    any ready branch, so the task is a step relation on events: what the rest of
    the program does (enqueue, ask for shutdown, drop the sender) and the two
    branches of the loop.  [flush_batch] is the one of WriteBehind.v. *)

From stdpp Require Import base list strings gmap.
From Stdlib Require Import ZArith Lia.
From S2P Require Import Prelude Float64 Platform Json Models Metrics Samples Store WriteBehind.

Open Scope string_scope.
Open Scope list_scope.

Record BatcherState : Type := {
  (** The tasks sent and not received. *)
  bs_channel : list BackgroundTask;
  (** A sender is left. *)
  bs_open : bool;
  bs_shutdown_flag : bool;
  bs_batch : list BackgroundTask;
  (** The loop has ended, and with it the receiver. *)
  bs_finished : bool;
  bs_world : World;
  (** The batches flushed so far, oldest first. *)
  bs_flushed : list (list BackgroundTask);
  (** The tasks [enqueue] sent while there was a receiver, oldest first. *)
  bs_sent : list BackgroundTask
}.

Inductive Event : Type :=
  | Enqueue (task : BackgroundTask)
  | SignalShutdown
  | DropSender
  | Recv
  | Tick.

Section batcher.
Context `{Platform} (codec : Codec).

(** [WriteBehindQueue::new]. *)
Definition WriteBehindQueue_new (w : World) : BatcherState := {|
  bs_channel := []; bs_open := true; bs_shutdown_flag := false; bs_batch := []; bs_finished := false;
  bs_world := w; bs_flushed := []; bs_sent := []
|}.

(** [sender.send(task)]: the error of a dropped receiver is logged. *)
Definition enqueue_task (t : BackgroundTask) (s : BatcherState) : BatcherState :=
  if bs_finished s then s
  else {| bs_channel := bs_channel s ++ [t]; bs_open := bs_open s; bs_shutdown_flag := bs_shutdown_flag s;
          bs_batch := bs_batch s; bs_finished := bs_finished s; bs_world := bs_world s;
          bs_flushed := bs_flushed s; bs_sent := bs_sent s ++ [t] |}.

(** [shutdown_flag.store(true)], by [flush] and by [drop]. *)
Definition signal_shutdown (s : BatcherState) : BatcherState := {|
  bs_channel := bs_channel s; bs_open := bs_open s; bs_shutdown_flag := true; bs_batch := bs_batch s;
  bs_finished := bs_finished s; bs_world := bs_world s; bs_flushed := bs_flushed s; bs_sent := bs_sent s
|}.

(** The queue is dropped: [drop] raises the flag and the sender goes. *)
Definition drop_queue (s : BatcherState) : BatcherState := {|
  bs_channel := bs_channel s; bs_open := false; bs_shutdown_flag := true; bs_batch := bs_batch s;
  bs_finished := bs_finished s; bs_world := bs_world s; bs_flushed := bs_flushed s; bs_sent := bs_sent s
|}.

(** [Self::flush_batch(&mut batch, &pool)]: it drains [batch]. *)
Definition flush_current (s : BatcherState) : BatcherState :=
  match bs_batch s with
  | [] => s
  | batch =>
      {| bs_channel := bs_channel s; bs_open := bs_open s; bs_shutdown_flag := bs_shutdown_flag s;
         bs_batch := []; bs_finished := bs_finished s; bs_world := (flush_batch codec batch (bs_world s)).2;
         bs_flushed := bs_flushed s ++ [batch]; bs_sent := bs_sent s |}
  end.

Definition finish (s : BatcherState) : BatcherState := {|
  bs_channel := bs_channel s; bs_open := bs_open s; bs_shutdown_flag := bs_shutdown_flag s;
  bs_batch := bs_batch s; bs_finished := true; bs_world := bs_world s;
  bs_flushed := bs_flushed s; bs_sent := bs_sent s
|}.

(** [batch.push(task); if batch.len() >= 10 { flush }]. *)
Definition receive (t : BackgroundTask) (rest : list BackgroundTask) (s : BatcherState) : BatcherState :=
  let s' := {| bs_channel := rest; bs_open := bs_open s; bs_shutdown_flag := bs_shutdown_flag s;
               bs_batch := bs_batch s ++ [t]; bs_finished := bs_finished s; bs_world := bs_world s;
               bs_flushed := bs_flushed s; bs_sent := bs_sent s |} in
  if (10 <=? length (bs_batch s'))%nat then flush_current s' else s'.

(** One event; [None] when the branch is not ready, or the loop has ended. *)
Definition batcher_step (e : Event) (s : BatcherState) : option BatcherState :=
  match e with
  | Enqueue t => if bs_open s then Some (enqueue_task t s) else None
  | SignalShutdown => Some (signal_shutdown s)
  | DropSender => Some (drop_queue s)
  | Recv =>
      if bs_finished s then None
      else match bs_channel s with
           | t :: rest => Some (receive t rest s)
           | [] => if bs_open s then None else Some (finish (flush_current s))
           end
  | Tick =>
      if bs_finished s then None
      else let s' := flush_current s in
           Some (if bs_shutdown_flag s' then finish (flush_current s') else s')
  end.

Fixpoint batcher_run (events : list Event) (s : BatcherState) : option BatcherState :=
  match events with
  | [] => Some s
  | e :: events' => s' ← batcher_step e s; batcher_run events' s'
  end.

(** The wait of [flush]: each poll reads whether the task has ended and the
    milliseconds since the start; [None] when the polls given run out. *)
Fixpoint flush_wait (timeout_secs : Z) (polls : list (bool * Z)) : option (Result string unit) :=
  match polls with
  | [] => None
  | (finished, elapsed_ms) :: polls' =>
      if (finished : bool) then Some (Ok tt)
      else if (timeout_secs * 1000 <? elapsed_ms)%Z then Some (Err "Flush timed out")
      else flush_wait timeout_secs polls'
  end.

(** ** Lemmas *)

(** Every task sent is in exactly one place, in order; batches are of one to ten. *)
Record batcher_inv (w0 : World) (s : BatcherState) : Prop := {
  inv_fifo : bs_sent s = concat (bs_flushed s) ++ bs_batch s ++ bs_channel s;
  inv_flushed : Forall (λ b, (1 ≤ length b ≤ 10)%nat) (bs_flushed s);
  inv_batch : (length (bs_batch s) < 10)%nat;
  inv_world : bs_world s = (for_each (flush_batch codec) (bs_flushed s) w0).2;
  inv_finished : bs_finished s = true → bs_batch s = []
}.

Lemma for_each_flush_snoc bs b w :
  (for_each (flush_batch codec) (bs ++ [b]) w).2 = (flush_batch codec b (for_each (flush_batch codec) bs w).2).2.
Proof.
  revert w. induction bs as [|b' bs IH]; intros w; simpl.
  - unfold mbind, eff_bind. pose proof (flush_batch_ok codec b w). by destruct (flush_batch codec b w) as [[[]|] w'].
  - unfold mbind, eff_bind. pose proof (flush_batch_ok codec b' w) as Hok.
    destruct (flush_batch codec b' w) as [[[]|] w']; [apply IH|done].
Qed.

Lemma flush_current_inv w0 s :
  bs_sent s = concat (bs_flushed s) ++ bs_batch s ++ bs_channel s →
  Forall (λ b, (1 ≤ length b ≤ 10)%nat) (bs_flushed s) → (length (bs_batch s) ≤ 10)%nat →
  bs_world s = (for_each (flush_batch codec) (bs_flushed s) w0).2 →
  batcher_inv w0 (flush_current s) ∧ bs_batch (flush_current s) = [].
Proof.
  intros Hs Hf Hb Hw. unfold flush_current. destruct (bs_batch s) as [|t b] eqn:Eb.
  { split; [|done]. split; rewrite ?Eb; [done|done|simpl; lia|done|done]. }
  split; [|done]. split; simpl.
  - rewrite Hs, concat_app. simpl. by rewrite app_nil_r, <-app_assoc.
  - apply Forall_app. split; [done|]. constructor; [simpl in *; lia|done].
  - lia.
  - by rewrite for_each_flush_snoc, Hw.
  - done.
Qed.

Lemma step_inv w0 e s s' : batcher_inv w0 s → batcher_step e s = Some s' → batcher_inv w0 s'.
Proof.
  intros [H1 H2 H3 H4 H5] Hstep. destruct e as [t| | | |]; simpl in Hstep.
  - destruct (bs_open s); [|done]. injection Hstep as <-. unfold enqueue_task. destruct (bs_finished s) eqn:Ef.
    + by split; rewrite ?Ef.
    + split; simpl; try done. by rewrite H1, <-!app_assoc.
  - injection Hstep as <-. by split.
  - injection Hstep as <-. by split.
  - destruct (bs_finished s) eqn:Ef; [done|]. destruct (bs_channel s) as [|t rest] eqn:Ec.
    + destruct (bs_open s); [done|]. injection Hstep as <-.
      destruct (flush_current_inv w0 s) as [[] Hb]; [by rewrite Ec|done|lia|done|]. by split.
    + injection Hstep as <-. unfold receive. cbv zeta. simpl bs_batch. case_match eqn:E10.
      * apply flush_current_inv; simpl; [by rewrite H1, <-app_assoc|done|rewrite length_app; simpl; lia|done].
      * apply Nat.leb_gt in E10. split; simpl; [by rewrite H1, <-app_assoc|done|done|done|by rewrite Ef].
  - destruct (bs_finished s) eqn:Ef; [done|]. injection Hstep as <-.
    destruct (flush_current_inv w0 s) as [Hi Hb]; [done..|lia|done|]. destruct (bs_shutdown_flag _); [|done].
    unfold flush_current at 1. rewrite Hb. destruct Hi. by split.
Qed.

Lemma run_inv w0 events s s' : batcher_inv w0 s → batcher_run events s = Some s' → batcher_inv w0 s'.
Proof.
  revert s. induction events as [|e events IH]; simpl; intros s Hi; [by intros [= <-]|].
  intros (s1 & Hs1 & Hrun)%bind_Some. eapply IH; [|done]. by eapply step_inv.
Qed.

Lemma new_inv w0 : batcher_inv w0 (WriteBehindQueue_new w0).
Proof. split; simpl; [done|constructor|lia|done|done]. Qed.

Lemma flush_current_fields s :
  bs_channel (flush_current s) = bs_channel s ∧ bs_finished (flush_current s) = bs_finished s ∧
  bs_sent (flush_current s) = bs_sent s ∧ bs_open (flush_current s) = bs_open s ∧
  bs_shutdown_flag (flush_current s) = bs_shutdown_flag s.
Proof. unfold flush_current. by destruct (bs_batch s). Qed.

Lemma receive_fields t rest s :
  bs_channel (receive t rest s) = rest ∧ bs_finished (receive t rest s) = bs_finished s ∧
  bs_sent (receive t rest s) = bs_sent s.
Proof.
  unfold receive. cbv zeta. case_match; [|done].
  match goal with |- bs_channel (flush_current ?x) = _ ∧ _ => destruct (flush_current_fields x) as (-> & -> & -> & _) end.
  done.
Qed.

Lemma run_recvs s :
  bs_finished s = false →
  ∃ s', batcher_run (replicate (length (bs_channel s)) Recv) s = Some s' ∧
    bs_channel s' = [] ∧ bs_finished s' = false ∧ bs_sent s' = bs_sent s.
Proof.
  remember (bs_channel s) as l eqn:E. revert s E. induction l as [|t l IH]; simpl; intros s E Hf; [by eauto|].
  rewrite Hf, <-E. simpl. destruct (receive_fields t l s) as (E1 & E2 & E3).
  destruct (IH (receive t l s)) as (s' & Hrun & H1 & H2 & H3); [done|by rewrite E2|].
  exists s'. split_and!; try done. by rewrite H3.
Qed.

Lemma run_app e1 e2 s : batcher_run (e1 ++ e2) s = s' ← batcher_run e1 s; batcher_run e2 s'.
Proof.
  revert s. induction e1 as [|e e1 IH]; intros s; simpl; [done|]. by destruct (batcher_step e s); simpl.
Qed.

(** ** Properties *)

(** C36: whatever the interleaving of senders, shutdown and the two branches of the
    loop, every task sent is flushed, or waits in the batch or in the channel,
    exactly once and in the order it was sent; a flushed batch has one to ten
    tasks; and the database is the result of flushing these batches in turn. *)
Theorem batcher_exactly_once (w0 : World) (events : list Event) (s : BatcherState) :
  batcher_run events (WriteBehindQueue_new w0) = Some s →
  bs_sent s = concat (bs_flushed s) ++ bs_batch s ++ bs_channel s ∧
  Forall (λ b, (1 ≤ length b ≤ 10)%nat) (bs_flushed s) ∧ (length (bs_batch s) < 10)%nat ∧
  bs_world s = (for_each (flush_batch codec) (bs_flushed s) w0).2.
Proof. intros Hrun. destruct (run_inv w0 _ _ _ (new_inv w0) Hrun). done. Qed.

(** while the loop runs, receiving what is in the channel and one tick flush
    every task sent so far. *)
Theorem batcher_drains (w0 : World) (events : list Event) (s : BatcherState) :
  batcher_run events (WriteBehindQueue_new w0) = Some s → bs_finished s = false →
  ∃ s', batcher_run (replicate (length (bs_channel s)) Recv ++ [Tick]) s = Some s' ∧
    concat (bs_flushed s') = bs_sent s.
Proof.
  intros Hrun Hf. pose proof (run_inv w0 _ _ _ (new_inv w0) Hrun) as Hi.
  destruct (run_recvs s Hf) as (s1 & Hrecv & Hc & Hf1 & Hs1). rewrite run_app, Hrecv. simpl. rewrite Hf1. simpl.
  pose proof (run_inv w0 _ _ _ Hi Hrecv) as Hi1. eexists. split; [done|].
  pose proof (step_inv w0 Tick s1) as Htick. simpl in Htick. rewrite Hf1 in Htick. specialize (Htick _ Hi1 eq_refl).
  destruct (flush_current_fields s1) as (Ec & _ & Es & _). destruct Hi1 as [I1 I2 I3 I4 I5].
  destruct (flush_current_inv w0 s1) as [_ Hb]; [done..|lia|done|].
  assert (Hdone : ∀ s2, bs_batch s2 = [] → bs_channel s2 = [] → bs_sent s2 = bs_sent s → batcher_inv w0 s2 →
    concat (bs_flushed s2) = bs_sent s).
  { intros s2 E1 E2 <- [J1 _ _ _ _]. by rewrite J1, E1, E2, !app_nil_r. }
  apply Hdone; [| | |done]; destruct (bs_shutdown_flag _); try (unfold flush_current at 1; rewrite Hb); simpl; congruence.
Qed.

(** the shutdown of [flush] can lose tasks.  The first tick after the signal
    ends the loop; it writes the current batch, but the tasks still in the channel
    are never flushed, although [flush] then returns [Ok]. *)
Theorem shutdown_tick_drops_channel (w0 : World) (events after : list Event) (s s' : BatcherState) :
  batcher_run events (WriteBehindQueue_new w0) = Some s → bs_finished s = false →
  batcher_run (SignalShutdown :: Tick :: after) s = Some s' →
  bs_finished s' = true ∧ flush_wait 5 [(bs_finished s', 10%Z)] = Some (Ok tt) ∧
  bs_sent s = concat (bs_flushed s') ++ bs_channel s ∧ bs_sent s' = bs_sent s.
Proof.
  intros Hrun Hf. pose proof (run_inv w0 _ _ _ (new_inv w0) Hrun) as [I1 I2 I3 I4 I5]. simpl. rewrite Hf. simpl.
  set (s1 := signal_shutdown s). destruct (flush_current_fields s1) as (Ec & Efin & Es & Eo & Efl).
  rewrite Efl. change (bs_shutdown_flag s1) with true. cbv iota.
  destruct (flush_current_inv w0 s1) as [[J1 J2 J3 J4 J5] Hb]; [done..|simpl; lia|done|].
  assert (E : flush_current (flush_current s1) = flush_current s1) by (unfold flush_current at 1; by rewrite Hb).
  rewrite E. generalize (flush_current s1) as s2, Hb, Es, Ec, J1. intros s2 Hb2 Es2 Ec2 K1 Hafter.
  assert (Hend : ∀ s3, bs_finished s3 = true → batcher_run after s3 = Some s' →
    bs_finished s' = true ∧ bs_flushed s' = bs_flushed s3 ∧ bs_sent s' = bs_sent s3).
  { clear. induction after as [|e after IH]; simpl; intros s3 Hf3; [by intros [= <-]|].
    intros (s4 & Hs4 & Hr)%bind_Some. destruct e; simpl in Hs4; rewrite ?Hf3 in Hs4; try done.
    - destruct (bs_open s3); [|done]. injection Hs4 as <-. unfold enqueue_task in Hr. rewrite Hf3 in Hr. by apply IH.
    - injection Hs4 as <-. by apply (IH (signal_shutdown s3)).
    - injection Hs4 as <-. by apply (IH (drop_queue s3)). }
  destruct (Hend (finish s2) eq_refl Hafter) as (E1 & E2 & E3). rewrite E1, E2, E3. simpl. rewrite Es2, Hb2, Ec2 in *.
  split_and!; done.
Qed.
End batcher.

(** ** Witnesses *)

#[local] Existing Instance reference_platform.

Definition sample_task : BackgroundTask := BuyerResponseTask (sample_response 1%N).
Definition sample_world : World := sample_store [sample_row].
Definition run_from_new (events : list Event) : option BatcherState :=
  batcher_run sample_codec events (WriteBehindQueue_new sample_world).
(** The state a run reaches. *)
Definition reached (events : list Event) : BatcherState :=
  default (WriteBehindQueue_new sample_world) (run_from_new events).

Definition eleven_tasks : list Event := replicate 11 (Enqueue sample_task) ++ replicate 10 Recv.

Lemma batcher_exactly_once_witness :
  length <$> bs_flushed (reached eleven_tasks) = [10%nat] ∧
  bs_sent (reached eleven_tasks) =
    concat (bs_flushed (reached eleven_tasks)) ++ bs_batch (reached eleven_tasks) ++ bs_channel (reached eleven_tasks).
Proof.
  split; [vm_compute; reflexivity|].
  apply (batcher_exactly_once sample_codec sample_world eleven_tasks (reached eleven_tasks)).
  vm_compute. reflexivity.
Defined.

Lemma batcher_drains_witness :
  ∃ s', batcher_run sample_codec (replicate 1 Recv ++ [Tick]) (reached eleven_tasks) = Some s' ∧
    concat (bs_flushed s') = replicate 11 sample_task.
Proof.
  destruct (batcher_drains sample_codec sample_world eleven_tasks (reached eleven_tasks)) as (s' & Hrun & Hall).
  - vm_compute. reflexivity.
  - vm_compute. reflexivity.
  - exists s'. split; [vm_compute in Hrun |- *; exact Hrun|]. rewrite Hall. vm_compute. reflexivity.
Defined.

Lemma shutdown_tick_drops_channel_witness :
  ∃ s', batcher_run sample_codec [SignalShutdown; Tick] (reached [Enqueue sample_task]) = Some s' ∧
    bs_finished s' = true ∧ bs_sent s' = concat (bs_flushed s') ++ [sample_task].
Proof.
  destruct (batcher_run sample_codec [SignalShutdown; Tick] (reached [Enqueue sample_task])) as [s'|] eqn:E;
    [|vm_compute in E; discriminate].
  destruct (shutdown_tick_drops_channel sample_codec sample_world [Enqueue sample_task] [] (reached [Enqueue sample_task]) s')
    as (Hf & _ & Hs & Hs'); [vm_compute; reflexivity|vm_compute; reflexivity|exact E|].
  exists s'. split; [reflexivity|]. split; [exact Hf|]. rewrite Hs'. exact Hs.
Defined.
