(* ===== verification/LeadRequest.v ===== *)
(** * Lead requests

    [crates/api/src/routes/leads.rs], lines 28-252, 464-706 and 788-915: the body of
    a request, flat or nested, the check of its required fields, the messages for
    database errors, the rate limit, and the nodes of the response. *)

From stdpp Require Import base list strings gmap.
From Stdlib Require Import Ascii ZArith Lia Sorted.
From S2P Require Import Prelude Float64 Platform Json.

Open Scope string_scope.
Open Scope list_scope.

(** ** Data *)

Record LeadData : Type := {
  ld_publisher_id : option string;
  ld_vertical : string;
  ld_request_type : option string;
  ld_campaign_token : option string;
  ld_promise_id : option string;
  ld_lead_id : option string;
  ld_source : option string;
  ld_first_name : option string;
  ld_last_name : option string;
  ld_email : option string;
  ld_cell_phone : option string;
  ld_street_address : option string;
  ld_city : option string;
  ld_state : option string;
  ld_zip : option string;
  ld_monthly_bill : option f64;
  ld_credit_rating : option string;
  ld_own_home : option bool;
  ld_property_type : option string;
  ld_roof_shade : option string;
  ld_roof_type : option string;
  ld_utility_provider : option string;
  ld_purchase_timeframe : option string;
  ld_ip_address : option string;
  ld_tcpa_consent : option bool;
  ld_tcpa_language : option string;
  ld_jornaya_lead_id : option string;
  ld_trusted_form_url : option string;
  ld_is_test : option bool;
  ld_verbose : option bool;
  ld_user_agent : option string
}.

Record StatusNode : Type := {
  sn_success : bool;
  sn_status : string;
  sn_message : option string;
  sn_error : option string
}.

Record LeadNode : Type := {
  ln_promise_id : option string;
  ln_lead_id : option string;
  ln_lead_uuid : option string;
  ln_ping_id : option string;
  ln_bid : option f64;
  ln_post_id : option string;
  ln_price : option f64
}.

Record LeadResponse : Type := {
  lr_status : StatusNode;
  lr_lead : LeadNode;
  lr_verbose : option json;
  lr_http_status : option Z
}.

(** The lead node of an error: every identifier left out. *)
Definition no_lead : LeadNode := {|
  ln_promise_id := None; ln_lead_id := None; ln_lead_uuid := None; ln_ping_id := None; ln_bid := None;
  ln_post_id := None; ln_price := None
|}.

(** [lead.request_type = Some(...)]. *)
Definition set_request_type (request_type : string) (d : LeadData) : LeadData := {|
  ld_publisher_id := ld_publisher_id d; ld_vertical := ld_vertical d; ld_request_type := Some request_type;
  ld_campaign_token := ld_campaign_token d; ld_promise_id := ld_promise_id d; ld_lead_id := ld_lead_id d;
  ld_source := ld_source d; ld_first_name := ld_first_name d; ld_last_name := ld_last_name d;
  ld_email := ld_email d; ld_cell_phone := ld_cell_phone d; ld_street_address := ld_street_address d;
  ld_city := ld_city d; ld_state := ld_state d; ld_zip := ld_zip d; ld_monthly_bill := ld_monthly_bill d;
  ld_credit_rating := ld_credit_rating d; ld_own_home := ld_own_home d; ld_property_type := ld_property_type d;
  ld_roof_shade := ld_roof_shade d; ld_roof_type := ld_roof_type d; ld_utility_provider := ld_utility_provider d;
  ld_purchase_timeframe := ld_purchase_timeframe d; ld_ip_address := ld_ip_address d;
  ld_tcpa_consent := ld_tcpa_consent d; ld_tcpa_language := ld_tcpa_language d;
  ld_jornaya_lead_id := ld_jornaya_lead_id d; ld_trusted_form_url := ld_trusted_form_url d;
  ld_is_test := ld_is_test d; ld_verbose := ld_verbose d; ld_user_agent := ld_user_agent d
|}.

(** ** Reading the body *)

(** [serde]'s view of a struct: an object by name, or an array by position. *)
Definition struct_get (names : list string) (v : json) : option (string → option json) :=
  match v with
  | JObject o => Some (λ k, map_get k o)
  | JArray l => if (length l =? length names)%nat then Some (λ k, map_get k (zip names l)) else None
  | _ => None
  end.

Definition invalid_type : string := "invalid type".

(** An [Option<T>] field: absent and null are [None]. *)
Definition read_option {A} (f : json → option A) (v : option json) : Result string (option A) :=
  match v with
  | None | Some JNull => Ok None
  | Some j => match f j with Some a => Ok (Some a) | None => Err invalid_type end
  end.

Abbreviation opt_string := (read_option as_str).
Abbreviation opt_bool := (read_option as_bool).
Abbreviation opt_f64 := (read_option as_f64).

Definition lead_data_names : list string := [
  "publisher_id"; "vertical"; "request_type"; "campaign_token"; "promise_id"; "lead_id"; "source"; "first_name";
  "last_name"; "email"; "cell_phone"; "street_address"; "city"; "state"; "zip"; "monthly_bill"; "credit_rating";
  "own_home"; "property_type"; "roof_shade"; "roof_type"; "utility_provider"; "purchase_timeframe"; "ip_address";
  "tcpa_consent"; "tcpa_language"; "jornaya_lead_id"; "trusted_form_url"; "is_test"; "verbose"; "user_agent"].

Definition lead_data_of_fields (get : string → option json) : Result string LeadData :=
  publisher_id ← opt_string (get "publisher_id");
  vertical ← ok_or "missing field vertical" (get "vertical");
  vertical ← ok_or invalid_type (as_str vertical);
  request_type ← opt_string (get "request_type");
  campaign_token ← opt_string (get "campaign_token");
  promise_id ← opt_string (get "promise_id");
  lead_id ← opt_string (get "lead_id");
  source ← opt_string (get "source");
  first_name ← opt_string (get "first_name");
  last_name ← opt_string (get "last_name");
  email ← opt_string (get "email");
  cell_phone ← opt_string (get "cell_phone");
  street_address ← opt_string (get "street_address");
  city ← opt_string (get "city");
  state ← opt_string (get "state");
  zip ← opt_string (get "zip");
  monthly_bill ← opt_f64 (get "monthly_bill");
  credit_rating ← opt_string (get "credit_rating");
  own_home ← opt_bool (get "own_home");
  property_type ← opt_string (get "property_type");
  roof_shade ← opt_string (get "roof_shade");
  roof_type ← opt_string (get "roof_type");
  utility_provider ← opt_string (get "utility_provider");
  purchase_timeframe ← opt_string (get "purchase_timeframe");
  ip_address ← opt_string (get "ip_address");
  tcpa_consent ← opt_bool (get "tcpa_consent");
  tcpa_language ← opt_string (get "tcpa_language");
  jornaya_lead_id ← opt_string (get "jornaya_lead_id");
  trusted_form_url ← opt_string (get "trusted_form_url");
  is_test ← opt_bool (get "is_test");
  verbose ← opt_bool (get "verbose");
  user_agent ← opt_string (get "user_agent");
  Ok {| ld_publisher_id := publisher_id; ld_vertical := vertical; ld_request_type := request_type;
        ld_campaign_token := campaign_token; ld_promise_id := promise_id; ld_lead_id := lead_id;
        ld_source := source; ld_first_name := first_name; ld_last_name := last_name; ld_email := email;
        ld_cell_phone := cell_phone; ld_street_address := street_address; ld_city := city; ld_state := state;
        ld_zip := zip; ld_monthly_bill := monthly_bill; ld_credit_rating := credit_rating;
        ld_own_home := own_home; ld_property_type := property_type; ld_roof_shade := roof_shade;
        ld_roof_type := roof_type; ld_utility_provider := utility_provider;
        ld_purchase_timeframe := purchase_timeframe; ld_ip_address := ip_address;
        ld_tcpa_consent := tcpa_consent; ld_tcpa_language := tcpa_language;
        ld_jornaya_lead_id := jornaya_lead_id; ld_trusted_form_url := trusted_form_url; ld_is_test := is_test;
        ld_verbose := verbose; ld_user_agent := user_agent |}.

(** [serde_json::from_value::<LeadData>]. *)
Definition lead_data_of_value (v : json) : Result string LeadData :=
  get ← ok_or invalid_type (struct_get lead_data_names v); lead_data_of_fields get.

(** [serde_json::to_value(&lead_data)]: an option that is [None] is null. *)
Definition lead_data_to_value (d : LeadData) : json := json_object [
  ("publisher_id", json_of_opt_str (ld_publisher_id d)); ("vertical", JString (ld_vertical d));
  ("request_type", json_of_opt_str (ld_request_type d)); ("campaign_token", json_of_opt_str (ld_campaign_token d));
  ("promise_id", json_of_opt_str (ld_promise_id d)); ("lead_id", json_of_opt_str (ld_lead_id d));
  ("source", json_of_opt_str (ld_source d)); ("first_name", json_of_opt_str (ld_first_name d));
  ("last_name", json_of_opt_str (ld_last_name d)); ("email", json_of_opt_str (ld_email d));
  ("cell_phone", json_of_opt_str (ld_cell_phone d)); ("street_address", json_of_opt_str (ld_street_address d));
  ("city", json_of_opt_str (ld_city d)); ("state", json_of_opt_str (ld_state d));
  ("zip", json_of_opt_str (ld_zip d)); ("monthly_bill", json_of_option json_of_f64 (ld_monthly_bill d));
  ("credit_rating", json_of_opt_str (ld_credit_rating d)); ("own_home", json_of_option JBool (ld_own_home d));
  ("property_type", json_of_opt_str (ld_property_type d)); ("roof_shade", json_of_opt_str (ld_roof_shade d));
  ("roof_type", json_of_opt_str (ld_roof_type d)); ("utility_provider", json_of_opt_str (ld_utility_provider d));
  ("purchase_timeframe", json_of_opt_str (ld_purchase_timeframe d));
  ("ip_address", json_of_opt_str (ld_ip_address d)); ("tcpa_consent", json_of_option JBool (ld_tcpa_consent d));
  ("tcpa_language", json_of_opt_str (ld_tcpa_language d));
  ("jornaya_lead_id", json_of_opt_str (ld_jornaya_lead_id d));
  ("trusted_form_url", json_of_opt_str (ld_trusted_form_url d));
  ("is_test", json_of_option JBool (ld_is_test d)); ("verbose", json_of_option JBool (ld_verbose d));
  ("user_agent", json_of_opt_str (ld_user_agent d))].

(** *** The nested form *)

Record NestedRequestProperties : Type := {
  rp_vertical : option string; rp_is_test : option bool; rp_request_type : option string
}.

Record NestedPublisherData : Type := {
  pd_publisher_id : option string; pd_campaign_token : option string; pd_lead_id : option string;
  pd_promise_id : option string; pd_source : option string
}.

Record NestedConsumerData : Type := {
  cd_first_name : option string; cd_last_name : option string; cd_email : option string;
  cd_cell_phone : option string; cd_street_address : option string; cd_city : option string;
  cd_state : option string; cd_zip : option string; cd_credit_rating : option string;
  cd_ip_address : option string; cd_user_agent : option string
}.

Record NestedPropertyData : Type := {
  prop_monthly_bill : option f64; prop_own_home : option bool; prop_property_type : option string;
  prop_purchase_timeframe : option string; prop_roof_shade : option string; prop_roof_type : option string;
  prop_utility_provider : option string
}.

Record NestedCompliance : Type := {
  comp_tcpa_consent : option bool; comp_tcpa_language : option string; comp_jornaya_lead_id : option string;
  comp_trusted_form_url : option string
}.

Record LeadNested : Type := {
  request_properties : option NestedRequestProperties;
  publisher_data : option NestedPublisherData;
  consumer_data : option NestedConsumerData;
  property_data : option NestedPropertyData;
  compliance : option NestedCompliance
}.

(** [From<LeadNested> for LeadData]. *)
Definition lead_data_of_nested (n : LeadNested) : LeadData :=
  let r := request_properties n in
  let p := publisher_data n in
  let c := consumer_data n in
  let prop := property_data n in
  let comp := compliance n in {|
  ld_publisher_id := x ← p; pd_publisher_id x; ld_vertical := default "" (x ← r; rp_vertical x);
  ld_request_type := x ← r; rp_request_type x; ld_campaign_token := x ← p; pd_campaign_token x;
  ld_promise_id := x ← p; pd_promise_id x; ld_lead_id := x ← p; pd_lead_id x; ld_source := x ← p; pd_source x;
  ld_first_name := x ← c; cd_first_name x; ld_last_name := x ← c; cd_last_name x; ld_email := x ← c; cd_email x;
  ld_cell_phone := x ← c; cd_cell_phone x; ld_street_address := x ← c; cd_street_address x;
  ld_city := x ← c; cd_city x; ld_state := x ← c; cd_state x; ld_zip := x ← c; cd_zip x;
  ld_monthly_bill := x ← prop; prop_monthly_bill x; ld_credit_rating := x ← c; cd_credit_rating x;
  ld_own_home := x ← prop; prop_own_home x; ld_property_type := x ← prop; prop_property_type x;
  ld_roof_shade := x ← prop; prop_roof_shade x; ld_roof_type := x ← prop; prop_roof_type x;
  ld_utility_provider := x ← prop; prop_utility_provider x;
  ld_purchase_timeframe := x ← prop; prop_purchase_timeframe x; ld_ip_address := x ← c; cd_ip_address x;
  ld_tcpa_consent := x ← comp; comp_tcpa_consent x; ld_tcpa_language := x ← comp; comp_tcpa_language x;
  ld_jornaya_lead_id := x ← comp; comp_jornaya_lead_id x;
  ld_trusted_form_url := x ← comp; comp_trusted_form_url x; ld_is_test := x ← r; rp_is_test x;
  ld_verbose := None; ld_user_agent := x ← c; cd_user_agent x
|}.

Definition request_properties_of_value (v : json) : Result string NestedRequestProperties :=
  get ← ok_or invalid_type (struct_get ["vertical"; "is_test"; "request_type"] v);
  vertical ← opt_string (get "vertical");
  is_test ← opt_bool (get "is_test");
  request_type ← opt_string (get "request_type");
  Ok {| rp_vertical := vertical; rp_is_test := is_test; rp_request_type := request_type |}.

Definition publisher_data_of_value (v : json) : Result string NestedPublisherData :=
  get ← ok_or invalid_type (struct_get ["publisher_id"; "campaign_token"; "lead_id"; "promise_id"; "source"] v);
  publisher_id ← opt_string (get "publisher_id");
  campaign_token ← opt_string (get "campaign_token");
  lead_id ← opt_string (get "lead_id");
  promise_id ← opt_string (get "promise_id");
  source ← opt_string (get "source");
  Ok {| pd_publisher_id := publisher_id; pd_campaign_token := campaign_token; pd_lead_id := lead_id;
        pd_promise_id := promise_id; pd_source := source |}.

Definition consumer_data_of_value (v : json) : Result string NestedConsumerData :=
  get ← ok_or invalid_type (struct_get ["first_name"; "last_name"; "email"; "cell_phone"; "street_address"; "city";
                                        "state"; "zip"; "credit_rating"; "ip_address"; "user_agent"] v);
  first_name ← opt_string (get "first_name");
  last_name ← opt_string (get "last_name");
  email ← opt_string (get "email");
  cell_phone ← opt_string (get "cell_phone");
  street_address ← opt_string (get "street_address");
  city ← opt_string (get "city");
  state ← opt_string (get "state");
  zip ← opt_string (get "zip");
  credit_rating ← opt_string (get "credit_rating");
  ip_address ← opt_string (get "ip_address");
  user_agent ← opt_string (get "user_agent");
  Ok {| cd_first_name := first_name; cd_last_name := last_name; cd_email := email; cd_cell_phone := cell_phone;
        cd_street_address := street_address; cd_city := city; cd_state := state; cd_zip := zip;
        cd_credit_rating := credit_rating; cd_ip_address := ip_address; cd_user_agent := user_agent |}.

Definition property_data_of_value (v : json) : Result string NestedPropertyData :=
  get ← ok_or invalid_type (struct_get ["monthly_bill"; "own_home"; "property_type"; "purchase_timeframe";
                                        "roof_shade"; "roof_type"; "utility_provider"] v);
  monthly_bill ← opt_f64 (get "monthly_bill");
  own_home ← opt_bool (get "own_home");
  property_type ← opt_string (get "property_type");
  purchase_timeframe ← opt_string (get "purchase_timeframe");
  roof_shade ← opt_string (get "roof_shade");
  roof_type ← opt_string (get "roof_type");
  utility_provider ← opt_string (get "utility_provider");
  Ok {| prop_monthly_bill := monthly_bill; prop_own_home := own_home; prop_property_type := property_type;
        prop_purchase_timeframe := purchase_timeframe; prop_roof_shade := roof_shade;
        prop_roof_type := roof_type; prop_utility_provider := utility_provider |}.

Definition compliance_of_value (v : json) : Result string NestedCompliance :=
  get ← ok_or invalid_type (struct_get ["tcpa_consent"; "tcpa_language"; "jornaya_lead_id"; "trusted_form_url"] v);
  tcpa_consent ← opt_bool (get "tcpa_consent");
  tcpa_language ← opt_string (get "tcpa_language");
  jornaya_lead_id ← opt_string (get "jornaya_lead_id");
  trusted_form_url ← opt_string (get "trusted_form_url");
  Ok {| comp_tcpa_consent := tcpa_consent; comp_tcpa_language := tcpa_language;
        comp_jornaya_lead_id := jornaya_lead_id; comp_trusted_form_url := trusted_form_url |}.

(** An [Option] of a struct. *)
Definition read_struct {A} (f : json → Result string A) (v : option json) : Result string (option A) :=
  match v with
  | None | Some JNull => Ok None
  | Some j => a ← f j; Ok (Some a)
  end.

Definition nested_groups : list string :=
  ["request_properties"; "publisher_data"; "consumer_data"; "property_data"; "compliance"].

Definition lead_nested_of_value (v : json) : Result string LeadNested :=
  get ← ok_or invalid_type (struct_get nested_groups v);
  r ← read_struct request_properties_of_value (get "request_properties");
  p ← read_struct publisher_data_of_value (get "publisher_data");
  c ← read_struct consumer_data_of_value (get "consumer_data");
  prop ← read_struct property_data_of_value (get "property_data");
  comp ← read_struct compliance_of_value (get "compliance");
  Ok {| request_properties := r; publisher_data := p; consumer_data := c; property_data := prop; compliance := comp |}.

(** Nested when all five groups are there, else flat. *)
Definition deserialize_lead_body (value : json) : Result string LeadData :=
  if forallb (λ group, bool_decide (is_Some (jget group value))) nested_groups
  then nested ← lead_nested_of_value value; Ok (lead_data_of_nested nested)
  else lead_data_of_value value.

(** ** Required fields *)

(** The pairs of a field name and whether it is there, in the order checked. *)
Definition required_fields (lead : LeadData) (request_type : string) : list (string * bool) :=
  let there {A} (o : option A) := bool_decide (is_Some o) in
  if String.eqb request_type "post" then [
    ("promise_id", there (ld_promise_id lead)); ("publisher_id", there (ld_publisher_id lead));
    ("request_type", there (ld_request_type lead)); ("first_name", there (ld_first_name lead));
    ("last_name", there (ld_last_name lead)); ("email", there (ld_email lead));
    ("cell_phone", there (ld_cell_phone lead)); ("street_address", there (ld_street_address lead));
    ("city", there (ld_city lead)); ("state", there (ld_state lead)); ("zip", there (ld_zip lead));
    ("ip_address", there (ld_ip_address lead)); ("monthly_bill", there (ld_monthly_bill lead));
    ("own_home", there (ld_own_home lead)); ("roof_shade", there (ld_roof_shade lead));
    ("utility_provider", there (ld_utility_provider lead)); ("property_type", there (ld_property_type lead));
    ("tcpa_consent", there (ld_tcpa_consent lead)); ("tcpa_language", there (ld_tcpa_language lead));
    ("credit_rating", there (ld_credit_rating lead)); ("trusted_form_url", there (ld_trusted_form_url lead))]
  else if String.eqb request_type "fullpost" then [
    ("publisher_id", there (ld_publisher_id lead)); ("request_type", there (ld_request_type lead));
    ("first_name", there (ld_first_name lead)); ("last_name", there (ld_last_name lead));
    ("email", there (ld_email lead)); ("cell_phone", there (ld_cell_phone lead));
    ("street_address", there (ld_street_address lead)); ("city", there (ld_city lead));
    ("state", there (ld_state lead)); ("zip", there (ld_zip lead)); ("ip_address", there (ld_ip_address lead));
    ("monthly_bill", there (ld_monthly_bill lead)); ("own_home", there (ld_own_home lead));
    ("roof_shade", there (ld_roof_shade lead)); ("utility_provider", there (ld_utility_provider lead));
    ("credit_rating", there (ld_credit_rating lead)); ("tcpa_consent", there (ld_tcpa_consent lead));
    ("tcpa_language", there (ld_tcpa_language lead)); ("trusted_form_url", there (ld_trusted_form_url lead))]
  else [
    ("publisher_id", there (ld_publisher_id lead)); ("request_type", there (ld_request_type lead));
    ("zip", there (ld_zip lead)); ("ip_address", there (ld_ip_address lead));
    ("monthly_bill", there (ld_monthly_bill lead)); ("own_home", there (ld_own_home lead));
    ("roof_shade", there (ld_roof_shade lead)); ("credit_rating", there (ld_credit_rating lead));
    ("tcpa_consent", there (ld_tcpa_consent lead)); ("tcpa_language", there (ld_tcpa_language lead));
    ("trusted_form_url", there (ld_trusted_form_url lead))].

Definition missing_required_lead_field (lead : LeadData) (request_type : string) : option string :=
  fst <$> List.find (λ p, negb p.2) (required_fields lead request_type).

Definition validation_error_human_message (field : string) : string :=
  let messages := [
    ("ip_address", "IP Address Missing"); ("email", "Email Missing"); ("first_name", "First Name Missing");
    ("last_name", "Last Name Missing"); ("cell_phone", "Cell Phone Missing");
    ("street_address", "Street Address Missing"); ("city", "City Missing"); ("state", "State Missing");
    ("zip", "Zip Missing"); ("monthly_bill", "Monthly Bill Missing"); ("own_home", "Own Home Missing");
    ("roof_shade", "Roof Shade Missing"); ("utility_provider", "Utility Provider Missing");
    ("credit_rating", "Credit Rating Missing"); ("tcpa_consent", "TCPA Consent Missing");
    ("tcpa_language", "TCPA Language Missing"); ("jornaya_lead_id", "Jornaya Lead ID Missing");
    ("trusted_form_url", "Trusted Form URL Missing"); ("property_type", "Property Type Missing");
    ("promise_id", "Promise ID Missing"); ("publisher_id", "Publisher ID Missing");
    ("request_type", "Request Type Missing")] in
  match List.find (λ m, String.eqb m.1 field) messages with
  | Some m => m.2
  | None => str_replace_char "_"%char " "%char field +:+ " missing"
  end.

(** ** Messages *)

Section messages.
Context `{Platform}.

(** The friendly and the technical message for a database error. *)
Definition map_error_to_user (err_text : string) : string * string :=
  let has s := str_contains s (to_lowercase err_text) in
  let when (b : bool) s := if b then [s] else [] in
  let problems :=
    when (has "submitted_at")
      "Server misconfiguration: required lead timestamp is missing. Contact the site administrator." ++
    when (has "buyer_id") "No buyer configured for this publisher/vertical" ++
    when (has "campaign_id") "No campaign configured for this publisher/vertical" ++
    when (has "post_id") "Post could not be created: required post identifier missing" ++
    when (has "permission denied" || has "permission") "Server permission error. Contact the administrator." ++
    when (has "column" && has "publisher_id" && has "does not exist")
      "Server configuration error: database schema mismatch. Contact the administrator." in
  let problems :=
    if (has "violates not-null constraint" || has "null value") && bool_decide (problems = [])
    then ["Required data missing for this operation. Contact support or try again later."] else problems in
  let problems :=
    match problems with
    | [] => ["An internal server error occurred. Contact support if the problem persists."]
    | _ => problems
    end in
  (str_join (String (ascii_of_nat 10) "") problems, "error returned from database: " +:+ err_text).

(** The error response of every database error of the handler. *)
Definition error_node (message : option string) (error : string) : StatusNode := {|
  sn_success := false; sn_status := "error"; sn_message := message; sn_error := Some error
|}.

Definition error_response (message : option string) (error : string) (verbose : option json) (status : Z)
    : LeadResponse := {|
  lr_status := error_node message error; lr_lead := no_lead; lr_verbose := verbose; lr_http_status := Some status
|}.

(** The verbose object of an error, when it was asked for. *)
Definition error_verbose (verbose_requested : bool) (code : string) (now : DateTime) (status : Z) (extra : list (string * json))
    : option json :=
  if verbose_requested then Some (json_object ([
    ("error_code", JString code); ("timestamp", JString (to_rfc3339 now));
    ("endpoint", JString "POST /api/v1/leads"); ("status_code", json_of_u64 status)] ++ extra))
  else None.
End messages.

(** The timings of the buyers as the verbose response shows them: the status of the
    main outcome, and no bid for a fullpost. *)
Definition transform_per_buyer_timings_for_verbose (timings : list json) (main_status : string) (is_fullpost : bool)
    : list json :=
  (λ t, match t with
        | JObject o =>
            JObject (map_insert "status" (JString main_status) (if is_fullpost then map_remove "bid" o else o))
        | v => v
        end) <$> timings.

(** ** Modes *)

(** [request_type.as_deref().unwrap_or("ping").to_lowercase()]. *)
Definition request_type_of `{Platform} (lead : LeadData) : string := to_lowercase (default "ping" (ld_request_type lead)).

(** [params.get(mode) == "true"]. *)
Definition mode_param (params : gmap string string) (mode : string) : bool :=
  match params !! mode with Some v => String.eqb v "true" | None => false end.

(** Whether the response is verbose: the top-level flag decides, unless the mode is
    minimal; without it the flag of the lead does, whatever the mode. *)
Definition verbose_requested (minimal_mode : bool) (payload_verbose : option bool) (lead : LeadData) : bool :=
  let request_level_verbose := if minimal_mode then false else default false payload_verbose in
  if bool_decide (is_Some payload_verbose) then request_level_verbose else default false (ld_verbose lead).

(** ** The rate limit *)

Definition RATE_LIMIT_PER_HOUR : Z := 360.
Definition RATE_LIMIT_WINDOW_SECONDS : Z := 3600.

(** Instants are in milliseconds. *)
Record RateBucket : Type := {
  window_start : Z;
  bucket_count : Z
}.

(** [now.duration_since(start).as_secs()]: zero when [start] is later. *)
Definition seconds_since (now start : Z) : Z := Z.max 0 (now - start) / 1000.

(** The bucket after the window check. *)
Definition current_bucket (now : Z) (bucket : option RateBucket) : RateBucket :=
  let bucket := default {| window_start := now; bucket_count := 0 |} bucket in
  if (RATE_LIMIT_WINDOW_SECONDS <=? seconds_since now (window_start bucket))%Z
  then {| window_start := now; bucket_count := 0 |} else bucket.

(** One request of a publisher: the seconds to wait when it is refused. *)
Definition rate_check (now : Z) (key : string) (buckets : gmap string RateBucket)
    : option Z * gmap string RateBucket :=
  let bucket := current_bucket now (buckets !! key) in
  if (RATE_LIMIT_PER_HOUR <=? bucket_count bucket)%Z then
    let elapsed := seconds_since now (window_start bucket) in
    (Some (u64_saturating_sub RATE_LIMIT_WINDOW_SECONDS elapsed), <[key := bucket]> buckets)
  else
    (None, <[key := {| window_start := window_start bucket; bucket_count := bucket_count bucket + 1 |}]> buckets).

(** The response of a refused request: its nodes are empty, not absent. *)
Definition rate_limit_response (retry_after : Z) : LeadResponse := {|
  lr_status := {| sn_success := false; sn_status := "error";
                  sn_message := Some "Rate limit exceeded: max 360 requests per hour";
                  sn_error := Some "Too many requests" |};
  lr_lead := {| ln_promise_id := Some ""; ln_lead_id := Some ""; ln_lead_uuid := Some ""; ln_ping_id := Some "";
                ln_bid := Some f64_zero; ln_post_id := Some ""; ln_price := Some f64_zero |};
  lr_verbose := Some (json_object [
    ("status_code", json_of_u64 429); ("rate_limit_per_hour", json_of_u64 RATE_LIMIT_PER_HOUR);
    ("remaining", json_of_u64 0); ("retry_after_seconds", json_of_u64 retry_after)]);
  lr_http_status := Some 429%Z
|}.

(** ** Lemmas *)

Lemma read_opt_str o : opt_string (Some (json_of_opt_str o)) = Ok o.
Proof. by destruct o. Qed.
Lemma read_opt_bool o : opt_bool (Some (json_of_option JBool o)) = Ok o.
Proof. by destruct o. Qed.

(** A finite number is read back. *)
Lemma read_opt_f64 o :
  match o with Some x => f64_is_finite x = true | None => True end →
  opt_f64 (Some (json_of_option json_of_f64 o)) = Ok o.
Proof.
  destruct o as [x|]; [|done]. intros Hx. unfold json_of_option, json_of_f64. rewrite Hx. done.
Qed.

(** [map_get] on a map built from distinct keys. *)
Lemma map_get_map_of k l : NoDup l.*1 → map_get k (map_of l) = map_get k l.
Proof.
  intros Hnd. unfold map_of.
  assert (Hg : ∀ o, map_get k (foldl (λ o kv, map_insert kv.1 kv.2 o) o l) =
    match map_get k l with Some v => Some v | None => map_get k o end).
  { induction l as [|[k' v] l IH]; intros o; simpl; [done|]. csimpl in *. apply NoDup_cons in Hnd as [Hn Hnd].
    rewrite IH by done. case_decide as Hk.
    - subst. assert (Hnone : map_get k' l = None).
      { clear -Hn. induction l as [|[k v] l IH]; simpl; [done|]. csimpl in *.
        apply not_elem_of_cons in Hn as [Hne Hn]. rewrite decide_False by congruence. auto. }
      by rewrite Hnone, map_get_insert_eq.
    - destruct (map_get k l); [done|]. by rewrite map_get_insert_ne. }
  rewrite Hg. by destruct (map_get k l).
Qed.

Lemma map_get_entry k v l : NoDup l.*1 → (k, v) ∈ l → map_get k (map_of l) = Some v.
Proof.
  intros Hnd Hin. rewrite map_get_map_of by done. revert Hnd Hin.
  induction l as [|[k' v'] l IH]; csimpl; [by intros _ ?%elem_of_nil|].
  intros [Hn Hnd]%NoDup_cons [[= <- <-]|Hin]%elem_of_cons; [by rewrite decide_True|].
  case_decide as E; [|auto]. subst. exfalso. apply Hn. apply list_elem_of_fmap. by exists (k', v).
Qed.

(** Reads the fields of an object that was built from entries. *)
Ltac nodup_keys := apply (bool_decide_unpack _); vm_compute; exact I.
Ltac read_entries :=
  repeat match goal with
  | |- context [map_get ?k (map_of ?l)] => erewrite (map_get_entry k _ l); [|nodup_keys|member]
  end.

(** The nested form of the data. *)
Definition nested_form (d : LeadData) : json := json_object [
  ("request_properties", json_object [
    ("vertical", JString (ld_vertical d)); ("is_test", json_of_option JBool (ld_is_test d));
    ("request_type", json_of_opt_str (ld_request_type d))]);
  ("publisher_data", json_object [
    ("publisher_id", json_of_opt_str (ld_publisher_id d)); ("campaign_token", json_of_opt_str (ld_campaign_token d));
    ("lead_id", json_of_opt_str (ld_lead_id d)); ("promise_id", json_of_opt_str (ld_promise_id d));
    ("source", json_of_opt_str (ld_source d))]);
  ("consumer_data", json_object [
    ("first_name", json_of_opt_str (ld_first_name d)); ("last_name", json_of_opt_str (ld_last_name d));
    ("email", json_of_opt_str (ld_email d)); ("cell_phone", json_of_opt_str (ld_cell_phone d));
    ("street_address", json_of_opt_str (ld_street_address d)); ("city", json_of_opt_str (ld_city d));
    ("state", json_of_opt_str (ld_state d)); ("zip", json_of_opt_str (ld_zip d));
    ("credit_rating", json_of_opt_str (ld_credit_rating d)); ("ip_address", json_of_opt_str (ld_ip_address d));
    ("user_agent", json_of_opt_str (ld_user_agent d))]);
  ("property_data", json_object [
    ("monthly_bill", json_of_option json_of_f64 (ld_monthly_bill d)); ("own_home", json_of_option JBool (ld_own_home d));
    ("property_type", json_of_opt_str (ld_property_type d));
    ("purchase_timeframe", json_of_opt_str (ld_purchase_timeframe d));
    ("roof_shade", json_of_opt_str (ld_roof_shade d)); ("roof_type", json_of_opt_str (ld_roof_type d));
    ("utility_provider", json_of_opt_str (ld_utility_provider d))]);
  ("compliance", json_object [
    ("tcpa_consent", json_of_option JBool (ld_tcpa_consent d)); ("tcpa_language", json_of_opt_str (ld_tcpa_language d));
    ("jornaya_lead_id", json_of_opt_str (ld_jornaya_lead_id d));
    ("trusted_form_url", json_of_opt_str (ld_trusted_form_url d))])].

Definition without_verbose (d : LeadData) : LeadData := {|
  ld_publisher_id := ld_publisher_id d; ld_vertical := ld_vertical d; ld_request_type := ld_request_type d;
  ld_campaign_token := ld_campaign_token d; ld_promise_id := ld_promise_id d; ld_lead_id := ld_lead_id d;
  ld_source := ld_source d; ld_first_name := ld_first_name d; ld_last_name := ld_last_name d;
  ld_email := ld_email d; ld_cell_phone := ld_cell_phone d; ld_street_address := ld_street_address d;
  ld_city := ld_city d; ld_state := ld_state d; ld_zip := ld_zip d; ld_monthly_bill := ld_monthly_bill d;
  ld_credit_rating := ld_credit_rating d; ld_own_home := ld_own_home d; ld_property_type := ld_property_type d;
  ld_roof_shade := ld_roof_shade d; ld_roof_type := ld_roof_type d; ld_utility_provider := ld_utility_provider d;
  ld_purchase_timeframe := ld_purchase_timeframe d; ld_ip_address := ld_ip_address d;
  ld_tcpa_consent := ld_tcpa_consent d; ld_tcpa_language := ld_tcpa_language d;
  ld_jornaya_lead_id := ld_jornaya_lead_id d; ld_trusted_form_url := ld_trusted_form_url d;
  ld_is_test := ld_is_test d; ld_verbose := None; ld_user_agent := ld_user_agent d
|}.

Lemma flat_read d :
  match ld_monthly_bill d with Some x => f64_is_finite x = true | None => True end →
  lead_data_of_value (lead_data_to_value d) = Ok d.
Proof.
  intros Hx. unfold lead_data_of_value, lead_data_to_value, json_object. cbn [struct_get ok_or mbind Result_bind].
  unfold lead_data_of_fields. read_entries.
  unfold ok_or, as_str. rewrite !read_opt_str, !read_opt_bool, read_opt_f64 by done. by destruct d.
Qed.

(** One group of the nested form reads back. *)
Ltac read_group f :=
  unfold f, json_object; cbn [struct_get ok_or mbind Result_bind]; read_entries;
  rewrite ?read_opt_str, ?read_opt_bool, ?read_opt_f64 by done; reflexivity.

Lemma read_json_object {A} (f : json → Result string A) l a :
  f (json_object l) = Ok a → read_struct f (Some (json_object l)) = Ok (Some a).
Proof. unfold read_struct, json_object. by intros ->. Qed.

Lemma nested_groups_there d : forallb (λ group, bool_decide (is_Some (jget group (nested_form d)))) nested_groups = true.
Proof.
  apply forallb_forall. intros g Hg. apply bool_decide_eq_true. unfold nested_form, json_object at 1, jget, as_object.
  simpl in Hg. destruct_or? Hg; subst; try done; cbn [mbind option_bind]; eexists; (apply map_get_entry; [nodup_keys|member]).
Qed.

Lemma nested_read d :
  match ld_monthly_bill d with Some x => f64_is_finite x = true | None => True end →
  deserialize_lead_body (nested_form d) = Ok (without_verbose d).
Proof.
  intros Hx. unfold deserialize_lead_body. rewrite nested_groups_there.
  unfold lead_nested_of_value, nested_form, json_object at 1. cbn [struct_get ok_or mbind Result_bind].
  read_entries.
  erewrite (read_json_object request_properties_of_value);
    [|change (JString (ld_vertical d)) with (json_of_opt_str (Some (ld_vertical d)));
      read_group request_properties_of_value].
  erewrite (read_json_object publisher_data_of_value); [|read_group publisher_data_of_value].
  erewrite (read_json_object consumer_data_of_value); [|read_group consumer_data_of_value].
  erewrite (read_json_object property_data_of_value); [|read_group property_data_of_value].
  erewrite (read_json_object compliance_of_value); [|read_group compliance_of_value].
  reflexivity.
Qed.

(** ** Lemmas: the rate limit *)

Section rate_limit.

(** The instants of the requests of one publisher that are let through. *)
Fixpoint admitted (key : string) (buckets : gmap string RateBucket) (times : list Z) : list Z :=
  match times with
  | [] => []
  | now :: times' =>
      let '(refused, buckets') := rate_check now key buckets in
      match refused with
      | None => now :: admitted key buckets' times'
      | Some _ => admitted key buckets' times'
      end
  end.

(** How many of them fall in the hour from [t]. *)
Definition in_hour (t : Z) (x : Z) : bool := ((t <=? x) && (x <? t + 3600000))%Z.
Definition hour_count (t : Z) (l : list Z) : Z := Z.of_nat (length (List.filter (in_hour t) l)).

Lemma hour_count_cons t x l : hour_count t (x :: l) = ((if in_hour t x then 1 else 0) + hour_count t l)%Z.
Proof. unfold hour_count. simpl. destruct (in_hour t x); simpl; lia. Qed.

Definition bucket_at (key : string) (buckets : gmap string RateBucket) (start count : Z) : Prop :=
  buckets !! key = Some {| window_start := start; bucket_count := count |}.

(** One request, with a bucket. *)
Lemma rate_check_step key buckets start count now :
  bucket_at key buckets start count → (start ≤ now)%Z → (count ≤ 360)%Z →
  (start + 3600000 ≤ now ∧ (rate_check now key buckets).1 = None ∧ bucket_at key (rate_check now key buckets).2 now 1)%Z ∨
  (now < start + 3600000 ∧ count < 360 ∧ (rate_check now key buckets).1 = None ∧
     bucket_at key (rate_check now key buckets).2 start (count + 1))%Z ∨
  (now < start + 3600000 ∧ count = 360 ∧ is_Some (rate_check now key buckets).1 ∧
     bucket_at key (rate_check now key buckets).2 start count)%Z.
Proof.
  unfold bucket_at. intros Hb Hs Hc. unfold rate_check, current_bucket. rewrite Hb. simpl.
  unfold seconds_since, RATE_LIMIT_WINDOW_SECONDS, RATE_LIMIT_PER_HOUR. rewrite Z.max_r by lia.
  destruct (Z.leb_spec 3600 ((now - start) / 1000)) as [Hw|Hw].
  - left. assert (3600000 ≤ now - start)%Z by (pose proof (Z.mul_div_le (now - start) 1000); lia).
    simpl. rewrite lookup_insert_eq. split_and!; [lia|done|done].
  - right. assert (now - start < 3600000)%Z by (apply Z.nle_gt; intros Hge; assert (3600 ≤ (now - start) / 1000)%Z by
      (apply Z.div_le_lower_bound; lia); lia).
    simpl. destruct (Z.leb_spec 360 count) as [Hge|Hlt]; simpl; rewrite lookup_insert_eq.
    + right. split_and!; [lia|lia|eauto|done].
    + left. split_and!; [lia|lia|done|done].
Qed.

(** From a window that starts in the hour. *)
Lemma admitted_from_window key t buckets start count times :
  bucket_at key buckets start count → (t ≤ start)%Z → (0 ≤ count ≤ 360)%Z →
  StronglySorted Z.le (start :: times) → (hour_count t (admitted key buckets times) ≤ 360 - count)%Z.
Proof.
  revert buckets start count. induction times as [|now times IH]; intros buckets start count Hb Ht Hc Hsort; simpl.
  { unfold hour_count. simpl. lia. }
  apply StronglySorted_inv in Hsort as [Hsort Hall]. apply Forall_cons in Hall as [Hnow Hall].
  pose proof Hsort as Hsort'. apply StronglySorted_inv in Hsort' as [Hsort'' Hall'].
  assert (Hss : StronglySorted Z.le (start :: times)) by (by constructor).
  destruct (rate_check_step key buckets start count now Hb Hnow ltac:(lia)) as [(Hw & Hr & Hb')|[(Hw & Hlt & Hr & Hb')|(Hw & Heq & [x Hr] & Hb')]].
  - assert (Hlate : ∀ b l, Forall (λ x, now ≤ x)%Z l → (hour_count t (admitted key b l) = 0)%Z).
    { intros b l Hl. revert b. induction Hl as [|y l Hy Hl IHl]; intros b; simpl; [done|].
      destruct (rate_check y key b) as [[s|] b']; [apply IHl|]. rewrite hour_count_cons, IHl.
      unfold in_hour. destruct (Z.ltb_spec y (t + 3600000)); [lia|]. by rewrite andb_false_r. }
    destruct (rate_check now key buckets) as [r b']; simpl in *; subst r. rewrite hour_count_cons, Hlate by done.
    unfold in_hour. destruct (Z.ltb_spec now (t + 3600000)); [lia|]. rewrite andb_false_r. lia.
  - destruct (rate_check now key buckets) as [r b']; simpl in *; subst r. rewrite hour_count_cons.
    specialize (IH b' start (count + 1)%Z Hb' Ht ltac:(lia) Hss). destruct (in_hour t now); lia.
  - destruct (rate_check now key buckets) as [r b']; simpl in *; subst r. by apply (IH b' start count).
Qed.

(** From a window that starts before the hour. *)
Lemma admitted_from_before key t buckets start count times :
  bucket_at key buckets start count → (0 ≤ count ≤ 360)%Z →
  StronglySorted Z.le (start :: times) → Forall (λ x, t ≤ x)%Z times →
  (hour_count t (admitted key buckets times) ≤ 720 - count)%Z.
Proof.
  revert buckets count. induction times as [|now times IH]; intros buckets count Hb Hc Hsort Hge; simpl.
  { unfold hour_count. simpl. lia. }
  apply StronglySorted_inv in Hsort as [Hsort Hall]. apply Forall_cons in Hall as [Hnow Hall].
  apply Forall_cons in Hge as [Htn Hge].
  assert (Hss : StronglySorted Z.le (start :: times)) by (apply StronglySorted_inv in Hsort as [??]; by constructor).
  destruct (rate_check_step key buckets start count now Hb Hnow ltac:(lia)) as [(Hw & Hr & Hb')|[(Hw & Hlt & Hr & Hb')|(Hw & Heq & [x Hr] & Hb')]];
    destruct (rate_check now key buckets) as [r b']; simpl in *; subst r.
  - rewrite hour_count_cons. pose proof (admitted_from_window key t b' now 1 times Hb' Htn ltac:(lia) Hsort).
    destruct (in_hour t now); lia.
  - rewrite hour_count_cons. specialize (IH b' (count + 1)%Z Hb' ltac:(lia) Hss Hge). destruct (in_hour t now); lia.
  - specialize (IH b' count Hb' Hc Hss Hge). lia.
Qed.

Lemma admitted_hour key t buckets start count times :
  bucket_at key buckets start count → (0 ≤ count ≤ 360)%Z → StronglySorted Z.le (start :: times) →
  (hour_count t (admitted key buckets times) ≤ 720)%Z.
Proof.
  revert buckets start count. induction times as [|now times IH]; intros buckets start count Hb Hc Hsort; simpl.
  { unfold hour_count. simpl. lia. }
  destruct (Z.le_gt_cases t now) as [Hge|Hlt].
  - assert (Hall : Forall (λ x, t ≤ x)%Z (now :: times)).
    { apply StronglySorted_inv in Hsort as [Hsort _]. apply StronglySorted_inv in Hsort as [_ Hall].
      constructor; [done|]. eapply Forall_impl; [exact Hall|]. simpl. intros x Hx. lia. }
    pose proof (admitted_from_before key t buckets start count (now :: times) Hb Hc Hsort Hall) as Hbound.
    simpl in Hbound. lia.
  - apply StronglySorted_inv in Hsort as [Hsort Hall]. apply Forall_cons in Hall as [Hnow Hall].
    assert (Hss : StronglySorted Z.le (start :: times)) by (apply StronglySorted_inv in Hsort as [??]; by constructor).
    assert (Hout : in_hour t now = false) by (unfold in_hour; destruct (Z.leb_spec t now); [lia|done]).
    destruct (rate_check_step key buckets start count now Hb Hnow ltac:(lia)) as [(Hw & Hr & Hb')|[(Hw & Hc' & Hr & Hb')|(Hw & Heq & [x Hr] & Hb')]];
      destruct (rate_check now key buckets) as [r b']; simpl in *; subst r; rewrite ?hour_count_cons, ?Hout.
    + specialize (IH b' now 1%Z Hb' ltac:(lia) Hsort). lia.
    + specialize (IH b' start (count + 1)%Z Hb' ltac:(lia) Hss). lia.
    + by apply (IH b' start count).
Qed.
End rate_limit.

(** ** Properties *)

(** C39: the body of a request reads back, in both forms: the flat form of a request
    with a finite monthly bill gives the request, and so does the nested form, but
    for the lead-level [verbose], which it does not have. *)
Theorem lead_body_roundtrip (d : LeadData) :
  match ld_monthly_bill d with Some x => f64_is_finite x = true | None => True end →
  deserialize_lead_body (lead_data_to_value d) = Ok d ∧
  deserialize_lead_body (nested_form d) = Ok (without_verbose d).
Proof.
  intros Hx. split; [|by apply nested_read]. unfold deserialize_lead_body.
  assert (Hflat : jget "request_properties" (lead_data_to_value d) = None).
  { unfold jget, lead_data_to_value, json_object, as_object. cbn [mbind option_bind].
    rewrite map_get_map_of by nodup_keys. reflexivity. }
  cbn [nested_groups forallb]. rewrite Hflat. by apply flat_read.
Qed.

(** C40: the rate limit.  Of the requests of a publisher, in the order of time, at
    most 360 are let through in the hour from the first one, and at most 720 in any
    hour; a refused request is told to wait between one second and an hour; and a
    publisher is not limited by the requests of another. *)
Theorem rate_limit_bound (key key' : string) (first now t : Z) (times : list Z) (buckets : gmap string RateBucket) :
  StronglySorted Z.le (first :: times) →
  (hour_count first (admitted key ∅ (first :: times)) ≤ 360)%Z ∧
  (hour_count t (admitted key ∅ (first :: times)) ≤ 720)%Z ∧
  (∀ wait, (rate_check now key buckets).1 = Some wait → 1 ≤ wait ≤ 3600)%Z ∧
  (key ≠ key' → (rate_check now key buckets).2 !! key' = buckets !! key').
Proof.
  intros Hsort. pose proof Hsort as Hinv. apply StronglySorted_inv in Hinv as [Hsort' Hall].
  assert (Hfirst : rate_check first key ∅ = (None, <[key := {| window_start := first; bucket_count := 1 |}]> ∅)).
  { unfold rate_check, current_bucket. rewrite lookup_empty. simpl. unfold seconds_since. rewrite Z.sub_diag. done. }
  assert (Hb : bucket_at key (<[key := {| window_start := first; bucket_count := 1 |}]> ∅) first 1)
    by apply lookup_insert_eq.
  cbn [admitted]. rewrite Hfirst. split_and!.
  - rewrite hour_count_cons. unfold in_hour at 1.
    pose proof (admitted_from_window key first _ first 1 times Hb ltac:(lia) ltac:(lia) Hsort). case_match; lia.
  - rewrite hour_count_cons. destruct (Z.le_gt_cases t first) as [Hle|Hgt].
    + pose proof (admitted_from_window key t _ first 1 times Hb Hle ltac:(lia) Hsort). case_match; lia.
    + assert (Hout : in_hour t first = false) by (unfold in_hour; destruct (Z.leb_spec t first); [lia|done]).
      pose proof (admitted_hour key t _ first 1 times Hb ltac:(lia) Hsort). rewrite Hout. lia.
  - intros wait. unfold rate_check. case_match; [|done]. intros [= <-].
    assert (Hin : (0 ≤ seconds_since now (window_start (current_bucket now (buckets !! key))) < 3600)%Z).
    { unfold current_bucket, RATE_LIMIT_WINDOW_SECONDS. split; [unfold seconds_since; apply Z.div_pos; lia|].
      destruct (Z.leb_spec 3600 (seconds_since now (window_start (default {| window_start := now; bucket_count := 0 |}
        (buckets !! key))))); [|done]. simpl. unfold seconds_since. rewrite Z.sub_diag. done. }
    unfold u64_saturating_sub, RATE_LIMIT_WINDOW_SECONDS. lia.
  - intros Hne. unfold rate_check. case_match; simpl; by rewrite lookup_insert_ne.
Qed.

(** ** Witnesses *)

Definition sample_lead_data : LeadData := {|
  ld_publisher_id := Some "p"; ld_vertical := "solar"; ld_request_type := Some "ping"; ld_campaign_token := None;
  ld_promise_id := None; ld_lead_id := None; ld_source := None; ld_first_name := Some "Ann"; ld_last_name := None;
  ld_email := Some "a@b.c"; ld_cell_phone := None; ld_street_address := None; ld_city := None; ld_state := None;
  ld_zip := Some "94107"; ld_monthly_bill := Some (f64_of_Z 200); ld_credit_rating := Some "Good";
  ld_own_home := Some true; ld_property_type := None; ld_roof_shade := Some "Full Sun"; ld_roof_type := None;
  ld_utility_provider := None; ld_purchase_timeframe := None; ld_ip_address := Some "1.2.3.4";
  ld_tcpa_consent := Some true; ld_tcpa_language := Some "yes"; ld_jornaya_lead_id := None;
  ld_trusted_form_url := Some "https://t"; ld_is_test := None; ld_verbose := Some true; ld_user_agent := None
|}.

Lemma lead_body_roundtrip_witness :
  deserialize_lead_body (lead_data_to_value sample_lead_data) = Ok sample_lead_data ∧
  deserialize_lead_body (nested_form sample_lead_data) = Ok (without_verbose sample_lead_data).
Proof. apply (lead_body_roundtrip sample_lead_data). reflexivity. Defined.

(** One request opens the window; 359 in its last second and 360 in the first of the
    next one make 719 within a second. *)
Definition burst : list Z := replicate 359 3599500%Z ++ replicate 400 3600000%Z.

Lemma rate_limit_bound_witness :
  (hour_count 0 (admitted "p" ∅ (0%Z :: burst)) ≤ 360)%Z ∧
  (hour_count 3599500 (admitted "p" ∅ (0%Z :: burst)) ≤ 720)%Z ∧
  hour_count 3599500 (admitted "p" ∅ (0%Z :: burst)) = 719%Z.
Proof.
  assert (Hsort : StronglySorted Z.le (0%Z :: burst)) by (apply (bool_decide_unpack _); vm_compute; exact I).
  destruct (rate_limit_bound "p" "q" 0 0 3599500 burst ∅ Hsort) as (H1 & H2 & _).
  split; [exact H1|]. split; [exact H2|]. vm_compute. reflexivity.
Defined.
