(* ===== verification/LeadHandler.v ===== *)
(** * The lead endpoint

    [crates/api/src/routes/leads.rs], [create_lead] (lines 863-3818): the handler of
    ping, post and fullpost requests.  It answers with a status code and a
    response; the statements it spawns without waiting are returned with them, to
    be run at any later moment.  What it loads (the vertical, the pre-check query,
    cached rows, names, the encryption key) and draws (ids, durations) are
    arguments. *)

From stdpp Require Import base list strings gmap.
From Stdlib Require Import Ascii ZArith Lia.
From S2P Require Import Prelude Float64 Platform Json Models Metrics Samples Qualification Store Response Auction.
From S2P Require Import Pulsar BuyerRouter PingTreeRouter WriteBehind LeadRequest.

Open Scope string_scope.
Open Scope list_scope.

(** Library functions of the handler: [Uuid::parse_str] and [format!("{:.2}")]. *)
Record ApiLib : Type := {
  parse_uuid : string → option Uuid;
  format_2 : f64 → string
}.

(** What the handler reads, through the cache when there is one. *)
Record RequestLoads : Type := {
  rl_vertical : Result string (option Vertical);
  (** The lead cached under the promise id of a post. *)
  rl_cached_lead : option Lead;
  (** Campaign, effective buyer, and whether there is a ping tree. *)
  rl_prechecks : Result string (option (option Uuid * option Uuid * bool));
  rl_fallback_buyer : Result string (option Uuid);
  (** The key derived from the SSM parameters, when both are there. *)
  rl_key : option string;
  rl_route : RouteLoads;
  rl_buyer_name : Uuid → option string;
  rl_campaign_name : Uuid → option string;
  (** Of [persist_failed_lead]: the publisher's instance has a campaign. *)
  rl_instance_campaign : Result string (option (Uuid * Uuid))
}.

(** How a cached lookup went: a fast or a slow answer of the cache, a failure of the
    cache followed by a query, or a query without a cache; the durations of the
    queries in milliseconds. *)
Inductive Access : Type :=
  | CacheFast
  | CacheSlow
  | CacheFailed (query : Z)
  | Direct (query : Z).

(** What the handler draws. *)
Record RequestDraws : Type := {
  rd_lead_uuid : Uuid;
  rd_event_uuid : Uuid;
  rd_session_uuid : Uuid;
  rd_lead_id_chars : string;
  rd_promise_bytes : string;
  rd_token : Uuid;
  rd_request_id : Uuid;
  rd_arrived : Instant;
  rd_total : Instant;
  rd_vertical_access : Access;
  rd_vertical_ms : Z;
  rd_prechecks_access : Access;
  rd_prechecks_ms : Z;
  rd_auction : AuctionDraws;
  rd_post : TaskDraws
}.

Record Request : Type := {
  req_publisher_id : Uuid;
  req_params : gmap string string;
  (** A value that is not visible ASCII reads as [None]. *)
  req_headers : gmap string (option string);
  req_verbose : option bool;
  req_lead : LeadData
}.

(** The status code, the body, and the statements spawned. *)
Record Answer : Type := {
  answer_status : Z;
  answer_body : LeadResponse;
  answer_spawned : list (service unit)
}.

Section handler.
Context `{Platform} (lib : ApiLib) (sv : Services) (codec : Codec).
Context (retry_spawn : service unit → service unit).
Context (retry_claim : service (option Uuid) → service (option Uuid)).

Definition answer (status : Z) (body : LeadResponse) : Answer :=
  {| answer_status := status; answer_body := body; answer_spawned := [] |}.

(** ** The context of a request *)

Definition request_context_from_headers (headers : gmap string (option string)) (endpoint meth reason source outcome target_type
    target_id action : string) (request_uuid : Uuid) (timestamp : DateTime) : jmap :=
  let header := header_text headers in
  let first_of k k' := match headers !! k with Some v => v | None => header k' end in
  let ip_address := (λ s, str_trim (before_comma s)) <$> first_of "x-forwarded-for" "x-real-ip" in
  let ip_address_v4 := str_trim <$> header "x-client-ipv4" in
  let ip_address_v6 := str_trim <$> header "x-client-ipv6" in
  let request_id := default (uuid_to_string request_uuid) (first_of "x-request-id" "x-correlation-id") in
  let context := json_object ([
    ("endpoint", JString endpoint); ("method", JString meth); ("reason", JString reason); ("source", JString source);
    ("request_id", JString request_id); ("ip_address", json_of_opt_str ip_address)] ++
    (if bool_decide (is_Some ip_address_v4) || bool_decide (is_Some ip_address_v6)
     then [("ip_address_v4", json_of_opt_str ip_address_v4); ("ip_address_v6", json_of_opt_str ip_address_v6)]
     else []) ++ [
    ("user_agent", json_of_opt_str (header "user-agent")); ("referer", json_of_opt_str (header "referer"));
    ("session_id", json_of_opt_str (header "x-session-id"))]) in
  map_of [
    ("context", context);
    ("compliance", json_object [("standard", JString "ISO_27001_SOC2_NIST"); ("version", JString "2024")]);
    ("outcome", JString outcome); ("timestamp", JString (to_rfc3339 timestamp));
    ("target_type", JString target_type); ("target_id", JString target_id); ("target_name", JNull);
    ("action", JString action)].

(** [(p * 100.0).round() / 100.0]. *)
Definition round2 (p : f64) : f64 := f64_div (f64_round (f64_mul p (f64_of_Z 100))) (f64_of_Z 100).

(** The object stored for a routing result. *)
Definition routing_result_json (result : RoutingResult) : json := json_object [
  ("routing_result", json_object [
    ("status", JString (rr_status result)); ("success", JBool (rr_success result));
    ("error", json_of_opt_str (rr_error result));
    ("price", match rr_price result with
              | Some p => if f64_is_finite p then JNumber (Float p) else json_of_u64 0
              | None => JNull
              end);
    ("buyer_id", json_of_option json_of_uuid (rr_buyer_id result));
    ("campaign_id", json_of_option json_of_uuid (rr_campaign_id result));
    ("ping_id", json_of_opt_str (rr_ping_id result)); ("post_id", json_of_opt_str (rr_post_id result));
    ("promise_id", json_of_opt_str (rr_promise_id result))])].

(** The envelope of a JSON value: with a key, when it can be printed and encrypted. *)
Definition encrypted_json (key : option string) (v : json) : option string :=
  k ← key; text ← json_to_string codec v;
  match encrypt_envelope codec k text with Ok envelope => Some envelope | Err _ => None end.

(** A count of milliseconds of the request's timing or metrics. *)
Definition timing_ms (f : AtomicAuctionTiming → Z) (t : Telemetry) : json := json_of_u64 (default 0%Z (f <$> tele_timing t)).
Definition query_ms (t : Telemetry) : json := json_of_u64 (default 0%Z (db_query_time_ms <$> tele_metrics t)).

(** ** Post *)

(** The lead of a post: by promise, from the cache or the database, else by the lead
    id of the request; [Err] when the first query fails. *)
Definition find_lead_for_post (cached : option Lead) (promise_id : string) (lead_id_str : option string)
    : service (Result string (option Lead)) :=
  by_promise ← (match cached with
                | Some l => mret (Ok (Some l))
                | None => r ← catch (select_one (leads_by_promise_id promise_id));
                          mret (map_err (λ e, "Database error: " +:+ e) r)
                end);
  match by_promise with
  | Ok (Some l) => mret (Ok (Some l))
  | Ok None =>
      match lead_id_str with
      | Some lid =>
          r ← catch (select_one (leads_by_lead_id lid));
          mret (Ok (match r with Ok o => o | Err _ => None end))
      | None => mret (Ok None)
      end
  | Err e => mret (Err e)
  end.

(** [post_id IS NULL OR post_id = '']. *)
Definition empty_post_id (l : Lead) : bool :=
  match lead_post_id l with None => true | Some p => String.eqb p "" end.

(** [INTERVAL '10 minutes']. *)
Definition promise_lifetime : Z := 600000000.

Definition claimable (promise_id : string) (now : DateTime) (l : Lead) : bool :=
  empty_post_id l && bool_decide (lead_promise_id l = Some promise_id)
  && (now - promise_lifetime <=? lead_created_at l)%Z.

(** The conditional claim, one atomic statement. *)
Definition claim_promise (token promise_id : string) (id : Uuid) : service (option Uuid) :=
  exec (λ now db,
    match db_leads db !! id with
    | Some l => if claimable promise_id now l
                then (Ok (Some id), update_lead_row (set_post_id (Some token)) id db)
                else (Ok None, db)
    | None => (Ok None, db)
    end).

Definition sold_message (buyer_name : option string) (price : option f64) : string :=
  match buyer_name, price with
  | Some name, Some p => "Lead sold to " +:+ name +:+ " for $" +:+ f64_to_string p
  | Some name, None => "Lead sold to " +:+ name
  | None, Some p => "Lead sold for $" +:+ f64_to_string p
  | None, None => "Lead sold"
  end.

Definition post_message (result : RoutingResult) (buyer_name : option string) (price : option f64) : string :=
  if String.eqb (rr_status result) "sold" then sold_message buyer_name price
  else default (rr_status result) (rr_error result).

(** The request and the answer, stored with the post. *)
Definition post_payload_task (lead : Uuid) (lead_data : LeadData) (key : option string) (result : RoutingResult)
    : BackgroundTask :=
  PayloadUpdate {|
    pu_lead_id := lead; pu_payload_type := "post"; pu_payload := lead_data_to_value lead_data;
    pu_post_id := rr_post_id result;
    pu_request_payload_encrypted := encrypted_json key (lead_data_to_value lead_data);
    pu_response_payload_encrypted := encrypted_json key (routing_result_json result);
    pu_ping_payloads_row_id := None; pu_external_ping_id := None |}.

(** [(now - created_at).num_milliseconds().clamp(0, i64::MAX)]. *)
Definition wall_ms (now created_at : DateTime) : Z := Z.max 0 (Z.quot (now - created_at) 1000).

(** The lead's [vertical_data] with the timing and the context of the post. *)
Definition post_vertical_data (lead : Lead) (headers : gmap string (option string)) (request_uuid : Uuid)
    (result : RoutingResult) (t : Telemetry) (now : DateTime) : json :=
  let pre_checks := timing_ms pre_checks_ms t in
  let post := timing_ms post_sent_ms t in
  let total := json_of_u64 (wall_ms now (lead_created_at lead)) in
  let auction_timing := json_object [
    ("request_type", JString "post"); ("pre_checks_ms", pre_checks); ("post_ms", post);
    ("db_operations_ms", query_ms t); ("total_ms", total)] in
  let outcome := if rr_success result && String.eqb (rr_status result) "sold" then "success" else "failure" in
  let context := request_context_from_headers headers "/api/v1/leads" "POST" "Lead post (buyer post)" "carina_api"
    outcome "Lead" (uuid_to_string (lead_uuid lead)) "post" request_uuid now in
  let verbose := JObject (map_insert "processing_times" (json_object [
    ("pre_checks_ms", pre_checks); ("post_ms", post); ("db_operations_ms", query_ms t); ("total_ms", total)]) context) in
  match lead_vertical_data lead with
  | JObject obj => JObject (map_insert "verbose" verbose (map_insert "auction_timing" auction_timing obj))
  | _ => json_object [("auction_timing", auction_timing); ("verbose", verbose)]
  end.

(** The update queued after a post: sold if the token is still there, else the
    token is given back. *)
Definition post_lead_update (lead : Lead) (token : string) (vertical_data : json) (result : RoutingResult)
    : LeadUpdateData :=
  if rr_success result && String.eqb (rr_status result) "sold" then {|
    lu_lead_id := lead_uuid lead; lu_status := LeadSold; lu_campaign_id := rr_campaign_id result;
    lu_buyer_id := rr_buyer_id result; lu_promise_id := None; lu_ping_id := None;
    lu_post_id := rr_post_id result; lu_sold_at := true; lu_inprog_token := Some token;
    lu_vertical_data := Some vertical_data |}
  else {|
    lu_lead_id := lead_uuid lead; lu_status := lead_status lead; lu_campaign_id := None;
    lu_buyer_id := None; lu_promise_id := None; lu_ping_id := None; lu_post_id := Some "";
    lu_sold_at := false; lu_inprog_token := Some token; lu_vertical_data := Some vertical_data |}.

Definition post_routing_verbose (ld : RequestLoads) (result : RoutingResult) : json := json_object [
  ("buyer_name", json_of_opt_str (rr_buyer_id result ≫= rl_buyer_name ld));
  ("buyer_id", json_of_option json_of_uuid (rr_buyer_id result));
  ("campaign_name", json_of_opt_str (rr_campaign_id result ≫= rl_campaign_name ld));
  ("campaign_id", json_of_option json_of_uuid (rr_campaign_id result))].

(** The response of a routed post; the status code is 400 even of a sale. *)
Definition post_answer (verbose : bool) (ld : RequestLoads) (lead : Lead) (result : RoutingResult) (now : DateTime)
    : Answer :=
  let rounded_price := round2 <$> rr_price result in
  let code := if rr_success result then 200%Z else 500%Z in
  answer 400 {|
    lr_status := {| sn_success := rr_success result; sn_status := rr_status result;
                    sn_message := Some (post_message result (rr_buyer_id result ≫= rl_buyer_name ld) rounded_price);
                    sn_error := rr_error result |};
    lr_lead := {| ln_promise_id := None; ln_lead_id := lead_lead_id lead;
                  ln_lead_uuid := Some (uuid_to_string (lead_uuid lead)); ln_ping_id := None; ln_bid := None;
                  ln_post_id := rr_post_id result; ln_price := rounded_price |};
    lr_verbose := error_verbose verbose (if rr_success result then "ERR_200" else "ERR_500") now code
                    [("routing", post_routing_verbose ld result)];
    lr_http_status := Some code |}.

Definition duplicate_message : string :=
  "The lead_id or promise_id have already been posted, or do not match your ping response. Use the lead_id and promise_id from your ping response.".

Definition duplicate_answer (verbose : bool) (lead : Lead) (now : DateTime) : Answer :=
  answer 400 {|
    lr_status := error_node (Some duplicate_message) "duplicate_or_expired_promise";
    lr_lead := {| ln_promise_id := None; ln_lead_id := lead_lead_id lead;
                  ln_lead_uuid := Some (uuid_to_string (lead_uuid lead)); ln_ping_id := lead_ping_id lead;
                  ln_bid := None; ln_post_id := lead_post_id lead; ln_price := None |};
    lr_verbose := error_verbose verbose "ERR_400" now 400
      [("note", JString "lead_id or promise_id already posted or mismatch; use lead_id and promise_id from ping response")];
    lr_http_status := Some 400%Z |}.

(** A database error, reported with [status] in the body and [http] as the code. *)
Definition database_error_answer (verbose : bool) (http : Z) (e : string) (now : DateTime) : Answer :=
  let '(message, technical) := map_error_to_user e in
  answer http (error_response (Some message) technical (error_verbose verbose "ERR_500" now 500 []) 500).

Definition inprog_token (d : RequestDraws) : string := "INPROG_" +:+ uuid_to_string (rd_token d).

Definition router_of (rq : Request) (vertical : Vertical) (request_type : string) (lead : Lead) : PingTreeRouter := {|
  ptr_lead := lead; ptr_publisher_id := req_publisher_id rq; ptr_vertical := vertical_slug vertical;
  ptr_request_type := request_type; ptr_has_queue := true
|}.

(** What follows a successful claim: the routing, the two tasks, the answer.  When
    the routing fails nothing is queued, and the token stays. *)
Definition post_claimed (ld : RequestLoads) (d : RequestDraws) (rq : Request) (vertical : Vertical) (verbose : bool)
    (lead : Lead) : service Answer :=
  routed ← catch (PingTreeRouter.route sv retry_spawn (rl_route ld) (rd_auction d) (rd_post d)
                      (router_of rq vertical "post" lead));
  now ← eff_gets w_now;
  match routed with
  | Ok result =>
      t ← eff_gets w_telemetry;
      _ ← enqueue (post_payload_task (lead_uuid lead) (req_lead rq) (rl_key ld) result);
      _ ← enqueue (LeadUpdate (post_lead_update lead (inprog_token d)
                     (post_vertical_data lead (req_headers rq) (rd_request_id d) result t now) result));
      mret (post_answer verbose ld lead result now)
  | Err e => mret (database_error_answer verbose 500 e now)
  end.

(** The branch [request_type == "post"]. *)
Definition handle_post (ld : RequestLoads) (d : RequestDraws) (rq : Request) (vertical : Vertical) (verbose : bool)
    : service Answer :=
  promise_id ← unwrap (ok_or "promise_id validated above" (ld_promise_id (req_lead rq)));
  let lead_id_str := lid ← ld_lead_id (req_lead rq); if String.eqb lid "" then None else Some lid in
  found ← find_lead_for_post (rl_cached_lead ld) promise_id lead_id_str;
  now ← eff_gets w_now;
  match found with
  | Ok None => mret (answer 404 (error_response None "Lead not found" (error_verbose verbose "ERR_404" now 404 []) 404))
  | Err e => mret (database_error_answer verbose 400 e now)
  | Ok (Some lead) =>
      claimed ← catch (retry_claim (claim_promise (inprog_token d) promise_id (lead_uuid lead)));
      now ← eff_gets w_now;
      match claimed with
      | Ok (Some _) => post_claimed ld d rq vertical verbose lead
      | Ok None => mret (duplicate_answer verbose lead now)
      | Err e => mret (database_error_answer verbose 400 e now)
      end
  end.

(** ** Ping and fullpost *)

(** [match request_type] of the strategy. *)
Definition lead_strategy_of (request_type : string) : string :=
  if existsb (String.eqb request_type) ["ping"; "post"] then "pingPost"
  else if String.eqb request_type "fullpost" then "fullPost"
  else "pingPost".

Definition blank_token (token : option string) : bool :=
  match token with None => true | Some s => String.eqb (str_trim s) "" end.

(** The campaign, the buyer and the problems of the pre-checks. *)
Definition prechecks (ld : RequestLoads) (lead_data : LeadData) : option Uuid * option Uuid * list string :=
  let has_token := bool_decide (is_Some (ld_campaign_token lead_data)) in
  let when (b : bool) s := if b then [s] else [] in
  let no_campaign := "No campaign configured for this publisher/vertical" in
  let no_buyer := "No buyer configured for this publisher/vertical" in
  match rl_prechecks ld with
  | Ok (Some (campaign_id, effective_buyer_id, has_ping_tree)) =>
      (campaign_id, effective_buyer_id,
       when (negb has_ping_tree && bool_decide (is_Some campaign_id) && blank_token (ld_campaign_token lead_data))
         "This campaign is not in a ping tree (ronin). campaign_token is required when submitting leads to a ronin campaign." ++
       when (bool_decide (campaign_id = None) && has_token) no_campaign ++
       when (bool_decide (effective_buyer_id = None)) no_buyer)
  | Ok None =>
      let '(buyer_id, problems) :=
        match rl_fallback_buyer ld with
        | Ok (Some bid) => (Some bid, [])
        | Ok None => (None, [no_buyer])
        | Err _ => (None, ["Failed to verify buyers due to server error"])
        end in
      (None, buyer_id, problems ++ when has_token no_campaign)
  | Err _ => (None, None, ["Failed to verify configuration due to server error"])
  end.

Definition newline : string := String (ascii_of_nat 10) "".

(** The response to failed pre-checks. *)
Definition precheck_answer (verbose : bool) (problems : list string) (now : DateTime) : Answer :=
  answer 400 (error_response (Some (str_join newline problems))
    ("pre-check failures: " +:+ str_join ", " problems) (error_verbose verbose "ERR_400" now 400 []) 400).

Definition new_lead_id (d : RequestDraws) (vertical : Vertical) : string :=
  to_uppercase (vertical_slug vertical) +:+ "-" +:+ to_uppercase (rd_lead_id_chars d).

Definition new_event_id (d : RequestDraws) : string := "evt_" +:+ uuid_to_string (rd_event_uuid d).
Definition new_session_id (d : RequestDraws) : string := "sess_" +:+ uuid_to_string (rd_session_uuid d).

Definition new_promise_id (d : RequestDraws) (request_type : string) : option string :=
  if String.eqb request_type "ping" || String.eqb request_type "fullpost"
  then Some ("PROMISE_" +:+ to_uppercase (hex_encode (rd_promise_bytes d))) else None.

(** The task that creates the lead.  The buyer and the campaign are unwrapped. *)
Definition creation_task (ld : RequestLoads) (d : RequestDraws) (rq : Request) (vertical : Vertical) (request_type : string)
    (campaign_id_opt buyer_id_opt : option Uuid) : Panics LeadCreationData :=
  let lead_data := req_lead rq in
  buyer_id ← ok_or "buyer_id must be present after pre-checks" buyer_id_opt;
  campaign_id ← ok_or "campaign_id must be present after pre-checks" campaign_id_opt;
  Ok {| lc_uuid := rd_lead_uuid d; lc_event_id := new_event_id d; lc_lead_id := Some (new_lead_id d vertical);
        lc_publisher_id := req_publisher_id rq; lc_vertical_id := vertical_id vertical;
        lc_request_type := request_type; lc_strategy := lead_strategy_of request_type;
        lc_promise_id := new_promise_id d request_type; lc_buyer_id := buyer_id; lc_campaign_id := campaign_id;
        lc_tcpa_consent := default false (ld_tcpa_consent lead_data);
        lc_tcpa_language := default "" (ld_tcpa_language lead_data);
        lc_is_test := default false (ld_is_test lead_data); lc_session_id := new_session_id d;
        lc_vertical_data := json_object []; lc_first_name := ld_first_name lead_data;
        lc_last_name := ld_last_name lead_data; lc_email := ld_email lead_data;
        lc_cell_phone := ld_cell_phone lead_data; lc_street_address := ld_street_address lead_data;
        lc_city := ld_city lead_data; lc_state := ld_state lead_data; lc_zip := ld_zip lead_data;
        lc_ip_address := ld_ip_address lead_data; lc_request_payload := lead_data_to_value lead_data;
        lc_pii_encryption_key := rl_key ld |}.

(** The lead that is routed, before its row exists. *)
Definition routed_lead (d : RequestDraws) (rq : Request) (vertical : Vertical) (request_type : string)
    (campaign_id_opt buyer_id_opt : option Uuid) (now : DateTime) : Lead :=
  let lead_data := req_lead rq in {|
  lead_uuid := rd_lead_uuid d; lead_event_id := new_event_id d; lead_lead_id := Some (new_lead_id d vertical);
  lead_publisher_id := Some (req_publisher_id rq); lead_vertical_id := vertical_id vertical;
  lead_campaign_id := campaign_id_opt; lead_buyer_id := buyer_id_opt; lead_request_type := request_type;
  lead_strategy := lead_strategy_of request_type;
  lead_status := if default false (ld_is_test lead_data) then LeadTest else LeadProcessing;
  lead_promise_id := new_promise_id d request_type; lead_ping_id := None; lead_post_id := None;
  lead_session_id := Some (new_session_id d); lead_request_stage := None;
  lead_first_name_encrypted := None; lead_last_name_encrypted := None; lead_email_encrypted := None;
  lead_cell_phone_encrypted := None; lead_street_address_encrypted := None; lead_city_encrypted := None;
  lead_state_encrypted := None; lead_zip_encrypted := None; lead_ip_address_encrypted := None;
  lead_email_sha256 := None; lead_phone_sha256 := None; lead_ip_address_hash := None; lead_email_domain := None;
  lead_tcpa_consent := default false (ld_tcpa_consent lead_data);
  lead_tcpa_language := default "" (ld_tcpa_language lead_data);
  lead_is_test := default false (ld_is_test lead_data);
  lead_user_agent := match ld_user_agent lead_data with Some a => Some a | None => header_text (req_headers rq) "user-agent" end;
  lead_referrer := None; lead_website_url := ld_source lead_data; lead_click_id := None; lead_url_consent := None;
  lead_best_call_time := None; lead_date_of_birth := None; lead_home_phone := None;
  lead_jornaya_lead_id := None; lead_trusted_form_url := None; lead_fbp_cookie := None; lead_fbc_cookie := None;
  lead_utm_params := None; lead_submitted_at := Some now; lead_sold_at := None; lead_retry_count := 0;
  lead_next_retry_at := None; lead_vertical_data := json_object []; lead_created_at := now; lead_updated_at := now
|}.

(** *** The outcome *)

Definition has_campaign_and_buyer (result : RoutingResult) : bool :=
  bool_decide (is_Some (rr_campaign_id result)) && bool_decide (is_Some (rr_buyer_id result)).

(** The status the lead gets: [price.is_some() && price.unwrap_or(0.0) > 0.0] is
    [positive]. *)
Definition final_status (result : RoutingResult) : LeadStatus :=
  if rr_success result && String.eqb (rr_status result) "sold" && positive (rr_price result) then LeadSold
  else if rr_success result && bool_decide (is_Some (rr_post_id result)) && positive (rr_price result) then LeadSold
  else if rr_success result && has_campaign_and_buyer result && positive (rr_price result) then LeadSold
  else if rr_success result && (String.eqb (rr_status result) "accepted" || String.eqb (rr_status result) "ping_accepted")
  then LeadPingAccepted
  else if has_campaign_and_buyer result then LeadPingAccepted
  else LeadProcessing.

(** The timing and context stored as the lead's [vertical_data]. *)
Definition auction_timing_data (d : RequestDraws) (rq : Request) (request_type : string) (result : RoutingResult)
    (t : Telemetry) (now : DateTime) : json :=
  let per_buyer := match rr_per_buyer_timings result with
                   | Some ts => [("per_buyer_timings", JArray ts)]
                   | None => []
                   end in
  let times := [
    ("pre_checks_ms", timing_ms pre_checks_ms t); ("ping_auction_ms", timing_ms ping_auction_ms t);
    ("qualification_ms", timing_ms qualification_ms t); ("post_ms", timing_ms post_sent_ms t);
    ("db_operations_ms", query_ms t); ("total_ms", timing_ms total_ms t)] in
  let auction_timing := json_object ([("request_type", JString request_type)] ++ times ++ per_buyer) in
  let context := request_context_from_headers (req_headers rq) "/api/v1/leads" "POST"
    "Lead submission (auction processing)" "carina_api" (if rr_success result then "success" else "failure") "Lead"
    (uuid_to_string (rd_lead_uuid d)) request_type (rd_request_id d) now in
  json_object [("auction_timing", auction_timing);
    ("verbose", JObject (map_insert "processing_times" (json_object (times ++ per_buyer)) context))].

(** The update queued at the end of every routed request. *)
Definition final_lead_update (d : RequestDraws) (result : RoutingResult) (timing_data : json) : LeadUpdateData := {|
  lu_lead_id := rd_lead_uuid d; lu_status := final_status result; lu_campaign_id := rr_campaign_id result;
  lu_buyer_id := rr_buyer_id result; lu_promise_id := rr_promise_id result; lu_ping_id := rr_ping_id result;
  lu_post_id := rr_post_id result; lu_sold_at := bool_decide (final_status result = LeadSold);
  lu_inprog_token := None; lu_vertical_data := Some timing_data
|}.

(** The statement spawned for a sold lead: that of the queue, without waiting for
    the queue. *)
Definition spawned_sold_update (u : LeadUpdateData) : service unit :=
  exec_update (λ now, update_lead_row (sold_columns u now) (lu_lead_id u)).

(** The answer of a fullpost, stored with its ping. *)
Definition ping_payload_task (ld : RequestLoads) (d : RequestDraws) (result : RoutingResult) : BackgroundTask :=
  PayloadUpdate {|
    pu_lead_id := rd_lead_uuid d; pu_payload_type := "ping"; pu_payload := routing_result_json result;
    pu_post_id := None; pu_request_payload_encrypted := None;
    pu_response_payload_encrypted := encrypted_json (rl_key ld) (routing_result_json result);
    pu_ping_payloads_row_id := Some (rd_lead_uuid d); pu_external_ping_id := rr_ping_id result |}.

Definition ping_message (result : RoutingResult) (bid price : option f64) : option string :=
  let instruction :=
    " Include the same lead_id and promise_id from this response in your POST request to complete the lead." in
  if String.eqb (rr_status result) "accepted" then
    Some (match bid with
          | Some b => "Ping Accepted with a bid of $" +:+ format_2 lib b
          | None => "Ping Accepted"
          end +:+ instruction)
  else if String.eqb (rr_status result) "sold" then
    Some (match price with Some p => "Lead Sold for $" +:+ f64_to_string p | None => "Lead Sold" end)
  else if rr_success result then Some "Lead routed successfully"
  else None.

(** The verbose object; names are empty when they are not found. *)
Definition routed_verbose (ld : RequestLoads) (rq : Request) (request_type : string) (minimal verbose : bool)
    (result : RoutingResult) (now : DateTime) : option json :=
  if minimal || negb verbose then None
  else Some (json_object ([
    ("error_code", JString "ERR_200"); ("timestamp", JString (to_rfc3339 now));
    ("endpoint", JString "POST /api/v1/leads"); ("status_code", json_of_u64 200);
    ("routing", json_object [
      ("buyer_name", JString (default "" (rr_buyer_id result ≫= rl_buyer_name ld)));
      ("buyer_id", json_of_option json_of_uuid (rr_buyer_id result));
      ("campaign_name", JString (default "" (rr_campaign_id result ≫= rl_campaign_name ld)));
      ("campaign_id", json_of_option json_of_uuid (rr_campaign_id result))])] ++
    match rr_per_buyer_timings result with
    | Some ts => [("per_buyer_timings", JArray (transform_per_buyer_timings_for_verbose ts (rr_status result)
                                                  (String.eqb request_type "fullpost")))]
    | None => []
    end)).

Definition routed_response (ld : RequestLoads) (d : RequestDraws) (rq : Request) (vertical : Vertical)
    (request_type : string) (minimal verbose : bool) (result : RoutingResult) (now : DateTime) : LeadResponse :=
  let bid := if String.eqb (rr_status result) "accepted" then round2 <$> rr_price result else None in
  let price :=
    if String.eqb (rr_status result) "accepted" then None
    else if String.eqb (rr_status result) "sold" then round2 <$> rr_price result else None in
  let fullpost := String.eqb request_type "fullpost" in {|
  lr_status := {| sn_success := rr_success result; sn_status := rr_status result;
                  sn_message := ping_message result bid price; sn_error := rr_error result |};
  lr_lead := {| ln_promise_id := if fullpost then None else rr_promise_id result;
                ln_lead_id := Some (new_lead_id d vertical);
                ln_lead_uuid := Some (uuid_to_string (rd_lead_uuid d)); ln_ping_id := None;
                ln_bid := if fullpost then None else bid; ln_post_id := rr_post_id result; ln_price := price |};
  lr_verbose := routed_verbose ld rq request_type minimal verbose result now;
  lr_http_status := Some 200%Z |}.

(** *** The handler *)

Definition record_access (a : Access) : service unit :=
  record_metrics (λ m,
    match a with
    | CacheFast => record_cache_hit m
    | CacheSlow => record_cache_miss m
    | CacheFailed ms => record_query ms (record_cache_miss m)
    | Direct ms => record_query ms m
    end).

(** The tasks queued for a routed ping or fullpost, in their order. *)
Definition routed_tasks (ld : RequestLoads) (d : RequestDraws) (rq : Request) (request_type : string)
    (result : RoutingResult) (timing_data : json) : list BackgroundTask :=
  let fullpost := String.eqb request_type "fullpost" in
  (if fullpost && bool_decide (is_Some (rr_ping_id result)) then [ping_payload_task ld d result] else []) ++
  (if fullpost && bool_decide (is_Some (rr_post_id result))
   then [post_payload_task (rd_lead_uuid d) (req_lead rq) (rl_key ld) result] else []) ++
  [LeadUpdate (final_lead_update d result timing_data)].

(** The answer in the mode [async=true]; the routing is spawned. *)
Definition async_answer (d : RequestDraws) (vertical : Vertical) (request_type : string) (verbose : bool) (now : DateTime)
    (routing : service unit) : Answer := {|
  answer_status := 202;
  answer_body := {|
    lr_status := {| sn_success := true; sn_status := "processing";
                    sn_message := Some "Lead accepted for processing. Routing in progress."; sn_error := None |};
    lr_lead := {| ln_promise_id := if String.eqb request_type "fullpost" then None else new_promise_id d request_type;
                  ln_lead_id := Some (new_lead_id d vertical);
                  ln_lead_uuid := Some (uuid_to_string (rd_lead_uuid d)); ln_ping_id := None; ln_bid := None;
                  ln_post_id := None; ln_price := None |};
    lr_verbose := if verbose then Some (json_object [
      ("async_mode", JBool true);
      ("message", JString "Lead accepted for asynchronous processing. Use lead_uuid to check status.");
      ("lead_uuid", json_of_uuid (rd_lead_uuid d)); ("timestamp", JString (to_rfc3339 now))]) else None;
    lr_http_status := Some 202%Z |};
  answer_spawned := [routing]
|}.

(** What follows the pre-checks: the creation is queued, the lead routed, and its
    outcome queued. *)
Definition route_new_lead (ld : RequestLoads) (d : RequestDraws) (rq : Request) (vertical : Vertical)
    (request_type : string) (minimal async verbose : bool) (campaign_id_opt buyer_id_opt : option Uuid)
    (creation : LeadCreationData) : service Answer :=
  now ← eff_gets w_now;
  _ ← enqueue (LeadCreation creation);
  let lead := routed_lead d rq vertical request_type campaign_id_opt buyer_id_opt now in
  let routing := PingTreeRouter.route sv retry_spawn (rl_route ld) (rd_auction d) (rd_post d)
                   (router_of rq vertical request_type lead) in
  if (async : bool) then
    mret (async_answer d vertical request_type verbose now (_ ← eff_try (F := Failure) routing; mret tt))
  else
    routed ← catch routing;
    _ ← record_timing (timing_record_total (rd_total d));
    match routed with
    | Ok result =>
        t ← eff_gets w_telemetry;
        let timing_data := auction_timing_data d rq request_type result t now in
        _ ← for_each enqueue (routed_tasks ld d rq request_type result timing_data);
        mret {| answer_status := 200;
                answer_body := routed_response ld d rq vertical request_type minimal verbose result now;
                answer_spawned := if bool_decide (final_status result = LeadSold)
                                  then [spawned_sold_update (final_lead_update d result timing_data)] else [] |}
    | Err e => mret (database_error_answer verbose 500 e now)
    end.

(** A new lead: the pre-checks, its creation, its routing and what is queued. *)
Definition handle_create (ld : RequestLoads) (d : RequestDraws) (rq : Request) (vertical : Vertical)
    (request_type : string) (minimal async verbose : bool) : service Answer :=
  _ ← record_access (rd_prechecks_access d);
  _ ← record_timing (timing_record_pre_checks (rd_prechecks_ms d));
  now ← eff_gets w_now;
  let '(campaign_id_opt, buyer_id_opt, problems) := prechecks ld (req_lead rq) in
  match problems with
  | _ :: _ => mret (precheck_answer verbose problems now)
  | [] =>
      creation ← unwrap (creation_task ld d rq vertical request_type campaign_id_opt buyer_id_opt);
      route_new_lead ld d rq vertical request_type minimal async verbose campaign_id_opt buyer_id_opt creation
  end.

(** ** Failed leads *)

(** [encrypt_pii_opt]: as [encrypt_pii], of the trimmed text. *)
Definition encrypt_pii_opt (key value : option string) : option string := encrypt_pii codec key (str_trim <$> value).

(** The row of a request that failed validation. *)
Definition failed_lead (d : RequestDraws) (rq : Request) (vertical : Vertical) (request_type : string)
    (campaign : option (Uuid * Uuid)) (key : option string) (vertical_data : json) (now : DateTime) : Lead :=
  let lead_data := req_lead rq in
  let enc := encrypt_pii_opt key in {|
  lead_uuid := rd_lead_uuid d; lead_event_id := new_event_id d; lead_lead_id := Some (new_lead_id d vertical);
  lead_publisher_id := Some (req_publisher_id rq); lead_vertical_id := vertical_id vertical;
  lead_campaign_id := snd <$> campaign; lead_buyer_id := fst <$> campaign; lead_request_type := request_type;
  lead_strategy := if String.eqb request_type "fullpost" then "fullPost" else "pingPost";
  lead_status := LeadError; lead_promise_id := None; lead_ping_id := None; lead_post_id := Some "";
  lead_session_id := Some (new_session_id d); lead_request_stage := None;
  lead_first_name_encrypted := enc (ld_first_name lead_data);
  lead_last_name_encrypted := enc (ld_last_name lead_data); lead_email_encrypted := enc (ld_email lead_data);
  lead_cell_phone_encrypted := enc (ld_cell_phone lead_data);
  lead_street_address_encrypted := enc (ld_street_address lead_data);
  lead_city_encrypted := enc (ld_city lead_data); lead_state_encrypted := enc (ld_state lead_data);
  lead_zip_encrypted := enc (ld_zip lead_data); lead_ip_address_encrypted := enc (ld_ip_address lead_data);
  lead_email_sha256 := None; lead_phone_sha256 := None; lead_ip_address_hash := None; lead_email_domain := None;
  lead_tcpa_consent := default false (ld_tcpa_consent lead_data);
  lead_tcpa_language := default "" (ld_tcpa_language lead_data);
  lead_is_test := default false (ld_is_test lead_data); lead_user_agent := None; lead_referrer := None;
  lead_website_url := None; lead_click_id := None; lead_url_consent := None; lead_best_call_time := None;
  lead_date_of_birth := None; lead_home_phone := None; lead_jornaya_lead_id := None;
  lead_trusted_form_url := None; lead_fbp_cookie := None; lead_fbc_cookie := None; lead_utm_params := None;
  lead_submitted_at := Some now; lead_sold_at := None; lead_retry_count := 0; lead_next_retry_at := None;
  lead_vertical_data := vertical_data; lead_created_at := now; lead_updated_at := now
|}.

(** [#[serde(skip_serializing_if = "Option::is_none")]]. *)
Definition present {A} (k : string) (f : A → json) (o : option A) : list (string * json) :=
  match o with Some a => [(k, f a)] | None => [] end.

Definition response_to_json (r : LeadResponse) : json := json_object ([
  ("status", json_object ([("success", JBool (sn_success (lr_status r))); ("status", JString (sn_status (lr_status r)))] ++
     present "message" JString (sn_message (lr_status r)) ++ present "error" JString (sn_error (lr_status r))));
  ("lead", let n := lr_lead r in json_object (
     present "promise_id" JString (ln_promise_id n) ++ present "lead_id" JString (ln_lead_id n) ++
     present "lead_uuid" JString (ln_lead_uuid n) ++ present "ping_id" JString (ln_ping_id n) ++
     present "bid" json_of_f64 (ln_bid n) ++ present "post_id" JString (ln_post_id n) ++
     present "price" json_of_f64 (ln_price n)))] ++
  present "verbose" id (lr_verbose r) ++ present "http_status" json_of_u64 (lr_http_status r)).

(** [persist_failed_lead]: the lead, a ping and its payload, in one transaction. *)
Definition persist_failed_lead (ld : RequestLoads) (d : RequestDraws) (rq : Request) (vertical : Vertical)
    (request_type : string) (response : LeadResponse) (vertical_data : json) (ping_message : string)
    (key : option string) : service unit :=
  campaign ← fallible (rl_instance_campaign ld);
  transaction (
    _ ← exec (λ now db,
      let l := failed_lead d rq vertical request_type campaign key vertical_data now in
      if bool_decide (is_Some (db_leads db !! lead_uuid l))
         || existsb (λ l', String.eqb (lead_event_id l') (lead_event_id l)
                           || bool_decide (lead_lead_id l' = lead_lead_id l)) (map_to_list (db_leads db)).*2
      then (Err "duplicate key value violates unique constraint", db)
      else (Ok tt, on_leads (<[lead_uuid l := l]>) db));
    ping ← exec (λ now db,
      (Ok (Z.of_nat (S (length (db_pings db)))),
       on_pings (λ rows, rows ++ [{|
         ping_row_ping_id := "ERR_" +:+ uuid_to_string (rd_lead_uuid d) +:+ "_" +:+ format_compact now;
         ping_row_lead_id := rd_lead_uuid d; ping_row_promise_id := None;
         ping_row_state := LeadStatus_as_str LeadError |}]) db));
    exec_update (λ now, on_ping_payloads (λ rows, rows ++ [{|
      pp_ping_id := Some ping; pp_lead_id := rd_lead_uuid d;
      pp_payload := Some (json_object [
        ("request", json_object [("verbose", json_of_option JBool (req_verbose rq));
                                 ("lead", lead_data_to_value (req_lead rq))]);
        ("response", response_to_json response); ("validation_error", JString ping_message)]);
      pp_request_payload_encrypted := ""; pp_response_payload_encrypted := None; pp_external_ping_id := None;
      pp_created_at := now; pp_updated_at := now |}]))).

(** An error answer whose lead is recorded in the background. *)
Definition failed_answer (ld : RequestLoads) (d : RequestDraws) (rq : Request) (vertical : Vertical)
    (request_type : string) (body : LeadResponse) (vertical_data : json) (ping_message : string)
    (key : option string) : Answer := {|
  answer_status := 400; answer_body := body;
  answer_spawned := [persist_failed_lead ld d rq vertical request_type body vertical_data ping_message key]
|}.

Definition mismatch_answer (ld : RequestLoads) (d : RequestDraws) (rq : Request) (vertical : Vertical)
    (request_type : string) (verbose : bool) (provided : string) (now : DateTime) : Answer :=
  let authenticated := uuid_to_string (req_publisher_id rq) in
  failed_answer ld d rq vertical request_type
    (error_response (Some "Publisher ID mismatch. Your API key is associated with a different publisher.")
       ("Publisher ID mismatch: provided=" +:+ provided +:+ ", authenticated=" +:+ authenticated)
       (error_verbose verbose "ERR_401" now 401
          [("provided_publisher_id", JString provided); ("authenticated_publisher_id", JString authenticated)]) 401)
    (json_object [("error_kind", JString "publisher_mismatch"); ("message", JString "Publisher ID mismatch")])
    "Publisher ID mismatch" None.

Definition invalid_publisher_answer (ld : RequestLoads) (d : RequestDraws) (rq : Request) (vertical : Vertical)
    (request_type : string) (verbose : bool) (provided : string) (now : DateTime) : Answer :=
  let msg := "Invalid publisher_id format: " +:+ provided in
  failed_answer ld d rq vertical request_type
    (error_response (Some msg) ("Invalid UUID format for publisher_id: " +:+ provided)
       (error_verbose verbose "ERR_400" now 400 []) 400)
    (json_object [("error_kind", JString "invalid_publisher_id_format"); ("message", JString msg)]) msg None.

Definition missing_field_answer (ld : RequestLoads) (d : RequestDraws) (rq : Request) (vertical : Vertical)
    (request_type : string) (verbose : bool) (field : string) (now : DateTime) : Answer :=
  let human := validation_error_human_message field in
  let msg := "Missing required field: " +:+ field in
  failed_answer ld d rq vertical request_type
    (error_response (Some msg) msg (error_verbose verbose "ERR_400" now 400 []) 400)
    (json_object [("validation_error", JString human); ("missing_field", JString field)]) human (rl_key ld).

(** ** The entry point *)

(** What is wrong with the [publisher_id] of the body, if anything. *)
Inductive PublisherCheck : Type := PublisherOk | PublisherMismatch (provided : string) | PublisherInvalid (provided : string).

Definition check_publisher (rq : Request) : PublisherCheck :=
  match ld_publisher_id (req_lead rq) with
  | None => PublisherOk
  | Some provided =>
      match parse_uuid lib provided with
      | Some u => if bool_decide (u = req_publisher_id rq) then PublisherOk else PublisherMismatch provided
      | None => PublisherInvalid provided
      end
  end.

(** A request that the rate limit let through. *)
Definition process_request (ld : RequestLoads) (d : RequestDraws) (rq : Request) : service Answer :=
  _ ← eff_modify (on_telemetry (λ _, {| tele_timing := Some (AtomicAuctionTiming_new (rd_arrived d));
                                        tele_metrics := Some DiagnosticMetrics_new |}));
  let minimal := mode_param (req_params rq) "minimal" in
  let async := mode_param (req_params rq) "async" in
  let request_type := request_type_of (req_lead rq) in
  let verbose := verbose_requested minimal (req_verbose rq) (req_lead rq) in
  _ ← record_access (rd_vertical_access d);
  _ ← record_timing (timing_record_pre_checks (rd_vertical_ms d));
  now ← eff_gets w_now;
  match rl_vertical ld with
  | Err e => mret (database_error_answer verbose 500 e now)
  | Ok None =>
      let slug := ld_vertical (req_lead rq) in
      mret (answer 400 (error_response (Some ("Invalid vertical: " +:+ slug)) ("Invalid vertical slug: " +:+ slug)
                          (error_verbose verbose "ERR_400" now 400 []) 400))
  | Ok (Some vertical) =>
      match check_publisher rq with
      | PublisherMismatch p => mret (mismatch_answer ld d rq vertical request_type verbose p now)
      | PublisherInvalid p => mret (invalid_publisher_answer ld d rq vertical request_type verbose p now)
      | PublisherOk =>
          match missing_required_lead_field (req_lead rq) request_type with
          | Some field => mret (missing_field_answer ld d rq vertical request_type verbose field now)
          | None =>
              if String.eqb request_type "post" then handle_post ld d rq vertical verbose
              else handle_create ld d rq vertical request_type minimal async verbose
          end
      end
  end.

(** [create_lead], with the rate limit of the publisher. *)
Definition create_lead (now_ms : Z) (ld : RequestLoads) (d : RequestDraws) (rq : Request)
    (buckets : gmap string RateBucket) : service Answer * gmap string RateBucket :=
  let '(refused, buckets') := rate_check now_ms ("publisher:" +:+ uuid_to_string (req_publisher_id rq)) buckets in
  match refused with
  | Some retry_after => (mret (answer 429 (rate_limit_response retry_after)), buckets')
  | None => (process_request ld d rq, buckets')
  end.

(** The three routes that fix the request type. *)
Definition with_request_type (request_type : string) (rq : Request) : Request := {|
  req_publisher_id := req_publisher_id rq; req_params := req_params rq; req_headers := req_headers rq;
  req_verbose := req_verbose rq; req_lead := set_request_type request_type (req_lead rq)
|}.
Definition create_lead_ping now ld d rq := create_lead now ld d (with_request_type "ping" rq).
Definition create_lead_post now ld d rq := create_lead now ld d (with_request_type "post" rq).
Definition create_lead_fullpost now ld d rq := create_lead now ld d (with_request_type "fullpost" rq).
End handler.

(** ** Lemmas *)

Section lemmas.
Context `{Platform} (lib : ApiLib) (sv : Services) (codec : Codec).
Context (retry_spawn : service unit → service unit).

(** Once the creation is queued the handler answers, unless the selection of the
    winner panics. *)
Lemma route_new_lead_ends `{!RetryLaws retry_spawn} ld d rq vertical rt minimal async verbose c b creation w f :
  (route_new_lead lib sv codec retry_spawn ld d rq vertical rt minimal async verbose c b creation w).1 = Err f →
  ∃ e, f = Panicked e ∧ winner_panic e.
Proof.
  unfold route_new_lead, enqueue, eff_gets, eff_modify, record_timing, eff_try, catch, mbind, eff_bind, mret, eff_ret.
  destruct async; [done|]. cbv zeta.
  match goal with |- context [PingTreeRouter.route ?s ?rs ?ld ?d ?dp ?r ?w0] =>
    pose proof (route_panics s rs ld d dp r w0) as Hp;
    destruct (PingTreeRouter.route s rs ld d dp r w0) as [[res|[e|e]] w1]; simpl in * end.
  - by rewrite for_each_enqueue.
  - by destruct (map_error_to_user e).
  - intros [= <-]. eauto.
Qed.

(** The panic of a new lead without a campaign. *)
Definition campaign_missing : string := "campaign_id must be present after pre-checks".

Lemma winner_panic_not_campaign e : winner_panic e → e ≠ campaign_missing.
Proof.
  intros (draw & rs & Hs) ->. unfold select_winner, ok_or in Hs. repeat case_match; simplify_eq.
Qed.

(** How the handling of a new lead stops short: with the panic of the missing
    campaign, exactly when the pre-checks find a buyer but no campaign and the
    request has no campaign token; or with a panic of the winner selection. *)
Lemma handle_create_ends `{!RetryLaws retry_spawn} ld d rq vertical rt minimal async verbose w :
  let r := (handle_create lib sv codec retry_spawn ld d rq vertical rt minimal async verbose w).1 in
  (r = Err (Panicked campaign_missing) ↔
   ld_campaign_token (req_lead rq) = None ∧
   ((∃ buyer tree, rl_prechecks ld = Ok (Some (None, Some buyer, tree))) ∨
    (∃ buyer, rl_prechecks ld = Ok None ∧ rl_fallback_buyer ld = Ok (Some buyer)))) ∧
  (∀ f, r = Err f → f = Panicked campaign_missing ∨ ∃ e, f = Panicked e ∧ winner_panic e).
Proof.
  set (go := λ campaign buyer problems, match problems with
      | _ :: _ => mret (precheck_answer verbose problems (w_now w))
      | [] => creation ← unwrap (creation_task ld d rq vertical rt campaign buyer);
              route_new_lead lib sv codec retry_spawn ld d rq vertical rt minimal async verbose
                campaign buyer creation
      end : service Answer).
  assert (Hrun : ∃ w1, (handle_create lib sv codec retry_spawn ld d rq vertical rt minimal async verbose w).1 =
    (let '(campaign, buyer, problems) := prechecks ld (req_lead rq) in go campaign buyer problems w1).1).
  { eexists. unfold handle_create, record_access, record_metrics, record_timing, eff_modify, eff_gets, mbind at 1 2 3, eff_bind at 1 2 3.
    destruct (prechecks ld (req_lead rq)) as [[c b] p]. reflexivity. }
  destruct Hrun as [w1 ->]. cbv zeta.
  assert (Hgo : ∀ campaign buyer problems, (problems = [] → is_Some buyer) →
    ((go campaign buyer problems w1).1 = Err (Panicked campaign_missing) ↔ problems = [] ∧ campaign = None) ∧
    (∀ f, (go campaign buyer problems w1).1 = Err f → f = Panicked campaign_missing ∨ ∃ e, f = Panicked e ∧ winner_panic e)).
  { intros campaign buyer [|p problems] Hb; [|by split; [naive_solver|]].
    destruct (Hb eq_refl) as [b ->]. unfold go, creation_task, unwrap, eff_lift, mbind, eff_bind. destruct campaign as [c|]; simpl.
    - split; [|intros f Hf; right; by eapply route_new_lead_ends]. split; [|naive_solver].
      intros Hf. apply route_new_lead_ends in Hf as (e & [= <-] & He). by apply winner_panic_not_campaign in He.
    - split; [done|]. intros f [= <-]. by left. }
  clearbody go. unfold prechecks.
  destruct (rl_prechecks ld) as [[[[[c|] [b|]] tree]|]|e0], (ld_campaign_token (req_lead rq)) as [tok|] eqn:Ht,
    (rl_fallback_buyer ld) as [[fb|]|e1]; try destruct tree; simpl; try destruct (String.eqb (str_trim tok) ""); simpl;
    match goal with |- context [go ?c ?b ?p w1] =>
      destruct (Hgo c b p) as [-> H2]; [intros; simplify_eq; eauto|split; [naive_solver|exact H2]] end.
Qed.
End lemmas.

(** ** Lemmas: errors of the routing of a post *)

(** The post ids stay, and only buyer responses are queued. *)
Definition keeps_post_ids (w w' : World) : Prop :=
  (∀ id, lead_post_id <$> db_leads (w_db w') !! id = lead_post_id <$> db_leads (w_db w) !! id) ∧
  ∃ rows, w_queue w' = w_queue w ++ (BuyerResponseTask <$> rows).

#[export] Instance keeps_post_ids_refl : Reflexive keeps_post_ids.
Proof. intros w. split; [done|]. exists []. by rewrite app_nil_r. Qed.
#[export] Instance keeps_post_ids_trans : Transitive keeps_post_ids.
Proof.
  intros a b c [H1 [r1 Q1]] [H2 [r2 Q2]]. split; [intros id; by rewrite H2|]. exists (r1 ++ r2).
  by rewrite Q2, Q1, fmap_app, app_assoc.
Qed.

(** [m] keeps them when it ends in an error. *)
Definition error_keeps {A} (m : service A) : Prop := ∀ w e w', m w = (Err e, w') → keeps_post_ids w w'.

Lemma respects_error_keeps {A} (m : service A) : respects keeps_post_ids m → error_keeps m.
Proof. intros Hm w e w' Hrun. specialize (Hm w). by rewrite Hrun in Hm. Qed.

Lemma error_keeps_bind {A B} (m : service A) (k : A → service B) :
  respects keeps_post_ids m → (∀ a, error_keeps (k a)) → error_keeps (m ≫= k).
Proof.
  intros Hm Hk w e w'. unfold mbind, eff_bind. specialize (Hm w). destruct (m w) as [[a|e1] w1].
  - intros Hrun. etrans; [exact Hm|by eapply Hk].
  - by intros [= <- <-].
Qed.

Lemma keeps_quiet_modify (f : World → World) :
  (∀ w, w_db (f w) = w_db w ∧ w_queue (f w) = w_queue w) → respects keeps_post_ids (eff_modify f).
Proof. intros Hf w. simpl. destruct (Hf w) as [H1 H2]. split; [by rewrite H1|]. exists []. by rewrite H2, app_nil_r. Qed.

Lemma keeps_response b : respects keeps_post_ids (enqueue (BuyerResponseTask b)).
Proof. intros w. split; [done|]. by exists [b]. Qed.

Section post_errors.
Context `{Platform} (sv : Services) (retry_spawn : service unit → service unit).

Lemma keeps_update_status r status error : respects keeps_post_ids (update_lead_status r status error).
Proof.
  unfold update_lead_status. destruct (_ || _); [|apply respects_ret, _]. apply respects_bind; [apply _|by apply respects_gets, _|].
  intros now w. unfold exec_update, exec. destruct (w_outcomes w) as [|[e|] rest]; split; try (exists []; by rewrite app_nil_r); try done.
  all: intros id; simpl; destruct (decide (lead_uuid (ptr_lead r) = id)) as [<-|Hne];
    [rewrite lookup_alter_eq; by destruct (db_leads (w_db w) !! _)|by rewrite lookup_alter_ne].
Qed.

Lemma keeps_fail_routing r status log result : respects keeps_post_ids (fail_routing r status log result).
Proof. apply respects_bind; [apply _|apply keeps_update_status|]. intros _. apply respects_ret, _. Qed.

(** The statement of a sale that fails changes nothing, and nothing follows it. *)
Lemma sale_error_keeps r pid (result : RoutingResult) : error_keeps (_ ← update_lead_with_post r pid; mret result).
Proof.
  intros w e w'. unfold mbind, eff_bind, update_lead_with_post, exec_update, exec.
  destruct (w_outcomes w) as [|[e1|] rest]; [done| |done]. intros [= <- <-]. split; [done|]. exists []. by rewrite app_nil_r.
Qed.

Ltac error_keeps_step :=
  lazymatch goal with
  | |- error_keeps (_ ← update_lead_with_post _ _; mret _) => apply sale_error_keeps
  | |- error_keeps (mbind _ _) => apply error_keeps_bind; [|intros ?]
  | |- error_keeps (match ?x with _ => _ end) => destruct x
  | |- error_keeps _ => apply respects_error_keeps
  | |- respects _ (mbind _ _) => apply respects_bind; [apply _| |intros ?]
  | |- respects _ (mret _) => apply respects_ret, _
  | |- respects _ (fallible _) => apply respects_lift, _
  | |- respects _ (eff_gets _) => apply respects_gets, _
  | |- respects _ (enqueue (post_response_task _ _ _)) => apply keeps_response
  | |- respects _ (update_lead_status _ _ _) => apply keeps_update_status
  | |- respects _ (fail_routing _ _ _ _) => apply keeps_fail_routing
  | |- respects _ (record_metrics _) => by apply keeps_quiet_modify
  | |- respects _ (record_timing _) => by apply keeps_quiet_modify
  | |- respects _ (match ?x with _ => _ end) => destruct x
  end.

Lemma route_post_error_keeps dpost r cs : error_keeps (route_post sv dpost r cs).
Proof. unfold route_post, handle_post_response, handle_post_error. repeat error_keeps_step. Qed.

Lemma route_error_keeps ld d dpost r w e w' :
  ptr_request_type r = "post" → PingTreeRouter.route sv retry_spawn ld d dpost r w = (Err e, w') → keeps_post_ids w w'.
Proof.
  intros Hpost. revert w e w'. change (error_keeps (PingTreeRouter.route sv retry_spawn ld d dpost r)).
  unfold route, lookup_ping_tree, lookup_campaigns, load_auction. rewrite Hpost. cbn [String.eqb Ascii.eqb Bool.eqb].
  repeat first [apply route_post_error_keeps | error_keeps_step].
Qed.
End post_errors.

(** A claim that succeeds found an empty post id, and left the token. *)
Lemma claim_found token promise id w u w' : claim_promise token promise id w = (Ok (Some u), w') →
  ∃ l, db_leads (w_db w) !! id = Some l ∧ empty_post_id l = true.
Proof.
  unfold claim_promise, exec. destruct (w_outcomes w) as [|[e|] rest]; [|done|].
  all: destruct (db_leads (w_db w) !! id) as [l|] eqn:Hl; [|done]; destruct (claimable promise (w_now w) l) eqn:Hc; [|done].
  all: intros _; exists l; split; [done|]; unfold claimable in Hc; by apply andb_true_iff in Hc as [[? _]%andb_true_iff _].
Qed.

Lemma claim_takes token promise id w u w' : claim_promise token promise id w = (Ok (Some u), w') →
  lead_post_id <$> db_leads (w_db w') !! id = Some (Some token).
Proof.
  unfold claim_promise, exec. destruct (w_outcomes w) as [|[e|] rest]; [|done|].
  all: destruct (db_leads (w_db w) !! id) as [l|] eqn:Hl; [|done]; destruct (claimable promise (w_now w) l); [|done].
  all: intros [= _ <-]; simpl; by rewrite lookup_alter_eq, Hl.
Qed.

(** ** Properties *)

Section properties.
Context `{Platform} (lib : ApiLib) (sv : Services) (codec : Codec).
Context (retry_spawn : service unit → service unit).

(** C1: an accepted ping is stored as sold, and its bid is lost.  For the result of
    an auction whose winner bid a valid amount, the handler queues the status sold,
    although nothing was posted.  When the two updates of the lead are flushed in
    the order they are queued, the row is sold, its promise is the winner's, its
    post id is empty, so the promise can still be posted, and its [winning_bid] is
    gone: a post of that row to a Pulsar buyer is sold at a random price. *)
Theorem accepted_ping_stored_as_sold (d : RequestDraws) (r : PingTreeRouter) (c : Campaign) (winner : BuyerResponse)
    (timings : list json) (vd : jmap) (promise : string) (l : Lead) (w : World) (dp : TaskDraws) (cs : list Campaign) :
  let res := ping_result winner c timings in
  resp_success winner = true → positive (winning_bid_of winner) = true → resp_promise_id winner = Some promise →
  resp_post_id winner = None → lead_uuid (ptr_lead r) = rd_lead_uuid d →
  map_wf vd → map_get "winning_bid" vd = None → w_outcomes w = [] →
  db_leads (w_db w) !! rd_lead_uuid d = Some l → lead_uuid l = rd_lead_uuid d →
  find_campaign cs (campaign_id c) = Some c → pulsar_buyer sv c →
  ∃ w1 l1, batch_update_leads [winner_update r c winner (winning_bid_of winner); final_lead_update d res (JObject vd)] w
      = (Ok tt, w1) ∧
    db_leads (w_db w1) !! rd_lead_uuid d = Some l1 ∧
    lead_status l1 = LeadSold ∧ lead_sold_at l1 = Some (w_now w) ∧ empty_post_id l1 = true ∧
    lead_promise_id l1 = Some promise ∧ stored_bid l1 = None ∧
    ∃ res2 w2, route_post sv dp (router_with l1 "post" r) cs w1 = (Ok res2, w2) ∧ rr_status res2 = "sold" ∧
      rr_price res2 = Some (random_price (draw_price (call_pulsar (task_call dp)))).
Proof.
  intros res Hs Hpos Hprom Hpost Huuid Hwf Hnb Hw Hl Hlu Hfind Hpulsar.
  assert (Hst : final_status res = LeadSold).
  { unfold final_status, has_campaign_and_buyer, res, ping_result. simpl. rewrite Hs, Hpost, Hpos. simpl.
    by destruct (String.eqb _ "sold"). }
  cbn [batch_update_leads for_each]. unfold update_lead. cbn [winner_update should_update_as_sold lu_inprog_token].
  assert (Hno : should_update_as_sold (winner_update r c winner (winning_bid_of winner)) = false).
  { unfold should_update_as_sold. simpl. done. }
  assert (Hyes : should_update_as_sold (final_lead_update d res (JObject vd)) = true).
  { unfold should_update_as_sold. simpl. by rewrite Hst. }
  rewrite Hno, Hyes. unfold mbind, eff_bind, mret, eff_ret. cbn [final_lead_update lu_inprog_token].
  unfold update_standard at 1. rewrite ignore_healthy by done. unfold update_sold. cbn [lu_inprog_token final_lead_update].
  rewrite ignore_healthy by done. unfold update_standard. rewrite ignore_healthy by done.
  eexists _, _. split; [done|]. simpl. rewrite Huuid, !lookup_alter_eq, Hl. simpl. split; [done|].
  set (l1 := set_update_columns _ _ _ _ _).
  assert (Hvd : lead_vertical_data l1 = JObject (jsonb_merge vd vd)) by done.
  assert (Hsb : stored_bid l1 = None).
  { unfold stored_bid. rewrite Hvd. unfold jget, as_object. cbn [mbind option_bind].
    rewrite jsonb_merge_get by done. by rewrite Hnb. }
  assert (Hp1 : lead_promise_id l1 = Some promise) by (unfold l1; simpl; by rewrite Hprom).
  split_and!; try done; [unfold l1, empty_post_id; simpl; by rewrite Hpost|].
  match goal with |- ∃ res2 w2, route_post sv dp ?r1 cs ?w1 = _ ∧ _ ∧ _ =>
    destruct (pulsar_post_sold sv dp r1 cs c promise w1) as (res2 & w2 & pid & Hr & _ & Hst2 & Hprice & _) end;
    try done.
  - simpl. rewrite Hsb. apply random_price_bounds.
  - exists res2, w2. split_and!; [done|done|]. simpl in Hprice. by rewrite Hsb in Hprice.
Qed.

(** The request as it came is what is kept with the ping. *)
Lemma creation_payload_whole (ld : RequestLoads) (d : RequestDraws) (rq : Request) (vertical : Vertical)
    (request_type : string) (campaign buyer : option Uuid) (creation : LeadCreationData) :
  creation_task ld d rq vertical request_type campaign buyer = Ok creation →
  ping_only_payload creation = lead_data_to_value (req_lead rq).
Proof.
  intros Hc. unfold creation_task in Hc. destruct buyer as [b|], campaign as [c|]; simplify_eq/=. unfold ping_only_payload.
  cbn [lc_strategy lc_request_payload]. unfold lead_strategy_of. repeat case_match; simplify_eq; done.
Qed.

(** C9: the personal data of every new lead is kept in clear.  Whatever the request
    type, the payload stored with the lead's ping is the request as it came, names,
    email, phone and address included: the strategies of the handler are never the
    ["ping_post"] for which the queue leaves them out. *)
Theorem creation_payload_keeps_pii (ld : RequestLoads) (d : RequestDraws) (rq : Request) (vertical : Vertical)
    (request_type : string) (campaign buyer : option Uuid) (creation : LeadCreationData) :
  creation_task ld d rq vertical request_type campaign buyer = Ok creation →
  ping_only_payload creation = lead_data_to_value (req_lead rq) ∧
  (∀ field text, (field, Some text) ∈ [
       ("first_name", ld_first_name (req_lead rq)); ("last_name", ld_last_name (req_lead rq));
       ("email", ld_email (req_lead rq)); ("cell_phone", ld_cell_phone (req_lead rq));
       ("street_address", ld_street_address (req_lead rq)); ("city", ld_city (req_lead rq));
       ("state", ld_state (req_lead rq))] →
     jget field (ping_only_payload creation) = Some (JString text)).
Proof.
  intros Hc. pose proof (creation_payload_whole _ _ _ _ _ _ _ _ Hc) as E.
  split; [done|]. intros field text Hin. rewrite E. unfold jget, lead_data_to_value, json_object, as_object.
  cbn [mbind option_bind].
  repeat (apply elem_of_cons in Hin as [[= -> E']|Hin]); [..|by apply elem_of_nil in Hin];
    read_entries; by rewrite <-E'.
Qed.

(** C10: what a new lead's buyers are sent.  The lead that is routed has none of the
    qualification data of the request: a ping to an external buyer has no zip, no
    IP address and no answer of the applicant, whatever the request has, although
    some of these fields are required of it. *)
Theorem routed_lead_drops_request_data (d : RequestDraws) (rq : Request) (vertical : Vertical) (request_type : string)
    (campaign buyer : option Uuid) (now : DateTime) (r : BuyerRouter) (c : Campaign) (slug key : string) :
  router_lead r = routed_lead d rq vertical request_type campaign buyer now →
  key ∈ ["zip"; "ip_address"; "trusted_form_url"; "jornaya_lead_id"; "monthly_bill"; "own_home"; "purchase_timeframe";
         "credit_rating"; "property_type"; "roof_shade"; "roof_type"; "utility_provider"] →
  map_get key (payload_lead (build_ping_payload r c slug)) = None.
Proof.
  intros Hr Hin. unfold build_ping_payload. rewrite payload_lead_object.
  assert (Hkeys : NoDup (ping_payload_fields r c slug).*1) by (rewrite ping_payload_keys; nodup_keys).
  erewrite (insert_present_in _ _ _ None Hkeys); [done|].
  assert (Hnone : ∀ k, get_field r k = None) by (intros k; unfold get_field; by rewrite Hr).
  unfold ping_payload_fields. rewrite !Hnone, Hr. unfold routed_lead. simpl.
  repeat (apply elem_of_cons in Hin as [->|Hin]); [..|by apply elem_of_nil in Hin]; member.
Qed.

(** C11: a sale is never stamped.  The router of the post has already replaced the
    token by the buyer's post id when the queue runs the update of the sale, which
    is conditional on the token: it changes nothing, and the lead keeps the
    [sold_at] it had. *)
Theorem post_sale_never_stamped (r : PingTreeRouter) (lead l : Lead) (post_id token : string) (vertical_data : json)
    (result : RoutingResult) (w : World) :
  w_outcomes w = [] → lead_uuid (ptr_lead r) = lead_uuid lead → db_leads (w_db w) !! lead_uuid lead = Some l →
  rr_success result = true → rr_status result = "sold" → rr_post_id result = Some post_id → post_id ≠ token →
  let w1 := (update_lead_with_post r post_id w).2 in
  let u := post_lead_update lead token vertical_data result in
  lu_status u = LeadSold ∧ lu_sold_at u = true ∧
  (update_lead u w1).1 = Ok tt ∧ w_db (update_lead u w1).2 = w_db w1 ∧
  ∃ l1, db_leads (w_db w1) !! lead_uuid lead = Some l1 ∧ lead_status l1 = LeadSold ∧
    lead_post_id l1 = Some post_id ∧ lead_sold_at l1 = lead_sold_at l ∧ lead_vertical_data l1 = lead_vertical_data l.
Proof.
  intros Hw Hu Hl Hs Hst Hp Hne w1 u.
  assert (Hw1 : db_leads (w_db w1) !! lead_uuid lead = Some (lead_with l LeadSold (lead_campaign_id l) (lead_buyer_id l)
    (lead_promise_id l) (lead_ping_id l) (Some post_id) (lead_sold_at l) (lead_vertical_data l) (w_now w))).
  { unfold w1, update_lead_with_post. rewrite exec_update_healthy by done. simpl. by rewrite Hu, lookup_alter_eq, Hl. }
  assert (Eu : lu_inprog_token u = Some token ∧ lu_lead_id u = lead_uuid lead ∧ lu_status u = LeadSold ∧ lu_sold_at u = true).
  { unfold u, post_lead_update. by rewrite Hs, Hst. }
  destruct Eu as (Et & Ei & E1 & E2).
  destruct (token_update_noop u token w1 Et) as [Hok Hdb].
  { rewrite Ei, Hw1. intros l' [= <-]. simpl. congruence. }
  split_and!; try done. eexists. split; [exact Hw1|]. done.
Qed.

(** C12: a routing error locks the promise.  Whatever loads, answers of the buyer and
    statement failures: when a post has found its lead and claimed the promise, and the
    routing then returns an error, the handler answers with it, all that was queued since
    the claim are rows of buyer responses, so nothing gives the token back; the row holds
    the token; and no post, of whatever promise and at whatever time, can claim it. *)
Theorem routing_error_locks_promise (retry_claim : service (option Uuid) → service (option Uuid))
    `{!RetryLaws retry_claim} (ld : RequestLoads) (d : RequestDraws) (rq : Request) (vertical : Vertical)
    (verbose : bool) (l : Lead) (promise e : string) (u : Uuid) (w w0 w1 w2 : World) :
  let lead_id_str := lid ← ld_lead_id (req_lead rq); if String.eqb lid "" then None else Some lid in
  ld_promise_id (req_lead rq) = Some promise →
  find_lead_for_post (rl_cached_lead ld) promise lead_id_str w = (Ok (Ok (Some l)), w0) →
  retry_claim (claim_promise (inprog_token d) promise (lead_uuid l)) w0 = (Ok (Some u), w1) →
  PingTreeRouter.route sv retry_spawn (rl_route ld) (rd_auction d) (rd_post d) (router_of rq vertical "post" l) w1 =
    (Err (Failed e), w2) →
  ∃ a rows, handle_post sv codec retry_spawn retry_claim ld d rq vertical verbose w = (Ok a, w2) ∧
    answer_status a = 500%Z ∧ w_queue w2 = w_queue w1 ++ (BuyerResponseTask <$> rows) ∧
    (lead_post_id <$> db_leads (w_db w2) !! lead_uuid l) = Some (Some (inprog_token d)) ∧
    (∀ token' promise' w3 id, w_db w3 = w_db w2 → (claim_promise token' promise' (lead_uuid l) w3).1 ≠ Ok (Some id)).
Proof.
  intros lead_id_str Hpr Hfind Hclaim Hroute.
  destruct (route_error_keeps _ _ _ _ _ (router_of rq vertical "post" l) _ _ _ eq_refl Hroute) as [Hpost [rows Hqueue]].
  assert (Htoken : (lead_post_id <$> db_leads (w_db w2) !! lead_uuid l) = Some (Some (inprog_token d))).
  { rewrite Hpost. apply retry_success in Hclaim as [w' Hclaim]. by eapply claim_takes. }
  unfold handle_post. rewrite Hpr. unfold ok_or, unwrap, map_err, eff_lift.
  change (mbind (M := eff World Failure) ?k (λ s, (Ok promise, s)) w) with (k promise w). cbv beta.
  fold lead_id_str. rewrite (eff_bind_ok _ _ _ _ _ Hfind). unfold eff_gets, mbind at 1, eff_bind at 1.
  unfold mbind at 1, eff_bind at 1, catch at 1. rewrite Hclaim. unfold mbind at 1, eff_bind at 1.
  unfold post_claimed, mbind, eff_bind, catch. rewrite Hroute. eexists _, rows. split; [done|].
  split; [unfold database_error_answer; by destruct (map_error_to_user e)|]. split; [done|]. split; [done|].
  intros token' promise' w3 id Hdb Hrun. destruct (claim_promise token' promise' (lead_uuid l) w3) as [o w4] eqn:E. simpl in Hrun. subst o.
  apply claim_found in E as (l3 & Hl3 & Hempty). rewrite Hdb in Hl3. rewrite Hl3 in Htoken. simpl in Htoken.
  unfold empty_post_id in Hempty. injection Htoken as Ht. rewrite Ht in Hempty. done.
Qed.

(** C3: a late update of the ping reopens a sold promise.  The updates a ping leaves
    behind, in the queue or spawned, have no post id, and write an empty one over
    whatever the row has.  When one of them runs after the promise was sold by a
    post, the next post of the promise within ten minutes can claim it again. *)
Theorem late_update_reopens_promise (d : RequestDraws) (res : RoutingResult) (timing : json) (l : Lead)
    (promise token : string) (w : World) (late : service unit) :
  let u := final_lead_update d res timing in
  late = update_lead u ∨ late = spawned_sold_update u →
  rr_post_id res = None → rr_promise_id res = Some promise → w_outcomes w = [] →
  db_leads (w_db w) !! rd_lead_uuid d = Some l → (w_now w - promise_lifetime ≤ lead_created_at l)%Z →
  (late w).1 = Ok tt ∧
  ∃ w2, claim_promise token promise (rd_lead_uuid d) (late w).2 = (Ok (Some (rd_lead_uuid d)), w2).
Proof.
  intros u Hlate Hpost Hprom Hw Hl Hfresh.
  assert (Hdone : ∀ f, (∀ l, lead_post_id (f l) = Some "" ∧ lead_promise_id (f l) = Some promise ∧
      lead_created_at (f l) = lead_created_at l) →
    ∃ w2, claim_promise token promise (rd_lead_uuid d) (set_db (update_lead_row f (rd_lead_uuid d) (w_db w)) w)
      = (Ok (Some (rd_lead_uuid d)), w2)).
  { intros f Hf. destruct (Hf l) as (E1 & E2 & E3). unfold claim_promise. rewrite exec_healthy by done. simpl.
    rewrite lookup_alter_eq, Hl. simpl. unfold claimable, empty_post_id. rewrite E1, E2, E3.
    rewrite bool_decide_eq_true_2 by done. rewrite (proj2 (Z.leb_le _ _)) by done. eexists. done. }
  assert (Hcols : ∀ sold vd now l0, lead_post_id (set_update_columns u sold vd now l0) = Some "" ∧
      lead_promise_id (set_update_columns u sold vd now l0) = Some promise ∧
      lead_created_at (set_update_columns u sold vd now l0) = lead_created_at l0).
  { intros sold vd now l0. unfold set_update_columns, u, final_lead_update. simpl. by rewrite Hpost, Hprom. }
  destruct Hlate as [->| ->].
  - unfold update_lead. cbn [lu_inprog_token u final_lead_update].
    destruct (should_update_as_sold u); unfold mbind, eff_bind, mret, eff_ret, update_sold, update_standard.
    + cbn [lu_inprog_token u final_lead_update]. rewrite ignore_healthy by done. rewrite ignore_healthy by done. split; [done|].
      cbn [snd]. match goal with |- context [set_db (update_lead_row ?f _ (w_db (set_db (update_lead_row ?g _ _) _))) _] =>
        destruct (Hdone (λ l0, f (g l0))) as [w2 Hc] end.
      { intros l0. destruct (Hcols None JNull 0%Z l0) as (? & ? & ?). split_and!; apply Hcols || done. }
      exists w2. rewrite <-Hc. f_equal. unfold set_db, update_lead_row, on_leads. simpl. by rewrite alter_alter_eq.
    + rewrite ignore_healthy by done. split; [done|]. apply Hdone. intros l0. apply Hcols.
  - unfold spawned_sold_update. rewrite exec_update_healthy by done. split; [done|]. apply Hdone. intros l0. apply Hcols.
Qed.
End properties.

(** ** Witnesses *)

#[local] Existing Instance reference_platform.

Definition sample_lib : ApiLib := {| parse_uuid := λ _, Some 7%N; format_2 := f64_to_string |}.

Definition sample_loads (prechecks : option (option Uuid * option Uuid * bool)) (tree : Result string (option (PingTree * option Decimal * option Decimal)))
    : RequestLoads := {|
  rl_vertical := Ok (Some {| vertical_id := 4%N; vertical_name := "Solar"; vertical_slug := "solar";
                             vertical_is_active := true; vertical_created_at := 0; vertical_updated_at := 0 |});
  rl_cached_lead := None; rl_prechecks := Ok prechecks; rl_fallback_buyer := Ok (Some 11%N); rl_key := Some "key";
  rl_route := {| load_ping_tree := tree; load_ping_tree_hit := false; load_ping_tree_ms := 1;
                 load_ping_tree_campaigns := λ _, Ok []; load_campaigns_counted := false; load_campaigns_ms := 1;
                 load_buyer_ids := λ _, []; load_associations := λ _, []; load_qualification_configs := λ _, ∅;
                 load_parallel_ms := 1 |};
  rl_buyer_name := λ _, Some "buyer"; rl_campaign_name := λ _, None; rl_instance_campaign := Ok None
|}.

Definition sample_request_draws : RequestDraws := {|
  rd_lead_uuid := 1%N; rd_event_uuid := 2%N; rd_session_uuid := 3%N; rd_lead_id_chars := "abcdefgh";
  rd_promise_bytes := "mnopqr"; rd_token := 5%N; rd_request_id := 6%N; rd_arrived := 0; rd_total := 9;
  rd_vertical_access := CacheFast; rd_vertical_ms := 1; rd_prechecks_access := Direct 2; rd_prechecks_ms := 2;
  rd_auction := sample_auction [0%nat]; rd_post := sample_task 0
|}.

Definition sample_request (request_type : string) (promise : option string) : Request := {|
  req_publisher_id := 7%N; req_params := ∅; req_headers := ∅; req_verbose := None;
  req_lead := {|
    ld_publisher_id := Some "p"; ld_vertical := "solar"; ld_request_type := Some request_type;
    ld_campaign_token := None; ld_promise_id := promise; ld_lead_id := None; ld_source := None;
    ld_first_name := Some "Ann"; ld_last_name := None; ld_email := Some "a@b.c"; ld_cell_phone := None;
    ld_street_address := None; ld_city := None; ld_state := None; ld_zip := Some "94107";
    ld_monthly_bill := Some (f64_of_Z 200); ld_credit_rating := Some "Good"; ld_own_home := Some true;
    ld_property_type := None; ld_roof_shade := Some "Full Sun"; ld_roof_type := None;
    ld_utility_provider := None; ld_purchase_timeframe := None; ld_ip_address := Some "1.2.3.4";
    ld_tcpa_consent := Some true; ld_tcpa_language := Some "yes"; ld_jornaya_lead_id := None;
    ld_trusted_form_url := Some "https://t"; ld_is_test := None; ld_verbose := None; ld_user_agent := None |}
|}.

Definition sample_vertical : Vertical := {|
  vertical_id := 4%N; vertical_name := "Solar"; vertical_slug := "solar"; vertical_is_active := true;
  vertical_created_at := 0; vertical_updated_at := 0
|}.

Definition sample_stored (post_id : string) : Lead :=
  set_post_id (Some post_id) (sample_lead LeadPingAccepted (Some 2%N) (Some "PROMISE_0A")
    (json_object [("winning_bid", json_of_u64 120)])).

Lemma accepted_ping_stored_as_sold_witness :
  let c := sample_campaign 2%N 12%N in
  let w := sample_store [sample_lead LeadProcessing None None (json_object [])] in
  let r := sample_ptr "ping" true fresh_lead in
  ∃ w1 l1, batch_update_leads [winner_update r c (sample_bid "120") (winning_bid_of (sample_bid "120"));
      final_lead_update sample_request_draws (ping_result (sample_bid "120") c []) (JObject (map_of [("auction_timing", JNull)]))] w
      = (Ok tt, w1) ∧
    db_leads (w_db w1) !! 1%N = Some l1 ∧
    lead_status l1 = LeadSold ∧ lead_sold_at l1 = Some 5%Z ∧ empty_post_id l1 = true ∧
    lead_promise_id l1 = Some "PROMISE_0A" ∧ stored_bid l1 = None ∧
    ∃ res2 w2, @route_post reference_platform pulsar_services (sample_task 0) (router_with l1 "post" r) sample_campaigns w1
        = (Ok res2, w2) ∧ rr_status res2 = "sold" ∧ rr_price res2 = Some (random_price 50).
Proof.
  apply (@accepted_ping_stored_as_sold reference_platform pulsar_services sample_request_draws (sample_ptr "ping" true fresh_lead)
    (sample_campaign 2%N 12%N) (sample_bid "120") [] (map_of [("auction_timing", JNull)]) "PROMISE_0A"
    (sample_lead LeadProcessing None None (json_object []))
    (sample_store [sample_lead LeadProcessing None None (json_object [])]) (sample_task 0) sample_campaigns);
    try (vm_compute; reflexivity); [apply map_of_wf|apply pulsar_services_buyer].
Defined.

Lemma creation_payload_keeps_pii_witness :
  ∃ creation, creation_task (sample_loads None (Err "")) sample_request_draws (sample_request "ping" None) sample_vertical "ping"
      (Some 1%N) (Some 11%N) = Ok creation ∧
    jget "email" (ping_only_payload creation) = Some (JString "a@b.c").
Proof.
  eexists. split; [reflexivity|].
  apply (creation_payload_keeps_pii (sample_loads None (Err "")) sample_request_draws (sample_request "ping" None)
    sample_vertical "ping" (Some 1%N) (Some 11%N) _ eq_refl). member.
Defined.

Lemma routed_lead_drops_request_data_witness :
  let r := BuyerRouter_new (routed_lead sample_request_draws (sample_request "ping" None) sample_vertical "ping"
    (Some 1%N) (Some 11%N) 5) [] "ping" in
  map_get "monthly_bill" (payload_lead (build_ping_payload r (sample_campaign 1%N 11%N) "solar")) = None.
Proof.
  apply (routed_lead_drops_request_data sample_request_draws (sample_request "ping" None) sample_vertical "ping"
    (Some 1%N) (Some 11%N) 5 _ (sample_campaign 1%N 11%N) "solar" "monthly_bill"); [reflexivity|member].
Defined.

Definition sample_sale : RoutingResult := {|
  rr_success := true; rr_status := "sold"; rr_error := None; rr_promise_id := None; rr_ping_id := None;
  rr_post_id := Some "POST_1"; rr_price := Some (f64_of_Z 120); rr_campaign_id := Some 2%N; rr_buyer_id := Some 12%N;
  rr_per_buyer_timings := None
|}.

Lemma post_sale_never_stamped_witness :
  let l := sample_stored "INPROG_1" in
  let w1 := (update_lead_with_post (sample_ptr "post" true l) "POST_1" (sample_store [l])).2 in
  w_db (update_lead (post_lead_update l "INPROG_1" JNull sample_sale) w1).2 = w_db w1 ∧
  ∃ l1, db_leads (w_db w1) !! 1%N = Some l1 ∧ lead_status l1 = LeadSold ∧ lead_sold_at l1 = None.
Proof.
  destruct (post_sale_never_stamped (sample_ptr "post" true (sample_stored "INPROG_1")) (sample_stored "INPROG_1")
    (sample_stored "INPROG_1") "POST_1" "INPROG_1" JNull sample_sale (sample_store [sample_stored "INPROG_1"]))
    as (_ & _ & _ & Hdb & l1 & Hl1 & Hst & _ & Hsold & _); try (vm_compute; reflexivity); [done|].
  split; [exact Hdb|]. exists l1. split; [exact Hl1|]. split; [exact Hst|]. rewrite Hsold. reflexivity.
Defined.

Lemma late_update_reopens_promise_witness :
  let u := final_lead_update sample_request_draws (ping_result (sample_bid "120") (sample_campaign 2%N 12%N) []) JNull in
  let w := sample_store [sample_stored "POST_1"] in
  (spawned_sold_update u w).1 = Ok tt ∧
  ∃ w2, claim_promise "INPROG_9" "PROMISE_0A" 1%N (spawned_sold_update u w).2 = (Ok (Some 1%N), w2).
Proof.
  apply (late_update_reopens_promise sample_request_draws (ping_result (sample_bid "120") (sample_campaign 2%N 12%N) [])
    JNull (sample_stored "POST_1") "PROMISE_0A" "INPROG_9" (sample_store [sample_stored "POST_1"])); try (vm_compute; reflexivity).
  - by right.
  - vm_compute. discriminate.
Defined.

(** ** A ping and its post, from end to end *)

Definition sample_tree : PingTree := {|
  tree_id := 30%N; tree_instance_id := 9%N; tree_name := "tree"; tree_vertical := "solar"; tree_strategy := "ping_post";
  tree_status := "active"; tree_priority := None; tree_deleted_at := None; tree_created_at := 0; tree_updated_at := 0
|}.

Definition sample_entry : PingTreeCampaign := {|
  ptc_id := 31%N; ptc_ping_tree_id := 30%N; ptc_campaign_id := 2%N; ptc_priority := None; ptc_min_price := None;
  ptc_max_price := None; ptc_enabled := true; ptc_created_at := 0; ptc_updated_at := 0
|}.

Definition live_loads : RequestLoads := {|
  rl_vertical := Ok (Some sample_vertical); rl_cached_lead := None;
  rl_prechecks := Ok (Some (Some 2%N, Some 12%N, true)); rl_fallback_buyer := Ok None; rl_key := Some "key";
  rl_route := {| load_ping_tree := Ok (Some (sample_tree, None, None)); load_ping_tree_hit := true; load_ping_tree_ms := 1;
                 load_ping_tree_campaigns := λ _, Ok [sample_entry]; load_campaigns_counted := true;
                 load_campaigns_ms := 1; load_buyer_ids := λ _, [12%N];
                 load_associations := λ _, [(sample_campaign 2%N 12%N, Some (sample_buyer 12%N),
                                             Some (sample_integration "pulsar-solar" None true))];
                 load_qualification_configs := λ _, ∅; load_parallel_ms := 1 |};
  rl_buyer_name := λ _, Some "buyer"; rl_campaign_name := λ _, None; rl_instance_campaign := Ok None
|}.

(** A post that the internal buyer buys, whose update of the lead fails. *)
Definition unrecorded_sale : World := set_outcomes [None; None; Some "connection lost"] (sample_store [sample_stored ""]).
Definition unrecorded_found : World :=
  (find_lead_for_post (rl_cached_lead live_loads) "PROMISE_0A" None unrecorded_sale).2.
Definition unrecorded_claimed : World :=
  (reference_retry 3 (claim_promise (inprog_token sample_request_draws) "PROMISE_0A" 1%N) unrecorded_found).2.
Definition unrecorded_routed : World :=
  (PingTreeRouter.route pulsar_services (reference_retry 3) (rl_route live_loads) (rd_auction sample_request_draws)
    (rd_post sample_request_draws) (router_of (sample_request "post" (Some "PROMISE_0A")) sample_vertical "post" (sample_stored ""))
    unrecorded_claimed).2.

Lemma routing_error_locks_promise_witness :
  ∃ a, handle_post pulsar_services sample_codec (reference_retry 3) (reference_retry 3)
      live_loads sample_request_draws (sample_request "post" (Some "PROMISE_0A"))
      sample_vertical false unrecorded_sale = (Ok a, unrecorded_routed) ∧
    answer_status a = 500%Z ∧ length (w_queue unrecorded_routed) = 1 ∧
    (lead_post_id <$> db_leads (w_db unrecorded_routed) !! 1%N) = Some (Some (inprog_token sample_request_draws)).
Proof.
  destruct (routing_error_locks_promise pulsar_services sample_codec (reference_retry 3) (reference_retry 3)
    live_loads sample_request_draws (sample_request "post" (Some "PROMISE_0A"))
    sample_vertical false (sample_stored "") "PROMISE_0A" "connection lost" 1%N unrecorded_sale unrecorded_found
    unrecorded_claimed unrecorded_routed) as (a & rows & Hrun & Hst & _ & Htoken & _); [vm_compute; reflexivity..|].
  exists a. split; [exact Hrun|]. split; [exact Hst|]. split; [vm_compute; reflexivity|exact Htoken].
Defined.

(** One request through the handler, then a flush of what it queued. *)
Definition serve (rq : Request) (w : World) : Result Failure Answer * World :=
  let '(a, w1) := process_request sample_lib pulsar_services sample_codec (reference_retry 3) (reference_retry 3)
                    live_loads sample_request_draws rq w in
  let '(_, w2) := flush_batch sample_codec (w_queue w1) (on_queue (λ _, []) w1) in
  (a, w2).

Definition empty_store : World := sample_store [].
Definition after_ping : World := (serve (sample_request "ping" None) empty_store).2.
Definition full_post (promise : option string) : Request :=
  let d := req_lead (sample_request "post" promise) in {|
  req_publisher_id := 7%N; req_params := ∅; req_headers := ∅; req_verbose := None;
  req_lead := {|
    ld_publisher_id := ld_publisher_id d; ld_vertical := ld_vertical d; ld_request_type := ld_request_type d;
    ld_campaign_token := None; ld_promise_id := promise; ld_lead_id := None; ld_source := None;
    ld_first_name := Some "Ann"; ld_last_name := Some "Lee"; ld_email := Some "a@b.c"; ld_cell_phone := Some "1";
    ld_street_address := Some "s"; ld_city := Some "c"; ld_state := Some "CA"; ld_zip := Some "94107";
    ld_monthly_bill := Some (f64_of_Z 200); ld_credit_rating := Some "Good"; ld_own_home := Some true;
    ld_property_type := Some "House"; ld_roof_shade := Some "Full Sun"; ld_roof_type := None;
    ld_utility_provider := Some "PGE"; ld_purchase_timeframe := None; ld_ip_address := Some "1.2.3.4";
    ld_tcpa_consent := Some true; ld_tcpa_language := Some "yes"; ld_jornaya_lead_id := None;
    ld_trusted_form_url := Some "https://t"; ld_is_test := None; ld_verbose := None; ld_user_agent := None |} |}.

Definition answer_of (r : Result Failure Answer) : option (string * option f64 * option f64 * option Z) :=
  match r with
  | Ok a => let b := answer_body a in
            Some (sn_status (lr_status b), ln_bid (lr_lead b), ln_price (lr_lead b), lr_http_status b)
  | Err _ => None
  end.

(** The ping is accepted with a bid of 100; its row is then sold, without a post id
    and without the bid; the post is sold for 150; a second post is refused. *)
Example end_to_end :
  answer_of (serve (sample_request "ping" None) empty_store).1 = Some ("accepted", Some (f64_of_Z 100), None, Some 200%Z) ∧
  (λ l, (lead_status l, lead_post_id l, stored_bid l)) <$> db_leads (w_db after_ping) !! 1%N = Some (LeadSold, Some "", None) ∧
  (let post := serve (full_post (Some "PROMISE_6D6E6F707172")) after_ping in
   answer_of post.1 = Some ("sold", None, Some (f64_of_Z 150), Some 200%Z) ∧
   answer_of (serve (full_post (Some "PROMISE_6D6E6F707172")) post.2).1 = Some ("error", None, None, Some 400%Z)).
Proof. vm_compute. by split_and!. Qed.
