(* ===== verification/PulsarHttp.v ===== *)
(** * Pulsar over HTTP

    [crates/api/src/routes/pulsar.rs]: the endpoint through which an internal buyer is
    called from outside.  It qualifies nothing: [accepted] is the constant [true].  The
    table of the decisions has a column [lead_id] of type UUID (the migration
    20250101000006), to which the handlers bind a text: that statement fails whatever its
    values, and its error is ignored. *)

From stdpp Require Import base list strings gmap.
From Stdlib Require Import Ascii String ZArith Lia.
From S2P Require Import Prelude Float64 Platform Json Models Samples Qualification Store Response Auction Pulsar.
From S2P Require Import BuyerRouter WriteBehind LeadRequest LeadHandler.

Open Scope string_scope.
Open Scope list_scope.

Record PulsarLeadData : Type := {
  pld_request_type : option string;
  pld_publisher_id : option string;
  pld_vertical : option string;
  pld_campaign_token : option string;
  pld_lead_id : option string;
  pld_promise_id : option string;
  pld_is_test : option bool;
  pld_zip : option string;
  pld_ip_address : option string;
  pld_monthly_bill : option f64;
  pld_own_home : option bool;
  pld_purchase_timeframe : option string;
  pld_credit_rating : option string;
  pld_property_type : option string;
  pld_roof_shade : option string;
  pld_roof_type : option string;
  pld_utility_provider : option string;
  pld_trusted_form_url : option string;
  pld_jornaya_lead_id : option string;
  pld_tcpa_consent : option bool;
  pld_tcpa_language : option string;
  pld_first_name : option string;
  pld_last_name : option string;
  pld_email : option string;
  pld_cell_phone : option string;
  pld_state : option string;
  pld_city : option string;
  pld_street_address : option string
}.

Record PulsarResponse : Type := {
  pr_success : bool;
  pr_status : string;
  pr_ping_id : option string;
  pr_post_id : option string;
  pr_promise_id : option string;
  pr_price : option Z;
  pr_bid : option Z;
  pr_message : option string;
  pr_error : option string;
  pr_reason : option string
}.

(** What the endpoint draws beside what Pulsar draws: two lead ids, and the identifier of
    the ping of a fullpost. *)
Record HttpDraws : Type := {
  http_pulsar : PulsarDraws;
  http_lead_id : Uuid;
  http_second_lead_id : Uuid;
  http_ping_bytes : string
}.

(** [rand::random::<u32>() % 200 + 100]. *)
Definition random_amount (draw : Z) : Z := (draw mod 200 + 100)%Z.

Abbreviation endpoint := (eff World Z).

Section endpoint.
Context `{Platform} (lib : ApiLib).

(** [INSERT INTO pulsar_decision_logs (lead_id, ...) VALUES ($1, ...)] with a text for [$1]. *)
Definition log_decision : endpoint unit :=
  _ ← eff_try (exec (A := unit) (λ _ db, (Err "column lead_id is of type uuid but expression is of type text", db)));
  mret tt.

Definition requested_lead_id (drawn : Uuid) (l : PulsarLeadData) : string := default (uuid_to_string drawn) (pld_lead_id l).

Definition handle_ping (d : HttpDraws) (buyer : Uuid) (lead_data : PulsarLeadData) : endpoint PulsarResponse :=
  let lead_id := requested_lead_id (http_lead_id d) lead_data in
  let ping_id := generate_ping_id lead_id (draw_ping_now (http_pulsar d)) (draw_ping_nonce (http_pulsar d)) in
  let promise_id := generate_promise_id (draw_promise (http_pulsar d)) in
  _ ← log_decision;
  mret {| pr_success := true; pr_status := "accepted"; pr_ping_id := Some ping_id; pr_post_id := None;
          pr_promise_id := Some promise_id; pr_price := None; pr_bid := Some (random_amount (draw_bid (http_pulsar d)));
          pr_message := Some "Lead accepted for ping"; pr_error := None; pr_reason := None |}.

(** [SELECT post_id FROM leads WHERE promise_id = $1 AND status = 'sold' LIMIT 1]. *)
Definition sold_with_promise (promise : string) (db : Db) : bool :=
  existsb (λ l, bool_decide (lead_promise_id l = Some promise) && bool_decide (lead_status l = LeadSold))
    (map_to_list (db_leads db)).*2.

Definition already_used (promise : string) : PulsarResponse := {|
  pr_success := false; pr_status := "rejected"; pr_ping_id := None; pr_post_id := None; pr_promise_id := Some promise;
  pr_price := None; pr_bid := None;
  pr_message := Some ("The promise_id '" +:+ promise +:+ "' was already used for a sold lead and cannot be reused.");
  pr_error := Some "This promise_id has already been used"; pr_reason := None |}.

Definition handle_post (d : HttpDraws) (buyer : Uuid) (lead_data : PulsarLeadData) : endpoint PulsarResponse :=
  promise_id ← eff_lift (ok_or 400%Z (pld_promise_id lead_data));
  let lead_id := requested_lead_id (http_lead_id d) lead_data in
  existing ← eff_try (exec (λ _ db, (Ok (sold_with_promise promise_id db), db)));
  match existing with
  | Err _ => eff_err 500%Z
  | Ok true => mret (already_used promise_id)
  | Ok false =>
      let post_id := generate_post_id lead_id (draw_post_now (http_pulsar d)) in
      _ ← log_decision;
      mret {| pr_success := true; pr_status := "sold"; pr_ping_id := None; pr_post_id := Some post_id;
              pr_promise_id := Some promise_id; pr_price := Some (random_amount (draw_price (http_pulsar d))); pr_bid := None;
              pr_message := Some "Lead accepted and sold"; pr_error := None; pr_reason := None |}
  end.

(** The lead id of the post is drawn again. *)
Definition handle_fullpost (d : HttpDraws) (buyer : Uuid) (lead_data : PulsarLeadData) : endpoint PulsarResponse :=
  let ping_id := "PING_" +:+ to_uppercase (hex_encode (http_ping_bytes d)) in
  let post_id := generate_post_id (requested_lead_id (http_second_lead_id d) lead_data) (draw_post_now (http_pulsar d)) in
  let promise_id := generate_promise_id (draw_promise (http_pulsar d)) in
  mret {| pr_success := true; pr_status := "sold"; pr_ping_id := Some ping_id; pr_post_id := Some post_id;
          pr_promise_id := Some promise_id; pr_price := Some (random_amount (draw_price (http_pulsar d))); pr_bid := None;
          pr_message := Some "Lead accepted and sold via fullpost"; pr_error := None; pr_reason := None |}.

Definition invalid_request_type : PulsarResponse := {|
  pr_success := false; pr_status := "rejected"; pr_ping_id := None; pr_post_id := None; pr_promise_id := None;
  pr_price := None; pr_bid := None; pr_message := None;
  pr_error := Some "Invalid request_type. Must be 'ping', 'post', or 'fullpost'"; pr_reason := None |}.

Definition requested_type (lead_data : PulsarLeadData) : string := to_lowercase (default "ping" (pld_request_type lead_data)).

Definition handle_pulsar_lead (d : HttpDraws) (headers : gmap string (option string)) (lead_data : PulsarLeadData)
    : endpoint PulsarResponse :=
  buyer ← eff_lift (ok_or 400%Z (s ← header_text headers "X-Internal-Buyer-ID"; parse_uuid lib s));
  let request_type := requested_type lead_data in
  if String.eqb request_type "ping" then handle_ping d buyer lead_data
  else if String.eqb request_type "post" then handle_post d buyer lead_data
  else if String.eqb request_type "fullpost" then handle_fullpost d buyer lead_data
  else mret invalid_request_type.

(** The body of the answer. *)
Definition pulsar_response_json (r : PulsarResponse) : json := json_object [
  ("success", JBool (pr_success r)); ("status", JString (pr_status r)); ("ping_id", json_of_opt_str (pr_ping_id r));
  ("post_id", json_of_opt_str (pr_post_id r)); ("promise_id", json_of_opt_str (pr_promise_id r));
  ("price", json_of_option json_of_u64 (pr_price r)); ("bid", json_of_option json_of_u64 (pr_bid r));
  ("message", json_of_opt_str (pr_message r)); ("error", json_of_opt_str (pr_error r));
  ("reason", json_of_opt_str (pr_reason r))].
End endpoint.

(** ** Properties *)

Section properties.
Context `{Platform} (lib : ApiLib).

(** What the router reads in the answer of the endpoint: every field, an amount as a float;
    an identifier that is missing is invented for the request types that need it. *)
Lemma pulsar_response_read (d : CallDraws) (status : Z) (request_type : string) (r : PulsarResponse) :
  response_of_json d status request_type (pulsar_response_json r) = {|
    resp_success := pr_success r; resp_status := pr_status r;
    resp_ping_id := match pr_ping_id r with
                    | Some s => Some s
                    | None => if String.eqb request_type "ping" then Some ("ping_" +:+ uuid_to_string (call_ping_uuid d)) else None
                    end;
    resp_post_id := match pr_post_id r with
                    | Some s => Some s
                    | None => if String.eqb request_type "post" then Some ("post_" +:+ uuid_to_string (call_post_uuid d)) else None
                    end;
    resp_promise_id := pr_promise_id r; resp_price := f64_of_Z <$> pr_price r; resp_bid := f64_of_Z <$> pr_bid r;
    resp_error := pr_error r; resp_message := pr_message r |}.
Proof. by destruct r as [s st [] [] [] [] [] [] [] []]. Qed.

Lemma qualify_without_config (lead : Lead) (request_type : string) : accepted (qualify lead request_type None) = true.
Proof. reflexivity. Qed.

Lemma log_decision_run (w : World) : log_decision w = (Ok tt, set_outcomes (List.tl (w_outcomes w)) w).
Proof. unfold log_decision, mbind, eff_bind, eff_try, exec. destruct w as [db q t now [|[e|] rest]]; reflexivity. Qed.

Lemma sold_with_promise_run (promise : string) (w : World) :
  eff_try (E := Failure) (F := Z) (exec (λ _ db, (Ok (sold_with_promise promise db), db))) w =
  (Ok (match w_outcomes w with Some e :: _ => Err (Failed e) | _ => Ok (sold_with_promise promise (w_db w)) end),
   set_outcomes (List.tl (w_outcomes w)) w).
Proof. unfold eff_try, exec. destruct w as [db q t now [|[e|] rest]]; reflexivity. Qed.

(** C17: A ping over HTTP is answered as Pulsar answers a buyer without qualification rules, and
    a post as it answers one without rules and without a winning bid, unless the promise is
    of a sold lead: this is what the router reads, for the same draws. *)
Theorem http_is_unqualified_pulsar (d : HttpDraws) (c : CallDraws) (status : Z) (buyer : Uuid) (lead : Lead)
    (lead_data : PulsarLeadData) (promise : string) (w : World)
    (Hid : pld_lead_id lead_data = lead_lead_id lead) (Hdrawn : http_lead_id d = lead_uuid lead) (Hout : w_outcomes w = []) :
  (∃ answer, (handle_ping d buyer lead_data w).1 = Ok answer ∧
     route_ping_direct (http_pulsar d) lead None = Ok (response_of_json c status "ping" (pulsar_response_json answer))) ∧
  (pld_promise_id lead_data = Some promise → sold_with_promise promise (w_db w) = false →
   ∃ answer, (handle_post d buyer lead_data w).1 = Ok answer ∧
     route_post_direct (http_pulsar d) lead promise None None = Ok (response_of_json c status "post" (pulsar_response_json answer))).
Proof.
  assert (Hlead : requested_lead_id (http_lead_id d) lead_data = pulsar_lead_id lead).
  { unfold requested_lead_id, pulsar_lead_id. by rewrite Hid, Hdrawn. }
  split.
  - eexists. unfold handle_ping. rewrite eff_bind_eq, log_decision_run, Hlead. split; [reflexivity|].
    rewrite pulsar_response_read. unfold route_ping_direct. by rewrite qualify_without_config.
  - intros Hp Hs. eexists. unfold handle_post. rewrite Hp. cbn [ok_or].
    rewrite eff_lift_bind, eff_bind_eq, sold_with_promise_run, Hout, Hs, Hlead, eff_bind_eq, log_decision_run.
    split; [reflexivity|]. rewrite pulsar_response_read. unfold route_post_direct. by rewrite qualify_without_config.
Qed.

(** The answer succeeds exactly for a ping, a fullpost, or a post of a promise of no sold
    lead, whatever else the request says; nothing is written, not even the decision, so the
    same post succeeds again until somebody else stores the sale. *)
Theorem pulsar_http_spec (d : HttpDraws) (headers : gmap string (option string)) (lead_data : PulsarLeadData) (w : World)
    (Hout : w_outcomes w = []) :
  let '(r, w') := handle_pulsar_lead lib d headers lead_data w in
  w' = w ∧
  ((∃ answer, r = Ok answer ∧ pr_success answer = true) ↔
   is_Some (s ← header_text headers "X-Internal-Buyer-ID"; parse_uuid lib s) ∧
   (requested_type lead_data = "ping" ∨ requested_type lead_data = "fullpost" ∨
    requested_type lead_data = "post" ∧ ∃ p, pld_promise_id lead_data = Some p ∧ sold_with_promise p (w_db w) = false)).
Proof.
  assert (Hw : ∀ w', w_outcomes w' = [] → set_outcomes (List.tl (w_outcomes w')) w' = w').
  { intros [db q t now o]. cbn. by intros ->. }
  unfold handle_pulsar_lead. rewrite eff_lift_bind.
  destruct (s ← _; parse_uuid lib s) as [buyer|]; cbn [ok_or]; [|by split; [|split; [intros (? & ? & ?)|intros [[] _]]]].
  destruct (String.eqb_spec (requested_type lead_data) "ping") as [Ht|Hping].
  { unfold handle_ping. rewrite eff_bind_eq, log_decision_run, Hw by done. split; [done|]. split; [by eauto|by eauto]. }
  destruct (String.eqb_spec (requested_type lead_data) "post") as [Ht|Hpost].
  2:{ destruct (String.eqb_spec (requested_type lead_data) "fullpost") as [Ht|Hfull]; (split; [done|]); cbn.
      - split; [by eauto|by eauto].
      - split; [by intros (? & [= <-] & ?)|]. by intros (_ & [?|[?|[? _]]]). }
  unfold handle_post. rewrite eff_lift_bind. destruct (pld_promise_id lead_data) as [p|] eqn:Hp; cbn [ok_or].
  2:{ split; [done|]. split; [by intros (? & ? & ?)|]. intros (_ & [?|[?|(_ & ? & ? & _)]]); congruence. }
  rewrite eff_bind_eq, sold_with_promise_run, Hw, Hout by done.
  destruct (sold_with_promise p (w_db w)) eqn:Hs.
  - split; [done|]. split; [by intros (? & [= <-] & ?)|]. intros (_ & [?|[?|(_ & ? & [= <-] & ?)]]); congruence.
  - rewrite eff_bind_eq, log_decision_run, Hw by done. split; [done|]. split; [|by eauto].
    intros _. split; [by eauto|]. right. right. eauto.
Qed.
End properties.

(** ** Witnesses *)

#[local] Existing Instance reference_platform.

Definition sample_lead_data (request_type lead_id promise : option string) : PulsarLeadData := {|
  pld_request_type := request_type; pld_publisher_id := None; pld_vertical := Some "solar"; pld_campaign_token := None;
  pld_lead_id := lead_id; pld_promise_id := promise; pld_is_test := None; pld_zip := None; pld_ip_address := None;
  pld_monthly_bill := None; pld_own_home := Some false; pld_purchase_timeframe := None; pld_credit_rating := None;
  pld_property_type := None; pld_roof_shade := None; pld_roof_type := None; pld_utility_provider := None;
  pld_trusted_form_url := None; pld_jornaya_lead_id := None; pld_tcpa_consent := None; pld_tcpa_language := None;
  pld_first_name := None; pld_last_name := None; pld_email := None; pld_cell_phone := None; pld_state := None;
  pld_city := None; pld_street_address := None |}.

Definition sample_http_draws : HttpDraws := {|
  http_pulsar := sample_draws; http_lead_id := lead_uuid sample_row; http_second_lead_id := 8; http_ping_bytes := "abcdefgh"
|}.

(** A post of a promise nobody has sold, by anyone who sends the header: sold twice. *)
Lemma pulsar_http_spec_witness :
  let m := handle_pulsar_lead sample_lib sample_http_draws (<["X-Internal-Buyer-ID" := Some "any"]> ∅)
             (sample_lead_data (Some "POST") None (Some "PROMISE_1")) in
  let w := sample_store [] in
  ∃ answer, (m w).1 = Ok answer ∧ pr_success answer = true ∧ (m (m w).2).1 = Ok answer.
Proof.
  cbn zeta.
  pose proof (pulsar_http_spec sample_lib sample_http_draws (<["X-Internal-Buyer-ID" := Some "any"]> ∅)
    (sample_lead_data (Some "POST") None (Some "PROMISE_1")) (sample_store []) eq_refl) as H.
  destruct (handle_pulsar_lead _ _ _ _ _) as [r w'] eqn:Hr. destruct H as [-> [_ H]].
  destruct H as (answer & Ha & Hs).
  { split; [vm_compute; by eexists|]. right. right. split; [reflexivity|]. by eexists. }
  exists answer. cbn [fst snd]. by split_and!.
Defined.

Lemma http_is_unqualified_pulsar_witness :
  ∃ answer, (handle_ping sample_http_draws 7 (sample_lead_data None (lead_lead_id sample_row) None) (sample_store [])).1 = Ok answer ∧
    route_ping_direct sample_draws sample_row None =
    Ok (response_of_json sample_call 200 "ping" (pulsar_response_json answer)).
Proof.
  apply (http_is_unqualified_pulsar sample_http_draws sample_call 200 7 sample_row
    (sample_lead_data None (lead_lead_id sample_row) None) "" (sample_store [])); reflexivity.
Defined.
