(* ===== verification/Cache.v ===== *)
(** * The two-level cache

    [crates/core/src/cache.rs] over [crates/core/src/redis.rs].  A moka cache in
    memory (level 1, entries live one hour) and Redis (level 2, entries live as long
    as the caller says) are stores with expiry, known by the laws [TtlLaws]: they
    may forget, they never invent, and what they return is not expired.  A service
    that uses the cache runs on any state with a cache and a clock ([HasCache]).
    Redis commands fail when the next outcome of [cs_outcomes] is an error. *)

From stdpp Require Import base list strings gmap.
From Stdlib Require Import ZArith Lia.
From S2P Require Import Prelude Float64 Platform Json.

Open Scope string_scope.
Open Scope list_scope.

(** ** Stores with expiry *)

(** Times and durations are in milliseconds; a [None] duration never ends. *)
Class TtlStore (St : Type) : Type := {
  ts_get : Z → string → St → option string;
  ts_set : Z → option Z → string → string → St → St;
  ts_del : string → St → St
}.

Definition unexpired (ttl : option Z) (set_at now : Z) : Prop :=
  match ttl with Some d => (now < set_at + d)%Z | None => True end.

Class TtlLaws (St : Type) `{TtlStore St} : Prop := {
  ts_get_set now ttl k v now' k' v' st :
    (now ≤ now')%Z → ts_get now' k' (ts_set now ttl k v st) = Some v' →
    (k' = k ∧ v' = v ∧ unexpired ttl now now') ∨ (k' ≠ k ∧ ts_get now' k' st = Some v');
  ts_get_del k now k' v st :
    ts_get now k' (ts_del k st) = Some v → k' ≠ k ∧ ts_get now k' st = Some v
}.

(** A store that forgets only what expires. *)
Class TtlKeeps (St : Type) `{TtlStore St} : Prop :=
  ts_get_set_eq now ttl k v now' st :
    (now ≤ now')%Z → unexpired ttl now now' → ts_get now' k (ts_set now ttl k v st) = Some v.

(** The reference store: a map from keys to values with the time they expire. *)
Abbreviation ttl_map := (gmap string (string * option Z)).

#[export] Instance ttl_map_store : TtlStore ttl_map := {|
  ts_get := λ now k m,
    match m !! k with
    | Some (v, Some t) => if (now <? t)%Z then Some v else None
    | Some (v, None) => Some v
    | None => None
    end;
  ts_set := λ now ttl k v m, <[k := (v, Z.add now <$> ttl)]> (m : ttl_map);
  ts_del := λ k m, base.delete k (m : ttl_map)
|}.

#[export] Instance ttl_map_laws : TtlLaws ttl_map.
Proof.
  split; simpl.
  - intros now ttl k v now' k' v' m Hle. destruct (decide (k' = k)) as [->|Hne].
    + rewrite lookup_insert_eq. destruct ttl as [d|]; simpl.
      * destruct (Z.ltb_spec now' (now + d)); [|done]. intros [= ->]. by left.
      * intros [= ->]. by left.
    + rewrite lookup_insert_ne by done. by right.
  - intros k now k' v m. destruct (decide (k' = k)) as [->|Hne].
    + by rewrite lookup_delete_eq.
    + by rewrite lookup_delete_ne.
Qed.

#[export] Instance ttl_map_keeps : TtlKeeps ttl_map.
Proof.
  intros now ttl k v now' m Hle Hu. simpl. rewrite lookup_insert_eq. destruct ttl as [d|]; simpl in *; [|done].
  by rewrite (proj2 (Z.ltb_lt _ _)).
Qed.

(** ** The state *)

(** [cs_redis] is [None] when Redis is not configured; [cs_redis_env] is the
    normalized environment of the Redis client. *)
Record CacheState (L1 L2 : Type) : Type := {
  cs_l1 : L1;
  cs_redis : option L2;
  cs_redis_env : string;
  cs_env : string;
  cs_hits : Z;
  cs_misses : Z;
  cs_outcomes : list (option string)
}.
Arguments cs_l1 {_ _}. Arguments cs_redis {_ _}. Arguments cs_redis_env {_ _}. Arguments cs_env {_ _}.
Arguments cs_hits {_ _}. Arguments cs_misses {_ _}. Arguments cs_outcomes {_ _}.

(** [normalize_env_for_ssm], used for Redis too. *)
Definition normalize_env_for_ssm (env : string) : string :=
  if String.eqb env "development" then "dev" else if String.eqb env "production" then "prod" else env.

(** [CacheService::new] with a Redis client made from the same environment. *)
Definition CacheService_new {L1 L2} (empty : L1) (redis : option L2) (env : string) : CacheState L1 L2 := {|
  cs_l1 := empty; cs_redis := redis; cs_redis_env := normalize_env_for_ssm env; cs_env := env; cs_hits := 0;
  cs_misses := 0; cs_outcomes := [] |}.

Section setters.
Context {L1 L2 : Type}.
Implicit Types c : CacheState L1 L2.

Definition on_l1 (f : L1 → L1) c : CacheState L1 L2 := {|
  cs_l1 := f (cs_l1 c); cs_redis := cs_redis c; cs_redis_env := cs_redis_env c; cs_env := cs_env c;
  cs_hits := cs_hits c; cs_misses := cs_misses c; cs_outcomes := cs_outcomes c |}.
Definition set_redis (r : option L2) c : CacheState L1 L2 := {|
  cs_l1 := cs_l1 c; cs_redis := r; cs_redis_env := cs_redis_env c; cs_env := cs_env c;
  cs_hits := cs_hits c; cs_misses := cs_misses c; cs_outcomes := cs_outcomes c |}.
Definition set_cache_outcomes (o : list (option string)) c : CacheState L1 L2 := {|
  cs_l1 := cs_l1 c; cs_redis := cs_redis c; cs_redis_env := cs_redis_env c; cs_env := cs_env c;
  cs_hits := cs_hits c; cs_misses := cs_misses c; cs_outcomes := o |}.
(** [hits.fetch_add(1)] and [misses.fetch_add(1)]. *)
Definition count_hit c : CacheState L1 L2 := {|
  cs_l1 := cs_l1 c; cs_redis := cs_redis c; cs_redis_env := cs_redis_env c; cs_env := cs_env c;
  cs_hits := u64_fetch_add (cs_hits c) 1; cs_misses := cs_misses c; cs_outcomes := cs_outcomes c |}.
Definition count_miss c : CacheState L1 L2 := {|
  cs_l1 := cs_l1 c; cs_redis := cs_redis c; cs_redis_env := cs_redis_env c; cs_env := cs_env c;
  cs_hits := cs_hits c; cs_misses := u64_fetch_add (cs_misses c) 1; cs_outcomes := cs_outcomes c |}.
End setters.

(** A state that holds a cache and a clock (milliseconds). *)
Class HasCache (L1 L2 St : Type) : Type := {
  cache_of : St → CacheState L1 L2;
  with_cache : CacheState L1 L2 → St → St;
  clock : St → Z;
  cache_of_with c s : cache_of (with_cache c s) = c;
  with_cache_with c c' s : with_cache c (with_cache c' s) = with_cache c s;
  clock_with c s : clock (with_cache c s) = clock s
}.

(** What a type is serialized with. *)
Record Serde (T : Type) : Type := {
  simd_from_slice : string → option T;
  serde_from_slice : string → option T;
  simd_to_vec : T → Result string string;
  from_utf8 : string → option string;
  serde_to_string : T → Result string string
}.
Arguments simd_from_slice {T}. Arguments serde_from_slice {T}. Arguments simd_to_vec {T}.
Arguments from_utf8 {T}. Arguments serde_to_string {T}.

(** What is written reads back. *)
Class SerdeLaws {T} (serde : Serde T) : Prop := {
  simd_roundtrip v bytes text : simd_to_vec serde v = Ok bytes → from_utf8 serde bytes = Some text →
    simd_from_slice serde text = Some v;
  serde_roundtrip v text : serde_to_string serde v = Ok text →
    simd_from_slice serde text = Some v ∨ (simd_from_slice serde text = None ∧ serde_from_slice serde text = Some v)
}.

(** simd-json first, serde_json when it fails. *)
Definition decode {T} (serde : Serde T) (text : string) : option T :=
  match simd_from_slice serde text with Some v => Some v | None => serde_from_slice serde text end.

Definition decoded {T} (serde : Serde T) (text : option string) : option T :=
  match text with Some text => decode serde text | None => None end.

Definition encode {T} (serde : Serde T) (v : T) : Result Failure string :=
  match simd_to_vec serde v with
  | Ok bytes =>
      match from_utf8 serde bytes with
      | Some text => Ok text
      | None => map_err Panicked (serde_to_string serde v)
      end
  | Err _ => map_err Failed (serde_to_string serde v)
  end.

(** [time_to_live(Duration::from_secs(3600))]. *)
Definition l1_ttl : Z := 3600000.

(** ** Operations *)

Section cache.
Context {L1 L2 St : Type} `{TtlStore L1} `{TtlStore L2} `{!HasCache L1 L2 St}.
Abbreviation cached := (eff St Failure).

Definition on_cache (f : CacheState L1 L2 → CacheState L1 L2) : cached unit :=
  eff_modify (λ s, with_cache (f (cache_of s)) s).

(** [RedisClient::prefix_key]. *)
Definition prefix_key (c : CacheState L1 L2) (key : string) : string := cs_redis_env c +:+ ":" +:+ key.

(** A connection from the pool, then one command; either can fail, and then nothing
    is changed. *)
Definition redis_outcome (on_error : string) : cached unit := λ s,
  match cs_outcomes (cache_of s) with
  | Some e :: rest => (Err (Failed (on_error +:+ e)), with_cache (set_cache_outcomes rest (cache_of s)) s)
  | None :: rest => (Ok tt, with_cache (set_cache_outcomes rest (cache_of s)) s)
  | [] => (Ok tt, s)
  end.

Definition redis_get (redis : L2) (key : string) : cached (option string) :=
  _ ← redis_outcome "";
  _ ← redis_outcome "Redis error: ";
  eff_gets (λ s, ts_get (clock s) (prefix_key (cache_of s) key) redis).

(** A duration of zero means no expiry. *)
Definition redis_ttl (ttl_seconds : Z) : option Z := if (0 <? ttl_seconds)%Z then Some (1000 * ttl_seconds)%Z else None.

Definition redis_set_with_ttl (redis : L2) (key value : string) (ttl_seconds : Z) : cached unit :=
  _ ← redis_outcome "";
  _ ← redis_outcome "Redis SET error: ";
  now ← eff_gets clock;
  on_cache (λ c, set_redis (Some (ts_set now (redis_ttl ttl_seconds) (prefix_key c key) value redis)) c).

Definition redis_delete (redis : L2) (key : string) : cached unit :=
  _ ← redis_outcome "";
  _ ← redis_outcome "Redis DELETE error: ";
  on_cache (λ c, set_redis (Some (ts_del (prefix_key c key) redis)) c).

Definition cache_key (key : string) : string := "cache:" +:+ key.

Definition get_ttl (is_dev : bool) : Z := if is_dev then 300 else 3600.

(** [CacheService::get]: counted, errors as misses. *)
Definition cache_get (key : string) : cached (option string) :=
  redis ← eff_gets (λ s, cs_redis (cache_of s));
  match redis with
  | Some redis =>
      result ← catch (redis_get redis (cache_key key));
      _ ← on_cache (match result with Ok (Some _) => count_hit | _ => count_miss end);
      fallible result
  | None => _ ← on_cache count_miss; mret None
  end.

Definition cache_set_with_ttl (key value : string) (ttl_seconds : Z) : cached unit :=
  redis ← eff_gets (λ s, cs_redis (cache_of s));
  match redis with
  | Some redis => redis_set_with_ttl redis (cache_key key) value ttl_seconds
  | None => mret tt
  end.

Definition cache_set (key value : string) : cached unit :=
  env ← eff_gets (λ s, cs_env (cache_of s));
  cache_set_with_ttl key value (get_ttl (String.eqb env "dev" || String.eqb env "development")).

(** [CacheService::delete]: the first level is left as it is. *)
Definition cache_delete (key : string) : cached unit :=
  redis ← eff_gets (λ s, cs_redis (cache_of s));
  match redis with
  | Some redis => redis_delete redis (cache_key key)
  | None => mret tt
  end.

(** [l1_cache.insert]. *)
Definition l1_insert (key text : string) : cached unit :=
  now ← eff_gets clock;
  on_cache (on_l1 (ts_set now (Some l1_ttl) key text)).

(** The two lookups that [get_or_insert_with] and [get_or_insert_with_skip_none]
    start with: a level-2 hit is copied to level 1 and counted a second time. *)
Definition cached_value {T} (serde : Serde T) (key : string) : cached (option T) :=
  l1 ← eff_gets (λ s, ts_get (clock s) key (cs_l1 (cache_of s)));
  match decoded serde l1 with
  | Some v => _ ← on_cache count_hit; mret (Some v)
  | None =>
      l2 ← cache_get key;
      match l2 with
      | Some text =>
          match decode serde text with
          | Some v => _ ← l1_insert key text; _ ← on_cache count_hit; mret (Some v)
          | None => mret None
          end
      | None => mret None
      end
  end.

(** Both levels get the serialized value. *)
Definition cache_value {T} (serde : Serde T) (key : string) (ttl_seconds : Z) (v : T) : cached unit :=
  text ← eff_lift (encode serde v);
  _ ← l1_insert key text;
  cache_set_with_ttl key text ttl_seconds.

Definition get_or_insert_with {T} (serde : Serde T) (key : string) (ttl_seconds : Z) (f : cached T) : cached T :=
  found ← cached_value serde key;
  match found with
  | Some v => mret v
  | None =>
      _ ← on_cache count_miss;
      v ← f;
      _ ← cache_value serde key ttl_seconds v;
      mret v
  end.

Definition get_or_insert_with_skip_none {T} (serde : Serde T) (key : string) (ttl_seconds : Z) (f : cached (option T))
    : cached (option T) :=
  found ← cached_value serde key;
  match found with
  | Some v => mret (Some v)
  | None =>
      _ ← on_cache count_miss;
      value ← f;
      _ ← (match value with Some v => cache_value serde key ttl_seconds v | None => mret tt end);
      mret value
  end.

(** [get_hit_rate]; the sum of the counters wraps. *)
Definition get_hit_rate (c : CacheState L1 L2) : f64 :=
  let total := u64_wrap (cs_hits c + cs_misses c) in
  if (total =? 0)%Z then f64_zero
  else f64_mul (f64_div (f64_of_Z (cs_hits c)) (f64_of_Z total)) (f64_of_Z 100).

(** *** [delete_by_prefix] *)

(** The SCAN loop: replies are read until the cursor is zero; a list that ends before
    is a connection that no longer answers. *)
Fixpoint scan_keys (replies : list (Result string (Z * list string))) : Result string (list string) :=
  match replies with
  | [] => Err "broken pipe"
  | Err e :: _ => Err e
  | Ok (cursor, keys) :: replies' =>
      if (cursor =? 0)%Z then Ok keys
      else rest ← scan_keys replies'; Ok (keys ++ rest)
  end.

(** [chunks(100)]: one DEL per hundred keys. *)
Fixpoint chunks_fuel {A} (fuel n : nat) (l : list A) : list (list A) :=
  match fuel, l with
  | S fuel', _ :: _ => take n l :: chunks_fuel fuel' n (drop n l)
  | _, _ => []
  end.
Definition chunks {A} (n : nat) (l : list A) : list (list A) := chunks_fuel (length l) n l.

(** [DEL k1 ... kn]: the number of keys there were. *)
Fixpoint del_keys (now : Z) (keys : list string) (redis : L2) : nat * L2 :=
  match keys with
  | [] => (0%nat, redis)
  | k :: keys' =>
      let found := match ts_get now k redis with Some _ => 1%nat | None => 0%nat end in
      let '(n, redis') := del_keys now keys' (ts_del k redis) in (found + n, redis')%nat
  end.

Fixpoint del_batches (batches : list (list string)) : cached nat :=
  match batches with
  | [] => mret 0%nat
  | keys :: batches' =>
      _ ← redis_outcome "";
      n ← (λ s, match cs_redis (cache_of s) with
                | Some redis =>
                    let '(n, redis') := del_keys (clock s) keys redis in
                    (Ok n, with_cache (set_redis (Some redis') (cache_of s)) s)
                | None => (Ok 0%nat, s)
                end);
      m ← del_batches batches';
      mret (n + m)%nat
  end.

(** [replies pattern] is what SCAN answers for the pattern. *)
Definition delete_by_prefix (replies : string → list (Result string (Z * list string))) (prefix : string) : cached nat :=
  redis ← eff_gets (λ s, cs_redis (cache_of s));
  match redis with
  | Some _ =>
      pattern ← eff_gets (λ s, prefix_key (cache_of s) (cache_key prefix) +:+ "*");
      _ ← redis_outcome "";
      keys ← fallible (scan_keys (replies pattern));
      del_batches (chunks 100 keys)
  | None => mret 0%nat
  end.
End cache.

(** ** Lemmas *)

Lemma encode_decode {T} (serde : Serde T) `{!SerdeLaws serde} v text :
  encode serde v = Ok text → decode serde text = Some v.
Proof.
  unfold encode, decode. destruct (simd_to_vec serde v) as [bytes|e] eqn:E.
  - destruct (from_utf8 serde bytes) as [t|] eqn:Eu.
    + intros [= <-]. by erewrite simd_roundtrip.
    + destruct (serde_to_string serde v) as [t|] eqn:Es; [|done]. intros [= ->].
      by destruct (serde_roundtrip v text Es) as [->|[-> ->]].
  - destruct (serde_to_string serde v) as [t|] eqn:Es; [|done]. intros [= ->].
    by destruct (serde_roundtrip v text Es) as [->|[-> ->]].
Qed.

Lemma prefix_key_inj (env : string) k k' :
  env +:+ ":" +:+ cache_key k = env +:+ ":" +:+ cache_key k' → k = k'.
Proof. intros E. by do 3 apply string_app_inj_r in E. Qed.

Section staleness.
Context {L1 L2 St : Type} `{!TtlStore L1, !TtlStore L2, !TtlLaws L1, !TtlLaws L2} `{!HasCache L1 L2 St}.
(** [answers key t text]: at time [t] the source of [key] gave the value that [text]
    serializes; [life key]: the longest duration the callers give for [key]. *)
Context (answers : string → Z → string → Prop) (life : string → Z).
Implicit Types s : St.

(** What level 1 and level 2 may return from now on. *)
Definition l1_fresh (now : Z) (l1 : L1) : Prop := ∀ k text now',
  (now ≤ now')%Z → ts_get now' k l1 = Some text →
  ∃ t, answers k t text ∧ (t ≤ now)%Z ∧ (now' < t + life k + l1_ttl)%Z.
Definition l2_fresh (now : Z) (env : string) (l2 : L2) : Prop := ∀ k text now',
  (now ≤ now')%Z → ts_get now' (env +:+ ":" +:+ cache_key k) l2 = Some text →
  ∃ t, answers k t text ∧ (t ≤ now)%Z ∧ (now' < t + life k)%Z.

Definition cache_fresh (now : Z) (c : CacheState L1 L2) : Prop :=
  l1_fresh now (cs_l1 c) ∧ ∀ l2, cs_redis c = Some l2 → l2_fresh now (cs_redis_env c) l2.
Definition fresh s : Prop := cache_fresh (clock s) (cache_of s).

(** The abstract cache: a read gives what the source gave at most [life] and an hour
    ago. *)
Definition stale_read {T} (serde : Serde T) (key : string) (now : Z) (v : T) : Prop :=
  ∃ t text, answers key t text ∧ decode serde text = Some v ∧ (t ≤ now)%Z ∧ (now < t + life key + l1_ttl)%Z.

(** [f] asks the source of [key], while others may use the cache; [value] is what it
    serializes of the answer, if anything. *)
Definition source_of {R T} (serde : Serde T) (key : string) (value : R → option T) (f : eff St Failure R) : Prop :=
  ∀ s, fresh s →
    fresh (f s).2 ∧ (clock s ≤ clock (f s).2)%Z ∧
    ∀ r v text, (f s).1 = Ok r → value r = Some v → encode serde v = Ok text → answers key (clock (f s).2) text.

(** The durations a caller may give. *)
Definition ttl_within (key : string) (ttl_seconds : Z) : Prop := (0 < 1000 * ttl_seconds ≤ life key)%Z.

(** Only counters and outcomes change. *)
Definition keeps s s' : Prop :=
  clock s' = clock s ∧ cs_l1 (cache_of s') = cs_l1 (cache_of s) ∧ cs_redis (cache_of s') = cs_redis (cache_of s) ∧
  cs_redis_env (cache_of s') = cs_redis_env (cache_of s).

#[export] Instance keeps_refl : Reflexive keeps.
Proof. done. Qed.
#[export] Instance keeps_trans : Transitive keeps.
Proof. intros s1 s2 s3 (?&?&?&?) (?&?&?&?). split_and!; congruence. Qed.

Lemma keeps_fresh s s' : keeps s s' → fresh s → fresh s'.
Proof. intros (E1&E2&E3&E4). unfold fresh, cache_fresh. by rewrite E1, E2, E3, E4. Qed.

Lemma with_cache_keeps c s :
  cs_l1 c = cs_l1 (cache_of s) → cs_redis c = cs_redis (cache_of s) → cs_redis_env c = cs_redis_env (cache_of s) →
  keeps s (with_cache c s).
Proof. intros. unfold keeps. by rewrite clock_with, cache_of_with. Qed.

Lemma count_hit_keeps s : keeps s (on_cache count_hit s).2.
Proof. by apply with_cache_keeps. Qed.
Lemma count_miss_keeps s : keeps s (on_cache count_miss s).2.
Proof. by apply with_cache_keeps. Qed.

Lemma redis_outcome_keeps e s : keeps s (redis_outcome e s).2.
Proof.
  unfold redis_outcome. destruct (cs_outcomes (cache_of s)) as [|[o|] os]; [done|by apply with_cache_keeps..].
Qed.

Lemma redis_get_spec redis key s r s' :
  redis_get redis key s = (r, s') →
  keeps s s' ∧ ∀ o, r = Ok o → o = ts_get (clock s) (prefix_key (cache_of s) key) redis.
Proof.
  unfold redis_get, eff_gets. pose proof (redis_outcome_keeps "" s) as K1. unfold mbind, eff_bind.
  destruct (redis_outcome "" s) as [[[]|e] s1]; simpl in *; [|by intros [= <- <-]].
  pose proof (redis_outcome_keeps "Redis error: " s1) as K2.
  destruct (redis_outcome "Redis error: " s1) as [[[]|e] s2]; simpl in *.
  - intros [= <- <-]. pose proof (transitivity K1 K2) as K. split; [done|]. intros o [= <-].
    destruct K as (E1&_&_&E4). unfold prefix_key. by rewrite E1, E4.
  - intros [= <- <-]. split; [by etrans|done].
Qed.

Lemma cache_get_spec key s r s' :
  cache_get key s = (r, s') →
  keeps s s' ∧ ∀ text, r = Ok (Some text) → ∃ redis, cs_redis (cache_of s) = Some redis ∧
    ts_get (clock s) (prefix_key (cache_of s) (cache_key key)) redis = Some text.
Proof.
  unfold cache_get, eff_gets, mbind, eff_bind at 1. destruct (cs_redis (cache_of s)) as [redis|] eqn:Er.
  - unfold eff_bind, catch. destruct (redis_get redis (cache_key key) s) as [[o|[e|e]] s1] eqn:Eg;
      apply redis_get_spec in Eg as [K Ho].
    + specialize (Ho o eq_refl). destruct o as [text|]; intros [= <- <-]; (split; [etrans; [exact K|by apply with_cache_keeps]|]).
      * intros text' [= <-]. by eauto.
      * done.
    + intros [= <- <-]. split; [etrans; [exact K|by apply with_cache_keeps]|done].
    + by intros [= <- <-].
  - intros [= <- <-]. split; [by apply with_cache_keeps|done].
Qed.

(** What goes into the levels. *)
Lemma l1_insert_fresh key text t s :
  answers key t text → (t ≤ clock s < t + life key)%Z → fresh s → fresh (l1_insert key text s).2.
Proof.
  intros Ha Ht [H1 H2]. unfold l1_insert, fresh, cache_fresh. simpl. rewrite clock_with, cache_of_with. simpl.
  split; [|exact H2]. intros k text' now' Hle Hg. apply (ts_get_set _ _ _ _ _ _ _ _ Hle) in Hg as [(->&->&Hu)|[_ Hg]].
  - exists t. simpl in Hu. split_and!; [done|lia|lia].
  - by apply H1.
Qed.

Lemma cache_set_with_ttl_fresh key text ttl_seconds t s :
  answers key t text → t = clock s → ttl_within key ttl_seconds → fresh s →
  fresh (cache_set_with_ttl key text ttl_seconds s).2 ∧ clock (cache_set_with_ttl key text ttl_seconds s).2 = clock s.
Proof.
  intros Ha -> Httl Hf. unfold cache_set_with_ttl, eff_gets, mbind, eff_bind.
  destruct (cs_redis (cache_of s)) as [redis|] eqn:Er; [|done]. unfold redis_set_with_ttl, mbind, eff_bind.
  pose proof (redis_outcome_keeps "" s) as K1. destruct (redis_outcome "" s) as [[[]|e] s1]; simpl in *;
    [|split; [by eapply keeps_fresh|by destruct K1]].
  pose proof (redis_outcome_keeps "Redis SET error: " s1) as K2. pose proof (transitivity K1 K2) as K.
  destruct (redis_outcome "Redis SET error: " s1) as [[[]|e] s2]; simpl in *;
    [|split; [by eapply keeps_fresh|by destruct K]].
  rewrite clock_with. destruct (keeps_fresh _ _ K Hf) as [F1 F2]. destruct K as (E1&E2&E3&E4). split; [|done].
  unfold fresh, cache_fresh. rewrite clock_with, cache_of_with. simpl. split; [exact F1|].
  intros l2 [= <-] k text' now' Hle Hg. unfold prefix_key in Hg.
  apply (ts_get_set _ _ _ _ _ _ _ _ Hle) in Hg as [(Ek&->&Hu)|[_ Hg]].
  - apply prefix_key_inj in Ek as ->. exists (clock s2). unfold redis_ttl, ttl_within in *.
    rewrite (proj2 (Z.ltb_lt _ _)) in Hu by lia. simpl in Hu. rewrite E1 in *. split_and!; [done|lia|lia].
  - eapply (F2 redis); [congruence|done|done].
Qed.

(** The lookups give what the source gave not too long ago. *)
Lemma cached_value_fresh {T} (serde : Serde T) key s r s' :
  fresh s → cached_value serde key s = (r, s') →
  fresh s' ∧ clock s' = clock s ∧ ∀ v, r = Ok (Some v) → stale_read serde key (clock s) v.
Proof.
  intros Hf. unfold cached_value, eff_gets, mbind, eff_bind.
  destruct (decoded serde (ts_get (clock s) key (cs_l1 (cache_of s)))) as [v|] eqn:E1.
  { intros [= <- <-]. rewrite clock_with. split_and!; [by eapply keeps_fresh, Hf; apply count_hit_keeps|done|].
    intros v' [= <-]. destruct (ts_get _ _ _) as [text|] eqn:Hg; [|done]. destruct Hf as [H1 _].
    apply H1 in Hg as (t & Ha & Ht & Hl); [|done]. exists t, text. split_and!; done || lia. }
  destruct (cache_get key s) as [rg s1] eqn:Eg. apply cache_get_spec in Eg as [K Hg].
  pose proof (keeps_fresh _ _ K Hf) as F1. pose proof K as (Ec&_&_&_). destruct rg as [[text|]|e].
  2,3: by intros [= <- <-].
  destruct (decode serde text) as [v|] eqn:Ed; [|by intros [= <- <-]].
  destruct (Hg text eq_refl) as (redis & Er & Ht). destruct Hf as [_ H2].
  apply (H2 _ Er) in Ht as (t & Ha & Hle & Hl); [|done].
  assert (F2 : fresh (l1_insert key text s1).2) by (eapply l1_insert_fresh; [done|lia|done]).
  destruct (l1_insert key text s1) as [ri s2] eqn:Ei. unfold l1_insert, on_cache, eff_modify in Ei.
  simpl in Ei. injection Ei as <- <-. intros [= <- <-]. rewrite !clock_with. split_and!; [|done|].
  - eapply keeps_fresh, F2. by apply with_cache_keeps.
  - intros v' [= <-]. exists t, text. unfold l1_ttl. split_and!; done || lia.
Qed.

Lemma cache_value_fresh {T} (serde : Serde T) key ttl_seconds v s :
  (∀ text, encode serde v = Ok text → answers key (clock s) text) → ttl_within key ttl_seconds → fresh s →
  fresh (cache_value serde key ttl_seconds v s).2 ∧ clock (cache_value serde key ttl_seconds v s).2 = clock s ∧
  ((cache_value serde key ttl_seconds v s).1 = Ok tt → ∃ text, encode serde v = Ok text).
Proof.
  intros Ha Httl Hf. unfold cache_value, eff_lift, mbind, eff_bind. destruct (encode serde v) as [text|e]; [|done].
  specialize (Ha text eq_refl).
  assert (F : fresh (l1_insert key text s).2) by (eapply l1_insert_fresh; [done|unfold ttl_within in *; lia|done]).
  destruct (l1_insert key text s) as [ri s1] eqn:Ei. assert (clock s1 = clock s).
  { unfold l1_insert, on_cache, eff_modify in Ei. simpl in Ei. injection Ei as _ <-. apply clock_with. }
  unfold l1_insert, on_cache, eff_modify in Ei. simpl in Ei. injection Ei as <- Ei. simpl in F.
  destruct (cache_set_with_ttl_fresh key text ttl_seconds (clock s) s1 Ha) as [F' E']; [done..|].
  split_and!; [done|congruence|eauto].
Qed.
(** The two typed lookups, on every path. *)
Lemma get_or_insert_with_fresh {T} (serde : Serde T) `{!SerdeLaws serde} key ttl_seconds f s r s' :
  source_of serde key Some f → ttl_within key ttl_seconds → fresh s →
  get_or_insert_with serde key ttl_seconds f s = (r, s') →
  fresh s' ∧ (clock s ≤ clock s')%Z ∧ ∀ v, r = Ok v → stale_read serde key (clock s') v.
Proof.
  intros Hsrc Httl Hf. unfold get_or_insert_with, mbind, eff_bind.
  destruct (cached_value serde key s) as [found s1] eqn:E1. apply cached_value_fresh in E1 as (F1 & C1 & Hstale); [|done].
  destruct found as [[v|]|e]; [| |intros [= <- <-]; split_and!; done || lia].
  { intros [= <- <-]. split_and!; [done|lia|]. intros v' [= <-]. rewrite C1. by apply Hstale. }
  pose proof (keeps_fresh _ _ (count_miss_keeps s1) F1) as F2. unfold on_cache, eff_modify. simpl in F2.
  set (s2 := with_cache (count_miss (cache_of s1)) s1) in *. assert (C2 : clock s2 = clock s) by (unfold s2; by rewrite clock_with).
  destruct (Hsrc s2 F2) as (F3 & C3 & Hans). destruct (f s2) as [[v|e] s3]; simpl in *; [|intros [= <- <-]; split_and!; done || lia].
  destruct (cache_value_fresh serde key ttl_seconds v s3) as (F4 & C4 & Henc); [by intros; eapply Hans|done|done|].
  destruct (cache_value serde key ttl_seconds v s3) as [[[]|e] s4]; simpl in *; intros [= <- <-];
    (split_and!; [done|lia|]); [|done].
  intros v' [= <-]. destruct (Henc eq_refl) as [text Ht]. exists (clock s3), text. unfold ttl_within, l1_ttl in *.
  split_and!; [by eapply Hans|by eapply encode_decode|lia|lia].
Qed.

Lemma get_or_insert_with_skip_none_fresh {T} (serde : Serde T) `{!SerdeLaws serde} key ttl_seconds f s r s' :
  source_of serde key id f → ttl_within key ttl_seconds → fresh s →
  get_or_insert_with_skip_none serde key ttl_seconds f s = (r, s') →
  fresh s' ∧ (clock s ≤ clock s')%Z ∧ ∀ v, r = Ok (Some v) → stale_read serde key (clock s') v.
Proof.
  intros Hsrc Httl Hf. unfold get_or_insert_with_skip_none, mbind, eff_bind.
  destruct (cached_value serde key s) as [found s1] eqn:E1. apply cached_value_fresh in E1 as (F1 & C1 & Hstale); [|done].
  destruct found as [[v|]|e]; [| |intros [= <- <-]; split_and!; done || lia].
  { intros [= <- <-]. split_and!; [done|lia|]. intros v' [= <-]. rewrite C1. by apply Hstale. }
  pose proof (keeps_fresh _ _ (count_miss_keeps s1) F1) as F2. unfold on_cache, eff_modify. simpl in F2.
  set (s2 := with_cache (count_miss (cache_of s1)) s1) in *. assert (C2 : clock s2 = clock s) by (unfold s2; by rewrite clock_with).
  destruct (Hsrc s2 F2) as (F3 & C3 & Hans).
  destruct (f s2) as [[[v|]|e] s3]; simpl in *; [|intros [= <- <-]; split_and!; done || lia..].
  destruct (cache_value_fresh serde key ttl_seconds v s3) as (F4 & C4 & Henc); [by intros; eapply Hans|done|done|].
  destruct (cache_value serde key ttl_seconds v s3) as [[[]|e] s4]; simpl in *; intros [= <- <-];
    (split_and!; [done|lia|]); [|done].
  intros v' [= <-]. destruct (Henc eq_refl) as [text Ht]. exists (clock s3), text. unfold ttl_within, l1_ttl in *.
  split_and!; [by eapply Hans|by eapply encode_decode|lia|lia].
Qed.

(** Level 2 returns less. *)
Lemma shrink_fresh s s' :
  (clock s ≤ clock s')%Z → cs_redis_env (cache_of s') = cs_redis_env (cache_of s) →
  (∀ now k text, (clock s' ≤ now)%Z → ts_get now k (cs_l1 (cache_of s')) = Some text →
     ts_get now k (cs_l1 (cache_of s)) = Some text) →
  (∀ r', cs_redis (cache_of s') = Some r' → ∃ r, cs_redis (cache_of s) = Some r ∧
     ∀ now k text, (clock s' ≤ now)%Z → ts_get now k r' = Some text → ts_get now k r = Some text) →
  fresh s → fresh s'.
Proof.
  intros Hc He H1 H2 [F1 F2]. split.
  - intros k text now Hle Hg. destruct (F1 k text now) as (t & ? & ? & ?); [lia|by apply H1|].
    exists t. split_and!; done || lia.
  - intros r' Hr' k text now Hle Hg. destruct (H2 r' Hr') as (r & Hr & Hsub). rewrite He in Hg.
    destruct (F2 r Hr k text now) as (t & ? & ? & ?); [lia|by apply Hsub|]. exists t. split_and!; done || lia.
Qed.

Lemma cache_delete_fresh key s : fresh s → fresh (cache_delete key s).2.
Proof.
  intros Hf. unfold cache_delete, eff_gets, mbind, eff_bind.
  destruct (cs_redis (cache_of s)) as [redis|] eqn:Er; [|done]. unfold redis_delete, mbind, eff_bind.
  pose proof (redis_outcome_keeps "" s) as K1. destruct (redis_outcome "" s) as [[[]|e] s1]; simpl in *;
    [|by eapply keeps_fresh].
  pose proof (redis_outcome_keeps "Redis DELETE error: " s1) as K2. pose proof (transitivity K1 K2) as K.
  destruct (redis_outcome "Redis DELETE error: " s1) as [[[]|e] s2]; simpl in *; [|by eapply keeps_fresh].
  eapply shrink_fresh, keeps_fresh, Hf; [| | | |exact K].
  - by rewrite clock_with.
  - by rewrite cache_of_with.
  - intros now k text. by rewrite cache_of_with.
  - intros r'. rewrite cache_of_with. simpl. intros [= <-]. exists redis. destruct K as (_&_&->&_). split; [done|].
    intros now k text _ Hg. by apply ts_get_del in Hg as [_ Hg].
Qed.

(** ** What clients do to the cache *)

(** Any client, in any order: the typed lookups of any type, a direct write of what
    the source says, a deletion; and time passes while the levels forget. *)
Inductive cache_step : St → St → Prop :=
  | step_get {T} (serde : Serde T) key ttl_seconds f s :
      SerdeLaws serde → source_of serde key Some f → ttl_within key ttl_seconds →
      cache_step s (get_or_insert_with serde key ttl_seconds f s).2
  | step_get_skip_none {T} (serde : Serde T) key ttl_seconds f s :
      SerdeLaws serde → source_of serde key id f → ttl_within key ttl_seconds →
      cache_step s (get_or_insert_with_skip_none serde key ttl_seconds f s).2
  | step_set key text ttl_seconds s :
      answers key (clock s) text → ttl_within key ttl_seconds → cache_step s (cache_set_with_ttl key text ttl_seconds s).2
  | step_delete key s : cache_step s (cache_delete key s).2
  | step_pass s s' :
      (clock s ≤ clock s')%Z → cs_redis_env (cache_of s') = cs_redis_env (cache_of s) →
      (∀ now k text, (clock s' ≤ now)%Z → ts_get now k (cs_l1 (cache_of s')) = Some text →
         ts_get now k (cs_l1 (cache_of s)) = Some text) →
      (∀ r', cs_redis (cache_of s') = Some r' → ∃ r, cs_redis (cache_of s) = Some r ∧
         ∀ now k text, (clock s' ≤ now)%Z → ts_get now k r' = Some text → ts_get now k r = Some text) →
      cache_step s s'.

Lemma cache_step_fresh s s' : cache_step s s' → fresh s → fresh s'.
Proof.
  intros [T serde key ttl f s0 ? ? ?|T serde key ttl f s0 ? ? ?|key text ttl s0 ? ?|key s0|s0 s1 ? ? ? ?] Hf.
  - destruct (get_or_insert_with serde key ttl f s0) as [r s1] eqn:E. eapply get_or_insert_with_fresh in E; [|done..]. apply E.
  - destruct (get_or_insert_with_skip_none serde key ttl f s0) as [r s1] eqn:E. eapply get_or_insert_with_skip_none_fresh in E; [|done..]. apply E.
  - by eapply cache_set_with_ttl_fresh.
  - by apply cache_delete_fresh.
  - by eapply shrink_fresh.
Qed.

Lemma cache_run_fresh s s' : rtc cache_step s s' → fresh s → fresh s'.
Proof. induction 1; eauto using cache_step_fresh. Qed.

(** An empty cache. *)
Definition empty_cache s : Prop :=
  (∀ now k, ts_get now k (cs_l1 (cache_of s)) = None) ∧
  (∀ r, cs_redis (cache_of s) = Some r → ∀ now k, ts_get now k r = None).

Lemma empty_cache_fresh s : empty_cache s → fresh s.
Proof.
  intros [H1 H2]. split; [intros k text now _; by rewrite H1|]. intros r Hr k text now _. by rewrite (H2 r Hr).
Qed.
End staleness.

Section first_level.
Context {L1 L2 St : Type} `{!TtlStore L1, !TtlStore L2, !TtlKeeps L1} `{!HasCache L1 L2 St}.
Implicit Types s : St.

(** Level 1 has the value for an hour from now. *)
Definition l1_holds {T} (serde : Serde T) (key : string) (v : T) s : Prop := ∀ now,
  (clock s ≤ now < clock s + l1_ttl)%Z → ∃ text, ts_get now key (cs_l1 (cache_of s)) = Some text ∧ decode serde text = Some v.

Lemma l1_insert_holds {T} (serde : Serde T) key text v s :
  decode serde text = Some v → l1_holds serde key v (l1_insert key text s).2.
Proof.
  intros Hd now Hnow. unfold l1_insert in *. simpl in *. rewrite clock_with in Hnow. rewrite cache_of_with. simpl.
  exists text. split; [|done]. apply ts_get_set_eq; [lia|simpl; lia].
Qed.

Lemma same_l1_holds {T} (serde : Serde T) key v s s' :
  clock s' = clock s → cs_l1 (cache_of s') = cs_l1 (cache_of s) → l1_holds serde key v s → l1_holds serde key v s'.
Proof. intros Hc Hl Hh now. rewrite Hc, Hl. apply Hh. Qed.

Lemma cache_set_with_ttl_l1 key text ttl_seconds s :
  clock (cache_set_with_ttl key text ttl_seconds s).2 = clock s ∧
  cs_l1 (cache_of (cache_set_with_ttl key text ttl_seconds s).2) = cs_l1 (cache_of s).
Proof.
  unfold cache_set_with_ttl, eff_gets, mbind, eff_bind.
  destruct (cs_redis (cache_of s)) as [redis|]; [|done]. unfold redis_set_with_ttl, mbind, eff_bind.
  pose proof (redis_outcome_keeps "" s) as K1. destruct (redis_outcome "" s) as [[[]|e] s1]; simpl in *;
    [|by destruct K1 as (?&?&_)].
  pose proof (redis_outcome_keeps "Redis SET error: " s1) as K2. pose proof (transitivity K1 K2) as K.
  destruct (redis_outcome "Redis SET error: " s1) as [[[]|e] s2]; simpl in *; destruct K as (?&?&_); [|done].
  by rewrite clock_with, cache_of_with.
Qed.

Lemma cache_value_holds {T} (serde : Serde T) `{!SerdeLaws serde} key ttl_seconds v s s' :
  cache_value serde key ttl_seconds v s = (Ok tt, s') → l1_holds serde key v s'.
Proof.
  unfold cache_value, eff_lift, mbind, eff_bind.
  destruct (encode serde v) as [text|] eqn:Ee; [|done]. simpl. intros Hset.
  set (s1 := with_cache _ s) in Hset. destruct (cache_set_with_ttl_l1 key text ttl_seconds s1) as [Ec El].
  rewrite Hset in Ec, El. eapply same_l1_holds; [exact Ec|exact El|].
  apply (l1_insert_holds _ _ text _ s). by eapply encode_decode.
Qed.

Lemma get_or_insert_with_holds {T} (serde : Serde T) `{!SerdeLaws serde} key ttl_seconds f v s s1 :
  ts_get (clock s) key (cs_l1 (cache_of s)) = None → get_or_insert_with serde key ttl_seconds f s = (Ok v, s1) →
  l1_holds serde key v s1.
Proof.
  intros Hnone. unfold get_or_insert_with, mbind, eff_bind.
  destruct (cached_value serde key s) as [[[v0|]|e] s0] eqn:Ev; [| |done].
  - intros [= <- <-]. unfold cached_value, eff_gets, mbind, eff_bind in Ev. rewrite Hnone in Ev. simpl in Ev.
    destruct (cache_get key s) as [[[text|]|e] s2]; try done.
    destruct (decode serde text) as [v1|] eqn:Ed; [|done]. injection Ev as <- <-.
    apply (same_l1_holds _ _ _ (l1_insert key text s2).2); [unfold l1_insert; simpl; by rewrite !clock_with|unfold l1_insert; simpl; by rewrite !cache_of_with|].
    by apply l1_insert_holds.
  - simpl. destruct (f _) as [[v1|e] s2]; [|done].
    destruct (cache_value serde key ttl_seconds v1 s2) as [[[]|e] s3] eqn:Ec; [|done]. intros [= <- <-].
    by eapply cache_value_holds.
Qed.
End first_level.

(** ** Properties *)

Section properties.
Context {L1 L2 St : Type} `{!TtlStore L1, !TtlStore L2} `{!HasCache L1 L2 St}.
Implicit Types s : St.

(** C30: the two levels implement a read of bounded age.  However the clients use the
    cache, starting from an empty one, whatever the levels forget and whichever Redis
    commands fail, what [get_or_insert_with] returns is something the source of the
    key answered less than the longest duration given for the key and one hour ago. *)
Theorem cache_refines_stale_read `{!TtlLaws L1, !TtlLaws L2} (answers : string → Z → string → Prop) (life : string → Z)
    {T} (serde : Serde T) `{!SerdeLaws serde} (key : string) (ttl_seconds : Z) (f : eff St Failure T) (s0 s s' : St) (v : T) :
  empty_cache s0 → rtc (cache_step answers life) s0 s →
  source_of answers life serde key Some f → ttl_within life key ttl_seconds →
  get_or_insert_with serde key ttl_seconds f s = (Ok v, s') →
  stale_read answers life serde key (clock s') v.
Proof.
  intros H0 Hrun Hf Httl Hget.
  pose proof (cache_run_fresh _ _ _ _ Hrun (empty_cache_fresh answers life _ H0)) as Hfresh.
  destruct (get_or_insert_with_fresh answers life serde key ttl_seconds f s (Ok v) s' Hf Httl Hfresh Hget) as (_ & _ & Hv).
  by apply Hv.
Qed.

(** the first level ignores the duration.  Once a call has returned a value the
    first level did not have, every call of the key in the next hour returns that
    value without asking Redis or the source, whatever duration both calls gave,
    unless level 1 has forgotten the key. *)
Theorem first_level_ignores_ttl `{!TtlKeeps L1} {T} (serde : Serde T) `{!SerdeLaws serde} (key : string)
    (ttl_seconds ttl_seconds' : Z) (f f' : eff St Failure T) (v : T) (s s1 s2 : St) :
  ts_get (clock s) key (cs_l1 (cache_of s)) = None →
  get_or_insert_with serde key ttl_seconds f s = (Ok v, s1) →
  cs_l1 (cache_of s2) = cs_l1 (cache_of s1) → (clock s1 ≤ clock s2 < clock s1 + l1_ttl)%Z →
  get_or_insert_with serde key ttl_seconds' f' s2 = (Ok v, with_cache (count_hit (cache_of s2)) s2).
Proof.
  intros Hnone Hget Hl Hc. apply get_or_insert_with_holds in Hget; [|done|done].
  destruct (Hget (clock s2)) as (text & Ht & Hd); [done|]. rewrite <-Hl in Ht.
  unfold get_or_insert_with, cached_value, eff_gets, mbind, eff_bind. rewrite Ht. simpl. by rewrite Hd.
Qed.

(** without Redis nothing is served.  When the level 1 has no readable entry and
    Redis does not answer, the lookup fails with the error of Redis: the source is
    not asked. *)
Theorem redis_failure_is_final {T} (serde : Serde T) (key e : string) (ttl_seconds : Z) (f : eff St Failure T) (s : St)
    (redis : L2) (rest : list (option string)) :
  decoded serde (ts_get (clock s) key (cs_l1 (cache_of s))) = None → cs_redis (cache_of s) = Some redis →
  cs_outcomes (cache_of s) = Some e :: rest →
  get_or_insert_with serde key ttl_seconds f s
    = (Err (Failed e), with_cache (count_miss (set_cache_outcomes rest (cache_of s))) s).
Proof.
  intros Hnone Hr Ho. unfold get_or_insert_with, cached_value, eff_gets, mbind, eff_bind. rewrite Hnone.
  unfold cache_get, eff_gets, mbind, eff_bind. rewrite Hr. unfold catch, redis_get, mbind, eff_bind, redis_outcome at 1.
  rewrite Ho. simpl. by rewrite cache_of_with, with_cache_with.
Qed.

(** every lookup that reaches Redis is counted twice: a hit of the second level
    is two hits, and a miss of both is two misses. *)
Theorem redis_lookups_counted_twice {T} (serde : Serde T) (key : string) (ttl_seconds : Z) (f : eff St Failure T) (s : St)
    (redis : L2) (text : option string) :
  decoded serde (ts_get (clock s) key (cs_l1 (cache_of s))) = None → cs_redis (cache_of s) = Some redis →
  cs_outcomes (cache_of s) = [] → ts_get (clock s) (prefix_key (cache_of s) (cache_key key)) redis = text →
  (text = None ∨ ∃ v, decoded serde text = Some v) →
  ∃ found s1, cached_value serde key s = (Ok found, s1) ∧
    match text with
    | Some _ => cs_hits (cache_of s1) = u64_fetch_add (u64_fetch_add (cs_hits (cache_of s)) 1) 1 ∧
                ∃ v, get_or_insert_with serde key ttl_seconds f s = (Ok v, s1)
    | None => get_or_insert_with serde key ttl_seconds f s
                = (v ← f; _ ← cache_value serde key ttl_seconds v; mret v) (with_cache (count_miss (cache_of s1)) s1) ∧
              cs_misses (cache_of (with_cache (count_miss (cache_of s1)) s1))
                = u64_fetch_add (u64_fetch_add (cs_misses (cache_of s)) 1) 1
    end.
Proof.
  intros Hnone Hr Ho Ht Htext.
  assert (Hg : redis_get redis (cache_key key) s = (Ok text, s)).
  { unfold redis_get, redis_outcome, eff_gets, mbind, eff_bind. rewrite Ho. simpl. by rewrite Ho, Ht. }
  assert (Hc : cache_get key s = (Ok text, with_cache ((match text with Some _ => count_hit | None => count_miss end) (cache_of s)) s)).
  { unfold cache_get, eff_gets, catch, mbind, eff_bind. rewrite Hr, Hg. by destruct text. }
  unfold get_or_insert_with, mbind, eff_bind.
  unfold cached_value, eff_gets, mbind, eff_bind. rewrite Hnone, Hc. destruct text as [text|].
  - destruct Htext as [|[v Hv]]; [done|]. simpl in Hv. rewrite Hv. eexists _, _. split; [done|]. split; [|by eexists].
    simpl. by rewrite !cache_of_with.
  - eexists _, _. split; [done|]. split; [done|]. by rewrite !cache_of_with.
Qed.
End properties.

(** ** Witnesses *)

(** A cache and a clock. *)
Definition timed_cache : Type := CacheState ttl_map ttl_map * Z.

#[export] Instance timed_cache_has_cache : HasCache ttl_map ttl_map timed_cache := {|
  cache_of := fst; with_cache := λ c s, (c, s.2); clock := snd;
  cache_of_with := λ c s, eq_refl; with_cache_with := λ c c' s, eq_refl; clock_with := λ c s, eq_refl
|}.

Definition text_serde : Serde string := {|
  simd_from_slice := Some; serde_from_slice := Some; simd_to_vec := Ok; from_utf8 := Some; serde_to_string := Ok
|}.

#[export] Instance text_serde_laws : SerdeLaws text_serde.
Proof. split; simpl; [congruence|intros v text [= ->]; by left]. Qed.

Definition sample_cache (outcomes : list (option string)) (now : Z) : timed_cache :=
  (set_cache_outcomes outcomes (CacheService_new ∅ (Some ∅) "development"), now).

(** A source that answers the text of the moment. *)
Definition hourly (s : timed_cache) : string := if (s.2 <? 3600000)%Z then "old" else "new".
Definition sample_source : eff timed_cache Failure string := eff_gets hourly.
Definition sample_answers (key : string) (t : Z) (text : string) : Prop := text = if (t <? 3600000)%Z then "old" else "new".

Lemma sample_source_of life : source_of sample_answers life text_serde "key" Some sample_source.
Proof.
  intros s Hf. split; [exact Hf|]. split; [simpl; lia|]. intros r v text [= <-] [= <-] [= <-]. done.
Qed.

Definition after_call (s : timed_cache) : timed_cache := (get_or_insert_with text_serde "key" 300 sample_source s).2.

Lemma cache_refines_stale_read_witness :
  let s := ((after_call (sample_cache [] 0)).1, 3500000%Z) in
  (get_or_insert_with text_serde "key" 300 sample_source s).1 = Ok "old" ∧
  stale_read sample_answers (λ _, 300000%Z) text_serde "key" 3500000 "old".
Proof.
  intros s. split; [vm_compute; reflexivity|].
  refine (cache_refines_stale_read sample_answers (λ _, 300000%Z) text_serde "key" 300 sample_source (sample_cache [] 0) s
    ((get_or_insert_with text_serde "key" 300 sample_source s).2.1, 3500000%Z) "old" _ _ _ _ _).
  - split; [done|]. by intros r [= <-].
  - eapply rtc_l; [apply (step_get _ _ text_serde "key" 300 sample_source); [apply _|apply sample_source_of|done]|].
    eapply rtc_once, step_pass; simpl; [done|done|by intros|]. intros r' Hr'. exists r'. by split.
  - apply sample_source_of.
  - done.
  - vm_compute. reflexivity.
Defined.

Lemma first_level_ignores_ttl_witness :
  let s1 := after_call (sample_cache [] 0) in
  let s2 := (s1.1, 3599999%Z) in
  (get_or_insert_with text_serde "key" 300 sample_source s2).1 = Ok "old".
Proof.
  intros s1 s2. erewrite (first_level_ignores_ttl text_serde "key" 300 300 sample_source sample_source "old"
    (sample_cache [] 0) s1 s2); [done|done|vm_compute; reflexivity|done|done].
Defined.

Lemma redis_failure_is_final_witness :
  (get_or_insert_with text_serde "key" 300 sample_source (sample_cache [Some "timed out"] 0)).1 = Err (Failed "timed out").
Proof.
  by rewrite (redis_failure_is_final text_serde "key" "timed out" 300 sample_source (sample_cache [Some "timed out"] 0) ∅ []).
Defined.

Lemma redis_lookups_counted_twice_witness :
  let s := sample_cache [] 0 in
  ∃ found s1, cached_value text_serde "key" s = (Ok found, s1) ∧
    cs_misses (cache_of (with_cache (count_miss (cache_of s1)) s1)) = 2%Z.
Proof.
  intros s. destruct (redis_lookups_counted_twice text_serde "key" 300 sample_source s ∅ None) as (found & s1 & Hc & _ & Hm);
    [done..|by left|]. by exists found, s1.
Defined.
