(* ===== verification/Ssm.v ===== *)
(** * The keys of the parameter store

    [crates/core/src/ssm.rs] and [services/ssm_key_cache.rs]: a parameter of the AWS store
    is looked up in memory (six hours), in Redis (a day, or a week for encryption keys; five
    minutes for an answer without a value), then at the store, twice.  The store is a
    function of the time at which it is asked.  Then the encryption key of personal data,
    as [crates/api/src/routes/leads.rs] loads it. *)

From stdpp Require Import base list strings gmap.
From Stdlib Require Import ZArith Lia.
From S2P Require Import Prelude Float64 Platform Json Models Store WriteBehind Cache Encryption.

Open Scope string_scope.
Open Scope list_scope.

(** What the store answers: the parameter, whose value may be missing; an answer without
    parameter; an error, also for a name it does not know; nothing in time. *)
Inductive SsmReply : Type :=
  | SsmParameter (value : option string)
  | SsmNoParameter
  | SsmError (e : string)
  | SsmTimeout.

(** Times in milliseconds; [ssm_memory] is [ENCRYPTION_KEY_CACHE], with the time an entry
    expires. *)
Record SsmState (L1 L2 : Type) : Type := {
  ssm_cache : CacheState L1 L2;
  ssm_now : Z;
  ssm_memory : gmap string (string * Z)
}.
Arguments ssm_cache {_ _}. Arguments ssm_now {_ _}. Arguments ssm_memory {_ _}.

#[export] Instance SsmState_has_cache L1 L2 : HasCache L1 L2 (SsmState L1 L2).
Proof.
  refine {| cache_of := ssm_cache; clock := ssm_now;
            with_cache := λ c s, {| ssm_cache := c; ssm_now := ssm_now s; ssm_memory := ssm_memory s |} |};
    by intros; destruct s.
Defined.

(** The process: the normalized environment, and the two variables that stand in for keys. *)
Record SsmService : Type := {
  ssm_env : string;
  dev_deterministic_key : option string;
  dev_key_derivation_salt : option string
}.

(** How long the two requests to the store take. *)
Record SsmDelays : Type := { first_ms : Z; second_ms : Z }.

Definition SSM_CACHE_MISS_MARKER : string := "__none__".
Definition SSM_CACHE_MISS_TTL : Z := 300.
Definition CACHE_TTL_SECONDS : Z := 21600.

(** [format!("{}", b)]. *)
Definition bool_text (b : bool) : string := if b then "true" else "false".

Definition ssm_ttl (path : string) : Z := if str_contains "/encryption/" path then 604800 else 86400.

Definition try_dev_encryption_fallback (svc : SsmService) (path : string) : option string :=
  match (if str_contains "deterministic_key" path then dev_deterministic_key svc else None) with
  | Some v => Some v
  | None => if str_contains "key_derivation_salt" path then dev_key_derivation_salt svc else None
  end.

Definition ssm_key (svc : SsmService) (path : string) (with_decryption : bool) : string :=
  ssm_env svc +:+ ":ssm:" +:+ path +:+ ":" +:+ bool_text with_decryption.

Section ssm.
Context {L1 L2 : Type} `{!TtlStore L1, !TtlStore L2}.
(** The store, asked at a time for a parameter. *)
Context (source : Z → string → bool → SsmReply) (svc : SsmService).
Abbreviation ssm := (eff (SsmState L1 L2) Failure).

Definition later (ms : Z) (s : SsmState L1 L2) : SsmState L1 L2 :=
  {| ssm_cache := ssm_cache s; ssm_now := (ssm_now s + ms)%Z; ssm_memory := ssm_memory s |}.
Definition pass (ms : Z) : ssm unit := eff_modify (later ms).

(** [redis.get] and [let _ = redis.set_with_ttl(...)], when there is Redis. *)
Definition ssm_redis_get (key : string) : ssm (option string) :=
  redis ← eff_gets (λ s, cs_redis (cache_of s));
  match redis with
  | Some redis => r ← catch (redis_get redis key); mret (match r with Ok found => found | Err _ => None end)
  | None => mret None
  end.

Definition ssm_redis_set (key value : string) (ttl_seconds : Z) : ssm unit :=
  redis ← eff_gets (λ s, cs_redis (cache_of s));
  match redis with
  | Some redis => _ ← catch (redis_set_with_ttl redis key value ttl_seconds); mret tt
  | None => mret tt
  end.

Definition request (path : string) (with_decryption : bool) (ms : Z) : ssm SsmReply :=
  _ ← pass ms; eff_gets (λ s, source (ssm_now s) path with_decryption).

(** The parameter is there: it is cached. *)
Definition found_parameter (path : string) (with_decryption : bool) (value : option string) : ssm (option string) :=
  let value := default "" value in
  _ ← ssm_redis_set (ssm_key svc path with_decryption) value (ssm_ttl path);
  mret (Some value).

(** It is not, or the store does not answer: this is cached too. *)
Definition missing_parameter (path : string) (with_decryption : bool) : ssm (option string) :=
  _ ← ssm_redis_set (ssm_key svc path with_decryption) SSM_CACHE_MISS_MARKER SSM_CACHE_MISS_TTL;
  mret (try_dev_encryption_fallback svc path).

Definition fetch_parameter (d : SsmDelays) (path : string) (with_decryption : bool) : ssm (option string) :=
  first ← request path with_decryption (first_ms d);
  match first with
  | SsmParameter value => found_parameter path with_decryption value
  | SsmNoParameter => missing_parameter path with_decryption
  | SsmError _ | SsmTimeout =>
      _ ← pass 100;
      second ← request path with_decryption (second_ms d);
      match second with
      | SsmParameter value => found_parameter path with_decryption value
      | _ => missing_parameter path with_decryption
      end
  end.

Definition get_parameter (d : SsmDelays) (path : string) (with_decryption : bool) : ssm (option string) :=
  cached ← ssm_redis_get (ssm_key svc path with_decryption);
  match cached with
  | Some v => mret (if String.eqb v SSM_CACHE_MISS_MARKER then None else Some v)
  | None => fetch_parameter d path with_decryption
  end.

Definition memory_key (path : string) (decrypt : bool) : string := path +:+ ":" +:+ bool_text decrypt.

Definition remember (key value : string) : ssm unit :=
  eff_modify (λ s, {| ssm_cache := ssm_cache s; ssm_now := ssm_now s;
    ssm_memory := <[key := (value, (ssm_now s + 1000 * CACHE_TTL_SECONDS)%Z)]> (ssm_memory s) |}).

Definition in_memory (key : string) (s : SsmState L1 L2) : option string :=
  '(v, expires_at) ← ssm_memory s !! key;
  if (ssm_now s <? expires_at)%Z then Some v else None.

Definition get_ssm_parameter_cached (d : SsmDelays) (path : string) (decrypt : bool) : ssm (option string) :=
  cached ← eff_gets (in_memory (memory_key path decrypt));
  match cached with
  | Some v => mret (Some v)
  | None =>
      key ← get_parameter d path decrypt;
      _ ← (match key with Some v => remember (memory_key path decrypt) v | None => mret tt end);
      mret key
  end.

(** *** The key of personal data *)

Definition det_path (env : string) : string :=
  "/leadsnebula/" +:+ normalize_env_for_ssm env +:+ "/carina/encryption/deterministic_key_v1".
Definition salt_path (env : string) : string :=
  "/leadsnebula/" +:+ normalize_env_for_ssm env +:+ "/carina/encryption/key_derivation_salt_v1".

Definition fetch_pii_encryption_key `{Crypto} (d1 d2 : SsmDelays) (environment : string) : ssm (option string) :=
  det_key ← get_ssm_parameter_cached d1 (det_path environment) true;
  match det_key with
  | None => mret None
  | Some det_key =>
      salt ← get_ssm_parameter_cached d2 (salt_path environment) true;
      mret (derive_key_from_secret det_key <$> salt)
  end.

(** [cache_warmup::pre_warm_ssm_keys]: how many keys there are. *)
Definition pre_warm_ssm_keys (d1 d2 : SsmDelays) (environment : string) : ssm nat :=
  det_key ← get_parameter d1 (det_path environment) true;
  salt ← get_parameter d2 (salt_path environment) true;
  mret (length (option_list det_key) + length (option_list salt))%nat.

(** What [create_lead] does for the keys of a new lead: both are looked up; when one is
    missing, and this is not local development, both are asked for again and the missing
    ones looked up once more. *)
Record KeyDelays : Type := { kd_det : SsmDelays; kd_salt : SsmDelays; kd_warm_det : SsmDelays; kd_warm_salt : SsmDelays;
  kd_det_again : SsmDelays; kd_salt_again : SsmDelays }.

Definition again_if_missing (found : option string) (retry : ssm (option string)) : ssm (option string) :=
  match found with Some _ => mret found | None => retry end.

Definition load_lead_keys (d : KeyDelays) (is_local_dev : bool) (environment : string) : ssm (option string * option string) :=
  det_key ← get_ssm_parameter_cached (kd_det d) (det_path environment) true;
  salt ← get_ssm_parameter_cached (kd_salt d) (salt_path environment) true;
  if negb is_local_dev && (bool_decide (det_key = None) || bool_decide (salt = None)) then
    _ ← pre_warm_ssm_keys (kd_warm_det d) (kd_warm_salt d) environment;
    det_key ← again_if_missing det_key (get_ssm_parameter_cached (kd_det_again d) (det_path environment) true);
    salt ← again_if_missing salt (get_ssm_parameter_cached (kd_salt_again d) (salt_path environment) true);
    mret (det_key, salt)
  else mret (det_key, salt).

Definition lead_creation_key `{Crypto} (d : KeyDelays) (is_local_dev : bool) (environment : string) : ssm (option string) :=
  '(det_key, salt) ← load_lead_keys d is_local_dev environment;
  mret (det_key ← det_key; derive_key_from_secret det_key <$> salt).

(** *** Parameters by path *)

(** A page of an answer: names and values, and the token of the next page. *)
Definition SsmPage : Type := Result string (list (option string * option string) * option string).

Definition add_parameters (params : list (option string * option string)) (m : gmap string string) : gmap string string :=
  foldl (λ m p, match p with (Some name, Some value) => <[name := value]> m | _ => m end) m params.

(** Pages that end before the last are a connection that no longer answers. *)
Fixpoint collect_pages (pages : list SsmPage) (m : gmap string string) : Result string (gmap string string) :=
  match pages with
  | [] => Err "Failed to fetch SSM parameters: connection closed"
  | Err e :: _ => Err ("Failed to fetch SSM parameters: " +:+ e)
  | Ok (params, token) :: pages =>
      let m := add_parameters params m in
      match token with None => Ok m | Some _ => collect_pages pages m end
  end.

Definition ssm_path_key (path_prefix : string) : string := ssm_env svc +:+ ":ssm:path:" +:+ path_prefix.

Definition get_parameters_by_path (read : string → option (gmap string string)) (write : gmap string string → Result string string)
    (pages : list SsmPage) (path_prefix : string) : ssm (gmap string string) :=
  cached ← ssm_redis_get (ssm_path_key path_prefix);
  match cached ≫= read with
  | Some parsed => mret parsed
  | None =>
      all_params ← fallible (collect_pages pages ∅);
      _ ← (match write all_params with
           | Ok json => ssm_redis_set (ssm_path_key path_prefix) json 86400
           | Err _ => mret tt
           end);
      mret all_params
  end.
End ssm.

(** [SsmService::build_path]. *)
Definition build_path (svc : SsmService) (component category : string) (key_name : option string) : string :=
  let base := "/leadsnebula/" +:+ ssm_env svc +:+ "/" +:+ component +:+ "/" +:+ category in
  match key_name with Some key => base +:+ "/" +:+ key | None => base end.

(** ** Lemmas *)

Lemma string_app_cancel (s t u : string) : s +:+ u = t +:+ u → s = t.
Proof.
  revert t. induction s as [|a s IH]; intros [|b t] Heq; [done|..|].
  1,2: exfalso; apply (f_equal String.length) in Heq; rewrite !string_length_app in Heq; simpl in Heq; lia.
  rewrite !string_app_cons in Heq. injection Heq as -> Heq. f_equal. by apply IH.
Qed.

Lemma bool_suffix (p p' : string) : p +:+ ":true" ≠ p' +:+ ":false".
Proof.
  change (p' +:+ ":false") with (p' +:+ (":" +:+ "false")). rewrite <-string_app_assoc. intros Heq.
  by apply suffix_inj in Heq.
Qed.

Lemma memory_key_inj p p' b b' : memory_key p b = memory_key p' b' → p = p' ∧ b = b'.
Proof.
  unfold memory_key. intros Heq. assert (b = b') as <-.
  { destruct b, b'; [done| |symmetry in Heq|done]; by apply bool_suffix in Heq. }
  split; [|done]. by apply string_app_cancel in Heq.
Qed.

Lemma ssm_key_inj svc p p' b b' : ssm_key svc p b = ssm_key svc p' b' → p = p' ∧ b = b'.
Proof. unfold ssm_key. intros Heq. do 2 apply string_app_inj_r in Heq. by apply memory_key_inj. Qed.

Section frame.
Context {L1 L2 : Type} `{!TtlStore L1, !TtlStore L2}.
Implicit Types s : SsmState L1 L2.

Lemma redis_outcome_memory e s : ssm_memory (redis_outcome e s).2 = ssm_memory s.
Proof. unfold redis_outcome. by destruct (cs_outcomes (cache_of s)) as [|[o|] os]. Qed.

Lemma redis_outcome_fails e s m : (redis_outcome e s).1 ≠ Err (Panicked m).
Proof. unfold redis_outcome. destruct (cs_outcomes (cache_of s)) as [|[o|] os]; cbn; congruence. Qed.

(** A lookup in Redis finds what is there, or nothing. *)
Lemma ssm_redis_get_spec key s :
  ∃ found s', ssm_redis_get key s = (Ok found, s') ∧ keeps s s' ∧ ssm_memory s' = ssm_memory s ∧
    ∀ v, found = Some v → ∃ redis, cs_redis (cache_of s) = Some redis ∧
      ts_get (ssm_now s) (prefix_key (cache_of s) key) redis = Some v.
Proof.
  unfold ssm_redis_get. rewrite eff_gets_bind. destruct (cs_redis (cache_of s)) as [redis|] eqn:Er.
  2:{ by exists None, s. }
  rewrite eff_bind_eq. unfold catch.
  assert (Hmem : ssm_memory (redis_get redis key s).2 = ssm_memory s ∧ ∀ m, (redis_get redis key s).1 ≠ Err (Panicked m)).
  { unfold redis_get. rewrite eff_bind_eq. pose proof (redis_outcome_memory "" s) as H1.
    pose proof (redis_outcome_fails "" s) as P1. destruct (redis_outcome "" s) as [[[]|e] s1]; [|cbn in *; split; [done|]; intros m [= ->]; by apply (P1 m)].
    rewrite eff_bind_eq. pose proof (redis_outcome_memory "Redis error: " s1) as H2.
    pose proof (redis_outcome_fails "Redis error: " s1) as P2. destruct (redis_outcome "Redis error: " s1) as [[[]|e] s2]; cbn in *; (split; [congruence|]); intros m; [done|]; intros [= ->]; by apply (P2 m). }
  destruct (redis_get redis key s) as [r s'] eqn:Hg. pose proof (redis_get_spec _ _ _ _ _ Hg) as [K Hr].
  destruct Hmem as [Hm Hp]. cbn [fst snd] in *. destruct r as [found|[e|m]]; [| |by destruct (Hp m)].
  - exists found, s'. split_and!; [done..|]. intros v ->. specialize (Hr _ eq_refl). by exists redis.
  - by exists None, s'.
Qed.

(** What a write leaves: Redis as it was, or with the entry. *)
Lemma ssm_redis_set_spec key v ttl_seconds s :
  ∃ s', ssm_redis_set key v ttl_seconds s = (Ok tt, s') ∧
    ssm_now s' = ssm_now s ∧ ssm_memory s' = ssm_memory s ∧
    cs_redis_env (cache_of s') = cs_redis_env (cache_of s) ∧
    (cs_redis (cache_of s') = cs_redis (cache_of s) ∨
     ∃ redis, cs_redis (cache_of s) = Some redis ∧
       cs_redis (cache_of s') = Some (ts_set (ssm_now s) (redis_ttl ttl_seconds) (prefix_key (cache_of s) key) v redis)).
Proof.
  unfold ssm_redis_set. rewrite eff_gets_bind. destruct (cs_redis (cache_of s)) as [redis|] eqn:Er.
  2:{ exists s. split_and!; auto. }
  rewrite eff_bind_eq. unfold catch, redis_set_with_ttl. rewrite eff_bind_eq.
  pose proof (redis_outcome_memory "" s) as M1. pose proof (redis_outcome_keeps "" s) as K1.
  pose proof (redis_outcome_fails "" s) as P1.
  destruct (redis_outcome "" s) as [[[]|[e|m]] s1]; [| |by destruct (P1 m)].
  2:{ destruct K1 as (E1 & _ & E3 & E4). cbn [fst snd] in *. exists s1. split_and!; [done..|left; congruence]. }
  rewrite eff_bind_eq. pose proof (redis_outcome_memory "Redis SET error: " s1) as M2.
  pose proof (redis_outcome_keeps "Redis SET error: " s1) as K2. pose proof (redis_outcome_fails "Redis SET error: " s1) as P2.
  destruct (redis_outcome "Redis SET error: " s1) as [[[]|[e|m]] s2]; [| |by destruct (P2 m)].
  all: pose proof (transitivity K1 K2) as (E1 & _ & E3 & E4); cbn [fst snd] in *.
  2:{ exists s2. split_and!; [done|done|congruence|done|left; congruence]. }
  rewrite eff_gets_bind. unfold on_cache, eff_modify. cbn. eexists. split; [reflexivity|]. cbn [ssm_now ssm_memory cache_of with_cache].
  split_and!; [exact E1|congruence|exact E4|]. right. exists redis. split; [done|]. unfold prefix_key. cbn in E1, E4 |- *. by rewrite E1, E4.
Qed.
End frame.

Section age.
Context {L1 L2 : Type} `{!TtlStore L1, !TtlStore L2, !TtlLaws L2}.
Context (source : Z → string → bool → SsmReply) (svc : SsmService).
Implicit Types s : SsmState L1 L2.

(** At time [t] the store had this value. *)
Definition said (t : Z) (path : string) (b : bool) (v : string) : Prop :=
  ∃ value, source t path b = SsmParameter value ∧ v = default "" value.

(** How long Redis keeps a value, and memory one more than that. *)
Definition redis_life (path : string) : Z := (1000 * ssm_ttl path)%Z.
Definition memory_life (path : string) : Z := (redis_life path + 1000 * CACHE_TTL_SECONDS)%Z.

Definition redis_ok (now : Z) (c : CacheState L1 L2) : Prop := ∀ redis path b v now',
  cs_redis c = Some redis → (now <= now')%Z → ts_get now' (prefix_key c (ssm_key svc path b)) redis = Some v →
  v = SSM_CACHE_MISS_MARKER ∨ ∃ t, said t path b v ∧ (t <= now)%Z ∧ (now' < t + redis_life path)%Z.

(** A value is the variable of the process, or was the store's. *)
Definition value_ok (now until : Z) (path : string) (b : bool) (v : string) : Prop :=
  try_dev_encryption_fallback svc path = Some v ∨ ∃ t, said t path b v ∧ (t <= now)%Z ∧ (until <= t + memory_life path)%Z.

Definition memory_ok s : Prop := ∀ path b v e,
  ssm_memory s !! memory_key path b = Some (v, e) → value_ok (ssm_now s) e path b v.

Definition ssm_fresh s : Prop := redis_ok (ssm_now s) (ssm_cache s) ∧ memory_ok s.

Lemma value_ok_later now now' until path b v : (now <= now')%Z → value_ok now until path b v → value_ok now' until path b v.
Proof. intros Hle [?|(t & ? & ? & ?)]; [by left|]. right. exists t. split_and!; done || lia. Qed.

Lemma redis_life_pos path : (0 < ssm_ttl path)%Z.
Proof. unfold ssm_ttl. by case_match. Qed.

(** Same stores, later. *)
Lemma later_fresh s s' :
  (ssm_now s <= ssm_now s')%Z → cs_redis (cache_of s') = cs_redis (cache_of s) →
  cs_redis_env (cache_of s') = cs_redis_env (cache_of s) → ssm_memory s' = ssm_memory s → ssm_fresh s → ssm_fresh s'.
Proof.
  intros Hnow Hr He Hm [F1 F2]. split.
  - intros redis path b v now' Hs Hle Hg. cbn in *. unfold prefix_key in *. rewrite Hr in Hs. rewrite He in Hg.
    destruct (F1 redis path b v now' Hs) as [?|(t & ? & ? & ?)]; [lia|done|by left|].
    right. exists t. split_and!; done || lia.
  - intros path b v e. rewrite Hm. intros Hv. eapply value_ok_later; [exact Hnow|by eapply F2].
Qed.

(** A write of a key is good when its value is the marker, or the store's of now; a write
    of something else is. *)
Lemma redis_set_fresh key v ttl_seconds s :
  (∀ path b, key = ssm_key svc path b →
     v = SSM_CACHE_MISS_MARKER ∨ said (ssm_now s) path b v ∧ ttl_seconds = ssm_ttl path) →
  ssm_fresh s →
  ∃ s', ssm_redis_set key v ttl_seconds s = (Ok tt, s') ∧ ssm_fresh s' ∧ ssm_now s' = ssm_now s.
Proof.
  intros Hkey Hf. destruct (ssm_redis_set_spec key v ttl_seconds s) as (s' & -> & Hnow & Hm & He & Hr).
  exists s'. split_and!; [done| |done].
  destruct Hr as [Hr|(redis & Hr & Hr')]; [eapply later_fresh, Hf; try done; lia|].
  destruct Hf as [F1 F2]. split.
  - intros redis' path b v' now' Hs Hle Hg. change (ssm_cache s') with (cache_of s') in *.
    rewrite Hr' in Hs. injection Hs as <-. rewrite Hnow in Hle.
    unfold prefix_key in Hg. rewrite He in Hg.
    apply (ts_get_set _ _ _ _ _ _ _ _ Hle) in Hg as [(Ek & -> & Hu)|[_ Hg]].
    + do 2 apply string_app_inj_r in Ek. destruct (Hkey path b (eq_sym Ek)) as [?|[Hsaid ->]]; [by left|].
      right. exists (ssm_now s). pose proof (redis_life_pos path). unfold redis_ttl in Hu.
      rewrite (proj2 (Z.ltb_lt _ _)) in Hu by done. cbn in Hu. unfold redis_life. split_and!; done || lia.
    + destruct (F1 redis path b v' now') as [?|(t & ? & ? & ?)]; [done|lia|done|by left|].
      right. exists t. split_and!; done || lia.
  - intros path b v' e. rewrite Hm, Hnow. apply F2.
Qed.

Lemma request_run path b ms s :
  request source path b ms s =
  (Ok (source (ssm_now (later ms s)) path b), later ms s).
Proof. done. Qed.

Lemma found_parameter_fresh path b value s :
  source (ssm_now s) path b = SsmParameter value → ssm_fresh s →
  ∃ s', found_parameter svc path b value s = (Ok (Some (default "" value)), s') ∧ ssm_fresh s' ∧ ssm_now s' = ssm_now s.
Proof.
  intros Hs Hf. unfold found_parameter.
  destruct (redis_set_fresh (ssm_key svc path b) (default "" value) (ssm_ttl path) s) as (s' & Hrun & ? & ?); [|done|].
  - intros path' b' [<- <-]%ssm_key_inj. right. split; [by exists value|done].
  - exists s'. rewrite eff_bind_eq, Hrun. by split_and!.
Qed.

Lemma missing_parameter_fresh path b s :
  ssm_fresh s →
  ∃ s', missing_parameter svc path b s = (Ok (try_dev_encryption_fallback svc path), s') ∧ ssm_fresh s' ∧ ssm_now s' = ssm_now s.
Proof.
  intros Hf. unfold missing_parameter.
  destruct (redis_set_fresh (ssm_key svc path b) SSM_CACHE_MISS_MARKER SSM_CACHE_MISS_TTL s) as (s' & Hrun & ? & ?); [by left|done|].
  exists s'. rewrite eff_bind_eq, Hrun. by split_and!.
Qed.

(** The result of a fetch is the variable, or what the store has now. *)
Lemma fetch_parameter_fresh d path b s :
  (0 <= first_ms d)%Z → (0 <= second_ms d)%Z → ssm_fresh s →
  ∃ key s', fetch_parameter source svc d path b s = (Ok key, s') ∧ ssm_fresh s' ∧ (ssm_now s <= ssm_now s')%Z ∧
    ∀ v, key = Some v → try_dev_encryption_fallback svc path = Some v ∨ said (ssm_now s') path b v.
Proof.
  intros H1 H2 Hf. unfold fetch_parameter. rewrite eff_bind_eq, request_run.
  assert (Hl : ∀ ms s2, (0 <= ms)%Z → ssm_fresh s2 → ssm_fresh (later ms s2)).
  { intros ms s2 Hms F. eapply later_fresh, F; cbn; done || lia. }
  assert (Hn : ∀ ms s2, ssm_now (later ms s2) = (ssm_now s2 + ms)%Z) by done.
  assert (Hfound : ∀ value s2, ssm_fresh s2 → (ssm_now s <= ssm_now s2)%Z → source (ssm_now s2) path b = SsmParameter value →
    ∃ key s', found_parameter svc path b value s2 = (Ok key, s') ∧ ssm_fresh s' ∧ (ssm_now s <= ssm_now s')%Z ∧
      ∀ v, key = Some v → try_dev_encryption_fallback svc path = Some v ∨ said (ssm_now s') path b v).
  { intros value s2 F2 N2 Hs. destruct (found_parameter_fresh path b value s2 Hs F2) as (s' & Hrun & ? & N').
    eexists _, s'. split_and!; [exact Hrun|done|lia|]. intros v [= <-]. right. rewrite N'. by exists value. }
  assert (Hmissing : ∀ s2, ssm_fresh s2 → (ssm_now s <= ssm_now s2)%Z →
    ∃ key s', missing_parameter svc path b s2 = (Ok key, s') ∧ ssm_fresh s' ∧ (ssm_now s <= ssm_now s')%Z ∧
      ∀ v, key = Some v → try_dev_encryption_fallback svc path = Some v ∨ said (ssm_now s') path b v).
  { intros s2 F2 N2. destruct (missing_parameter_fresh path b s2 F2) as (s' & Hrun & ? & N').
    eexists _, s'. split_and!; [exact Hrun|done|lia|]. intros v Hv. by left. }
  destruct (source (ssm_now (later (first_ms d) s)) path b) as [value| |e|] eqn:Hs1;
    [apply Hfound|apply Hmissing|..]; auto; rewrite ?Hn; try lia.
  all: rewrite eff_bind_eq; unfold pass, eff_modify; rewrite eff_bind_eq, request_run.
  all: destruct (source (ssm_now (later (second_ms d) _)) path b) eqn:Hs2; [apply Hfound|apply Hmissing..]; auto;
    rewrite ?Hn; try lia; repeat apply Hl; done || lia.
Qed.

(** What a lookup may return at [now]: through Redis, and through memory. *)
Definition young (life : string → Z) (now : Z) (path : string) (b : bool) (v : string) : Prop :=
  try_dev_encryption_fallback svc path = Some v ∨
  ∃ t, said t path b v ∧ (t <= now)%Z ∧ (now < t + life path)%Z.

Lemma get_parameter_fresh d path b s :
  (0 <= first_ms d)%Z → (0 <= second_ms d)%Z → ssm_fresh s →
  ∃ key s', get_parameter source svc d path b s = (Ok key, s') ∧ ssm_fresh s' ∧ (ssm_now s <= ssm_now s')%Z ∧
    ∀ v, key = Some v → young redis_life (ssm_now s') path b v.
Proof.
  intros H1 H2 Hf. unfold get_parameter. rewrite eff_bind_eq.
  destruct (ssm_redis_get_spec (ssm_key svc path b) s) as (found & s1 & -> & K & Hm & Hg).
  assert (F1 : ssm_fresh s1) by (destruct K as (E1 & _ & E3 & E4); eapply later_fresh, Hf; cbn in *; done || lia).
  assert (N1 : ssm_now s1 = ssm_now s) by apply K.
  destruct found as [v|].
  - eexists _, s1. split; [reflexivity|]. split_and!; [done|lia|].
    intros v' Hv. destruct (String.eqb_spec v SSM_CACHE_MISS_MARKER) as [|Hne]; [done|]. injection Hv as <-.
    destruct (Hg v eq_refl) as (redis & Hr & Hts). destruct Hf as [Hf _].
    destruct (Hf redis path b v (ssm_now s) Hr) as [?|(t & ? & ? & ?)]; [lia|done|done|].
    right. exists t. rewrite N1. by split_and!.
  - destruct (fetch_parameter_fresh d path b s1) as (key & s' & Hrun & Hf' & Hn' & Hkey); [done..|].
    exists key, s'. split_and!; [done|done|lia|]. intros v Hv. destruct (Hkey v Hv) as [?|Hsaid]; [by left|].
    right. exists (ssm_now s'). pose proof (redis_life_pos path). unfold redis_life. split_and!; done || lia.
Qed.

Lemma get_ssm_parameter_cached_fresh d path b s :
  (0 <= first_ms d)%Z → (0 <= second_ms d)%Z → ssm_fresh s →
  ∃ key s', get_ssm_parameter_cached source svc d path b s = (Ok key, s') ∧ ssm_fresh s' ∧ (ssm_now s <= ssm_now s')%Z ∧
    ∀ v, key = Some v → young memory_life (ssm_now s') path b v.
Proof.
  intros H1 H2 Hf. unfold get_ssm_parameter_cached. rewrite eff_gets_bind. unfold in_memory.
  destruct (ssm_memory s !! memory_key path b) as [[v e]|] eqn:Hmem; cbn [mbind option_bind];
    [destruct (Z.ltb_spec (ssm_now s) e)|].
  { eexists _, s. split; [reflexivity|]. split_and!; [done|lia|]. intros v' [= <-].
    destruct Hf as [_ Hf]. destruct (Hf path b v e Hmem) as [?|(t & ? & ? & ?)]; [by left|].
    right. exists t. split_and!; done || lia. }
  all: rewrite eff_bind_eq; destruct (get_parameter_fresh d path b s H1 H2 Hf) as (key & s1 & -> & [F1 F2] & Hn & Hkey).
  all: destruct key as [v'|]; cbn [remember].
  2,4: by exists None, s1.
  all: rewrite eff_bind_eq; unfold remember, eff_modify.
  all: eexists _, _; split; [reflexivity|]; cbn [ssm_now]; split_and!; [|done|].
  2,4: intros v'' [= <-]; destruct (Hkey v' eq_refl) as [?|(t & ? & ? & ?)]; [by left|];
       right; exists t; unfold memory_life, CACHE_TTL_SECONDS; split_and!; done || lia.
  all: split; [done|]; intros path' b' v'' e' Hl; cbn in Hl; rewrite lookup_insert_Some in Hl;
       destruct Hl as [[Hk [= <- <-]]|[_ Hl]]; [|by apply F2].
  all: apply memory_key_inj in Hk as [<- <-]; destruct (Hkey v' eq_refl) as [?|(t & ? & ? & ?)]; [by left|];
       right; exists t; cbn; unfold memory_life, CACHE_TTL_SECONDS; split_and!; done || lia.
Qed.

(** *** Everything that may happen: lookups of any parameter, other uses of Redis, its
    failures, and time. *)
Inductive ssm_step : SsmState L1 L2 → SsmState L1 L2 → Prop :=
  | ssm_step_get d path b s :
      (0 <= first_ms d)%Z → (0 <= second_ms d)%Z → ssm_step s (get_parameter source svc d path b s).2
  | ssm_step_cached d path b s :
      (0 <= first_ms d)%Z → (0 <= second_ms d)%Z → ssm_step s (get_ssm_parameter_cached source svc d path b s).2
  | ssm_step_other key v ttl_seconds s :
      (∀ path b, key ≠ ssm_key svc path b) → ssm_step s (ssm_redis_set key v ttl_seconds s).2
  | ssm_step_outcomes outcomes s :
      ssm_step s {| ssm_cache := set_cache_outcomes outcomes (ssm_cache s); ssm_now := ssm_now s; ssm_memory := ssm_memory s |}
  | ssm_step_wait ms s : (0 <= ms)%Z → ssm_step s (later ms s).

Lemma ssm_step_fresh s s' : ssm_step s s' → ssm_fresh s → ssm_fresh s'.
Proof.
  intros [d path b s0 ? ?|d path b s0 ? ?|key v ttl s0 Hk|o s0|ms s0 ?] Hf.
  - by destruct (get_parameter_fresh d path b s0) as (key & s1 & -> & ? & _).
  - by destruct (get_ssm_parameter_cached_fresh d path b s0) as (key & s1 & -> & ? & _).
  - destruct (redis_set_fresh key v ttl s0) as (s1 & -> & ? & _); [|done|done]. intros path b ->. by destruct (Hk path b).
  - eapply later_fresh, Hf; cbn; done || lia.
  - eapply later_fresh, Hf; cbn; done || lia.
Qed.

(** A process that has looked nothing up, with a Redis without parameters. *)
Definition ssm_start s : Prop :=
  ssm_memory s = ∅ ∧
  ∀ redis path b now, cs_redis (cache_of s) = Some redis → ts_get now (prefix_key (cache_of s) (ssm_key svc path b)) redis = None.

Lemma ssm_run_fresh s s' : ssm_start s → rtc ssm_step s s' → ssm_fresh s'.
Proof.
  intros [Hm Hr] Hrun. assert (F : ssm_fresh s).
  { split; [|intros path b v e; by rewrite Hm]. intros redis path b v now' Hs _. by rewrite (Hr _ _ _ _ Hs). }
  clear Hm Hr. induction Hrun as [|s1 s2 s3 Hstep _ IH]; [done|]. by eapply IH, ssm_step_fresh.
Qed.

(** C15: A lookup never fails, and a value it finds is a variable of the process or was the
    store's at some earlier time: at most six hours and a day ago, or six hours and a week
    for an encryption key.  So a key that is rotated stays in use for up to that long. *)
Theorem parameter_age (s0 s : SsmState L1 L2) (d : SsmDelays) (path : string) (b : bool)
    (Hstart : ssm_start s0) (Hrun : rtc ssm_step s0 s) (Hfirst : (0 <= first_ms d)%Z) (Hsecond : (0 <= second_ms d)%Z) :
  ∃ key s', get_ssm_parameter_cached source svc d path b s = (Ok key, s') ∧
    ∀ v, key = Some v → try_dev_encryption_fallback svc path = Some v ∨
      ∃ t, said t path b v ∧
        (t <= ssm_now s' < t + 1000 * ((if str_contains "/encryption/" path then 604800 else 86400) + 21600))%Z.
Proof.
  pose proof (ssm_run_fresh _ _ Hstart Hrun) as Hf.
  destruct (get_ssm_parameter_cached_fresh d path b s Hfirst Hsecond Hf) as (key & s' & Hget & _ & _ & Hkey).
  exists key, s'. split; [done|]. intros v Hv. destruct (Hkey v Hv) as [?|(t & ? & ? & Ht)]; [by left|].
  right. exists t. split; [done|]. unfold memory_life, redis_life, ssm_ttl, CACHE_TTL_SECONDS in Ht. lia.
Qed.
End age.

(** ** An outage of the store *)

(** Writing an entry leaves the others. *)
Class TtlKeepsOthers (St : Type) `{TtlStore St} : Prop :=
  ts_get_set_ne now ttl k v now' k' st : k' ≠ k → ts_get now' k' (ts_set now ttl k v st) = ts_get now' k' st.

#[export] Instance ttl_map_keeps_others : TtlKeepsOthers ttl_map.
Proof. intros now ttl k v now' k' m Hk. simpl. by rewrite lookup_insert_ne. Qed.

Section outage.
Context {L1 L2 : Type} `{!TtlStore L1, !TtlStore L2, !TtlKeeps L2, !TtlKeepsOthers L2}.
Context (source : Z → string → bool → SsmReply) (svc : SsmService).
Implicit Types s : SsmState L1 L2.

Definition duration (d : SsmDelays) : Z := (first_ms d + 100 + second_ms d)%Z.
Definition delays_ok (d : SsmDelays) : Prop := (0 <= first_ms d ∧ 0 <= second_ms d)%Z.

(** Redis answers, with [redis]. *)
Definition healthy s (redis : L2) : Prop := cs_outcomes (cache_of s) = [] ∧ cs_redis (cache_of s) = Some redis.

(** Nothing in memory, and a miss in Redis for some time. *)
Definition unavailable (path : string) (until : Z) s : Prop :=
  (∀ v e, ssm_memory s !! memory_key path true = Some (v, e) → (e <= ssm_now s)%Z) ∧
  ∃ redis, healthy s redis ∧ ∀ now, (ssm_now s <= now < until)%Z →
    ts_get now (prefix_key (cache_of s) (ssm_key svc path true)) redis = Some SSM_CACHE_MISS_MARKER.

Lemma healthy_get key s redis :
  healthy s redis → ssm_redis_get key s = (Ok (ts_get (ssm_now s) (prefix_key (cache_of s) key) redis), s).
Proof.
  intros [Ho Hr]. unfold ssm_redis_get. rewrite eff_gets_bind, Hr, eff_bind_eq. unfold catch, redis_get, redis_outcome.
  rewrite eff_bind_eq, Ho. by rewrite eff_bind_eq, Ho.
Qed.

Definition with_entry (key v : string) (ttl_seconds : Z) (redis : L2) s : SsmState L1 L2 :=
  with_cache (set_redis (Some (ts_set (ssm_now s) (redis_ttl ttl_seconds) (prefix_key (cache_of s) key) v redis)) (cache_of s)) s.

Lemma healthy_set key v ttl_seconds s redis :
  healthy s redis → ssm_redis_set key v ttl_seconds s = (Ok tt, with_entry key v ttl_seconds redis s).
Proof.
  intros [Ho Hr]. unfold ssm_redis_set. rewrite eff_gets_bind, Hr, eff_bind_eq.
  unfold catch, redis_set_with_ttl, redis_outcome. rewrite eff_bind_eq, Ho. by rewrite eff_bind_eq, Ho.
Qed.

Lemma unavailable_later path until ms s : (0 <= ms)%Z → unavailable path until s → unavailable path until (later ms s).
Proof.
  intros Hms [Hm (redis & Hh & Hr)]. split; [intros v e He; cbn in *; specialize (Hm v e He); lia|].
  exists redis. split; [done|]. intros now Hnow. apply Hr. cbn in *. lia.
Qed.

Lemma unavailable_with_entry path until key v ttl_seconds redis s :
  healthy s redis → key ≠ ssm_key svc path true → unavailable path until s →
  unavailable path until (with_entry key v ttl_seconds redis s).
Proof.
  intros [Ho Hr] Hk [Hm (redis' & [_ Hr'] & Hget)]. split; [exact Hm|]. assert (redis' = redis) as -> by congruence.
  eexists. split; [split; [exact Ho|reflexivity]|]. intros now Hnow. rewrite ts_get_set_ne; [by apply Hget|].
  unfold prefix_key. cbn. intros Heq. do 2 apply string_app_inj_r in Heq. by apply Hk.
Qed.

(** While it is unavailable, lookups of the parameter find nothing, without asking. *)
Lemma unavailable_get d path until s :
  unavailable path until s → (ssm_now s < until)%Z → get_parameter source svc d path true s = (Ok None, s).
Proof.
  intros [_ (redis & Hh & Hget)] Hnow. unfold get_parameter. rewrite eff_bind_eq, (healthy_get _ _ _ Hh), Hget by lia. done.
Qed.

Lemma unavailable_cached d path until s :
  unavailable path until s → (ssm_now s < until)%Z → get_ssm_parameter_cached source svc d path true s = (Ok None, s).
Proof.
  intros Hu Hnow. unfold get_ssm_parameter_cached. rewrite eff_gets_bind. unfold in_memory.
  destruct (ssm_memory s !! memory_key path true) as [[v e]|] eqn:He; cbn [mbind option_bind].
  - destruct Hu as [Hm Hu']. rewrite (proj2 (Z.ltb_ge _ _)) by (by eapply Hm).
    rewrite eff_bind_eq, (unavailable_get _ _ until); [done|by split|done].
  - by rewrite eff_bind_eq, (unavailable_get _ _ until).
Qed.

(** Lookups of other parameters leave it unavailable. *)
Lemma unavailable_fetch d path until other b s :
  delays_ok d → other ≠ path → unavailable path until s →
  ∃ key s', fetch_parameter source svc d other b s = (Ok key, s') ∧ unavailable path until s' ∧
    (ssm_now s' <= ssm_now s + duration d)%Z.
Proof.
  intros [H1 H2] Hne Hu. unfold fetch_parameter, duration. rewrite eff_bind_eq, request_run.
  assert (Hn : ∀ ms s2, ssm_now (later (L1 := L1) (L2 := L2) ms s2) = (ssm_now s2 + ms)%Z) by done.
  assert (Hset : ∀ A (a : A) v ttl s2, unavailable path until s2 →
    ∃ s', (_ ← ssm_redis_set (ssm_key svc other b) v ttl; mret a) s2 = (Ok a, s') ∧ unavailable path until s' ∧ ssm_now s' = ssm_now s2).
  { intros A a v ttl s2 Hu2. destruct Hu2 as [Hm (redis & Hh & Hget)].
    eexists. rewrite eff_bind_eq, (healthy_set _ _ _ _ _ Hh). split; [reflexivity|]. split; [|done].
    apply unavailable_with_entry; [done| |by split; [|exists redis]]. by intros [? _]%ssm_key_inj. }
  destruct (source _ other b) as [value| |e|]; unfold found_parameter, missing_parameter.
  1,2: edestruct Hset as (s' & -> & ? & Hs'); [by apply unavailable_later|]; eexists _, s'; split_and!; [done..|]; rewrite Hs', ?Hn; lia.
  all: rewrite eff_bind_eq; unfold pass, eff_modify; rewrite eff_bind_eq, request_run; destruct (source _ other b).
  all: edestruct Hset as (s' & -> & ? & Hs'); [by repeat apply unavailable_later|]; eexists _, s'; split_and!; [done..|];
    rewrite Hs', ?Hn; lia.
Qed.

Lemma unavailable_get_other d path until other b s :
  delays_ok d → other ≠ path → unavailable path until s →
  ∃ key s', get_parameter source svc d other b s = (Ok key, s') ∧ unavailable path until s' ∧
    (ssm_now s' <= ssm_now s + duration d)%Z.
Proof.
  intros Hd Hne Hu. unfold get_parameter. pose proof Hu as [_ (redis & Hh & _)]. rewrite eff_bind_eq, (healthy_get _ _ _ Hh).
  destruct (ts_get _ _ redis) as [v|]; [|by apply unavailable_fetch].
  eexists _, s. split; [reflexivity|]. destruct Hd. unfold duration. split; [done|lia].
Qed.

Lemma unavailable_cached_other d path until other s :
  delays_ok d → other ≠ path → unavailable path until s →
  ∃ key s', get_ssm_parameter_cached source svc d other true s = (Ok key, s') ∧ unavailable path until s' ∧
    (ssm_now s' <= ssm_now s + duration d)%Z.
Proof.
  intros Hd Hne Hu. unfold get_ssm_parameter_cached. rewrite eff_gets_bind.
  destruct (in_memory (memory_key other true) s) as [v|].
  { eexists _, s. split; [reflexivity|]. destruct Hd. unfold duration. split; [done|lia]. }
  rewrite eff_bind_eq. destruct (unavailable_get_other d path until other true s) as (key & s1 & -> & Hu1 & Hn); [done..|].
  destruct key as [v|]; [|by eexists _, s1]. rewrite eff_bind_eq. unfold remember, eff_modify.
  eexists _, _. split; [reflexivity|]. split; [|done]. destruct Hu1 as [Hm Hr]. split; [|exact Hr].
  intros v' e'. cbn. rewrite lookup_insert_ne; [apply Hm|]. by intros [? _]%memory_key_inj.
Qed.

(** A fetch that finds nothing makes it unavailable for five minutes. *)
Lemma fetch_unavailable d path s redis :
  delays_ok d → healthy s redis → try_dev_encryption_fallback svc path = None →
  (∀ v e, ssm_memory s !! memory_key path true = Some (v, e) → (e <= ssm_now s)%Z) →
  (∀ t value, (ssm_now s <= t <= ssm_now s + duration d)%Z → source t path true ≠ SsmParameter value) →
  ∃ s', fetch_parameter source svc d path true s = (Ok None, s') ∧ (ssm_now s <= ssm_now s')%Z ∧
    unavailable path (ssm_now s' + 1000 * SSM_CACHE_MISS_TTL) s'.
Proof.
  intros [H1 H2] Hh Hfb Hm Hsrc. unfold duration in Hsrc.
  assert (Hmiss : ∀ ms, (0 <= ms)%Z → ∃ s', missing_parameter svc path true (later ms s) = (Ok None, s') ∧
    (ssm_now s <= ssm_now s')%Z ∧ unavailable path (ssm_now s' + 1000 * SSM_CACHE_MISS_TTL) s').
  { intros ms Hms. unfold missing_parameter. rewrite eff_bind_eq, (healthy_set _ _ _ (later ms s) redis) by done.
    rewrite Hfb. eexists. split; [reflexivity|]. split; [cbn; lia|]. split.
    - intros v e He. cbn in *. specialize (Hm v e He). lia.
    - eexists. split; [split; [apply Hh|reflexivity]|]. intros now Hnow. cbn in *.
      apply ts_get_set_eq; [lia|]. unfold redis_ttl, SSM_CACHE_MISS_TTL in *. cbn. lia. }
  assert (Hn : ∀ ms s2, ssm_now (later (L1 := L1) (L2 := L2) ms s2) = (ssm_now s2 + ms)%Z) by done.
  unfold fetch_parameter. rewrite eff_bind_eq, request_run.
  destruct (source _ path true) as [value| |e|] eqn:Hs1; [exfalso; eapply Hsrc, Hs1; rewrite Hn; lia|by apply Hmiss|..].
  all: rewrite eff_bind_eq; unfold pass, eff_modify; rewrite eff_bind_eq, request_run.
  all: assert (Hl : later (second_ms d) (later 100 (later (first_ms d) s)) = later (first_ms d + 100 + second_ms d) s)
         by (unfold later; cbn; f_equal; lia).
  all: rewrite Hl; destruct (source (ssm_now (later (first_ms d + 100 + second_ms d) s)) path true) as [value| | |] eqn:Hs2; [exfalso; eapply Hsrc, Hs2; rewrite Hn; lia|apply Hmiss; lia..].
Qed.

Lemma det_salt_ne env : salt_path env ≠ det_path env.
Proof. unfold det_path, salt_path. intros Heq. by do 2 apply string_app_inj_r in Heq. Qed.

(** C16: While the store does not answer for the secret of the key, a new lead is stored without
    personal data: the key is missing.  The second attempt of the handler cannot help, even
    if the store answers again by then: the first one has stored the miss for five minutes. *)
Theorem outage_loses_personal_data `{Platform, Crypto} (d : KeyDelays) (is_local_dev : bool) (env : string) (redis : L2)
    (s : SsmState L1 L2)
    (Hdelays : delays_ok (kd_det d) ∧ delays_ok (kd_salt d) ∧ delays_ok (kd_warm_salt d) ∧ delays_ok (kd_salt_again d))
    (Hsum : (duration (kd_salt d) + duration (kd_warm_salt d) < 300000)%Z)
    (Hhealthy : healthy s redis) (Hvariable : try_dev_encryption_fallback svc (det_path env) = None)
    (Hmemory : ∀ v e, ssm_memory s !! memory_key (det_path env) true = Some (v, e) → (e <= ssm_now s)%Z)
    (Hredis : ts_get (ssm_now s) (prefix_key (cache_of s) (ssm_key svc (det_path env) true)) redis = None)
    (Hstore : ∀ t value, (ssm_now s <= t <= ssm_now s + duration (kd_det d))%Z →
       source t (det_path env) true ≠ SsmParameter value) :
  (lead_creation_key source svc d is_local_dev env s).1 = Ok None ∧
  ∀ codec c now column, lc_pii_encryption_key c = None →
    column ∈ [lead_first_name_encrypted; lead_last_name_encrypted; lead_email_encrypted; lead_cell_phone_encrypted;
              lead_street_address_encrypted; lead_city_encrypted; lead_state_encrypted; lead_zip_encrypted;
              lead_ip_address_encrypted] →
    column (new_lead codec c now) = None.
Proof.
  split.
  2:{ intros codec c now column Hkey Hc. rewrite !elem_of_cons, elem_of_nil in Hc.
      repeat (destruct Hc as [->|Hc]; [cbn; rewrite Hkey; unfold encrypt_pii; by repeat case_match|]). done. }
  destruct Hdelays as (Hd1 & Hd2 & Hd3 & Hd4). unfold lead_creation_key, load_lead_keys. rewrite !eff_bind_eq.
  assert (H1 : ∃ s1, get_ssm_parameter_cached source svc (kd_det d) (det_path env) true s = (Ok None, s1) ∧
    unavailable (det_path env) (ssm_now s1 + 300000) s1).
  { unfold get_ssm_parameter_cached. rewrite eff_gets_bind. unfold in_memory.
    replace (ssm_memory s !! memory_key (det_path env) true ≫= _) with (None (A := string)).
    2:{ destruct (ssm_memory s !! memory_key (det_path env) true) as [[v e]|] eqn:He; [|done]. cbn.
        by rewrite (proj2 (Z.ltb_ge _ _)) by (by eapply Hmemory). }
    rewrite eff_bind_eq. unfold get_parameter. rewrite eff_bind_eq, (healthy_get _ _ _ Hhealthy), Hredis.
    destruct (fetch_unavailable (kd_det d) (det_path env) s redis) as (s1 & -> & _ & Hu); [done..|]. by exists s1. }
  destruct H1 as (s1 & -> & Hu1). rewrite eff_bind_eq.
  destruct (unavailable_cached_other (kd_salt d) (det_path env) (ssm_now s1 + 300000) (salt_path env) s1 Hd2 (det_salt_ne env) Hu1)
    as (salt & s2 & -> & Hu2 & Hn2).
  rewrite bool_decide_true by done. cbn [orb]. rewrite andb_true_r. destruct is_local_dev; cbn [negb]; [done|].
  unfold pre_warm_ssm_keys. rewrite !eff_bind_eq. destruct Hd2, Hd3. unfold duration in *.
  rewrite (unavailable_get _ _ _ _ Hu2) by lia. rewrite eff_bind_eq.
  destruct (unavailable_get_other (kd_warm_salt d) (det_path env) (ssm_now s1 + 300000) (salt_path env) true s2)
    as (warm & s3 & -> & Hu3 & Hn3); [done|apply det_salt_ne|done|]. unfold duration in *.
  cbn [mret eff_ret again_if_missing]. rewrite eff_bind_eq, (unavailable_cached _ _ _ _ Hu3) by lia. rewrite eff_bind_eq.
  destruct salt as [salt|]; cbn [again_if_missing]; [done|].
  destruct (unavailable_cached_other (kd_salt_again d) (det_path env) (ssm_now s1 + 300000) (salt_path env) s3) as (salt & s4 & -> & _);
    [done|apply det_salt_ne|done|done].
Qed.
End outage.

(** ** Witnesses *)

(** A store that does not answer for the first twenty seconds. *)
Definition slow_store (t : Z) (path : string) (b : bool) : SsmReply :=
  if (t <? 20000)%Z then SsmTimeout else SsmParameter (Some ("secret of " +:+ path)).

Definition sample_ssm_service : SsmService := {|
  ssm_env := "prod"; dev_deterministic_key := None; dev_key_derivation_salt := None
|}.

Definition sample_ssm_state (now : Z) : SsmState ttl_map ttl_map := {|
  ssm_cache := CacheService_new ∅ (Some ∅) "production"; ssm_now := now; ssm_memory := ∅
|}.

Definition sample_delays : SsmDelays := {| first_ms := 200; second_ms := 200 |}.
Definition sample_key_delays : KeyDelays := {|
  kd_det := sample_delays; kd_salt := sample_delays; kd_warm_det := sample_delays; kd_warm_salt := sample_delays;
  kd_det_again := sample_delays; kd_salt_again := sample_delays |}.

(** After a lookup that found the key, a second one an hour later. *)
Lemma parameter_age_witness :
  let path := det_path "production" in
  let s := later 3600000 (get_ssm_parameter_cached slow_store sample_ssm_service sample_delays path true (sample_ssm_state 30000)).2 in
  ∃ key s', get_ssm_parameter_cached slow_store sample_ssm_service sample_delays path true s = (Ok key, s') ∧
    ∀ v, key = Some v → try_dev_encryption_fallback sample_ssm_service path = Some v ∨
      ∃ t, said slow_store t path true v ∧
        (t <= ssm_now s' < t + 1000 * ((if str_contains "/encryption/" path then 604800 else 86400) + 21600))%Z.
Proof.
  cbn zeta. apply (parameter_age slow_store sample_ssm_service (sample_ssm_state 30000)); [| |cbn; lia..].
  - split; [done|]. intros redis path b now [= <-]. reflexivity.
  - eapply rtc_l; [apply (ssm_step_cached _ _ sample_delays (det_path "production") true); cbn; lia|]. eapply rtc_l; [apply (ssm_step_wait _ _ 3600000); lia|]. done.
Defined.

(** The store fails once more, at the end of the twenty seconds, and then answers. *)
#[local] Existing Instances plain_platform plain_crypto.

Lemma outage_loses_personal_data_witness :
  (lead_creation_key slow_store sample_ssm_service sample_key_delays false "production" (sample_ssm_state 19000)).1 = Ok None.
Proof.
  apply (outage_loses_personal_data slow_store sample_ssm_service sample_key_delays false "production" ∅).
  - unfold delays_ok. cbn. lia.
  - reflexivity.
  - split; reflexivity.
  - reflexivity.
  - intros v e He. cbn in He. by rewrite lookup_empty in He.
  - reflexivity.
  - intros t value Ht Hs. unfold slow_store in Hs. rewrite (proj2 (Z.ltb_lt _ _)) in Hs; [done|].
    unfold duration in Ht. cbn in Ht. lia.
Defined.
