(* ===== verification/Config.v ===== *)
(** * Configuration

    [crates/api/src/main.rs], [load_env_local_tolerant]: the file [.env.local]; and
    [crates/api/src/config.rs]: where each setting comes from (the environment, the
    parameter store, a default), the clean-up of the database URL, the connection to Redis.
    The messages of errors are not modelled, which error it is is. *)

From stdpp Require Import base list strings gmap.
From Stdlib Require Import Ascii String ZArith Lia ZifyBool.
From S2P Require Import Prelude Float64 Platform Json Models Store WriteBehind Cache Encryption.

Open Scope string_scope.
Open Scope list_scope.

(** ** Text *)

Definition dquote : ascii := ascii_of_nat 34.
Definition squote : ascii := ascii_of_nat 39.
Definition newline : ascii := ascii_of_nat 10.
Definition carriage_return : ascii := ascii_of_nat 13.

(** [str::split_once] of a character. *)
Fixpoint split_once (c : ascii) (s : string) : option (string * string) :=
  match s with
  | EmptyString => None
  | String a s' =>
      if Ascii.eqb a c then Some ("", s')
      else '(before, after) ← split_once c s'; Some (String a before, after)
  end.

(** [str::split] of a character: at least one piece. *)
Fixpoint split_char (c : ascii) (s : string) : list string :=
  match s with
  | EmptyString => [""]
  | String a s' =>
      if Ascii.eqb a c then "" :: split_char c s'
      else match split_char c s' with
           | [] => [String a ""]
           | piece :: rest => String a piece :: rest
           end
  end.

(** [str::strip_suffix] of a character. *)
Fixpoint strip_suffix_char (c : ascii) (s : string) : option string :=
  match s with
  | EmptyString => None
  | String a EmptyString => if Ascii.eqb a c then Some "" else None
  | String a s' => String a <$> strip_suffix_char c s'
  end.

(** [str::lines]: a last line needs no line feed; a carriage return goes with one. *)
Fixpoint lines_of (pieces : list string) : list string :=
  match pieces with
  | [] => []
  | [last] => if String.eqb last "" then [] else [last]
  | piece :: rest => default piece (strip_suffix_char carriage_return piece) :: lines_of rest
  end.
Definition str_lines (s : string) : list string := lines_of (split_char newline s).

(** [s.parse::<u32>()]. *)
Definition parse_u32 (s : string) : option Z :=
  let digits := match s with String "+" s' => s' | _ => s end in
  match read_digits 0 0 digits with
  | (z, S _, EmptyString) => if (z <? 2 ^ 32)%Z then Some z else None
  | _ => None
  end.

(** Unicode tables of [char]: the first character is alphabetic or an underscore; every
    character is alphanumeric or an underscore. *)
Class NameChars : Type := {
  name_start : string → bool;
  name_chars : string → bool
}.

Definition ascii_letter (a : ascii) : bool := ascii_between 65 90 a || ascii_between 97 122 a || Ascii.eqb a "_".
Definition ascii_name (a : ascii) : bool := ascii_letter a || ascii_between 48 57 a.

Class NameLaws (N : NameChars) : Prop := {
  name_start_ascii a s : ascii_letter a = true → name_start (String a s) = true;
  name_chars_ascii s : str_forallb ascii_name s = true → name_chars s = true
}.

(** ** The file of the environment *)

Abbreviation Env := (gmap string string).

(** [std::env::set_var]. *)
Definition set_var (key value : string) (env : Env) : Panics Env :=
  if no_char zero value then Ok (<[key := value]> env) else Err "failed to set environment variable".

Definition unquote (q : ascii) (s : string) : option string :=
  rest ← strip_prefix (String q "") s; strip_suffix_char q rest.
Definition unquoted (value : string) : string :=
  default value (match unquote dquote value with Some s => Some s | None => unquote squote value end).

Definition cleaned_value (key value : string) : string :=
  let cleaned := unquoted value in
  if String.eqb key "DATABASE_URL" && starts_with "psql " cleaned then unquoted (drop_bytes 5 cleaned) else cleaned.

Section env_file.
Context `{NameChars}.

Definition valid_key (key : string) : bool := negb (String.eqb key "") && name_start key && name_chars key.

(** The setting of a line, if it has one. *)
Definition read_line (line : string) : option (string * string) :=
  let line := str_trim line in
  if String.eqb line "" || starts_with "#" line then None
  else
    '(key, value) ← split_once "=" line;
    let key := str_trim key in
    if valid_key key then Some (key, cleaned_value key (str_trim value)) else None.

Fixpoint load_lines (lines : list string) (env : Env) (loaded : nat) : Panics (nat * Env) :=
  match lines with
  | [] => Ok (loaded, env)
  | line :: lines =>
      match read_line line with
      | None => load_lines lines env loaded
      | Some (key, value) => env ← set_var key value env; load_lines lines env (S loaded)
      end
  end.

Definition load_env_local_tolerant (contents : string) (env : Env) : Panics (nat * Env) :=
  load_lines (str_lines contents) env 0.
End env_file.

(** ** The settings *)

Record AppConfig : Type := {
  database_url : string;
  redis_url : option string;
  redis_pool_size : Z;
  redis_min_idle : Z;
  jwt_secret : string;
  encryption_key : string;
  sentry_dsn : option string;
  environment : string;
  from_email : string;
  password_reset_base_url : string
}.

Inductive ConfigError : Type :=
  | SsmUnavailable (e : string)
  | DatabaseUrlMissing
  | JwtSecretMissing
  | EncryptionKeyMissing (path : string)
  | BadHex (e : string)
  | BadBase64 (e : string)
  | BadKeyLength (bytes : nat).

Definition not_channel_binding (p : string) : bool :=
  negb (String.eqb (match split_char "=" p with name :: _ => name | [] => "" end) "channel_binding").

Definition sanitize_database_url (url : string) : string :=
  match split_once "?" url with
  | Some (base, query) =>
      match List.filter not_channel_binding (split_char "&" query) with
      | [] => base
      | params => base +:+ "?" +:+ str_join "&" params
      end
  | None => url
  end.

(** What [AppConfig::load] reads: whether [.env.local] is there, the variables, and the
    parameter store, through [SsmService::new] and [get_parameters_by_path]. *)
Record ConfigSources : Type := {
  cfg_env_local : bool;
  cfg_env : Env;
  cfg_ssm : Result string unit;
  cfg_by_path : string → Result string (gmap string string);
  cfg_hex_decode : string → Result string string
}.

Definition first_of {A} (o1 o2 : option A) : option A := match o1 with Some a => Some a | None => o2 end.

Definition environment_of (env : Env) : string := default "development" (first_of (env !! "ENVIRONMENT") (env !! "ENV")).
Definition rust_path (env_normalized name : string) : string := "/leadsnebula/" +:+ env_normalized +:+ "/rust/" +:+ name.

(** With the parameters of [prod] over them, in [dev]. *)
Definition extended (env_normalized : string) (params : gmap string string) (prod : Result string (gmap string string))
    : Result string (gmap string string) :=
  if String.eqb env_normalized "dev" then prod_params ← prod; Ok (prod_params ∪ params) else Ok params.

Definition load_params (src : ConfigSources) (env_normalized : string) : Result ConfigError (gmap string string) :=
  let by_path := cfg_by_path src (rust_path env_normalized "") in
  let prod := cfg_by_path src "/leadsnebula/prod/rust/" in
  if cfg_env_local src then
    let has name := bool_decide (is_Some (cfg_env src !! name)) in
    if has "DATABASE_URL" && has "JWT_SECRET" && has "ENCRYPTION_KEY" then Ok ∅
    else
      match cfg_ssm src, by_path with
      | Ok _, Ok params => Ok (result_or params (extended env_normalized params prod))
      | _, _ => Ok ∅
      end
  else map_err SsmUnavailable (_ ← cfg_ssm src; params ← by_path; extended env_normalized params prod).

(** The variable first in local development, the parameter first elsewhere. *)
Definition either_source (src : ConfigSources) (variable : string) (parameter : option string) : option string :=
  if cfg_env_local src then first_of (cfg_env src !! variable) parameter else first_of parameter (cfg_env src !! variable).

Definition jwt_parameter (env_normalized : string) (params : gmap string string) : option string :=
  let p name := params !! rust_path env_normalized name in
  let prod name := params !! rust_path "prod" name in
  first_of (p "auth/jwt_secret") (first_of (p "jwt/secret_key") (first_of (p "jwt_secret")
    (if String.eqb env_normalized "dev"
     then first_of (prod "jwt/secret_key") (first_of (prod "auth/jwt_secret") (prod "jwt_secret")) else None))).

Definition resolved_redis_url (src : ConfigSources) (params : gmap string string) : option string :=
  let parameter := params !! rust_path "prod" "redis/connection_url" in
  if bool_decide (is_Some (cfg_env src !! "SKIP_REDIS")) then None
  else if cfg_env_local src then first_of (cfg_env src !! "REDIS_URL") parameter else parameter.

Definition encryption_key_path (env_normalized : string) : string := rust_path env_normalized "encryption/api_key_key".

(** Never the variable in a deployment. *)
Definition encryption_key_text (src : ConfigSources) (env_normalized : string) (params : gmap string string) : option string :=
  let parameter := params !! encryption_key_path env_normalized in
  if cfg_env_local src then first_of (cfg_env src !! "ENCRYPTION_KEY") parameter else parameter.

Definition is_hex_digit (a : ascii) : bool := ascii_between 48 57 a || ascii_between 65 70 a || ascii_between 97 102 a.

Definition parsed (src : ConfigSources) (params : gmap string string) (env_normalized name variable : string) (default_value : Z) : Z :=
  default default_value (first_of (params !! rust_path env_normalized name ≫= parse_u32) (cfg_env src !! variable ≫= parse_u32)).

Section config.
Context `{Crypto}.

Definition decode_key (src : ConfigSources) (text : string) : Result ConfigError string :=
  key ← (if (String.length text =? 64)%nat && str_forallb is_hex_digit text
         then map_err BadHex (cfg_hex_decode src text) else map_err BadBase64 (base64_decode text));
  if negb (String.length key =? 32)%nat then Err (BadKeyLength (String.length key)) else Ok key.

Definition config_load (src : ConfigSources) : Result ConfigError AppConfig :=
  let environment := environment_of (cfg_env src) in
  let env_normalized := normalize_env_for_ssm environment in
  params ← load_params src env_normalized;
  let parameter name := params !! rust_path env_normalized name in
  url ← ok_or DatabaseUrlMissing (either_source src "DATABASE_URL" (parameter "db/connection_url"));
  secret ← ok_or JwtSecretMissing (either_source src "JWT_SECRET" (jwt_parameter env_normalized params));
  key_text ← ok_or (EncryptionKeyMissing (encryption_key_path env_normalized)) (encryption_key_text src env_normalized params);
  key ← decode_key src key_text;
  Ok {| database_url := sanitize_database_url url; redis_url := resolved_redis_url src params;
        redis_pool_size := parsed src params env_normalized "redis/pool_size" "REDIS_POOL_SIZE" 25;
        redis_min_idle := parsed src params env_normalized "redis/min_idle" "REDIS_MIN_IDLE" 5;
        jwt_secret := secret; encryption_key := key;
        sentry_dsn := first_of (parameter "monitoring/sentry_dsn") (cfg_env src !! "SENTRY_DSN");
        environment := environment;
        from_email := default "noreply@leadsnebula.com" (first_of (parameter "email/from_address") (cfg_env src !! "FROM_EMAIL"));
        password_reset_base_url :=
          default (if String.eqb env_normalized "dev" then "http://localhost:3000" else "https://dashboard.leadsnebula.com")
            (first_of (parameter "email/password_reset_base_url") (cfg_env src !! "PASSWORD_RESET_BASE_URL")) |}.
End config.

(** ** The connection to Redis *)

(** An attempt to connect: the client and its answer to a ping, an error, or nothing in
    time. *)
Inductive RedisAttempt : Type :=
  | Connected (ping : Result string unit)
  | ConnectionFailed (e : string)
  | ConnectionTimedOut.

Definition is_local_dev (environment : string) (env : Env) : bool :=
  String.eqb environment "development" || String.eqb environment "dev" ||
  String.eqb (default "" (env !! "ENVIRONMENT")) "development".

(** Whether there is a client; the second attempt is made two seconds later. *)
Definition init_redis (environment : string) (env : Env) (first second : RedisAttempt) : Result string bool :=
  let usable attempt := match attempt with Connected (Ok _) => true | _ => false end in
  match first with
  | Connected ping => Ok (is_ok ping)
  | ConnectionFailed _ | ConnectionTimedOut => if is_local_dev environment env then Ok false else Ok (usable second)
  end.

(** ** Lemmas on text *)

Lemma no_char_app c s t : no_char c (s +:+ t) = no_char c s && no_char c t.
Proof.
  unfold no_char. induction s as [|a s IH]; [done|]. rewrite string_app_cons. cbn. by rewrite IH, andb_assoc.
Qed.

Lemma split_once_app c s t : no_char c s = true → split_once c (s +:+ String c t) = Some (s, t).
Proof.
  induction s as [|a s IH]; intros Hs.
  - change ("" +:+ String c t) with (String c t). cbn. by rewrite Ascii.eqb_refl.
  - cbn in Hs. apply andb_true_iff in Hs as [Ha Hs]. rewrite string_app_cons. cbn.
    apply negb_true_iff in Ha. rewrite Ha. by rewrite (IH Hs).
Qed.

Lemma split_once_none c s : no_char c s = true → split_once c s = None.
Proof.
  induction s as [|a s IH]; [done|]. cbn. intros [Ha Hs]%andb_true_iff. apply negb_true_iff in Ha. by rewrite Ha, IH.
Qed.

Lemma split_once_some c s before after :
  split_once c s = Some (before, after) → no_char c before = true ∧ s = before +:+ String c after.
Proof.
  revert before. induction s as [|a s IH]; [done|]. intros before. cbn.
  destruct (Ascii.eqb_spec a c) as [->|Ha]; [by intros [= <- <-]|].
  destruct (split_once c s) as [[b t]|]; [|done]. cbn. intros [= <- <-]. destruct (IH b eq_refl) as [Hb ->].
  split; [|by rewrite string_app_cons]. cbn. fold (no_char c b). rewrite Hb, andb_true_r. apply negb_true_iff.
  by apply Ascii.eqb_neq.
Qed.

Lemma split_char_no_char c s : no_char c s = true → split_char c s = [s].
Proof.
  induction s as [|a s IH]; [done|]. cbn. intros [Ha Hs]%andb_true_iff. apply negb_true_iff in Ha. by rewrite Ha, IH.
Qed.

Lemma split_char_app c s t : no_char c s = true → split_char c (s +:+ String c t) = s :: split_char c t.
Proof.
  induction s as [|a s IH]; intros Hs.
  - change ("" +:+ String c t) with (String c t). cbn. by rewrite Ascii.eqb_refl.
  - cbn in Hs. apply andb_true_iff in Hs as [Ha Hs]. rewrite string_app_cons. cbn.
    apply negb_true_iff in Ha. by rewrite Ha, (IH Hs).
Qed.

Lemma split_char_pieces c s : Forall (λ p, no_char c p = true) (split_char c s) ∧ split_char c s ≠ [].
Proof.
  induction s as [|a s [IH Hne]]; cbn; [by repeat constructor|].
  destruct (Ascii.eqb a c) eqn:Ha; [by repeat constructor|].
  destruct (split_char c s) as [|p rest]; [done|]. apply Forall_cons in IH as [Hp Hrest]. split; [|done].
  constructor; [|done]. cbn. by rewrite Ha.
Qed.

(** Pieces joined with the separator are split again. *)
Lemma split_char_join c l :
  Forall (λ p, no_char c p = true) l → l ≠ [] → split_char c (str_join (String c "") l) = l.
Proof.
  induction 1 as [|p l Hp Hl IH]; [done|]. intros _. destruct l as [|q l].
  - cbn. by apply split_char_no_char.
  - change (str_join (String c "") (p :: q :: l)) with (p +:+ String c (str_join (String c "") (q :: l))).
    by rewrite split_char_app, IH.
Qed.

(** What [sanitize_database_url] does to a base and a list of parameters. *)
Lemma sanitize_join base params :
  no_char "?" base = true → Forall (λ p, no_char "&" p = true) params → params ≠ [] →
  sanitize_database_url (base +:+ "?" +:+ str_join "&" params) =
  match List.filter not_channel_binding params with [] => base | kept => base +:+ "?" +:+ str_join "&" kept end.
Proof.
  intros Hb Hp Hne. unfold sanitize_database_url. change (base +:+ "?" +:+ ?x) with (base +:+ String "?" x).
  by rewrite split_once_app, split_char_join.
Qed.

(** The parameters of the URL but [channel_binding] are kept, in order, and nothing else is
    changed; to clean twice is to clean once. *)
Theorem sanitize_database_url_spec (url base : string) (params : list string)
    (Hbase : no_char "?" base = true) (Hparams : Forall (λ p, no_char "&" p = true) params) (Hne : params ≠ []) :
  sanitize_database_url base = base ∧
  sanitize_database_url (base +:+ "?" +:+ str_join "&" params) =
    (match List.filter not_channel_binding params with [] => base | kept => base +:+ "?" +:+ str_join "&" kept end) ∧
  sanitize_database_url (sanitize_database_url url) = sanitize_database_url url.
Proof.
  assert (Hnone : ∀ b, no_char "?" b = true → sanitize_database_url b = b).
  { intros b Hb. unfold sanitize_database_url. by rewrite split_once_none. }
  split_and!; [by apply Hnone|by apply sanitize_join|].
  destruct (split_once "?" url) as [[b query]|] eqn:Hs.
  2:{ assert (E : sanitize_database_url url = url) by (unfold sanitize_database_url; by rewrite Hs). by rewrite !E. }
  destruct (split_once_some _ _ _ _ Hs) as [Hb _]. destruct (split_char_pieces "&" query) as [Hq _].
  assert (E : sanitize_database_url url = match List.filter not_channel_binding (split_char "&" query) with
    [] => b | kept => b +:+ "?" +:+ str_join "&" kept end) by (unfold sanitize_database_url; by rewrite Hs).
  rewrite E. apply (Forall_filter_bool _ not_channel_binding) in Hq.
  pose proof (filter_idemp not_channel_binding (split_char "&" query)) as Hi.
  destruct (List.filter not_channel_binding (split_char "&" query)) as [|k ks]; [by apply Hnone|].
  rewrite sanitize_join by done. by rewrite Hi.
Qed.

Lemma sanitize_database_url_spec_witness :
  sanitize_database_url "postgres://u@h/db?channel_binding=require&sslmode=require" = "postgres://u@h/db?sslmode=require".
Proof.
  destruct (sanitize_database_url_spec "" "postgres://u@h/db" ["channel_binding=require"; "sslmode=require"]) as (_ & H & _);
    [reflexivity|by repeat constructor|done|exact H].
Defined.

(** ** The file reads back *)

(** A byte that [trim] leaves, whatever is around it. *)
Definition solid (a : ascii) : bool := is_ascii a && negb (is_space a).

Lemma solid_not_space a b c : solid a = true →
  is_space a = false ∧ is_space2 a b = false ∧ is_space2 b a = false ∧
  is_space3 a b c = false ∧ is_space3 b a c = false ∧ is_space3 b c a = false.
Proof.
  unfold solid, is_ascii, is_space, is_space2, is_space3, ascii_between. intros H.
  repeat match goal with |- context [nat_of_ascii ?x] => let n := fresh "n" in remember (nat_of_ascii x) as n end.
  split_and!; lia.
Qed.

Lemma trim_start_solid a s : solid a = true → trim_start (String a s) = String a s.
Proof.
  intros Ha. destruct (solid_not_space a "000" "000" Ha) as (H1 & _). cbn. rewrite H1.
  destruct s as [|b [|c s]]; [done|..].
  - by destruct (solid_not_space a b "000" Ha) as (_ & -> & _).
  - destruct (solid_not_space a b c Ha) as (_ & -> & _ & -> & _). done.
Qed.

Lemma trim_start_eq a s1 : trim_start (String a s1) =
  if is_space a then trim_start s1 else
  match s1 with
  | String b s2 =>
      if is_space2 a b then trim_start s2 else
      match s2 with
      | String c s3 => if is_space3 a b c then trim_start s3 else String a s1
      | EmptyString => String a s1
      end
  | EmptyString => String a s1
  end.
Proof. reflexivity. Qed.

Lemma trim_start_ends_solid b : solid b = true → ∀ n s, (String.length s <= n)%nat → trim_start (s +:+ String b "") ≠ "".
Proof.
  intros Hb. induction n as [|n IH]; intros [|a s] Hn; cbn [String.length] in Hn; try lia.
  1,2: change ("" +:+ String b "") with (String b ""); by rewrite trim_start_solid.
  rewrite string_app_cons, trim_start_eq. destruct s as [|a1 s].
  - change ("" +:+ String b "") with (String b ""). destruct (is_space a).
    + by rewrite trim_start_solid.
    + by destruct (solid_not_space b a "000" Hb) as (_ & _ & -> & _).
  - destruct (is_space a); [apply IH; cbn [String.length] in *; lia|]. rewrite string_app_cons.
    destruct (is_space2 a a1); [apply IH; cbn [String.length] in *; lia|].
    destruct s as [|a2 s].
    + change ("" +:+ String b "") with (String b ""). by destruct (solid_not_space b a a1 Hb) as (_ & _ & _ & _ & _ & ->).
    + rewrite string_app_cons. destruct (is_space3 a a1 a2); [apply IH; cbn [String.length] in *; lia|done].
Qed.

Lemma trim_end_ends_solid s b : solid b = true → trim_end (s +:+ String b "") = s +:+ String b "".
Proof.
  intros Hb. induction s as [|a s IH].
  - change ("" +:+ String b "") with (String b ""). cbn [trim_end]. by rewrite trim_start_solid.
  - pose proof (trim_start_ends_solid b Hb _ (String a s) (le_n _)) as Hne. rewrite string_app_cons in *.
    cbn [trim_end]. destruct (String.eqb_spec (trim_start (String a (s +:+ String b ""))) ""); [done|]. by rewrite IH.
Qed.

Lemma str_trim_solid a s b : solid a = true → solid b = true →
  str_trim (String a (s +:+ String b "")) = String a (s +:+ String b "").
Proof. intros Ha Hb. unfold str_trim. rewrite trim_start_solid, <-string_app_cons by done. by apply trim_end_ends_solid. Qed.

Lemma trim_end_solid s : str_forallb solid s = true → trim_end s = s.
Proof.
  induction s as [|a s IH]; [done|]. intros H. pose proof H as [Ha Hs]%andb_true_iff.
  cbn [trim_end]. rewrite trim_start_solid by done. cbn. by rewrite IH.
Qed.

Lemma str_trim_all_solid s : str_forallb solid s = true → str_trim s = s.
Proof.
  destruct s as [|a s]; [done|]. intros H. pose proof H as [Ha _]%andb_true_iff.
  unfold str_trim. rewrite trim_start_solid by done. by apply trim_end_solid.
Qed.

Lemma strip_suffix_char_app c s : strip_suffix_char c (s +:+ String c "") = Some s.
Proof.
  induction s as [|a s IH]; [change ("" +:+ String c "") with (String c ""); cbn; by rewrite Ascii.eqb_refl|].
  rewrite string_app_cons.
  change (strip_suffix_char c (String a (s +:+ String c "")))
    with (match s +:+ String c "" with
          | "" => if Ascii.eqb a c then Some "" else None
          | _ => String a <$> strip_suffix_char c (s +:+ String c "") end).
  rewrite IH. by destruct s.
Qed.

Lemma strip_suffix_char_other c b s : Ascii.eqb b c = false → strip_suffix_char c (s +:+ String b "") = None.
Proof.
  intros Hb. induction s as [|a s IH]; [change ("" +:+ String b "") with (String b ""); cbn; by rewrite Hb|].
  rewrite string_app_cons.
  change (strip_suffix_char c (String a (s +:+ String b "")))
    with (match s +:+ String b "" with
          | "" => if Ascii.eqb a c then Some "" else None
          | _ => String a <$> strip_suffix_char c (s +:+ String b "") end).
  rewrite IH. by destruct s.
Qed.

Section roundtrip.
Context `{N : NameChars, L : !NameLaws N}.

(** A setting as it is written: the value between double quotes. *)
Definition quoted (value : string) : string := String dquote (value +:+ String dquote "").
Definition env_line (setting : string * string) : string := setting.1 +:+ "=" +:+ quoted setting.2.
Definition env_file (settings : list (string * string)) : string :=
  foldr (λ setting rest, env_line setting +:+ String newline rest) "" settings.

(** An identifier, and a value of one line; a database URL is not the command of a client. *)
Definition plain_setting (setting : string * string) : Prop :=
  (∃ a s, setting.1 = String a s ∧ ascii_letter a = true) ∧ str_forallb ascii_name setting.1 = true ∧
  no_char newline setting.2 = true ∧ no_char zero setting.2 = true ∧
  (setting.1 = "DATABASE_URL" → starts_with "psql " setting.2 = false).

Lemma ascii_name_solid a : ascii_name a = true → solid a = true ∧ a ≠ "="%char ∧ a ≠ "#"%char ∧ a ≠ newline.
Proof.
  unfold ascii_name, ascii_letter, solid, is_ascii, is_space, ascii_between. intros Hn.
  assert (Hu : Ascii.eqb a "_" = (nat_of_ascii a =? 95)%nat).
  { destruct (Ascii.eqb_spec a "_") as [Heq|Hne]; [by rewrite Heq|]. symmetry. apply Nat.eqb_neq. intros E.
    apply (f_equal ascii_of_nat) in E. rewrite ascii_nat_embedding in E. by apply Hne. }
  rewrite Hu in Hn. split; [lia|]. split_and!; intros ->; cbn in Hn; done.
Qed.

Lemma name_no_char c s : (∀ a, ascii_name a = true → a ≠ c) → str_forallb ascii_name s = true → no_char c s = true.
Proof.
  intros Hc. apply str_forallb_impl. intros a Ha. apply negb_true_iff, Ascii.eqb_neq. by apply Hc.
Qed.

Lemma read_env_line setting : plain_setting setting → read_line (env_line setting) = Some setting.
Proof.
  destruct setting as [key value]. intros ((a & s & Hkey & Ha) & Hname & _ & _ & Hdb). cbn [fst snd] in *.
  assert (Hsolid : str_forallb solid key = true) by (eapply str_forallb_impl, Hname; intros b Hb; by apply ascii_name_solid).
  assert (Hfirst : solid a = true) by (subst key; by apply andb_true_iff in Hsolid as [? _]).
  assert (Hline : env_line (key, value) = String a ((s +:+ "=" +:+ String dquote value) +:+ String dquote "")).
  { unfold env_line, quoted. cbn [fst snd]. rewrite Hkey, !string_app_cons, string_app_assoc.
    by change ("=" +:+ ?x) with (String "=" x); rewrite !string_app_cons. }
  unfold read_line. rewrite Hline, str_trim_solid, <-Hline by done.
  assert (Heq : split_once "=" (env_line (key, value)) = Some (key, quoted value)).
  { apply split_once_app. eapply name_no_char, Hname. intros b Hb. by apply ascii_name_solid. }
  rewrite Heq. rewrite Hline at 1. cbn [String.eqb]. replace (starts_with "#" (env_line (key, value))) with false.
  2:{ rewrite Hline. unfold starts_with. cbn -[ascii_dec]. destruct (ascii_name_solid a) as (_ & _ & Hne & _); [by subst key; apply andb_true_iff in Hname as [? _]|].
      destruct (ascii_dec "#" a) as [Hsharp|Hsharp]; [by rewrite Hsharp in Hne|done]. }
  cbn [orb mbind option_bind]. rewrite (str_trim_all_solid key Hsolid).
  assert (Hvalid : valid_key key = true).
  { unfold valid_key. rewrite Hkey at 1 2. cbn [String.eqb negb]. by rewrite name_start_ascii, name_chars_ascii. }
  rewrite Hvalid. do 2 f_equal. unfold quoted. rewrite str_trim_solid by done.
  assert (Hu : unquoted (String dquote (value +:+ String dquote "")) = value).
  { unfold unquoted, unquote. cbn [strip_prefix]. rewrite decide_True by done. cbn. by rewrite strip_suffix_char_app. }
  unfold cleaned_value. rewrite Hu. destruct (String.eqb_spec key "DATABASE_URL") as [Hd|]; [|done]. cbn. by rewrite Hdb.
Qed.

Lemma env_line_no_newline setting : plain_setting setting → no_char newline (env_line setting) = true.
Proof.
  intros (_ & Hname & Hnl & _). unfold env_line, quoted. rewrite !no_char_app.
  rewrite (name_no_char newline) by (done || intros a Ha; by apply ascii_name_solid).
  change (no_char newline (String dquote ?x)) with (no_char newline x). by rewrite no_char_app, Hnl.
Qed.

Lemma str_lines_env_file settings : Forall plain_setting settings → str_lines (env_file settings) = env_line <$> settings.
Proof.
  unfold str_lines. induction 1 as [|setting settings Hs _ IH]; [done|].
  cbn [env_file foldr]. fold (env_file settings). rewrite split_char_app by by apply env_line_no_newline.
  destruct (split_char newline (env_file settings)) as [|p rest] eqn:Hp; [by destruct (split_char_pieces newline (env_file settings)) as [_ ?]|].
  cbn [lines_of fmap list_fmap]. change (lines_of (p :: rest)) with (lines_of (p :: rest)). rewrite <-IH. f_equal.
  unfold env_line, quoted. replace (setting.1 +:+ "=" +:+ String dquote (setting.2 +:+ String dquote ""))
    with ((setting.1 +:+ "=" +:+ String dquote setting.2) +:+ String dquote "").
  2:{ rewrite !string_app_assoc. by rewrite string_app_cons. }
  by rewrite strip_suffix_char_other.
Qed.

(** A file of settings reads back: each is set, the last one of a name remains, and the
    count is theirs. *)
Theorem env_file_reads_back (settings : list (string * string)) (env : Env) (Hplain : Forall plain_setting settings) :
  load_env_local_tolerant (env_file settings) env =
  Ok (List.length settings, foldl (λ env setting, <[setting.1 := setting.2]> env) env settings).
Proof.
  unfold load_env_local_tolerant. rewrite (str_lines_env_file _ Hplain).
  assert (H : ∀ n, load_lines (env_line <$> settings) env n =
    Ok ((n + List.length settings)%nat, foldl (λ env setting, <[setting.1 := setting.2]> env) env settings)); [|apply H].
  revert env. induction Hplain as [|[key value] settings Hs _ IH]; intros env n; cbn [fmap list_fmap load_lines List.length].
  { by rewrite Nat.add_0_r. }
  rewrite (read_env_line _ Hs). destruct Hs as (_ & _ & _ & Hz & _). unfold set_var. cbn [snd] in Hz. rewrite Hz.
  cbn [mbind Result_bind]. rewrite IH. cbn. by rewrite Nat.add_succ_r.
Qed.
End roundtrip.

(** The tables on ASCII. *)
Definition ascii_names : NameChars :=
  {| name_start s := match s with String a _ => ascii_letter a | "" => false end; name_chars := str_forallb ascii_name |}.
Lemma ascii_name_laws : NameLaws ascii_names.
Proof. by constructor. Qed.

Lemma env_file_reads_back_witness :
  let settings := [("PORT", "8080"); ("DATABASE_URL", "postgres://u:p@h/d?x=1 # 'y'")] in
  @load_env_local_tolerant ascii_names (env_file settings) {["PORT" := "1"]} = Ok (2, <["DATABASE_URL" := "postgres://u:p@h/d?x=1 # 'y'"]> {["PORT" := "8080"]}).
Proof.
  cbv zeta. rewrite (@env_file_reads_back _ ascii_name_laws).
  - vm_compute. reflexivity.
  - repeat constructor; cbn [fst snd]; try reflexivity; try done; eexists _, _; split; reflexivity.
Defined.

(** ** The key of a deployment *)

Section keys.
Context `{Crypto}.

Lemma config_load_key src c : config_load src = Ok c →
  ∃ params text, let n := normalize_env_for_ssm (environment_of (cfg_env src)) in
    load_params src n = Ok params ∧ encryption_key_text src n params = Some text ∧
    decode_key src text = Ok (encryption_key c) ∧ environment c = environment_of (cfg_env src) ∧
    redis_url c = resolved_redis_url src params ∧
    either_source src "JWT_SECRET" (jwt_parameter n params) = Some (jwt_secret c).
Proof.
  unfold config_load. cbv zeta. generalize (normalize_env_for_ssm (environment_of (cfg_env src))) as n. intros n Hload.
  destruct (load_params src n) as [params|]; cbn in Hload; [|done].
  destruct (either_source src "DATABASE_URL" _); cbn in Hload; [|done].
  destruct (either_source src "JWT_SECRET" _) eqn:Hjwt; cbn in Hload; [|done].
  destruct (encryption_key_text src n params) as [text|] eqn:Ht; cbn in Hload; [|done].
  destruct (decode_key src text) as [key|] eqn:Hk; cbn in Hload; [|done].
  injection Hload as <-. by exists params, text.
Qed.

Lemma decode_key_length src text key : decode_key src text = Ok key → String.length key = 32%nat.
Proof.
  unfold decode_key. intros Hk. match type of Hk with (?k ≫= _) = _ => destruct k as [k'|] end; cbn in Hk; [|done].
  destruct (Nat.eqb_spec (String.length k') 32); cbn in Hk; [by injection Hk as <-|done].
Qed.

(** C21: A loaded configuration has a key the encryption service accepts. In a deployment it is
    the one of the store's parameter of the environment's own path, whatever the variables
    are and, in [dev], whatever production's parameters are. *)
Theorem loaded_key_usable (src : ConfigSources) (c : AppConfig)
    (Hpaths : ∀ path params name value, cfg_by_path src path = Ok params → params !! name = Some value → starts_with path name = true)
    (Hload : config_load src = Ok c) :
  EncryptionService_new (encryption_key c) = Ok {| cipher_key := encryption_key c |} ∧
  (cfg_env_local src = false →
   ∃ params text, let n := normalize_env_for_ssm (environment_of (cfg_env src)) in
     cfg_by_path src (rust_path n "") = Ok params ∧ params !! encryption_key_path n = Some text ∧
     decode_key src text = Ok (encryption_key c)).
Proof.
  destruct (config_load_key src c Hload) as (params & text & Hparams & Htext & Hkey & _). split.
  { unfold EncryptionService_new. by rewrite (decode_key_length _ _ _ Hkey). }
  intros Hdeployed. revert Hparams Htext. unfold load_params, encryption_key_text. rewrite Hdeployed.
  generalize (normalize_env_for_ssm (environment_of (cfg_env src))) as n. intros n.
  destruct (cfg_ssm src); cbn; [|done]. destruct (cfg_by_path src (rust_path n "")) as [own|] eqn:Hown; cbn; [|done].
  unfold extended. destruct (String.eqb_spec n "dev") as [Hn|_]; cbn; [|intros [= <-] Htext; by exists own, text].
  destruct (cfg_by_path src "/leadsnebula/prod/rust/") as [prod|] eqn:Hprod; cbn; [|done]. intros [= <-] Htext.
  exists own, text. split_and!; [done| |done]. apply lookup_union_Some_raw in Htext as [Hp|[_ Htext]]; [|done].
  apply (Hpaths _ _ _ _ Hprod) in Hp. by rewrite Hn in Hp.
Qed.
End keys.

(** ** The start *)

(** What the services answer when the program starts; [None] is a database that did not
    answer in time. *)
Record StartReplies : Type := {
  start_database : option (Result string unit);
  start_redis : RedisAttempt;
  start_redis_again : RedisAttempt;
  start_ssm : Result string unit;
  start_ssm_again : Result string unit;
  start_email : Result string unit
}.

Inductive StartError : Type :=
  | BadConfig (e : ConfigError)
  | DatabaseFailed (e : string)
  | DatabaseTimedOut
  | SsmFailed (e : string)
  | EmailFailed (e : string).

(** The state of the application, but for its services: the configuration, and whether there
    is Redis and, with it, a cache. *)
Record AppState : Type := { app_config : AppConfig; app_redis : bool; app_cache : bool }.

Section start.
Context `{Crypto}.

Definition app_state_new (src : ConfigSources) (r : StartReplies) : Result StartError AppState :=
  config ← map_err BadConfig (config_load src);
  let redis_result :=
    (λ _, init_redis (environment config) (cfg_env src) (start_redis r) (start_redis_again r)) <$> redis_url config in
  _ ← match start_database r with
      | Some (Ok _) => Ok tt
      | Some (Err e) => Err (DatabaseFailed e)
      | None => Err DatabaseTimedOut
      end;
  let redis := match redis_result with Some (Ok client) => client | _ => false end in
  _ ← match start_ssm r with
      | Ok _ => Ok tt
      | Err e => if cfg_env_local src then map_err SsmFailed (start_ssm_again r) else Err (SsmFailed e)
      end;
  _ ← map_err EmailFailed (start_email r);
  Ok {| app_config := config; app_redis := redis; app_cache := redis |}.

(** An attempt after which there is a client. *)
Definition answers (attempt : RedisAttempt) : Prop := attempt = Connected (Ok tt).

Lemma not_local_dev environment env : is_local_dev environment env = false ↔
  environment ≠ "development" ∧ environment ≠ "dev" ∧ env !! "ENVIRONMENT" ≠ Some "development".
Proof.
  unfold is_local_dev. rewrite !orb_false_iff, !String.eqb_neq.
  destruct (env !! "ENVIRONMENT"); cbn; naive_solver.
Qed.

Lemma init_redis_spec environment env first second : ∃ client,
  init_redis environment env first second = Ok client ∧
  (client = true ↔ answers first ∨
     (∀ ping, first ≠ Connected ping) ∧ answers second ∧ is_local_dev environment env = false).
Proof.
  unfold init_redis, answers. destruct first as [[[]|e]|e|], (is_local_dev environment env); eexists; (split; [done|]);
    cbn; try naive_solver; destruct second as [[[]|?]|?|]; cbn; naive_solver.
Qed.

(** Once the configuration is loaded, the database answers and the other services are made,
    the program starts, whatever Redis does; and it runs with Redis only if there is a URL
    and a connection answered the ping, the first or, outside local development, the
    second. *)
Theorem redis_never_stops_the_start (src : ConfigSources) (r : StartReplies) (c : AppConfig)
    (Hload : config_load src = Ok c) (Hdb : start_database r = Some (Ok tt))
    (Hssm : start_ssm r = Ok tt) (Hemail : start_email r = Ok tt) :
  ∃ s, app_state_new src r = Ok s ∧ app_config s = c ∧ app_cache s = app_redis s ∧
    (app_redis s = true ↔
     is_Some (redis_url c) ∧
     (answers (start_redis r) ∨
      (∀ ping, start_redis r ≠ Connected ping) ∧ answers (start_redis_again r) ∧
      environment c ≠ "development" ∧ environment c ≠ "dev" ∧ cfg_env src !! "ENVIRONMENT" ≠ Some "development")).
Proof.
  unfold app_state_new. rewrite Hload, Hdb, Hssm, Hemail. cbn. eexists. split_and!; [done..|]. cbn.
  rewrite <-not_local_dev. destruct (redis_url c) as [url|]; cbn; [|split; [done|by intros [[? ?] _]]].
  destruct (init_redis_spec (environment c) (cfg_env src) (start_redis r) (start_redis_again r)) as (client & -> & ->).
  naive_solver.
Qed.
End start.

(** A deployment to production whose Redis is not there. *)
Definition sample_parameters : gmap string string :=
  {["/leadsnebula/prod/rust/db/connection_url" := "postgres://u@h/db?channel_binding=require"]} ∪
  ({["/leadsnebula/prod/rust/jwt_secret" := "s3cret"]} ∪
  ({["/leadsnebula/prod/rust/redis/connection_url" := "redis://r"]} ∪
   {["/leadsnebula/prod/rust/encryption/api_key_key" := "0123456789abcdef0123456789abcdef"]})).

Definition sample_sources : ConfigSources := {|
  cfg_env_local := false;
  cfg_env := {["ENVIRONMENT" := "production"]} ∪ {["ENCRYPTION_KEY" := "ffffffffffffffffffffffffffffffff"]};
  cfg_ssm := Ok tt;
  cfg_by_path path := if String.eqb path "/leadsnebula/prod/rust/" then Ok sample_parameters else Ok ∅;
  cfg_hex_decode := Err |}.

Definition sample_config : AppConfig := {|
  database_url := "postgres://u@h/db"; redis_url := Some "redis://r"; redis_pool_size := 25; redis_min_idle := 5;
  jwt_secret := "s3cret"; encryption_key := "0123456789abcdef0123456789abcdef"; sentry_dsn := None;
  environment := "production"; from_email := "noreply@leadsnebula.com";
  password_reset_base_url := "https://dashboard.leadsnebula.com" |}.

Lemma sample_config_loads : @config_load plain_crypto sample_sources = Ok sample_config.
Proof. vm_compute. reflexivity. Qed.

Lemma loaded_key_usable_witness :
  EncryptionService_new (encryption_key sample_config) = Ok {| cipher_key := encryption_key sample_config |}.
Proof.
  refine (proj1 (@loaded_key_usable plain_crypto sample_sources sample_config _ sample_config_loads)).
  intros path params name value. cbn. destruct (String.eqb_spec path "/leadsnebula/prod/rust/") as [Hp|]; intros [= <-]; [|done].
  rewrite Hp. unfold sample_parameters. rewrite !lookup_union_Some_raw, !lookup_singleton_Some.
  by intros [[<- _]|[_ [[<- _]|[_ [[<- _]|[_ [<- _]]]]]]].
Defined.

Lemma redis_never_stops_the_start_witness :
  let replies again := {| start_database := Some (Ok tt); start_redis := ConnectionTimedOut; start_redis_again := again;
    start_ssm := Ok tt; start_ssm_again := Ok tt; start_email := Ok tt |} in
  (∃ s, @app_state_new plain_crypto sample_sources (replies ConnectionTimedOut) = Ok s ∧ app_redis s = false) ∧
  (∃ s, @app_state_new plain_crypto sample_sources (replies (Connected (Ok tt))) = Ok s ∧ app_redis s = true).
Proof.
  cbv zeta. split.
  - destruct (@redis_never_stops_the_start plain_crypto sample_sources
      {| start_database := Some (Ok tt); start_redis := ConnectionTimedOut; start_redis_again := ConnectionTimedOut;
         start_ssm := Ok tt; start_ssm_again := Ok tt; start_email := Ok tt |} _ sample_config_loads
      eq_refl eq_refl eq_refl) as (s & Hs & _ & _ & Hr).
    exists s. split; [exact Hs|]. apply proj1 in Hr.
    destruct (app_redis s); [|done]. destruct (Hr eq_refl) as (_ & [Ha|(_ & Ha & _)]); by inversion Ha.
  - destruct (@redis_never_stops_the_start plain_crypto sample_sources
      {| start_database := Some (Ok tt); start_redis := ConnectionTimedOut; start_redis_again := Connected (Ok tt);
         start_ssm := Ok tt; start_ssm_again := Ok tt; start_email := Ok tt |} _ sample_config_loads
      eq_refl eq_refl eq_refl) as (s & Hs & _ & _ & Hr).
    exists s. split; [exact Hs|]. apply Hr. split; [by eexists|]. right. repeat split; done.
Defined.
