(* ===== verification/Accounts.v ===== *)
(** * Accounts of the back office

    [crates/core/src/auth.rs], [password_policy.rs], [otp.rs], [password_reset.rs],
    [hmac.rs], [models/user.rs], and their callers [crates/api/src/routes/auth.rs]
    (log in, second factor, forgotten password) and
    [crates/api/src/middleware/jwt_auth.rs].  Password hashes, signed tokens and
    one-time codes are of other crates ([AuthLib]); their rules of use are the
    program's.  A handler runs on the tables of the accounts and ends with a response
    or with an HTTP error. *)

From stdpp Require Import base list strings gmap.
From Stdlib Require Import Ascii String ZArith Lia.
From S2P Require Import Prelude Float64 Platform Json.

Open Scope string_scope.
Open Scope list_scope.

(** ** What the program links against *)

(** [argon2::password_hash::Error]. *)
Inductive Argon2Error : Type :=
  | Argon2Password
  | Argon2Other (e : string).

(** Argon2, jsonwebtoken, totp-rs, HMAC-SHA256, the JSON text of a list of strings,
    [Uuid::parse_str], [LOWER] of the database, and the Unicode tables. *)
Class AuthLib : Type := {
  argon2_hash : string → string → Result string string;
  password_hash_new : string → Result string string;
  argon2_verify_password : string → string → Result Argon2Error unit;
  jwt_encode : string → json → Result string string;
  jwt_decode : string → Z → string → Result string json;
  totp_new : string → Result string unit;
  totp_check : string → Z → string → bool;
  hmac_sha256_hex : string → string → string;
  hmac_verify_slice : string → string → string → Result string unit;
  hex_decode : string → Result string string;
  strings_of_json : string → option (list string);
  json_of_strings : list string → Result string string;
  parse_user_id : string → option Uuid;
  sql_lower : string → string;
  unicode_uppercase : string → bool;
  unicode_lowercase : string → bool
}.

(** [Validation::new(HS256)] and [Validation::default()]: a token that was signed with
    the secret is read back until a minute after its [exp].  Identifiers and lists of
    strings read back. *)
Class AuthLaws (P : Platform) (A : AuthLib) : Prop := {
  jwt_roundtrip secret claims token exp now :
    jwt_encode secret claims = Ok token → jget "exp" claims = Some (json_of_u64 exp) → (now ≤ exp + 60)%Z →
    jwt_decode secret now token = Ok claims;
  jwt_expired secret claims token exp now :
    jwt_encode secret claims = Ok token → jget "exp" claims = Some (json_of_u64 exp) → (exp + 60 < now)%Z →
    ∃ e, jwt_decode secret now token = Err e;
  parse_user_id_to_string id : parse_user_id (uuid_to_string id) = Some id;
  json_strings_roundtrip l text : json_of_strings l = Ok text → strings_of_json text = Some l
}.

(** ** Data *)

Inductive InstanceUserStatus : Type := UserActive | UserInactive | UserSuspended.

#[export] Instance InstanceUserStatus_eq_dec : EqDecision InstanceUserStatus.
Proof. solve_decision. Defined.

Definition InstanceUserStatus_as_str (s : InstanceUserStatus) : string :=
  match s with UserActive => "active" | UserInactive => "inactive" | UserSuspended => "suspended" end.

(** A row of [instance_users]: the [User] the code reads, and the two columns of a
    password reset. *)
Record User : Type := {
  user_id : Uuid;
  user_email : string;
  user_encrypted_password : string;
  user_first_name : option string;
  user_last_name : option string;
  user_status : InstanceUserStatus;
  user_confirmed_at : option DateTime;
  user_created_at : DateTime;
  user_updated_at : DateTime;
  user_reset_password_token : option string;
  user_reset_password_sent_at : option DateTime
}.

Definition User_is_active (u : User) : bool := bool_decide (user_status u = UserActive).
Definition User_is_confirmed (u : User) : bool := bool_decide (is_Some (user_confirmed_at u)).

(** A row of [user_otp_settings]. *)
Record OtpSettings : Type := {
  otp_enabled : option bool;
  otp_secret_encrypted : option string;
  otp_backup_codes_encrypted : option string;
  otp_updated_at : DateTime
}.

(** A message handed to the email service. *)
Record Mail : Type := { mail_to : string; mail_subject : string; mail_text : string; mail_html : string }.

(** Rows by id, and the OTP settings by user.  The outcomes are those of the next
    statements and messages. *)
Record AccountWorld : Type := {
  aw_users : gmap Uuid User;
  aw_otp : gmap Uuid OtpSettings;
  aw_now : DateTime;
  aw_mails : list Mail;
  aw_outcomes : list (option string)
}.

(** The unique columns of the table. *)
Record accounts_wf (w : AccountWorld) : Prop := {
  user_ids i u : aw_users w !! i = Some u → user_id u = i;
  emails_unique i j u v : aw_users w !! i = Some u → aw_users w !! j = Some v → user_email u = user_email v → i = j;
  tokens_unique i j u v t : aw_users w !! i = Some u → aw_users w !! j = Some v →
    user_reset_password_token u = Some t → user_reset_password_token v = Some t → i = j
}.

Definition set_users (users : gmap Uuid User) (w : AccountWorld) : AccountWorld := {|
  aw_users := users; aw_otp := aw_otp w; aw_now := aw_now w; aw_mails := aw_mails w; aw_outcomes := aw_outcomes w |}.
Definition set_otp (otp : gmap Uuid OtpSettings) (w : AccountWorld) : AccountWorld := {|
  aw_users := aw_users w; aw_otp := otp; aw_now := aw_now w; aw_mails := aw_mails w; aw_outcomes := aw_outcomes w |}.
Definition add_mail (m : Mail) (w : AccountWorld) : AccountWorld := {|
  aw_users := aw_users w; aw_otp := aw_otp w; aw_now := aw_now w; aw_mails := aw_mails w ++ [m];
  aw_outcomes := aw_outcomes w |}.
Definition set_account_outcomes (o : list (option string)) (w : AccountWorld) : AccountWorld := {|
  aw_users := aw_users w; aw_otp := aw_otp w; aw_now := aw_now w; aw_mails := aw_mails w; aw_outcomes := o |}.

(** A statement or a message: on an error nothing changes and [on_error] is the
    answer. *)
Definition attempt {E A} (on_error : E) (m : AccountWorld → Result E A * AccountWorld) : eff AccountWorld E A := λ w,
  match aw_outcomes w with
  | Some _ :: rest => (Err on_error, set_account_outcomes rest w)
  | None :: rest => m (set_account_outcomes rest w)
  | [] => m w
  end.

Definition select {E A} (on_error : E) (f : AccountWorld → A) : eff AccountWorld E A := attempt on_error (λ w, (Ok (f w), w)).

(** [SystemTime::now().duration_since(UNIX_EPOCH).as_secs()]. *)
Definition now_secs (w : AccountWorld) : Z := (aw_now w / 1000000)%Z.

(** Rows of the users with a property; without an [ORDER BY] a [LIMIT 1] takes any,
    here the first. *)
Definition find_user (p : User → bool) (w : AccountWorld) : option User :=
  List.find p (map_to_list (aw_users w)).*2.

(** ** Passwords *)

Fixpoint str_existsb (p : ascii → bool) (s : string) : bool :=
  match s with EmptyString => false | String a s' => p a || str_existsb p s' end.

Section accounts.
Context `{Platform} `{AuthLib}.

(** [c.is_uppercase()] and [c.is_lowercase()] of some character. *)
Definition any_uppercase (s : string) : bool := str_existsb (ascii_between 65 90) s || unicode_uppercase s.
Definition any_lowercase (s : string) : bool := str_existsb (ascii_between 97 122) s || unicode_lowercase s.

Definition validate_password (password : string) : Result string unit :=
  if (String.length password <? 8)%nat then Err "Password must be at least 8 characters"
  else if (128 <? String.length password)%nat then Err "Password must be at most 128 characters"
  else if negb (any_uppercase password) then Err "Password must contain at least one uppercase letter"
  else if negb (any_lowercase password) then Err "Password must contain at least one lowercase letter"
  else if negb (str_existsb (ascii_between 48 57) password) then Err "Password must contain at least one number"
  else Ok tt.

(** [salt]: drawn. *)
Definition hash_password (salt password : string) : Result string string :=
  map_err (λ e, "Argon2 hashing error: " +:+ e) (argon2_hash salt password).

(** Malformed hashes and wrong parameters are errors, a wrong password is not. *)
Definition verify_password (password hash : string) : Result string bool :=
  parsed_hash ← map_err (λ e, "Invalid Argon2 hash format: " +:+ e) (password_hash_new hash);
  match argon2_verify_password password parsed_hash with
  | Ok _ => Ok true
  | Err Argon2Password => Ok false
  | Err (Argon2Other e) => Err ("Argon2 verification error: " +:+ e)
  end.

(** ** Signatures: [hmac.rs] *)

Definition verify_hmac (secret message signature : string) : Result string bool :=
  signature_bytes ← hex_decode signature;
  _ ← hmac_verify_slice secret message signature_bytes;
  Ok true.

Definition generate_hmac (secret message : string) : Result string string := Ok (hmac_sha256_hex secret message).

(** ** Tokens *)

Definition jwt_expiration_hours : Z := 24.

Record Claims : Type := { claim_user_id : string; claim_email : string; claim_iat : Z; claim_exp : Z }.

Definition claims_value (c : Claims) : json := json_object [
  ("user_id", JString (claim_user_id c)); ("email", JString (claim_email c));
  ("iat", json_of_u64 (claim_iat c)); ("exp", json_of_u64 (claim_exp c))].

Definition as_u64 (v : json) : option Z := match v with JNumber (PosInt n) => Some n | _ => None end.

(** [Deserialize] of [Claims]: the four fields; others are ignored. *)
Definition claims_of_value (v : json) : option Claims :=
  uid ← jget "user_id" v ≫= as_str;
  email ← jget "email" v ≫= as_str;
  iat ← jget "iat" v ≫= as_u64;
  exp ← jget "exp" v ≫= as_u64;
  Some {| claim_user_id := uid; claim_email := email; claim_iat := iat; claim_exp := exp |}.

Definition JwtService_encode (secret : string) (now : Z) (uid email : string) : Result string string :=
  jwt_encode secret (claims_value {| claim_user_id := uid; claim_email := email; claim_iat := now;
                                     claim_exp := (now + jwt_expiration_hours * 3600)%Z |}).

Definition JwtService_decode (secret : string) (now : Z) (token : string) : Result string Claims :=
  claims ← jwt_decode secret now token;
  ok_or "missing field" (claims_of_value claims).

(** ** One-time codes: [otp.rs] *)

Definition OtpService_verify (secret : string) (now : Z) (code : string) : bool := totp_check secret now code.

(** ** Responses *)

Record UserResponse : Type := {
  ur_id : string; ur_email : string; ur_first_name : option string; ur_last_name : option string
}.

Record LoginResponse : Type := {
  login_success : bool;
  login_token : option string;
  login_user : option UserResponse;
  login_error : option string;
  login_requires_otp : option bool;
  login_login_token : option string;
  login_message : option string
}.

Abbreviation HttpError := (Z * LoginResponse)%type.

Definition login_refused (error : string) : LoginResponse := {|
  login_success := false; login_token := None; login_user := None; login_error := Some error;
  login_requires_otp := None; login_login_token := None; login_message := None |}.

Definition bad_request_login_response (message : string) : HttpError := (400%Z, login_refused message).
Definition server_error_login_response : HttpError := (500%Z, login_refused "Server error. Please try again.").

Definition login_granted (token : string) (u : User) : LoginResponse := {|
  login_success := true; login_token := Some token;
  login_user := Some {| ur_id := uuid_to_string (user_id u); ur_email := user_email u;
                        ur_first_name := user_first_name u; ur_last_name := user_last_name u |};
  login_error := None; login_requires_otp := None; login_login_token := None; login_message := None |}.

Definition login_otp_required (token : string) : LoginResponse := {|
  login_success := false; login_token := None; login_user := None; login_error := None;
  login_requires_otp := Some true; login_login_token := Some token;
  login_message := Some "Please enter your OTP code to complete login" |}.

(** ** Log in *)

Record LoginRequest : Type := { lq_email : string; lq_password : string }.

(** The claims of the token that waits for the second factor. *)
Definition login_token_payload (u : User) (now : Z) : json := json_object [
  ("user_id", JString (uuid_to_string (user_id u))); ("email", JString (user_email u));
  ("password_verified", JBool true); ("exp", json_of_u64 (now + 300)%Z); ("iat", json_of_u64 now)].

(** [LOWER(email) = LOWER($1)]. *)
Definition login_lookup (email : string) : AccountWorld → option User :=
  find_user (λ u, String.eqb (sql_lower (user_email u)) (sql_lower email)).

Definition otp_required (id : Uuid) (w : AccountWorld) : bool := default false (aw_otp w !! id ≫= otp_enabled).

Definition login (jwt_secret : string) (payload : option LoginRequest) : eff AccountWorld HttpError LoginResponse :=
  match payload with
  | None => eff_err (bad_request_login_response "Invalid request. Send JSON with email and password.")
  | Some payload =>
      let email := str_trim (lq_email payload) in
      let password := lq_password payload in
      if String.eqb email "" || String.eqb password ""
      then eff_err (bad_request_login_response "Email and password are required.")
      else
        user ← select server_error_login_response (login_lookup (to_lowercase email));
        match user with
        | None => mret (login_refused "Invalid email or password")
        | Some user =>
            if negb (User_is_confirmed user) then mret (login_refused "Please confirm your email address before signing in")
            else if negb (User_is_active user) then mret (login_refused "Your account has been suspended")
            else if negb (result_or false (verify_password password (user_encrypted_password user)))
            then mret (login_refused "Invalid email or password")
            else
              otp ← select server_error_login_response (otp_required (user_id user));
              now ← eff_gets now_secs;
              if (otp : bool) then
                token ← eff_lift (map_err (λ _, server_error_login_response)
                                    (jwt_encode jwt_secret (login_token_payload user now)));
                mret (login_otp_required token)
              else
                token ← eff_lift (map_err (λ _, server_error_login_response)
                                    (JwtService_encode jwt_secret now (uuid_to_string (user_id user)) (user_email user)));
                mret (login_granted token user)
        end
  end.

(** ** The second factor *)

Record VerifyOtpLoginRequest : Type := {
  vq_login_token : string; vq_otp_code : option string; vq_backup_code : option string
}.

(** [WHERE id = $1 AND status = 'active']. *)
Definition active_user (id : Uuid) : AccountWorld → option User :=
  find_user (λ u, bool_decide (user_id u = id) && bool_decide (user_status u = UserActive)).

(** [SELECT secret_encrypted, backup_codes_encrypted]. *)
Definition otp_row (id : Uuid) (w : AccountWorld) : option (option string * option string) :=
  (λ o, (otp_secret_encrypted o, otp_backup_codes_encrypted o)) <$> aw_otp w !! id.

Definition set_backup_codes (codes : string) (now : DateTime) (o : OtpSettings) : OtpSettings := {|
  otp_enabled := otp_enabled o; otp_secret_encrypted := otp_secret_encrypted o;
  otp_backup_codes_encrypted := Some codes; otp_updated_at := now |}.

(** [UPDATE user_otp_settings SET backup_codes_encrypted = $1 WHERE instance_user_id = $2]. *)
Definition save_backup_codes (id : Uuid) (codes : string) : eff AccountWorld Z unit :=
  attempt 500%Z (λ w, (Ok tt, set_otp (alter (set_backup_codes codes (aw_now w)) id (aw_otp w)) w)).

(** [Vec::iter().position(p)]. *)
Fixpoint position {A} (p : A → bool) (l : list A) : option nat :=
  match l with
  | [] => None
  | x :: l' => if p x then Some 0%nat else S <$> position p l'
  end.

(** What was read before the code is checked. *)
Record OtpAttempt : Type := { oa_user : User; oa_secret : string; oa_backup_codes : option string }.

(** Up to the reads of the settings: a response already, or the attempt. *)
Definition otp_load (jwt_secret : string) (payload : VerifyOtpLoginRequest)
    : eff AccountWorld Z (LoginResponse + OtpAttempt) :=
  if bool_decide (vq_otp_code payload = None) && bool_decide (vq_backup_code payload = None)
  then mret (inl (login_refused "OTP code or backup code is required"))
  else
    now ← eff_gets now_secs;
    claims ← eff_lift (map_err (λ _, 401%Z) (jwt_decode jwt_secret now (vq_login_token payload)));
    user_id_str ← eff_lift (ok_or 401%Z (jget "user_id" claims ≫= as_str));
    if match jget "exp" claims ≫= as_u64 with Some exp => (exp <? now)%Z | None => false end
    then mret (inl (login_refused "Login session expired. Please log in again."))
    else
      uid ← eff_lift (ok_or 401%Z (parse_user_id user_id_str));
      user ← select 500%Z (active_user uid);
      user ← eff_lift (ok_or 401%Z user);
      enabled ← select 500%Z (otp_required (user_id user));
      if negb enabled then mret (inl (login_refused "OTP is not enabled for this account"))
      else
        row ← select 500%Z (otp_row (user_id user));
        row ← eff_lift (ok_or 500%Z row);
        secret ← eff_lift (ok_or 500%Z row.1);
        mret (inr {| oa_user := user; oa_secret := secret; oa_backup_codes := row.2 |}).

(** The check of the code; a backup code is removed from the list that was read. *)
Definition otp_check (payload : VerifyOtpLoginRequest) (a : OtpAttempt) : eff AccountWorld Z bool :=
  match vq_backup_code payload with
  | Some backup_code =>
      match oa_backup_codes a with
      | Some text =>
          let backup_codes := default [] (strings_of_json text) in
          match position (λ c, String.eqb (to_uppercase c) (to_uppercase backup_code)) backup_codes with
          | Some index =>
              updated ← eff_lift (map_err (λ _, 500%Z) (json_of_strings (base.delete index backup_codes)));
              _ ← save_backup_codes (user_id (oa_user a)) updated;
              mret true
          | None => mret false
          end
      | None => mret false
      end
  | None =>
      match vq_otp_code payload with
      | Some code =>
          _ ← eff_lift (map_err (λ _, 500%Z) (totp_new (oa_secret a)));
          now ← eff_gets now_secs;
          mret (OtpService_verify (oa_secret a) now code)
      | None => mret false
      end
  end.

Definition otp_finish (jwt_secret : string) (payload : VerifyOtpLoginRequest) (a : OtpAttempt)
    : eff AccountWorld Z LoginResponse :=
  verified ← otp_check payload a;
  if negb verified then mret (login_refused "Invalid OTP code or backup code")
  else
    now ← eff_gets now_secs;
    token ← eff_lift (map_err (λ _, 500%Z)
              (JwtService_encode jwt_secret now (uuid_to_string (user_id (oa_user a))) (user_email (oa_user a))));
    mret (login_granted token (oa_user a)).

Definition verify_otp_login (jwt_secret : string) (payload : VerifyOtpLoginRequest) : eff AccountWorld Z LoginResponse :=
  loaded ← otp_load jwt_secret payload;
  match loaded with inl response => mret response | inr a => otp_finish jwt_secret payload a end.

(** ** Forgotten passwords *)

Record ForgotPasswordResponse : Type := {
  forgot_success : bool; forgot_message : option string; forgot_error : option string
}.
Record ResetPasswordResponse : Type := { reset_success : bool; reset_error : option string }.

Definition forgot_failure (status : Z) (error : string) : Z * ForgotPasswordResponse :=
  (status, {| forgot_success := false; forgot_message := None; forgot_error := Some error |}).
Definition forgot_answer (message : string) : ForgotPasswordResponse :=
  {| forgot_success := true; forgot_message := Some message; forgot_error := None |}.
Definition reset_failure (status : Z) (error : string) : Z * ResetPasswordResponse :=
  (status, {| reset_success := false; reset_error := Some error |}).

(** [str::trim_end_matches('/')]. *)
Fixpoint trim_end_slashes (s : string) : string :=
  match s with
  | EmptyString => EmptyString
  | String a s' =>
      let rest := trim_end_slashes s' in
      if String.eqb rest "" && Ascii.eqb a "/" then EmptyString else String a rest
  end.

(** [hay.find(needle)]. *)
Fixpoint str_find (needle hay : string) : option nat :=
  if String.prefix needle hay then Some 0%nat
  else match hay with EmptyString => None | String _ hay' => S <$> str_find needle hay' end.

(** Scheme and host of an origin or a referer. *)
Definition origin_of (header : string) : string :=
  let s := trim_end_slashes (str_trim header) in
  match str_find "://" s with
  | Some colon_slash =>
      let after_scheme := (colon_slash + 3)%nat in
      match str_find "/" (String.substring after_scheme (String.length s - after_scheme) s) with
      | Some slash => String.substring 0 (after_scheme + slash) s
      | None => s
      end
  | None => s
  end.

(** In development the link goes back to where the request came from. *)
Definition reset_base_url (environment base_url : string) (headers : gmap string (option string)) : string :=
  if String.eqb (str_map ascii_lower environment) "development" then
    match match headers !! "origin" with Some v => v | None => header_text headers "referer" end with
    | Some h => origin_of h
    | None => base_url
    end
  else base_url.

Definition reset_mail (base_url : string) (u : User) (reset_token : string) : Mail :=
  let reset_url := trim_end_slashes base_url +:+ "/reset-password?token=" +:+ reset_token in {|
  mail_to := user_email u; mail_subject := "Reset your password";
  mail_text := "Click the following link to reset your password: " +:+ reset_url;
  mail_html := "<p>Click the following link to reset your password:</p><p><a href=" +:+ String (ascii_of_nat 34) "" +:+
    reset_url +:+ String (ascii_of_nat 34) "" +:+ ">" +:+ reset_url +:+ "</a></p>" |}.

(** [PasswordResetService::send_reset_email]. *)
Definition send_reset_email {E} (on_error : E) (base_url : string) (u : User) (reset_token : string) : eff AccountWorld E unit :=
  attempt on_error (λ w, (Ok tt, add_mail (reset_mail base_url u reset_token) w)).

Definition with_reset (password : string) (token : option string) (sent_at : option DateTime) (now : DateTime) (u : User)
    : User := {|
  user_id := user_id u; user_email := user_email u; user_encrypted_password := password;
  user_first_name := user_first_name u; user_last_name := user_last_name u; user_status := user_status u;
  user_confirmed_at := user_confirmed_at u; user_created_at := user_created_at u; user_updated_at := now;
  user_reset_password_token := token; user_reset_password_sent_at := sent_at |}.

(** [UPDATE instance_users SET reset_password_token = $1, reset_password_sent_at = NOW() WHERE id = $2];
    the token is unique. *)
Definition save_reset_token {E} (on_error : E) (id : Uuid) (token : string) : eff AccountWorld E unit :=
  attempt on_error (λ w,
    if existsb (λ u, bool_decide (user_reset_password_token u = Some token) && negb (bool_decide (user_id u = id)))
         (map_to_list (aw_users w)).*2
    then (Err on_error, w)
    else (Ok tt, set_users (alter (λ u, with_reset (user_encrypted_password u) (Some token) (Some (aw_now w)) (aw_now w) u) id
                              (aw_users w)) w)).

Definition reset_link_sent : string := "If an account with that email exists, a password reset link has been sent.".
Definition reset_link_already_sent : string :=
  "If an account with that email exists, a reset link was already sent. Please check your inbox or try again later.".

(** [WHERE email = $1 AND status = 'active']. *)
Definition forgot_lookup (email : string) : AccountWorld → option User :=
  find_user (λ u, String.eqb (user_email u) email && bool_decide (user_status u = UserActive)).

(** [num_seconds] of the difference truncates towards zero. *)
Definition sent_recently (now : DateTime) (sent_at : option DateTime) : bool :=
  match sent_at with Some ts => (Z.quot (now - ts) 1000000 <? 300)%Z | None => false end.

(** [reset_token]: 32 random bytes in base64. *)
Definition forgot_password (environment base_url reset_token : string) (headers : gmap string (option string))
    (payload : option string) : eff AccountWorld (Z * ForgotPasswordResponse) ForgotPasswordResponse :=
  let server_error := forgot_failure 500 "Server error. Please try again." in
  match payload with
  | None => eff_err (forgot_failure 400 "Invalid request. Send JSON with email.")
  | Some email =>
      let email := to_lowercase (str_trim email) in
      if String.eqb email "" then eff_err (forgot_failure 400 "Email is required.")
      else
        user ← select server_error (forgot_lookup email);
        match user with
        | None => mret (forgot_answer reset_link_sent)
        | Some user =>
            last_sent ← select server_error (λ w, aw_users w !! user_id user ≫= user_reset_password_sent_at);
            now ← eff_gets aw_now;
            if sent_recently now last_sent then mret (forgot_answer reset_link_already_sent)
            else
              _ ← save_reset_token server_error (user_id user) reset_token;
              _ ← send_reset_email server_error (reset_base_url environment base_url headers) user reset_token;
              mret (forgot_answer reset_link_sent)
        end
  end.

Record ResetPasswordRequest : Type := { rq_token : string; rq_new_password : string }.

(** [UPDATE ... WHERE reset_password_token = $2 AND status = 'active']: the rows that
    match, and how many. *)
Definition takes_reset (token : string) (u : User) : bool :=
  bool_decide (user_reset_password_token u = Some token) && bool_decide (user_status u = UserActive).

Definition update_password {E} (on_error : E) (encrypted token : string) : eff AccountWorld E nat :=
  attempt on_error (λ w,
    (Ok (List.length (List.filter (takes_reset token) (map_to_list (aw_users w)).*2)),
     set_users ((λ u, if takes_reset token u then with_reset encrypted None None (aw_now w) u else u) <$> aw_users w) w)).

Definition reset_password (salt : string) (payload : option ResetPasswordRequest)
    : eff AccountWorld (Z * ResetPasswordResponse) ResetPasswordResponse :=
  let server_error := reset_failure 500 "Server error. Please try again." in
  match payload with
  | None => eff_err (reset_failure 400 "Invalid request. Send JSON with token and new_password.")
  | Some payload =>
      let token := str_trim (rq_token payload) in
      let new_password := rq_new_password payload in
      if String.eqb token "" || String.eqb new_password ""
      then eff_err (reset_failure 400 "Token and new password are required.")
      else
        _ ← eff_lift (map_err (reset_failure 400) (validate_password new_password));
        encrypted ← eff_lift (map_err (λ _, server_error) (hash_password salt new_password));
        rows_affected ← update_password server_error encrypted token;
        if (rows_affected =? 0)%nat
        then mret {| reset_success := false;
                     reset_error := Some "Invalid or expired reset link. Please request a new password reset." |}
        else mret {| reset_success := true; reset_error := None |}
  end.

(** ** The session middleware *)

(** The user a request to the dashboard runs as, or the status it is refused with.
    Header names are in lower case. *)
Definition jwt_auth_middleware (jwt_secret : string) (headers : gmap string (option string)) : eff AccountWorld Z User :=
  match header_text headers "authorization" ≫= strip_prefix "Bearer " with
  | None => eff_err 401%Z
  | Some token =>
      now ← eff_gets now_secs;
      claims ← eff_lift (map_err (λ _, 401%Z) (JwtService_decode jwt_secret now token));
      uid ← eff_lift (ok_or 401%Z (parse_user_id (claim_user_id claims)));
      user ← select 500%Z (active_user uid);
      match user with
      | None => eff_err 401%Z
      | Some user => if User_is_active user then mret user else eff_err 401%Z
      end
  end.
End accounts.

(** ** Lemmas *)

Lemma find_user_Some p w u : find_user p w = Some u → p u = true ∧ ∃ i, aw_users w !! i = Some u.
Proof.
  unfold find_user. intros Hf. apply find_some in Hf as [Hin Hp]. split; [done|].
  apply list_elem_of_In, list_elem_of_fmap in Hin as ([i v] & -> & Hin). apply elem_of_map_to_list in Hin. by exists i.
Qed.

Lemma find_user_None p w : find_user p w = None ↔ ∀ i u, aw_users w !! i = Some u → p u = false.
Proof.
  unfold find_user. split.
  - intros Hf i u Hu. apply (find_none _ _ Hf). apply list_elem_of_In, list_elem_of_fmap. exists (i, u). split; [done|].
    by apply elem_of_map_to_list.
  - intros Hall. destruct (List.find p _) as [u|] eqn:Hf; [|done].
    apply find_user_Some in Hf as [Hp [i Hu]]. specialize (Hall i u Hu). congruence.
Qed.

(** The only row with the property is found. *)
Lemma find_user_unique p w i u :
  aw_users w !! i = Some u → p u = true → (∀ j v, aw_users w !! j = Some v → p v = true → j = i) → find_user p w = Some u.
Proof.
  intros Hu Hp Huniq. destruct (find_user p w) as [v|] eqn:Hf.
  - apply find_user_Some in Hf as [Hpv [j Hv]]. rewrite (Huniq _ _ Hv Hpv) in Hv. congruence.
  - rewrite find_user_None in Hf. specialize (Hf i u Hu). congruence.
Qed.

Lemma active_user_spec w id u :
  accounts_wf w → active_user id w = Some u ↔ aw_users w !! id = Some u ∧ user_status u = UserActive.
Proof.
  intros Hwf. unfold active_user. split.
  - intros Hf. apply find_user_Some in Hf as [Hp [i Hu]]. apply andb_true_iff in Hp as [Hi Hs].
    apply bool_decide_eq_true in Hi, Hs. pose proof (user_ids _ Hwf _ _ Hu) as E. split; [|done]. congruence.
  - intros [Hu Hs]. eapply find_user_unique; [exact Hu| |].
    + rewrite (user_ids _ Hwf _ _ Hu). by rewrite !bool_decide_eq_true_2.
    + intros j v Hv Hp. apply andb_true_iff in Hp as [Hp _]. apply bool_decide_eq_true in Hp.
      by rewrite <-(user_ids _ Hwf _ _ Hv).
Qed.

Lemma attempt_healthy {E A} (on_error : E) (m : AccountWorld → Result E A * AccountWorld) w :
  aw_outcomes w = [] → attempt on_error m w = m w.
Proof. unfold attempt. by intros ->. Qed.

Lemma select_healthy {E A} (on_error : E) (f : AccountWorld → A) w :
  aw_outcomes w = [] → select on_error f w = (Ok (f w), w).
Proof. intros Hout. unfold select. by rewrite attempt_healthy. Qed.

Lemma select_bind {E A B} (on_error : E) (f : AccountWorld → A) (k : A → eff AccountWorld E B) w :
  aw_outcomes w = [] → (select on_error f ≫= k) w = k (f w) w.
Proof. intros Hout. by rewrite eff_bind_eq, select_healthy. Qed.

Lemma select_bind_ok {E A B} (on_error : E) (f : AccountWorld → A) (k : A → eff AccountWorld E B) w os :
  aw_outcomes w = None :: os →
  (select on_error f ≫= k) w = k (f (set_account_outcomes os w)) (set_account_outcomes os w).
Proof. intros Hout. rewrite eff_bind_eq. unfold select, attempt. by rewrite Hout. Qed.

(** What a statement that reads returns, if anything. *)
Lemma select_inv {E A} (on_error : E) (f : AccountWorld → A) w r w' :
  (∀ o, f (set_account_outcomes o w) = f w) → select on_error f w = (r, w') →
  (r = Ok (f w) ∨ r = Err on_error) ∧ ∃ o, w' = set_account_outcomes o w.
Proof.
  intros Hf. unfold select, attempt. destruct (aw_outcomes w) as [|[e|] os] eqn:Eo.
  - intros [= <- <-]. split; [by left|]. exists []. rewrite <-Eo. by destruct w.
  - intros [= <- <-]. split; [by right|]. by eexists.
  - intros [= <- <-]. rewrite Hf. split; [by left|]. by eexists.
Qed.

(** *** Handlers keep the tables well formed *)

Abbreviation keeps_wf := (preserves accounts_wf).

Lemma wf_same_users w w' : aw_users w' = aw_users w → accounts_wf w → accounts_wf w'.
Proof. intros E [H1 H2 H3]. split; by rewrite E. Qed.

Lemma keeps_wf_attempt {E A} (on_error : E) (m : eff AccountWorld E A) : keeps_wf m → keeps_wf (attempt on_error m).
Proof.
  intros Hm w Hw. unfold attempt. destruct (aw_outcomes w) as [|[e|] os]; [by apply Hm|by apply (wf_same_users w)|].
  apply Hm. by apply (wf_same_users w).
Qed.

Lemma keeps_wf_select {E A} (on_error : E) (f : AccountWorld → A) : keeps_wf (select on_error f).
Proof. apply keeps_wf_attempt, (preserves_gets _ f). Qed.

#[export] Hint Resolve keeps_wf_select : effects.

(** Rows that change only their password, token and dates. *)
Lemma wf_reset_rows w users :
  accounts_wf w →
  (∀ i u', users !! i = Some u' → ∃ u, aw_users w !! i = Some u ∧ user_id u' = user_id u ∧ user_email u' = user_email u) →
  (∀ i j u v t, users !! i = Some u → users !! j = Some v →
     user_reset_password_token u = Some t → user_reset_password_token v = Some t → i = j) →
  accounts_wf (set_users users w).
Proof.
  intros Hwf Hrows Htokens. split; simpl; [| |exact Htokens].
  - intros i u' Hu'. destruct (Hrows i u' Hu') as (u & Hu & -> & _). by apply (user_ids _ Hwf).
  - intros i j u' v' Hu' Hv' He. destruct (Hrows i u' Hu') as (u & Hu & _ & Eu), (Hrows j v' Hv') as (v & Hv & _ & Ev).
    apply (emails_unique _ Hwf i j u v Hu Hv). congruence.
Qed.

Lemma keeps_wf_update_password {E} (on_error : E) encrypted token : keeps_wf (update_password on_error encrypted token).
Proof.
  apply keeps_wf_attempt. intros w Hwf. simpl. apply wf_reset_rows; [done|..].
  - intros i u' Hu'. rewrite lookup_fmap in Hu'. destruct (aw_users w !! i) as [u|]; [|done]. injection Hu' as <-.
    exists u. by destruct (takes_reset token u).
  - intros i j u' v' t. rewrite !lookup_fmap. destruct (aw_users w !! i) as [u|] eqn:Hu; [|done].
    destruct (aw_users w !! j) as [v|] eqn:Hv; [|done]. intros [= <-] [= <-].
    destruct (takes_reset token u), (takes_reset token v); try done. by apply (tokens_unique _ Hwf).
Qed.

Lemma keeps_wf_save_reset_token {E} (on_error : E) id token : keeps_wf (save_reset_token on_error id token).
Proof.
  apply keeps_wf_attempt. intros w Hwf. destruct (existsb _ _) eqn:Ex; [done|]. simpl. apply wf_reset_rows; [done|..].
  - intros i u' Hu'. rewrite lookup_alter_Some in Hu'. destruct Hu' as [(-> & u & Hu & ->)|[_ Hu]]; by eexists.
  - assert (Hother : ∀ j v, aw_users w !! j = Some v → user_reset_password_token v = Some token → j = id).
    { intros j v Hv Ht. destruct (decide (j = id)) as [|Hj]; [done|]. assert (Hf : existsb (λ u,
        bool_decide (user_reset_password_token u = Some token) && negb (bool_decide (user_id u = id)))
        (map_to_list (aw_users w)).*2 = true); [|congruence].
      apply existsb_exists. exists v. split; [apply list_elem_of_In, list_elem_of_fmap; exists (j, v); split; [done|];
        by apply elem_of_map_to_list|]. rewrite (user_ids _ Hwf _ _ Hv). by rewrite bool_decide_eq_true_2, bool_decide_eq_false_2. }
    intros i j u' v' t Hu' Hv' Htu Htv. rewrite lookup_alter_Some in Hu', Hv'.
    destruct Hu' as [(-> & u & Hu & ->)|[Hi Hu]], Hv' as [(<- & v & Hv & ->)|[Hj Hv]]; try done; simpl in *.
    + symmetry. eapply Hother; [exact Hv|congruence].
    + destruct Hi. symmetry. eapply Hother; [exact Hu|congruence].
    + by eapply (tokens_unique _ Hwf).
Qed.

Lemma keeps_wf_save_backup_codes id codes : keeps_wf (save_backup_codes id codes).
Proof. apply keeps_wf_attempt. intros w Hwf. by apply (wf_same_users w). Qed.

Lemma keeps_wf_send_reset_email {E} (on_error : E) base_url u t : keeps_wf (send_reset_email on_error base_url u t).
Proof. apply keeps_wf_attempt. intros w Hwf. by apply (wf_same_users w). Qed.

#[export] Hint Resolve keeps_wf_update_password keeps_wf_save_reset_token keeps_wf_save_backup_codes
  keeps_wf_send_reset_email : effects.

Section lemmas.
Context `{P : Platform} `{A : AuthLib}.

(** What a log in answers, and that it changes nothing. *)
Lemma login_cases secret p w resp w' :
  login secret (Some p) w = (Ok resp, w') →
  (∃ o, w' = set_account_outcomes o w) ∧
  ((∃ e, resp = login_refused e) ∨
   ∃ u, login_lookup (to_lowercase (str_trim (lq_email p))) w = Some u ∧ User_is_confirmed u = true ∧
     User_is_active u = true ∧ verify_password (lq_password p) (user_encrypted_password u) = Ok true ∧
     ((otp_required (user_id u) w = true ∧ ∃ t, jwt_encode secret (login_token_payload u (now_secs w)) = Ok t ∧
         resp = login_otp_required t) ∨
      (otp_required (user_id u) w = false ∧
       ∃ t, JwtService_encode secret (now_secs w) (uuid_to_string (user_id u)) (user_email u) = Ok t ∧
         resp = login_granted t u))).
Proof.
  unfold login. destruct (String.eqb (str_trim (lq_email p)) "" || String.eqb (lq_password p) ""); [done|].
  unfold mbind, eff_bind.
  destruct (select _ (login_lookup _) w) as [[user|e] w1] eqn:E1; [|done].
  apply select_inv in E1 as [[[= ->]|] [o1 ->]]; [|done..].
  destruct (login_lookup _ w) as [u|]; [|intros [= <- <-]; split; [by eexists|by left; eexists]].
  destruct (User_is_confirmed u) eqn:Ec; simpl; [|intros [= <- <-]; split; [by eexists|by left; eexists]].
  destruct (User_is_active u) eqn:Ea; simpl; [|intros [= <- <-]; split; [by eexists|by left; eexists]].
  destruct (verify_password _ _) as [[]|e] eqn:Ev; simpl;
    [|intros [= <- <-]; split; [by eexists|by left; eexists]..].
  destruct (select _ (otp_required _) _) as [[otp|e] w2] eqn:E2; [|done].
  apply select_inv in E2 as [[[= ->]|] [o2 ->]]; [|done..]. unfold eff_gets, eff_lift.
  change (otp_required (user_id u) (set_account_outcomes o1 w)) with (otp_required (user_id u) w).
  change (now_secs (set_account_outcomes o2 (set_account_outcomes o1 w))) with (now_secs w).
  destruct (otp_required (user_id u) w) eqn:Eo.
  - destruct (jwt_encode _ _) as [t|] eqn:Et; [|done]. intros [= <- <-]. split; [by eexists|]. right. exists u. eauto 10.
  - destruct (JwtService_encode _ _ _ _) as [t|] eqn:Et; [|done]. intros [= <- <-]. split; [by eexists|]. right.
    exists u. eauto 10.
Qed.

(** What a reset does once its input is good. *)
Lemma reset_password_run salt t new_password hash w :
  str_trim t = t → t ≠ "" → validate_password new_password = Ok tt → hash_password salt new_password = Ok hash →
  reset_password salt (Some {| rq_token := t; rq_new_password := new_password |}) w =
    match update_password (reset_failure 500 "Server error. Please try again.") hash t w with
    | (Ok O, w') => (Ok {| reset_success := false;
                           reset_error := Some "Invalid or expired reset link. Please request a new password reset." |}, w')
    | (Ok _, w') => (Ok {| reset_success := true; reset_error := None |}, w')
    | (Err e, w') => (Err e, w')
    end.
Proof.
  intros Htrim Hne Hv Hh. unfold reset_password. cbn [rq_token rq_new_password]. rewrite Htrim.
  assert (Hpw : new_password ≠ "") by (by intros ->).
  rewrite (proj2 (String.eqb_neq _ _) Hne), (proj2 (String.eqb_neq _ _) Hpw). simpl. rewrite Hv, Hh.
  unfold mbind, eff_bind, eff_lift. simpl. by destruct (update_password _ _ _ _) as [[[]|] w'].
Qed.

(** The statement of a reset: the row with the token, or none. *)
Lemma update_password_hit {E} (on_error : E) hash t w id u :
  aw_outcomes w = [] → aw_users w !! id = Some u → takes_reset t u = true →
  (∀ j v, aw_users w !! j = Some v → j ≠ id → takes_reset t v = false) →
  ∃ n w', update_password on_error hash t w = (Ok (S n), w') ∧
    aw_users w' = <[id := with_reset hash None None (aw_now w) u]> (aw_users w) ∧ aw_outcomes w' = [].
Proof.
  intros Hout Hu Ht Hothers. unfold update_password. rewrite attempt_healthy by done.
  destruct (List.filter _ _) as [|v l] eqn:Ef.
  { assert (Hin : u ∈ List.filter (takes_reset t) (map_to_list (aw_users w)).*2).
    { apply elem_of_list_filter_bool. split; [|done]. apply list_elem_of_fmap. exists (id, u).
      split; [done|]. by apply elem_of_map_to_list. }
    rewrite Ef in Hin. by apply elem_of_nil in Hin. }
  eexists _, _. split; [done|]. split; [|done]. simpl. apply map_eq. intros j. rewrite lookup_fmap.
  destruct (decide (j = id)) as [->|Hj].
  - rewrite lookup_insert_eq, Hu. simpl. by rewrite Ht.
  - rewrite lookup_insert_ne by done. destruct (aw_users w !! j) as [v'|] eqn:Hv; simpl; [|done]. by rewrite (Hothers j v').
Qed.

Lemma update_password_miss {E} (on_error : E) hash t w :
  aw_outcomes w = [] → (∀ j v, aw_users w !! j = Some v → takes_reset t v = false) →
  update_password on_error hash t w = (Ok O, w).
Proof.
  intros Hout Hnone. unfold update_password. rewrite attempt_healthy by done.
  destruct (List.filter _ _) as [|v l] eqn:Ef.
  - f_equal. destruct w as [users otp now mails outs]. unfold set_users. simpl in *. f_equal. apply map_eq. intros j.
    rewrite lookup_fmap. destruct (users !! j) as [v|] eqn:Hv; simpl; [|done]. by rewrite (Hnone j v).
  - assert (Hin : v ∈ List.filter (takes_reset t) (map_to_list (aw_users w)).*2) by (rewrite Ef; by left).
    apply elem_of_list_filter_bool in Hin as [Hin Ht]. apply list_elem_of_fmap in Hin as ([j v'] & -> & Hin).
    apply elem_of_map_to_list in Hin. simpl in Ht. by rewrite (Hnone _ _ Hin) in Ht.
Qed.

(** The claims of the two tokens read back as those of a session. *)
Lemma login_token_claims u now :
  claims_of_value (login_token_payload u now) =
    Some {| claim_user_id := uuid_to_string (user_id u); claim_email := user_email u; claim_iat := now;
            claim_exp := (now + 300)%Z |}.
Proof. done. Qed.

(** What was read for the second factor, and that any tables with the same settings
    give the same, with the codes they hold. *)
Lemma otp_load_inv secret p w a w' :
  aw_outcomes w = [] → otp_load secret p w = (Ok (inr a), w') →
  w' = w ∧ ∃ o, aw_otp w !! user_id (oa_user a) = Some o ∧ oa_backup_codes a = otp_backup_codes_encrypted o ∧
    ∀ codes now w2, aw_outcomes w2 = [] → aw_users w2 = aw_users w → aw_now w2 = aw_now w →
      aw_otp w2 !! user_id (oa_user a) = Some (set_backup_codes codes now o) →
      otp_load secret p w2 = (Ok (inr {| oa_user := oa_user a; oa_secret := oa_secret a; oa_backup_codes := Some codes |}), w2).
Proof.
  intros Hout. unfold otp_load. destruct (bool_decide (vq_otp_code p = None) && bool_decide (vq_backup_code p = None)); [done|].
  rewrite eff_gets_bind, eff_lift_bind. destruct (jwt_decode _ (now_secs w) _) as [claims|] eqn:Ej; [|done]; cbn [map_err].
  rewrite eff_lift_bind. destruct (jget "user_id" claims ≫= as_str) as [uid|] eqn:Eu; [|done]; cbn [ok_or].
  destruct (match jget "exp" claims ≫= as_u64 with Some exp => _ | None => _ end) eqn:Ee; [done|].
  rewrite eff_lift_bind. destruct (parse_user_id uid) as [i|] eqn:Ei; [|done]; cbn [ok_or].
  rewrite select_bind, eff_lift_bind by done. destruct (active_user i w) as [u|] eqn:Ea; [|done]; cbn [ok_or].
  rewrite select_bind by done. unfold otp_required at 1. destruct (aw_otp w !! user_id u) as [o|] eqn:Eo; simpl; [|done].
  destruct (otp_enabled o) as [[]|] eqn:Een; simpl; [|done..]. rewrite select_bind, eff_lift_bind by done.
  unfold otp_row. rewrite Eo. simpl. rewrite eff_lift_bind.
  destruct (otp_secret_encrypted o) as [sec|] eqn:Es; [|done]; cbn [ok_or].
  intros [= <- <-]. split; [done|]. exists o. simpl. split; [done|]. split; [done|].
  intros codes now w2 Hout2 Husers Hnow Ho2. rewrite eff_gets_bind, eff_lift_bind. unfold now_secs in *. rewrite Hnow, Ej.
  cbn [map_err]. rewrite eff_lift_bind, Eu. cbn [ok_or]. rewrite Ee, eff_lift_bind, Ei. cbn [ok_or].
  unfold active_user, find_user in *. rewrite select_bind, eff_lift_bind, Husers, Ea by done. cbn [ok_or].
  unfold otp_required. rewrite select_bind, Ho2 by done. simpl. rewrite Een. simpl. rewrite select_bind, eff_lift_bind by done.
  unfold otp_row. rewrite Ho2. simpl. by rewrite eff_lift_bind, Es.
Qed.

Lemma set_backup_codes_twice codes now id (otp : gmap Uuid OtpSettings) :
  alter (set_backup_codes codes now) id (alter (set_backup_codes codes now) id otp) = alter (set_backup_codes codes now) id otp.
Proof.
  apply map_eq. intros j. destruct (decide (j = id)) as [->|].
  - rewrite !lookup_alter_eq. by destruct (otp !! id).
  - by rewrite !lookup_alter_ne.
Qed.

(** The check of a backup code of the list that was read. *)
Lemma otp_check_backup p a w code text codes i text' :
  aw_outcomes w = [] → vq_backup_code p = Some code → oa_backup_codes a = Some text → strings_of_json text = Some codes →
  position (λ c, String.eqb (to_uppercase c) (to_uppercase code)) codes = Some i →
  json_of_strings (base.delete i codes) = Ok text' →
  otp_check p a w = (Ok true, set_otp (alter (set_backup_codes text' (aw_now w)) (user_id (oa_user a)) (aw_otp w)) w).
Proof.
  intros Hout Hc Ha Hs Hp Hj. unfold otp_check. rewrite Hc, Ha, Hs. unfold default, id. rewrite Hp.
  unfold mbind, eff_bind, eff_lift. rewrite Hj. cbn [map_err]. unfold save_backup_codes. by rewrite attempt_healthy.
Qed.

Lemma forgot_lookup_spec w email :
  accounts_wf w →
  (∃ u, forgot_lookup email w = Some u) ↔ ∃ id u, aw_users w !! id = Some u ∧ user_email u = email ∧ user_status u = UserActive.
Proof.
  intros Hwf. unfold forgot_lookup. split.
  - intros [u Hf]. apply find_user_Some in Hf as [Hp [i Hu]]. apply andb_true_iff in Hp as [He Hs].
    apply String.eqb_eq in He. apply bool_decide_eq_true in Hs. by exists i, u.
  - intros (i & u & Hu & He & Hs). destruct (find_user _ w) as [v|] eqn:Hf; [by exists v|].
    rewrite find_user_None in Hf. specialize (Hf i u Hu). by rewrite He, String.eqb_refl, bool_decide_eq_true_2 in Hf.
Qed.
(** Once a token is stored, nothing more is sent for five minutes. *)
Lemma sent_blocks environment base_url token token' headers email w w2 id u :
  accounts_wf w → aw_users w !! id = Some u → user_status u = UserActive →
  to_lowercase (str_trim email) = user_email u → user_email u ≠ "" →
  aw_users w2 = alter (λ u, with_reset (user_encrypted_password u) (Some token) (Some (aw_now w)) (aw_now w) u) id (aw_users w) →
  aw_outcomes w2 = [] → (aw_now w2 < aw_now w + 300 * 1000000)%Z →
  forgot_password environment base_url token' headers (Some email) w2 = (Ok (forgot_answer reset_link_already_sent), w2).
Proof.
  intros Hwf Hu Hs He Hne Husers Hout Hnow. unfold forgot_password. rewrite He, (proj2 (String.eqb_neq _ _) Hne).
  set (u' := with_reset (user_encrypted_password u) (Some token) (Some (aw_now w)) (aw_now w) u).
  assert (Hu' : aw_users w2 !! id = Some u') by (rewrite Husers, lookup_alter_eq, Hu; done).
  assert (Hlook : forgot_lookup (user_email u) w2 = Some u').
  { eapply find_user_unique; [exact Hu'|simpl; by rewrite String.eqb_refl, bool_decide_eq_true_2|].
    intros j v Hv Hp. destruct (decide (j = id)); [done|]. rewrite Husers, lookup_alter_ne in Hv by done.
    eapply (emails_unique _ Hwf); [exact Hv|exact Hu|]. apply andb_true_iff in Hp as [Hp _]. by apply String.eqb_eq in Hp. }
  rewrite select_bind, Hlook, select_bind, eff_gets_bind by done. simpl. rewrite (user_ids _ Hwf _ _ Hu), Hu'. simpl.
  rewrite (proj2 (Z.ltb_lt _ 300)); [done|]. destruct (Z.le_gt_cases 0 (aw_now w2 - aw_now w)).
  - rewrite Z.quot_div_nonneg by lia. apply Z.div_lt_upper_bound; lia.
  - pose proof (Z.quot_le_mono (aw_now w2 - aw_now w) 0 1000000). rewrite Z.quot_0_l in *; lia.
Qed.
End lemmas.

Lemma position_lt {A} (p : A → bool) l i : position p l = Some i → ∃ x, l !! i = Some x ∧ p x = true.
Proof.
  revert i. induction l as [|x l IH]; simpl; [done|]. intros i. destruct (p x) eqn:Hx; [intros [= <-]; by exists x|].
  destruct (position p l) as [j|]; [|done]. intros [= <-]. apply (IH j eq_refl).
Qed.

Lemma position_None {A} (p : A → bool) l : (∀ x, x ∈ l → p x = false) → position p l = None.
Proof.
  induction l as [|x l IH]; [done|]. intros Hall. simpl. rewrite (Hall x) by left. rewrite IH; [done|].
  intros y Hy. apply Hall. by right.
Qed.

(** ** Properties *)

Section properties.
Context `{P : Platform} `{A : AuthLib}.

(** The email and the password are those of a confirmed and active user. *)
Definition authenticated (p : LoginRequest) (w : AccountWorld) (u : User) : Prop :=
  login_lookup (to_lowercase (str_trim (lq_email p))) w = Some u ∧ User_is_confirmed u = true ∧
  User_is_active u = true ∧ verify_password (lq_password p) (user_encrypted_password u) = Ok true.

(** C32: who logs in.  A log in changes nothing; it gives a session token exactly for
    the email and password of a confirmed, active user without a second factor, and
    a token that waits for the second factor exactly for one with it. *)
Theorem login_grants_iff (secret : string) (p : LoginRequest) (w w' : AccountWorld) (resp : LoginResponse) (t : string) :
  login secret (Some p) w = (Ok resp, w') →
  (aw_users w' = aw_users w ∧ aw_otp w' = aw_otp w ∧ aw_mails w' = aw_mails w) ∧
  (login_token resp = Some t ↔ ∃ u, authenticated p w u ∧ otp_required (user_id u) w = false ∧
     JwtService_encode secret (now_secs w) (uuid_to_string (user_id u)) (user_email u) = Ok t ∧
     resp = login_granted t u) ∧
  (login_login_token resp = Some t ↔ ∃ u, authenticated p w u ∧ otp_required (user_id u) w = true ∧
     jwt_encode secret (login_token_payload u (now_secs w)) = Ok t ∧ resp = login_otp_required t).
Proof.
  intros Hl. apply login_cases in Hl as [[o ->] Hcases]. split; [done|]. unfold authenticated.
  destruct Hcases as [[e ->]|(u & Hlook & Hc & Ha & Hv & [(Ho & t' & Ht & ->)|(Ho & t' & Ht & ->)])]; simpl.
  - split; (split; [done|]); intros (u & _ & _ & _ & [=]).
  - split; (split; [|naive_solver]); [done|]. intros [= <-]. exists u. eauto 10.
  - split; (split; [|naive_solver]); [|done]. intros [= <-]. exists u. eauto 10.
Qed.

(** the second factor can be left out.  The token that a log in gives to a user
    with a second factor, to be shown with the code, is accepted as it is by the
    middleware of the dashboard: for six minutes it opens a session without a code. *)
Theorem login_token_opens_session `{!AuthLaws P A} (secret : string) (p : LoginRequest) (w w' w2 : AccountWorld)
    (resp : LoginResponse) (t : string) (headers : gmap string (option string)) :
  login secret (Some p) w = (Ok resp, w') → login_requires_otp resp = Some true → login_login_token resp = Some t →
  headers !! "authorization" = Some (Some ("Bearer " +:+ t)) →
  accounts_wf w → accounts_wf w2 → aw_users w2 = aw_users w → aw_outcomes w2 = [] →
  (now_secs w2 ≤ now_secs w + 360)%Z →
  ∃ u, authenticated p w u ∧ otp_required (user_id u) w = true ∧ jwt_auth_middleware secret headers w2 = (Ok u, w2).
Proof.
  intros Hl Hreq Htok Hh Hwf Hwf2 Husers Hout Hnow. apply login_cases in Hl as [_ Hcases].
  destruct Hcases as [[e ->]|(u & Hlook & Hc & Ha & Hv & [(Ho & t' & Ht & ->)|(Ho & t' & Ht & ->)])]; try done.
  injection Htok as ->. exists u. split; [done|]. split; [done|].
  assert (Hdec : JwtService_decode secret (now_secs w2) t =
                   Ok {| claim_user_id := uuid_to_string (user_id u); claim_email := user_email u; claim_iat := now_secs w;
                         claim_exp := (now_secs w + 300)%Z |}).
  { unfold JwtService_decode. erewrite jwt_roundtrip; [|exact Ht|done|lia]. done. }
  assert (Hhdr : header_text headers "authorization" ≫= strip_prefix "Bearer " = Some t).
  { unfold header_text. rewrite Hh. by apply strip_prefix_Some. }
  unfold jwt_auth_middleware. rewrite Hhdr. unfold mbind, eff_bind, eff_gets, eff_lift. rewrite Hdec.
  cbn [map_err claim_user_id]. rewrite parse_user_id_to_string. cbn [ok_or].
  unfold select. rewrite attempt_healthy by done.
  apply find_user_Some in Hlook as [_ [i Hu]]. rewrite <-Husers in Hu.
  pose proof (user_ids _ Hwf2 _ _ Hu) as <-. pose proof Ha as Ha'. apply bool_decide_eq_true in Ha'.
  rewrite (proj2 (active_user_spec w2 (user_id u) u Hwf2) (conj Hu Ha')). by rewrite Ha.
Qed.

(** a reset link never expires, and is good for one reset.  Whenever an active
    user has a reset token, however long ago it was sent, a reset with the token and
    a good password succeeds: it sets the password of that user alone and forgets
    the token; then the token is refused and changes nothing. *)
Theorem reset_link_single_use_no_expiry (salt salt' new_password new_password' hash hash' t : string) (w : AccountWorld)
    (id : Uuid) (u : User) :
  accounts_wf w → aw_outcomes w = [] → aw_users w !! id = Some u → user_status u = UserActive →
  user_reset_password_token u = Some t → str_trim t = t → t ≠ "" →
  validate_password new_password = Ok tt → hash_password salt new_password = Ok hash →
  validate_password new_password' = Ok tt → hash_password salt' new_password' = Ok hash' →
  ∃ w', reset_password salt (Some {| rq_token := t; rq_new_password := new_password |}) w
      = (Ok {| reset_success := true; reset_error := None |}, w') ∧
    aw_users w' = <[id := with_reset hash None None (aw_now w) u]> (aw_users w) ∧
    ∃ e, reset_password salt' (Some {| rq_token := t; rq_new_password := new_password' |}) w'
      = (Ok {| reset_success := false; reset_error := Some e |}, w').
Proof.
  intros Hwf Hout Hu Hs Ht Htrim Hne Hv1 Hh1 Hv2 Hh2.
  assert (Htakes : takes_reset t u = true) by (unfold takes_reset; by rewrite !bool_decide_eq_true_2).
  assert (Hothers : ∀ j v, aw_users w !! j = Some v → j ≠ id → takes_reset t v = false).
  { intros j v Hv Hj. destruct (takes_reset t v) eqn:Et; [|done]. apply andb_true_iff in Et as [Et _].
    apply bool_decide_eq_true in Et. destruct Hj. by eapply (tokens_unique _ Hwf j id v u t). }
  rewrite (reset_password_run salt t new_password hash w Htrim Hne Hv1 Hh1).
  destruct (update_password_hit (reset_failure 500 "Server error. Please try again.") hash t w id u) as (n & w' & -> & Husers & Hout');
    [done..|].
  exists w'. split_and!; [done|exact Husers|]. eexists.
  rewrite (reset_password_run salt' t new_password' hash' w' Htrim Hne Hv2 Hh2).
  erewrite update_password_miss; [done|done|]. rewrite Husers. intros j v. destruct (decide (j = id)) as [->|Hj].
  - rewrite lookup_insert_eq. by intros [= <-].
  - rewrite lookup_insert_ne by done. eauto.
Qed.

(** a backup code can be spent twice.  Two attempts that read the codes before
    either checks its own both pass with the same code; when the second one reads
    after the first has checked, it is refused, unless the list had the code twice. *)
Theorem backup_code_spent_twice `{!AuthLaws P A} (secret : string) (p : VerifyOtpLoginRequest) (a : OtpAttempt)
    (w w1 : AccountWorld) (code text text' : string) (codes : list string) (i : nat) :
  aw_outcomes w = [] → otp_load secret p w = (Ok (inr a), w1) → vq_backup_code p = Some code →
  oa_backup_codes a = Some text → strings_of_json text = Some codes →
  position (λ c, String.eqb (to_uppercase c) (to_uppercase code)) codes = Some i →
  json_of_strings (base.delete i codes) = Ok text' →
  ∃ w2, otp_check p a w1 = (Ok true, w2) ∧ otp_check p a w2 = (Ok true, w2) ∧
    ∃ a2, otp_load secret p w2 = (Ok (inr a2), w2) ∧
      ((∀ c, c ∈ base.delete i codes → to_uppercase c ≠ to_uppercase code) → otp_check p a2 w2 = (Ok false, w2)).
Proof.
  intros Hout Hload Hc Ha Hs Hp Hj. destruct (otp_load_inv _ _ _ _ _ Hout Hload) as (-> & o & Ho & _ & Hagain).
  pose proof (otp_check_backup p a w code text codes i text' Hout Hc Ha Hs Hp Hj) as Hcheck.
  set (w2 := set_otp _ w) in Hcheck. exists w2. split; [done|].
  assert (Ho2 : aw_otp w2 !! user_id (oa_user a) = Some (set_backup_codes text' (aw_now w) o)).
  { unfold w2. simpl. by rewrite lookup_alter_eq, Ho. }
  split.
  - rewrite (otp_check_backup p a w2 code text codes i text' Hout Hc Ha Hs Hp Hj). unfold w2, set_otp. simpl.
    by rewrite set_backup_codes_twice.
  - eexists. split; [by apply (Hagain text' (aw_now w))|]. intros Hrest. unfold otp_check. rewrite Hc. cbn [oa_backup_codes].
    rewrite (json_strings_roundtrip _ _ Hj). unfold default, id. rewrite position_None; [done|].
    intros c Hin. apply String.eqb_neq. by apply Hrest.
Qed.

(** the answers tell whether an account exists.  When a request for a link was
    answered with "has been sent", a second one within five minutes is answered with
    "was already sent" exactly when an active account has that email. *)
Theorem forgot_password_reveals_account (environment base_url token token' : string)
    (headers headers' : gmap string (option string)) (email : string) (w w1 w2 : AccountWorld) :
  accounts_wf w → aw_outcomes w = [] →
  forgot_password environment base_url token headers (Some email) w = (Ok (forgot_answer reset_link_sent), w1) →
  aw_users w2 = aw_users w1 → aw_outcomes w2 = [] → (aw_now w2 < aw_now w + 300 * 1000000)%Z →
  (forgot_password environment base_url token' headers' (Some email) w2).1 = Ok (forgot_answer reset_link_already_sent) ↔
  ∃ id u, aw_users w !! id = Some u ∧ user_email u = to_lowercase (str_trim email) ∧ user_status u = UserActive.
Proof.
  intros Hwf Hout H1 Husers Hout2 Hnow. rewrite <-(forgot_lookup_spec w _ Hwf). revert H1.
  unfold forgot_password at 1. destruct (String.eqb_spec (to_lowercase (str_trim email)) "") as [|Hne]; [done|].
  rewrite !select_bind by done. destruct (forgot_lookup _ w) as [u|] eqn:Hlook.
  - rewrite select_bind, eff_gets_bind by done. pose proof Hlook as Hf. apply find_user_Some in Hf as [Hp [i Hu]].
    destruct (sent_recently _ _); [by intros [=]|]. rewrite eff_bind_eq. unfold save_reset_token at 1.
    rewrite (attempt_healthy _ _ w Hout). destruct (existsb _ _); [done|]. rewrite eff_bind_eq. unfold send_reset_email at 1.
    rewrite attempt_healthy by done. intros [= <-]. split; [by intros _; exists u|]. intros _. simpl in Husers.
    apply andb_true_iff in Hp as [He Hs]. apply String.eqb_eq in He. apply bool_decide_eq_true in Hs.
    rewrite (user_ids _ Hwf _ _ Hu) in Husers. by erewrite (sent_blocks _ _ token) by done || congruence.
  - intros [= <-]. assert (Hl2 : forgot_lookup (to_lowercase (str_trim email)) w2 = None).
    { unfold forgot_lookup, find_user in *. by rewrite Husers. }
    unfold forgot_password. rewrite (proj2 (String.eqb_neq _ _) Hne), select_bind, Hl2 by done. simpl. split; [by intros [=]|by intros [u [=]]].
Qed.

(** a link that could not be sent blocks the next.  When only the message fails,
    the answer is an error, but the new token is stored as sent; a second request within
    five minutes is answered as if the link was in the inbox, and sends nothing. *)
Theorem failed_mail_blocks_reset (environment base_url token token' e : string)
    (headers headers' : gmap string (option string)) (email : string) (w : AccountWorld) (id : Uuid) (u : User) :
  accounts_wf w → aw_outcomes w = [None; None; None; Some e] → to_lowercase (str_trim email) = user_email u →
  user_email u ≠ "" → aw_users w !! id = Some u → user_status u = UserActive →
  sent_recently (aw_now w) (user_reset_password_sent_at u) = false →
  (∀ j v, aw_users w !! j = Some v → user_reset_password_token v ≠ Some token) →
  ∃ w1, forgot_password environment base_url token headers (Some email) w
      = (Err (forgot_failure 500 "Server error. Please try again."), w1) ∧ aw_mails w1 = aw_mails w ∧
    ∀ w2, aw_users w2 = aw_users w1 → aw_outcomes w2 = [] → (aw_now w2 < aw_now w + 300 * 1000000)%Z →
      forgot_password environment base_url token' headers' (Some email) w2 = (Ok (forgot_answer reset_link_already_sent), w2).
Proof.
  intros Hwf Hout He Hne Hu Hs Hold Hfresh. eexists.
  assert (Hrun : forgot_password environment base_url token headers (Some email) w
    = (Err (forgot_failure 500 "Server error. Please try again."),
       set_account_outcomes [] (set_users (alter (λ u, with_reset (user_encrypted_password u) (Some token)
         (Some (aw_now w)) (aw_now w) u) id (aw_users w)) w))).
  { unfold forgot_password. rewrite He, (proj2 (String.eqb_neq _ _) Hne).
    assert (Hlook : forgot_lookup (user_email u) w = Some u).
    { eapply find_user_unique; [exact Hu|simpl; by rewrite String.eqb_refl, bool_decide_eq_true_2|].
      intros j v Hv Hp. apply andb_true_iff in Hp as [Hp _]. apply String.eqb_eq in Hp. by eapply (emails_unique _ Hwf). }
    assert (Hnone : existsb (λ u0, bool_decide (user_reset_password_token u0 = Some token) && negb (bool_decide (user_id u0 = id)))
      (map_to_list (aw_users w)).*2 = false).
    { apply not_true_iff_false. rewrite existsb_exists. intros (v & Hin & Hv). apply andb_true_iff in Hv as [Hv _].
      apply bool_decide_eq_true in Hv. apply list_elem_of_In, list_elem_of_fmap in Hin as ([j v'] & -> & Hin).
      apply elem_of_map_to_list in Hin. by eapply Hfresh. }
    rewrite (select_bind_ok _ _ _ _ _ Hout). change (forgot_lookup (user_email u) (set_account_outcomes [None; None; Some e] w))
      with (forgot_lookup (user_email u) w).
    rewrite Hlook. erewrite select_bind_ok by done. rewrite eff_gets_bind. simpl. rewrite (user_ids _ Hwf _ _ Hu), Hu. simpl.
    rewrite Hold, eff_bind_eq. unfold save_reset_token, attempt. simpl. by rewrite Hnone. }
  split; [exact Hrun|]. split; [done|]. intros w2 Husers Hout2 Hnow. by apply (sent_blocks _ _ token token' headers' email w w2 id u).
Qed.

(** the tables stay well formed.  Whatever the request and the failures of the
    database and the mail server, every handler keeps each row at its id, emails
    unique and reset tokens unique. *)
Theorem handlers_keep_accounts_wf (secret salt environment base_url token : string) (headers : gmap string (option string))
    (lq : option LoginRequest) (vq : VerifyOtpLoginRequest) (fq : option string) (rq : option ResetPasswordRequest)
    (w : AccountWorld) :
  accounts_wf w →
  accounts_wf (login secret lq w).2 ∧ accounts_wf (verify_otp_login secret vq w).2 ∧
  accounts_wf (forgot_password environment base_url token headers fq w).2 ∧ accounts_wf (reset_password salt rq w).2 ∧
  accounts_wf (jwt_auth_middleware secret headers w).2.
Proof.
  intros Hw. split_and!; revert w Hw.
  - change (keeps_wf (login secret lq)). unfold login. preserves_tac.
  - change (keeps_wf (verify_otp_login secret vq)). unfold verify_otp_login, otp_load, otp_finish, otp_check. preserves_tac.
  - change (keeps_wf (forgot_password environment base_url token headers fq)). unfold forgot_password. preserves_tac.
  - change (keeps_wf (reset_password salt rq)). unfold reset_password. preserves_tac.
  - change (keeps_wf (jwt_auth_middleware secret headers)). unfold jwt_auth_middleware. preserves_tac.
Qed.
End properties.

(** ** Witnesses *)

(** Values as text: the bits of their code. *)
Fixpoint bits_of (p : positive) : string :=
  match p with xH => EmptyString | xO p => String "0" (bits_of p) | xI p => String "1" (bits_of p) end.
Fixpoint of_bits (s : string) : positive :=
  match s with EmptyString => xH | String a s => if Ascii.eqb a "0" then xO (of_bits s) else xI (of_bits s) end.
Definition text_of {A} `{Countable A} (x : A) : string := bits_of (encode x).
Definition of_text {A} `{Countable A} (s : string) : option A := decode (of_bits s).

Lemma of_text_of {A} `{Countable A} (x : A) : of_text (text_of x) = Some x.
Proof.
  unfold of_text, text_of. assert (Hb : ∀ p, of_bits (bits_of p) = p) by (induction p as [p IH|p IH|]; simpl; congruence).
  by rewrite Hb, decode_encode.
Qed.

Arguments text_of : simpl never.
Arguments of_text : simpl never.

(** The claims of a token whose values are texts, numbers and booleans. *)
Abbreviation flat := (string + bool + Z)%type.
Definition flatten (v : json) : option flat :=
  match v with
  | JString s => Some (inl (inl s)) | JBool b => Some (inl (inr b)) | JNumber (PosInt n) => Some (inr n) | _ => None
  end.
Definition unflatten (f : flat) : json :=
  match f with inl (inl s) => JString s | inl (inr b) => JBool b | inr n => json_of_u64 n end.

Definition flat_claims (v : json) : option (list (string * flat)) :=
  match v with JObject o => mapM (λ kv, pair kv.1 <$> flatten kv.2) o | _ => None end.
Definition claims_flat (l : list (string * flat)) : json := JObject (prod_map id unflatten <$> l).

Lemma claims_flat_claims v l : flat_claims v = Some l → claims_flat l = v.
Proof.
  destruct v as [| | | | |o]; simpl; [done..|]. unfold claims_flat. intros Hm. f_equal. revert l Hm.
  induction o as [|[k v] o IH]; simpl; intros l Hm; [by injection Hm as <-|].
  destruct (flatten v) as [f|] eqn:Ef; simpl in Hm; [|done].
  destruct (mapM _ o) as [l'|]; simpl in Hm; [|done]. injection Hm as <-. simpl. rewrite IH by done. f_equal.
  unfold prod_map. simpl. f_equal. destruct v as [|b|[n| |]|s| |]; simpl in Ef; try done; by injection Ef as <-.
Qed.

Arguments claims_flat : simpl never.

Definition account_platform : Platform := {|
  to_lowercase := str_map ascii_lower;
  to_uppercase := str_map ascii_upper;
  f64_to_string := reference_f64_to_string;
  uuid_to_string := text_of;
  hex_encode := reference_hex_encode;
  base64_encode := reference_base64_encode;
  format_compact := λ t, reference_platform.(format_compact) t;
  to_rfc3339 := λ t, reference_platform.(to_rfc3339) t;
  serialize_datetime := λ t, reference_platform.(serialize_datetime) t;
  serialize_date := λ t, reference_platform.(serialize_date) t
|}.

Definition account_lib : AuthLib := {|
  argon2_hash := λ salt password, Ok (salt +:+ "$" +:+ password);
  password_hash_new := λ hash, if str_contains "$" hash then Ok hash else Err "PhcStringField";
  argon2_verify_password := λ password hash, if String.eqb hash ("salt$" +:+ password) then Ok tt else Err Argon2Password;
  jwt_encode := λ secret claims, l ← ok_or "claims" (flat_claims claims); Ok (text_of (secret, l));
  jwt_decode := λ secret now token,
    match of_text token with
    | Some (s, l) =>
        if String.eqb s secret then
          match jget "exp" (claims_flat l) ≫= as_u64 with
          | Some exp => if (exp + 60 <? now)%Z then Err "ExpiredSignature" else Ok (claims_flat l)
          | None => Err "Missing required claim: exp"
          end
        else Err "InvalidSignature"
    | None => Err "InvalidToken"
    end;
  totp_new := λ _, Ok tt;
  totp_check := λ _ _ _, false;
  hmac_sha256_hex := λ secret message, text_of (secret, message);
  hmac_verify_slice := λ secret message signature,
    if String.eqb signature (text_of (secret, message)) then Ok tt else Err "MAC tag mismatch";
  hex_decode := Ok;
  strings_of_json := of_text;
  json_of_strings := λ l, Ok (text_of l);
  parse_user_id := of_text;
  sql_lower := str_map ascii_lower;
  unicode_uppercase := λ _, false;
  unicode_lowercase := λ _, false
|}.

#[local] Existing Instance account_platform.
#[local] Existing Instance account_lib.

#[export] Instance account_lib_laws : AuthLaws account_platform account_lib.
Proof.
  split.
  - intros secret claims token exp now He Hexp Hnow. cbn [jwt_encode jwt_decode account_lib] in *. destruct (flat_claims claims) as [l|] eqn:El; [|done].
    injection He as <-. rewrite of_text_of, String.eqb_refl, (claims_flat_claims _ _ El), Hexp. cbn [mbind option_bind as_u64 json_of_u64].
    by rewrite (proj2 (Z.ltb_ge _ _)).
  - intros secret claims token exp now He Hexp Hnow. cbn [jwt_encode jwt_decode account_lib] in *. destruct (flat_claims claims) as [l|] eqn:El; [|done].
    injection He as <-. rewrite of_text_of, String.eqb_refl, (claims_flat_claims _ _ El), Hexp. cbn [mbind option_bind as_u64 json_of_u64].
    rewrite (proj2 (Z.ltb_lt _ _)) by done. by eexists.
  - intros id. apply of_text_of.
  - intros l text [= <-]. apply of_text_of.
Qed.

Definition sample_user (token : option string) (sent_at : option DateTime) : User := {|
  user_id := 7%N; user_email := "ann@example.com"; user_encrypted_password := "salt$Passw0rd"; user_first_name := Some "Ann";
  user_last_name := None; user_status := UserActive; user_confirmed_at := Some 0%Z; user_created_at := 0%Z;
  user_updated_at := 0%Z; user_reset_password_token := token; user_reset_password_sent_at := sent_at |}.

Definition sample_otp : OtpSettings := {|
  otp_enabled := Some true; otp_secret_encrypted := Some "secret"; otp_backup_codes_encrypted := Some (text_of ["AB12"; "CD34"]);
  otp_updated_at := 0%Z |}.

Definition sample_accounts (token : option string) (otp : gmap Uuid OtpSettings) (now : Z) (outcomes : list (option string))
    : AccountWorld := {|
  aw_users := {[7%N := sample_user token None]}; aw_otp := otp; aw_now := (now * 1000000)%Z; aw_mails := [];
  aw_outcomes := outcomes |}.

Lemma sample_accounts_wf token otp now outcomes : accounts_wf (sample_accounts token otp now outcomes).
Proof.
  split; simpl.
  - intros i u [<- <-]%lookup_singleton_Some. done.
  - intros i j u v [<- <-]%lookup_singleton_Some [<- <-]%lookup_singleton_Some. done.
  - intros i j u v t [<- <-]%lookup_singleton_Some [<- <-]%lookup_singleton_Some. done.
Qed.

Definition sample_login : LoginRequest := {| lq_email := " Ann@example.com"; lq_password := "Passw0rd" |}.

Lemma login_grants_iff_witness :
  let w := sample_accounts None ∅ 1000 [] in
  ∃ resp t u, (login "s" (Some sample_login) w).1 = Ok resp ∧ login_token resp = Some t ∧ authenticated sample_login w u.
Proof.
  intros w. destruct (login "s" (Some sample_login) w) as [[resp|e] w'] eqn:El; [|by vm_compute in El].
  destruct (login_token resp) as [t|] eqn:Et.
  - exists resp, t. destruct (login_grants_iff "s" sample_login w w' resp t El) as (_ & [Hg _] & _).
    destruct (Hg Et) as (u & Hu & _). by exists u.
  - exfalso. revert Et. assert (Hr : Ok resp = (login "s" (Some sample_login) w).1) by (by rewrite El).
    vm_compute in Hr. injection Hr as ->. done.
Defined.

Lemma login_token_opens_session_witness :
  let w := sample_accounts None {[7%N := sample_otp]} 1000 [] in
  let w2 := sample_accounts None ∅ 1360 [] in
  ∃ t u, jwt_auth_middleware "s" {["authorization" := Some ("Bearer " +:+ t)]} w2 = (Ok u, w2).
Proof.
  intros w w2. set (t := text_of ("s", default [] (flat_claims (login_token_payload (sample_user None None) 1000)))).
  exists t. destruct (login_token_opens_session "s" sample_login w w w2 (login_otp_required t) t
    {["authorization" := Some ("Bearer " +:+ t)]}) as (u & _ & _ & Hu); [..|by exists u].
  - vm_compute. reflexivity.
  - done.
  - done.
  - by rewrite lookup_singleton_eq.
  - apply sample_accounts_wf.
  - apply sample_accounts_wf.
  - done.
  - done.
  - vm_compute. done.
Defined.

Lemma reset_link_single_use_no_expiry_witness :
  let w := sample_accounts (Some "tok") ∅ 1000000 [] in
  ∃ w', reset_password "salt" (Some {| rq_token := "tok"; rq_new_password := "Another1" |}) w
      = (Ok {| reset_success := true; reset_error := None |}, w').
Proof.
  intros w. destruct (reset_link_single_use_no_expiry "salt" "salt" "Another1" "Another2" "salt$Another1" "salt$Another2" "tok" w
    7%N (sample_user (Some "tok") None)) as (w' & Hr & _); [apply sample_accounts_wf|done..|by exists w'].
Defined.

Definition sample_attempt : VerifyOtpLoginRequest := {|
  vq_login_token := text_of ("s", default [] (flat_claims (login_token_payload (sample_user None None) 1000)));
  vq_otp_code := None; vq_backup_code := Some "cd34" |}.

Lemma backup_code_spent_twice_witness :
  let w := sample_accounts None {[7%N := sample_otp]} 1000 [] in
  ∃ a w2, otp_check sample_attempt a w = (Ok true, w2) ∧ otp_check sample_attempt a w2 = (Ok true, w2).
Proof.
  intros w. set (a := {| oa_user := sample_user None None; oa_secret := "secret";
                         oa_backup_codes := Some (text_of ["AB12"; "CD34"]) |}).
  exists a. destruct (backup_code_spent_twice "s" sample_attempt a w w "cd34" (text_of ["AB12"; "CD34"]) (text_of ["AB12"])
    ["AB12"; "CD34"] 1) as (w2 & H1 & H2 & _); [done|vm_compute; reflexivity|done|done|vm_compute; reflexivity|done|done|].
  by exists w2.
Defined.

Definition after_forgot (token : string) (w : AccountWorld) : AccountWorld :=
  (forgot_password "production" "https://x" token ∅ (Some "ann@example.com") w).2.

Lemma forgot_password_reveals_account_witness :
  let w := sample_accounts None ∅ 1000 [] in
  ∃ w2, (forgot_password "production" "https://x" "tok2" ∅ (Some "ann@example.com") w2).1
    = Ok (forgot_answer reset_link_already_sent).
Proof.
  intros w. exists (set_users (aw_users (after_forgot "tok" w)) (sample_accounts None ∅ 1299 [])).
  refine (proj2 (forgot_password_reveals_account "production" "https://x" "tok" "tok2" ∅ ∅ "ann@example.com" w
    (after_forgot "tok" w) _ _ eq_refl _ eq_refl eq_refl _) _).
  - apply sample_accounts_wf.
  - vm_compute. reflexivity.
  - vm_compute. reflexivity.
  - exists 7%N, (sample_user None None). split_and!; vm_compute; reflexivity.
Defined.

Lemma failed_mail_blocks_reset_witness :
  let w := sample_accounts None ∅ 1000 [None; None; None; Some "smtp"] in
  ∃ w1, forgot_password "production" "https://x" "tok" ∅ (Some "ann@example.com") w
    = (Err (forgot_failure 500 "Server error. Please try again."), w1).
Proof.
  intros w. destruct (failed_mail_blocks_reset "production" "https://x" "tok" "tok2" "smtp" ∅ ∅ "ann@example.com" w 7%N
    (sample_user None None)) as (w1 & Hr & _); [apply sample_accounts_wf|done..| |by exists w1].
  intros j v Hv. unfold w in Hv. simpl in Hv. apply lookup_singleton_Some in Hv as [<- <-]. done.
Defined.

Lemma handlers_keep_accounts_wf_witness :
  accounts_wf (forgot_password "production" "https://x" "tok" ∅ (Some "ann@example.com") (sample_accounts None ∅ 1000 [])).2.
Proof.
  apply (handlers_keep_accounts_wf "s" "salt" "production" "https://x" "tok" ∅ None sample_attempt (Some "ann@example.com") None
    (sample_accounts None ∅ 1000 [])), sample_accounts_wf.
Defined.
