(* ===== verification/ApiAuth.v ===== *)
(** * Authentication of publishers

    [crates/api/src/middleware/api_auth.rs] and [hmac.rs], in the order in which
    [main.rs] puts them around the routes of the leads, with the statements of
    [models/publisher.rs].  The lookup of an API key goes through the cache of
    [Cache.v] when the server has one. *)

From stdpp Require Import base list strings gmap.
From Stdlib Require Import Ascii String ZArith NArith Lia.
From S2P Require Import Prelude Float64 Platform Json Models Cache Accounts.

Open Scope string_scope.
Open Scope list_scope.

(** ** State *)

(** The publishers by id, the cache, the time in microseconds, and the outcomes of the
    next database statements. *)
Record ApiWorld (L1 L2 : Type) : Type := {
  api_publishers : gmap Uuid Publisher;
  api_cache : CacheState L1 L2;
  api_now : DateTime;
  api_outcomes : list (option string)
}.
Arguments api_publishers {_ _}. Arguments api_cache {_ _}. Arguments api_now {_ _}. Arguments api_outcomes {_ _}.

Section setters.
Context {L1 L2 : Type}.
Implicit Types w : ApiWorld L1 L2.

Definition set_api_publishers (publishers : gmap Uuid Publisher) w : ApiWorld L1 L2 := {|
  api_publishers := publishers; api_cache := api_cache w; api_now := api_now w; api_outcomes := api_outcomes w |}.
Definition set_api_cache (c : CacheState L1 L2) w : ApiWorld L1 L2 := {|
  api_publishers := api_publishers w; api_cache := c; api_now := api_now w; api_outcomes := api_outcomes w |}.
Definition set_api_outcomes (o : list (option string)) w : ApiWorld L1 L2 := {|
  api_publishers := api_publishers w; api_cache := api_cache w; api_now := api_now w; api_outcomes := o |}.

#[export] Instance api_world_has_cache : HasCache L1 L2 (ApiWorld L1 L2) := {|
  cache_of := api_cache; with_cache := set_api_cache; clock := λ w, (api_now w / 1000)%Z;
  cache_of_with := λ c w, eq_refl; with_cache_with := λ c c' w, eq_refl; clock_with := λ c w, eq_refl
|}.

(** The unique columns. *)
Record publishers_wf w : Prop := {
  publisher_ids i p : api_publishers w !! i = Some p → publisher_id p = i;
  key_hashes_unique i j p q : api_publishers w !! i = Some p → api_publishers w !! j = Some q →
    publisher_api_key_hash p = publisher_api_key_hash q → i = j
}.
End setters.

(** [total_requests + 1] and the time of the request. *)
Definition requested (now : DateTime) (p : Publisher) : Publisher := {|
  publisher_id := publisher_id p; publisher_name := publisher_name p; publisher_email := publisher_email p;
  publisher_api_key_hash := publisher_api_key_hash p; publisher_api_key_prefix := publisher_api_key_prefix p;
  publisher_api_key_encrypted := publisher_api_key_encrypted p; publisher_status := publisher_status p;
  publisher_total_requests := publisher_total_requests p + 1; publisher_last_request_at := Some now;
  publisher_instance_id := publisher_instance_id p; publisher_instance_user_id := publisher_instance_user_id p;
  publisher_is_documentation_test := publisher_is_documentation_test p;
  publisher_hmac_secret_hash := publisher_hmac_secret_hash p; publisher_hmac_secret_prefix := publisher_hmac_secret_prefix p;
  publisher_hmac_required := publisher_hmac_required p; publisher_hmac_secret_encrypted := publisher_hmac_secret_encrypted p;
  publisher_deleted_at := publisher_deleted_at p; publisher_created_at := publisher_created_at p;
  publisher_updated_at := publisher_updated_at p;
  publisher_representative_first_name := publisher_representative_first_name p;
  publisher_representative_last_name := publisher_representative_last_name p;
  publisher_address_street := publisher_address_street p; publisher_address_city := publisher_address_city p;
  publisher_address_state := publisher_address_state p; publisher_address_zip := publisher_address_zip p;
  publisher_timezone := publisher_timezone p; publisher_ein_tin := publisher_ein_tin p |}.

(** The status and the message of a refused request; some have no body. *)
Abbreviation Refusal := (Z * option string)%type.
Definition unauthorized_json (message : string) : Refusal := (401%Z, Some message).

(** A response, or what goes on to the next layer. *)
Abbreviation Verdict := (sum Refusal).

Section api.
(** [sha256_hex]: SHA-256 as hexadecimal text. *)
Context `{Platform} (sha256_hex : string → string).
Context {L1 L2 : Type} `{TtlStore L1} `{TtlStore L2}.
Implicit Types w : ApiWorld L1 L2.
Abbreviation api := (eff (ApiWorld L1 L2) Failure).

(** A database statement: on an error nothing changes. *)
Definition api_statement {A} (m : ApiWorld L1 L2 → Result Failure A * ApiWorld L1 L2) : api A := λ w,
  match api_outcomes w with
  | Some e :: rest => (Err (Failed ("Database error: " +:+ e)), set_api_outcomes rest w)
  | None :: rest => m (set_api_outcomes rest w)
  | [] => m w
  end.

(** [WHERE api_key_hash = $1 AND deleted_at IS NULL]. *)
Definition publisher_by_hash (hash : string) w : option Publisher :=
  List.find (λ p, String.eqb (publisher_api_key_hash p) hash && bool_decide (publisher_deleted_at p = None))
    (map_to_list (api_publishers w)).*2.

Definition find_by_api_key (api_key : string) : api (option Publisher) :=
  let trimmed_key := str_trim api_key in
  if String.eqb trimmed_key "" then mret None
  else api_statement (λ w, (Ok (publisher_by_hash (sha256_hex trimmed_key) w), w)).

(** The counter is a 32-bit column: at its maximum the statement fails. *)
Definition record_request (id : Uuid) : api unit :=
  api_statement (λ w,
    match api_publishers w !! id with
    | Some p =>
        if (i32_max <=? publisher_total_requests p)%Z then (Err (Failed "Database error: integer out of range"), w)
        else (Ok tt, set_api_publishers (<[id := requested (api_now w) p]> (api_publishers w)) w)
    | None => (Ok tt, w)
    end).

Definition api_cache_key (api_key : string) : string := "publisher:api_key:" +:+ sha256_hex (str_trim api_key).

(** The lookup behind the cache, when [state.cache] is there. *)
Definition lookup_api_key (serde : Serde (option Publisher)) (has_cache : bool) (api_key : string) : api (option Publisher) :=
  if has_cache then get_or_insert_with serde (api_cache_key api_key) 3600 (find_by_api_key api_key)
  else find_by_api_key api_key.

(** Header names are in lower case. *)
Definition api_key_auth_middleware (serde : Serde (option Publisher)) (has_cache : bool)
    (headers : gmap string (option string)) : api (Verdict Publisher) :=
  match header_text headers "x-api-key" with
  | None => mret (inl (unauthorized_json "Missing X-API-Key header"))
  | Some api_key =>
      publisher ← catch (lookup_api_key serde has_cache api_key);
      match publisher with
      | Ok (Some publisher) =>
          if negb (Publisher_active publisher) then mret (inl (unauthorized_json "Publisher account is not active"))
          else
            _ ← catch (record_request (publisher_id publisher));
            mret (inr publisher)
      | Ok None => mret (inl (unauthorized_json "Invalid or unknown API key"))
      | Err _ => mret (inl (500%Z, None))
      end
  end.

(** ** Signatures *)

(** [equal |= a ^ b] over the bytes of both texts, up to the end of the shorter. *)
Fixpoint differences (equal : N) (expected provided : string) : N :=
  match expected, provided with
  | String a expected', String b provided' =>
      differences (N.lor equal (N.lxor (N_of_ascii a) (N_of_ascii b))) expected' provided'
  | _, _ => equal
  end.

(** "sha256=<hex>" or "<hex>". *)
Definition provided_signature (hmac_header : string) : string :=
  str_trim (default hmac_header (strip_prefix "sha256=" hmac_header)).

(** [secret]: of the environment.  [body]: the bytes, or that they cannot be read; the
    next layer gets the same body. *)
Definition hmac_verification_middleware `{AuthLib} (secret : option string) (headers : gmap string (option string))
    (publisher : option Publisher) (body : Result string string) : Verdict (Result string string) :=
  match headers !! "x-internal-buyer-id" with
  | Some _ => inr body
  | None =>
      match publisher with
      | None => inl (500%Z, None)
      | Some publisher =>
          match header_text headers "x-hmac-signature" with
          | None => if publisher_hmac_required publisher then inl (401%Z, None) else inr body
          | Some hmac_header =>
              match secret with
              | None => if publisher_hmac_required publisher then inl (500%Z, None) else inr body
              | Some hmac_secret =>
                  match body with
                  | Err _ => inl (400%Z, None)
                  | Ok body_bytes =>
                      let provided := provided_signature hmac_header in
                      let expected := hmac_sha256_hex hmac_secret body_bytes in
                      if negb (String.length expected =? String.length provided)%nat then inl (401%Z, None)
                      else if negb (differences 0 expected provided =? 0)%N then inl (401%Z, None)
                      else inr (Ok body_bytes)
                  end
              end
          end
      end
  end.

(** The two layers around the routes of the leads: the publisher and the body that the
    handler gets. *)
Definition leads_layers `{AuthLib} (serde : Serde (option Publisher)) (has_cache : bool) (secret : option string)
    (headers : gmap string (option string)) (body : Result string string) : api (Verdict (Publisher * Result string string)) :=
  publisher ← api_key_auth_middleware serde has_cache headers;
  match publisher with
  | inl refusal => mret (inl refusal)
  | inr publisher =>
      match hmac_verification_middleware secret headers (Some publisher) body with
      | inl refusal => mret (inl refusal)
      | inr body => mret (inr (publisher, body))
      end
  end.
End api.

(** ** Lemmas *)

Lemma differences_acc s t acc : differences acc s t = N.lor acc (differences 0 s t).
Proof.
  revert t acc. induction s as [|a s IH]; intros [|b t] acc; try by rewrite N.lor_0_r. cbn [differences].
  rewrite IH, (IH t (N.lor 0 _)), N.lor_0_l. by rewrite N.lor_assoc.
Qed.

(** The loop over the bytes is equality. *)
Lemma differences_zero s t :
  String.length s = String.length t → (differences 0 s t =? 0)%N = String.eqb s t.
Proof.
  revert t. induction s as [|a s IH]; intros [|b t] Hlen; try done. injection Hlen as Hlen.
  cbn [differences]. rewrite N.lor_0_l, differences_acc. simpl String.eqb. destruct (Ascii.eqb_spec a b) as [->|Hab].
  - rewrite N.lxor_nilpotent, N.lor_0_l. by apply IH.
  - apply N.eqb_neq. intros [E _]%N.lor_eq_0_iff. apply N.lxor_eq in E. apply Hab.
    by rewrite <-(ascii_N_embedding a), <-(ascii_N_embedding b), E.
Qed.

Lemma signature_check (expected provided : string) {A} (x y : A) :
  (if negb (String.length expected =? String.length provided)%nat then x
   else if negb (differences 0 expected provided =? 0)%N then x else y) = if String.eqb provided expected then y else x.
Proof.
  destruct (Nat.eqb_spec (String.length expected) (String.length provided)) as [Hlen|Hlen]; simpl.
  - rewrite differences_zero, String.eqb_sym by done. by destruct (String.eqb provided expected).
  - destruct (String.eqb_spec provided expected) as [->|]; done.
Qed.

Section lemmas.
Context `{P : Platform} (sha256_hex : string → string).
Context {L1 L2 : Type} `{!TtlStore L1, !TtlStore L2}.
Implicit Types w : ApiWorld L1 L2.

Lemma publisher_by_hash_spec w hash p :
  publishers_wf w →
  publisher_by_hash hash w = Some p ↔
  api_publishers w !! publisher_id p = Some p ∧ publisher_api_key_hash p = hash ∧ publisher_deleted_at p = None.
Proof.
  intros Hwf. unfold publisher_by_hash. split.
  - intros Hf. apply find_some in Hf as [Hin Hp]. apply list_elem_of_In, list_elem_of_fmap in Hin as ([i v] & -> & Hin).
    apply elem_of_map_to_list in Hin. simpl in *. apply andb_true_iff in Hp as [Hh Hd]. apply String.eqb_eq in Hh.
    apply bool_decide_eq_true in Hd. by rewrite (publisher_ids _ Hwf _ _ Hin).
  - intros (Hp & Hh & Hd). destruct (List.find _ _) as [q|] eqn:Hf.
    + apply find_some in Hf as [Hin Hq]. apply list_elem_of_In, list_elem_of_fmap in Hin as ([i v] & -> & Hin).
      apply elem_of_map_to_list in Hin. simpl in *. apply andb_true_iff in Hq as [Hh' _]. apply String.eqb_eq in Hh'.
      pose proof (key_hashes_unique _ Hwf _ _ _ _ Hin Hp ltac:(congruence)). congruence.
    + assert (Hin : In p (map_to_list (api_publishers w)).*2).
      { apply list_elem_of_In, list_elem_of_fmap. exists (publisher_id p, p). split; [done|]. by apply elem_of_map_to_list. }
      pose proof (find_none _ _ Hf p Hin) as Hn. simpl in Hn. by rewrite Hh, String.eqb_refl, bool_decide_eq_true_2 in Hn.
Qed.

Lemma record_request_cache id w r w' :
  catch (record_request (L1 := L1) (L2 := L2) id) w = (r, w') → is_ok r = true ∧ api_cache w' = api_cache w ∧ api_now w' = api_now w.
Proof.
  unfold catch, record_request, api_statement. destruct (api_outcomes w) as [|[e|] os]; simpl; [|by intros [= <- <-]|];
    (destruct (api_publishers w !! id) as [p|]; [destruct (i32_max <=? publisher_total_requests p)%Z|]; by intros [= <- <-]).
Qed.

(** A request with the key of an active publisher, without a cache. *)
Lemma api_key_auth_admits (serde : Serde (option Publisher)) headers key w p :
  header_text headers "x-api-key" = Some key → str_trim key ≠ "" → api_outcomes w = [] →
  publisher_by_hash (sha256_hex (str_trim key)) w = Some p → Publisher_active p = true →
  ∃ w', api_key_auth_middleware sha256_hex serde false headers w = (Ok (inr p), w').
Proof.
  intros Hh Hk Hout Hp Ha. unfold api_key_auth_middleware. rewrite Hh, eff_bind_eq. unfold catch at 1, lookup_api_key, find_by_api_key.
  rewrite (proj2 (String.eqb_neq _ _) Hk). unfold api_statement at 1. rewrite Hout, Hp, Ha. cbn [negb].
  rewrite eff_bind_eq. destruct (catch _ w) as [r w'] eqn:Er. apply record_request_cache in Er as (Hr & _).
  destruct r; [|done]. by eexists.
Qed.
End lemmas.

(** ** Properties *)

Section properties.
Context `{P : Platform} (sha256_hex : string → string).
Context {L1 L2 : Type} `{!TtlStore L1, !TtlStore L2}.
Implicit Types w : ApiWorld L1 L2.

(** who gets in, without a cache.  When the database answers, a request passes
    exactly with the key (up to spaces around it) of an active publisher; only then is
    something written, the count and the time of the request, unless the count is
    already the largest of its column. *)
Theorem api_key_admits_iff (serde : Serde (option Publisher)) (headers : gmap string (option string)) w :
  publishers_wf w → api_outcomes w = [] →
  ∃ v w', api_key_auth_middleware sha256_hex serde false headers w = (Ok v, w') ∧
    (∀ p, v = inr p ↔ ∃ key, headers !! "x-api-key" = Some (Some key) ∧ str_trim key ≠ "" ∧
       api_publishers w !! publisher_id p = Some p ∧ publisher_api_key_hash p = sha256_hex (str_trim key) ∧
       Publisher_active p = true) ∧
    api_publishers w' = match v with
      | inr p => if (publisher_total_requests p <? i32_max)%Z
                 then <[publisher_id p := requested (api_now w) p]> (api_publishers w) else api_publishers w
      | inl _ => api_publishers w
      end.
Proof.
  intros Hwf Hout. unfold api_key_auth_middleware, header_text. destruct (headers !! "x-api-key") as [[key|]|] eqn:Hh; simpl;
    [|by eexists _, _; split; [done|]; split; [split; [done|]; intros (? & [=] & _)|done]..].
  unfold find_by_api_key. rewrite eff_bind_eq. unfold catch at 1.
  destruct (String.eqb_spec (str_trim key) "") as [Hk|Hk].
  { eexists _, _. split; [done|]. split; [|done]. intros p. split; [done|]. intros (? & [= <-] & ? & _). done. }
  unfold api_statement at 1. rewrite Hout.
  destruct (publisher_by_hash (sha256_hex (str_trim key)) w) as [p|] eqn:Hp.
  - apply publisher_by_hash_spec in Hp as (Hp & Hhash & Hd); [|done]. destruct (Publisher_active p) eqn:Ha; simpl.
    + rewrite eff_bind_eq. unfold catch, record_request, api_statement. rewrite Hout, Hp.
      exists (inr p). destruct (Z.leb_spec i32_max (publisher_total_requests p)).
      * eexists. split; [done|]. split; [|by rewrite (proj2 (Z.ltb_ge _ _))]. intros q. split; [intros [= <-]; eauto 10|].
        intros (? & [= <-] & _ & Hq & Hqh & _). f_equal.
        pose proof (key_hashes_unique _ Hwf _ _ _ _ Hp Hq ltac:(congruence)). congruence.
      * eexists. split; [done|]. split; [|by rewrite (proj2 (Z.ltb_lt _ _))]. intros q. split; [intros [= <-]; eauto 10|].
        intros (? & [= <-] & _ & Hq & Hqh & _). f_equal.
        pose proof (key_hashes_unique _ Hwf _ _ _ _ Hp Hq ltac:(congruence)). congruence.
    + eexists _, _. split; [done|]. split; [|done]. intros q. split; [done|].
      intros (? & [= <-] & _ & Hq & Hqh & Hact). pose proof (key_hashes_unique _ Hwf _ _ _ _ Hp Hq ltac:(congruence)). congruence.
  - eexists _, _. split; [done|]. split; [|done]. intros q. split; [done|].
    intros (? & [= <-] & _ & Hq & Hqh & Hact). apply andb_true_iff in Hact as [_ Hd]. apply bool_decide_eq_true in Hd.
    assert (Hs : publisher_by_hash (sha256_hex (str_trim key)) w = Some q) by (by apply publisher_by_hash_spec). congruence.
Qed.

(** the verdict on a key lasts an hour.  With a cache, when a key that the first
    level did not have was judged (and the lookup did not fail), every request with
    the key in the next hour gets the same verdict and the same publisher record,
    whatever happened to the publisher: suspended, deleted, made to sign its requests,
    or created. *)
Theorem verdict_lasts_an_hour `{!TtlKeeps L1} (serde : Serde (option Publisher)) `{!SerdeLaws serde}
    (headers headers' : gmap string (option string)) (key key' : string) w w1 w2 (v : Verdict Publisher) :
  headers !! "x-api-key" = Some (Some key) → headers' !! "x-api-key" = Some (Some key') → str_trim key' = str_trim key →
  ts_get (clock w) (api_cache_key sha256_hex key) (cs_l1 (api_cache w)) = None →
  api_key_auth_middleware sha256_hex serde true headers w = (Ok v, w1) → (∀ m, v ≠ inl (500%Z, m)) →
  cs_l1 (api_cache w2) = cs_l1 (api_cache w1) → (clock w1 ≤ clock w2 < clock w1 + l1_ttl)%Z →
  (api_key_auth_middleware sha256_hex serde true headers' w2).1 = Ok v.
Proof.
  intros Hh Hh' Hk Hnone Hauth Hv Hl Hc. unfold api_key_auth_middleware, header_text in *. rewrite Hh in Hauth. rewrite Hh'.
  simpl in *. rewrite eff_bind_eq in *. unfold catch at 1 in Hauth. unfold catch at 1. unfold lookup_api_key in *.
  assert (Hkey : api_cache_key sha256_hex key' = api_cache_key sha256_hex key) by (unfold api_cache_key; by rewrite Hk).
  destruct (get_or_insert_with serde (api_cache_key sha256_hex key) 3600 (find_by_api_key sha256_hex key) w)
    as [[o|[e|e]] w0] eqn:Hget; [|by injection Hauth as <- _; destruct (Hv None)|done].
  pose proof (get_or_insert_with_holds serde _ _ _ _ _ _ Hnone Hget) as Hholds.
  assert (H1 : api_cache w1 = api_cache w0 ∧ api_now w1 = api_now w0).
  { destruct o as [p|]; [|by injection Hauth as _ <-]. destruct (negb (Publisher_active p)); [by injection Hauth as _ <-|].
    rewrite eff_bind_eq in Hauth. destruct (catch _ w0) as [r w0'] eqn:Er. apply record_request_cache in Er as (_ & Ec & En).
    rewrite <-En, <-Ec. destruct r; by injection Hauth as _ <-. }
  destruct H1 as [Ec1 En1]. rewrite Ec1 in Hl. rewrite En1 in Hc. destruct (Hholds (api_now w2 / 1000)%Z Hc) as (text & Ht & Hd).
  change (cache_of w0) with (api_cache w0) in Ht. rewrite <-Hl in Ht.
  assert (Hget2 : get_or_insert_with serde (api_cache_key sha256_hex key') 3600 (find_by_api_key sha256_hex key') w2
    = (Ok o, with_cache (count_hit (cache_of w2)) w2)).
  { unfold get_or_insert_with, cached_value. rewrite eff_bind_eq, eff_gets_bind, Hkey. simpl. rewrite Ht. simpl. by rewrite Hd. }
  rewrite Hget2. destruct o as [p|]; [|by injection Hauth as <- _].
  destruct (negb (Publisher_active p)); [by injection Hauth as <- _|]. rewrite eff_bind_eq in *.
  destruct (catch _ w0) as [r w0'] eqn:Er. apply record_request_cache in Er as (Hr & _).
  destruct (catch _ (with_cache _ w2)) as [r2 w2'] eqn:Er2. apply record_request_cache in Er2 as (Hr2 & _).
  destruct r, r2; try done. by injection Hauth as <- _.
Qed.

(** C31: which requests a signature lets pass.  Either the header
    [X-Internal-Buyer-ID] is there, whatever its value; or there is no readable
    signature and the publisher does not ask for one; or the server has no secret and
    the publisher does not ask for one; or the text after the optional prefix is, byte
    for byte, the lower-case hexadecimal HMAC of the body.  The next layer gets the same body. *)
Theorem signature_admits_iff `{A : AuthLib} (secret : option string) (headers : gmap string (option string)) (p : Publisher)
    (body body' : Result string string) :
  hmac_verification_middleware secret headers (Some p) body = inr body' ↔
  body' = body ∧
  (is_Some (headers !! "x-internal-buyer-id") ∨
   (header_text headers "x-hmac-signature" = None ∧ publisher_hmac_required p = false) ∨
   (secret = None ∧ publisher_hmac_required p = false) ∨
   (∃ s signature bytes, secret = Some s ∧ header_text headers "x-hmac-signature" = Some signature ∧ body = Ok bytes ∧
      provided_signature signature = hmac_sha256_hex s bytes)).
Proof.
  unfold hmac_verification_middleware. destruct (headers !! "x-internal-buyer-id") as [v|].
  { split; [intros [= <-]; eauto|]. by intros [-> _]. }
  destruct (header_text headers "x-hmac-signature") as [sig|] eqn:Hs; [destruct secret as [s|]; [destruct body as [bytes|e]|]|].
  - rewrite signature_check. destruct (String.eqb_spec (provided_signature sig) (hmac_sha256_hex s bytes)) as [E|E].
    + split; [intros [= <-]; split; [done|]; right; right; right; by exists s, sig, bytes|by intros [-> _]].
    + split; [done|]. intros [_ [[? [=]]|[[[=] _]|[[[=] _]|(? & ? & ? & [= <-] & [= <-] & [= <-] & E')]]]]. done.
  - split; [done|]. intros [_ [[? [=]]|[[[=] _]|[[[=] _]|(? & ? & ? & [= <-] & [= <-] & [=] & _)]]]].
  - destruct (publisher_hmac_required p); split; try done.
    + intros [_ [[? [=]]|[[[=] _]|[[_ [=]]|(? & ? & ? & [=] & _)]]]].
    + intros [= <-]. split; [done|]. right; right; by left.
    + by intros [-> _].
  - destruct (publisher_hmac_required p); split; try done.
    + intros [_ [[? [=]]|[[_ [=]]|[[_ [=]]|(? & ? & ? & _ & [=] & _)]]]].
    + intros [= <-]. split; [done|]. right; by left.
    + by intros [-> _].
Qed.
End properties.

(** ** Witnesses *)

#[local] Existing Instance reference_platform.

#[export] Instance Publisher_eq_dec : EqDecision Publisher.
Proof. solve_decision. Defined.

Definition sample_api_publisher : Publisher := {|
  publisher_id := 1%N; publisher_name := "Pub"; publisher_email := "p@x"; publisher_api_key_hash := "#key";
  publisher_api_key_prefix := "k"; publisher_api_key_encrypted := None; publisher_status := PublisherActive;
  publisher_total_requests := 0; publisher_last_request_at := None; publisher_instance_id := 0%N;
  publisher_instance_user_id := None; publisher_is_documentation_test := false; publisher_hmac_secret_hash := None;
  publisher_hmac_secret_prefix := None; publisher_hmac_required := false; publisher_hmac_secret_encrypted := None;
  publisher_deleted_at := None; publisher_created_at := 0; publisher_updated_at := 0;
  publisher_representative_first_name := None; publisher_representative_last_name := None;
  publisher_address_street := None; publisher_address_city := None; publisher_address_state := None;
  publisher_address_zip := None; publisher_timezone := None; publisher_ein_tin := None |}.

(** A serialization of the values of the samples. *)
Definition sample_to_text (o : option Publisher) : Result string string :=
  match o with
  | None => Ok "null"
  | Some p => if decide (p = sample_api_publisher) then Ok "publisher" else Err "unsupported"
  end.
Definition sample_of_text (text : string) : option (option Publisher) :=
  if String.eqb text "null" then Some None
  else if String.eqb text "publisher" then Some (Some sample_api_publisher) else None.

Definition publisher_serde : Serde (option Publisher) := {|
  simd_from_slice := sample_of_text; serde_from_slice := sample_of_text; simd_to_vec := sample_to_text;
  from_utf8 := Some; serde_to_string := sample_to_text |}.

Lemma sample_text_roundtrip o text : sample_to_text o = Ok text → sample_of_text text = Some o.
Proof.
  destruct o as [p|]; simpl; [|by intros [= <-]]. destruct (decide (p = sample_api_publisher)) as [->|]; [|done]. by intros [= <-].
Qed.

#[export] Instance publisher_serde_laws : SerdeLaws publisher_serde.
Proof.
  split; simpl.
  - intros o bytes text Ho [= <-]. by apply sample_text_roundtrip.
  - intros o text Ho. left. by apply sample_text_roundtrip.
Qed.

Definition sample_hash (key : string) : string := "#" +:+ key.
Definition sample_headers : gmap string (option string) := {["x-api-key" := Some " key"]}.

Definition sample_api (publishers : gmap Uuid Publisher) : ApiWorld ttl_map ttl_map := {|
  api_publishers := publishers; api_cache := CacheService_new ∅ (Some ∅) "development"; api_now := 0; api_outcomes := [] |}.

Lemma sample_api_wf : publishers_wf (sample_api {[1%N := sample_api_publisher]}).
Proof.
  split; simpl.
  - intros i p [<- <-]%lookup_singleton_Some. done.
  - intros i j p q [<- <-]%lookup_singleton_Some [<- <-]%lookup_singleton_Some. done.
Qed.

Lemma api_key_admits_iff_witness :
  let w := sample_api {[1%N := sample_api_publisher]} in
  ∃ w', api_key_auth_middleware sample_hash publisher_serde false sample_headers w = (Ok (inr sample_api_publisher), w') ∧
    api_publishers w' = {[1%N := requested 0 sample_api_publisher]}.
Proof.
  intros w. destruct (api_key_admits_iff sample_hash publisher_serde sample_headers w sample_api_wf eq_refl)
    as (v & w' & Hr & Hv & Hw).
  assert (E : v = inr sample_api_publisher).
  { apply Hv. exists " key". split_and!; vm_compute; done. }
  exists w'. rewrite Hr, E. split; [done|]. rewrite Hw, E. vm_compute. reflexivity.
Defined.

(** The publisher is deleted; the key still works fifty-nine minutes later. *)
Lemma verdict_lasts_an_hour_witness :
  let w := sample_api {[1%N := sample_api_publisher]} in
  let w1 := (api_key_auth_middleware sample_hash publisher_serde true sample_headers w).2 in
  let w2 := {| api_publishers := ∅; api_cache := api_cache w1; api_now := 3540000000; api_outcomes := [] |} in
  (api_key_auth_middleware sample_hash publisher_serde true sample_headers w2).1 = Ok (inr sample_api_publisher).
Proof.
  intros w w1 w2. refine (verdict_lasts_an_hour sample_hash publisher_serde sample_headers sample_headers " key" " key" w w1 w2
    (inr sample_api_publisher) eq_refl eq_refl eq_refl eq_refl _ _ eq_refl _).
  - vm_compute. reflexivity.
  - done.
  - vm_compute. done.
Defined.
