(* ===== verification/Office.v ===== *)
(** * The back office: tables, statements, audit, and publishers

    [crates/api/src/routes/dashboard.rs]: what its handlers share, and the handlers of
    publishers.  The state is the tables of the back office (those of buyers, rule sets
    and ZIP lists included, for [Buyers.v] and [RuleSets.v]), the audit log, the clock
    and the outcomes of the next statements.  A statement that is built by pushing
    text and bound values ([sqlx::QueryBuilder]) is the list of these fragments, read
    by the grammar of [UPDATE ... SET].  The handlers set no row-level security
    context; statements see every row. *)

From stdpp Require Import base list strings gmap.
From Stdlib Require Import Ascii String ZArith Lia.
From S2P Require Import Prelude Float64 Platform Json Models Metrics Samples Store WriteBehind.
From S2P Require Import Encryption Accounts Cache ApiAuth.

Open Scope string_scope.
Open Scope list_scope.

(** ** Data *)

Record Instance_ : Type := {
  instance_id : Uuid;
  instance_user_id : option Uuid;
  instance_deleted_at : option DateTime
}.

(** A row of [audit_logs]; its id and dates are set by the database. *)
Record AuditLog : Type := {
  audit_instance_id : option Uuid;
  audit_instance_user_id : option Uuid;
  audit_action_type : string;
  audit_resource_type : option string;
  audit_resource_id : option Uuid;
  audit_details : json;
  audit_affected_resources : json;
  audit_ip_address : option string;
  audit_user_agent : option string;
  audit_created_at : DateTime
}.

(** A row of [buyer_qualification_configs]: the numbers are decimal. *)
Record RuleSet : Type := {
  rule_set_id : Uuid;
  rule_set_buyer_id : Uuid;
  rule_set_vertical_id : Uuid;
  rule_set_buyer_integration_id : option Uuid;
  rule_set_name : string;
  rule_set_config : json;
  rule_set_rules_order : list string;
  rule_set_enabled : bool;
  rule_set_is_active : bool;
  rule_set_timeout_seconds : option Decimal;
  rule_set_created_at : DateTime;
  rule_set_updated_at : DateTime
}.

(** A row of [buyer_zip_lists]; the rows of [buyer_zip_codes] are pairs of a list and
    a code. *)
Record ZipList : Type := {
  zip_list_id : Uuid;
  zip_list_buyer_id : Uuid;
  zip_list_name : string;
  zip_list_type : string;
  zip_list_created_at : DateTime
}.

Record Office : Type := {
  of_instances : list Instance_;
  of_publishers : gmap Uuid Publisher;
  of_verticals : list Vertical;
  of_publisher_verticals : list (Uuid * Uuid);
  of_trees : gmap Uuid PingTree;
  of_tree_publishers : list PingTreePublisher;
  of_tree_campaigns : list PingTreeCampaign;
  of_campaigns : gmap Uuid Campaign;
  of_buyers : gmap Uuid Buyer;
  of_integrations : list BuyerIntegration;
  of_rule_sets : gmap Uuid RuleSet;
  of_zip_lists : list ZipList;
  of_zip_codes : list (Uuid * string);
  of_audit : list AuditLog;
  of_now : DateTime;
  of_outcomes : list (option string)
}.

Section setters.
Implicit Types w : Office.

Definition set_of_outcomes (o : list (option string)) w : Office := {|
  of_instances := of_instances w; of_publishers := of_publishers w; of_verticals := of_verticals w;
  of_publisher_verticals := of_publisher_verticals w; of_trees := of_trees w; of_tree_publishers := of_tree_publishers w;
  of_tree_campaigns := of_tree_campaigns w; of_campaigns := of_campaigns w; of_buyers := of_buyers w; of_integrations := of_integrations w; of_rule_sets := of_rule_sets w;
  of_zip_lists := of_zip_lists w; of_zip_codes := of_zip_codes w; of_audit := of_audit w; of_now := of_now w;
  of_outcomes := o |}.
Definition set_of_publishers (p : gmap Uuid Publisher) w : Office := {|
  of_instances := of_instances w; of_publishers := p; of_verticals := of_verticals w;
  of_publisher_verticals := of_publisher_verticals w; of_trees := of_trees w; of_tree_publishers := of_tree_publishers w;
  of_tree_campaigns := of_tree_campaigns w; of_campaigns := of_campaigns w; of_buyers := of_buyers w; of_integrations := of_integrations w; of_rule_sets := of_rule_sets w;
  of_zip_lists := of_zip_lists w; of_zip_codes := of_zip_codes w; of_audit := of_audit w; of_now := of_now w;
  of_outcomes := of_outcomes w |}.
Definition set_of_publisher_verticals (pv : list (Uuid * Uuid)) w : Office := {|
  of_instances := of_instances w; of_publishers := of_publishers w; of_verticals := of_verticals w;
  of_publisher_verticals := pv; of_trees := of_trees w; of_tree_publishers := of_tree_publishers w;
  of_tree_campaigns := of_tree_campaigns w; of_campaigns := of_campaigns w; of_buyers := of_buyers w; of_integrations := of_integrations w; of_rule_sets := of_rule_sets w;
  of_zip_lists := of_zip_lists w; of_zip_codes := of_zip_codes w; of_audit := of_audit w; of_now := of_now w;
  of_outcomes := of_outcomes w |}.
Definition set_of_trees (t : gmap Uuid PingTree) w : Office := {|
  of_instances := of_instances w; of_publishers := of_publishers w; of_verticals := of_verticals w;
  of_publisher_verticals := of_publisher_verticals w; of_trees := t; of_tree_publishers := of_tree_publishers w;
  of_tree_campaigns := of_tree_campaigns w; of_campaigns := of_campaigns w; of_buyers := of_buyers w; of_integrations := of_integrations w; of_rule_sets := of_rule_sets w;
  of_zip_lists := of_zip_lists w; of_zip_codes := of_zip_codes w; of_audit := of_audit w; of_now := of_now w;
  of_outcomes := of_outcomes w |}.
Definition set_of_tree_publishers (tp : list PingTreePublisher) w : Office := {|
  of_instances := of_instances w; of_publishers := of_publishers w; of_verticals := of_verticals w;
  of_publisher_verticals := of_publisher_verticals w; of_trees := of_trees w; of_tree_publishers := tp;
  of_tree_campaigns := of_tree_campaigns w; of_campaigns := of_campaigns w; of_buyers := of_buyers w; of_integrations := of_integrations w; of_rule_sets := of_rule_sets w;
  of_zip_lists := of_zip_lists w; of_zip_codes := of_zip_codes w; of_audit := of_audit w; of_now := of_now w;
  of_outcomes := of_outcomes w |}.
Definition set_of_tree_campaigns (tc : list PingTreeCampaign) w : Office := {|
  of_instances := of_instances w; of_publishers := of_publishers w; of_verticals := of_verticals w;
  of_publisher_verticals := of_publisher_verticals w; of_trees := of_trees w; of_tree_publishers := of_tree_publishers w;
  of_tree_campaigns := tc; of_campaigns := of_campaigns w; of_buyers := of_buyers w; of_integrations := of_integrations w; of_rule_sets := of_rule_sets w;
  of_zip_lists := of_zip_lists w; of_zip_codes := of_zip_codes w; of_audit := of_audit w; of_now := of_now w;
  of_outcomes := of_outcomes w |}.
Definition set_of_campaigns (c : gmap Uuid Campaign) w : Office := {|
  of_instances := of_instances w; of_publishers := of_publishers w; of_verticals := of_verticals w;
  of_publisher_verticals := of_publisher_verticals w; of_trees := of_trees w; of_tree_publishers := of_tree_publishers w;
  of_tree_campaigns := of_tree_campaigns w; of_campaigns := c; of_buyers := of_buyers w; of_integrations := of_integrations w; of_rule_sets := of_rule_sets w;
  of_zip_lists := of_zip_lists w; of_zip_codes := of_zip_codes w; of_audit := of_audit w; of_now := of_now w;
  of_outcomes := of_outcomes w |}.
Definition set_of_audit (a : list AuditLog) w : Office := {|
  of_instances := of_instances w; of_publishers := of_publishers w; of_verticals := of_verticals w;
  of_publisher_verticals := of_publisher_verticals w; of_trees := of_trees w; of_tree_publishers := of_tree_publishers w;
  of_tree_campaigns := of_tree_campaigns w; of_campaigns := of_campaigns w; of_buyers := of_buyers w; of_integrations := of_integrations w; of_rule_sets := of_rule_sets w;
  of_zip_lists := of_zip_lists w; of_zip_codes := of_zip_codes w; of_audit := a; of_now := of_now w;
  of_outcomes := of_outcomes w |}.
Definition set_of_buyers (b : gmap Uuid Buyer) w : Office := {|
  of_instances := of_instances w; of_publishers := of_publishers w; of_verticals := of_verticals w;
  of_publisher_verticals := of_publisher_verticals w; of_trees := of_trees w; of_tree_publishers := of_tree_publishers w;
  of_tree_campaigns := of_tree_campaigns w; of_campaigns := of_campaigns w; of_buyers := b;
  of_integrations := of_integrations w; of_rule_sets := of_rule_sets w; of_zip_lists := of_zip_lists w;
  of_zip_codes := of_zip_codes w; of_audit := of_audit w; of_now := of_now w; of_outcomes := of_outcomes w |}.
Definition set_of_integrations (i : list BuyerIntegration) w : Office := {|
  of_instances := of_instances w; of_publishers := of_publishers w; of_verticals := of_verticals w;
  of_publisher_verticals := of_publisher_verticals w; of_trees := of_trees w; of_tree_publishers := of_tree_publishers w;
  of_tree_campaigns := of_tree_campaigns w; of_campaigns := of_campaigns w; of_buyers := of_buyers w;
  of_integrations := i; of_rule_sets := of_rule_sets w; of_zip_lists := of_zip_lists w;
  of_zip_codes := of_zip_codes w; of_audit := of_audit w; of_now := of_now w; of_outcomes := of_outcomes w |}.
Definition set_of_rule_sets (r : gmap Uuid RuleSet) w : Office := {|
  of_instances := of_instances w; of_publishers := of_publishers w; of_verticals := of_verticals w;
  of_publisher_verticals := of_publisher_verticals w; of_trees := of_trees w; of_tree_publishers := of_tree_publishers w;
  of_tree_campaigns := of_tree_campaigns w; of_campaigns := of_campaigns w; of_buyers := of_buyers w;
  of_integrations := of_integrations w; of_rule_sets := r; of_zip_lists := of_zip_lists w;
  of_zip_codes := of_zip_codes w; of_audit := of_audit w; of_now := of_now w; of_outcomes := of_outcomes w |}.
Definition set_of_zips (lists : list ZipList) (codes : list (Uuid * string)) w : Office := {|
  of_instances := of_instances w; of_publishers := of_publishers w; of_verticals := of_verticals w;
  of_publisher_verticals := of_publisher_verticals w; of_trees := of_trees w; of_tree_publishers := of_tree_publishers w;
  of_tree_campaigns := of_tree_campaigns w; of_campaigns := of_campaigns w; of_buyers := of_buyers w;
  of_integrations := of_integrations w; of_rule_sets := of_rule_sets w; of_zip_lists := lists;
  of_zip_codes := codes; of_audit := of_audit w; of_now := of_now w; of_outcomes := of_outcomes w |}.
End setters.

(** ** Statements *)

(** Statements fail with the text of the database; a handler ends with a status. *)
Abbreviation sql := (eff Office string).
Abbreviation handler := (eff Office Z).

(** A statement takes the next outcome: on an error nothing changes.  Constraints that
    are not written out below are among the outcomes. *)
Definition statement {A} (m : sql A) : sql A := λ w,
  match of_outcomes w with
  | Some e :: rest => (Err e, set_of_outcomes rest w)
  | None :: rest => m (set_of_outcomes rest w)
  | [] => m w
  end.

Definition fetch {A} (f : Office → A) : sql A := statement (eff_gets f).
Definition execute (f : Office → Office) : sql unit := statement (eff_modify f).

(** [.map_err(|_| status)?] and [.await.ok()]. *)
Definition or_status {A} (status : Z) (m : sql A) : handler A := λ w,
  match m w with (Ok a, w') => (Ok a, w') | (Err _, w') => (Err status, w') end.
Definition ignore_error {A} (m : sql A) : handler (option A) := λ w,
  match m w with (Ok a, w') => (Ok (Some a), w') | (Err _, w') => (Ok None, w') end.

(** [SELECT id FROM instances WHERE instance_user_id = $1 AND deleted_at IS NULL LIMIT 1];
    here the first. *)
Definition instance_of_user (user : Uuid) (w : Office) : option Uuid :=
  instance_id <$> List.find (λ i, bool_decide (instance_user_id i = Some user) && bool_decide (instance_deleted_at i = None))
                    (of_instances w).

Definition get_instance_id_for_user (user : Uuid) : sql (option Uuid) := fetch (instance_of_user user).

(** The instance of the user owns it; without an instance, any. *)
Definition owns_instance (user : Uuid) (inst : option Uuid) (w : Office) : bool :=
  existsb (λ i, bool_decide (instance_user_id i = Some user) && bool_decide (instance_deleted_at i = None) &&
                match inst with Some id => bool_decide (instance_id i = id) | None => true end) (of_instances w).

Definition is_user_admin (user : Uuid) (inst : option Uuid) : sql bool := fetch (owns_instance user inst).

Definition create_audit_log (inst user : option Uuid) (action_type : string) (resource_type : option string)
    (resource_id : option Uuid) (details affected_resources : json) (ip_address user_agent : option string) : sql unit :=
  execute (λ w, set_of_audit (of_audit w ++ [{|
    audit_instance_id := inst; audit_instance_user_id := user; audit_action_type := action_type;
    audit_resource_type := resource_type; audit_resource_id := resource_id; audit_details := details;
    audit_affected_resources := affected_resources; audit_ip_address := ip_address; audit_user_agent := user_agent;
    audit_created_at := of_now w |}]) w).

(** *** [sqlx::QueryBuilder] *)

Inductive SqlValue : Type :=
  | VText (s : string)
  | VBool (b : bool)
  | VInt (n : Z)
  | VUuid (u : Uuid)
  | VNull
  | VFloat (x : f64)
  | VJson (v : json)
  | VTexts (l : list string)
  | VBuyerStatus (s : BuyerStatus)
  | VCampaignStatus (s : CampaignStatus).

Inductive Fragment : Type :=
  | Sql (text : string)
  | Bind (v : SqlValue).

(** [col = NULL, ]: the column. *)
Definition null_set (text : string) : option string :=
  let n := (String.length text - 6)%nat in
  if String.eqb (String.substring n 6 text) "NULL, " then Some (String.substring 0 n text) else None.

(** [SET c1 = v1, ..., cn = vn, updated_at = NOW() WHERE id = $k AND deleted_at IS NULL],
    or [... AND buyer_id = $l]: the columns that are set, the id, and the buyer; any other
    sequence is a syntax error. *)
Fixpoint parse_update (q : list Fragment) : option (list (string * SqlValue) * (Uuid * option Uuid)) :=
  match q with
  | Sql text :: q1 =>
      match null_set text with
      | Some column =>
          match parse_update q1 with Some (sets, target) => Some ((column, VNull) :: sets, target) | None => None end
      | None =>
          match q1 with
          | Bind v :: Sql text' :: q' =>
              if String.eqb text' ", " then
                match parse_update q' with Some (sets, target) => Some ((text, v) :: sets, target) | None => None end
              else if String.eqb (str_trim text) "updated_at = NOW() WHERE id =" then
                match v, q' with
                | VUuid id, [] => if String.eqb text' " AND deleted_at IS NULL" then Some ([], (id, None)) else None
                | VUuid id, [Bind (VUuid buyer)] => if String.eqb text' " AND buyer_id = " then Some ([], (id, Some buyer)) else None
                | _, _ => None
                end
              else None
          | _ => None
          end
      end
  | _ => None
  end.

(** Sets the columns one after the other; [set] fails for a value of another type than
    its column. *)
Fixpoint set_columns {R} (set : string → SqlValue → R → option R) (sets : list (string * SqlValue)) (row : R) : option R :=
  match sets with
  | [] => Some row
  | (column, v) :: sets' => match set column v row with Some row' => set_columns set sets' row' | None => None end
  end.

Definition syntax_error : string := "syntax error".
Definition type_error : string := "column is of another type than the expression".

(** [if let Some(x) = e { push(column); push_bind(x); push(", "); }]. *)
Definition push_set {A} (column : string) (bind : A → SqlValue) (o : option A) : list Fragment :=
  match o with Some x => [Sql column; Bind (bind x); Sql ", "] | None => [] end.

Definition where_live (id : Uuid) : list Fragment :=
  [Sql "updated_at = NOW() WHERE id = "; Bind (VUuid id); Sql " AND deleted_at IS NULL"].

(** ** Headers of the request, for the audit log *)

(** [headers.get(a).or_else(|| headers.get(b)).and_then(|h| h.to_str().ok())]. *)
Definition header_or (headers : gmap string (option string)) (a b : string) : option string :=
  match headers !! a with Some v => v | None => header_text headers b end.

Definition audit_ip (headers : gmap string (option string)) : option string :=
  (λ s, str_trim (before_comma s)) <$> header_or headers "x-forwarded-for" "x-real-ip".
Definition audit_agent (headers : gmap string (option string)) : option string := header_text headers "user-agent".
(** [drawn]: a new id when the request has none. *)
Definition audit_request_id `{Platform} (headers : gmap string (option string)) (drawn : Uuid) : string :=
  default (uuid_to_string drawn) (header_or headers "x-request-id" "x-correlation-id").

Definition compliance : json := json_object [("standard", JString "ISO_27001_SOC2_NIST"); ("version", JString "2024")].

(** [json!({ "success": true, ... })] and [json!({ "success": false, "error": e })]. *)
Definition success (fields : list (string * json)) : json := json_object (("success", JBool true) :: fields).
Definition failure (error : string) : json := json_object [("success", JBool false); ("error", JString error)].

(** ** Publishers *)

(** [#[derive(Serialize)]] of the status: the name of the variant. *)
Definition PublisherStatus_name (s : PublisherStatus) : string :=
  match s with PublisherActive => "Active" | PublisherInactive => "Inactive" | PublisherSuspended => "Suspended" end.

Record CreatePublisherRequest : Type := {
  cp_name : string;
  cp_email : string;
  cp_instance_id : option Uuid;
  cp_representative_first_name : option string;
  cp_representative_last_name : option string;
  cp_address_street : option string;
  cp_address_city : option string;
  cp_address_state : option string;
  cp_address_zip : option string;
  cp_timezone : option string;
  cp_ein_tin : option string;
  cp_vertical_ids : option (list Uuid)
}.

Record UpdatePublisherRequest : Type := {
  up_name : option string;
  up_email : option string;
  up_status : option string;
  up_hmac_required : option bool;
  up_representative_first_name : option string;
  up_representative_last_name : option string;
  up_address_street : option string;
  up_address_city : option string;
  up_address_state : option string;
  up_address_zip : option string;
  up_timezone : option string;
  up_ein_tin : option string
}.

(** Drawn by a handler: the bytes of the key or the secret, the id, the nonce of the
    encryption, and the id of the request. *)
Record OfficeDraws : Type := {
  draw_bytes : string;
  draw_id : Uuid;
  draw_nonce : string;
  draw_request_id : Uuid
}.

Section publishers.
Context `{Platform} `{Crypto} (sha256_hex : string → string) (encryption_key : string).

Definition live_publisher (id : Uuid) (w : Office) : option Publisher :=
  p ← of_publishers w !! id; if bool_decide (publisher_deleted_at p = None) then Some p else None.

(** The [actor] of updates is the user; the [context] of every entry. *)
Definition audit_context (headers : gmap string (option string)) (drawn : Uuid) (reason method endpoint : string) : json :=
  json_object [
    ("reason", JString reason); ("request_id", JString (audit_request_id headers drawn));
    ("ip_address", json_of_opt_str (audit_ip headers)); ("user_agent", json_of_opt_str (audit_agent headers));
    ("method", JString method); ("endpoint", JString endpoint); ("source", JString "dashboard_web_ui")].

(** The instance of the user is looked up again for the entry; errors of both
    statements are ignored. *)
Definition audit_publisher (user : User) (headers : gmap string (option string)) (action_type : string) (id : Uuid)
    (details : DateTime → json) : handler unit :=
  inst ← ignore_error (fetch (instance_of_user (user_id user)));
  now ← eff_gets of_now;
  _ ← ignore_error (create_audit_log (mjoin inst) (Some (user_id user)) action_type (Some "Publisher") (Some id)
        (details now) (json_object []) (audit_ip headers) (audit_agent headers));
  mret tt.

(** The entries of [details] all handlers of publishers share. *)
Definition publisher_details (action : string) (id : Uuid) (name : string) (context : json) (now : DateTime)
    (more : list (string * json)) : json :=
  json_object ([
    ("action", JString action); ("target_type", JString "Publisher"); ("target_id", JString (uuid_to_string id));
    ("target_name", JString name); ("context", context); ("compliance", compliance); ("outcome", JString "success");
    ("timestamp", JString (to_rfc3339 now))] ++ more).

Definition publishers_path (id : Uuid) : string := "/api/v1/dashboard/publishers/" +:+ uuid_to_string id.

(** A key and how it is stored: its hash and its encryption. *)
Definition new_api_key (bytes : string) : string := "pk_live_" +:+ hex_encode bytes.

Definition encrypt_api_key (nonce api_key : string) : Result string string :=
  svc ← EncryptionService_new encryption_key;
  EncryptionService_encrypt svc nonce api_key.

Definition quoted (s : string) : string := String (ascii_of_nat 34) (s +:+ String (ascii_of_nat 34) "").
Definition duplicate_key (constraint : string) : string :=
  "duplicate key value violates unique constraint " +:+ quoted constraint.

(** [INSERT INTO publishers]: the id and the hash of the key are unique. *)
Definition insert_publisher (p : Publisher) : sql unit :=
  statement (λ w,
    if bool_decide (is_Some (of_publishers w !! publisher_id p)) then (Err (duplicate_key "publishers_pkey"), w)
    else if existsb (λ q, String.eqb (publisher_api_key_hash q) (publisher_api_key_hash p)) (map_to_list (of_publishers w)).*2
    then (Err (duplicate_key "publishers_api_key_hash_key"), w)
    else (Ok tt, set_of_publishers (<[publisher_id p := p]> (of_publishers w)) w)).

Definition new_publisher (d : OfficeDraws) (payload : CreatePublisherRequest) (inst : Uuid) (api_key_encrypted : string)
    (now : DateTime) : Publisher := {|
  publisher_id := draw_id d; publisher_name := cp_name payload; publisher_email := cp_email payload;
  publisher_api_key_hash := sha256_hex (new_api_key (draw_bytes d)); publisher_api_key_prefix := "pk_live_";
  publisher_api_key_encrypted := Some api_key_encrypted; publisher_status := PublisherActive; publisher_total_requests := 0;
  publisher_last_request_at := None; publisher_instance_id := inst; publisher_instance_user_id := None;
  publisher_is_documentation_test := false; publisher_hmac_secret_hash := None; publisher_hmac_secret_prefix := None;
  publisher_hmac_required := false; publisher_hmac_secret_encrypted := None; publisher_deleted_at := None;
  publisher_created_at := now; publisher_updated_at := now;
  publisher_representative_first_name := cp_representative_first_name payload;
  publisher_representative_last_name := cp_representative_last_name payload;
  publisher_address_street := cp_address_street payload; publisher_address_city := cp_address_city payload;
  publisher_address_state := cp_address_state payload; publisher_address_zip := cp_address_zip payload;
  publisher_timezone := cp_timezone payload; publisher_ein_tin := cp_ein_tin payload |}.

(** [INSERT INTO publisher_verticals ... ON CONFLICT DO NOTHING], errors ignored. *)
Fixpoint insert_publisher_verticals (id : Uuid) (verticals : list Uuid) : handler unit :=
  match verticals with
  | [] => mret tt
  | v :: verticals' =>
      _ ← ignore_error (execute (λ w,
            if bool_decide ((id, v) ∈ of_publisher_verticals w) then w
            else set_of_publisher_verticals (of_publisher_verticals w ++ [(id, v)]) w));
      insert_publisher_verticals id verticals'
  end.

Definition email_taken (email : string) : string :=
  "A publisher with the email '" +:+ email +:+ "' already exists. Please use a different email address.".

Definition scope_instance (user : User) (requested : option Uuid) : handler Uuid :=
  match requested with
  | Some id => mret id
  | None =>
      inst ← or_status 500 (get_instance_id_for_user (user_id user));
      eff_lift (ok_or 400%Z inst)
  end.

Definition create_publisher (d : OfficeDraws) (user : User) (headers : gmap string (option string))
    (payload : CreatePublisherRequest) : handler json :=
  inst ← scope_instance user (cp_instance_id payload);
  let api_key := new_api_key (draw_bytes d) in
  encrypted ← eff_lift (map_err (λ _, 500%Z) (encrypt_api_key (draw_nonce d) api_key));
  existing ← or_status 500 (fetch (λ w,
    existsb (λ p, String.eqb (publisher_email p) (cp_email payload) && bool_decide (publisher_deleted_at p = None))
      (map_to_list (of_publishers w)).*2));
  if (existing : bool) then mret (failure (email_taken (cp_email payload)))
  else
    now ← eff_gets of_now;
    inserted ← eff_try (insert_publisher (new_publisher d payload inst encrypted now));
    match inserted with
    | Ok _ =>
        _ ← insert_publisher_verticals (draw_id d) (default [] (cp_vertical_ids payload));
        _ ← audit_publisher user headers "publisher_created" (draw_id d) (λ now,
              publisher_details "create" (draw_id d) (cp_name payload)
                (audit_context headers (draw_request_id d) "User created publisher via dashboard" "POST"
                   "/api/v1/dashboard/publishers") now
                [("after", json_object [("name", JString (cp_name payload)); ("email", JString (cp_email payload));
                                        ("status", JString "active")])]);
        mret (success [
          ("publisher", json_object [
             ("id", JString (uuid_to_string (draw_id d))); ("name", JString (cp_name payload));
             ("email", JString (cp_email payload)); ("status", JString "active"); ("api_key_prefix", JString "pk_live_")]);
          ("api_key", JString api_key);
          ("message", JString "Publisher created successfully. Save your API key - it will not be shown again!")])
    | Err e =>
        if str_contains "duplicate key" e &&
           (str_contains "publishers_email_key" e || str_contains "publishers_email_unique_not_deleted" e)
        then mret (failure (email_taken (cp_email payload)))
        else if str_contains "duplicate key" e && str_contains "publishers_api_key_hash" e
        then mret (failure "An internal error occurred while generating the API key. Please try again.")
        else eff_err 500%Z
    end.

(** *** Reading *)

Definition vertical_info (v : Vertical) : json :=
  json_object [("id", JString (uuid_to_string (vertical_id v))); ("name", JString (vertical_name v));
               ("slug", JString (vertical_slug v))].

(** The verticals of a publisher, [ORDER BY v.name]. *)
Definition verticals_of (id : Uuid) (w : Office) : list Vertical :=
  sort_by (λ v1 v2, String.compare (vertical_name v1) (vertical_name v2))
    (List.filter (λ v, bool_decide ((id, vertical_id v) ∈ of_publisher_verticals w)) (of_verticals w)).

Definition publisher_view (p : Publisher) (verticals : list Vertical) : json := json_object [
  ("id", JString (uuid_to_string (publisher_id p))); ("name", JString (publisher_name p));
  ("email", JString (publisher_email p)); ("status", JString (PublisherStatus_name (publisher_status p)));
  ("api_key_prefix", JString (publisher_api_key_prefix p)); ("hmac_required", JBool (publisher_hmac_required p));
  ("hmac_secret_encrypted_prefix", json_of_opt_str (publisher_hmac_secret_prefix p));
  ("hmac_secret_encrypted_generated", JBool (bool_decide (is_Some (publisher_hmac_secret_hash p))));
  ("total_requests", json_of_i32 (publisher_total_requests p));
  ("last_request_at", json_of_option (λ t, JString (to_rfc3339 t)) (publisher_last_request_at p));
  ("representative_first_name", json_of_opt_str (publisher_representative_first_name p));
  ("representative_last_name", json_of_opt_str (publisher_representative_last_name p));
  ("address_street", json_of_opt_str (publisher_address_street p)); ("address_city", json_of_opt_str (publisher_address_city p));
  ("address_state", json_of_opt_str (publisher_address_state p)); ("address_zip", json_of_opt_str (publisher_address_zip p));
  ("timezone", json_of_opt_str (publisher_timezone p)); ("ein_tin", json_of_opt_str (publisher_ein_tin p));
  ("created_at", JString (to_rfc3339 (publisher_created_at p)));
  ("deleted_at", json_of_option (λ t, JString (to_rfc3339 t)) (publisher_deleted_at p));
  ("verticals", JArray (vertical_info <$> verticals))].

Definition get_publisher (id : Uuid) : handler json :=
  p ← or_status 500 (fetch (λ w, of_publishers w !! id));
  p ← eff_lift (ok_or 404%Z p);
  verticals ← ignore_error (fetch (verticals_of id));
  mret (success [("publisher", publisher_view p (default [] verticals))]).

(** A row of the list, and the list: [ORDER BY created_at DESC]. *)
Definition PublisherResponse (p : Publisher) (verticals : list Vertical) : json := json_object [
  ("id", JString (uuid_to_string (publisher_id p))); ("name", JString (publisher_name p));
  ("email", JString (publisher_email p)); ("status", JString (PublisherStatus_as_str (publisher_status p)));
  ("api_key_prefix", JString (publisher_api_key_prefix p)); ("hmac_required", JBool (publisher_hmac_required p));
  ("created_at", JString (to_rfc3339 (publisher_created_at p)));
  ("deleted_at", json_of_option (λ t, JString (to_rfc3339 t)) (publisher_deleted_at p));
  ("verticals", JArray (vertical_info <$> verticals))].

Definition publishers_of_instance (inst : Uuid) (w : Office) : list Publisher :=
  sort_by (λ p1 p2, (publisher_created_at p2 ?= publisher_created_at p1)%Z)
    (List.filter (λ p, bool_decide (publisher_instance_id p = inst) && bool_decide (publisher_deleted_at p = None))
       (map_to_list (of_publishers w)).*2).

Definition list_publishers (user : option User) : handler json :=
  user ← eff_lift (ok_or 401%Z user);
  inst ← or_status 500 (get_instance_id_for_user (user_id user));
  inst ← eff_lift (ok_or 400%Z inst);
  publishers ← or_status 500 (fetch (publishers_of_instance inst));
  match publishers with
  | [] => mret (success [("publishers", JArray [])])
  | _ =>
      verticals ← or_status 500 (fetch (λ w id, verticals_of id w));
      mret (success [("publishers", JArray ((λ p, PublisherResponse p (verticals (publisher_id p))) <$> publishers))])
  end.

(** *** Update *)

Definition set_publisher_column (column : string) (v : SqlValue) (p : Publisher) : option Publisher :=
  let put (name email : string) (hmac_required : bool) (first last street city state zip timezone ein : option string) := {|
    publisher_id := publisher_id p; publisher_name := name; publisher_email := email;
    publisher_api_key_hash := publisher_api_key_hash p; publisher_api_key_prefix := publisher_api_key_prefix p;
    publisher_api_key_encrypted := publisher_api_key_encrypted p; publisher_status := publisher_status p;
    publisher_total_requests := publisher_total_requests p; publisher_last_request_at := publisher_last_request_at p;
    publisher_instance_id := publisher_instance_id p; publisher_instance_user_id := publisher_instance_user_id p;
    publisher_is_documentation_test := publisher_is_documentation_test p;
    publisher_hmac_secret_hash := publisher_hmac_secret_hash p; publisher_hmac_secret_prefix := publisher_hmac_secret_prefix p;
    publisher_hmac_required := hmac_required; publisher_hmac_secret_encrypted := publisher_hmac_secret_encrypted p;
    publisher_deleted_at := publisher_deleted_at p; publisher_created_at := publisher_created_at p;
    publisher_updated_at := publisher_updated_at p;
    publisher_representative_first_name := first; publisher_representative_last_name := last;
    publisher_address_street := street; publisher_address_city := city; publisher_address_state := state;
    publisher_address_zip := zip; publisher_timezone := timezone; publisher_ein_tin := ein |} in
  let name := publisher_name p in let email := publisher_email p in let hr := publisher_hmac_required p in
  let first := publisher_representative_first_name p in let last := publisher_representative_last_name p in
  let street := publisher_address_street p in let city := publisher_address_city p in
  let state := publisher_address_state p in let zip := publisher_address_zip p in
  let tz := publisher_timezone p in let ein := publisher_ein_tin p in
  match v with
  | VText s =>
      if String.eqb column "name = " then Some (put s email hr first last street city state zip tz ein)
      else if String.eqb column "email = " then Some (put name s hr first last street city state zip tz ein)
      else if String.eqb column "representative_first_name = " then Some (put name email hr (Some s) last street city state zip tz ein)
      else if String.eqb column "representative_last_name = " then Some (put name email hr first (Some s) street city state zip tz ein)
      else if String.eqb column "address_street = " then Some (put name email hr first last (Some s) city state zip tz ein)
      else if String.eqb column "address_city = " then Some (put name email hr first last street (Some s) state zip tz ein)
      else if String.eqb column "address_state = " then Some (put name email hr first last street city (Some s) zip tz ein)
      else if String.eqb column "address_zip = " then Some (put name email hr first last street city state (Some s) tz ein)
      else if String.eqb column "timezone = " then Some (put name email hr first last street city state zip (Some s) ein)
      else if String.eqb column "ein_tin = " then Some (put name email hr first last street city state zip tz (Some s))
      else None (* [status] is of the type publisher_status_enum *)
  | VBool b =>
      if String.eqb column "hmac_required = " then Some (put name email b first last street city state zip tz ein) else None
  | _ => None
  end.

Definition touch_publisher (now : DateTime) (p : Publisher) : Publisher := {|
  publisher_id := publisher_id p; publisher_name := publisher_name p; publisher_email := publisher_email p;
  publisher_api_key_hash := publisher_api_key_hash p; publisher_api_key_prefix := publisher_api_key_prefix p;
  publisher_api_key_encrypted := publisher_api_key_encrypted p; publisher_status := publisher_status p;
  publisher_total_requests := publisher_total_requests p; publisher_last_request_at := publisher_last_request_at p;
  publisher_instance_id := publisher_instance_id p; publisher_instance_user_id := publisher_instance_user_id p;
  publisher_is_documentation_test := publisher_is_documentation_test p;
  publisher_hmac_secret_hash := publisher_hmac_secret_hash p; publisher_hmac_secret_prefix := publisher_hmac_secret_prefix p;
  publisher_hmac_required := publisher_hmac_required p; publisher_hmac_secret_encrypted := publisher_hmac_secret_encrypted p;
  publisher_deleted_at := publisher_deleted_at p; publisher_created_at := publisher_created_at p; publisher_updated_at := now;
  publisher_representative_first_name := publisher_representative_first_name p;
  publisher_representative_last_name := publisher_representative_last_name p;
  publisher_address_street := publisher_address_street p; publisher_address_city := publisher_address_city p;
  publisher_address_state := publisher_address_state p; publisher_address_zip := publisher_address_zip p;
  publisher_timezone := publisher_timezone p; publisher_ein_tin := publisher_ein_tin p |}.

(** A dynamic [UPDATE] of a table of rows by id; [touch] is [updated_at = NOW()] and
    [live] the condition on the row, given the buyer of the statement.  A statement that
    does not parse or type-check fails whether or not it has a row ([probe] is any row). *)
Definition run_update {R} (probe : R) (live : option Uuid → R → bool) (set : string → SqlValue → R → option R)
    (touch : DateTime → R → R) (rows : Office → gmap Uuid R) (put : gmap Uuid R → Office → Office) (q : list Fragment)
    : sql unit :=
  statement (λ w,
    match parse_update q with
    | None => (Err syntax_error, w)
    | Some (sets, (id, owner)) =>
        match set_columns set sets (default probe (rows w !! id)) with
        | None => (Err type_error, w)
        | Some row' =>
            match rows w !! id with
            | Some row => if live owner row then (Ok tt, put (<[id := touch (of_now w) row']> (rows w)) w) else (Ok tt, w)
            | None => (Ok tt, w)
            end
        end
    end).

Definition update_publisher_query (id : Uuid) (payload : UpdatePublisherRequest) : list Fragment :=
  push_set "name = " VText (up_name payload) ++
  push_set "email = " VText (up_email payload) ++
  push_set "status = " VText (up_status payload) ++
  push_set "hmac_required = " VBool (up_hmac_required payload) ++
  push_set "representative_first_name = " VText (up_representative_first_name payload) ++
  push_set "representative_last_name = " VText (up_representative_last_name payload) ++
  push_set "address_street = " VText (up_address_street payload) ++
  push_set "address_city = " VText (up_address_city payload) ++
  push_set "address_state = " VText (up_address_state payload) ++
  push_set "address_zip = " VText (up_address_zip payload) ++
  push_set "timezone = " VText (up_timezone payload) ++
  push_set "ein_tin = " VText (up_ein_tin payload).

(** The audited columns of a publisher. *)
Definition publisher_audit_fields (p : Publisher) : list (string * json) := [
  ("name", JString (publisher_name p)); ("email", JString (publisher_email p));
  ("status", JString (PublisherStatus_name (publisher_status p)));
  ("representative_first_name", json_of_opt_str (publisher_representative_first_name p));
  ("representative_last_name", json_of_opt_str (publisher_representative_last_name p));
  ("address_street", json_of_opt_str (publisher_address_street p)); ("address_city", json_of_opt_str (publisher_address_city p));
  ("address_state", json_of_opt_str (publisher_address_state p)); ("address_zip", json_of_opt_str (publisher_address_zip p));
  ("timezone", json_of_opt_str (publisher_timezone p)); ("ein_tin", json_of_opt_str (publisher_ein_tin p));
  ("hmac_required", JBool (publisher_hmac_required p))].

(** Equality of the scalars above. *)
Definition scalar_eqb (a b : json) : bool :=
  match a, b with
  | JNull, JNull => true
  | JBool x, JBool y => Bool.eqb x y
  | JString x, JString y => String.eqb x y
  | _, _ => false
  end.

Definition changed_fields (before after : list (string * json)) : list (string * json) :=
  omap (λ ba : (string * json) * (string * json),
    let '((k, b), (_, a)) := ba in
    if scalar_eqb b a then None else Some (k, json_object [("before", b); ("after", a)])) (zip before after).

Definition update_publisher (request_id : Uuid) (user : User) (headers : gmap string (option string)) (id : Uuid)
    (payload : UpdatePublisherRequest) : handler json :=
  before ← or_status 500 (fetch (live_publisher id));
  before ← eff_lift (ok_or 404%Z before);
  match update_publisher_query id payload with
  | [] => eff_err 400%Z
  | sets =>
      _ ← or_status 500 (run_update before (λ _ p, bool_decide (publisher_deleted_at p = None)) set_publisher_column
            touch_publisher of_publishers set_of_publishers (sets ++ where_live id));
      after ← ignore_error (fetch (live_publisher id));
      _ ← (match mjoin after with
           | Some after =>
               audit_publisher user headers "publisher_updated" id (λ now,
                 publisher_details "update" id (publisher_name after)
                   (audit_context headers request_id "User updated publisher via dashboard" "POST" (publishers_path id)) now
                   [("actor", json_object [("id", JString (uuid_to_string (user_id user))); ("email", JString (user_email user))]);
                    ("changes", json_object (changed_fields (publisher_audit_fields before) (publisher_audit_fields after)));
                    ("before", json_object (publisher_audit_fields before));
                    ("after", json_object (publisher_audit_fields after))])
           | None => mret tt
           end);
      mret (success [("message", JString "Publisher updated successfully")])
  end.

(** *** Deletion *)

Definition with_deleted_at (t : DateTime) (p : Publisher) : Publisher := {|
  publisher_id := publisher_id p; publisher_name := publisher_name p; publisher_email := publisher_email p;
  publisher_api_key_hash := publisher_api_key_hash p; publisher_api_key_prefix := publisher_api_key_prefix p;
  publisher_api_key_encrypted := publisher_api_key_encrypted p; publisher_status := publisher_status p;
  publisher_total_requests := publisher_total_requests p; publisher_last_request_at := publisher_last_request_at p;
  publisher_instance_id := publisher_instance_id p; publisher_instance_user_id := publisher_instance_user_id p;
  publisher_is_documentation_test := publisher_is_documentation_test p;
  publisher_hmac_secret_hash := publisher_hmac_secret_hash p; publisher_hmac_secret_prefix := publisher_hmac_secret_prefix p;
  publisher_hmac_required := publisher_hmac_required p; publisher_hmac_secret_encrypted := publisher_hmac_secret_encrypted p;
  publisher_deleted_at := Some t; publisher_created_at := publisher_created_at p; publisher_updated_at := publisher_updated_at p;
  publisher_representative_first_name := publisher_representative_first_name p;
  publisher_representative_last_name := publisher_representative_last_name p;
  publisher_address_street := publisher_address_street p; publisher_address_city := publisher_address_city p;
  publisher_address_state := publisher_address_state p; publisher_address_zip := publisher_address_zip p;
  publisher_timezone := publisher_timezone p; publisher_ein_tin := publisher_ein_tin p |}.

Definition delete_publisher (request_id : Uuid) (user : User) (headers : gmap string (option string)) (id : Uuid) : handler json :=
  before ← or_status 500 (fetch (live_publisher id));
  _ ← or_status 500 (execute (λ w, set_of_publishers (alter (with_deleted_at (of_now w)) id (of_publishers w)) w));
  _ ← (match before with
       | Some p =>
           audit_publisher user headers "publisher_deleted" id (λ now,
             publisher_details "delete" id (publisher_name p)
               (audit_context headers request_id "User deleted publisher via dashboard" "DELETE" (publishers_path id)) now
               [("before", json_object [("name", JString (publisher_name p)); ("email", JString (publisher_email p))])])
       | None => mret tt
       end);
  mret (success [("message", JString "Publisher deleted successfully")]).

(** *** Keys and secrets *)

Definition with_api_key (hash encrypted : string) (now : DateTime) (p : Publisher) : Publisher := {|
  publisher_id := publisher_id p; publisher_name := publisher_name p; publisher_email := publisher_email p;
  publisher_api_key_hash := hash; publisher_api_key_prefix := "pk_live_";
  publisher_api_key_encrypted := Some encrypted; publisher_status := publisher_status p;
  publisher_total_requests := publisher_total_requests p; publisher_last_request_at := publisher_last_request_at p;
  publisher_instance_id := publisher_instance_id p; publisher_instance_user_id := publisher_instance_user_id p;
  publisher_is_documentation_test := publisher_is_documentation_test p;
  publisher_hmac_secret_hash := publisher_hmac_secret_hash p; publisher_hmac_secret_prefix := publisher_hmac_secret_prefix p;
  publisher_hmac_required := publisher_hmac_required p; publisher_hmac_secret_encrypted := publisher_hmac_secret_encrypted p;
  publisher_deleted_at := publisher_deleted_at p; publisher_created_at := publisher_created_at p; publisher_updated_at := now;
  publisher_representative_first_name := publisher_representative_first_name p;
  publisher_representative_last_name := publisher_representative_last_name p;
  publisher_address_street := publisher_address_street p; publisher_address_city := publisher_address_city p;
  publisher_address_state := publisher_address_state p; publisher_address_zip := publisher_address_zip p;
  publisher_timezone := publisher_timezone p; publisher_ein_tin := publisher_ein_tin p |}.

Definition with_hmac_secret (hash prefix : string) (now : DateTime) (p : Publisher) : Publisher := {|
  publisher_id := publisher_id p; publisher_name := publisher_name p; publisher_email := publisher_email p;
  publisher_api_key_hash := publisher_api_key_hash p; publisher_api_key_prefix := publisher_api_key_prefix p;
  publisher_api_key_encrypted := publisher_api_key_encrypted p; publisher_status := publisher_status p;
  publisher_total_requests := publisher_total_requests p; publisher_last_request_at := publisher_last_request_at p;
  publisher_instance_id := publisher_instance_id p; publisher_instance_user_id := publisher_instance_user_id p;
  publisher_is_documentation_test := publisher_is_documentation_test p;
  publisher_hmac_secret_hash := Some hash; publisher_hmac_secret_prefix := Some prefix;
  publisher_hmac_required := publisher_hmac_required p; publisher_hmac_secret_encrypted := publisher_hmac_secret_encrypted p;
  publisher_deleted_at := publisher_deleted_at p; publisher_created_at := publisher_created_at p; publisher_updated_at := now;
  publisher_representative_first_name := publisher_representative_first_name p;
  publisher_representative_last_name := publisher_representative_last_name p;
  publisher_address_street := publisher_address_street p; publisher_address_city := publisher_address_city p;
  publisher_address_state := publisher_address_state p; publisher_address_zip := publisher_address_zip p;
  publisher_timezone := publisher_timezone p; publisher_ein_tin := publisher_ein_tin p |}.

Definition alter_live (f : Publisher → Publisher) (id : Uuid) (publishers : gmap Uuid Publisher) : gmap Uuid Publisher :=
  alter (λ p, if bool_decide (publisher_deleted_at p = None) then f p else p) id publishers.

(** [UPDATE publishers SET api_key_hash = $1, ... WHERE id = $3 AND deleted_at IS NULL]:
    hashes stay unique. *)
Definition save_api_key (id : Uuid) (hash encrypted : string) : sql unit :=
  statement (λ w,
    if bool_decide (is_Some (live_publisher id w)) &&
       existsb (λ q, String.eqb (publisher_api_key_hash q) hash && negb (bool_decide (publisher_id q = id)))
         (map_to_list (of_publishers w)).*2
    then (Err (duplicate_key "publishers_api_key_hash_key"), w)
    else (Ok tt, set_of_publishers (alter_live (with_api_key hash encrypted (of_now w)) id (of_publishers w)) w)).

Definition regenerate_publisher_api_key (d : OfficeDraws) (user : User) (headers : gmap string (option string)) (id : Uuid)
    : handler json :=
  p ← or_status 500 (fetch (live_publisher id));
  p ← eff_lift (ok_or 404%Z p);
  let api_key := new_api_key (draw_bytes d) in
  encrypted ← eff_lift (map_err (λ _, 500%Z) (encrypt_api_key (draw_nonce d) api_key));
  _ ← or_status 500 (save_api_key id (sha256_hex api_key) encrypted);
  _ ← audit_publisher user headers "publisher_api_key_rotated" id (λ now,
        publisher_details "api_key_rotated" id (publisher_name p)
          (audit_context headers (draw_request_id d) "User regenerated API key via dashboard" "POST"
             (publishers_path id +:+ "/regenerate-api-key")) now []);
  mret (success [("api_key", JString api_key); ("message", JString "API key regenerated successfully")]).

Definition get_publisher_api_key (user : option User) (id : Uuid) : handler json :=
  user ← eff_lift (ok_or 401%Z user);
  p ← or_status 500 (fetch (live_publisher id));
  p ← eff_lift (ok_or 404%Z p);
  is_admin ← or_status 500 (is_user_admin (user_id user) (Some (publisher_instance_id p)));
  if negb is_admin then eff_err 403%Z
  else
    match publisher_api_key_encrypted p with
    | Some encrypted =>
        if String.eqb encrypted "" then
          mret (json_object [("success", JBool false);
            ("error", JString "API key was not encrypted when created. Please regenerate the API key to enable encryption and retrieval.");
            ("requires_regeneration", JBool true)])
        else
          svc ← eff_lift (map_err (λ _, 500%Z) (EncryptionService_new encryption_key));
          api_key ← eff_lift (map_err (λ _, 500%Z) (EncryptionService_decrypt svc encrypted));
          mret (success [("api_key", JString api_key)])
    | None =>
        mret (json_object [("success", JBool false);
          ("error", JString "API key was not encrypted when created. Please regenerate the API key to enable encryption and retrieval.");
          ("requires_regeneration", JBool true)])
    end.

Definition generate_publisher_hmac_secret_encrypted (d : OfficeDraws) (user : User) (headers : gmap string (option string))
    (id : Uuid) : handler json :=
  p ← or_status 500 (fetch (live_publisher id));
  p ← eff_lift (ok_or 404%Z p);
  let secret := hex_encode (draw_bytes d) in
  _ ← or_status 500 (execute (λ w,
        set_of_publishers (alter_live (with_hmac_secret (sha256_hex secret) (str_take 20 secret) (of_now w)) id (of_publishers w)) w));
  _ ← audit_publisher user headers "publisher_hmac_secret_generated" id (λ now,
        publisher_details "hmac_secret_generated" id (publisher_name p)
          (audit_context headers (draw_request_id d) "User generated HMAC secret via dashboard" "POST"
             (publishers_path id +:+ "/generate-hmac-secret_encrypted")) now []);
  mret (success [("hmac_secret_encrypted", JString secret); ("message", JString "HMAC secret_encrypted generated successfully")]).
End publishers.

(** ** Lemmas *)

Lemma statement_healthy {A} (m : sql A) w : of_outcomes w = [] → statement m w = m w.
Proof. unfold statement. by intros ->. Qed.

Lemma fetch_bind {A B} status (f : Office → A) (k : A → handler B) w :
  of_outcomes w = [] → (or_status status (fetch f) ≫= k) w = k (f w) w.
Proof. intros Hout. rewrite eff_bind_eq. unfold or_status, fetch. by rewrite statement_healthy. Qed.

Lemma ignore_fetch_bind {A B} (f : Office → A) (k : option A → handler B) w :
  of_outcomes w = [] → (ignore_error (fetch f) ≫= k) w = k (Some (f w)) w.
Proof. intros Hout. rewrite eff_bind_eq. unfold ignore_error, fetch. by rewrite statement_healthy. Qed.
Lemma execute_bind {B} status f (k : unit → handler B) w : of_outcomes w = [] → (or_status status (execute f) ≫= k) w = k tt (f w).
Proof. intros Hout. rewrite eff_bind_eq. unfold or_status, execute. by rewrite statement_healthy. Qed.

(** An update of a live row. *)
Lemma run_update_bind {R B} status (probe : R) live set touch (rows : Office → gmap Uuid R) put q id owner sets row row' (k : unit → handler B) w :
  of_outcomes w = [] → parse_update q = Some (sets, (id, owner)) → rows w !! id = Some row → live owner row = true →
  set_columns set sets row = Some row' →
  (or_status status (run_update probe live set touch rows put q) ≫= k) w = k tt (put (<[id := touch (of_now w) row']> (rows w)) w).
Proof.
  intros Hout Hq Hr Hl Hs. rewrite eff_bind_eq. unfold or_status, run_update. rewrite statement_healthy, Hq, Hr by done.
  change (default probe (Some row)) with row. by rewrite Hs, Hl.
Qed.

(** The well-formedness of the publishers. *)
Definition office_publishers_wf (w : Office) : Prop :=
  (∀ i p, of_publishers w !! i = Some p → publisher_id p = i) ∧
  (∀ i j p q, of_publishers w !! i = Some p → of_publishers w !! j = Some q →
     publisher_api_key_hash p = publisher_api_key_hash q → i = j).

(** The publishers of the back office as the API sees them. *)
Definition api_of {L1 L2} (w : Office) (c : CacheState L1 L2) (now : DateTime) : ApiWorld L1 L2 := {|
  api_publishers := of_publishers w; api_cache := c; api_now := now; api_outcomes := [] |}.

Lemma in_publishers (w : Office) p : In p (map_to_list (of_publishers w)).*2 ↔ ∃ i, of_publishers w !! i = Some p.
Proof.
  rewrite <-list_elem_of_In, list_elem_of_fmap. split.
  - intros ([i q] & -> & Hin). apply elem_of_map_to_list in Hin. by exists i.
  - intros [i Hi]. exists (i, p). split; [done|]. by apply elem_of_map_to_list.
Qed.

Lemma live_publisher_Some id w p :
  live_publisher id w = Some p ↔ of_publishers w !! id = Some p ∧ publisher_deleted_at p = None.
Proof.
  unfold live_publisher. destruct (of_publishers w !! id) as [q|]; simpl; [|naive_solver].
  case_bool_decide; naive_solver.
Qed.

Section publisher_lemmas.
Context `{P : Platform} `{C : Crypto} (sha256_hex : string → string) (encryption_key : string).

(** An entry of the audit log changes nothing else. *)
Definition entry_of (user : User) (action : string) (id : Uuid) (entry : AuditLog) : Prop :=
  audit_action_type entry = action ∧ audit_instance_user_id entry = Some (user_id user) ∧ audit_resource_id entry = Some id.

Lemma audit_publisher_bind {B} user headers action id details (k : unit → handler B) w :
  of_outcomes w = [] →
  ∃ entry, entry_of user action id entry ∧
    (audit_publisher user headers action id details ≫= k) w = k tt (set_of_audit (of_audit w ++ [entry]) w).
Proof.
  intros Hout. eexists {| audit_action_type := action; audit_instance_user_id := Some (user_id user); audit_resource_id := Some id |}.
  split; [done|]. rewrite eff_bind_eq. unfold audit_publisher. rewrite eff_bind_eq. unfold ignore_error at 1, fetch.
  rewrite statement_healthy by done. cbn [eff_gets]. rewrite eff_gets_bind, eff_bind_eq. unfold ignore_error, create_audit_log, execute.
  rewrite statement_healthy by done. done.
Qed.

(** The verticals touch nothing else. *)
Lemma insert_publisher_verticals_keeps id verticals w :
  of_outcomes w = [] →
  let r := insert_publisher_verticals id verticals w in
  of_outcomes r.2 = [] ∧ of_publishers r.2 = of_publishers w ∧ of_instances r.2 = of_instances w ∧ r.1 = Ok tt.
Proof.
  revert w. induction verticals as [|v verticals IH]; intros w Hout; [done|]. cbn [insert_publisher_verticals].
  rewrite eff_bind_eq. unfold ignore_error, execute. rewrite statement_healthy by done. simpl.
  set (w1 := if bool_decide _ then w else _). destruct (IH w1) as (H1 & H2 & H3 & H4); [unfold w1; by case_bool_decide|].
  split_and!; [done|rewrite H2|rewrite H3|done]; unfold w1; by case_bool_decide.
Qed.

(** A rotation of the key, on healthy statements. *)
Lemma regenerate_run d user headers id w p c :
  of_outcomes w = [] → office_publishers_wf w → live_publisher id w = Some p →
  encrypt_api_key encryption_key (draw_nonce d) (new_api_key (draw_bytes d)) = Ok c →
  (∀ i q, of_publishers w !! i = Some q → publisher_api_key_hash q = sha256_hex (new_api_key (draw_bytes d)) → i = id) →
  ∃ audit, regenerate_publisher_api_key sha256_hex encryption_key d user headers id w =
    (Ok (success [("api_key", JString (new_api_key (draw_bytes d))); ("message", JString "API key regenerated successfully")]),
     set_of_audit audit (set_of_publishers
       (<[id := with_api_key (sha256_hex (new_api_key (draw_bytes d))) c (of_now w) p]> (of_publishers w)) w)).
Proof.
  intros Hout [Hids _] Hlive Henc Hfresh. unfold regenerate_publisher_api_key. rewrite fetch_bind, Hlive by done.
  rewrite eff_lift_bind. cbn [ok_or]. rewrite eff_lift_bind, Henc. cbn [map_err]. rewrite eff_bind_eq.
  unfold or_status at 1, save_api_key. rewrite statement_healthy by done.
  assert (Hno : existsb (λ q, String.eqb (publisher_api_key_hash q) (sha256_hex (new_api_key (draw_bytes d))) &&
    negb (bool_decide (publisher_id q = id))) (map_to_list (of_publishers w)).*2 = false).
  { apply not_true_iff_false. rewrite existsb_exists. intros (q & Hin & Hq). apply andb_true_iff in Hq as [Hh Hn].
    apply String.eqb_eq in Hh. apply in_publishers in Hin as [i Hi]. rewrite (Hids _ _ Hi), (Hfresh _ _ Hi Hh) in Hn.
    by rewrite bool_decide_eq_true_2 in Hn. }
  rewrite Hno, andb_false_r.
  match goal with |- context [set_of_publishers ?m w] => set (w1 := set_of_publishers m w) end.
  destruct (audit_publisher_bind user headers "publisher_api_key_rotated" id (λ now, publisher_details "api_key_rotated" id
    (publisher_name p) (audit_context headers (draw_request_id d) "User regenerated API key via dashboard" "POST"
    (publishers_path id +:+ "/regenerate-api-key")) now []) (λ _, mret (success [("api_key", JString (new_api_key (draw_bytes d)));
    ("message", JString "API key regenerated successfully")])) w1 Hout) as (e & _ & ->).
  eexists. f_equal. unfold w1. f_equal. f_equal. apply live_publisher_Some in Hlive as [Hp Hd]. unfold alter_live.
  apply map_eq. intros j. destruct (decide (j = id)) as [->|].
  - rewrite lookup_alter_eq, lookup_insert_eq, Hp. simpl. by rewrite bool_decide_eq_true_2.
  - by rewrite lookup_alter_ne, lookup_insert_ne by done.
Qed.
End publisher_lemmas.

(** ** Properties *)

(** The columns that an update can set, and the rest of the row. *)
Definition publisher_column (column : string) (p : Publisher) : option SqlValue :=
  if String.eqb column "name = " then Some (VText (publisher_name p))
  else if String.eqb column "email = " then Some (VText (publisher_email p))
  else if String.eqb column "hmac_required = " then Some (VBool (publisher_hmac_required p))
  else if String.eqb column "representative_first_name = " then VText <$> publisher_representative_first_name p
  else if String.eqb column "representative_last_name = " then VText <$> publisher_representative_last_name p
  else if String.eqb column "address_street = " then VText <$> publisher_address_street p
  else if String.eqb column "address_city = " then VText <$> publisher_address_city p
  else if String.eqb column "address_state = " then VText <$> publisher_address_state p
  else if String.eqb column "address_zip = " then VText <$> publisher_address_zip p
  else if String.eqb column "timezone = " then VText <$> publisher_timezone p
  else if String.eqb column "ein_tin = " then VText <$> publisher_ein_tin p
  else None.

Definition other_columns (p : Publisher) :=
  ((publisher_id p, publisher_api_key_hash p, publisher_api_key_prefix p, publisher_api_key_encrypted p),
   (publisher_status p, publisher_total_requests p, publisher_last_request_at p, publisher_instance_id p),
   (publisher_instance_user_id p, publisher_is_documentation_test p, publisher_hmac_secret_hash p),
   (publisher_hmac_secret_prefix p, publisher_hmac_secret_encrypted p, publisher_deleted_at p, publisher_created_at p)).

(** What a request gives, in the order of the statement. *)
Definition given {A} (column : string) (bind : A → SqlValue) (o : option A) : list (string * SqlValue) :=
  match o with Some x => [(column, bind x)] | None => [] end.

Definition given_columns (payload : UpdatePublisherRequest) : list (string * SqlValue) :=
  given "name = " VText (up_name payload) ++ given "email = " VText (up_email payload) ++
  given "status = " VText (up_status payload) ++ given "hmac_required = " VBool (up_hmac_required payload) ++
  given "representative_first_name = " VText (up_representative_first_name payload) ++
  given "representative_last_name = " VText (up_representative_last_name payload) ++
  given "address_street = " VText (up_address_street payload) ++ given "address_city = " VText (up_address_city payload) ++
  given "address_state = " VText (up_address_state payload) ++ given "address_zip = " VText (up_address_zip payload) ++
  given "timezone = " VText (up_timezone payload) ++ given "ein_tin = " VText (up_ein_tin payload).

(** The last value given for a column. *)
Fixpoint last_given (column : string) (sets : list (string * SqlValue)) : option SqlValue :=
  match sets with
  | [] => None
  | (c, v) :: sets' =>
      match last_given column sets' with Some v' => Some v' | None => if String.eqb c column then Some v else None end
  end.

Lemma parse_push_set {A} column (bind : A → SqlValue) (o : option A) q sets target :
  null_set column = None → parse_update q = Some (sets, target) →
  parse_update (push_set column bind o ++ q) = Some (given column bind o ++ sets, target).
Proof.
  intros Hn Hq. destruct o as [x|]; [|done]. unfold push_set, given. cbn [app parse_update].
  rewrite Hn, String.eqb_refl. by rewrite Hq.
Qed.

(** What a sequence of columns does, from what one does. *)
Lemma set_columns_columns {R K} (set : string → SqlValue → R → option R) (column : string → R → option SqlValue) (others : R → K) :
  (∀ c v r r', set c v r = Some r' →
     column c r' = Some v ∧ others r' = others r ∧ ∀ d, d ≠ c → column d r' = column d r) →
  ∀ sets r r', set_columns set sets r = Some r' →
    others r' = others r ∧ ∀ c, column c r' = match last_given c sets with Some v => Some v | None => column c r end.
Proof.
  intros Hset sets. induction sets as [|[d v] sets IH]; intros r r'; simpl; [by intros [= ->]|].
  destruct (set d v r) as [q|] eqn:Eq; [|done]. intros Hs.
  apply Hset in Eq as (E1 & E2 & E3). destruct (IH q r' Hs) as [H1 H2]. split; [congruence|].
  intros c. rewrite H2. destruct (last_given c sets); [done|]. destruct (String.eqb_spec d c) as [->|Hne]; [done|].
  apply E3. congruence.
Qed.

(** Setting a column. *)
Lemma set_publisher_column_spec column v p p' :
  set_publisher_column column v p = Some p' →
  publisher_column column p' = Some v ∧ other_columns p' = other_columns p ∧
  ∀ c, c ≠ column → publisher_column c p' = publisher_column c p.
Proof.
  assert (Hfinish : ∀ q col, (∀ c, c ≠ col → publisher_column c q = publisher_column c p) → other_columns q = other_columns p →
    publisher_column col q = Some v → publisher_column col q = Some v ∧ other_columns q = other_columns p ∧
    ∀ c, c ≠ col → publisher_column c q = publisher_column c p) by done.
  unfold set_publisher_column. destruct v as [s|b| | | | | | | |]; try done.
  all: repeat (match goal with |- context [if String.eqb ?col ?x then _ else _] => destruct (String.eqb_spec col x) as [->|] end;
    [intros [= <-]; apply Hfinish; [|done|done]; intros c Hc; unfold publisher_column; simpl;
     repeat match goal with |- context [String.eqb c ?x] => destruct (String.eqb_spec c x); [done|] end; done|]).
  all: done.
Qed.

Lemma set_columns_spec sets p p' :
  set_columns set_publisher_column sets p = Some p' →
  other_columns p' = other_columns p ∧
  ∀ c, publisher_column c p' = match last_given c sets with Some v => Some v | None => publisher_column c p end.
Proof. apply set_columns_columns, set_publisher_column_spec. Qed.

(** Columns of text and the flag can be set; a status cannot. *)
Definition settable (kv : string * SqlValue) : Prop :=
  match kv.2 with
  | VText _ => kv.1 ∈ ["name = "; "email = "; "representative_first_name = "; "representative_last_name = "; "address_street = ";
                       "address_city = "; "address_state = "; "address_zip = "; "timezone = "; "ein_tin = "]
  | VBool _ => kv.1 = "hmac_required = "
  | _ => False
  end.

Lemma set_columns_total sets p : Forall settable sets → is_Some (set_columns set_publisher_column sets p).
Proof.
  intros Hall. revert p. induction Hall as [|[column v] sets Hc Hall IH]; intros p; simpl; [done|].
  assert (Hs : is_Some (set_publisher_column column v p)).
  { unfold settable in Hc. simpl in Hc. unfold set_publisher_column. destruct v; try done.
    - repeat (apply elem_of_cons in Hc as [->|Hc]; [by eexists|]). by apply elem_of_nil in Hc.
    - subst. by eexists. }
  destruct Hs as [q ->]. apply IH.
Qed.

Lemma set_columns_status sets s rest p : set_columns set_publisher_column (sets ++ ("status = ", VText s) :: rest) p = None.
Proof.
  revert p. induction sets as [|[column v] sets IH]; intros p; simpl; [done|]. by destruct (set_publisher_column column v p).
Qed.

Lemma update_publisher_query_given id payload :
  parse_update (update_publisher_query id payload ++ where_live id) = Some (given_columns payload, (id, None)).
Proof.
  unfold update_publisher_query, given_columns. rewrite <-!app_assoc.
  rewrite <-(app_nil_r (given "ein_tin = " VText (up_ein_tin payload))). by do 12 (apply parse_push_set; [done|]).
Qed.

Lemma given_settable payload : up_status payload = None → Forall settable (given_columns payload).
Proof.
  intros Hs. unfold given_columns. rewrite Hs. simpl. rewrite !Forall_app. unfold given.
  repeat split; (case_match; [|done]); repeat constructor; simpl; set_solver.
Qed.

Lemma query_nil id payload : update_publisher_query id payload = [] ↔ given_columns payload = [].
Proof.
  assert (Hp : ∀ A c (b : A → SqlValue) o, push_set c b o = [] ↔ given c b o = []) by (intros; unfold push_set, given; by case_match).
  unfold update_publisher_query, given_columns. rewrite !app_nil, !Hp. done.
Qed.

Section properties.
Context `{P : Platform} `{C : Crypto} (sha256_hex : string → string) (encryption_key : string).

(** C22: a user of one instance can take over the publishers of another.  Whoever is
    logged in and whatever instance the publisher belongs to, the rotation of a live
    active publisher's key returns a key with which requests pass as that publisher,
    although the same user is refused to read the key of an instance of others. *)
Theorem any_user_takes_over_publisher {L1 L2} `{!TtlStore L1, !TtlStore L2} (serde : Serde (option Publisher))
    (d : OfficeDraws) (user : User) (headers : gmap string (option string)) (id : Uuid) (p : Publisher) (w : Office)
    (c : string) (cache : CacheState L1 L2) (now : DateTime) :
  of_outcomes w = [] → office_publishers_wf w → of_publishers w !! id = Some p → Publisher_active p = true →
  encrypt_api_key encryption_key (draw_nonce d) (new_api_key (draw_bytes d)) = Ok c →
  (∀ i q, of_publishers w !! i = Some q → publisher_api_key_hash q ≠ sha256_hex (new_api_key (draw_bytes d))) →
  str_trim (new_api_key (draw_bytes d)) = new_api_key (draw_bytes d) →
  (∃ answer w', regenerate_publisher_api_key sha256_hex encryption_key d user headers id w = (Ok answer, w') ∧
     ∃ key, jget "api_key" answer = Some (JString key) ∧
     ∃ p' w2, api_key_auth_middleware sha256_hex serde false {["x-api-key" := Some key]} (api_of w' cache now) = (Ok (inr p'), w2) ∧
       publisher_id p' = id) ∧
  (owns_instance (user_id user) (Some (publisher_instance_id p)) w = false →
   get_publisher_api_key encryption_key (Some user) id w = (Err 403%Z, w)).
Proof.
  intros Hout Hwf Hp Hact Henc Hfresh Htrim. pose proof Hact as Ha. apply andb_true_iff in Ha as [Hs Hd].
  apply bool_decide_eq_true in Hs, Hd.
  assert (Hlive : live_publisher id w = Some p) by (by apply live_publisher_Some). split.
  - destruct (regenerate_run sha256_hex encryption_key d user headers id w p c Hout Hwf Hlive Henc) as [audit ->].
    { intros i q Hq Hh. by destruct (Hfresh i q Hq). }
    eexists _, _. split; [done|]. exists (new_api_key (draw_bytes d)). split; [done|].
    set (key := new_api_key (draw_bytes d)) in *. set (p' := with_api_key (sha256_hex key) c (of_now w) p).
    destruct Hwf as [Hids Huniq]. exists p'.
    set (wa := api_of _ cache now).
    assert (Hhash : publisher_by_hash (sha256_hex key) wa = Some p').
    { apply publisher_by_hash_spec.
      - split; simpl.
        + intros i q. destruct (decide (i = id)) as [->|]; [rewrite lookup_insert_eq|rewrite lookup_insert_ne by done].
          * intros [= <-]. simpl. by apply Hids.
          * apply Hids.
        + intros i j q r. destruct (decide (i = id)) as [->|], (decide (j = id)) as [->|];
            rewrite ?lookup_insert_eq, ?lookup_insert_ne by done; [done| | |].
          * intros [= <-] Hr Hh. simpl in Hh. by destruct (Hfresh j r Hr).
          * intros Hq [= <-] Hh. simpl in Hh. by destruct (Hfresh i q Hq).
          * apply Huniq.
      - simpl. rewrite (Hids _ _ Hp), lookup_insert_eq. done. }
    assert (Hact' : Publisher_active p' = true) by (unfold Publisher_active, p'; simpl; by rewrite Hs, Hd).
    destruct (api_key_auth_admits sha256_hex serde {["x-api-key" := Some key]} key wa p') as [w2 Hw2];
      [by unfold header_text; rewrite lookup_singleton_eq|by rewrite Htrim|done|by rewrite Htrim|done|].
    exists w2. split; [done|]. by apply (Hids _ _ Hp).
  - intros Hown. unfold get_publisher_api_key. rewrite eff_lift_bind. cbn [ok_or]. rewrite fetch_bind, Hlive by done.
    rewrite eff_lift_bind. cbn [ok_or]. unfold is_user_admin. by rewrite fetch_bind, Hown by done.
Qed.

(** the secret a publisher generates signs nothing.  The new secret is returned and
    its hash stored, but every request of the publisher is judged as before: the
    middleware reads the secret of the environment. *)
Theorem generated_secret_verifies_nothing `{A : AuthLib} (d : OfficeDraws) (user : User)
    (headers : gmap string (option string)) (id : Uuid) (p : Publisher) (w : Office) :
  of_outcomes w = [] → live_publisher id w = Some p →
  ∃ answer w' p', generate_publisher_hmac_secret_encrypted sha256_hex d user headers id w = (Ok answer, w') ∧
    jget "hmac_secret_encrypted" answer = Some (JString (hex_encode (draw_bytes d))) ∧
    live_publisher id w' = Some p' ∧ publisher_hmac_secret_hash p' = Some (sha256_hex (hex_encode (draw_bytes d))) ∧
    ∀ secret headers' body,
      hmac_verification_middleware secret headers' (Some p') body = hmac_verification_middleware secret headers' (Some p) body.
Proof.
  intros Hout Hlive. unfold generate_publisher_hmac_secret_encrypted. rewrite fetch_bind, Hlive by done.
  rewrite eff_lift_bind. cbn [ok_or]. rewrite eff_bind_eq. unfold or_status, execute at 1. rewrite statement_healthy by done.
  simpl. match goal with |- context [set_of_publishers ?m w] => set (w1 := set_of_publishers m w) end.
  match goal with |- context [(audit_publisher _ _ ?a _ ?det ≫= ?k) w1] =>
    destruct (audit_publisher_bind user headers a id det k w1 Hout) as (e & _ & ->) end.
  pose proof Hlive as Hl. apply live_publisher_Some in Hl as [Hp Hd].
  eexists _, _, (with_hmac_secret (sha256_hex (hex_encode (draw_bytes d))) (str_take 20 (hex_encode (draw_bytes d))) (of_now w) p).
  split; [done|]. split; [done|]. split; [|done]. apply live_publisher_Some. simpl. unfold alter_live.
  rewrite lookup_alter_eq, Hp. simpl. by rewrite bool_decide_eq_true_2.
Qed.


(** what an update of a publisher does.  With a status it fails whatever the status
    says and changes nothing: the column is of an enumerated type and the value is bound
    as text.  Without fields it is refused.  Otherwise it sets exactly the columns that
    are given and the date of the row, and adds one entry to the audit log. *)
Theorem update_publisher_spec (request_id : Uuid) (user : User) (headers : gmap string (option string)) (id : Uuid)
    (payload : UpdatePublisherRequest) (p : Publisher) (w : Office) :
  of_outcomes w = [] → live_publisher id w = Some p →
  match up_status payload, given_columns payload with
  | Some _, _ => update_publisher request_id user headers id payload w = (Err 500%Z, w)
  | None, [] => update_publisher request_id user headers id payload w = (Err 400%Z, w)
  | None, _ =>
      ∃ p' audit, update_publisher request_id user headers id payload w =
        (Ok (success [("message", JString "Publisher updated successfully")]),
         set_of_audit audit (set_of_publishers (<[id := p']> (of_publishers w)) w)) ∧
      publisher_updated_at p' = of_now w ∧ other_columns p' = other_columns p ∧
      (∀ c, publisher_column c p' = match last_given c (given_columns payload) with
                                    | Some v => Some v | None => publisher_column c p end) ∧
      ∃ entry, audit = of_audit w ++ [entry] ∧ audit_action_type entry = "publisher_updated" ∧
        audit_instance_user_id entry = Some (user_id user) ∧ audit_resource_id entry = Some id
  end.
Proof.
  intros Hout Hlive. assert (Hq : match update_publisher_query id payload with
    | [] => given_columns payload = [] | _ => given_columns payload ≠ [] end).
  { destruct (update_publisher_query id payload) eqn:E; rewrite <-(query_nil id payload), E; done. }
  pose proof Hlive as Hl. apply live_publisher_Some in Hl as [Hp Hd].
  unfold update_publisher. rewrite fetch_bind, Hlive by done. rewrite eff_lift_bind. cbn [ok_or].
  destruct (up_status payload) as [s|] eqn:Es; [|destruct (given_columns payload) as [|g gs] eqn:Eg].
  - destruct (update_publisher_query id payload) as [|f fs] eqn:E; [by unfold given_columns in Hq; rewrite Es in Hq; destruct (up_name payload), (up_email payload)|].
    rewrite <-E, eff_bind_eq. unfold or_status at 1, run_update. rewrite statement_healthy, update_publisher_query_given, Hp by done.
    assert (Hg : ∃ l1 l2, given_columns payload = l1 ++ ("status = ", VText s) :: l2).
    { unfold given_columns. rewrite Es. eexists (given _ _ _ ++ given _ _ _), _. rewrite <-app_assoc. done. }
    destruct Hg as (l1 & l2 & ->). by rewrite set_columns_status.
  - by destruct (update_publisher_query id payload).
  - destruct (update_publisher_query id payload) as [|f fs] eqn:E; [done|].
    rewrite <-E, eff_bind_eq. unfold or_status at 1, run_update. rewrite statement_healthy, update_publisher_query_given, Hp by done.
    simpl default. destruct (set_columns_total (given_columns payload) p (given_settable payload Es)) as [q Hq'].
    rewrite Hq', bool_decide_eq_true_2 by done. apply set_columns_spec in Hq' as [Ho Hc]. rewrite Eg in Hc.
    set (p' := touch_publisher (of_now w) q). set (w1 := set_of_publishers _ w).
    assert (Hd' : publisher_deleted_at q = None) by (unfold other_columns in Ho; congruence).
    rewrite eff_bind_eq. unfold ignore_error at 1, fetch at 1. rewrite statement_healthy by done. cbn [eff_gets].
    assert (Hl1 : live_publisher id w1 = Some p').
    { apply live_publisher_Some. split; [|done]. unfold w1. simpl. by rewrite lookup_insert_eq. }
    rewrite Hl1. cbn [mjoin option_join].
    match goal with |- context [(audit_publisher _ _ ?a _ ?det ≫= ?k) w1] =>
      destruct (audit_publisher_bind user headers a id det k w1 Hout) as (e & He & ->) end.
    exists p', (of_audit w ++ [e]). split_and!; try done. by exists e.
Qed.

(** a new key reads back and works.  When a publisher was created, the returned key
    is the one whose hash is stored, and whoever owns the instance of the publisher can
    read it back. *)
Theorem created_key_reads_back (is_str : string → Prop) `{!CryptoLaws P C is_str} (d : OfficeDraws) (user owner : User)
    (headers : gmap string (option string)) (payload : CreatePublisherRequest) (w w' : Office) (answer : json) (key : string) :
  of_outcomes w = [] → String.length (draw_nonce d) = 12 → is_str (new_api_key (draw_bytes d)) →
  create_publisher sha256_hex encryption_key d user headers payload w = (Ok answer, w') →
  jget "api_key" answer = Some (JString key) →
  ∃ p, live_publisher (draw_id d) w' = Some p ∧ publisher_api_key_hash p = sha256_hex key ∧ Publisher_active p = true ∧
    of_publishers w' = <[draw_id d := p]> (of_publishers w) ∧
    (owns_instance (user_id owner) (Some (publisher_instance_id p)) w = true →
     publisher_api_key_encrypted p ≠ Some "" →
     get_publisher_api_key encryption_key (Some owner) (draw_id d) w' = (Ok (success [("api_key", JString key)]), w')).
Proof.
  intros Hout Hnonce Hstr Hrun Hkey. unfold create_publisher in Hrun. rewrite eff_bind_eq in Hrun.
  destruct (scope_instance user (cp_instance_id payload) w) as [[inst|e] w0] eqn:Ei; [|done].
  assert (w0 = w) as ->.
  { unfold scope_instance in Ei. destruct (cp_instance_id payload); [by injection Ei|]. unfold get_instance_id_for_user in Ei.
    rewrite fetch_bind in Ei by done. by injection Ei. }
  rewrite eff_lift_bind in Hrun. destruct (encrypt_api_key _ _ _) as [enc|e] eqn:Henc; [|done]. cbn [map_err] in Hrun.
  rewrite fetch_bind in Hrun by done. destruct (existsb _ _); [by injection Hrun as <- _|].
  rewrite eff_gets_bind, eff_bind_eq in Hrun. unfold eff_try, insert_publisher in Hrun. rewrite statement_healthy in Hrun by done.
  destruct (bool_decide _); [by first [done|injection Hrun as <- _]|].
  destruct (existsb _ _); [by first [done|injection Hrun as <- _]|].
  set (p := new_publisher sha256_hex d payload inst enc (of_now w)) in Hrun. set (w1 := set_of_publishers _ w) in Hrun.
  rewrite eff_bind_eq in Hrun.
  pose proof (insert_publisher_verticals_keeps (draw_id d) (default [] (cp_vertical_ids payload)) w1 Hout) as (H1 & H2 & H3 & H4).
  destruct (insert_publisher_verticals _ _ w1) as [r w2]. simpl in H1, H2, H3, H4. subst r.
  match type of Hrun with context [(audit_publisher _ _ ?a ?i ?det ≫= ?k) w2] =>
    destruct (audit_publisher_bind user headers a i det k w2 H1) as (e & _ & Ha); rewrite Ha in Hrun end.
  injection Hrun as <- <-. injection Hkey as <-. exists p.
  assert (Hp : of_publishers w2 = <[draw_id d := p]> (of_publishers w)) by done.
  assert (Hlive : live_publisher (draw_id d) (set_of_audit (of_audit w2 ++ [e]) w2) = Some p).
  { apply live_publisher_Some. simpl. by rewrite Hp, lookup_insert_eq. }
  split; [done|]. split; [done|]. split; [done|]. split; [done|]. intros Hown Hnonempty.
  unfold get_publisher_api_key. rewrite eff_lift_bind. cbn [ok_or]. rewrite fetch_bind, Hlive by done.
  rewrite eff_lift_bind. cbn [ok_or]. unfold is_user_admin. rewrite fetch_bind by done.
  assert (Hown2 : owns_instance (user_id owner) (Some (publisher_instance_id p)) (set_of_audit (of_audit w2 ++ [e]) w2) = true).
  { unfold owns_instance in *. change (of_instances (set_of_audit _ w2)) with (of_instances w2). by rewrite H3. }
  rewrite Hown2. cbn [negb]. assert (Ep : publisher_api_key_encrypted p = Some enc) by done. rewrite Ep in *.
  rewrite (proj2 (String.eqb_neq enc "")) by congruence. unfold encrypt_api_key in Henc.
  destruct (EncryptionService_new encryption_key) as [svc|] eqn:Enew; [|done]. rewrite eff_lift_bind. cbn [map_err].
  assert (Hlen : String.length (cipher_key svc) = 32).
  { unfold EncryptionService_new in Enew. destruct (Nat.eqb_spec (String.length encryption_key) 32); [|done]. by injection Enew as <-. }
  by rewrite eff_lift_bind, (decrypt_encrypt is_str svc (draw_nonce d) (new_api_key (draw_bytes d)) enc Hstr Hlen Hnonce Henc).
Qed.
End properties.

(** ** Witnesses *)

#[local] Existing Instance plain_platform.
#[local] Existing Instance plain_crypto.

Definition office_key : string := sample_tag +:+ sample_tag.
Definition office_hash (key : string) : string := "#" +:+ key.
Definition office_draws : OfficeDraws := {|
  draw_bytes := "bytes"; draw_id := 9%N; draw_nonce := "123456789012"; draw_request_id := 5%N |}.

(** Two instances; the publisher is of the second, the user owns the first. *)
Definition sample_office : Office := {|
  of_instances := [{| instance_id := 100%N; instance_user_id := Some 7%N; instance_deleted_at := None |};
                   {| instance_id := 0%N; instance_user_id := Some 8%N; instance_deleted_at := None |}];
  of_publishers := {[1%N := sample_api_publisher]}; of_verticals := []; of_publisher_verticals := []; of_trees := ∅;
  of_tree_publishers := []; of_tree_campaigns := []; of_campaigns := ∅; of_buyers := ∅; of_integrations := []; of_rule_sets := ∅;
  of_zip_lists := []; of_zip_codes := []; of_audit := []; of_now := 1000; of_outcomes := [] |}.

Lemma sample_office_wf : office_publishers_wf sample_office.
Proof.
  split; simpl.
  - intros i p [<- <-]%lookup_singleton_Some. done.
  - intros i j p q [<- <-]%lookup_singleton_Some [<- <-]%lookup_singleton_Some. done.
Qed.

Lemma any_user_takes_over_publisher_witness :
  let user := sample_user None None in
  (∃ answer w', regenerate_publisher_api_key office_hash office_key office_draws user ∅ 1%N sample_office = (Ok answer, w')) ∧
  get_publisher_api_key office_key (Some user) 1%N sample_office = (Err 403%Z, sample_office).
Proof.
  intros user. destruct (any_user_takes_over_publisher office_hash office_key publisher_serde office_draws user ∅ 1%N
    sample_api_publisher sample_office (draw_nonce office_draws +:+ new_api_key (draw_bytes office_draws) +:+ sample_tag)
    (CacheService_new (∅ : ttl_map) (None : option ttl_map) "development") 0) as [(answer & w' & Hr & _) Hf].
  - done.
  - apply sample_office_wf.
  - done.
  - done.
  - vm_compute. reflexivity.
  - intros i q Hq. unfold sample_office, of_publishers in Hq. apply lookup_singleton_Some in Hq as [<- <-]. done.
  - vm_compute. reflexivity.
  - split; [by exists answer, w'|]. apply Hf. vm_compute. reflexivity.
Defined.

Lemma generated_secret_verifies_nothing_witness :
  let headers := {["x-hmac-signature" := Some "00"]} in
  ∃ w' p', live_publisher 1%N w' = Some p' ∧ publisher_hmac_secret_hash p' = Some (office_hash (hex_encode "bytes")) ∧
    ∀ body, @hmac_verification_middleware account_lib (Some "env") headers (Some p') body
          = @hmac_verification_middleware account_lib (Some "env") headers (Some sample_api_publisher) body.
Proof.
  intros headers. destruct (generated_secret_verifies_nothing (A := account_lib) office_hash office_draws (sample_user None None) ∅
    1%N sample_api_publisher sample_office eq_refl eq_refl) as (answer & w' & p' & _ & _ & Hl & Hh & Hv).
  exists w', p'. split; [done|]. split; [done|]. intros body. apply Hv.
Defined.

Definition sample_update (status : option string) : UpdatePublisherRequest := {|
  up_name := Some "New"; up_email := None; up_status := status; up_hmac_required := Some true;
  up_representative_first_name := None; up_representative_last_name := None; up_address_street := None;
  up_address_city := Some "Austin"; up_address_state := None; up_address_zip := None; up_timezone := None; up_ein_tin := None |}.

Lemma update_publisher_spec_witness :
  let update s := update_publisher 5%N (sample_user None None) ∅ 1%N (sample_update s) sample_office in
  update (Some "suspended") = (Err 500%Z, sample_office) ∧
  ∃ p', of_publishers (update None).2 = {[1%N := p']} ∧ publisher_name p' = "New" ∧ publisher_hmac_required p' = true.
Proof.
  intros update. split.
  - exact (update_publisher_spec 5%N (sample_user None None) ∅ 1%N (sample_update (Some "suspended")) sample_api_publisher
      sample_office eq_refl eq_refl).
  - destruct (update_publisher_spec 5%N (sample_user None None) ∅ 1%N (sample_update None) sample_api_publisher
      sample_office eq_refl eq_refl) as (p' & audit & Hr & _ & _ & Hc & _).
    exists p'. unfold update. rewrite Hr. split; [apply insert_singleton_eq|].
    pose proof (Hc "name = ") as Hn. pose proof (Hc "hmac_required = ") as Hh. vm_compute in Hn, Hh. injection Hn as Hn. injection Hh as Hh. split; assumption.
Defined.

Definition sample_create : CreatePublisherRequest := {|
  cp_name := "Fresh"; cp_email := "fresh@x"; cp_instance_id := None; cp_representative_first_name := None;
  cp_representative_last_name := None; cp_address_street := None; cp_address_city := None; cp_address_state := None;
  cp_address_zip := None; cp_timezone := None; cp_ein_tin := None; cp_vertical_ids := Some [3%N] |}.

Lemma created_key_reads_back_witness :
  let user := sample_user None None in
  let r := create_publisher office_hash office_key office_draws user ∅ sample_create sample_office in
  (get_publisher_api_key office_key (Some user) 9%N r.2).1 = Ok (success [("api_key", JString (new_api_key "bytes"))]).
Proof.
  intros user r. destruct r as [[answer|e] w'] eqn:Er; [|by vm_compute in Er].
  assert (Ha : jget "api_key" answer = Some (JString (new_api_key "bytes"))).
  { assert (Hr : r.1 = Ok answer) by (by rewrite Er). vm_compute in Hr. injection Hr as <-. vm_compute. reflexivity. }
  destruct (created_key_reads_back office_hash office_key (λ _, True) office_draws user user ∅ sample_create sample_office w'
    answer (new_api_key "bytes")) as (p & Hl & _ & _ & _ & Hget); [done|done|done|exact Er|exact Ha|].
  assert (Hp : live_publisher 9%N r.2 = Some p) by (by rewrite Er). vm_compute in Hp. injection Hp as <-.
  change ((get_publisher_api_key office_key (Some user) (draw_id office_draws) w').1 = Ok (success [("api_key", JString (new_api_key "bytes"))])). rewrite Hget; [done|vm_compute; reflexivity|done].
Defined.
