(* ===== verification/Campaigns.v ===== *)
(** * The back office: campaigns

    [crates/api/src/routes/dashboard.rs], the handlers of campaigns, on the tables of
    [Office.v].  A campaign has a membership for each ping tree it is in. *)

From stdpp Require Import base list strings gmap.
From Stdlib Require Import Ascii String ZArith Lia.
From S2P Require Import Prelude Float64 Platform Json Models Metrics Samples Store WriteBehind.
From S2P Require Import Encryption Accounts Cache ApiAuth Office.

Open Scope string_scope.
Open Scope list_scope.

(** ** Rows *)

Definition campaign_is_live (c : Campaign) : bool := bool_decide (campaign_deleted_at c = None).
Definition live_campaign (id : Uuid) (w : Office) : option Campaign :=
  c ← of_campaigns w !! id; if campaign_is_live c then Some c else None.

(** [SELECT COUNT( * ) > 0 FROM ping_tree_campaigns WHERE campaign_id = $1]: trees that are
    deleted count. *)
Definition in_any_ping_tree (id : Uuid) (w : Office) : bool :=
  existsb (λ m, bool_decide (ptc_campaign_id m = id)) (of_tree_campaigns w).

(** Writes the columns that handlers change. *)
Definition put_campaign (name : option string) (publisher buyer : Uuid) (status : CampaignStatus)
    (deleted_at : option DateTime) (updated_at : DateTime) (c : Campaign) : Campaign := {|
  campaign_id := campaign_id c; campaign_buyer_id := buyer; campaign_publisher_id := publisher;
  campaign_instance_id := campaign_instance_id c; campaign_name := name; campaign_vertical := campaign_vertical c;
  campaign_campaign_token := campaign_campaign_token c; campaign_status := status;
  campaign_is_documentation_test := campaign_is_documentation_test c; campaign_deleted_at := deleted_at;
  campaign_created_at := campaign_created_at c; campaign_updated_at := updated_at |}.

Definition set_campaign_column (column : string) (v : SqlValue) (c : Campaign) : option Campaign :=
  let put name publisher buyer status :=
    put_campaign name publisher buyer status (campaign_deleted_at c) (campaign_updated_at c) c in
  match v with
  | VText s =>
      if String.eqb column "name = "
      then Some (put (Some s) (campaign_publisher_id c) (campaign_buyer_id c) (campaign_status c)) else None
  | VUuid u =>
      if String.eqb column "publisher_id = "
      then Some (put (campaign_name c) u (campaign_buyer_id c) (campaign_status c))
      else if String.eqb column "buyer_id = "
      then Some (put (campaign_name c) (campaign_publisher_id c) u (campaign_status c)) else None
  | VCampaignStatus s =>
      if String.eqb column "status = "
      then Some (put (campaign_name c) (campaign_publisher_id c) (campaign_buyer_id c) s) else None
  | _ => None
  end.

Definition touch_campaign (now : DateTime) (c : Campaign) : Campaign :=
  put_campaign (campaign_name c) (campaign_publisher_id c) (campaign_buyer_id c) (campaign_status c)
    (campaign_deleted_at c) now c.

Definition campaign_with_deleted_at (t : DateTime) (c : Campaign) : Campaign :=
  put_campaign (campaign_name c) (campaign_publisher_id c) (campaign_buyer_id c) (campaign_status c)
    (Some t) (campaign_updated_at c) c.

(** ** Handlers *)

Record CreateCampaignRequest : Type := {
  cc_name : option string;
  cc_vertical : string;
  cc_publisher_id : Uuid;
  cc_buyer_id : Uuid;
  cc_instance_id : option Uuid;
  cc_ping_tree_id : option Uuid
}.

Section campaigns.
(** [parse_uuid]: [Uuid::parse_str]. *)
Context `{Platform} (parse_uuid : string → option Uuid).

Definition no_changes : json := success [("message", JString "No changes to update")].

Definition campaign_row (c : Campaign) (in_ping_tree : bool) : json := json_object [
  ("id", JString (uuid_to_string (campaign_id c))); ("name", json_of_opt_str (campaign_name c));
  ("vertical", JString (campaign_vertical c)); ("campaign_token", JString (campaign_campaign_token c));
  ("status", JString (CampaignStatus_as_str (campaign_status c)));
  ("publisher_id", JString (uuid_to_string (campaign_publisher_id c)));
  ("buyer_id", JString (uuid_to_string (campaign_buyer_id c)));
  ("created_at", JString (to_rfc3339 (campaign_created_at c)));
  ("deleted_at", json_of_option (λ t, JString (to_rfc3339 t)) (campaign_deleted_at c));
  ("in_ping_tree", JBool in_ping_tree)].

(** [ORDER BY created_at DESC]. *)
Definition campaigns_of_instance (inst : Uuid) (w : Office) : list Campaign :=
  sort_by (λ c1 c2, (campaign_created_at c2 ?= campaign_created_at c1)%Z)
    (List.filter (λ c, bool_decide (campaign_instance_id c = inst) && campaign_is_live c) (map_to_list (of_campaigns w)).*2).

Definition list_campaigns (user : option User) : handler json :=
  user ← eff_lift (ok_or 401%Z user);
  inst ← or_status 500 (get_instance_id_for_user (user_id user));
  inst ← eff_lift (ok_or 400%Z inst);
  campaigns ← or_status 500 (fetch (campaigns_of_instance inst));
  members ← (match campaigns with
             | [] => mret []
             | _ => members ← ignore_error (fetch (λ w, ptc_campaign_id <$> of_tree_campaigns w)); mret (default [] members)
             end);
  mret (success [("campaigns",
    JArray ((λ c, campaign_row c (bool_decide (campaign_id c ∈ (members : list Uuid)))) <$> campaigns))]).

Definition new_campaign (id : Uuid) (token : string) (inst : Uuid) (payload : CreateCampaignRequest) (now : DateTime)
    : Campaign := {|
  campaign_id := id; campaign_buyer_id := cc_buyer_id payload; campaign_publisher_id := cc_publisher_id payload;
  campaign_instance_id := inst; campaign_name := cc_name payload; campaign_vertical := cc_vertical payload;
  campaign_campaign_token := token; campaign_status := CampaignActive; campaign_is_documentation_test := false;
  campaign_deleted_at := None; campaign_created_at := now; campaign_updated_at := now |}.

(** [INSERT INTO campaigns]: ids and tokens are unique. *)
Definition insert_campaign (c : Campaign) : sql unit :=
  statement (λ w,
    if bool_decide (is_Some (of_campaigns w !! campaign_id c)) then (Err (duplicate_key "campaigns_pkey"), w)
    else if existsb (λ d, String.eqb (campaign_campaign_token d) (campaign_campaign_token c)) (map_to_list (of_campaigns w)).*2
    then (Err (duplicate_key "campaigns_campaign_token_key"), w)
    else (Ok tt, set_of_campaigns (<[campaign_id c := c]> (of_campaigns w)) w)).

Definition new_membership (id tree campaign : Uuid) (priority : option Z) (now : DateTime) : PingTreeCampaign := {|
  ptc_id := id; ptc_ping_tree_id := tree; ptc_campaign_id := campaign; ptc_priority := priority; ptc_min_price := None;
  ptc_max_price := None; ptc_enabled := true; ptc_created_at := now; ptc_updated_at := now |}.

Definition is_membership (tree campaign : Uuid) (m : PingTreeCampaign) : bool :=
  bool_decide (ptc_ping_tree_id m = tree) && bool_decide (ptc_campaign_id m = campaign).

Definition foreign_key_violation : string := "insert or update violates foreign key constraint".

(** [INSERT INTO ping_tree_campaigns ... ON CONFLICT (ping_tree_id, campaign_id) DO ...]:
    [conflict] is what happens to the row that is there; the tree and the campaign are
    foreign keys. *)
Definition insert_membership (id tree campaign : Uuid) (priority : option Z) (conflict : DateTime → PingTreeCampaign → PingTreeCampaign)
    : sql unit :=
  statement (λ w,
    if existsb (is_membership tree campaign) (of_tree_campaigns w) then
      (Ok tt, set_of_tree_campaigns
        ((λ m, if is_membership tree campaign m then conflict (of_now w) m else m) <$> of_tree_campaigns w) w)
    else if bool_decide (is_Some (of_trees w !! tree)) && bool_decide (is_Some (of_campaigns w !! campaign)) then
      (Ok tt, set_of_tree_campaigns (of_tree_campaigns w ++ [new_membership id tree campaign priority (of_now w)]) w)
    else (Err foreign_key_violation, w)).

(** Drawn: the bytes of the token, the id, and the id of the membership. *)
Definition create_campaign (token_bytes : string) (id membership_id : Uuid) (user : User) (payload : CreateCampaignRequest)
    : handler json :=
  inst ← scope_instance user (cc_instance_id payload);
  let campaign_token := hex_encode token_bytes in
  now ← eff_gets of_now;
  _ ← or_status 500 (insert_campaign (new_campaign id campaign_token inst payload now));
  _ ← (match cc_ping_tree_id payload with
       | Some tree => or_status 500 (insert_membership membership_id tree id (Some 1%Z) (λ _ m, m))
       | None => mret tt
       end);
  mret (success [
    ("campaign", json_object [
       ("id", JString (uuid_to_string id)); ("name", json_of_opt_str (cc_name payload)); ("vertical", JString (cc_vertical payload));
       ("campaign_token", JString campaign_token); ("status", JString "active");
       ("publisher_id", JString (uuid_to_string (cc_publisher_id payload)));
       ("buyer_id", JString (uuid_to_string (cc_buyer_id payload)))]);
    ("message", JString "Campaign created successfully")]).

Definition get_campaign (user : option User) (id : Uuid) : handler json :=
  user ← eff_lift (ok_or 401%Z user);
  inst ← or_status 500 (get_instance_id_for_user (user_id user));
  inst ← eff_lift (ok_or 400%Z inst);
  c ← or_status 500 (fetch (λ w,
        c ← live_campaign id w; if bool_decide (campaign_instance_id c = inst) then Some c else None));
  c ← eff_lift (ok_or 404%Z c);
  in_ping_tree ← ignore_error (fetch (in_any_ping_tree id));
  mret (success [("campaign", json_object [
    ("id", JString (uuid_to_string (campaign_id c))); ("name", json_of_opt_str (campaign_name c));
    ("vertical", JString (campaign_vertical c)); ("campaign_token", JString (campaign_campaign_token c));
    ("status", JString (CampaignStatus_as_str (campaign_status c)));
    ("publisher_id", JString (uuid_to_string (campaign_publisher_id c)));
    ("buyer_id", JString (uuid_to_string (campaign_buyer_id c)));
    ("created_at", JString (to_rfc3339 (campaign_created_at c)));
    ("in_ping_tree", JBool (default false in_ping_tree))])]).

(** *** Update *)

Definition payload_str (k : string) (payload : json) : option string := v ← jget k payload; as_str v.
Definition payload_uuid (k : string) (payload : json) : option Uuid := s ← payload_str k payload; parse_uuid s.

(** [if before != after { changed_fields.insert(k, ..) }]. *)
Definition change (k : string) (differs : bool) (before after : json) : list (string * json) :=
  if differs then [(k, json_object [("before", before); ("after", after)])] else [].

(** The status that is asked for, given membership; [None] when it is none of the
    three. *)
Definition requested_status (status : string) (in_ping_tree : bool) : option CampaignStatus :=
  if String.eqb status "active" then Some (if in_ping_tree then CampaignActive else CampaignInactive)
  else if String.eqb status "paused" then Some CampaignPaused
  else if String.eqb status "inactive" then Some CampaignInactive
  else None.

(** The columns that are pushed, [status] being the one after the check of membership. *)
Definition update_campaign_query (payload : json) (before : Campaign) (status : option CampaignStatus) : list Fragment :=
  push_set "name = " VText (payload_str "name" payload) ++
  push_set "publisher_id = " VUuid (payload_uuid "publisher_id" payload) ++
  push_set "buyer_id = " VUuid (payload_uuid "buyer_id" payload) ++
  push_set "status = " VCampaignStatus
    (s ← status; if bool_decide (campaign_status before = s) then None else Some s).

Definition campaign_changes (payload : json) (before : Campaign) (status : option CampaignStatus) : list (string * json) :=
  match payload_str "name" payload with
  | Some name => change "name" (negb (String.eqb (default "" (campaign_name before)) name))
                   (json_of_opt_str (campaign_name before)) (JString name)
  | None => [] end ++
  match payload_uuid "publisher_id" payload with
  | Some u => change "publisher_id" (negb (bool_decide (campaign_publisher_id before = u)))
                (JString (uuid_to_string (campaign_publisher_id before))) (JString (uuid_to_string u))
  | None => [] end ++
  match payload_uuid "buyer_id" payload with
  | Some u => change "buyer_id" (negb (bool_decide (campaign_buyer_id before = u)))
                (JString (uuid_to_string (campaign_buyer_id before))) (JString (uuid_to_string u))
  | None => [] end ++
  match status with
  | Some s => change "status" (negb (bool_decide (campaign_status before = s)))
                (JString (CampaignStatus_as_str (campaign_status before))) (JString (CampaignStatus_as_str s))
  | None => [] end.

Definition campaign_full (c : Campaign) : json := json_object [
  ("id", JString (uuid_to_string (campaign_id c))); ("name", json_of_opt_str (campaign_name c));
  ("vertical", JString (campaign_vertical c)); ("campaign_token", JString (campaign_campaign_token c));
  ("status", JString (CampaignStatus_as_str (campaign_status c)));
  ("publisher_id", JString (uuid_to_string (campaign_publisher_id c)));
  ("buyer_id", JString (uuid_to_string (campaign_buyer_id c)));
  ("instance_id", JString (uuid_to_string (campaign_instance_id c)))].

(** The action when only one field changed. *)
Definition campaign_action (changes : list (string * json)) : string :=
  match changes.*1 with
  | ["name"] => "campaign_name_changed"
  | ["publisher_id"] => "campaign_publisher_changed"
  | ["buyer_id"] => "campaign_buyer_changed"
  | _ => "campaign_updated"
  end.

(** The part of the details that entries without a user share. *)
Definition office_context (reason method endpoint : string) : json := json_object [
  ("reason", JString reason); ("method", JString method); ("endpoint", JString endpoint); ("source", JString "dashboard_web_ui")].

Definition update_details (target_type : string) (id : Uuid) (changes : list (string * json)) (before : json) (after : option json)
    (context : json) (now : DateTime) : json := json_object [
  ("action", JString "update"); ("target_type", JString target_type); ("target_id", JString (uuid_to_string id));
  ("target_name", JString (default "" (a ← after; payload_str "name" a)));
  ("changes", json_object changes); ("before", before); ("after", default JNull after); ("context", context);
  ("outcome", JString "success"); ("timestamp", JString (to_rfc3339 now)); ("compliance", compliance)].

(** An entry without a user, an address or an agent; its error is ignored. *)
Definition audit_office (inst : Uuid) (action_type resource_type : string) (id : Uuid) (details : DateTime → json)
    (affected : json) : handler unit :=
  now ← eff_gets of_now;
  _ ← ignore_error (create_audit_log (Some inst) None action_type (Some resource_type) (Some id) (details now) affected None None);
  mret tt.

Definition invalid_status (status : string) : string :=
  "Invalid status value: " +:+ status +:+ ". Must be one of: active, paused, inactive".

(** The status branch: [Err] is the answer of an early return. *)
Definition campaign_status_update (payload : json) (id : Uuid) : handler (Result json (option CampaignStatus)) :=
  match payload_str "status" payload with
  | None => mret (Ok None)
  | Some status =>
      in_ping_tree ← ignore_error (fetch (in_any_ping_tree id));
      match requested_status status (default false in_ping_tree) with
      | Some s => mret (Ok (Some s))
      | None => mret (Err (failure (invalid_status status)))
      end
  end.

(** After the checks: the statement, and the entry in the audit log. *)
Definition write_campaign (id : Uuid) (payload : json) (before : Campaign) (status : option CampaignStatus) : handler json :=
  match update_campaign_query payload before status with
  | [] => mret no_changes
  | sets =>
      _ ← or_status 500 (run_update before (λ _, campaign_is_live) set_campaign_column touch_campaign of_campaigns
            set_of_campaigns (sets ++ where_live id));
      after ← ignore_error (fetch (live_campaign id));
      let changes := campaign_changes payload before status in
      _ ← audit_office (campaign_instance_id before) (campaign_action changes) "Campaign" id (λ now,
            update_details "Campaign" id changes (campaign_full before) (campaign_full <$> mjoin after)
              (office_context "User updated campaign via dashboard" "POST"
                 ("/api/v1/dashboard/campaigns/" +:+ uuid_to_string id)) now) (json_object []);
      mret (success [("message", JString "Campaign updated successfully")])
  end.

Definition update_campaign (id : Uuid) (payload : json) : handler json :=
  before ← or_status 500 (fetch (live_campaign id));
  before ← eff_lift (ok_or 404%Z before);
  status ← campaign_status_update payload id;
  match status with
  | Err answer => mret answer
  | Ok status => write_campaign id payload before status
  end.

(** [UPDATE campaigns SET deleted_at = NOW() WHERE id = $1], whether or not there is one. *)
Definition delete_campaign (id : Uuid) : handler json :=
  _ ← or_status 500 (execute (λ w, set_of_campaigns (alter (campaign_with_deleted_at (of_now w)) id (of_campaigns w)) w));
  mret (success [("message", JString "Campaign deleted successfully")]).
End campaigns.
