(* ===== verification/PingTreeAdmin.v ===== *)
(** * The back office: ping trees and the revenue shares of their publishers

    [crates/api/src/routes/dashboard.rs], the handlers of ping trees, of the campaigns in
    them and of the publishers assigned to them, and
    [crates/core/src/models/ping_tree_publisher.rs], on the tables of [Office.v]. *)

From stdpp Require Import base list strings gmap.
From Stdlib Require Import Ascii String ZArith QArith Qround Lia.
From S2P Require Import Prelude Float64 Platform Json Models Metrics Samples Store WriteBehind.
From S2P Require Import Encryption Accounts Cache ApiAuth Office Campaigns.

Open Scope string_scope.
Open Scope list_scope.

(** [rust_decimal]: the text of a decimal number and back. *)
Class DecimalText : Type := {
  decimal_from_str : string → option Decimal;
  decimal_to_string : Decimal → string
}.

(** ** Assignments of publishers: [models/ping_tree_publisher.rs] *)

Inductive ValidationError : Type :=
  | BothRevshareSet
  | PercentageOutOfRange
  | FlatAmountNegative
  | VerticalMismatch.

Definition validate_revshare (revshare_percentage revshare_flat_amount : option Decimal) : Result ValidationError unit :=
  match revshare_percentage, revshare_flat_amount with
  | Some _, Some _ => Err BothRevshareSet
  | Some percentage, None =>
      if negb (Qle_bool 0 percentage) || negb (Qle_bool percentage 100) then Err PercentageOutOfRange else Ok tt
  | None, Some flat => if negb (Qle_bool 0 flat) then Err FlatAmountNegative else Ok tt
  | None, None => Ok tt
  end.

Definition apply_defaults (revshare_percentage revshare_flat_amount : option Decimal) : option Decimal * option Decimal :=
  match revshare_percentage, revshare_flat_amount with
  | None, None => (Some (80 # 1)%Q, None)
  | _, _ => (revshare_percentage, revshare_flat_amount)
  end.

(** A value of a column [DECIMAL(precision, 2)]: rounded to hundredths, halves away from
    zero; too many digits are an error. *)
Definition round_hundredths (x : Q) : Z :=
  if Qle_bool 0 x then Qfloor (x * 100 + (1 # 2)) else (- Qfloor (- x * 100 + (1 # 2)))%Z.
Definition to_numeric (precision : Z) (x : option Decimal) : Result string (option Decimal) :=
  match x with
  | None => Ok None
  | Some x =>
      let n := round_hundredths x in
      if (Z.abs n <? 10 ^ precision)%Z then Ok (Some (n # 100)%Q) else Err "numeric field overflow"
  end.

Definition row_not_found : string := "no rows returned by a query that expected to return at least one row".

(** The shares of a row as they are stored; the checks of the table repeat those of
    [validate_revshare]. *)
Definition stored_shares (revshare_percentage revshare_flat_amount : option Decimal)
    : Result string (option Decimal * option Decimal) :=
  p ← to_numeric 5 revshare_percentage;
  f ← to_numeric 10 revshare_flat_amount;
  match validate_revshare p f with Ok _ => Ok (p, f) | Err _ => Err "violates check constraint" end.

Definition live_tree (id : Uuid) (w : Office) : option PingTree :=
  t ← of_trees w !! id; if bool_decide (tree_deleted_at t = None) then Some t else None.

Definition with_shares (shares : option Decimal * option Decimal) (now : DateTime) (a : PingTreePublisher) : PingTreePublisher := {|
  ptp_id := ptp_id a; ptp_ping_tree_id := ptp_ping_tree_id a; ptp_publisher_id := ptp_publisher_id a;
  ptp_vertical := ptp_vertical a; ptp_revshare_percentage := shares.1; ptp_revshare_flat_amount := shares.2;
  ptp_created_at := ptp_created_at a; ptp_updated_at := now |}.

Definition new_assignment (id tree publisher : Uuid) (vertical : string) (shares : option Decimal * option Decimal)
    (now : DateTime) : PingTreePublisher := {|
  ptp_id := id; ptp_ping_tree_id := tree; ptp_publisher_id := publisher; ptp_vertical := vertical;
  ptp_revshare_percentage := shares.1; ptp_revshare_flat_amount := shares.2; ptp_created_at := now; ptp_updated_at := now |}.

(** [INSERT INTO ping_tree_publishers ... RETURNING ...]: the constraints of the table. *)
Definition insert_assignment (id tree publisher : Uuid) (vertical : string) (revshare_percentage revshare_flat_amount : option Decimal)
    : sql PingTreePublisher :=
  statement (λ w,
    match stored_shares revshare_percentage revshare_flat_amount with
    | Err e => (Err e, w)
    | Ok (p, f) =>
        if negb (bool_decide (is_Some (of_trees w !! tree)) && bool_decide (is_Some (of_publishers w !! publisher)))
        then (Err foreign_key_violation, w)
        else if existsb (λ a, bool_decide (ptp_id a = id) ||
                  (bool_decide (ptp_publisher_id a = publisher) && String.eqb (ptp_vertical a) vertical) ||
                  (bool_decide (ptp_ping_tree_id a = tree) && bool_decide (ptp_publisher_id a = publisher)))
                  (of_tree_publishers w)
        then (Err (duplicate_key "ping_tree_publishers_publisher_id_vertical_key"), w)
        else
          let a := new_assignment id tree publisher vertical (p, f) (of_now w) in
          (Ok a, set_of_tree_publishers (of_tree_publishers w ++ [a]) w)
    end).

Definition PingTreePublisher_create (id tree publisher : Uuid) (vertical : string)
    (revshare_percentage revshare_flat_amount : option Decimal) : sql PingTreePublisher :=
  let '(p, f) := apply_defaults revshare_percentage revshare_flat_amount in
  _ ← eff_lift (map_err (λ _, row_not_found) (validate_revshare p f));
  ping_tree_vertical ← fetch (λ w, tree_vertical <$> live_tree tree w);
  ping_tree_vertical ← eff_lift (ok_or row_not_found ping_tree_vertical);
  if negb (String.eqb vertical ping_tree_vertical) then eff_err row_not_found
  else insert_assignment id tree publisher vertical p f.

(** [ORDER BY created_at ASC]. *)
Definition PingTreePublisher_find_by_ping_tree (tree : Uuid) : sql (list PingTreePublisher) :=
  fetch (λ w, sort_by (λ a b, (ptp_created_at a ?= ptp_created_at b)%Z)
    (List.filter (λ a, bool_decide (ptp_ping_tree_id a = tree)) (of_tree_publishers w))).

Definition PingTreePublisher_find_by_publisher_and_vertical (publisher : Uuid) (vertical : string)
    : sql (option PingTreePublisher) :=
  fetch (λ w, List.find (λ a, bool_decide (ptp_publisher_id a = publisher) && String.eqb (ptp_vertical a) vertical)
    (of_tree_publishers w)).

Definition is_assignment (tree publisher : Uuid) (a : PingTreePublisher) : bool :=
  bool_decide (ptp_ping_tree_id a = tree) && bool_decide (ptp_publisher_id a = publisher).

Definition PingTreePublisher_find_by_ping_tree_and_publisher (tree publisher : Uuid) : sql (option PingTreePublisher) :=
  fetch (λ w, List.find (is_assignment tree publisher) (of_tree_publishers w)).

Definition PingTreePublisher_update_revshare (id : Uuid) (revshare_percentage revshare_flat_amount : option Decimal)
    : sql PingTreePublisher :=
  let '(p, f) := apply_defaults revshare_percentage revshare_flat_amount in
  _ ← eff_lift (map_err (λ _, row_not_found) (validate_revshare p f));
  statement (λ w,
    match List.find (λ a, bool_decide (ptp_id a = id)) (of_tree_publishers w) with
    | None => (Err row_not_found, w)
    | Some a =>
        match stored_shares p f with
        | Err e => (Err e, w)
        | Ok shares =>
            (Ok (with_shares shares (of_now w) a),
             set_of_tree_publishers ((λ a, if bool_decide (ptp_id a = id) then with_shares shares (of_now w) a else a)
               <$> of_tree_publishers w) w)
        end
    end).

Definition PingTreePublisher_delete (tree publisher : Uuid) : sql unit :=
  execute (λ w, set_of_tree_publishers (List.filter (λ a, negb (is_assignment tree publisher a)) (of_tree_publishers w)) w).

(** ** Ping trees *)

Record CreatePingTreeRequest : Type := {
  ct_name : string;
  ct_vertical : string;
  ct_strategy : string;
  ct_instance_id : option Uuid;
  ct_priority : option Z
}.

Record AddCampaignToPingTreeRequest : Type := {
  ac_campaign_id : Uuid;
  ac_priority : option Z
}.

Record AddPublisherToPingTreeRequest : Type := {
  ap_publisher_id : Uuid;
  ap_revshare_percentage : option f64;
  ap_revshare_flat_amount : option f64
}.

Record UpdatePingTreePublisherRevshareRequest : Type := {
  ur_revshare_percentage : option f64;
  ur_revshare_flat_amount : option f64
}.

(** Writes the columns that handlers change. *)
Definition put_tree (name status : string) (priority : option Z) (deleted_at : option DateTime) (updated_at : DateTime)
    (t : PingTree) : PingTree := {|
  tree_id := tree_id t; tree_instance_id := tree_instance_id t; tree_name := name; tree_vertical := tree_vertical t;
  tree_strategy := tree_strategy t; tree_status := status; tree_priority := priority; tree_deleted_at := deleted_at;
  tree_created_at := tree_created_at t; tree_updated_at := updated_at |}.

Definition set_tree_column (column : string) (v : SqlValue) (t : PingTree) : option PingTree :=
  match v with
  | VText s =>
      if String.eqb column "name = " then Some (put_tree s (tree_status t) (tree_priority t) (tree_deleted_at t) (tree_updated_at t) t)
      else if String.eqb column "status = "
      then Some (put_tree (tree_name t) s (tree_priority t) (tree_deleted_at t) (tree_updated_at t) t) else None
  | VInt z =>
      if String.eqb column "priority = "
      then Some (put_tree (tree_name t) (tree_status t) (Some z) (tree_deleted_at t) (tree_updated_at t) t) else None
  | _ => None
  end.

Definition touch_tree (now : DateTime) (t : PingTree) : PingTree :=
  put_tree (tree_name t) (tree_status t) (tree_priority t) (tree_deleted_at t) now t.
Definition tree_with_deleted_at (d : DateTime) (t : PingTree) : PingTree :=
  put_tree (tree_name t) (tree_status t) (tree_priority t) (Some d) (tree_updated_at t) t.
Definition tree_is_live (t : PingTree) : bool := bool_decide (tree_deleted_at t = None).

Section ping_trees.
Context `{Platform} `{DecimalText}.

(** *** Reading and creating *)

(** [ORDER BY created_at DESC]. *)
Definition trees_of_instance (inst : Uuid) (w : Office) : list PingTree :=
  sort_by (λ t1 t2, (tree_created_at t2 ?= tree_created_at t1)%Z)
    (List.filter (λ t, bool_decide (tree_instance_id t = inst) && tree_is_live t) (map_to_list (of_trees w)).*2).

Definition json_of_opt_i32 : option Z → json := json_of_option json_of_i32.

(** The loop over the trees: a count per tree, 0 when it fails. *)
Fixpoint ping_tree_rows (trees : list PingTree) : handler (list json) :=
  match trees with
  | [] => mret []
  | t :: trees' =>
      count ← ignore_error (fetch (λ w,
        Z.of_nat (List.length (List.filter (λ a, bool_decide (ptp_ping_tree_id a = tree_id t)) (of_tree_publishers w)))));
      rows ← ping_tree_rows trees';
      mret (json_object [
        ("id", JString (uuid_to_string (tree_id t))); ("name", JString (tree_name t)); ("vertical", JString (tree_vertical t));
        ("strategy", JString (tree_strategy t)); ("status", JString (tree_status t));
        ("publisher_count", json_of_u64 (default 0%Z count)); ("priority", json_of_opt_i32 (tree_priority t));
        ("created_at", JString (to_rfc3339 (tree_created_at t)));
        ("deleted_at", json_of_option (λ d, JString (to_rfc3339 d)) (tree_deleted_at t))] :: rows)
  end.

Definition list_ping_trees (user : option User) : handler json :=
  user ← eff_lift (ok_or 401%Z user);
  inst ← or_status 500 (get_instance_id_for_user (user_id user));
  inst ← eff_lift (ok_or 400%Z inst);
  trees ← or_status 500 (fetch (trees_of_instance inst));
  rows ← ping_tree_rows trees;
  mret (success [("ping_trees", JArray rows)]).

Definition new_ping_tree (id inst : Uuid) (payload : CreatePingTreeRequest) (now : DateTime) : PingTree := {|
  tree_id := id; tree_instance_id := inst; tree_name := ct_name payload; tree_vertical := ct_vertical payload;
  tree_strategy := ct_strategy payload; tree_status := "active"; tree_priority := ct_priority payload;
  tree_deleted_at := None; tree_created_at := now; tree_updated_at := now |}.

(** [INSERT INTO ping_trees]: names are unique within an instance and a vertical, deleted
    trees included; the instance is a foreign key. *)
Definition insert_ping_tree (t : PingTree) : sql unit :=
  statement (λ w,
    if negb (existsb (λ i, bool_decide (instance_id i = tree_instance_id t)) (of_instances w)) then (Err foreign_key_violation, w)
    else if bool_decide (is_Some (of_trees w !! tree_id t)) then (Err (duplicate_key "ping_trees_pkey"), w)
    else if existsb (λ s, bool_decide (tree_instance_id s = tree_instance_id t) && String.eqb (tree_vertical s) (tree_vertical t) &&
                          String.eqb (tree_name s) (tree_name t)) (map_to_list (of_trees w)).*2
    then (Err (duplicate_key "unique_ping_tree_name"), w)
    else (Ok tt, set_of_trees (<[tree_id t := t]> (of_trees w)) w)).

Definition create_ping_tree (id : Uuid) (user : User) (payload : CreatePingTreeRequest) : handler json :=
  if negb (String.eqb (ct_strategy payload) "ping_post") && negb (String.eqb (ct_strategy payload) "fullpost") then eff_err 400%Z
  else
    inst ← scope_instance user (ct_instance_id payload);
    now ← eff_gets of_now;
    _ ← or_status 500 (insert_ping_tree (new_ping_tree id inst payload now));
    mret (success [
      ("ping_tree", json_object [
         ("id", JString (uuid_to_string id)); ("name", JString (ct_name payload)); ("vertical", JString (ct_vertical payload));
         ("strategy", JString (ct_strategy payload)); ("status", JString "active"); ("priority", json_of_opt_i32 (ct_priority payload))]);
      ("message", JString "Ping tree created successfully")]).

(** [d.to_string().parse::<f64>().unwrap_or(0.0)]. *)
Definition decimal_as_json (d : option Decimal) : json :=
  json_of_option (λ d, json_of_f64 (default f64_zero (parse_f64 (decimal_to_string d)))) d.

(** [ORDER BY priority ASC NULLS LAST]. *)
Definition campaigns_of_tree (tree : Uuid) (w : Office) : list PingTreeCampaign :=
  sort_by (λ a b, priority_order (ptc_priority a) 0 (ptc_priority b) 0)
    (List.filter (λ m, bool_decide (ptc_ping_tree_id m = tree)) (of_tree_campaigns w)).

Definition get_ping_tree (user : option User) (id : Uuid) : handler json :=
  user ← eff_lift (ok_or 401%Z user);
  inst ← or_status 500 (get_instance_id_for_user (user_id user));
  inst ← eff_lift (ok_or 400%Z inst);
  t ← or_status 500 (fetch (λ w, t ← live_tree id w; if bool_decide (tree_instance_id t = inst) then Some t else None));
  t ← eff_lift (ok_or 404%Z t);
  campaigns ← or_status 500 (fetch (campaigns_of_tree id));
  publishers ← or_status 500 (PingTreePublisher_find_by_ping_tree id);
  mret (success [
    ("ping_tree", json_object [
       ("id", JString (uuid_to_string (tree_id t))); ("name", JString (tree_name t)); ("vertical", JString (tree_vertical t));
       ("strategy", JString (tree_strategy t)); ("status", JString (tree_status t)); ("priority", json_of_opt_i32 (tree_priority t));
       ("created_at", JString (to_rfc3339 (tree_created_at t)))]);
    ("publishers", JArray ((λ a, json_object [
       ("id", JString (uuid_to_string (ptp_id a))); ("publisher_id", JString (uuid_to_string (ptp_publisher_id a)));
       ("revshare_percentage", decimal_as_json (ptp_revshare_percentage a));
       ("revshare_flat_amount", decimal_as_json (ptp_revshare_flat_amount a))]) <$> publishers));
    ("campaigns", JArray ((λ m, json_object [
       ("id", JString (uuid_to_string (ptc_id m))); ("campaign_id", JString (uuid_to_string (ptc_campaign_id m)));
       ("priority", json_of_opt_i32 (ptc_priority m)); ("enabled", JBool (ptc_enabled m))]) <$> campaigns))]).

(** *** Update and deletion *)

(** What the code pushes: the separator is before the status when there is a column
    before it, which has pushed one already, and never after it. *)
Definition update_ping_tree_query (payload : json) : list Fragment :=
  let priority := (v ← jget "priority" payload; as_i32 <$> as_i64 v) in
  let columns := push_set "name = " VText (payload_str "name" payload) ++ push_set "priority = " VInt priority in
  columns ++
  match payload_str "status" payload with
  | Some status =>
      (match columns with [] => [] | _ => [Sql ", "] end) ++ [Sql "status = "; Bind (VText status)]
  | None => []
  end.

Definition ping_tree_changes (payload : json) (before : PingTree) : list (string * json) :=
  match payload_str "name" payload with
  | Some name => change "name" (negb (String.eqb (tree_name before) name)) (JString (tree_name before)) (JString name)
  | None => [] end ++
  match (v ← jget "priority" payload; as_i32 <$> as_i64 v) with
  | Some priority => change "priority" (negb (bool_decide (tree_priority before = Some priority)))
                       (json_of_opt_i32 (tree_priority before)) (json_of_i32 priority)
  | None => [] end ++
  match payload_str "status" payload with
  | Some status => change "status" (negb (String.eqb (tree_status before) status)) (JString (tree_status before)) (JString status)
  | None => [] end.

Definition ping_tree_full (t : PingTree) : json := json_object [
  ("id", JString (uuid_to_string (tree_id t))); ("name", JString (tree_name t)); ("vertical", JString (tree_vertical t));
  ("strategy", JString (tree_strategy t)); ("status", JString (tree_status t)); ("priority", json_of_opt_i32 (tree_priority t));
  ("instance_id", JString (uuid_to_string (tree_instance_id t)))].

Definition update_ping_tree (id : Uuid) (payload : json) : handler json :=
  before ← or_status 500 (fetch (live_tree id));
  before ← eff_lift (ok_or 404%Z before);
  match update_ping_tree_query payload with
  | [] => mret no_changes
  | sets =>
      _ ← or_status 500 (run_update before (λ _, tree_is_live) set_tree_column touch_tree of_trees set_of_trees (sets ++ where_live id));
      after ← ignore_error (fetch (live_tree id));
      _ ← audit_office (tree_instance_id before) "ping_tree_updated" "PingTree" id (λ now,
            update_details "PingTree" id (ping_tree_changes payload before) (ping_tree_full before) (ping_tree_full <$> mjoin after)
              (office_context "User updated ping tree via dashboard" "POST"
                 ("/api/v1/dashboard/ping_trees/" +:+ uuid_to_string id)) now) (json_object []);
      mret (success [("message", JString "Ping tree updated successfully")])
  end.

(** The campaigns of the tree, deleted ones included. *)
Definition affected_campaigns (tree : Uuid) (w : Office) : list json :=
  omap (λ m, if bool_decide (ptc_ping_tree_id m = tree) then
               (λ c, json_object [("id", JString (uuid_to_string (campaign_id c))); ("name", JString (default "" (campaign_name c)));
                                  ("campaign_token", JString (campaign_campaign_token c))]) <$> of_campaigns w !! ptc_campaign_id m
             else None) (of_tree_campaigns w).

Definition delete_ping_tree (id : Uuid) : handler json :=
  before ← or_status 500 (fetch (live_tree id));
  before ← eff_lift (ok_or 404%Z before);
  affected ← ignore_error (fetch (affected_campaigns id));
  _ ← or_status 500 (execute (λ w, set_of_trees (alter (tree_with_deleted_at (of_now w)) id (of_trees w)) w));
  _ ← audit_office (tree_instance_id before) "ping_tree_deleted" "PingTree" id (λ _, json_object [
        ("ping_tree_name", JString (tree_name before)); ("ping_tree_vertical", JString (tree_vertical before));
        ("ping_tree_strategy", JString (tree_strategy before))])
        (json_object [("campaigns", JArray (default [] affected))]);
  mret (success [("message", JString "Ping tree deleted successfully")]).

(** *** Campaigns of a tree *)

Definition membership_details (action : string) (t : PingTree) (tree campaign : Uuid) (c : option Campaign)
    (more : list (string * json)) (context : json) (now : DateTime) : json := json_object ([
  ("action", JString action); ("target_type", JString "PingTree"); ("target_id", JString (uuid_to_string tree));
  ("target_name", JString (tree_name t)); ("campaign_id", JString (uuid_to_string campaign));
  ("campaign_name", json_of_opt_str (c ← c; campaign_name c)); ("context", context); ("outcome", JString "success");
  ("timestamp", JString (to_rfc3339 now)); ("compliance", compliance)] ++ more).

Definition affected_campaign (c : option Campaign) : json := json_object [
  ("campaign", json_of_option (λ c, json_object [
     ("id", JString (uuid_to_string (campaign_id c))); ("name", json_of_opt_str (campaign_name c));
     ("campaign_token", JString (campaign_campaign_token c))]) c)].

Definition tree_campaigns_path (tree : Uuid) : string :=
  "/api/v1/dashboard/ping_trees/" +:+ uuid_to_string tree +:+ "/campaigns".

(** [DO UPDATE SET priority = EXCLUDED.priority, enabled = true, updated_at = NOW()]. *)
Definition reprioritise (priority : option Z) (now : DateTime) (m : PingTreeCampaign) : PingTreeCampaign := {|
  ptc_id := ptc_id m; ptc_ping_tree_id := ptc_ping_tree_id m; ptc_campaign_id := ptc_campaign_id m; ptc_priority := priority;
  ptc_min_price := ptc_min_price m; ptc_max_price := ptc_max_price m; ptc_enabled := true;
  ptc_created_at := ptc_created_at m; ptc_updated_at := now |}.

Definition add_campaign_to_ping_tree (membership_id tree : Uuid) (payload : AddCampaignToPingTreeRequest) : handler json :=
  t ← or_status 500 (fetch (live_tree tree));
  t ← eff_lift (ok_or 404%Z t);
  c ← ignore_error (fetch (live_campaign (ac_campaign_id payload)));
  _ ← or_status 500 (insert_membership membership_id tree (ac_campaign_id payload) (ac_priority payload)
        (reprioritise (ac_priority payload)));
  _ ← audit_office (tree_instance_id t) "ping_tree_campaign_added" "PingTree" tree
        (membership_details "add_campaign" t tree (ac_campaign_id payload) (mjoin c)
           [("priority", json_of_opt_i32 (ac_priority payload))]
           (office_context "User added campaign to ping tree via dashboard" "POST" (tree_campaigns_path tree)))
        (affected_campaign (mjoin c));
  mret (success [("message", JString "Campaign added to ping tree successfully")]).

(** [UPDATE campaigns SET status = 'inactive' WHERE id = $1 AND deleted_at IS NULL]. *)
Definition deactivate_campaign (id : Uuid) : sql unit :=
  execute (λ w, set_of_campaigns (alter (λ c, if campaign_is_live c then
    put_campaign (campaign_name c) (campaign_publisher_id c) (campaign_buyer_id c) CampaignInactive (campaign_deleted_at c)
      (campaign_updated_at c) c else c) id (of_campaigns w)) w).

Definition in_other_ping_tree (tree campaign : Uuid) (w : Office) : bool :=
  existsb (λ m, bool_decide (ptc_campaign_id m = campaign) && negb (bool_decide (ptc_ping_tree_id m = tree))) (of_tree_campaigns w).

(** A count that fails is a count of 0. *)
Definition remove_campaign_from_ping_tree (tree campaign : Uuid) : handler json :=
  t ← or_status 500 (fetch (live_tree tree));
  t ← eff_lift (ok_or 404%Z t);
  c ← ignore_error (fetch (live_campaign campaign));
  _ ← or_status 500 (execute (λ w,
        set_of_tree_campaigns (List.filter (λ m, negb (is_membership tree campaign m)) (of_tree_campaigns w)) w));
  others ← ignore_error (fetch (in_other_ping_tree tree campaign));
  _ ← (if default false others then mret None else ignore_error (deactivate_campaign campaign));
  _ ← audit_office (tree_instance_id t) "ping_tree_campaign_removed" "PingTree" tree
        (membership_details "remove_campaign" t tree campaign (mjoin c) []
           (office_context "User removed campaign from ping tree via dashboard" "DELETE"
              (tree_campaigns_path tree +:+ "/" +:+ uuid_to_string campaign)))
        (affected_campaign (mjoin c));
  mret (success [("message", JString "Campaign removed from ping tree successfully")]).

(** *** Publishers of a tree *)

(** [v.and_then(|v| Decimal::from_str(&v.to_string()).ok())]. *)
Definition decimal_of_f64 (v : option f64) : option Decimal := v ← v; decimal_from_str (f64_to_string v).

(** The loop over the assignments: the publisher of each, [null] when it fails. *)
Fixpoint assignment_rows (assignments : list PingTreePublisher) : handler (list json) :=
  match assignments with
  | [] => mret []
  | a :: assignments' =>
      p ← ignore_error (fetch (live_publisher (ptp_publisher_id a)));
      rows ← assignment_rows assignments';
      mret (json_object [
        ("id", JString (uuid_to_string (ptp_id a))); ("publisher_id", JString (uuid_to_string (ptp_publisher_id a)));
        ("publisher_name", json_of_opt_str (publisher_name <$> mjoin p)); ("vertical", JString (ptp_vertical a));
        ("revshare_percentage", decimal_as_json (ptp_revshare_percentage a));
        ("revshare_flat_amount", decimal_as_json (ptp_revshare_flat_amount a));
        ("created_at", JString (to_rfc3339 (ptp_created_at a)))] :: rows)
  end.

Definition list_ping_tree_publishers (tree : Uuid) : handler json :=
  t ← or_status 500 (fetch (live_tree tree));
  _ ← eff_lift (ok_or 404%Z t);
  assignments ← or_status 500 (PingTreePublisher_find_by_ping_tree tree);
  rows ← assignment_rows assignments;
  mret (success [("publishers", JArray rows)]).

Definition add_publisher_to_ping_tree (id tree : Uuid) (payload : AddPublisherToPingTreeRequest) : handler json :=
  t ← or_status 500 (fetch (live_tree tree));
  t ← eff_lift (ok_or 404%Z t);
  p ← or_status 500 (fetch (live_publisher (ap_publisher_id payload)));
  _ ← eff_lift (ok_or 400%Z p);
  a ← or_status 500 (PingTreePublisher_create id tree (ap_publisher_id payload) (tree_vertical t)
        (decimal_of_f64 (ap_revshare_percentage payload)) (decimal_of_f64 (ap_revshare_flat_amount payload)));
  mret (success [
    ("assignment", json_object [
       ("id", JString (uuid_to_string (ptp_id a))); ("publisher_id", JString (uuid_to_string (ptp_publisher_id a)));
       ("revshare_percentage", decimal_as_json (ptp_revshare_percentage a));
       ("revshare_flat_amount", decimal_as_json (ptp_revshare_flat_amount a))]);
    ("message", JString "Publisher added to ping tree successfully")]).

Definition remove_publisher_from_ping_tree (tree publisher : Uuid) : handler json :=
  t ← or_status 500 (fetch (live_tree tree));
  _ ← eff_lift (ok_or 404%Z t);
  _ ← or_status 500 (PingTreePublisher_delete tree publisher);
  mret (success [("message", JString "Publisher removed from ping tree successfully")]).

(** The shares of the answer are the texts of the numbers here. *)
Definition update_ping_tree_publisher_revshare (tree publisher : Uuid) (payload : UpdatePingTreePublisherRevshareRequest)
    : handler json :=
  a ← or_status 500 (PingTreePublisher_find_by_ping_tree_and_publisher tree publisher);
  a ← eff_lift (ok_or 404%Z a);
  u ← or_status 500 (PingTreePublisher_update_revshare (ptp_id a) (decimal_of_f64 (ur_revshare_percentage payload))
        (decimal_of_f64 (ur_revshare_flat_amount payload)));
  mret (success [
    ("assignment", json_object [
       ("id", JString (uuid_to_string (ptp_id u))); ("publisher_id", JString (uuid_to_string (ptp_publisher_id u)));
       ("revshare_percentage", json_of_opt_str (decimal_to_string <$> ptp_revshare_percentage u));
       ("revshare_flat_amount", json_of_opt_str (decimal_to_string <$> ptp_revshare_flat_amount u))]);
    ("message", JString "Revshare updated successfully")]).

(** [ORDER BY vertical, created_at]. *)
Definition assignments_of_publisher (publisher : Uuid) (w : Office) : list PingTreePublisher :=
  sort_by (λ a b, match String.compare (ptp_vertical a) (ptp_vertical b) with
                  | Eq => (ptp_created_at a ?= ptp_created_at b)%Z | c => c end)
    (List.filter (λ a, bool_decide (ptp_publisher_id a = publisher)) (of_tree_publishers w)).

Fixpoint revenue_share_rows (assignments : list PingTreePublisher) : handler (list json) :=
  match assignments with
  | [] => mret []
  | a :: assignments' =>
      t ← ignore_error (fetch (live_tree (ptp_ping_tree_id a)));
      rows ← revenue_share_rows assignments';
      mret (json_object [
        ("ping_tree_id", JString (uuid_to_string (ptp_ping_tree_id a)));
        ("ping_tree_name", json_of_opt_str (tree_name <$> mjoin t)); ("vertical", JString (ptp_vertical a));
        ("revshare_percentage", decimal_as_json (ptp_revshare_percentage a));
        ("revshare_flat_amount", decimal_as_json (ptp_revshare_flat_amount a));
        ("created_at", JString (to_rfc3339 (ptp_created_at a)))] :: rows)
  end.

Definition get_publisher_revenue_share (id : Uuid) : handler json :=
  p ← or_status 500 (fetch (live_publisher id));
  _ ← eff_lift (ok_or 404%Z p);
  assignments ← or_status 500 (fetch (assignments_of_publisher id));
  rows ← revenue_share_rows assignments;
  mret (success [("publisher_id", JString (uuid_to_string id)); ("revenue_share_configs", JArray rows)]).
End ping_trees.
