(* ===== verification/Buyers.v ===== *)
(** * The back office: buyers

    [crates/api/src/routes/dashboard.rs], the handlers of buyers, and the two lists they
    are set up from, verticals and integrations, on the tables of [Office.v].  The table
    of buyers has no foreign keys. *)

From stdpp Require Import base list strings gmap.
From Stdlib Require Import Ascii String ZArith QArith Lia.
From S2P Require Import Prelude Float64 Platform Json Models Metrics Samples Store WriteBehind.
From S2P Require Import Encryption Accounts Cache ApiAuth Office Campaigns.

Open Scope string_scope.
Open Scope list_scope.

(** ** Rows *)

Definition buyer_is_live (b : Buyer) : bool := bool_decide (buyer_deleted_at b = None).
Definition live_buyer (id : Uuid) (w : Office) : option Buyer :=
  b ← of_buyers w !! id; if buyer_is_live b then Some b else None.

(** [#[derive(Serialize)]] of the status: the name of the variant. *)
Definition BuyerStatus_name (s : BuyerStatus) : string :=
  match s with
  | BuyerActive => "Active" | BuyerIncomplete => "Incomplete" | BuyerInactive => "Inactive" | BuyerSuspended => "Suspended"
  end.

(** The texts of a buyer that an update can write. *)
Record BuyerTexts : Type := {
  bt_name : string;
  bt_email_address : option string;
  bt_ein_tin : option string;
  bt_address_street : option string;
  bt_address_city : option string;
  bt_address_state : option string;
  bt_address_zip : option string;
  bt_representative_first_name : option string;
  bt_representative_last_name : option string
}.

Definition texts_of (b : Buyer) : BuyerTexts := {|
  bt_name := buyer_name b; bt_email_address := buyer_email_address b; bt_ein_tin := buyer_ein_tin b;
  bt_address_street := buyer_address_street b; bt_address_city := buyer_address_city b;
  bt_address_state := buyer_address_state b; bt_address_zip := buyer_address_zip b;
  bt_representative_first_name := buyer_representative_first_name b;
  bt_representative_last_name := buyer_representative_last_name b |}.

Definition set_text (column s : string) (t : BuyerTexts) : option BuyerTexts :=
  let 'Build_BuyerTexts name email ein street city state zip first last := t in
  if String.eqb column "name = " then Some (Build_BuyerTexts s email ein street city state zip first last)
  else if String.eqb column "email_address = " then Some (Build_BuyerTexts name (Some s) ein street city state zip first last)
  else if String.eqb column "ein_tin = " then Some (Build_BuyerTexts name email (Some s) street city state zip first last)
  else if String.eqb column "address_street = " then Some (Build_BuyerTexts name email ein (Some s) city state zip first last)
  else if String.eqb column "address_city = " then Some (Build_BuyerTexts name email ein street (Some s) state zip first last)
  else if String.eqb column "address_state = " then Some (Build_BuyerTexts name email ein street city (Some s) zip first last)
  else if String.eqb column "address_zip = " then Some (Build_BuyerTexts name email ein street city state (Some s) first last)
  else if String.eqb column "representative_first_name = "
  then Some (Build_BuyerTexts name email ein street city state zip (Some s) last)
  else if String.eqb column "representative_last_name = "
  then Some (Build_BuyerTexts name email ein street city state zip first (Some s))
  else None.

(** Writes the columns that handlers change. *)
Definition put_buyer (t : BuyerTexts) (integration : option Uuid) (status : BuyerStatus) (deleted_at : option DateTime)
    (updated_at : DateTime) (b : Buyer) : Buyer := {|
  buyer_id := buyer_id b; buyer_name := bt_name t; buyer_instance_id := buyer_instance_id b;
  buyer_instance_user_id := buyer_instance_user_id b; buyer_vertical_id := buyer_vertical_id b;
  buyer_buyer_integration_id := integration; buyer_status := status; buyer_deleted_at := deleted_at;
  buyer_created_at := buyer_created_at b; buyer_updated_at := updated_at; buyer_contact_info := buyer_contact_info b;
  buyer_ein_tin := bt_ein_tin t; buyer_address_street := bt_address_street t; buyer_address_city := bt_address_city t;
  buyer_address_state := bt_address_state t; buyer_address_zip := bt_address_zip t; buyer_email_address := bt_email_address t;
  buyer_representative_first_name := bt_representative_first_name t;
  buyer_representative_last_name := bt_representative_last_name t; buyer_documents := buyer_documents b;
  buyer_post_type := buyer_post_type b; buyer_buyer_type := buyer_buyer_type b |}.

Definition set_buyer_column (column : string) (v : SqlValue) (b : Buyer) : option Buyer :=
  let put t integration status := put_buyer t integration status (buyer_deleted_at b) (buyer_updated_at b) b in
  match v with
  | VText s => (λ t, put t (buyer_buyer_integration_id b) (buyer_status b)) <$> set_text column s (texts_of b)
  | VUuid u => if String.eqb column "buyer_integration_id = " then Some (put (texts_of b) (Some u) (buyer_status b)) else None
  | VNull => if String.eqb column "buyer_integration_id = " then Some (put (texts_of b) None (buyer_status b)) else None
  | VBuyerStatus s => if String.eqb column "status = " then Some (put (texts_of b) (buyer_buyer_integration_id b) s) else None
  | _ => None
  end.

Definition touch_buyer (now : DateTime) (b : Buyer) : Buyer :=
  put_buyer (texts_of b) (buyer_buyer_integration_id b) (buyer_status b) (buyer_deleted_at b) now b.
Definition buyer_with_deleted_at (t : DateTime) (b : Buyer) : Buyer :=
  put_buyer (texts_of b) (buyer_buyer_integration_id b) (buyer_status b) (Some t) (buyer_updated_at b) b.
Definition buyer_with_integration (id : Uuid) (b : Buyer) : Buyer :=
  put_buyer (texts_of b) (Some id) (buyer_status b) (buyer_deleted_at b) (buyer_updated_at b) b.

(** ** Reading *)

Section buyers.
(** [parse_uuid]: [Uuid::parse_str]. *)
Context `{Platform} (parse_uuid : string → option Uuid).

Definition uuid_json : option Uuid → json := json_of_option (λ u, JString (uuid_to_string u)).

(** [buyer_json["vertical"] = ...]. *)
Definition with_vertical (info : json) (row : json) : json :=
  match row with JObject o => JObject (map_insert "vertical" info o) | _ => row end.

Definition buyer_row (more : list (string * json)) (b : Buyer) : json :=
  let row := json_object ([
    ("id", JString (uuid_to_string (buyer_id b))); ("name", JString (buyer_name b));
    ("status", JString (BuyerStatus_name (buyer_status b))); ("created_at", JString (to_rfc3339 (buyer_created_at b)));
    ("post_type", json_of_opt_str (buyer_post_type b)); ("vertical_id", uuid_json (buyer_vertical_id b))] ++ more) in
  match buyer_vertical_id b with
  | Some v => with_vertical (json_object [("id", JString (uuid_to_string v))]) row
  | None => row
  end.

(** The name and slug of the vertical, when the id of the row is one of a vertical. *)
Definition enrich (verticals : list Vertical) (row : json) : json :=
  match (s ← payload_str "vertical_id" row; v ← parse_uuid s; List.find (λ x, bool_decide (vertical_id x = v)) verticals) with
  | Some v => with_vertical (vertical_info v) row
  | None => row
  end.

Definition active_buyers_of (inst : Uuid) (w : Office) : list Buyer :=
  sort_by (λ b1 b2, (buyer_created_at b2 ?= buyer_created_at b1)%Z)
    (List.filter (λ b, bool_decide (buyer_instance_id b = inst) && buyer_is_live b) (map_to_list (of_buyers w)).*2).
Definition deleted_buyers_of (inst : Uuid) (w : Office) : list Buyer :=
  sort_by (λ b1 b2, (default 0 (buyer_deleted_at b2) ?= default 0 (buyer_deleted_at b1))%Z)
    (List.filter (λ b, bool_decide (buyer_instance_id b = inst) && negb (buyer_is_live b)) (map_to_list (of_buyers w)).*2).

Definition list_buyers (user : option User) : handler json :=
  user ← eff_lift (ok_or 401%Z user);
  inst ← or_status 500 (get_instance_id_for_user (user_id user));
  inst ← eff_lift (ok_or 400%Z inst);
  active ← or_status 500 (fetch (active_buyers_of inst));
  deleted ← or_status 500 (fetch (deleted_buyers_of inst));
  verticals ← ignore_error (fetch of_verticals);
  let verticals := default [] verticals in
  mret (success [
    ("buyers", JArray ((λ b, enrich verticals (buyer_row [] b)) <$> active));
    ("deleted_buyers", JArray ((λ b, enrich verticals
       (buyer_row [("deleted_at", json_of_option (λ t, JString (to_rfc3339 t)) (buyer_deleted_at b))] b)) <$> deleted))]).

(** What a buyer needs before it is to be activated. *)
Definition can_activate (b : Buyer) : bool :=
  negb (String.eqb (buyer_name b) "") && bool_decide (is_Some (buyer_email_address b)) &&
  bool_decide (is_Some (buyer_ein_tin b)) && bool_decide (is_Some (buyer_address_street b)) &&
  bool_decide (is_Some (buyer_address_city b)) && bool_decide (is_Some (buyer_address_state b)) &&
  bool_decide (is_Some (buyer_address_zip b)) && bool_decide (is_Some (buyer_representative_first_name b)) &&
  bool_decide (is_Some (buyer_representative_last_name b)) && bool_decide (is_Some (buyer_buyer_integration_id b)).

Definition integration_with (id : Uuid) (w : Office) : option BuyerIntegration :=
  List.find (λ i, bool_decide (integration_id i = id)) (of_integrations w).

(** Deleted buyers are shown. *)
Definition get_buyer (id : Uuid) : handler json :=
  b ← or_status 500 (fetch (λ w, of_buyers w !! id));
  b ← eff_lift (ok_or 404%Z b);
  vertical ← (match buyer_vertical_id b with
              | Some v => x ← ignore_error (fetch (λ w, List.find (λ x, bool_decide (vertical_id x = v)) (of_verticals w)));
                          mret (mjoin x)
              | None => mret None
              end);
  integration ← (match buyer_buyer_integration_id b with
                 | Some i => x ← ignore_error (fetch (integration_with i)); mret (mjoin x)
                 | None => mret None
                 end);
  mret (success [("buyer", json_object [
    ("id", JString (uuid_to_string (buyer_id b))); ("name", JString (buyer_name b));
    ("status", JString (BuyerStatus_as_str (buyer_status b))); ("created_at", JString (to_rfc3339 (buyer_created_at b)));
    ("deleted_at", json_of_option (λ t, JString (to_rfc3339 t)) (buyer_deleted_at b));
    ("buyer_type", json_of_opt_str (buyer_buyer_type b)); ("vertical_id", uuid_json (buyer_vertical_id b));
    ("vertical", json_of_option vertical_info vertical);
    ("buyer_integration_id", uuid_json (buyer_buyer_integration_id b));
    ("integration", json_of_option (λ i, json_object [
       ("id", JString (uuid_to_string (integration_id i))); ("name", JString (integration_name i));
       ("slug", JString (integration_slug i))]) integration);
    ("post_type", json_of_opt_str (buyer_post_type b)); ("email_address", json_of_opt_str (buyer_email_address b));
    ("ein_tin", json_of_opt_str (buyer_ein_tin b)); ("address_street", json_of_opt_str (buyer_address_street b));
    ("address_city", json_of_opt_str (buyer_address_city b)); ("address_state", json_of_opt_str (buyer_address_state b));
    ("address_zip", json_of_opt_str (buyer_address_zip b));
    ("representative_first_name", json_of_opt_str (buyer_representative_first_name b));
    ("representative_last_name", json_of_opt_str (buyer_representative_last_name b));
    ("can_activate", JBool (can_activate b))])]).

(** [WHERE is_active = true ORDER BY name]. *)
Definition list_verticals : handler json :=
  verticals ← or_status 500 (fetch (λ w,
    sort_by (λ v1 v2, String.compare (vertical_name v1) (vertical_name v2)) (List.filter vertical_is_active (of_verticals w))));
  mret (success [("verticals", JArray ((λ v, json_object [
    ("id", JString (uuid_to_string (vertical_id v))); ("name", JString (vertical_name v)); ("slug", JString (vertical_slug v));
    ("is_active", JBool (vertical_is_active v))]) <$> verticals))]).

Definition is_available (i : BuyerIntegration) : bool := String.eqb (integration_status i) "available".

(** A text that is not an id selects every vertical.  The timeout is read as text and as
    a float; a column of decimals is neither. *)
Definition list_buyer_integrations (vertical : option string) : handler json :=
  let wanted := (s ← vertical; parse_uuid s) in
  integrations ← or_status 500 (fetch (λ w,
    sort_by (λ i1 i2, String.compare (integration_name i1) (integration_name i2))
      (List.filter (λ i, is_available i &&
         match wanted with Some v => bool_decide (integration_vertical_id i = v) | None => true end) (of_integrations w))));
  mret (success [("integrations", JArray ((λ i, json_object [
    ("id", JString (uuid_to_string (integration_id i))); ("name", JString (integration_name i));
    ("slug", JString (integration_slug i)); ("vertical_id", JString (uuid_to_string (integration_vertical_id i)));
    ("description", json_of_opt_str (integration_description i)); ("is_internal", JBool (integration_is_internal i));
    ("status", JString (integration_status i)); ("default_timeout", JNull)]) <$> integrations))]).

(** ** Creation *)

Record CreateBuyerRequest : Type := {
  cb_name : string;
  cb_instance_id : option Uuid;
  cb_post_type : option string;
  cb_vertical_id : option Uuid;
  cb_buyer_type : option string;
  cb_email_address : option string;
  cb_ein_tin : option string;
  cb_address_street : option string;
  cb_address_city : option string;
  cb_address_state : option string;
  cb_address_zip : option string;
  cb_representative_first_name : option string;
  cb_representative_last_name : option string
}.

Definition new_buyer (id inst : Uuid) (payload : CreateBuyerRequest) (now : DateTime) : Buyer := {|
  buyer_id := id; buyer_name := cb_name payload; buyer_instance_id := inst; buyer_instance_user_id := None;
  buyer_vertical_id := cb_vertical_id payload; buyer_buyer_integration_id := None; buyer_status := BuyerIncomplete;
  buyer_deleted_at := None; buyer_created_at := now; buyer_updated_at := now; buyer_contact_info := json_object [];
  buyer_ein_tin := cb_ein_tin payload; buyer_address_street := cb_address_street payload;
  buyer_address_city := cb_address_city payload; buyer_address_state := cb_address_state payload;
  buyer_address_zip := cb_address_zip payload; buyer_email_address := cb_email_address payload;
  buyer_representative_first_name := cb_representative_first_name payload;
  buyer_representative_last_name := cb_representative_last_name payload; buyer_documents := JArray [];
  buyer_post_type := Some (default "full_post" (cb_post_type payload)); buyer_buyer_type := cb_buyer_type payload |}.

Definition insert_buyer (b : Buyer) : sql unit :=
  statement (λ w,
    if bool_decide (is_Some (of_buyers w !! buyer_id b)) then (Err (duplicate_key "buyers_pkey"), w)
    else (Ok tt, set_of_buyers (<[buyer_id b := b]> (of_buyers w)) w)).

Definition new_integration (id : Uuid) (v : Vertical) (now : DateTime) : BuyerIntegration := {|
  integration_id := id; integration_name := vertical_name v; integration_slug := "pulsar-" +:+ vertical_slug v;
  integration_vertical_id := vertical_id v; integration_description := Some "Internal Pulsar qualification engine";
  integration_configuration_template := json_object []; integration_default_timeout := Some (120 # 100)%Q;
  integration_posting_url_template := None; integration_is_internal := true; integration_status := "available";
  integration_created_at := now; integration_updated_at := now |}.

(** [INSERT INTO buyer_integrations ... RETURNING id]: ids and slugs are unique. *)
Definition insert_integration (i : BuyerIntegration) : sql Uuid :=
  statement (λ w,
    if existsb (λ j, bool_decide (integration_id j = integration_id i)) (of_integrations w)
    then (Err (duplicate_key "buyer_integrations_pkey"), w)
    else if existsb (λ j, String.eqb (integration_slug j) (integration_slug i)) (of_integrations w)
    then (Err (duplicate_key "buyer_integrations_slug_key"), w)
    else (Ok (integration_id i), set_of_integrations (of_integrations w ++ [i]) w)).

Definition is_pulsar (vertical : Uuid) (i : BuyerIntegration) : bool :=
  bool_decide (integration_vertical_id i = vertical) && integration_is_internal i && is_available i.

(** The integration of a new internal buyer; every error is ignored, that of the
    insertion after the id has been chosen. *)
Definition select_pulsar (buyer new_id vertical : Uuid) : handler unit :=
  v ← ignore_error (fetch (λ w, List.find (λ x, bool_decide (vertical_id x = vertical)) (of_verticals w)));
  match mjoin v with
  | None => mret tt
  | Some v =>
      found ← ignore_error (fetch (λ w, integration_id <$> List.find (is_pulsar vertical) (of_integrations w)));
      now ← eff_gets of_now;
      pulsar ← (match mjoin found with
                | Some id => mret id
                | None => inserted ← ignore_error (insert_integration (new_integration new_id v now));
                          mret (default new_id inserted)
                end);
      _ ← ignore_error (execute (λ w, set_of_buyers (alter (buyer_with_integration pulsar) buyer (of_buyers w)) w));
      mret tt
  end.

Definition name_taken (name : string) : string :=
  "A buyer with the name '" +:+ name +:+ "' already exists. Please choose a different name.".
Definition name_taken_stale (name : string) : string :=
  "A buyer with the name '" +:+ name +:+ "' already exists. Please restart the API server to refresh the database connection pool (the constraint has been removed from the database).".

Definition created_fields (payload : CreateBuyerRequest) : json := json_object [
  ("name", JString (cb_name payload)); ("buyer_type", json_of_opt_str (cb_buyer_type payload));
  ("vertical_id", uuid_json (cb_vertical_id payload)); ("post_type", JString (default "full_post" (cb_post_type payload)));
  ("email_address", json_of_opt_str (cb_email_address payload)); ("ein_tin", json_of_opt_str (cb_ein_tin payload));
  ("address_street", json_of_opt_str (cb_address_street payload)); ("address_city", json_of_opt_str (cb_address_city payload));
  ("address_state", json_of_opt_str (cb_address_state payload)); ("address_zip", json_of_opt_str (cb_address_zip payload));
  ("representative_first_name", json_of_opt_str (cb_representative_first_name payload));
  ("representative_last_name", json_of_opt_str (cb_representative_last_name payload))].

(** An entry without a user. *)
Definition audit_buyer (inst : option Uuid) (action_type : string) (id : Uuid) (details affected : json) : handler unit :=
  _ ← ignore_error (create_audit_log inst None action_type (Some "Buyer") (Some id) details affected None None);
  mret tt.

(** After the insertion: the integration, the entry in the audit log, the answer. *)
Definition finish_buyer (id new_id inst : Uuid) (payload : CreateBuyerRequest) : handler json :=
  _ ← (match cb_buyer_type payload, cb_vertical_id payload with
       | Some "internal", Some vertical => select_pulsar id new_id vertical
       | _, _ => mret tt
       end);
  created ← ignore_error (fetch (λ w, of_buyers w !! id));
  _ ← audit_buyer (Some inst) "buyer_created" id
        (json_object [("action", JString "create"); ("after", created_fields payload)]) (json_object []);
  mret (success [
    ("buyer", json_object [
       ("id", JString (uuid_to_string id)); ("name", JString (cb_name payload));
       ("status", JString (default "incomplete" ((λ b, BuyerStatus_as_str (buyer_status b)) <$> mjoin created)));
       ("buyer_type", json_of_opt_str (cb_buyer_type payload));
       ("post_type", JString (default "full_post" (cb_post_type payload)));
       ("vertical_id", uuid_json (cb_vertical_id payload));
       ("buyer_integration_id", uuid_json (b ← mjoin created; buyer_buyer_integration_id b))]);
    ("message", JString "Buyer created successfully")]).

Definition refused_type (payload : CreateBuyerRequest) : option json :=
  match cb_buyer_type payload with
  | Some bt =>
      if negb (String.eqb bt "internal") && negb (String.eqb bt "external")
      then Some (failure ("Invalid buyer_type: " +:+ bt +:+ ". Must be 'internal' or 'external'")) else None
  | None => None
  end.

(** Drawn: the id of the buyer, and of the integration. *)
Definition create_buyer (id new_id : Uuid) (user : User) (payload : CreateBuyerRequest) : handler json :=
  inst ← scope_instance user (cb_instance_id payload);
  let post_type := default "full_post" (cb_post_type payload) in
  if negb (String.eqb post_type "full_post") && negb (String.eqb post_type "ping_post") then
    mret (failure ("Invalid post_type: " +:+ post_type +:+ ". Must be 'full_post' or 'ping_post'"))
  else
    match refused_type payload with
    | Some answer => mret answer
    | None =>
        existing ← or_status 500 (fetch (λ w,
          existsb (λ b, bool_decide (buyer_instance_id b = inst) && String.eqb (buyer_name b) (cb_name payload) && buyer_is_live b)
            (map_to_list (of_buyers w)).*2));
        if (existing : bool) then mret (failure (name_taken (cb_name payload)))
        else
          now ← eff_gets of_now;
          inserted ← eff_try (insert_buyer (new_buyer id inst payload now));
          match inserted with
          | Ok _ => finish_buyer id new_id inst payload
          | Err e =>
              if str_contains "duplicate key" e &&
                 (str_contains "instance_id_and_name" e || str_contains "idx_buyers_instance_name" e)
              then mret (failure (name_taken_stale (cb_name payload)))
              else eff_err 500%Z
          end
    end.

(** ** Update *)

(** The texts of an update: the key, the column, and the audited value before. *)
Definition buyer_texts : list (string * string * (Buyer → string)) := [
  ("name", "name = ", buyer_name);
  ("email_address", "email_address = ", λ b, default "" (buyer_email_address b));
  ("ein_tin", "ein_tin = ", λ b, default "" (buyer_ein_tin b));
  ("address_street", "address_street = ", λ b, default "" (buyer_address_street b));
  ("address_city", "address_city = ", λ b, default "" (buyer_address_city b));
  ("address_state", "address_state = ", λ b, default "" (buyer_address_state b));
  ("address_zip", "address_zip = ", λ b, default "" (buyer_address_zip b));
  ("representative_first_name", "representative_first_name = ", λ b, default "" (buyer_representative_first_name b));
  ("representative_last_name", "representative_last_name = ", λ b, default "" (buyer_representative_last_name b))].

(** [null] and the empty text take the integration away; an id sets it; anything else
    is passed over. *)
Definition integration_query (payload : json) : list Fragment :=
  match jget "buyer_integration_id" payload with
  | Some JNull | Some (JString "") => [Sql "buyer_integration_id = NULL, "]
  | Some v => push_set "buyer_integration_id = " VUuid (s ← as_str v; parse_uuid s)
  | None => []
  end.

Definition parse_buyer_status (s : string) : option BuyerStatus :=
  if String.eqb s "active" then Some BuyerActive
  else if String.eqb s "incomplete" then Some BuyerIncomplete
  else if String.eqb s "inactive" then Some BuyerInactive
  else if String.eqb s "suspended" then Some BuyerSuspended
  else None.

(** [Err]: the status that is refused. *)
Definition requested_buyer_status (payload : json) : Result string (option BuyerStatus) :=
  match payload_str "status" payload with
  | None => Ok None
  | Some s => match parse_buyer_status s with Some st => Ok (Some st) | None => Err s end
  end.

Definition update_buyer_query (payload : json) (status : option BuyerStatus) : list Fragment :=
  (e ← buyer_texts; push_set e.1.2 VText (payload_str e.1.1 payload)) ++
  integration_query payload ++
  push_set "status = " VBuyerStatus status.

(** The changes that are audited: not those of the integration. *)
Definition buyer_changes (payload : json) (before : option Buyer) (status : option BuyerStatus) : list (string * json) :=
  match before with
  | None => []
  | Some b =>
      (e ← buyer_texts;
       match payload_str e.1.1 payload with
       | Some s => change e.1.1 (negb (String.eqb (e.2 b) s)) (JString (e.2 b)) (JString s)
       | None => []
       end) ++
      match status with
      | Some s => change "status" (negb (bool_decide (buyer_status b = s)))
                    (JString (BuyerStatus_as_str (buyer_status b))) (JString (BuyerStatus_as_str s))
      | None => []
      end
  end.

Definition buyer_action (changes : list (string * json)) : string :=
  match (c ← map_get "status" changes; payload_str "after" c) with
  | Some "active" => "buyer_activated"
  | Some "suspended" => "buyer_deactivated"
  | _ => "buyer_updated"
  end.

Definition buyer_full (b : Buyer) : jmap := map_of [
  ("name", JString (buyer_name b)); ("email_address", json_of_opt_str (buyer_email_address b));
  ("ein_tin", json_of_opt_str (buyer_ein_tin b)); ("address_street", json_of_opt_str (buyer_address_street b));
  ("address_city", json_of_opt_str (buyer_address_city b)); ("address_state", json_of_opt_str (buyer_address_state b));
  ("address_zip", json_of_opt_str (buyer_address_zip b));
  ("representative_first_name", json_of_opt_str (buyer_representative_first_name b));
  ("representative_last_name", json_of_opt_str (buyer_representative_last_name b));
  ("status", JString (BuyerStatus_name (buyer_status b))); ("post_type", json_of_opt_str (buyer_post_type b));
  ("buyer_type", json_of_opt_str (buyer_buyer_type b)); ("vertical_id", uuid_json (buyer_vertical_id b));
  ("buyer_integration_id", uuid_json (buyer_buyer_integration_id b))].

(** The row after the update, as it is audited: the row before with the changes. *)
Definition buyer_after (changes : list (string * json)) (b : Buyer) : jmap :=
  foldl (λ o kv, match jget "after" kv.2 with Some v => map_insert kv.1 v o | None => o end) (buyer_full b) changes.

(** The person: the name, or the address of a user without one. *)
Definition actor_name (user : User) : string :=
  let name := str_trim (default "" (user_first_name user) +:+ " " +:+ default "" (user_last_name user)) in
  if String.eqb name "" then user_email user else name.

Definition actor_json (user : User) (inst : option Uuid) : json := json_object [
  ("id", JString (uuid_to_string (user_id user))); ("name", JString (actor_name user)); ("email", JString (user_email user));
  ("role", JString "instance_admin"); ("instance_id", uuid_json inst)].

Definition full_context (headers : gmap string (option string)) (drawn : Uuid) (reason endpoint : string) : json := json_object [
  ("reason", JString reason); ("request_id", JString (audit_request_id headers drawn));
  ("session_id", json_of_opt_str (header_text headers "x-session-id")); ("ip_address", json_of_opt_str (audit_ip headers));
  ("user_agent", json_of_opt_str (audit_agent headers)); ("referer", json_of_opt_str (header_text headers "referer"));
  ("method", JString "POST"); ("endpoint", JString endpoint); ("source", JString "dashboard_web_ui")].

(** The entry of an update by a user; its error is ignored. *)
Definition audit_update (user : User) (headers : gmap string (option string)) (inst : option Uuid)
    (action_type target_type : string) (resource target : Uuid) (changes : list (string * json)) (before after : option json)
    (context : json) : handler unit :=
  now ← eff_gets of_now;
  _ ← ignore_error (create_audit_log inst (Some (user_id user)) action_type (Some "Buyer") (Some resource)
        (json_object [
           ("action", JString "update"); ("target_type", JString target_type); ("target_id", JString (uuid_to_string target));
           ("target_name", JString (default "" (a ← after; n ← jget "name" a; as_str n)));
           ("actor", actor_json user inst); ("changes", json_object changes); ("before", default JNull before);
           ("after", default JNull after); ("context", context); ("outcome", JString "success");
           ("timestamp", JString (to_rfc3339 now)); ("compliance", compliance)])
        (json_object []) (audit_ip headers) (audit_agent headers));
  mret tt.

(** Any row, for a statement without one. *)
Definition blank_buyer : Buyer := {|
  buyer_id := 0%N; buyer_name := ""; buyer_instance_id := 0%N; buyer_instance_user_id := None; buyer_vertical_id := None;
  buyer_buyer_integration_id := None; buyer_status := BuyerIncomplete; buyer_deleted_at := None; buyer_created_at := 0;
  buyer_updated_at := 0; buyer_contact_info := JNull; buyer_ein_tin := None; buyer_address_street := None;
  buyer_address_city := None; buyer_address_state := None; buyer_address_zip := None; buyer_email_address := None;
  buyer_representative_first_name := None; buyer_representative_last_name := None; buyer_documents := JNull;
  buyer_post_type := None; buyer_buyer_type := None |}.

Definition invalid_buyer_status (s : string) : string :=
  "Invalid status value: " +:+ s +:+ ". Must be one of: active, incomplete, inactive, suspended".
Definition buyer_updated : json := success [("message", JString "Buyer updated successfully")].
Definition where_buyer_live (id : Uuid) : list Fragment :=
  [Sql " updated_at = NOW() WHERE id = "; Bind (VUuid id); Sql " AND deleted_at IS NULL"].
Definition buyers_path (id : Uuid) : string := "/api/v1/dashboard/buyers/" +:+ uuid_to_string id.

(** After the checks: the statement, and the entry in the audit log. *)
Definition write_buyer (request_id : Uuid) (user : User) (headers : gmap string (option string)) (id : Uuid) (payload : json)
    (before : option Buyer) (status : option BuyerStatus) : handler json :=
  match update_buyer_query payload status with
  | [] => mret buyer_updated
  | sets =>
      _ ← or_status 500 (run_update blank_buyer (λ _, buyer_is_live) set_buyer_column touch_buyer of_buyers set_of_buyers
            (sets ++ where_buyer_live id));
      let changes := buyer_changes payload before status in
      _ ← audit_update user headers (buyer_instance_id <$> before) (buyer_action changes) "Buyer" id id changes
            ((λ b, JObject (buyer_full b)) <$> before) ((λ b, JObject (buyer_after changes b)) <$> before)
            (full_context headers request_id "User updated buyer via dashboard" (buyers_path id));
      mret buyer_updated
  end.

(** A buyer that is deleted is refused; one that does not exist is not. *)
Definition update_buyer (request_id : Uuid) (user : User) (headers : gmap string (option string)) (id : Uuid) (payload : json)
    : handler json :=
  check ← or_status 500 (fetch (λ w, buyer_deleted_at <$> of_buyers w !! id));
  match check with
  | Some (Some _) => eff_err 400%Z
  | _ =>
      before ← or_status 500 (fetch (live_buyer id));
      match requested_buyer_status payload with
      | Err s => mret (failure (invalid_buyer_status s))
      | Ok status => write_buyer request_id user headers id payload before status
      end
  end.

(** ** Deletion *)

(** The campaigns of the buyer, deleted ones included. *)
Definition campaigns_of_buyer (id : Uuid) (w : Office) : list json :=
  (λ c, json_object [("id", JString (uuid_to_string (campaign_id c))); ("name", JString (default "" (campaign_name c)));
                     ("campaign_token", JString (campaign_campaign_token c))]) <$>
    List.filter (λ c, bool_decide (campaign_buyer_id c = id)) (map_to_list (of_campaigns w)).*2.

Definition delete_buyer (id : Uuid) : handler json :=
  before ← or_status 500 (fetch (live_buyer id));
  before ← eff_lift (ok_or 404%Z before);
  affected ← ignore_error (fetch (campaigns_of_buyer id));
  _ ← or_status 500 (execute (λ w, set_of_buyers (alter (buyer_with_deleted_at (of_now w)) id (of_buyers w)) w));
  _ ← audit_buyer (Some (buyer_instance_id before)) "buyer_deleted" id
        (json_object [("buyer_name", JString (buyer_name before)); ("buyer_type", json_of_opt_str (buyer_buyer_type before));
                      ("post_type", json_of_opt_str (buyer_post_type before))])
        (json_object [("campaigns", JArray (default [] affected))]);
  mret (success [("message", JString "Buyer deleted successfully")]).
End buyers.
