(* ===== verification/RuleSets.v ===== *)
(** * The back office: rule sets of buyers

    [crates/api/src/routes/dashboard.rs], the handlers of qualification rule sets and
    the functions that keep their ZIP codes in tables of their own, on the tables of
    [Office.v].  The lists of ZIP codes are of a buyer, not of a rule set. *)

From stdpp Require Import base list strings gmap.
From Stdlib Require Import Ascii String ZArith QArith Lia.
From S2P Require Import Prelude Float64 Platform Json Models Metrics Samples Store WriteBehind.
From S2P Require Import Encryption Accounts Cache ApiAuth Office Campaigns PingTreeAdmin Buyers.

Open Scope string_scope.
Open Scope list_scope.

(** The cast of the database from double precision to numeric, of a finite number. *)
Class DecimalCast : Type := { numeric_of_f64 : f64 → Decimal }.

(** ** ZIP codes *)

Definition is_list_of (buyer : Uuid) (list_type : string) (l : ZipList) : bool :=
  bool_decide (zip_list_buyer_id l = buyer) && String.eqb (zip_list_type l) list_type.

(** [ORDER BY created_at ASC LIMIT 1]. *)
Definition first_list (buyer : Uuid) (list_type : string) (w : Office) : option ZipList :=
  head (sort_by (λ l1 l2, (zip_list_created_at l1 ?= zip_list_created_at l2)%Z)
    (List.filter (is_list_of buyer list_type) (of_zip_lists w))).

Definition default_list_name (list_type : string) : string :=
  "Default " +:+ (if String.eqb list_type "blacklist" then "Blacklist" else "Whitelist").

(** [INSERT INTO buyer_zip_lists ... RETURNING id]: the buyer is a foreign key. *)
Definition insert_zip_list (l : ZipList) : sql Uuid :=
  statement (λ w,
    if negb (bool_decide (is_Some (of_buyers w !! zip_list_buyer_id l))) then (Err foreign_key_violation, w)
    else if existsb (λ k, bool_decide (zip_list_id k = zip_list_id l)) (of_zip_lists w)
    then (Err (duplicate_key "buyer_zip_lists_pkey"), w)
    else (Ok (zip_list_id l), set_of_zips (of_zip_lists w ++ [l]) (of_zip_codes w) w)).

Definition find_or_create_zip_list (drawn buyer : Uuid) (list_type : string) : sql Uuid :=
  existing ← fetch (first_list buyer list_type);
  match existing with
  | Some l => mret (zip_list_id l)
  | None =>
      now ← eff_gets of_now;
      _ ← insert_zip_list {| zip_list_id := drawn; zip_list_buyer_id := buyer; zip_list_name := default_list_name list_type;
                             zip_list_type := list_type; zip_list_created_at := now |};
      mret drawn
  end.

Definition codes_of (l : Uuid) (w : Office) : list string :=
  omap (λ c : Uuid * string, if bool_decide (c.1 = l) then Some c.2 else None) (of_zip_codes w).

Definition is_zip (s : string) : bool := (String.length s =? 5)%nat && str_forallb (ascii_between 48 57) s.

(** [INSERT INTO buyer_zip_codes ... ON CONFLICT (buyer_zip_list_id, zip) DO NOTHING]: the
    list is a foreign key. *)
Definition insert_zip_code (l : Uuid) (zip : string) : sql unit :=
  statement (λ w,
    if bool_decide ((l, zip) ∈ of_zip_codes w) then (Ok tt, w)
    else if existsb (λ k, bool_decide (zip_list_id k = l)) (of_zip_lists w)
    then (Ok tt, set_of_zips (of_zip_lists w) (of_zip_codes w ++ [(l, zip)]) w)
    else (Err foreign_key_violation, w)).

(** The loop over the array: texts that are ZIP codes, and that the list did not have
    before the loop, are inserted; the errors of insertions are ignored. *)
Fixpoint insert_zips (l : Uuid) (existing : list string) (values : list json) : sql unit :=
  match values with
  | [] => mret tt
  | v :: values' =>
      _ ← (match as_str v with
           | Some s =>
               let zip := str_trim s in
               if is_zip zip && negb (existsb (String.eqb zip) existing)
               then _ ← eff_try (F := string) (insert_zip_code l zip); mret tt
               else mret tt
           | None => mret tt
           end);
      insert_zips l existing values'
  end.

Definition remove_key (k : string) (config : json) : json :=
  match config with JObject o => JObject (map_remove k o) | _ => config end.

(** One of the two lists: stored, then removed from the configuration. *)
Definition store_zip_list (drawn buyer : Uuid) (list_type key : string) (config : json) : sql json :=
  match (v ← jget key config; as_array v) with
  | None => mret config
  | Some values =>
      l ← find_or_create_zip_list drawn buyer list_type;
      existing ← fetch (codes_of l);
      _ ← insert_zips l existing values;
      mret (remove_key key config)
  end.

(** Drawn: the ids of the rule set, of the lists, and of the request. *)
Record RuleSetDraws : Type := {
  draw_rule_set : Uuid;
  draw_blacklist : Uuid;
  draw_whitelist : Uuid;
  draw_audit_request : Uuid
}.

(** The configuration as it is left, errors included; an error of the first list leaves
    the second alone. *)
Definition extract_and_store_zip_codes (d : RuleSetDraws) (buyer : Uuid) (config : json)
    : handler (json * Result string unit) :=
  black ← eff_try (store_zip_list (draw_blacklist d) buyer "blacklist" "zip_blacklist" config);
  match black with
  | Err e => mret (config, Err e)
  | Ok config =>
      white ← eff_try (store_zip_list (draw_whitelist d) buyer "whitelist" "zip_whitelist" config);
      match white with
      | Err e => mret (config, Err e)
      | Ok config => mret (config, Ok tt)
      end
  end.

(** [SELECT DISTINCT zip ... ORDER BY zip]: the codes of all lists of the buyer. *)
Definition zips_of (buyer : Uuid) (list_type : string) (w : Office) : list string :=
  sort_by String.compare (remove_dups
    (l ← List.filter (is_list_of buyer list_type) (of_zip_lists w); codes_of (zip_list_id l) w)).

Definition load_zip_codes_from_tables (buyer : Uuid) : sql (list string * list string) :=
  blacklist ← fetch (zips_of buyer "blacklist");
  whitelist ← fetch (zips_of buyer "whitelist");
  mret (blacklist, whitelist).

(** A list replaces what the configuration has; an empty one removes it. *)
Definition merge_list (key : string) (zips : list string) (config : json) : json :=
  match config with
  | JObject o => JObject (match zips with [] => map_remove key o | _ => map_insert key (JArray (JString <$> zips)) o end)
  | _ => config
  end.
Definition merge_zips (zips : list string * list string) (config : json) : json :=
  merge_list "zip_whitelist" zips.2 (merge_list "zip_blacklist" zips.1 config).

(** ** Rows *)

Definition put_rule_set (name : string) (config : json) (order : list string) (enabled is_active : bool)
    (timeout : option Decimal) (updated_at : DateTime) (r : RuleSet) : RuleSet := {|
  rule_set_id := rule_set_id r; rule_set_buyer_id := rule_set_buyer_id r; rule_set_vertical_id := rule_set_vertical_id r;
  rule_set_buyer_integration_id := rule_set_buyer_integration_id r; rule_set_name := name; rule_set_config := config;
  rule_set_rules_order := order; rule_set_enabled := enabled; rule_set_is_active := is_active;
  rule_set_timeout_seconds := timeout; rule_set_created_at := rule_set_created_at r; rule_set_updated_at := updated_at |}.

Definition rule_set_with_active (active : bool) (r : RuleSet) : RuleSet :=
  put_rule_set (rule_set_name r) (rule_set_config r) (rule_set_rules_order r) (rule_set_enabled r) active
    (rule_set_timeout_seconds r) (rule_set_updated_at r) r.
Definition touch_rule_set (now : DateTime) (r : RuleSet) : RuleSet :=
  put_rule_set (rule_set_name r) (rule_set_config r) (rule_set_rules_order r) (rule_set_enabled r) (rule_set_is_active r)
    (rule_set_timeout_seconds r) now r.

Definition belongs (buyer : option Uuid) (r : RuleSet) : bool :=
  match buyer with Some b => bool_decide (rule_set_buyer_id r = b) | None => true end.
Definition rule_set_of (buyer id : Uuid) (w : Office) : option RuleSet :=
  r ← of_rule_sets w !! id; if belongs (Some buyer) r then Some r else None.

(** [UPDATE ... SET is_active = false WHERE buyer_id = $1], and [AND id != $2]. *)
Definition deactivate (buyer : Uuid) (but : option Uuid) : sql unit :=
  execute (λ w, set_of_rule_sets
    ((λ r, if belongs (Some buyer) r && negb (bool_decide (but = Some (rule_set_id r))) then rule_set_with_active false r else r)
       <$> of_rule_sets w) w).

(** [INSERT INTO buyer_qualification_configs]: a name is unique within the buyer and the
    vertical. *)
Definition insert_rule_set (r : RuleSet) : sql unit :=
  statement (λ w,
    if bool_decide (is_Some (of_rule_sets w !! rule_set_id r)) then (Err (duplicate_key "buyer_qualification_configs_pkey"), w)
    else if existsb (λ s, bool_decide (rule_set_buyer_id s = rule_set_buyer_id r) &&
                          bool_decide (rule_set_vertical_id s = rule_set_vertical_id r) &&
                          String.eqb (rule_set_name s) (rule_set_name r)) (map_to_list (of_rule_sets w)).*2
    then (Err (duplicate_key "unique_buyer_vertical_rule_set_name"), w)
    else (Ok tt, set_of_rule_sets (<[rule_set_id r := r]> (of_rule_sets w)) w)).

Section rule_sets.
Context `{Platform} `{DecimalText} `{DecimalCast}.

Definition f64_1_2 : f64 := f64_of_decimal 12 (-1).

(** A number that does not fit the column fails the statement, as a value of another
    type does. *)
Definition set_rule_set_column (column : string) (v : SqlValue) (r : RuleSet) : option RuleSet :=
  let put name config order enabled active timeout :=
    Some (put_rule_set name config order enabled active timeout (rule_set_updated_at r) r) in
  let 'Build_RuleSet _ _ _ _ name config order enabled active timeout _ _ := r in
  match v with
  | VText s => if String.eqb column "rule_set_name = " then put s config order enabled active timeout else None
  | VJson c => if String.eqb column "config = " then put name c order enabled active timeout else None
  | VTexts l => if String.eqb column "rules_order = " then put name config l enabled active timeout else None
  | VBool b =>
      if String.eqb column "enabled = " then put name config order b active timeout
      else if String.eqb column "is_active = " then put name config order enabled b timeout else None
  | VFloat x =>
      if String.eqb column "timeout_seconds = "
      then match to_numeric 5 (Some (numeric_of_f64 x)) with Ok t => put name config order enabled active t | Err _ => None end
      else None
  | _ => None
  end.

(** ** Reading *)

(** [d.to_string().parse::<f64>().unwrap_or(1.2)]. *)
Definition timeout_json (d : option Decimal) : json :=
  json_of_option (λ d, json_of_f64 (default f64_1_2 (parse_f64 (decimal_to_string d)))) d.

Definition rule_set_view (config : json) (r : RuleSet) : json := json_object [
  ("id", JString (uuid_to_string (rule_set_id r))); ("buyer_id", JString (uuid_to_string (rule_set_buyer_id r)));
  ("vertical_id", JString (uuid_to_string (rule_set_vertical_id r)));
  ("buyer_integration_id", uuid_json (rule_set_buyer_integration_id r)); ("rule_set_name", JString (rule_set_name r));
  ("config", config); ("rules_order", JArray (JString <$> rule_set_rules_order r)); ("enabled", JBool (rule_set_enabled r));
  ("is_active", JBool (rule_set_is_active r)); ("timeout_seconds", timeout_json (rule_set_timeout_seconds r));
  ("created_at", JString (to_rfc3339 (rule_set_created_at r))); ("updated_at", JString (to_rfc3339 (rule_set_updated_at r)))].

(** [ORDER BY created_at DESC]. *)
Definition rule_sets_of (buyer : Uuid) (w : Office) : list RuleSet :=
  sort_by (λ r1 r2, (rule_set_created_at r2 ?= rule_set_created_at r1)%Z)
    (List.filter (belongs (Some buyer)) (map_to_list (of_rule_sets w)).*2).

(** When the codes cannot be read, the lists are taken for empty. *)
Definition list_buyer_rule_sets (buyer : Uuid) : handler json :=
  rule_sets ← or_status 500 (fetch (rule_sets_of buyer));
  zips ← ignore_error (load_zip_codes_from_tables buyer);
  let zips := default ([], []) zips in
  mret (success [("rule_sets", JArray ((λ r, rule_set_view (merge_zips zips (rule_set_config r)) r) <$> rule_sets))]).

(** When the codes cannot be read, the configuration is shown as it is. *)
Definition get_buyer_rule_set (buyer id : Uuid) : handler json :=
  r ← or_status 500 (fetch (rule_set_of buyer id));
  r ← eff_lift (ok_or 404%Z r);
  zips ← ignore_error (load_zip_codes_from_tables (rule_set_buyer_id r));
  let config := match zips with Some zips => merge_zips zips (rule_set_config r) | None => rule_set_config r end in
  mret (success [("rule_set", rule_set_view config r)]).

(** ** Creation *)

Record CreateRuleSetRequest : Type := {
  cr_rule_set_name : string;
  cr_timeout_seconds : option f64;
  cr_enabled : option bool;
  cr_is_active : option bool;
  cr_config : option json;
  cr_rules_order : option (list string)
}.

Definition default_rules_order : list string := [
  "zip_blacklist"; "zip_whitelist"; "own_home"; "roof_shade"; "credit_rating"; "monthly_bill"; "property_type"; "roof_type";
  "purchase_timeframe"].

Definition new_rule_set (id buyer vertical : Uuid) (payload : CreateRuleSetRequest) (config : json) (timeout : option Decimal)
    (now : DateTime) : RuleSet := {|
  rule_set_id := id; rule_set_buyer_id := buyer; rule_set_vertical_id := vertical; rule_set_buyer_integration_id := None;
  rule_set_name := cr_rule_set_name payload; rule_set_config := config;
  rule_set_rules_order := default default_rules_order (cr_rules_order payload);
  rule_set_enabled := default true (cr_enabled payload); rule_set_is_active := default false (cr_is_active payload);
  rule_set_timeout_seconds := timeout; rule_set_created_at := now; rule_set_updated_at := now |}.

(** The instance of the entry is read from the row of the buyer, deleted or not. *)
Definition instance_of_buyer (buyer : Uuid) : handler (option Uuid) :=
  inst ← ignore_error (fetch (λ w, buyer_instance_id <$> of_buyers w !! buyer));
  mret (mjoin inst).

(** The insertion: the number is cast to the column first. *)
Definition write_new_rule_set (d : RuleSetDraws) (buyer vertical : Uuid) (payload : CreateRuleSetRequest) (config : json)
    : handler unit :=
  now ← eff_gets of_now;
  let timeout := default f64_1_2 (cr_timeout_seconds payload) in
  or_status 500
    match to_numeric 5 (Some (numeric_of_f64 timeout)) with
    | Err e => statement (eff_err e)
    | Ok t => insert_rule_set (new_rule_set (draw_rule_set d) buyer vertical payload config t now)
    end.

Definition create_buyer_rule_set (d : RuleSetDraws) (buyer : Uuid) (payload : CreateRuleSetRequest) : handler json :=
  b ← or_status 500 (fetch (live_buyer buyer));
  b ← eff_lift (ok_or 404%Z b);
  vertical ← eff_lift (ok_or 400%Z (buyer_vertical_id b));
  let is_active := default false (cr_is_active payload) in
  _ ← (if is_active then or_status 500 (deactivate buyer None) else mret tt);
  stored ← extract_and_store_zip_codes d buyer (default (json_object []) (cr_config payload));
  _ ← write_new_rule_set d buyer vertical payload stored.1;
  inst ← instance_of_buyer buyer;
  _ ← audit_buyer inst "buyer_rule_set_created" buyer (json_object [
        ("rule_set_id", JString (uuid_to_string (draw_rule_set d))); ("rule_set_name", JString (cr_rule_set_name payload));
        ("is_active", JBool is_active); ("enabled", JBool (default true (cr_enabled payload)));
        ("timeout_seconds", json_of_f64 (default f64_1_2 (cr_timeout_seconds payload)))]) (json_object []);
  mret (success [
    ("rule_set", json_object [
       ("id", JString (uuid_to_string (draw_rule_set d))); ("rule_set_name", JString (cr_rule_set_name payload));
       ("is_active", JBool is_active)]);
    ("message", JString "Rule set created successfully")]).

(** ** Update *)

(** The audited columns; a timeout that is not set is 0. *)
Definition audited_timeout (r : RuleSet) : f64 :=
  default f64_zero (t ← rule_set_timeout_seconds r; parse_f64 (decimal_to_string t)).
Definition rule_set_full (r : RuleSet) : json := json_object [
  ("rule_set_name", JString (rule_set_name r)); ("is_active", JBool (rule_set_is_active r));
  ("enabled", JBool (rule_set_enabled r)); ("timeout_seconds", json_of_f64 (audited_timeout r)); ("config", rule_set_config r)].

(** The configuration of the payload goes through the tables of ZIP codes first. *)
Definition rule_set_config_set (d : RuleSetDraws) (buyer : Uuid) (payload : json) : handler (list Fragment) :=
  match jget "config" payload with
  | None => mret []
  | Some config =>
      stored ← extract_and_store_zip_codes d buyer config;
      mret (push_set "config = " VJson (Some stored.1))
  end.

Definition payload_bool (k : string) (payload : json) : option bool := v ← jget k payload; as_bool v.

(** Activation switches the other rule sets of the buyer off before the statement runs. *)
Definition rule_set_active_set (buyer id : Uuid) (payload : json) : handler (list Fragment) :=
  match payload_bool "is_active" payload with
  | None => mret []
  | Some active =>
      _ ← (if active then or_status 500 (deactivate buyer (Some id)) else mret tt);
      mret (push_set "is_active = " VBool (Some active))
  end.

Definition payload_order (payload : json) : option (list string) :=
  omap (M := list) as_str <$> (v ← jget "rules_order" payload; as_array v).

Definition update_rule_set_query (d : RuleSetDraws) (buyer id : Uuid) (payload : json) : handler (list Fragment) :=
  config ← rule_set_config_set d buyer payload;
  active ← rule_set_active_set buyer id payload;
  mret (push_set "rule_set_name = " VText (payload_str "rule_set_name" payload) ++ config ++
        push_set "rules_order = " VTexts (payload_order payload) ++
        push_set "enabled = " VBool (payload_bool "enabled" payload) ++ active ++
        push_set "timeout_seconds = " VFloat (v ← jget "timeout_seconds" payload; as_f64 v)).

Definition where_owned (buyer id : Uuid) : list Fragment :=
  [Sql " updated_at = NOW() WHERE id = "; Bind (VUuid id); Sql " AND buyer_id = "; Bind (VUuid buyer)].

(** The configuration is always among the changes when both rows are there. *)
Definition rule_set_changes (before : RuleSet) (after : option RuleSet) : list (string * json) :=
  match after with
  | None => []
  | Some a =>
      let tb := audited_timeout before in
      let ta := audited_timeout a in
      change "rule_set_name" (negb (String.eqb (rule_set_name before) (rule_set_name a)))
        (JString (rule_set_name before)) (JString (rule_set_name a)) ++
      change "config" true (rule_set_config before) (rule_set_config a) ++
      change "is_active" (negb (Bool.eqb (rule_set_is_active before) (rule_set_is_active a)))
        (JBool (rule_set_is_active before)) (JBool (rule_set_is_active a)) ++
      change "enabled" (negb (Bool.eqb (rule_set_enabled before) (rule_set_enabled a)))
        (JBool (rule_set_enabled before)) (JBool (rule_set_enabled a)) ++
      change "timeout_seconds" (f64_gt (f64_abs (f64_sub tb ta)) (f64_of_decimal 1 (-3))) (json_of_f64 tb) (json_of_f64 ta)
  end.

Definition rule_set_action (changes : list (string * json)) : string :=
  match map_get "is_active" changes with
  | Some c => if default false (payload_bool "after" c) then "buyer_rule_set_activated" else "buyer_rule_set_deactivated"
  | None =>
      if (List.length changes =? 1)%nat && bool_decide (is_Some (map_get "timeout_seconds" changes))
      then "buyer_rule_set_timeout_updated" else "buyer_rule_set_updated"
  end.

Definition update_buyer_rule_set (d : RuleSetDraws) (user : User) (headers : gmap string (option string)) (buyer id : Uuid)
    (payload : json) : handler json :=
  before ← or_status 500 (fetch (rule_set_of buyer id));
  before ← eff_lift (ok_or 404%Z before);
  sets ← update_rule_set_query d buyer id payload;
  match sets with
  | [] => mret (success [("message", JString "No updates provided")])
  | _ =>
      _ ← or_status 500 (run_update before belongs set_rule_set_column touch_rule_set of_rule_sets set_of_rule_sets
            (sets ++ where_owned buyer id));
      inst ← instance_of_buyer buyer;
      after ← ignore_error (fetch (rule_set_of buyer id));
      let changes := rule_set_changes before (mjoin after) in
      _ ← audit_update user headers inst (rule_set_action changes) "BuyerRuleSet" buyer id changes
            (Some (rule_set_full before)) (rule_set_full <$> mjoin after)
            (full_context headers (draw_audit_request d) "User updated rule set via dashboard"
               (buyers_path buyer +:+ "/rule_sets/" +:+ uuid_to_string id));
      mret (success [("message", JString "Rule set updated successfully")])
  end.

(** ** Deletion *)

(** [DELETE ... WHERE id = $1 AND buyer_id = $2]: whether there was a row. *)
Definition delete_rule_set_row (buyer id : Uuid) : sql bool :=
  statement (λ w,
    match rule_set_of buyer id w with
    | Some _ => (Ok true, set_of_rule_sets (delete id (of_rule_sets w)) w)
    | None => (Ok false, w)
    end).

(** The lists of ZIP codes stay. *)
Definition delete_buyer_rule_set (buyer id : Uuid) : handler json :=
  before ← or_status 500 (fetch (rule_set_of buyer id));
  deleted ← or_status 500 (delete_rule_set_row buyer id);
  if negb deleted then eff_err 404%Z
  else
    inst ← instance_of_buyer buyer;
    _ ← audit_buyer inst "buyer_rule_set_deleted" buyer (json_object [
          ("rule_set_id", JString (uuid_to_string id));
          ("rule_set_name", JString (default "Unknown" (rule_set_name <$> before)));
          ("was_active", JBool (default false (rule_set_is_active <$> before)))]) (json_object []);
    mret (success [("message", JString "Rule set deleted successfully")]).
End rule_sets.
