(* ===== verification/OfficeRuns.v ===== *)
(** * The back office over time: calls, invariants and what they give the router

    [crates/api/src/routes/dashboard.rs], [create_router]: the calls of the handlers of
    [Office.v], [Campaigns.v], [PingTreeAdmin.v], [Buyers.v] and [RuleSets.v], in any order
    and with any outcomes of their statements.  An invariant is shown by the writes that can break it
    ([OfficeInvariant]); the calls keep it. *)

From stdpp Require Import base list strings gmap relations pretty.
From Stdlib Require Import Ascii String ZArith QArith Qround Lia.
From S2P Require Import Prelude Float64 Platform Json Models Metrics Samples Store WriteBehind.
From S2P Require Import Encryption Accounts Cache ApiAuth Office Campaigns PingTreeAdmin Buyers RuleSets.

Open Scope string_scope.
Open Scope list_scope.

(** ** Calls *)

Inductive OfficeCall : Type :=
  | ListPublishers (user : option User)
  | CreatePublisher (d : OfficeDraws) (user : User) (headers : gmap string (option string)) (payload : CreatePublisherRequest)
  | GetPublisher (id : Uuid)
  | UpdatePublisher (request_id : Uuid) (user : User) (headers : gmap string (option string)) (id : Uuid) (payload : UpdatePublisherRequest)
  | DeletePublisher (request_id : Uuid) (user : User) (headers : gmap string (option string)) (id : Uuid)
  | RegenerateApiKey (d : OfficeDraws) (user : User) (headers : gmap string (option string)) (id : Uuid)
  | GetApiKey (user : option User) (id : Uuid)
  | GenerateHmacSecret (d : OfficeDraws) (user : User) (headers : gmap string (option string)) (id : Uuid)
  | GetRevenueShare (id : Uuid)
  | ListCampaigns (user : option User)
  | CreateCampaign (token_bytes : string) (id membership_id : Uuid) (user : User) (payload : CreateCampaignRequest)
  | GetCampaign (user : option User) (id : Uuid)
  | UpdateCampaign (id : Uuid) (payload : json)
  | DeleteCampaign (id : Uuid)
  | ListPingTrees (user : option User)
  | CreatePingTree (id : Uuid) (user : User) (payload : CreatePingTreeRequest)
  | GetPingTree (user : option User) (id : Uuid)
  | UpdatePingTree (id : Uuid) (payload : json)
  | DeletePingTree (id : Uuid)
  | AddCampaign (membership_id tree : Uuid) (payload : AddCampaignToPingTreeRequest)
  | RemoveCampaign (tree campaign : Uuid)
  | ListTreePublishers (tree : Uuid)
  | AddPublisher (id tree : Uuid) (payload : AddPublisherToPingTreeRequest)
  | RemovePublisher (tree publisher : Uuid)
  | UpdateRevshare (tree publisher : Uuid) (payload : UpdatePingTreePublisherRevshareRequest)
  | ListBuyers (user : option User)
  | CreateBuyer (id new_id : Uuid) (user : User) (payload : CreateBuyerRequest)
  | GetBuyer (id : Uuid)
  | UpdateBuyer (request_id : Uuid) (user : User) (headers : gmap string (option string)) (id : Uuid) (payload : json)
  | DeleteBuyer (id : Uuid)
  | ListVerticals
  | ListBuyerIntegrations (vertical : option string)
  | ListRuleSets (buyer : Uuid)
  | CreateRuleSet (d : RuleSetDraws) (buyer : Uuid) (payload : CreateRuleSetRequest)
  | GetRuleSet (buyer id : Uuid)
  | UpdateRuleSet (d : RuleSetDraws) (user : User) (headers : gmap string (option string)) (buyer id : Uuid) (payload : json)
  | DeleteRuleSet (buyer id : Uuid).

Section calls.
Context `{Platform} `{Crypto} `{DecimalText} `{DecimalCast} (sha256_hex : string → string) (encryption_key : string)
  (parse_uuid : string → option Uuid).

Definition run_call (c : OfficeCall) : handler json :=
  match c with
  | ListPublishers user => list_publishers user
  | CreatePublisher d user headers payload => create_publisher sha256_hex encryption_key d user headers payload
  | GetPublisher id => get_publisher id
  | UpdatePublisher request_id user headers id payload => update_publisher request_id user headers id payload
  | DeletePublisher request_id user headers id => delete_publisher request_id user headers id
  | RegenerateApiKey d user headers id => regenerate_publisher_api_key sha256_hex encryption_key d user headers id
  | GetApiKey user id => get_publisher_api_key encryption_key user id
  | GenerateHmacSecret d user headers id => generate_publisher_hmac_secret_encrypted sha256_hex d user headers id
  | GetRevenueShare id => get_publisher_revenue_share id
  | ListCampaigns user => list_campaigns user
  | CreateCampaign token_bytes id membership_id user payload => create_campaign token_bytes id membership_id user payload
  | GetCampaign user id => get_campaign user id
  | UpdateCampaign id payload => update_campaign parse_uuid id payload
  | DeleteCampaign id => delete_campaign id
  | ListPingTrees user => list_ping_trees user
  | CreatePingTree id user payload => create_ping_tree id user payload
  | GetPingTree user id => get_ping_tree user id
  | UpdatePingTree id payload => update_ping_tree id payload
  | DeletePingTree id => delete_ping_tree id
  | AddCampaign membership_id tree payload => add_campaign_to_ping_tree membership_id tree payload
  | RemoveCampaign tree campaign => remove_campaign_from_ping_tree tree campaign
  | ListTreePublishers tree => list_ping_tree_publishers tree
  | AddPublisher id tree payload => add_publisher_to_ping_tree id tree payload
  | RemovePublisher tree publisher => remove_publisher_from_ping_tree tree publisher
  | UpdateRevshare tree publisher payload => update_ping_tree_publisher_revshare tree publisher payload
  | ListBuyers user => list_buyers parse_uuid user
  | CreateBuyer id new_id user payload => create_buyer id new_id user payload
  | GetBuyer id => get_buyer id
  | UpdateBuyer request_id user headers id payload => update_buyer parse_uuid request_id user headers id payload
  | DeleteBuyer id => delete_buyer id
  | ListVerticals => list_verticals
  | ListBuyerIntegrations vertical => list_buyer_integrations parse_uuid vertical
  | ListRuleSets buyer => list_buyer_rule_sets buyer
  | CreateRuleSet d buyer payload => create_buyer_rule_set d buyer payload
  | GetRuleSet buyer id => get_buyer_rule_set buyer id
  | UpdateRuleSet d user headers buyer id payload => update_buyer_rule_set d user headers buyer id payload
  | DeleteRuleSet buyer id => delete_buyer_rule_set buyer id
  end.

(** Time passes and the next outcomes are drawn, or a call runs. *)
Definition set_of_env (now : DateTime) (outcomes : list (option string)) (w : Office) : Office := {|
  of_instances := of_instances w; of_publishers := of_publishers w; of_verticals := of_verticals w;
  of_publisher_verticals := of_publisher_verticals w; of_trees := of_trees w; of_tree_publishers := of_tree_publishers w;
  of_tree_campaigns := of_tree_campaigns w; of_campaigns := of_campaigns w; of_buyers := of_buyers w;
  of_integrations := of_integrations w; of_rule_sets := of_rule_sets w; of_zip_lists := of_zip_lists w;
  of_zip_codes := of_zip_codes w; of_audit := of_audit w; of_now := now;
  of_outcomes := outcomes |}.

Inductive office_step : Office → Office → Prop :=
  | step_env now outcomes w : office_step w (set_of_env now outcomes w)
  | step_call c w : office_step w (run_call c w).2.

Definition office_reaches : Office → Office → Prop := rtc office_step.
End calls.

(** ** Invariants of the tables *)

(** What a write to a row that is there may change. *)
Definition publisher_key (p : Publisher) : Uuid * string := (publisher_id p, publisher_api_key_hash p).
Definition campaign_key (c : Campaign) : Uuid := campaign_id c.
Definition tree_key (t : PingTree) : Uuid * Uuid * string := (tree_id t, tree_instance_id t, tree_vertical t).
Definition tree_evolves (t t' : PingTree) : Prop :=
  tree_key t' = tree_key t ∧ (tree_deleted_at t ≠ None → tree_deleted_at t' ≠ None).

(** The obligations of an invariant of the tables: one per write. *)
Class OfficeInvariant `{DecimalText} (I : Office → Prop) : Prop := {
  oi_env now outcomes w : I w → I (set_of_env now outcomes w);
  oi_audit audit w : I w → I (set_of_audit audit w);
  oi_verticals pv w : I w → I (set_of_publisher_verticals pv w);
  oi_insert_publisher p : preserves I (insert_publisher p);
  oi_save_api_key id hash encrypted : preserves I (save_api_key id hash encrypted);
  oi_publisher id p p' w : I w → of_publishers w !! id = Some p → publisher_key p' = publisher_key p →
    I (set_of_publishers (<[id := p']> (of_publishers w)) w);
  oi_insert_campaign c : preserves I (insert_campaign c);
  oi_campaign id c c' w : I w → of_campaigns w !! id = Some c → campaign_key c' = campaign_key c →
    I (set_of_campaigns (<[id := c']> (of_campaigns w)) w);
  oi_insert_tree t : preserves I (insert_ping_tree t);
  oi_tree id t t' w : I w → of_trees w !! id = Some t → tree_evolves t t' →
    I (set_of_trees (<[id := t']> (of_trees w)) w);
  oi_insert_membership id tree campaign priority conflict :
    (∀ now m, is_membership (ptc_ping_tree_id m) (ptc_campaign_id m) (conflict now m) = true) →
    preserves I (insert_membership id tree campaign priority conflict);
  oi_remove_membership tree campaign w : I w →
    I (set_of_tree_campaigns (List.filter (λ m, negb (is_membership tree campaign m)) (of_tree_campaigns w)) w);
  oi_create_assignment id tree publisher vertical p f : preserves I (PingTreePublisher_create id tree publisher vertical p f);
  oi_update_shares id p f : preserves I (PingTreePublisher_update_revshare id p f);
  oi_remove_assignment `{Platform} tree publisher : preserves I (remove_publisher_from_ping_tree tree publisher);
  oi_insert_buyer b : preserves I (insert_buyer b);
  oi_buyer id b b' w : I w → of_buyers w !! id = Some b → buyer_id b' = buyer_id b →
    I (set_of_buyers (<[id := b']> (of_buyers w)) w);
  oi_insert_integration i : preserves I (insert_integration i);
  oi_insert_zip_list l : preserves I (insert_zip_list l);
  oi_insert_zip_code l zip : is_zip zip = true → preserves I (insert_zip_code l zip)
}.

(** The rule sets are written by several statements that belong together: an obligation
    per call. *)
Class RuleSetInvariant `{Platform} `{DecimalText} `{DecimalCast} (I : Office → Prop) : Prop := {
  oi_create_rule_set d buyer payload : preserves I (create_buyer_rule_set d buyer payload);
  oi_update_rule_set d user headers buyer id payload : preserves I (update_buyer_rule_set d user headers buyer id payload);
  oi_delete_rule_set buyer id : preserves I (delete_buyer_rule_set buyer id)
}.

(** *** Statements keep it *)

(** For an invariant that does not read the outcomes. *)
Lemma preserves_outcome (I : Office → Prop) {A} (m : sql A) :
  (∀ outcomes w, I w → I (set_of_outcomes outcomes w)) → preserves I m → preserves I (statement m).
Proof.
  intros Hout Hm w Hw. unfold statement. destruct (of_outcomes w) as [|[e|] rest]; [by apply Hm|by apply Hout|].
  apply Hm. by apply Hout.
Qed.

Section preservation.
Context `{Platform} `{Crypto} `{DecimalText} `{DecimalCast} (sha256_hex : string → string) (encryption_key : string)
  (parse_uuid : string → option Uuid).
Context (I : Office → Prop) `{OI : !OfficeInvariant I}.

Lemma preserves_statement {A} (m : sql A) : preserves I m → preserves I (statement m).
Proof. apply preserves_outcome. intros rest w Hw. apply (oi_env (of_now w) rest w Hw). Qed.
Lemma preserves_fetch {A} (f : Office → A) : preserves I (fetch f).
Proof. apply preserves_statement, preserves_gets. Qed.
Lemma preserves_execute f : (∀ w, I w → I (f w)) → preserves I (execute f).
Proof. intros Hf. by apply preserves_statement, preserves_modify. Qed.
Lemma preserves_or_status {A} status (m : sql A) : preserves I m → preserves I (or_status status m).
Proof. intros Hm w Hw. specialize (Hm w Hw). unfold or_status. by destruct (m w) as [[]]. Qed.
Lemma preserves_ignore_error {A} (m : sql A) : preserves I m → preserves I (ignore_error m).
Proof. intros Hm w Hw. specialize (Hm w Hw). unfold ignore_error. by destruct (m w) as [[]]. Qed.

Lemma preserves_audit inst user action_type resource_type resource_id details affected ip agent :
  preserves I (create_audit_log inst user action_type resource_type resource_id details affected ip agent).
Proof. apply preserves_execute. intros w. apply oi_audit. Qed.

Lemma set_of_publishers_id w : set_of_publishers (of_publishers w) w = w.
Proof. by destruct w. Qed.
Lemma set_of_campaigns_id w : set_of_campaigns (of_campaigns w) w = w.
Proof. by destruct w. Qed.
Lemma set_of_trees_id w : set_of_trees (of_trees w) w = w.
Proof. by destruct w. Qed.

Lemma alter_insert {R} (f : R → R) (id : Uuid) (m : gmap Uuid R) :
  alter f id m = match m !! id with Some r => <[id := f r]> m | None => m end.
Proof.
  apply map_eq. intros j. destruct (m !! id) as [r|] eqn:E, (decide (j = id)) as [->|];
  by rewrite ?lookup_alter_eq, ?lookup_alter_ne, ?lookup_insert_eq, ?lookup_insert_ne, ?E by done.
Qed.

Lemma alter_publisher f id w :
  (∀ p, publisher_key (f p) = publisher_key p) → I w → I (set_of_publishers (alter f id (of_publishers w)) w).
Proof.
  intros Hf Hw. rewrite alter_insert. destruct (of_publishers w !! id) as [p|] eqn:E; [|by rewrite set_of_publishers_id].
  by eapply oi_publisher.
Qed.
Lemma alter_campaign f id w :
  (∀ c, campaign_key (f c) = campaign_key c) → I w → I (set_of_campaigns (alter f id (of_campaigns w)) w).
Proof.
  intros Hf Hw. rewrite alter_insert. destruct (of_campaigns w !! id) as [p|] eqn:E; [|by rewrite set_of_campaigns_id].
  by eapply oi_campaign.
Qed.
Lemma alter_tree f id w : (∀ t, tree_evolves t (f t)) → I w → I (set_of_trees (alter f id (of_trees w)) w).
Proof.
  intros Hf Hw. rewrite alter_insert. destruct (of_trees w !! id) as [p|] eqn:E; [|by rewrite set_of_trees_id].
  by eapply oi_tree.
Qed.

(** What every column leaves alone, an update does. *)
Lemma set_columns_keeps {R K} (key : R → K) (set : string → SqlValue → R → option R) sets row row' :
  (∀ column v r r', set column v r = Some r' → key r' = key r) → set_columns set sets row = Some row' → key row' = key row.
Proof.
  intros Hset. revert row. induction sets as [|[column v] sets IH]; intros row; cbn [set_columns]; [by intros [= <-]|].
  destruct (set column v row) as [r|] eqn:E; [|done]. intros Hr. rewrite (IH _ Hr). by eapply Hset.
Qed.

Lemma preserves_run_update {R} (probe : R) live set touch (rows : Office → gmap Uuid R) put q :
  (∀ w id row row' sets, I w → rows w !! id = Some row → set_columns set sets row = Some row' →
     I (put (<[id := touch (of_now w) row']> (rows w)) w)) →
  preserves I (run_update probe live set touch rows put q).
Proof.
  intros Hput. apply preserves_statement. intros w Hw. destruct (parse_update q) as [[sets [id owner]]|]; [|done].
  destruct (set_columns set sets _) as [row'|] eqn:Es; [|done]. destruct (rows w !! id) as [row|] eqn:Er; [|done].
  destruct (live owner row); [|done]. by apply (Hput w id row row' sets).
Qed.

#[local] Hint Resolve preserves_fetch preserves_or_status preserves_ignore_error preserves_audit : effects.
#[local] Hint Resolve oi_insert_publisher oi_save_api_key oi_insert_campaign oi_insert_tree oi_create_assignment
  oi_update_shares oi_remove_assignment : effects.

(** *** Calls keep it *)

Lemma preserves_scope_instance user requested : preserves I (scope_instance user requested).
Proof. unfold scope_instance, get_instance_id_for_user. preserves_tac. Qed.
Lemma preserves_audit_publisher user headers action id details : preserves I (audit_publisher user headers action id details).
Proof. unfold audit_publisher. preserves_tac. Qed.
Lemma preserves_audit_office inst action resource id details affected :
  preserves I (audit_office inst action resource id details affected).
Proof. unfold audit_office. preserves_tac. Qed.
#[local] Hint Resolve preserves_scope_instance preserves_audit_publisher preserves_audit_office : effects.

Lemma preserves_publisher_verticals id verticals : preserves I (insert_publisher_verticals id verticals).
Proof.
  induction verticals as [|v verticals IH]; [apply preserves_ret|]. cbn [insert_publisher_verticals].
  apply preserves_bind; [|done]. apply preserves_ignore_error, preserves_execute. intros w Hw.
  case_bool_decide; [done|]. by apply oi_verticals.
Qed.

Lemma set_publisher_column_key column v p p' : set_publisher_column column v p = Some p' → publisher_key p' = publisher_key p.
Proof.
  intros Hs. apply set_publisher_column_spec in Hs as (_ & Ho & _). unfold publisher_key. unfold other_columns in Ho. congruence.
Qed.
Lemma set_campaign_column_key column v c c' : set_campaign_column column v c = Some c' → campaign_key c' = campaign_key c.
Proof. unfold set_campaign_column. intros. by repeat case_match; simplify_eq. Qed.
Lemma set_tree_column_key column v t t' :
  set_tree_column column v t = Some t' → (tree_key t', tree_deleted_at t') = (tree_key t, tree_deleted_at t).
Proof. unfold set_tree_column. intros. by repeat case_match; simplify_eq. Qed.

Lemma preserves_update_publisher_row probe live q :
  preserves I (run_update probe live set_publisher_column touch_publisher of_publishers set_of_publishers q).
Proof.
  apply preserves_run_update. intros w id p p' sets Hw Hp Hs. eapply oi_publisher; [done|done|].
  rewrite <-(set_columns_keeps publisher_key set_publisher_column sets p p' set_publisher_column_key Hs). done.
Qed.
Lemma preserves_update_campaign_row probe live q :
  preserves I (run_update probe live set_campaign_column touch_campaign of_campaigns set_of_campaigns q).
Proof.
  apply preserves_run_update. intros w id p p' sets Hw Hp Hs. eapply oi_campaign; [done|done|].
  rewrite <-(set_columns_keeps campaign_key set_campaign_column sets p p' set_campaign_column_key Hs). done.
Qed.
Lemma preserves_update_tree_row probe live q :
  preserves I (run_update probe live set_tree_column touch_tree of_trees set_of_trees q).
Proof.
  apply preserves_run_update. intros w id p p' sets Hw Hp Hs. eapply oi_tree; [done|done|].
  pose proof (set_columns_keeps _ set_tree_column sets p p' set_tree_column_key Hs) as [= K1 K2 K3 K4].
  split; [by unfold tree_key; simpl; congruence|]. simpl. by rewrite K4.
Qed.
#[local] Hint Resolve preserves_publisher_verticals preserves_update_publisher_row preserves_update_campaign_row
  preserves_update_tree_row : effects.

Lemma preserves_publisher_calls :
  (∀ d user headers payload, preserves I (create_publisher sha256_hex encryption_key d user headers payload)) ∧
  (∀ request_id user headers id payload, preserves I (update_publisher request_id user headers id payload)) ∧
  (∀ request_id user headers id, preserves I (delete_publisher request_id user headers id)) ∧
  (∀ d user headers id, preserves I (regenerate_publisher_api_key sha256_hex encryption_key d user headers id)) ∧
  (∀ d user headers id, preserves I (generate_publisher_hmac_secret_encrypted sha256_hex d user headers id)).
Proof.
  split_and!; intros.
  - unfold create_publisher. preserves_tac.
  - unfold update_publisher. preserves_tac.
  - unfold delete_publisher. preserves_tac. apply preserves_or_status, preserves_execute. intros w. by apply alter_publisher.
  - unfold regenerate_publisher_api_key. preserves_tac.
  - unfold generate_publisher_hmac_secret_encrypted. preserves_tac. apply preserves_or_status, preserves_execute. intros w.
    apply alter_publisher. intros p. by case_bool_decide.
Qed.

Lemma preserves_publisher_reads user id :
  preserves I (list_publishers user) ∧ preserves I (get_publisher id) ∧ preserves I (get_publisher_api_key encryption_key user id).
Proof.
  split_and!.
  - unfold list_publishers, get_instance_id_for_user. preserves_tac.
  - unfold get_publisher. preserves_tac.
  - unfold get_publisher_api_key, is_user_admin. preserves_tac.
Qed.

Lemma preserves_campaign_calls :
  (∀ user, preserves I (list_campaigns user)) ∧
  (∀ token_bytes id membership_id user payload, preserves I (create_campaign token_bytes id membership_id user payload)) ∧
  (∀ user id, preserves I (get_campaign user id)) ∧
  (∀ id payload, preserves I (update_campaign parse_uuid id payload)) ∧
  (∀ id, preserves I (delete_campaign id)).
Proof.
  split_and!; intros.
  - unfold list_campaigns, get_instance_id_for_user. preserves_tac.
  - unfold create_campaign. preserves_tac. apply preserves_or_status, oi_insert_membership. intros _ m.
    unfold is_membership. by rewrite !bool_decide_eq_true_2.
  - unfold get_campaign, get_instance_id_for_user. preserves_tac.
  - unfold update_campaign, campaign_status_update, write_campaign. preserves_tac.
  - unfold delete_campaign. preserves_tac. apply preserves_or_status, preserves_execute. intros w. by apply alter_campaign.
Qed.

Lemma preserves_rows :
  (∀ trees, preserves I (ping_tree_rows trees)) ∧ (∀ rows, preserves I (assignment_rows rows)) ∧
  (∀ rows, preserves I (revenue_share_rows rows)).
Proof.
  split_and!; intros rows; induction rows as [|r rows IH]; try apply preserves_ret;
  cbn [ping_tree_rows assignment_rows revenue_share_rows]; preserves_tac.
Qed.

Lemma preserves_tree_calls :
  (∀ user, preserves I (list_ping_trees user)) ∧
  (∀ id user payload, preserves I (create_ping_tree id user payload)) ∧
  (∀ user id, preserves I (get_ping_tree user id)) ∧
  (∀ id payload, preserves I (update_ping_tree id payload)) ∧
  (∀ id, preserves I (delete_ping_tree id)).
Proof.
  destruct preserves_rows as (? & _ & _). split_and!; intros.
  - unfold list_ping_trees, get_instance_id_for_user. preserves_tac.
  - unfold create_ping_tree. preserves_tac.
  - unfold get_ping_tree, get_instance_id_for_user, PingTreePublisher_find_by_ping_tree. preserves_tac.
  - unfold update_ping_tree. preserves_tac.
  - unfold delete_ping_tree. preserves_tac. apply preserves_or_status, preserves_execute. intros w. by apply alter_tree.
Qed.

Lemma preserves_member_calls :
  (∀ membership_id tree payload, preserves I (add_campaign_to_ping_tree membership_id tree payload)) ∧
  (∀ tree campaign, preserves I (remove_campaign_from_ping_tree tree campaign)) ∧
  (∀ tree, preserves I (list_ping_tree_publishers tree)) ∧
  (∀ id tree payload, preserves I (add_publisher_to_ping_tree id tree payload)) ∧
  (∀ tree publisher payload, preserves I (update_ping_tree_publisher_revshare tree publisher payload)) ∧
  (∀ id, preserves I (get_publisher_revenue_share id)).
Proof.
  destruct preserves_rows as (_ & ? & ?). split_and!; intros.
  - unfold add_campaign_to_ping_tree. preserves_tac. apply preserves_or_status, oi_insert_membership. intros now m.
    unfold is_membership. simpl. by rewrite !bool_decide_eq_true_2.
  - unfold remove_campaign_from_ping_tree. preserves_tac.
    + apply preserves_or_status, preserves_execute. intros w. apply oi_remove_membership.
    + apply preserves_ignore_error, preserves_execute. intros w. apply alter_campaign. intros c. by destruct (campaign_is_live c).
  - unfold list_ping_tree_publishers, PingTreePublisher_find_by_ping_tree. preserves_tac.
  - unfold add_publisher_to_ping_tree. preserves_tac.
  - unfold update_ping_tree_publisher_revshare, PingTreePublisher_find_by_ping_tree_and_publisher. preserves_tac.
  - unfold get_publisher_revenue_share. preserves_tac.
Qed.

(** *** Buyers and rule sets *)

Lemma set_buyer_column_key column v b b' : set_buyer_column column v b = Some b' → buyer_id b' = buyer_id b.
Proof.
  unfold set_buyer_column. intros Hs. destruct v; try done; try (case_match; by simplify_eq/=).
  destruct (set_text _ _ _); by simplify_eq/=.
Qed.
Lemma preserves_update_buyer_row probe live q :
  preserves I (run_update probe live set_buyer_column touch_buyer of_buyers set_of_buyers q).
Proof.
  apply preserves_run_update. intros w id b b' sets Hw Hb Hs. eapply oi_buyer; [done|done|].
  rewrite <-(set_columns_keeps buyer_id set_buyer_column sets b b' set_buyer_column_key Hs). done.
Qed.
Lemma set_of_buyers_id w : set_of_buyers (of_buyers w) w = w.
Proof. by destruct w. Qed.
Lemma alter_buyer f id w : (∀ b, buyer_id (f b) = buyer_id b) → I w → I (set_of_buyers (alter f id (of_buyers w)) w).
Proof.
  intros Hf Hw. rewrite alter_insert. destruct (of_buyers w !! id) as [b|] eqn:E; [|by rewrite set_of_buyers_id].
  by eapply oi_buyer.
Qed.

Lemma preserves_audit_buyer inst action id details affected : preserves I (audit_buyer inst action id details affected).
Proof. unfold audit_buyer. preserves_tac. Qed.
Lemma preserves_audit_update user headers inst action target_type resource target changes before after context :
  preserves I (audit_update user headers inst action target_type resource target changes before after context).
Proof. unfold audit_update. preserves_tac. Qed.
Lemma preserves_select_pulsar buyer new_id vertical : preserves I (select_pulsar buyer new_id vertical).
Proof.
  unfold select_pulsar. preserves_tac; [apply preserves_ignore_error, oi_insert_integration|].
  apply preserves_ignore_error, preserves_execute. intros w. by apply alter_buyer.
Qed.
#[local] Hint Resolve preserves_audit_buyer preserves_audit_update preserves_select_pulsar preserves_update_buyer_row oi_insert_buyer
  oi_insert_integration oi_insert_zip_list : effects.

Lemma preserves_buyer_calls :
  (∀ user, preserves I (list_buyers parse_uuid user)) ∧
  (∀ id new_id user payload, preserves I (create_buyer id new_id user payload)) ∧
  (∀ id, preserves I (get_buyer id)) ∧
  (∀ request_id user headers id payload, preserves I (update_buyer parse_uuid request_id user headers id payload)) ∧
  (∀ id, preserves I (delete_buyer id)) ∧
  preserves I list_verticals ∧
  (∀ vertical, preserves I (list_buyer_integrations parse_uuid vertical)).
Proof.
  split_and!; intros.
  - unfold list_buyers, get_instance_id_for_user. preserves_tac.
  - unfold create_buyer, finish_buyer. preserves_tac.
  - unfold get_buyer. preserves_tac.
  - unfold update_buyer, write_buyer. preserves_tac.
  - unfold delete_buyer. preserves_tac. apply preserves_or_status, preserves_execute. intros w. by apply alter_buyer.
  - unfold list_verticals. preserves_tac.
  - unfold list_buyer_integrations. preserves_tac.
Qed.

Lemma preserves_insert_zips l existing values : preserves I (insert_zips l existing values).
Proof.
  induction values as [|v values IH]; [apply preserves_ret|]. cbn [insert_zips]. apply preserves_bind; [|done].
  destruct (as_str v) as [s|]; [|apply preserves_ret]. cbn zeta. destruct (is_zip (str_trim s)) eqn:Ez; [|apply preserves_ret].
  destruct (negb _); [|apply preserves_ret]. apply preserves_bind; [|intros; apply preserves_ret].
  by apply preserves_try, oi_insert_zip_code.
Qed.
#[local] Hint Resolve preserves_insert_zips : effects.
Lemma preserves_store_zip_list drawn buyer list_type key config : preserves I (store_zip_list drawn buyer list_type key config).
Proof. unfold store_zip_list, find_or_create_zip_list. preserves_tac. Qed.
#[local] Hint Resolve preserves_store_zip_list : effects.
Lemma preserves_extract d buyer config : preserves I (extract_and_store_zip_codes d buyer config).
Proof. unfold extract_and_store_zip_codes. preserves_tac. Qed.
Lemma preserves_instance_of_buyer buyer : preserves I (instance_of_buyer buyer).
Proof. unfold instance_of_buyer. preserves_tac. Qed.
#[local] Hint Resolve preserves_extract preserves_instance_of_buyer : effects.
Lemma preserves_load_zip_codes buyer : preserves I (load_zip_codes_from_tables buyer).
Proof. unfold load_zip_codes_from_tables. preserves_tac. Qed.
#[local] Hint Resolve preserves_load_zip_codes : effects.
Lemma preserves_rule_set_reads buyer id : preserves I (list_buyer_rule_sets buyer) ∧ preserves I (get_buyer_rule_set buyer id).
Proof. unfold list_buyer_rule_sets, get_buyer_rule_set. split; preserves_tac. Qed.

(** An invariant that does not read the rule sets is one of their calls. *)
Lemma blind_rule_sets : (∀ m w, I w → I (set_of_rule_sets m w)) → RuleSetInvariant I.
Proof.
  intros Hblind.
  assert (Hd : ∀ buyer but, preserves I (deactivate buyer but)) by (intros; apply preserves_execute; intros w; apply Hblind).
  assert (Hi : ∀ r, preserves I (insert_rule_set r)).
  { intros r. apply preserves_statement. intros w Hw. case_bool_decide; [done|]. destruct (existsb _ _); [done|]. by apply Hblind. }
  assert (Hu : ∀ probe live set touch q, preserves I (run_update probe live set touch of_rule_sets set_of_rule_sets q)).
  { intros. apply preserves_run_update. intros w id r r' sets Hw _ _. by apply Hblind. }
  assert (Hdel : ∀ buyer id, preserves I (delete_rule_set_row buyer id)).
  { intros. apply preserves_statement. intros w Hw. destruct (rule_set_of buyer id w); [|done]. by apply Hblind. }
  split; intros.
  - unfold create_buyer_rule_set, write_new_rule_set. preserves_tac.
    apply preserves_or_status. destruct (to_numeric _ _); [done|apply preserves_statement, preserves_err].
  - unfold update_buyer_rule_set, update_rule_set_query, rule_set_config_set, rule_set_active_set. preserves_tac.
  - unfold delete_buyer_rule_set. preserves_tac.
Qed.

Lemma preserves_call `{RI : !RuleSetInvariant I} c : preserves I (run_call sha256_hex encryption_key parse_uuid c).
Proof.
  destruct preserves_publisher_calls as (? & ? & ? & ? & ?), preserves_campaign_calls as (? & ? & ? & ? & ?),
    preserves_tree_calls as (? & ? & ? & ? & ?), preserves_member_calls as (? & ? & ? & ? & ? & ?).
  destruct preserves_buyer_calls as (? & ? & ? & ? & ? & ? & ?).
  destruct c; cbn [run_call]; try solve [eauto using oi_create_rule_set, oi_update_rule_set, oi_delete_rule_set with effects].
  - apply (preserves_publisher_reads user 0%N).
  - apply (preserves_publisher_reads None id).
  - apply (preserves_publisher_reads user id).
  - apply (preserves_rule_set_reads buyer 0%N).
  - apply (preserves_rule_set_reads buyer id).
Qed.

Lemma preserves_reaches `{RI : !RuleSetInvariant I} w w' : office_reaches sha256_hex encryption_key parse_uuid w w' → I w → I w'.
Proof.
  induction 1 as [w|w w1 w' [now outcomes w0|c w0] _ IH]; [done| |]; intros Hw; apply IH.
  - by apply oi_env.
  - by apply preserves_call.
Qed.
End preservation.

(** ** Well-formed tables *)

(** A share is a percentage or an amount, in hundredths. *)
Definition shares_wf (revshare_percentage revshare_flat_amount : option Decimal) : Prop :=
  match revshare_percentage, revshare_flat_amount with
  | Some p, None => ∃ n, p = (n # 100)%Q ∧ (0 ≤ n ≤ 10000)%Z
  | None, Some f => ∃ n, f = (n # 100)%Q ∧ (0 ≤ n < 10 ^ 10)%Z
  | _, _ => False
  end.

Definition assignment_wf (w : Office) (a : PingTreePublisher) : Prop :=
  shares_wf (ptp_revshare_percentage a) (ptp_revshare_flat_amount a) ∧
  ∃ t, of_trees w !! ptp_ping_tree_id a = Some t ∧ tree_vertical t = ptp_vertical a.

Definition membership_wf (w : Office) (m : PingTreeCampaign) : Prop :=
  is_Some (of_trees w !! ptc_ping_tree_id m) ∧ is_Some (of_campaigns w !! ptc_campaign_id m).

Definition publisher_slot (a : PingTreePublisher) : Uuid * string := (ptp_publisher_id a, ptp_vertical a).
Definition tree_slot (a : PingTreePublisher) : Uuid * Uuid := (ptp_ping_tree_id a, ptp_publisher_id a).
Definition membership_slot (m : PingTreeCampaign) : Uuid * Uuid := (ptc_ping_tree_id m, ptc_campaign_id m).

Record office_wf (w : Office) : Prop := {
  wf_publishers : office_publishers_wf w;
  wf_campaigns i c : of_campaigns w !! i = Some c → campaign_id c = i;
  wf_trees i t : of_trees w !! i = Some t → tree_id t = i;
  wf_membership_slots : NoDup (membership_slot <$> of_tree_campaigns w);
  wf_memberships : Forall (membership_wf w) (of_tree_campaigns w);
  wf_assignment_ids : NoDup (ptp_id <$> of_tree_publishers w);
  wf_publisher_slots : NoDup (publisher_slot <$> of_tree_publishers w);
  wf_tree_slots : NoDup (tree_slot <$> of_tree_publishers w);
  wf_assignments : Forall (assignment_wf w) (of_tree_publishers w);
  wf_buyers i b : of_buyers w !! i = Some b → buyer_id b = i;
  wf_integration_ids : NoDup (integration_id <$> of_integrations w);
  wf_integration_slugs : NoDup (integration_slug <$> of_integrations w);
  wf_zip_list_ids : NoDup (zip_list_id <$> of_zip_lists w);
  wf_zip_lists : Forall (λ l, is_Some (of_buyers w !! zip_list_buyer_id l)) (of_zip_lists w);
  wf_zip_slots : NoDup (of_zip_codes w);
  wf_zip_codes : Forall (λ c, c.1 ∈ zip_list_id <$> of_zip_lists w ∧ is_zip c.2 = true) (of_zip_codes w)
}.

Lemma NoDup_fmap_filter {A B} (f : A → B) (keep : A → bool) (l : list A) : NoDup (f <$> l) → NoDup (f <$> List.filter keep l).
Proof.
  induction l as [|x l IH]; [done|]. cbn. intros [Hx Hl]%NoDup_cons. destruct (keep x); [|by apply IH]. cbn.
  apply NoDup_cons. split; [|by apply IH]. intros (y & Hy & Hin)%list_elem_of_fmap. apply Hx, list_elem_of_fmap.
  exists y. split; [done|]. by apply list_elem_of_In, filter_In, proj1, list_elem_of_In in Hin.
Qed.

Lemma NoDup_fmap_inj {A B} (f : A → B) (l : list A) x y : NoDup (f <$> l) → x ∈ l → y ∈ l → f x = f y → x = y.
Proof.
  induction l as [|z l IH]; [by intros _ ?%not_elem_of_nil|]. rewrite fmap_cons, NoDup_cons. intros [Hz Hl].
  rewrite !elem_of_cons. intros [->|Hx] [->|Hy] Hf; [done| | |by apply IH].
  - destruct Hz. rewrite Hf. by apply list_elem_of_fmap_2.
  - destruct Hz. rewrite <-Hf. by apply list_elem_of_fmap_2.
Qed.

Lemma NoDup_fmap_snoc {A B} (f : A → B) (l : list A) (x : A) : NoDup (f <$> l) → (∀ y, y ∈ l → f y ≠ f x) → NoDup (f <$> l ++ [x]).
Proof.
  intros Hl Hx. rewrite fmap_app. apply NoDup_app. split; [done|]. split.
  - intros b (y & -> & Hy)%list_elem_of_fmap. cbn. rewrite list_elem_of_singleton. by apply Hx.
  - apply NoDup_singleton.
Qed.

Lemma existsb_false {A} (p : A → bool) (l : list A) : existsb p l = false → ∀ x, x ∈ l → p x = false.
Proof.
  intros Hp x Hx. destruct (p x) eqn:E; [|done]. assert (existsb p l = true); [|congruence].
  apply existsb_exists. exists x. by rewrite <-list_elem_of_In.
Qed.

(** *** Shares *)

Lemma Qle_bool_hundredths n : Qle_bool 0 (n # 100) = true ↔ (0 ≤ n)%Z.
Proof. rewrite Qle_bool_iff. unfold Qle. simpl. lia. Qed.
Lemma Qle_bool_hundred n : Qle_bool (n # 100) 100 = true ↔ (n ≤ 10000)%Z.
Proof. rewrite Qle_bool_iff. unfold Qle. simpl. lia. Qed.

Lemma validate_shares_wf p f :
  validate_revshare p f = Ok tt → (is_Some p ∨ is_Some f) →
  (∀ x, p = Some x → ∃ n, x = (n # 100)%Q) → (∀ x, f = Some x → ∃ n, x = (n # 100)%Q ∧ (Z.abs n < 10 ^ 10)%Z) →
  shares_wf p f.
Proof.
  intros Hv Hsome Hp Hf. destruct p as [p|], f as [f|]; cbn [validate_revshare] in Hv; [done| | |by destruct Hsome as [[]|[]]].
  - destruct (Hp p eq_refl) as [n ->]. exists n. split; [done|].
    destruct (Qle_bool 0 (n # 100)) eqn:E0; [|done]. destruct (Qle_bool (n # 100) 100) eqn:E1; [|done].
    apply Qle_bool_hundredths in E0. apply Qle_bool_hundred in E1. lia.
  - destruct (Hf f eq_refl) as (n & -> & Hn). exists n. split; [done|].
    destruct (Qle_bool 0 (n # 100)) eqn:E0; [|done]. apply Qle_bool_hundredths in E0. lia.
Qed.

Lemma to_numeric_ok precision x y :
  to_numeric precision x = Ok y →
  match x, y with
  | None, None => True
  | Some x, Some y => y = (round_hundredths x # 100)%Q ∧ (Z.abs (round_hundredths x) < 10 ^ precision)%Z
  | _, _ => False
  end.
Proof.
  destruct x as [x|]; cbn [to_numeric]; [|by intros [= <-]]. destruct (Z.ltb_spec (Z.abs (round_hundredths x)) (10 ^ precision)); [|done].
  by intros [= <-].
Qed.

Lemma stored_shares_wf p f p' f' : stored_shares p f = Ok (p', f') → (is_Some p ∨ is_Some f) → shares_wf p' f'.
Proof.
  unfold stored_shares. intros Hs Hsome. destruct (to_numeric 5 p) as [p1|] eqn:Ep; [|done]. cbn in Hs.
  destruct (to_numeric 10 f) as [f1|] eqn:Ef; [|done]. cbn in Hs.
  destruct (validate_revshare p1 f1) as [[]|] eqn:Ev; [|done]. injection Hs as <- <-.
  apply to_numeric_ok in Ep, Ef. apply validate_shares_wf; [done| | |].
  - destruct p, p1, f, f1, Hsome as [[]|[]]; naive_solver.
  - intros x ->. destruct p; [|done]. destruct Ep as [-> _]. eauto.
  - intros x ->. destruct f; [|done]. destruct Ef as [-> ?]. eauto.
Qed.

Lemma apply_defaults_some p f : is_Some (apply_defaults p f).1 ∨ is_Some (apply_defaults p f).2.
Proof. destruct p, f; cbn; eauto. Qed.

(** *** The writes keep the tables well-formed *)

Lemma elem_of_values {R} (m : gmap Uuid R) i r : m !! i = Some r → r ∈ (map_to_list m).*2.
Proof. intros Hi. apply list_elem_of_fmap. exists (i, r). split; [done|]. by apply elem_of_map_to_list. Qed.

(** The tables two states share. *)
Ltac same_tables Hw := destruct Hw; split; done.

Lemma wf_set_outcomes outcomes w : office_wf w → office_wf (set_of_outcomes outcomes w).
Proof. intros Hw. same_tables Hw. Qed.

Lemma wf_insert_publisher p : preserves office_wf (insert_publisher p).
Proof.
  apply preserves_outcome; [apply wf_set_outcomes|]. intros w Hw. case_bool_decide as Hid; [done|].
  destruct (existsb _ _) eqn:He; [done|]. destruct Hw. split; try done. destruct wf_publishers0 as [Hids Hhash]. split; simpl.
  - intros i q. rewrite lookup_insert_Some. naive_solver.
  - assert (Hno : ∀ i q, of_publishers w !! i = Some q → publisher_api_key_hash q ≠ publisher_api_key_hash p).
    { intros i q Hi Hq. eapply existsb_false with (x := q) in He; [|by eapply elem_of_values].
      by apply String.eqb_neq in He. }
    intros i j q r. rewrite !lookup_insert_Some. intros [[<- <-]|[Hi Hq]] [[<- <-]|[Hj Hr]] Heq; [done| | |by eapply Hhash].
    + by destruct (Hno _ _ Hr).
    + by destruct (Hno _ _ Hq).
Qed.

Lemma wf_publisher id p p' w :
  office_wf w → of_publishers w !! id = Some p → publisher_id p' = publisher_id p →
  (∀ j q, j ≠ id → of_publishers w !! j = Some q → publisher_api_key_hash q ≠ publisher_api_key_hash p') →
  office_wf (set_of_publishers (<[id := p']> (of_publishers w)) w).
Proof.
  intros Hw Hp Hid Hno. destruct Hw. split; try done. destruct wf_publishers0 as [Hids Hhash]. split; simpl.
  - intros i q. rewrite lookup_insert_Some. intros [[<- <-]|[_ Hq]]; [rewrite Hid|]; eauto.
  - intros i j q r. rewrite !lookup_insert_Some. intros [[<- <-]|[Hi Hq]] [[<- <-]|[Hj Hr]] Heq; [done| | |by eapply Hhash].
    + by destruct (Hno j r).
    + by destruct (Hno i q).
Qed.

Lemma wf_publisher_key id p p' w :
  office_wf w → of_publishers w !! id = Some p → publisher_key p' = publisher_key p →
  office_wf (set_of_publishers (<[id := p']> (of_publishers w)) w).
Proof.
  intros Hw Hp [= Hid Hh]. eapply wf_publisher; [done|done|done|]. intros j q Hj Hq. rewrite Hh. intros Heq. apply Hj.
  by eapply (proj2 (wf_publishers w Hw)).
Qed.

Lemma wf_save_api_key id hash encrypted : preserves office_wf (save_api_key id hash encrypted).
Proof.
  apply preserves_outcome; [apply wf_set_outcomes|]. intros w Hw. unfold alter_live. rewrite alter_insert.
  destruct (of_publishers w !! id) as [p|] eqn:Ep; [|by case_match; rewrite ?set_of_publishers_id].
  destruct (decide (publisher_deleted_at p = None)) as [Hd|Hd].
  - assert (Hl : live_publisher id w = Some p) by (by apply live_publisher_Some).
    rewrite Hl, (bool_decide_eq_true_2 (is_Some _)), (bool_decide_eq_true_2 (_ = None)) by done. cbn [andb].
    destruct (existsb _ _) eqn:He; [done|]. apply (wf_publisher id p); [done|done|done|]. intros j q Hj Hq. cbn. intros Heq.
    eapply existsb_false with (x := q) in He; [|by eapply elem_of_values]. apply andb_false_iff in He as [He|He].
    + by apply String.eqb_neq in He.
    + rewrite (proj1 (wf_publishers w Hw) _ _ Hq) in He. by rewrite bool_decide_eq_false_2 in He.
  - rewrite (bool_decide_eq_false_2 (_ = None)) by done. case_match; [done|]. by apply (wf_publisher_key id p).
Qed.

Lemma wf_insert_campaign c : preserves office_wf (insert_campaign c).
Proof.
  apply preserves_outcome; [apply wf_set_outcomes|]. intros w Hw. case_bool_decide as Hid; [done|].
  destruct (existsb _ _); [done|]. destruct Hw. split; try done; simpl.
  - intros i d. rewrite lookup_insert_Some. naive_solver.
  - eapply Forall_impl; [done|]. intros m [Ht Hc]. split; [done|]. simpl. by apply lookup_insert_is_Some'; right.
Qed.

Lemma wf_campaign id c c' w :
  office_wf w → of_campaigns w !! id = Some c → campaign_key c' = campaign_key c →
  office_wf (set_of_campaigns (<[id := c']> (of_campaigns w)) w).
Proof.
  intros Hw Hc Hk. destruct Hw. split; try done; simpl.
  - intros i d. rewrite lookup_insert_Some. unfold campaign_key in Hk. intros [[<- <-]|[_ ?]]; [rewrite Hk|]; eauto.
  - eapply Forall_impl; [done|]. intros m [Ht Hm]. split; [done|]. simpl. by apply lookup_insert_is_Some'; right.
Qed.

(** Trees are added, and written to within their keys. *)
Lemma wf_put_tree id t' w :
  office_wf w → tree_id t' = id → (∀ t, of_trees w !! id = Some t → tree_vertical t' = tree_vertical t) →
  office_wf (set_of_trees (<[id := t']> (of_trees w)) w).
Proof.
  intros Hw Hid Hv. destruct Hw. split; try done; simpl.
  - intros i t. rewrite lookup_insert_Some. intros [[<- <-]|[_ ?]]; eauto.
  - eapply Forall_impl; [done|]. intros m [Ht Hm]. split; [|done]. simpl. by apply lookup_insert_is_Some'; right.
  - eapply Forall_impl; [done|]. intros a (Hs & t & Ht & Hta). split; [done|]. simpl. unfold assignment_wf.
    destruct (decide (ptp_ping_tree_id a = id)) as [E|E].
    + exists t'. rewrite E, lookup_insert_eq in *. split; [done|]. by rewrite (Hv t).
    + exists t. by rewrite lookup_insert_ne.
Qed.

Lemma wf_insert_tree t : preserves office_wf (insert_ping_tree t).
Proof.
  apply preserves_outcome; [apply wf_set_outcomes|]. intros w Hw. destruct (negb _); [done|].
  case_bool_decide as Hid; [done|]. destruct (existsb _ _); [done|]. apply wf_put_tree; [done|done|].
  intros s Hs. by destruct Hid.
Qed.

Lemma wf_tree id t t' w :
  office_wf w → of_trees w !! id = Some t → tree_evolves t t' → office_wf (set_of_trees (<[id := t']> (of_trees w)) w).
Proof.
  intros Hw Ht [[= Hid _ Hv] _]. apply wf_put_tree; [done|by rewrite Hid; eapply wf_trees|]. intros s Hs. by simplify_eq.
Qed.

Lemma wf_insert_membership id tree campaign priority conflict :
  (∀ now m, is_membership (ptc_ping_tree_id m) (ptc_campaign_id m) (conflict now m) = true) →
  preserves office_wf (insert_membership id tree campaign priority conflict).
Proof.
  intros Hk. apply preserves_outcome; [apply wf_set_outcomes|]. intros w Hw. destruct (existsb _ _) eqn:He.
  - set (g := λ m, if is_membership tree campaign m then conflict (of_now w) m else m).
    assert (Hg : ∀ m, membership_slot (g m) = membership_slot m).
    { intros m. unfold g. destruct (is_membership tree campaign m); [|done]. specialize (Hk (of_now w) m).
      apply andb_true_iff in Hk as [H1%bool_decide_eq_true H2%bool_decide_eq_true]. unfold membership_slot. congruence. }
    destruct Hw. split; try done; simpl.
    + rewrite <-list_fmap_compose. by erewrite list_fmap_ext; [|intros i m _; apply Hg].
    + apply Forall_fmap. eapply Forall_impl; [done|]. intros m Hm. unfold membership_wf. simpl.
      specialize (Hg m). unfold membership_slot in Hg. injection Hg as -> ->. done.
  - destruct (bool_decide _ && bool_decide _) eqn:Hfk; [|done].
    apply andb_true_iff in Hfk as [Ht%bool_decide_eq_true Hc%bool_decide_eq_true].
    destruct Hw. split; try done; simpl.
    + apply NoDup_fmap_snoc; [done|]. intros m Hm [= E1 E2]. eapply existsb_false in He; [|done].
      unfold is_membership in He. by rewrite E1, E2, !bool_decide_eq_true_2 in He.
    + apply Forall_app. by split; [|constructor].
Qed.

Lemma wf_remove_membership tree campaign w :
  office_wf w →
  office_wf (set_of_tree_campaigns (List.filter (λ m, negb (is_membership tree campaign m)) (of_tree_campaigns w)) w).
Proof.
  intros Hw. destruct Hw. split; try done; simpl; [by apply NoDup_fmap_filter|by apply Forall_filter_bool].
Qed.

Lemma wf_filter_assignments keep w :
  office_wf w → office_wf (set_of_tree_publishers (List.filter keep (of_tree_publishers w)) w).
Proof.
  intros Hw. destruct Hw. split; try done; simpl; try by apply NoDup_fmap_filter. by apply Forall_filter_bool.
Qed.

(** Of an assignment to a tree of its vertical. *)
Lemma wf_insert_assignment id tree t publisher p f :
  is_Some p ∨ is_Some f →
  preserves (λ w, office_wf w ∧ of_trees w !! tree = Some t) (insert_assignment id tree publisher (tree_vertical t) p f).
Proof.
  intros Hsome. apply preserves_outcome; [intros outcomes w []; split; [by apply wf_set_outcomes|done]|]. intros w [Hw Ht].
  destruct (stored_shares p f) as [[p' f']|e] eqn:Es; [|done]. destruct (negb _); [done|].
  destruct (existsb _ _) eqn:He; [done|]. pose proof (existsb_false _ _ He) as Hno. clear He. split; [|done].
  destruct Hw. split; try done; simpl; [apply NoDup_fmap_snoc; [done|]..|apply Forall_app; split; [done|constructor; [|done]]].
  - intros a Ha Heq. specialize (Hno a Ha). simpl in *. by rewrite (bool_decide_eq_true_2 _ Heq) in Hno.
  - intros a Ha [= E1 E2]. specialize (Hno a Ha). simpl in *.
    by rewrite E1, E2, String.eqb_refl, (bool_decide_eq_true_2 (publisher = publisher)), orb_true_r in Hno.
  - intros a Ha [= E1 E2]. specialize (Hno a Ha). simpl in *.
    by rewrite E1, E2, (bool_decide_eq_true_2 (publisher = publisher)), (bool_decide_eq_true_2 (tree = tree)), orb_true_r in Hno.
  - split; [by eapply stored_shares_wf|]. by exists t.
Qed.

Lemma fetch_cases {A} (f : Office → A) w :
  ∃ outcomes, fetch f w = (Ok (f (set_of_outcomes outcomes w)), set_of_outcomes outcomes w) ∨ ∃ e, fetch f w = (Err e, set_of_outcomes outcomes w).
Proof.
  unfold fetch, statement. destruct (of_outcomes w) as [|[e|] rest] eqn:E.
  - exists []. left. unfold eff_gets. by destruct w; cbn in *; subst.
  - exists rest. right. by exists e.
  - exists rest. by left.
Qed.

Lemma live_tree_Some id w t : live_tree id w = Some t ↔ of_trees w !! id = Some t ∧ tree_deleted_at t = None.
Proof.
  unfold live_tree. destruct (of_trees w !! id) as [s|]; simpl; [|naive_solver]. case_bool_decide; naive_solver.
Qed.

Lemma wf_create_assignment id tree publisher vertical p f :
  preserves office_wf (PingTreePublisher_create id tree publisher vertical p f).
Proof.
  intros w Hw. unfold PingTreePublisher_create. pose proof (apply_defaults_some p f) as Hsome.
  destruct (apply_defaults p f) as [p' f']. rewrite eff_lift_bind. destruct (map_err _ _); [|done].
  rewrite eff_bind_eq.
  destruct (fetch_cases (λ w, tree_vertical <$> live_tree tree w) w) as (outcomes & [->|(e0 & ->)]); [|by apply wf_set_outcomes].
  rewrite eff_lift_bind. change (live_tree tree (set_of_outcomes outcomes w)) with (live_tree tree w).
  destruct (live_tree tree w) as [s|] eqn:Et; cbn [fmap option_fmap option_map ok_or]; [|by apply wf_set_outcomes].
  destruct (String.eqb_spec vertical (tree_vertical s)) as [->|]; cbn [negb]; [|by apply wf_set_outcomes].
  apply wf_insert_assignment; [done|]. apply live_tree_Some in Et as [Et _]. split; [by apply wf_set_outcomes|done].
Qed.

Lemma wf_update_shares id p f : preserves office_wf (PingTreePublisher_update_revshare id p f).
Proof.
  unfold PingTreePublisher_update_revshare. pose proof (apply_defaults_some p f) as Hsome.
  destruct (apply_defaults p f) as [p' f']. apply preserves_bind; [apply preserves_lift|]. intros _.
  apply preserves_outcome; [apply wf_set_outcomes|]. intros w Hw. destruct (List.find _ _) as [a|]; [|done].
  destruct (stored_shares p' f') as [shares|] eqn:Es; [|done].
  set (g := λ a, if bool_decide (ptp_id a = id) then with_shares shares (of_now w) a else a).
  assert (Hg : ∀ {K} (key : PingTreePublisher → K), (∀ a, key (with_shares shares (of_now w) a) = key a) →
    key <$> (g <$> of_tree_publishers w) = key <$> of_tree_publishers w).
  { intros K key Hk. rewrite <-list_fmap_compose. apply list_fmap_ext. intros i b _. unfold g. simpl.
    case_bool_decide; [apply Hk|done]. }
  destruct Hw. split; try done; simpl; [by rewrite Hg..|]. apply Forall_fmap. eapply Forall_impl; [done|].
  intros b [Hs Ht]. unfold g. simpl. case_bool_decide; [|done].
  split; [|done]. simpl. clear g Hg. destruct shares as [p1 f1]. by eapply stored_shares_wf.
Qed.

Lemma wf_remove_assignment `{Platform} tree publisher : preserves office_wf (remove_publisher_from_ping_tree tree publisher).
Proof.
  unfold remove_publisher_from_ping_tree. apply preserves_bind; [|intros t; apply preserves_bind; [apply preserves_lift|intros _]].
  - apply preserves_or_status, preserves_outcome; [apply wf_set_outcomes|apply preserves_gets].
  - apply preserves_bind; [|intros _; apply preserves_ret]. apply preserves_or_status, preserves_outcome; [apply wf_set_outcomes|].
    apply preserves_modify. intros w. apply wf_filter_assignments.
Qed.

Lemma wf_put_buyer id b w :
  office_wf w → buyer_id b = id → office_wf (set_of_buyers (<[id := b]> (of_buyers w)) w).
Proof.
  intros Hw Hid. destruct Hw. split; try done; simpl.
  - intros i c. rewrite lookup_insert_Some. intros [[<- <-]|[_ ?]]; eauto.
  - eapply Forall_impl; [done|]. intros l Hl. simpl. by apply lookup_insert_is_Some'; right.
Qed.

Lemma wf_insert_buyer b : preserves office_wf (insert_buyer b).
Proof.
  apply preserves_outcome; [apply wf_set_outcomes|]. intros w Hw. case_bool_decide; [done|]. by apply wf_put_buyer.
Qed.

Lemma wf_insert_integration i : preserves office_wf (insert_integration i).
Proof.
  apply preserves_outcome; [apply wf_set_outcomes|]. intros w Hw. destruct (existsb _ _) eqn:Ei; [done|].
  destruct (existsb (λ j, String.eqb _ _) _) eqn:Es; [done|]. destruct Hw. split; try done; simpl; apply NoDup_fmap_snoc; try done;
  intros j Hj Heq.
  - eapply existsb_false in Ei; [|done]. simpl in Ei. by rewrite bool_decide_eq_true_2 in Ei.
  - eapply existsb_false in Es; [|done]. simpl in Es. by rewrite Heq, String.eqb_refl in Es.
Qed.

Lemma wf_insert_zip_list l : preserves office_wf (insert_zip_list l).
Proof.
  apply preserves_outcome; [apply wf_set_outcomes|]. intros w Hw. destruct (bool_decide (is_Some _)) eqn:Eb; [|done].
  apply bool_decide_eq_true in Eb. cbn [negb]. destruct (existsb _ _) eqn:El; [done|]. destruct Hw. split; try done; simpl.
  - apply NoDup_fmap_snoc; [done|]. intros k Hk Heq. eapply existsb_false in El; [|done]. simpl in El.
    by rewrite bool_decide_eq_true_2 in El.
  - apply Forall_app. split; [done|]. by constructor.
  - eapply Forall_impl; [done|]. intros c [Hc Hz]. split; [|done]. rewrite fmap_app. apply elem_of_app. by left.
Qed.

Lemma wf_insert_zip_code l zip : is_zip zip = true → preserves office_wf (insert_zip_code l zip).
Proof.
  intros Hz. apply preserves_outcome; [apply wf_set_outcomes|]. intros w Hw. case_bool_decide as Hin; [done|].
  destruct (existsb _ _) eqn:El; [|done]. destruct Hw. split; try done; simpl.
  - apply NoDup_app. split; [done|]. split; [|apply NoDup_singleton]. intros c Hc ->%list_elem_of_singleton. by apply Hin.
  - apply Forall_app. split; [done|]. constructor; [|done]. split; [|done]. apply existsb_exists in El as (k & Hk & E).
    apply bool_decide_eq_true in E. apply list_elem_of_fmap. exists k. split; [done|]. by apply list_elem_of_In.
Qed.

#[export] Instance office_wf_invariant `{DecimalText} : OfficeInvariant office_wf.
Proof.
  split.
  - intros now outcomes w Hw. same_tables Hw.
  - intros audit w Hw. same_tables Hw.
  - intros pv w Hw. same_tables Hw.
  - apply wf_insert_publisher.
  - apply wf_save_api_key.
  - apply wf_publisher_key.
  - apply wf_insert_campaign.
  - apply wf_campaign.
  - apply wf_insert_tree.
  - apply wf_tree.
  - apply wf_insert_membership.
  - apply wf_remove_membership.
  - apply wf_create_assignment.
  - apply wf_update_shares.
  - intros. apply wf_remove_assignment.
  - apply wf_insert_buyer.
  - intros id b b' w Hw Hb Hid. apply wf_put_buyer; [done|]. rewrite Hid. by apply (wf_buyers w Hw).
  - apply wf_insert_integration.
  - apply wf_insert_zip_list.
  - apply wf_insert_zip_code.
Qed.
#[export] Instance office_wf_rule_sets `{Platform} `{DecimalText} `{DecimalCast} : RuleSetInvariant office_wf.
Proof. apply blind_rule_sets; [apply office_wf_invariant|]. intros m w Hw. same_tables Hw. Qed.

(** What the writes of assignments do to the tables. *)
Lemma create_assignment_grows id tree publisher vertical p f w :
  let w' := (PingTreePublisher_create id tree publisher vertical p f w).2 in
  of_trees w' = of_trees w ∧ ∃ l, of_tree_publishers w' = of_tree_publishers w ++ l.
Proof.
  assert (Hnone : ∃ l, of_tree_publishers w = of_tree_publishers w ++ l) by (exists []; by rewrite app_nil_r).
  unfold PingTreePublisher_create. destruct (apply_defaults p f) as [p' f']. cbn zeta. rewrite eff_lift_bind.
  destruct (map_err _ _); [|done]. rewrite eff_bind_eq.
  destruct (fetch_cases (λ w, tree_vertical <$> live_tree tree w) w) as (outcomes & [->|(e0 & ->)]); [|done].
  rewrite eff_lift_bind. destruct (ok_or _ _); [|done]. destruct (negb _); [done|].
  unfold insert_assignment, statement. cbn [of_outcomes set_of_outcomes].
  destruct outcomes as [|[e|] rest]; [|done|]; (destruct (stored_shares p' f') as [[p1 f1]|]; [|done]);
    (destruct (negb _); [done|]); (destruct (existsb _ _); [done|]); split; eauto.
Qed.

Lemma update_shares_slots id p f w :
  let w' := (PingTreePublisher_update_revshare id p f w).2 in
  of_trees w' = of_trees w ∧ tree_slot <$> of_tree_publishers w' = tree_slot <$> of_tree_publishers w.
Proof.
  unfold PingTreePublisher_update_revshare. destruct (apply_defaults p f) as [p' f']. cbn zeta. rewrite eff_lift_bind.
  destruct (map_err _ _); [|done]. unfold statement. destruct (of_outcomes w) as [|[e|] rest]; [|done|];
    (destruct (List.find _ _); [|done]); (destruct (stored_shares p' f'); [|done]); (split; [done|]); simpl;
    rewrite <-list_fmap_compose; apply list_fmap_ext; intros i b _; simpl; by case_bool_decide.
Qed.

(** ** A publisher of a deleted tree *)

(** The tree is deleted and still has the publisher. *)
Record stranded (tree publisher : Uuid) (vertical : string) (w : Office) : Prop := {
  stranded_wf : office_wf w;
  stranded_tree : ∃ t, of_trees w !! tree = Some t ∧ tree_deleted_at t ≠ None ∧ tree_vertical t = vertical;
  stranded_assignment : (tree, publisher) ∈ tree_slot <$> of_tree_publishers w
}.

Section stranded.
Context `{DecimalText} (tree publisher : Uuid) (vertical : string).
#[local] Abbreviation stuck := (stranded tree publisher vertical).

(** What leaves the trees and the assignments alone leaves a publisher stranded. *)
Lemma stranded_same w w' :
  office_wf w' → of_trees w' = of_trees w → of_tree_publishers w' = of_tree_publishers w → stuck w → stuck w'.
Proof. intros Hw Ht Ha [_ Htree Hass]. split; [done|by rewrite Ht|by rewrite Ha]. Qed.

Lemma preserves_stranded {A} (m : sql A) :
  preserves office_wf m → (∀ w, of_trees (m w).2 = of_trees w ∧ of_tree_publishers (m w).2 = of_tree_publishers w) → preserves stuck m.
Proof. intros Hm Hs w Hw. destruct (Hs w). by apply (stranded_same w); [apply Hm; destruct Hw| | |]. Qed.

Lemma statement_same {A} (m : sql A) :
  (∀ w, of_trees (m w).2 = of_trees w ∧ of_tree_publishers (m w).2 = of_tree_publishers w) →
  ∀ w, of_trees (statement m w).2 = of_trees w ∧ of_tree_publishers (statement m w).2 = of_tree_publishers w.
Proof.
  intros Hm w. unfold statement. destruct (of_outcomes w) as [|[e|] rest]; [apply Hm|done|apply (Hm (set_of_outcomes rest w))].
Qed.

Lemma stranded_outcomes outcomes w : stuck w → stuck (set_of_outcomes outcomes w).
Proof. intros Hw. apply (stranded_same w); [by apply wf_set_outcomes; destruct Hw|done..]. Qed.

Lemma stranded_assignments l w :
  office_wf (set_of_tree_publishers l w) → (tree, publisher) ∈ tree_slot <$> l → stuck w → stuck (set_of_tree_publishers l w).
Proof. intros Hw Hl [_ Ht _]. by split. Qed.

Lemma stranded_remove other p : preserves stuck (PingTreePublisher_delete other p) ∨ other = tree.
Proof.
  destruct (decide (other = tree)) as [->|Hne]; [by right|left]. apply preserves_outcome; [apply stranded_outcomes|].
  apply preserves_modify. intros w Hw. apply stranded_assignments; [by apply wf_filter_assignments; destruct Hw| |done].
  destruct Hw as [_ _ Ha]. apply list_elem_of_fmap in Ha as (a & Ha & Hin). apply list_elem_of_fmap. exists a. split; [done|].
  apply list_elem_of_In, filter_In. split; [by apply list_elem_of_In|]. unfold is_assignment, tree_slot in *. injection Ha as <- _.
  by rewrite bool_decide_eq_false_2.
Qed.

Lemma stranded_not_live w outcomes : stuck w → live_tree tree (set_of_outcomes outcomes w) = None.
Proof.
  intros [_ (t & Ht & Hd & _) _]. destruct (live_tree tree _) as [s|] eqn:E; [|done]. apply live_tree_Some in E as [E Es].
  simpl in E. naive_solver.
Qed.

#[export] Instance stranded_invariant : OfficeInvariant stuck.
Proof.
  split.
  - intros now outcomes w Hw. apply (stranded_same w); [by apply oi_env; destruct Hw|done..].
  - intros audit w Hw. apply (stranded_same w); [by apply oi_audit; destruct Hw|done..].
  - intros pv w Hw. apply (stranded_same w); [by apply oi_verticals; destruct Hw|done..].
  - intros p. apply preserves_stranded; [apply wf_insert_publisher|]. apply statement_same. intros w. by repeat case_match.
  - intros id hash encrypted. apply preserves_stranded; [apply wf_save_api_key|]. apply statement_same. intros w.
    by repeat case_match.
  - intros id p p' w Hw Hp Hk. apply (stranded_same w); [by eapply oi_publisher; [destruct Hw|..]|done..].
  - intros c. apply preserves_stranded; [apply wf_insert_campaign|]. apply statement_same. intros w. by repeat case_match.
  - intros id c c' w Hw Hc Hk. apply (stranded_same w); [by eapply oi_campaign; [destruct Hw|..]|done..].
  - intros t. apply preserves_outcome; [apply stranded_outcomes|]. intros w Hw. destruct (negb _); [done|].
    case_bool_decide as Hid; [done|]. destruct (existsb _ _); [done|]. destruct Hw as [Hw (s & Hs & Hd & Hv) Ha].
    split; [|exists s; split; [|done]|done].
    + apply wf_put_tree; [done|done|]. intros r Hr. by destruct Hid.
    + simpl. rewrite lookup_insert_ne; [done|]. intros E. apply Hid. by rewrite E, Hs.
  - intros id t t' w [Hw (s & Hs & Hd & Hv) Ha] Ht Hev. split; [by eapply wf_tree| |done]. simpl.
    destruct Hev as [[= Hk1 _ Hk3] Hdel]. destruct (decide (id = tree)) as [->|].
    + exists t'. rewrite lookup_insert_eq. simplify_eq. split; [done|]. split; [by apply Hdel|done].
    + exists s. by rewrite lookup_insert_ne.
  - intros id t c priority conflict Hk. apply preserves_stranded; [by apply wf_insert_membership|]. apply statement_same. intros w.
    by repeat case_match.
  - intros t c w Hw. apply (stranded_same w); [by apply wf_remove_membership; destruct Hw|done..].
  - intros id t p v pct flat w Hw.
    assert (Hwf : office_wf (PingTreePublisher_create id t p v pct flat w).2) by (apply wf_create_assignment; by destruct Hw).
    revert w Hw Hwf. intros w Hw Hwf. destruct Hw as [Hw Ht Ha].
    destruct (create_assignment_grows id t p v pct flat w) as (Htr & l & Hl). split; [done|by rewrite Htr|].
    rewrite Hl, fmap_app. apply elem_of_app. by left.
  - intros id pct flat w Hw.
    assert (Hwf : office_wf (PingTreePublisher_update_revshare id pct flat w).2) by (apply wf_update_shares; by destruct Hw).
    destruct Hw as [Hw Ht Ha]. destruct (update_shares_slots id pct flat w) as [Htr Hl]. split; [done|by rewrite Htr|by rewrite Hl].
  - intros ? other p. unfold remove_publisher_from_ping_tree. intros w Hw. rewrite eff_bind_eq. unfold or_status at 1.
    destruct (fetch_cases (live_tree other) w) as (outcomes & [->|(e & ->)]); [|by apply stranded_outcomes].
    destruct (stranded_remove other p) as [Hr| ->]; [|by rewrite stranded_not_live; [apply stranded_outcomes|]].
    rewrite eff_lift_bind. destruct (ok_or _ _); [|by apply stranded_outcomes].
    assert (Hp : preserves stuck (or_status 500 (PingTreePublisher_delete other p))) by (by apply preserves_or_status).
    apply (preserves_bind stuck _ _ Hp); [intros _; apply preserves_ret|]. by apply stranded_outcomes.
  - intros b. apply preserves_stranded; [apply wf_insert_buyer|]. apply statement_same. intros w. by repeat case_match.
  - intros id b b' w Hw Hb Hid. apply (stranded_same w); [by eapply oi_buyer; [destruct Hw|..]|done..].
  - intros i. apply preserves_stranded; [apply wf_insert_integration|]. apply statement_same. intros w. by repeat case_match.
  - intros l. apply preserves_stranded; [apply wf_insert_zip_list|]. apply statement_same. intros w. by repeat case_match.
  - intros l zip Hz. apply preserves_stranded; [by apply wf_insert_zip_code|]. apply statement_same. intros w. by repeat case_match.
Qed.
#[export] Instance stranded_rule_sets `{Platform} `{DecimalCast} : RuleSetInvariant stuck.
Proof.
  apply blind_rule_sets; [apply stranded_invariant|]. intros m w Hw. apply (stranded_same w); [by destruct Hw as [Hw _ _]; same_tables Hw|done..].
Qed.
End stranded.

(** ** Property *)

Section runs.
Context `{P : Platform} `{C : Crypto} `{D : DecimalText} `{N : DecimalCast} (sha256_hex : string → string) (encryption_key : string)
  (parse_uuid : string → option Uuid).

(** C14: a well-formed database stays well-formed under any sequence of calls of the back
    office, whatever their statements' outcomes: keys are those of the rows, hashes of API
    keys, slots of publishers and of campaigns are unique, assignments and memberships are
    of trees and campaigns that exist, the vertical of an assignment is that of its tree,
    every revenue share is either a percentage of at most 100 or an amount that is not
    negative, in hundredths, slugs of integrations are unique, lists of ZIP codes are of
    buyers that exist, and each holds codes of five digits, once. *)
Theorem office_calls_keep_wf w w' : office_reaches sha256_hex encryption_key parse_uuid w w' → office_wf w → office_wf w'.
Proof. apply preserves_reaches; [apply office_wf_invariant|apply office_wf_rule_sets]. Qed.
End runs.

(** ** Witness *)

#[local] Existing Instance plain_platform.
#[local] Existing Instance plain_crypto.

(** Whole numbers of at most 28 digits. *)
Fixpoint digits_of (s : string) (acc : Z) : option Z :=
  match s with
  | EmptyString => Some acc
  | String a s' => match digit_value a with Some d => digits_of s' (10 * acc + d)%Z | None => None end
  end.
Definition whole_decimal : DecimalText := {|
  decimal_from_str s := if (String.length s <=? 28)%nat then inject_Z <$> digits_of s 0 else None;
  decimal_to_string q := pretty (Qnum q / Zpos (Qden q))%Z |}.
#[local] Existing Instance whole_decimal.
(** Numbers are rounded to hundredths. *)
Definition hundredths_cast : DecimalCast := {|
  numeric_of_f64 x := match f64_round (f64_mul x (f64_of_Z 100)) with
                      | S754_finite neg m e =>
                          let z := (if (0 <=? e)%Z then Z.pos m * 2 ^ e else Z.pos m / 2 ^ (- e))%Z in
                          ((if neg then - z else z) # 100)%Q
                      | _ => (0 # 100)%Q
                      end |}.
#[local] Existing Instance hundredths_cast.

Definition office_tree (id : Uuid) (name : string) : PingTree := {|
  tree_id := id; tree_instance_id := 0%N; tree_name := name; tree_vertical := "home"; tree_strategy := "ping_post";
  tree_status := "active"; tree_priority := Some 5%Z; tree_deleted_at := None; tree_created_at := 0; tree_updated_at := 0 |}.

Definition office_campaign (id : Uuid) : Campaign := {|
  campaign_id := id; campaign_buyer_id := 70%N; campaign_publisher_id := 1%N; campaign_instance_id := 0%N;
  campaign_name := Some "First"; campaign_vertical := "home"; campaign_campaign_token := "token"; campaign_status := CampaignPaused;
  campaign_is_documentation_test := false; campaign_deleted_at := None; campaign_created_at := 0; campaign_updated_at := 0 |}.

(** Two trees of a vertical; [assigned]: the publisher is in the first. *)
Definition tree_office (assigned : bool) : Office := {|
  of_instances := of_instances sample_office; of_publishers := {[1%N := sample_api_publisher]}; of_verticals := [];
  of_publisher_verticals := []; of_trees := <[50%N := office_tree 50 "One"]> {[51%N := office_tree 51 "Two"]};
  of_tree_publishers := if assigned then [new_assignment 80%N 50%N 1%N "home" (Some (8000 # 100)%Q, None) 0] else [];
  of_tree_campaigns := [new_membership 90%N 50%N 60%N (Some 1%Z) 0]; of_campaigns := {[60%N := office_campaign 60]};
  of_buyers := ∅; of_integrations := []; of_rule_sets := ∅; of_zip_lists := []; of_zip_codes := []; of_audit := [];
  of_now := 1000; of_outcomes := [] |}.

Lemma tree_office_wf assigned : office_wf (tree_office assigned).
Proof.
  assert (Ht : ∀ i t, of_trees (tree_office assigned) !! i = Some t → tree_id t = i).
  { intros i t. simpl. rewrite lookup_insert_Some, lookup_singleton_Some. by intros [[<- <-]|[_ [<- <-]]]. }
  split.
  - apply sample_office_wf.
  - intros i c. simpl. by intros [<- <-]%lookup_singleton_Some.
  - exact Ht.
  - apply NoDup_singleton.
  - constructor; [|done]. split; [by exists (office_tree 50 "One")|by exists (office_campaign 60)].
  - destruct assigned; [apply NoDup_singleton|apply NoDup_nil_2].
  - destruct assigned; [apply NoDup_singleton|apply NoDup_nil_2].
  - destruct assigned; [apply NoDup_singleton|apply NoDup_nil_2].
  - destruct assigned; [|done]. constructor; [|done]. split; [exists 8000%Z; split; [done|lia]|]. by exists (office_tree 50 "One").
  - done.
  - apply NoDup_nil_2.
  - apply NoDup_nil_2.
  - apply NoDup_nil_2.
  - done.
  - apply NoDup_nil_2.
  - done.
Qed.

Lemma office_calls_keep_wf_witness :
  let r := run_call office_hash office_key (λ _, None) (AddPublisher 81%N 50%N
    {| ap_publisher_id := 1%N; ap_revshare_percentage := Some (f64_of_Z 20); ap_revshare_flat_amount := None |}) (tree_office false) in
  r.1 = Ok (success [
    ("assignment", json_object [
       ("id", JString (uuid_to_string 81%N)); ("publisher_id", JString (uuid_to_string 1%N));
       ("revshare_percentage", JNumber (Float (f64_of_Z 20))); ("revshare_flat_amount", JNull)]);
    ("message", JString "Publisher added to ping tree successfully")]) ∧ office_wf r.2.
Proof.
  split; [vm_compute; reflexivity|].
  apply (office_calls_keep_wf office_hash office_key (λ _, None) (tree_office false)); [|apply tree_office_wf].
  apply rtc_once. constructor.
Defined.
