(* ===== verification/RuleSetClaims.v ===== *)
(** * Properties of rule sets

    What any run of the back office keeps of the rule sets and the ZIP codes of buyers,
    and what a creation does and reads back. *)

From stdpp Require Import base list strings gmap relations.
From Stdlib Require Import Ascii String ZArith QArith Lia.
From S2P Require Import Prelude Float64 Platform Json Models Metrics Samples Store WriteBehind.
From S2P Require Import Encryption Accounts Cache ApiAuth Office Campaigns PingTreeAdmin Buyers RuleSets OfficeRuns.

Open Scope string_scope.
Open Scope list_scope.

(** ** Assertions before and after a call *)

(** From [P]: on success [Q], on an error [I]. *)
Definition hoare {A} (I P : Office → Prop) (m : handler A) (Q : A → Office → Prop) : Prop :=
  ∀ w, P w → match m w with (Ok a, w') => Q a w' | (Err _, w') => I w' end.

Section hoare.
Context (I : Office → Prop).

Lemma hoare_bind {A B} P Q R (m : handler A) (k : A → handler B) :
  hoare I P m Q → (∀ a, hoare I (Q a) (k a) R) → hoare I P (m ≫= k) R.
Proof.
  intros Hm Hk w Hw. specialize (Hm w Hw). rewrite eff_bind_eq. destruct (m w) as [[a|e] w']; [by apply Hk|done].
Qed.
Lemma hoare_keep {A} P (m : handler A) : (∀ w, P w → I w) → preserves P m → hoare I P m (λ _, P).
Proof. intros HP Hm w Hw. specialize (Hm w Hw). destruct (m w) as [[a|e] w']; [done|by apply HP]. Qed.
Lemma hoare_done {A} (m : handler A) : preserves I m → hoare I I m (λ _, I).
Proof. intros Hm w Hw. specialize (Hm w Hw). by destruct (m w) as [[]]. Qed.
Lemma hoare_weaken {A} (P P' : Office → Prop) (m : handler A) Q : (∀ w, P' w → P w) → hoare I P m Q → hoare I P' m Q.
Proof. intros HP Hm w Hw. by apply Hm, HP. Qed.
Lemma hoare_preserves {A} (m : handler A) : hoare I I m (λ _, I) → preserves I m.
Proof. intros Hm w Hw. specialize (Hm w Hw). by destruct (m w) as [[]]. Qed.
(** Of a statement that leaves the rest of the outcomes. *)
Lemma hoare_statement {A} status P (m : sql A) Q :
  (∀ outcomes w, I w → I (set_of_outcomes outcomes w)) → (∀ outcomes w, P w → P (set_of_outcomes outcomes w)) →
  (∀ w, P w → I w) → (∀ w, P w → match m w with (Ok a, w') => Q a w' | (Err _, w') => I w' end) →
  hoare I P (or_status status (statement m)) Q.
Proof.
  intros HI HP HPI Hm w Hw. unfold or_status, statement. destruct (of_outcomes w) as [|[e|] rest].
  - specialize (Hm w Hw). by destruct (m w) as [[]].
  - by apply HI, HPI.
  - specialize (Hm _ (HP rest w Hw)). by destruct (m _) as [[]].
Qed.
End hoare.

(** ** The rows of rule sets *)

Definition rule_set_is_on (r : RuleSet) : Prop := rule_set_is_active r = true.

(** Rows are at their ids, and a buyer has at most one active rule set. *)
Definition rule_sets_wf (rows : gmap Uuid RuleSet) : Prop :=
  (∀ i r, rows !! i = Some r → rule_set_id r = i) ∧
  (∀ i j r s, rows !! i = Some r → rows !! j = Some s → rule_set_buyer_id r = rule_set_buyer_id s →
     rule_set_is_on r → rule_set_is_on s → i = j).

(** No rule set of the buyer is active but one. *)
Definition none_active (buyer : Uuid) (but : option Uuid) (rows : gmap Uuid RuleSet) : Prop :=
  ∀ i r, rows !! i = Some r → rule_set_buyer_id r = buyer → rule_set_is_on r → but = Some i.

Lemma belongs_eq buyer r : belongs (Some buyer) r = true ↔ rule_set_buyer_id r = buyer.
Proof. apply bool_decide_eq_true. Qed.

Lemma rule_set_of_Some buyer id w r :
  rule_set_of buyer id w = Some r ↔ of_rule_sets w !! id = Some r ∧ rule_set_buyer_id r = buyer.
Proof.
  unfold rule_set_of. destruct (of_rule_sets w !! id) as [s|]; simpl; [|naive_solver]. case_bool_decide; naive_solver.
Qed.

Definition deactivated (buyer : Uuid) (but : option Uuid) (r : RuleSet) : RuleSet :=
  if belongs (Some buyer) r && negb (bool_decide (but = Some (rule_set_id r))) then rule_set_with_active false r else r.

Lemma deactivated_key buyer but r :
  rule_set_id (deactivated buyer but r) = rule_set_id r ∧ rule_set_buyer_id (deactivated buyer but r) = rule_set_buyer_id r.
Proof. unfold deactivated. by destruct (_ && _). Qed.

Lemma deactivated_on buyer but r :
  rule_set_is_on (deactivated buyer but r) →
  rule_set_is_on r ∧ (rule_set_buyer_id r = buyer → but = Some (rule_set_id r)).
Proof.
  unfold deactivated. destruct (belongs (Some buyer) r) eqn:Eb; cbn [andb].
  - case_bool_decide; [done|]. cbn [negb]. unfold rule_set_is_on. by simpl.
  - intros Hr. split; [done|]. intros Hb. apply belongs_eq in Hb. congruence.
Qed.

Lemma deactivated_rows buyer but rows :
  rule_sets_wf rows → rule_sets_wf (deactivated buyer but <$> rows) ∧ none_active buyer but (deactivated buyer but <$> rows).
Proof.
  intros [Hid Hone]. split; [split|].
  - intros i r (s & <- & Hs)%lookup_fmap_Some. rewrite (proj1 (deactivated_key _ _ _)). by apply Hid.
  - intros i j r s (r0 & <- & Hr)%lookup_fmap_Some (s0 & <- & Hs)%lookup_fmap_Some.
    rewrite !(proj2 (deactivated_key _ _ _)). intros Hb [Hr1 _]%deactivated_on [Hs1 _]%deactivated_on. by eapply Hone.
  - intros i r (s & <- & Hs)%lookup_fmap_Some. rewrite (proj2 (deactivated_key _ _ _)). intros Hb [_ Hon]%deactivated_on.
    rewrite <-(Hid _ _ Hs). by apply Hon.
Qed.

(** A row that is put at its id, the other active rows of its buyer being none. *)
Lemma put_rule_set_rows r rows :
  rule_sets_wf rows → (rule_set_is_on r → none_active (rule_set_buyer_id r) (Some (rule_set_id r)) rows) →
  rule_sets_wf (<[rule_set_id r := r]> rows).
Proof.
  intros [Hid Hone] Hnone. split.
  - intros i s [[<- <-]|[_ Hs]]%lookup_insert_Some; [done|by apply Hid].
  - intros i j s t [[<- <-]|[Hi Hs]]%lookup_insert_Some [[<- <-]|[Hj Ht]]%lookup_insert_Some Hb Hons Hont; [done| | |by eapply Hone].
    + assert (Some (rule_set_id r) = Some j) by (by eapply Hnone). congruence.
    + assert (Some (rule_set_id r) = Some i) by (by eapply Hnone). congruence.
Qed.

Lemma none_active_any buyer but rows : none_active buyer None rows → none_active buyer but rows.
Proof. intros Hn i r Hr Hb Hon. by specialize (Hn i r Hr Hb Hon). Qed.

(** *** What reads the rows alone *)

Section rows.
Context `{DecimalText} (Q : gmap Uuid RuleSet → Prop).
Definition of_rows (w : Office) : Prop := Q (of_rule_sets w).

Lemma rows_statement {A} (m : sql A) : (∀ w, of_rule_sets (m w).2 = of_rule_sets w) → preserves of_rows (statement m).
Proof.
  intros Hm. apply preserves_outcome; [done|]. intros w Hw. unfold of_rows. by rewrite Hm.
Qed.

#[export] Instance rows_invariant : OfficeInvariant of_rows.
Proof.
  split; try done; intros.
  all: try (apply rows_statement; intros w; by repeat case_match).
  - intros w Hw. unfold PingTreePublisher_create. destruct (apply_defaults _ _). revert w Hw.
    apply preserves_bind; [apply preserves_lift|intros _]. apply preserves_bind; [by apply rows_statement|intros v].
    apply preserves_bind; [apply preserves_lift|intros v']. destruct (negb _); [apply preserves_err|].
    apply rows_statement. intros w. by repeat case_match.
  - unfold PingTreePublisher_update_revshare. destruct (apply_defaults _ _). apply preserves_bind; [apply preserves_lift|intros _].
    apply rows_statement. intros w. by repeat case_match.
  - unfold remove_publisher_from_ping_tree. apply preserves_bind; [by apply preserves_or_status, rows_statement|intros t].
    apply preserves_bind; [apply preserves_lift|intros _]. apply preserves_bind; [|intros; apply preserves_ret].
    by apply preserves_or_status, rows_statement.
Qed.
End rows.

(** ** At most one active rule set *)

Section one_active.
Context `{Platform} `{DecimalText} `{DecimalCast}.
#[local] Abbreviation ok := (of_rows rule_sets_wf).
(** Also, none of the buyer's is active but one. *)
Definition quiet (buyer : Uuid) (but : option Uuid) : Office → Prop :=
  of_rows (λ rows, rule_sets_wf rows ∧ none_active buyer but rows).

Lemma quiet_ok buyer but w : quiet buyer but w → ok w.
Proof. by intros []. Qed.

Lemma deactivate_quiet buyer but : hoare ok ok (or_status 500 (deactivate buyer but)) (λ _, quiet buyer but).
Proof. apply hoare_statement; try done. intros w Hw. by apply deactivated_rows. Qed.

(** Activation first makes the buyer quiet. *)
Lemma activation_quiet (active : bool) buyer but :
  hoare ok ok (if active then or_status 500 (deactivate buyer but) else mret tt) (λ _, if active then quiet buyer but else ok).
Proof. destruct active; [apply deactivate_quiet|apply hoare_done, preserves_ret]. Qed.

Lemma extract_keeps Q d buyer config : preserves (of_rows Q) (extract_and_store_zip_codes d buyer config).
Proof. apply preserves_extract, rows_invariant. Qed.

Lemma guarded_extract (active : bool) buyer but d config :
  hoare ok (if active then quiet buyer but else ok) (extract_and_store_zip_codes d buyer config)
    (λ _, if active then quiet buyer but else ok).
Proof. destruct active; apply hoare_keep; try apply extract_keeps; [apply quiet_ok|done]. Qed.

Lemma insert_rule_set_ok r :
  hoare ok (if rule_set_is_active r then quiet (rule_set_buyer_id r) None else ok) (or_status 500 (insert_rule_set r)) (λ _, ok).
Proof.
  assert (Hok : ∀ w, (if rule_set_is_active r then quiet (rule_set_buyer_id r) None else ok) w → ok w).
  { intros w. destruct (rule_set_is_active r); [apply quiet_ok|done]. }
  apply hoare_statement; [done|intros; by destruct (rule_set_is_active r)|done|]. intros w Hw.
  case_bool_decide; [by apply Hok|]. destruct (existsb _ _); [by apply Hok|]. apply put_rule_set_rows; [by apply Hok|].
  intros Hon. rewrite Hon in Hw. apply none_active_any, Hw.
Qed.

Lemma create_rule_set_ok d buyer payload : preserves ok (create_buyer_rule_set d buyer payload).
Proof.
  apply hoare_preserves. unfold create_buyer_rule_set.
  eapply hoare_bind; [apply hoare_done, preserves_or_status, preserves_fetch, rows_invariant|intros b].
  eapply hoare_bind; [apply hoare_done, preserves_lift|intros b'].
  eapply hoare_bind; [apply hoare_done, preserves_lift|intros vertical].
  eapply hoare_bind; [apply activation_quiet|intros ?]. eapply hoare_bind; [apply guarded_extract|intros stored].
  eapply hoare_bind with (Q := λ _, ok); [|intros _; apply hoare_done].
  - unfold write_new_rule_set. set (active := default false (cr_is_active payload)).
    assert (Hguard : ∀ w, (if active then quiet buyer None else ok) w → ok w) by (intros w; unfold active; destruct (default false _); [apply quiet_ok|done]).
    eapply hoare_bind; [apply hoare_keep; [exact Hguard|apply preserves_gets]|intros now].
    destruct (to_numeric _ _) as [t|e]; [|by apply hoare_statement; [done|intros; unfold active; by destruct (default false _)|done|]].
    exact (insert_rule_set_ok (new_rule_set (draw_rule_set d) buyer vertical payload stored.1 t now)).
  - apply preserves_bind; [apply preserves_instance_of_buyer, rows_invariant|intros inst].
    apply preserves_bind; [apply preserves_audit_buyer, rows_invariant|intros _; apply preserves_ret].
Qed.

(** *** Updates *)

Lemma set_rule_set_column_spec column v r r' :
  set_rule_set_column column v r = Some r' →
  (rule_set_id r', rule_set_buyer_id r') = (rule_set_id r, rule_set_buyer_id r) ∧
  (rule_set_is_active r' = rule_set_is_active r ∨ (column, v) = ("is_active = ", VBool (rule_set_is_active r'))).
Proof.
  unfold set_rule_set_column. destruct r as []. intros Hs. destruct v; try done.
  all: repeat match type of Hs with context [String.eqb ?c ?x] => destruct (String.eqb_spec c x) as [->|] end; simplify_eq/=.
  all: try (case_match; simplify_eq/=); eauto.
Qed.

Lemma set_columns_rule_set sets r r' :
  set_columns set_rule_set_column sets r = Some r' →
  (rule_set_id r', rule_set_buyer_id r') = (rule_set_id r, rule_set_buyer_id r) ∧
  (rule_set_is_active r' = rule_set_is_active r ∨ ("is_active = ", VBool (rule_set_is_active r')) ∈ sets).
Proof.
  revert r. induction sets as [|[column v] sets IH]; intros r; cbn [set_columns]; [intros [= <-]; eauto|].
  destruct (set_rule_set_column column v r) as [s|] eqn:E; [|done]. intros Hs. destruct (IH s Hs) as [Hk Ha].
  apply set_rule_set_column_spec in E as [Hk' Ha']. split; [congruence|]. rewrite elem_of_cons.
  destruct Ha as [Ha|Ha]; [|by right; right]. destruct Ha' as [Ha'|Ha']; [left; congruence|right; left; congruence].
Qed.

(** The columns of an update, in the order of the statement. *)
Definition rule_set_sets (name : option string) (config : option json) (order : option (list string)) (enabled active : option bool)
    (timeout : option f64) : list (string * SqlValue) :=
  given "rule_set_name = " VText name ++ given "config = " VJson config ++ given "rules_order = " VTexts order ++
  given "enabled = " VBool enabled ++ given "is_active = " VBool active ++ given "timeout_seconds = " VFloat timeout.

Definition rule_set_pushes (name : option string) (config : option json) (order : option (list string)) (enabled active : option bool)
    (timeout : option f64) : list Fragment :=
  push_set "rule_set_name = " VText name ++ push_set "config = " VJson config ++ push_set "rules_order = " VTexts order ++
  push_set "enabled = " VBool enabled ++ push_set "is_active = " VBool active ++ push_set "timeout_seconds = " VFloat timeout.

Lemma parse_rule_set name config order enabled active timeout buyer id :
  parse_update (rule_set_pushes name config order enabled active timeout ++ where_owned buyer id) =
    Some (rule_set_sets name config order enabled active timeout, (id, Some buyer)).
Proof.
  unfold rule_set_pushes, rule_set_sets. rewrite <-!app_assoc. rewrite <-(app_nil_r (given "timeout_seconds = " _ _)).
  by do 6 (apply parse_push_set; [done|]).
Qed.

Lemma sets_active name config order enabled active timeout b :
  ("is_active = ", VBool b) ∈ rule_set_sets name config order enabled active timeout → active = Some b.
Proof.
  unfold rule_set_sets. rewrite !elem_of_app. unfold given.
  intros Hin. assert (Hgiven : ∀ {A} c (f : A → SqlValue) o, ("is_active = ", VBool b) ∈ match o with Some x => [(c, f x)] | None => [] end →
    ∃ x, o = Some x ∧ c = "is_active = " ∧ f x = VBool b).
  { intros A c f [x|] Hx; [|by apply elem_of_nil in Hx]. apply list_elem_of_singleton in Hx as [= Hc Hf]. by exists x. }
  destruct Hin as [Hin|[Hin|[Hin|[Hin|[Hin|Hin]]]]]; apply Hgiven in Hin as (x & -> & Hc & Hf); by simplify_eq.
Qed.

(** Only an activation writes the flag, and only on a quiet buyer. *)
Lemma update_row_ok before name config order enabled active timeout buyer id :
  hoare ok (if default false active then quiet buyer (Some id) else ok)
    (or_status 500 (run_update before belongs set_rule_set_column touch_rule_set of_rule_sets set_of_rule_sets
       (rule_set_pushes name config order enabled active timeout ++ where_owned buyer id))) (λ _, ok).
Proof.
  set (guard := if default false active then quiet buyer (Some id) else ok).
  assert (Hok : ∀ w, guard w → ok w) by (intros w; unfold guard; destruct (default false active); [apply quiet_ok|done]).
  apply hoare_statement; [done|intros; unfold guard; by destruct (default false active)|done|]. intros w Hw.
  rewrite parse_rule_set. destruct (set_columns _ _ _) as [r'|] eqn:Es; [|by apply Hok].
  destruct (of_rule_sets w !! id) as [r|] eqn:Er; [|by apply Hok]. destruct (belongs (Some buyer) r) eqn:Eb; [|by apply Hok].
  apply belongs_eq in Eb. apply set_columns_rule_set in Es as [[= Hid Hb] Ha]. pose proof (Hok w Hw) as Hwf.
  pose proof Hwf as [Hids Hone]. rewrite (Hids _ _ Er) in Hid.
  assert (Hput : rule_sets_wf (<[rule_set_id (touch_rule_set (of_now w) r') := touch_rule_set (of_now w) r']> (of_rule_sets w))).
  { apply put_rule_set_rows; [done|]. intros Hon i s Hs Hbs Hons. simpl in *. rewrite Hid. f_equal. destruct Ha as [Ha|Ha].
    - eapply (Hone id i r s Er Hs); unfold rule_set_is_on in *; simpl in *; congruence.
    - apply sets_active in Ha. unfold guard in Hw. unfold rule_set_is_on in Hon. simpl in Hon. rewrite Ha, Hon in Hw. destruct Hw as [_ Hn].
      assert (Some id = Some i) by (apply (Hn i s Hs); [congruence|done]). congruence. }
  unfold of_rows. simpl in *. by rewrite <-Hid.
Qed.

Lemma update_query_ok d buyer id payload :
  hoare ok ok (update_rule_set_query d buyer id payload) (λ q w,
    (∃ config, q = rule_set_pushes (payload_str "rule_set_name" payload) config (payload_order payload)
       (payload_bool "enabled" payload) (payload_bool "is_active" payload) (v ← jget "timeout_seconds" payload; as_f64 v)) ∧
    (if default false (payload_bool "is_active" payload) then quiet buyer (Some id) else ok) w).
Proof.
  unfold update_rule_set_query, rule_set_config_set.
  eapply hoare_bind with (Q := λ q w, (∃ config, q = push_set "config = " VJson config) ∧ ok w).
  { destruct (jget "config" payload) as [config|].
    - eapply hoare_bind; [apply hoare_done, extract_keeps|]. intros stored w Hw. split; [by eexists|done].
    - intros w Hw. split; [by exists None|done]. }
  intros q. eapply hoare_bind with (Q := λ a w, (∃ config, q = push_set "config = " VJson config) ∧
    a = push_set "is_active = " VBool (payload_bool "is_active" payload) ∧
    (if default false (payload_bool "is_active" payload) then quiet buyer (Some id) else ok) w).
  - unfold rule_set_active_set. intros w [Hq Hw]. destruct (payload_bool "is_active" payload) as [active|]; [|done].
    rewrite eff_bind_eq. pose proof (activation_quiet active buyer (Some id) w Hw) as Ha. by destruct (_ w) as [[]].
  - intros a w ([config ->] & -> & Hw). split; [|done]. by exists config.
Qed.

Lemma update_rule_set_ok d user headers buyer id payload : preserves ok (update_buyer_rule_set d user headers buyer id payload).
Proof.
  apply hoare_preserves. unfold update_buyer_rule_set.
  eapply hoare_bind; [apply hoare_done, preserves_or_status, preserves_fetch, rows_invariant|intros b].
  eapply hoare_bind; [apply hoare_done, preserves_lift|intros before].
  eapply hoare_bind; [apply update_query_ok|]. intros q w [[config ->] Hw].
  destruct (rule_set_pushes _ _ _ _ _ _) as [|f fs] eqn:Eq.
  { simpl. destruct (default false _); [by apply quiet_ok in Hw|done]. }
  rewrite <-Eq. refine (hoare_bind ok _ (λ _, ok) (λ _, ok) _ _ (update_row_ok before _ config _ _ _ _ buyer id) _ w Hw).
  intros _. apply hoare_done. apply preserves_bind; [apply preserves_instance_of_buyer, rows_invariant|intros inst].
  apply preserves_bind; [apply preserves_ignore_error, preserves_fetch, rows_invariant|intros after].
  apply preserves_bind; [apply preserves_audit_update, rows_invariant|intros _; apply preserves_ret].
Qed.

Lemma delete_rule_set_ok buyer id : preserves ok (delete_buyer_rule_set buyer id).
Proof.
  unfold delete_buyer_rule_set.
  apply preserves_bind; [apply preserves_or_status, preserves_fetch, rows_invariant|intros before].
  apply preserves_bind.
  - apply preserves_or_status, preserves_outcome; [done|]. intros w [Hid Hone]. destruct (rule_set_of buyer id w) as [old|]; [|done].
    split; simpl; [intros i r [_ Hr]%lookup_delete_Some; by apply Hid|].
    intros i j r s [_ Hr]%lookup_delete_Some [_ Hs]%lookup_delete_Some. by apply Hone.
  - intros deleted. destruct (negb deleted); [apply preserves_err|].
    apply preserves_bind; [apply preserves_instance_of_buyer, rows_invariant|intros inst].
    apply preserves_bind; [apply preserves_audit_buyer, rows_invariant|intros _; apply preserves_ret].
Qed.

#[export] Instance one_active_rule_sets : RuleSetInvariant ok.
Proof. split; intros; [apply create_rule_set_ok|apply update_rule_set_ok|apply delete_rule_set_ok]. Qed.
End one_active.

(** ** ZIP codes *)

Lemma elem_of_codes_of l z w : z ∈ codes_of l w ↔ (l, z) ∈ of_zip_codes w.
Proof.
  unfold codes_of. rewrite list_elem_of_omap. split.
  - intros ([k y] & Hin & Hk). cbn in Hk. case_bool_decide; [|done]. by simplify_eq.
  - intros Hin. exists (l, z). split; [done|]. cbn. by rewrite bool_decide_eq_true_2.
Qed.

Lemma elem_of_zips_of buyer list_type z w :
  z ∈ zips_of buyer list_type w ↔
  ∃ l, l ∈ of_zip_lists w ∧ is_list_of buyer list_type l = true ∧ (zip_list_id l, z) ∈ of_zip_codes w.
Proof.
  unfold zips_of. rewrite elem_of_sort_by, elem_of_remove_dups, list_elem_of_bind. split.
  - intros (l & Hz & Hl). apply elem_of_list_filter_bool in Hl as [Hl Ht]. exists l. by rewrite <-elem_of_codes_of.
  - intros (l & Hl & Ht & Hz). exists l. rewrite elem_of_codes_of. split; [done|]. by apply elem_of_list_filter_bool.
Qed.

Lemma zips_of_NoDup buyer list_type w : NoDup (zips_of buyer list_type w).
Proof. unfold zips_of. rewrite sort_by_perm. apply NoDup_remove_dups. Qed.

(** *** They are never removed *)

Section zips_kept.
Context `{Platform} `{DecimalText} `{DecimalCast} (buyer : Uuid) (list_type zip : string).
Definition has_zip (w : Office) : Prop := zip ∈ zips_of buyer list_type w.

Lemma has_zip_grows w w' :
  (∀ l, l ∈ of_zip_lists w → l ∈ of_zip_lists w') → (∀ c, c ∈ of_zip_codes w → c ∈ of_zip_codes w') → has_zip w → has_zip w'.
Proof. unfold has_zip. rewrite !elem_of_zips_of. naive_solver. Qed.

Lemma zip_statement {A} (m : sql A) :
  (∀ w, of_zip_lists (m w).2 = of_zip_lists w ∧ of_zip_codes (m w).2 = of_zip_codes w) → preserves has_zip (statement m).
Proof.
  intros Hm. apply preserves_outcome; [intros outcomes w; by apply has_zip_grows|]. intros w. destruct (Hm w) as [Hl Hc].
  apply has_zip_grows; [by rewrite Hl|by rewrite Hc].
Qed.

#[export] Instance has_zip_invariant : OfficeInvariant has_zip.
Proof.
  split; intros.
  all: try (eapply has_zip_grows; [| |eassumption]; done).
  all: try (apply zip_statement; intros w; by repeat case_match).
  - unfold PingTreePublisher_create. destruct (apply_defaults _ _). apply preserves_bind; [apply preserves_lift|intros _].
    apply preserves_bind; [by apply zip_statement|intros v]. apply preserves_bind; [apply preserves_lift|intros v'].
    destruct (negb _); [apply preserves_err|]. apply zip_statement. intros w. by repeat case_match.
  - unfold PingTreePublisher_update_revshare. destruct (apply_defaults _ _). apply preserves_bind; [apply preserves_lift|intros _].
    apply zip_statement. intros w. by repeat case_match.
  - unfold remove_publisher_from_ping_tree. apply preserves_bind; [by apply preserves_or_status, zip_statement|intros t].
    apply preserves_bind; [apply preserves_lift|intros _]. apply preserves_bind; [|intros; apply preserves_ret].
    by apply preserves_or_status, zip_statement.
  - apply preserves_outcome; [intros outcomes w; by apply has_zip_grows|]. intros w Hw. destruct (negb _); [done|].
    destruct (existsb _ _); [done|]. eapply has_zip_grows; [| |exact Hw]; simpl; [|done]. intros k Hk. apply elem_of_app. by left.
  - apply preserves_outcome; [intros outcomes w; by apply has_zip_grows|]. intros w Hw. case_bool_decide; [done|].
    destruct (existsb _ _); [|done]. eapply has_zip_grows; [| |exact Hw]; simpl; [done|]. intros k Hk. apply elem_of_app. by left.
Qed.
#[export] Instance has_zip_rule_sets : RuleSetInvariant has_zip.
Proof. apply blind_rule_sets; [apply has_zip_invariant|]. intros m w. by apply has_zip_grows. Qed.
End zips_kept.

(** *** What is stored *)

(** The ZIP codes of an array. *)
Definition valid_zips (values : list json) : list string :=
  omap (λ v, s ← as_str v; if is_zip (str_trim s) then Some (str_trim s) else None) values.

Definition listed (key : string) (config : json) : list string :=
  match (v ← jget key config; as_array v) with Some values => valid_zips values | None => [] end.

(** The configuration without a list that was stored. *)
Definition stripped (key : string) (config : json) : json :=
  match (v ← jget key config; as_array v) with Some _ => remove_key key config | None => config end.

Lemma jget_stripped k key config : k ≠ key → jget k (stripped key config) = jget k config.
Proof.
  intros Hk. unfold stripped. destruct (v ← jget key config; as_array v); [|done]. destruct config; try done.
  by apply map_get_remove_ne.
Qed.
Lemma listed_stripped k key config : k ≠ key → listed k (stripped key config) = listed k config.
Proof. intros Hk. unfold listed. by rewrite jget_stripped. Qed.

Lemma sql_fetch_bind {A B} (f : Office → A) (k : A → sql B) w : of_outcomes w = [] → (fetch f ≫= k) w = k (f w) w.
Proof. intros Hout. rewrite eff_bind_eq. unfold fetch. by rewrite statement_healthy. Qed.

Lemma set_of_zips_twice l1 c1 l2 c2 w : set_of_zips l2 c2 (set_of_zips l1 c1 w) = set_of_zips l2 c2 w.
Proof. done. Qed.
Lemma set_of_zips_id w : set_of_zips (of_zip_lists w) (of_zip_codes w) w = w.
Proof. by destruct w. Qed.

Section stored.
Context (w : Office) (Hout : of_outcomes w = []).
#[local] Abbreviation with_codes codes := (set_of_zips (of_zip_lists w) codes w).

Lemma insert_zip_code_run l zip codes :
  l ∈ zip_list_id <$> of_zip_lists w →
  ∃ codes', insert_zip_code l zip (with_codes codes) = (Ok tt, with_codes codes') ∧
    ∀ c, c ∈ codes' ↔ c ∈ codes ∨ c = (l, zip).
Proof.
  intros (k & -> & Hk)%list_elem_of_fmap. unfold insert_zip_code. rewrite statement_healthy by done. simpl.
  case_bool_decide as Hin; [exists codes; split; [done|naive_solver]|].
  assert (He : existsb (λ j, bool_decide (zip_list_id j = zip_list_id k)) (of_zip_lists w) = true).
  { apply existsb_exists. exists k. split; [by apply list_elem_of_In|by apply bool_decide_eq_true]. }
  rewrite He. eexists. split; [done|]. intros c. by rewrite elem_of_app, list_elem_of_singleton.
Qed.

Lemma insert_zips_run l existing values codes :
  l ∈ zip_list_id <$> of_zip_lists w → (∀ z, z ∈ existing → (l, z) ∈ codes) →
  ∃ codes', insert_zips l existing values (with_codes codes) = (Ok tt, with_codes codes') ∧
    ∀ c, c ∈ codes' ↔ c ∈ codes ∨ c.1 = l ∧ c.2 ∈ valid_zips values.
Proof.
  intros Hl. revert codes. induction values as [|v values IH]; intros codes Hex.
  { exists codes. split; [done|]. intros c. rewrite elem_of_nil. naive_solver. }
  cbn [insert_zips]. rewrite eff_bind_eq. unfold valid_zips. cbn [omap list_omap].
  destruct (as_str v) as [s|]; cbn [mbind option_bind]; [|by apply IH]. cbn zeta.
  destruct (is_zip (str_trim s)); cbn [andb]; [|by apply IH].
  destruct (existsb (String.eqb (str_trim s)) existing) eqn:Ee; cbn [negb].
  - apply existsb_exists in Ee as (z & Hz & ->%String.eqb_eq). apply list_elem_of_In, Hex in Hz.
    destruct (IH codes Hex) as (codes' & Hr & Hc). exists codes'. split; [exact Hr|]. intros c. rewrite Hc, elem_of_cons.
    destruct c as [i y]; simpl in *. naive_solver.
  - rewrite eff_bind_eq. unfold eff_try. destruct (insert_zip_code_run l (str_trim s) codes Hl) as (codes1 & Hi & H1).
    destruct (IH codes1) as (codes' & Hr & Hc); [intros z Hz; apply H1; left; by apply Hex|]. 
    exists codes'. split; [by rewrite Hi; exact Hr|]. intros c. rewrite Hc, H1, elem_of_cons. destruct c as [i y]; simpl in *. naive_solver.
Qed.

(** The list of the buyer: the first there is, or a new one. *)
Lemma find_or_create_run drawn buyer list_type :
  is_Some (of_buyers w !! buyer) → drawn ∉ zip_list_id <$> of_zip_lists w →
  ∃ l lists, find_or_create_zip_list drawn buyer list_type w = (Ok (zip_list_id l), set_of_zips lists (of_zip_codes w) w) ∧
    is_list_of buyer list_type l = true ∧
    (lists = of_zip_lists w ∧ l ∈ of_zip_lists w ∨ lists = of_zip_lists w ++ [l] ∧ zip_list_id l = drawn).
Proof.
  intros Hb Hd. unfold find_or_create_zip_list. rewrite sql_fetch_bind by done.
  destruct (first_list buyer list_type w) as [l|] eqn:El.
  - exists l, (of_zip_lists w). rewrite set_of_zips_id. split; [done|]. unfold first_list in El.
    destruct (sort_by _ _) as [|k ks] eqn:Es; [done|]. injection El as ->.
    assert (Hin : l ∈ List.filter (is_list_of buyer list_type) (of_zip_lists w)).
    { rewrite <-(elem_of_sort_by (λ l1 l2, (zip_list_created_at l1 ?= zip_list_created_at l2)%Z)), Es. by left. }
    apply elem_of_list_filter_bool in Hin as [Hin Ht]. split; [done|]. by left.
  - rewrite eff_gets_bind, eff_bind_eq. unfold insert_zip_list. rewrite statement_healthy by done. simpl.
    rewrite (bool_decide_eq_true_2 _ Hb). simpl.
    assert (He : existsb (λ k, bool_decide (zip_list_id k = drawn)) (of_zip_lists w) = false).
    { apply not_true_iff_false. rewrite existsb_exists. intros (k & Hk & E%bool_decide_eq_true). apply Hd, list_elem_of_fmap.
      exists k. split; [done|]. by apply list_elem_of_In. }
    rewrite He. eexists {| zip_list_id := drawn |}, _. split; [reflexivity|]. split; [|by right].
    unfold is_list_of. simpl. by rewrite bool_decide_eq_true_2, String.eqb_refl.
Qed.
End stored.

(** One list, stored: the codes of the buyer's lists of this type are more by those of the
    array, and every other list is as it was. *)
Lemma store_run `{Platform} `{DecimalText} drawn buyer list_type key config w :
  of_outcomes w = [] → office_wf w → is_Some (of_buyers w !! buyer) → drawn ∉ zip_list_id <$> of_zip_lists w →
  ∃ lists codes, store_zip_list drawn buyer list_type key config w = (Ok (stripped key config), set_of_zips lists codes w) ∧
    (∀ i, i ∈ zip_list_id <$> lists → i ∈ zip_list_id <$> of_zip_lists w ∨ i = drawn) ∧
    ∀ t z, z ∈ zips_of buyer t (set_of_zips lists codes w) ↔ z ∈ zips_of buyer t w ∨ t = list_type ∧ z ∈ listed key config.
Proof.
  intros Hout Hw Hb Hd.
  assert (Hwf : office_wf (store_zip_list drawn buyer list_type key config w).2)
    by (apply preserves_store_zip_list; [apply office_wf_invariant|done]).
  revert Hwf. unfold store_zip_list, stripped, listed. destruct (v ← jget key config; as_array v) as [values|].
  2:{ intros _. exists (of_zip_lists w), (of_zip_codes w). rewrite set_of_zips_id. split; [done|]. split; [by left|].
      intros t z. rewrite elem_of_nil. naive_solver. }
  destruct (find_or_create_run w Hout drawn buyer list_type Hb Hd) as (l & lists & Hf & Ht & Hl).
  rewrite eff_bind_eq, Hf, sql_fetch_bind, eff_bind_eq by done. set (w1 := set_of_zips lists (of_zip_codes w) w).
  assert (Hin : l ∈ lists) by (destruct Hl as [[-> ?]|[-> _]]; [done|apply elem_of_app; right; by apply list_elem_of_singleton]).
  destruct (insert_zips_run w1 Hout (zip_list_id l) (codes_of (zip_list_id l) w1) values (of_zip_codes w1)) as (codes & Hi & Hc).
  { apply list_elem_of_fmap. by exists l. }
  { intros z. by rewrite elem_of_codes_of. }
  rewrite set_of_zips_id in Hi. rewrite Hi. intros Hwf. exists lists, codes. split; [done|]. split.
  { intros i. destruct Hl as [[-> _]|[-> Hid]]; [by left|]. rewrite fmap_app. intros [?|Hx]%elem_of_app; [by left|].
    right. apply list_elem_of_fmap in Hx as (k & -> & ->%list_elem_of_singleton). done. }
  intros t z. rewrite !elem_of_zips_of. split.
  - intros (k & Hk & Hkt & Hz). apply Hc in Hz. cbn in Hk, Hz. destruct Hz as [Hz|[Hid Hz]].
    + left. exists k. split; [|done]. destruct Hl as [[-> _]|[-> Hdl]]; [done|]. apply elem_of_app in Hk as [Hk|Hk]; [done|].
      apply list_elem_of_singleton in Hk as ->. pose proof (wf_zip_codes w Hw) as Hall. rewrite Forall_forall in Hall.
      destruct (Hall _ Hz) as [Hin' _]. cbn in Hin'. by rewrite Hdl in Hin'.
    + right. assert (k = l) as ->.
      { eapply (NoDup_fmap_inj zip_list_id); [exact (wf_zip_list_ids _ Hwf)|done..]. }
      unfold is_list_of in Ht, Hkt. apply andb_true_iff in Ht as [_ Ht%String.eqb_eq], Hkt as [_ Hkt%String.eqb_eq].
      split; [congruence|done].
  - intros [(k & Hk & Hkt & Hz)|[-> Hz]].
    + exists k. split; [|by split; [|apply Hc; left]]. cbn. destruct Hl as [[-> _]|[-> _]]; [done|]. apply elem_of_app. by left.
    + exists l. split; [done|]. split; [done|]. apply Hc. by right.
Qed.

Section extracted.
Context `{Platform} `{DecimalText} (d : RuleSetDraws) (buyer : Uuid).

(** Drawn ids are new and differ. *)
Definition fresh_lists (w : Office) : Prop :=
  (draw_blacklist d ∉ zip_list_id <$> of_zip_lists w) ∧ (draw_whitelist d ∉ zip_list_id <$> of_zip_lists w) ∧
  draw_blacklist d ≠ draw_whitelist d.

Lemma extract_run config w :
  of_outcomes w = [] → office_wf w → is_Some (of_buyers w !! buyer) → fresh_lists w →
  ∃ lists codes, extract_and_store_zip_codes d buyer config w =
    (Ok (stripped "zip_whitelist" (stripped "zip_blacklist" config), Ok tt), set_of_zips lists codes w) ∧
    ∀ z, (z ∈ zips_of buyer "blacklist" (set_of_zips lists codes w) ↔ z ∈ zips_of buyer "blacklist" w ∨ z ∈ listed "zip_blacklist" config) ∧
         (z ∈ zips_of buyer "whitelist" (set_of_zips lists codes w) ↔ z ∈ zips_of buyer "whitelist" w ∨ z ∈ listed "zip_whitelist" config).
Proof.
  intros Hout Hw Hb (Hd1 & Hd2 & Hne). unfold extract_and_store_zip_codes. rewrite eff_bind_eq. unfold eff_try at 1.
  destruct (store_run (draw_blacklist d) buyer "blacklist" "zip_blacklist" config w Hout Hw Hb Hd1) as (l1 & c1 & Hs & Hi & Hz).
  assert (Hw1 : office_wf (set_of_zips l1 c1 w)).
  { change (office_wf (Ok (stripped "zip_blacklist" config) : Result string json, set_of_zips l1 c1 w).2). rewrite <-Hs.
    apply preserves_store_zip_list; [apply office_wf_invariant|done]. }
  rewrite Hs, eff_bind_eq. unfold eff_try.
  destruct (store_run (draw_whitelist d) buyer "whitelist" "zip_whitelist" (stripped "zip_blacklist" config) (set_of_zips l1 c1 w))
    as (l2 & c2 & Hs2 & _ & Hz2); [done|done|done| |].
  { cbn. intros Hin. apply Hi in Hin as [?|?]; congruence. }
  rewrite Hs2, set_of_zips_twice. exists l2, c2. split; [done|]. intros z.
  rewrite set_of_zips_twice in Hz2. rewrite !Hz2, !Hz, listed_stripped by done. naive_solver.
Qed.
End extracted.

Lemma stripped_object key o : ∃ o', stripped key (JObject o) = JObject o' ∧ ∀ k, k ≠ key → map_get k o' = map_get k o.
Proof.
  unfold stripped. destruct (v ← jget key (JObject o); as_array v); [|by exists o].
  exists (map_remove key o). split; [done|]. intros k Hk. by apply map_get_remove_ne.
Qed.

Lemma jget_merge_ne k key zips config : k ≠ key → jget k (merge_list key zips config) = jget k config.
Proof.
  intros Hk. destruct config, zips; simpl; try done; [by apply map_get_remove_ne|by apply map_get_insert_ne].
Qed.
Lemma jget_merge_eq key zips o :
  jget key (merge_list key zips (JObject o)) = match zips with [] => None | _ => Some (JArray (JString <$> zips)) end.
Proof. destruct zips; simpl; [apply map_get_remove_eq|apply map_get_insert_eq]. Qed.

(** *** A creation on healthy statements *)

Definition name_used (buyer vertical : Uuid) (name : string) (rows : gmap Uuid RuleSet) : Prop :=
  ∃ i s, rows !! i = Some s ∧ rule_set_buyer_id s = buyer ∧ rule_set_vertical_id s = vertical ∧ rule_set_name s = name.

Lemma name_used_deactivated buyer vertical name but rows :
  name_used buyer vertical name (deactivated buyer but <$> rows) ↔ name_used buyer vertical name rows.
Proof.
  unfold name_used. split.
  - intros (i & s & (t & <- & Ht)%lookup_fmap_Some & H1 & H2 & H3). exists i, t. split; [done|]. revert H1 H2 H3.
    unfold deactivated. by destruct (_ && _).
  - intros (i & s & Hs & H1 & H2 & H3). exists i, (deactivated buyer but s). rewrite lookup_fmap, Hs. split; [done|].
    unfold deactivated. by destruct (_ && _).
Qed.

Lemma name_used_existsb r w :
  existsb (λ s, bool_decide (rule_set_buyer_id s = rule_set_buyer_id r) && bool_decide (rule_set_vertical_id s = rule_set_vertical_id r) &&
                String.eqb (rule_set_name s) (rule_set_name r)) (map_to_list (of_rule_sets w)).*2 = true ↔
  name_used (rule_set_buyer_id r) (rule_set_vertical_id r) (rule_set_name r) (of_rule_sets w).
Proof.
  rewrite existsb_exists. split.
  - intros (s & Hin & Hs). apply list_elem_of_In in Hin. apply list_elem_of_fmap in Hin as ([i q] & -> & Hin).
    apply elem_of_map_to_list in Hin. exists i, q. destruct_andb. split; [done|].
    split_and!; [by eapply bool_decide_eq_true|by eapply bool_decide_eq_true|by apply String.eqb_eq].
  - intros (i & s & Hs & H1 & H2 & H3). exists s. split; [by eapply list_elem_of_In, elem_of_values|].
    by rewrite H1, H2, H3, String.eqb_refl, !bool_decide_eq_true_2.
Qed.

Section creation.
Context `{P : Platform} `{D : DecimalText} `{N : DecimalCast} (d : RuleSetDraws) (buyer : Uuid) (payload : CreateRuleSetRequest).

Definition created_answer : json := success [
  ("rule_set", json_object [
     ("id", JString (uuid_to_string (draw_rule_set d))); ("rule_set_name", JString (cr_rule_set_name payload));
     ("is_active", JBool (default false (cr_is_active payload)))]);
  ("message", JString "Rule set created successfully")].

(** The rows the insertion finds. *)
Definition rows_before (w : Office) : gmap Uuid RuleSet :=
  if default false (cr_is_active payload) then deactivated buyer None <$> of_rule_sets w else of_rule_sets w.

Definition stored_config : json :=
  stripped "zip_whitelist" (stripped "zip_blacklist" (default (json_object []) (cr_config payload))).
Definition stored_timeout : Result string (option Decimal) :=
  to_numeric 5 (Some (numeric_of_f64 (default f64_1_2 (cr_timeout_seconds payload)))).

(** The codes of both lists were added. *)
Definition zips_added (w w' : Office) : Prop :=
  let config := default (json_object []) (cr_config payload) in
  ∀ z, (z ∈ zips_of buyer "blacklist" w' ↔ z ∈ zips_of buyer "blacklist" w ∨ z ∈ listed "zip_blacklist" config) ∧
       (z ∈ zips_of buyer "whitelist" w' ↔ z ∈ zips_of buyer "whitelist" w ∨ z ∈ listed "zip_whitelist" config).

Lemma instance_of_buyer_bind {B} (k : option Uuid → handler B) w :
  of_outcomes w = [] → (instance_of_buyer buyer ≫= k) w = k (buyer_instance_id <$> of_buyers w !! buyer) w.
Proof.
  intros Hout. rewrite eff_bind_eq. unfold instance_of_buyer. rewrite ignore_fetch_bind by done.
  by destruct (of_buyers w !! buyer).
Qed.

Lemma audit_buyer_bind {B} inst action id details affected (k : unit → handler B) w :
  of_outcomes w = [] →
  ∃ entry, audit_action_type entry = action ∧ audit_resource_id entry = Some id ∧ audit_details entry = details ∧
    (audit_buyer inst action id details affected ≫= k) w = k tt (set_of_audit (of_audit w ++ [entry]) w).
Proof.
  intros Hout. eexists {| audit_action_type := action; audit_resource_id := Some id; audit_details := details |}.
  split; [done|]. split; [done|]. split; [done|]. rewrite eff_bind_eq. unfold audit_buyer. rewrite eff_bind_eq.
  unfold ignore_error, create_audit_log, execute. by rewrite statement_healthy.
Qed.

Lemma create_run b vertical w :
  of_outcomes w = [] → office_wf w → live_buyer buyer w = Some b → buyer_vertical_id b = Some vertical → fresh_lists d w →
  of_rule_sets w !! draw_rule_set d = None →
  ∃ lists codes, let w1 := set_of_zips lists codes (set_of_rule_sets (rows_before w) w) in
    zips_added w w1 ∧
    (name_used buyer vertical (cr_rule_set_name payload) (of_rule_sets w) ∨ (∃ e, stored_timeout = Err e) →
     create_buyer_rule_set d buyer payload w = (Err 500%Z, w1)) ∧
    ∀ t, stored_timeout = Ok t → ¬ name_used buyer vertical (cr_rule_set_name payload) (of_rule_sets w) →
      let r := new_rule_set (draw_rule_set d) buyer vertical payload stored_config t (of_now w) in
      ∃ entry, audit_action_type entry = "buyer_rule_set_created" ∧
        create_buyer_rule_set d buyer payload w =
          (Ok created_answer, set_of_audit (of_audit w ++ [entry]) (set_of_rule_sets (<[draw_rule_set d := r]> (rows_before w)) w1)).
Proof.
  intros Hout Hw Hlive Hv Hfresh Hnew.
  assert (Hb : is_Some (of_buyers w !! buyer)) by (unfold live_buyer in Hlive; by destruct (of_buyers w !! buyer)).
  set (w0 := set_of_rule_sets (rows_before w) w). assert (Hw0 : office_wf w0) by (by destruct Hw; split).
  destruct (extract_run d buyer (default (json_object []) (cr_config payload)) w0 Hout Hw0 Hb Hfresh) as (lists & codes & He & Hz).
  exists lists, codes. cbn zeta. set (w1 := set_of_zips lists codes w0). split; [exact Hz|].
  assert (Hrun : create_buyer_rule_set d buyer payload w =
    (_ ← write_new_rule_set d buyer vertical payload stored_config;
     inst ← instance_of_buyer buyer;
     _ ← audit_buyer inst "buyer_rule_set_created" buyer (json_object [
           ("rule_set_id", JString (uuid_to_string (draw_rule_set d))); ("rule_set_name", JString (cr_rule_set_name payload));
           ("is_active", JBool (default false (cr_is_active payload))); ("enabled", JBool (default true (cr_enabled payload)));
           ("timeout_seconds", json_of_f64 (default f64_1_2 (cr_timeout_seconds payload)))]) (json_object []);
     mret created_answer) w1).
  { unfold create_buyer_rule_set. rewrite fetch_bind, Hlive by done. rewrite eff_lift_bind. cbn [ok_or].
    rewrite eff_lift_bind, Hv. cbn [ok_or]. assert (Hd : (if default false (cr_is_active payload) then or_status 500 (deactivate buyer None) else mret tt) w
      = (Ok tt, w0)).
    { unfold w0, rows_before. destruct (default false (cr_is_active payload)); [|by destruct w].
      unfold or_status, deactivate, execute. by rewrite statement_healthy. }
    rewrite eff_bind_eq, Hd, eff_bind_eq, He. done. }
  rewrite Hrun. clear Hrun. unfold write_new_rule_set. rewrite eff_bind_eq, eff_gets_bind. fold stored_timeout.
  change (of_now w1) with (of_now w).
  assert (Hused : name_used buyer vertical (cr_rule_set_name payload) (of_rule_sets w) ↔
    existsb (λ s, bool_decide (rule_set_buyer_id s = buyer) && bool_decide (rule_set_vertical_id s = vertical) &&
                  String.eqb (rule_set_name s) (cr_rule_set_name payload)) (map_to_list (of_rule_sets w1)).*2 = true).
  { rewrite (name_used_existsb (new_rule_set (draw_rule_set d) buyer vertical payload stored_config None (of_now w)) w1).
    unfold w1, w0, rows_before. simpl. destruct (default false _); [by rewrite name_used_deactivated|done]. }
  assert (Hfree : bool_decide (is_Some (of_rule_sets w1 !! draw_rule_set d)) = false).
  { apply bool_decide_eq_false. unfold w1, w0, rows_before. simpl. destruct (default false _); rewrite ?lookup_fmap, Hnew; by intros []. }
  split.
  - intros Href. destruct stored_timeout as [t|e] eqn:Et.
    + destruct Href as [Hname|[e ?]]; [|done]. unfold or_status, insert_rule_set. rewrite statement_healthy by done.
      change (rule_set_id (new_rule_set _ _ _ _ _ _ _)) with (draw_rule_set d). rewrite Hfree. simpl.
      destruct (existsb _ _) eqn:Ex; [done|]. by apply Hused in Hname.
    + unfold or_status. by rewrite statement_healthy.
  - intros t Et Hname. rewrite Et. unfold or_status, insert_rule_set. rewrite statement_healthy by done.
    change (rule_set_id (new_rule_set _ _ _ _ _ _ _)) with (draw_rule_set d). rewrite Hfree. simpl.
    destruct (existsb _ _) eqn:Ex; [by destruct Hname; apply Hused|]. rewrite instance_of_buyer_bind by done.
    match goal with |- context [(audit_buyer ?i ?a ?id ?det ?aff ≫= ?k) ?w2] =>
      destruct (audit_buyer_bind i a id det aff k w2 Hout) as (entry & Ha & _ & _ & ->) end.
    exists entry. split; [done|]. reflexivity.
Qed.
End creation.

(** ** Properties *)

Section claims.
Context `{P : Platform} `{C : Crypto} `{D : DecimalText} `{N : DecimalCast} (sha256_hex : string → string)
  (encryption_key : string) (parse_uuid : string → option Uuid).
#[local] Abbreviation reaches := (office_reaches sha256_hex encryption_key parse_uuid).

(** C18: a buyer never has two active rule sets: whatever calls of the back office run, one
    after the other, and whatever their statements' outcomes, at most one rule set of each
    buyer is active when at most one was. *)
Theorem one_active_rule_set (w w' : Office) : reaches w w' → rule_sets_wf (of_rule_sets w) → rule_sets_wf (of_rule_sets w').
Proof. apply (preserves_reaches _ _ _ (of_rows rule_sets_wf)). Qed.

(** The code is on the list of the buyer. *)
Definition lists_zip (buyer : Uuid) (list_type zip : string) (w : Office) : Prop := zip ∈ zips_of buyer list_type w.

(** no call takes a ZIP code away from a buyer: an update of a rule set whose list is
    shorter, or without a list, and the deletion of the rule set, leave every code that
    was ever stored. *)
Theorem zips_only_grow (buyer : Uuid) (list_type zip : string) (w w' : Office) :
  reaches w w' → lists_zip buyer list_type zip w → lists_zip buyer list_type zip w'.
Proof. unfold lists_zip. apply (preserves_reaches _ _ _ (has_zip buyer list_type zip)). Qed.

(** what the creation of a rule set does to the rule sets of its buyer.  When the
    name is free and the timeout fits its column, the new one is added, and is the only
    active one if it is to be active.  Otherwise the call fails, but if it was to be
    active, the rule sets of the buyer have been switched off already: none is active. *)
Theorem create_rule_set_spec (d : RuleSetDraws) (buyer : Uuid) (payload : CreateRuleSetRequest) (b : Buyer) (vertical : Uuid)
    (w : Office) :
  of_outcomes w = [] → office_wf w → rule_sets_wf (of_rule_sets w) → live_buyer buyer w = Some b →
  buyer_vertical_id b = Some vertical → fresh_lists d w → of_rule_sets w !! draw_rule_set d = None →
  let active := default false (cr_is_active payload) in
  let used := name_used buyer vertical (cr_rule_set_name payload) (of_rule_sets w) in
  let '(r, w') := create_buyer_rule_set d buyer payload w in
  match stored_timeout payload with
  | Ok t => (used → r = Err 500%Z) ∧
            (¬ used → r = Ok (created_answer d payload) ∧
               of_rule_sets w' = <[draw_rule_set d :=
                 new_rule_set (draw_rule_set d) buyer vertical payload (stored_config payload) t (of_now w)]> (rows_before buyer payload w) ∧
               (active = true → none_active buyer (Some (draw_rule_set d)) (of_rule_sets w')))
  | Err _ => r = Err 500%Z
  end ∧
  (r = Err 500%Z → of_rule_sets w' = rows_before buyer payload w ∧ (active = true → none_active buyer None (of_rule_sets w'))).
Proof.
  intros Hout Hw Hwf Hlive Hv Hfresh Hnew active used.
  destruct (create_run d buyer payload b vertical w Hout Hw Hlive Hv Hfresh Hnew) as (lists & codes & _ & Href & Hok).
  assert (Hquiet : active = true → none_active buyer None (rows_before buyer payload w)).
  { intros Ha. unfold rows_before. fold active. rewrite Ha. by apply deactivated_rows. }
  destruct (stored_timeout payload) as [t|e] eqn:Et.
  - assert (Hdec : used ∨ ¬ used).
    { unfold used. rewrite <-(name_used_existsb (new_rule_set 0%N buyer vertical payload JNull t 0)).
      destruct (existsb _ _); [by left|by right]. }
    destruct Hdec as [Hu|Hu]; [rewrite Href by (by left)|destruct (Hok t eq_refl Hu) as (entry & _ & ->)].
    + split; [by split|]. done.
    + split; [|done]. split; [done|]. intros _. split; [done|]. split; [done|]. intros Ha i s. simpl.
      rewrite lookup_insert_Some. intros [[<- _]|[_ Hs]]; [done|]. intros Hb Hon. by specialize (Hquiet Ha i s Hs Hb Hon).
  - rewrite Href by (right; by eexists). by split.
Qed.

(** the ZIP codes of a rule set read back.  After a creation, the rule set is shown
    with the configuration it was given, each of its two lists replaced by the codes its
    buyer has: those stored before, and the texts of the list given that are five digits
    when trimmed; once each, and no list when there are none. *)
Theorem rule_set_zips_read_back (d : RuleSetDraws) (buyer : Uuid) (payload : CreateRuleSetRequest) (b : Buyer) (vertical : Uuid)
    (o : jmap) (answer : json) (w w' : Office) :
  of_outcomes w = [] → office_wf w → live_buyer buyer w = Some b → buyer_vertical_id b = Some vertical → fresh_lists d w →
  of_rule_sets w !! draw_rule_set d = None → default (json_object []) (cr_config payload) = JObject o →
  create_buyer_rule_set d buyer payload w = (Ok answer, w') →
  ∃ config r, rule_set_name r = cr_rule_set_name payload ∧
    get_buyer_rule_set buyer (draw_rule_set d) w' = (Ok (success [("rule_set", rule_set_view config r)]), w') ∧
    (∀ k, k ≠ "zip_blacklist" → k ≠ "zip_whitelist" → jget k config = map_get k o) ∧
    ∀ key list_type, (key, list_type) ∈ [("zip_blacklist", "blacklist"); ("zip_whitelist", "whitelist")] →
      ∃ zips, NoDup zips ∧ jget key config = (match zips with [] => None | _ => Some (JArray (JString <$> zips)) end) ∧
        ∀ z, z ∈ zips ↔ z ∈ zips_of buyer list_type w ∨ z ∈ listed key (JObject o).
Proof.
  intros Hout Hw Hlive Hv Hfresh Hnew Ho Hrun.
  destruct (create_run d buyer payload b vertical w Hout Hw Hlive Hv Hfresh Hnew) as (lists & codes & Hz & Href & Hok).
  assert (Hname : ¬ name_used buyer vertical (cr_rule_set_name payload) (of_rule_sets w)).
  { intros Hu. rewrite Href in Hrun; [done|by left]. }
  destruct (stored_timeout payload) as [t|e] eqn:Et; [|rewrite Href in Hrun; [done|right; by eexists]].
  destruct (Hok t eq_refl Hname) as (entry & _ & Hc). rewrite Hc in Hrun. injection Hrun as <- <-. clear Href Hok Hc.
  match goal with |- context [get_buyer_rule_set _ _ ?w'] => set (w2 := w') end.
  set (r := new_rule_set (draw_rule_set d) buyer vertical payload (stored_config payload) t (of_now w)).
  assert (Hr : rule_set_of buyer (draw_rule_set d) w2 = Some r) by (apply rule_set_of_Some; split; [apply lookup_insert_eq|done]).
  exists (merge_zips (zips_of buyer "blacklist" w2, zips_of buyer "whitelist" w2) (stored_config payload)), r. split; [done|].
  unfold stored_config. rewrite Ho. destruct (stripped_object "zip_blacklist" o) as (o1 & Ho1 & Hg1).
  destruct (stripped_object "zip_whitelist" o1) as (o2 & Ho2 & Hg2). split; [|split].
  - unfold get_buyer_rule_set. rewrite fetch_bind, Hr by done. rewrite eff_lift_bind. cbn [ok_or]. rewrite eff_bind_eq.
    unfold ignore_error, load_zip_codes_from_tables. rewrite !sql_fetch_bind by done. unfold r, new_rule_set at 2, stored_config. simpl. by rewrite Ho.
  - intros k H1 H2. rewrite Ho1, Ho2. unfold merge_zips. rewrite !jget_merge_ne by done. simpl. rewrite Hg2, Hg1 by done. done.
  - intros key list_type Hin. exists (zips_of buyer list_type w2). split; [apply zips_of_NoDup|]. rewrite Ho1, Ho2.
    specialize (λ z, Hz z). unfold zips_added in Hz. cbn zeta in Hz. rewrite Ho in Hz.
    apply elem_of_cons in Hin as [[= -> ->]|[[= -> ->]|Hin%not_elem_of_nil]%elem_of_cons]; [| |done].
    + split; [|intros z; apply Hz]. unfold merge_zips. rewrite jget_merge_ne by done. apply jget_merge_eq.
    + split; [|intros z; apply Hz]. unfold merge_zips. apply jget_merge_eq.
Qed.
End claims.

(** ** Witnesses *)

#[local] Existing Instance plain_platform.
#[local] Existing Instance plain_crypto.
#[local] Existing Instance whole_decimal.
#[local] Existing Instance hundredths_cast.

Definition sample_buyer : Buyer := {|
  buyer_id := 30%N; buyer_name := "Sunny"; buyer_instance_id := 100%N; buyer_instance_user_id := None;
  buyer_vertical_id := Some 3%N; buyer_buyer_integration_id := None; buyer_status := BuyerIncomplete; buyer_deleted_at := None;
  buyer_created_at := 0; buyer_updated_at := 0; buyer_contact_info := json_object []; buyer_ein_tin := None;
  buyer_address_street := None; buyer_address_city := None; buyer_address_state := None; buyer_address_zip := None;
  buyer_email_address := None; buyer_representative_first_name := None; buyer_representative_last_name := None;
  buyer_documents := JArray []; buyer_post_type := Some "full_post"; buyer_buyer_type := Some "internal" |}.

Definition sample_request (name : string) : CreateRuleSetRequest := {|
  cr_rule_set_name := name; cr_timeout_seconds := Some (f64_of_Z 2); cr_enabled := None; cr_is_active := Some true;
  cr_config := Some (json_object [("min_bill", json_of_u64 100);
                                  ("zip_blacklist", JArray [JString " 78702 "; JString "nowhere"; JNull])]);
  cr_rules_order := None |}.

Definition sample_draws : RuleSetDraws := {|
  draw_rule_set := 41%N; draw_blacklist := 51%N; draw_whitelist := 52%N; draw_audit_request := 5%N |}.

(** A buyer with an active rule set and a list of one code. *)
Definition rule_office : Office := {|
  of_instances := []; of_publishers := ∅; of_verticals := []; of_publisher_verticals := []; of_trees := ∅;
  of_tree_publishers := []; of_tree_campaigns := []; of_campaigns := ∅; of_buyers := {[30%N := sample_buyer]};
  of_integrations := [];
  of_rule_sets := {[40%N := new_rule_set 40%N 30%N 3%N (sample_request "Old") (json_object []) (Some (120 # 100)%Q) 0]};
  of_zip_lists := [{| zip_list_id := 50%N; zip_list_buyer_id := 30%N; zip_list_name := "Default Blacklist";
                      zip_list_type := "blacklist"; zip_list_created_at := 0 |}];
  of_zip_codes := [(50%N, "78701")]; of_audit := []; of_now := 1000; of_outcomes := [] |}.

Lemma rule_office_wf : office_wf rule_office.
Proof.
  split; try done; try apply NoDup_nil_2; try apply NoDup_singleton.
  - intros i b. simpl. by intros [<- <-]%lookup_singleton_Some.
  - constructor; [|done]. by exists sample_buyer.
  - constructor; [|done]. split; [by left|done].
Qed.

Lemma rule_office_rows : rule_sets_wf (of_rule_sets rule_office).
Proof.
  split; simpl; [by intros i r [<- <-]%lookup_singleton_Some|].
  by intros i j r s [<- _]%lookup_singleton_Some [<- _]%lookup_singleton_Some.
Qed.

Lemma fresh_sample : fresh_lists sample_draws rule_office.
Proof. split_and!; [by apply (bool_decide_unpack _)|by apply (bool_decide_unpack _)|done]. Qed.

Lemma one_active_rule_set_witness :
  let w' := (run_call office_hash office_key (λ _, None) (CreateRuleSet sample_draws 30%N (sample_request "New")) rule_office).2 in
  is_Some (of_rule_sets w' !! 41%N) ∧ rule_sets_wf (of_rule_sets w').
Proof.
  intros w'. split; [eexists; vm_compute; reflexivity|].
  apply (one_active_rule_set office_hash office_key (λ _, None) rule_office); [|apply rule_office_rows].
  apply rtc_once. constructor.
Defined.

Lemma zips_only_grow_witness :
  let call := UpdateRuleSet sample_draws (sample_user None None) ∅ 30%N 40%N
    (json_object [("config", json_object [("zip_blacklist", JArray [])])]) in
  let r := run_call office_hash office_key (λ _, None) call rule_office in
  r.1 = Ok (success [("message", JString "Rule set updated successfully")]) ∧ "78701" ∈ zips_of 30%N "blacklist" r.2.
Proof.
  intros call r. split; [vm_compute; reflexivity|].
  apply (zips_only_grow office_hash office_key (λ _, None) 30%N "blacklist" "78701" rule_office); [apply rtc_once; constructor|].
  vm_compute. by left.
Defined.

Lemma create_rule_set_spec_witness :
  let r := create_buyer_rule_set sample_draws 30%N (sample_request "Old") rule_office in
  r.1 = Err 500%Z ∧ none_active 30%N None (of_rule_sets r.2).
Proof.
  assert (Ht : stored_timeout (sample_request "Old") = Ok (Some (200 # 100)%Q)) by (vm_compute; reflexivity).
  pose proof (create_rule_set_spec sample_draws 30%N (sample_request "Old") sample_buyer 3%N rule_office
    eq_refl rule_office_wf rule_office_rows eq_refl eq_refl fresh_sample eq_refl) as Hspec.
  cbv zeta in Hspec. rewrite Ht in Hspec. destruct (create_buyer_rule_set sample_draws 30%N (sample_request "Old") rule_office) as [ans w'].
  destruct Hspec as [[Hused _] Hoff].
  assert (He : ans = Err 500%Z).
  { apply Hused. exists 40%N, (new_rule_set 40%N 30%N 3%N (sample_request "Old") (json_object []) (Some (120 # 100)%Q) 0).
    split; [reflexivity|]. split; [reflexivity|]. split; reflexivity. }
  split; [exact He|]. apply (Hoff He). reflexivity.
Defined.

Lemma rule_set_zips_read_back_witness :
  ∃ answer w', create_buyer_rule_set sample_draws 30%N (sample_request "New") rule_office = (Ok answer, w') ∧
  ∃ config row, (get_buyer_rule_set 30%N 41%N w').1 = Ok (success [("rule_set", rule_set_view config row)]) ∧
    jget "min_bill" config = Some (json_of_u64 100) ∧
    ∃ zips, jget "zip_blacklist" config = Some (JArray (JString <$> zips)) ∧ "78701" ∈ zips ∧ "78702" ∈ zips ∧ "nowhere" ∉ zips.
Proof.
  destruct (create_buyer_rule_set sample_draws 30%N (sample_request "New") rule_office) as [r w'] eqn:Er.
  assert (Hr : r = Ok (created_answer sample_draws (sample_request "New"))).
  { change r with (r, w').1. rewrite <-Er. vm_compute. reflexivity. }
  subst r. eexists _, w'. split; [reflexivity|].
  destruct (rule_set_zips_read_back sample_draws 30%N (sample_request "New") sample_buyer 3%N
    (map_of [("min_bill", json_of_u64 100); ("zip_blacklist", JArray [JString " 78702 "; JString "nowhere"; JNull])])
    _ rule_office w' eq_refl rule_office_wf eq_refl eq_refl fresh_sample eq_refl eq_refl Er) as (config & row & _ & Hget & Hk & Hz).
  exists config, row. split; [exact (f_equal fst Hget)|]. split; [by rewrite Hk|].
  destruct (Hz "zip_blacklist" "blacklist") as (zips & _ & Hj & Hin); [by left|]. exists zips. clear Hget Er.
  assert (H1 : "78701" ∈ zips) by (apply Hin; left; vm_compute; by left).
  split; [destruct zips; [by apply not_elem_of_nil in H1|done]|]. split; [done|]. split; [apply Hin; right; vm_compute; by left|].
  rewrite Hin. intros [Hx|Hx]; revert Hx; vm_compute; intros Hx; repeat (apply elem_of_cons in Hx as [Hx|Hx]; [done|]); by apply not_elem_of_nil in Hx.
Defined.
