(* ===== verification/BuyerClaims.v ===== *)
(** * Properties of buyers

    What the creation of an internal buyer sets up, and what an update writes and
    audits. *)

From stdpp Require Import base list strings gmap.
From Stdlib Require Import Ascii String ZArith QArith Lia.
From S2P Require Import Prelude Float64 Platform Json Models Metrics Samples Store WriteBehind.
From S2P Require Import Encryption Accounts Cache ApiAuth Office Campaigns PingTreeAdmin Buyers RuleSets OfficeRuns RuleSetClaims.

Open Scope string_scope.
Open Scope list_scope.

(** ** Columns *)

(** The columns that an update can set, and the rest of the row. *)
Definition buyer_column (column : string) (b : Buyer) : option SqlValue :=
  if String.eqb column "name = " then Some (VText (buyer_name b))
  else if String.eqb column "email_address = " then VText <$> buyer_email_address b
  else if String.eqb column "ein_tin = " then VText <$> buyer_ein_tin b
  else if String.eqb column "address_street = " then VText <$> buyer_address_street b
  else if String.eqb column "address_city = " then VText <$> buyer_address_city b
  else if String.eqb column "address_state = " then VText <$> buyer_address_state b
  else if String.eqb column "address_zip = " then VText <$> buyer_address_zip b
  else if String.eqb column "representative_first_name = " then VText <$> buyer_representative_first_name b
  else if String.eqb column "representative_last_name = " then VText <$> buyer_representative_last_name b
  else if String.eqb column "buyer_integration_id = "
  then Some (match buyer_buyer_integration_id b with Some u => VUuid u | None => VNull end)
  else if String.eqb column "status = " then Some (VBuyerStatus (buyer_status b))
  else None.

Definition buyer_others (b : Buyer) :=
  ((buyer_id b, buyer_instance_id b, buyer_instance_user_id b, buyer_vertical_id b),
   (buyer_deleted_at b, buyer_created_at b, buyer_contact_info b, buyer_documents b), (buyer_post_type b, buyer_buyer_type b)).

Lemma set_buyer_column_spec column v b b' :
  set_buyer_column column v b = Some b' →
  buyer_column column b' = Some v ∧ buyer_others b' = buyer_others b ∧ ∀ c, c ≠ column → buyer_column c b' = buyer_column c b.
Proof.
  assert (Hfinish : ∀ q col, (∀ c, c ≠ col → buyer_column c q = buyer_column c b) → buyer_others q = buyer_others b →
    buyer_column col q = Some v → buyer_column col q = Some v ∧ buyer_others q = buyer_others b ∧
    ∀ c, c ≠ col → buyer_column c q = buyer_column c b) by done.
  unfold set_buyer_column, set_text, texts_of, put_buyer. destruct v; try done.
  all: repeat (match goal with |- context [if String.eqb ?col ?x then _ else _] => destruct (String.eqb_spec col x) as [->|] end;
    [cbn [fmap option_fmap option_map]; intros [= <-]; apply Hfinish; [|done|done]; intros c Hc; unfold buyer_column; simpl;
     repeat match goal with |- context [String.eqb c ?x] => destruct (String.eqb_spec c x); [done|] end; done|]).
  all: done.
Qed.

(** What an update gives, in the order of the statement. *)
Definition integration_sets (parse_uuid : string → option Uuid) (payload : json) : list (string * SqlValue) :=
  match jget "buyer_integration_id" payload with
  | Some JNull | Some (JString "") => [("buyer_integration_id = ", VNull)]
  | Some v => given "buyer_integration_id = " VUuid (s ← as_str v; parse_uuid s)
  | None => []
  end.

Definition buyer_sets (parse_uuid : string → option Uuid) (payload : json) (status : option BuyerStatus) : list (string * SqlValue) :=
  (e ← buyer_texts; given e.1.2 VText (payload_str e.1.1 payload)) ++ integration_sets parse_uuid payload ++
  given "status = " VBuyerStatus status.

Lemma parse_integration parse_uuid payload q sets target :
  parse_update q = Some (sets, target) →
  parse_update (integration_query parse_uuid payload ++ q) = Some (integration_sets parse_uuid payload ++ sets, target).
Proof.
  intros Hq. unfold integration_query, integration_sets.
  assert (Hnull : parse_update ([Sql "buyer_integration_id = NULL, "] ++ q) = Some ([("buyer_integration_id = ", VNull)] ++ sets, target)).
  { cbn [app parse_update]. change (null_set "buyer_integration_id = NULL, ") with (Some "buyer_integration_id = "). by rewrite Hq. }
  destruct (jget "buyer_integration_id" payload) as [[| | |[|a s]| |]|]; try done; by apply parse_push_set.
Qed.

Lemma update_buyer_query_sets parse_uuid payload status id :
  parse_update (update_buyer_query parse_uuid payload status ++ where_buyer_live id) =
    Some (buyer_sets parse_uuid payload status, (id, None)).
Proof.
  unfold update_buyer_query, buyer_sets, buyer_texts. cbn [mbind list_bind fst snd]. rewrite app_nil_r, <-!app_assoc.
  do 9 (apply parse_push_set; [done|]). apply parse_integration. rewrite <-(app_nil_r (given "status = " _ _)).
  by apply parse_push_set.
Qed.

(** Every column of an update can be set. *)
Definition settable_buyer (kv : string * SqlValue) : Prop := ∀ b, is_Some (set_buyer_column kv.1 kv.2 b).

Lemma set_columns_settable sets b : Forall settable_buyer sets → is_Some (set_columns set_buyer_column sets b).
Proof.
  intros Hall. revert b. induction Hall as [|[c v] sets Hc Hall IH]; intros b; [done|]. cbn [set_columns].
  destruct (Hc b) as [b' Hb]. cbn in Hb. rewrite Hb. apply IH.
Qed.

Lemma given_settable_buyer {A} c (f : A → SqlValue) o : (∀ x, settable_buyer (c, f x)) → Forall settable_buyer (given c f o).
Proof. intros Hf. destruct o; [by constructor|done]. Qed.

Lemma buyer_sets_settable parse_uuid payload status : Forall settable_buyer (buyer_sets parse_uuid payload status).
Proof.
  assert (Hi : Forall settable_buyer (integration_sets parse_uuid payload)).
  { unfold integration_sets. assert (Hn : settable_buyer ("buyer_integration_id = ", VNull)) by (intros b; by eexists).
    destruct (jget _ payload) as [[| | |[|a s]| |]|]; try (by repeat constructor); apply given_settable_buyer; intros x b; by eexists. }
  unfold buyer_sets, buyer_texts. cbn [mbind list_bind fst snd]. rewrite !Forall_app.
  split_and!; try done; apply given_settable_buyer; intros x b; by eexists.
Qed.

Lemma buyer_query_nil parse_uuid payload status : update_buyer_query parse_uuid payload status = [] ↔ buyer_sets parse_uuid payload status = [].
Proof.
  assert (Hp : ∀ A c (f : A → SqlValue) o, push_set c f o = [] ↔ given c f o = []) by (intros; unfold push_set, given; by case_match).
  assert (Hi : integration_query parse_uuid payload = [] ↔ integration_sets parse_uuid payload = []).
  { unfold integration_query, integration_sets. destruct (jget _ payload) as [[| | |[|a s]| |]|]; try apply Hp; by split. }
  unfold update_buyer_query, buyer_sets, buyer_texts. cbn [mbind list_bind fst snd]. rewrite !app_nil, Hi, !Hp. tauto.
Qed.

(** ** The audited row *)

Section audited.
Context `{P : Platform}.

Lemma buyer_changes_keys payload b status k :
  k ∈ (buyer_changes payload (Some b) status).*1 → k = "status" ∨ k ∈ (λ e : string * string * (Buyer → string), e.1.1) <$> buyer_texts.
Proof.
  unfold buyer_changes. rewrite fmap_app, elem_of_app. intros [Hk|Hk].
  - right. apply list_elem_of_fmap in Hk as ([k' v] & -> & Hk). apply list_elem_of_bind in Hk as (e & Hk & He).
    destruct (payload_str e.1.1 payload) as [s|]; [|by apply not_elem_of_nil in Hk]. unfold change in Hk.
    destruct (negb _); [|by apply not_elem_of_nil in Hk]. apply list_elem_of_singleton in Hk as [= -> _].
    apply list_elem_of_fmap. by exists e.
  - left. destruct status as [s|]; [|by apply not_elem_of_nil in Hk]. unfold change in Hk.
    destruct (negb _); [|by apply not_elem_of_nil in Hk]. by apply list_elem_of_singleton in Hk.
Qed.

Lemma buyer_after_other changes b k : k ∉ changes.*1 → map_get k (buyer_after changes b) = map_get k (buyer_full b).
Proof.
  unfold buyer_after. generalize (buyer_full b). induction changes as [|[k' v] changes IH]; intros o; [done|]. csimpl.
  rewrite not_elem_of_cons. intros [Hne Hk]. rewrite IH by done. destruct (jget "after" v); [|done]. by apply map_get_insert_ne.
Qed.

(** The integration is never among the changes. *)
Lemma buyer_after_integration payload b status :
  map_get "buyer_integration_id" (buyer_after (buyer_changes payload (Some b) status) b) = Some (uuid_json (buyer_buyer_integration_id b)).
Proof.
  rewrite buyer_after_other; [reflexivity|]. intros [|Hk]%buyer_changes_keys; [done|]. revert Hk. unfold buyer_texts. csimpl.
  intros Hk. repeat (apply elem_of_cons in Hk as [Hk|Hk]; [done|]). by apply not_elem_of_nil in Hk.
Qed.

Lemma live_buyer_Some id w b : live_buyer id w = Some b ↔ of_buyers w !! id = Some b ∧ buyer_deleted_at b = None.
Proof.
  unfold live_buyer. destruct (of_buyers w !! id) as [s|]; simpl; [|naive_solver]. unfold buyer_is_live. case_bool_decide; naive_solver.
Qed.

Lemma audit_update_bind {B} user headers inst action target_type resource target changes before after context (k : unit → handler B) w :
  of_outcomes w = [] →
  ∃ entry, audit_action_type entry = action ∧ audit_resource_id entry = Some resource ∧
    audit_instance_user_id entry = Some (user_id user) ∧ jget "after" (audit_details entry) = Some (default JNull after) ∧
    (audit_update user headers inst action target_type resource target changes before after context ≫= k) w =
      k tt (set_of_audit (of_audit w ++ [entry]) w).
Proof.
  intros Hout. unfold audit_update. eexists {| audit_instance_user_id := Some (user_id user) |}. split; [done|].
  split; [done|]. split; [done|]. split; [|rewrite eff_bind_eq, eff_gets_bind, eff_bind_eq; unfold ignore_error, create_audit_log, execute;
    rewrite statement_healthy by done; reflexivity]. reflexivity.
Qed.

Lemma find_app_none {A} (p : A → bool) (l l' : list A) : List.find p l = None → List.find p (l ++ l') = List.find p l'.
Proof. induction l as [|x l IH]; simpl; [done|]. by destruct (p x). Qed.

Lemma ignore_error_bind {A B} (m : sql A) (k : option A → handler B) w :
  (ignore_error m ≫= k) w = match m w with (Ok a, w') => k (Some a) w' | (Err _, w') => k None w' end.
Proof. rewrite eff_bind_eq. unfold ignore_error. by destruct (m w) as [[]]. Qed.

(** The integration that is found or made for an internal buyer. *)
Lemma select_pulsar_run buyer new_id v w :
  of_outcomes w = [] → List.find (λ x, bool_decide (vertical_id x = vertical_id v)) (of_verticals w) = Some v →
  integration_with new_id w = None →
  ∃ i ints, select_pulsar buyer new_id (vertical_id v) w =
    (Ok tt, set_of_buyers (alter (buyer_with_integration i) buyer (of_buyers w)) (set_of_integrations ints w)) ∧
    match List.find (is_pulsar (vertical_id v)) (of_integrations w) with
    | Some p => i = integration_id p ∧ ints = of_integrations w
    | None => i = new_id ∧ integration_with i (set_of_integrations ints w) =
        if existsb (λ j, String.eqb (integration_slug j) ("pulsar-" +:+ vertical_slug v)) (of_integrations w) then None
        else Some (new_integration new_id v (of_now w))
    end.
Proof.
  intros Hout Hv Hnew. unfold select_pulsar. rewrite ignore_fetch_bind, Hv by done. cbn [mjoin option_join].
  rewrite ignore_fetch_bind by done. rewrite eff_gets_bind. destruct (List.find (is_pulsar _) _) as [p|] eqn:Ep; cbn [fmap option_fmap option_map mjoin option_join].
  - rewrite eff_ret_bind, ignore_error_bind. unfold execute. rewrite statement_healthy by done. exists (integration_id p), (of_integrations w).
    split; [by destruct w|done].
  - rewrite eff_bind_eq, ignore_error_bind. unfold insert_integration. rewrite statement_healthy by done.
    change (integration_id (new_integration new_id v (of_now w))) with new_id.
    change (integration_slug (new_integration new_id v (of_now w))) with ("pulsar-" +:+ vertical_slug v).
    assert (He : existsb (λ j, bool_decide (integration_id j = new_id)) (of_integrations w) = false).
    { apply not_true_iff_false. rewrite existsb_exists. intros (j & Hj & E). unfold integration_with in Hnew.
      by rewrite (find_none _ _ Hnew j Hj) in E. }
    rewrite He. destruct (existsb (λ j, String.eqb _ _) _) eqn:Es.
    + cbn [default]. exists new_id, (of_integrations w). split; [|split; [done|exact Hnew]].
      unfold mret, eff_ret at 1. rewrite ignore_error_bind. unfold execute. rewrite statement_healthy by done. by destruct w.
    + exists new_id, (of_integrations w ++ [new_integration new_id v (of_now w)]). split; [|split; [done|]].
      * unfold mret, eff_ret at 1. rewrite ignore_error_bind. unfold execute. rewrite statement_healthy by done. done.
      * unfold integration_with in *. simpl. rewrite find_app_none by done. simpl. by rewrite bool_decide_eq_true_2.
Qed.
End audited.

(** ** Properties *)

Section claims.
Context `{P : Platform} (parse_uuid : string → option Uuid).

(** what an update does to a live buyer.  A status that is none of the four is
    refused; nothing given is a success without a statement.  Otherwise exactly the
    columns given are set, with the date of the row, whether or not the buyer has what
    [get_buyer] asks for before its activation, and an entry is added to the audit log;
    as the row after the update it shows the integration from before. *)
Theorem update_buyer_spec (request_id : Uuid) (user : User) (headers : gmap string (option string)) (id : Uuid) (payload : json)
    (b : Buyer) (w : Office) :
  of_outcomes w = [] → live_buyer id w = Some b →
  let update := update_buyer parse_uuid request_id user headers id payload w in
  match requested_buyer_status payload with
  | Err s => update = (Ok (failure (invalid_buyer_status s)), w)
  | Ok status =>
      let sets := buyer_sets parse_uuid payload status in
      if bool_decide (sets = []) then update = (Ok buyer_updated, w)
      else ∃ b' entry after,
        update = (Ok buyer_updated, set_of_audit (of_audit w ++ [entry]) (set_of_buyers (<[id := b']> (of_buyers w)) w)) ∧
        buyer_updated_at b' = of_now w ∧ buyer_others b' = buyer_others b ∧
        (∀ c, buyer_column c b' = match last_given c sets with Some v => Some v | None => buyer_column c b end) ∧
        audit_resource_id entry = Some id ∧ audit_instance_user_id entry = Some (user_id user) ∧
        jget "after" (audit_details entry) = Some (JObject after) ∧
        map_get "buyer_integration_id" after = Some (uuid_json (buyer_buyer_integration_id b))
  end.
Proof.
  intros Hout Hlive update. pose proof Hlive as Hl. apply live_buyer_Some in Hl as [Hb Hd].
  assert (Hrun : update = match requested_buyer_status payload with
    | Err s => (Ok (failure (invalid_buyer_status s)), w)
    | Ok status => write_buyer parse_uuid request_id user headers id payload (Some b) status w end).
  { unfold update, update_buyer. rewrite fetch_bind, Hb by done. simpl. rewrite Hd, fetch_bind, Hlive by done.
    by destruct (requested_buyer_status payload). }
  rewrite Hrun. clear Hrun update. destruct (requested_buyer_status payload) as [status|s]; [|done]. cbn zeta.
  unfold write_buyer. case_bool_decide as Hs.
  { by rewrite (proj2 (buyer_query_nil parse_uuid payload status) Hs). }
  pose proof (update_buyer_query_sets parse_uuid payload status id) as Hq.
  destruct (update_buyer_query parse_uuid payload status) as [|f q] eqn:Eq; [by destruct Hs; apply buyer_query_nil|].
  destruct (set_columns_settable (buyer_sets parse_uuid payload status) b (buyer_sets_settable _ _ _)) as [b1 Hb1].
  pose proof (set_columns_columns _ _ _ set_buyer_column_spec _ _ _ Hb1) as [Ho Hc].
  erewrite run_update_bind; [|done|exact Hq|exact Hb|by unfold buyer_is_live; rewrite bool_decide_eq_true_2|exact Hb1].
  cbn zeta. match goal with |- context [(audit_update ?u ?h ?i ?a ?ty ?r ?t ?ch ?be ?af ?ctx ≫= ?k) ?w1] =>
    destruct (audit_update_bind u h i a ty r t ch be af ctx k w1 Hout) as (entry & _ & Hr & Hu & Ha & ->) end.
  exists (touch_buyer (of_now w) b1), entry, (buyer_after (buyer_changes payload (Some b) status) b).
  split; [done|]. split; [done|]. split; [by rewrite <-Ho|]. split; [|split; [done|]; split; [done|]; split; [done|]].
  - intros c. rewrite <-Hc. by unfold buyer_column, touch_buyer, put_buyer, texts_of.
  - apply buyer_after_integration.
Qed.

(** the integration of a new internal buyer.  A buyer of a vertical that is created as
    internal is incomplete and points to an integration: the first internal available one
    of the vertical, or a new one named after it.  When there is none and the slug of the
    new one is in use, the insertion fails, its error is ignored, and the buyer points to
    an integration that does not exist. *)
Theorem internal_buyer_integration (id new_id inst : Uuid) (user : User) (payload : CreateBuyerRequest) (v : Vertical) (w : Office) :
  of_outcomes w = [] → cb_instance_id payload = Some inst → cb_buyer_type payload = Some "internal" →
  cb_vertical_id payload = Some (vertical_id v) →
  List.find (λ x, bool_decide (vertical_id x = vertical_id v)) (of_verticals w) = Some v →
  default "full_post" (cb_post_type payload) ∈ ["full_post"; "ping_post"] →
  (∀ i b, of_buyers w !! i = Some b → buyer_instance_id b = inst → buyer_name b = cb_name payload → buyer_deleted_at b ≠ None) →
  of_buyers w !! id = None → integration_with new_id w = None →
  let pulsar := List.find (is_pulsar (vertical_id v)) (of_integrations w) in
  let slug_used := existsb (λ j, String.eqb (integration_slug j) ("pulsar-" +:+ vertical_slug v)) (of_integrations w) in
  ∃ answer w' b' i, create_buyer id new_id user payload w = (Ok answer, w') ∧ of_buyers w' = <[id := b']> (of_buyers w) ∧
    buyer_status b' = BuyerIncomplete ∧ buyer_buyer_integration_id b' = Some i ∧
    match pulsar with
    | Some p => i = integration_id p ∧ of_integrations w' = of_integrations w
    | None => i = new_id ∧ integration_with i w' = if slug_used then None else Some (new_integration new_id v (of_now w))
    end.
Proof.
  intros Hout Hinst Htype Hvert Hv Hpost Hname Hid Hnew pulsar slug_used. unfold create_buyer. rewrite eff_bind_eq. unfold scope_instance.
  rewrite Hinst. cbn [mret eff_ret].
  assert (Hp : negb (String.eqb (default "full_post" (cb_post_type payload)) "full_post") &&
    negb (String.eqb (default "full_post" (cb_post_type payload)) "ping_post") = false).
  { apply elem_of_cons in Hpost as [->|Hpost]; [done|]. by apply list_elem_of_singleton in Hpost as ->. }
  rewrite Hp. unfold refused_type. rewrite Htype. cbn [String.eqb Ascii.eqb Bool.eqb negb andb].
  rewrite fetch_bind by done. destruct (existsb _ (map_to_list (of_buyers w)).*2) eqn:Ee.
  { apply existsb_exists in Ee as (b & Hin & Hb). apply list_elem_of_In, list_elem_of_fmap in Hin as ([i c] & -> & Hin).
    apply elem_of_map_to_list in Hin. apply andb_true_iff in Hb as [[Hi%bool_decide_eq_true Hn%String.eqb_eq]%andb_true_iff Hl].
    unfold buyer_is_live in Hl. apply bool_decide_eq_true in Hl. by destruct (Hname i c Hin Hi Hn). }
  rewrite eff_gets_bind, eff_bind_eq. unfold eff_try, insert_buyer. rewrite statement_healthy by done.
  change (buyer_id (new_buyer id inst payload (of_now w))) with id.
  rewrite bool_decide_eq_false_2 by (rewrite Hid; by intros []). set (w1 := set_of_buyers _ w).
  unfold finish_buyer. rewrite Htype, Hvert. destruct (select_pulsar_run id new_id v w1) as (i & ints & Hsel & Hints); [done|done|done|].
  rewrite eff_bind_eq, Hsel. set (b' := buyer_with_integration i (new_buyer id inst payload (of_now w))).
  rewrite ignore_fetch_bind by done.
  match goal with |- context [(audit_buyer ?i ?a ?id ?det ?aff ≫= ?k) ?w2] =>
    destruct (audit_buyer_bind i a id det aff k w2 Hout) as (entry & _ & _ & _ & ->) end.
  eexists _, _, b', i. split; [reflexivity|]. split.
  { unfold w1. simpl. apply map_eq. intros j. destruct (decide (j = id)) as [->|].
    - by rewrite lookup_alter_eq, !lookup_insert_eq.
    - by rewrite lookup_alter_ne, !lookup_insert_ne by done. }
  split; [done|]. split; [done|]. exact Hints.
Qed.
End claims.

(** ** Witnesses *)

#[local] Existing Instance plain_platform.

(** The buyer lacks an address and an integration, and is activated. *)
Lemma update_buyer_spec_witness :
  can_activate sample_buyer = false ∧
  ∃ b', of_buyers (update_buyer (λ _, None) 5%N (sample_user None None) ∅ 30%N (json_object [("status", JString "active")]) rule_office).2
        = {[30%N := b']} ∧ buyer_column "status = " b' = Some (VBuyerStatus BuyerActive).
Proof.
  split; [reflexivity|].
  pose proof (update_buyer_spec (λ _, None) 5%N (sample_user None None) ∅ 30%N (json_object [("status", JString "active")]) sample_buyer
    rule_office eq_refl eq_refl) as Hspec. cbv zeta in Hspec.
  change (requested_buyer_status (json_object [("status", JString "active")])) with (Ok (Some BuyerActive) : Result string _) in Hspec.
  cbv beta iota in Hspec. rewrite bool_decide_eq_false_2 in Hspec by done. destruct Hspec as (b' & entry & after & Hr & _ & _ & Hc & _).
  exists b'. split; [rewrite Hr; apply insert_singleton_eq|]. exact (Hc "status = ").
Defined.

Definition sample_vertical : Vertical := {|
  vertical_id := 3%N; vertical_name := "Home"; vertical_slug := "home"; vertical_is_active := true; vertical_created_at := 0;
  vertical_updated_at := 0 |}.

(** The integration of the vertical is hidden. *)
Definition hidden_office : Office :=
  let i := new_integration 60%N sample_vertical 0 in {|
  of_instances := []; of_publishers := ∅; of_verticals := [sample_vertical]; of_publisher_verticals := []; of_trees := ∅;
  of_tree_publishers := []; of_tree_campaigns := []; of_campaigns := ∅; of_buyers := ∅;
  of_integrations := [{| integration_id := integration_id i; integration_name := integration_name i;
    integration_slug := integration_slug i; integration_vertical_id := integration_vertical_id i;
    integration_description := integration_description i; integration_configuration_template := integration_configuration_template i;
    integration_default_timeout := integration_default_timeout i; integration_posting_url_template := integration_posting_url_template i;
    integration_is_internal := true; integration_status := "hidden"; integration_created_at := 0; integration_updated_at := 0 |}];
  of_rule_sets := ∅; of_zip_lists := []; of_zip_codes := []; of_audit := []; of_now := 1000; of_outcomes := [] |}.

Definition internal_request : CreateBuyerRequest := {|
  cb_name := "Pulsar Home"; cb_instance_id := Some 100%N; cb_post_type := None; cb_vertical_id := Some 3%N;
  cb_buyer_type := Some "internal"; cb_email_address := None; cb_ein_tin := None; cb_address_street := None; cb_address_city := None;
  cb_address_state := None; cb_address_zip := None; cb_representative_first_name := None; cb_representative_last_name := None |}.

Lemma internal_buyer_integration_witness :
  ∃ answer w' b', create_buyer 31%N 61%N (sample_user None None) internal_request hidden_office = (Ok answer, w') ∧
    of_buyers w' = {[31%N := b']} ∧ buyer_buyer_integration_id b' = Some 61%N ∧ integration_with 61%N w' = None.
Proof.
  destruct (internal_buyer_integration 31%N 61%N 100%N (sample_user None None) internal_request sample_vertical hidden_office)
    as (answer & w' & b' & i & Hr & Hb & _ & Hi & Hm); try reflexivity.
  - apply list_elem_of_In. left. reflexivity.
  - intros i b. simpl. by intros ?%lookup_empty_Some.
  - destruct Hm as [Hid Hm]. subst i. exists answer, w', b'. split; [exact Hr|]. split; [rewrite Hb; apply insert_empty|]. split; [exact Hi|].
    rewrite Hm. vm_compute. reflexivity.
Defined.
