(* ===== verification/OfficeClaims.v ===== *)
(** * Properties of the back office

    What a call of the campaign and ping tree handlers does, what any run of the back
    office keeps, and what the router ([Models.v]) then finds in the tables. *)

From stdpp Require Import base list strings gmap relations pretty.
From Stdlib Require Import Ascii String ZArith QArith Qround Lia.
From S2P Require Import Prelude Float64 Platform Json Models Metrics Samples Store WriteBehind.
From S2P Require Import Encryption Accounts Cache ApiAuth Office Campaigns PingTreeAdmin Buyers RuleSets OfficeRuns.

Open Scope string_scope.
Open Scope list_scope.

(** ** The tables the router reads *)

(** [db]: the tables the back office does not write here. *)
Definition tables_of (w : Office) (db : Tables) : Tables := {|
  ping_trees := (map_to_list (of_trees w)).*2; ping_tree_publishers := of_tree_publishers w;
  ping_tree_campaigns := of_tree_campaigns w; campaigns := (map_to_list (of_campaigns w)).*2; buyers := (map_to_list (of_buyers w)).*2;
  buyer_integrations := of_integrations w; buyer_qualification_configs := buyer_qualification_configs db |}.

(** The tree a publisher is assigned to for a vertical. *)
Definition assigned_tree (publisher : Uuid) (vertical : string) (w : Office)
    : option (PingTree * option Decimal * option Decimal) :=
  a ← List.find (λ a, bool_decide (publisher_slot a = (publisher, vertical))) (of_tree_publishers w);
  t ← live_tree (ptp_ping_tree_id a) w;
  Some (t, ptp_revshare_percentage a, ptp_revshare_flat_amount a).

(** The campaigns of a tree that take part: enabled memberships of active campaigns. *)
Definition takes_part (tree : Uuid) (w : Office) (m : PingTreeCampaign) : bool :=
  bool_decide (ptc_ping_tree_id m = tree) && ptc_enabled m &&
  match of_campaigns w !! ptc_campaign_id m with Some c => Campaign_active c | None => false end.

(** ** Lemmas *)

Lemma elem_of_values_inv {R} (m : gmap Uuid R) r : r ∈ (map_to_list m).*2 → ∃ i, m !! i = Some r.
Proof. intros ([i q] & -> & Hin)%list_elem_of_fmap. exists i. by apply elem_of_map_to_list. Qed.

Lemma find_first {A} (p : A → bool) (l : list A) x : List.find p l = Some x → x ∈ l ∧ p x = true.
Proof. intros Hx. apply find_some in Hx as [Hin Hp]. by rewrite list_elem_of_In. Qed.

(** A list whose elements are all [x] has [x] first, after sorting too. *)
Lemma head_sort_only {A} (cmp : A → A → comparison) (l : list A) x :
  (∀ y, y ∈ l → y = x) → x ∈ l → head (sort_by cmp l) = Some x.
Proof.
  intros Hall Hx. destruct (sort_by cmp l) as [|y l'] eqn:E.
  - apply (elem_of_sort_by cmp) in Hx. rewrite E in Hx. by apply not_elem_of_nil in Hx.
  - cbn. f_equal. apply Hall. apply (elem_of_sort_by cmp). rewrite E. by left.
Qed.

Lemma head_sort_none {A} (cmp : A → A → comparison) (l : list A) : (∀ y, y ∈ l → False) → head (sort_by cmp l) = None.
Proof.
  intros Hall. destruct (sort_by cmp l) as [|y l'] eqn:E; [done|]. destruct (Hall y). apply (elem_of_sort_by cmp). rewrite E. by left.
Qed.

(** The join of [find_for_routing]: a row per assignment to a live tree. *)
Lemma routing_rows w db publisher vertical row :
  office_wf w →
  row ∈ (pt ← ping_trees (tables_of w db); ptp ← ping_tree_publishers (tables_of w db);
         if bool_decide (tree_id pt = ptp_ping_tree_id ptp) && bool_decide (ptp_publisher_id ptp = publisher)
            && String.eqb (tree_vertical pt) vertical && bool_decide (tree_deleted_at pt = None)
         then [(pt, ptp_revshare_percentage ptp, ptp_revshare_flat_amount ptp)] else []) ↔
  ∃ a t, a ∈ of_tree_publishers w ∧ publisher_slot a = (publisher, vertical) ∧ live_tree (ptp_ping_tree_id a) w = Some t ∧
    row = (t, ptp_revshare_percentage a, ptp_revshare_flat_amount a).
Proof.
  intros Hw. rewrite list_elem_of_bind. split.
  - intros (t & Hrow & Ht). apply list_elem_of_bind in Hrow as (a & Hrow & Ha).
    destruct (bool_decide (tree_id t = _)) eqn:E1; [|by apply not_elem_of_nil in Hrow].
    destruct (bool_decide (ptp_publisher_id a = _)) eqn:E2; [|by apply not_elem_of_nil in Hrow].
    destruct (String.eqb_spec (tree_vertical t) vertical) as [<-|]; [|by apply not_elem_of_nil in Hrow].
    destruct (bool_decide (tree_deleted_at t = None)) eqn:E3; [|by apply not_elem_of_nil in Hrow].
    apply bool_decide_eq_true in E1, E2, E3. apply list_elem_of_singleton in Hrow as ->.
    apply elem_of_values_inv in Ht as [i Ht]. pose proof (wf_trees w Hw _ _ Ht) as <-. exists a, t. split; [done|].
    pose proof (wf_assignments w Hw) as Hall. rewrite Forall_forall in Hall. destruct (Hall a Ha) as (_ & s & Hs & Hv).
    rewrite <-E1 in Hs. simplify_eq. split; [unfold publisher_slot; congruence|]. split; [|done]. apply live_tree_Some. by rewrite <-E1.
  - intros (a & t & Ha & [= Hp Hv] & Hl & ->). apply live_tree_Some in Hl as [Ht Hd]. exists t.
    split; [|by eapply elem_of_values]. apply list_elem_of_bind. exists a. split; [|done].
    pose proof (wf_assignments w Hw) as Hall. rewrite Forall_forall in Hall. destruct (Hall a Ha) as (_ & s & Hs & Hvs).
    assert (s = t) as -> by congruence. rewrite (wf_trees w Hw _ _ Ht), Hvs, Hv, String.eqb_refl, !bool_decide_eq_true_2 by done. by apply list_elem_of_singleton.
Qed.

Lemma assigned_tree_Some w publisher vertical row :
  office_wf w →
  assigned_tree publisher vertical w = Some row ↔
  ∃ a t, a ∈ of_tree_publishers w ∧ publisher_slot a = (publisher, vertical) ∧ live_tree (ptp_ping_tree_id a) w = Some t ∧
    row = (t, ptp_revshare_percentage a, ptp_revshare_flat_amount a).
Proof.
  intros Hw. unfold assigned_tree. split.
  - intros Hrow. destruct (List.find _ _) as [a|] eqn:Ea; [|done]. apply find_first in Ea as [Ha Hs%bool_decide_eq_true].
    cbn in Hrow. destruct (live_tree _ w) as [t|] eqn:Et; [|done]. injection Hrow as <-. by exists a, t.
  - intros (a & t & Ha & Hs & Ht & ->). destruct (List.find _ _) as [b|] eqn:Eb.
    + apply find_first in Eb as [Hb Hsb%bool_decide_eq_true].
      assert (b = a) as -> by (eapply (NoDup_fmap_inj publisher_slot); [apply (wf_publisher_slots w Hw)|done|done|congruence]).
      cbn. by rewrite Ht.
    + apply list_elem_of_In in Ha. eapply find_none in Eb; [|exact Ha]. simpl in Eb. by rewrite bool_decide_eq_true_2 in Eb.
Qed.

(** A join with the at most one row that fits. *)
Lemma bind_at_most_one {A B} (p : A → bool) (l : list A) (b : B) :
  NoDup l → (∀ x y, x ∈ l → y ∈ l → p x = true → p y = true → x = y) →
  (x ← l; if p x then [b] else []) = if existsb p l then [b] else [].
Proof.
  induction l as [|x l IH]; [done|]. intros [Hx Hl]%NoDup_cons Hone. rewrite bind_cons, IH; [|done|].
  - cbn [existsb]. destruct (p x) eqn:Ep; [|done]. cbn [orb]. destruct (existsb p l) eqn:E; [|done].
    apply existsb_exists in E as (y & Hy%list_elem_of_In & Hpy). destruct Hx.
    by rewrite (Hone x y) by first [done|by left|by right].
  - intros y z Hy Hz. apply Hone; by right.
Qed.

Lemma bind_if_filter {A} (p : A → bool) (l : list A) : (x ← l; if p x then [x] else []) = List.filter p l.
Proof. induction l as [|x l IH]; [done|]. rewrite bind_cons, IH. cbn. by destruct (p x). Qed.

Lemma NoDup_values {R} (key : R → Uuid) (m : gmap Uuid R) :
  (∀ i r, m !! i = Some r → key r = i) → NoDup (key <$> (map_to_list m).*2).
Proof.
  intros Hkey. replace (key <$> (map_to_list m).*2) with (map_to_list m).*1; [apply NoDup_fst_map_to_list|].
  rewrite <-list_fmap_compose. apply list_fmap_ext. intros k [i r] Hk. apply list_elem_of_lookup_2, elem_of_map_to_list in Hk.
  simpl. by rewrite (Hkey i r).
Qed.

(** The campaigns of a tree that the router reads, without the join. *)
Lemma enabled_is_taking_part w db tree :
  office_wf w →
  find_enabled_for_ping_tree (tables_of w db) tree =
    sort_by (λ a b, priority_order (ptc_priority a) (ptc_created_at a) (ptc_priority b) (ptc_created_at b))
      (List.filter (takes_part tree w) (of_tree_campaigns w)).
Proof.
  intros Hw. unfold find_enabled_for_ping_tree. f_equal. rewrite <-bind_if_filter. apply list_bind_ext; [|done]. intros m.
  pose proof (NoDup_values campaign_id _ (wf_campaigns w Hw)) as Hnd. cbn [tables_of campaigns].
  rewrite (bind_at_most_one (λ c, bool_decide (ptc_campaign_id m = campaign_id c) && bool_decide (ptc_ping_tree_id m = tree) &&
    ptc_enabled m && bool_decide (campaign_status c = CampaignActive) && bool_decide (campaign_deleted_at c = None))).
  - apply (f_equal (λ b : bool, if b then [m] else [])), eq_true_iff_eq. rewrite existsb_exists. unfold takes_part, Campaign_active. split.
    + intros (c & Hc & Hp). apply list_elem_of_In, elem_of_values_inv in Hc as [i Hc].
      repeat rewrite andb_true_iff in Hp. destruct Hp as ((((H1%bool_decide_eq_true & H2) & H3) & H4) & H5).
      pose proof (wf_campaigns w Hw _ _ Hc) as <-. by rewrite H1, Hc, H2, H3, H4, H5.
    + intros Hp. destruct (of_campaigns w !! ptc_campaign_id m) as [c|] eqn:Ec; [|by rewrite andb_false_r in Hp].
      repeat rewrite andb_true_iff in Hp. destruct Hp as ((H2 & H3) & H4 & H5). exists c.
      split; [by eapply list_elem_of_In, elem_of_values|].
      by rewrite (bool_decide_eq_true_2 (_ = campaign_id c)), H2, H3, H4, H5 by (symmetry; by apply (wf_campaigns w Hw)).
  - by eapply NoDup_fmap_1.
  - intros c d Hc Hd Hpc Hpd. repeat rewrite andb_true_iff in Hpc, Hpd.
    destruct Hpc as ((((H1%bool_decide_eq_true & _) & _) & _) & _), Hpd as ((((H2%bool_decide_eq_true & _) & _) & _) & _).
    eapply (NoDup_fmap_inj campaign_id); [exact Hnd|done|done|congruence].
Qed.

(** ** Properties *)

(** routing and assignments.  In well-formed tables the router finds, for a publisher and
    a vertical, the tree of the publisher's assignment for that vertical with its revenue
    share, when that tree is not deleted, and nothing otherwise: the order by priority never
    decides. *)
Theorem routing_is_assignment w db publisher vertical :
  office_wf w → find_for_routing (tables_of w db) publisher vertical = assigned_tree publisher vertical w.
Proof.
  intros Hw. unfold find_for_routing. destruct (assigned_tree publisher vertical w) as [row|] eqn:Ea.
  - apply head_sort_only.
    + intros y Hy. apply routing_rows in Hy; [|done]. apply (assigned_tree_Some w publisher vertical y Hw) in Hy. congruence.
    + apply routing_rows; [done|]. by apply assigned_tree_Some.
  - apply head_sort_none. intros y Hy. apply routing_rows in Hy; [|done].
    apply (assigned_tree_Some w publisher vertical y Hw) in Hy. congruence.
Qed.

Section claims.
Context `{P : Platform} `{C : Crypto} `{D : DecimalText} `{N : DecimalCast} (sha256_hex : string → string) (encryption_key : string)
  (parse_uuid : string → option Uuid).
#[local] Abbreviation reaches := (office_reaches sha256_hex encryption_key parse_uuid).

Lemma audit_office_bind {B} inst action resource id details affected (k : unit → handler B) w :
  of_outcomes w = [] →
  ∃ entry, audit_action_type entry = action ∧ audit_resource_id entry = Some id ∧ audit_instance_id entry = Some inst ∧
    (audit_office inst action resource id details affected ≫= k) w = k tt (set_of_audit (of_audit w ++ [entry]) w).
Proof.
  intros Hout. eexists {| audit_action_type := action; audit_resource_id := Some id; audit_instance_id := Some inst |}.
  split; [done|]. split; [done|]. split; [done|]. rewrite eff_bind_eq. unfold audit_office. rewrite eff_gets_bind, eff_bind_eq.
  unfold ignore_error, create_audit_log, execute. by rewrite statement_healthy.
Qed.

Lemma delete_tree_run tree t w :
  of_outcomes w = [] → live_tree tree w = Some t →
  ∃ entry, audit_action_type entry = "ping_tree_deleted" ∧ delete_ping_tree tree w =
    (Ok (success [("message", JString "Ping tree deleted successfully")]),
     set_of_audit (of_audit w ++ [entry]) (set_of_trees (alter (tree_with_deleted_at (of_now w)) tree (of_trees w)) w)).
Proof.
  intros Hout Ht. unfold delete_ping_tree. rewrite fetch_bind, Ht by done. rewrite eff_lift_bind. cbn [ok_or].
  rewrite ignore_fetch_bind by done. rewrite execute_bind by done.
  match goal with |- context [(audit_office ?i ?a ?r ?d ?det ?aff ≫= ?k) ?w1] =>
    destruct (audit_office_bind i a r d det aff k w1 Hout) as (e & He & _ & _ & ->) end.
  by exists e.
Qed.

(** A slot that is taken stays taken. *)
Lemma create_taken id tree publisher vertical p f w x :
  (publisher, vertical) ∈ publisher_slot <$> of_tree_publishers w →
  (PingTreePublisher_create id tree publisher vertical p f w).1 ≠ Ok x.
Proof.
  intros Hin. unfold PingTreePublisher_create. destruct (apply_defaults p f) as [p' f']. rewrite eff_lift_bind.
  destruct (map_err _ _); [|done]. rewrite eff_bind_eq.
  destruct (fetch_cases (λ w, tree_vertical <$> live_tree tree w) w) as (outcomes & [->|(e0 & ->)]); [|done].
  rewrite eff_lift_bind. destruct (ok_or _ _); [|done]. destruct (negb _); [done|].
  assert (Hex : ∀ id, existsb (λ a, bool_decide (ptp_id a = id) ||
                  (bool_decide (ptp_publisher_id a = publisher) && String.eqb (ptp_vertical a) vertical) ||
                  (bool_decide (ptp_ping_tree_id a = tree) && bool_decide (ptp_publisher_id a = publisher)))
                  (of_tree_publishers w) = true).
  { intros i. apply existsb_exists. apply list_elem_of_fmap in Hin as (a & [= -> ->] & Ha). exists a.
    split; [by apply list_elem_of_In|]. by rewrite String.eqb_refl, (bool_decide_eq_true_2 (ptp_publisher_id a = _)), orb_true_r. }
  unfold insert_assignment, statement. cbn [of_outcomes set_of_outcomes].
  destruct outcomes as [|[e|] rest]; [|done|]; (destruct (stored_shares p' f') as [[p1 f1]|]; [|done]);
    (destruct (negb _); [done|]); cbn [of_tree_publishers set_of_outcomes]; by rewrite Hex.
Qed.

Lemma stranded_slot tree publisher vertical w :
  stranded tree publisher vertical w →
  ∃ a, a ∈ of_tree_publishers w ∧ tree_slot a = (tree, publisher) ∧ publisher_slot a = (publisher, vertical).
Proof.
  intros [Hw (t & Ht & _ & Hv) Ha]. apply list_elem_of_fmap in Ha as (a & [= -> ->] & Hin). exists a. split; [done|].
  split; [done|]. pose proof (wf_assignments w Hw) as Hall. rewrite Forall_forall in Hall.
  destruct (Hall a Hin) as (_ & s & Hs & Hvs). assert (s = t) as -> by congruence. unfold publisher_slot. congruence.
Qed.

(** C13: a deleted ping tree strands its publishers.  After its deletion no sequence of calls
    takes the publisher out of the tree, none adds it to another tree of that vertical, and
    the router finds no tree for it. *)
Theorem deleted_tree_strands_publisher tree publisher t w w' db :
  office_wf w → of_outcomes w = [] → live_tree tree w = Some t → (tree, publisher) ∈ tree_slot <$> of_tree_publishers w →
  reaches (delete_ping_tree tree w).2 w' →
  find_for_routing (tables_of w' db) publisher (tree_vertical t) = None ∧
  (∀ answer, (remove_publisher_from_ping_tree tree publisher w').1 ≠ Ok answer) ∧
  ∀ id other s payload answer, of_trees w' !! other = Some s → tree_vertical s = tree_vertical t →
    ap_publisher_id payload = publisher → (add_publisher_to_ping_tree id other payload w').1 ≠ Ok answer.
Proof.
  intros Hw Hout Ht Hin Hr. destruct (delete_tree_run tree t w Hout Ht) as (e & _ & Hd). rewrite Hd in Hr. cbn [snd] in Hr.
  apply live_tree_Some in Ht as [Ht Hlive]. match type of Hr with reaches ?w1 _ => assert (Hs : stranded tree publisher (tree_vertical t) w1) end.
  { split; [apply oi_audit; rewrite alter_insert, Ht; by eapply oi_tree| |done]. exists (tree_with_deleted_at (of_now w) t).
    split; [|done]. simpl. by rewrite lookup_alter_eq, Ht. }
  apply (preserves_reaches _ _ _ (stranded tree publisher (tree_vertical t)) _ _ Hr) in Hs. clear Hr Hd.
  destruct (stranded_slot _ _ _ _ Hs) as (a & Ha & [= Ha1 Ha2] & Hsa). pose proof (stranded_wf _ _ _ _ Hs) as Hw'. split; [|split].
  - unfold find_for_routing. apply head_sort_none. intros y Hy. apply routing_rows in Hy as (b & s & Hb & Hsb & Hl & _); [|done].
    assert (b = a) as -> by (eapply (NoDup_fmap_inj publisher_slot); [apply (wf_publisher_slots w' Hw')|done|done|congruence]).
    rewrite Ha1 in Hl. pose proof (stranded_not_live tree publisher (tree_vertical t) w' (of_outcomes w') Hs) as Hn.
    change (live_tree tree (set_of_outcomes (of_outcomes w') w')) with (live_tree tree w') in Hn. congruence.
  - intros answer. unfold remove_publisher_from_ping_tree. rewrite eff_bind_eq. unfold or_status at 1.
    destruct (fetch_cases (live_tree tree) w') as (outcomes & [->|(e0 & ->)]); [|done].
    rewrite eff_lift_bind. by rewrite (stranded_not_live tree publisher (tree_vertical t)).
  - intros id other s payload answer Hother Hv Hp. unfold add_publisher_to_ping_tree. rewrite eff_bind_eq. unfold or_status at 1.
    destruct (fetch_cases (live_tree other) w') as (outcomes & [->|(e0 & ->)]); [|done]. rewrite eff_lift_bind.
    destruct (live_tree other _) as [r|] eqn:Er; [|done]. apply live_tree_Some in Er as [Er _]. simpl in Er.
    assert (r = s) as -> by congruence. cbn [ok_or]. rewrite eff_bind_eq. unfold or_status at 1.
    destruct (fetch_cases (live_publisher (ap_publisher_id payload)) (set_of_outcomes outcomes w')) as (outcomes' & [->|(e0 & ->)]); [|done].
    rewrite eff_lift_bind. destruct (ok_or _ _); [|done]. rewrite eff_bind_eq. unfold or_status.
    match goal with |- context [PingTreePublisher_create ?i ?tr ?pu ?ve ?pc ?fl ?w1] =>
      pose proof (create_taken i tr pu ve pc fl w1) as Hc; destruct (PingTreePublisher_create i tr pu ve pc fl w1) as [[x|] w2] end; [|done].
    destruct (Hc x); [|done]. rewrite Hv, Hp. apply list_elem_of_fmap. by exists a.
Qed.
End claims.

Section specs.
Context `{P : Platform} `{D : DecimalText} (parse_uuid : string → option Uuid).

Lemma assignment_of_tree_slot w tree t a :
  office_wf w → of_trees w !! tree = Some t → a ∈ of_tree_publishers w → ptp_ping_tree_id a = tree → ptp_vertical a = tree_vertical t.
Proof.
  intros Hw Ht Ha <-. pose proof (wf_assignments w Hw) as Hall. rewrite Forall_forall in Hall.
  destruct (Hall a Ha) as (_ & s & Hs & Hv). congruence.
Qed.

(** The uniqueness checks of the insertion, for a new id. *)
Lemma assignment_conflict w id tree t publisher :
  office_wf w → of_trees w !! tree = Some t → id ∉ ptp_id <$> of_tree_publishers w →
  existsb (λ a, bool_decide (ptp_id a = id) ||
    (bool_decide (ptp_publisher_id a = publisher) && String.eqb (ptp_vertical a) (tree_vertical t)) ||
    (bool_decide (ptp_ping_tree_id a = tree) && bool_decide (ptp_publisher_id a = publisher))) (of_tree_publishers w) =
  existsb (λ a, bool_decide (publisher_slot a = (publisher, tree_vertical t))) (of_tree_publishers w).
Proof.
  intros Hw Ht Hid. apply eq_true_iff_eq. rewrite !existsb_exists. split; intros (a & Ha & Hp); exists a; (split; [done|]).
  - apply bool_decide_eq_true. unfold publisher_slot. apply orb_true_iff in Hp as [[Hp|Hp]%orb_true_iff|Hp].
    + apply bool_decide_eq_true in Hp. destruct Hid. apply list_elem_of_fmap. exists a. by rewrite list_elem_of_In.
    + apply andb_true_iff in Hp as [Hp%bool_decide_eq_true Hv%String.eqb_eq]. congruence.
    + apply andb_true_iff in Hp as [Htr%bool_decide_eq_true Hp%bool_decide_eq_true].
      rewrite (assignment_of_tree_slot w tree t a Hw Ht) by (by rewrite ?list_elem_of_In). congruence.
  - apply bool_decide_eq_true in Hp. injection Hp as Hp Hv.
    by rewrite Hv, String.eqb_refl, (bool_decide_eq_true_2 (ptp_publisher_id a = _)), orb_true_r by done.
Qed.

(** The router finds the tree of an assignment. *)
Lemma assignment_routed w db a t :
  office_wf w → a ∈ of_tree_publishers w → live_tree (ptp_ping_tree_id a) w = Some t →
  find_for_routing (tables_of w db) (ptp_publisher_id a) (ptp_vertical a) =
    Some (t, ptp_revshare_percentage a, ptp_revshare_flat_amount a).
Proof.
  intros Hw Ha Ht. unfold find_for_routing. apply head_sort_only; [|apply routing_rows; [done|]; by exists a, t].
  intros y Hy. apply routing_rows in Hy as (b & s & Hb & Hsb & Hl & ->); [|done].
  assert (b = a) as -> by (eapply (NoDup_fmap_inj publisher_slot); [apply (wf_publisher_slots w Hw)|done|done|done]).
  by simplify_eq.
Qed.

Lemma insert_assignment_run w id tree t publisher p f :
  office_wf w → of_outcomes w = [] → of_trees w !! tree = Some t → is_Some (of_publishers w !! publisher) →
  id ∉ ptp_id <$> of_tree_publishers w →
  let taken := existsb (λ a, bool_decide (publisher_slot a = (publisher, tree_vertical t))) (of_tree_publishers w) in
  let r := insert_assignment id tree publisher (tree_vertical t) p f w in
  match stored_shares p f, taken with
  | Ok shares, false =>
      let a := new_assignment id tree publisher (tree_vertical t) shares (of_now w) in
      r = (Ok a, set_of_tree_publishers (of_tree_publishers w ++ [a]) w)
  | _, _ => ∃ e, r = (Err e, w)
  end.
Proof.
  intros Hw Hout Ht Hp Hid. cbn zeta. unfold insert_assignment. rewrite statement_healthy by done.
  destruct (stored_shares p f) as [[p1 f1]|e]; [|by exists e]. rewrite Ht, !(bool_decide_eq_true_2 (is_Some _)) by done.
  cbn [andb negb]. rewrite (assignment_conflict w id tree t) by done. by destruct (existsb _ _); [eexists|].
Qed.

Lemma fetch_string_bind {A B} (f : Office → A) (k : A → sql B) w : of_outcomes w = [] → (fetch f ≫= k) w = k (f w) w.
Proof. intros Hout. rewrite eff_bind_eq. unfold fetch. by rewrite statement_healthy. Qed.

(** what assigning a publisher to a ping tree does.  The given share is read as a decimal
    number, a number that is none counts as absent, and without a share it is 80 percent.
    Both shares, one out of range, or one with too many digits are refused, and so is a
    publisher that has an assignment for the vertical of the tree; nothing changes then.
    Otherwise the router sends the publisher's leads of the vertical to this tree, with the
    share in hundredths. *)
Theorem add_publisher_spec id tree t payload w db :
  office_wf w → of_outcomes w = [] → live_tree tree w = Some t → is_Some (live_publisher (ap_publisher_id payload) w) →
  id ∉ ptp_id <$> of_tree_publishers w →
  let given := apply_defaults (decimal_of_f64 (ap_revshare_percentage payload)) (decimal_of_f64 (ap_revshare_flat_amount payload)) in
  let taken := existsb (λ a, bool_decide (publisher_slot a = (ap_publisher_id payload, tree_vertical t))) (of_tree_publishers w) in
  match validate_revshare given.1 given.2, stored_shares given.1 given.2, taken with
  | Ok _, Ok shares, false =>
      ∃ answer w', add_publisher_to_ping_tree id tree payload w = (Ok answer, w') ∧
        find_for_routing (tables_of w' db) (ap_publisher_id payload) (tree_vertical t) = Some (t, shares.1, shares.2)
  | _, _, _ => add_publisher_to_ping_tree id tree payload w = (Err 500%Z, w)
  end.
Proof.
  intros Hw Hout Hlive [p Hp] Hid given taken. pose proof Hlive as Ht. apply live_tree_Some in Ht as [Ht Hd].
  assert (Hrun : add_publisher_to_ping_tree id tree payload w =
    (a ← or_status 500 (PingTreePublisher_create id tree (ap_publisher_id payload) (tree_vertical t)
        (decimal_of_f64 (ap_revshare_percentage payload)) (decimal_of_f64 (ap_revshare_flat_amount payload)));
     mret (success [
       ("assignment", json_object [
          ("id", JString (uuid_to_string (ptp_id a))); ("publisher_id", JString (uuid_to_string (ptp_publisher_id a)));
          ("revshare_percentage", decimal_as_json (ptp_revshare_percentage a));
          ("revshare_flat_amount", decimal_as_json (ptp_revshare_flat_amount a))]);
       ("message", JString "Publisher added to ping tree successfully")])) w).
  { unfold add_publisher_to_ping_tree. rewrite fetch_bind, Hlive by done. rewrite eff_lift_bind. cbn [ok_or].
    rewrite fetch_bind, Hp by done. by rewrite eff_lift_bind. }
  rewrite Hrun, eff_bind_eq. unfold or_status, PingTreePublisher_create. subst given.
  destruct (apply_defaults _ _) as [p' f'] eqn:Eg. cbn [fst snd]. rewrite eff_lift_bind.
  destruct (validate_revshare p' f') as [[]|e] eqn:Ev; cbn [map_err]; [|done].
  rewrite fetch_string_bind, Hlive by done. rewrite eff_lift_bind. cbn [ok_or fmap option_fmap option_map].
  rewrite String.eqb_refl. cbn [negb]. apply live_publisher_Some in Hp as [Hp _].
  pose proof (insert_assignment_run w id tree t (ap_publisher_id payload) p' f' Hw Hout Ht (mk_is_Some _ _ Hp) Hid) as Hins.
  assert (Hpf : is_Some p' ∨ is_Some f') by (pose proof (apply_defaults_some (decimal_of_f64 (ap_revshare_percentage payload))
    (decimal_of_f64 (ap_revshare_flat_amount payload))) as Hs; by rewrite Eg in Hs).
  destruct (wf_insert_assignment id tree t (ap_publisher_id payload) p' f' Hpf w (conj Hw Ht)) as [Hwf _].
  cbn zeta in Hins. fold taken in Hins. destruct (stored_shares p' f') as [[p1 f1]|e]; [|by destruct Hins as [e' ->]].
  destruct taken; [by destruct Hins as [e' ->]|]. rewrite Hins in *. eexists _, _. split; [done|].
  apply (assignment_routed _ db (new_assignment id tree (ap_publisher_id payload) (tree_vertical t) (p1, f1) (of_now w)) t Hwf).
  - simpl. rewrite elem_of_app, list_elem_of_singleton. by right.
  - by apply live_tree_Some.
Qed.

(** what an update of a ping tree does.  With a status it always fails and changes
    nothing: the statement has no separator after the status.  Without columns it answers
    that there are no changes.  Otherwise it sets the name and the priority that are given,
    the priority to its low 32 bits, and nothing else but the date of the row, and adds an
    entry to the audit log. *)
Theorem update_ping_tree_spec id payload t w :
  of_outcomes w = [] → live_tree id w = Some t →
  match payload_str "status" payload, payload_str "name" payload, (v ← jget "priority" payload; as_i64 v) with
  | Some _, _, _ => update_ping_tree id payload w = (Err 500%Z, w)
  | None, None, None => update_ping_tree id payload w = (Ok no_changes, w)
  | None, name, priority =>
      ∃ entry, audit_action_type entry = "ping_tree_updated" ∧ audit_resource_id entry = Some id ∧
        update_ping_tree id payload w =
          (Ok (success [("message", JString "Ping tree updated successfully")]),
           set_of_audit (of_audit w ++ [entry]) (set_of_trees (<[id :=
             put_tree (default (tree_name t) name) (tree_status t)
               (match priority with Some z => Some (as_i32 z) | None => tree_priority t end) None (of_now w) t]> (of_trees w)) w))
  end.
Proof.
  intros Hout Hlive. pose proof Hlive as Ht. apply live_tree_Some in Ht as [Ht Hd].
  unfold update_ping_tree. rewrite fetch_bind, Hlive by done. rewrite eff_lift_bind. cbn [ok_or].
  assert (Hprio : (v ← jget "priority" payload; as_i32 <$> as_i64 v) = as_i32 <$> (v ← jget "priority" payload; as_i64 v)).
  { by destruct (jget "priority" payload). }
  unfold update_ping_tree_query, ping_tree_changes. rewrite Hprio. clear Hprio.
  destruct (payload_str "status" payload) as [status|]; [|destruct (payload_str "name" payload) as [name|],
    (v ← jget "priority" payload; as_i64 v) as [z|]]; [| | | |done].
  { cbn zeta. destruct (push_set "name = " VText _ ++ push_set "priority = " VInt _) as [|x l] eqn:Eq.
    all: cbn [app]; rewrite eff_bind_eq; unfold or_status at 1, run_update; rewrite statement_healthy by done.
    - done.
    - destruct (payload_str "name" payload), (as_i32 <$> _) in Eq; by inversion Eq. }
  all: cbn [fmap option_fmap option_map push_set app]; erewrite run_update_bind;
    [|done|done|done|by unfold tree_is_live; rewrite bool_decide_eq_true_2|done].
  all: rewrite ignore_fetch_bind by done;
    match goal with |- context [(audit_office ?i ?a ?r ?d ?det ?aff ≫= ?k) ?w1] =>
      destruct (audit_office_bind i a r d det aff k w1 Hout) as (e & He & Hi & _ & ->) end;
    exists e; (split; [done|]); (split; [done|]); unfold touch_tree, put_tree; simpl; by rewrite Hd.
Qed.

Lemma live_campaign_Some id w c : live_campaign id w = Some c ↔ of_campaigns w !! id = Some c ∧ campaign_deleted_at c = None.
Proof.
  unfold live_campaign, campaign_is_live. destruct (of_campaigns w !! id) as [d|]; simpl; [|naive_solver].
  case_bool_decide; naive_solver.
Qed.

Lemma campaign_status_run payload id w :
  of_outcomes w = [] →
  campaign_status_update payload id w =
    (Ok (match payload_str "status" payload with
         | None => Ok None
         | Some s => match requested_status s (in_any_ping_tree id w) with
                     | Some st => Ok (Some st) | None => Err (failure (invalid_status s)) end
         end), w).
Proof.
  intros Hout. unfold campaign_status_update. destruct (payload_str "status" payload) as [s|]; [|done].
  rewrite ignore_fetch_bind by done. cbn [default]. change (default false (Some ?b)) with b. by destruct (requested_status s _).
Qed.

(** The columns of an update, and the row after it. *)
Definition campaign_sets (name : option string) (publisher buyer : option Uuid) (status : option CampaignStatus)
    : list (string * SqlValue) :=
  match name with Some n => [("name = ", VText n)] | None => [] end ++
  match publisher with Some u => [("publisher_id = ", VUuid u)] | None => [] end ++
  match buyer with Some u => [("buyer_id = ", VUuid u)] | None => [] end ++
  match status with Some s => [("status = ", VCampaignStatus s)] | None => [] end.

Lemma campaign_query_sets payload c status id :
  let st := s ← status; if bool_decide (campaign_status c = s) then None else Some s in
  parse_update (update_campaign_query parse_uuid payload c status ++ where_live id) =
    Some (campaign_sets (payload_str "name" payload) (payload_uuid parse_uuid "publisher_id" payload)
            (payload_uuid parse_uuid "buyer_id" payload) st, (id, None)).
Proof.
  cbn zeta. unfold update_campaign_query. set (st := s ← status; _). clearbody st.
  by destruct (payload_str "name" payload), (payload_uuid parse_uuid "publisher_id" payload),
    (payload_uuid parse_uuid "buyer_id" payload), st.
Qed.

Lemma campaign_sets_row name publisher buyer status c :
  campaign_deleted_at c = None →
  ∃ c', set_columns set_campaign_column (campaign_sets name publisher buyer status) c = Some c' ∧
    ∀ now, touch_campaign now c' =
      put_campaign (match name with Some n => Some n | None => campaign_name c end) (default (campaign_publisher_id c) publisher)
        (default (campaign_buyer_id c) buyer) (default (campaign_status c) status) None now c.
Proof.
  intros Hd. destruct name, publisher, buyer, status; (eexists; split; [reflexivity|]);
    intros now; unfold touch_campaign, put_campaign; simpl; by rewrite Hd.
Qed.

Lemma campaign_query_nil payload c status :
  update_campaign_query parse_uuid payload c status = [] ↔
  payload_str "name" payload = None ∧ payload_uuid parse_uuid "publisher_id" payload = None ∧
  payload_uuid parse_uuid "buyer_id" payload = None ∧ default (campaign_status c) status = campaign_status c.
Proof.
  unfold update_campaign_query.
  destruct (payload_str "name" payload), (payload_uuid parse_uuid "publisher_id" payload),
    (payload_uuid parse_uuid "buyer_id" payload), status; cbn; try case_bool_decide; naive_solver.
Qed.

Lemma write_campaign_run id payload c status w :
  of_outcomes w = [] → live_campaign id w = Some c →
  let name := payload_str "name" payload in
  let publisher := payload_uuid parse_uuid "publisher_id" payload in
  let buyer := payload_uuid parse_uuid "buyer_id" payload in
  let status' := default (campaign_status c) status in
  if bool_decide (name = None ∧ publisher = None ∧ buyer = None ∧ status' = campaign_status c)
  then write_campaign parse_uuid id payload c status w = (Ok no_changes, w)
  else ∃ entry, audit_resource_id entry = Some id ∧ audit_instance_id entry = Some (campaign_instance_id c) ∧
    write_campaign parse_uuid id payload c status w =
      (Ok (success [("message", JString "Campaign updated successfully")]),
       set_of_audit (of_audit w ++ [entry]) (set_of_campaigns (<[id :=
         put_campaign (match name with Some n => Some n | None => campaign_name c end) (default (campaign_publisher_id c) publisher)
           (default (campaign_buyer_id c) buyer) status' None (of_now w) c]> (of_campaigns w)) w)).
Proof.
  intros Hout Hlive. cbn zeta. unfold write_campaign. pose proof (campaign_query_nil payload c status) as Hnil.
  pose proof (campaign_query_sets payload c status id) as Hsets. cbn zeta in Hsets. apply live_campaign_Some in Hlive as [Hc Hd].
  case_bool_decide as Hb; [by rewrite (proj2 Hnil Hb)|].
  destruct (update_campaign_query parse_uuid payload c status) as [|f q] eqn:Eq; [by destruct Hb; apply Hnil|].
  destruct (campaign_sets_row (payload_str "name" payload) (payload_uuid parse_uuid "publisher_id" payload)
    (payload_uuid parse_uuid "buyer_id" payload) (s ← status; if bool_decide (campaign_status c = s) then None else Some s) c Hd)
    as (c' & Hc' & Ht).
  erewrite run_update_bind; [|done|exact Hsets|done|by unfold campaign_is_live; rewrite bool_decide_eq_true_2|exact Hc'].
  rewrite ignore_fetch_bind by done.
  match goal with |- context [(audit_office ?i ?a ?r ?d ?det ?aff ≫= ?k) ?w1] =>
    destruct (audit_office_bind i a r d det aff k w1 Hout) as (e & _ & Hi & Hin & ->) end.
  exists e. split; [done|]. split; [done|]. rewrite Ht. do 5 f_equal.
  destruct status as [s|]; [|done]. cbn. case_bool_decide; [by subst|done].
Qed.

(** what an update of a campaign does.  A status other than active, paused and inactive
    is refused.  A campaign that is in no ping tree becomes inactive where active is asked
    for.  When no column is given and the status stays, nothing changes; otherwise the
    given columns and the status are set, with the date of the row, and an entry is added
    to the audit log. *)
Theorem update_campaign_spec id payload c w :
  of_outcomes w = [] → live_campaign id w = Some c →
  let name := payload_str "name" payload in
  let publisher := payload_uuid parse_uuid "publisher_id" payload in
  let buyer := payload_uuid parse_uuid "buyer_id" payload in
  let asked := payload_str "status" payload in
  let status := s ← asked; requested_status s (in_any_ping_tree id w) in
  let status' := default (campaign_status c) status in
  match asked, status with
  | Some s, None => update_campaign parse_uuid id payload w = (Ok (failure (invalid_status s)), w)
  | _, _ =>
      if bool_decide (name = None ∧ publisher = None ∧ buyer = None ∧ status' = campaign_status c)
      then update_campaign parse_uuid id payload w = (Ok no_changes, w)
      else ∃ entry, audit_resource_id entry = Some id ∧ audit_instance_id entry = Some (campaign_instance_id c) ∧
        update_campaign parse_uuid id payload w =
          (Ok (success [("message", JString "Campaign updated successfully")]),
           set_of_audit (of_audit w ++ [entry]) (set_of_campaigns (<[id :=
             put_campaign (match name with Some n => Some n | None => campaign_name c end) (default (campaign_publisher_id c) publisher)
               (default (campaign_buyer_id c) buyer) status' None (of_now w) c]> (of_campaigns w)) w))
  end.
Proof.
  intros Hout Hlive. cbn zeta. set (name := payload_str "name" payload). set (publisher := payload_uuid _ "publisher_id" payload).
  set (buyer := payload_uuid _ "buyer_id" payload).
  pose proof Hlive as Hc. apply live_campaign_Some in Hc as [Hc Hd].
  unfold update_campaign. rewrite fetch_bind, Hlive by done. rewrite eff_lift_bind. cbn [ok_or].
  rewrite eff_bind_eq, campaign_status_run by done.
  pose proof (λ status, write_campaign_run id payload c status w Hout Hlive) as Hmain.
  destruct (payload_str "status" payload) as [s|]; [|by apply (Hmain None)].
  cbn [mbind option_bind]. destruct (requested_status s (in_any_ping_tree id w)) as [st|]; [by apply (Hmain (Some st))|done].
Qed.

Lemma filter_filter_bool {A} (p q : A → bool) (l : list A) : List.filter p (List.filter q l) = List.filter (λ x, q x && p x) l.
Proof. induction l as [|x l IH]; [done|]. cbn. destruct (q x); cbn; [|done]. destruct (p x); by rewrite IH. Qed.

(** The tables after a removal, on healthy statements. *)
Definition without_campaign (tree campaign : Uuid) (w : Office) : Office :=
  let w1 := set_of_tree_campaigns (List.filter (λ m, negb (is_membership tree campaign m)) (of_tree_campaigns w)) w in
  if in_other_ping_tree tree campaign w then w1
  else set_of_campaigns (alter (λ c, if campaign_is_live c then
    put_campaign (campaign_name c) (campaign_publisher_id c) (campaign_buyer_id c) CampaignInactive (campaign_deleted_at c)
      (campaign_updated_at c) c else c) campaign (of_campaigns w)) w1.

Lemma in_other_after tree campaign w :
  in_other_ping_tree tree campaign (set_of_tree_campaigns (List.filter (λ m, negb (is_membership tree campaign m)) (of_tree_campaigns w)) w)
  = in_other_ping_tree tree campaign w.
Proof.
  unfold in_other_ping_tree, is_membership. cbn. apply eq_true_iff_eq. rewrite !existsb_exists.
  split; intros (m & Hm & Hp); exists m; (split; [|done]).
  - by apply filter_In in Hm as [Hm _].
  - apply filter_In. split; [done|]. apply andb_true_iff in Hp as [_ Hp]. apply negb_true_iff in Hp. by rewrite Hp.
Qed.

Lemma deactivate_bind {B} (stays : bool) campaign (k : option unit → handler B) w :
  of_outcomes w = [] →
  ∃ x, ((if stays then mret None else ignore_error (deactivate_campaign campaign)) ≫= k) w =
    k x (if stays then w else set_of_campaigns (alter (λ c, if campaign_is_live c then
      put_campaign (campaign_name c) (campaign_publisher_id c) (campaign_buyer_id c) CampaignInactive (campaign_deleted_at c)
        (campaign_updated_at c) c else c) campaign (of_campaigns w)) w).
Proof.
  intros Hout. rewrite eff_bind_eq. destruct stays; [by exists None|]. exists (Some tt).
  unfold ignore_error, deactivate_campaign, execute. by rewrite statement_healthy.
Qed.

Lemma remove_campaign_run tree t campaign w :
  of_outcomes w = [] → live_tree tree w = Some t →
  ∃ entry, audit_action_type entry = "ping_tree_campaign_removed" ∧ remove_campaign_from_ping_tree tree campaign w =
    (Ok (success [("message", JString "Campaign removed from ping tree successfully")]),
     let w1 := without_campaign tree campaign w in set_of_audit (of_audit w1 ++ [entry]) w1).
Proof.
  intros Hout Hlive. unfold remove_campaign_from_ping_tree. rewrite fetch_bind, Hlive by done. rewrite eff_lift_bind. cbn [ok_or].
  rewrite ignore_fetch_bind by done. rewrite execute_bind by done. rewrite ignore_fetch_bind by done. rewrite in_other_after.
  change (default false (Some ?b)) with b.
  match goal with |- context [((if ?b then _ else _) ≫= ?k) ?w1] => destruct (deactivate_bind b campaign k w1 Hout) as [x ->] end.
  match goal with |- context [(audit_office ?i ?a ?r ?d ?det ?aff ≫= ?k) ?w1] =>
    destruct (audit_office_bind i a r d det aff k w1) as (e & He & _ & _ & ->) end; [by destruct (in_other_ping_tree tree campaign w)|].
  exists e. split; [done|]. unfold without_campaign. by destruct (in_other_ping_tree tree campaign w).
Qed.

(** what taking a campaign out of a ping tree does.  Its membership is gone and the
    router finds it in that tree no more; it becomes inactive exactly when it is in no other
    tree, deleted ones included; and what the router finds in the other trees stays. *)
Theorem remove_campaign_spec tree t campaign w db :
  office_wf w → of_outcomes w = [] → live_tree tree w = Some t →
  ∃ answer w', remove_campaign_from_ping_tree tree campaign w = (Ok answer, w') ∧
    (∀ m, m ∈ find_enabled_for_ping_tree (tables_of w' db) tree → ptc_campaign_id m ≠ campaign) ∧
    (∀ other, other ≠ tree →
       find_enabled_for_ping_tree (tables_of w' db) other = find_enabled_for_ping_tree (tables_of w db) other) ∧
    campaign_status <$> live_campaign campaign w' =
      if in_other_ping_tree tree campaign w then campaign_status <$> live_campaign campaign w
      else (λ _, CampaignInactive) <$> live_campaign campaign w.
Proof.
  intros Hw Hout Hlive. destruct (remove_campaign_run tree t campaign w Hout Hlive) as (e & _ & Hrun).
  cbn zeta in Hrun. eexists _, _. split; [exact Hrun|].
  match type of Hrun with _ = (_, ?w1) => set (w' := w1) in * end.
  assert (Hw' : office_wf w').
  { destruct (preserves_member_calls office_wf) as (_ & Hp & _). specialize (Hp tree campaign w Hw). by rewrite Hrun in Hp. }
  assert (Hm' : of_tree_campaigns w' = List.filter (λ m, negb (is_membership tree campaign m)) (of_tree_campaigns w)).
  { unfold w', without_campaign. by destruct (in_other_ping_tree tree campaign w). }
  assert (Hc' : ∀ i, i ≠ campaign ∨ in_other_ping_tree tree campaign w = true → of_campaigns w' !! i = of_campaigns w !! i).
  { intros i Hi. unfold w', without_campaign. destruct (in_other_ping_tree tree campaign w); [done|]. simpl.
    rewrite lookup_alter_ne; [done|]. destruct Hi as [Hi|Hi]; congruence. }
  split; [|split].
  - intros m. rewrite enabled_is_taking_part, elem_of_sort_by by done. rewrite Hm'.
    intros Hm%list_elem_of_In. apply filter_In in Hm as [Hm Ht]. apply filter_In in Hm as [_ Hn]. intros E.
    unfold takes_part in Ht. repeat rewrite andb_true_iff in Ht. destruct Ht as ((Ht%bool_decide_eq_true & _) & _).
    unfold is_membership in Hn. by rewrite Ht, E, !bool_decide_eq_true_2 in Hn.
  - intros other Hne. rewrite !enabled_is_taking_part by done. f_equal. rewrite Hm', filter_filter_bool.
    apply filter_ext_in. intros m Hm. unfold takes_part, is_membership.
    destruct (decide (ptc_ping_tree_id m = other)) as [E|E];
      [|by rewrite !(bool_decide_eq_false_2 (ptc_ping_tree_id m = other)), andb_false_r by done].
    rewrite E, (bool_decide_eq_false_2 (other = tree)) by done. cbn [negb andb]. rewrite Hc'; [done|].
    destruct (decide (ptc_campaign_id m = campaign)) as [Ec|]; [right|by left]. apply existsb_exists. exists m. split; [done|].
    by rewrite E, Ec, bool_decide_eq_true_2, bool_decide_eq_false_2.
  - unfold live_campaign. destruct (in_other_ping_tree tree campaign w) eqn:Eo; [by rewrite Hc' by auto|].
    unfold w', without_campaign. rewrite Eo. simpl. rewrite lookup_alter_eq.
    destruct (of_campaigns w !! campaign) as [c|]; [|done]. simpl. destruct (campaign_is_live c) eqn:Ec; simpl.
    + unfold campaign_is_live in *. simpl. by rewrite Ec.
    + by rewrite Ec.
Qed.

Lemma insert_campaign_run c w :
  of_outcomes w = [] → of_campaigns w !! campaign_id c = None →
  (∀ i d, of_campaigns w !! i = Some d → campaign_campaign_token d ≠ campaign_campaign_token c) →
  insert_campaign c w = (Ok tt, set_of_campaigns (<[campaign_id c := c]> (of_campaigns w)) w).
Proof.
  intros Hout Hid Htok. unfold insert_campaign. rewrite statement_healthy, Hid by done.
  rewrite bool_decide_eq_false_2 by (by intros [? ?]). destruct (existsb _ _) eqn:He; [|done].
  apply existsb_exists in He as (d & Hd%list_elem_of_In & Heq%String.eqb_eq). apply elem_of_values_inv in Hd as [i Hi].
  by destruct (Htok i d Hi).
Qed.

(** A campaign that is not there is in no tree. *)
Lemma fresh_campaign id w :
  office_wf w → of_campaigns w !! id = None →
  (∀ m, m ∈ of_tree_campaigns w → ptc_campaign_id m ≠ id) ∧ in_any_ping_tree id w = false.
Proof.
  intros Hw Hid. assert (Hno : ∀ m, m ∈ of_tree_campaigns w → ptc_campaign_id m ≠ id).
  { intros m Hm E. pose proof (wf_memberships w Hw) as Hall. rewrite Forall_forall in Hall. destruct (Hall m Hm) as [_ Hc].
    rewrite E, Hid in Hc. by destruct Hc. }
  split; [done|]. unfold in_any_ping_tree. destruct (existsb _ _) eqn:He; [|done].
  apply existsb_exists in He as (m & Hm%list_elem_of_In & E). apply bool_decide_eq_true in E. by destruct (Hno m Hm).
Qed.

(** what creating a campaign does.  The campaign is active.  With a ping tree that
    exists the router finds it there, with priority 1.  With one that does not exist the
    call fails, and the campaign stays: an active campaign that is in no ping tree, which
    an update could not have made.  So it does without a ping tree. *)
Theorem create_campaign_spec token_bytes id membership_id user payload inst w db :
  office_wf w → of_outcomes w = [] → cc_instance_id payload = Some inst → of_campaigns w !! id = None →
  (∀ i c, of_campaigns w !! i = Some c → campaign_campaign_token c ≠ hex_encode token_bytes) →
  let '(r, w') := create_campaign token_bytes id membership_id user payload w in
  of_campaigns w' = <[id := new_campaign id (hex_encode token_bytes) inst payload (of_now w)]> (of_campaigns w) ∧
  (∃ c, live_campaign id w' = Some c ∧ Campaign_active c = true) ∧
  match cc_ping_tree_id payload with
  | None => (∃ answer, r = Ok answer) ∧ in_any_ping_tree id w' = false
  | Some tree =>
      match of_trees w !! tree with
      | None => r = Err 500%Z ∧ in_any_ping_tree id w' = false
      | Some _ => (∃ answer, r = Ok answer) ∧
          ∃ m, m ∈ find_enabled_for_ping_tree (tables_of w' db) tree ∧ ptc_campaign_id m = id ∧ ptc_priority m = Some 1%Z
      end
  end.
Proof.
  intros Hw Hout Hinst Hid Htok. destruct (create_campaign token_bytes id membership_id user payload w) as [r w'] eqn:Hrun.
  assert (Hw' : office_wf w').
  { destruct (preserves_campaign_calls (λ _, None) office_wf) as (_ & Hp & _).
    specialize (Hp token_bytes id membership_id user payload w Hw). by rewrite Hrun in Hp. }
  destruct (fresh_campaign id w Hw Hid) as [Hno Hany].
  revert Hrun. unfold create_campaign, scope_instance. rewrite Hinst, eff_ret_bind. cbn zeta.
  rewrite eff_gets_bind, eff_bind_eq. unfold or_status at 1. rewrite insert_campaign_run by done. cbn [campaign_id new_campaign].
  set (c := new_campaign id (hex_encode token_bytes) inst payload (of_now w)). set (w1 := set_of_campaigns _ w).
  assert (Hl : ∀ w2, of_campaigns w2 = <[id := c]> (of_campaigns w) → ∃ c, live_campaign id w2 = Some c ∧ Campaign_active c = true).
  { intros w2 E. exists c. split; [|done]. apply live_campaign_Some. by rewrite E, lookup_insert_eq. }
  rewrite eff_bind_eq. destruct (cc_ping_tree_id payload) as [tree|].
  - unfold or_status, insert_membership. rewrite statement_healthy by done.
    assert (He : existsb (is_membership tree id) (of_tree_campaigns w1) = false).
    { destruct (existsb _ _) eqn:He; [|done]. apply existsb_exists in He as (m & Hm%list_elem_of_In & E).
      apply andb_true_iff in E as [_ E%bool_decide_eq_true]. by destruct (Hno m Hm). }
    rewrite He. cbn [of_trees w1 set_of_campaigns of_campaigns]. rewrite lookup_insert_eq, (bool_decide_eq_true_2 (is_Some (Some c))) by done.
    rewrite andb_true_r. destruct (of_trees w !! tree) as [t|] eqn:Et.
    + rewrite bool_decide_eq_true_2 by done. intros [= <- <-]. split; [done|]. split; [by apply Hl|]. split; [eauto|].
      exists (new_membership membership_id tree id (Some 1%Z) (of_now w)). split; [|done].
      rewrite enabled_is_taking_part, elem_of_sort_by by done. apply list_elem_of_In, filter_In. split.
      * apply list_elem_of_In. simpl. rewrite elem_of_app, list_elem_of_singleton. by right.
      * unfold takes_part. simpl. by rewrite lookup_insert_eq, bool_decide_eq_true_2.
    + rewrite bool_decide_eq_false_2 by (by intros [? ?]). intros [= <- <-]. split; [done|]. by split; [apply Hl|].
  - intros [= <- <-]. split; [done|]. split; [by apply Hl|]. split; [eauto|done].
Qed.
End specs.

(** ** Witnesses *)

#[local] Existing Instance plain_platform.
#[local] Existing Instance plain_crypto.
#[local] Existing Instance whole_decimal.
#[local] Existing Instance hundredths_cast.

Definition empty_tables : Tables := {|
  ping_trees := []; ping_tree_publishers := []; ping_tree_campaigns := []; campaigns := []; buyers := [];
  buyer_integrations := []; buyer_qualification_configs := [] |}.

Lemma routing_is_assignment_witness :
  find_for_routing (tables_of (tree_office true) empty_tables) 1%N "home" = Some (office_tree 50 "One", Some (8000 # 100)%Q, None).
Proof. rewrite (routing_is_assignment (tree_office true) empty_tables 1%N "home" (tree_office_wf true)). reflexivity. Defined.

Lemma deleted_tree_strands_publisher_witness :
  let calls := run_call office_hash office_key (λ _, None) in
  let w := (calls (RemovePublisher 50%N 1%N) (calls (DeletePingTree 50%N) (tree_office true)).2).2 in
  find_for_routing (tables_of w empty_tables) 1%N "home" = None ∧
  ∀ share answer, (add_publisher_to_ping_tree 82%N 51%N
    {| ap_publisher_id := 1%N; ap_revshare_percentage := share; ap_revshare_flat_amount := None |} w).1 ≠ Ok answer.
Proof.
  intros calls w. destruct (deleted_tree_strands_publisher office_hash office_key (λ _, None) 50%N 1%N (office_tree 50 "One")
    (tree_office true) w empty_tables) as (Hr & _ & Ha).
  - apply tree_office_wf.
  - reflexivity.
  - reflexivity.
  - by left.
  - unfold w, calls. apply rtc_once. apply (step_call office_hash office_key (λ _, None) (RemovePublisher 50%N 1%N)).
  - split; [exact Hr|]. intros share answer. apply (Ha 82%N 51%N (office_tree 51 "Two")); [vm_compute|..]; reflexivity.
Defined.

(** A percentage that no decimal number holds becomes 80. *)
Lemma add_publisher_spec_witness :
  let add share := add_publisher_to_ping_tree 81%N 50%N
    {| ap_publisher_id := 1%N; ap_revshare_percentage := Some (f64_of_Z share); ap_revshare_flat_amount := None |} (tree_office false) in
  let routed share := find_for_routing (tables_of (add share).2 empty_tables) 1%N "home" in
  routed 20%Z = Some (office_tree 50 "One", Some (2000 # 100)%Q, None) ∧
  routed (10 ^ 30)%Z = Some (office_tree 50 "One", Some (8000 # 100)%Q, None) ∧ add 120%Z = (Err 500%Z, tree_office false).
Proof.
  intros add routed.
  pose proof (λ share, add_publisher_spec 81%N 50%N (office_tree 50 "One")
    {| ap_publisher_id := 1%N; ap_revshare_percentage := Some (f64_of_Z share); ap_revshare_flat_amount := None |}
    (tree_office false) empty_tables (tree_office_wf false) eq_refl eq_refl (mk_is_Some _ _ eq_refl) (not_elem_of_nil _)) as Hs.
  split; [|split].
  - pose proof (Hs 20%Z) as H. vm_compute in H. destruct H as (answer & w' & Hr & Hf). unfold routed.
    assert (E : add 20%Z = (Ok answer, w')) by (vm_compute; exact Hr). rewrite E. exact Hf.
  - pose proof (Hs (10 ^ 30)%Z) as H. vm_compute in H. destruct H as (answer & w' & Hr & Hf). unfold routed.
    assert (E : add (10 ^ 30)%Z = (Ok answer, w')) by (vm_compute; exact Hr). rewrite E. exact Hf.
  - pose proof (Hs 120%Z) as H. vm_compute in H. vm_compute. exact H.
Defined.

Lemma update_ping_tree_spec_witness :
  let update payload := update_ping_tree 50%N payload (tree_office false) in
  update (json_object [("status", JString "paused")]) = (Err 500%Z, tree_office false) ∧
  (tree_priority <$> of_trees (update (json_object [("priority", JNumber (PosInt 4294967298))])).2 !! 50%N) = Some (Some 2%Z).
Proof.
  intros update. pose proof (λ payload, update_ping_tree_spec 50%N payload (office_tree 50 "One") (tree_office false) eq_refl eq_refl) as Hs.
  split.
  - exact (Hs (json_object [("status", JString "paused")])).
  - destruct (Hs (json_object [("priority", JNumber (PosInt 4294967298))])) as (entry & _ & _ & Hr). unfold update. rewrite Hr.
    vm_compute. reflexivity.
Defined.

(** Of the two campaigns' updates the first asks for active outside of any tree. *)
Lemma update_campaign_spec_witness :
  let w := set_of_tree_campaigns [] (tree_office false) in
  let update payload := update_campaign (λ _, None) 60%N payload w in
  (campaign_status <$> of_campaigns (update (json_object [("status", JString "active")])).2 !! 60%N) = Some CampaignInactive ∧
  update (json_object [("status", JString "paused")]) = (Ok no_changes, w).
Proof.
  intros w update. pose proof (λ payload, update_campaign_spec (λ _, None) 60%N payload (office_campaign 60) w eq_refl eq_refl) as Hs.
  split.
  - destruct (Hs (json_object [("status", JString "active")])) as (entry & _ & _ & Hr). unfold update. rewrite Hr.
    vm_compute. reflexivity.
  - exact (Hs (json_object [("status", JString "paused")])).
Defined.

Lemma remove_campaign_spec_witness :
  ∃ answer w', remove_campaign_from_ping_tree 50%N 60%N (tree_office false) = (Ok answer, w') ∧
    campaign_status <$> live_campaign 60%N w' = Some CampaignInactive.
Proof.
  destruct (remove_campaign_spec 50%N (office_tree 50 "One") 60%N (tree_office false) empty_tables (tree_office_wf false) eq_refl eq_refl)
    as (answer & w' & Hr & _ & _ & Hs).
  exists answer, w'. split; [exact Hr|exact Hs].
Defined.

Definition create_in (tree : option Uuid) : CreateCampaignRequest := {|
  cc_name := None; cc_vertical := "home"; cc_publisher_id := 1%N; cc_buyer_id := 70%N; cc_instance_id := Some 0%N;
  cc_ping_tree_id := tree |}.

Lemma create_campaign_spec_witness :
  let create tree := create_campaign "bytes" 61%N 91%N (sample_user None None) (create_in tree) (tree_office false) in
  (create (Some 99%N)).1 = Err 500%Z ∧ (∃ c, live_campaign 61%N (create (Some 99%N)).2 = Some c ∧ Campaign_active c = true) ∧
  ∃ m, m ∈ find_enabled_for_ping_tree (tables_of (create (Some 51%N)).2 empty_tables) 51%N ∧ ptc_campaign_id m = 61%N.
Proof.
  intros create.
  assert (Htok : ∀ i c, of_campaigns (tree_office false) !! i = Some c → campaign_campaign_token c ≠ hex_encode "bytes").
  { intros i c. simpl. by intros [<- <-]%lookup_singleton_Some. }
  pose proof (λ tree, create_campaign_spec "bytes" 61%N 91%N (sample_user None None) (create_in tree) 0%N (tree_office false)
    empty_tables (tree_office_wf false) eq_refl eq_refl eq_refl Htok) as Hs.
  split_and!.
  - specialize (Hs (Some 99%N)). change (create_campaign _ _ _ _ _ _) with (create (Some 99%N)) in Hs.
    destruct (create (Some 99%N)) as [r w']. by destruct Hs as (_ & _ & Hr & _).
  - specialize (Hs (Some 99%N)). change (create_campaign _ _ _ _ _ _) with (create (Some 99%N)) in Hs.
    destruct (create (Some 99%N)) as [r w']. by destruct Hs as (_ & Hl & _).
  - specialize (Hs (Some 51%N)). change (create_campaign _ _ _ _ _ _) with (create (Some 51%N)) in Hs.
    destruct (create (Some 51%N)) as [r w']. destruct Hs as (_ & _ & _ & m & Hm & He & _). exists m. by split.
Defined.
