(* ===== verification/Security.v ===== *)
(** * Security settings of the users of the back office

    [crates/api/src/routes/dashboard.rs], the routes under [/api/security]: the second
    factor, passkeys, the reset mail and the log of these actions; behind the session
    middleware, as [main.rs] puts them.  The state is that of the accounts, of the back
    office (for the audit log), the passkeys, and the cache with its Redis.  Columns of
    dates are read as if they had the type the code reads them at.  WebAuthn, URLs, base32
    and URL encoding are of other crates. *)

From stdpp Require Import base list strings gmap.
From Stdlib Require Import Ascii String ZArith Lia.
From S2P Require Import Prelude Float64 Platform Json Models Metrics Samples Store WriteBehind.
From S2P Require Import Encryption Accounts Cache ApiAuth Office.

Open Scope string_scope.
Open Scope list_scope.

(** ** Data *)

(** A row of [webauthn_credentials]. *)
Record Passkey : Type := {
  passkey_id : Uuid;
  passkey_instance_user_id : Uuid;
  passkey_external_id : string;
  passkey_public_key : string;
  passkey_sign_count : Z;
  passkey_name : option string;
  passkey_type : option string;
  passkey_created_at : DateTime;
  passkey_last_used_at : option DateTime
}.

Record Site (L1 L2 : Type) : Type := {
  site_accounts : AccountWorld;
  site_office : Office;
  site_passkeys : gmap Uuid Passkey;
  site_cache : CacheState L1 L2
}.
Arguments site_accounts {_ _}. Arguments site_office {_ _}. Arguments site_passkeys {_ _}. Arguments site_cache {_ _}.

#[export] Instance Site_has_cache L1 L2 : HasCache L1 L2 (Site L1 L2).
Proof.
  refine {| cache_of := site_cache; clock := λ s, (aw_now (site_accounts s) / 1000)%Z;
            with_cache := λ c s, {| site_accounts := site_accounts s; site_office := site_office s;
                                    site_passkeys := site_passkeys s; site_cache := c |} |};
    by intros; destruct s.
Defined.

(** The configuration and the variables the handlers read. *)
Record SecurityConfig : Type := {
  sc_jwt_secret : string;
  sc_environment : string;
  sc_password_reset_base_url : string;
  sc_webauthn_rp_id : option string;
  sc_webauthn_local_https : option string;
  sc_webauthn_use_host_as_rp_id : option string
}.

(** A URL: its scheme, and [host_str()]. *)
Record Url : Type := { url_scheme : string; url_host_str : option string }.

(** A built [Webauthn]: its relying party, the URL of its builder, further allowed
    origins, and whether any port will do. *)
Record Webauthn : Type := {
  wa_rp_id : string; wa_origin : string; wa_allowed_origins : list string; wa_any_port : bool
}.

(** [WebauthnError] of [WebauthnBuilder::new]. *)
Inductive BuilderError : Type := WebauthnConfiguration | WebauthnOther.

(** base32, urlencoding, url and webauthn-rs: the last starts a registration (the options
    for the browser and the session, as JSON) for a user, and finishes it with the
    credential of the browser and the session (the id of the credential, and the passkey
    as JSON text). *)
Class SecurityLib : Type := {
  base32_encode : string → string;
  urlencode : string → string;
  url_parse : string → option Url;
  webauthn_builder : string → string → Result BuilderError unit;
  webauthn_build : Webauthn → Result string unit;
  start_passkey_registration : Webauthn → string → Uuid → string → Result string (json * json);
  credential_of_json : json → bool;
  registration_of_json : json → bool;
  finish_passkey_registration : Webauthn → json → json → Result string (string * string)
}.

Section handlers.
Context {L1 L2 : Type} `{!TtlStore L1, !TtlStore L2}.
Context `{Platform, Crypto, AuthLib, SecurityLib} (cfg : SecurityConfig).
Abbreviation site := (eff (Site L1 L2) Z).
Implicit Types headers : gmap string (option string).

Definition set_accounts (w : AccountWorld) (s : Site L1 L2) : Site L1 L2 := {|
  site_accounts := w; site_office := site_office s; site_passkeys := site_passkeys s; site_cache := site_cache s |}.
Definition set_office (o : Office) (s : Site L1 L2) : Site L1 L2 := {|
  site_accounts := site_accounts s; site_office := o; site_passkeys := site_passkeys s; site_cache := site_cache s |}.
Definition set_passkeys (p : gmap Uuid Passkey) (s : Site L1 L2) : Site L1 L2 := {|
  site_accounts := site_accounts s; site_office := site_office s; site_passkeys := p; site_cache := site_cache s |}.

(** Statements on the tables of the accounts, of the back office, and of the passkeys. *)
Definition on_accounts {A} (m : eff AccountWorld Z A) : site A := λ s,
  let '(r, w) := m (site_accounts s) in (r, set_accounts w s).
Definition on_office {A} (m : handler A) : site A := λ s,
  let '(r, o) := m (site_office s) in (r, set_office o s).
Definition passkey_statement {A} (f : DateTime → gmap Uuid Passkey → Result Z A * gmap Uuid Passkey) : site A :=
  _ ← on_accounts (attempt 500%Z (λ w, (Ok tt, w)));
  ((λ s, let '(r, p) := f (aw_now (site_accounts s)) (site_passkeys s) in (r, set_passkeys p s)) : site A).
(** Redis: an error is a status. *)
Definition redis_or_500 {A} (m : eff (Site L1 L2) Failure A) : site A := λ s,
  match m s with (Ok a, s') => (Ok a, s') | (Err _, s') => (Err 500%Z, s') end.
Definition site_redis : site (option L2) := eff_gets (λ s, cs_redis (site_cache s)).

(** ** Who asks *)

Definition session_claims headers : eff AccountWorld Z Uuid :=
  match header_text headers "authorization" ≫= strip_prefix "Bearer " with
  | None => eff_err 401%Z
  | Some token =>
      now ← eff_gets now_secs;
      claims ← eff_lift (map_err (λ _, 401%Z) (JwtService_decode (sc_jwt_secret cfg) now token));
      eff_lift (ok_or 401%Z (parse_user_id (claim_user_id claims)))
  end.

Definition session_user headers : eff AccountWorld Z User :=
  uid ← session_claims headers;
  user ← select 500%Z (active_user uid);
  eff_lift (ok_or 401%Z user).

(** The entry in the audit log, for users who own an instance. *)
Definition write_security_log headers (drawn uid : Uuid) (action name reason method endpoint : string) (inst : option Uuid)
    : handler unit :=
  match inst with
  | Some inst =>
      now ← eff_gets of_now;
      _ ← ignore_error (create_audit_log (Some inst) (Some uid) action (Some "Security") (Some uid)
            (json_object [
               ("action", JString action); ("target_type", JString "Security"); ("target_id", JString (uuid_to_string uid));
               ("target_name", JString name); ("context", audit_context headers drawn reason method endpoint);
               ("compliance", compliance); ("outcome", JString "success"); ("timestamp", JString (to_rfc3339 now))])
            (json_object []) (audit_ip headers) (audit_agent headers));
      mret tt
  | None => mret tt
  end.

Definition audit_security headers (drawn uid : Uuid) (action name reason method endpoint : string) : site unit :=
  on_office (
    inst ← ignore_error (fetch (instance_of_user uid));
    write_security_log headers drawn uid action name reason method endpoint (mjoin inst)).

(** ** The state of the settings *)

Definition passkey_json (p : Passkey) : json := json_object [
  ("id", JString (uuid_to_string (passkey_id p))); ("name", JString (default "Passkey" (passkey_name p)));
  ("type", JString (default "platform" (passkey_type p))); ("created_at", JString (to_rfc3339 (passkey_created_at p)));
  ("last_used_at", json_of_opt_str (to_rfc3339 <$> passkey_last_used_at p))].

Definition passkeys_of (uid : Uuid) (p : gmap Uuid Passkey) : list Passkey :=
  List.filter (λ k, bool_decide (passkey_instance_user_id k = uid)) (map_to_list p).*2.

Definition get_security_status headers : site json :=
  user ← on_accounts (session_user headers);
  enabled ← on_accounts (select 500%Z (otp_required (user_id user)));
  passkeys ← passkey_statement (λ _ p, (Ok (sort_by (λ a b, Z.compare (passkey_created_at a) (passkey_created_at b))
                                            (passkeys_of (user_id user) p)), p));
  mret (success [("otp_enabled", JBool enabled); ("passkeys", JArray (passkey_json <$> passkeys))]).

(** ** The reset mail *)

Definition send_password_reset_email headers (reset_token : string) : site json :=
  on_accounts (
    uid ← session_claims headers;
    user ← select 500%Z (active_user uid);
    user ← eff_lift (ok_or 401%Z user);
    last_sent ← select 500%Z (λ w, aw_users w !! uid ≫= user_reset_password_sent_at);
    now ← eff_gets aw_now;
    if sent_recently now last_sent then
      mret (success [("message", JString "If an account exists for this email, a reset link was already sent. Please check your inbox or try again later.")])
    else
      _ ← save_reset_token 500%Z uid reset_token;
      _ ← send_reset_email 500%Z (reset_base_url (sc_environment cfg) (sc_password_reset_base_url cfg) headers) user reset_token;
      mret (success [])).

(** ** The log *)

Definition security_actions : list string := ["otp_enabled"; "otp_disabled"; "passkey_registered"; "passkey_deleted"].

Definition security_entry (uid : Uuid) (a : AuditLog) : bool :=
  bool_decide (audit_instance_user_id a = Some uid) && bool_decide (audit_action_type a ∈ security_actions).

(** The name of the user, or its email. *)
Definition user_label (u : option User) : string :=
  match u ≫= user_first_name, u ≫= user_last_name with
  | Some first, Some last =>
      if negb (String.eqb first "") || negb (String.eqb last "") then str_trim (first +:+ " " +:+ last)
      else default "Unknown" (user_email <$> u)
  | _, _ => default "Unknown" (user_email <$> u)
  end.

(** [entry_id]: the ids the database gave. *)
Definition security_entry_json (entry_id : AuditLog → Uuid) (u : option User) (a : AuditLog) : json := json_object [
  ("id", JString (uuid_to_string (entry_id a))); ("action_type", JString (audit_action_type a)); ("user", JString (user_label u));
  ("details", audit_details a); ("created_at", JString (to_rfc3339 (audit_created_at a)))].

(** The last hundred, newest first. *)
Definition security_log (uid : Uuid) (w : Office) : list AuditLog :=
  take 100 (sort_by (λ a b, Z.compare (audit_created_at b) (audit_created_at a)) (List.filter (security_entry uid) (of_audit w))).

Definition list_security_audit_logs (entry_id : AuditLog → Uuid) headers : site json :=
  uid ← on_accounts (session_claims headers);
  logs ← on_office (or_status 500 (fetch (security_log uid)));
  user ← on_accounts (eff_gets (λ w, aw_users w !! uid));
  mret (success [("audit_logs", JArray (security_entry_json entry_id user <$> logs))]).

(** ** The second factor *)

(** [ON CONFLICT (instance_user_id) DO UPDATE]: backup codes stay. *)
Definition saved_secret (secret : string) (now : DateTime) (old : option OtpSettings) : OtpSettings := {|
  otp_enabled := Some false; otp_secret_encrypted := Some secret;
  otp_backup_codes_encrypted := old ≫= otp_backup_codes_encrypted; otp_updated_at := now |}.

Definition save_secret (uid : Uuid) (secret : string) : eff AccountWorld Z unit :=
  attempt 500%Z (λ w, (Ok tt, set_otp (<[uid := saved_secret secret (aw_now w) (aw_otp w !! uid)]> (aw_otp w)) w)).

Definition provisioning_uri (email secret : string) : string :=
  "otpauth://totp/LeadsNebula:" +:+ urlencode email +:+ "?secret=" +:+ secret +:+ "&issuer=LeadsNebula".

(** [bytes]: the 20 random bytes. *)
Definition setup_otp headers (bytes : string) : site json :=
  on_accounts (
    user ← session_user headers;
    existing ← select 500%Z (λ w, otp_enabled <$> aw_otp w !! user_id user);
    match existing with
    | Some None => eff_err 500%Z
    | Some (Some true) => mret (failure "OTP is already enabled. Please disable it first to set up a new one.")
    | _ =>
        let secret := base32_encode bytes in
        _ ← save_secret (user_id user) secret;
        mret (success [("secret", JString secret); ("secret_encrypted", JString secret);
                       ("provisioning_uri", JString (provisioning_uri (user_email user) secret))])
    end).

Record VerifyOtpRequest : Type := { vr_code : string; vr_secret_encrypted : option string }.

Definition backup_alphabet : string := "ABCDEFGHJKLMNPQRSTUVWXYZ23456789".

(** Eight codes of eight characters; [bytes i j] is the random byte of the [j]-th
    character of the [i]-th. *)
Definition backup_char (byte : nat) : ascii :=
  default "A"%char (String.get (byte mod String.length backup_alphabet) backup_alphabet).
Definition backup_code (bytes : nat → nat) : string :=
  foldr (λ j code, String (backup_char (bytes j)) code) "" (seq 0 8).
Definition backup_codes (bytes : nat → nat → nat) : list string := (λ i, backup_code (bytes i)) <$> seq 0 8.

Definition with_factor (codes : string) (now : DateTime) (o : OtpSettings) : OtpSettings := {|
  otp_enabled := Some true; otp_secret_encrypted := otp_secret_encrypted o; otp_backup_codes_encrypted := Some codes;
  otp_updated_at := now |}.

Definition enable_factor (uid : Uuid) (codes : string) : eff AccountWorld Z unit :=
  attempt 500%Z (λ w, (Ok tt, set_otp (alter (with_factor codes (aw_now w)) uid (aw_otp w)) w)).

Definition verify_otp headers (drawn : Uuid) (bytes : nat → nat → nat) (payload : VerifyOtpRequest) : site json :=
  user ← on_accounts (session_user headers);
  db_secret ← on_accounts (select 500%Z (λ w, aw_otp w !! user_id user ≫= otp_secret_encrypted));
  secret ← eff_lift (ok_or 400%Z (match db_secret with Some s => Some s | None => vr_secret_encrypted payload end));
  _ ← eff_lift (map_err (λ _, 500%Z) (totp_new secret));
  now ← on_accounts (eff_gets now_secs);
  if negb (OtpService_verify secret now (vr_code payload)) then mret (failure "Invalid OTP code. Please try again.")
  else
    let codes := backup_codes bytes in
    text ← eff_lift (map_err (λ _, 500%Z) (json_of_strings codes));
    _ ← on_accounts (enable_factor (user_id user) text);
    _ ← audit_security headers drawn (user_id user) "otp_enabled" (user_email user) "User enabled OTP 2FA" "POST"
          "/api/security/otp/verify";
    mret (success [("backup_codes_encrypted", JArray (JString <$> codes))]).

Definition without_factor (now : DateTime) (o : OtpSettings) : OtpSettings := {|
  otp_enabled := Some false; otp_secret_encrypted := otp_secret_encrypted o;
  otp_backup_codes_encrypted := otp_backup_codes_encrypted o; otp_updated_at := now |}.

Definition disable_factor (uid : Uuid) : eff AccountWorld Z unit :=
  attempt 500%Z (λ w, (Ok tt, set_otp (alter (without_factor (aw_now w)) uid (aw_otp w)) w)).

Definition disable_otp headers (drawn : Uuid) : site json :=
  user ← on_accounts (session_user headers);
  enabled ← on_accounts (select 500%Z (otp_required (user_id user)));
  if negb enabled then mret (failure "OTP is not enabled.")
  else
    _ ← on_accounts (disable_factor (user_id user));
    _ ← audit_security headers drawn (user_id user) "otp_disabled" (user_email user) "User disabled OTP 2FA" "POST"
          "/api/security/otp/disable";
    mret (success [("message", JString "OTP disabled successfully.")]).

(** ** Passkeys *)

(** The relying party, and the origin of the browser. *)
Definition webauthn_rp_id_and_origin headers (use_host_as_rp_id : bool) : string * string :=
  let origin_header := default "" (header_text headers "origin") in
  let rp_id_production := default "leadsnebula.com" (sc_webauthn_rp_id cfg) in
  let of_domain host := String.eqb host rp_id_production || ends_with ("." +:+ rp_id_production) host in
  let effective host := if use_host_as_rp_id then host else rp_id_production in
  let url := if String.eqb origin_header "" then None else url_parse origin_header in
  if String.eqb (sc_environment cfg) "development" then
    let fallback := ("localhost", default "http://localhost:3000" (sc_webauthn_local_https cfg)) in
    match url with
    | Some url =>
        let host := default "" (url_host_str url) in
        let https := String.eqb (url_scheme url) "https" in
        if https && of_domain host then (effective host, origin_header)
        else if https && String.eqb host "localhost.localdomain" then ("localhost.localdomain", origin_header)
        else if https && (String.eqb host "localhost" || String.eqb host "127.0.0.1")
        then (if String.eqb host "127.0.0.1" then "127.0.0.1" else "localhost", origin_header)
        else fallback
    | None => fallback
    end
  else
    let fallback := (rp_id_production, "https://" +:+ rp_id_production) in
    match url with
    | Some url =>
        let host := default "" (url_host_str url) in
        if String.eqb (url_scheme url) "https" && of_domain host then (effective host, origin_header) else fallback
    | None => fallback
    end.

Definition use_host_as_rp_id : bool :=
  match sc_webauthn_use_host_as_rp_id cfg with
  | Some v => negb (String.eqb v "false") && negb (String.eqb v "0")
  | None => true
  end.

(** Where [localhost] is no host for the library, an origin it takes and the real ones
    beside it; [None] for the address 127.0.0.1, which it does not take. *)
Definition new_webauthn (rp_id origin : string) : Result Z (option Webauthn) :=
  let build w := map_err (λ _, 500%Z) (_ ← webauthn_build w; Ok (Some w)) in
  let localdomain := "https://localhost.localdomain" in
  match url_parse origin with
  | None => Err 500%Z
  | Some _ =>
      match webauthn_builder rp_id origin with
      | Ok _ => build {| wa_rp_id := rp_id; wa_origin := origin; wa_allowed_origins := [];
                         wa_any_port := String.eqb rp_id "localhost.localdomain" |}
      | Err e =>
          if match e with WebauthnConfiguration => String.eqb rp_id "localhost" | WebauthnOther => false end then
            match url_parse localdomain, webauthn_builder rp_id localdomain with
            | Some _, Ok _ =>
                build {| wa_rp_id := rp_id; wa_origin := localdomain;
                         wa_allowed_origins := origin :: List.filter (λ o, bool_decide (is_Some (url_parse o)))
                                                  ["http://localhost:3000"; "https://localhost.localdomain:3000"];
                         wa_any_port := true |}
            | _, _ => Err 500%Z
            end
          else if String.eqb rp_id "127.0.0.1" then Ok None
          else Err 500%Z
      end
  end.

Definition registration_key (uid : Uuid) (challenge_token : string) : string :=
  "webauthn_registration:" +:+ uuid_to_string uid +:+ ":" +:+ challenge_token.
Definition registration_data (uid : Uuid) (session : json) : json :=
  json_object [("user_id", JString (uuid_to_string uid)); ("reg_session", session)].

(** [publicKey] under the name the browser's code expects. *)
Definition transformed_options (options : json) : json :=
  match jget "publicKey" options, as_object options with
  | Some key, Some o => JObject (map_insert "public_key" key (map_remove "publicKey" o))
  | _, _ => options
  end.

Definition webauthn_debug headers (rp_id origin : string) : list (string * json) :=
  match header_text headers "x-debug-webauthn" with
  | Some v =>
      if String.eqb v "1" || String.eqb (str_map ascii_lower v) "true" then
        [("webauthn_debug", json_object [
            ("origin_received", JString (default "(no Origin header)" (header_text headers "origin"))); ("rp_id", JString rp_id);
            ("origin_used", JString origin); ("use_host_as_rp_id", JBool use_host_as_rp_id)])]
      else []
  | None => []
  end.

(** Random: what the library draws for a challenge, and the 16 bytes of its token. *)
Definition passkey_registration_options headers (challenge token_bytes : string) : site json :=
  user ← on_accounts (session_user headers);
  passkey_count ← passkey_statement (λ _ p, (Ok (List.length (passkeys_of (user_id user) p)), p));
  if (3 <=? passkey_count)%nat
  then mret (failure "Maximum of 3 passkeys allowed. Please remove a passkey before adding a new one.")
  else
    let '(rp_id, origin) := webauthn_rp_id_and_origin headers use_host_as_rp_id in
    webauthn ← eff_lift (new_webauthn rp_id origin);
    match webauthn with
    | None => mret (failure "Passkey registration from 127.0.0.1 is not supported by the server library. Please use https://localhost:3000 and ensure your certificate is trusted (e.g. mkcert).")
    | Some webauthn =>
        '(options, session) ← eff_lift (map_err (λ _, 500%Z)
                                          (start_passkey_registration webauthn challenge (user_id user) (user_email user)));
        let challenge_token := hex_encode token_bytes in
        redis ← site_redis;
        match redis with
        | None => eff_err 500%Z
        | Some redis =>
            _ ← redis_or_500 (redis_set_with_ttl redis (registration_key (user_id user) challenge_token)
                                (json_text (registration_data (user_id user) session)) 300);
            mret (success ([("options", transformed_options options); ("challenge_token", JString challenge_token)] ++
                           webauthn_debug headers rp_id origin))
        end
    end.

Record RegisterPasskeyRequest : Type := { rp_challenge_token : string; rp_name : string; rp_credential : json }.

(** [if let Some(redis) = &state.redis { let _ = redis.delete(&cache_key).await; }]. *)
Definition forget_registration (key : string) : site unit :=
  redis ← site_redis;
  match redis with
  | Some redis => _ ← redis_or_500 (r ← catch (redis_delete redis key); mret r); mret tt
  | None => mret tt
  end.

(** The id of a row and of a credential are unique. *)
Definition insert_passkey (id : Uuid) (uid : Uuid) (cred_id public_key name : string) : site unit :=
  passkey_statement (λ now p,
    if bool_decide (is_Some (p !! id)) || existsb (λ k, String.eqb (passkey_external_id k) cred_id) (map_to_list p).*2
    then (Err 500%Z, p)
    else (Ok tt, <[id := {| passkey_id := id; passkey_instance_user_id := uid; passkey_external_id := cred_id;
                            passkey_public_key := public_key; passkey_sign_count := 0; passkey_name := Some name;
                            passkey_type := Some "soft"; passkey_created_at := now; passkey_last_used_at := None |}]> p)).

(** What the stored registration says: a response, or the session. *)
Definition stored_session (uid : Uuid) (text : string) : Result Z (json + json) :=
  cached_data ← map_err (λ _, 500%Z) (json_from_text text);
  stored_user_id ← ok_or 400%Z (jget "user_id" cached_data ≫= as_str);
  if negb (String.eqb stored_user_id (uuid_to_string uid))
  then Ok (inl (failure "Invalid or expired registration challenge. Please try again."))
  else
    session ← ok_or 400%Z (jget "reg_session" cached_data);
    if registration_of_json session then Ok (inr session) else Err 400%Z.

(** [id], [drawn]: the new id of the passkey, and one for the audit log. *)
Definition finish_registration headers (id drawn : Uuid) (payload : RegisterPasskeyRequest) (user : User) (key : string)
    (session : json) : site json :=
  let '(rp_id, origin) := webauthn_rp_id_and_origin headers use_host_as_rp_id in
  webauthn ← eff_lift (new_webauthn rp_id origin);
  match webauthn with
  | None => mret (failure "Passkey registration from 127.0.0.1 is not supported. Please use https://localhost:3000.")
  | Some webauthn =>
      if negb (credential_of_json (rp_credential payload)) then eff_err 400%Z
      else
        '(cred_id, public_key) ← eff_lift (map_err (λ _, 400%Z)
                                             (finish_passkey_registration webauthn (rp_credential payload) session));
        _ ← forget_registration key;
        _ ← insert_passkey id (user_id user) cred_id public_key (rp_name payload);
        _ ← forget_registration key;
        _ ← audit_security headers drawn (user_id user) "passkey_registered" (rp_name payload) "User registered passkey" "POST"
              "/api/security/passkeys/register";
        now ← on_accounts (eff_gets aw_now);
        mret (success [("passkey", json_object [
          ("id", JString (uuid_to_string id)); ("name", JString (rp_name payload)); ("type", JString "soft");
          ("created_at", JString (to_rfc3339 now))])])
  end.

Definition register_passkey headers (id drawn : Uuid) (payload : RegisterPasskeyRequest) : site json :=
  user ← on_accounts (session_user headers);
  let key := registration_key (user_id user) (rp_challenge_token payload) in
  redis ← site_redis;
  match redis with
  | None => eff_err 500%Z
  | Some redis =>
      cached_data ← redis_or_500 (redis_get redis key);
      text ← eff_lift (ok_or 400%Z cached_data);
      stored ← eff_lift (stored_session (user_id user) text);
      match stored with
      | inl response => mret response
      | inr session => finish_registration headers id drawn payload user key session
      end
  end.

(** [DELETE ... WHERE id = $1 AND instance_user_id = $2]: how many rows. *)
Definition remove_passkey (id uid : Uuid) : site nat :=
  passkey_statement (λ _ p,
    match p !! id with
    | Some k => if bool_decide (passkey_instance_user_id k = uid) then (Ok 1%nat, base.delete id p) else (Ok 0%nat, p)
    | None => (Ok 0%nat, p)
    end).

Definition delete_passkey headers (drawn : Uuid) (passkey : string) : site json :=
  uid ← on_accounts (session_claims headers);
  id ← eff_lift (ok_or 400%Z (parse_user_id passkey));
  rows_affected ← remove_passkey id uid;
  if (rows_affected =? 0)%nat then mret (failure "Passkey not found or you do not have permission to delete it.")
  else
    _ ← audit_security headers drawn uid "passkey_deleted" passkey "User deleted passkey" "DELETE"
          ("/api/security/passkeys/" +:+ passkey);
    mret (success [("message", JString "Passkey deleted successfully.")]).

(** ** Calls *)

Inductive SecurityCall : Type :=
  | GetSecurityStatus
  | SetupOtp (bytes : string)
  | VerifyOtp (drawn : Uuid) (bytes : nat → nat → nat) (payload : VerifyOtpRequest)
  | DisableOtp (drawn : Uuid)
  | PasskeyRegistrationOptions (challenge token_bytes : string)
  | RegisterPasskey (id drawn : Uuid) (payload : RegisterPasskeyRequest)
  | DeletePasskey (drawn : Uuid) (passkey : string)
  | ListSecurityAuditLogs (entry_id : AuditLog → Uuid)
  | SendPasswordResetEmail (reset_token : string).

Definition security_handler headers (c : SecurityCall) : site json :=
  match c with
  | GetSecurityStatus => get_security_status headers
  | SetupOtp bytes => setup_otp headers bytes
  | VerifyOtp drawn bytes payload => verify_otp headers drawn bytes payload
  | DisableOtp drawn => disable_otp headers drawn
  | PasskeyRegistrationOptions challenge token_bytes => passkey_registration_options headers challenge token_bytes
  | RegisterPasskey id drawn payload => register_passkey headers id drawn payload
  | DeletePasskey drawn passkey => delete_passkey headers drawn passkey
  | ListSecurityAuditLogs entry_id => list_security_audit_logs entry_id headers
  | SendPasswordResetEmail reset_token => send_password_reset_email headers reset_token
  end.

(** The routes are behind the session middleware. *)
Definition security_call headers (c : SecurityCall) : site json :=
  _ ← on_accounts (jwt_auth_middleware (sc_jwt_secret cfg) headers);
  security_handler headers c.
End handlers.
