(* ===== verification/SecurityClaims.v ===== *)
(** * Properties of the security settings

    Who changes what over the routes of [Security.v], how they compose with the log in of
    [Accounts.v], and the registration of passkeys. *)

From stdpp Require Import base list strings gmap.
From Stdlib Require Import Ascii String ZArith Lia.
From S2P Require Import Prelude Float64 Platform Json Models Metrics Samples Store WriteBehind.
From S2P Require Import Encryption Accounts Cache ApiAuth Office Security.

Open Scope string_scope.
Open Scope list_scope.

(** ** Lemmas *)

Section lemmas.
Context {L1 L2 : Type} `{!TtlStore L1, !TtlStore L2}.
Context `{P : Platform, C : Crypto, A : AuthLib, S : SecurityLib} (cfg : SecurityConfig).
Implicit Types (s : Site L1 L2) (headers : gmap string (option string)).

(** The statements of the accounts and of the back office all succeed. *)
Definition healthy_site s : Prop := aw_outcomes (site_accounts s) = [] ∧ of_outcomes (site_office s) = [].

(** [t] is the token of the request, and says it is of [uid]. *)
Definition bearer headers (t : string) : Prop := header_text headers "authorization" ≫= strip_prefix "Bearer " = Some t.
Definition token_of headers (now : Z) (uid : Uuid) : Prop := ∃ t c,
  bearer headers t ∧ JwtService_decode (sc_jwt_secret cfg) now t = Ok c ∧ parse_user_id (claim_user_id c) = Some uid.

Lemma on_accounts_bind {X Y} (m : eff AccountWorld Z X) (k : X → eff (Site L1 L2) Z Y) s :
  (on_accounts m ≫= k) s =
  match m (site_accounts s) with
  | (Ok x, w) => k x (set_accounts w s)
  | (Err e, w) => (Err e, set_accounts w s)
  end.
Proof. rewrite eff_bind_eq. unfold on_accounts. by destruct (m (site_accounts s)) as [[x|e] w]. Qed.

Lemma on_accounts_same {X} (m : eff AccountWorld Z X) s (r : Result Z X) :
  m (site_accounts s) = (r, site_accounts s) → on_accounts m s = (r, s).
Proof. unfold on_accounts. intros ->. by destruct s. Qed.

Lemma session_claims_token headers w uid : token_of headers (now_secs w) uid → session_claims cfg headers w = (Ok uid, w).
Proof.
  intros (t & c & Hb & Hd & Hp). unfold session_claims. rewrite Hb, eff_gets_bind, eff_lift_bind, Hd. cbn. unfold eff_lift. by rewrite Hp.
Qed.

Lemma session_claims_inv headers w r w' : session_claims cfg headers w = (r, w') →
  w' = w ∧ ∀ uid, r = Ok uid → token_of headers (now_secs w) uid.
Proof.
  unfold session_claims. destruct (header_text headers "authorization" ≫= strip_prefix "Bearer ") as [t|] eqn:Hb; [|by intros [= <- <-]].
  rewrite eff_gets_bind, eff_lift_bind. destruct (JwtService_decode _ _ t) as [c|] eqn:Hd; cbn; [|by intros [= <- <-]].
  unfold eff_lift. destruct (parse_user_id (claim_user_id c)) as [uid|] eqn:Hp; intros [= <- <-]; [|done].
  split; [done|]. intros uid' [= <-]. by exists t, c.
Qed.

Lemma session_user_token headers w uid u :
  token_of headers (now_secs w) uid → aw_outcomes w = [] → active_user uid w = Some u →
  session_user cfg headers w = (Ok u, w) ∧ jwt_auth_middleware (sc_jwt_secret cfg) headers w = (Ok u, w).
Proof.
  intros Ht Hout Hu. split.
  - unfold session_user. rewrite eff_bind_eq, (session_claims_token _ _ _ Ht), select_bind by done. by rewrite Hu.
  - destruct Ht as (t & c & Hb & Hd & Hp). unfold jwt_auth_middleware. rewrite Hb, eff_gets_bind, eff_lift_bind, Hd. cbn [map_err].
    rewrite eff_lift_bind, Hp. cbn [ok_or]. rewrite select_bind, Hu by done. unfold User_is_active.
    apply find_user_Some in Hu as [Hu _]. apply andb_true_iff in Hu as [_ Hu]. by rewrite Hu.
Qed.

(** Every call of an active user with a good token gets to its handler. *)
Lemma security_call_token headers c s uid u :
  token_of headers (now_secs (site_accounts s)) uid → aw_outcomes (site_accounts s) = [] →
  active_user uid (site_accounts s) = Some u →
  security_call cfg headers c s = security_handler cfg headers c s.
Proof.
  intros Ht Hout Hu. unfold security_call. rewrite on_accounts_bind.
  destruct (session_user_token headers _ uid u Ht Hout Hu) as [_ ->]. by destruct s.
Qed.

(** What a handler of the back office adds to the audit log. *)
Definition adds_entries (uid : Uuid) (o o' : Office) : Prop :=
  ∃ more, of_audit o' = of_audit o ++ more ∧ Forall (λ a, audit_instance_user_id a = Some uid) more ∧
    (of_outcomes o = [] → of_outcomes o' = []).

(** The entry in the audit log never fails the request, and is the user's. *)
Lemma write_security_log_run headers drawn uid action name reason method endpoint inst (o : Office) :
  ∃ o', write_security_log headers drawn uid action name reason method endpoint inst o = (Ok tt, o') ∧ adds_entries uid o o'.
Proof.
  unfold adds_entries. destruct inst as [inst|]; [|exists o; split; [done|]; exists []; by rewrite app_nil_r].
  unfold write_security_log. rewrite eff_gets_bind, eff_bind_eq. unfold ignore_error, create_audit_log, execute, statement.
  destruct (of_outcomes o) as [|[e|] rest] eqn:Hout; (eexists; split; [reflexivity|]; cbn).
  - eexists [_]. split_and!; [done|by repeat constructor|done].
  - exists []. rewrite app_nil_r. by split_and!.
  - eexists [_]. split_and!; [done|by repeat constructor|done].
Qed.

Lemma audit_security_run headers drawn uid action name reason method endpoint s :
  ∃ o, audit_security headers drawn uid action name reason method endpoint s = (Ok tt, set_office o s) ∧
    adds_entries uid (site_office s) o.
Proof.
  unfold audit_security, on_office. rewrite eff_bind_eq. unfold ignore_error, fetch, statement.
  destruct (of_outcomes (site_office s)) as [|[e|] rest] eqn:Hout; cbn [eff_gets].
  - destruct (write_security_log_run headers drawn uid action name reason method endpoint
      (instance_of_user uid (site_office s)) (site_office s)) as (o & Hr & Ho). exists o. cbn. by rewrite Hr.
  - eexists. split; [reflexivity|]. exists []. cbn. rewrite app_nil_r, Hout. by split_and!.
  - destruct (write_security_log_run headers drawn uid action name reason method endpoint
      (instance_of_user uid (set_of_outcomes rest (site_office s))) (set_of_outcomes rest (site_office s))) as (o & Hr & more & Ho & Hm & _).
    exists o. unfold eff_gets. cbn [mjoin option_join]. rewrite Hr. split; [done|]. exists more. by rewrite Hout.
Qed.

(** *** What a request changes *)

(** The tables of the accounts, but for the rows of [uid]; messages go to that user. *)
Record own_accounts (uid : Uuid) (w w' : AccountWorld) : Prop := {
  own_now : aw_now w' = aw_now w;
  own_users i : i ≠ uid → aw_users w' !! i = aw_users w !! i;
  own_identities : (λ u, (user_id u, user_email u)) <$> aw_users w' = (λ u, (user_id u, user_email u)) <$> aw_users w;
  own_otp i : i ≠ uid → aw_otp w' !! i = aw_otp w !! i;
  own_mails : ∃ more, aw_mails w' = aw_mails w ++ more ∧
    Forall (λ m, ∃ i u, aw_users w !! i = Some u ∧ user_id u = uid ∧ mail_to m = user_email u) more
}.

(** Passkeys and entries of the audit log, but for those of [uid]. *)
Record own_changes (uid : Uuid) s s' : Prop := {
  own_site_accounts : own_accounts uid (site_accounts s) (site_accounts s');
  own_passkeys id k : passkey_instance_user_id k ≠ uid → site_passkeys s' !! id = Some k ↔ site_passkeys s !! id = Some k;
  own_entries : ∃ more, of_audit (site_office s') = of_audit (site_office s) ++ more ∧
    Forall (λ a, audit_instance_user_id a = Some uid) more
}.

Lemma own_accounts_refl uid w : own_accounts uid w w.
Proof. split; try done. exists []. by rewrite app_nil_r. Qed.

Lemma own_changes_refl uid s : own_changes uid s s.
Proof. split; [apply own_accounts_refl|done|]. exists []. by rewrite app_nil_r. Qed.

Lemma own_accounts_attempt {E X} uid w0 (e : E) (m : eff AccountWorld E X) :
  preserves (own_accounts uid w0) m → preserves (own_accounts uid w0) (attempt e m).
Proof.
  intros Hm w Hw. unfold attempt. destruct (aw_outcomes w) as [|[]]; [by apply Hm|by destruct Hw|apply Hm; by destruct Hw].
Qed.

Lemma own_accounts_select {E X} uid w0 (e : E) (f : AccountWorld → X) : preserves (own_accounts uid w0) (select e f).
Proof. apply own_accounts_attempt. by intros w Hw. Qed.

(** Statements that write one row of the settings. *)
Lemma own_accounts_otp {E} uid w0 (e : E) (f : AccountWorld → gmap Uuid OtpSettings) :
  (∀ w i, i ≠ uid → f w !! i = aw_otp w !! i) → preserves (own_accounts uid w0) (attempt e (λ w, (Ok tt, set_otp (f w) w))).
Proof.
  intros Hf. apply own_accounts_attempt. intros w [Hn Hu Hi Ho Hm]. split; cbn; try done. intros i Hne. rewrite Hf by done. by apply Ho.
Qed.

Lemma own_accounts_save_reset_token {E} uid w0 (e : E) token : preserves (own_accounts uid w0) (save_reset_token e uid token).
Proof.
  apply own_accounts_attempt. intros w Hw. destruct (existsb _ _); [done|]. destruct Hw as [Hn Hu Hi Ho Hm]. split; cbn; try done.
  - intros i Hne. rewrite lookup_alter_ne by done. by apply Hu.
  - rewrite <-Hi. apply map_eq. intros i. rewrite !lookup_fmap. destruct (decide (i = uid)) as [->|].
    + rewrite lookup_alter_eq. by destruct (aw_users w !! uid).
    + by rewrite lookup_alter_ne.
Qed.

(** A user that is found is one of those there were. *)
Lemma own_active_user uid w0 w u : own_accounts uid w0 w → active_user uid w = Some u →
  user_id u = uid ∧ ∃ i v, aw_users w0 !! i = Some v ∧ user_id v = uid ∧ user_email v = user_email u.
Proof.
  intros Hw Hu. apply find_user_Some in Hu as [Hu [i Hi]]. apply andb_true_iff in Hu as [Hu _]. apply bool_decide_eq_true in Hu.
  split; [done|]. exists i. pose proof (own_identities _ _ _ Hw) as E. apply (f_equal (.!! i)) in E.
  rewrite !lookup_fmap, Hi in E. destruct (aw_users w0 !! i) as [v|]; [|done]. injection E as E1 E2. exists v. split_and!; congruence.
Qed.

Lemma own_accounts_mail {E} uid w0 (e : E) base u token :
  (∃ i v, aw_users w0 !! i = Some v ∧ user_id v = uid ∧ user_email v = user_email u) →
  preserves (own_accounts uid w0) (send_reset_email e base u token).
Proof.
  intros (i & v & Hi & Hv & He). apply own_accounts_attempt. intros w [Hn Hu Hid Ho (more & Hm & Hall)]. split; cbn; try done.
  exists (more ++ [reset_mail base u token]). split; [by rewrite Hm, app_assoc|]. apply Forall_app. split; [done|].
  constructor; [|done]. exists i, v. split_and!; [done..|by rewrite He].
Qed.

Section own.
Context headers (uid : Uuid) (s0 : Site L1 L2).
Abbreviation w0 := (site_accounts s0).
Context (Hcaller : ∀ i, token_of headers (now_secs w0) i → i = uid).
Abbreviation I := (own_changes uid s0).
Abbreviation J := (own_accounts uid w0).

Lemma own_session_claims w : J w → J (session_claims cfg headers w).2 ∧ ∀ i, (session_claims cfg headers w).1 = Ok i → i = uid.
Proof.
  intros Hw. destruct (session_claims cfg headers w) as [r w'] eqn:Hr. apply session_claims_inv in Hr as [-> Hr]. split; [done|].
  intros i Hi. apply Hcaller. unfold now_secs. rewrite <-(own_now _ _ _ Hw). by apply Hr.
Qed.

Definition found_user (u : User) : Prop :=
  user_id u = uid ∧ ∃ i v, aw_users w0 !! i = Some v ∧ user_id v = uid ∧ user_email v = user_email u.

Lemma own_select_user w : J w → J (select 500%Z (active_user uid) w).2 ∧
  ∀ u, (select 500%Z (active_user uid) w).1 = Ok u → ∀ v, u = Some v → found_user v.
Proof.
  intros Hw. split; [by apply own_accounts_select|]. intros u Hu v ->. unfold select, attempt in Hu.
  destruct (aw_outcomes w) as [|[]]; cbn in Hu; try done; injection Hu as Hu.
  - by apply (own_active_user uid w0 w).
  - apply (own_active_user uid w0 (set_account_outcomes l w)); [by destruct Hw|done].
Qed.

Lemma own_session_user w : J w → J (session_user cfg headers w).2 ∧ ∀ u, (session_user cfg headers w).1 = Ok u → found_user u.
Proof.
  intros Hw. unfold session_user. destruct (own_session_claims w Hw) as [Hc Hi]. rewrite eff_bind_eq.
  destruct (session_claims cfg headers w) as [[i|e] w1]; [|done]. cbn in Hc, Hi. rewrite (Hi i eq_refl).
  destruct (own_select_user w1 Hc) as [Hs Hu]. rewrite eff_bind_eq. destruct (select _ _ w1) as [[u|e] w2]; [|done].
  split; [done|]. intros v Hv. apply (Hu u eq_refl). by destruct u; [injection Hv as ->|].
Qed.

Lemma own_on_accounts {X} (m : eff AccountWorld Z X) : preserves J m → preserves I (on_accounts m).
Proof.
  intros Hm s [Ha Hp He]. specialize (Hm _ Ha). unfold on_accounts. destruct (m (site_accounts s)) as [r w]. by split.
Qed.

Lemma own_with_user {Y} (k : User → eff (Site L1 L2) Z Y) :
  (∀ u, found_user u → preserves I (k u)) → preserves I (on_accounts (session_user cfg headers) ≫= k).
Proof.
  apply (preserves_from _ found_user). intros s [Ha Hp He]. destruct (own_session_user _ Ha) as [Hj Hu]. unfold on_accounts.
  destruct (session_user cfg headers (site_accounts s)) as [r w]. split; [by split|done].
Qed.

Lemma own_audit drawn action name reason method endpoint :
  preserves I (audit_security headers drawn uid action name reason method endpoint).
Proof.
  intros s [Ha Hp (more & He & Hm)]. destruct (audit_security_run headers drawn uid action name reason method endpoint s)
    as (o & -> & more' & Ho & Hm' & _). split; [done..|]. exists (more ++ more'). cbn. rewrite Ho, He, app_assoc.
  split; [done|]. by apply Forall_app.
Qed.

Lemma own_redis_or_500 {X} (m : eff (Site L1 L2) Failure X) : preserves I m → preserves I (redis_or_500 m).
Proof. intros Hm s Hs. specialize (Hm s Hs). unfold redis_or_500. by destruct (m s) as [[x|e] s']. Qed.

Lemma own_with_cache c s : I s → I (with_cache c s).
Proof. intros [Ha Hp He]. by split. Qed.

Lemma own_redis_outcome e : preserves I (redis_outcome e).
Proof. intros s Hs. unfold redis_outcome. destruct (cs_outcomes (cache_of s)) as [|[]]; [done|by apply own_with_cache..]. Qed.

Lemma own_on_cache f : preserves I (on_cache (St := Site L1 L2) f).
Proof. intros s Hs. by apply own_with_cache. Qed.

Lemma own_passkey_statement {X} (f : DateTime → gmap Uuid Passkey → Result Z X * gmap Uuid Passkey) :
  (∀ now p id k, passkey_instance_user_id k ≠ uid → (f now p).2 !! id = Some k ↔ p !! id = Some k) →
  preserves I (passkey_statement f).
Proof.
  intros Hf. apply preserves_bind; [apply own_on_accounts, own_accounts_attempt; by intros w Hw|]. intros [] s [Ha Hp He].
  specialize (Hf (aw_now (site_accounts s)) (site_passkeys s)). destruct (f _ _) as [r p]. split; [done| |done].
  intros id k Hk. cbn. cbn in Hf. rewrite Hf by done. by apply Hp.
Qed.

#[local] Hint Resolve own_accounts_select own_accounts_save_reset_token own_on_accounts own_audit own_redis_or_500
  own_redis_outcome own_on_cache : effects.

Lemma own_middleware : preserves I (on_accounts (jwt_auth_middleware (sc_jwt_secret cfg) headers)).
Proof. apply own_on_accounts. unfold jwt_auth_middleware. preserves_tac. Qed.

Lemma own_save_secret secret : preserves J (save_secret uid secret).
Proof. apply own_accounts_otp. intros w i Hi. by rewrite lookup_insert_ne. Qed.

Lemma own_alter_factor (f : DateTime → OtpSettings → OtpSettings) :
  preserves J (attempt 500%Z (λ w, (Ok tt, set_otp (alter (f (aw_now w)) uid (aw_otp w)) w))).
Proof. apply own_accounts_otp. intros w i Hi. by rewrite lookup_alter_ne. Qed.

Lemma own_read_passkeys {X} (f : DateTime → gmap Uuid Passkey → X) : preserves I (passkey_statement (λ now p, (Ok (f now p), p))).
Proof. by apply own_passkey_statement. Qed.

Lemma own_insert_passkey id cred_id key name : preserves I (insert_passkey id uid cred_id key name).
Proof.
  apply own_passkey_statement. intros now p i k Hk. destruct (bool_decide (is_Some (p !! id)) || _) eqn:Hb; [done|]. cbn.
  apply orb_false_iff in Hb as [Hb _]. apply bool_decide_eq_false, eq_None_not_Some in Hb. destruct (decide (i = id)) as [->|].
  - rewrite lookup_insert_eq, Hb. split; [|done]. intros [= <-]. by destruct Hk.
  - by rewrite lookup_insert_ne.
Qed.

Lemma own_remove_passkey id : preserves I (remove_passkey id uid).
Proof.
  apply own_passkey_statement. intros now p i k Hk. destruct (p !! id) as [q|] eqn:Hq; [|done].
  destruct (bool_decide_reflect (passkey_instance_user_id q = uid)); [|done]. cbn. destruct (decide (i = id)) as [->|].
  - rewrite lookup_delete_eq, Hq. split; [done|]. intros [= <-]. by destruct Hk.
  - by rewrite lookup_delete_ne.
Qed.

Lemma own_redis_set redis key v ttl : preserves I (redis_set_with_ttl redis key v ttl).
Proof. unfold redis_set_with_ttl. preserves_tac. Qed.
Lemma own_redis_get redis key : preserves I (redis_get redis key).
Proof. unfold redis_get. preserves_tac. Qed.
Lemma own_catch {X} (m : eff (Site L1 L2) Failure X) : preserves I m → preserves I (catch m).
Proof. intros Hm s Hs. specialize (Hm s Hs). unfold catch. by destruct (m s) as [[?|[]] ?]. Qed.

Lemma own_forget key : preserves I (forget_registration key).
Proof.
  unfold forget_registration, site_redis. preserves_tac. apply own_redis_or_500, preserves_bind; [|preserves_tac].
  apply own_catch. unfold redis_delete. preserves_tac.
Qed.

Lemma own_read_office {X} (f : Office → X) : preserves I (on_office (or_status 500 (fetch f))).
Proof.
  intros s [Ha Hp He]. unfold on_office, or_status, fetch, statement.
  by destruct (of_outcomes (site_office s)) as [|[]]; cbn.
Qed.

#[local] Hint Resolve own_read_office own_save_secret own_alter_factor own_read_passkeys own_insert_passkey own_remove_passkey own_redis_set
  own_redis_get own_forget : effects.

Lemma own_handler c : preserves I (security_handler cfg headers c).
Proof.
  assert (Hclaims : ∀ (Y : Type) (k : Uuid → eff (Site L1 L2) Z Y), preserves I (k uid) →
    preserves I (on_accounts (session_claims cfg headers) ≫= k)).
  { intros Y k Hk. apply (preserves_from _ (λ i, i = uid)); [|by intros i ->]. intros s [Ha Hp He].
    destruct (own_session_claims _ Ha) as [Hj Hi]. unfold on_accounts.
    destruct (session_claims cfg headers (site_accounts s)) as [r w]. split; [by split|done]. }
  destruct c; cbn [security_handler].
  - unfold get_security_status. apply own_with_user. intros u [Hu _]. preserves_tac.
  - unfold setup_otp. apply own_on_accounts, (preserves_from _ found_user); [apply own_session_user|]. intros u [Hu _].
    rewrite Hu. preserves_tac.
  - unfold verify_otp, enable_factor. apply own_with_user. intros u [Hu _]. rewrite Hu. preserves_tac.
  - unfold disable_otp, disable_factor. apply own_with_user. intros u [Hu _]. rewrite Hu. preserves_tac.
  - unfold passkey_registration_options, site_redis. apply own_with_user. intros u [Hu _]. preserves_tac.
  - unfold register_passkey, site_redis, finish_registration. apply own_with_user. intros u [Hu _]. rewrite Hu. preserves_tac.
  - unfold delete_passkey. apply Hclaims. preserves_tac.
  - unfold list_security_audit_logs. apply Hclaims. preserves_tac.
  - unfold send_password_reset_email. apply own_on_accounts, (preserves_from _ (λ i, i = uid)); [apply own_session_claims|].
    intros i ->. apply (preserves_from _ (λ u, ∀ v, u = Some v → found_user v)); [apply own_select_user|]. intros u Hu.
    apply (preserves_from _ found_user).
    { intros w Hw. split; [done|]. cbn. intros v Hv. apply Hu. by destruct u; [injection Hv as ->|]. }
    intros v [_ Hv]. preserves_tac; by apply own_accounts_mail.
Qed.
End own.

Lemma token_of_unique headers now i j : token_of headers now i → token_of headers now j → i = j.
Proof. unfold token_of, bearer. intros (t & c & Hb & Hd & Hp) (t' & c' & Hb' & Hd' & Hp'). congruence. Qed.
End lemmas.

(** ** Whose rows a request changes *)

Section own_rows.
Context {L1 L2 : Type} `{!TtlStore L1, !TtlStore L2}.
Context `{P : Platform, C : Crypto, A : AuthLib, S : SecurityLib} (cfg : SecurityConfig).

(** C24: Whatever the call, and whatever statements, messages or Redis commands fail in it, it
    changes the account, second factor, passkeys and audit log of the user alone that the
    token of the request names, and mails nobody else.  Without a good token nothing is
    changed, and the call is refused. *)
Theorem security_calls_stay_own (headers : gmap string (option string)) (c : SecurityCall) (s s' : Site L1 L2) (r : Result Z json)
    (Hrun : security_call cfg headers c s = (r, s')) :
  (∀ uid, token_of cfg headers (now_secs (site_accounts s)) uid → own_changes uid s s') ∧
  ((∀ uid, ¬ token_of cfg headers (now_secs (site_accounts s)) uid) → s' = s ∧ r = Err 401%Z).
Proof.
  split.
  - intros uid Huid. pose proof (own_changes_refl uid s) as H0.
    assert (Hc : ∀ i, token_of cfg headers (now_secs (site_accounts s)) i → i = uid) by (intros i Hi; by eapply token_of_unique).
    assert (Hp : preserves (own_changes uid s) (security_call cfg headers c)).
    { apply preserves_bind; [by apply own_middleware|]. intros _. by apply own_handler. }
    specialize (Hp s H0). by rewrite Hrun in Hp.
  - intros Hnone. unfold security_call in Hrun. rewrite on_accounts_bind in Hrun. unfold jwt_auth_middleware in Hrun.
    destruct (header_text headers "authorization" ≫= strip_prefix "Bearer ") as [t|] eqn:Hb.
    2:{ cbn in Hrun. injection Hrun as <- <-. by destruct s. }
    rewrite eff_gets_bind, eff_lift_bind in Hrun. destruct (JwtService_decode _ _ t) as [cl|] eqn:Hd; cbn in Hrun.
    2:{ injection Hrun as <- <-. by destruct s. }
    rewrite eff_lift_bind in Hrun. destruct (parse_user_id (claim_user_id cl)) as [uid|] eqn:Hp; cbn in Hrun.
    2:{ injection Hrun as <- <-. by destruct s. }
    destruct (Hnone uid). by exists t, cl.
Qed.
End own_rows.

(** ** The second factor and the log in *)

(** A log in that waits for the second factor is complete as soon as the settings ask for
    none. *)
Lemma login_without_factor `{P : Platform, A : AuthLib} (secret : string) (p : LoginRequest) (w w' w2 : AccountWorld) (t t2 : string)
    (u : User) :
  login secret (Some p) w = (Ok (login_otp_required t), w') → authenticated p w u →
  aw_users w2 = aw_users w → aw_outcomes w2 = [] → otp_required (user_id u) w2 = false →
  JwtService_encode secret (now_secs w2) (uuid_to_string (user_id u)) (user_email u) = Ok t2 →
  login secret (Some p) w2 = (Ok (login_granted t2 u), w2).
Proof.
  intros Hl (Hlook & Hc & Ha & Hv) Husers Hout Hotp Ht. unfold login in *.
  destruct (String.eqb (str_trim (lq_email p)) "" || String.eqb (lq_password p) ""); [done|].
  assert (Hlook2 : login_lookup (to_lowercase (str_trim (lq_email p))) w2 = Some u).
  { unfold login_lookup, find_user in *. by rewrite Husers. }
  rewrite select_bind, Hlook2, Hc, Ha, Hv by done. cbn [negb result_or]. rewrite select_bind, Hotp by done.
  rewrite eff_gets_bind, eff_lift_bind, Ht. done.
Qed.

Section factor.
Context {L1 L2 : Type} `{!TtlStore L1, !TtlStore L2}.
Context `{P : Platform, C : Crypto, A : AuthLib, S : SecurityLib} (cfg : SecurityConfig).
Implicit Types (s : Site L1 L2) (headers : gmap string (option string)).

Lemma active_user_same uid w w2 : aw_users w2 = aw_users w → active_user uid w2 = active_user uid w.
Proof. unfold active_user, find_user. by intros ->. Qed.

(** Past the entry in the audit log. *)
Ltac audit_step := match goal with |- context [audit_security ?h ?d ?i ?a ?n ?r ?m ?e ?st] =>
  destruct (audit_security_run h d i a n r m e st) as (? & -> & _) end.

(** The second factor switched off by whoever a session is opened for. *)
Lemma disable_otp_run headers drawn s uid u :
  token_of cfg headers (now_secs (site_accounts s)) uid → healthy_site s → active_user uid (site_accounts s) = Some u →
  otp_required (user_id u) (site_accounts s) = true →
  ∃ s', security_call cfg headers (DisableOtp drawn) s = (Ok (success [("message", JString "OTP disabled successfully.")]), s') ∧
    site_accounts s' = set_otp (alter (without_factor (aw_now (site_accounts s))) (user_id u) (aw_otp (site_accounts s))) (site_accounts s).
Proof.
  intros Ht [Hout Hof] Hu Hreq. rewrite (security_call_token cfg _ _ _ _ _ Ht Hout Hu). cbn [security_handler].
  unfold disable_otp. rewrite on_accounts_bind. destruct (session_user_token cfg headers _ uid u Ht Hout Hu) as [-> _].
  rewrite on_accounts_bind. cbn [set_accounts site_accounts]. rewrite select_healthy, Hreq by done. cbn [negb].
  rewrite on_accounts_bind. unfold disable_factor. cbn [set_accounts site_accounts]. rewrite attempt_healthy by done.
  rewrite eff_bind_eq. audit_step. by eexists.
Qed.

(** C23: With the password alone a user who has a second factor gets rid of it: the token that
    a log in gives to wait for the code is good for a request that switches the factor
    off, and the next log in gives a session. *)
Theorem password_alone_disables_otp `{!AuthLaws P A} (p : LoginRequest) (w w' : AccountWorld) (s : Site L1 L2)
    (resp : LoginResponse) (t t2 : string) (headers : gmap string (option string)) (drawn : Uuid)
    (Hlogin : login (sc_jwt_secret cfg) (Some p) w = (Ok resp, w')) (Htoken : login_login_token resp = Some t)
    (Hheader : headers !! "authorization" = Some (Some ("Bearer " +:+ t)))
    (Hwf : accounts_wf (site_accounts s)) (Husers : aw_users (site_accounts s) = aw_users w)
    (Hotp : aw_otp (site_accounts s) = aw_otp w) (Hhealthy : healthy_site s)
    (Hnow : (now_secs (site_accounts s) ≤ now_secs w + 360)%Z) :
  ∃ u s', authenticated p w u ∧ otp_required (user_id u) w = true ∧
    security_call cfg headers (DisableOtp drawn) s = (Ok (success [("message", JString "OTP disabled successfully.")]), s') ∧
    (JwtService_encode (sc_jwt_secret cfg) (now_secs (site_accounts s')) (uuid_to_string (user_id u)) (user_email u) = Ok t2 →
     login (sc_jwt_secret cfg) (Some p) (site_accounts s') = (Ok (login_granted t2 u), site_accounts s')).
Proof.
  pose proof Hlogin as Hcases. apply login_cases in Hcases as [_ Hcases].
  destruct Hcases as [[e ->]|(u & Hlook & Hc & Ha & Hv & [(Ho & t' & Ht & ->)|(Ho & t' & Ht & ->)])]; try done.
  injection Htoken as ->.
  assert (Hu : active_user (user_id u) (site_accounts s) = Some u).
  { apply find_user_Some in Hlook as [_ [i Hi]]. rewrite <-Husers in Hi. pose proof (user_ids _ Hwf _ _ Hi) as <-.
    apply active_user_spec; [done|]. split; [done|]. by apply bool_decide_eq_true in Ha. }
  assert (Htok : token_of cfg headers (now_secs (site_accounts s)) (user_id u)).
  { exists t. eexists. split_and!.
    - unfold bearer, header_text. rewrite Hheader. by apply strip_prefix_Some.
    - unfold JwtService_decode. rewrite (jwt_roundtrip _ _ _ _ _ Ht eq_refl); [reflexivity|lia].
    - apply parse_user_id_to_string. }
  assert (Hreq : otp_required (user_id u) (site_accounts s) = true) by (unfold otp_required in *; by rewrite Hotp).
  destruct (disable_otp_run headers drawn s _ u Htok Hhealthy Hu Hreq) as (s' & Hs' & Hacc).
  exists u, s'. split_and!; [done..|]. intros Ht2. eapply login_without_factor; [exact Hlogin|done|by rewrite Hacc|..|exact Ht2].
  - rewrite Hacc. apply Hhealthy.
  - rewrite Hacc. unfold otp_required. cbn. rewrite lookup_alter_eq. by destruct (aw_otp (site_accounts s) !! user_id u).
Qed.

(** *** Enrolment *)

Lemma setup_otp_run headers bytes s uid u :
  token_of cfg headers (now_secs (site_accounts s)) uid → healthy_site s → active_user uid (site_accounts s) = Some u →
  (∀ o, aw_otp (site_accounts s) !! user_id u = Some o → otp_enabled o = Some false) →
  ∃ r, security_call cfg headers (SetupOtp bytes) s =
    (Ok r, set_accounts (set_otp (<[user_id u := saved_secret (base32_encode bytes) (aw_now (site_accounts s))
        (aw_otp (site_accounts s) !! user_id u)]> (aw_otp (site_accounts s))) (site_accounts s)) s).
Proof.
  intros Ht [Hout Hof] Hu Hoff. rewrite (security_call_token cfg _ _ _ _ _ Ht Hout Hu). cbn [security_handler]. unfold setup_otp, on_accounts.
  rewrite eff_bind_eq. destruct (session_user_token cfg headers _ uid u Ht Hout Hu) as [-> _]. rewrite select_bind by done.
  destruct (aw_otp (site_accounts s) !! user_id u) as [o|] eqn:Ho.
  - cbn. rewrite (Hoff o eq_refl). rewrite eff_bind_eq. unfold save_secret. rewrite attempt_healthy, Ho by done. by eexists.
  - cbn. rewrite eff_bind_eq. unfold save_secret. rewrite attempt_healthy, Ho by done. by eexists.
Qed.

Lemma verify_otp_run headers drawn bytes payload s uid u secret text :
  token_of cfg headers (now_secs (site_accounts s)) uid → healthy_site s → active_user uid (site_accounts s) = Some u →
  match aw_otp (site_accounts s) !! user_id u ≫= otp_secret_encrypted with
  | Some x => Some x | None => vr_secret_encrypted payload end = Some secret →
  totp_new secret = Ok tt → totp_check secret (now_secs (site_accounts s)) (vr_code payload) = true →
  json_of_strings (backup_codes bytes) = Ok text →
  ∃ s', security_call cfg headers (VerifyOtp drawn bytes payload) s =
      (Ok (success [("backup_codes_encrypted", JArray (JString <$> backup_codes bytes))]), s') ∧
    site_accounts s' = set_otp (alter (with_factor text (aw_now (site_accounts s))) (user_id u) (aw_otp (site_accounts s))) (site_accounts s).
Proof.
  intros Ht [Hout Hof] Hu Hsecret Hnew Hcheck Htext. rewrite (security_call_token cfg _ _ _ _ _ Ht Hout Hu). cbn [security_handler].
  unfold verify_otp. rewrite on_accounts_bind. destruct (session_user_token cfg headers _ uid u Ht Hout Hu) as [-> _].
  rewrite on_accounts_bind. cbn [set_accounts site_accounts]. rewrite select_healthy by done. rewrite eff_lift_bind, Hsecret. cbn [ok_or].
  rewrite eff_lift_bind, Hnew. cbn [map_err]. rewrite on_accounts_bind. cbn [set_accounts site_accounts eff_gets].
  unfold OtpService_verify. rewrite Hcheck. cbn [negb]. rewrite eff_lift_bind, Htext. cbn [map_err].
  rewrite on_accounts_bind. unfold enable_factor. cbn [set_accounts site_accounts]. rewrite attempt_healthy by done.
  rewrite eff_bind_eq. audit_step. by eexists.
Qed.

(** A code for a secret the client sends with it, when no setup was done, is answered with
    success and eight backup codes; nothing is enabled. *)
Theorem verify_without_setup (headers : gmap string (option string)) (drawn : Uuid) (bytes : nat → nat → nat)
    (payload : VerifyOtpRequest) (s : Site L1 L2) (uid : Uuid) (u : User) (secret text : string)
    (Htoken : token_of cfg headers (now_secs (site_accounts s)) uid) (Hhealthy : healthy_site s)
    (Huser : active_user uid (site_accounts s) = Some u) (Hnone : aw_otp (site_accounts s) !! user_id u = None)
    (Hsecret : vr_secret_encrypted payload = Some secret) (Hnew : totp_new secret = Ok tt)
    (Hcode : totp_check secret (now_secs (site_accounts s)) (vr_code payload) = true)
    (Htext : json_of_strings (backup_codes bytes) = Ok text) :
  ∃ s', security_call cfg headers (VerifyOtp drawn bytes payload) s =
      (Ok (success [("backup_codes_encrypted", JArray (JString <$> backup_codes bytes))]), s') ∧
    site_accounts s' = site_accounts s ∧ otp_required (user_id u) (site_accounts s') = false.
Proof.
  destruct (verify_otp_run headers drawn bytes payload s uid u secret text) as (s' & Hr & Hs'); try done.
  { by rewrite Hnone. }
  exists s'. assert (E : alter (with_factor text (aw_now (site_accounts s))) (user_id u) (aw_otp (site_accounts s)) = aw_otp (site_accounts s)).
  { apply map_eq. intros i. destruct (decide (i = user_id u)) as [->|]; [by rewrite lookup_alter_eq, Hnone|by rewrite lookup_alter_ne]. }
  rewrite E in Hs'. assert (Hsame : site_accounts s' = site_accounts s) by (rewrite Hs'; by destruct (site_accounts s)).
  split_and!; [done..|]. rewrite Hsame. unfold otp_required. by rewrite Hnone.
Qed.

(** What is read for a token a log in just gave. *)
Lemma otp_load_run `{!AuthLaws P A} w lt code u o secret text :
  jwt_encode (sc_jwt_secret cfg) (login_token_payload u (now_secs w)) = Ok lt → aw_outcomes w = [] →
  active_user (user_id u) w = Some u → aw_otp w !! user_id u = Some o → otp_enabled o = Some true →
  otp_secret_encrypted o = Some secret → otp_backup_codes_encrypted o = Some text →
  otp_load (sc_jwt_secret cfg) {| vq_login_token := lt; vq_otp_code := None; vq_backup_code := Some code |} w =
    (Ok (inr {| oa_user := u; oa_secret := secret; oa_backup_codes := Some text |}), w).
Proof.
  intros Hlt Hout Hu Ho He Hs Ht. unfold otp_load. cbn [vq_otp_code vq_backup_code vq_login_token].
  rewrite (bool_decide_eq_false_2 (Some code = None)), andb_false_r by done. rewrite eff_gets_bind, eff_lift_bind.
  rewrite (jwt_roundtrip _ _ _ _ _ Hlt eq_refl) by lia. cbn [map_err]. rewrite eff_lift_bind. cbn [ok_or].
  change (jget "user_id" (login_token_payload u (now_secs w)) ≫= as_str) with (Some (uuid_to_string (user_id u))). cbn [ok_or].
  change (jget "exp" (login_token_payload u (now_secs w)) ≫= as_u64) with (Some (now_secs w + 300)%Z).
  cbv beta iota. rewrite (proj2 (Z.ltb_ge _ _)) by lia. rewrite eff_lift_bind, parse_user_id_to_string. cbn [ok_or].
  rewrite select_bind, Hu, eff_lift_bind by done. cbn [ok_or]. rewrite select_bind by done. unfold otp_required.
  rewrite Ho. cbn. rewrite He. cbn. rewrite select_bind, eff_lift_bind by done. unfold otp_row. rewrite Ho. cbn.
  by rewrite eff_lift_bind, Hs, Ht.
Qed.

(** The secret and the backup codes of a user. *)
Definition stored_secret (uid : Uuid) (w : AccountWorld) : option string := o ← aw_otp w !! uid; otp_secret_encrypted o.
Definition stored_codes (uid : Uuid) (w : AccountWorld) : option (list string) :=
  o ← aw_otp w !! uid; text ← otp_backup_codes_encrypted o; strings_of_json text.

(** A log in with the right password is asked for the second factor. *)
Lemma login_asks p w u lt :
  aw_outcomes w = [] → str_trim (lq_email p) ≠ "" → lq_password p ≠ "" → authenticated p w u →
  otp_required (user_id u) w = true → jwt_encode (sc_jwt_secret cfg) (login_token_payload u (now_secs w)) = Ok lt →
  login (sc_jwt_secret cfg) (Some p) w = (Ok (login_otp_required lt), w).
Proof.
  intros Hout He Hp (Hlook & Hc & Ha & Hv) Ho Hlt. unfold login.
  rewrite (proj2 (String.eqb_neq _ _) He), (proj2 (String.eqb_neq _ _) Hp). cbn [orb].
  rewrite select_bind, Hlook, Hc, Ha, Hv by done. cbn [negb result_or]. rewrite select_bind, Ho by done.
  by rewrite eff_gets_bind, eff_lift_bind, Hlt.
Qed.

(** The index of a backup code: the first that is the same but for the case of letters. *)
Definition code_index (c : string) (codes : list string) : option nat :=
  position (λ c', String.eqb (to_uppercase c') (to_uppercase c)) codes.

Lemma code_index_member c codes : c ∈ codes → ∃ i c', code_index c codes = Some i ∧ codes !! i = Some c' ∧ to_uppercase c' = to_uppercase c.
Proof.
  intros Hc. destruct (code_index c codes) as [i|] eqn:Hp.
  - destruct (position_lt _ _ _ Hp) as (c' & Hc' & E). exists i, c'. by apply String.eqb_eq in E.
  - exfalso. revert Hp. clear -Hc. unfold code_index. induction Hc as [c l|c d l Hc IH]; cbn; [by rewrite String.eqb_refl|].
    case_match; [done|]. by destruct (position _ l).
Qed.

(** A code of which there is no other is not in the list any more. *)
Lemma code_index_deleted c codes i :
  (∀ j c', codes !! j = Some c' → to_uppercase c' = to_uppercase c → j = i) → code_index c (base.delete i codes) = None.
Proof.
  intros Hone. apply position_None. intros x [j Hj]%list_elem_of_lookup. apply String.eqb_neq. intros E.
  destruct (decide (j < i)) as [Hlt|Hge].
  - rewrite list_lookup_delete_lt in Hj by done. specialize (Hone _ _ Hj E). lia.
  - rewrite list_lookup_delete_ge in Hj by lia. specialize (Hone _ _ Hj E). lia.
Qed.

(** A log in with a backup code, and a second one with the same. *)
Lemma backup_code_run `{!AuthLaws P A} w lt u o secret text codes c i t :
  jwt_encode (sc_jwt_secret cfg) (login_token_payload u (now_secs w)) = Ok lt → aw_outcomes w = [] →
  active_user (user_id u) w = Some u → aw_otp w !! user_id u = Some o → otp_enabled o = Some true →
  otp_secret_encrypted o = Some secret → otp_backup_codes_encrypted o = Some text → strings_of_json text = Some codes →
  code_index c codes = Some i → (∃ text', json_of_strings (base.delete i codes) = Ok text') →
  JwtService_encode (sc_jwt_secret cfg) (now_secs w) (uuid_to_string (user_id u)) (user_email u) = Ok t →
  let request := {| vq_login_token := lt; vq_otp_code := None; vq_backup_code := Some c |} in
  ∃ w3, verify_otp_login (sc_jwt_secret cfg) request w = (Ok (login_granted t u), w3) ∧
    stored_codes (user_id u) w3 = Some (base.delete i codes) ∧
    (code_index c (base.delete i codes) = None →
     verify_otp_login (sc_jwt_secret cfg) request w3 = (Ok (login_refused "Invalid OTP code or backup code"), w3)).
Proof.
  intros Hlt Hout Hu Ho He Hs Htext Hcodes Hi [text' Htext'] Ht request. subst request.
  set (w3 := set_otp (alter (set_backup_codes text' (aw_now w)) (user_id u) (aw_otp w)) w).
  assert (Ho3 : aw_otp w3 !! user_id u = Some (set_backup_codes text' (aw_now w) o)) by (cbn; by rewrite lookup_alter_eq, Ho).
  exists w3. split_and!.
  - unfold verify_otp_login. rewrite eff_bind_eq, (otp_load_run w lt c u o secret text) by done. unfold otp_finish. rewrite eff_bind_eq.
    rewrite (otp_check_backup _ _ _ c text codes i text'); [|done..].
    cbn [negb]. rewrite eff_gets_bind, eff_lift_bind. unfold now_secs in *. cbn [set_otp aw_now oa_user]. by rewrite Ht.
  - unfold stored_codes. rewrite Ho3. cbn. by eapply json_strings_roundtrip.
  - intros Hnone. unfold verify_otp_login. rewrite eff_bind_eq, (otp_load_run w3 lt c u _ secret text') by (done || by cbn). unfold otp_finish.
    rewrite eff_bind_eq. unfold otp_check. cbn [vq_backup_code oa_backup_codes]. rewrite (json_strings_roundtrip _ _ Htext').
    unfold code_index in Hnone. cbn [default from_option id]. by rewrite Hnone.
Qed.

(** C25: Enrolment works: after a setup and a code for its secret, a log in with the right
    email and password is answered with a request for the second factor, whose secret is
    that of the setup.  Each backup code of the answer completes that log in, and is then
    taken off the list (the first of the list that is the same in upper case); when no
    other is the same, it is refused the second time. *)
Theorem enrolled_factor_is_asked `{!AuthLaws P A} (headers : gmap string (option string)) (s s1 s2 : Site L1 L2) (u : User)
    (bytes : string) (drawn : Uuid) (random : nat → nat → nat) (code : string) (client_secret : option string) (r1 r2 : Result Z json)
    (lt t : string)
    (Htoken : token_of cfg headers (now_secs (site_accounts s)) (user_id u)) (Hhealthy : healthy_site s)
    (Huser : active_user (user_id u) (site_accounts s) = Some u)
    (Hoff : ∀ o, aw_otp (site_accounts s) !! user_id u = Some o → otp_enabled o = Some false)
    (Hsetup : security_call cfg headers (SetupOtp bytes) s = (r1, s1))
    (Hverify : security_call cfg headers (VerifyOtp drawn random {| vr_code := code; vr_secret_encrypted := client_secret |}) s1 = (r2, s2))
    (Hnew : totp_new (base32_encode bytes) = Ok tt)
    (Hcode : totp_check (base32_encode bytes) (now_secs (site_accounts s)) code = true)
    (Hjson : ∀ l, ∃ text, json_of_strings l = Ok text)
    (Hlt : jwt_encode (sc_jwt_secret cfg) (login_token_payload u (now_secs (site_accounts s))) = Ok lt)
    (Ht : JwtService_encode (sc_jwt_secret cfg) (now_secs (site_accounts s)) (uuid_to_string (user_id u)) (user_email u) = Ok t) :
  let codes := backup_codes random in
  r2 = Ok (success [("backup_codes_encrypted", JArray (JString <$> codes))]) ∧
  (∀ p, str_trim (lq_email p) ≠ "" → lq_password p ≠ "" → authenticated p (site_accounts s2) u →
     login (sc_jwt_secret cfg) (Some p) (site_accounts s2) = (Ok (login_otp_required lt), site_accounts s2)) ∧
  stored_secret (user_id u) (site_accounts s2) = Some (base32_encode bytes) ∧
  ∀ c, c ∈ codes → let request := {| vq_login_token := lt; vq_otp_code := None; vq_backup_code := Some c |} in
    ∃ i c' w3, code_index c codes = Some i ∧ codes !! i = Some c' ∧ to_uppercase c' = to_uppercase c ∧
      verify_otp_login (sc_jwt_secret cfg) request (site_accounts s2) = (Ok (login_granted t u), w3) ∧
      stored_codes (user_id u) w3 = Some (base.delete i codes) ∧
      ((∀ j d, codes !! j = Some d → to_uppercase d = to_uppercase c → j = i) →
       verify_otp_login (sc_jwt_secret cfg) request w3 = (Ok (login_refused "Invalid OTP code or backup code"), w3)).
Proof.
  intros codes. destruct (setup_otp_run headers bytes s (user_id u) u Htoken Hhealthy Huser Hoff) as (r & Hr). rewrite Hsetup in Hr.
  injection Hr as _ ->. destruct (Hjson codes) as [text Htext]. set (s1 := set_accounts _ s) in *.
  destruct (verify_otp_run headers drawn random {| vr_code := code; vr_secret_encrypted := client_secret |} s1 (user_id u) u
    (base32_encode bytes) text) as (s' & Hs' & Hacc); try done.
  { cbn. by rewrite lookup_insert_eq. }
  rewrite Hverify in Hs'. injection Hs' as -> ->. split; [done|].
  assert (Ho : aw_otp (site_accounts s') !! user_id u = Some (with_factor text (aw_now (site_accounts s))
    (saved_secret (base32_encode bytes) (aw_now (site_accounts s)) (aw_otp (site_accounts s) !! user_id u)))).
  { rewrite Hacc. cbn. by rewrite lookup_alter_eq, lookup_insert_eq. }
  assert (Hout : aw_outcomes (site_accounts s') = []) by (rewrite Hacc; apply Hhealthy).
  assert (Hnow : now_secs (site_accounts s') = now_secs (site_accounts s)) by (unfold now_secs; by rewrite Hacc).
  assert (Hu : active_user (user_id u) (site_accounts s') = Some u) by (by rewrite Hacc).
  rewrite <-Hnow in Hlt, Ht. split.
  - intros p He Hp Hauth. apply login_asks with u; try done. unfold otp_required. by rewrite Ho.
  - split; [unfold stored_secret; by rewrite Ho|]. intros c Hc request. destruct (code_index_member c codes Hc) as (i & c' & Hi & Hc' & E).
    destruct (backup_code_run (site_accounts s') lt u _ (base32_encode bytes) text codes c i t Hlt Hout Hu Ho eq_refl eq_refl eq_refl
      (json_strings_roundtrip _ _ Htext) Hi (Hjson _) Ht) as (w3 & Hrun & Hstored & Hagain).
    exists i, c', w3. split_and!; [done..|]. intros Hone. apply Hagain, code_index_deleted, Hone.
Qed.
End factor.

(** ** Passkeys *)

Section passkeys.
Context {L1 L2 : Type} `{!TtlStore L1, !TtlStore L2, !TtlLaws L2}.
Context `{P : Platform, C : Crypto, A : AuthLib, S : SecurityLib} (cfg : SecurityConfig).
Implicit Types (s : Site L1 L2) (headers : gmap string (option string)).

(** Redis answers, with [redis]. *)
Definition redis_up s (redis : L2) : Prop := cs_outcomes (site_cache s) = [] ∧ cs_redis (site_cache s) = Some redis.

Lemma redis_get_up s redis key :
  redis_up s redis → redis_or_500 (redis_get redis key) s =
    (Ok (ts_get (clock s) (prefix_key (site_cache s) key) redis), s).
Proof.
  intros [Ho Hr]. unfold redis_or_500, redis_get, redis_outcome. rewrite !eff_bind_eq. cbn [cache_of Site_has_cache]. rewrite Ho.
  rewrite eff_bind_eq. cbn [cache_of Site_has_cache]. by rewrite Ho.
Qed.

Definition with_redis (redis : L2) s : Site L1 L2 := with_cache (set_redis (Some redis) (site_cache s)) s.

Lemma forget_registration_up s redis key :
  redis_up s redis → forget_registration key s = (Ok tt, with_redis (ts_del (prefix_key (site_cache s) key) redis) s).
Proof.
  intros [Ho Hr]. unfold forget_registration, site_redis. rewrite eff_gets_bind, Hr, eff_bind_eq.
  unfold redis_or_500, catch, redis_delete, redis_outcome, mbind, eff_bind. cbn [cache_of Site_has_cache]. rewrite Ho.
  cbn [cache_of Site_has_cache]. rewrite Ho. reflexivity.
Qed.

Lemma redis_up_with redis redis' s : redis_up s redis → redis_up (with_redis redis' s) redis'.
Proof. intros [Ho _]. by split. Qed.

Lemma insert_passkey_run id uid cred key name s :
  aw_outcomes (site_accounts s) = [] → site_passkeys s !! id = None →
  (∀ i k, site_passkeys s !! i = Some k → passkey_external_id k ≠ cred) →
  insert_passkey id uid cred key name s = (Ok tt, set_passkeys (<[id := {| passkey_id := id; passkey_instance_user_id := uid;
    passkey_external_id := cred; passkey_public_key := key; passkey_sign_count := 0; passkey_name := Some name;
    passkey_type := Some "soft"; passkey_created_at := aw_now (site_accounts s); passkey_last_used_at := None |}]> (site_passkeys s)) s).
Proof.
  intros Hout Hid Hcred. unfold insert_passkey, passkey_statement. rewrite on_accounts_bind, attempt_healthy by done.
  rewrite bool_decide_eq_false_2 by (cbn; rewrite Hid; by intros [? ?]).
  destruct (existsb _ _) eqn:He; [|by destruct s].
  apply existsb_exists in He as (k & Hk & E). apply list_elem_of_In, list_elem_of_fmap in Hk as ([i q] & -> & Hi).
  apply elem_of_map_to_list in Hi. apply String.eqb_eq in E. by destruct (Hcred i q).
Qed.

Lemma passkeys_of_insert uid id k (p : gmap Uuid Passkey) :
  p !! id = None → passkey_instance_user_id k = uid →
  List.length (passkeys_of uid (<[id := k]> p)) = Datatypes.S (List.length (passkeys_of uid p)).
Proof.
  intros Hid Hk. unfold passkeys_of. pose proof (map_to_list_insert p id k Hid) as Hp. apply (fmap_Permutation snd) in Hp.
  assert (Hfilter : ∀ (f : Passkey → bool) l l', l ≡ₚ l' → List.filter f l ≡ₚ List.filter f l').
  { intros f l l'. induction 1; cbn; repeat case_match; eauto using Permutation; by etrans. }
  rewrite (Permutation_length (Hfilter _ _ _ Hp)). cbn. by rewrite bool_decide_eq_true_2.
Qed.

(** A registration is good for one passkey, and the limit of three is only looked at when
    one is started: whatever passkeys there are, a registration under way adds another, and
    its challenge is refused from then on. *)
Theorem registration_adds_one (headers : gmap string (option string)) (s : Site L1 L2) (redis : L2) (u : User) (id drawn id' drawn' : Uuid)
    (payload payload' : RegisterPasskeyRequest) (text cred key : string) (session : json) (wa : Webauthn)
    (Htoken : token_of cfg headers (now_secs (site_accounts s)) (user_id u)) (Hhealthy : healthy_site s)
    (Huser : active_user (user_id u) (site_accounts s) = Some u) (Hredis : redis_up s redis)
    (Hstored : ts_get (clock s) (prefix_key (site_cache s) (registration_key (user_id u) (rp_challenge_token payload))) redis = Some text)
    (Hsession : stored_session (user_id u) text = Ok (inr session))
    (Hwebauthn : new_webauthn (webauthn_rp_id_and_origin cfg headers (use_host_as_rp_id cfg)).1
                   (webauthn_rp_id_and_origin cfg headers (use_host_as_rp_id cfg)).2 = Ok (Some wa))
    (Hcredential : credential_of_json (rp_credential payload) = true)
    (Hfinish : finish_passkey_registration wa (rp_credential payload) session = Ok (cred, key))
    (Hid : site_passkeys s !! id = None) (Hcred : ∀ i k, site_passkeys s !! i = Some k → passkey_external_id k ≠ cred)
    (Hsame : rp_challenge_token payload' = rp_challenge_token payload) :
  ∃ resp s', security_call cfg headers (RegisterPasskey id drawn payload) s = (Ok resp, s') ∧
    List.length (passkeys_of (user_id u) (site_passkeys s')) = Datatypes.S (List.length (passkeys_of (user_id u) (site_passkeys s))) ∧
    (security_call cfg headers (RegisterPasskey id' drawn' payload') s').1 = Err 400%Z.
Proof.
  destruct Hhealthy as [Hout Hof]. pose proof (session_user_token cfg headers _ _ u Htoken Hout Huser) as [Hu _].
  rewrite (security_call_token cfg _ _ _ _ _ Htoken Hout Huser). cbn [security_handler]. unfold register_passkey.
  rewrite on_accounts_bind, Hu. replace (set_accounts (site_accounts s) s) with s by (by destruct s). cbn zeta.
  unfold site_redis at 1. rewrite eff_gets_bind. destruct Hredis as [Hco Hcr]. rewrite Hcr. rewrite eff_bind_eq, redis_get_up by done.
  rewrite Hstored, eff_lift_bind. cbn [ok_or]. rewrite eff_lift_bind, Hsession. unfold finish_registration.
  destruct (webauthn_rp_id_and_origin cfg headers (use_host_as_rp_id cfg)) as [rp_id origin]. cbn [fst snd] in Hwebauthn.
  rewrite eff_lift_bind, Hwebauthn, Hcredential. cbn [negb]. rewrite eff_lift_bind, Hfinish. cbn [map_err].
  rewrite eff_bind_eq, (forget_registration_up s redis) by done. rewrite eff_bind_eq, insert_passkey_run by done.
  set (s2 := set_passkeys _ _). rewrite eff_bind_eq, (forget_registration_up s2 (ts_del _ redis)) by done.
  set (s3 := with_redis _ s2). rewrite eff_bind_eq.
  destruct (audit_security_run headers drawn (user_id u) "passkey_registered" (rp_name payload) "User registered passkey" "POST"
    "/api/security/passkeys/register" s3) as (o & -> & _).
  rewrite on_accounts_bind. eexists _, _. split; [reflexivity|]. split; [cbn; by apply passkeys_of_insert|].
  set (s4 := set_accounts _ _). rewrite (security_call_token cfg headers _ s4 (user_id u) u) by done. cbn [security_handler].
  unfold register_passkey. rewrite on_accounts_bind. change (site_accounts s4) with (site_accounts s). rewrite Hu.
  unfold site_redis at 1. rewrite eff_gets_bind. cbn zeta. rewrite Hsame.
  change (cs_redis (site_cache (set_accounts (site_accounts s) s4))) with
    (Some (ts_del (prefix_key (site_cache s2) (registration_key (user_id u) (rp_challenge_token payload)))
      (ts_del (prefix_key (site_cache s) (registration_key (user_id u) (rp_challenge_token payload))) redis))).
  cbv beta iota. rewrite eff_bind_eq, (redis_get_up _ (ts_del _ (ts_del _ redis))) by done. rewrite eff_lift_bind.
  destruct (ts_get _ _ (ts_del _ (ts_del _ redis))) as [v|] eqn:Hg; [|done].
  exfalso. apply ts_get_del in Hg as [Hne _]. by apply Hne.
Qed.

(** *** The relying party *)

(** Outside of development, whatever the header of the origin, the relying party is the
    configured domain or, if so configured, the host the browser is on within it, over
    HTTPS. *)
Theorem relying_party_in_domain (headers : gmap string (option string)) (use_host : bool) (rp_id origin : string)
    (Henv : sc_environment cfg ≠ "development")
    (Hrun : webauthn_rp_id_and_origin cfg headers use_host = (rp_id, origin)) :
  let domain := default "leadsnebula.com" (sc_webauthn_rp_id cfg) in
  (rp_id = domain ∨ use_host = true ∧ ends_with ("." +:+ domain) rp_id = true) ∧
  (origin = "https://" +:+ domain ∨
   ∃ url, url_parse origin = Some url ∧ url_scheme url = "https" ∧ header_text headers "origin" = Some origin ∧
     (url_host_str url = Some domain ∨ ends_with ("." +:+ domain) (default "" (url_host_str url)) = true ∨
      domain = "" ∧ url_host_str url = None)).
Proof.
  intros domain. unfold webauthn_rp_id_and_origin in Hrun. fold domain in Hrun. apply String.eqb_neq in Henv. rewrite Henv in Hrun.
  destruct (String.eqb_spec (default "" (header_text headers "origin")) "") as [Ho|Ho].
  { injection Hrun as <- <-. by split; left. }
  destruct (header_text headers "origin") as [h|] eqn:Hh; [|done]. cbn [default option_fmap] in *. cbn in Ho, Hrun.
  destruct (url_parse h) as [url|] eqn:Hu.
  2:{ injection Hrun as <- <-. by split; left. }
  destruct (String.eqb_spec (url_scheme url) "https") as [Hs|Hs]; cbn in Hrun.
  2:{ injection Hrun as <- <-. by split; left. }
  destruct (String.eqb (default "" (url_host_str url)) domain || _) eqn:Hd; cbn in Hrun.
  2:{ injection Hrun as <- <-. by split; left. }
  injection Hrun as <- <-. apply orb_true_iff in Hd. split.
  - destruct use_host; [|by left]. destruct Hd as [Hd|Hd]; [left; by apply String.eqb_eq|by right].
  - right. exists url. split_and!; [done..|]. destruct Hd as [Hd|Hd]; [|by right; left]. apply String.eqb_eq in Hd.
    destruct (url_host_str url); cbn in Hd; [left; by rewrite Hd|]. right. right. by split.
Qed.
End passkeys.

(** ** Witnesses *)

Definition security_auth : AuthLib := {|
  argon2_hash := account_lib.(argon2_hash); password_hash_new := account_lib.(password_hash_new);
  argon2_verify_password := account_lib.(argon2_verify_password); jwt_encode := account_lib.(jwt_encode);
  jwt_decode := account_lib.(jwt_decode); totp_new := λ _, Ok tt; totp_check := λ secret _ code, String.eqb code ("code of " +:+ secret);
  hmac_sha256_hex := account_lib.(hmac_sha256_hex); hmac_verify_slice := account_lib.(hmac_verify_slice);
  hex_decode := account_lib.(hex_decode); strings_of_json := account_lib.(strings_of_json);
  json_of_strings := account_lib.(json_of_strings); parse_user_id := account_lib.(parse_user_id);
  sql_lower := account_lib.(sql_lower); unicode_uppercase := account_lib.(unicode_uppercase);
  unicode_lowercase := account_lib.(unicode_lowercase) |}.

#[local] Instance security_auth_laws : AuthLaws account_platform security_auth.
Proof. destruct account_lib_laws as [H1 H2 H3 H4]. split; [exact H1|exact H2|exact H3|exact H4]. Qed.

(** Sessions of registrations are stored as they are. *)
Definition security_crypto : Crypto := {|
  aes_gcm_encrypt := plain_crypto.(aes_gcm_encrypt); aes_gcm_decrypt := plain_crypto.(aes_gcm_decrypt);
  hmac_sha256 := plain_crypto.(hmac_sha256); pbkdf2_hmac_sha1 := plain_crypto.(pbkdf2_hmac_sha1);
  base64_decode := Ok; string_from_utf8 := Ok;
  json_text := λ v, default "" (jget "reg_session" v ≫= as_str);
  json_from_text := λ text, Ok (@registration_data account_platform 7%N (JString text)) |}.

Definition security_lib : SecurityLib := {|
  base32_encode := id; urlencode := id;
  url_parse := λ s, (λ host, {| url_scheme := "https"; url_host_str := Some host |}) <$> strip_prefix "https://" s;
  webauthn_builder := λ _ _, Ok tt; webauthn_build := λ _, Ok tt;
  start_passkey_registration := λ _ challenge _ _, Ok (json_object [("publicKey", JString challenge)], JString challenge);
  credential_of_json := λ _, true; registration_of_json := λ _, true;
  finish_passkey_registration := λ _ credential _, Ok (default "" (as_str credential), "key") |}.

#[local] Existing Instances account_platform security_crypto security_auth security_lib.

Definition security_config : SecurityConfig := {|
  sc_jwt_secret := "s"; sc_environment := "production"; sc_password_reset_base_url := "https://x"; sc_webauthn_rp_id := None;
  sc_webauthn_local_https := None; sc_webauthn_use_host_as_rp_id := None |}.

Definition owner_office : Office := {|
  of_instances := [{| instance_id := 1%N; instance_user_id := Some 7%N; instance_deleted_at := None |}];
  of_publishers := ∅; of_verticals := []; of_publisher_verticals := []; of_trees := ∅; of_tree_publishers := [];
  of_tree_campaigns := []; of_campaigns := ∅; of_buyers := ∅; of_integrations := []; of_rule_sets := ∅; of_zip_lists := [];
  of_zip_codes := []; of_audit := []; of_now := 1000000000%Z; of_outcomes := [] |}.

Definition registered (i : nat) : Uuid * Passkey := (N.of_nat i, {|
  passkey_id := N.of_nat i; passkey_instance_user_id := 7%N; passkey_external_id := uuid_to_string (N.of_nat i); passkey_public_key := "k";
  passkey_sign_count := 0; passkey_name := None; passkey_type := None; passkey_created_at := 0%Z; passkey_last_used_at := None |}).

Definition challenge_key : string := "prod:" +:+ registration_key 7%N "abcd".

(** Three passkeys, and a registration under way. *)
Definition sample_site (otp : gmap Uuid OtpSettings) : Site ttl_map ttl_map := {|
  site_accounts := sample_accounts None otp 1000 []; site_office := owner_office;
  site_passkeys := list_to_map (registered <$> seq 0 3);
  site_cache := {| cs_l1 := ∅; cs_redis := Some {[challenge_key := ("challenge", None)]}; cs_redis_env := "prod"; cs_env := "prod";
                   cs_hits := 0; cs_misses := 0; cs_outcomes := [] |} |}.

Definition session_token : string := result_or "" (JwtService_encode "s" 1000 (uuid_to_string 7%N) "ann@example.com").
Definition session_headers (t : string) : gmap string (option string) := {["authorization" := Some ("Bearer " +:+ t)]}.

Lemma sample_token otp : token_of security_config (session_headers session_token) (now_secs (site_accounts (sample_site otp))) 7%N.
Proof. exists session_token. eexists. split_and!; vm_compute; reflexivity. Qed.

Lemma security_calls_stay_own_witness :
  own_changes 7%N (sample_site ∅) (security_call security_config (session_headers session_token) (SetupOtp "secret") (sample_site ∅)).2.
Proof.
  destruct (security_call security_config (session_headers session_token) (SetupOtp "secret") (sample_site ∅)) as [r s'] eqn:Hr.
  exact (proj1 (security_calls_stay_own security_config (session_headers session_token) (SetupOtp "secret") (sample_site ∅) s' r Hr)
    7%N (sample_token ∅)).
Defined.

Lemma password_alone_disables_otp_witness :
  let w := sample_accounts None {[7%N := sample_otp]} 1000 [] in
  ∃ t u s', (login "s" (Some sample_login) w).1 = Ok (login_otp_required t) ∧
    security_call security_config (session_headers t) (DisableOtp 1%N) (sample_site {[7%N := sample_otp]}) =
      (Ok (success [("message", JString "OTP disabled successfully.")]), s') ∧
    (login "s" (Some sample_login) (site_accounts s')).1 = Ok (login_granted session_token u).
Proof.
  intros w. set (t := text_of ("s", default [] (flat_claims (login_token_payload (sample_user None None) 1000)))).
  destruct (password_alone_disables_otp security_config sample_login w w (sample_site {[7%N := sample_otp]}) (login_otp_required t) t
    session_token (session_headers t) 1%N) as (u & s' & Hu & _ & Hd & Hl); try done.
  - apply sample_accounts_wf.
  - exists t, u, s'. split; [vm_compute; reflexivity|]. split; [exact Hd|].
    assert (Hs : s' = (security_call security_config (session_headers t) (DisableOtp 1%N) (sample_site {[7%N := sample_otp]})).2) by (by rewrite Hd).
    assert (Hu' : u = sample_user None None).
    { destruct Hu as [Hu _]. vm_compute in Hu. by injection Hu as <-. }
    cbn [sc_jwt_secret security_config] in Hl. rewrite Hl; [done|]. rewrite Hs, Hu'. vm_compute. reflexivity.
Defined.

Lemma verify_without_setup_witness :
  ∃ s' : Site ttl_map ttl_map, (security_call security_config (session_headers session_token)
           (VerifyOtp 1%N (λ _ j, j) {| vr_code := "code of mine"; vr_secret_encrypted := Some "mine" |}) (sample_site ∅)).1 =
      Ok (success [("backup_codes_encrypted", JArray (replicate 8 (JString "ABCDEFGH")))]) ∧
    otp_required 7%N (site_accounts s') = false.
Proof.
  destruct (verify_without_setup security_config (session_headers session_token) 1%N (λ _ j, j)
    {| vr_code := "code of mine"; vr_secret_encrypted := Some "mine" |} (sample_site ∅) 7%N (sample_user None None) "mine"
    (text_of (backup_codes (λ _ j, j)))) as (s' & Hr & _ & Ho); try done.
  - apply sample_token.
  - exists s'. rewrite Hr. split; [vm_compute; reflexivity|exact Ho].
Defined.

(** A site on which the user has set up and verified a factor. *)
Definition sample_call (c : SecurityCall) (s : Site ttl_map ttl_map) : Result Z json * Site ttl_map ttl_map :=
  security_call security_config (session_headers session_token) c s.
Definition sample_verification : SecurityCall :=
  VerifyOtp 1%N (λ i j, (i + j)%nat) {| vr_code := "code of secret"; vr_secret_encrypted := None |}.
Definition set_up_site : Site ttl_map ttl_map := (sample_call (SetupOtp "secret") (sample_site ∅)).2.
Definition enrolled_site : Site ttl_map ttl_map := (sample_call sample_verification set_up_site).2.
Definition waiting_token : string := text_of ("s", default [] (flat_claims (login_token_payload (sample_user None None) 1000))).
Definition backup_request : VerifyOtpLoginRequest :=
  {| vq_login_token := waiting_token; vq_otp_code := None; vq_backup_code := Some "BCDEFGHJ" |}.

Lemma enrolled_factor_is_asked_witness :
  login "s" (Some sample_login) (site_accounts enrolled_site) = (Ok (login_otp_required waiting_token), site_accounts enrolled_site) ∧
  ∃ w3, verify_otp_login "s" backup_request (site_accounts enrolled_site) = (Ok (login_granted session_token (sample_user None None)), w3) ∧
    verify_otp_login "s" backup_request w3 = (Ok (login_refused "Invalid OTP code or backup code"), w3).
Proof.
  edestruct (enrolled_factor_is_asked security_config (session_headers session_token) (sample_site ∅) set_up_site enrolled_site
    (sample_user None None) "secret" 1%N (λ i j, (i + j)%nat) "code of secret" None
    (sample_call (SetupOtp "secret") (sample_site ∅)).1 (sample_call sample_verification set_up_site).1 waiting_token session_token
    (sample_token ∅) (conj eq_refl eq_refl)) as (_ & Hlogin & _ & Hcodes);
    [vm_compute; reflexivity|intros o Ho; vm_compute in Ho; discriminate|exact (surjective_pairing (sample_call (SetupOtp "secret") (sample_site ∅)))
    |exact (surjective_pairing (sample_call sample_verification set_up_site))|vm_compute; reflexivity
    |vm_compute; reflexivity|intros l; by eexists|vm_compute; reflexivity|vm_compute; reflexivity|].
  split.
  - apply (Hlogin sample_login); [vm_compute; discriminate..|].
    unfold authenticated. refine (conj _ (conj _ (conj _ _))); vm_compute; reflexivity.
  - destruct (Hcodes "BCDEFGHJ") as (i & c' & w3 & Hi & _ & _ & Hrun & _ & Hagain).
    { apply (bool_decide_unpack _). vm_compute. exact I. }
    exists w3. split; [exact Hrun|]. apply Hagain. vm_compute in Hi. injection Hi as <-.
    intros j d Hj. do 8 (destruct j as [|j]; [vm_compute in Hj; injection Hj as <-; vm_compute; congruence|]). done.
Defined.

Lemma registration_adds_one_witness :
  ∃ resp s', security_call security_config (session_headers session_token)
      (RegisterPasskey 50%N 1%N {| rp_challenge_token := "abcd"; rp_name := "Key"; rp_credential := JString "new" |}) (sample_site ∅) = (Ok resp, s') ∧
    List.length (passkeys_of 7%N (site_passkeys s')) = 4%nat.
Proof.
  destruct (registration_adds_one security_config (session_headers session_token) (sample_site ∅) {[challenge_key := ("challenge", None)]}
    (sample_user None None) 50%N 1%N 51%N 1%N {| rp_challenge_token := "abcd"; rp_name := "Key"; rp_credential := JString "new" |}
    {| rp_challenge_token := "abcd"; rp_name := "Key"; rp_credential := JString "new" |} "challenge" "new" "key" (JString "challenge")
    {| wa_rp_id := "leadsnebula.com"; wa_origin := "https://leadsnebula.com"; wa_allowed_origins := []; wa_any_port := false |})
    as (resp & s' & Hr & Hn & _); try done.
  - apply sample_token.
  - intros i k Hk. apply elem_of_list_to_map_2, list_elem_of_fmap in Hk as (j & Hj & Hin). injection Hj as -> ->.
    apply elem_of_seq in Hin. by destruct j as [|[|[|j]]]; [vm_compute..|lia].
  - exists resp, s'. split; [exact Hr|]. exact Hn.
Defined.

Lemma relying_party_in_domain_witness :
  let headers := {["origin" := Some "https://dash.leadsnebula.com"]} in
  webauthn_rp_id_and_origin security_config headers true = ("dash.leadsnebula.com", "https://dash.leadsnebula.com") ∧
  ends_with ".leadsnebula.com" "dash.leadsnebula.com" = true.
Proof.
  intros headers. assert (Hr : webauthn_rp_id_and_origin security_config headers true =
    ("dash.leadsnebula.com", "https://dash.leadsnebula.com")) by (vm_compute; reflexivity).
  split; [exact Hr|]. destruct (relying_party_in_domain security_config headers true _ _ ltac:(done) Hr) as [[Hd|[_ Hd]] _]; [done|exact Hd].
Defined.
