(* ===== verification/LeadReports.v ===== *)
(** * Reports on leads

    [crates/api/src/routes/dashboard.rs]: the lists of audit logs of a publisher, buyer,
    campaign and ping tree, the list of the leads of an instance ([list_leads]), and the
    details of one ([get_lead_details]).  They read the tables the queue writes ([Db]) next
    to those of the back office ([Office]), and the key of personal data ([Ssm.v]).  What
    the database and its driver make of a value is in [ReportLib]. *)

From stdpp Require Import base list strings gmap.
From Stdlib Require Import Ascii String ZArith Lia.
From S2P Require Import Prelude Float64 Platform Json Models Metrics Samples Store WriteBehind.
From S2P Require Import Encryption LeadRequest LeadHandler Cache Ssm Accounts ApiAuth Office Campaigns Buyers Security.

Open Scope string_scope.
Open Scope list_scope.

(** ** What the reports rely on *)

(** PostgreSQL's [LOWER] and its cast of a text to a float; what sqlx makes of a column
    without time zone read as [DateTime<Utc>], and of a number of milliseconds, here
    computed from microseconds, read as [f64]; and [urlencoding::decode]. *)
Class ReportLib : Type := {
  db_lower : string → string;
  text_as_float : string → Result string f64;
  timestamp_as_utc : DateTime → option DateTime;
  epoch_ms : Z → option f64;
  urldecode : string → option string
}.

(** What the database adds to the rows of [buyer_responses] and [post_payloads], by their
    place in the table. *)
Record RowStamps : Type := {
  response_serial : nat → Z;
  response_created_at : nat → DateTime;
  post_serial : nat → Z;
  post_created_at : nat → DateTime;
  post_updated_at : nat → DateTime
}.

(** [buyer_responses] has a column for an encrypted payload, which nothing writes. *)
Record ResponseLine : Type := {
  rs_id : Z; rs_created_at : DateTime; rs_row : BuyerResponseRow; rs_payload_encrypted : option string
}.
Record PostLine : Type := {
  ps_id : Z; ps_created_at : DateTime; ps_updated_at : DateTime; ps_row : PostPayloadRow
}.

Definition response_lines (st : RowStamps) (db : Db) : list ResponseLine :=
  imap (λ i r, {| rs_id := response_serial st i; rs_created_at := response_created_at st i; rs_row := r;
                  rs_payload_encrypted := None |}) (db_buyer_responses db).
Definition post_lines (st : RowStamps) (db : Db) : list PostLine :=
  imap (λ i r, {| ps_id := post_serial st i; ps_created_at := post_created_at st i; ps_updated_at := post_updated_at st i;
                  ps_row := r |}) (db_post_payloads db).

(** A lead with the rows the queries join to it. *)
Record LeadLine : Type := {
  ln_lead : Lead; ln_vertical : option Vertical; ln_publisher : option Publisher; ln_buyer : option Buyer
}.

(** How a handler stops short: with a status, or by a panic. *)
Inductive Stop : Type := Status (code : Z) | Unwound (m : string).

Record ReportWorld (L1 L2 : Type) : Type := { rw_office : Office; rw_ssm : SsmState L1 L2 }.
Arguments rw_office {_ _}. Arguments rw_ssm {_ _}.

(** ** Text *)

(** The characters of a text, as the bytes of each. *)
Definition char_len (a : ascii) : nat :=
  if ascii_between 0 191 a then 1 else if ascii_between 192 223 a then 2 else if ascii_between 224 239 a then 3 else 4.

(** [str::parse::<i64>]. *)
Definition parse_i64 (s : string) : option Z :=
  let '(neg, digits) := read_sign s in
  match read_digits 0 0 digits with
  | (n, S _, EmptyString) =>
      let z := if neg then (- n)%Z else n in
      if (- 2 ^ 63 <=? z)%Z && (z <? 2 ^ 63)%Z then Some z else None
  | _ => None
  end.

(** [i64] arithmetic, which wraps in a release build. *)
Definition i64_wrap (z : Z) : Z := ((z + 2 ^ 63) mod 2 ^ 64 - 2 ^ 63)%Z.

(** A text without its first character, for [_] of a pattern. *)
Fixpoint drop_chars (n : nat) (s : string) : string :=
  match n, s with S n, String _ s => drop_chars n s | _, _ => s end.

(** [LIKE]: [%] is any text, [_] any character, and a backslash takes the next one as it
    is.  The fuel is the length of both. *)
Fixpoint like (fuel : nat) (pattern s : string) : bool :=
  match fuel, pattern with
  | O, _ => false
  | _, EmptyString => String.eqb s ""
  | S fuel, String c p =>
      if Ascii.eqb c "%" then
        like fuel p s || match s with String a s' => like fuel pattern (drop_chars (char_len a - 1) s') | EmptyString => false end
      else if Ascii.eqb c "_" then
        match s with String a s' => like fuel p (drop_chars (char_len a - 1) s') | EmptyString => false end
      else
        let '(c, p) := match p with String c' p' => if Ascii.eqb c "\" then (c', p') else (c, p) | EmptyString => (c, p) end in
        match s with String a s' => Ascii.eqb a c && like fuel p s' | EmptyString => false end
  end.

Definition sql_like (pattern s : string) : bool := like (S (String.length pattern + String.length s)) pattern s.

(** [split(c)]. *)
Fixpoint split_on (c : ascii) (s : string) : list string :=
  match s with
  | EmptyString => [EmptyString]
  | String a s' =>
      if Ascii.eqb a c then EmptyString :: split_on c s'
      else match split_on c s' with part :: rest => String a part :: rest | [] => [String a EmptyString] end
  end.

(** [splitn(2, c)]: up to the first [c], and the rest if there is one. *)
Fixpoint split_pair (c : ascii) (s : string) : string * option string :=
  match s with
  | EmptyString => (EmptyString, None)
  | String a s' => if Ascii.eqb a c then (EmptyString, Some s') else let '(k, v) := split_pair c s' in (String a k, v)
  end.

(** What follows the last occurrence of [sep]: [rsplit(sep).next()]. *)
Fixpoint after_last (sep s : string) : option string :=
  match s with
  | EmptyString => if String.eqb sep "" then Some "" else None
  | String _ s' =>
      match after_last sep s' with
      | Some rest => Some rest
      | None => strip_prefix sep s
      end
  end.

(** [str::replace]; an empty pattern does not occur. *)
Fixpoint str_replace (fuel : nat) (old new s : string) : string :=
  match fuel with
  | O => s
  | S fuel =>
      match strip_prefix old s with
      | Some rest => new +:+ str_replace fuel old new rest
      | None => match s with String a s' => String a (str_replace fuel old new s') | EmptyString => EmptyString end
      end
  end.

Section reports.
Context {L1 L2 : Type} `{!TtlStore L1, !TtlStore L2}.
Context `{Platform, Crypto, AuthLib, ReportLib} (db : Db) (st : RowStamps).
Abbreviation report := (eff (ReportWorld L1 L2) Stop).

(** ** Statements *)

Definition on_office_of {A} (m : handler A) : report A := λ w,
  let '(r, o) := m (rw_office w) in
  (map_err Status r, {| rw_office := o; rw_ssm := rw_ssm w |}).
Definition rows {A} (status : Z) (m : sql A) : report A := on_office_of (or_status status m).
(** [.await.ok()]. *)
Definition rows_ok {A} (m : sql A) : report (option A) := on_office_of (ignore_error m).
Definition unwinding {A} (r : Panics A) : report A := eff_lift (map_err Unwound r).
Definition stop {A} (status : Z) : report A := eff_err (Status status).

(** ** Audit logs *)

Definition resource_entry (resource : string) (id : Uuid) (a : AuditLog) : bool :=
  bool_decide (audit_resource_type a = Some resource) && bool_decide (audit_resource_id a = Some id).

(** The last hundred, newest first, with the user of each. *)
Definition resource_log (resource : string) (id : Uuid) (w : Office) : list AuditLog :=
  take 100 (sort_by (λ a b, Z.compare (audit_created_at b) (audit_created_at a)) (List.filter (resource_entry resource id) (of_audit w))).

Definition resource_entry_json (entry_id : AuditLog → Uuid) (users : gmap Uuid User) (a : AuditLog) : json := json_object [
  ("id", JString (uuid_to_string (entry_id a))); ("action_type", JString (audit_action_type a));
  ("user", JString (user_label (audit_instance_user_id a ≫= λ u, users !! u))); ("details", audit_details a);
  ("affected_resources", audit_affected_resources a); ("created_at", JString (to_rfc3339 (audit_created_at a)))].

(** [users]: the rows of [instance_users]. *)
Definition list_audit_logs (resource : string) (entry_id : AuditLog → Uuid) (users : gmap Uuid User) (id : Uuid) : report json :=
  logs ← rows 500 (fetch (resource_log resource id));
  mret (success [("audit_logs", JArray (resource_entry_json entry_id users <$> logs))]).

Definition list_publisher_audit_logs := list_audit_logs "Publisher".
Definition list_buyer_audit_logs := list_audit_logs "Buyer".
Definition list_campaign_audit_logs := list_audit_logs "Campaign".
Definition list_ping_tree_audit_logs := list_audit_logs "PingTree".

(** ** The list of leads *)

(** *** The request *)

Definition url_text (s : string) : string := default s (urldecode s).

Definition query_params (query : option string) : gmap string string :=
  match query with
  | None => ∅
  | Some q => foldl (λ m pair, let '(k, v) := split_pair "=" pair in <[url_text k := url_text (default "" v)]> m) ∅ (split_on "&" q)
  end.

Definition page_of (params : gmap string string) : Z := Z.max (default 1%Z (params !! "page" ≫= parse_i64)) 1.
Definition per_page_of (params : gmap string string) : Z :=
  Z.min (Z.max (default 100%Z (params !! "per_page" ≫= parse_i64)) 1) 100.
Definition offset_of (page per_page : Z) : Z := i64_wrap (i64_wrap (page - 1) * per_page).

(** At least three bytes. *)
Definition search_of (params : gmap string string) : option string :=
  s ← params !! "search";
  let trimmed := str_trim s in
  if (3 <=? String.length trimmed)%nat then Some (to_lowercase trimmed) else None.

(** *** The query *)

(** [EXISTS (SELECT 1 FROM publishers ...)]; nothing equals a missing instance. *)
Definition of_instance (inst : option Uuid) (w : Office) (l : Lead) : bool :=
  match inst, lead_publisher_id l ≫= λ p, live_publisher p w with
  | Some i, Some p => bool_decide (publisher_instance_id p = i)
  | _, _ => false
  end.

(** The left joins, each on a primary key. *)
Definition lead_line (w : Office) (l : Lead) : LeadLine := {|
  ln_lead := l;
  ln_vertical := List.find (λ v, bool_decide (vertical_id v = lead_vertical_id l)) (of_verticals w);
  ln_publisher := lead_publisher_id l ≫= λ p, live_publisher p w;
  ln_buyer := lead_buyer_id l ≫= λ b, live_buyer b w
|}.

Definition lines_of_instance (inst : option Uuid) (w : Office) : list LeadLine :=
  lead_line w <$> List.filter (of_instance inst w) (map_to_list (db_leads db)).*2.

(** [LOWER(x) LIKE '%search%' OR ... OR email_encrypted = search OR ...]. *)
Definition search_matches (search : string) (l : LeadLine) : bool :=
  let contains o := match o with Some x => sql_like ("%" +:+ search +:+ "%") (db_lower x) | None => false end in
  contains (lead_lead_id (ln_lead l)) || contains (publisher_name <$> ln_publisher l) || contains (buyer_name <$> ln_buyer l)
  || bool_decide (lead_email_encrypted (ln_lead l) = Some search)
  || bool_decide (lead_ip_address_encrypted (ln_lead l) = Some search).

Definition found_lines (inst : option Uuid) (search : option string) (w : Office) : list LeadLine :=
  match search with
  | Some s => List.filter (search_matches s) (lines_of_instance inst w)
  | None => lines_of_instance inst w
  end.

Definition newest_first (a b : LeadLine) : comparison := Z.compare (lead_created_at (ln_lead b)) (lead_created_at (ln_lead a)).

(** *** The price of a row *)

(** [payload ? key]. *)
Definition jsonb_has (key : string) (v : json) : bool :=
  match v with
  | JObject o => match map_get key o with Some _ => true | None => false end
  | JArray l => existsb (λ x, match x with JString s => String.eqb s key | _ => false end) l
  | JString s => String.eqb s key
  | _ => false
  end.

(** [(payload ->> key)::float]. *)
Definition jsonb_float (v : option json) : Result string (option f64) :=
  match v with
  | None | Some JNull => Ok None
  | Some (JNumber n) => Ok (Some (number_as_f64 n))
  | Some (JString s) => x ← text_as_float s; Ok (Some x)
  | Some _ => Err "invalid input syntax for type double precision"
  end.

Definition payload_price (payload : json) : Result string (option f64) :=
  if jsonb_has "routing_result" payload then jsonb_float (jget "routing_result" payload ≫= jget "price")
  else if jsonb_has "price" payload then jsonb_float (jget "price" payload)
  else Ok None.

(** The newest row of [post_payloads] for the lead, and its [post_id] unless it has none. *)
Definition price_row (l : Lead) : option PostLine :=
  head (sort_by (λ a b, Z.compare (ps_created_at b) (ps_created_at a))
    (List.filter (λ p, bool_decide (post_row_lead_id (ps_row p) = lead_uuid l) &&
       match lead_post_id l with None => true | Some pid => bool_decide (post_row_post_id (ps_row p) = Some pid) end)
     (post_lines st db))).

Definition list_price (l : Lead) : Result string (option f64) :=
  match price_row l with None => Ok None | Some p => payload_price (post_row_payload (ps_row p)) end.

(** [ORDER BY created_at DESC LIMIT per_page OFFSET offset].  Leads of one creation time come
    in the order in which the plan of this query delivers the rows, [ties]. *)
Definition page_lines (ties : list LeadLine → list LeadLine) (inst : option Uuid) (search : option string) (per_page offset : Z) (w : Office) : list LeadLine :=
  take (Z.to_nat per_page) (drop (Z.to_nat offset) (sort_by newest_first (ties (found_lines inst search w)))).

Definition priced (l : LeadLine) : Result string (LeadLine * option f64) := price ← list_price (ln_lead l); Ok (l, price).

Definition select_page (ties : list LeadLine → list LeadLine) (inst : option Uuid) (search : option string) (per_page offset : Z) : sql (list (LeadLine * option f64)) :=
  statement (λ w,
    (if (offset <? 0)%Z then Err "OFFSET must not be negative" else mapM priced (page_lines ties inst search per_page offset w), w)).

(** *** The answer *)

(** [EXTRACT(EPOCH FROM (COALESCE(sold_at, updated_at) - COALESCE(submitted_at, created_at))) * 1000]. *)
Definition lead_processing_ms (l : Lead) : option f64 :=
  epoch_ms (default (lead_updated_at l) (lead_sold_at l) - default (lead_created_at l) (lead_submitted_at l)).

Definition json_of_time (t : option DateTime) : json := json_of_opt_str (to_rfc3339 <$> (t ≫= timestamp_as_utc)).
Definition json_of_i64 (z : Z) : json := JNumber (if (z <? 0)%Z then NegInt z else PosInt z).
Definition json_of_opt_f64 : option f64 → json := json_of_option json_of_f64.

Definition list_timing (l : Lead) : json :=
  let timing := jget "auction_timing" (lead_vertical_data l) in
  let post_ms := (timing ≫= jget "post_ms") ≫= as_f64 in
  let total_ms := (timing ≫= jget "total_ms") ≫= as_f64 in
  let total :=
    match total_ms, lead_processing_ms l with
    | Some v, Some p => Some (f64_max v p)
    | Some v, None => Some v
    | None, p => p
    end in
  match post_ms, total with
  | None, None => JNull
  | _, _ => json_object [("post_ms", json_of_opt_f64 post_ms); ("total_ms", json_of_opt_f64 total)]
  end.

Definition lead_json (row : LeadLine * option f64) : json :=
  let '(l, price) := row in json_object [
  ("uuid", JString (uuid_to_string (lead_uuid (ln_lead l)))); ("lead_id", json_of_opt_str (lead_lead_id (ln_lead l)));
  ("status", JString (LeadStatus_as_str (lead_status (ln_lead l)))); ("price", json_of_opt_f64 price);
  ("submitted_at", json_of_time (lead_submitted_at (ln_lead l)));
  ("processing_time_ms", json_of_opt_f64 (lead_processing_ms (ln_lead l))); ("auction_timing", list_timing (ln_lead l));
  ("publisher_name", json_of_opt_str (publisher_name <$> ln_publisher l));
  ("buyer_name", json_of_opt_str (buyer_name <$> ln_buyer l))].

Definition slug_of (l : LeadLine) : string := default "unknown" (vertical_slug <$> ln_vertical l).

(** [leads_by_vertical.entry(slug).or_default().push(lead)]. *)
Fixpoint push_lead {A} (slug : string) (lead : A) (groups : list (string * list A)) : list (string * list A) :=
  match groups with
  | [] => [(slug, [lead])]
  | (s, leads) :: rest => if String.eqb s slug then (s, leads ++ [lead]) :: rest else (s, leads) :: push_lead slug lead rest
  end.

Definition leads_by_vertical (page : list (LeadLine * option f64)) : list (string * list json) :=
  foldl (λ groups row, push_lead (slug_of row.1) (lead_json row) groups) [] page.

(** The first letter in upper case, and [&slug[1..]]. *)
Definition vertical_title (slug : string) : Panics string :=
  match slug with
  | EmptyString => Ok (to_uppercase slug)
  | String a rest =>
      if (char_len a =? 1)%nat then Ok (to_uppercase (String a EmptyString) +:+ rest)
      else Err "start byte index 1 is not a char boundary"
  end.

Definition vertical_json (group : string * list json) : Panics json :=
  let '(slug, leads) := group in
  name ← vertical_title slug;
  Ok (json_object [("slug", JString slug); ("name", JString name); ("leads", JArray leads)]).

(** [f64::ceil] of what is not negative, and [as i64]. *)
Definition f64_ceil_i64 (x : f64) : Z :=
  match x with
  | S754_finite false m e => if (0 <=? e)%Z then Z.min (2 ^ 63 - 1) (Z.shiftl (Zpos m) e) else (- ((- Zpos m) / 2 ^ (- e)))%Z
  | _ => 0
  end.

Definition total_pages (total per_page : Z) : Z := f64_ceil_i64 (f64_div (f64_of_Z total) (f64_of_Z per_page)).

Definition pagination (page per_page total : Z) : json := json_object [
  ("page", JNumber (PosInt page)); ("per_page", JNumber (PosInt per_page)); ("total", JNumber (PosInt total));
  ("total_pages", JNumber (PosInt (total_pages total per_page)))].

(** [order]: the order in which the map of the verticals is walked; [ties]: that of the rows
    the query of the page sorts. *)
Definition list_leads (order : list (string * list json) → list (string * list json)) (ties : list LeadLine → list LeadLine)
    (user : option User)
    (query : option string) : report json :=
  match user with
  | None => stop 401
  | Some user =>
      inst ← rows 500 (get_instance_id_for_user (user_id user));
      let params := query_params query in
      let page := page_of params in
      let per_page := per_page_of params in
      let search := search_of params in
      leads ← rows 500 (select_page ties inst search per_page (offset_of page per_page));
      total ← rows 500 (fetch (λ w, Z.of_nat (List.length (found_lines inst search w))));
      verticals ← unwinding (mapM vertical_json (order (leads_by_vertical leads)));
      mret (success [("verticals", JArray verticals); ("pagination", pagination page per_page total)])
  end.

(** ** The details of a lead *)

(** *** The key *)

Definition on_ssm {A} (m : eff (SsmState L1 L2) Failure A) : report (option A) := λ w,
  let '(r, s) := m (rw_ssm w) in
  let w' := {| rw_office := rw_office w; rw_ssm := s |} in
  match r with
  | Ok a => (Ok (Some a), w')
  | Err (Failed _) => (Ok None, w')
  | Err (Panicked m) => (Err (Unwound m), w')
  end.

(** [if let Ok(Some(..)) = ssm.get_parameter(..)], twice. *)
Definition details_key (source : Z → string → bool → SsmReply) (svc : SsmService) (d1 d2 : SsmDelays) (environment : string)
    : report (option string) :=
  det_key ← on_ssm (get_parameter source svc d1 (det_path environment) true);
  match mjoin det_key with
  | None => mret None
  | Some det_key =>
      salt ← on_ssm (get_parameter source svc d2 (salt_path environment) true);
      mret (derive_key_from_secret det_key <$> mjoin salt)
  end.

(** *** What is decrypted *)

(** [decrypt_payload]: as [decrypt_pii], but an empty text is tried too, and the text is
    read as JSON; nothing without a key. *)
Definition decrypt_payload (key : option string) (enc : option string) : Panics (option json) :=
  match key, enc with
  | Some key, Some e =>
      text ← match decrypt_envelope key e with
             | Ok text => Ok (Some text)
             | Err (Panicked m) => Err m
             | Err (Failed _) =>
                 Ok (match EncryptionService_new key with
                     | Ok svc => match EncryptionService_decrypt svc e with Ok text => Some text | Err _ => None end
                     | Err _ => None
                     end)
             end;
      Ok (text ← text; match json_from_text text with Ok v => Some v | Err _ => None end)
  | _, _ => Ok None
  end.

(** [a.or(b)]. *)
Definition or_else {A} (a b : option A) : option A := match a with Some _ => a | None => b end.

Definition pii_json (key : option string) (l : Lead) : Panics json :=
  first_name ← decrypt_pii key (lead_first_name_encrypted l);
  last_name ← decrypt_pii key (lead_last_name_encrypted l);
  email ← decrypt_pii key (lead_email_encrypted l);
  street_address ← decrypt_pii key (lead_street_address_encrypted l);
  zip ← decrypt_pii key (lead_zip_encrypted l);
  ip_address ← decrypt_pii key (lead_ip_address_encrypted l);
  Ok (json_object [
    ("first_name", json_of_opt_str first_name); ("last_name", json_of_opt_str last_name); ("email", json_of_opt_str email);
    ("street_address", json_of_opt_str street_address); ("zip", json_of_opt_str zip); ("ip_address", json_of_opt_str ip_address)]).

(** *** The lead *)

(** The columns the query of the lead selects; another one reads as an error, and
    [.ok().flatten()] as nothing. *)
Definition lead_columns : list string := [
  "uuid"; "lead_id"; "status"; "submitted_at"; "sold_at"; "created_at"; "updated_at"; "vertical_data";
  "first_name_encrypted"; "last_name_encrypted"; "email_encrypted"; "street_address_encrypted"; "zip_encrypted";
  "ip_address_encrypted"; "ping_id"; "post_id"; "vertical_id"; "publisher_name"; "buyer_name"; "processing_time_ms"].

Definition try_get {A} (columns : list string) (column : string) (value : option A) : option A :=
  if bool_decide (column ∈ columns) then value else None.

Definition winning_buyer_id (l : Lead) : option Uuid := try_get lead_columns "buyer_id" (lead_buyer_id l).
Definition winning_campaign_id (l : Lead) : option Uuid := try_get lead_columns "campaign_id" (lead_campaign_id l).

Definition select_lead (id : Uuid) (inst : option Uuid) : sql (option LeadLine) :=
  fetch (λ w, l ← db_leads db !! id; if of_instance inst w l then Some (lead_line w l) else None).

(** *** Pings *)

Definition oldest_first {A} (created_at : A → DateTime) (a b : A) : comparison := Z.compare (created_at a) (created_at b).

Definition ping_payload_rows (id : Uuid) : list PingPayloadRow :=
  sort_by (oldest_first pp_created_at) (List.filter (λ p, bool_decide (pp_lead_id p = id)) (db_ping_payloads db)).

(** A response with the names of its buyer and its campaign. *)
Record NamedResponse : Type := { nr_line : ResponseLine; nr_buyer_name : option string; nr_campaign_name : option string }.

Definition named_response (w : Office) (r : ResponseLine) : NamedResponse := {|
  nr_line := r;
  nr_buyer_name := row_buyer_id (rs_row r) ≫= λ id, buyer_name <$> live_buyer id w;
  nr_campaign_name := live_campaign (row_campaign_id (rs_row r)) w ≫= campaign_name
|}.

Definition responses_of_lead (id : Uuid) (w : Office) : list NamedResponse :=
  sort_by (oldest_first (λ r, rs_created_at (nr_line r)))
    (named_response w <$> List.filter (λ r, bool_decide (row_lead_id (rs_row r) = id)) (response_lines st db)).

(** [pings.id] is the place of a ping in its table. *)
Definition ping_join (id : Uuid) : list (string * string) :=
  pp ← List.filter (λ p, bool_decide (pp_lead_id p = id)) (db_ping_payloads db);
  '(serial, p) ← imap (λ i p, (Z.of_nat (S i), p)) (db_pings db);
  if bool_decide (ping_row_lead_id p = pp_lead_id pp) && bool_decide (pp_ping_id pp = Some serial)
  then [(ping_row_ping_id p, pp_request_payload_encrypted pp)] else [].

Definition insert_request (key : option string) (m : gmap string (option json)) (row : string * string)
    : Panics (gmap string (option json)) :=
  v ← decrypt_payload key (Some row.2); Ok (<[row.1 := v]> m).

Definition ping_request_payloads (key : option string) (join : list (string * string)) : Panics (gmap string (option json)) :=
  foldl (λ m row, m ← m; insert_request key m row) (Ok ∅) join.

(** [base64_decode] and [String::from_utf8] of the part behind the last [_C]. *)
Definition br_ping_id_to_pending_key (pid : string) : option string :=
  after_fp ← strip_prefix "FP_" pid;
  let base_b64 := default after_fp (after_last "_C" after_fp) in
  match base64_decode base_b64 ≫= string_from_utf8 with
  | Ok decoded => Some ("FP_" +:+ base64_encode (str_replace (S (String.length decoded)) "|accepted" "|pending" decoded))
  | Err _ => None
  end.

(** The request of a ping: of its id, of the pending one, or of the first payload. *)
Definition ping_request (requests : gmap string (option json)) (original : option json) (ping_id : option string) : option json :=
  or_else (pid ← ping_id;
           mjoin (or_else (requests !! pid) (br_ping_id_to_pending_key pid ≫= λ k, requests !! k)))
          original.

Definition response_bid (response : option json) : option f64 := (response ≫= jget "bid") ≫= as_f64.

(** [num_milliseconds() as f64]. *)
Definition ping_ms (l : Lead) (created_at : DateTime) : option f64 :=
  (λ lead_created, f64_of_Z (Z.quot (created_at - lead_created) 1000)) <$> timestamp_as_utc (lead_created_at l).

Definition is_winner (l : Lead) (r : BuyerResponseRow) : bool :=
  bool_decide (is_Some (winning_buyer_id l)) && bool_decide (is_Some (winning_campaign_id l)) &&
  bool_decide (row_buyer_id r = winning_buyer_id l) && bool_decide (Some (row_campaign_id r) = winning_campaign_id l).

Definition response_ping_json (key : option string) (l : Lead) (requests : gmap string (option json)) (original : option json)
    (r : NamedResponse) : Panics json :=
  let row := rs_row (nr_line r) in
  let winner := is_winner l row in
  decrypted ← decrypt_payload key (rs_payload_encrypted (nr_line r));
  let response := or_else decrypted (Some (row_payload row)) in
  let ms := ping_ms l (rs_created_at (nr_line r)) in
  Ok (json_object [
    ("id", json_of_i64 (rs_id (nr_line r))); ("ping_id", json_of_opt_str (row_ping_id row));
    ("buyer_name", json_of_opt_str (nr_buyer_name r)); ("campaign_name", json_of_opt_str (nr_campaign_name r));
    ("bid", json_of_opt_f64 (response_bid response)); ("processing_time_ms", json_of_opt_f64 ms);
    ("is_winner", JBool winner); ("status", JString (if winner then "W" else "L"));
    ("request_payload", json_of_option (λ v, v) (ping_request requests original (row_ping_id row)));
    ("response_payload", json_of_option (λ v, v) response);
    ("auction_timing", json_of_option (λ ms, json_object [("request_type", JString "ping"); ("total_ms", json_of_f64 ms)]) ms)]).

(** A ping without responses, or one that failed validation. *)
Definition payload_ping_json (key : option string) (p : PingPayloadRow) : Panics json :=
  '(request, response, status, message) ←
    match pp_payload p with
    | Some v =>
        match jget "request" v, jget "response" v with
        | Some request, Some response =>
            Ok (Some request, Some response, Some "error",
                default "Validation failed" (jget "validation_error" v ≫= as_str))
        | _, _ =>
            request ← decrypt_payload key (Some (pp_request_payload_encrypted p));
            response ← decrypt_payload key (pp_response_payload_encrypted p);
            Ok (or_else request (Some v), response, None, "")
        end
    | None =>
        request ← decrypt_payload key (Some (pp_request_payload_encrypted p));
        response ← decrypt_payload key (pp_response_payload_encrypted p);
        Ok (request, response, None, "")
    end;
  Ok (json_object [
    ("id", JNull); ("ping_id", JNull); ("buyer_name", JNull); ("campaign_name", JNull);
    ("bid", json_of_opt_f64 (response_bid response)); ("processing_time_ms", JNull); ("status", json_of_opt_str status);
    ("message", JString message); ("request_payload", json_of_option (λ v, v) request);
    ("response_payload", json_of_option (λ v, v) response); ("auction_timing", JNull)]).

Definition original_request_payload (key : option string) (payloads : list PingPayloadRow) : Panics (option json) :=
  match payloads with
  | [] => Ok None
  | p :: _ => request ← decrypt_payload key (Some (pp_request_payload_encrypted p)); Ok (or_else request (pp_payload p))
  end.

Definition is_ping (r : NamedResponse) : bool := bool_decide (is_Some (row_ping_id (rs_row (nr_line r)))).

Definition ping_payloads_json (key : option string) (l : Lead) (original : option json) (payloads : list PingPayloadRow)
    (requests : gmap string (option json)) (responses : list NamedResponse) : Panics (list json) :=
  match List.filter is_ping responses with
  | [] => mapM (payload_ping_json key) payloads
  | pings => mapM (response_ping_json key l requests original) pings
  end.

(** *** The post *)

Definition post_of_id (id : Uuid) (pid : string) : option PostLine :=
  List.find (λ p, bool_decide (post_row_lead_id (ps_row p) = id) && bool_decide (post_row_post_id (ps_row p) = Some pid))
    (post_lines st db).

Definition newest_post (id : Uuid) : option PostLine :=
  head (sort_by (λ a b, Z.compare (ps_created_at b) (ps_created_at a))
    (List.filter (λ p, bool_decide (post_row_lead_id (ps_row p) = id)) (post_lines st db))).

(** The post id of the lead, else of a response. *)
Definition shown_post_id (l : Lead) (responses : list NamedResponse) : option string :=
  or_else (lead_post_id l) (head (omap (λ r, row_post_id (rs_row (nr_line r))) responses)).

Definition select_post (id : Uuid) (post_id : option string) : sql (option (option string * PostLine)) :=
  fetch (λ _, match post_id with
              | Some pid => (λ p, (Some pid, p)) <$> post_of_id id pid
              | None => (λ p, (post_row_post_id (ps_row p), p)) <$> newest_post id
              end).

(** Without encryption the request column is empty, and the response column null. *)
Definition post_request_encrypted (p : PostPayloadRow) : string := default "" (fst <$> post_row_encrypted p).
Definition post_response_encrypted (p : PostPayloadRow) : option string := snd <$> post_row_encrypted p.

Definition post_price (response : option json) : option f64 :=
  ((response ≫= jget "routing_result") ≫= jget "price") ≫= as_f64.

Definition post_payload_json (key : option string) (found : option string * PostLine) : Panics json :=
  let '(post_id, p) := found in
  request ← decrypt_payload key (Some (post_request_encrypted (ps_row p)));
  response ← decrypt_payload key (post_response_encrypted (ps_row p));
  Ok (json_object [
    ("id", json_of_i64 (ps_id p)); ("post_id", json_of_opt_str post_id); ("price", json_of_opt_f64 (post_price response));
    ("processing_time_ms", json_of_opt_f64 (epoch_ms (ps_updated_at p - ps_created_at p)));
    ("request_payload", json_of_option (λ v, v) (or_else request (Some (post_row_payload (ps_row p)))));
    ("response_payload", json_of_option (λ v, v) response)]).

(** *** The answer *)

Definition lead_details_json (id : Uuid) (l : LeadLine) (pii : json) (pings : list json) (post : option json) : json :=
  let lead := ln_lead l in
  success [("lead", json_object [
    ("uuid", JString (uuid_to_string id)); ("lead_id", json_of_opt_str (lead_lead_id lead));
    ("status", JString (LeadStatus_as_str (lead_status lead)));
    ("price", json_of_opt_f64 ((post ≫= jget "price") ≫= as_f64));
    ("submitted_at", json_of_time (lead_submitted_at lead)); ("sold_at", json_of_time (lead_sold_at lead));
    ("created_at", json_of_time (Some (lead_created_at lead))); ("updated_at", json_of_time (Some (lead_updated_at lead)));
    ("processing_time_ms", json_of_opt_f64 (lead_processing_ms lead));
    ("publisher_name", json_of_opt_str (publisher_name <$> ln_publisher l));
    ("buyer_name", json_of_opt_str (buyer_name <$> ln_buyer l)); ("pii", pii); ("ping_payloads", JArray pings);
    ("post_payload", json_of_option (λ v, v) post);
    ("auction_timing", default (json_object []) (jget "auction_timing" (lead_vertical_data lead)));
    ("vertical_data", lead_vertical_data lead)])].

Definition get_lead_details (source : Z → string → bool → SsmReply) (svc : SsmService) (d1 d2 : SsmDelays)
    (environment : string) (user : option User) (lead_id : string) : report json :=
  match user with
  | None => stop 401
  | Some user =>
      inst ← rows 500 (get_instance_id_for_user (user_id user));
      match parse_user_id lead_id with
      | None => stop 400
      | Some id =>
          key ← details_key source svc d1 d2 environment;
          found ← rows 500 (select_lead id inst);
          match found with
          | None => stop 404
          | Some l =>
              pii ← unwinding (pii_json key (ln_lead l));
              payloads ← rows_ok (fetch (λ _, ping_payload_rows id));
              responses ← rows_ok (fetch (responses_of_lead id));
              let payloads := default [] payloads in
              let responses := default [] responses in
              original ← unwinding (original_request_payload key payloads);
              join ← rows_ok (fetch (λ _, ping_join id));
              requests ← unwinding (ping_request_payloads key (default [] join));
              pings ← unwinding (ping_payloads_json key (ln_lead l) original payloads requests responses);
              post ← rows_ok (select_post id (shown_post_id (ln_lead l) responses));
              post ← unwinding (match mjoin post with
                                | Some found => v ← post_payload_json key found; Ok (Some v)
                                | None => Ok None
                                end);
              mret (lead_details_json id l pii pings post)
          end
      end
  end.
End reports.
