(* ===== verification/ReportClaims.v ===== *)
(** * Properties of the reports on leads

    What [LeadReports.v] shows of the leads the queue wrote: to whom, on which page, and
    which prices, winners and personal data. *)

From stdpp Require Import base list sorting strings gmap.
From Stdlib Require Import Ascii String ZArith Lia Sorted.
From S2P Require Import Prelude Float64 Platform Json Models Metrics Samples Store WriteBehind.
From S2P Require Import Response Encryption LeadRequest LeadHandler Cache Ssm Accounts ApiAuth Office Campaigns Buyers Security LeadReports.

Open Scope string_scope.
Open Scope list_scope.
Local Abbreviation length := List.length.

(** ** Reading *)

Section reading.
Context {L1 L2 : Type} `{!TtlStore L1, !TtlStore L2}.
Abbreviation report := (eff (ReportWorld L1 L2) Stop).
Implicit Types w : ReportWorld L1 L2.

Definition quiet (w : ReportWorld L1 L2) : Prop := of_outcomes (rw_office w) = [].

(** Reading uses up outcomes of statements. *)
Definition only_outcomes (o o' : Office) : Prop := ∃ outcomes, o' = set_of_outcomes outcomes o.

Lemma only_outcomes_refl o : only_outcomes o o.
Proof. exists (of_outcomes o). by destruct o. Qed.
Lemma only_outcomes_trans o1 o2 o3 : only_outcomes o1 o2 → only_outcomes o2 o3 → only_outcomes o1 o3.
Proof. intros [r ->] [r' ->]. by exists r'. Qed.

Lemma bind_ext {A B} (m m' : report A) (k k' : A → report B) w :
  (∀ w, m w = m' w) → (∀ a w, k a w = k' a w) → (m ≫= k) w = (m' ≫= k') w.
Proof. intros Hm Hk. rewrite !eff_bind_eq, Hm. destruct (m' w) as [[a|e] w']; [apply Hk|done]. Qed.

Lemma fetch_ext {A} (f f' : Office → A) o : (∀ o, f o = f' o) → fetch f o = fetch f' o.
Proof. intros E. unfold fetch, statement, eff_gets. by repeat case_match; rewrite ?E. Qed.

Lemma rows_fetch_ext {A} status (f f' : Office → A) w : (∀ o, f o = f' o) → rows status (fetch f) w = rows status (fetch f') w.
Proof. intros E. unfold rows, on_office_of, or_status. by rewrite (fetch_ext f f' _ E). Qed.
Lemma rows_ok_fetch_ext {A} (f f' : Office → A) w : (∀ o, f o = f' o) → rows_ok (fetch f) w = rows_ok (fetch f') w.
Proof. intros E. unfold rows_ok, on_office_of, ignore_error. by rewrite (fetch_ext f f' _ E). Qed.

(** Statements that work. *)
Lemma rows_bind {A B} status (f : Office → A) (k : A → report B) w :
  quiet w → (rows status (fetch f) ≫= k) w = k (f (rw_office w)) w.
Proof.
  intros Hq. rewrite eff_bind_eq. unfold rows, on_office_of, or_status, fetch. rewrite statement_healthy by done. by destruct w.
Qed.
Lemma rows_ok_bind {A B} (f : Office → A) (k : option A → report B) w :
  quiet w → (rows_ok (fetch f) ≫= k) w = k (Some (f (rw_office w))) w.
Proof.
  intros Hq. rewrite eff_bind_eq. unfold rows_ok, on_office_of, ignore_error, fetch. rewrite statement_healthy by done. by destruct w.
Qed.
Lemma unwinding_bind {A B} (r : Panics A) (k : A → report B) w :
  (unwinding r ≫= k) w = match r with Ok a => k a w | Err m => (Err (Unwound m), w) end.
Proof. unfold unwinding. rewrite eff_lift_bind. by destruct r. Qed.

(** Statements that may fail. *)
Lemma rows_inv {A} status (f : Office → A) w w' a :
  (∀ r o, f (set_of_outcomes r o) = f o) → rows status (fetch f) w = (Ok a, w') →
  a = f (rw_office w) ∧ only_outcomes (rw_office w) (rw_office w').
Proof.
  intros Hf. unfold rows, on_office_of, or_status, fetch, statement, eff_gets.
  destruct (of_outcomes (rw_office w)) as [|[e|] r]; cbn; intros [= <- <-]; (split; [by rewrite ?Hf|]); [apply only_outcomes_refl|by exists r].
Qed.

Lemma on_ssm_office {A} (m : eff (SsmState L1 L2) Failure A) w : rw_office (on_ssm m w).2 = rw_office w.
Proof. unfold on_ssm. by destruct (m (rw_ssm w)) as [[a|[]] s]. Qed.

Lemma details_key_office `{Crypto} source svc d1 d2 environment w :
  rw_office (details_key (L1 := L1) (L2 := L2) source svc d1 d2 environment w).2 = rw_office w.
Proof.
  unfold details_key. rewrite eff_bind_eq. pose proof (on_ssm_office (get_parameter source svc d1 (det_path environment) true) w) as E.
  destruct (on_ssm _ w) as [[[[det|]|]|e] w1]; cbn in *; try done.
  rewrite eff_bind_eq. pose proof (on_ssm_office (get_parameter source svc d2 (salt_path environment) true) w1) as E'.
  destruct (on_ssm _ w1) as [[salt|e] w2]; cbn in *; congruence.
Qed.
End reading.

(** ** Whose leads are shown *)

Section own.
Context {L1 L2 : Type} `{!TtlStore L1, !TtlStore L2}.
Context `{Platform, Crypto, AuthLib, ReportLib}.
Implicit Types w : ReportWorld L1 L2.

Definition owned (inst : Uuid) (w : Office) (l : Lead) : Prop :=
  ∃ pid p, lead_publisher_id l = Some pid ∧ live_publisher pid w = Some p ∧ publisher_instance_id p = inst.

Lemma of_instance_owned inst (w : Office) l : of_instance inst w l = true ↔ ∃ i, inst = Some i ∧ owned i w l.
Proof.
  unfold of_instance, owned. split.
  - destruct inst as [i|]; [|done]. destruct (lead_publisher_id l) as [pid|]; [|done]. cbn.
    destruct (live_publisher pid w) as [p|] eqn:Ep; [|done]. intros Hi%bool_decide_eq_true. exists i. naive_solver.
  - intros (i & -> & pid & p & -> & E & <-). cbn. rewrite E. by apply bool_decide_eq_true.
Qed.

(** Two databases that agree on what there is of a lead. *)
Record same_lead (id : Uuid) (db db' : Db) (st st' : RowStamps) : Prop := {
  same_row : db_leads db !! id = db_leads db' !! id;
  same_payloads : List.filter (λ p, bool_decide (pp_lead_id p = id)) (db_ping_payloads db)
                = List.filter (λ p, bool_decide (pp_lead_id p = id)) (db_ping_payloads db');
  same_responses : List.filter (λ r, bool_decide (row_lead_id (rs_row r) = id)) (response_lines st db)
                 = List.filter (λ r, bool_decide (row_lead_id (rs_row r) = id)) (response_lines st' db');
  same_pings : List.filter (λ p, bool_decide (ping_row_lead_id p.2 = id)) (imap (λ i p, (Z.of_nat (S i), p)) (db_pings db))
             = List.filter (λ p, bool_decide (ping_row_lead_id p.2 = id)) (imap (λ i p, (Z.of_nat (S i), p)) (db_pings db'));
  same_posts : List.filter (λ p, bool_decide (post_row_lead_id (ps_row p) = id)) (post_lines st db)
             = List.filter (λ p, bool_decide (post_row_lead_id (ps_row p) = id)) (post_lines st' db')
}.

(** A search or a join that only meets the rows of a lead. *)
Lemma find_filter {A} (p q : A → bool) (l : list A) :
  List.find (λ x, p x && q x) l = List.find q (List.filter p l).
Proof. induction l as [|x l IH]; [done|]. cbn. destruct (p x); cbn; [by rewrite IH|done]. Qed.

Lemma bind_filter {A B} (p : A → bool) (k : A → list B) (l : list A) :
  (∀ x, p x = false → k x = []) → (l ≫= k) = (List.filter p l ≫= k).
Proof.
  intros Hk. induction l as [|x l IH]; [done|]. cbn. destruct (p x) eqn:Hp; cbn; rewrite IH; [done|]. by rewrite (Hk x Hp).
Qed.

Lemma ping_join_filtered db id :
  ping_join db id =
    (pp ← List.filter (λ p, bool_decide (pp_lead_id p = id)) (db_ping_payloads db);
     '(serial, p) ← List.filter (λ p, bool_decide (ping_row_lead_id p.2 = id)) (imap (λ i p, (Z.of_nat (S i), p)) (db_pings db));
     if bool_decide (ping_row_lead_id p = pp_lead_id pp) && bool_decide (pp_ping_id pp = Some serial)
     then [(ping_row_ping_id p, pp_request_payload_encrypted pp)] else []).
Proof.
  unfold ping_join.
  assert (Hall : Forall (λ p, pp_lead_id p = id) (List.filter (λ p, bool_decide (pp_lead_id p = id)) (db_ping_payloads db))).
  { apply Forall_forall. intros p [_ Hp%bool_decide_eq_true]%elem_of_list_filter_bool. done. }
  induction Hall as [|pp l Hpp Hl IH]; [done|]. cbn. f_equal; [|done].
  apply bind_filter. intros [s p] Hp%bool_decide_eq_false. cbn in *.
  by rewrite bool_decide_eq_false_2 by congruence.
Qed.

Lemma details_same_lead db db' st st' source svc d1 d2 environment user lead_id w :
  (∀ id, parse_user_id lead_id = Some id → same_lead id db db' st st') →
  get_lead_details db st source svc d1 d2 environment user lead_id w
  = get_lead_details db' st' source svc d1 d2 environment user lead_id w.
Proof.
  intros Hsame. unfold get_lead_details. destruct user as [user|]; [|done]. apply bind_ext; [done|]. intros inst w1.
  destruct (parse_user_id lead_id) as [id|]; [|done]. destruct (Hsame id eq_refl) as [Hrow Hpay Hresp Hpings Hposts].
  apply bind_ext; [done|]. intros key w2. apply bind_ext.
  { intros w3. apply rows_fetch_ext. intros o. by rewrite Hrow. }
  intros [l|] w3; [|done]. apply bind_ext; [done|]. intros pii w4. apply bind_ext.
  { intros w5. apply rows_ok_fetch_ext. intros o. unfold ping_payload_rows. by rewrite Hpay. }
  intros payloads w5. apply bind_ext.
  { intros w6. apply rows_ok_fetch_ext. intros o. unfold responses_of_lead. by rewrite Hresp. }
  intros responses w6. apply bind_ext; [done|]. intros original w7. apply bind_ext.
  { intros w8. apply rows_ok_fetch_ext. intros o. by rewrite !ping_join_filtered, Hpay, Hpings. }
  intros join w8. apply bind_ext; [done|]. intros requests w9. apply bind_ext; [done|]. intros pings w10. apply bind_ext; [|done].
  intros w11. apply rows_ok_fetch_ext. intros o. unfold post_of_id, newest_post. destruct (shown_post_id _ _); cbn.
  - by rewrite !find_filter, Hposts.
  - by rewrite Hposts.
Qed.

(** C26: The details of a lead are shown to the user alone whose instance the live publisher of
    the lead belongs to, whatever statements fail; and what is shown depends on what the
    tables hold of this lead: rows of other leads make no difference. *)
Theorem details_of_own_leads_only (db : Db) (st : RowStamps) source svc d1 d2 environment (user : option User) (lead_id : string) w :
  (∀ answer w', get_lead_details db st source svc d1 d2 environment user lead_id w = (Ok answer, w') →
     ∃ u id inst l, user = Some u ∧ parse_user_id lead_id = Some id ∧ instance_of_user (user_id u) (rw_office w) = Some inst ∧
       db_leads db !! id = Some l ∧ owned inst (rw_office w) l) ∧
  (∀ db' st', (∀ id, parse_user_id lead_id = Some id → same_lead id db db' st st') →
     get_lead_details db' st' source svc d1 d2 environment user lead_id w
     = get_lead_details db st source svc d1 d2 environment user lead_id w).
Proof.
  split; [|intros db' st' Hsame; symmetry; by apply details_same_lead].
  intros answer w' Hrun. unfold get_lead_details in Hrun. destruct user as [u|]; [|done].
  apply eff_bind_inv in Hrun as [(inst & w1 & Hinst & Hrun)|(e & _ & [=])].
  apply rows_inv in Hinst as [-> Ho1]; [|done].
  destruct (parse_user_id lead_id) as [id|]; [|done].
  apply eff_bind_inv in Hrun as [(key & w2 & Hkey & Hrun)|(e & _ & [=])].
  pose proof (details_key_office source svc d1 d2 environment w1) as Ho2. rewrite Hkey in Ho2. cbn in Ho2.
  apply eff_bind_inv in Hrun as [(found & w3 & Hfound & Hrun)|(e & _ & [=])].
  apply rows_inv in Hfound as [-> Ho3]; [|done]. destruct Ho1 as [r1 Ho1]. rewrite Ho2, Ho1 in Hrun.
  destruct (db_leads db !! id) as [l|] eqn:El; [|done]. cbn in Hrun.
  destruct (of_instance _ _ l) eqn:Eo; [|done]. apply of_instance_owned in Eo as (i & Ei & Hown).
  by exists u, id, i, l.
Qed.
End own.

(** ** What an answer is made of *)

Section details.
Context {L1 L2 : Type} `{!TtlStore L1, !TtlStore L2}.
Context `{P : Platform, C : Crypto, A : AuthLib, R : ReportLib} (db : Db) (st : RowStamps).
Implicit Types w : ReportWorld L1 L2.

(** The details of a lead whose rows have been read, with the key. *)
Definition details_report (key : option string) (id : Uuid) (l : Lead) (o : Office) : Panics json :=
  let payloads := ping_payload_rows db id in
  let responses := responses_of_lead db st id o in
  pii ← pii_json key l;
  original ← original_request_payload key payloads;
  requests ← ping_request_payloads key (ping_join db id);
  pings ← ping_payloads_json key l original payloads requests responses;
  post ← match (match shown_post_id l responses with
                | Some pid => (λ p, (Some pid, p)) <$> post_of_id db st id pid
                | None => (λ p, (post_row_post_id (ps_row p), p)) <$> newest_post db st id
                end) with
         | Some found => v ← post_payload_json key found; Ok (Some v)
         | None => Ok None
         end;
  Ok (lead_details_json id (lead_line o l) pii pings post).

Lemma details_run source svc d1 d2 environment (u : User) lead_id id inst l key w w1 :
  quiet w → instance_of_user (user_id u) (rw_office w) = Some inst → parse_user_id lead_id = Some id →
  db_leads db !! id = Some l → owned inst (rw_office w) l →
  details_key source svc d1 d2 environment w = (Ok key, w1) →
  get_lead_details db st source svc d1 d2 environment (Some u) lead_id w
  = (map_err Unwound (details_report key id l (rw_office w)), w1).
Proof.
  intros Hq Hinst Hid Hl Hown Hkey. unfold get_lead_details, get_instance_id_for_user. rewrite rows_bind, Hid, Hinst by done.
  rewrite eff_bind_eq, Hkey. pose proof (details_key_office source svc d1 d2 environment w) as Ho. rewrite Hkey in Ho. cbn in Ho.
  assert (Hq1 : quiet w1) by (unfold quiet; by rewrite Ho).
  unfold select_lead. rewrite rows_bind, Hl, Ho by done. cbn -[of_instance].
  assert (Hof : of_instance (Some inst) (rw_office w) l = true) by (apply of_instance_owned; eauto). rewrite Hof. cbn -[details_report]. unfold details_report.
  rewrite unwinding_bind. cbn [ln_lead lead_line]. destruct (pii_json key l) as [pii|m]; [|done]. cbn [mbind Result_bind].
  do 2 (rewrite rows_ok_bind by done). cbv zeta. cbn [default]. rewrite unwinding_bind, Ho.
  destruct (original_request_payload _ _) as [original|m]; [|done].
  rewrite rows_ok_bind, unwinding_bind by done. cbn [default mbind Result_bind from_option].
  destruct (ping_request_payloads _ _) as [requests|m]; [|done]. cbn [mbind Result_bind]. rewrite unwinding_bind.
  destruct (ping_payloads_json _ _ _ _ _ _) as [pings|m]; [|done]. cbn [mbind Result_bind].
  unfold select_post. rewrite rows_ok_bind, unwinding_bind by done. cbn.
  destruct (match shown_post_id _ _ with Some _ => _ | None => _ end) as [found|]; [|done].
  by destruct (post_payload_json _ _).
Qed.

(** Whatever statements failed, the pings of an answer come from the lead's row and lists
    of payloads and responses. *)
Lemma details_inv source svc d1 d2 environment user lead_id w w' answer :
  get_lead_details db st source svc d1 d2 environment user lead_id w = (Ok answer, w') →
  ∃ id l key pii original payloads requests responses pings post,
    answer = lead_details_json id l pii pings post ∧
    ping_payloads_json key (ln_lead l) original payloads requests responses = Ok pings.
Proof.
  intros Hrun. unfold get_lead_details in Hrun. destruct user as [u|]; [|done].
  apply eff_bind_inv in Hrun as [(inst & w1 & _ & Hrun)|(e & _ & [=])].
  destruct (parse_user_id lead_id) as [id|]; [|done].
  apply eff_bind_inv in Hrun as [(key & w2 & _ & Hrun)|(e & _ & [=])].
  apply eff_bind_inv in Hrun as [(found & w3 & _ & Hrun)|(e & _ & [=])]. destruct found as [l|]; [|done].
  apply eff_bind_inv in Hrun as [(pii & w4 & _ & Hrun)|(e & _ & [=])].
  apply eff_bind_inv in Hrun as [(payloads & w5 & _ & Hrun)|(e & _ & [=])].
  apply eff_bind_inv in Hrun as [(responses & w6 & _ & Hrun)|(e & _ & [=])]. cbv zeta in Hrun.
  apply eff_bind_inv in Hrun as [(original & w7 & _ & Hrun)|(e & _ & [=])].
  apply eff_bind_inv in Hrun as [(join & w8 & _ & Hrun)|(e & _ & [=])].
  apply eff_bind_inv in Hrun as [(requests & w9 & _ & Hrun)|(e & _ & [=])].
  apply eff_bind_inv in Hrun as [(pings & w10 & Hpings & Hrun)|(e & _ & [=])].
  apply eff_bind_inv in Hrun as [(post & w11 & _ & Hrun)|(e & _ & [=])].
  apply eff_bind_inv in Hrun as [(post' & w12 & _ & Hrun)|(e & _ & [=])]. injection Hrun as <- _.
  exists id, l, key, pii, original, (default [] payloads), requests, (default [] responses), pings, post'.
  split; [done|]. unfold unwinding, eff_lift in Hpings. injection Hpings as Hp _. by destruct (ping_payloads_json _ _ _ _ _ _); simplify_eq/=.
Qed.

Lemma mapM_inv {X Y} (f : X → Panics Y) l ys y : mapM f l = Ok ys → y ∈ ys → ∃ x, x ∈ l ∧ f x = Ok y.
Proof.
  revert ys. induction l as [|x l IH]; intros ys; cbn; [by intros [= <-] ?%elem_of_nil|].
  destruct (f x) as [y'|m] eqn:Ef; [|done]. cbn. destruct (mapM f l) as [ys'|m]; [|done]. cbn. intros [= <-].
  intros [->|Hy]%elem_of_cons; [exists x; by split; [left|]|]. destruct (IH ys' eq_refl Hy) as (x' & ? & ?). exists x'. by split; [right|].
Qed.

(** The details never name a winner.  The code compares buyer and campaign of every
    response with those of the lead, but its query of the lead selects neither: whatever
    the tables hold, in every answer every ping is marked lost, also those of sold leads. *)
Theorem no_ping_wins source svc d1 d2 environment (user : option User) (lead_id : string) (w w' : ReportWorld L1 L2) (answer : json) :
  get_lead_details db st source svc d1 d2 environment user lead_id w = (Ok answer, w') →
  ∃ lead pings, jget "lead" answer = Some lead ∧ jget "ping_payloads" lead = Some (JArray pings) ∧
    (∀ ping, ping ∈ pings → jget "status" ping ≠ Some (JString "W") ∧ jget "is_winner" ping ≠ Some (JBool true)).
Proof.
  intros (id & l & key & pii & original & payloads & requests & responses & pings & post & -> & Hp)%details_inv.
  eexists _, pings. split; [reflexivity|]. split; [reflexivity|]. intros ping Hin. unfold ping_payloads_json in Hp.
  destruct (List.filter is_ping responses) as [|r rs].
  - destruct (mapM_inv _ _ _ _ Hp Hin) as (p & _ & E). unfold payload_ping_json in E.
    destruct (match pp_payload p with Some _ => _ | None => _ end) as [[[[request response] status] message]|m] eqn:Em; [|done].
    injection E as <-. split; [|done]. intros Hs. assert (status = Some "error" ∨ status = None) as [->| ->]; [|done|done].
    destruct (pp_payload p) as [v|].
    + destruct (jget "request" v), (jget "response" v); [by injection Em as <-; left|..];
        (destruct (decrypt_payload key (Some _)); [|done]; cbn in Em; destruct (decrypt_payload key (pp_response_payload_encrypted p)); [|done];
         injection Em as <-; by right).
    + destruct (decrypt_payload key (Some _)); [|done]; cbn in Em; destruct (decrypt_payload key (pp_response_payload_encrypted p)); [|done].
      injection Em as <-; by right.
  - destruct (mapM_inv _ _ _ _ Hp Hin) as (r' & _ & E). unfold response_ping_json in E.
    destruct (decrypt_payload _ _); [|done]. injection E as <-. by vm_compute.
Qed.
End details.

(** ** The pages of the list *)

Section pages.
Context {L1 L2 : Type} `{!TtlStore L1, !TtlStore L2}.
Context `{P : Platform, C : Crypto, A : AuthLib, R : ReportLib} (db : Db) (st : RowStamps).
Implicit Types w : ReportWorld L1 L2.

Lemma mapM_all {X Y} (f : X → Panics Y) (g : X → Y) l : (∀ x, x ∈ l → f x = Ok (g x)) → mapM f l = Ok (g <$> l).
Proof.
  induction l as [|x l IH]; intros Hf; [done|]. cbn. rewrite (Hf x) by (by left). cbn. rewrite IH; [done|]. intros y Hy. apply Hf. by right.
Qed.

(** Slices of one length, one behind the other. *)
Lemma concat_slices {X} (l : list X) n pages :
  List.concat ((λ i, take n (drop (i * n) l)) <$> seq 0 pages) = take (pages * n) l.
Proof.
  induction pages as [|k IH]; [done|]. rewrite seq_S, fmap_app, List.concat_app, IH. cbn [fmap list_fmap List.concat Nat.add]. rewrite app_nil_r.
  replace (S k * n)%nat with (k * n + n)%nat by lia. by rewrite take_take_drop.
Qed.

Lemma push_lead_perm {X} slug (x : X) groups : List.concat (push_lead slug x groups).*2 ≡ₚ x :: List.concat groups.*2.
Proof.
  induction groups as [|[s leads] groups IH]; [done|]. cbn. destruct (String.eqb s slug); cbn.
  - by rewrite <-app_assoc, Permutation_middle.
  - rewrite IH. by rewrite Permutation_middle.
Qed.

(** Nothing is lost in the grouping by verticals. *)
Lemma leads_by_vertical_perm page : List.concat (leads_by_vertical page).*2 ≡ₚ lead_json <$> page.
Proof.
  unfold leads_by_vertical. enough (E : ∀ groups,
    List.concat (foldl (λ groups row, push_lead (slug_of row.1) (lead_json row) groups) groups page).*2 ≡ₚ List.concat groups.*2 ++ (lead_json <$> page)).
  { apply (E []). }
  induction page as [|row page IH]; intros groups; cbn; [by rewrite app_nil_r|].
  rewrite IH, push_lead_perm. cbn. by rewrite Permutation_middle.
Qed.

Lemma push_lead_slugs {X} slug (x : X) groups s : s ∈ (push_lead slug x groups).*1 → s = slug ∨ s ∈ groups.*1.
Proof.
  induction groups as [|[s' leads] groups IH]; cbn; [intros ->%list_elem_of_singleton; by left|].
  destruct (String.eqb s' slug); cbn; intros [->|Hs]%elem_of_cons; [right; by left|right; by right|right; by left|].
  destruct (IH Hs) as [->|]; [by left|right; by right].
Qed.

Lemma leads_by_vertical_slugs page s : s ∈ (leads_by_vertical page).*1 → ∃ row, row ∈ page ∧ s = slug_of row.1.
Proof.
  unfold leads_by_vertical. enough (E : ∀ groups,
    s ∈ (foldl (λ groups row, push_lead (slug_of row.1) (lead_json row) groups) groups page).*1 →
    s ∈ groups.*1 ∨ ∃ row, row ∈ page ∧ s = slug_of row.1).
  { intros Hs. destruct (E [] Hs) as [Hn|]; [by apply elem_of_nil in Hn|done]. }
  induction page as [|row page IH]; intros groups; cbn; [by left|]. intros [Hs|(r & ? & ->)]%IH; [|right; exists r; by split; [right|]].
  destruct (push_lead_slugs _ _ _ _ Hs) as [->|]; [right; exists row; by split; [left|]|by left].
Qed.

(** The leads an answer shows, vertical by vertical. *)
Definition shown_leads (answer : json) : list json :=
  match jget "verticals" answer with
  | Some (JArray verticals) => List.concat ((λ v, default [] (jget "leads" v ≫= as_array)) <$> verticals)
  | _ => []
  end.

(** Slugs whose first character is of one byte. *)
Definition titled (slug : string) : bool := is_ok (vertical_title slug).
Definition title (slug : string) : string := result_or "" (vertical_title slug).

Definition group_json (g : string * list json) : json :=
  json_object [("slug", JString g.1); ("name", JString (title g.1)); ("leads", JArray g.2)].

Lemma shown_groups groups more :
  shown_leads (json_object (("success", JBool true) :: ("verticals", JArray (group_json <$> groups)) :: [("pagination", more)]))
  = List.concat groups.*2.
Proof.
  change (List.concat ((λ v, default [] (jget "leads" v ≫= as_array)) <$> (group_json <$> groups)) = List.concat groups.*2).
  f_equal. rewrite <-list_fmap_compose. apply list_fmap_ext. intros i [s l] _. reflexivity.
Qed.

(** A row of the list as it is shown. *)
Definition shown_row (l : LeadLine) : json := lead_json (l, result_or None (list_price db st (ln_lead l))).

Lemma priced_ok l : is_ok (list_price db st (ln_lead l)) = true → priced db st l = Ok (l, result_or None (list_price db st (ln_lead l))).
Proof. unfold priced. by destruct (list_price db st (ln_lead l)). Qed.

Definition showable (l : LeadLine) : Prop := titled (slug_of l) = true ∧ is_ok (list_price db st (ln_lead l)) = true.

Lemma list_leads_run order ties (u : User) (query : option string) w inst page per_page search :
  (∀ g, order g ≡ₚ g) → (∀ l, ties l ≡ₚ l) → quiet w → instance_of_user (user_id u) (rw_office w) = inst →
  page_of (query_params query) = page → per_page_of (query_params query) = per_page → search_of (query_params query) = search →
  (0 <= offset_of page per_page)%Z → (∀ l, l ∈ found_lines db inst search (rw_office w) → showable l) →
  ∃ answer, list_leads db st order ties (Some u) query w = (Ok answer, w) ∧
    shown_leads answer ≡ₚ shown_row <$> page_lines db ties inst search per_page (offset_of page per_page) (rw_office w) ∧
    jget "pagination" answer = Some (pagination page per_page (Z.of_nat (length (found_lines db inst search (rw_office w))))).
Proof.
  intros Horder Hties Hq Hinst <- <- <- Hoff Hshow. set (o := rw_office w) in *.
  set (params := query_params query) in *. set (offset := offset_of (page_of params) (per_page_of params)) in *.
  set (page := page_lines db ties inst (search_of params) (per_page_of params) offset o).
  set (priced_page := (λ l, (l, result_or None (list_price db st (ln_lead l)))) <$> page).
  assert (Hin : ∀ l, l ∈ page → showable l).
  { intros l Hl. apply Hshow. unfold page, page_lines in Hl. apply subseteq_take, subseteq_drop in Hl.
    by rewrite elem_of_sort_by, Hties in Hl. }
  assert (Hpage : mapM (priced db st) page = Ok priced_page) by (apply mapM_all; intros l Hl; apply priced_ok, Hin, Hl).
  assert (Hgroups : mapM vertical_json (order (leads_by_vertical priced_page)) = Ok (group_json <$> order (leads_by_vertical priced_page))).
  { apply mapM_all. intros [slug leads] Hg. rewrite Horder in Hg. apply (list_elem_of_fmap_2 fst) in Hg.
    destruct (leads_by_vertical_slugs _ _ Hg) as (row & Hrow & Es). cbn in Es. subst slug.
    apply list_elem_of_fmap in Hrow as (l & -> & Hl). destruct (Hin l Hl) as [Ht _]. unfold titled in Ht. cbn in *.
    unfold group_json, title. cbn. by destruct (vertical_title (slug_of l)). }
  eexists. split; [|split].
  - unfold list_leads, get_instance_id_for_user. rewrite rows_bind by done. cbv zeta. fold params o. rewrite Hinst.
    rewrite eff_bind_eq. unfold rows at 1, on_office_of, or_status, select_page. rewrite statement_healthy by done.
    fold offset. rewrite (proj2 (Z.ltb_ge _ _) Hoff). fold o page. rewrite Hpage. cbn [map_err].
    replace {| rw_office := o; rw_ssm := rw_ssm w |} with w by (by destruct w).
    rewrite rows_bind, unwinding_bind, Hgroups by done. reflexivity.
  - unfold success. rewrite shown_groups. rewrite Horder, leads_by_vertical_perm. unfold priced_page. by rewrite <-list_fmap_compose.
  - reflexivity.
Qed.

Lemma per_page_range params : (1 <= per_page_of params <= 100)%Z.
Proof. unfold per_page_of. lia. Qed.

Lemma i64_wrap_small z : (- 2 ^ 63 <= z < 2 ^ 63)%Z → i64_wrap z = z.
Proof. intros Hz. unfold i64_wrap. rewrite Z.mod_small; lia. Qed.

Lemma offset_of_small i n : (Z.of_nat (i * n) < 2 ^ 63)%Z → (1 <= n)%nat → offset_of (Z.of_nat (S i)) (Z.of_nat n) = Z.of_nat (i * n).
Proof.
  intros Hb Hn. unfold offset_of. replace (Z.of_nat (S i) - 1)%Z with (Z.of_nat i) by lia.
  rewrite (i64_wrap_small (Z.of_nat i)) by nia. rewrite i64_wrap_small; lia.
Qed.

Lemma found_lines_all inst o l :
  l ∈ found_lines db (Some inst) None o ↔ ∃ id lead, db_leads db !! id = Some lead ∧ owned inst o lead ∧ l = lead_line o lead.
Proof.
  cbn. unfold lines_of_instance. rewrite list_elem_of_fmap. split.
  - intros (lead & -> & [Hin Ho]%elem_of_list_filter_bool). apply of_instance_owned in Ho as (i & [= <-] & Ho).
    apply list_elem_of_fmap in Hin as ([id x] & -> & Hin%elem_of_map_to_list). by exists id, x.
  - intros (id & lead & Hl & Ho & ->). exists lead. split; [done|]. apply elem_of_list_filter_bool.
    split; [|apply of_instance_owned; eauto]. apply list_elem_of_fmap. exists (id, lead). by rewrite elem_of_map_to_list.
Qed.

(** Slices side by side are the whole. *)
Lemma slices_show_all n pages (rows : list LeadLine) :
  (length rows <= pages * n)%nat →
  List.concat ((λ i, shown_row <$> take n (drop (i * n) (sort_by newest_first rows))) <$> seq 0 pages) ≡ₚ shown_row <$> rows.
Proof.
  intros Hlen.
  replace ((λ i, shown_row <$> take n (drop (i * n) (sort_by newest_first rows))) <$> seq 0 pages)
    with (map (map shown_row) ((λ i, take n (drop (i * n) (sort_by newest_first rows))) <$> seq 0 pages))
    by (symmetry; apply (list_fmap_compose (λ i, take n (drop (i * n) (sort_by newest_first rows))) (map shown_row))).
  rewrite <-List.concat_map, concat_slices, take_ge by (rewrite sort_by_length; lia). by rewrite sort_by_perm.
Qed.

Definition created_at (l : LeadLine) : DateTime := lead_created_at (ln_lead l).

Lemma newest_first_orders : OrdersOn newest_first (λ _, True).
Proof. split; unfold cmp_le, newest_first; intros; rewrite ?Z.compare_gt_iff, ?Z.compare_ngt_iff in *; lia. Qed.

Lemma newest_first_sorted rows : StronglySorted (λ a b, (created_at b <= created_at a)%Z) (sort_by newest_first rows).
Proof.
  assert (Hs : StronglySorted (cmp_le newest_first) (sort_by newest_first rows))
    by (apply (sort_by_sorted newest_first (λ _, True)); [apply newest_first_orders|by apply Forall_true]).
  induction Hs as [|a l _ IH Hall]; constructor; [done|]. eapply Forall_impl; [exact Hall|].
  intros b. unfold cmp_le, newest_first, created_at. rewrite Z.compare_ngt_iff. lia.
Qed.

(** Without ties there is one order. *)
Lemma newest_first_unique rows rows' :
  rows' ≡ₚ rows → NoDup (created_at <$> rows) → sort_by newest_first rows' = sort_by newest_first rows.
Proof.
  intros Hperm Hnd. eapply StronglySorted_unique_strong; [|apply newest_first_sorted..|by rewrite !sort_by_perm].
  intros a b Ha Hb Hab Hba. rewrite elem_of_sort_by in Ha, Hb. rewrite Hperm in Ha.
  apply list_elem_of_lookup in Ha as [i Hi]. apply list_elem_of_lookup in Hb as [j Hj].
  assert (i = j) as ->; [|congruence]. eapply (NoDup_lookup _ i j (created_at a) Hnd); rewrite list_lookup_fmap.
  - by rewrite Hi.
  - rewrite Hj. cbn in *. f_equal. lia.
Qed.

(** C27: The pages of the list.  When no statement fails and each lead found can be shown (its
    slug starts with a character of one byte, the price stored for it reads), requests for
    the first pages each answer; the [i]-th shows the [i]-th slice of an order of the leads
    found, newest first, in which each query is free to order leads of one creation time
    ([ties i]), whatever the order in which verticals are walked.  When the creation times
    are distinct, pages enough for the leads found together show every lead found once;
    without a search those are the leads of all live publishers of the instance, and no
    others. *)
Theorem pages_show_every_lead (order : list (string * list json) → list (string * list json))
    (ties : nat → list LeadLine → list LeadLine) (u : User)
    (queries : nat → option string) (pages n : nat) (search : option string) (inst : Uuid) (w : ReportWorld L1 L2) :
  let found := found_lines db (Some inst) search (rw_office w) in
  (∀ g, order g ≡ₚ g) → (∀ i l, ties i l ≡ₚ l) → quiet w → instance_of_user (user_id u) (rw_office w) = Some inst →
  (∀ i, (i < pages)%nat → let params := query_params (queries i) in
     page_of params = Z.of_nat (S i) ∧ per_page_of params = Z.of_nat n ∧ search_of params = search) →
  (Z.of_nat (pages * n) < 2 ^ 63)%Z → (∀ l, l ∈ found → showable l) →
  (∃ answers, length answers = pages ∧
     (∀ i answer, answers !! i = Some answer →
        list_leads db st order (ties i) (Some u) (queries i) w = (Ok answer, w) ∧
        ∃ rows, rows ≡ₚ found ∧ StronglySorted (λ a b, (created_at b <= created_at a)%Z) rows ∧
          shown_leads answer ≡ₚ shown_row <$> take n (drop (i * n) rows)) ∧
     (NoDup (created_at <$> found) → (length found <= pages * n)%nat →
        List.concat (shown_leads <$> answers) ≡ₚ shown_row <$> found)) ∧
  (search = None → ∀ l, l ∈ found ↔
     ∃ id lead, db_leads db !! id = Some lead ∧ owned inst (rw_office w) lead ∧ l = lead_line (rw_office w) lead).
Proof.
  intros found Horder Hties Hq Hinst Hqueries Hbound Hshow. split; [|intros E l; subst found; rewrite E; apply found_lines_all].
  set (rows := λ i, sort_by newest_first (ties i found)). set (slice := λ i, shown_row <$> take n (drop (i * n) (rows i))).
  assert (Hpages : ∀ k, (k <= pages)%nat → ∃ answers, length answers = k ∧
    (∀ i answer, answers !! i = Some answer →
       list_leads db st order (ties i) (Some u) (queries i) w = (Ok answer, w) ∧ shown_leads answer ≡ₚ slice i) ∧
    List.concat (shown_leads <$> answers) ≡ₚ List.concat (slice <$> seq 0 k)).
  { induction k as [|k IH]; intros Hk; [by exists []|]. destruct IH as (answers & Hl & Hall & Hc); [lia|].
    destruct (Hqueries k ltac:(lia)) as (Hp & Hn & Hs). pose proof (per_page_range (query_params (queries k))) as Hr.
    assert (Hoff : offset_of (Z.of_nat (S k)) (Z.of_nat n) = Z.of_nat (k * n)) by (apply offset_of_small; nia).
    destruct (list_leads_run order (ties k) u (queries k) w (Some inst) _ _ search Horder (Hties k) Hq Hinst Hp Hn Hs) as (answer & Ha & Hsh & _);
      [rewrite Hoff; lia|exact Hshow|].
    rewrite Hoff in Hsh. unfold page_lines in Hsh. rewrite !Nat2Z.id in Hsh. fold found in Hsh.
    exists (answers ++ [answer]). split; [rewrite length_app; cbn; lia|]. split.
    - intros i a [Hi|[Hi Hi']]%lookup_app_Some; [by apply Hall|]. rewrite Hl in *.
      destruct (i - k)%nat as [|?] eqn:Ei; [|done]. injection Hi' as <-. replace i with k by lia. done.
    - rewrite seq_S, !fmap_app, !List.concat_app, Hc. cbn. by rewrite !app_nil_r, Hsh. }
  destruct (Hpages pages ltac:(done)) as (answers & Hl & Hall & Hc). exists answers. split; [done|]. split.
  - intros i answer Hi. destruct (Hall i answer Hi) as [Ha Hsh]. split; [done|]. exists (rows i). unfold rows.
    split; [by rewrite sort_by_perm|]. split; [apply newest_first_sorted|done].
  - intros Hnd Hlen. rewrite Hc. rewrite (list_fmap_ext slice (λ i, shown_row <$> take n (drop (i * n) (sort_by newest_first found))))
      by (intros i j _; unfold slice, rows; by rewrite (newest_first_unique found)).
    by apply slices_show_all.
Qed.

(** Leads of one creation time can be shown twice, or not at all: of two such leads the
    first and the second page, of one lead each, may show the same one. *)
Theorem tied_leads_repeat (inst : option Uuid) (search : option string) (a b : LeadLine) (w : Office) :
  found_lines db inst search w = [a; b] → created_at a = created_at b →
  page_lines db (λ l, l) inst search 1 0 w = [a] ∧ page_lines db (@List.rev LeadLine) inst search 1 1 w = [a].
Proof.
  intros Hf Ht. unfold page_lines. rewrite Hf. cbn. unfold newest_first. unfold created_at in Ht.
  by rewrite Ht, Z.compare_refl.
Qed.

(** Pages are counted in 64 bits, with wrap-around: page 2^61 + 1 of four leads is an error
    of the database, and page 2^62 + 1 shows the first leads again. *)
Theorem far_pages (order : list (string * list json) → list (string * list json))
    (ties : list LeadLine → list LeadLine) (u : User) (query : option string)
    (inst : option Uuid) (search : option string) (w : ReportWorld L1 L2) :
  let found := found_lines db inst search (rw_office w) in
  (∀ g, order g ≡ₚ g) → (∀ l, ties l ≡ₚ l) → quiet w → instance_of_user (user_id u) (rw_office w) = inst →
  per_page_of (query_params query) = 4%Z → search_of (query_params query) = search → (∀ l, l ∈ found → showable l) →
  (page_of (query_params query) = (2 ^ 61 + 1)%Z → list_leads db st order ties (Some u) query w = (Err (Status 500), w)) ∧
  (page_of (query_params query) = (2 ^ 62 + 1)%Z → ∃ answer, list_leads db st order ties (Some u) query w = (Ok answer, w) ∧
     shown_leads answer ≡ₚ shown_row <$> take 4 (sort_by newest_first (ties found))).
Proof.
  intros found Horder Hties Hq Hinst Hn Hs Hshow. split; intros Hp.
  - unfold list_leads, get_instance_id_for_user. rewrite rows_bind by done. cbv zeta. rewrite Hp, Hn, Hs.
    rewrite eff_bind_eq. unfold rows at 1, on_office_of, or_status, select_page. rewrite statement_healthy by done.
    change (offset_of (2 ^ 61 + 1) 4 <? 0)%Z with true. cbn. by destruct w.
  - destruct (list_leads_run order ties u query w inst _ _ search Horder Hties Hq Hinst Hp Hn Hs) as (answer & Ha & Hsh & _); [done|exact Hshow|].
    exists answer. split; [done|]. exact Hsh.
Qed.
End pages.

(** ** What is shown of the data the queue wrote *)

Section shown.
Context {L1 L2 : Type} `{!TtlStore L1, !TtlStore L2}.
Context `{P : Platform, C : Crypto, A : AuthLib, R : ReportLib} (db : Db) (st : RowStamps).
Implicit Types w : ReportWorld L1 L2.

Lemma create_ping_payload codec (c : LeadCreationData) (lead : Uuid) (W : World) :
  w_outcomes W = [] → ∃ row, pp_lead_id row = lead ∧ pp_payload row = Some (ping_only_payload c) ∧
    db_ping_payloads (w_db (create_ping codec c lead W).2) = db_ping_payloads (w_db W) ++ [row].
Proof.
  intros HW. unfold create_ping, begin_transaction, insert_ping, insert_creation_payload, commit.
  unfold mbind, eff_bind, catch, eff_gets, mret, eff_ret. rewrite exec_healthy by done. cbn [fst snd map_err].
  rewrite exec_healthy by done. cbn [fst snd map_err]. rewrite (proj2 (Z.ltb_lt _ _)) by lia.
  rewrite exec_update_healthy by done. rewrite exec_healthy by done. eexists. split; [|split; [|reflexivity]]; reflexivity.
Qed.

(** Nothing is decrypted without a key. *)
Lemma ping_requests_without_key join m0 :
  (∀ k v, m0 !! k = Some v → v = None) →
  ∃ m, foldl (λ m row, m ← m; insert_request None m row) (Ok m0) join = Ok m ∧ (∀ k v, m !! k = Some v → v = None).
Proof.
  revert m0. induction join as [|row join IH]; intros m0 Hm; [by exists m0|]. cbn. apply IH.
  intros k v. destruct (decide (k = row.1)) as [->|Hk]; [rewrite lookup_insert_eq; by intros [= <-]|].
  rewrite lookup_insert_ne by done. apply Hm.
Qed.

Lemma ping_request_without_key m original pid : (∀ k v, m !! k = Some v → v = None) → ping_request m original pid = original.
Proof.
  intros Hm. unfold ping_request. destruct pid as [pid|]; [|done]. cbn [mbind option_bind].
  enough (E : mjoin (or_else (m !! pid) (br_ping_id_to_pending_key pid ≫= λ k, m !! k)) = None) by (unfold or_else at 1; by rewrite E).
  destruct (m !! pid) as [v|] eqn:Ev; [exact (Hm _ _ Ev)|]. cbn [or_else].
  destruct (br_ping_id_to_pending_key pid) as [k|]; [|done]. cbn. destruct (m !! k) as [v|] eqn:Ev'; [|done]. cbn. exact (Hm _ _ Ev').
Qed.

Lemma pii_without_key l : ∃ pii, pii_json None l = Ok pii ∧ ∀ text, lead_email_encrypted l = Some text → text ≠ "" →
  jget "email" pii = Some (JString "[Encrypted - decryption key unavailable]").
Proof.
  unfold pii_json. cbn. eexists. split; [reflexivity|]. intros text -> Ht.
  change (jget "email" _) with (Some (json_of_opt_str (if String.eqb text "" then None else Some "[Encrypted - decryption key unavailable]"))).
  by rewrite (proj2 (String.eqb_neq _ _) Ht).
Qed.

(** What is encrypted of a lead is shown in clear next to the notes that say it cannot
    be.  When no key is found, the details of a lead that the handler created show a note
    for each encrypted column, and with every ping the request as it came, with all the
    personal data in it: the queue keeps it in clear for the pings. *)
Theorem details_reveal_request_without_key codec (ld : RequestLoads) (d : RequestDraws) (rq : Request) (vertical : Vertical)
    (request_type : string) (campaign buyer : option Uuid) (creation : LeadCreationData) (W : World)
    source svc d1 d2 environment (u : User) (lead_id : string) (id inst : Uuid) (l : Lead) (w w1 : ReportWorld L1 L2) :
  creation_task ld d rq vertical request_type campaign buyer = Ok creation → w_outcomes W = [] →
  List.filter (λ p, bool_decide (pp_lead_id p = id)) (db_ping_payloads (w_db W)) = [] →
  db_ping_payloads db = db_ping_payloads (w_db (create_ping codec creation id W).2) →
  quiet w → instance_of_user (user_id u) (rw_office w) = Some inst → parse_user_id lead_id = Some id →
  db_leads db !! id = Some l → owned inst (rw_office w) l → details_key source svc d1 d2 environment w = (Ok None, w1) →
  ∃ pii pings post,
    get_lead_details db st source svc d1 d2 environment (Some u) lead_id w
    = (Ok (lead_details_json id (lead_line (rw_office w) l) pii pings post), w1) ∧
    pings ≠ [] ∧
    (∀ ping, ping ∈ pings → jget "request_payload" ping = Some (lead_data_to_value (req_lead rq))) ∧
    (∀ text, lead_email_encrypted l = Some text → text ≠ "" →
       jget "email" pii = Some (JString "[Encrypted - decryption key unavailable]")).
Proof.
  intros Hc HW Hnone Hdb Hq Hinst Hid Hl Hown Hkey.
  destruct (create_ping_payload codec creation id W HW) as (row & Hrow & Hpay & Hrows).
  assert (Epay : pp_payload row = Some (lead_data_to_value (req_lead rq))).
  { rewrite Hpay. f_equal. exact (creation_payload_whole _ _ _ _ _ _ _ _ Hc). }
  assert (Hpayloads : ping_payload_rows db id = [row]).
  { unfold ping_payload_rows. rewrite Hdb, Hrows, List.filter_app, Hnone. cbn. by rewrite bool_decide_eq_true_2. }
  rewrite (details_run db st source svc d1 d2 environment u lead_id id inst l None w w1) by done.
  unfold details_report. rewrite Hpayloads. destruct (pii_without_key l) as (pii & -> & Hpii). cbn [mbind Result_bind].
  assert (Eo : original_request_payload None [row] = Ok (Some (lead_data_to_value (req_lead rq)))) by (cbn; by rewrite Epay).
  rewrite Eo. cbn [mbind Result_bind].
  destruct (ping_requests_without_key (ping_join db id) ∅) as (m & Hm & Hnov); [by intros k v ?%lookup_empty_Some|].
  unfold ping_request_payloads. rewrite Hm. cbn [mbind Result_bind].
  assert (Hpings : ∃ pings, ping_payloads_json None l (Some (lead_data_to_value (req_lead rq))) [row] m (responses_of_lead db st id (rw_office w)) = Ok pings
    ∧ pings ≠ [] ∧ ∀ ping, ping ∈ pings → jget "request_payload" ping = Some (lead_data_to_value (req_lead rq))).
  { unfold ping_payloads_json. destruct (List.filter is_ping _) as [|r rs].
    - eexists. split; [cbn [mapM]; unfold payload_ping_json; rewrite Epay; reflexivity|]. split; [done|].
      intros ping ->%list_elem_of_singleton. reflexivity.
    - destruct (mapM (response_ping_json None l m (Some (lead_data_to_value (req_lead rq)))) (r :: rs)) as [pings|e] eqn:Em.
      + exists pings. split; [done|]. split; [by intros ->; cbn in Em; destruct (mapM _ rs)|].
        intros ping Hin. destruct (mapM_inv _ _ _ _ Em Hin) as (r' & _ & E). unfold response_ping_json in E. cbn [decrypt_payload mbind Result_bind] in E.
        injection E as <-. rewrite ping_request_without_key by done. reflexivity.
      + exfalso. clear - Em. revert e Em. induction (r :: rs) as [|x l' IH]; intros e; cbn; [done|].
        destruct (mapM _ l') as [ys|e']; [done|]. intros _. by apply (IH e'). }
  destruct Hpings as (pings & -> & Hne & Hshow). cbn [mbind Result_bind].
  set (found := match shown_post_id _ _ with Some _ => _ | None => _ end).
  assert (Hpost : ∃ post, match found with Some f => v ← post_payload_json None f; Ok (Some v) | None => Ok None end = Ok post :> Panics (option json)).
  { destruct found as [[pid p]|]; cbn; by eexists. }
  destruct Hpost as (post & ->). cbn. by exists pii, pings, post.
Qed.

Lemma find_head_filter {X} (q : X → bool) (l : list X) : List.find q l = head (List.filter q l).
Proof. induction l as [|x l IH]; [done|]. cbn. by destruct (q x). Qed.

Lemma filter_imap_none {X Y} (q : X → bool) (g : Y → X) (f : nat → X → Y) (l : list X) :
  (∀ i x, g (f i x) = x) → (∀ x, x ∈ l → q x = false) → List.filter (λ y, q (g y)) (imap f l) = [].
Proof.
  intros Hg. revert f Hg. induction l as [|x l IH]; intros f Hg Hq; [done|]. cbn. rewrite Hg, (Hq x) by (by left).
  apply (IH (f ∘ S)); [intros i y; apply Hg|]. intros y Hy. apply Hq. by right.
Qed.

(** A row behind rows that a query does not match is what it finds. *)
Lemma filter_post_lines (q : PostPayloadRow → bool) old row :
  db_post_payloads db = old ++ [row] → (∀ p, p ∈ old → q p = false) → q row = true →
  ∃ line, ps_row line = row ∧ List.filter (λ p, q (ps_row p)) (post_lines st db) = [line].
Proof.
  intros Hdb Hold Hrow. unfold post_lines. rewrite Hdb, imap_app, List.filter_app, filter_imap_none by done.
  cbn. rewrite Hrow. eexists. split; [|reflexivity]. reflexivity.
Qed.

Lemma decrypt_payload_envelope is_str `{!CryptoLaws P C is_str} key text envelope :
  is_str text → EncryptionService_encrypt_envelope key text true "" = Ok envelope →
  decrypt_payload (Some key) (Some envelope) = Ok (match json_from_text text with Ok v => Some v | Err _ => None end).
Proof.
  intros Hstr Henv. unfold decrypt_payload. by rewrite (decrypt_encrypt_envelope is_str key text true "" envelope Hstr ltac:(done) Henv).
Qed.

Lemma ignore_exec (stmt : DateTime → Db → Result string () * Db) W :
  w_outcomes W = [] → (WriteBehind.ignore_error (exec stmt) W).2 = set_db (stmt (w_now W) (w_db W)).2 W.
Proof.
  intros HW. unfold WriteBehind.ignore_error, catch, mbind, eff_bind. rewrite exec_healthy by done.
  by destruct (stmt (w_now W) (w_db W)) as [[[]|e] db'].
Qed.

Lemma has_lead_true (db0 : Db) id : is_Some (db_leads db0 !! id) → has_lead db0 id = true.
Proof. intros Hs. by apply bool_decide_eq_true. Qed.

Lemma post_id_free pid rows : (∀ row, row ∈ rows → post_row_post_id row ≠ Some pid) → post_id_taken (Some pid) rows = false.
Proof.
  intros Hfresh. unfold post_id_taken. apply not_true_is_false. intros (row & Hin & Hp)%List.existsb_exists.
  apply bool_decide_eq_true in Hp. apply list_elem_of_In in Hin. by apply (Hfresh row).
Qed.

(** The price of a sale is shown with the details of the lead and never in the list.  Once
    the queue has stored the payload the handler made of a post, the list, which looks for
    the price in the stored request, has none for the lead, whereas the details, which
    look for it in the decrypted answer, show the price of the sale. *)
Theorem sold_price_only_in_details is_str `{!CryptoLaws P C is_str} (print : json → option string) (ld : LeadData) (result : RoutingResult)
    (key pid er epr : string) (price : f64) (id : Uuid) (task : PayloadUpdateData) (l : Lead) (W : World) :
  let codec := envelope_codec print in
  post_payload_task codec id ld (Some key) result = PayloadUpdate task → w_outcomes W = [] →
  rr_post_id result = Some pid → rr_price result = Some price → f64_is_finite price = true →
  (∀ row, row ∈ db_post_payloads (w_db W) → post_row_post_id row ≠ Some pid) → is_Some (db_leads (w_db W) !! id) →
  (∀ v text, v ∈ [lead_data_to_value ld; routing_result_json result] → print v = Some text → is_str text ∧ json_from_text text = Ok v) →
  encrypted_json codec (Some key) (lead_data_to_value ld) = Some er →
  encrypted_json codec (Some key) (routing_result_json result) = Some epr →
  db_post_payloads db = db_post_payloads (w_db (update_payload task W).2) → lead_uuid l = id → lead_post_id l = Some pid →
  list_price db st l = Ok None ∧
  ∃ found post, post_of_id db st id pid = Some found ∧ post_payload_json (Some key) (Some pid, found) = Ok post ∧
    ∀ line pii pings, (jget "lead" (lead_details_json id line pii pings (Some post)) ≫= jget "price") = Some (JNumber (Float price)).
Proof.
  intros codec [= <-] HW Hpid Hprice Hfin Hfresh Hstored Hprint Her Hepr Hdb <- Hl.
  unfold update_payload, insert_post_payload in Hdb. cbn [pu_payload_type String.eqb Ascii.eqb Bool.eqb] in Hdb.
  rewrite ignore_exec in Hdb by done.
  cbn [pu_request_payload_encrypted pu_response_payload_encrypted pu_lead_id pu_post_id pu_payload] in Hdb.
  rewrite has_lead_true, Hpid, post_id_free in Hdb by done. cbn [negb fst snd] in Hdb.
  pose proof Her as Her'. pose proof Hepr as Hepr'. cbn in Her', Hepr'. rewrite Her', Hepr' in Hdb. cbn in Hdb.
  set (row := {| post_row_lead_id := lead_uuid l |}) in Hdb.
  destruct (filter_post_lines (λ p, bool_decide (post_row_lead_id p = lead_uuid l) && bool_decide (post_row_post_id p = Some pid)) _ row Hdb)
    as (line & Hline & Hfilter).
  { intros p Hp. rewrite andb_false_iff. right. by apply bool_decide_eq_false, Hfresh. }
  { cbn. by rewrite !bool_decide_eq_true_2. }
  split.
  - unfold list_price, price_row. rewrite Hl, Hfilter. cbn. by rewrite Hline.
  - exists line. unfold post_of_id. rewrite find_head_filter, Hfilter. cbn [head]. unfold post_payload_json. rewrite Hline. unfold row.
    assert (Hdec : ∀ v env, v ∈ [lead_data_to_value ld; routing_result_json result] →
      encrypted_json codec (Some key) v = Some env → decrypt_payload (Some key) (Some env) = Ok (Some v)).
    { intros v env Hv. unfold encrypted_json. cbn [mbind option_bind codec envelope_codec json_to_string encrypt_envelope]. destruct (print v) as [text|] eqn:Et; [|done]. cbn [mbind option_bind]. destruct (Hprint v text Hv Et) as [Hs Hj].
      destruct (EncryptionService_encrypt_envelope key text true "") as [e|] eqn:Ee; [|done]. intros [= ->].
      by rewrite (decrypt_payload_envelope is_str key text env Hs Ee), Hj. }
    unfold post_request_encrypted, post_response_encrypted. cbn [fmap option_fmap option_map default from_option fst snd post_row_encrypted Datatypes.id]. rewrite (Hdec (lead_data_to_value ld) er), (Hdec (routing_result_json result) epr) by first [done|member]. cbn [mbind Result_bind].
    eexists. split; [done|]. split; [reflexivity|]. intros ln pii pings.
    assert (Ep : post_price (Some (routing_result_json result)) = Some price).
    { unfold post_price, routing_result_json. rewrite Hprice, Hfin. reflexivity. }
    rewrite Ep. unfold lead_details_json. 
    change (Some (json_of_opt_f64 (as_f64 (json_of_opt_f64 (Some price)))) = Some (JNumber (Float price))).
    cbn. unfold json_of_f64. rewrite Hfin. cbn. unfold json_of_f64. by rewrite Hfin.
Qed.
End shown.

(** ** Witnesses *)

#[local] Existing Instance reference_platform.
#[local] Existing Instance plain_crypto.
#[local] Existing Instance account_lib.

Definition report_lib : ReportLib := {|
  db_lower := str_map ascii_lower; text_as_float := λ _, Err "invalid input syntax"; timestamp_as_utc := Some;
  epoch_ms := λ _, None; urldecode := Some
|}.
#[local] Existing Instance report_lib.

Definition report_stamps : RowStamps := {|
  response_serial := λ i, Z.of_nat (S i); response_created_at := Z.of_nat; post_serial := λ i, Z.of_nat (S i);
  post_created_at := Z.of_nat; post_updated_at := Z.of_nat
|}.

(** The owner of the instance of the publisher, and a lead sold to buyer 12. *)
Definition report_user : User := {|
  user_id := 8%N; user_email := "owner@example.com"; user_encrypted_password := ""; user_first_name := None;
  user_last_name := None; user_status := UserActive; user_confirmed_at := Some 0%Z; user_created_at := 0%Z;
  user_updated_at := 0%Z; user_reset_password_token := None; user_reset_password_sent_at := None |}.

Definition report_office : Office := set_of_publishers {[7%N := sample_api_publisher]} sample_office.

Definition report_world : ReportWorld ttl_map ttl_map := {| rw_office := report_office; rw_ssm := sample_ssm_state 0 |}.

Definition sold_lead : Lead :=
  lead_with (sample_lead LeadSold (Some 2%N) None (json_object [])) LeadSold (Some 2%N) (Some 12%N) (Some "PROMISE_0A")
    (Some "FP_1") (Some "RP_1") (Some 3%Z) (json_object []) 3.

Definition report_db : Db := {|
  db_leads := {[1%N := sold_lead]};
  db_buyer_responses := [{| row_lead_id := 1%N; row_campaign_id := 2%N; row_ping_id := Some "FP_1"; row_post_id := None;
                            row_buyer_id := Some 12%N; row_payload := json_object [("bid", json_of_u64 120)] |}];
  db_pings := []; db_ping_payloads := []; db_post_payloads := []; db_pulsar_logs := []
|}.

Abbreviation sample_details db :=
  (get_lead_details (L1 := ttl_map) (L2 := ttl_map) db report_stamps slow_store sample_ssm_service sample_delays sample_delays "production"
    (Some report_user) (text_of 1%N) report_world).

Lemma report_owned : owned 0%N report_office sold_lead.
Proof. by exists 7%N, sample_api_publisher. Qed.

(** The answer of such a request. *)
Definition answer_of (db : Db) : json := result_or JNull (sample_details db).1.

Lemma sold_answer : sample_details report_db = (Ok (answer_of report_db), (sample_details report_db).2).
Proof. vm_cast_no_check (@eq_refl _ (sample_details report_db)). Qed.

Lemma report_lead_id : parse_user_id (text_of 1%N) = Some 1%N.
Proof. apply of_text_of. Qed.

Lemma details_of_own_leads_only_witness :
  ∃ inst l, instance_of_user 8%N report_office = Some inst ∧ db_leads report_db !! 1%N = Some l ∧ owned inst report_office l.
Proof.
  destruct (proj1 (details_of_own_leads_only report_db report_stamps slow_store sample_ssm_service sample_delays sample_delays
    "production" (Some report_user) (text_of 1%N) report_world) _ _ sold_answer) as (u & id & inst & l & [= <-] & Hid & Hi & Hl & Ho).
  rewrite report_lead_id in Hid. injection Hid as <-. by exists inst, l.
Defined.

Lemma no_ping_wins_witness :
  ∃ lead pings, jget "lead" (answer_of report_db) = Some lead ∧ jget "ping_payloads" lead = Some (JArray pings) ∧
    String.eqb (default "" (jget "status" lead ≫= as_str)) "sold" && (length pings =? 1)%nat = true ∧
    ∀ ping, ping ∈ pings → jget "status" ping ≠ Some (JString "W").
Proof.
  destruct (no_ping_wins report_db report_stamps slow_store sample_ssm_service sample_delays sample_delays "production" (Some report_user)
    (text_of 1%N) report_world _ _ sold_answer) as (lead & pings & Hlead & Hpings & Hall).
  exists lead, pings. split; [done|]. split; [done|]. split; [|intros ping Hp; by apply Hall].
  enough (E : match jget "lead" (answer_of report_db) with
              | Some lead => match jget "ping_payloads" lead with
                             | Some (JArray pings) => String.eqb (default "" (jget "status" lead ≫= as_str)) "sold" && (length pings =? 1)%nat
                             | _ => false end
              | None => false end = true) by (rewrite Hlead, Hpings in E; exact E).
  vm_compute. reflexivity.
Defined.

Lemma pages_show_every_lead_witness :
  ∃ answers, length answers = 1%nat ∧
    ∀ i answer, answers !! i = Some answer →
      list_leads report_db report_stamps (λ g, g) (@List.rev LeadLine) (Some report_user) (Some "page=1&per_page=20") report_world
        = (Ok answer, report_world) ∧
      shown_leads answer ≡ₚ [shown_row report_db report_stamps (lead_line report_office sold_lead)].
Proof.
  destruct (pages_show_every_lead report_db report_stamps (λ g, g) (λ _, @List.rev LeadLine) report_user (λ _, Some "page=1&per_page=20") 1 20 None 0%N report_world)
    as [(answers & Hl & Hall & _) _]; try done.
  - intros i l. symmetry. apply Permutation_rev.
  - intros i Hi. replace i with 0%nat by lia. vm_compute. done.
  - intros l Hl. apply list_elem_of_In in Hl. vm_compute in Hl. destruct Hl as [<-|[]]. split; vm_compute; reflexivity.
  - exists answers. split; [done|]. intros i answer Hi. destruct i as [|i]; [|apply lookup_lt_Some in Hi; lia]. destruct (Hall 0%nat answer Hi) as [Ha (rows & Hrows & _ & Hsh)].
    split; [exact Ha|]. assert (E : found_lines report_db (Some 0%N) None (rw_office report_world) = [lead_line report_office sold_lead])
      by (vm_compute; reflexivity).
    rewrite E in Hrows. apply Permutation_singleton_r in Hrows as ->. exact Hsh.
Defined.

Lemma far_pages_witness :
  list_leads report_db report_stamps (λ g, g) (λ l, l) (Some report_user) (Some "page=2305843009213693953&per_page=4") report_world
  = (Err (Status 500), report_world).
Proof.
  apply (far_pages report_db report_stamps (λ g, g) (λ l, l) report_user (Some "page=2305843009213693953&per_page=4") (Some 0%N) None report_world);
    try done.
  intros l Hl. apply list_elem_of_In in Hl. vm_compute in Hl. destruct Hl as [<-|[]]. split; vm_compute; reflexivity.
Defined.

Definition clear_db : Db :=
  on_ping_payloads (λ _, db_ping_payloads (w_db (create_ping {| encrypt_envelope := λ _ _, Err ""; json_to_string := λ _, None |}
    (result_or (WriteBehind.sample_creation 1%N "" JNull) (creation_task (sample_loads None (Err "")) sample_request_draws (sample_request "ping" None) sample_vertical "ping" (Some 1%N) (Some 11%N)))
    1%N (sample_store [])).2)) report_db.

Lemma no_key : details_key slow_store sample_ssm_service sample_delays sample_delays "production" report_world
  = (Ok None, (details_key slow_store sample_ssm_service sample_delays sample_delays "production" report_world).2).
Proof.
  vm_cast_no_check (@eq_refl _ (details_key slow_store sample_ssm_service sample_delays sample_delays "production" report_world)).
Qed.

Lemma details_reveal_request_without_key_witness :
  ∃ pii pings post w1, sample_details clear_db = (Ok (lead_details_json 1%N (lead_line report_office sold_lead) pii pings post), w1) ∧
    pings ≠ [] ∧ (∀ ping, ping ∈ pings → (jget "request_payload" ping ≫= jget "email") = Some (JString "a@b.c")) ∧
    jget "email" pii = Some (JString "[Encrypted - decryption key unavailable]").
Proof.
  set (w1 := (details_key slow_store sample_ssm_service sample_delays sample_delays "production" report_world).2).
  destruct (details_reveal_request_without_key clear_db report_stamps {| encrypt_envelope := λ _ _, Err ""; json_to_string := λ _, None |}
    (sample_loads None (Err "")) sample_request_draws (sample_request "ping" None) sample_vertical "ping" (Some 1%N) (Some 11%N) _
    (sample_store []) slow_store sample_ssm_service sample_delays sample_delays "production" report_user (text_of 1%N) 1%N 0%N sold_lead
    report_world w1 eq_refl) as (pii & pings & post & Hrun & Hne & Hreq & Hemail);
    [reflexivity..|apply report_lead_id|reflexivity|apply report_owned|apply no_key|].
  - exists pii, pings, post, w1. split; [exact Hrun|]. split; [done|]. split; [|by apply (Hemail "enc_email")].
    intros ping Hp. rewrite (Hreq ping Hp). reflexivity.
Defined.

(** The request and the answer of a post as texts of one letter. *)
Definition letter_crypto (ld : LeadData) (result : RoutingResult) : Crypto := {|
  aes_gcm_encrypt := aes_gcm_encrypt; aes_gcm_decrypt := aes_gcm_decrypt; hmac_sha256 := hmac_sha256;
  pbkdf2_hmac_sha1 := pbkdf2_hmac_sha1; base64_decode := base64_decode; string_from_utf8 := string_from_utf8;
  json_text := json_text;
  json_from_text := λ s, if String.eqb s "Q" then Ok (lead_data_to_value ld)
                         else if String.eqb s "R" then Ok (routing_result_json result) else json_from_text s
|}.

Definition letter_print (v : json) : option string := Some (match jget "routing_result" v with Some _ => "R" | None => "Q" end).

Lemma letter_crypto_laws ld result : CryptoLaws plain_platform (letter_crypto ld result) (λ _, True).
Proof.
  destruct plain_crypto_laws as [Haes Hhmac Hpbkdf Hbase Hutf Hjson]. split; [exact Haes|exact Hhmac|exact Hpbkdf|exact Hbase|exact Hutf|].
  intros p iv tag. set (text := framed p (framed iv (framed tag ""))).
  assert (Et : @json_text plain_crypto (envelope_value p iv tag) = text) by reflexivity.
  assert (E : String.eqb text "Q" = false ∧ String.eqb text "R" = false) by (unfold text, framed; by destruct (String.length p)).
  specialize (Hjson p iv tag). rewrite Et in Hjson. change (@json_text (letter_crypto ld result) (envelope_value p iv tag)) with text.
  cbn [json_from_text letter_crypto]. by rewrite (proj1 E), (proj2 E).
Qed.

Definition sale : RoutingResult := {|
  rr_success := true; rr_status := "sold"; rr_error := None; rr_promise_id := Some "PROMISE_0A"; rr_ping_id := Some "FP_1";
  rr_post_id := Some "RP_1"; rr_price := Some (f64_of_Z 120); rr_campaign_id := Some 2%N; rr_buyer_id := Some 12%N;
  rr_per_buyer_timings := None
|}.

Definition sale_task : PayloadUpdateData :=
  match @post_payload_task plain_platform (@envelope_codec plain_platform (letter_crypto (req_lead (sample_request "post" None)) sale) letter_print) 1%N
          (req_lead (sample_request "post" None)) (Some office_key) sale with
  | PayloadUpdate task => task
  | _ => {| pu_lead_id := 1%N; pu_payload_type := ""; pu_payload := JNull; pu_post_id := None; pu_request_payload_encrypted := None;
            pu_response_payload_encrypted := None; pu_ping_payloads_row_id := None; pu_external_ping_id := None |}
  end.

(** The row of the sale alone. *)
Definition sale_db : Db := on_post_payloads (λ _, db_post_payloads (w_db (@update_payload sale_task (sample_store [sold_lead])).2)) report_db.

Lemma sold_price_only_in_details_witness :
  list_price sale_db report_stamps sold_lead = Ok None ∧
  ∃ found post, post_of_id sale_db report_stamps 1%N "RP_1" = Some found ∧
    @post_payload_json (letter_crypto (req_lead (sample_request "post" None)) sale) report_lib (Some office_key)
      (Some "RP_1", found) = Ok post.
Proof.
  destruct (@sold_price_only_in_details plain_platform (letter_crypto (req_lead (sample_request "post" None)) sale) report_lib sale_db report_stamps
    (λ _, True) (letter_crypto_laws _ _) letter_print (req_lead (sample_request "post" None)) sale office_key "RP_1"
    (default "" (pu_request_payload_encrypted sale_task)) (default "" (pu_response_payload_encrypted sale_task)) (f64_of_Z 120) 1%N sale_task
    sold_lead (sample_store [sold_lead])) as [Hlist (found & post & Hfound & Hpost & _)]; try (vm_compute; reflexivity).
  - by intros row ?%elem_of_nil.
  - by eexists.
  - intros v text [->|[->|Hv%elem_of_nil]%elem_of_cons]%elem_of_cons; [..|done]; vm_compute; by intros [= <-].
  - split; [exact Hlist|]. exists found, post. split; [exact Hfound|]. exact Hpost.
Defined.
