(* ===== verification/Migrations.v ===== *)
(** * Migrations of the database

    [crates/utils/src/bin/run-migrations.rs]: the tool that brings the schema up to date,
    over the migrator of [sqlx], which is a parameter ([Sqlx]): what it answers and what it
    does to the database.  The model has the records of [_sqlx_migrations], absent in a
    database that was never migrated; the rest of the database is a parameter.  The
    messages of the tool's own errors are constructors. *)

From stdpp Require Import base list strings gmap pretty.
From Stdlib Require Import Ascii String ZArith Lia.
From S2P Require Import Prelude Float64 Platform Json Models Store Cache Encryption Ssm Config Accounts LeadReports.

Open Scope string_scope.
Open Scope list_scope.
Local Abbreviation length := List.length.

(** ** Data *)

(** A row of [_sqlx_migrations]. *)
Record AppliedMigration : Type := { ap_description : string; ap_success : bool; ap_checksum : string }.

(** [sqlx::migrate::Migration]. *)
Record Migration : Type := { version : Z; description : string; checksum : string }.

#[export] Instance Migration_eq_dec : EqDecision Migration.
Proof. solve_decision. Defined.

(** The database: its records of migrations, everything else, and what its next statements
    will do. *)
Record MigrateWorld (S : Type) : Type := {
  mw_records : option (gmap Z AppliedMigration);
  mw_schema : S;
  mw_outcomes : list (option string)
}.
Arguments mw_records {_}. Arguments mw_schema {_}. Arguments mw_outcomes {_}.

Inductive MigrateError : Type :=
  | Unavailable (e : string)
  | DatabaseUrlNotFound
  | MissingFiles (e : string)
  | ModifiedFiles (e : string)
  | RetriesExhausted (e : string)
  | MigratorNotCreated (e : string)
  | RunFailed (e : string)
  | RetryFailed (e : string)
  | StillPending (pending : list (Z * string)).

(** [Migrator::new], the first time and after, and [migrator.run(pool)]. *)
Class Sqlx (S : Type) : Type := {
  migrator_new : string → nat → Result string (list Migration);
  migrator_run : list Migration → eff (MigrateWorld S) string unit
}.

(** An entry of a directory: its name, when it is UTF-8. *)
Record DirEntry : Type := { de_name : option string; de_is_file : bool }.

(** ** Versions in error messages *)

Definition is_digit (a : ascii) : bool := ascii_between 48 57 a.

(** [rest.find(|c| !c.is_ascii_digit())]: the digits and what follows. *)
Fixpoint span_digits (s : string) : string * string :=
  match s with
  | String a s' => if is_digit a then let '(digits, rest) := span_digits s' in (String a digits, rest) else ("", s)
  | EmptyString => ("", "")
  end.

(** The loop of [extract_all_modified_migration_versions], on what is left to search. *)
Fixpoint mentioned_versions (fuel : nat) (s : string) : list Z :=
  match fuel with
  | O => []
  | S fuel =>
      match str_find "migration " s with
      | None => []
      | Some offset =>
          let '(digits, rest) := span_digits (drop_bytes (offset + 10) s) in
          option_list (if String.eqb digits "" then None else parse_i64 digits)
          ++ (if String.eqb rest "" then [] else mentioned_versions fuel rest)
      end
  end.

(** [error_msg.split(|c| !c.is_ascii_digit())]. *)
Fixpoint digit_tokens (s : string) : list string :=
  match s with
  | EmptyString => [""]
  | String a s' =>
      if is_digit a
      then match digit_tokens s' with [] => [String a ""] | token :: rest => String a token :: rest end
      else "" :: digit_tokens s'
  end.

Definition long_version (token : string) : option Z :=
  if (8 <=? String.length token)%nat then parse_i64 token else None.

Definition extract_all_modified_migration_versions (error_msg : string) : list Z :=
  match mentioned_versions (String.length error_msg) error_msg with
  | [] => option_list (head (omap long_version (digit_tokens error_msg)))
  | versions => versions
  end.

Definition missing_text : string := "was previously applied but is missing".
Definition modified_text : string := "was previously applied but has been modified".

(** ** The tool *)

Section migrations.
Context {S : Type} `{!Sqlx S}.
Abbreviation migrating := (eff (MigrateWorld S) MigrateError).
Implicit Types w : MigrateWorld S.

Definition with_records (records : option (gmap Z AppliedMigration)) w : MigrateWorld S :=
  {| mw_records := records; mw_schema := mw_schema w; mw_outcomes := mw_outcomes w |}.
Definition set_migrate_outcomes (o : list (option string)) w : MigrateWorld S :=
  {| mw_records := mw_records w; mw_schema := mw_schema w; mw_outcomes := o |}.

(** A statement on [_sqlx_migrations], which fails while there is no such table. *)
Definition on_records {A} (f : gmap Z AppliedMigration → A * gmap Z AppliedMigration) : migrating A := λ w,
  match mw_outcomes w with
  | Some e :: rest => (Err (Unavailable e), set_migrate_outcomes rest w)
  | outcomes =>
      let w := set_migrate_outcomes (tail outcomes) w in
      match mw_records w with
      | None => (Err (Unavailable "relation _sqlx_migrations does not exist"), w)
      | Some records => let '(a, records) := f records in (Ok a, with_records (Some records) w)
      end
  end.

(** [SELECT version FROM _sqlx_migrations ORDER BY version]. *)
Definition applied_versions : migrating (list Z) :=
  on_records (λ records, (sort_by Z.compare (map_to_list records).*1, records)).

(** [SELECT version FROM _sqlx_migrations WHERE success = true]. *)
Definition succeeded (records : gmap Z AppliedMigration) (v : Z) : bool :=
  match records !! v with Some r => ap_success r | None => false end.
Definition successful_versions : migrating (Z → bool) := on_records (λ records, (succeeded records, records)).

(** [DELETE FROM _sqlx_migrations WHERE version = $1]. *)
Definition delete_record (v : Z) : migrating unit := on_records (λ records, (tt, delete v records)).

(** *** [cleanup_inconsistent_migrations] *)

Definition file_version (entry : DirEntry) : option Z :=
  name ← de_name entry; version_str ← head (split_char "_" name); parse_i64 version_str.

Definition file_versions (entries : option (list DirEntry)) : list Z := omap file_version (default [] entries).

Definition cleanup_inconsistent_migrations (entries : option (list DirEntry)) : migrating unit :=
  applied ← applied_versions;
  for_each delete_record (List.filter (λ v, negb (bool_decide (v ∈ file_versions entries))) applied).

(** *** [check_pending_migrations] *)

Definition pending_of (is_applied : Z → bool) (ms : list Migration) : list (Z * string) :=
  (λ m, (version m, description m)) <$> List.filter (λ m, negb (is_applied (version m))) ms.

Definition check_pending_migrations (ms : list Migration) : migrating (list (Z * string)) :=
  is_applied ← successful_versions;
  mret (pending_of is_applied ms).

(** *** [run_migrations_inner] *)

Definition MAX_RUN_RETRIES : nat := 25.
Definition MAX_MIGRATOR_RETRIES : nat := 25.

(** What follows a run that succeeded. *)
Definition verify_applied (ms : list Migration) : migrating unit :=
  still_pending ← check_pending_migrations ms;
  if bool_decide (still_pending = []) then mret tt else eff_err (StillPending still_pending).

(** The loop after a run found modified migrations, with the retries that are left. *)
Fixpoint run_again (retries : nat) (ms : list Migration) (last_error_msg : string) : migrating unit :=
  match extract_all_modified_migration_versions last_error_msg with
  | [] => eff_err (ModifiedFiles last_error_msg)
  | modified_versions =>
      match retries with
      | O => eff_err (RetriesExhausted last_error_msg)
      | Datatypes.S retries =>
          _ ← for_each delete_record modified_versions;
          retried ← eff_try (migrator_run ms);
          match retried with
          | Ok _ => verify_applied ms
          | Err retry_err =>
              if str_contains modified_text retry_err then run_again retries ms retry_err
              else eff_err (RetryFailed retry_err)
          end
      end
  end.

Definition run_migrations_inner (ms : list Migration) : migrating unit :=
  pending ← check_pending_migrations ms;
  if bool_decide (pending = []) then mret tt
  else
    ran ← eff_try (migrator_run ms);
    match ran with
    | Ok _ => verify_applied ms
    | Err error_msg =>
        if str_contains missing_text error_msg then eff_err (MissingFiles error_msg)
        else if str_contains modified_text error_msg then run_again MAX_RUN_RETRIES ms error_msg
        else eff_err (RunFailed error_msg)
    end.

(** *** [run_migrations] *)

(** [if let Err(e) = ... { info!(...) }]. *)
Definition only_warn {A} (m : migrating A) : migrating unit := _ ← eff_try m; mret tt.

(** The loop that creates the migrator, with the retries that are left. *)
Fixpoint create_migrator (retries : nat) (dir : string) (entries : option (list DirEntry)) : migrating (list Migration) :=
  match migrator_new dir (MAX_MIGRATOR_RETRIES - retries) with
  | Ok ms => mret ms
  | Err error_msg =>
      if str_contains missing_text error_msg then eff_err (MissingFiles error_msg)
      else if str_contains modified_text error_msg then
        match retries with
        | O => eff_err (RetriesExhausted error_msg)
        | Datatypes.S retries =>
            match extract_all_modified_migration_versions error_msg with
            | [] => eff_err (ModifiedFiles error_msg)
            | modified_versions =>
                _ ← for_each (λ v, only_warn (delete_record v)) modified_versions;
                _ ← only_warn (cleanup_inconsistent_migrations entries);
                create_migrator retries dir entries
            end
        end
      else eff_err (MigratorNotCreated error_msg)
  end.

Definition run_migrations (dir : string) (entries : option (list DirEntry)) (_test_mode : bool) : migrating unit :=
  _ ← only_warn (cleanup_inconsistent_migrations entries);
  ms ← create_migrator MAX_MIGRATOR_RETRIES dir entries;
  run_migrations_inner ms.
End migrations.

(** ** [main] *)

(** What the process finds: its environment with the files [.env] read, the parameter
    store, how a connection ends, and the directories (one that is there may still not be
    readable). *)
Record MigrateHost : Type := {
  mh_vars : Env;
  mh_ssm_new : string → Result string unit;
  mh_ssm_pages : string → list SsmPage;
  mh_connect : string → Result string unit;
  mh_dirs : string → option (Result string (list DirEntry));
  mh_workspace_migrations : string
}.

Definition migrate_environment (vars : Env) : string :=
  default "development" (match vars !! "ENVIRONMENT" with Some v => Some v | None => vars !! "ENV" end).

Definition migrate_database_url (host : MigrateHost) : Result MigrateError string :=
  let environment := migrate_environment (mh_vars host) in
  match mh_vars host !! "DATABASE_URL" with
  | Some url => Ok url
  | None =>
      let env_normalized := normalize_env_for_ssm environment in
      _ ← map_err Unavailable (mh_ssm_new host environment);
      params ← map_err Unavailable (collect_pages (mh_ssm_pages host ("/leadsnebula/" +:+ env_normalized +:+ "/rust/")) ∅);
      ok_or DatabaseUrlNotFound (params !! ("/leadsnebula/" +:+ env_normalized +:+ "/rust/db/connection_url"))
  end.

Definition migrations_path (host : MigrateHost) : string :=
  match mh_dirs host "migrations" with Some _ => "migrations" | None => mh_workspace_migrations host end.

Definition is_migration_file (entry : DirEntry) : bool :=
  de_is_file entry && match de_name entry with Some name => ends_with ".sql" name | None => false end.

Definition is_test_mode (vars : Env) (database_url : string) : bool :=
  bool_decide (is_Some (vars !! "TEST_MODE")) || bool_decide (is_Some (vars !! "NEON_BRANCH"))
  || str_contains "ci-local-" database_url || str_contains "test-" database_url || str_contains "ep-" database_url
  || String.eqb (migrate_environment vars) "development" || String.eqb (migrate_environment vars) "test".

Definition migrate_main {S} `{!Sqlx S} (host : MigrateHost) : eff (MigrateWorld S) MigrateError unit :=
  database_url ← eff_lift (migrate_database_url host);
  _ ← eff_lift (map_err Unavailable (mh_connect host database_url));
  let dir := migrations_path host in
  match mh_dirs host dir with
  | None => mret tt
  | Some listing =>
      entries ← eff_lift (map_err Unavailable listing);
      if List.existsb is_migration_file entries
      then run_migrations dir (Some entries) (is_test_mode (mh_vars host) database_url)
      else mret tt
  end.

(** ** The versions of an error message *)

(** The message of [sqlx] for a file that changed after it was applied. *)
Definition version_mismatch (v : Z) : string := "migration " +:+ pretty v +:+ " was previously applied but has been modified".

Lemma digit_value_char x : (x < 10)%N → digit_value (pretty_N_char x) = Some (Z.of_N x).
Proof.
  intros Hx. assert (H : x ∈ N.of_nat <$> seq 0 10).
  { apply list_elem_of_fmap. exists (N.to_nat x). rewrite elem_of_seq. lia. }
  repeat (apply elem_of_cons in H as [->|H]; [done|]). by apply elem_of_nil in H.
Qed.

Lemma is_digit_value a : is_digit a = bool_decide (is_Some (digit_value a)).
Proof. unfold is_digit, digit_value. destruct (ascii_between 48 57 a); [by rewrite bool_decide_true|]. rewrite bool_decide_false; [done|]. by intros [? ?]. Qed.

Lemma read_digits_number x s acc :
  ∃ k, read_digits acc 0 (pretty_N_go x s) = read_digits (acc * 10 ^ Z.of_nat k + Z.of_N x) k s ∧ ((0 < x)%N → (0 < k)%nat).
Proof.
  enough (H : ∀ n, ∃ k, read_digits acc n (pretty_N_go x s) = read_digits (acc * 10 ^ Z.of_nat k + Z.of_N x) (n + k) s
                        ∧ ((0 < x)%N → (0 < k)%nat)) by exact (H 0%nat).
  revert s. induction (N.lt_wf_0 x) as [x _ IH]. intros s n.
  assert (x = 0 ∨ 0 < x)%N as [->|Hx] by lia.
  { exists 0%nat. rewrite pretty_N_go_0, Nat.add_0_r. split; [|lia]. change (Z.of_N 0) with 0%Z. by rewrite Z.mul_1_r, Z.add_0_r. }
  rewrite pretty_N_go_step by done.
  destruct (IH (x / 10)%N (N.div_lt x 10 Hx eq_refl) (String (pretty_N_char (x mod 10)) s) n) as (k & -> & _).
  exists (Datatypes.S k). split; [|lia]. cbn [read_digits]. rewrite digit_value_char by (apply N.mod_lt; lia).
  replace (n + Datatypes.S k)%nat with (Datatypes.S (n + k)) by lia. f_equal. rewrite Nat2Z.inj_succ, Z.pow_succ_r by lia.
  pose proof (N.div_mod x 10 ltac:(done)). nia.
Qed.

Lemma span_digits_app s rest :
  str_forallb is_digit s = true → match rest with String a _ => is_digit a = false | EmptyString => True end →
  span_digits (s +:+ rest) = (s, rest).
Proof.
  intros Hs Hr. induction s as [|a s IH].
  - change ("" +:+ rest) with rest. destruct rest as [|a rest]; [done|]. cbn [span_digits]. by rewrite Hr.
  - cbn in Hs. apply andb_true_iff in Hs as [Ha Hs]. rewrite string_app_cons. cbn [span_digits]. by rewrite Ha, (IH Hs).
Qed.

Lemma version_digits v : (0 ≤ v < 2 ^ 63)%Z → str_forallb is_digit (pretty v) = true ∧ parse_i64 (pretty v) = Some v.
Proof.
  intros Hv. destruct v as [|p|p]; [done| |lia].
  change (pretty (Z.pos p)) with (pretty_N_go (N.pos p) ""). split.
  { apply pretty_N_go_forallb; [|done]. intros n. unfold pretty_N_char. by repeat case_match. }
  destruct (read_digits_number (N.pos p) "" 0) as (k & Hk & Hpos). specialize (Hpos ltac:(lia)).
  destruct k as [|k]; [lia|].
  assert (Hsign : read_sign (pretty_N_go (N.pos p) "") = (false, pretty_N_go (N.pos p) "")).
  { assert (H : str_forallb is_digit (pretty_N_go (N.pos p) "") = true).
    { apply pretty_N_go_forallb; [|done]. intros n. unfold pretty_N_char. by repeat case_match. }
    destruct (pretty_N_go (N.pos p) "") as [|a s]; [done|]. cbn in H. apply andb_true_iff in H as [H _].
    destruct a as [[] [] [] [] [] [] [] []]; done. }
  unfold parse_i64. rewrite Hsign, Hk. cbn [read_digits].
  replace (0 * 10 ^ Z.of_nat (Datatypes.S k) + Z.of_N (N.pos p))%Z with (Z.pos p) by (rewrite Z.mul_0_l; lia).
  destruct (Z.leb_spec (- 2 ^ 63) (Z.pos p)), (Z.ltb_spec (Z.pos p) (2 ^ 63)); by try lia.
Qed.

Lemma extract_mismatch v : (0 ≤ v < 2 ^ 63)%Z → extract_all_modified_migration_versions (version_mismatch v) = [v].
Proof.
  intros [Hd Hp]%version_digits. unfold extract_all_modified_migration_versions.
  assert (Hne : String.eqb (pretty v) "" = false) by (by destruct (pretty v)).
  enough (H : ∀ fuel, mentioned_versions (Datatypes.S (Datatypes.S fuel)) (version_mismatch v) = [v]).
  { assert (Hl : ∃ n, String.length (version_mismatch v) = Datatypes.S (Datatypes.S n)) by (by eexists).
    destruct Hl as [n ->]. by rewrite H. }
  intros fuel. cbn [mentioned_versions].
  assert (Hf : str_find "migration " (version_mismatch v) = Some 0%nat) by (unfold version_mismatch; generalize (pretty v +:+ " was previously applied but has been modified"); intros t; cbn; by destruct t). rewrite Hf. clear Hf.
  assert (Hr : drop_bytes (0 + 10) (version_mismatch v) = pretty v +:+ " was previously applied but has been modified").
  { unfold drop_bytes, version_mismatch. generalize (pretty v +:+ " was previously applied but has been modified") as t. intros t. change (String.substring 0 (String.length t - 0) t = t). rewrite Nat.sub_0_r. apply substring_all. }
  rewrite Hr, span_digits_app by done. rewrite Hne, Hp. done.
Qed.

(** ** Statements *)

Section runs.
Context {S : Type} `{!Sqlx S}.
Abbreviation migrating := (eff (MigrateWorld S) MigrateError).
Implicit Types w : MigrateWorld S.
Implicit Types r : gmap Z AppliedMigration.

(** Statements succeed, and there is a table of records. *)
Definition migrated r w : Prop := mw_outcomes w = [] ∧ mw_records w = Some r.

Lemma on_records_run {A} (f : gmap Z AppliedMigration → A * gmap Z AppliedMigration) r w :
  migrated r w → on_records f w = (Ok (f r).1, with_records (Some (f r).2) w).
Proof. intros [Ho Hr]. destruct w as [records s o]. cbn in *. subst. unfold on_records. cbn. by destruct (f r). Qed.

Lemma migrated_with r r' w : migrated r w → migrated r' (with_records (Some r') w).
Proof. by intros [? ?]. Qed.

Lemma with_records_same r w : migrated r w → with_records (Some r) w = w.
Proof. intros [_ Hr]. destruct w. cbn in *. by subst. Qed.

Lemma delete_record_run v r w : migrated r w → delete_record v w = (Ok tt, with_records (Some (delete v r)) w).
Proof. apply on_records_run. Qed.

(** What is left of the records without those of [vs]. *)
Definition without (vs : list Z) r : gmap Z AppliedMigration := filter (λ '(v, _), v ∉ vs) r.

Lemma delete_records_run vs r w :
  migrated r w → for_each delete_record vs w = (Ok tt, with_records (Some (without vs r)) w).
Proof.
  revert r w. induction vs as [|v vs IH]; intros r w Hw.
  - replace (without [] r) with r; [by rewrite (with_records_same _ _ Hw)|].
    symmetry. apply map_filter_id. intros ? ? _. apply not_elem_of_nil.
  - cbn [for_each]. rewrite (eff_bind_ok _ _ _ _ _ (delete_record_run _ _ _ Hw)).
    rewrite (IH _ _ (migrated_with _ _ _ Hw)). f_equal. unfold with_records. cbn. do 2 f_equal.
    apply map_eq. intros i. apply option_eq. intros a. unfold without.
    rewrite !map_lookup_filter_Some, lookup_delete_Some, not_elem_of_cons. naive_solver.
Qed.

Lemma pending_nil is_applied ms : pending_of is_applied ms = [] ↔ Forall (λ m, is_applied (version m) = true) ms.
Proof.
  unfold pending_of. induction ms as [|m ms IH]; [by split|]. cbn. rewrite Forall_cons, <-IH.
  destruct (is_applied (version m)); naive_solver.
Qed.

Lemma check_pending_run ms r w : migrated r w → check_pending_migrations ms w = (Ok (pending_of (succeeded r) ms), w).
Proof.
  intros Hw. unfold check_pending_migrations, successful_versions.
  rewrite (eff_bind_ok _ _ _ _ _ (on_records_run _ _ _ Hw)). cbn. by rewrite with_records_same.
Qed.

Lemma check_pending_inv ms w pending w' :
  check_pending_migrations ms w = (Ok pending, w') →
  ∃ r, mw_records w = Some r ∧ mw_records w' = Some r ∧ pending = pending_of (succeeded r) ms.
Proof.
  unfold check_pending_migrations, successful_versions, on_records. rewrite eff_bind_eq.
  destruct w as [[r|] s [|[e|] o]]; cbn; intros [= <- <-]; by exists r.
Qed.

(** Every migration has the record of a success. *)
Definition all_applied (ms : list Migration) w : Prop :=
  ∃ r, mw_records w = Some r ∧ Forall (λ m, succeeded r (version m) = true) ms.

Lemma verify_applied_ok ms w w' : verify_applied ms w = (Ok tt, w') → all_applied ms w'.
Proof.
  unfold verify_applied. intros [(pending & w1 & Hp & H)|(e & _ & [=])]%eff_bind_inv.
  destruct (check_pending_inv _ _ _ _ Hp) as (r & _ & Hr & ->). case_bool_decide as Hn; [|done].
  injection H as <-. exists r. split; [done|]. by apply pending_nil.
Qed.

Lemma run_again_ok retries ms e w w' : run_again retries ms e w = (Ok tt, w') → all_applied ms w'.
Proof.
  revert e w. induction retries as [|retries IH]; intros e w; cbn; destruct (extract_all_modified_migration_versions e); [done..|done|].
  intros [(? & w1 & _ & H)|(? & _ & [=])]%eff_bind_inv. revert H. rewrite eff_bind_eq. unfold eff_try.
  destruct (migrator_run ms w1) as [[[]|e1] w2]; [apply verify_applied_ok|].
  destruct (str_contains modified_text e1); [apply IH|done].
Qed.

Lemma run_inner_ok ms w w' : run_migrations_inner ms w = (Ok tt, w') → all_applied ms w'.
Proof.
  unfold run_migrations_inner. intros [(pending & w1 & Hp & H)|(e & _ & [=])]%eff_bind_inv. revert H.
  case_bool_decide as Hn.
  { destruct (check_pending_inv _ _ _ _ Hp) as (r & _ & Hr & ->). intros [= <-]. exists r. split; [done|]. by apply pending_nil. }
  rewrite eff_bind_eq. unfold eff_try. destruct (migrator_run ms w1) as [[[]|e] w2]; [apply verify_applied_ok|].
  destruct (str_contains missing_text e); [done|]. destruct (str_contains modified_text e); [apply run_again_ok|done].
Qed.

Lemma create_migrator_ok retries dir entries w ms w' :
  (retries ≤ MAX_MIGRATOR_RETRIES)%nat →
  create_migrator retries dir entries w = (Ok ms, w') → ∃ attempt, (attempt ≤ MAX_MIGRATOR_RETRIES)%nat ∧ migrator_new dir attempt = Ok ms.
Proof.
  revert w. induction retries as [|retries IH]; intros w Hle; cbn [create_migrator];
    destruct (migrator_new dir _) as [ms'|e] eqn:Hnew; try by (intros [= <- <-]; eexists; split; [|exact Hnew]; lia).
  all: destruct (str_contains missing_text e); [done|]; destruct (str_contains modified_text e); [|done].
  { done. }
  destruct (extract_all_modified_migration_versions e); [done|].
  intros [(? & w1 & _ & H)|(? & _ & [=])]%eff_bind_inv. apply eff_bind_inv in H as [(? & w2 & _ & H)|(? & _ & [=])].
  apply (IH w2); [lia|done].
Qed.

Lemma create_migrator_first retries dir entries w ms :
  migrator_new dir (MAX_MIGRATOR_RETRIES - retries) = Ok ms → create_migrator retries dir entries w = (Ok ms, w).
Proof. destruct retries; cbn [create_migrator]; by intros ->. Qed.

(** Success means that the migrator was created and that each of its migrations has the
    record of a success, whatever statements failed and whatever the migrator did. *)
Theorem finished_migrations_are_recorded (dir : string) (entries : option (list DirEntry)) (test_mode : bool) w w' :
  run_migrations dir entries test_mode w = (Ok tt, w') →
  ∃ attempt ms records, (attempt ≤ MAX_MIGRATOR_RETRIES)%nat ∧ migrator_new dir attempt = Ok ms ∧ mw_records w' = Some records
    ∧ ∀ m, m ∈ ms → ∃ a, records !! version m = Some a ∧ ap_success a = true.
Proof.
  unfold run_migrations. intros [(? & w1 & _ & H)|(? & _ & [=])]%eff_bind_inv.
  apply eff_bind_inv in H as [(ms & w2 & Hnew & H)|(? & _ & [=])].
  destruct (create_migrator_ok _ _ _ _ _ _ (le_n _) Hnew) as (attempt & Hle & Hms).
  destruct (run_inner_ok _ _ _ H) as (records & Hr & Hall). exists attempt, ms, records. split_and!; [done..|].
  intros m Hm. rewrite Forall_forall in Hall. specialize (Hall m Hm). unfold succeeded in Hall.
  destruct (records !! version m) as [a|]; [eauto|done].
Qed.

(** A database that was never migrated stays so: the tool asks for the records before
    there can be any, and the migrator, which would make the table, is not run. *)
Theorem new_database_is_not_migrated (dir : string) (entries : option (list DirEntry)) (test_mode : bool) ms w :
  mw_outcomes w = [] → mw_records w = None → migrator_new dir 0 = Ok ms →
  run_migrations dir entries test_mode w = (Err (Unavailable "relation _sqlx_migrations does not exist"), w).
Proof.
  intros Ho Hr Hnew. destruct w as [records s o]. cbn in *. subst.
  set (w := {| mw_records := None; mw_schema := s; mw_outcomes := [] |}).
  assert (Hc : only_warn (cleanup_inconsistent_migrations entries) w = (Ok tt, w)) by done.
  pose proof (create_migrator_first MAX_MIGRATOR_RETRIES _ entries w _ Hnew) as Hm.
  unfold run_migrations. by rewrite (eff_bind_ok _ _ _ _ _ Hc), (eff_bind_ok _ _ _ _ _ Hm).
Qed.

(** *** What the migrator costs *)

Lemma on_records_schema {A} (f : gmap Z AppliedMigration → A * gmap Z AppliedMigration) w :
  mw_schema (on_records f w).2 = mw_schema w.
Proof. unfold on_records. destruct w as [[r|] s [|[e|] o]]; cbn; try done; by destruct (f r). Qed.

Section cost.
Context (cost : S → nat) (k : nat) (n0 : nat).

Definition costs (n : nat) {A} (m : migrating A) : Prop := ∀ w, (cost (mw_schema (m w).2) ≤ cost (mw_schema w) + n)%nat.

Lemma costs_bind n1 n2 {A B} (m : migrating A) (g : A → migrating B) :
  costs n1 m → (∀ a, costs n2 (g a)) → costs (n1 + n2) (m ≫= g).
Proof.
  intros Hm Hg w. rewrite eff_bind_eq. specialize (Hm w). destruct (m w) as [[a|e] w1]; cbn in *; [|lia].
  specialize (Hg a w1). lia.
Qed.

Lemma costs_weaken n1 n2 {A} (m : migrating A) : costs n1 m → (n1 ≤ n2)%nat → costs n2 m.
Proof. intros Hm Hle w. specialize (Hm w). lia. Qed.

Lemma costs_pure n {A} (m : migrating A) : (∀ w, (m w).2 = w) → costs n m.
Proof. intros Hm w. rewrite Hm. lia. Qed.

Lemma costs_statement n {A} (f : gmap Z AppliedMigration → A * gmap Z AppliedMigration) : costs n (on_records f).
Proof. intros w. rewrite on_records_schema. lia. Qed.

Lemma costs_try n {F A} (m : eff (MigrateWorld S) F A) :
  (∀ w, (cost (mw_schema (m w).2) ≤ cost (mw_schema w) + n)%nat) → costs n (eff_try m).
Proof. intros Hm w. specialize (Hm w). unfold eff_try. by destruct (m w). Qed.

Lemma costs_for_each {A} (body : A → migrating unit) l : (∀ a, costs 0 (body a)) → costs 0 (for_each body l).
Proof. intros Hb. induction l as [|a l IH]; cbn; [by apply costs_pure|]. by apply (costs_bind 0 0). Qed.

Lemma costs_delete v : costs 0 (delete_record v).
Proof. apply costs_statement. Qed.

Lemma costs_only_warn {A} (m : migrating A) : costs 0 m → costs 0 (only_warn m).
Proof. intros Hm. apply (costs_bind 0 0); [by apply costs_try|]. intros ?. by apply costs_pure. Qed.

Lemma costs_cleanup entries : costs 0 (cleanup_inconsistent_migrations entries).
Proof. apply (costs_bind 0 0); [apply costs_statement|]. intros ?. apply costs_for_each, costs_delete. Qed.

Lemma costs_check ms : costs 0 (check_pending_migrations ms).
Proof. apply (costs_bind 0 0); [apply costs_statement|]. intros ?. by apply costs_pure. Qed.

Lemma costs_verify ms : costs 0 (verify_applied ms).
Proof. apply (costs_bind 0 0); [apply costs_check|]. intros ?. case_bool_decide; by apply costs_pure. Qed.

Lemma costs_create retries dir entries : costs 0 (create_migrator retries dir entries).
Proof.
  induction retries as [|retries IH]; cbn [create_migrator]; case_match; repeat case_match; try by apply costs_pure.
  apply (costs_bind 0 0); [apply costs_for_each; intros ?; apply costs_only_warn, costs_delete|]. intros _.
  by apply (costs_bind 0 0); [apply costs_only_warn, costs_cleanup|].
Qed.

Context (Hrun : ∀ ms w, (cost (mw_schema (migrator_run ms w).2) ≤ cost (mw_schema w) + k)%nat).

Lemma costs_run_again retries ms e : costs (retries * k) (run_again retries ms e).
Proof.
  revert e. induction retries as [|retries IH]; intros e; cbn [run_again]; destruct (extract_all_modified_migration_versions e);
    try by apply costs_pure.
  apply (costs_bind 0); [apply costs_for_each, costs_delete|]. intros _.
  apply (costs_bind k); [apply costs_try, Hrun|]. intros [?|?]; [eapply costs_weaken; [apply costs_verify|lia]|].
  case_match; [apply IH|by apply costs_pure].
Qed.
End cost.

(** Whatever one run of the migrator adds to the database at most, the tool adds at most
    26 times as much: it runs the migrator once and 25 times again. *)
Theorem migrator_runs_bounded (cost : S → nat) (k : nat) (dir : string) (entries : option (list DirEntry)) (test_mode : bool) w :
  (∀ ms w, cost (mw_schema (migrator_run ms w).2) ≤ cost (mw_schema w) + k)%nat →
  (cost (mw_schema (run_migrations dir entries test_mode w).2) ≤ cost (mw_schema w) + 26 * k)%nat.
Proof.
  intros Hrun. revert w. enough (H : costs cost (26 * k) (run_migrations dir entries test_mode)) by exact H.
  apply (costs_bind cost 0); [apply costs_only_warn, costs_cleanup|]. intros _.
  apply (costs_bind cost 0); [apply costs_create|]. intros ms.
  apply (costs_bind cost 0); [apply costs_check|]. intros pending. case_bool_decide; [by apply costs_pure|].
  change (26 * k)%nat with (k + 25 * k)%nat.
  apply costs_bind; [apply costs_try, Hrun|]. intros [?|?]; [eapply costs_weaken; [apply costs_verify|lia]|].
  do 2 (case_match; [try by apply costs_pure|]); [|by apply costs_pure]. exact (costs_run_again cost k Hrun MAX_RUN_RETRIES ms _).
Qed.
End runs.

(** ** Migrations whose files changed *)

Section modified.
Context {S : Type} `{!Sqlx S}.
Implicit Types w : MigrateWorld S.
Implicit Types r : gmap Z AppliedMigration.

(** The records that have a file. *)
Definition with_file (entries : option (list DirEntry)) r : gmap Z AppliedMigration :=
  filter (λ '(v, _), v ∈ file_versions entries) r.

Lemma cleanup_run entries r w :
  migrated r w → cleanup_inconsistent_migrations entries w = (Ok tt, with_records (Some (with_file entries r)) w).
Proof.
  intros Hw. unfold cleanup_inconsistent_migrations, applied_versions.
  rewrite (eff_bind_ok _ _ _ _ _ (on_records_run _ _ _ Hw)). cbn. rewrite (with_records_same _ _ Hw).
  rewrite (delete_records_run _ _ _ Hw). do 3 f_equal. apply map_eq. intros i. apply option_eq. intros a. unfold without, with_file.
  rewrite !map_lookup_filter_Some, elem_of_list_filter_bool, elem_of_sort_by, negb_true_iff, bool_decide_eq_false.
  split; intros [Hi Hf]; (split; [done|]).
  - destruct (decide (i ∈ file_versions entries)) as [|Hn]; [done|]. destruct Hf. split; [|done].
    apply list_elem_of_fmap. exists (i, a). split; [done|]. by apply elem_of_map_to_list.
  - by intros [_ ?].
Qed.

Lemma run_migrations_start dir entries test_mode r w ms :
  migrated r w → migrator_new dir 0 = Ok ms →
  run_migrations dir entries test_mode w = run_migrations_inner ms (with_records (Some (with_file entries r)) w).
Proof.
  intros Hw Hnew. unfold run_migrations.
  assert (Hc : only_warn (cleanup_inconsistent_migrations entries) w = (Ok tt, with_records (Some (with_file entries r)) w)).
  { unfold only_warn. rewrite eff_bind_eq. unfold eff_try. by rewrite (cleanup_run _ _ _ Hw). }
  rewrite (eff_bind_ok _ _ _ _ _ Hc). apply eff_bind_ok. by apply create_migrator_first.
Qed.

(** When every migration has the record of a success, the tool only removes the records
    that have no file, and says that the database is up to date: whether the files are what
    was applied is not looked at. *)
Theorem up_to_date_ignores_contents (dir : string) (entries : option (list DirEntry)) (test_mode : bool) ms r w :
  mw_outcomes w = [] → mw_records w = Some r → migrator_new dir 0 = Ok ms →
  (∀ m, m ∈ ms → version m ∈ file_versions entries ∧ succeeded r (version m) = true) →
  run_migrations dir entries test_mode w = (Ok tt, with_records (Some (with_file entries r)) w).
Proof.
  intros Ho Hr Hnew Hall. assert (Hw : migrated r w) by done.
  rewrite (run_migrations_start _ _ _ _ _ _ Hw Hnew). unfold run_migrations_inner.
  rewrite (eff_bind_ok _ _ _ _ _ (check_pending_run _ _ _ (migrated_with _ _ _ Hw))).
  rewrite bool_decide_true; [done|]. apply pending_nil, Forall_forall. intros m Hm. destruct (Hall m Hm) as [Hf Hs].
  unfold succeeded, with_file in *. destruct (r !! version m) as [a|] eqn:Ha; [|done].
  by erewrite (proj2 (map_lookup_filter_Some _ _ _ _)).
Qed.

(** The file is what was applied; something else was. *)
Definition matching r (m : Migration) : bool :=
  match r !! version m with Some a => ap_success a && String.eqb (ap_checksum a) (checksum m) | None => false end.
Definition modified r (m : Migration) : bool :=
  match r !! version m with Some a => negb (String.eqb (ap_checksum a) (checksum m)) | None => false end.
(** What a run has to execute, in the end. *)
Definition outdated r (ms : list Migration) : list Migration := List.filter (λ m, negb (matching r m)) ms.

(** Records of successes, each with a file. *)
Definition known_records (ms : list Migration) r : Prop :=
  ∀ v a, r !! v = Some a → ap_success a = true ∧ ∃ m, m ∈ ms ∧ version m = v.

(** What [sqlx] documents of a run in which no statement of a migration fails: it executes
    migrations that have no record ([new]) and records them, and stops at a recorded
    migration with another checksum.  [executed] are the versions whose statements were
    executed. *)
Definition RunLaw (executed : S → list Z) : Prop := ∀ ms r w,
  migrated r w → NoDup (version <$> ms) → known_records ms r →
  ∃ result w' r' new, migrator_run ms w = (result, w') ∧ migrated r' w' ∧ known_records ms r' ∧ r ⊆ r' ∧ NoDup new
    ∧ executed (mw_schema w') = executed (mw_schema w) ++ (version <$> new)
    ∧ (∀ m, m ∈ new → m ∈ ms ∧ r !! version m = None ∧ matching r' m = true)
    ∧ (∀ v, is_Some (r' !! v) → is_Some (r !! v) ∨ v ∈ version <$> new)
    ∧ match result with
      | Ok _ => ∀ m, m ∈ ms → matching r' m = true
      | Err e => ∃ m, m ∈ ms ∧ modified r' m = true ∧ e = version_mismatch (version m)
      end.

Lemma matching_succeeded r m : matching r m = true → succeeded r (version m) = true.
Proof. unfold matching, succeeded. destruct (r !! version m); [|done]. by intros [? ?]%andb_true_iff. Qed.

Lemma modified_outdated r m : modified r m = true → matching r m = false.
Proof. unfold modified, matching. destruct (r !! version m); [|done]. intros ->%negb_true_iff. apply andb_false_r. Qed.

Lemma filter_ext_on {A} (p q : A → bool) l : (∀ x, x ∈ l → p x = q x) → List.filter p l = List.filter q l.
Proof. intros H. apply List.filter_ext_in. intros x Hx. apply H. by apply list_elem_of_In. Qed.

Lemma filter_no_more {A} (p q : A → bool) l :
  (∀ y, y ∈ l → p y = true → q y = true) → (length (List.filter p l) ≤ length (List.filter q l))%nat.
Proof.
  induction l as [|y l IH]; intros Hpq; [done|]. cbn. pose proof (Hpq y (list_elem_of_here _ _)) as Hy.
  specialize (IH (λ z Hz, Hpq z (list_elem_of_further _ _ _ Hz))).
  destruct (p y); [rewrite (Hy eq_refl)|destruct (q y)]; cbn; lia.
Qed.

Lemma filter_fewer {A} (p q : A → bool) l x :
  (∀ y, y ∈ l → p y = true → q y = true) → x ∈ l → p x = false → q x = true →
  (length (List.filter p l) < length (List.filter q l))%nat.
Proof.
  intros Hpq (l1 & l2 & ->)%list_elem_of_split Hp Hq. rewrite !List.filter_app, !length_app. cbn. rewrite Hp, Hq. cbn.
  pose proof (filter_no_more p q l1 ltac:(set_solver)). pose proof (filter_no_more p q l2 ltac:(set_solver)). lia.
Qed.

Section run_again.
Context (executed : S → list Z) (Hlaw : RunLaw executed) (ms : list Migration) (Hms : NoDup (version <$> ms)).

Lemma same_migration m m' : m ∈ ms → m' ∈ ms → version m = version m' → m = m'.
Proof.
  intros (i & Hi)%list_elem_of_lookup (j & Hj)%list_elem_of_lookup Hv.
  enough (i = j) by congruence. eapply (NoDup_lookup _ i j); [exact Hms|rewrite list_lookup_fmap, Hi; done|].
  by rewrite list_lookup_fmap, Hj, Hv.
Qed.

(** A run: what it executed and what is left are what was outdated before; what is
    modified stays so. *)
Lemma after_a_run r r' new :
  r ⊆ r' → NoDup new → (∀ m, m ∈ new → m ∈ ms ∧ r !! version m = None ∧ matching r' m = true) →
  (∀ v, is_Some (r' !! v) → is_Some (r !! v) ∨ v ∈ version <$> new) →
  outdated r ms ≡ₚ new ++ outdated r' ms ∧ List.filter (modified r') ms = List.filter (modified r) ms.
Proof.
  intros Hsub Hnd Hnew Honly.
  assert (Hsame : ∀ m, m ∈ ms → m ∉ new → r' !! version m = r !! version m).
  { intros m Hm Hn. destruct (r !! version m) as [a|] eqn:Ha; [by apply (lookup_weaken _ _ _ _ Ha)|].
    destruct (r' !! version m) as [a|] eqn:Ha'; [|done]. destruct (Honly (version m)) as [[? ?]|Hv]; [eauto|congruence|].
    apply list_elem_of_fmap in Hv as (m' & Hv & Hm'). destruct Hn. by rewrite (same_migration m m') by naive_solver. }
  assert (Hnd' : NoDup ms) by (eapply NoDup_fmap_1, Hms).
  split.
  - apply NoDup_Permutation.
    + by apply NoDup_ListNoDup, List.NoDup_filter, NoDup_ListNoDup.
    + apply NoDup_app. split_and!; [done| |by apply NoDup_ListNoDup, List.NoDup_filter, NoDup_ListNoDup].
      intros m Hm. unfold outdated. rewrite elem_of_list_filter_bool. destruct (Hnew m Hm) as (_ & _ & ->). by intros [_ [=]].
    + intros m. rewrite elem_of_app. unfold outdated. rewrite !elem_of_list_filter_bool, !negb_true_iff.
      destruct (decide (m ∈ new)) as [Hm|Hm].
      * destruct (Hnew m Hm) as (Hin & Hnone & _). split; [by left|]. intros _. split; [done|]. unfold matching. by rewrite Hnone.
      * split; [intros [Hin Hf]; right|intros [|[Hin Hf]]; [done|]]; (split; [done|]);
          revert Hf; unfold matching; by rewrite (Hsame m Hin Hm).
  - apply filter_ext_on. intros m Hm. destruct (decide (m ∈ new)) as [Hn|Hn].
    + destruct (Hnew m Hn) as (_ & Hnone & Hmatch). unfold modified at 2. rewrite Hnone.
      destruct (modified r' m) eqn:Hmod; [|done]. by rewrite (modified_outdated _ _ Hmod) in Hmatch.
    + unfold modified. by rewrite (Hsame m Hm Hn).
Qed.

(** What a run leaves of a problem without modified migrations is nothing. *)
Lemma verify_run r w : migrated r w → (∀ m, m ∈ ms → matching r m = true) → verify_applied ms w = (Ok tt, w).
Proof.
  intros Hw Hall. unfold verify_applied. rewrite (eff_bind_ok _ _ _ _ _ (check_pending_run _ _ _ Hw)).
  rewrite bool_decide_true; [done|]. apply pending_nil, Forall_forall. intros m Hm. by apply matching_succeeded, Hall.
Qed.

Lemma nothing_outdated r : (∀ m, m ∈ ms → matching r m = true) → outdated r ms = [].
Proof.
  intros Hall. unfold outdated. rewrite (filter_ext_on _ (λ _, false)).
  - clear. by induction ms.
  - intros m Hm. by rewrite Hall.
Qed.

Lemma version_mismatch_text v : str_contains modified_text (version_mismatch v) = true.
Proof. unfold version_mismatch. by do 2 apply str_contains_app_l. Qed.

(** The record of a modified migration is removed: it is outdated as before, and there is
    one modified migration less. *)
Lemma without_modified r m :
  m ∈ ms → modified r m = true → known_records ms r →
  known_records ms (without [version m] r) ∧ outdated (without [version m] r) ms = outdated r ms
  ∧ (length (List.filter (modified (without [version m] r)) ms) < length (List.filter (modified r) ms))%nat.
Proof.
  intros Hm Hmod Hk. set (r1 := without [version m] r).
  assert (Hgone : r1 !! version m = None).
  { apply map_lookup_filter_None. right. intros a _. rewrite list_elem_of_singleton. by intros []. }
  assert (Hother : ∀ m', m' ∈ ms → m' ≠ m → r1 !! version m' = r !! version m').
  { intros m' Hm' Hne. apply option_eq. intros a. unfold r1, without. rewrite map_lookup_filter_Some, list_elem_of_singleton.
    split; [by intros [? _]|]. intros Ha. split; [done|]. intros Hv. by apply Hne, same_migration. }
  split_and!.
  - intros v a [Ha _]%map_lookup_filter_Some. by apply Hk.
  - apply filter_ext_on. intros m' Hm'. f_equal. destruct (decide (m' = m)) as [->|Hne].
    + rewrite (modified_outdated _ _ Hmod). unfold matching. by rewrite Hgone.
    + unfold matching. by rewrite Hother.
  - apply (filter_fewer _ _ _ m); [|done| |done].
    + intros m' Hm'. destruct (decide (m' = m)) as [->|Hne]; [done|]. unfold modified. by rewrite Hother.
    + unfold modified. by rewrite Hgone.
Qed.

Context (Hversion : ∀ m, m ∈ ms → (0 ≤ version m < 2 ^ 63)%Z).

Lemma run_again_run retries r w m :
  migrated r w → known_records ms r → m ∈ ms → modified r m = true → (length (List.filter (modified r) ms) ≤ retries)%nat →
  ∃ w' r' l, run_again retries ms (version_mismatch (version m)) w = (Ok tt, w') ∧ migrated r' w'
    ∧ executed (mw_schema w') = executed (mw_schema w) ++ l ∧ l ≡ₚ version <$> outdated r ms
    ∧ (∀ m, m ∈ ms → matching r' m = true).
Proof.
  revert r w m. induction retries as [|retries IH]; intros r w m Hw Hk Hm Hmod Hle;
    destruct (without_modified r m Hm Hmod Hk) as (Hk1 & Hout1 & Hlt); [lia|].
  set (r1 := without [version m] r) in *. cbn [run_again]. rewrite extract_mismatch by auto.
  rewrite (eff_bind_ok _ _ _ _ _ (delete_records_run _ _ _ Hw)). fold r1.
  pose proof (migrated_with _ r1 _ Hw) as Hw1. set (w1 := with_records (Some r1) w) in *.
  destruct (Hlaw ms r1 w1 Hw1 Hms Hk1) as (result & w2 & r2 & new & Hrun & Hw2 & Hk2 & Hsub & Hnd & Hex & Hnew & Honly & Hres).
  destruct (after_a_run _ _ _ Hsub Hnd Hnew Honly) as [Hout2 Hmod2]. rewrite Hout1 in Hout2.
  rewrite eff_bind_eq. unfold eff_try. rewrite Hrun. destruct result as [[]|e].
  - exists w2, r2, (version <$> new). rewrite (verify_run _ _ Hw2 Hres). split_and!; [done..| |done].
    by rewrite Hout2, (nothing_outdated _ Hres), app_nil_r.
  - destruct Hres as (m2 & Hm2 & Hmod2' & ->). rewrite version_mismatch_text.
    destruct (IH r2 w2 m2 Hw2 Hk2 Hm2 Hmod2') as (w' & r' & l & Hr' & Hw' & Hex' & Hl & Hall); [rewrite Hmod2; lia|].
    exists w', r', ((version <$> new) ++ l). split_and!; [done..| | |done].
    + by rewrite Hex', Hex, <-app_assoc.
    + by rewrite Hout2, fmap_app, Hl.
Qed.
End run_again.

Lemma str_contains_skip a needle s t :
  no_char a s = true → str_contains (String a needle) (s +:+ t) = str_contains (String a needle) t.
Proof.
  unfold no_char. induction s as [|b s IH]; [done|]. cbn [str_forallb]. intros [Hb Hs]%andb_true_iff.
  rewrite string_app_cons. cbn [str_contains String.prefix]. destruct (ascii_dec a b) as [->|_]; [by rewrite Ascii.eqb_refl in Hb|].
  by rewrite IH.
Qed.

Lemma mismatch_not_missing v : (0 ≤ v < 2 ^ 63)%Z → str_contains missing_text (version_mismatch v) = false.
Proof.
  intros [Hd _]%version_digits. unfold version_mismatch, missing_text. rewrite str_contains_skip by done. rewrite str_contains_skip; [done|].
  eapply str_forallb_impl; [|exact Hd]. intros [[] [] [] [] [] [] [] []]; done.
Qed.

Lemma with_file_known entries ms r :
  known_records ms r → (∀ m, m ∈ ms → version m ∈ file_versions entries) → with_file entries r = r.
Proof. intros Hk Hf. apply map_filter_id. intros v a Ha. destruct (Hk v a Ha) as (_ & m & Hm & <-). by apply Hf. Qed.

(** When something is pending and at most 25 applied migrations have a changed file, the
    tool succeeds: every migration gets the record of its file, and what it executes are
    the pending migrations and, a second time, the changed ones. *)
Theorem modified_migrations_run_again (executed : S → list Z) (dir : string) (entries : option (list DirEntry))
    (test_mode : bool) ms r w :
  RunLaw executed → mw_outcomes w = [] → mw_records w = Some r → migrator_new dir 0 = Ok ms → NoDup (version <$> ms) →
  (∀ m, m ∈ ms → (0 ≤ version m < 2 ^ 63)%Z ∧ version m ∈ file_versions entries) → known_records ms r →
  (∃ m, m ∈ ms ∧ r !! version m = None) → (length (List.filter (modified r) ms) ≤ 25)%nat →
  ∃ w' r' l, run_migrations dir entries test_mode w = (Ok tt, w') ∧ mw_records w' = Some r'
    ∧ (∀ m, m ∈ ms → matching r' m = true)
    ∧ executed (mw_schema w') = executed (mw_schema w) ++ l ∧ l ≡ₚ version <$> outdated r ms.
Proof.
  intros Hlaw Ho Hr Hnew Hms Hv Hk (m0 & Hm0 & Hnone) Hle. assert (Hw : migrated r w) by done.
  rewrite (run_migrations_start _ _ _ _ _ _ Hw Hnew), (with_file_known _ ms) by naive_solver.
  rewrite (with_records_same _ _ Hw). unfold run_migrations_inner. rewrite (eff_bind_ok _ _ _ _ _ (check_pending_run _ _ _ Hw)).
  rewrite bool_decide_false.
  2:{ rewrite pending_nil, Forall_forall. intros Hall. specialize (Hall m0 Hm0). unfold succeeded in Hall. by rewrite Hnone in Hall. }
  destruct (Hlaw ms r w Hw Hms Hk) as (result & w2 & r2 & new & Hrun & Hw2 & Hk2 & Hsub & Hnd & Hex & Hnw & Honly & Hres).
  destruct (after_a_run ms Hms _ _ _ Hsub Hnd Hnw Honly) as [Hout Hmod].
  rewrite eff_bind_eq. unfold eff_try. rewrite Hrun. destruct result as [[]|e].
  - exists w2, r2, (version <$> new). rewrite (verify_run _ _ _ Hw2 Hres). split_and!; [done|by apply Hw2|done..|].
    by rewrite Hout, (nothing_outdated _ _ Hres), app_nil_r.
  - destruct Hres as (m & Hm & Hmod2 & ->). rewrite (mismatch_not_missing _ (proj1 (Hv m Hm))), version_mismatch_text.
    destruct (run_again_run executed Hlaw ms Hms (λ m Hm, proj1 (Hv m Hm)) MAX_RUN_RETRIES r2 w2 m) as (w' & r' & l & Hr' & Hw' & Hex' & Hl & Hall);
      [done..|by rewrite Hmod|].
    exists w', r', ((version <$> new) ++ l). split_and!; [done|by apply Hw'|done| |].
    + by rewrite Hex', Hex, <-app_assoc.
    + by rewrite Hout, fmap_app, Hl.
Qed.
End modified.

(** ** A reference migrator *)

Definition record_of (m : Migration) : AppliedMigration :=
  {| ap_description := description m; ap_success := true; ap_checksum := checksum m |}.

(** The migrations in order: recorded ones are compared, the others executed and recorded. *)
Fixpoint apply_in_order (ms : list Migration) (r : gmap Z AppliedMigration) (log : list Z) : Result string unit * (gmap Z AppliedMigration * list Z) :=
  match ms with
  | [] => (Ok tt, (r, log))
  | m :: ms =>
      match r !! version m with
      | Some a =>
          if String.eqb (ap_checksum a) (checksum m) then apply_in_order ms r log
          else (Err (version_mismatch (version m)), (r, log))
      | None => apply_in_order ms (<[version m := record_of m]> r) (log ++ [version m])
      end
  end.

Definition missing_version (ms : list Migration) (r : gmap Z AppliedMigration) : option Z :=
  List.find (λ v, negb (bool_decide (v ∈ version <$> ms))) (map_to_list r).*1.

Definition reference_run (ms : list Migration) : eff (MigrateWorld (list Z)) string unit := λ w,
  let r := default ∅ (mw_records w) in
  match missing_version ms r with
  | Some v => (Err ("migration " +:+ pretty v +:+ " was previously applied but is missing in the resolved migrations"), with_records (Some r) w)
  | None =>
      let '(result, (r, log)) := apply_in_order ms r (mw_schema w) in
      (result, {| mw_records := Some r; mw_schema := log; mw_outcomes := mw_outcomes w |})
  end.

Definition reference_sqlx (ms : list Migration) : Sqlx (list Z) :=
  {| migrator_new := λ _ _, Ok ms; migrator_run := reference_run |}.

Lemma matching_weaken r r' m : r ⊆ r' → matching r m = true → matching r' m = true.
Proof. intros Hsub. unfold matching. destruct (r !! version m) as [a|] eqn:Ha; [|done]. by rewrite (lookup_weaken _ _ _ _ Ha Hsub). Qed.

Lemma apply_in_order_law ms r log result r' log' :
  apply_in_order ms r log = (result, (r', log')) → NoDup (version <$> ms) → (∀ v a, r !! v = Some a → ap_success a = true) →
  ∃ new, r ⊆ r' ∧ NoDup new ∧ log' = log ++ (version <$> new) ∧ (∀ v a, r' !! v = Some a → ap_success a = true)
    ∧ (∀ m, m ∈ new → m ∈ ms ∧ r !! version m = None ∧ matching r' m = true)
    ∧ (∀ v, is_Some (r' !! v) → is_Some (r !! v) ∨ v ∈ version <$> new)
    ∧ match result with
      | Ok _ => ∀ m, m ∈ ms → matching r' m = true
      | Err e => ∃ m, m ∈ ms ∧ modified r' m = true ∧ e = version_mismatch (version m)
      end.
Proof.
  revert r log. induction ms as [|m ms IH]; intros r log; cbn [apply_in_order fmap list_fmap].
  { intros [= <- <- <-] _ Hs. exists []. rewrite app_nil_r. split_and!; [done|constructor|done..| | |]; try by intros ? ?%elem_of_nil. by left. }
  destruct (r !! version m) as [a|] eqn:Ha.
  - destruct (String.eqb (ap_checksum a) (checksum m)) eqn:Hc.
    + intros Hrun [Hm Hms]%NoDup_cons Hs. destruct (IH _ _ Hrun Hms Hs) as (new & Hsub & Hnd & Hlog & Hs' & Hnew & Honly & Hres).
      exists new. split_and!; [done..| |done|].
      { intros m' Hm'. destruct (Hnew m' Hm') as (? & ? & ?). split_and!; [by right|done..]. }
      destruct result; [|destruct Hres as (m' & ? & ? & ?); exists m'; split_and!; [by right|done..]].
      intros m' [->|Hm']%elem_of_cons; [|by apply Hres]. apply (matching_weaken r); [done|]. unfold matching. by rewrite Ha, Hc, (Hs _ _ Ha).
    + intros [= <- <- <-] _ Hs. exists []. rewrite app_nil_r. split_and!; [done|constructor|done..| | |].
      * by intros ? ?%elem_of_nil.
      * by left.
      * exists m. split_and!; [by left| |done]. unfold modified. by rewrite Ha, Hc.
  - intros Hrun [Hm Hms]%NoDup_cons Hs.
    destruct (IH _ _ Hrun Hms) as (new & Hsub & Hnd & Hlog & Hs' & Hnew & Honly & Hres).
    { intros v a [[_ <-]|[_ Hv]]%lookup_insert_Some; [done|by eapply Hs]. }
    assert (Hfirst : matching r' m = true).
    { apply (matching_weaken (<[version m := record_of m]> r)); [done|]. unfold matching. rewrite lookup_insert_eq. cbn. apply String.eqb_refl. }
    exists (m :: new). split_and!.
    + etrans; [|exact Hsub]. by apply insert_subseteq.
    + constructor; [|done]. intros Hin. apply Hm, list_elem_of_fmap. exists m. split; [done|]. by destruct (Hnew m Hin).
    + by rewrite Hlog, <-app_assoc.
    + done.
    + intros m' [->|Hm']%elem_of_cons; [split_and!; [by left|done..]|]. destruct (Hnew m' Hm') as (Hin & Hnone & Hmatch).
      apply lookup_insert_None in Hnone as [Hnone _]. split_and!; [by right|done..].
    + intros v Hv. destruct (Honly v Hv) as [Hi|Hi]; [|right; by right].
      destruct (decide (v = version m)) as [->|Hne]; [right; by left|]. left. by rewrite lookup_insert_ne in Hi.
    + destruct result; [intros m' [->|Hm']%elem_of_cons; [done|by apply Hres]|].
      destruct Hres as (m' & ? & ? & ?); exists m'; split_and!; [by right|done..].
Qed.

Lemma reference_run_law ms : RunLaw (S := list Z) (Sqlx0 := reference_sqlx ms) (λ log, log).
Proof.
  intros ms' r w [Ho Hr] Hms Hk. cbn [migrator_run reference_sqlx]. unfold reference_run. rewrite Hr. change (default ∅ (Some r)) with r. cbv zeta.
  assert (Hnone : missing_version ms' r = None).
  { destruct (missing_version ms' r) as [v|] eqn:Hv; [|done]. apply List.find_some in Hv as [Hin Hv].
    apply list_elem_of_In, list_elem_of_fmap in Hin as ([v' a] & -> & Hin). apply elem_of_map_to_list in Hin.
    destruct (Hk _ _ Hin) as (_ & m & Hm & Heq). cbn in Hv. rewrite bool_decide_true in Hv; [done|]. apply list_elem_of_fmap. eauto. }
  rewrite Hnone. destruct (apply_in_order ms' r (mw_schema w)) as [result [r' log']] eqn:Hrun.
  destruct (apply_in_order_law _ _ _ _ _ _ Hrun Hms (λ v a Hv, proj1 (Hk v a Hv))) as (new & Hsub & Hnd & Hlog & Hs & Hnew & Honly & Hres).
  exists result. eexists. exists r', new. split_and!; [done|by split| |done..].
  intros v a Hv. split; [by eapply Hs|]. destruct (Honly v) as [[b Hb]|Hb]; [eauto|by eapply Hk|].
  apply list_elem_of_fmap in Hb as (m & -> & Hm). exists m. split; [|done]. by apply Hnew.
Qed.

(** ** Witnesses *)

Definition sample_migration (v : Z) (text : string) : Migration := {| version := v; description := text; checksum := text |}.
Definition sample_migrations : list Migration :=
  [sample_migration 20250101 "publishers"; sample_migration 20250102 "buyers"; sample_migration 20250103 "leads"].
Definition sample_entry (name : string) : DirEntry := {| de_name := Some name; de_is_file := true |}.
Definition sample_entries : option (list DirEntry) :=
  Some (sample_entry <$> ["20250101_publishers.sql"; "20250102_buyers.sql"; "20250103_leads.sql"; ".gitkeep"]).
Definition sample_record (text : string) : AppliedMigration := {| ap_description := text; ap_success := true; ap_checksum := text |}.
(** The first file was changed after it was applied; the last one is new. *)
Definition sample_records : gmap Z AppliedMigration :=
  {[ 20250101%Z := sample_record "publishers, as they were"; 20250102%Z := sample_record "buyers" ]}.
Definition sample_migrate_world (records : option (gmap Z AppliedMigration)) : MigrateWorld (list Z) :=
  {| mw_records := records; mw_schema := [20250101; 20250102]%Z; mw_outcomes := [] |}.
Definition sample_sqlx : Sqlx (list Z) := reference_sqlx sample_migrations.

(** The first migration is executed again. *)
Example sample_run :
  mw_schema (run_migrations (Sqlx0 := sample_sqlx) "migrations" sample_entries false (sample_migrate_world (Some sample_records))).2
  = [20250101; 20250102; 20250101; 20250103]%Z.
Proof. vm_compute. reflexivity. Qed.

Lemma finished_migrations_are_recorded_witness :
  ∃ w', run_migrations (Sqlx0 := sample_sqlx) "migrations" sample_entries false (sample_migrate_world (Some sample_records)) = (Ok tt, w')
    ∧ ∃ attempt ms records, (attempt ≤ MAX_MIGRATOR_RETRIES)%nat ∧ migrator_new (Sqlx := sample_sqlx) "migrations" attempt = Ok ms
      ∧ mw_records w' = Some records ∧ ∀ m, m ∈ ms → ∃ a, records !! version m = Some a ∧ ap_success a = true.
Proof.
  eexists. assert (Hrun : run_migrations (Sqlx0 := sample_sqlx) "migrations" sample_entries false (sample_migrate_world (Some sample_records))
    = (Ok tt, (run_migrations (Sqlx0 := sample_sqlx) "migrations" sample_entries false (sample_migrate_world (Some sample_records))).2))
    by (vm_compute; reflexivity).
  exact (conj Hrun (finished_migrations_are_recorded (Sqlx0 := sample_sqlx) "migrations" sample_entries false _ _ Hrun)).
Defined.

Lemma new_database_is_not_migrated_witness :
  run_migrations (Sqlx0 := sample_sqlx) "migrations" sample_entries false (sample_migrate_world None)
  = (Err (Unavailable "relation _sqlx_migrations does not exist"), sample_migrate_world None).
Proof. by apply (new_database_is_not_migrated (Sqlx0 := sample_sqlx) "migrations" sample_entries false sample_migrations). Defined.

(** A migrator that always finds the first migration modified: it is run 26 times. *)
Definition stubborn_sqlx : Sqlx nat := {|
  migrator_new := λ _ _, Ok sample_migrations;
  migrator_run := λ _ w, (Err (version_mismatch 20250101),
    {| mw_records := mw_records w; mw_schema := Datatypes.S (mw_schema w); mw_outcomes := mw_outcomes w |}) |}.
Definition stubborn_world : MigrateWorld nat := {| mw_records := Some sample_records; mw_schema := 0%nat; mw_outcomes := [] |}.

Lemma migrator_runs_bounded_witness :
  let run := run_migrations (Sqlx0 := stubborn_sqlx) "migrations" sample_entries false stubborn_world in
  run.1 = Err (RetriesExhausted (version_mismatch 20250101)) ∧ mw_schema run.2 = 26%nat ∧ (mw_schema run.2 ≤ 0 + 26 * 1)%nat.
Proof.
  intros run. split; [vm_compute; reflexivity|]. split; [vm_compute; reflexivity|].
  apply (migrator_runs_bounded (Sqlx0 := stubborn_sqlx) (λ n, n) 1 "migrations" sample_entries false stubborn_world).
  intros ms w. cbn. lia.
Defined.

Definition applied_records : gmap Z AppliedMigration :=
  <[20250103%Z := sample_record "leads"]> (<[20250104%Z := sample_record "removed"]> sample_records).

Lemma up_to_date_ignores_contents_witness :
  modified applied_records (sample_migration 20250101 "publishers") = true ∧
  run_migrations (Sqlx0 := sample_sqlx) "migrations" sample_entries false (sample_migrate_world (Some applied_records))
  = (Ok tt, with_records (Some (with_file sample_entries applied_records)) (sample_migrate_world (Some applied_records))).
Proof.
  split; [vm_compute; reflexivity|].
  apply (up_to_date_ignores_contents (Sqlx0 := sample_sqlx) "migrations" sample_entries false sample_migrations applied_records); [done..|].
  assert (H : Forall (λ m, version m ∈ file_versions sample_entries ∧ succeeded applied_records (version m) = true) sample_migrations).
  { repeat constructor; try (vm_compute; reflexivity); apply (bool_decide_unpack _); vm_compute; done. }
  by apply Forall_forall.
Defined.

Lemma modified_migrations_run_again_witness :
  ∃ w' r' l, run_migrations (Sqlx0 := sample_sqlx) "migrations" sample_entries false (sample_migrate_world (Some sample_records)) = (Ok tt, w')
    ∧ mw_records w' = Some r' ∧ (∀ m, m ∈ sample_migrations → matching r' m = true)
    ∧ mw_schema w' = [20250101; 20250102]%Z ++ l ∧ l ≡ₚ version <$> outdated sample_records sample_migrations.
Proof.
  apply (modified_migrations_run_again (Sqlx0 := sample_sqlx) (λ log, log) "migrations" sample_entries false sample_migrations sample_records
           (sample_migrate_world (Some sample_records))).
  - apply reference_run_law.
  - done.
  - done.
  - done.
  - apply (bool_decide_unpack _). vm_compute. done.
  - assert (H : Forall (λ m, (0 ≤ version m < 2 ^ 63)%Z ∧ version m ∈ file_versions sample_entries) sample_migrations).
    { repeat (apply Forall_cons; split; [split; [split; vm_compute; done|]; apply (bool_decide_unpack _); vm_compute; done|]). constructor. }
    by apply Forall_forall.
  - intros v a Hv. unfold sample_records in Hv. apply lookup_insert_Some in Hv as [[<- <-]|[_ Hv]].
    + split; [done|]. exists (sample_migration 20250101 "publishers"). split; [member|done].
    + apply lookup_singleton_Some in Hv as [<- <-]. split; [done|]. exists (sample_migration 20250102 "buyers"). split; [member|done].
  - exists (sample_migration 20250103 "leads"). split; [member|]. vm_compute. reflexivity.
  - vm_compute. lia.
Defined.
