(* ===== verification/Cleanup.v ===== *)
(** * Clean-up of an instance

    [crates/utils/src/bin/cleanup-instance-data.rs]: the operators' tool that deletes all
    data of a user's instances, and of test users and test publishers.  Its statements name
    tables and columns, so the database here is any set of named tables of rows; what a
    [DELETE] does beyond the rows of its table, by foreign keys, is a parameter with laws
    ([Deletion]).  The tool works in transactions: a statement that fails aborts the
    transaction, and the commit of an aborted transaction is a rollback that succeeds. *)

From stdpp Require Import base list strings gmap.
From Stdlib Require Import Ascii String ZArith Lia.
From S2P Require Import Prelude Float64 Platform Json Models Store Cache LeadReports.

Open Scope string_scope.
Open Scope list_scope.
Local Abbreviation length := List.length.

(** ** Data *)

(** A row by column; a column that is not there is NULL. *)
Inductive Cell : Type := Id (u : Uuid) | Text (s : string).
Abbreviation DbRow := (gmap string Cell).
Abbreviation Tables := (gmap string (list DbRow)).

(** The database: what is committed, the tables as the open transaction sees them, whether
    it is aborted, and what the next statements will do. *)
Record CleanWorld : Type := {
  cw_db : Tables;
  cw_tx : Tables;
  cw_aborted : bool;
  cw_outcomes : list (option string)
}.

Inductive CleanError : Type := Sql (e : string) | LoopCut.

(** What the database does to [DELETE FROM t WHERE p]. *)
Class Deletion : Type := { deletion : string → (DbRow → bool) → Tables → Result string Tables }.

(** How the tool ends. *)
Record CleanSummary : Type := {
  leads_deleted : nat; publishers_deleted : nat; buyers_deleted : nat; campaigns_deleted : nat; ping_trees_deleted : nat
}.
Inductive CleanEnd : Type :=
  | UserNotFound
  | NoInstances
  | AlreadyClean
  | NotConfirmed
  | Cleaned (deleted : CleanSummary) (remaining : CleanSummary) (test_deleted : option nat).

Definition BATCH_SIZE : nat := 1000.

(** The tables with a [lead_id] that are emptied before the leads. *)
Definition lead_children : list string := [
  "lead_sales"; "lead_revenues"; "lead_accounting"; "lead_audit_log"; "lead_consents"; "lead_ip_addresses"; "lead_retries";
  "pulsar_decision_logs"; "fbcapi_events"; "pii_access_logs"; "ping_payloads"; "post_payloads"; "pings"; "posts"].

Definition test_email_patterns : list string := ["%@test.invalid"; "%@example.com"; "%test%@test.%"; "test_%@%"].
Definition test_publisher_patterns : list string := ["%@test.invalid"; "%@example.com"; "test_%@%"; "publisher_%@%"].

(** ** Rows *)

Definition cell_id (c : option Cell) : option Uuid := match c with Some (Id u) => Some u | _ => None end.
Definition cell_text (c : option Cell) : option string := match c with Some (Text s) => Some s | _ => None end.

(** [col = ANY(ids)]. *)
Definition among (col : string) (ids : list Uuid) (r : DbRow) : bool :=
  match cell_id (r !! col) with Some u => bool_decide (u ∈ ids) | None => false end.

Definition rows_of (t : string) (db : Tables) : list DbRow := default [] (db !! t).

(** [SELECT key FROM t WHERE p]. *)
Definition keys_where (key t : string) (p : DbRow → bool) (db : Tables) : list Uuid :=
  omap (λ r, cell_id (r !! key)) (List.filter p (rows_of t db)).

(** The publishers a lead is joined with, of the instances. *)
Definition lead_of_instances (ids : list Uuid) (db : Tables) (lead : DbRow) : list DbRow :=
  match cell_id (lead !! "publisher_id") with
  | None => []
  | Some publisher => List.filter (λ p, bool_decide (cell_id (p !! "id") = Some publisher) && among "instance_id" ids p) (rows_of "publishers" db)
  end.

(** [leads l INNER JOIN publishers p ON l.publisher_id = p.id WHERE p.instance_id = ANY($1)]:
    a lead for each publisher it is joined with. *)
Definition joined_leads (ids : list Uuid) (db : Tables) : list DbRow :=
  lead ← rows_of "leads" db; const lead <$> lead_of_instances ids db lead.

Section cleanup.
Context `{ReportLib, Deletion}.
Abbreviation cleaning := (eff CleanWorld CleanError).

(** ** Statements *)

Definition set_clean_outcomes (o : list (option string)) (w : CleanWorld) : CleanWorld :=
  {| cw_db := cw_db w; cw_tx := cw_tx w; cw_aborted := cw_aborted w; cw_outcomes := o |}.
Definition abort_tx (w : CleanWorld) : CleanWorld :=
  {| cw_db := cw_db w; cw_tx := cw_tx w; cw_aborted := true; cw_outcomes := cw_outcomes w |}.
Definition with_tx (tx : Tables) (w : CleanWorld) : CleanWorld :=
  {| cw_db := cw_db w; cw_tx := tx; cw_aborted := cw_aborted w; cw_outcomes := cw_outcomes w |}.

(** A query on tables, which fails when one of them is not there. *)
Definition no_relation (t : string) : string := "relation " +:+ t +:+ " does not exist".
Definition query {A} (ts : list string) (f : Tables → A) (db : Tables) : Result string A :=
  match List.find (λ t, negb (bool_decide (is_Some (db !! t)))) ts with
  | Some t => Err (no_relation t)
  | None => Ok (f db)
  end.

(** A query outside the transactions. *)
Definition on_pool {A} (ts : list string) (f : Tables → A) : cleaning A := λ w,
  match cw_outcomes w with
  | Some e :: rest => (Err (Sql e), set_clean_outcomes rest w)
  | outcomes => (map_err Sql (query ts f (cw_db w)), set_clean_outcomes (tail outcomes) w)
  end.

(** A statement of the transaction: an error aborts it, after which all fail. *)
Definition on_tx {A} (f : Tables → Result string (A * Tables)) : cleaning A := λ w,
  match cw_outcomes w with
  | Some e :: rest => (Err (Sql e), abort_tx (set_clean_outcomes rest w))
  | outcomes =>
      let w := set_clean_outcomes (tail outcomes) w in
      if cw_aborted w then (Err (Sql "current transaction is aborted, commands ignored until end of transaction block"), w)
      else match f (cw_tx w) with
           | Err e => (Err (Sql e), abort_tx w)
           | Ok (a, tx) => (Ok a, with_tx tx w)
           end
  end.

Definition begin_tx : cleaning unit := λ w,
  match cw_outcomes w with
  | Some e :: rest => (Err (Sql e), set_clean_outcomes rest w)
  | outcomes => (Ok tt, {| cw_db := cw_db w; cw_tx := cw_db w; cw_aborted := false; cw_outcomes := tail outcomes |})
  end.

(** [COMMIT], which the database answers with a rollback when the transaction is aborted. *)
Definition commit_tx : cleaning unit := λ w,
  match cw_outcomes w with
  | Some e :: rest => (Err (Sql e), set_clean_outcomes rest w)
  | outcomes =>
      (Ok tt, {| cw_db := if cw_aborted w then cw_db w else cw_tx w; cw_tx := cw_tx w; cw_aborted := cw_aborted w;
                 cw_outcomes := tail outcomes |})
  end.

(** What is done between [BEGIN] and [COMMIT]; leaving early with an error rolls back. *)
Definition in_transaction {A} (body : cleaning A) : cleaning A :=
  _ ← begin_tx; a ← body; _ ← commit_tx; mret a.

(** A query of the transaction. *)
Definition select {A} (ts : list string) (f : Tables → A) : cleaning A :=
  on_tx (λ tx, found ← query ts f tx; mret (found, tx)).
Definition select_keys (key t : string) (p : DbRow → bool) : cleaning (list Uuid) := select [t] (keys_where key t p).

(** [DELETE FROM t WHERE p]: how many rows. *)
Definition deleting (t : string) (p : DbRow → bool) (tx : Tables) : Result string (nat * Tables) :=
  count ← query [t] (λ tx, length (List.filter p (rows_of t tx))) tx;
  tx ← deletion t p tx;
  mret (count, tx).
Definition delete_where (t : string) (p : DbRow → bool) : cleaning nat := on_tx (deleting t p).
Definition delete_any (t col : string) (ids : list Uuid) : cleaning nat := delete_where t (among col ids).

(** [SELECT EXISTS (SELECT FROM information_schema.tables ...)] with [.unwrap_or(false)]. *)
Definition table_exists (t : string) : cleaning bool :=
  found ← eff_try (on_tx (λ tx, Ok (bool_decide (is_Some (tx !! t)), tx)));
  mret (result_or false found).

(** A deletion from a table that may not be there. *)
Definition delete_if_exists (t col : string) (ids : list Uuid) : cleaning nat :=
  there ← table_exists t;
  if (there : bool) then delete_any t col ids else mret 0%nat.

(** ** What is there *)

Definition find_user (email : string) (db : Tables) : option Uuid :=
  user ← List.find (λ r, bool_decide (db_lower <$> cell_text (r !! "email") = Some (db_lower email))) (rows_of "instance_users" db);
  cell_id (user !! "id").

Definition instances_of (user : Uuid) (db : Tables) : list Uuid :=
  keys_where "id" "instances" (among "instance_user_id" [user]) db.

Definition count_in (t : string) (ids : list Uuid) (db : Tables) : nat :=
  length (List.filter (among "instance_id" ids) (rows_of t db)).

Definition count_records (ids : list Uuid) : cleaning CleanSummary :=
  leads ← on_pool ["leads"; "publishers"] (λ db, length (joined_leads ids db));
  publishers ← on_pool ["publishers"] (count_in "publishers" ids);
  buyers ← on_pool ["buyers"] (count_in "buyers" ids);
  campaigns ← on_pool ["campaigns"] (count_in "campaigns" ids);
  ping_trees ← on_pool ["ping_trees"] (count_in "ping_trees" ids);
  mret {| leads_deleted := leads; publishers_deleted := publishers; buyers_deleted := buyers;
          campaigns_deleted := campaigns; ping_trees_deleted := ping_trees |}.

Definition no_records (s : CleanSummary) : bool :=
  (leads_deleted s =? 0)%nat && (publishers_deleted s =? 0)%nat && (buyers_deleted s =? 0)%nat
  && (campaigns_deleted s =? 0)%nat && (ping_trees_deleted s =? 0)%nat.

(** ** The steps *)

Definition delete_children (ids : list Uuid) : cleaning unit :=
  for_each (λ t, _ ← delete_if_exists t "lead_id" ids; mret tt) lead_children.

(** Step 1. *)
Definition delete_lead_children (instance_ids : list Uuid) : cleaning unit :=
  lead_ids ← select ["leads"; "publishers"] (λ tx, omap (λ r, cell_id (r !! "uuid")) (joined_leads instance_ids tx));
  for_each delete_children (chunks BATCH_SIZE lead_ids).

(** Step 2: the loop, with fuel. *)
Fixpoint delete_leads (fuel : nat) (instance_ids : list Uuid) (deleted : nat) : cleaning nat :=
  match fuel with
  | O => eff_err LoopCut
  | S fuel =>
      batch ← select ["leads"; "publishers"] (λ tx, omap (λ r, cell_id (r !! "uuid")) (take 1000 (joined_leads instance_ids tx)));
      match batch with
      | [] => mret deleted
      | _ => n ← delete_any "leads" "uuid" batch; delete_leads fuel instance_ids (deleted + n)
      end
  end.

(** Steps 3 and 4. *)
Definition delete_legacy_integrations (buyer_ids campaign_ids : list Uuid) : cleaning unit :=
  there ← table_exists "legacy_integrations";
  if there && (negb (bool_decide (buyer_ids = [])) || negb (bool_decide (campaign_ids = []))) then
    _ ← (if bool_decide (buyer_ids = []) then mret 0%nat else delete_any "legacy_integrations" "buyer_id" buyer_ids);
    _ ← (if bool_decide (campaign_ids = []) then mret 0%nat else delete_any "legacy_integrations" "campaign_id" campaign_ids);
    mret tt
  else mret tt.

(** Step 10. *)
Definition delete_buyer_children (buyer_ids : list Uuid) : cleaning unit :=
  exists_buyer_zip_lists ← table_exists "buyer_zip_lists";
  buyer_zip_list_ids ← (if (exists_buyer_zip_lists : bool) then select_keys "id" "buyer_zip_lists" (among "buyer_id" buyer_ids) else mret []);
  _ ← (if bool_decide (buyer_zip_list_ids = []) then mret 0%nat
       else delete_if_exists "buyer_zip_codes" "buyer_zip_list_id" buyer_zip_list_ids);
  _ ← (if (exists_buyer_zip_lists : bool) then delete_any "buyer_zip_lists" "buyer_id" buyer_ids else mret 0%nat);
  _ ← delete_if_exists "buyer_integration_credentials" "buyer_id" buyer_ids;
  _ ← delete_if_exists "buyer_qualification_configs" "buyer_id" buyer_ids;
  mret tt.

(** The rows of a table that belong to the instances. *)
Definition own_ids (t : string) (instance_ids : list Uuid) : cleaning (list Uuid) :=
  select_keys "id" t (among "instance_id" instance_ids).

(** Steps 3 to 12. *)
Definition delete_configuration (instance_ids : list Uuid) (deleted_leads : nat) : cleaning CleanSummary :=
  campaign_ids ← own_ids "campaigns" instance_ids;
  ping_tree_ids ← own_ids "ping_trees" instance_ids;
  buyer_ids ← own_ids "buyers" instance_ids;
  _ ← delete_legacy_integrations buyer_ids campaign_ids;
  _ ← delete_any "ping_tree_campaigns" "ping_tree_id" ping_tree_ids;
  deleted_campaigns ← delete_any "campaigns" "id" campaign_ids;
  deleted_ping_trees ← delete_any "ping_trees" "id" ping_tree_ids;
  publisher_ids ← own_ids "publishers" instance_ids;
  _ ← delete_if_exists "api_keys" "publisher_id" publisher_ids;
  _ ← delete_buyer_children buyer_ids;
  deleted_buyers ← delete_if_exists "buyers" "id" buyer_ids;
  deleted_publishers ← delete_if_exists "publishers" "id" publisher_ids;
  mret {| leads_deleted := deleted_leads; publishers_deleted := deleted_publishers; buyers_deleted := deleted_buyers;
          campaigns_deleted := deleted_campaigns; ping_trees_deleted := deleted_ping_trees |}.

(** The whole transaction; [fuel] is for the loop of step 2. *)
Definition delete_instance_data (fuel : nat) (instance_ids : list Uuid) : cleaning CleanSummary := in_transaction (
  _ ← delete_lead_children instance_ids;
  deleted_leads ← delete_leads fuel instance_ids 0;
  delete_configuration instance_ids deleted_leads).

(** ** Test data *)

(** [email LIKE $1 AND LOWER(email) != LOWER($2)]. *)
Definition is_test_user (pattern email : string) (r : DbRow) : bool :=
  match cell_text (r !! "email") with
  | Some e => sql_like pattern e && negb (bool_decide (db_lower e = db_lower email))
  | None => false
  end.

(** The instances of the user himself, as the query on publishers has them. *)
Definition own_instances (email : string) (tx : Tables) : list Uuid :=
  keys_where "id" "instances"
    (among "instance_user_id" (keys_where "id" "instance_users"
       (λ r, bool_decide (db_lower <$> cell_text (r !! "email") = Some (db_lower email))) tx)) tx.

(** [p.email LIKE $1 AND (p.instance_id IS NULL OR p.instance_id NOT IN (...))]. *)
Definition is_test_publisher (pattern email : string) (tx : Tables) (r : DbRow) : bool :=
  match cell_text (r !! "email") with
  | Some e => sql_like pattern e && negb (among "instance_id" (own_instances email tx) r)
  | None => false
  end.

Definition delete_test_instances (test_instance_ids : list Uuid) : cleaning unit :=
  _ ← on_tx (λ tx, publishers ← query ["publishers"] (keys_where "id" "publishers" (among "instance_id" test_instance_ids)) tx;
                   deleting "leads" (among "publisher_id" publishers) tx);
  _ ← delete_any "publishers" "instance_id" test_instance_ids;
  _ ← delete_any "buyers" "instance_id" test_instance_ids;
  _ ← delete_any "campaigns" "instance_id" test_instance_ids;
  _ ← delete_any "ping_trees" "instance_id" test_instance_ids;
  _ ← delete_any "instances" "id" test_instance_ids;
  mret tt.

Definition delete_test_users (email pattern : string) (count : nat) : cleaning nat :=
  test_users ← select_keys "id" "instance_users" (is_test_user pattern email);
  if bool_decide (test_users = []) then mret count
  else
    test_instance_ids ← select_keys "id" "instances" (among "instance_user_id" test_users);
    _ ← (if bool_decide (test_instance_ids = []) then mret tt else delete_test_instances test_instance_ids);
    _ ← delete_any "webauthn_credentials" "instance_user_id" test_users;
    _ ← delete_any "user_otp_settings" "instance_user_id" test_users;
    deleted ← delete_any "instance_users" "id" test_users;
    mret (count + deleted)%nat.

Definition delete_test_publishers (email pattern : string) (count : nat) : cleaning nat :=
  test_publishers ← select ["publishers"; "instances"; "instance_users"]
    (λ tx, keys_where "id" "publishers" (is_test_publisher pattern email tx) tx);
  if bool_decide (test_publishers = []) then mret count
  else
    _ ← delete_any "leads" "publisher_id" test_publishers;
    _ ← delete_any "api_keys" "publisher_id" test_publishers;
    deleted ← delete_any "publishers" "id" test_publishers;
    mret (count + deleted)%nat.

(** [for x in l { count += ... }]. *)
Fixpoint accumulate {A} (body : A → nat → cleaning nat) (l : list A) (count : nat) : cleaning nat :=
  match l with
  | [] => mret count
  | x :: l => count ← body x count; accumulate body l count
  end.

Definition delete_test_data (email : string) : cleaning nat := in_transaction (
  count ← accumulate (delete_test_users email) test_email_patterns 0;
  accumulate (delete_test_publishers email) test_publisher_patterns count).

(** ** [main] *)

Definition clean_main (fuel : nat) (email : string) (clean_test_data : bool) (confirmation : Result string string) : cleaning CleanEnd :=
  user ← on_pool ["instance_users"] (find_user email);
  match user with
  | None => mret UserNotFound
  | Some user =>
      instance_ids ← on_pool ["instances"] (instances_of user);
      if bool_decide (instance_ids = []) then mret NoInstances
      else
        counts ← count_records instance_ids;
        if no_records counts then mret AlreadyClean
        else
          confirmation ← eff_lift (map_err Sql confirmation);
          if negb (String.eqb (str_trim confirmation) "yes") then mret NotConfirmed
          else
            deleted ← delete_instance_data fuel instance_ids;
            remaining ← count_records instance_ids;
            test_deleted ← (if clean_test_data then count ← delete_test_data email; mret (Some count) else mret None);
            mret (Cleaned deleted remaining test_deleted)
  end.
End cleanup.
