(* ===== verification/CleanupClaims.v ===== *)
(** * Properties of the clean-up

    [Cleanup.v]: that the deletion of an instance's data is exact or nothing, whom the
    patterns of test users take, and what a missing table does. *)

From stdpp Require Import base list strings gmap.
From Stdlib Require Import Ascii String ZArith Lia.
From S2P Require Import Prelude Float64 Platform Json Models Store Cache LeadReports ReportClaims Cleanup.

Open Scope string_scope.
Open Scope list_scope.
Local Abbreviation length := List.length.

(** ** What a deletion does to the tables *)

(** The tables whose rows no deletion from another table removes or changes: their foreign
    keys do not cascade, but for the instances of a deleted user. *)
Definition core_tables : list string := ["leads"; "publishers"; "buyers"; "campaigns"; "ping_trees"; "instances"; "instance_users"].
Definition kept_by (t t' : string) : Prop := t' ∈ core_tables ∧ t' ≠ t ∧ (t = "instance_users" → t' ≠ "instances").

Class DeletionLaws `{Deletion} : Prop := {
  deletion_rows t p db db' : deletion t p db = Ok db' → db' !! t = List.filter (λ r, negb (p r)) <$> db !! t;
  deletion_kept t t' p db db' : deletion t p db = Ok db' → kept_by t t' → db' !! t' = db !! t';
  deletion_tables t t' p db db' : deletion t p db = Ok db' → db !! t' = None → db' !! t' = None
}.

Lemma query_Ok {A} ts (f : Tables → A) db a : query ts f db = Ok a → a = f db ∧ ∀ t, t ∈ ts → is_Some (db !! t).
Proof.
  unfold query. destruct (List.find _ ts) as [t|] eqn:Hf; intros [= <-]. split; [done|]. intros t Ht.
  eapply List.find_none in Hf; [|by apply list_elem_of_In]. apply negb_false_iff in Hf. by apply bool_decide_eq_true in Hf.
Qed.

Section statements.
Context {D : Deletion}.
Abbreviation cleaning := (eff CleanWorld CleanError).
Implicit Types w : CleanWorld.
Implicit Types tx : Tables.

Lemma on_tx_cases {A} (f : Tables → Result string (A * Tables)) w :
  (∃ e w', on_tx f w = (Err (Sql e), w') ∧ cw_db w' = cw_db w ∧ cw_aborted w' = true) ∨
  (cw_aborted w = false ∧ ∃ a tx w', f (cw_tx w) = Ok (a, tx) ∧ on_tx f w = (Ok a, w')
     ∧ cw_db w' = cw_db w ∧ cw_tx w' = tx ∧ cw_aborted w' = false).
Proof.
  unfold on_tx. destruct w as [db tx [] [|[e|] o]]; cbn; try (left; by eexists _, _).
  all: destruct (f tx) as [[a tx']|e] eqn:Hf; [right|left; by eexists _, _].
  all: split; [done|]; by eexists _, _, _.
Qed.

(** What holds of the tables of the transaction before and after, unless it is aborted;
    nothing is committed, and no loop is cut short. *)
Definition tx_spec {A} (P : Tables → Prop) (m : cleaning A) (Q : A → Tables → Prop) : Prop := ∀ w,
  (cw_aborted w = true ∨ P (cw_tx w)) →
  cw_db (m w).2 = cw_db w ∧ (m w).1 ≠ Err LoopCut ∧ ∀ a, (m w).1 = Ok a → cw_aborted (m w).2 = true ∨ Q a (cw_tx (m w).2).

Lemma tx_bind {A B} P Q R (m : cleaning A) (k : A → cleaning B) :
  tx_spec P m Q → (∀ a, tx_spec (Q a) (k a) R) → tx_spec P (m ≫= k) R.
Proof.
  intros Hm Hk w Hw. rewrite eff_bind_eq. destruct (Hm w Hw) as (Hdb & Hcut & Hq). destruct (m w) as [[a|e] w']; cbn in *.
  - destruct (Hk a w' (Hq a eq_refl)) as (Hdb' & Hcut' & Hr). split_and!; [congruence|done..].
  - split_and!; [done|congruence|done].
Qed.

Lemma tx_ret {A} (P : Tables → Prop) (a : A) Q : (∀ tx, P tx → Q a tx) → tx_spec P (mret a) Q.
Proof. intros H w [Ha|Hp]; split_and!; try done; intros ? [= <-]; [by left|right; by apply H]. Qed.

Lemma tx_pre {A} (P P' : Tables → Prop) (m : cleaning A) Q : (∀ tx, P' tx → P tx) → tx_spec P m Q → tx_spec P' m Q.
Proof. intros H Hm w [Ha|Hp]; apply Hm; [by left|right; by apply H]. Qed.

Lemma tx_post {A} P (m : cleaning A) (Q Q' : A → Tables → Prop) : (∀ a tx, Q a tx → Q' a tx) → tx_spec P m Q → tx_spec P m Q'.
Proof. intros H Hm w Hw. destruct (Hm w Hw) as (? & ? & Hq). split_and!; [done..|]. intros a Ha. destruct (Hq a Ha); [by left|right; by apply H]. Qed.

Lemma tx_on_tx {A} (P : Tables → Prop) (f : Tables → Result string (A * Tables)) Q :
  (∀ tx a tx', P tx → f tx = Ok (a, tx') → Q a tx') → tx_spec P (on_tx f) Q.
Proof.
  intros H w Hw. destruct (on_tx_cases f w) as [(e & w' & -> & Hdb & Ha)|(Hl & a & tx & w' & Hf & -> & Hdb & Htx & Ha)]; cbn.
  - by split_and!.
  - split_and!; [done..|]. intros ? [= <-]. right. rewrite Htx. destruct Hw as [Hw|Hw]; [congruence|by eapply H].
Qed.

Lemma tx_select {A} (P : Tables → Prop) ts (f : Tables → A) :
  tx_spec P (select ts f) (λ a tx, P tx ∧ a = f tx ∧ ∀ t, t ∈ ts → is_Some (tx !! t)).
Proof.
  apply tx_on_tx. intros tx a tx' Hp Hf. destruct (query ts f tx) as [b|] eqn:Hq; [|done]. injection Hf as <- <-.
  destruct (query_Ok _ _ _ _ Hq) as [-> Hts]. done.
Qed.

Lemma tx_delete (P : Tables → Prop) (Q : nat → Tables → Prop) t p :
  (∀ tx tx', P tx → is_Some (tx !! t) → deletion t p tx = Ok tx' → Q (length (List.filter p (rows_of t tx))) tx') →
  tx_spec P (delete_where t p) Q.
Proof.
  intros H. apply tx_on_tx. intros tx a tx' Hp Hf. unfold deleting in Hf.
  destruct (query [t] _ tx) as [n|] eqn:Hq; [|done]. destruct (query_Ok _ _ _ _ Hq) as [-> Hts]. cbn in Hf.
  destruct (deletion t p tx) as [tx1|] eqn:Hd; [|done]. injection Hf as <- <-. apply H; [done|apply Hts; by left|done].
Qed.

(** A query that succeeds is one of a transaction that goes on: what it answers is known. *)
Lemma tx_bind_select {A B} (P : Tables → Prop) (answer : A → Prop) R ts (f : Tables → A) (k : A → cleaning B) :
  (∀ tx, P tx → answer (f tx)) → (∀ a, answer a → tx_spec P (k a) R) → tx_spec P (select ts f ≫= k) R.
Proof.
  intros Hf Hk w Hw. rewrite eff_bind_eq. unfold select. set (g := λ tx, found ← query ts f tx; mret (found, tx)).
  destruct (on_tx_cases g w) as [(e & w' & -> & Hdb & Ha)|(Hl & a & tx & w' & Hg & -> & Hdb & Htx & Ha)]; [by split_and!|].
  destruct Hw as [Hw|Hp]; [congruence|]. unfold g in Hg. destruct (query ts f (cw_tx w)) as [b|] eqn:Hq; [|done].
  injection Hg as <- <-. destruct (query_Ok _ _ _ _ Hq) as [-> _].
  destruct (Hk _ (Hf _ Hp) w') as (Hdb' & ? & ?); [right; by rewrite Htx|]. split_and!; [congruence|done..].
Qed.

Lemma tx_exists (P : Tables → Prop) t : tx_spec P (table_exists t) (λ b tx, P tx ∧ b = bool_decide (is_Some (tx !! t))).
Proof.
  intros w Hw. unfold table_exists. rewrite eff_bind_eq. unfold eff_try.
  set (f := λ tx, Ok (bool_decide (is_Some (tx !! t)), tx)).
  destruct (on_tx_cases f w) as [(e & w' & -> & Hdb & Ha)|(Hl & a & tx & w' & Hf & -> & Hdb & Htx & Ha)]; cbn.
  - split_and!; [done..|]. intros ? _. by left.
  - injection Hf as <- <-. split_and!; [done..|]. intros ? [= <-]. right. rewrite Htx. split; [|done].
    destruct Hw as [Hw|Hw]; [congruence|done].
Qed.

Lemma in_transaction_spec {A} (P : Tables → Prop) (body : cleaning A) Q w :
  tx_spec P body Q → P (cw_db w) →
  let '(result, w') := in_transaction body w in
  match result with
  | Ok a => if cw_aborted w' then cw_db w' = cw_db w else Q a (cw_db w')
  | Err e => e ≠ LoopCut ∧ cw_db w' = cw_db w
  end.
Proof.
  intros Hbody Hp. unfold in_transaction. rewrite eff_bind_eq. unfold begin_tx.
  destruct w as [db tx aborted outcomes]. cbn in Hp. set (o := tail outcomes).
  assert (Hrun : let '(result, w') := (a ← body; _ ← commit_tx; mret a) {| cw_db := db; cw_tx := db; cw_aborted := false; cw_outcomes := o |} in
    match result with
    | Ok a => if cw_aborted w' then cw_db w' = db else Q a (cw_db w')
    | Err e => e ≠ LoopCut ∧ cw_db w' = db
    end).
  { rewrite eff_bind_eq. destruct (Hbody {| cw_db := db; cw_tx := db; cw_aborted := false; cw_outcomes := o |}) as (Hdb & Hcut & Hq); [by right|].
    destruct (body _) as [[a|e] w']; cbn in *; [|split; congruence].
    rewrite eff_bind_eq. unfold commit_tx. specialize (Hq a eq_refl).
    destruct (cw_outcomes w') as [|[e|] o']; cbn; [|by split|]; (destruct (cw_aborted w'); [done|by destruct Hq]). }
  destruct outcomes as [|[e|] outcomes]; cbn in *; [exact Hrun|done|exact Hrun].
Qed.

Lemma tx_for_each {A} (P : Tables → Prop) (body : A → cleaning unit) l :
  (∀ a, tx_spec P (body a) (λ _, P)) → tx_spec P (for_each body l) (λ _, P).
Proof.
  intros Hb. induction l as [|a l IH]; cbn [for_each]; [by apply tx_ret|]. by apply (tx_bind _ (λ _, P)).
Qed.

(** A deletion that keeps [P] whatever it removes. *)
Definition keeps (P : Tables → Prop) (t : string) : Prop := ∀ p tx tx', P tx → deletion t p tx = Ok tx' → P tx'.

Lemma tx_delete_keeps P t p : keeps P t → tx_spec P (delete_where t p) (λ _, P).
Proof. intros Hk. apply tx_delete. intros tx tx' Hp _. by apply Hk. Qed.

Lemma tx_delete_if_exists P t col ids : keeps P t → tx_spec P (delete_if_exists t col ids) (λ _, P).
Proof.
  intros Hk. eapply tx_bind; [apply tx_exists|]. intros [].
  - eapply tx_pre; [|by apply tx_delete_keeps]. by intros tx [? _].
  - apply tx_ret. by intros tx [? _].
Qed.

Lemma tx_children P ids : (∀ t, t ∈ lead_children → keeps P t) → tx_spec P (delete_children ids) (λ _, P).
Proof.
  intros Hk. unfold delete_children. revert Hk. generalize lead_children as l. intros l.
  induction l as [|t l IH]; intros Hk; cbn [for_each]; [by apply tx_ret|].
  apply (tx_bind _ (λ _, P)); [|intros _; apply IH; intros t' Ht'; apply Hk; by right].
  apply (tx_bind _ (λ _, P)); [apply tx_delete_if_exists, Hk; by left|]. intros ?. by apply tx_ret.
Qed.

Lemma tx_lead_children P ids : (∀ t, t ∈ lead_children → keeps P t) → tx_spec P (delete_lead_children ids) (λ _, P).
Proof.
  intros Hk. unfold delete_lead_children. eapply tx_bind; [apply tx_select|]. intros l.
  eapply tx_pre; [|apply tx_for_each; intros ?; by apply tx_children]. by intros tx [? _].
Qed.

Lemma tx_if_empty P (ids : list Uuid) (m : cleaning nat) :
  tx_spec P m (λ _, P) → tx_spec P (if bool_decide (ids = []) then mret 0%nat else m) (λ _, P).
Proof. intros Hm. case_bool_decide; [by apply tx_ret|done]. Qed.

Lemma tx_legacy P b c : keeps P "legacy_integrations" → tx_spec P (delete_legacy_integrations b c) (λ _, P).
Proof.
  intros Hk. eapply tx_bind; [apply tx_exists|]. intros there.
  eapply (tx_pre P); [by intros tx [? _]|]. destruct (there && _); [|by apply tx_ret].
  apply (tx_bind _ (λ _, P)); [by apply tx_if_empty, tx_delete_keeps|]. intros _.
  apply (tx_bind _ (λ _, P)); [by apply tx_if_empty, tx_delete_keeps|]. intros _. by apply tx_ret.
Qed.

Lemma tx_buyer_children P ids :
  keeps P "buyer_zip_lists" → keeps P "buyer_zip_codes" → keeps P "buyer_integration_credentials" → keeps P "buyer_qualification_configs" →
  tx_spec P (delete_buyer_children ids) (λ _, P).
Proof.
  intros H1 H2 H3 H4. eapply tx_bind; [apply tx_exists|]. intros there. eapply (tx_pre P); [by intros tx [? _]|].
  apply (tx_bind _ (λ _, P)).
  { destruct there; [|by apply tx_ret]. eapply tx_post; [|apply tx_select]. by intros ? ? [? _]. }
  intros lists. apply (tx_bind _ (λ _, P)); [by apply tx_if_empty, tx_delete_if_exists|]. intros _.
  apply (tx_bind _ (λ _, P)); [destruct there; [by apply tx_delete_keeps|by apply tx_ret]|]. intros _.
  do 2 (apply (tx_bind _ (λ _, P)); [by apply tx_delete_if_exists|]; intros _). by apply tx_ret.
Qed.
End statements.

(** ** The data of the instances, exactly *)

Section exactly.
Context {D : Deletion} {L : DeletionLaws} (ids : list Uuid) (db : Tables).
Implicit Types w : CleanWorld.
Implicit Types tx : Tables.

(** The rows the tool is there to delete. *)
Definition own (t : string) (r : DbRow) : bool :=
  if String.eqb t "leads" then negb (bool_decide (lead_of_instances ids db r = []))
  else if bool_decide (t ∈ ["publishers"; "buyers"; "campaigns"; "ping_trees"]) then among "instance_id" ids r else false.

Definition cleaned (t : string) : option (list DbRow) := List.filter (λ r, negb (own t r)) <$> db !! t.

(** Each row of these tables has a key of its own. *)
Definition key_of (t : string) : string := if String.eqb t "leads" then "uuid" else "id".
Definition keyed (key : string) (rows : list DbRow) : Prop :=
  NoDup ((λ r, cell_id (r !! key)) <$> rows) ∧ ∀ r, r ∈ rows → is_Some (cell_id (r !! key)).
Definition keyed_tables : Prop := ∀ t rows, t ∈ core_tables → db !! t = Some rows → keyed (key_of t) rows.

Lemma keyed_unique key rows r r' : keyed key rows → r ∈ rows → r' ∈ rows → cell_id (r !! key) = cell_id (r' !! key) → r = r'.
Proof.
  intros [Hnd _] (i & Hi)%list_elem_of_lookup (j & Hj)%list_elem_of_lookup Heq.
  enough (i = j) by congruence. eapply (NoDup_lookup _ i j); [exact Hnd|rewrite list_lookup_fmap, Hi; done|].
  by rewrite list_lookup_fmap, Hj, Heq.
Qed.

Lemma keyed_filter key p rows : keyed key rows → keyed key (List.filter p rows).
Proof.
  intros [Hnd Hk]. split.
  - clear Hk. induction rows as [|r rows IH]; [constructor|]. cbn in *. apply NoDup_cons in Hnd as [Hr Hnd].
    destruct (p r); [|by apply IH]. cbn. constructor; [|by apply IH]. intros Hin. apply Hr.
    apply list_elem_of_fmap in Hin as (r' & -> & Hin). apply elem_of_list_filter_bool in Hin as [Hin _]. apply list_elem_of_fmap. eauto.
  - intros r [Hin _]%elem_of_list_filter_bool. by apply Hk.
Qed.

Lemma among_keys key rows p r :
  r ∈ rows → keyed key rows → among key (omap (λ r, cell_id (r !! key)) (List.filter p rows)) r = p r.
Proof.
  intros Hr Hk. unfold among. destruct (proj2 Hk r Hr) as [u Hu]. rewrite Hu.
  apply eq_bool_prop_intro. rewrite bool_decide_spec. split.
  - intros (r' & [Hin Hp]%elem_of_list_filter_bool & Hu')%list_elem_of_omap.
    rewrite (keyed_unique key rows r r') by (done || congruence). by rewrite Hp.
  - intros Hp. apply list_elem_of_omap. exists r. split; [|done]. apply elem_of_list_filter_bool. split; [done|by apply Is_true_true].
Qed.

Lemma filter_negb_ext (p q : DbRow → bool) rows :
  (∀ r, r ∈ rows → p r = q r) → List.filter (λ r, negb (p r)) rows = List.filter (λ r, negb (q r)) rows.
Proof. intros H. apply List.filter_ext_in. intros r Hr. by rewrite H by (by apply list_elem_of_In). Qed.

Lemma filter_all (p : DbRow → bool) rows : (∀ r, r ∈ rows → p r = true) → List.filter p rows = rows.
Proof.
  induction rows as [|r rows IH]; intros H; [done|]. cbn. rewrite (H r) by (by left). f_equal. apply IH. intros r' Hr'. apply H. by right.
Qed.

Lemma filter_weaker (p q : DbRow → bool) rows :
  (∀ r, r ∈ rows → q r = false → p r = true) → List.filter (λ r, negb (q r)) (List.filter p rows) = List.filter (λ r, negb (q r)) rows.
Proof.
  induction rows as [|r rows IH]; intros H; [done|]. cbn. specialize (IH (λ r' Hr', H r' (list_elem_of_further _ _ _ Hr'))).
  pose proof (H r (list_elem_of_here _ _)) as Hr. destruct (p r); cbn; [by rewrite IH|]. destruct (q r); [done|]. by specialize (Hr eq_refl).
Qed.

(** *** The tables of the configuration *)

(** The tables [done] are cleaned, the others as they were. *)
Definition progress (finished : list string) tx : Prop :=
  ∀ t, t ∈ core_tables → tx !! t = if bool_decide (t ∈ finished) then cleaned t else db !! t.

Lemma progress_keeps finished t : t ∉ core_tables → keeps (progress finished) t.
Proof.
  intros Ht p tx tx' Hp Hd t' Ht'. rewrite (deletion_kept _ t' _ _ _ Hd); [by apply Hp|].
  split_and!; [done|by intros ->|]. intros ->. by destruct Ht; member.
Qed.

(** The statements of the rows of a table of the configuration. *)
Definition configuration (t : string) : Prop := t ∈ ["publishers"; "buyers"; "campaigns"; "ping_trees"].
Ltac outside := unfold configuration; set_unfold; naive_solver.

Lemma configuration_own t r : configuration t → own t r = among "instance_id" ids r.
Proof. intros Ht. unfold own. rewrite (bool_decide_true _ Ht). unfold configuration in Ht. by set_unfold; naive_solver. Qed.

Lemma configuration_core t : configuration t → t ∈ core_tables ∧ t ≠ "instance_users" ∧ key_of t = "id".
Proof. unfold configuration. intros Ht. set_unfold. naive_solver. Qed.

Lemma tx_own_ids {B} finished t (k : list Uuid → eff CleanWorld CleanError B) R :
  configuration t → t ∉ finished →
  tx_spec (progress finished) (k (keys_where "id" t (among "instance_id" ids) db)) R →
  tx_spec (progress finished) (own_ids t ids ≫= k) R.
Proof.
  intros Ht Hf Hk. apply (tx_bind_select _ (λ a, a = keys_where "id" t (among "instance_id" ids) db)); [|by intros ? ->].
  intros tx Hp. unfold keys_where, rows_of. by rewrite (Hp t) by (by apply configuration_core); rewrite bool_decide_false.
Qed.

Lemma own_rows_deleted finished t tx tx' :
  keyed_tables → configuration t → t ∉ finished → progress finished tx →
  deletion t (among "id" (keys_where "id" t (among "instance_id" ids) db)) tx = Ok tx' → progress (t :: finished) tx'.
Proof.
  intros Hk Ht Hf Hp Hd t' Ht'. destruct (configuration_core t Ht) as (Hc & Hu & Hkey). destruct (decide (t' = t)) as [->|Hne].
  - rewrite bool_decide_true by (by left). rewrite (deletion_rows _ _ _ _ Hd), (Hp t Hc), bool_decide_false by done.
    unfold cleaned. destruct (db !! t) as [rows|] eqn:Hrows; [|done]. cbn. f_equal. apply filter_negb_ext. intros r Hr.
    unfold keys_where, rows_of. rewrite Hrows. cbn. pose proof (Hk t rows Hc Hrows) as Hkr. rewrite Hkey in Hkr.
    rewrite (among_keys _ _ _ _ Hr Hkr). by rewrite configuration_own.
  - rewrite (deletion_kept _ t' _ _ _ Hd) by done. rewrite (Hp t' Ht').
    by rewrite (bool_decide_ext (t' ∈ finished) (t' ∈ t :: finished)) by (rewrite elem_of_cons; naive_solver).
Qed.

Lemma tx_delete_own finished t :
  keyed_tables → configuration t → t ∉ finished →
  tx_spec (progress finished) (delete_any t "id" (keys_where "id" t (among "instance_id" ids) db)) (λ _, progress (t :: finished)).
Proof. intros Hk Ht Hf. apply tx_delete. intros tx tx' Hp _. by apply own_rows_deleted. Qed.

Lemma tx_delete_own_if_exists finished t :
  keyed_tables → configuration t → t ∉ finished →
  tx_spec (progress finished) (delete_if_exists t "id" (keys_where "id" t (among "instance_id" ids) db)) (λ _, progress (t :: finished)).
Proof.
  intros Hk Ht Hf. eapply tx_bind; [apply tx_exists|]. intros [].
  - eapply tx_pre; [|by apply tx_delete_own]. by intros tx [? _].
  - apply tx_ret. intros tx [Hp Hnone] t' Ht'. specialize (Hp t' Ht') as Hp'. rewrite Hp'.
    destruct (decide (t' = t)) as [->|Hne].
    + symmetry in Hnone. apply bool_decide_eq_false, eq_None_not_Some in Hnone.
      rewrite bool_decide_false in Hp' by done. rewrite bool_decide_false, bool_decide_true by (done || by left).
      unfold cleaned. rewrite <-Hp', Hnone. done.
    + by rewrite (bool_decide_ext (t' ∈ finished) (t' ∈ t :: finished)) by (rewrite elem_of_cons; naive_solver).
Qed.

Definition all_finished : list string := ["publishers"; "buyers"; "ping_trees"; "campaigns"; "leads"].

Lemma tx_configuration n :
  keyed_tables → tx_spec (progress ["leads"]) (delete_configuration ids n) (λ _, progress all_finished).
Proof.
  intros Hk. unfold delete_configuration.
  assert (Hkeep : ∀ finished t, t ∉ core_tables → keeps (progress finished) t) by (intros; by apply progress_keeps).
  apply tx_own_ids; [outside..|]. apply tx_own_ids; [outside..|]. apply tx_own_ids; [outside..|].
  apply (tx_bind _ (λ _, progress ["leads"])); [apply tx_legacy, Hkeep; outside|]. intros _.
  apply (tx_bind _ (λ _, progress ["leads"])); [apply tx_delete_keeps, Hkeep; outside|]. intros _.
  eapply tx_bind; [apply tx_delete_own; [done|outside..]|]. intros deleted_campaigns.
  eapply tx_bind; [apply tx_delete_own; [done|outside..]|]. intros deleted_ping_trees.
  apply tx_own_ids; [outside..|].
  apply (tx_bind _ (λ _, progress ["ping_trees"; "campaigns"; "leads"])); [apply tx_delete_if_exists, Hkeep; outside|]. intros _.
  apply (tx_bind _ (λ _, progress ["ping_trees"; "campaigns"; "leads"])); [apply tx_buyer_children; apply Hkeep; outside|]. intros _.
  eapply tx_bind; [apply tx_delete_own_if_exists; [done|outside..]|]. intros deleted_buyers.
  eapply tx_bind; [apply tx_delete_own_if_exists; [done|outside..]|]. intros deleted_publishers.
  by apply tx_ret.
Qed.

(** *** The leads *)

Lemma elem_of_joined tx r :
  tx !! "publishers" = db !! "publishers" → r ∈ joined_leads ids tx ↔ r ∈ rows_of "leads" tx ∧ own "leads" r = true.
Proof.
  intros Hp. assert (Hown : own "leads" r = true ↔ lead_of_instances ids tx r ≠ []).
  { unfold own. cbn. rewrite negb_true_iff, bool_decide_eq_false.
    by replace (lead_of_instances ids tx r) with (lead_of_instances ids db r) by (unfold lead_of_instances, rows_of; by rewrite Hp). }
  rewrite Hown. unfold joined_leads. rewrite list_elem_of_bind. split.
  - intros (lead & Hin & Hlead). apply list_elem_of_fmap in Hin as (p & Heq & Hin). cbn in Heq. subst r. split; [done|].
    intros Hnil. rewrite Hnil in Hin. by apply elem_of_nil in Hin.
  - intros [Hin Hne]. exists r. split; [|done]. destruct (lead_of_instances ids tx r) as [|p l]; [done|]. by left.
Qed.

(** Where the loop is: [rows] are the leads that are left. *)
Definition in_loop (rows : list DbRow) tx : Prop :=
  tx !! "leads" = Some rows ∧ ∀ t, t ∈ core_tables → t ≠ "leads" → tx !! t = db !! t.

Lemma take_incl {A} n (l : list A) x : x ∈ take n l → x ∈ l.
Proof. intros (i & Hi & _)%elem_of_take. by eapply list_elem_of_lookup_2. Qed.

Lemma filter_shorter (p : DbRow → bool) rows r :
  r ∈ rows → p r = true → (length (List.filter (λ r, negb (p r)) rows) < length rows)%nat.
Proof.
  intros (l1 & l2 & ->)%list_elem_of_split Hp. rewrite List.filter_app, !length_app. cbn. rewrite Hp. cbn.
  pose proof (List.filter_length_le (λ r, negb (p r)) l1). pose proof (List.filter_length_le (λ r, negb (p r)) l2). lia.
Qed.

Lemma tx_delete_leads fuel rows rows0 n w :
  (length rows < fuel)%nat → keyed "uuid" rows →
  List.filter (λ r, negb (own "leads" r)) rows = List.filter (λ r, negb (own "leads" r)) rows0 →
  (cw_aborted w = true ∨ in_loop rows (cw_tx w)) →
  let '(result, w') := delete_leads fuel ids n w in
  cw_db w' = cw_db w ∧ result ≠ Err LoopCut ∧
  ∀ a, result = Ok a → cw_aborted w' = true ∨ in_loop (List.filter (λ r, negb (own "leads" r)) rows0) (cw_tx w').
Proof.
  revert rows n w. induction fuel as [|fuel IH]; intros rows n w Hfuel Hk Hrows Hw; [lia|]. cbn [delete_leads].
  rewrite eff_bind_eq. unfold select.
  destruct (on_tx_cases (λ tx, found ← query ["leads"; "publishers"] (λ tx, omap (λ r, cell_id (r !! "uuid")) (take 1000 (joined_leads ids tx))) tx;
    mret (found, tx)) w) as [(e & w1 & -> & Hdb & Ha)|(Hl & batch & tx & w1 & Hf & -> & Hdb & Htx & Ha)]; [by split_and!|].
  destruct Hw as [Hw|[Hleads Hcore]]; [congruence|].
  destruct (query _ _ _) as [b|] eqn:Hq; [|done]. injection Hf as <- <-. destruct (query_Ok _ _ _ _ Hq) as [-> _].
  assert (Hjoin : ∀ r, r ∈ joined_leads ids (cw_tx w) ↔ r ∈ rows ∧ own "leads" r = true).
  { intros r. rewrite elem_of_joined by (apply Hcore; [member|done]). unfold rows_of. by rewrite Hleads. }
  clear Hq. destruct (omap _ _) as [|u batch] eqn:Hbatch.
  - split_and!; [done|done|]. intros ? [= <-]. right. rewrite Htx. split; [|done]. rewrite Hleads, <-Hrows. f_equal.
    symmetry. apply filter_all. intros r Hr. destruct (own "leads" r) eqn:Ho; [|done]. exfalso.
    destruct (joined_leads ids (cw_tx w)) as [|r0 l] eqn:Hj; [by destruct (proj1 (elem_of_nil r) (proj2 (Hjoin r) (conj Hr Ho)))|].
    destruct (proj1 (Hjoin r0)) as [Hr0 _]; [by left|]. destruct (proj2 Hk r0 Hr0) as [u Hu]. cbn in Hbatch. by rewrite Hu in Hbatch.
  - rewrite eff_bind_eq. unfold delete_any, delete_where.
    destruct (on_tx_cases (deleting "leads" (among "uuid" (u :: batch))) w1)
      as [(e & w2 & -> & Hdb2 & Ha2)|(_ & n' & tx2 & w2 & Hf & -> & Hdb2 & Htx2 & Ha2)]; [split_and!; congruence|].
    unfold deleting in Hf. destruct (query ["leads"] _ _) as [c|] eqn:Hq; [|done]. cbn in Hf. rewrite Htx in Hf.
    destruct (deletion "leads" _ _) as [tx'|] eqn:Hd; [|done]. injection Hf as _ <-.
    set (p := among "uuid" (u :: batch)) in *.
    assert (Hp : ∀ r, r ∈ rows → p r = true → own "leads" r = true).
    { intros r Hr Hpr. unfold p, among in Hpr. destruct (proj2 Hk r Hr) as [v Hv]. rewrite Hv, <-Hbatch in Hpr.
      apply bool_decide_eq_true, list_elem_of_omap in Hpr as (r' & Hr' & Hv'). apply take_incl in Hr'.
      apply Hjoin in Hr' as [Hr' Ho]. by rewrite (keyed_unique "uuid" rows r r') by (done || congruence). }
    specialize (IH (List.filter (λ r, negb (p r)) rows) (n + n')%nat w2). destruct (delete_leads fuel ids (n + n') w2) as [result w'].
    destruct IH as (Hdb' & Hcut & Hres).
    + assert (Hu : u ∈ omap (λ r, cell_id (r !! "uuid")) (take 1000 (joined_leads ids (cw_tx w)))) by (rewrite Hbatch; by left).
      apply list_elem_of_omap in Hu as (r & Hr & Hv). apply take_incl, Hjoin in Hr as [Hr _].
      enough (length (List.filter (λ r, negb (p r)) rows) < length rows)%nat by lia. apply (filter_shorter p rows r Hr).
      unfold p, among. rewrite Hv. apply bool_decide_true. by left.
    + by apply keyed_filter.
    + rewrite <-Hrows. apply filter_weaker. intros r Hr Ho. destruct (p r) eqn:Hpr; [|done]. by rewrite (Hp r Hr Hpr) in Ho.
    + right. rewrite Htx2. split.
      * by rewrite (deletion_rows _ _ _ _ Hd), Hleads.
      * intros t Ht Hne. by rewrite (deletion_kept _ t _ _ _ Hd), Hcore by done.
    + split_and!; [congruence|done..].
Qed.

Lemma tx_leads fuel n :
  keyed_tables → (length (rows_of "leads" db) < fuel)%nat →
  tx_spec (progress []) (delete_leads fuel ids n) (λ _, progress ["leads"]).
Proof.
  intros Hk Hfuel w Hw. destruct (db !! "leads") as [rows|] eqn:Hrows.
  - unfold rows_of in Hfuel. rewrite Hrows in Hfuel. cbn in Hfuel.
    assert (Hloop : cw_aborted w = true ∨ in_loop rows (cw_tx w)).
    { destruct Hw as [Hw|Hp]; [by left|right]. split; [rewrite <-Hrows; apply (Hp "leads"); member|]. intros t Ht _. by apply Hp. }
    pose proof (tx_delete_leads fuel rows rows n w Hfuel (Hk "leads" rows ltac:(member) Hrows) eq_refl Hloop) as Hrun.
    destruct (delete_leads fuel ids n w) as [result w']. destruct Hrun as (Hdb & Hcut & Hres). split_and!; [done..|].
    intros a Ha. destruct (Hres a Ha) as [?|[Hleads Hcore]]; [by left|right]. intros t Ht.
    destruct (decide (t = "leads")) as [->|Hne].
    + rewrite bool_decide_true by (by left). unfold cleaned. by rewrite Hrows.
    + rewrite bool_decide_false by (set_unfold; naive_solver). by apply Hcore.
  - destruct fuel as [|fuel]; [lia|]. cbn [delete_leads]. rewrite eff_bind_eq. unfold select.
    destruct (on_tx_cases (λ tx, found ← query ["leads"; "publishers"] (λ tx, omap (λ r, cell_id (r !! "uuid")) (take 1000 (joined_leads ids tx))) tx;
      mret (found, tx)) w) as [(e & w1 & -> & Hdb & Ha)|(Hl & batch & tx & w1 & Hf & _ & _)]; [by split_and!|].
    destruct Hw as [Hw|Hp]; [congruence|]. destruct (query _ _ _) as [b|] eqn:Hq; [|done].
    destruct (query_Ok _ _ _ _ Hq) as [_ Hts]. destruct (Hts "leads") as [rows Hr]; [by left|].
    rewrite (Hp "leads") in Hr by member. rewrite bool_decide_false in Hr by apply not_elem_of_nil. congruence.
Qed.

Lemma tx_instance_data fuel :
  keyed_tables → (length (rows_of "leads" db) < fuel)%nat →
  tx_spec (progress []) (_ ← delete_lead_children ids; deleted_leads ← delete_leads fuel ids 0; delete_configuration ids deleted_leads)
    (λ _, progress all_finished).
Proof.
  intros Hk Hfuel.
  apply (tx_bind _ (λ _, progress [])); [apply tx_lead_children; intros t Ht; apply progress_keeps; set_unfold; naive_solver|]. intros _.
  apply (tx_bind _ (λ _, progress ["leads"])); [by apply tx_leads|]. intros n. by apply tx_configuration.
Qed.

Lemma all_finished_cleaned tx t : progress all_finished tx → t ∈ core_tables → tx !! t = cleaned t.
Proof.
  intros Hp Ht. rewrite (Hp t Ht). case_bool_decide as Hf; [done|]. unfold cleaned.
  destruct (db !! t) as [rows|]; [|done]. cbn. f_equal. symmetry. apply filter_all. intros r _. unfold own.
  assert (t = "instances" ∨ t = "instance_users") as [-> | ->] by (set_unfold; naive_solver); done.
Qed.
End exactly.

Section claims.
Context `{D : Deletion} `{L : !DeletionLaws} `{R : ReportLib}.
Implicit Types w : CleanWorld.
Implicit Types tx : Tables.
Abbreviation cleaning := (eff CleanWorld CleanError).

Lemma tx_accumulate {A} (P : list A → Tables → Prop) (body : A → nat → cleaning nat) l past n :
  (∀ x past n, tx_spec (P past) (body x n) (λ _, P (x :: past))) →
  tx_spec (P past) (accumulate body l n) (λ _, P (rev l ++ past)).
Proof.
  intros Hb. revert past n. induction l as [|x l IH]; intros past n; cbn [accumulate rev]; [by apply tx_ret|].
  apply (tx_bind _ (λ _, P (x :: past))); [apply Hb|]. intros m. rewrite <-app_assoc. apply IH.
Qed.

(** *** Test users *)

Section users.
Context (email : string) (rows0 : list DbRow) (Hkeyed : keyed "id" rows0).

(** No user of the [past] patterns is left. *)
Definition no_users (past : list string) tx : Prop :=
  (∀ r, r ∈ rows_of "instance_users" tx → r ∈ rows0)
  ∧ ∀ p r, p ∈ past → r ∈ rows_of "instance_users" tx → is_test_user p email r = false.
Definition users_found (past : list string) (p : string) (found : list Uuid) tx : Prop :=
  no_users past tx ∧ ∀ r, r ∈ rows_of "instance_users" tx → is_test_user p email r = true → among "id" found r = true.

Lemma rows_of_kept t p tx tx' :
  deletion t p tx = Ok tx' → t ≠ "instance_users" → rows_of "instance_users" tx' = rows_of "instance_users" tx.
Proof. intros Hd Hne. unfold rows_of. rewrite (deletion_kept _ "instance_users" _ _ _ Hd); [done|]. by split_and!; [member|..]. Qed.

Lemma no_users_keeps past t : t ≠ "instance_users" → keeps (no_users past) t.
Proof. intros Ht p tx tx' Hp Hd. unfold no_users. by rewrite (rows_of_kept _ _ _ _ Hd Ht). Qed.

Lemma users_found_keeps past p found t : t ≠ "instance_users" → keeps (users_found past p found) t.
Proof. intros Ht q tx tx' Hp Hd. unfold users_found, no_users. by rewrite (rows_of_kept _ _ _ _ Hd Ht). Qed.

Lemma tx_test_instances P l : (∀ t, t ≠ "instance_users" → keeps P t) → tx_spec P (delete_test_instances l) (λ _, P).
Proof.
  intros Hk. unfold delete_test_instances.
  apply (tx_bind _ (λ _, P)).
  { apply tx_on_tx. intros tx n tx' Hp Hf. destruct (query ["publishers"] _ tx); [|done]. cbn in Hf. unfold deleting in Hf.
    destruct (query ["leads"] _ tx); [|done]. cbn in Hf. destruct (deletion _ _ tx) eqn:Hd; [|done]. injection Hf as _ <-.
    by eapply Hk in Hd. }
  intros _. do 5 (apply (tx_bind _ (λ _, P)); [by apply tx_delete_keeps, Hk|]; intros _). by apply tx_ret.
Qed.

Lemma tx_test_users p past n : tx_spec (no_users past) (delete_test_users email p n) (λ _, no_users (p :: past)).
Proof.
  unfold delete_test_users. apply (tx_bind _ (users_found past p)).
  { eapply tx_post; [|apply tx_select]. intros found tx (Hno & -> & _). split; [done|]. intros r Hr Hp.
    unfold among, keys_where. destruct (proj2 Hkeyed r (proj1 Hno r Hr)) as [u Hu]. rewrite Hu. apply bool_decide_true, list_elem_of_omap.
    exists r. split; [by apply elem_of_list_filter_bool|done]. }
  intros found. case_bool_decide as Hnil.
  { subst. apply tx_ret. intros tx [[Hin Hno] Hfound]. split; [done|]. intros q r [->|Hq]%elem_of_cons Hr; [|by apply Hno].
    destruct (is_test_user p email r) eqn:Ht; [|done]. specialize (Hfound r Hr Ht). unfold among in Hfound.
    destruct (cell_id (r !! "id")); [|done]. by apply bool_decide_eq_true, elem_of_nil in Hfound. }
  assert (Hk : ∀ t, t ≠ "instance_users" → keeps (users_found past p found) t) by (intros; by apply users_found_keeps).
  apply (tx_bind _ (λ _, users_found past p found)); [eapply tx_post; [|apply tx_select]; by intros ? ? (? & _)|]. intros instances.
  apply (tx_bind _ (λ _, users_found past p found)); [case_bool_decide; [by apply tx_ret|by apply tx_test_instances]|]. intros _.
  do 2 (apply (tx_bind _ (λ _, users_found past p found)); [by apply tx_delete_keeps, Hk|]; intros _).
  apply (tx_bind _ (λ _, no_users (p :: past))); [|intros ?; by apply tx_ret].
  apply tx_delete. intros tx tx' [[Hin Hno] Hfound] _ Hd.
  assert (Hrows : ∀ r, r ∈ rows_of "instance_users" tx' → r ∈ rows_of "instance_users" tx ∧ among "id" found r = false).
  { intros r. unfold rows_of. rewrite (deletion_rows _ _ _ _ Hd). destruct (tx !! "instance_users"); cbn; [|by intros ?%elem_of_nil].
    rewrite elem_of_list_filter_bool, negb_true_iff. done. }
  split; [intros r [Hr _]%Hrows; by apply Hin|]. intros q r Hq [Hr Ha]%Hrows. apply elem_of_cons in Hq as [->|Hq]; [|by apply Hno].
  destruct (is_test_user p email r) eqn:Ht; [|done]. by rewrite (Hfound r Hr Ht) in Ha.
Qed.

Lemma tx_test_publishers_users past p n :
  tx_spec (no_users past) (delete_test_publishers email p n) (λ _, no_users past).
Proof.
  assert (Hk : ∀ t, t ≠ "instance_users" → keeps (no_users past) t) by (intros; by apply no_users_keeps).
  apply (tx_bind _ (λ _, no_users past)); [eapply tx_post; [|apply tx_select]; by intros ? ? (? & _)|]. intros found.
  case_bool_decide; [by apply tx_ret|].
  do 3 (apply (tx_bind _ (λ _, no_users past)); [by apply tx_delete_keeps, Hk|]; intros ?). by apply tx_ret.
Qed.

Lemma tx_test_data_users :
  tx_spec (no_users []) (n ← accumulate (delete_test_users email) test_email_patterns 0; accumulate (delete_test_publishers email) test_publisher_patterns n)
    (λ _, no_users (rev test_email_patterns)).
Proof.
  apply (tx_bind _ (λ _, no_users (rev test_email_patterns))); [apply (tx_accumulate no_users), tx_test_users|]. intros n.
  apply (tx_accumulate (λ _, no_users (rev test_email_patterns)) _ _ []). intros; apply tx_test_publishers_users.
Qed.
End users.

(** C28: Whatever statements fail, the deletion of an instance's data is all or nothing: unless
    it ends well with a transaction that is not aborted, nothing has changed; if it does,
    of leads, publishers, buyers, campaigns and ping trees exactly the rows of the
    instances are gone, users and instances are as they were.  The loop over the leads ends. *)
Theorem cleanup_exact_or_nothing (fuel : nat) (ids : list Uuid) w :
  keyed_tables (cw_db w) → (length (rows_of "leads" (cw_db w)) < fuel)%nat →
  let '(result, w') := delete_instance_data fuel ids w in
  match result with
  | Ok _ => if cw_aborted w' then cw_db w' = cw_db w else ∀ t, t ∈ core_tables → cw_db w' !! t = cleaned ids (cw_db w) t
  | Err e => e ≠ LoopCut ∧ cw_db w' = cw_db w
  end.
Proof.
  intros Hk Hfuel.
  pose proof (in_transaction_spec _ _ _ w (tx_instance_data ids (cw_db w) fuel Hk Hfuel) (λ t _, eq_refl)) as Hrun.
  unfold delete_instance_data. destruct (in_transaction _ w) as [[d|e] w']; [|done].
  destruct (cw_aborted w'); [done|]. intros t Ht. by apply all_finished_cleaned.
Qed.

(** *** What the patterns match *)

Lemma like_percent fuel p a s :
  like (Datatypes.S fuel) (String "%" p) (String a s) = like fuel p (String a s) || like fuel (String "%" p) (drop_chars (char_len a - 1) s).
Proof. done. Qed.

Lemma like_any n : ∀ s fuel, (String.length s ≤ n)%nat → (n + 2 ≤ fuel)%nat → like fuel "%" s = true.
Proof.
  induction n as [|n IH]; intros s fuel Hs Hf; (destruct fuel as [|fuel]; [lia|]); (destruct s as [|a s]; [by destruct fuel; [lia|]|]).
  { cbn in Hs. lia. }
  rewrite like_percent. apply orb_true_iff. right. apply IH; [|lia].
  assert (Hd : ∀ k, (String.length (drop_chars k s) ≤ String.length s)%nat).
  { clear. induction s as [|b s IH]; intros [|k]; cbn; try lia. specialize (IH k). lia. }
  specialize (Hd (char_len a - 1)%nat). cbn in Hs. lia.
Qed.

Lemma char_len_ascii a : is_ascii a = true → char_len a = 1%nat.
Proof.
  unfold char_len, is_ascii, ascii_between. intros [_ Ha%Nat.leb_le]%andb_true_iff.
  destruct (Nat.leb_spec (nat_of_ascii a) 191); [done|lia].
Qed.

Lemma like_before_at (s t : string) fuel :
  str_forallb is_ascii s = true → (String.length s + String.length t + 5 ≤ fuel)%nat → like fuel "%@%" (s +:+ String "@" t) = true.
Proof.
  revert fuel. induction s as [|a s IH]; intros fuel Hs Hf.
  - change ("" +:+ String "@" t) with (String "@" t). destruct fuel as [|[|fuel]]; cbn in Hf; [lia..|].
    rewrite like_percent. apply orb_true_iff. left.
    change (like (Datatypes.S fuel) "@%" (String "@" t)) with (like fuel "%" t). apply (like_any (String.length t)); [done|lia].
  - cbn in Hs. apply andb_true_iff in Hs as [Ha Hs]. rewrite string_app_cons. destruct fuel as [|fuel]; [lia|]. cbn in Hf.
    rewrite like_percent, (char_len_ascii _ Ha). apply orb_true_iff. right. apply IH; [done|lia].
Qed.

(** Any address that starts with [test] and has another character before the sign. *)
Lemma test_pattern_matches a s t :
  is_ascii a = true → str_forallb is_ascii s = true → sql_like "test_%@%" ("test" +:+ String a (s +:+ String "@" t)) = true.
Proof.
  intros Ha Hs. unfold sql_like.
  assert (Hlen : (String.length ("test" +:+ String a (s +:+ String "@" t)) = 6 + String.length s + String.length t)%nat).
  { rewrite string_length_app. cbn. rewrite string_length_app. cbn. lia. }
  rewrite Hlen. change (String.length "test_%@%") with 8%nat.
  assert (Hgo : ∀ f x, like (5 + f) "test_%@%" ("test" +:+ String a x) = like f "%@%" (drop_chars (char_len a - 1) x)) by done.
  replace (Datatypes.S _) with (5 + (10 + String.length s + String.length t))%nat by lia. rewrite Hgo.
  rewrite (char_len_ascii _ Ha). apply like_before_at; [done|lia].
Qed.

(** A user whose address starts like that is deleted with the test users, whatever the rest
    of the address, unless the deletion fails, or it is the user of the clean-up. *)
Theorem names_like_tests_are_deleted (email : string) (a : ascii) (s t : string) (r : DbRow) w :
  keyed "id" (rows_of "instance_users" (cw_db w)) → r ∈ rows_of "instance_users" (cw_db w) →
  r !! "email" = Some (Text ("test" +:+ String a (s +:+ String "@" t))) → is_ascii a = true → str_forallb is_ascii s = true →
  db_lower ("test" +:+ String a (s +:+ String "@" t)) ≠ db_lower email →
  let '(result, w') := delete_test_data email w in
  match result with
  | Ok _ => cw_aborted w' = false → r ∉ rows_of "instance_users" (cw_db w')
  | Err e => e ≠ LoopCut ∧ cw_db w' = cw_db w
  end.
Proof.
  intros Hk Hr He Ha Hs Hne.
  assert (Hstart : no_users email (rows_of "instance_users" (cw_db w)) [] (cw_db w)) by (split; [done|intros ? ? []%elem_of_nil]).
  pose proof (in_transaction_spec _ _ _ w (tx_test_data_users email _ Hk) Hstart) as Hrun.
  unfold delete_test_data. destruct (in_transaction _ w) as [[n|e] w']; [|done]. intros Hl. rewrite Hl in Hrun.
  destruct Hrun as [_ Hno]. intros Hin. assert (Hp : "test_%@%" ∈ rev test_email_patterns) by (cbn; member).
  specialize (Hno _ _ Hp Hin). unfold is_test_user in Hno. rewrite He in Hno. cbn [cell_text] in Hno.
  rewrite test_pattern_matches, bool_decide_false in Hno; done.
Qed.

(** *** Test publishers *)

Section publishers.
Context (email : string) (r0 : DbRow) (e0 : string) (u0 : Uuid).
Context (Hinstance : r0 !! "instance_id" = None) (Hemail : r0 !! "email" = Some (Text e0)) (Hid : r0 !! "id" = Some (Id u0)).

(** There are no API keys in a table of their own, and the publisher is there. *)
Definition publisher_stays tx : Prop := tx !! "api_keys" = None ∧ r0 ∈ rows_of "publishers" tx.

Lemma publisher_keeps t p tx tx' :
  (t = "publishers" → p r0 = false) → publisher_stays tx → deletion t p tx = Ok tx' → publisher_stays tx'.
Proof.
  intros Hp [Hno Hin] Hd. split; [by apply (deletion_tables _ _ _ _ _ Hd)|]. unfold rows_of in *. destruct (decide (t = "publishers")) as [->|Hne].
  - rewrite (deletion_rows _ _ _ _ Hd). destruct (tx !! "publishers"); [|done]. cbn in *. apply elem_of_list_filter_bool.
    by rewrite Hp.
  - rewrite (deletion_kept _ "publishers" _ _ _ Hd); [done|]. by split_and!; [member|congruence|].
Qed.

Lemma publisher_keeps_other t : t ≠ "publishers" → keeps publisher_stays t.
Proof. intros Ht p tx tx' Hp. by apply publisher_keeps. Qed.

Lemma publisher_test_instances l : tx_spec publisher_stays (delete_test_instances l) (λ _, publisher_stays).
Proof.
  unfold delete_test_instances. apply (tx_bind _ (λ _, publisher_stays)).
  { apply tx_on_tx. intros tx n tx' Hp Hf. destruct (query ["publishers"] _ tx); [|done]. cbn in Hf. unfold deleting in Hf.
    destruct (query ["leads"] _ tx); [|done]. cbn in Hf. destruct (deletion _ _ tx) eqn:Hd; [|done]. injection Hf as _ <-.
    by eapply publisher_keeps in Hd. }
  intros _. apply (tx_bind _ (λ _, publisher_stays)).
  { apply tx_delete. intros tx tx' Hp _. apply publisher_keeps; [|done]. intros _. unfold among. by rewrite Hinstance. }
  intros _. do 4 (apply (tx_bind _ (λ _, publisher_stays)); [by apply tx_delete_keeps, publisher_keeps_other|]; intros _). by apply tx_ret.
Qed.

Lemma publisher_test_users p n : tx_spec publisher_stays (delete_test_users email p n) (λ _, publisher_stays).
Proof.
  unfold delete_test_users. apply (tx_bind _ (λ _, publisher_stays)); [eapply tx_post; [|apply tx_select]; by intros ? ? (? & _)|].
  intros found. case_bool_decide; [by apply tx_ret|].
  apply (tx_bind _ (λ _, publisher_stays)); [eapply tx_post; [|apply tx_select]; by intros ? ? (? & _)|]. intros instances.
  apply (tx_bind _ (λ _, publisher_stays)); [case_bool_decide; [by apply tx_ret|apply publisher_test_instances]|]. intros _.
  do 3 (apply (tx_bind _ (λ _, publisher_stays)); [by apply tx_delete_keeps, publisher_keeps_other|]; intros ?). by apply tx_ret.
Qed.

Definition unmatched (past : list string) tx : Prop := publisher_stays tx ∧ ∀ p, p ∈ past → sql_like p e0 = false.

Lemma publisher_test_publishers p past n : tx_spec (unmatched past) (delete_test_publishers email p n) (λ _, unmatched (p :: past)).
Proof.
  unfold delete_test_publishers.
  apply (tx_bind _ (λ found tx, unmatched past tx ∧ (sql_like p e0 = true → u0 ∈ found))).
  { eapply tx_post; [|apply tx_select]. intros found tx (Hu & -> & _). split; [done|]. intros Hp. apply list_elem_of_omap. exists r0.
    split; [|by rewrite Hid]. apply elem_of_list_filter_bool. split; [by apply Hu|]. unfold is_test_publisher, among.
    rewrite Hemail, Hinstance. cbn [cell_text cell_id negb]. by rewrite Hp. }
  intros found. case_bool_decide as Hnil.
  { subst. apply tx_ret. intros tx [[Hs Hpast] Hfound]. split; [done|]. intros q [->|Hq]%elem_of_cons; [|by apply Hpast].
    destruct (sql_like p e0); [|done]. by destruct (proj1 (elem_of_nil _) (Hfound eq_refl)). }
  apply (tx_bind _ (λ _, publisher_stays)).
  { apply tx_delete. intros tx tx' [[Hs _] _] _. by apply publisher_keeps. }
  intros _. apply (tx_bind _ (λ _ _, False)); [apply tx_delete; intros tx tx' [Hno _] [? Hsome]; congruence|].
  intros _. apply (tx_bind _ (λ _ _, False)); [by apply tx_delete|]. intros ?. by apply tx_ret.
Qed.
End publishers.

(** Without a table [api_keys] the test data cannot be deleted as soon as there is a test
    publisher without an instance: the statement on that table is not guarded, and the
    whole transaction is rolled back. *)
Theorem test_cleanup_needs_api_keys (email e : string) (u : Uuid) (r : DbRow) (p : string) w :
  cw_db w !! "api_keys" = None → r ∈ rows_of "publishers" (cw_db w) →
  r !! "id" = Some (Id u) → r !! "email" = Some (Text e) → r !! "instance_id" = None →
  p ∈ test_publisher_patterns → sql_like p e = true →
  cw_db (delete_test_data email w).2 = cw_db w.
Proof.
  intros Hno Hin Hid Hemail Hinst Hp Hlike.
  assert (Hspec : tx_spec (publisher_stays r)
    (n ← accumulate (delete_test_users email) test_email_patterns 0; accumulate (delete_test_publishers email) test_publisher_patterns n) (λ _ _, False)).
  { apply (tx_bind _ (λ _, publisher_stays r)).
    - eapply (tx_post _ _ _ _), (tx_accumulate (λ _, publisher_stays r) _ _ []); [done|]. intros. by apply publisher_test_users.
    - intros n. eapply tx_post; [|eapply (tx_pre (unmatched r e [])); [|apply (tx_accumulate (unmatched r e))]].
      + intros _ tx [_ Hall]. rewrite (Hall p) in Hlike; [done|]. rewrite app_nil_r. by apply list_elem_of_In, (proj1 (List.in_rev _ _)), list_elem_of_In.
      + intros tx Htx. split; [done|]. by intros ? ?%elem_of_nil.
      + intros. by eapply publisher_test_publishers. }
  pose proof (in_transaction_spec _ _ _ w Hspec (conj Hno Hin)) as Hrun.
  unfold delete_test_data. destruct (in_transaction _ w) as [[n|e'] w']; [|by apply Hrun]. by destruct (cw_aborted w').
Qed.
End claims.

(** ** A reference database and witnesses *)

(** Without foreign keys: only the rows of the table go. *)
Definition reference_deletion : Deletion := {| deletion := λ t p db, Ok (alter (List.filter (λ r, negb (p r))) t db) |}.

Lemma reference_deletion_laws : DeletionLaws (H := reference_deletion).
Proof.
  constructor; cbn [deletion reference_deletion].
  - intros t p db db' [= <-]. by rewrite lookup_alter_eq.
  - intros t t' p db db' [= <-] (_ & Hne & _). by rewrite lookup_alter_ne.
  - intros t t' p db db' [= <-] Hn. rewrite lookup_alter_None. done.
Qed.

Definition sample_row (cells : list (string * Cell)) : DbRow := list_to_map cells.
Definition sample_user_row (id : Uuid) (email : string) : DbRow := sample_row [("id", Id id); ("email", Text email)].
Definition owned_row (id instance_id : Uuid) : DbRow := sample_row [("id", Id id); ("instance_id", Id instance_id)].
Definition sample_lead_row (uuid publisher_id : Uuid) : DbRow := sample_row [("uuid", Id uuid); ("publisher_id", Id publisher_id)].
(** A publisher without an instance. *)
Definition orphan_publisher : DbRow := sample_row [("id", Id 300%N); ("email", Text "publisher_7@site.com")].

(** The user of the clean-up, and one whose address starts like a test user's. *)
Definition clean_email : string := "boris@leadsnebula.com".
Definition testimony : DbRow := sample_user_row 2 "testimony@acme.com".

Definition sample_tables (publishers : list DbRow) : Tables := list_to_map [
  ("instance_users", [sample_user_row 1 clean_email; testimony]);
  ("instances", [sample_row [("id", Id 10%N); ("instance_user_id", Id 1%N)]; sample_row [("id", Id 20%N); ("instance_user_id", Id 2%N)]]);
  ("publishers", publishers);
  ("leads", [sample_lead_row 1 100; sample_lead_row 2 200; sample_lead_row 3 100]);
  ("pings", [sample_row [("lead_id", Id 1%N)]; sample_row [("lead_id", Id 2%N)]]);
  ("buyers", [owned_row 100 10; owned_row 200 20]); ("campaigns", [owned_row 100 10; owned_row 200 20]);
  ("ping_trees", [owned_row 100 10]); ("ping_tree_campaigns", [sample_row [("ping_tree_id", Id 100%N)]]);
  ("webauthn_credentials", []); ("user_otp_settings", [])].
Definition sample_clean_world (publishers : list DbRow) : CleanWorld :=
  {| cw_db := sample_tables publishers; cw_tx := ∅; cw_aborted := false; cw_outcomes := [] |}.

Lemma keyed_check key rows :
  bool_decide (NoDup ((λ r, cell_id (r !! key)) <$> rows)) && forallb (λ r, bool_decide (is_Some (cell_id (r !! key)))) rows = true → keyed key rows.
Proof.
  intros [Hnd Hall]%andb_true_iff. split; [by apply bool_decide_eq_true in Hnd|]. intros r Hr.
  apply list_elem_of_In, (proj1 (List.forallb_forall _ _) Hall r), bool_decide_eq_true in Hr. done.
Qed.

Lemma rows_of_Some t db rows : db !! t = Some rows → rows_of t db = rows.
Proof. unfold rows_of. by intros ->. Qed.

Lemma cleanup_exact_or_nothing_witness :
  let run := delete_instance_data (H0 := reference_deletion) 4 [10%N] (sample_clean_world [owned_row 100 10; owned_row 200 20]) in
  run.1 = Ok {| leads_deleted := 2; publishers_deleted := 1; buyers_deleted := 1; campaigns_deleted := 1; ping_trees_deleted := 1 |}
  ∧ ∀ t, t ∈ core_tables → cw_db run.2 !! t = cleaned [10%N] (sample_tables [owned_row 100 10; owned_row 200 20]) t.
Proof.
  intros run. set (w := sample_clean_world [owned_row 100 10; owned_row 200 20]).
  assert (Hk : keyed_tables (cw_db w)).
  { assert (H : Forall (λ t, ∀ rows, cw_db w !! t = Some rows → keyed (key_of t) rows) core_tables).
    { repeat (apply Forall_cons; split; [intros rows Hr; rewrite <-(rows_of_Some _ _ _ Hr); apply keyed_check; vm_compute; reflexivity|]). constructor. }
    intros t rows Ht. rewrite Forall_forall in H. by apply H. }
  assert (Hf : (length (rows_of "leads" (cw_db w)) < 4)%nat) by (vm_compute; lia).
  pose proof (cleanup_exact_or_nothing (D := reference_deletion) (L := reference_deletion_laws) 4 [10%N] w Hk Hf) as Hrun.
  assert (Hok : run.1 = Ok {| leads_deleted := 2; publishers_deleted := 1; buyers_deleted := 1; campaigns_deleted := 1; ping_trees_deleted := 1 |})
    by (vm_compute; reflexivity).
  assert (Ha : cw_aborted run.2 = false) by (vm_compute; reflexivity).
  split; [exact Hok|]. subst run w. destruct (delete_instance_data _ _ _) as [result w']. cbn in Hok, Ha, Hrun |- *.
  rewrite Hok, Ha in Hrun. exact Hrun.
Defined.

Lemma names_like_tests_are_deleted_witness :
  let run := delete_test_data (H := report_lib) (H0 := reference_deletion) clean_email (sample_clean_world [owned_row 100 10; owned_row 200 20]) in
  run.1 = Ok 1%nat ∧ testimony ∉ rows_of "instance_users" (cw_db run.2) ∧ rows_of "publishers" (cw_db run.2) = [owned_row 100 10].
Proof.
  intros run. set (w := sample_clean_world [owned_row 100 10; owned_row 200 20]).
  assert (Hk : keyed "id" (rows_of "instance_users" (cw_db w))) by (apply keyed_check; vm_compute; reflexivity).
  assert (Hin : testimony ∈ rows_of "instance_users" (cw_db w)) by (cbn; member).
  assert (Hne : db_lower (ReportLib := report_lib) ("test" +:+ String "i" ("mony" +:+ String "@" "acme.com")) ≠ db_lower (ReportLib := report_lib) clean_email)
    by (vm_compute; discriminate).
  pose proof (names_like_tests_are_deleted (D := reference_deletion) (L := reference_deletion_laws) (R := report_lib) clean_email "i" "mony" "acme.com"
    testimony w Hk Hin eq_refl eq_refl eq_refl Hne) as Hrun.
  assert (Hok : run.1 = Ok 1%nat) by (vm_compute; reflexivity).
  assert (Ha : cw_aborted run.2 = false) by (vm_compute; reflexivity).
  assert (Hpub : rows_of "publishers" (cw_db run.2) = [owned_row 100 10]) by (vm_compute; reflexivity).
  split; [exact Hok|]. split; [|exact Hpub]. subst run w. destruct (delete_test_data _ _) as [result w']. cbn in Hok, Ha, Hrun |- *.
  rewrite Hok in Hrun. by apply Hrun.
Defined.

Lemma test_cleanup_needs_api_keys_witness :
  let w := sample_clean_world [owned_row 100 10; orphan_publisher] in
  let run := delete_test_data (H := report_lib) (H0 := reference_deletion) clean_email w in
  run.1 = Err (Sql "relation api_keys does not exist") ∧ cw_db run.2 = cw_db w.
Proof.
  intros w run. split; [vm_compute; reflexivity|].
  apply (test_cleanup_needs_api_keys (D := reference_deletion) (L := reference_deletion_laws) (R := report_lib) clean_email
    "publisher_7@site.com" 300 orphan_publisher "publisher_%@%"); try reflexivity.
  - cbn. member.
  - cbn. member.
Defined.
