(* ===== verification/PreChecks.v ===== *)
(** * The configuration behind a request

    [crates/api/src/routes/leads.rs], lines 2065-2411: the query that finds the
    campaign and the buyer of a new lead, on the tables of the configuration, the
    fallback that follows it, and the other rows the handler reads when there is no
    cache.  A [LIMIT 1] without an [ORDER BY] may return any row, so the rows of the
    query are a list, and the theorems speak of all of them. *)

From stdpp Require Import base list strings gmap.
From Stdlib Require Import ZArith Lia.
From S2P Require Import Prelude Float64 Platform Json Models Metrics Samples Qualification Store Response Auction.
From S2P Require Import Pulsar BuyerRouter PingTreeRouter WriteBehind LeadRequest LeadHandler.

Open Scope string_scope.
Open Scope list_scope.

(** ** Definitions *)

Record Configuration : Type := {
  cfg_tables : Tables;
  cfg_verticals : list Vertical;
  cfg_publishers : list Publisher
}.

(** [LEFT JOIN]: the rows that match, or one row of [NULL]s. *)
Definition left_join {A} (rows : list A) : list (option A) :=
  match rows with [] => [None] | _ => Some <$> rows end.

Section queries.
Context (cfg : Configuration) (publisher : Uuid) (slug : string).

(** [Vertical::find_by_slug]; slugs are unique. *)
Definition find_by_slug : option Vertical :=
  List.find (λ v, String.eqb (vertical_slug v) slug && vertical_is_active v) (cfg_verticals cfg).

(** [buyers b WHERE b.vertical_id = (SELECT v.id ...) AND b.deleted_at IS NULL]. *)
Definition vertical_buyers : list Buyer :=
  List.filter (λ b, bool_decide (is_Some find_by_slug)
                    && bool_decide (buyer_vertical_id b = vertical_id <$> find_by_slug)
                    && bool_decide (buyer_deleted_at b = None)) (buyers (cfg_tables cfg)).

(** The condition of the join with [campaigns]: the campaign of the token, or a
    campaign of the vertical whose buyer is one of the vertical's. *)
Definition request_campaign (token : string) (c : Campaign) : bool :=
  ((String.eqb (campaign_campaign_token c) token && negb (String.eqb token "")
    && bool_decide (campaign_publisher_id c = publisher))
   || (String.eqb (campaign_vertical c) slug && bool_decide (campaign_publisher_id c = publisher)
       && existsb (λ b, bool_decide (buyer_id b = campaign_buyer_id c)) vertical_buyers))
  && bool_decide (campaign_deleted_at c = None).

Definition request_campaigns (token : string) : list Campaign :=
  List.filter (request_campaign token) (campaigns (cfg_tables cfg)).

(** The active trees the publisher is assigned to for the vertical. *)
Definition publisher_trees : list PingTree :=
  ptp ← ping_tree_publishers (cfg_tables cfg);
  pt ← ping_trees (cfg_tables cfg);
  if bool_decide (tree_id pt = ptp_ping_tree_id ptp) && bool_decide (ptp_publisher_id ptp = publisher)
     && String.eqb (ptp_vertical ptp) slug && String.eqb (tree_status pt) "active"
     && bool_decide (tree_deleted_at pt = None)
  then [pt] else [].

Definition has_ping_tree : bool := negb (bool_decide (publisher_trees = [])).

(** [b_ping_tree]: the buyers of the active campaigns of those trees. *)
Definition tree_buyers : list Uuid :=
  pt ← publisher_trees;
  ptc ← ping_tree_campaigns (cfg_tables cfg);
  c ← campaigns (cfg_tables cfg);
  if bool_decide (ptc_ping_tree_id ptc = tree_id pt) && bool_decide (campaign_id c = ptc_campaign_id ptc)
     && ptc_enabled ptc && bool_decide (campaign_status c = CampaignActive)
     && bool_decide (campaign_deleted_at c = None)
  then [campaign_buyer_id c] else [].

(** The rows of the pre-check query: campaign, effective buyer, ping tree. *)
Definition precheck_rows (token : string) : list (option Uuid * option Uuid * bool) :=
  c ← left_join (request_campaigns token);
  t ← left_join tree_buyers;
  v ← left_join (match c, t with None, None => vertical_buyers | _, _ => [] end);
  [(campaign_id <$> c, coalesce (campaign_buyer_id <$> c) (coalesce t (buyer_id <$> v)), has_ping_tree)].

(** The names the handler shows. *)
Definition buyer_name_of (id : Uuid) : option string :=
  buyer_name <$> List.find (λ b, bool_decide (buyer_id b = id) && bool_decide (buyer_deleted_at b = None))
                   (buyers (cfg_tables cfg)).

Definition campaign_name_of (id : Uuid) : option string :=
  c ← List.find (λ c, bool_decide (campaign_id c = id) && bool_decide (campaign_deleted_at c = None))
        (campaigns (cfg_tables cfg));
  campaign_name c.

(** [persist_failed_lead]: a campaign of the publisher's instance, of the vertical
    when there is one; buyer and campaign. *)
Definition instance_campaign : Result string (option (Uuid * Uuid)) :=
  match List.find (λ p, bool_decide (publisher_id p = publisher) && bool_decide (publisher_deleted_at p = None))
          (cfg_publishers cfg) with
  | None => Err "no column found for name: publisher instance"
  | Some p =>
      let of_instance c := bool_decide (campaign_instance_id c = publisher_instance_id p)
                           && bool_decide (campaign_deleted_at c = None) in
      let ids c := (campaign_buyer_id c, campaign_id c) in
      Ok (match List.find (λ c, of_instance c && String.eqb (campaign_vertical c) slug) (campaigns (cfg_tables cfg)) with
          | Some c => Some (ids c)
          | None => ids <$> List.find of_instance (campaigns (cfg_tables cfg))
          end)
  end.
End queries.

(** The handler's reads without a cache, from the configuration; where a query may
    return any of several rows, the first one. *)
Definition loads_of_configuration (cfg : Configuration) (key : option string) (rq : Request) : RequestLoads :=
  let publisher := req_publisher_id rq in
  let slug := ld_vertical (req_lead rq) in {|
  rl_vertical := Ok (find_by_slug cfg slug);
  rl_cached_lead := None;
  rl_prechecks := Ok (head (precheck_rows cfg publisher slug (default "" (ld_campaign_token (req_lead rq)))));
  rl_fallback_buyer := Ok (buyer_id <$> head (vertical_buyers cfg slug));
  rl_key := key;
  rl_route := loads_of_tables (cfg_tables cfg) publisher slug;
  rl_buyer_name := buyer_name_of cfg;
  rl_campaign_name := campaign_name_of cfg;
  rl_instance_campaign := instance_campaign cfg publisher slug
|}.

(** ** Lemmas *)

Lemma and_iff_compat_dep (A B C : Prop) : (A → B ↔ C) → A ∧ B ↔ A ∧ C.
Proof. tauto. Qed.

Lemma elem_of_left_join {A} (rows : list A) (o : option A) :
  o ∈ left_join rows ↔ match o with Some a => a ∈ rows | None => rows = [] end.
Proof.
  destruct rows as [|a rows]; unfold left_join.
  - rewrite list_elem_of_singleton. destruct o; [|done]. split; [done|by intros ?%elem_of_nil].
  - rewrite list_elem_of_fmap. destruct o; naive_solver.
Qed.

Lemma left_join_inhabited {A} (rows : list A) : ∃ o, o ∈ left_join rows.
Proof. destruct rows as [|a rows]; [exists None|exists (Some a)]; by left. Qed.

Section lemmas.
Context (cfg : Configuration) (publisher : Uuid) (slug : string).

(** A live buyer of the vertical. *)
Definition of_vertical (b : Buyer) : Prop :=
  b ∈ buyers (cfg_tables cfg) ∧ buyer_deleted_at b = None ∧
  ∃ v, find_by_slug cfg slug = Some v ∧ buyer_vertical_id b = Some (vertical_id v).

Lemma elem_of_vertical_buyers b : b ∈ vertical_buyers cfg slug ↔ of_vertical b.
Proof.
  unfold vertical_buyers, of_vertical. rewrite elem_of_list_filter_bool.
  destruct (find_by_slug cfg slug) as [v|]; simpl.
  - rewrite !andb_true_iff, !bool_decide_eq_true. naive_solver.
  - split; [by intros [_ ?]|naive_solver].
Qed.

(** A live campaign of the publisher, with the token or for the vertical. *)
Definition may_choose (token : string) (c : Campaign) : Prop :=
  c ∈ campaigns (cfg_tables cfg) ∧ campaign_publisher_id c = publisher ∧ campaign_deleted_at c = None ∧
  ((token ≠ "" ∧ campaign_campaign_token c = token) ∨
   (campaign_vertical c = slug ∧ ∃ b, of_vertical b ∧ buyer_id b = campaign_buyer_id c)).

Lemma elem_of_request_campaigns token c : c ∈ request_campaigns cfg publisher slug token ↔ may_choose token c.
Proof.
  unfold request_campaigns, request_campaign, may_choose. rewrite elem_of_list_filter_bool.
  rewrite andb_true_iff, orb_true_iff, !andb_true_iff, negb_true_iff, !bool_decide_eq_true, existsb_exists,
    !String.eqb_eq, String.eqb_neq.
  setoid_rewrite <-list_elem_of_In. setoid_rewrite elem_of_vertical_buyers. setoid_rewrite bool_decide_eq_true.
  naive_solver.
Qed.

Lemma request_campaigns_nil token :
  request_campaigns cfg publisher slug token = [] ↔ ∀ c, ¬ may_choose token c.
Proof.
  setoid_rewrite <-elem_of_request_campaigns. split; [by intros -> c ?%elem_of_nil|apply elem_of_nil_inv].
Qed.

Lemma elem_of_precheck_rows token r :
  r ∈ precheck_rows cfg publisher slug token ↔
  ∃ c t v, c ∈ left_join (request_campaigns cfg publisher slug token) ∧ t ∈ left_join (tree_buyers cfg publisher slug) ∧
    v ∈ left_join (match c, t with None, None => vertical_buyers cfg slug | _, _ => [] end) ∧
    r = (campaign_id <$> c, coalesce (campaign_buyer_id <$> c) (coalesce t (buyer_id <$> v)),
         has_ping_tree cfg publisher slug).
Proof.
  unfold precheck_rows. rewrite list_elem_of_bind. setoid_rewrite list_elem_of_bind.
  setoid_rewrite list_elem_of_bind. setoid_rewrite list_elem_of_singleton. naive_solver.
Qed.

(** The buyer is missing exactly when neither the trees nor the vertical have one. *)
Lemma precheck_row_without_campaign token b tree :
  (None, b, tree) ∈ precheck_rows cfg publisher slug token →
  request_campaigns cfg publisher slug token = [] ∧
  match b with
  | Some u => u ∈ tree_buyers cfg publisher slug ∨
              (tree_buyers cfg publisher slug = [] ∧ ∃ b', b' ∈ vertical_buyers cfg slug ∧ buyer_id b' = u)
  | None => tree_buyers cfg publisher slug = [] ∧ vertical_buyers cfg slug = []
  end.
Proof.
  rewrite elem_of_precheck_rows. intros (c & t & v & Hc & Ht & Hv & Hr). destruct c as [c|]; [done|].
  apply elem_of_left_join in Hc, Ht, Hv. destruct t as [t|], v as [v|]; simplify_eq/=; split; eauto 6.
Qed.

(** A campaign in the row is one the query may choose, with its buyer. *)
Lemma precheck_row_campaign token id b tree :
  (Some id, b, tree) ∈ precheck_rows cfg publisher slug token →
  ∃ c, may_choose token c ∧ campaign_id c = id ∧ b = Some (campaign_buyer_id c).
Proof.
  rewrite elem_of_precheck_rows. intros (c & t & v & Hc & _ & _ & Hr). destruct c as [c|]; simplify_eq/=.
  apply elem_of_left_join, elem_of_request_campaigns in Hc. eauto.
Qed.

Lemma has_ping_tree_spec :
  has_ping_tree cfg publisher slug = true ↔ ∃ pt, pt ∈ publisher_trees cfg publisher slug.
Proof.
  unfold has_ping_tree. rewrite negb_true_iff, bool_decide_eq_false.
  destruct (publisher_trees cfg publisher slug) as [|pt l]; split; try done.
  - intros [pt Hpt]. by apply elem_of_nil in Hpt.
  - intros _. exists pt. by left.
Qed.
End lemmas.

(** ** Properties *)

Section properties.
Context (cfg : Configuration) (publisher : Uuid) (slug : string).

(** what the pre-checks find.  The query always has a row, so the fallback for
    no row never runs.  Its campaign is a live campaign of the publisher, of the
    token or of the vertical with a live buyer of the vertical, and the buyer is
    that campaign's; without such a campaign the buyer is one of the publisher's
    active ping trees, else one of the vertical, else missing because there is
    neither. *)
Theorem precheck_rows_spec (token : string) :
  precheck_rows cfg publisher slug token ≠ [] ∧
  ∀ c b tree, (c, b, tree) ∈ precheck_rows cfg publisher slug token →
    (tree = true ↔ ∃ pt, pt ∈ publisher_trees cfg publisher slug) ∧
    match c with
    | Some id => ∃ camp, may_choose cfg publisher slug token camp ∧ campaign_id camp = id ∧
                         b = Some (campaign_buyer_id camp)
    | None =>
        (∀ camp, ¬ may_choose cfg publisher slug token camp) ∧
        match b with
        | Some u => u ∈ tree_buyers cfg publisher slug ∨
                    (tree_buyers cfg publisher slug = [] ∧ ∃ b', of_vertical cfg slug b' ∧ buyer_id b' = u)
        | None => tree_buyers cfg publisher slug = [] ∧ ∀ b', ¬ of_vertical cfg slug b'
        end
    end.
Proof.
  split.
  - destruct (left_join_inhabited (request_campaigns cfg publisher slug token)) as [c Hc],
      (left_join_inhabited (tree_buyers cfg publisher slug)) as [t Ht],
      (left_join_inhabited (match c, t with None, None => vertical_buyers cfg slug | _, _ => [] end)) as [v Hv].
    intros Hnil. eapply not_elem_of_nil. rewrite <-Hnil. apply elem_of_precheck_rows.
    exists c, t, v. split_and!; try done. by destruct c.
  - intros c b tree Hr. split.
    { apply elem_of_precheck_rows in Hr as (? & ? & ? & _ & _ & _ & Hr). injection Hr as _ _ ->.
      apply has_ping_tree_spec. }
    destruct c as [id|].
    + by apply precheck_row_campaign in Hr.
    + apply precheck_row_without_campaign in Hr as [Hnone Hb]. split.
      { by apply request_campaigns_nil. }
      destruct b as [u|].
      * destruct Hb as [|(? & b' & Hb' & ?)]; [by left|right]. rewrite elem_of_vertical_buyers in Hb'. eauto.
      * destruct Hb as [? Hb]. split; [done|]. intros b' Hb'. apply elem_of_vertical_buyers in Hb'.
        rewrite Hb in Hb'. by apply elem_of_nil in Hb'.
Qed.

(** C8: the panic of a new lead, by configuration.  Whichever row the pre-check query
    returns, the handler panics over the campaign exactly when the request has no
    campaign token, the publisher has no live campaign of the vertical with a live
    buyer, and a buyer is found through a ping tree or the vertical.  The only other
    way it ends without an answer is the panic of the winner selection. *)
Theorem create_panics_on_configuration `{Platform} (lib : ApiLib) (sv : Services) (codec : Codec)
    (retry_spawn : service unit → service unit) `{!RetryLaws retry_spawn} (ld : RequestLoads) (d : RequestDraws)
    (rq : Request) (vertical : Vertical) (request_type : string) (minimal async verbose : bool) (w : World)
    (row : option Uuid * option Uuid * bool) :
  let token := default "" (ld_campaign_token (req_lead rq)) in
  let result := (handle_create lib sv codec retry_spawn ld d rq vertical request_type minimal async verbose w).1 in
  rl_prechecks ld = Ok (Some row) → row ∈ precheck_rows cfg publisher slug token →
  (result = Err (Panicked campaign_missing) ↔
   ld_campaign_token (req_lead rq) = None ∧ (∀ c, ¬ may_choose cfg publisher slug "" c) ∧
   ((∃ u, u ∈ tree_buyers cfg publisher slug) ∨ ∃ b, of_vertical cfg slug b)) ∧
  (∀ f, result = Err f → f = Panicked campaign_missing ∨ ∃ e, f = Panicked e ∧ winner_panic e).
Proof.
  intros token result Hrow Hin.
  destruct (handle_create_ends lib sv codec retry_spawn ld d rq vertical request_type minimal async verbose w)
    as [Hends Hother].
  split; [|exact Hother]. unfold result. rewrite Hends. apply and_iff_compat_dep. intros Htoken.
  subst token. rewrite Htoken in Hin. rewrite Hrow. split.
  - intros [(b & t & [= ->])|(? & ? & _)]; [|done].
    apply precheck_row_without_campaign in Hin as [Hnone Hb]. split.
    + by apply request_campaigns_nil.
    + destruct Hb as [|(_ & b' & Hb' & _)]; [by left; exists b|right].
      exists b'. by apply elem_of_vertical_buyers.
  - intros [Hnone Hbuyer]. left. destruct row as [[[id|] b] t].
    { destruct (precheck_row_campaign _ _ _ _ _ _ _ Hin) as (c & Hc & _). by destruct (Hnone c). }
    apply precheck_row_without_campaign in Hin as [_ Hb]. destruct b as [b|]; [by exists b, t|].
    destruct Hb as [Ht Hv]. destruct Hbuyer as [[u Hu]|[b Hb]].
    + rewrite Ht in Hu. by apply elem_of_nil in Hu.
    + apply elem_of_vertical_buyers in Hb. rewrite Hv in Hb. by apply elem_of_nil in Hb.
Qed.

(** the campaign token does not choose the campaign.  Whatever token a request
    has, be it the token of another campaign of the publisher, a campaign of the
    vertical with a live buyer is among the rows the query may return. *)
Theorem token_does_not_choose (c : Campaign) (token : string) :
  may_choose cfg publisher slug "" c →
  ∃ tree, (Some (campaign_id c), Some (campaign_buyer_id c), tree) ∈ precheck_rows cfg publisher slug token.
Proof.
  intros (Hc & Hp & Hd & [[? _]|Hv]); [done|].
  destruct (left_join_inhabited (tree_buyers cfg publisher slug)) as [t Ht].
  exists (has_ping_tree cfg publisher slug). apply elem_of_precheck_rows. exists (Some c), t, None.
  split_and!; [|done|by apply elem_of_left_join|done].
  apply elem_of_left_join, elem_of_request_campaigns. repeat split; eauto.
Qed.
End properties.

(** ** Witnesses *)

#[local] Existing Instance reference_platform.

Definition solar_buyer : Buyer := {|
  buyer_id := 12%N; buyer_name := "buyer"; buyer_instance_id := 9%N; buyer_instance_user_id := None;
  buyer_vertical_id := Some 4%N; buyer_buyer_integration_id := Some 20%N; buyer_status := BuyerActive;
  buyer_deleted_at := None; buyer_created_at := 0; buyer_updated_at := 0; buyer_contact_info := JNull;
  buyer_ein_tin := None; buyer_address_street := None; buyer_address_city := None; buyer_address_state := None;
  buyer_address_zip := None; buyer_email_address := None; buyer_representative_first_name := None;
  buyer_representative_last_name := None; buyer_documents := JNull; buyer_post_type := None;
  buyer_buyer_type := None
|}.

(** One buyer of the vertical, and the given campaigns. *)
Definition solar_configuration (cs : list Campaign) : Configuration := {|
  cfg_tables := {| ping_trees := []; ping_tree_publishers := []; ping_tree_campaigns := []; campaigns := cs;
                   buyers := [solar_buyer]; buyer_integrations := []; buyer_qualification_configs := [] |};
  cfg_verticals := [sample_vertical];
  cfg_publishers := []
|}.

Lemma solar_buyer_of_vertical cs : of_vertical (solar_configuration cs) "solar" solar_buyer.
Proof. split_and!; [by left|done|by exists sample_vertical]. Qed.

Lemma create_panics_on_configuration_witness :
  let cfg := solar_configuration [] in
  let rq := sample_request "ping" None in
  let ld := loads_of_configuration cfg None rq in
  (handle_create sample_lib pulsar_services sample_codec (reference_retry 3) ld sample_request_draws rq sample_vertical
     "ping" false false false (sample_store [])).1 = Err (Panicked campaign_missing).
Proof.
  intros cfg rq ld.
  apply (create_panics_on_configuration cfg 7%N "solar" sample_lib pulsar_services sample_codec (reference_retry 3)
    ld sample_request_draws rq sample_vertical "ping" false false false (sample_store []) (None, Some 12%N, false)).
  - vm_compute. reflexivity.
  - vm_compute. left.
  - split_and!; [done|intros c [Hc _]; by apply elem_of_nil in Hc|right; eexists; apply solar_buyer_of_vertical].
Defined.

(** Two campaigns of one publisher: with the token of the second, the first may be
    chosen. *)
Lemma token_does_not_choose_witness :
  let first := sample_campaign 2%N 12%N in
  let second := {|
    campaign_id := 3%N; campaign_buyer_id := 12%N; campaign_publisher_id := 7%N; campaign_instance_id := 9%N;
    campaign_name := None; campaign_vertical := "solar"; campaign_campaign_token := "other";
    campaign_status := CampaignActive; campaign_is_documentation_test := false; campaign_deleted_at := None;
    campaign_created_at := 0; campaign_updated_at := 0 |} in
  let cfg := solar_configuration [first; second] in
  request_campaign cfg 7%N "solar" "other" second = true ∧
  ∃ tree, (Some 2%N, Some 12%N, tree) ∈ precheck_rows cfg 7%N "solar" "other".
Proof.
  intros first second cfg. split; [vm_compute; reflexivity|].
  apply (token_does_not_choose cfg 7%N "solar" first "other").
  split_and!; [by left|done|done|right; split; [done|]].
  exists solar_buyer. split; [apply solar_buyer_of_vertical|done].
Defined.
