(* ===== verification/PostClaims.v ===== *)
(** * Concurrent posts of one promise

    [crates/api/src/routes/leads.rs], the claim of lines 1463-1482 and what follows
    it: any number of handlers post the same promise at the same time.  Each
    statement is atomic and statements interleave freely; the updates a handler
    queues run at any later moment, and so do the updates its ping left behind.  The
    statements are those of LeadHandler.v, PingTreeRouter.v and WriteBehind.v.  They are
    all that write the post id of a row that is there, but for the one of a fullpost
    (ping_tree_router.rs 1886), which runs before the answer that tells its promise. *)

From stdpp Require Import base list strings gmap pretty.
From Stdlib Require Import ZArith Lia.
From S2P Require Import Prelude Float64 Platform Json Models Metrics Samples Store Response Auction.
From S2P Require Import Pulsar BuyerRouter PingTreeRouter WriteBehind LeadRequest LeadHandler.

Open Scope string_scope.
Open Scope list_scope.

(** Where a handler is. *)
Inductive Phase : Type :=
  | Waiting
  | Claimed
  (** Not sold: the update that gives the token back is queued. *)
  | Failed
  (** Sold, with the buyer's post id. *)
  | SoldAs (post_id : string)
  (** The routing ended in an error after the claim. *)
  | Stuck
  (** Refused, or the token is given back. *)
  | Done.

Record Posts : Type := {
  posts_world : World;
  posts_phases : list Phase
}.

Definition advance (i : nat) (p : Phase) (w : World) (s : Posts) : Posts :=
  {| posts_world := w; posts_phases := <[i := p]> (posts_phases s) |}.

(** The promise is in the hands of a handler. *)
Definition holds (p : Phase) : bool :=
  match p with Claimed | Failed | SoldAs _ | Stuck => true | Waiting | Done => false end.

(** What happens: a statement of a handler, of the queue, or of somebody else. *)
Inductive PostEvent : Type :=
  | Claims (i : nat)
  | Sells (i : nat) (post_id : string)
  | Refuses (i : nat)
  | Errs (i : nat)
  | GivesBack (i : nat)
  | Confirms (i : nat)
  (** An update of the lead without a token, of the queue or spawned by its ping. *)
  | Updates
  | Elsewhere.

Section posts.
Context `{Platform} (id : Uuid) (promise : string) (draws : nat → RequestDraws) (found : nat → Lead)
  (router : nat → PingTreeRouter).

(** The token of a handler. *)
Definition token (i : nat) : string := inprog_token (draws i).

(** The post id of the row. *)
Definition row_post_id (w : World) : option string := db_leads (w_db w) !! id ≫= lead_post_id.

Inductive post_step : PostEvent → Posts → Posts → Prop :=
  (** An attempt that fails may be made again. *)
  | step_claim i w' res p s :
      posts_phases s !! i = Some Waiting →
      claim_promise (token i) promise id (posts_world s) = (res, w') →
      match res with Ok (Some _) => p = Claimed | Ok None => p = Done | Err _ => p = Waiting ∨ p = Done end →
      post_step (Claims i) s (advance i p w' s)
  (** Any post id the buyer answers with. *)
  | step_sale i post_id w' res s :
      posts_phases s !! i = Some Claimed →
      update_lead_with_post (router i) post_id (posts_world s) = (res, w') →
      post_step (Sells i post_id) s (advance i (match res with Ok _ => SoldAs post_id | Err _ => Stuck end) w' s)
  | step_no_sale i status error w' res s :
      posts_phases s !! i = Some Claimed →
      update_lead_status (router i) status error (posts_world s) = (res, w') →
      post_step (Refuses i) s (advance i (match res with Ok _ => Failed | Err _ => Stuck end) w' s)
  (** A lookup of the routing fails. *)
  | step_error i s :
      posts_phases s !! i = Some Claimed → post_step (Errs i) s (advance i Stuck (posts_world s) s)
  | step_give_back i vertical_data result w' res s :
      posts_phases s !! i = Some Failed → rr_success result && String.eqb (rr_status result) "sold" = false →
      update_lead (post_lead_update (found i) (token i) vertical_data result) (posts_world s) = (res, w') →
      post_step (GivesBack i) s (advance i Done w' s)
  | step_confirm i post_id vertical_data result w' res s :
      posts_phases s !! i = Some (SoldAs post_id) → rr_success result = true → rr_status result = "sold" →
      rr_post_id result = Some post_id →
      update_lead (post_lead_update (found i) (token i) vertical_data result) (posts_world s) = (res, w') →
      post_step (Confirms i) s (advance i (SoldAs post_id) w' s)
  | step_update u late w' res s :
      lu_lead_id u = id → lu_inprog_token u = None → late = update_lead u ∨ late = spawned_sold_update u →
      late (posts_world s) = (res, w') →
      post_step Updates s {| posts_world := w'; posts_phases := posts_phases s |}
  (** Anything else makes the row, or leaves its post id alone. *)
  | step_other w' s :
      db_leads (w_db (posts_world s)) !! id = None ∨ row_post_id w' = row_post_id (posts_world s) →
      post_step Elsewhere s {| posts_world := w'; posts_phases := posts_phases s |}.

(** A run: the states it went through, each with what happened in it, and the last one. *)
Inductive posts_run (n : nat) (w : World) : list (Posts * PostEvent) → Posts → Prop :=
  | run_start : posts_run n w [] {| posts_world := w; posts_phases := replicate n Waiting |}
  | run_next t s e s' : posts_run n w t s → post_step e s s' → posts_run n w (t ++ [(s, e)]) s'.

(** What takes the promise from the handler that holds it: a sale with an empty post id or
    the seller's own token, and an update without a token. *)
Definition disturbs (s : Posts) (e : PostEvent) : Prop :=
  match e with
  | Sells i post_id => post_id = "" ∨ post_id = token i
  | Updates => existsb holds (posts_phases s) = true
  | _ => False
  end.

#[local] Instance disturbs_dec s e : Decision (disturbs s e).
Proof. destruct e; simpl; apply _. Defined.

(** What the row has for a handler that holds the promise. *)
Definition held_post_id (i : nat) (p : Phase) : string :=
  match p with SoldAs post_id => post_id | _ => token i end.

Record posts_inv (s : Posts) : Prop := {
  inv_row i p : posts_phases s !! i = Some p → holds p = true →
    row_post_id (posts_world s) = Some (held_post_id i p);
  inv_sold i post_id : posts_phases s !! i = Some (SoldAs post_id) → post_id ≠ "" ∧ post_id ≠ token i;
  inv_one i j p q : posts_phases s !! i = Some p → posts_phases s !! j = Some q →
    holds p = true → holds q = true → i = j
}.

(** *** What the statements do to the post id of the row *)

Lemma claim_post_id tok w res w' :
  claim_promise tok promise id w = (res, w') →
  (res = Ok (Some (id)) ∧ (row_post_id w = None ∨ row_post_id w = Some "") ∧ row_post_id w' = Some tok) ∨
  ((∀ u, res ≠ Ok (Some u)) ∧ row_post_id w' = row_post_id w).
Proof.
  unfold claim_promise, exec, row_post_id. destruct (w_outcomes w) as [|[e|] rest]; [|intros [= <- <-]; by right|].
  all: destruct (db_leads (w_db w) !! id) as [l|] eqn:Hl; [|intros [= <- <-]; right; simpl; by rewrite Hl];
    destruct (claimable promise (w_now w) l) eqn:Hc; intros [= <- <-]; simpl; [left|right; by rewrite Hl];
    rewrite lookup_alter_eq, Hl; simpl; split_and!; try done;
    unfold claimable, empty_post_id in Hc; destruct (lead_post_id l) as [p|]; [right|by left];
    destruct_andb; f_equal; by apply String.eqb_eq.
Qed.

(** An update of the row by [f], and its post id afterwards. *)
Lemma exec_row_post_id (f : DateTime → Lead → Lead) w res w' (Q : option string → option string → Prop) :
  exec_update (λ now, update_lead_row (f now) (id)) w = (res, w') →
  (∀ p, Q p p) → (∀ l now, Q (lead_post_id l) (lead_post_id (f now l))) → Q (row_post_id w) (row_post_id w').
Proof.
  unfold exec_update, exec, row_post_id. intros Hrun Hrefl Hf.
  destruct (w_outcomes w) as [|[e|] rest]; simplify_eq/=; [|apply Hrefl|].
  all: rewrite lookup_alter_eq; destruct (db_leads (w_db w) !! id) as [l|]; simpl; [apply Hf|apply Hrefl].
Qed.

Lemma sale_post_id r post_id w res w' :
  lead_uuid (ptr_lead r) = id → is_Some (row_post_id w) →
  update_lead_with_post r post_id w = (res, w') →
  match res with Ok _ => row_post_id w' = Some post_id | Err _ => row_post_id w' = row_post_id w end.
Proof.
  unfold update_lead_with_post, exec_update, exec, row_post_id. intros -> [p Hp].
  destruct (w_outcomes w) as [|[e|] rest]; intros [= <- <-]; [|done|].
  all: simpl; rewrite lookup_alter_eq; destruct (db_leads (w_db w) !! id); done.
Qed.

Lemma status_post_id r status error w res w' :
  lead_uuid (ptr_lead r) = id →
  update_lead_status r status error w = (res, w') → row_post_id w' = row_post_id w.
Proof.
  intros Hr. unfold update_lead_status. destruct (_ || _); [|by intros [= <- <-]].
  unfold eff_gets, mbind, eff_bind. rewrite Hr. intros Hrun. symmetry.
  by apply (exec_row_post_id _ w res w' (λ p q, p = q) Hrun).
Qed.

(** The update that gives a token back changes the post id only when it is that token. *)
Lemma token_update_post_id u tok w :
  lu_lead_id u = id → lu_inprog_token u = Some tok → row_post_id w ≠ Some tok →
  row_post_id (update_lead u w).2 = row_post_id w.
Proof.
  intros Hu Ht Hne. destruct (token_update_noop u tok w Ht) as [_ Hdb].
  { rewrite Hu. intros l Hl E. apply Hne. unfold row_post_id. rewrite Hl. done. }
  unfold row_post_id. by rewrite Hdb.
Qed.

(** *** The invariant *)

Context (Hfound : ∀ i, lead_uuid (found i) = id) (Hrouter : ∀ i, lead_uuid (ptr_lead (router i)) = id).

Lemma token_nonempty i : token i ≠ "".
Proof. discriminate. Qed.

Lemma held_nonempty s i p :
  posts_inv s → posts_phases s !! i = Some p → holds p = true → held_post_id i p ≠ "".
Proof. intros Hi Hp Hh. destruct p; simpl; try apply token_nonempty. by destruct (inv_sold s Hi i _ Hp). Qed.

(** Handler [i], that held the promise or takes it when nobody does, holds it on. *)
Lemma advance_holder i p w' s :
  posts_inv s → (∀ j q, posts_phases s !! j = Some q → holds q = true → j = i) →
  (holds p = true → row_post_id w' = Some (held_post_id i p)) →
  (∀ post_id, p = SoldAs post_id → post_id ≠ "" ∧ post_id ≠ token i) → posts_inv (advance i p w' s).
Proof.
  intros Hi Honly Hrow Hsold. split; simpl.
  - intros j q [(<- & -> & _)|[Hne Hq]]%list_lookup_insert_Some Hh; [by apply Hrow|]. destruct Hne. symmetry. by eapply Honly.
  - intros j pid [(<- & Hp & _)|[Hne Hq]]%list_lookup_insert_Some; [by apply Hsold|by eapply (inv_sold s Hi)].
  - intros j k q1 q2 [(<- & -> & _)|[Hne Hq]]%list_lookup_insert_Some [(<- & -> & _)|[Hne' Hq']]%list_lookup_insert_Some Hh1 Hh2;
      [done|symmetry; by eapply Honly|by eapply Honly|by eapply (inv_one s Hi)].
Qed.

(** Handler [i] does not hold the promise afterwards, and the row is as it was. *)
Lemma advance_other i p w' s :
  posts_inv s → holds p = false → row_post_id w' = row_post_id (posts_world s) → posts_inv (advance i p w' s).
Proof.
  intros Hi Hp Hrow. split; simpl.
  - intros j q [(<- & -> & _)|[Hne Hq]]%list_lookup_insert_Some Hh; [congruence|]. rewrite Hrow. by eapply (inv_row s Hi).
  - intros j pid [(<- & E & _)|[Hne Hq]]%list_lookup_insert_Some; [by subst p|by eapply (inv_sold s Hi)].
  - intros j k q1 q2 [(<- & -> & _)|[Hne Hq]]%list_lookup_insert_Some [(<- & -> & _)|[Hne' Hq']]%list_lookup_insert_Some Hh1 Hh2;
      try congruence. by eapply (inv_one s Hi).
Qed.

(** No handler moves, and either none holds the promise or the row is as it was. *)
Lemma same_phases_inv w' s :
  posts_inv s → (∀ i p, posts_phases s !! i = Some p → holds p = true → row_post_id w' = row_post_id (posts_world s)) →
  posts_inv {| posts_world := w'; posts_phases := posts_phases s |}.
Proof.
  intros Hi Hrow. split; simpl; [|apply (inv_sold s Hi)|apply (inv_one s Hi)].
  intros i p Hp Hh. rewrite (Hrow i p Hp Hh). by eapply (inv_row s Hi).
Qed.

Lemma only_holder i p s :
  posts_inv s → posts_phases s !! i = Some p → holds p = true →
  ∀ j q, posts_phases s !! j = Some q → holds q = true → j = i.
Proof. intros Hi Hp Hh j q Hq Hhq. by eapply (inv_one s Hi). Qed.

Lemma claim_inv i p res w' s :
  posts_inv s → claim_promise (token i) promise id (posts_world s) = (res, w') →
  match res with Ok (Some _) => p = Claimed | Ok None => p = Done | Err _ => p = Waiting ∨ p = Done end →
  posts_inv (advance i p w' s).
Proof.
  intros Hi Hrun Hp. destruct (claim_post_id _ _ _ _ Hrun) as [(-> & Hempty & Hnew)|[Hno Hsame]].
  - subst p. apply advance_holder; [done| |done|done]. intros j q Hq Hh. exfalso.
    pose proof (inv_row s Hi j q Hq Hh) as Hj. pose proof (held_nonempty s j q Hi Hq Hh). destruct Hempty; congruence.
  - apply advance_other; [done| |done]. destruct res as [[u|]|e]; [by destruct (Hno u)|by subst p|by destruct Hp as [-> | ->]].
Qed.

Lemma sale_inv i post_id res w' s :
  posts_inv s → posts_phases s !! i = Some Claimed → post_id ≠ "" → post_id ≠ token i →
  update_lead_with_post (router i) post_id (posts_world s) = (res, w') →
  posts_inv (advance i (match res with Ok _ => SoldAs post_id | Err _ => Stuck end) w' s).
Proof.
  intros Hi Hp Hne Hne' Hrun.
  assert (Hsome : is_Some (row_post_id (posts_world s))) by (rewrite (inv_row s Hi i _ Hp eq_refl); eauto).
  pose proof (sale_post_id (router i) post_id _ _ _ (Hrouter i) Hsome Hrun) as Hres.
  apply advance_holder; [done|by eapply only_holder|destruct res; simpl; [done|]|destruct res; by intros ? [= <-]].
  rewrite Hres. intros _. by apply (inv_row s Hi i _ Hp).
Qed.

Lemma confirm_inv i post_id vd result res w' s :
  posts_inv s → posts_phases s !! i = Some (SoldAs post_id) →
  update_lead (post_lead_update (found i) (token i) vd result) (posts_world s) = (res, w') →
  posts_inv (advance i (SoldAs post_id) w' s).
Proof.
  intros Hi Hp Hrun. destruct (inv_sold s Hi i post_id Hp) as [_ Hfresh].
  pose proof (inv_row s Hi i _ Hp eq_refl) as Hrow. simpl in Hrow.
  assert (Hsame : row_post_id w' = row_post_id (posts_world s)).
  { assert (E : w' = (update_lead (post_lead_update (found i) (token i) vd result) (posts_world s)).2) by (by rewrite Hrun).
    rewrite E. apply (token_update_post_id _ (token i)).
    - rewrite <-(Hfound i). unfold post_lead_update. by destruct (_ && _).
    - unfold post_lead_update. by destruct (_ && _).
    - rewrite Hrow. by intros [= E']. }
  apply advance_holder; [done|by eapply only_holder|intros _; by rewrite Hsame|intros ? [= <-]; by apply (inv_sold s Hi i)].
Qed.

Lemma post_step_inv e s s' : posts_inv s → ¬ disturbs s e → post_step e s s' → posts_inv s'.
Proof.
  intros Hi Hcalm Hstep. destruct Hstep as [i w' res p s Hp Hrun Hres|i pid w' res s Hp Hrun|i status error w' res s Hp Hrun
    |i s Hp|i vd result w' res s Hp Hres Hrun|i pid vd result w' res s Hp Hres Hst Hpid Hrun|u late w' res s Hu Ht Hlate Hrun
    |w' s Hother]; simpl in Hcalm.
  - by eapply claim_inv.
  - apply sale_inv; try done; intros ->; apply Hcalm; [by left|by right].
  - pose proof (status_post_id _ _ _ _ _ _ (Hrouter i) Hrun) as Hrow. apply advance_holder; [done|by eapply only_holder| |by destruct res].
    rewrite Hrow, (inv_row s Hi i _ Hp eq_refl). by destruct res.
  - apply advance_holder; [done|by eapply only_holder| |done]. intros _. by apply (inv_row s Hi i _ Hp).
  - apply advance_holder; [done|by eapply only_holder|done|done].
  - by eapply confirm_inv.
  - apply same_phases_inv; [done|]. intros i p Hp Hh. destruct Hcalm. apply existsb_exists. exists p.
    split; [by apply list_elem_of_In, list_elem_of_lookup_2 with i|done].
  - apply same_phases_inv; [done|]. intros i p Hp Hh. destruct Hother as [Hnone|]; [|done].
    pose proof (inv_row s Hi i p Hp Hh) as Hrow. unfold row_post_id in Hrow. by rewrite Hnone in Hrow.
Qed.

Lemma posts_run_inv n w t s :
  posts_run n w t s → (∃ s0 e, (s0, e) ∈ t ∧ disturbs s0 e) ∨ posts_inv s.
Proof.
  induction 1 as [|t s e s' _ [(s0 & e0 & Hin & Hd)|IH] Hstep].
  - right. split; simpl.
    + intros i p [-> _]%lookup_replicate. done.
    + intros i pid [? _]%lookup_replicate. done.
    + intros i j p q [-> _]%lookup_replicate. done.
  - left. exists s0, e0. split; [apply elem_of_app; by left|done].
  - destruct (decide (disturbs s e)) as [Hd|Hd]; [left|right; by eapply post_step_inv].
    exists s, e. split; [apply elem_of_app; right; by left|done].
Qed.

(** C2: no double sale, and the two ways there is one.  Any number of handlers post the
    same promise; their statements, with the retries and failures, the queued updates and
    what others do interleave in any way, and the buyer may answer with any post id.  In
    every run that holds no sale with an empty post id or the seller's own token, and no
    update of the lead without a token while a handler holds the promise, at most one
    handler holds or has sold it, and once one has sold it the row keeps that sale's post
    id.  ([empty_post_id_sells_twice] and [late_update_sells_twice] are runs with them in
    which two handlers sell it.) *)
Theorem no_double_sale (n : nat) (w : World) (t : list (Posts * PostEvent)) (s : Posts) (i j : nat) (p q : Phase) :
  posts_run n w t s →
  posts_phases s !! i = Some p → posts_phases s !! j = Some q → holds p = true → holds q = true →
  (∃ s0 k post_id, (s0, Sells k post_id) ∈ t ∧ (post_id = "" ∨ post_id = token k)) ∨
  (∃ s0, (s0, Updates) ∈ t ∧ existsb holds (posts_phases s0) = true) ∨
  (i = j ∧ ∀ post_id, p = SoldAs post_id → row_post_id (posts_world s) = Some post_id).
Proof.
  intros Hrun Hp Hq Hhp Hhq. destruct (posts_run_inv n w t s Hrun) as [(s0 & e & Hin & Hd)|Hi].
  - destruct e; try done; simpl in Hd; [left; by exists s0, i0, post_id|right; left; by exists s0].
  - right; right. split; [by eapply (inv_one s Hi)|]. intros pid ->. by apply (inv_row s Hi i _ Hp).
Qed.
End posts.

(** ** Witness *)

#[local] Existing Instance reference_platform.

Definition two_posts : World := sample_store [sample_stored ""].
Definition first_post : PingTreeRouter := sample_ptr "post" true (sample_stored "").
Definition sample_draws (i : nat) : RequestDraws := {|
  rd_lead_uuid := 1%N; rd_event_uuid := 2%N; rd_session_uuid := 3%N; rd_lead_id_chars := "abcdefgh";
  rd_promise_bytes := "mnopqr"; rd_token := (5 + N.of_nat i)%N; rd_request_id := 6%N; rd_arrived := 0; rd_total := 9;
  rd_vertical_access := CacheFast; rd_vertical_ms := 1; rd_prechecks_access := Direct 2; rd_prechecks_ms := 2;
  rd_auction := sample_auction [0%nat]; rd_post := sample_task 0
|}.
Definition posts_at (w : World) (phases : list Phase) : Posts := {| posts_world := w; posts_phases := phases |}.

(** The runs of two posts of the sample lead. *)
Definition two_posts_run : list (Posts * PostEvent) → Posts → Prop :=
  posts_run 1%N "PROMISE_0A" sample_draws (λ _, sample_stored "") (λ _, first_post) 2 two_posts.

Definition claim_by (i : nat) (w : World) : World := (claim_promise (token sample_draws i) "PROMISE_0A" 1%N w).2.
Definition sell_as (post_id : string) (w : World) : World := (update_lead_with_post first_post post_id w).2.

Abbreviation two_posts_step := (post_step 1%N "PROMISE_0A" sample_draws (λ _, sample_stored "") (λ _, first_post)).

Lemma claims_step i w phases res p :
  phases !! i = Some Waiting → (claim_promise (token sample_draws i) "PROMISE_0A" 1%N w).1 = Ok res →
  p = match res with Some _ => Claimed | None => Done end →
  two_posts_step (Claims i) (posts_at w phases) (posts_at (claim_by i w) (<[i := p]> phases)).
Proof.
  intros Hi Hres ->. apply (step_claim _ _ _ _ _ i (claim_by i w) (Ok res) _ (posts_at w phases)); [done| |by destruct res].
  unfold claim_by. simpl. rewrite <-Hres. apply surjective_pairing.
Qed.

Lemma sells_step i pid w phases :
  phases !! i = Some Claimed → (update_lead_with_post first_post pid w).1 = Ok tt →
  two_posts_step (Sells i pid) (posts_at w phases) (posts_at (sell_as pid w) (<[i := SoldAs pid]> phases)).
Proof.
  intros Hi Hres. apply (step_sale _ _ _ _ _ i pid (sell_as pid w) (Ok tt) (posts_at w phases)); [done|].
  unfold sell_as. simpl. rewrite <-Hres. apply surjective_pairing.
Qed.

(** The first of two handlers claims and sells; the second is refused. *)
Definition after_sale : World := sell_as "POST_1" (claim_by 0 two_posts).
Definition refused_trace : list (Posts * PostEvent) :=
  [(posts_at two_posts [Waiting; Waiting], Claims 0); (posts_at (claim_by 0 two_posts) [Claimed; Waiting], Sells 0 "POST_1");
   (posts_at after_sale [SoldAs "POST_1"; Waiting], Claims 1)].

Lemma refused_run : two_posts_run refused_trace (posts_at after_sale [SoldAs "POST_1"; Done]).
Proof.
  apply (run_next _ _ _ _ _ _ _ [_; _] (posts_at after_sale [SoldAs "POST_1"; Waiting]) (Claims 1));
    [apply (run_next _ _ _ _ _ _ _ [_] (posts_at (claim_by 0 two_posts) [Claimed; Waiting]) (Sells 0 "POST_1"));
      [apply (run_next _ _ _ _ _ _ _ [] (posts_at two_posts [Waiting; Waiting]) (Claims 0)); [apply run_start|]|]|].
  - apply (claims_step 0 two_posts [Waiting; Waiting] (Some 1%N)); vm_compute; reflexivity.
  - apply (sells_step 0 "POST_1" (claim_by 0 two_posts) [Claimed; Waiting]); vm_compute; reflexivity.
  - apply (claims_step 1 after_sale [SoldAs "POST_1"; Waiting] None); vm_compute; reflexivity.
Qed.

Lemma no_double_sale_witness : row_post_id 1%N after_sale = Some "POST_1".
Proof.
  destruct (no_double_sale 1%N "PROMISE_0A" sample_draws (λ _, sample_stored "") (λ _, first_post) (λ _, eq_refl)
    (λ _, eq_refl) 2 two_posts refused_trace _ 0 0 (SoldAs "POST_1") (SoldAs "POST_1")
    refused_run eq_refl eq_refl eq_refl eq_refl) as [(s0 & k & pid & Hin & Hbad)|[(s0 & Hin & _)|[_ Hrow]]].
  - exfalso. unfold refused_trace in Hin. repeat (apply elem_of_cons in Hin as [Hin|Hin]; [try discriminate|]); [|by apply elem_of_nil in Hin].
    injection Hin as _ _ ->. destruct Hbad; discriminate.
  - exfalso. unfold refused_trace in Hin. repeat (apply elem_of_cons in Hin as [Hin|Hin]; [discriminate|]). by apply elem_of_nil in Hin.
  - apply (Hrow "POST_1"). reflexivity.
Defined.

(** ** The two exceptions happen *)

(** A buyer that answers a sale with an empty post id leaves the promise to the next post:
    both sell it. *)
Lemma empty_post_id_sells_twice :
  ∃ t, two_posts_run t (posts_at (sell_as "POST_2" (claim_by 1 (sell_as "" (claim_by 0 two_posts)))) [SoldAs ""; SoldAs "POST_2"]).
Proof.
  eexists. set (w1 := claim_by 0 two_posts). set (w2 := sell_as "" w1). set (w3 := claim_by 1 w2).
  eapply (run_next _ _ _ _ _ _ _ _ (posts_at w3 [SoldAs ""; Claimed]) (Sells 1 "POST_2"));
    [eapply (run_next _ _ _ _ _ _ _ _ (posts_at w2 [SoldAs ""; Waiting]) (Claims 1));
      [eapply (run_next _ _ _ _ _ _ _ _ (posts_at w1 [Claimed; Waiting]) (Sells 0 ""));
        [eapply (run_next _ _ _ _ _ _ _ _ (posts_at two_posts [Waiting; Waiting]) (Claims 0)); [apply run_start|]|]|]|].
  - apply (claims_step 0 two_posts [Waiting; Waiting] (Some 1%N)); vm_compute; reflexivity.
  - apply (sells_step 0 "" w1 [Claimed; Waiting]); vm_compute; reflexivity.
  - apply (claims_step 1 w2 [SoldAs ""; Waiting] (Some 1%N)); vm_compute; reflexivity.
  - apply (sells_step 1 "POST_2" w3 [SoldAs ""; Claimed]); vm_compute; reflexivity.
Qed.

(** So does a late update of the ping, which empties the post id of the first sale. *)
Definition late_ping_update : LeadUpdateData :=
  final_lead_update sample_request_draws (ping_result (sample_bid "120") (sample_campaign 2%N 12%N) []) JNull.

Lemma late_update_sells_twice :
  ∃ t w, two_posts_run t (posts_at w [SoldAs "POST_1"; SoldAs "POST_2"]).
Proof.
  eexists _, _. set (w1 := claim_by 0 two_posts). set (w3 := (update_lead late_ping_update after_sale).2). set (w4 := claim_by 1 w3).
  eapply (run_next _ _ _ _ _ _ _ _ (posts_at w4 [SoldAs "POST_1"; Claimed]) (Sells 1 "POST_2"));
    [eapply (run_next _ _ _ _ _ _ _ _ (posts_at w3 [SoldAs "POST_1"; Waiting]) (Claims 1));
      [eapply (run_next _ _ _ _ _ _ _ _ (posts_at after_sale [SoldAs "POST_1"; Waiting]) Updates);
        [eapply (run_next _ _ _ _ _ _ _ _ (posts_at w1 [Claimed; Waiting]) (Sells 0 "POST_1"));
          [eapply (run_next _ _ _ _ _ _ _ _ (posts_at two_posts [Waiting; Waiting]) (Claims 0)); [apply run_start|]|]|]|]|].
  - apply (claims_step 0 two_posts [Waiting; Waiting] (Some 1%N)); vm_compute; reflexivity.
  - apply (sells_step 0 "POST_1" w1 [Claimed; Waiting]); vm_compute; reflexivity.
  - apply (step_update _ _ _ _ _ late_ping_update _ w3 (Ok tt) (posts_at after_sale [SoldAs "POST_1"; Waiting]) eq_refl eq_refl (or_introl eq_refl)).
    reflexivity.
  - apply (claims_step 1 w3 [SoldAs "POST_1"; Waiting] (Some 1%N)); vm_compute; reflexivity.
  - apply (sells_step 1 "POST_2" w4 [SoldAs "POST_1"; Claimed]); vm_compute; reflexivity.
Qed.
