(* ===== verification/Lookups.v ===== *)
(** * Lookups through the cache

    What the router and the handler read of the configuration through the two-level cache
    of [Cache.v], and the warm-up that fills it: the lookups of
    [crates/core/src/services/ping_tree_router.rs] ([route]) and [buyer_router.rs], that of
    the vertical in [crates/api/src/routes/leads.rs], and
    [crates/api/src/cache_warmup.rs].  The database is a function of time; a lookup takes
    no time, time passes between them.  [router_loads] gives the [RouteLoads] that
    [PingTreeRouter.route] takes. *)

From stdpp Require Import base list strings gmap.
From Stdlib Require Import ZArith NArith Lia.
From S2P Require Import Prelude Float64 Platform Json Models Metrics Samples Qualification Store Response Auction.
From S2P Require Import Pulsar BuyerRouter PingTreeRouter WriteBehind LeadRequest LeadHandler PreChecks Cache.

Open Scope string_scope.
Open Scope list_scope.

(** ** The state *)

(** The cache, the clock in milliseconds, and the outcomes of the next statements. *)
Record LookupWorld (L1 L2 : Type) : Type := {
  lw_cache : CacheState L1 L2;
  lw_now : Z;
  lw_outcomes : list (option string)
}.
Arguments lw_cache {_ _}. Arguments lw_now {_ _}. Arguments lw_outcomes {_ _}.

#[export] Instance LookupWorld_has_cache L1 L2 : HasCache L1 L2 (LookupWorld L1 L2).
Proof.
  refine {| cache_of := lw_cache; clock := lw_now;
            with_cache := λ c s, {| lw_cache := c; lw_now := lw_now s; lw_outcomes := lw_outcomes s |} |};
    by intros; destruct s.
Defined.

Abbreviation RoutedTree := (PingTree * option Decimal * option Decimal)%type.
Abbreviation Associated := (Campaign * option Buyer * option BuyerIntegration)%type.

(** How the values are serialized. *)
Record Serdes : Type := {
  sd_tree : Serde RoutedTree;
  sd_tree_option : Serde (option RoutedTree);
  sd_members : Serde (list PingTreeCampaign);
  sd_id : Serde (option Uuid);
  sd_associations : Serde (list Associated);
  sd_configs : Serde (gmap Uuid (option BuyerQualificationConfig));
  sd_buyer : Serde (option Buyer);
  sd_integration : Serde (option BuyerIntegration);
  sd_vertical : Serde Vertical;
  sd_vertical_option : Serde (option Vertical);
  sd_prechecks : Serde (option (option Uuid * option Uuid * bool));
  sd_name : Serde (option string);
  sd_text : Serde string
}.

(** ** Keys *)

Section keys.
Context `{Platform}.

Definition tree_key (publisher : Uuid) (vertical : string) : string :=
  "pingtree:pub:" +:+ uuid_to_string publisher +:+ ":vert:" +:+ vertical.
Definition members_key (tree : Uuid) : string := "campaigns:pingtree:" +:+ uuid_to_string tree.
Definition buyer_id_key (campaign : Uuid) : string := "campaign:buyer_id:" +:+ uuid_to_string campaign.
(** [ids.sort()], then joined by commas. *)
Definition sorted_uuids (ids : list Uuid) : list Uuid := sort_by N.compare ids.
Definition joined_uuids (ids : list Uuid) : string := str_join "," (uuid_to_string <$> sorted_uuids ids).
Definition associations_key (ids : list Uuid) : string := "campaigns:associations:" +:+ joined_uuids ids.
Definition configs_key (ids : list Uuid) : string := "qual:buyers:" +:+ joined_uuids ids.
Definition buyer_key (id : Uuid) : string := "buyer:id:" +:+ uuid_to_string id.
Definition integration_key (id : Uuid) : string := "buyer_integration:id:" +:+ uuid_to_string id.
Definition prechecks_key (publisher : Uuid) (slug token : string) : string :=
  "prechecks:publisher:" +:+ uuid_to_string publisher +:+ ":vertical:" +:+ slug +:+ ":token:" +:+ token.
Definition vertical_key (slug : string) : string := "vertical:slug:" +:+ slug.
Definition buyer_name_key (id : Uuid) : string := "buyer:name:" +:+ uuid_to_string id.
Definition campaign_name_key (id : Uuid) : string := "campaign:name:" +:+ uuid_to_string id.
End keys.

Section lookups.
Context {L1 L2 : Type} `{!TtlStore L1, !TtlStore L2} `{Platform}.
(** The database, at a time. *)
Context (database : Z → Configuration) (sd : Serdes).
Abbreviation lookup := (eff (LookupWorld L1 L2) Failure).

(** A query: it fails, with [context] before the error, or answers from the tables of the
    moment. *)
Definition db_query {A} (context : string) (f : Configuration → A) : lookup A := λ s,
  match lw_outcomes s with
  | Some e :: rest =>
      (Err (Failed (context +:+ e)), {| lw_cache := lw_cache s; lw_now := lw_now s; lw_outcomes := rest |})
  | outcomes =>
      (Ok (f (database (lw_now s))), {| lw_cache := lw_cache s; lw_now := lw_now s; lw_outcomes := tail outcomes |})
  end.
Definition on_routing {A} (context : string) (f : Tables → A) : lookup A := db_query context (λ cfg, f (cfg_tables cfg)).

(** With a cache, or not; only behind the cache an error gets a context. *)
Definition through_cache {T} (has_cache : bool) (serde : Serde T) (key : string) (ttl_seconds : Z) (context : string)
    (f : Configuration → T) : lookup T :=
  if has_cache then get_or_insert_with serde key ttl_seconds (db_query context f) else db_query "" f.

(** [.await.unwrap_or_default()]. *)
Definition or_default {A} (d : A) (m : lookup A) : lookup A := r ← catch m; mret (result_or d r).

(** ** The router *)

Definition lookup_tree (has_cache : bool) (publisher : Uuid) (vertical : string) : lookup (option RoutedTree) :=
  let query context := on_routing context (λ db, find_for_routing db publisher vertical) in
  if has_cache then get_or_insert_with_skip_none (sd_tree sd) (tree_key publisher vertical) 21600 (query "Database error: ")
  else query "".

Definition lookup_members (has_cache : bool) (tree : Uuid) : lookup (list PingTreeCampaign) :=
  through_cache has_cache (sd_members sd) (members_key tree) 21600 "Database error: "
    (λ cfg, find_enabled_for_ping_tree (cfg_tables cfg) tree).

(** [SELECT buyer_id FROM campaigns WHERE id = $1 AND deleted_at IS NULL]. *)
Definition buyer_of_campaign (id : Uuid) (db : Tables) : option Uuid :=
  campaign_buyer_id <$> List.find (λ c, bool_decide (campaign_id c = id) && bool_decide (campaign_deleted_at c = None)) (campaigns db).

Definition lookup_buyer_id (campaign : Uuid) : lookup (option Uuid) :=
  get_or_insert_with (sd_id sd) (buyer_id_key campaign) 3600 (on_routing "DB error: " (buyer_of_campaign campaign)).

(** The set of the buyers of the campaigns; a lookup that fails adds none. *)
Fixpoint lookup_buyer_ids (campaign_ids found : list Uuid) : lookup (list Uuid) :=
  match campaign_ids with
  | [] => mret found
  | id :: campaign_ids =>
      r ← catch (lookup_buyer_id id);
      lookup_buyer_ids campaign_ids
        (match r with Ok (Some b) => if bool_decide (b ∈ found) then found else found ++ [b] | _ => found end)
  end.

(** [SELECT DISTINCT buyer_id FROM campaigns WHERE id = ANY($1) AND deleted_at IS NULL]. *)
Definition buyers_of_campaigns (ids : list Uuid) (db : Tables) : list Uuid :=
  remove_dups (campaign_buyer_id <$>
    List.filter (λ c, bool_decide (campaign_id c ∈ ids) && bool_decide (campaign_deleted_at c = None)) (campaigns db)).

Definition buyer_ids_of (has_cache : bool) (campaign_ids : list Uuid) : lookup (list Uuid) :=
  if has_cache then lookup_buyer_ids campaign_ids [] else or_default [] (on_routing "" (buyers_of_campaigns campaign_ids)).

Definition lookup_associations (has_cache : bool) (campaign_ids : list Uuid) : lookup (list Associated) :=
  or_default [] (through_cache has_cache (sd_associations sd) (associations_key campaign_ids) 3600 "DB error: "
                   (λ cfg, find_by_ids_with_associations (cfg_tables cfg) campaign_ids)).

Definition lookup_configs (has_cache : bool) (buyer_ids : list Uuid) : lookup (gmap Uuid (option BuyerQualificationConfig)) :=
  if bool_decide (buyer_ids = []) then mret ∅
  else or_default ∅ (through_cache has_cache (sd_configs sd) (configs_key buyer_ids) 3600 "DB error: "
                       (λ cfg, find_by_buyer_ids (cfg_tables cfg) buyer_ids)).

(** What [route] measures: how long its lookups take, in milliseconds. *)
Record LookupTimes : Type := { tree_ms : Z; members_ms : Z; parallel_ms : Z }.

(** [get_stats], where there is a cache. *)
Definition cache_hits (s : LookupWorld L1 L2) : Z := cs_hits (lw_cache s).
Definition cache_lookups (s : LookupWorld L1 L2) : Z := u64_wrap (cs_hits (lw_cache s) + cs_misses (lw_cache s)).

(** The lookups of [route], up to where it has nothing to route. *)
Definition router_loads (has_cache : bool) (times : LookupTimes) (publisher : Uuid) (vertical : string) : lookup RouteLoads :=
  hits_before ← eff_gets cache_hits;
  tree ← catch (lookup_tree has_cache publisher vertical);
  hits_after ← eff_gets cache_hits;
  let loads members counted buyer_ids associations configs := {|
    load_ping_tree := tree;
    load_ping_tree_hit := has_cache && (hits_before <? hits_after)%Z;
    load_ping_tree_ms := tree_ms times;
    load_ping_tree_campaigns := λ _, members;
    load_campaigns_counted := counted;
    load_campaigns_ms := members_ms times;
    load_buyer_ids := λ _, buyer_ids;
    load_associations := λ _, associations;
    load_qualification_configs := λ _, configs;
    load_parallel_ms := parallel_ms times |} in
  match tree with
  | Ok (Some (pt, _, _)) =>
      if negb (PingTree_is_active pt) then mret (loads (Ok []) false [] [] ∅) else
      before ← eff_gets cache_lookups;
      members ← catch (lookup_members has_cache (tree_id pt));
      after ← eff_gets cache_lookups;
      let counted := has_cache && (before <? after)%Z in
      match members with
      | Ok ((_ :: _) as rows) =>
          let campaign_ids := ptc_campaign_id <$> rows in
          buyer_ids ← buyer_ids_of has_cache campaign_ids;
          associations ← lookup_associations has_cache campaign_ids;
          configs ← lookup_configs has_cache buyer_ids;
          mret (loads members counted buyer_ids associations configs)
      | _ => mret (loads members counted [] [] ∅)
      end
  | _ => mret (loads (Ok []) false [] [] ∅)
  end.

(** ** The router of a buyer *)

Definition lookup_buyer (has_cache : bool) (id : Uuid) : lookup (option Buyer) :=
  through_cache has_cache (sd_buyer sd) (buyer_key id) 3600 "Database error: "
    (λ cfg, Buyer_find_by_id (cfg_tables cfg) id).

Definition lookup_integration (has_cache : bool) (id : Uuid) : lookup (option BuyerIntegration) :=
  through_cache has_cache (sd_integration sd) (integration_key id) 3600 "Database error: "
    (λ cfg, BuyerIntegration_find_by_id (cfg_tables cfg) id).

(** [get_integration], without a preloaded one. *)
Definition integration_of_campaign (has_cache : bool) (campaign : Campaign) : lookup BuyerIntegration :=
  found ← lookup_buyer has_cache (campaign_buyer_id campaign);
  buyer ← fallible (ok_or ("Buyer not found: " +:+ uuid_to_string (campaign_buyer_id campaign)) found);
  if negb (Buyer_active buyer) then
    eff_err (Failed ("Buyer " +:+ uuid_to_string (buyer_id buyer) +:+ " is not active (status: "
                     +:+ BuyerStatus_as_str (buyer_status buyer) +:+ ")"))
  else
    integration_id ← fallible (ok_or "Buyer has no integration configured" (buyer_buyer_integration_id buyer));
    integration ← lookup_integration has_cache integration_id;
    fallible (ok_or ("Buyer integration not found: " +:+ uuid_to_string integration_id) integration).

(** ** The handler *)

(** The vertical of a request: when the cache fails, the database is asked. *)
Definition lookup_vertical (has_cache : bool) (slug : string) : lookup (option Vertical) :=
  let query := db_query "" (λ cfg, find_by_slug cfg slug) in
  if has_cache then
    r ← catch (get_or_insert_with (sd_vertical_option sd) (vertical_key slug) 86400 query);
    match r with Ok v => mret v | Err _ => query end
  else query.

Abbreviation PrecheckRow := (option Uuid * option Uuid * bool)%type.

(** The pre-checks of a request: as with the vertical. *)
Definition lookup_prechecks (has_cache : bool) (publisher : Uuid) (slug token : string) : lookup (option PrecheckRow) :=
  let query context := db_query context (λ cfg, head (precheck_rows cfg publisher slug token)) in
  if has_cache then
    r ← catch (get_or_insert_with (sd_prechecks sd) (prechecks_key publisher slug token) 300 (query "Database error: "));
    match r with Ok row => mret row | Err _ => query "" end
  else query "".

(** The names of the response; none when the lookup fails. *)
Definition lookup_buyer_name (has_cache : bool) (id : Uuid) : lookup (option string) :=
  or_default None (through_cache has_cache (sd_name sd) (buyer_name_key id) 3600 "Database error: " (λ cfg, buyer_name_of cfg id)).
Definition lookup_campaign_name (has_cache : bool) (id : Uuid) : lookup (option string) :=
  or_default None (through_cache has_cache (sd_name sd) (campaign_name_key id) 3600 "Database error: " (λ cfg, campaign_name_of cfg id)).

(** ** The warm-up *)

(** [ORDER BY created_at DESC LIMIT n]. *)
Definition newest {A} (created_at : A → DateTime) (n : nat) (rows : list A) : list A :=
  take n (sort_by (λ a b, Z.compare (created_at b) (created_at a)) rows).

(** The rows of a query, none when it fails, each put into the cache; how many. *)
Fixpoint warm_each {A} (warm : A → lookup unit) (rows : list A) : lookup unit :=
  match rows with
  | [] => mret tt
  | row :: rows => _ ← catch (warm row); warm_each warm rows
  end.
Definition warm_rows {A} (query : Configuration → list A) (warm : A → lookup unit) : lookup nat :=
  r ← catch (db_query "" query);
  match r with
  | Ok rows => _ ← warm_each warm rows; mret (length rows)
  | Err _ => mret 0%nat
  end.

(** [let _ = cache.get_or_insert_with(...)]. *)
Definition put {T} (serde : Serde T) (key : string) (ttl_seconds : Z) (f : lookup T) : lookup unit :=
  _ ← get_or_insert_with serde key ttl_seconds f; mret tt.

Definition active_verticals (cfg : Configuration) : list Vertical :=
  newest vertical_created_at 50 (List.filter vertical_is_active (cfg_verticals cfg)).
Definition pre_warm_verticals : lookup nat :=
  warm_rows active_verticals (λ v, put (sd_vertical sd) (vertical_key (vertical_slug v)) 86400 (mret v)).

(** [SELECT DISTINCT pt.id, pt.vertical, ptp.publisher_id, pt.created_at ...]. *)
Definition warm_trees (cfg : Configuration) : list (Uuid * string * Uuid * DateTime) :=
  newest (λ row, row.2) 100 (remove_dups (
    pt ← ping_trees (cfg_tables cfg);
    ptp ← ping_tree_publishers (cfg_tables cfg);
    if bool_decide (tree_id pt = ptp_ping_tree_id ptp) && PingTree_is_active pt
    then [(tree_id pt, tree_vertical pt, ptp_publisher_id ptp, tree_created_at pt)] else [])).
Definition pre_warm_ping_trees : lookup nat :=
  warm_rows warm_trees (λ '(_, vertical, publisher, _),
    put (sd_tree_option sd) (tree_key publisher vertical) 21600 (on_routing "DB error: " (λ db, find_for_routing db publisher vertical))).

Definition live_buyers (cfg : Configuration) : list Buyer :=
  newest buyer_created_at 500 (List.filter (λ b, bool_decide (buyer_deleted_at b = None)) (buyers (cfg_tables cfg))).
Definition pre_warm_buyer_names : lookup nat :=
  warm_rows live_buyers (λ b, put (sd_text sd) (buyer_name_key (buyer_id b)) 3600 (mret (buyer_name b))).
Definition pre_warm_buyer_ids : lookup nat :=
  warm_rows live_buyers (λ b, put (sd_buyer sd) (buyer_key (buyer_id b)) 86400 (on_routing "DB error: " (λ db, Buyer_find_by_id db (buyer_id b)))).

(** The campaigns that have a name, of the newest. *)
Definition named_campaigns (cfg : Configuration) : list (Uuid * string) :=
  omap (λ c, (campaign_id c,.) <$> campaign_name c)
    (newest campaign_created_at 500 (List.filter (λ c, bool_decide (campaign_deleted_at c = None)) (campaigns (cfg_tables cfg)))).
Definition pre_warm_campaign_names : lookup nat :=
  warm_rows named_campaigns (λ '(id, name), put (sd_text sd) (campaign_name_key id) 3600 (mret name)).

Definition available_integrations (cfg : Configuration) : list BuyerIntegration :=
  newest integration_created_at 500 (List.filter (λ i, String.eqb (integration_status i) "available") (buyer_integrations (cfg_tables cfg))).
Definition pre_warm_buyer_integrations : lookup nat :=
  warm_rows available_integrations (λ i, put (sd_integration sd) (integration_key (integration_id i)) 3600
    (on_routing "DB error: " (λ db, BuyerIntegration_find_by_id db (integration_id i)))).

(** The buyers of the live campaigns that are enabled in a tree, for trees that have such
    campaigns; of the trees any fifty are taken, here the first. *)
Definition buyers_of_tree (db : Tables) (pt : PingTree) : list Uuid :=
  remove_dups (
    ptc ← ping_tree_campaigns db;
    c ← campaigns db;
    if bool_decide (tree_id pt = ptc_ping_tree_id ptc) && bool_decide (ptc_campaign_id ptc = campaign_id c)
       && bool_decide (campaign_deleted_at c = None) && ptc_enabled ptc
    then [campaign_buyer_id c] else []).
Definition warm_buyer_sets (cfg : Configuration) : list (list Uuid) :=
  let db := cfg_tables cfg in
  take 50 (List.filter (λ ids, negb (bool_decide (ids = [])))
             (buyers_of_tree db <$> List.filter PingTree_is_active (ping_trees db))).
Definition pre_warm_qualification_configs : lookup nat :=
  warm_rows warm_buyer_sets (λ ids, put (sd_configs sd) (configs_key ids) 3600 (on_routing "DB error: " (λ db, find_by_buyer_ids db ids))).

Definition active_trees (cfg : Configuration) : list PingTree :=
  newest tree_created_at 100 (List.filter PingTree_is_active (ping_trees (cfg_tables cfg))).
Definition pre_warm_ping_tree_campaigns : lookup nat :=
  warm_rows active_trees (λ pt, put (sd_members sd) (members_key (tree_id pt)) 21600
    (on_routing "DB error: " (λ db, find_enabled_for_ping_tree db (tree_id pt)))).

(** [check_buyer_integration_types]: internal and external ones. *)
Definition check_buyer_integration_types : lookup (nat * nat) :=
  or_default (0%nat, 0%nat) (on_routing "" (λ db,
    let available := List.filter (λ i, String.eqb (integration_status i) "available") (buyer_integrations db) in
    (length (List.filter integration_is_internal available), length (List.filter (λ i, negb (integration_is_internal i)) available)))).

(** [pre_warm_cache]: how many of each.  The parts that run at once are for different keys;
    here they follow in the order in which they start.  The keys of personal data are in
    [Ssm.pre_warm_ssm_keys]. *)
Definition pre_warm_cache (has_cache : bool) : lookup (list nat) :=
  if has_cache then
    verticals ← pre_warm_verticals;
    trees ← pre_warm_ping_trees;
    buyer_names ← pre_warm_buyer_names;
    campaign_names ← pre_warm_campaign_names;
    integrations ← pre_warm_buyer_integrations;
    buyer_ids ← pre_warm_buyer_ids;
    configs ← pre_warm_qualification_configs;
    members ← pre_warm_ping_tree_campaigns;
    _ ← check_buyer_integration_types;
    mret [verticals; trees; buyer_names; campaign_names; integrations; buyer_ids; configs; members]
  else mret [].
End lookups.
