(* ===== verification/LookupClaims.v ===== *)
(** * Properties of the lookups through the cache

    [Lookups.v]: how old what the router routes over can be, whatever else uses the cache,
    the warm-up included; and what the warm-up does to the router's own durations. *)

From stdpp Require Import base list strings gmap pretty.
From Stdlib Require Import Ascii String ZArith NArith Lia.
From S2P Require Import Prelude Float64 Platform Json Models Metrics Samples Qualification Store Response Auction.
From S2P Require Import Pulsar BuyerRouter PingTreeRouter WriteBehind LeadRequest LeadHandler PreChecks Cache Lookups.

Open Scope string_scope.
Open Scope list_scope.
Local Abbreviation length := List.length.

(** ** Identifiers *)

(** The texts of identifiers tell them apart and have none of the separators. *)
Class UuidLaws (P : Platform) : Prop := {
  uuid_to_string_inj :: Inj (=) (=) uuid_to_string;
  uuid_without c u : c = ":"%char ∨ c = ","%char → no_char c (uuid_to_string u) = true;
  uuid_nonempty u : uuid_to_string u ≠ ""
}.

Section texts.
Context {P : Platform} {U : UuidLaws P}.

Lemma no_char_middle c s t : no_char c (s +:+ String c t) = false.
Proof.
  unfold no_char. induction s as [|a s IH].
  - change ("" +:+ String c t) with (String c t). cbn. by rewrite Ascii.eqb_refl.
  - rewrite string_app_cons. cbn [str_forallb]. rewrite IH. apply andb_false_r.
Qed.

Lemma joined_cons u v (l : list Uuid) :
  str_join "," (uuid_to_string <$> u :: v :: l) = uuid_to_string u +:+ String "," (str_join "," (uuid_to_string <$> v :: l)).
Proof. done. Qed.

Lemma joined_one u : str_join "," (uuid_to_string <$> [u]) = uuid_to_string u.
Proof. done. Qed.

Lemma joined_nonempty u (l : list Uuid) : str_join "," (uuid_to_string <$> u :: l) ≠ "".
Proof.
  pose proof (uuid_nonempty u) as Hne. destruct l as [|v l]; [done|]. rewrite joined_cons. destruct (uuid_to_string u); [done|].
  by rewrite string_app_cons.
Qed.

Lemma joined_inj (l l' : list Uuid) : str_join "," (uuid_to_string <$> l) = str_join "," (uuid_to_string <$> l') → l = l'.
Proof.
  revert l'. induction l as [|u l IH]; intros [|u' l']; [done| | |].
  { intros H. by destruct (joined_nonempty u' l'). }
  { intros H. by destruct (joined_nonempty u l). }
  pose proof (uuid_without "," u (or_intror eq_refl)) as Hu. pose proof (uuid_without "," u' (or_intror eq_refl)) as Hu'.
  destruct l as [|v l], l' as [|v' l']; rewrite ?joined_cons, ?joined_one; intros H.
  - by apply (inj uuid_to_string) in H as ->.
  - rewrite H, no_char_middle in Hu. done.
  - rewrite <-H, no_char_middle in Hu'. done.
  - apply split_at_char in H as [->%(inj uuid_to_string) Ht]; [|done..]. f_equal. by apply IH.
Qed.
End texts.

(** ** What the cache may answer *)

(** The queries of the router and what they are answered from. *)
Inductive Query : Type :=
  | QTree (publisher : Uuid) (vertical : string)
  | QMembers (tree : Uuid)
  | QBuyerId (campaign : Uuid)
  | QAssociations (ids : list Uuid)
  | QConfigs (ids : list Uuid)
  | QBuyer (id : Uuid)
  | QIntegration (id : Uuid).

Definition query_key `{Platform} (q : Query) : string :=
  match q with
  | QTree publisher vertical => tree_key publisher vertical
  | QMembers tree => members_key tree
  | QBuyerId campaign => buyer_id_key campaign
  | QAssociations ids => associations_key ids
  | QConfigs ids => configs_key ids
  | QBuyer id => buyer_key id
  | QIntegration id => integration_key id
  end.

(** The tables have [text] as the answer. *)
Definition answered (sd : Serdes) (q : Query) (db : Tables) (text : string) : Prop :=
  match q with
  | QTree publisher vertical => encode (sd_tree_option sd) (find_for_routing db publisher vertical) = Ok text
  | QMembers tree => encode (sd_members sd) (find_enabled_for_ping_tree db tree) = Ok text
  | QBuyerId campaign => encode (sd_id sd) (buyer_of_campaign campaign db) = Ok text
  | QAssociations ids => encode (sd_associations sd) (find_by_ids_with_associations db ids) = Ok text
  | QConfigs ids => encode (sd_configs sd) (find_by_buyer_ids db ids) = Ok text
  | QBuyer id => encode (sd_buyer sd) (Buyer_find_by_id db id) = Ok text
  | QIntegration id => encode (sd_integration sd) (BuyerIntegration_find_by_id db id) = Ok text
  end.

(** The same question: a set of identifiers may come in any order. *)
Definition same_query (q q' : Query) : Prop :=
  match q, q' with
  | QAssociations ids, QAssociations ids' | QConfigs ids, QConfigs ids' => ids ≡ₚ ids'
  | _, _ => q = q'
  end.

(** The longest durations given for the keys, in milliseconds; a day for keys that are not
    the router's. *)
Definition key_life (key : string) : Z :=
  if existsb (λ p, starts_with p key) ["campaign:buyer_id:"; "campaigns:associations:"; "qual:buyers:"; "buyer_integration:id:"]
  then 3600000
  else if existsb (λ p, starts_with p key) ["pingtree:pub:"; "campaigns:pingtree:"] then 21600000 else 86400000.

Definition query_life (q : Query) : Z :=
  match q with
  | QTree _ _ | QMembers _ => 21600000
  | QBuyerId _ | QAssociations _ | QConfigs _ | QIntegration _ => 3600000
  | QBuyer _ => 86400000
  end.

Section keys.
Context {P : Platform} {U : UuidLaws P}.

Lemma prefix_empty s : String.prefix "" s = true.
Proof. by destruct s. Qed.

Lemma key_life_query q : key_life (query_key q) = query_life q.
Proof.
  destruct q; unfold key_life, query_key, tree_key, members_key, buyer_id_key, associations_key, configs_key, buyer_key, integration_key;
    repeat match goal with |- context [(String ?a ?s) +:+ ?t] => change (String a s +:+ t) with (String a (s +:+ t)) end;
    change ("" +:+ ?t) with t; cbn; rewrite ?prefix_empty; reflexivity.
Qed.

Lemma sorted_uuids_perm ids ids' : sorted_uuids ids = sorted_uuids ids' → ids ≡ₚ ids'.
Proof. intros H. rewrite <-(sort_by_perm N.compare ids), <-(sort_by_perm N.compare ids'). unfold sorted_uuids in H. by rewrite H. Qed.

Lemma query_key_inj q q' : query_key q = query_key q' → same_query q q'.
Proof.
  destruct q, q'; unfold query_key, tree_key, members_key, buyer_id_key, associations_key, configs_key, buyer_key, integration_key; intros Heq;
    try (cbn in Heq; discriminate Heq); apply string_app_inj_r in Heq.
  all: try (apply (inj uuid_to_string) in Heq as ->; reflexivity).
  all: try (apply joined_inj, sorted_uuids_perm in Heq; exact Heq).
  apply split_at_char in Heq as [->%(inj uuid_to_string) Hv]; [|apply uuid_without; by left..].
  cbn. f_equal. cbn in Hv. congruence.
Qed.
End keys.

(** What is written reads back, and serde writes an option without a tag. *)
Class SerdesLaws (sd : Serdes) : Prop := {
  tree_serde :: SerdeLaws (sd_tree sd);
  tree_option_serde :: SerdeLaws (sd_tree_option sd);
  members_serde :: SerdeLaws (sd_members sd);
  id_serde :: SerdeLaws (sd_id sd);
  associations_serde :: SerdeLaws (sd_associations sd);
  configs_serde :: SerdeLaws (sd_configs sd);
  buyer_serde :: SerdeLaws (sd_buyer sd);
  integration_serde :: SerdeLaws (sd_integration sd);
  vertical_serde :: SerdeLaws (sd_vertical sd);
  text_serde_law :: SerdeLaws (sd_text sd);
  encode_some_tree t : encode (sd_tree_option sd) (Some t) = encode (sd_tree sd) t;
  decode_no_tree text : encode (sd_tree_option sd) None = Ok text → decode (sd_tree sd) text = None
}.

(** ** The state between lookups *)

Section clock.
Context {L1 L2 St : Type} `{!TtlStore L1, !TtlStore L2} `{!HasCache L1 L2 St}.
Context (now : Z).
Abbreviation at_now := (λ s : St, clock s = now).

Lemma on_cache_at f : preserves at_now (on_cache f).
Proof. apply preserves_modify. intros s Hs. by rewrite clock_with. Qed.
Lemma redis_outcome_at e : preserves at_now (redis_outcome e).
Proof. intros s Hs. destruct (redis_outcome_keeps e s) as [Hc _]. by rewrite Hc. Qed.
Lemma preserves_catch {S A} (I : S → Prop) (m : eff S Failure A) : preserves I m → preserves I (catch m).
Proof. intros Hm s Hs. specialize (Hm s Hs). unfold catch. by destruct (m s) as [[a|[e|e]] s']. Qed.
End clock.
#[local] Hint Resolve on_cache_at redis_outcome_at preserves_catch : effects.

Section clock_lookup.
Context {L1 L2 St : Type} `{!TtlStore L1, !TtlStore L2} `{!HasCache L1 L2 St}.
Context (now : Z).
Abbreviation at_now := (λ s : St, clock s = now).

Lemma redis_get_at redis key : preserves at_now (redis_get redis key).
Proof. unfold redis_get. preserves_tac. Qed.
Lemma cache_get_at key : preserves at_now (cache_get key).
Proof. unfold cache_get. pose proof redis_get_at. preserves_tac. Qed.
Lemma cached_value_at {T} (serde : Serde T) key : preserves at_now (cached_value serde key).
Proof. unfold cached_value, l1_insert. pose proof cache_get_at. preserves_tac. Qed.
Lemma cache_value_at {T} (serde : Serde T) key ttl v : preserves at_now (cache_value serde key ttl v).
Proof. unfold cache_value, l1_insert, cache_set_with_ttl, redis_set_with_ttl. preserves_tac. Qed.

Lemma get_or_insert_with_at {T} (serde : Serde T) key ttl f : preserves at_now f → preserves at_now (get_or_insert_with serde key ttl f).
Proof. intros Hf. unfold get_or_insert_with. pose proof (@cached_value_at T). pose proof (@cache_value_at T). preserves_tac. Qed.
Lemma get_or_insert_with_skip_none_at {T} (serde : Serde T) key ttl f :
  preserves at_now f → preserves at_now (get_or_insert_with_skip_none serde key ttl f).
Proof. intros Hf. unfold get_or_insert_with_skip_none. pose proof (@cached_value_at T). pose proof (@cache_value_at T). preserves_tac. Qed.
End clock_lookup.

Section reads.
Context {L1 L2 : Type} `{!TtlStore L1, !TtlStore L2, !TtlLaws L1, !TtlLaws L2} {P : Platform} {U : UuidLaws P}.
Context (database : Z → Configuration) (sd : Serdes) {HS : SerdesLaws sd}.
Abbreviation world := (LookupWorld L1 L2).
Abbreviation lookup := (eff world Failure).
Implicit Types s : world.

(** What is in the cache under the key of a query was its answer at the time; of other keys
    nothing is said. *)
Definition answers (key : string) (t : Z) (text : string) : Prop :=
  (∃ q, query_key q = key) → ∃ q, query_key q = key ∧ answered sd q (cfg_tables (database t)) text.

Lemma answered_answers q t text : answered sd q (cfg_tables (database t)) text → answers (query_key q) t text.
Proof. intros Ha _. by exists q. Qed.

(** It was so at most [life] and an hour ago. *)
Definition recently (now life : Z) (Q : Tables → Prop) : Prop :=
  ∃ t, (t ≤ now < t + life + l1_ttl)%Z ∧ Q (cfg_tables (database t)).

Lemma stale_read_recent {T} (serde : Serde T) q now v :
  stale_read answers key_life serde (query_key q) now v →
  recently now (query_life q) (λ db, ∃ q' text, same_query q' q ∧ answered sd q' db text ∧ decode serde text = Some v).
Proof.
  intros (t & text & Ha & Hd & Hle & Hlt). rewrite key_life_query in Hlt. destruct Ha as (q' & Hk & Ha); [by exists q|].
  exists t. split; [lia|]. exists q', text. split_and!; [by apply query_key_inj|done..].
Qed.

Lemma recently_mono now life (Q Q' : Tables → Prop) : (∀ db, Q db → Q' db) → recently now life Q → recently now life Q'.
Proof. intros HQ (t & Ht & H). exists t. auto. Qed.

(** A lookup at the time [now], which leaves the cache good, and its result. *)
Definition good (now : Z) s : Prop := fresh answers key_life s ∧ clock s = now.
Definition reads {A} (now : Z) (m : lookup A) (Q : A → Prop) : Prop := ∀ s,
  good now s → good now (m s).2 ∧ ∀ a, (m s).1 = Ok a → Q a.

Lemma reads_ret {A} now (a : A) (Q : A → Prop) : Q a → reads now (mret a) Q.
Proof. intros HQ s Hs. split; [done|]. by intros a' [= <-]. Qed.
Lemma reads_gets {A} now (f : world → A) : reads now (eff_gets f) (λ _, True).
Proof. intros s Hs. by split. Qed.
Lemma reads_bind {A B} now (m : lookup A) (k : A → lookup B) Q Q' :
  reads now m Q → (∀ a, Q a → reads now (k a) Q') → reads now (m ≫= k) Q'.
Proof.
  intros Hm Hk s Hs. rewrite eff_bind_eq. destruct (Hm s Hs) as [Hg HQ]. destruct (m s) as [[a|e] s']; [|by split].
  by apply Hk; [apply HQ|].
Qed.
Lemma reads_mono {A} now (m : lookup A) (Q Q' : A → Prop) : reads now m Q → (∀ a, Q a → Q' a) → reads now m Q'.
Proof. intros Hm HQ s Hs. destruct (Hm s Hs) as [Hg Hr]. split; eauto. Qed.
Lemma reads_catch {A} now (m : lookup A) Q : reads now m Q → reads now (catch m) (λ r, match r with Ok a => Q a | Err _ => True end).
Proof.
  intros Hm s Hs. destruct (Hm s Hs) as [Hg HQ]. unfold catch. destruct (m s) as [[a|[e|e]] s']; (split; [done|]);
    intros a' [= <-]; [by apply HQ|done].
Qed.
Lemma reads_or_default {A} now (d : A) (m : lookup A) Q : reads now m Q → reads now (or_default d m) (λ a, a = d ∨ Q a).
Proof.
  intros Hm. eapply reads_bind; [by apply reads_catch|]. intros [a|e] HQ; apply reads_ret; [by right|by left].
Qed.

Lemma db_query_good {A} now context (f : Configuration → A) s : good now s →
  good now (db_query database context f s).2 ∧ ∀ a, (db_query database context f s).1 = Ok a → a = f (database now).
Proof.
  intros [Hf Hc]. unfold db_query. destruct (lw_outcomes s) as [|[e|] rest]; simpl; (split; [by split|]); [| |];
    intros a [= <-]; by rewrite <-Hc.
Qed.
Lemma reads_db_query {A} now context (f : Configuration → A) :
  reads now (db_query database context f : lookup A) (λ a, a = f (database now)).
Proof. intros s. apply db_query_good. Qed.

Lemma db_query_at {A} now context (f : Configuration → A) :
  preserves (λ s, clock s = now) (db_query database context f : lookup A).
Proof. intros s Hs. unfold db_query. by destruct (lw_outcomes s) as [|[e|] rest]. Qed.

Lemma db_query_source {R T} (serde : Serde T) (q : Query) (value : R → option T) context (f : Configuration → R) :
  (∀ t r v text, f (database t) = r → value r = Some v → encode serde v = Ok text → answered sd q (cfg_tables (database t)) text) →
  source_of answers key_life serde (query_key q) value (db_query database context f : lookup R).
Proof.
  intros Hans s Hf. destruct (db_query_good (clock s) context f s) as [[Hf' Hc] HQ]; [by split|]. split_and!; [done|lia|].
  intros r v text Hr Hv He. apply answered_answers. eapply Hans; [|done..]. rewrite Hc. symmetry. by apply HQ.
Qed.

(** A lookup through the cache. *)
Lemma reads_cached {T} (serde : Serde T) `{!SerdeLaws serde} now q key ttl_seconds context (f : Configuration → T) :
  key = query_key q → (0 < 1000 * ttl_seconds ≤ query_life q)%Z →
  (∀ t text, encode serde (f (database t)) = Ok text → answered sd q (cfg_tables (database t)) text) →
  reads now (get_or_insert_with serde key ttl_seconds (db_query database context f : lookup T))
    (λ v, recently now (query_life q) (λ db, ∃ q' text, same_query q' q ∧ answered sd q' db text ∧ decode serde text = Some v)).
Proof.
  intros -> Httl Hans s [Hf Hc].
  destruct (get_or_insert_with serde (query_key q) ttl_seconds (db_query database context f : lookup T) s) as [r s'] eqn:E.
  pose proof (get_or_insert_with_at now serde (query_key q) ttl_seconds _ (db_query_at now context f) s Hc) as Hat.
  rewrite E in Hat. simpl in Hat.
  eapply get_or_insert_with_fresh in E as (Hf' & _ & Hv);
    [|apply _|apply db_query_source; intros t r' v text <- [= <-]; by apply Hans|by unfold ttl_within; rewrite key_life_query|done].
  split; [by split|]. intros v Hok. rewrite <-Hat. by apply stale_read_recent, Hv.
Qed.
End reads.

(** ** The order of the identifiers does not matter *)

Lemma find_by_ids_perm db ids ids' : ids ≡ₚ ids' → find_by_ids_with_associations db ids = find_by_ids_with_associations db ids'.
Proof.
  intros Hp. unfold find_by_ids_with_associations. destruct ids as [|i ids], ids' as [|i' ids']; [done| | |].
  { by apply Permutation_nil_cons in Hp. }
  { by symmetry in Hp; apply Permutation_nil_cons in Hp. }
  apply list_bind_ext; [|done]. intros c. by rewrite (bool_decide_ext _ _ (elem_of_Permutation_proper _ _ _ Hp)).
Qed.

Lemma find_by_buyer_ids_perm db ids ids' : ids ≡ₚ ids' → find_by_buyer_ids db ids = find_by_buyer_ids db ids'.
Proof.
  intros Hp. assert (He : ∀ c, bool_decide (config_buyer_id c ∈ ids) = bool_decide (config_buyer_id c ∈ ids')).
  { intros c. apply bool_decide_ext. by rewrite Hp. }
  unfold find_by_buyer_ids. destruct ids as [|i ids], ids' as [|i' ids']; [done| | |].
  { by apply Permutation_nil_cons in Hp. }
  { by symmetry in Hp; apply Permutation_nil_cons in Hp. }
  cbv zeta.
  assert (Hn : foldl (λ m id, <[id := None]> m) (∅ : gmap Uuid (option BuyerQualificationConfig)) (i :: ids)
             = foldl (λ m id, <[id := None]> m) ∅ (i' :: ids')).
  { apply map_eq. intros id. rewrite !foldl_insert_None_lookup. by rewrite (bool_decide_ext _ _ (elem_of_Permutation_proper _ _ _ Hp)). }
  rewrite Hn. assert (Ha : active_configs db (i :: ids) = active_configs db (i' :: ids')).
  { unfold active_configs. f_equal. apply List.filter_ext. intros c. by rewrite He. }
  rewrite Ha. induction (buyer_qualification_configs db) as [|c l IH]; simpl; [done|].
  rewrite He. destruct (bool_decide (config_buyer_id c ∈ i' :: ids') && _ && _); [done|exact IH].
Qed.

(** ** The lookups of the router *)

Section router.
Context {L1 L2 : Type} `{!TtlStore L1, !TtlStore L2, !TtlLaws L1, !TtlLaws L2} {P : Platform} {U : UuidLaws P}.
Context (database : Z → Configuration) (sd : Serdes) {HS : SerdesLaws sd}.
Abbreviation world := (LookupWorld L1 L2).
Abbreviation lookup := (eff world Failure).
Abbreviation recently := (recently database).
Abbreviation reads := (reads (L1 := L1) (L2 := L2) database sd).
Abbreviation answers := (answers database sd).
Implicit Types s : world.

Lemma reads_lookup_tree now publisher vertical :
  reads now (lookup_tree database sd true publisher vertical) (λ o,
    match o with
    | Some tree => recently now 21600000 (λ db, find_for_routing db publisher vertical = Some tree)
    | None => find_for_routing (cfg_tables (database now)) publisher vertical = None
    end).
Proof.
  intros s [Hf Hc]. unfold lookup_tree. set (f := on_routing _ _ _). set (key := tree_key publisher vertical).
  destruct (get_or_insert_with_skip_none (sd_tree sd) key 21600 f s) as [r s'] eqn:E.
  pose proof (get_or_insert_with_skip_none_at now (sd_tree sd) key 21600 f (db_query_at _ _ _ _) s Hc) as Hat.
  rewrite E in Hat. simpl in Hat. assert (Hnone : r = Ok None → find_for_routing (cfg_tables (database now)) publisher vertical = None).
  { intros ->. revert E. unfold get_or_insert_with_skip_none. rewrite eff_bind_eq.
    pose proof (cached_value_at now (sd_tree sd) key s Hc) as Hc1.
    destruct (cached_value _ _ s) as [[[v|]|e] s1]; [done| |done]. rewrite eff_bind_eq. pose proof (on_cache_at now count_miss s1 Hc1) as Hc2.
    destruct (on_cache count_miss s1) as [[[]|e] s2]; [|done]. rewrite eff_bind_eq. unfold f, on_routing, db_query. simpl in Hc2.
    destruct (lw_outcomes s2) as [|[e|] rest]; [|done|]; rewrite Hc2;
      (destruct (find_for_routing _ _ _) as [v|]; [|done]; rewrite eff_bind_eq; by destruct (cache_value _ _ _ _ _) as [[[]|e] s3]). }
  eapply get_or_insert_with_skip_none_fresh in E as (Hf' & _ & Hv); [|apply _| | |exact Hf].
  3: { unfold ttl_within, key. pose proof (key_life_query (QTree publisher vertical)) as Hl. simpl in Hl. by rewrite Hl. }
  2: { apply (db_query_source database sd _ (QTree publisher vertical) id). intros t r0 v text <- Ho He. unfold id in Ho. simpl.
       rewrite Ho. by rewrite encode_some_tree. }
  split; [by split|]. simpl. intros [tree|] Hr; [|by apply Hnone].
  specialize (Hv tree Hr). apply (stale_read_recent database sd _ (QTree publisher vertical)) in Hv. change (clock s') with (lw_now s') in Hv. simpl in Hat. rewrite Hat in Hv.
  revert Hv. apply recently_mono. intros db (q' & text & Hq & Ha & Hd). destruct q'; try done. injection Hq as -> ->. simpl in Ha.
  destruct (find_for_routing db publisher vertical) as [t'|].
  - rewrite encode_some_tree in Ha. by rewrite (encode_decode _ _ _ Ha) in Hd.
  - by rewrite (decode_no_tree _ Ha) in Hd.
Qed.

Lemma reads_lookup_members now tree :
  reads now (lookup_members database sd true tree) (λ rows, recently now 21600000 (λ db, find_enabled_for_ping_tree db tree = rows)).
Proof.
  eapply reads_mono; [apply (reads_cached database sd _ now (QMembers tree)); [done|done|by intros]|].
  intros rows. apply recently_mono. intros db (q' & text & Hq & Ha & Hd). destruct q'; try done. injection Hq as ->. simpl in Ha.
  rewrite (encode_decode _ _ _ Ha) in Hd. congruence.
Qed.

Lemma reads_lookup_buyer_id now campaign :
  reads now (lookup_buyer_id database sd campaign) (λ o, recently now 3600000 (λ db, buyer_of_campaign campaign db = o)).
Proof.
  eapply reads_mono; [apply (reads_cached database sd _ now (QBuyerId campaign)); [done|done|by intros]|].
  intros o. apply recently_mono. intros db (q' & text & Hq & Ha & Hd). destruct q'; try done. injection Hq as ->. simpl in Ha.
  rewrite (encode_decode _ _ _ Ha) in Hd. congruence.
Qed.

Definition recent_buyer now (ids : list Uuid) (b : Uuid) : Prop :=
  ∃ c, c ∈ ids ∧ recently now 3600000 (λ db, buyer_of_campaign c db = Some b).

Lemma reads_lookup_buyer_ids now all ids found :
  (∀ c, c ∈ ids → c ∈ all) → (∀ b, b ∈ found → recent_buyer now all b) →
  reads now (lookup_buyer_ids database sd ids found) (λ buyers, ∀ b, b ∈ buyers → recent_buyer now all b).
Proof.
  revert found. induction ids as [|id ids IH]; intros found Hin Hfound; simpl; [by apply reads_ret|].
  eapply reads_bind; [apply reads_catch, reads_lookup_buyer_id|]. intros r Hr. apply IH; [intros c Hc; apply Hin; by right|].
  destruct r as [[b|]|e]; [|done..]. case_bool_decide; [done|]. intros b' [?| ->%list_elem_of_singleton]%elem_of_app; [by apply Hfound|].
  exists id. split; [apply Hin; by left|done].
Qed.

Lemma reads_lookup_associations now ids :
  reads now (lookup_associations database sd true ids) (λ rows,
    rows = [] ∨ recently now 3600000 (λ db, find_by_ids_with_associations db ids = rows)).
Proof.
  apply reads_or_default. eapply reads_mono; [apply (reads_cached database sd _ now (QAssociations ids)); [done|done|by intros]|].
  intros rows. apply recently_mono. intros db (q' & text & Hq & Ha & Hd). destruct q'; try done. simpl in Hq, Ha.
  rewrite (encode_decode _ _ _ Ha) in Hd. injection Hd as <-. by apply find_by_ids_perm.
Qed.

Lemma reads_lookup_configs now ids :
  reads now (lookup_configs database sd true ids) (λ configs,
    configs = ∅ ∨ recently now 3600000 (λ db, find_by_buyer_ids db ids = configs)).
Proof.
  unfold lookup_configs. case_bool_decide; [apply reads_ret; by left|].
  apply reads_or_default. eapply reads_mono; [apply (reads_cached database sd _ now (QConfigs ids)); [done|done|by intros]|].
  intros rows. apply recently_mono. intros db (q' & text & Hq & Ha & Hd). destruct q'; try done. simpl in Hq, Ha.
  rewrite (encode_decode _ _ _ Ha) in Hd. injection Hd as <-. by apply find_by_buyer_ids_perm.
Qed.

(** What the router loads was so not long ago: the tree and its members at most seven
    hours, the rest at most two; that there is no tree is as of now. *)
Definition recent_loads (now : Z) (publisher : Uuid) (vertical : string) (l : RouteLoads) : Prop :=
  match load_ping_tree l with
  | Err _ => True
  | Ok None => find_for_routing (cfg_tables (database now)) publisher vertical = None
  | Ok (Some tree) =>
      recently now 21600000 (λ db, find_for_routing db publisher vertical = Some tree) ∧
      let pt := tree.1.1 in
      match load_ping_tree_campaigns l (tree_id pt) with
      | Err _ => True
      | Ok rows =>
          let ids := ptc_campaign_id <$> rows in
          let buyers := load_buyer_ids l ids in
          (PingTree_is_active pt = true → recently now 21600000 (λ db, find_enabled_for_ping_tree db (tree_id pt) = rows)) ∧
          (∀ b, b ∈ buyers → recent_buyer now ids b) ∧
          (load_associations l ids = [] ∨
           recently now 3600000 (λ db, find_by_ids_with_associations db ids = load_associations l ids)) ∧
          (load_qualification_configs l buyers = ∅ ∨
           recently now 3600000 (λ db, find_by_buyer_ids db buyers = load_qualification_configs l buyers))
      end
  end.

Lemma reads_router_loads now times publisher vertical :
  reads now (router_loads database sd true times publisher vertical) (recent_loads now publisher vertical).
Proof.
  unfold router_loads. eapply reads_bind; [apply reads_gets|]. intros hits _.
  eapply reads_bind; [apply reads_catch, reads_lookup_tree|]. intros tree Htree. eapply reads_bind; [apply reads_gets|]. intros hits' _. cbv zeta.
  destruct tree as [[[[pt rp] rf]|]|e]; [|by apply reads_ret..].
  destruct (PingTree_is_active pt) eqn:Hactive; simpl.
  2: { apply reads_ret. split; [exact Htree|]. simpl. split_and!; [|by intros b ?%elem_of_nil|by left..]. by rewrite Hactive. }
  eapply reads_bind; [apply reads_gets|]. intros before _. eapply reads_bind; [apply reads_catch, reads_lookup_members|]. intros members Hm.
  eapply reads_bind; [apply reads_gets|]. intros after _. destruct members as [[|row rows]|e].
  - apply reads_ret. split; [exact Htree|]. simpl. split_and!; [done|by intros b ?%elem_of_nil|by left..].
  - eapply reads_bind; [by apply (reads_lookup_buyer_ids now (ptc_campaign_id <$> row :: rows)); [|intros b ?%elem_of_nil]|]. intros buyers Hb.
    eapply reads_bind; [apply reads_lookup_associations|]. intros associations Ha.
    eapply reads_bind; [apply reads_lookup_configs|]. intros configs Hc.
    apply reads_ret. split; [exact Htree|]. simpl. split_and!; done.
  - apply reads_ret. split; [exact Htree|done].
Qed.
End router.

(** ** The warm-up *)

Section warm_up.
Context {L1 L2 : Type} `{!TtlStore L1, !TtlStore L2, !TtlLaws L1, !TtlLaws L2} {P : Platform} {U : UuidLaws P}.
Context (database : Z → Configuration) (sd : Serdes) {HS : SerdesLaws sd}.
Abbreviation world := (LookupWorld L1 L2).
Abbreviation lookup := (eff world Failure).
Abbreviation answers := (answers database sd).
Abbreviation step := (cache_step (L1 := L1) (L2 := L2) (St := world) answers key_life).

(** What [m] does to the cache is one thing after the other that clients do. *)
Definition runs {A} (m : lookup A) : Prop := ∀ s, rtc step s (m s).2.

Lemma runs_ret {A} (a : A) : runs (mret a).
Proof. by intros s. Qed.
Lemma runs_bind {A B} (m : lookup A) (k : A → lookup B) : runs m → (∀ a, runs (k a)) → runs (m ≫= k).
Proof. intros Hm Hk s. rewrite eff_bind_eq. specialize (Hm s). destruct (m s) as [[a|e] s']; [|done]. etrans; [exact Hm|apply Hk]. Qed.
Lemma runs_catch {A} (m : lookup A) : runs m → runs (catch m).
Proof. intros Hm s. specialize (Hm s). unfold catch. by destruct (m s) as [[a|[e|e]] s']. Qed.
Lemma runs_db_query {A} context (f : Configuration → A) : runs (db_query database context f).
Proof.
  intros s. apply rtc_once. unfold db_query. destruct (lw_outcomes s) as [|[e|] rest]; (apply step_pass; simpl; [done|done|done|eauto]).
Qed.
Lemma runs_or_default {A} (d : A) (m : lookup A) : runs m → runs (or_default d m).
Proof. intros Hm. apply runs_bind; [by apply runs_catch|]. intros r. apply runs_ret. Qed.

Lemma runs_put_query {T} (serde : Serde T) `{!SerdeLaws serde} q key ttl_seconds context (f : Configuration → T) :
  key = query_key q → (0 < 1000 * ttl_seconds ≤ query_life q)%Z →
  (∀ t text, encode serde (f (database t)) = Ok text → answered sd q (cfg_tables (database t)) text) →
  runs (put serde key ttl_seconds (db_query database context f)).
Proof.
  intros -> Httl Hans. apply runs_bind; [|intros v; apply runs_ret]. intros s. apply rtc_once. apply step_get; [done| |].
  - apply (db_query_source database sd serde q Some). intros t r v text <- [= <-]. apply Hans.
  - unfold ttl_within. by rewrite key_life_query.
Qed.

(** Nothing is said of keys that no query has. *)
Lemma runs_put_value {T} (serde : Serde T) `{!SerdeLaws serde} key ttl_seconds (v : T) :
  (∀ q, query_key q ≠ key) → ttl_within key_life key ttl_seconds → runs (put serde key ttl_seconds (mret v)).
Proof.
  intros Hkey Httl. apply runs_bind; [|intros w; apply runs_ret]. intros s. apply rtc_once, step_get; [done| |done].
  intros s' Hf. simpl. split_and!; [done|done|]. intros r w text _ _ _ [q Hq]. by destruct (Hkey q).
Qed.

Lemma runs_warm_each {A} (warm : A → lookup unit) rows : (∀ row, runs (warm row)) → runs (warm_each warm rows).
Proof.
  intros Hw. induction rows as [|row rows IH]; simpl; [apply runs_ret|]. apply runs_bind; [by apply runs_catch|done].
Qed.
Lemma runs_warm_rows {A} (query : Configuration → list A) (warm : A → lookup unit) :
  (∀ row, runs (warm row)) → runs (warm_rows database query warm).
Proof.
  intros Hw. unfold warm_rows. apply runs_bind; [apply runs_catch, runs_db_query|]. intros [rows|e]; [|apply runs_ret].
  apply runs_bind; [by apply runs_warm_each|intros _; apply runs_ret].
Qed.

Lemma other_key q key : (∃ s, key = vertical_key s) ∨ (∃ u, key = buyer_name_key u ∨ key = campaign_name_key u) → query_key q ≠ key.
Proof.
  intros [[s ->]|[u [->| ->]]]; unfold vertical_key, buyer_name_key, campaign_name_key; destruct q;
    unfold query_key, tree_key, members_key, buyer_id_key, associations_key, configs_key, buyer_key, integration_key;
    intros Heq; cbn in Heq; discriminate Heq.
Qed.

Lemma other_life key : (∃ s, key = vertical_key s) ∨ (∃ u, key = buyer_name_key u ∨ key = campaign_name_key u) →
  key_life key = 86400000%Z.
Proof. by intros [[s ->]|[u [->| ->]]]. Qed.

Lemma runs_pre_warm_cache has_cache : runs (pre_warm_cache database sd has_cache).
Proof.
  unfold pre_warm_cache. destruct has_cache; [|apply runs_ret].
  assert (Hvalue : ∀ T (serde : Serde T) `{!SerdeLaws serde} key ttl v, (0 < 1000 * ttl ≤ 86400000)%Z →
    (∃ s, key = vertical_key s) ∨ (∃ u, key = buyer_name_key u ∨ key = campaign_name_key u) → runs (put serde key ttl (mret v))).
  { intros T serde Hserde key ttl v Httl Hk. apply (runs_put_value _); [intros q; by apply other_key|]. unfold ttl_within. by rewrite other_life. }
  apply runs_bind; [apply runs_warm_rows; intros v; apply (Hvalue _ _ _); [done|eauto]|intros ?].
  apply runs_bind; [apply runs_warm_rows; intros [[[tree vertical] publisher] created_at]; by apply (runs_put_query _ (QTree publisher vertical))|intros ?].
  apply runs_bind; [apply runs_warm_rows; intros b; apply (Hvalue _ _ _); [done|eauto]|intros ?].
  apply runs_bind; [apply runs_warm_rows; intros [id name]; apply (Hvalue _ _ _); [done|eauto]|intros ?].
  apply runs_bind; [apply runs_warm_rows; intros i; by apply (runs_put_query _ (QIntegration (integration_id i)))|intros ?].
  apply runs_bind; [apply runs_warm_rows; intros b; by apply (runs_put_query _ (QBuyer (buyer_id b)))|intros ?].
  apply runs_bind; [apply runs_warm_rows; intros ids; by apply (runs_put_query _ (QConfigs ids))|intros ?].
  apply runs_bind; [apply runs_warm_rows; intros pt; by apply (runs_put_query _ (QMembers (tree_id pt)))|intros ?].
  apply runs_bind; [apply runs_or_default, runs_db_query|intros _; apply runs_ret].
Qed.
End warm_up.

(** ** The router's lookups as uses of the cache, and that they answer *)

(** The bytes written are text, so nothing panics. *)
Class WritesText (sd : Serdes) : Prop := {
  tree_text v bytes : simd_to_vec (sd_tree sd) v = Ok bytes → is_Some (from_utf8 (sd_tree sd) bytes);
  members_text v bytes : simd_to_vec (sd_members sd) v = Ok bytes → is_Some (from_utf8 (sd_members sd) bytes);
  id_text v bytes : simd_to_vec (sd_id sd) v = Ok bytes → is_Some (from_utf8 (sd_id sd) bytes);
  associations_text v bytes : simd_to_vec (sd_associations sd) v = Ok bytes → is_Some (from_utf8 (sd_associations sd) bytes);
  configs_text v bytes : simd_to_vec (sd_configs sd) v = Ok bytes → is_Some (from_utf8 (sd_configs sd) bytes)
}.

Section answering.
Context {L1 L2 : Type} `{!TtlStore L1, !TtlStore L2, !TtlLaws L1, !TtlLaws L2} {P : Platform} {U : UuidLaws P}.
Context (database : Z → Configuration) (sd : Serdes) {HS : SerdesLaws sd} {HT : WritesText sd}.
Abbreviation world := (LookupWorld L1 L2).
Abbreviation lookup := (eff world Failure).
Abbreviation runs := (runs (L1 := L1) (L2 := L2) database sd).

Lemma runs_gets {A} (f : world → A) : runs (eff_gets f).
Proof. by intros s. Qed.

Lemma runs_cached {T} (serde : Serde T) `{!SerdeLaws serde} q key ttl_seconds context (f : Configuration → T) :
  key = query_key q → (0 < 1000 * ttl_seconds ≤ query_life q)%Z →
  (∀ t text, encode serde (f (database t)) = Ok text → answered sd q (cfg_tables (database t)) text) →
  runs (get_or_insert_with serde key ttl_seconds (db_query database context f)).
Proof.
  intros Hk Httl Hans s. pose proof (runs_put_query database sd serde q key ttl_seconds context f Hk Httl Hans s) as Hr.
  unfold put in Hr. rewrite eff_bind_eq in Hr. by destruct (get_or_insert_with serde key ttl_seconds _ s) as [[v|e] s'].
Qed.

Lemma runs_lookup_tree publisher vertical : runs (lookup_tree database sd true publisher vertical).
Proof.
  intros s. apply rtc_once. apply step_get_skip_none; [apply _| |].
  - apply (db_query_source database sd _ (QTree publisher vertical) id). intros t r0 v text <- Ho He. unfold id in Ho. simpl.
    rewrite Ho. by rewrite encode_some_tree.
  - unfold ttl_within. pose proof (key_life_query (QTree publisher vertical)) as Hl. simpl in Hl. by rewrite Hl.
Qed.

Lemma runs_lookup_buyer_ids ids found : runs (lookup_buyer_ids database sd ids found).
Proof.
  revert found. induction ids as [|id ids IH]; intros found; simpl; [apply runs_ret|].
  apply runs_bind; [apply runs_catch; by apply (runs_cached _ (QBuyerId id))|]. intros r. apply IH.
Qed.

Lemma runs_router_loads times publisher vertical : runs (router_loads database sd true times publisher vertical).
Proof.
  unfold router_loads. apply runs_bind; [apply runs_gets|]. intros hits.
  apply runs_bind; [apply runs_catch, runs_lookup_tree|]. intros tree. apply runs_bind; [apply runs_gets|]. intros hits'. cbv zeta.
  destruct tree as [[[[pt rp] rf]|]|e]; [|by apply runs_ret..]. destruct (PingTree_is_active pt); simpl; [|apply runs_ret].
  apply runs_bind; [apply runs_gets|]. intros before. apply runs_bind; [apply runs_catch; by apply (runs_cached _ (QMembers (tree_id pt)))|]. intros members.
  apply runs_bind; [apply runs_gets|]. intros after. destruct members as [[|row rows]|e]; [apply runs_ret| |apply runs_ret].
  apply runs_bind; [apply runs_lookup_buyer_ids|]. intros buyers.
  apply runs_bind; [apply runs_or_default; by apply (runs_cached _ (QAssociations (ptc_campaign_id <$> row :: rows)))|]. intros associations.
  apply runs_bind; [|intros configs; apply runs_ret].
  unfold lookup_configs. case_bool_decide; [apply runs_ret|]. apply runs_or_default. by apply (runs_cached _ (QConfigs buyers)).
Qed.

(** No panic, and no error either. *)
Definition no_panic {S A} (m : eff S Failure A) : Prop := ∀ s message, (m s).1 ≠ Err (Panicked message).
Definition returns {S A} (m : eff S Failure A) : Prop := ∀ s, ∃ a, (m s).1 = Ok a.

Lemma returns_bind {S A B} (m : eff S Failure A) (k : A → eff S Failure B) : returns m → (∀ a, returns (k a)) → returns (m ≫= k).
Proof. intros Hm Hk s. rewrite eff_bind_eq. destruct (Hm s) as [a Ha]. destruct (m s) as [r s']. simpl in Ha. subst. apply Hk. Qed.
Lemma returns_ret {S A} (a : A) : returns (mret (M := eff S Failure) a).
Proof. intros s. by exists a. Qed.
Lemma returns_gets {S A} (f : S → A) : returns (eff_gets (E := Failure) f).
Proof. intros s. by eexists. Qed.
Lemma returns_catch {S A} (m : eff S Failure A) : no_panic m → returns (catch m).
Proof. intros Hm s. specialize (Hm s). unfold catch. destruct (m s) as [[a|[e|e]] s']; simpl in *; [by eexists..|]. by destruct (Hm e). Qed.

Lemma no_panic_bind {S A B} (m : eff S Failure A) (k : A → eff S Failure B) : no_panic m → (∀ a, no_panic (k a)) → no_panic (m ≫= k).
Proof. intros Hm Hk s e. rewrite eff_bind_eq. specialize (Hm s). destruct (m s) as [[a|e'] s']; [apply Hk|]. simpl in *. intros [= ->]. by apply (Hm e). Qed.
Lemma no_panic_returns {S A} (m : eff S Failure A) : returns m → no_panic m.
Proof. intros Hm s e He. destruct (Hm s) as [a Ha]. congruence. Qed.
Lemma no_panic_ret {S A} (a : A) : no_panic (mret (M := eff S Failure) a).
Proof. apply no_panic_returns, returns_ret. Qed.
Lemma no_panic_on_cache f : no_panic (on_cache (St := world) f).
Proof. intros s e. done. Qed.
Lemma no_panic_fallible {S A} (r : Result string A) : no_panic (S := S) (fallible r).
Proof. intros s e. by destruct r. Qed.
Lemma no_panic_outcome e : no_panic (redis_outcome (St := world) e).
Proof. intros s msg. unfold redis_outcome. by destruct (cs_outcomes (cache_of s)) as [|[]]. Qed.
Lemma no_panic_db_query {A} context (f : Configuration → A) : no_panic (db_query database context f : lookup A).
Proof. intros s e. unfold db_query. by destruct (lw_outcomes s) as [|[]]. Qed.
#[local] Hint Resolve no_panic_ret no_panic_on_cache no_panic_fallible no_panic_outcome no_panic_db_query : effects.

Lemma no_panic_gets {S A} (f : S → A) : no_panic (eff_gets (E := Failure) f).
Proof. by intros s e. Qed.
#[local] Hint Resolve no_panic_gets : effects.

Ltac no_panic_tac := repeat first
  [ solve [eauto with effects] | apply no_panic_bind; [|intros ?]
  | match goal with |- no_panic (match ?x with _ => _ end) => destruct x end ].

Lemma no_panic_cached_value {T} (serde : Serde T) key : no_panic (cached_value (St := world) serde key).
Proof.
  unfold cached_value, cache_get, l1_insert, eff_gets. no_panic_tac; try (intros s e; done).
  apply no_panic_returns, returns_catch. unfold redis_get. no_panic_tac.
Qed.

Lemma no_panic_cache_value {T} (serde : Serde T) key ttl v :
  (∀ v bytes, simd_to_vec serde v = Ok bytes → is_Some (from_utf8 serde bytes)) → no_panic (cache_value (St := world) serde key ttl v).
Proof.
  intros Htext. unfold cache_value, l1_insert, cache_set_with_ttl, redis_set_with_ttl. apply no_panic_bind; [|intros text; no_panic_tac].
  intros s e. unfold eff_lift, encode. simpl. destruct (simd_to_vec serde v) as [bytes|e'] eqn:E; [|by destruct (serde_to_string serde v)].
  by destruct (Htext _ _ E) as [text ->].
Qed.

Lemma no_panic_cached {T} (serde : Serde T) key ttl context (f : Configuration → T) :
  (∀ v bytes, simd_to_vec serde v = Ok bytes → is_Some (from_utf8 serde bytes)) →
  no_panic (get_or_insert_with serde key ttl (db_query database context f) : lookup T).
Proof.
  intros Htext. unfold get_or_insert_with. pose proof (@no_panic_cached_value T). pose proof (fun key ttl v => no_panic_cache_value serde key ttl v Htext).
  no_panic_tac.
Qed.

Lemma returns_router_loads times publisher vertical : returns (router_loads database sd true times publisher vertical : lookup RouteLoads).
Proof.
  unfold router_loads. apply returns_bind; [apply returns_gets|]. intros hits. apply returns_bind.
  { apply returns_catch. unfold lookup_tree, get_or_insert_with_skip_none, on_routing. pose proof (@no_panic_cached_value RoutedTree).
    pose proof (fun key ttl v => no_panic_cache_value (sd_tree sd) key ttl v tree_text). no_panic_tac. }
  intros tree. apply returns_bind; [apply returns_gets|]. intros hits'. cbv zeta.
  destruct tree as [[[[pt rp] rf]|]|e]; [|by apply returns_ret..]. destruct (PingTree_is_active pt); simpl; [|apply returns_ret].
  apply returns_bind; [apply returns_gets|]. intros before. apply returns_bind; [apply returns_catch, no_panic_cached, members_text|]. intros members.
  apply returns_bind; [apply returns_gets|]. intros after. destruct members as [[|row rows]|e]; [apply returns_ret| |apply returns_ret].
  apply returns_bind.
  { generalize (ptc_campaign_id <$> row :: rows) (@nil Uuid). intros ids. induction ids as [|id ids IH]; intros found; simpl; [apply returns_ret|].
    apply returns_bind; [apply returns_catch, no_panic_cached, id_text|]. intros r. apply IH. }
  intros buyers. apply returns_bind.
  { apply returns_bind; [apply returns_catch, no_panic_cached, associations_text|intros r; apply returns_ret]. }
  intros associations. apply returns_bind; [|intros configs; apply returns_ret].
  unfold lookup_configs. case_bool_decide; [apply returns_ret|].
  apply returns_bind; [apply returns_catch, no_panic_cached, configs_text|intros r; apply returns_ret].
Qed.
End answering.

(** ** Properties *)

Section properties.
Context {L1 L2 : Type} `{!TtlStore L1, !TtlStore L2} {P : Platform}.
Context (database : Z → Configuration) (sd : Serdes).
Abbreviation world := (LookupWorld L1 L2).
Implicit Types s : world.

(** C29: what the router routes over is of bounded age.  The cache is warmed up, then used in
    any way that clients use it: by routers, by further warm-ups, by others; time passes,
    entries are forgotten, Redis and the database fail.  Then the lookups of the router
    answer: the ping tree is the one the publisher had at a time less than seven hours ago,
    and its campaigns are those it had then or at another such time; buyers, campaigns with
    their buyers and rule sets are as they were at times less than two hours ago, or left
    out when their lookup failed.  That there is no tree is as of now. *)
Theorem router_loads_are_recent `{!TtlLaws L1, !TtlLaws L2, !UuidLaws P, !SerdesLaws sd, !WritesText sd} (s0 s : world)
    (times : LookupTimes) (publisher : Uuid) (vertical : string) :
  empty_cache s0 →
  rtc (cache_step (answers database sd) key_life) (pre_warm_cache database sd true s0).2 s →
  ∃ l s', router_loads database sd true times publisher vertical s = (Ok l, s') ∧
    recent_loads database (lw_now s) publisher vertical l ∧ lw_now s' = lw_now s ∧
    rtc (cache_step (answers database sd) key_life) s s'.
Proof.
  intros H0 Hrun. assert (Hf : fresh (answers database sd) key_life s).
  { eapply cache_run_fresh; [etrans; [apply (runs_pre_warm_cache database sd true s0)|exact Hrun]|by apply empty_cache_fresh]. }
  destruct (returns_router_loads database sd times publisher vertical s) as [l Hl].
  destruct (reads_router_loads database sd (lw_now s) times publisher vertical s) as [[_ Hc] Hr]; [by split|].
  pose proof (runs_router_loads database sd times publisher vertical s) as Hs.
  destruct (router_loads database sd true times publisher vertical s) as [r s'] eqn:E. simpl in *. subst r. exists l, s'. split_and!; [done|by apply Hr|exact Hc|exact Hs].
Qed.

Lemma quiet_query {A} context (f : Configuration → A) s : lw_outcomes s = [] → db_query database context f s = (Ok (f (database (lw_now s))), s).
Proof. intros Ho. destruct s as [c now o]. simpl in *. by subst o. Qed.

Lemma quiet_default {A} (d : A) context (f : Configuration → A) s : lw_outcomes s = [] →
  or_default d (db_query database context f) s = (Ok (f (database (lw_now s))), s).
Proof. intros Ho. unfold or_default, catch. by rewrite eff_bind_eq, (quiet_query _ _ _ Ho). Qed.

Lemma quiet_configs ids s : lw_outcomes s = [] →
  lookup_configs database sd false ids s = (Ok (find_by_buyer_ids (cfg_tables (database (lw_now s))) ids), s).
Proof. intros Ho. unfold lookup_configs. case_bool_decide as Hb; [by subst ids|by apply quiet_default]. Qed.

(** without a cache the router's lookups are the tables' own, as [loads_of_tables] has
    them, at everything that the router asks for. *)
Theorem uncached_loads_are_of_tables (s : world) (times : LookupTimes) (publisher : Uuid) (vertical : string) :
  lw_outcomes s = [] →
  let tables := loads_of_tables (cfg_tables (database (lw_now s))) publisher vertical in
  ∃ l, router_loads database sd false times publisher vertical s = (Ok l, s) ∧
    load_ping_tree l = load_ping_tree tables ∧ load_ping_tree_hit l = false ∧ load_campaigns_counted l = false ∧
    ∀ pt rp rf, load_ping_tree l = Ok (Some (pt, rp, rf)) → PingTree_is_active pt = true →
      load_ping_tree_campaigns l (tree_id pt) = load_ping_tree_campaigns tables (tree_id pt) ∧
      ∀ row rows, load_ping_tree_campaigns l (tree_id pt) = Ok (row :: rows) →
        let ids := ptc_campaign_id <$> row :: rows in
        load_buyer_ids l ids = load_buyer_ids tables ids ∧ load_associations l ids = load_associations tables ids ∧
        load_qualification_configs l (load_buyer_ids l ids) = load_qualification_configs tables (load_buyer_ids l ids).
Proof.
  intros Ho tables. unfold router_loads. rewrite eff_bind_eq. unfold eff_gets at 1. rewrite eff_bind_eq.
  unfold catch at 1, lookup_tree, on_routing at 1. rewrite (quiet_query _ _ _ Ho), eff_bind_eq. cbn [andb]. unfold eff_gets at 1.
  destruct (find_for_routing (cfg_tables (database (lw_now s))) publisher vertical) as [[[pt rp] rf]|] eqn:Ht.
  2: { eexists. split; [done|]. simpl. rewrite Ht. done. }
  destruct (PingTree_is_active pt) eqn:Hact; cbn [negb].
  2: { eexists. split; [done|]. simpl. rewrite Ht. split_and!; [done..|]. intros ? ? ? [= <- _ _]. by rewrite Hact. }
  rewrite eff_bind_eq. unfold eff_gets at 1. rewrite eff_bind_eq. unfold catch at 1, lookup_members, through_cache.
  rewrite (quiet_query _ _ _ Ho), eff_bind_eq. unfold eff_gets at 1.
  destruct (find_enabled_for_ping_tree (cfg_tables (database (lw_now s))) (tree_id pt)) as [|row rows] eqn:Hm.
  { eexists. split; [done|]. simpl. rewrite Ht. split_and!; [done..|]. intros ? ? ? [= <- _ _] _. by rewrite Hm. }
  rewrite eff_bind_eq. unfold buyer_ids_of, on_routing. rewrite (quiet_default _ _ _ _ Ho), eff_bind_eq.
  unfold lookup_associations, through_cache. rewrite (quiet_default _ _ _ _ Ho), eff_bind_eq, (quiet_configs _ _ Ho).
  eexists. split; [done|]. simpl. rewrite Ht. split_and!; [done..|]. intros ? ? ? [= <- _ _] _. rewrite Hm. split; [done|].
  intros row' rows' [= <- <-]. done.
Qed.

(** the warm-up keeps a buyer for a day.  The router looks a buyer up for an hour, but
    under the key under which the warm-up has put it for a day: all day the router is
    given the buyer as the warm-up found it, whatever the tables say since. *)
Theorem warmed_buyer_lasts_a_day `{!TtlLaws L1, !TtlLaws L2, !TtlKeeps L2, !SerdeLaws (sd_buyer sd)} (s s1 s2 : world)
    (redis : L2) (id : Uuid) (text : string) :
  let c := lw_cache s in
  let buyer := Buyer_find_by_id (cfg_tables (database (lw_now s))) id in
  ts_get (lw_now s) (buyer_key id) (cs_l1 c) = None → cs_redis c = Some redis →
  ts_get (lw_now s) (prefix_key c (cache_key (buyer_key id))) redis = None → cs_outcomes c = [] → lw_outcomes s = [] →
  encode (sd_buyer sd) buyer = Ok text →
  put (sd_buyer sd) (buyer_key id) 86400 (on_routing database "DB error: " (λ db, Buyer_find_by_id db id)) s = (Ok tt, s1) →
  lw_cache s2 = lw_cache s1 → (lw_now s ≤ lw_now s2 < lw_now s + 86400000)%Z →
  (lookup_buyer database sd true id s2).1 = Ok buyer.
Proof.
  intros c buyer H1 Hr H2 Ho Hq He Hput Hs2 Hnow. pose proof (encode_decode _ _ _ He) as Hd.
  destruct s as [[l1 r renv env hits misses os] now outcomes]. simpl in *. subst r os outcomes.
  assert (Hs1 : lw_cache s1 = {| cs_l1 := ts_set now (Some l1_ttl) (buyer_key id) text l1;
    cs_redis := Some (ts_set now (Some 86400000%Z) (renv +:+ ":" +:+ cache_key (buyer_key id)) text redis); cs_redis_env := renv; cs_env := env;
    cs_hits := hits; cs_misses := u64_fetch_add (u64_fetch_add misses 1) 1; cs_outcomes := [] |}).
  { revert Hput. unfold put, get_or_insert_with, cached_value, cache_get, redis_get, redis_outcome, cache_value, cache_set_with_ttl, redis_set_with_ttl,
      redis_outcome, l1_insert, on_cache, eff_modify, eff_lift, eff_gets, catch, fallible, mret, eff_ret, mbind, eff_bind, on_routing, db_query.
    cbn -[ts_get ts_set buyer_key cache_key u64_fetch_add]. rewrite H1. cbn -[ts_get ts_set buyer_key cache_key u64_fetch_add].
    unfold prefix_key in *. cbn -[ts_get ts_set buyer_key cache_key u64_fetch_add] in *. rewrite H2.
    cbn -[ts_get ts_set buyer_key cache_key u64_fetch_add]. fold buyer. rewrite He. cbn -[ts_get ts_set buyer_key cache_key u64_fetch_add].
    by intros [= <-]. }
  rewrite Hs1 in Hs2. clear Hput Hs1. destruct s2 as [c2 now2 outcomes2]. simpl in *. subst c2.
  unfold lookup_buyer, through_cache, get_or_insert_with, cached_value. rewrite !eff_bind_eq. unfold eff_gets at 1. cbn -[ts_get ts_set buyer_key cache_key u64_fetch_add].
  destruct (ts_get now2 (buyer_key id) (ts_set now (Some l1_ttl) (buyer_key id) text l1)) as [text'|] eqn:El.
  - apply ts_get_set in El as [(_ & -> & _)|[Hne _]]; [|done|lia]. simpl. by rewrite Hd.
  - assert (Eg : ts_get now2 (renv +:+ ":" +:+ cache_key (buyer_key id))
      (ts_set now (Some 86400000%Z) (renv +:+ ":" +:+ cache_key (buyer_key id)) text redis) = Some text) by (apply ts_get_set_eq; simpl; lia).
    unfold cache_get, redis_get, redis_outcome, l1_insert, on_cache, eff_modify, eff_lift, eff_gets, catch, fallible, mret, eff_ret, mbind, eff_bind, prefix_key.
    cbn -[ts_get ts_set buyer_key cache_key u64_fetch_add]. rewrite Eg. cbn -[ts_get ts_set buyer_key cache_key u64_fetch_add]. rewrite Hd. done.
Qed.
End properties.

(** ** Witnesses *)

#[local] Instance number_eq_dec : EqDecision number.
Proof. solve_decision. Defined.
#[local] Instance json_eq_dec : EqDecision json.
Proof.
  unfold EqDecision. fix go 1. intros x y.
  destruct x as [|b|n|s|l|o], y as [|b'|n'|s'|l'|o']; try (right; discriminate).
  - by left.
  - destruct (decide (b = b')); [left|right]; congruence.
  - destruct (decide (n = n')); [left|right]; congruence.
  - destruct (decide (s = s')); [left|right]; congruence.
  - assert (D : Decision (l = l')).
    { clear -go. revert l'. induction l as [|a l IH]; intros [|a' l']; [by left|by right|by right|].
      destruct (go a a') as [->|]; [|right; congruence]. destruct (IH l') as [->|]; [by left|right; congruence]. }
    destruct D; [left|right]; congruence.
  - assert (D : Decision (o = o')).
    { clear -go. revert o'. induction o as [|[k a] o IH]; intros [|[k' a'] o']; [by left|by right|by right|].
      destruct (decide (k = k')) as [->|]; [|right; congruence].
      destruct (go a a') as [->|]; [|right; congruence]. destruct (IH o') as [->|]; [by left|right; congruence]. }
    destruct D; [left|right]; congruence.
Defined.
#[local] Instance Decimal_eq_dec : EqDecision Decimal.
Proof. solve_decision. Defined.
#[local] Instance Buyer_eq_dec : EqDecision Buyer.
Proof. solve_decision. Defined.
#[local] Instance PingTree_eq_dec : EqDecision PingTree.
Proof. solve_decision. Defined.
#[local] Instance PingTreeCampaign_eq_dec : EqDecision PingTreeCampaign.
Proof. solve_decision. Defined.
#[local] Instance BuyerIntegration_eq_dec : EqDecision BuyerIntegration.
Proof. solve_decision. Defined.
#[local] Instance Campaign_eq_dec : EqDecision Campaign.
Proof. solve_decision. Defined.
#[local] Instance BuyerQualificationConfig_eq_dec : EqDecision BuyerQualificationConfig.
Proof. solve_decision. Defined.
#[local] Instance Vertical_eq_dec : EqDecision Vertical.
Proof. solve_decision. Defined.

(** A serialization of the values of a table; others are not supported. *)
Definition table_write {T} `{EqDecision T} (table : list (string * T)) (v : T) : Result string string :=
  match List.find (λ row, bool_decide (row.2 = v)) table with Some (text, _) => Ok text | None => Err "unsupported" end.
Definition table_read {T} (table : list (string * T)) (text : string) : option T :=
  snd <$> List.find (λ row, String.eqb row.1 text) table.
Definition table_serde {T} `{EqDecision T} (table : list (string * T)) : Serde T := {|
  simd_from_slice := table_read table; serde_from_slice := table_read table; simd_to_vec := table_write table;
  from_utf8 := Some; serde_to_string := table_write table |}.

Lemma table_roundtrip {T} `{EqDecision T} (table : list (string * T)) v text :
  NoDup table.*1 → table_write table v = Ok text → table_read table text = Some v.
Proof.
  intros Hnd. unfold table_write. destruct (List.find _ table) as [[text' v']|] eqn:E; [|done]. intros [= ->].
  apply List.find_some in E as [Hin Hv%bool_decide_eq_true]. simpl in *. subst v'. unfold table_read.
  induction table as [|[t w] table IH]; [done|]. simpl in *. apply NoDup_cons in Hnd as [Hn Hnd].
  destruct (String.eqb_spec t text) as [->|].
  - destruct Hin as [[= ->]|Hin]; [done|]. destruct Hn. apply list_elem_of_fmap. exists (text, v). split; [done|by apply list_elem_of_In].
  - apply IH; [done|]. destruct Hin as [[= -> ->]|Hin]; [done|exact Hin].
Qed.

Lemma table_serde_laws {T} `{EqDecision T} (table : list (string * T)) : bool_decide (NoDup table.*1) = true → SerdeLaws (table_serde table).
Proof.
  intros Hnd%bool_decide_eq_true. split; simpl.
  - intros v bytes text Hw [= <-]. by apply table_roundtrip.
  - intros v text Hw. left. by apply table_roundtrip.
Qed.

Definition number_platform : Platform := {|
  to_lowercase := λ s, s; to_uppercase := λ s, s; f64_to_string := λ _, ""; uuid_to_string := λ u, "u" +:+ pretty u;
  hex_encode := λ s, s; base64_encode := λ s, s; format_compact := pretty; to_rfc3339 := pretty;
  serialize_datetime := pretty; serialize_date := pretty |}.
#[local] Existing Instance number_platform.

#[local] Instance number_platform_laws : UuidLaws number_platform.
Proof.
  split; unfold uuid_to_string, number_platform.
  - intros u v Huv. apply string_app_inj_r in Huv. by apply (inj pretty) in Huv.
  - intros c u Hc. assert (Hu : no_char c (pretty u) = true).
    { destruct u as [|p]; [by destruct Hc as [->| ->]|]. change (pretty (N.pos p)) with (pretty_N_go (N.pos p) "").
      apply pretty_N_go_forallb; [|done]. intros n. destruct Hc as [->| ->]; unfold pretty_N_char; by repeat case_match. }
    rewrite string_app_cons. change ("" +:+ pretty u) with (pretty u). unfold no_char in *. cbn. rewrite Hu. by destruct Hc as [->| ->].
  - intros u. by rewrite string_app_cons.
Qed.

(** The tree of the samples, its campaign, and the campaign's buyer, until the first hour is
    over: then the publisher has no tree any more and the buyer is not active. *)
Definition solar_assignment : PingTreePublisher := {|
  ptp_id := 40%N; ptp_ping_tree_id := 30%N; ptp_publisher_id := 7%N; ptp_vertical := "solar"; ptp_revshare_percentage := None;
  ptp_revshare_flat_amount := None; ptp_created_at := 0; ptp_updated_at := 0 |}.
Definition closed_buyer : Buyer := {|
  buyer_id := 12%N; buyer_name := "buyer"; buyer_instance_id := 9%N; buyer_instance_user_id := None;
  buyer_vertical_id := Some 4%N; buyer_buyer_integration_id := Some 20%N; buyer_status := BuyerInactive;
  buyer_deleted_at := None; buyer_created_at := 0; buyer_updated_at := 0; buyer_contact_info := JNull;
  buyer_ein_tin := None; buyer_address_street := None; buyer_address_city := None; buyer_address_state := None;
  buyer_address_zip := None; buyer_email_address := None; buyer_representative_first_name := None;
  buyer_representative_last_name := None; buyer_documents := JNull; buyer_post_type := None;
  buyer_buyer_type := None |}.
Definition hour : Z := 3600000.
Definition changing_tables (t : Z) : Tables := {|
  ping_trees := [sample_tree];
  ping_tree_publishers := if (t <? hour)%Z then [solar_assignment] else [];
  ping_tree_campaigns := [sample_entry];
  campaigns := [sample_campaign 2%N 12%N];
  buyers := [if (t <? hour)%Z then solar_buyer else closed_buyer];
  buyer_integrations := [sample_integration "pulsar-solar" None true];
  buyer_qualification_configs := [] |}.
Definition changing_database (t : Z) : Configuration := {|
  cfg_tables := changing_tables t; cfg_verticals := [sample_vertical]; cfg_publishers := [] |}.

Definition table_of_tree : list (string * RoutedTree) := [("tree", (sample_tree, None, None))].
Definition solar_rows (b : Buyer) : list Associated :=
  [(sample_campaign 2%N 12%N, Some b, Some (sample_integration "pulsar-solar" None true))].
Definition sample_serdes : Serdes := {|
  sd_tree := table_serde table_of_tree;
  sd_tree_option := table_serde (("null", None) :: (prod_map id Some <$> table_of_tree));
  sd_members := table_serde [("[]", []); ("[entry]", [sample_entry])];
  sd_id := table_serde [("null", None); ("12", Some 12%N)];
  sd_associations := table_serde [("[]", []); ("[solar]", solar_rows solar_buyer); ("[closed]", solar_rows closed_buyer)];
  sd_configs := table_serde [("{}", ∅); ("{12: null}", {[12%N := None]})];
  sd_buyer := table_serde [("null", None); ("solar", Some solar_buyer); ("closed", Some closed_buyer)];
  sd_integration := table_serde [("null", None); ("pulsar", Some (sample_integration "pulsar-solar" None true))];
  sd_vertical := table_serde [("solar", sample_vertical)];
  sd_vertical_option := table_serde [("null", None); ("solar", Some sample_vertical)];
  sd_prechecks := table_serde [];
  sd_name := table_serde [("null", None); ("buyer", Some "buyer")];
  sd_text := text_serde |}.

#[local] Instance sample_serdes_laws : SerdesLaws sample_serdes.
Proof.
  split; try (apply table_serde_laws; vm_compute; reflexivity).
  - apply text_serde_laws.
  - intros t. unfold encode. simpl. unfold table_write. simpl. case_bool_decide as H1; case_bool_decide as H2; try done; exfalso; naive_solver.
  - intros text. by intros [= <-].
Qed.
#[local] Instance sample_serdes_text : WritesText sample_serdes.
Proof. split; intros v bytes _; by exists bytes. Qed.

Definition empty_world : LookupWorld ttl_map ttl_map := {|
  lw_cache := CacheService_new ∅ (Some ∅) "development"; lw_now := 0; lw_outcomes := [] |}.
Definition later (t : Z) (s : LookupWorld ttl_map ttl_map) : LookupWorld ttl_map ttl_map := {|
  lw_cache := lw_cache s; lw_now := t; lw_outcomes := lw_outcomes s |}.
Definition lookup_times : LookupTimes := {| tree_ms := 1; members_ms := 1; parallel_ms := 1 |}.
Definition route_lookups (s : LookupWorld ttl_map ttl_map) := router_loads changing_database sample_serdes true lookup_times 7%N "solar" s.

(** Warmed up at the start, looked up after five and a half hours. *)
Definition morning : LookupWorld ttl_map ttl_map := later 19800000 (pre_warm_cache changing_database sample_serdes true empty_world).2.
Definition noon : LookupWorld ttl_map ttl_map := later 23040000 (route_lookups morning).2.

Lemma later_step t s : (lw_now s ≤ t)%Z → cache_step (answers changing_database sample_serdes) key_life s (later t s).
Proof. intros Ht. apply step_pass; simpl; [done|done|by intros|]. intros r' Hr'. exists r'. by split. Qed.

Lemma empty_world_empty : empty_cache empty_world.
Proof. split; [done|]. by intros r [= <-]. Qed.

Lemma noon_lookups :
  match (route_lookups noon).1 with
  | Ok l => load_ping_tree l = Ok (Some (sample_tree, None, None)) ∧ load_associations l [2%N] = solar_rows closed_buyer
  | Err _ => False
  end.
Proof. vm_compute. by split. Qed.

(** The tree, which the publisher has had no more for hours, with its campaign; the buyer as
    the tables have it. *)
Lemma router_loads_are_recent_witness :
  find_for_routing (changing_tables 23040000) 7%N "solar" = None ∧
  ∃ l, (route_lookups noon).1 = Ok l ∧ load_ping_tree l = Ok (Some (sample_tree, None, None)) ∧
    load_associations l [2%N] = solar_rows closed_buyer ∧ recent_loads changing_database 23040000 7%N "solar" l.
Proof.
  split; [vm_compute; reflexivity|]. pose proof noon_lookups as Hnoon.
  assert (Hwarm : lw_now (pre_warm_cache changing_database sample_serdes true empty_world).2 = 0%Z) by (vm_compute; reflexivity).
  assert (H1 : rtc (cache_step (answers changing_database sample_serdes) key_life)
    (pre_warm_cache changing_database sample_serdes true empty_world).2 morning) by (apply rtc_once, later_step; by rewrite Hwarm).
  destruct (router_loads_are_recent changing_database sample_serdes empty_world morning lookup_times 7%N "solar" empty_world_empty H1)
    as (l1 & s1 & Hl1 & _ & Hnow & Hrun).
  assert (H2 : rtc (cache_step (answers changing_database sample_serdes) key_life)
    (pre_warm_cache changing_database sample_serdes true empty_world).2 noon).
  { etrans; [exact H1|]. etrans; [exact Hrun|]. unfold noon, route_lookups. rewrite Hl1. apply rtc_once, later_step. change (lw_now s1 <= 23040000)%Z. by rewrite Hnow. }
  destruct (router_loads_are_recent changing_database sample_serdes empty_world noon lookup_times 7%N "solar" empty_world_empty H2)
    as (l & s2 & Hl & Hr & _).
  unfold route_lookups in *. rewrite Hl in *. destruct Hnoon as [Ht Ha]. exists l. split_and!; [done|exact Ht|exact Ha|exact Hr].
Defined.

Lemma uncached_loads_are_of_tables_witness :
  ∃ l, (router_loads changing_database sample_serdes false lookup_times 7%N "solar" empty_world).1 = Ok l ∧
    load_ping_tree l = Ok (Some (sample_tree, None, None)) ∧ load_associations l [2%N] = solar_rows solar_buyer.
Proof.
  destruct (uncached_loads_are_of_tables changing_database sample_serdes empty_world lookup_times 7%N "solar" eq_refl)
    as (l & Hl & Htree & _ & _ & Hrest).
  exists l. rewrite Hl. split; [done|]. assert (Ht : load_ping_tree l = Ok (Some (sample_tree, None, None))) by (rewrite Htree; vm_compute; reflexivity).
  split; [exact Ht|]. destruct (Hrest sample_tree None None Ht) as [Hm Hids]; [done|].
  destruct (Hids sample_entry []) as (_ & Ha & _); [rewrite Hm; vm_compute; reflexivity|].
  change (ptc_campaign_id <$> [sample_entry]) with [2%N] in Ha. rewrite Ha. vm_compute. reflexivity.
Defined.

(** Warmed up, the buyer is active for the router after 23 hours; looked up by the router at
    the same time, it is not after two. *)
Definition warmed_buyer := put (sd_buyer sample_serdes) (buyer_key 12%N) 86400
  (on_routing changing_database "DB error: " (λ db, Buyer_find_by_id db 12%N)) empty_world.
Definition looked_up_buyer := lookup_buyer changing_database sample_serdes true 12%N empty_world.

Lemma warmed_buyer_lasts_a_day_witness :
  (lookup_buyer changing_database sample_serdes true 12%N (later 82800000 warmed_buyer.2)).1 = Ok (Some solar_buyer) ∧
  (lookup_buyer changing_database sample_serdes true 12%N (later 7200000 looked_up_buyer.2)).1 = Ok (Some closed_buyer).
Proof.
  split; [|vm_compute; reflexivity].
  apply (warmed_buyer_lasts_a_day changing_database sample_serdes empty_world warmed_buyer.2 (later 82800000 warmed_buyer.2) ∅ 12%N "solar");
    try (vm_compute; reflexivity). by split.
Defined.

(** The campaign is paused: what the warm-up calls the exact key of the router is not. *)
Definition paused_tables : Tables := {|
  ping_trees := [sample_tree]; ping_tree_publishers := [solar_assignment];
  ping_tree_campaigns := [sample_entry; {|
    ptc_id := 32%N; ptc_ping_tree_id := 30%N; ptc_campaign_id := 3%N; ptc_priority := None; ptc_min_price := None;
    ptc_max_price := None; ptc_enabled := true; ptc_created_at := 0; ptc_updated_at := 0 |}];
  campaigns := [sample_campaign 2%N 12%N; {|
    campaign_id := 3%N; campaign_buyer_id := 11%N; campaign_publisher_id := 7%N; campaign_instance_id := 9%N;
    campaign_name := None; campaign_vertical := "solar"; campaign_campaign_token := "other";
    campaign_status := CampaignPaused; campaign_is_documentation_test := false; campaign_deleted_at := None;
    campaign_created_at := 0; campaign_updated_at := 0 |}];
  buyers := [solar_buyer]; buyer_integrations := []; buyer_qualification_configs := [] |}.
Example paused_campaign_changes_the_key :
  let cfg := {| cfg_tables := paused_tables; cfg_verticals := []; cfg_publishers := [] |} in
  configs_key <$> warm_buyer_sets cfg = ["qual:buyers:u11,u12"] ∧
  configs_key (buyers_of_campaigns (ptc_campaign_id <$> find_enabled_for_ping_tree paused_tables 30%N) paused_tables) = "qual:buyers:u12".
Proof. vm_compute. by split. Qed.
