(* ===== verification/Validate.v ===== *)
(** * The validator of the configuration

    [crates/utils/src/bin/validate-config.rs]: the checks of the files of a deployment, of
    the secrets in [.env.local] and of the parameters of the store.  TOML and YAML are
    parameters ([Toml], [Yaml]); the store is that of [Ssm.v].  What the commands write is
    the answer as JSON and the exit code. *)

From stdpp Require Import base list strings gmap.
From Stdlib Require Import Ascii String ZArith Lia.
From S2P Require Import Prelude Float64 Platform Json Models Store WriteBehind Cache Encryption Ssm Config.

Open Scope string_scope.
Open Scope list_scope.
Local Abbreviation length := List.length.

(** ** Text *)

(** [str::split_whitespace]: a word goes up to the first white space; the fuel is the
    length, as every word has a byte. *)
Fixpoint first_word (s : string) : string * string :=
  match s with
  | EmptyString => ("", "")
  | String a s' =>
      if String.eqb (trim_start s) s then let '(word, rest) := first_word s' in (String a word, rest) else ("", s)
  end.
Fixpoint words (fuel : nat) (s : string) : list string :=
  match fuel with
  | O => []
  | S fuel =>
      match trim_start s with
      | EmptyString => []
      | t => let '(word, rest) := first_word t in word :: words fuel rest
      end
  end.
Definition split_whitespace (s : string) : list string := words (String.length s) s.

(** A path and its [parent()]; [Path::join]. *)
Record FilePath : Type := { path_text : string; path_dir : string }.
Definition join_path (dir file : string) : string :=
  if starts_with "/" file then file
  else if String.eqb dir "" then file
  else if ends_with "/" dir then dir +:+ file else dir +:+ "/" +:+ file.

(** ** Documents *)

(** The toml crate: [toml::from_str], [Value::get], [as_str], [as_array], [as_table]. *)
Class Toml (T : Type) : Type := {
  toml_from_str : string → option T;
  toml_get : string → T → option T;
  toml_as_str : T → option string;
  toml_as_array : T → option (list T);
  toml_is_table : T → bool
}.

(** The serde_yaml crate, likewise. *)
Class Yaml (Y : Type) : Type := {
  yaml_from_str : string → option Y;
  yaml_get : string → Y → option Y;
  yaml_as_str : Y → option string;
  yaml_is_null : Y → bool;
  yaml_as_mapping : Y → option (list (Y * Y));
  yaml_as_sequence : Y → option (list Y)
}.

(** ** Results *)

Record ErrorMessage : Type := { message : string; remediation : option string }.
Definition new_message (m : string) : ErrorMessage := {| message := m; remediation := None |}.
Definition with_remediation (m r : string) : ErrorMessage := {| message := m; remediation := Some r |}.

Record ValidationResult : Type := {
  valid : bool;
  app_name : option string;
  primary_region : option string;
  rust_version : option string;
  required_binaries : list string;
  warnings : list ErrorMessage;
  errors : list ErrorMessage;
  ssm_paths : list (string * bool);
  missing_secrets : list string;
  missing_ssm_params : list string
}.

(** [ValidationResult { valid, ..Default::default() }]. *)
Definition default_result (ok : bool) : ValidationResult := {|
  valid := ok; app_name := None; primary_region := None; rust_version := None; required_binaries := []; warnings := [];
  errors := []; ssm_paths := []; missing_secrets := []; missing_ssm_params := [] |}.

Definition warn (ws : list ErrorMessage) (r : ValidationResult) : ValidationResult := {|
  valid := valid r; app_name := app_name r; primary_region := primary_region r; rust_version := rust_version r;
  required_binaries := required_binaries r; warnings := warnings r ++ ws; errors := errors r; ssm_paths := ssm_paths r;
  missing_secrets := missing_secrets r; missing_ssm_params := missing_ssm_params r |}.
(** Errors make the result invalid. *)
Definition add_errors (es : list ErrorMessage) (r : ValidationResult) : ValidationResult := {|
  valid := match es with [] => valid r | _ => false end; app_name := app_name r; primary_region := primary_region r;
  rust_version := rust_version r; required_binaries := required_binaries r; warnings := warnings r; errors := errors r ++ es;
  ssm_paths := ssm_paths r; missing_secrets := missing_secrets r; missing_ssm_params := missing_ssm_params r |}.

Definition message_json (m : ErrorMessage) : json :=
  match remediation m with
  | Some r => json_object [("message", JString (message m)); ("remediation", JString r)]
  | None => JString (message m)
  end.

Definition unless_empty {A} (f : list A → json) (l : list A) : option json := match l with [] => None | _ => Some (f l) end.
Definition strings_json (l : list string) : json := JArray (JString <$> l).

Definition to_json (verbose : bool) (r : ValidationResult) : json :=
  JObject (insert_present [
    ("app_name", JString <$> app_name r);
    ("primary_region", JString <$> primary_region r);
    ("rust_version", JString <$> rust_version r);
    ("required_binaries", unless_empty strings_json (required_binaries r));
    ("ssm_paths", if verbose then unless_empty (λ l, json_object (prod_map id JBool <$> l)) (ssm_paths r) else None);
    ("missing_ssm_params", unless_empty strings_json (missing_ssm_params r));
    ("warnings", unless_empty (λ l, JArray (message_json <$> l)) (warnings r));
    ("errors", unless_empty (λ l, JArray (message_json <$> l)) (errors r));
    ("missing_secrets", unless_empty strings_json (missing_secrets r))] (map_of [("valid", JBool (valid r))])).

(** ** The checks of files *)

Section files.
(** What [read_to_string] finds, and the paths that exist. *)
Context (files : string → option string) (path_exists : string → bool).

Definition read_file (context : string) (path : string) : Result string string := ok_or context (files path).

Definition validate_fly_toml `{Toml T} (path : FilePath) : Result string ValidationResult :=
  content ← read_file ("Failed to read fly.toml: " +:+ path_text path) (path_text path);
  parsed ← ok_or "Failed to parse fly.toml as TOML" (toml_from_str content);
  let app := toml_get "app" parsed ≫= toml_as_str in
  Ok {| valid := match app with Some _ => true | None => false end;
        app_name := app;
        primary_region := toml_get "primary_region" parsed ≫= toml_as_str;
        rust_version := None; required_binaries := []; warnings := [];
        errors := match app with
                  | Some _ => []
                  | None => [with_remediation "Missing 'app' field in fly.toml"
                      ("Add 'app = " +:+ String dquote ("your-app-name" +:+ String dquote "' to fly.toml"))]
                  end;
        ssm_paths := []; missing_secrets := []; missing_ssm_params := [] |}.

(** The bench of an entry: its name and its file. *)
Definition bench_file `{Toml T} (bench : T) : option (string * string) :=
  if toml_is_table bench then
    name ← toml_get "name" bench ≫= toml_as_str;
    Some (name, default ("benches/" +:+ name +:+ ".rs") (toml_get "path" bench ≫= toml_as_str))
  else None.

Definition missing_bench (path : FilePath) (bench : string * string) : option ErrorMessage :=
  let full := join_path (path_dir path) bench.2 in
  if path_exists full then None
  else Some (with_remediation
    ("Bench '" +:+ bench.1 +:+ "' declared in " +:+ path_text path +:+ " but file not found at " +:+ full)
    ("Create the bench file at " +:+ full +:+ " or remove the [[bench]] declaration from Cargo.toml")).

Definition declared_benches `{Toml T} (parsed : T) : list (string * string) :=
  omap bench_file (default [] (toml_get "bench" parsed ≫= toml_as_array)).

Definition validate_cargo_toml `{Toml T} (path : FilePath) : Result string ValidationResult :=
  content ← read_file ("Failed to read Cargo.toml: " +:+ path_text path) (path_text path);
  parsed ← ok_or "Failed to parse Cargo.toml as TOML" (toml_from_str content);
  Ok (add_errors (omap (missing_bench path) (declared_benches parsed)) (default_result true)).

(** The version of a [FROM rust:] line, if it has one; the binaries of a [COPY] line. *)
Definition from_rust (line : string) : option string :=
  rest ← strip_prefix "FROM rust:" line;
  version ← head (split_whitespace rest);
  if String.eqb version "" then None else Some version.
Definition copied_binary (part : string) : option string :=
  if str_contains "target/release/" part then
    binary ← strip_prefix "target/release/" part;
    if negb (String.eqb binary "") && negb (str_contains "/" binary) then Some binary else None
  else None.
Definition copied_binaries (line : string) : list string :=
  if starts_with "COPY" line && str_contains "target/release/" line then omap copied_binary (split_whitespace line) else [].

Definition validate_dockerfile (path : FilePath) : Result string ValidationResult :=
  content ← read_file ("Failed to read Dockerfile: " +:+ path_text path) (path_text path);
  let lines := str_trim <$> str_lines content in
  Ok {| valid := true; app_name := None; primary_region := None;
        rust_version := last (omap from_rust lines);
        required_binaries := mjoin (copied_binaries <$> lines);
        warnings := []; errors := []; ssm_paths := []; missing_secrets := []; missing_ssm_params := [] |}.

(** [permissions: { packages: write }]. *)
Definition grants_packages `{Yaml Y} (node : Y) : bool :=
  match (yaml_get "permissions" node ≫= yaml_get "packages") ≫= yaml_as_str with
  | Some level => String.eqb level "write"
  | None => false
  end.

Definition workflow_jobs `{Yaml Y} (yaml : Y) : list (Y * Y) := default [] (yaml_get "jobs" yaml ≫= yaml_as_mapping).

(** A step that makes a coverage report without saying where to. *)
Definition bad_coverage `{Yaml Y} (step : Y) : bool :=
  match yaml_get "run" step ≫= yaml_as_str with
  | Some run =>
      str_contains "cargo llvm-cov" run && negb (str_contains "llvm-cov clean" run) && negb (str_contains "llvm-cov --version" run)
      && (negb (str_contains "--lcov" run) || negb (str_contains "--output-path" run))
  | None => false
  end.
Definition coverage_warnings `{Yaml Y} (job : Y * Y) : list ErrorMessage :=
  let warning := with_remediation
    ("Job '" +:+ default "unknown" (yaml_as_str job.1) +:+ "' uses cargo llvm-cov without --lcov --output-path")
    "Use: cargo llvm-cov --lcov --output-path lcov.info" in
  (λ _, warning) <$> List.filter bad_coverage (default [] (yaml_get "steps" job.2 ≫= yaml_as_sequence)).

Definition input_errors `{Yaml Y} (path : FilePath) (yaml : Y) : list ErrorMessage :=
  let composite := match (yaml_get "runs" yaml ≫= yaml_get "using") ≫= yaml_as_str with Some u => String.eqb u "composite" | None => false end in
  match (if composite then yaml_get "inputs" yaml else None) with
  | Some inputs =>
      if yaml_is_null inputs then
        [with_remediation ("Composite action '" +:+ path_text path +:+ "' has null 'inputs' - must be a mapping or omitted")
           "Remove 'inputs:' line if no inputs needed, or add 'inputs: {}' for empty mapping"]
      else match yaml_as_mapping inputs with
           | None => [with_remediation ("Composite action '" +:+ path_text path +:+ "' has invalid 'inputs' type - must be a mapping")
                        "Change 'inputs:' to a valid YAML mapping (object) or remove it"]
           | Some _ => []
           end
  | None => []
  end.

Definition validate_github_workflow `{Yaml Y} (path : FilePath) : Result string ValidationResult :=
  content ← read_file ("Failed to read workflow file: " +:+ path_text path) (path_text path);
  yaml ← ok_or "Failed to parse YAML" (yaml_from_str content);
  let has_packages_write := grants_packages yaml || existsb (λ job, grants_packages job.2) (workflow_jobs yaml) in
  let result := add_errors (input_errors path yaml) (default_result true) in
  let result :=
    if str_contains "ghcr.io" content && negb has_packages_write
    then warn [with_remediation "Workflow pushes to GHCR but missing packages: write permission"
                 "Add 'permissions: { packages: write }' to workflow or job level"] result
    else result in
  Ok (warn (mjoin (coverage_warnings <$> workflow_jobs yaml)) result).
End files.

(** ** Duplicates *)

(** The first two words of the lines that have two. *)
Definition tree_line (line : string) : option (string * string) :=
  match split_whitespace line with package :: version :: _ => Some (package, version) | _ => None end.

(** The distinct versions of a package; a [HashSet] has them in any order. *)
Definition versions_of (rows : list (string * string)) (package : string) : list string :=
  remove_dups (snd <$> List.filter (λ row, String.eqb row.1 package) rows).

Definition duplicate_warning (rows : list (string * string)) (package : string) : option ErrorMessage :=
  match versions_of rows package with
  | (_ :: _ :: _) as versions => Some (with_remediation
      ("Package '" +:+ package +:+ "' has multiple versions: " +:+ str_join ", " versions)
      "Run 'cargo tree --duplicates' to see dependency tree, then update Cargo.toml to use single version")
  | _ => None
  end.

(** What [cargo tree --duplicates] gave: nothing when it could not be run, or whether it
    succeeded and its output. *)
Definition validate_cargo_duplicates (output : option (bool * string)) : Result string ValidationResult :=
  '(success, stdout) ← ok_or "Failed to run cargo tree --duplicates" output;
  if negb success then Ok (warn [new_message "Failed to run cargo tree --duplicates"] (default_result true))
  else if String.eqb (str_trim stdout) "" then Ok (default_result true)
  else
    let rows := omap tree_line (str_lines stdout) in
    Ok (warn (omap (duplicate_warning rows) (remove_dups rows.*1)) (default_result true)).

(** ** Parameters and secrets *)

Definition validated_environment (env : option string) (vars : Env) : string :=
  default "dev" (first_of env (first_of (vars !! "ENVIRONMENT") (vars !! "SSM_ENV"))).

Definition expected_paths (env_normalized : string) : list (string * string) := [
  ("DATABASE_URL", rust_path env_normalized "db/connection_url");
  ("REDIS_URL", rust_path env_normalized "redis/connection_url");
  ("JWT_SECRET", rust_path env_normalized "auth/jwt_secret");
  ("ENCRYPTION_KEY", rust_path env_normalized "encryption/primary_v1")].

Definition path_format (env_normalized path : string) : bool :=
  starts_with "/leadsnebula/" path && str_contains ("/" +:+ env_normalized +:+ "/") path.

Definition validate_ssm_paths (env : option string) (vars : Env) : ValidationResult :=
  let env_normalized := normalize_env_for_ssm (validated_environment env vars) in
  let check (row : string * string) := path_format env_normalized row.2 in
  let result := warn ((λ row : string * string, new_message ("Invalid SSM path format for " +:+ row.1 +:+ ": " +:+ row.2)) <$>
                        List.filter (λ row, negb (check row)) (expected_paths env_normalized)) (default_result true) in
  {| valid := valid result; app_name := None; primary_region := None; rust_version := None; required_binaries := [];
     warnings := warnings result; errors := []; ssm_paths := (λ row, (row.1, check row)) <$> expected_paths env_normalized;
     missing_secrets := []; missing_ssm_params := [] |}.

Definition required_secrets : list string := ["DATABASE_URL"; "JWT_SECRET"; "ENCRYPTION_KEY"; "REDIS_URL"].

Definition sets_secret (secret line : string) : bool :=
  starts_with (secret +:+ "=") line && negb (starts_with "#" (str_trim line)).
Definition secret_found (content secret : string) : bool := existsb (sets_secret secret) (str_lines content).

Definition missing_secret (secret : string) : ErrorMessage :=
  with_remediation ("Missing " +:+ secret +:+ " in .env.local") ("Set " +:+ secret +:+ " in .env.local or run: fly secrets list").

(** The checks of a file that was read. *)
Definition local_secrets (env : option string) (vars : Env) (found_file : bool) (content : string) : ValidationResult :=
  let missing := List.filter (λ secret, negb (secret_found content secret)) required_secrets in
  let paths := validate_ssm_paths env vars in
  {| valid := true; app_name := None; primary_region := None; rust_version := None; required_binaries := [];
     warnings := (if found_file then [] else [with_remediation ".env.local not found - secrets cannot be validated locally"
                                                "Create .env.local file or run: fly secrets list"])
                 ++ (missing_secret <$> missing) ++ warnings paths;
     errors := []; ssm_paths := ssm_paths paths; missing_secrets := missing; missing_ssm_params := [] |}.

Section secrets.
Context {L1 L2 : Type} `{!TtlStore L1, !TtlStore L2}.
Context (source : Z → string → bool → SsmReply) (delays : string → SsmDelays).
Abbreviation ssm := (eff (SsmState L1 L2) Failure).

Definition missing_parameter_warning (path : string) : ErrorMessage :=
  with_remediation ("SSM parameter not found: " +:+ path)
    ("Create parameter in SSM or run: aws ssm put-parameter --name " +:+ path +:+ " --value <value> --type String").

(** The parameters, one after the other. *)
Fixpoint check_parameters (svc : SsmService) (paths : list string) (r : ValidationResult) : ssm ValidationResult :=
  match paths with
  | [] => mret r
  | path :: paths =>
      reply ← catch (get_parameter source svc (delays path) path false);
      check_parameters svc paths
        (match reply with
         | Ok (Some _) => r
         | Ok None => warn [missing_parameter_warning path]
             {| valid := valid r; app_name := app_name r; primary_region := primary_region r; rust_version := rust_version r;
                required_binaries := required_binaries r; warnings := warnings r; errors := errors r; ssm_paths := ssm_paths r;
                missing_secrets := missing_secrets r; missing_ssm_params := missing_ssm_params r ++ [path] |}
         | Err e =>
             if str_contains "AccessDenied" e
             then warn [with_remediation ("Access denied to SSM parameter: " +:+ path) "Check AWS credentials and IAM permissions"] r
             else warn [new_message ("Failed to check SSM parameter " +:+ path +:+ ": " +:+ e)] r
         end)
  end.

Definition validate_secrets (env_local : option string) (exists_local : bool) (service : Result string SsmService)
    (env : option string) (vars : Env) (check_local ssm_check : bool) : ssm ValidationResult :=
  if negb check_local then mret (validate_ssm_paths env vars)
  else if negb exists_local && negb ssm_check then
    mret (warn [with_remediation ".env.local not found - secrets cannot be validated locally"
                  "Create .env.local file or run: fly secrets list"] (default_result true))
  else
    content ← fallible (ok_or "Failed to read .env.local" env_local);
    let result := local_secrets env vars exists_local content in
    if ssm_check then
      match service with
      | Ok svc => check_parameters svc (expected_paths (normalize_env_for_ssm (validated_environment env vars))).*2 result
      | Err e => mret (warn [with_remediation ("Failed to create SSM service: " +:+ e)
          "Set AWS credentials (AWS_PROFILE or AWS_ACCESS_KEY_ID/AWS_SECRET_ACCESS_KEY) or skip --ssm-check"] result)
      end
    else mret result.
End secrets.

(** ** The commands *)

Inductive Command : Type :=
  | FlyToml (path : FilePath)
  | CargoToml (path : FilePath)
  | Dockerfile (path : FilePath)
  | SsmPaths (env : option string)
  | GithubWorkflow (path : FilePath)
  | CargoDuplicates
  | Secrets (env : option string) (check_local ssm_check : bool).

(** What the tool finds around it. *)
Record Surroundings : Type := {
  su_files : string → option string;
  su_exists : string → bool;
  su_vars : Env;
  su_cargo : option (bool * string);
  su_service : Result string SsmService
}.

Section main.
Context {L1 L2 : Type} `{!TtlStore L1, !TtlStore L2} `{Toml T} `{Yaml Y}.
Context (source : Z → string → bool → SsmReply) (delays : string → SsmDelays) (su : Surroundings).

Definition run_command (command : Command) : eff (SsmState L1 L2) Failure ValidationResult :=
  match command with
  | FlyToml path => fallible (validate_fly_toml (T := T) (su_files su) path)
  | CargoToml path => fallible (validate_cargo_toml (T := T) (su_files su) (su_exists su) path)
  | Dockerfile path => fallible (validate_dockerfile (su_files su) path)
  | SsmPaths env => mret (validate_ssm_paths env (su_vars su))
  | GithubWorkflow path => fallible (validate_github_workflow (Y := Y) (su_files su) path)
  | CargoDuplicates => fallible (validate_cargo_duplicates (su_cargo su))
  | Secrets env check_local ssm_check =>
      validate_secrets source delays (su_files su ".env.local") (su_exists su ".env.local") (su_service su) env (su_vars su) check_local ssm_check
  end.

(** In strict mode warnings are errors. *)
Definition strictly (strict : bool) (r : ValidationResult) : ValidationResult :=
  if strict then
    {| valid := match warnings r with [] => valid r | _ => false end; app_name := app_name r; primary_region := primary_region r;
       rust_version := rust_version r; required_binaries := required_binaries r; warnings := [];
       errors := errors r ++ warnings r; ssm_paths := ssm_paths r; missing_secrets := missing_secrets r;
       missing_ssm_params := missing_ssm_params r |}
  else r.

(** The answer that is printed and the exit code; an error of the command prints none. *)
Definition validate_main (command : Command) (verbose strict : bool) : eff (SsmState L1 L2) Failure (option json * Z) :=
  r ← catch (run_command command);
  mret (match r with
        | Ok result => let result := strictly strict result in (Some (to_json verbose result), if valid result then 0%Z else 1%Z)
        | Err _ => (None, 1%Z)
        end).
End main.

(** ** Lemmas *)

Lemma trim_end_solid_app p t : str_forallb solid p = true → trim_end (p +:+ t) = p +:+ trim_end t.
Proof.
  induction p as [|a p IH]; [done|]. intros [Ha Hp]%andb_true_iff. rewrite string_app_cons. cbn [trim_end].
  rewrite trim_start_solid by done. cbn [String.eqb]. by rewrite IH.
Qed.

Lemma str_trim_solid_app a p t : solid a = true → str_forallb solid p = true →
  str_trim (String a p +:+ t) = String a p +:+ trim_end t.
Proof.
  intros Ha Hp. unfold str_trim. rewrite string_app_cons, trim_start_solid by done. rewrite <-string_app_cons.
  apply trim_end_solid_app. cbn. by rewrite Ha.
Qed.

Lemma starts_with_rest p s : starts_with p s = true → ∃ rest, s = p +:+ rest.
Proof.
  unfold starts_with. revert s. induction p as [|a p IH]; intros s; [by exists s|].
  destruct s as [|b s]; [done|]. cbn. destruct (ascii_dec a b) as [->|]; [|done]. intros H. apply IH in H as [rest ->]. by exists rest.
Qed.

Lemma path_format_holds env_normalized name : path_format env_normalized (rust_path env_normalized name) = true.
Proof.
  unfold path_format, rust_path. apply andb_true_iff. split; [apply starts_with_app|].
  change ("/leadsnebula/" +:+ env_normalized +:+ "/rust/" +:+ name) with ("/leadsnebula" +:+ ("/" +:+ (env_normalized +:+ ("/" +:+ ("rust/" +:+ name))))).
  apply str_contains_app_l.
  replace ("/" +:+ (env_normalized +:+ ("/" +:+ ("rust/" +:+ name)))) with (("/" +:+ env_normalized +:+ "/") +:+ ("rust/" +:+ name))
    by (rewrite !string_app_assoc; done).
  apply str_contains_prefix.
Qed.

Lemma rust_path_inj env_normalized a b : rust_path env_normalized a = rust_path env_normalized b → a = b.
Proof. unfold rust_path. intros H. by do 3 apply string_app_inj_r in H. Qed.

Lemma filter_none {A} (f : A → bool) (l : list A) : (∀ a, a ∈ l → f a = false) → List.filter f l = [].
Proof.
  induction l as [|a l IH]; intros H; simpl; [done|]. rewrite H by (by left). apply IH. intros b Hb. apply H. by right.
Qed.

Lemma ssm_paths_no_warnings env vars : warnings (validate_ssm_paths env vars) = [].
Proof.
  unfold validate_ssm_paths. cbn [warnings warn default_result]. rewrite filter_none; [done|].
  intros row Hrow. apply negb_false_iff. unfold expected_paths in Hrow.
  repeat (apply elem_of_cons in Hrow as [->|Hrow]; [apply path_format_holds|]). by apply elem_of_nil in Hrow.
Qed.

Lemma strictly_quiet strict r : warnings r = [] → strictly strict r = r.
Proof. intros Hw. destruct strict; [|done]. destruct r. cbn in *. subst. by rewrite app_nil_r. Qed.

(** The line that sets a secret, as the program reads it. *)
Lemma read_secret_line {N : NameChars} {HN : NameLaws N} (a : ascii) (name rest : string) :
  ascii_letter a = true → str_forallb ascii_name (String a name) = true →
  ∃ value, read_line (String a name +:+ "=" +:+ rest) = Some (String a name, value).
Proof.
  intros Ha Hname. set (key := String a name) in *.
  assert (Hsolid : str_forallb solid key = true) by (eapply str_forallb_impl, Hname; intros b Hb; by apply ascii_name_solid).
  pose proof Hsolid as [Hfirst _]%andb_true_iff.
  assert (Htrim : str_trim (key +:+ "=" +:+ rest) = key +:+ String "=" (trim_end rest)).
  { rewrite <-string_app_assoc. change (key +:+ "=") with (String a (name +:+ "=")). rewrite str_trim_solid_app; [|done|].
    - change (String a (name +:+ "=")) with (key +:+ "="). rewrite string_app_assoc. reflexivity.
    - apply andb_true_iff in Hsolid as [_ Hs]. clear -Hs. induction name as [|b name IH]; [done|].
      apply andb_true_iff in Hs as [Hb Hs]. rewrite string_app_cons. apply andb_true_iff. auto. }
  unfold read_line. rewrite Htrim.
  rewrite split_once_app by (eapply name_no_char, Hname; intros b Hb; by apply ascii_name_solid).
  replace (starts_with "#" (key +:+ String "=" (trim_end rest))) with false.
  2:{ unfold key, starts_with. rewrite string_app_cons. cbn -[ascii_dec]. pose proof Hname as [Hb _]%andb_true_iff.
      destruct (ascii_name_solid a) as (_ & _ & Hne & _); [done|]. destruct (ascii_dec "#" a) as [Hsharp|]; [by rewrite <-Hsharp in Hne|done]. }
  unfold key at 1. rewrite string_app_cons. cbn [String.eqb orb mbind option_bind]. rewrite (str_trim_all_solid key Hsolid).
  assert (Hvalid : valid_key key = true).
  { unfold valid_key, key. cbn [String.eqb negb]. by rewrite name_start_ascii, name_chars_ascii. }
  rewrite Hvalid. by eexists.
Qed.

(** ** Properties *)

Section properties.
Context {L1 L2 : Type} `{!TtlStore L1, !TtlStore L2} `{Toml T} `{Yaml Y}.
Context (source : Z → string → bool → SsmReply) (delays : string → SsmDelays) (su : Surroundings).
Implicit Types s : SsmState L1 L2.

(** The check of the format of the paths cannot fail: the paths are made of the
    environment they are checked for. *)
Theorem ssm_paths_always_pass (env : option string) (verbose strict : bool) s :
  validate_main (T := T) (Y := Y) source delays su (SsmPaths env) verbose strict s =
    (Ok (Some (to_json verbose (validate_ssm_paths env (su_vars su))), 0%Z), s) ∧
  ∀ row, row ∈ ssm_paths (validate_ssm_paths env (su_vars su)) → row.2 = true.
Proof.
  split.
  - unfold validate_main, run_command. rewrite eff_bind_eq. unfold catch, mret, eff_ret.
    assert (Hs : strictly strict (validate_ssm_paths env (su_vars su)) = validate_ssm_paths env (su_vars su)).
    { apply strictly_quiet, ssm_paths_no_warnings. }
    by rewrite Hs.
  - intros row Hrow. unfold validate_ssm_paths, expected_paths in Hrow. cbn [ssm_paths fmap list_fmap] in Hrow.
    repeat (apply elem_of_cons in Hrow as [->|Hrow]; [apply path_format_holds|]). by apply elem_of_nil in Hrow.
Qed.

(** Missing secrets only count in strict mode: with [.env.local] there and no look at the
    store, the exit code is zero unless the mode is strict and one of the four is missing. *)
Theorem secrets_exit_code (env : option string) (content : string) (verbose strict : bool) s :
  su_files su ".env.local" = Some content → su_exists su ".env.local" = true →
  ∃ answer code, validate_main (T := T) (Y := Y) source delays su (Secrets env true false) verbose strict s = (Ok (Some answer, code), s) ∧
    (code = 0%Z ↔ strict = false ∨ ∀ secret, secret ∈ required_secrets → secret_found content secret = true).
Proof.
  intros Hfile Hexists. unfold validate_main, run_command, validate_secrets. rewrite Hfile, Hexists. cbn [negb andb].
  rewrite eff_bind_eq. unfold catch, fallible, eff_lift. rewrite eff_bind_eq. cbn [ok_or map_err].
  set (r := local_secrets env (su_vars su) true content). unfold mret, eff_ret. eexists _, _. split; [done|].
  assert (Hw : warnings r = missing_secret <$> List.filter (λ secret, negb (secret_found content secret)) required_secrets).
  { unfold r, local_secrets. cbn [warnings]. by rewrite ssm_paths_no_warnings, app_nil_r. }
  assert (Hall : warnings r = [] ↔ ∀ secret, secret ∈ required_secrets → secret_found content secret = true).
  { rewrite Hw. split.
    - intros Hnil%fmap_nil_inv secret Hin. destruct (secret_found content secret) eqn:E; [done|].
      assert (Hf : secret ∈ List.filter (λ secret, negb (secret_found content secret)) required_secrets).
      { apply elem_of_list_filter_bool. by rewrite E. }
      rewrite Hnil in Hf. by apply elem_of_nil in Hf.
    - intros Ha. rewrite filter_none; [done|]. intros secret Hin. by rewrite Ha. }
  unfold strictly. destruct strict; [|by split; [left|]]. rewrite <-Hall. cbn [valid].
  destruct (warnings r) as [|w ws]; (split; [try done|intros [?|?]; done]); by right.
Qed.

(** A secret that is found is one that the program loads: some line of the file sets it. *)
Theorem found_secrets_are_loaded {N : NameChars} {HN : NameLaws N} (content secret : string) :
  secret ∈ required_secrets → secret_found content secret = true →
  ∃ line value, line ∈ str_lines content ∧ read_line line = Some (secret, value).
Proof.
  intros Hin (line & Hline & Hset)%existsb_exists. exists line. apply list_elem_of_In in Hline.
  unfold sets_secret in Hset. apply andb_true_iff in Hset as [[rest Hrest]%starts_with_rest _]. rewrite string_app_assoc in Hrest.
  assert (Hr : ∃ value, read_line line = Some (secret, value)); [|destruct Hr as [value Hr]; by exists value].
  rewrite Hrest. unfold required_secrets in Hin.
  repeat (apply elem_of_cons in Hin as [->|Hin]; [by apply read_secret_line|]). by apply elem_of_nil in Hin.
Qed.
(** Every command that ends with a result has it valid exactly when it lists no error. *)
Definition consistent (r : ValidationResult) : Prop := valid r = true ↔ errors r = [].

Lemma consistent_add_errors es r : consistent r → consistent (add_errors es r).
Proof.
  unfold consistent. cbn [valid errors add_errors]. destruct es as [|e es]; [by rewrite app_nil_r|].
  intros _. split; [done|]. by intros [_ ?]%app_nil.
Qed.

Lemma check_parameters_consistent svc paths r s r' s' :
  consistent r → check_parameters source delays svc paths r s = (Ok r', s') → consistent r'.
Proof.
  revert r s. induction paths as [|path paths IH]; intros r s Hr; cbn [check_parameters]; [by intros [= <- _]|].
  rewrite eff_bind_eq. destruct (catch _ s) as [[[[v|]|e]|f] s1]; [..|done]; apply IH; [exact Hr..|].
  by destruct (str_contains "AccessDenied" e).
Qed.

Theorem command_results_consistent (command : Command) s r s' :
  run_command (T := T) (Y := Y) source delays su command s = (Ok r, s') → consistent r.
Proof.
  assert (Hlift : ∀ m : Result string ValidationResult, fallible m s = (Ok r, s') → m = Ok r).
  { intros [a|e]; [by intros [= <- _]|done]. }
  destruct command as [path|path|path|env|path| |env check_local ssm_check]; cbn [run_command].
  - intros Hrun%Hlift. unfold validate_fly_toml in Hrun. destruct (read_file _ _ _); [|done].
    cbn [mbind Result_bind] in Hrun. destruct (toml_from_str t); [|done]. cbn [ok_or mbind Result_bind] in Hrun. injection Hrun as <-.
    unfold consistent. cbn [valid errors]. by destruct (toml_get "app" _ ≫= toml_as_str).
  - intros Hrun%Hlift. unfold validate_cargo_toml in Hrun. destruct (read_file _ _ _); [|done].
    cbn [mbind Result_bind] in Hrun. destruct (toml_from_str t); [|done]. cbn [ok_or mbind Result_bind] in Hrun. injection Hrun as <-.
    by apply consistent_add_errors.
  - intros Hrun%Hlift. unfold validate_dockerfile in Hrun. destruct (read_file _ _ _); [|done]. by injection Hrun as <-.
  - by intros [= <- _].
  - intros Hrun%Hlift. unfold validate_github_workflow in Hrun. destruct (read_file _ _ _); [|done].
    cbn [mbind Result_bind] in Hrun. destruct (yaml_from_str t) as [yaml|]; [|done]. cbn [ok_or mbind Result_bind] in Hrun. injection Hrun as <-.
    assert (Hr : consistent (add_errors (input_errors path yaml) (default_result true))) by (by apply consistent_add_errors).
    by destruct (_ && _).
  - intros Hrun%Hlift. unfold validate_cargo_duplicates in Hrun. destruct (su_cargo su) as [[[] stdout]|]; [| |done]; cbn in Hrun.
    + destruct (String.eqb _ _); by injection Hrun as <-.
    + by injection Hrun as <-.
  - unfold validate_secrets. destruct (negb check_local); [by intros [= <- _]|].
    destruct (_ && _); [by intros [= <- _]|]. rewrite eff_bind_eq. destruct (su_files su ".env.local") as [content|]; [|done].
    unfold fallible, eff_lift. cbn [ok_or map_err]. destruct ssm_check; [|by intros [= <- _]].
    destruct (su_service su) as [svc|e]; [by apply check_parameters_consistent|by intros [= <- _]].
Qed.

(** The exit code is zero exactly when the command ends with a result without errors and,
    in strict mode, without warnings. *)
Theorem exit_code_spec (command : Command) (verbose strict : bool) s answer code s' :
  validate_main (T := T) (Y := Y) source delays su command verbose strict s = (Ok (answer, code), s') →
  (code = 0%Z ↔ ∃ r, run_command (T := T) (Y := Y) source delays su command s = (Ok r, s') ∧ errors r = [] ∧
                     (strict = true → warnings r = [])).
Proof.
  unfold validate_main. rewrite eff_bind_eq. unfold catch.
  destruct (run_command source delays su command s) as [[r|[e|e]] s1] eqn:Hrun; unfold mret, eff_ret; [| |done]; intros [= <- <- <-].
  2:{ split; [done|]. by intros (? & ? & _). }
  pose proof (command_results_consistent command s r s1 Hrun) as Hr. unfold consistent in Hr.
  assert (Hv : (if valid (strictly strict r) then 0%Z else 1%Z) = 0%Z ↔ valid (strictly strict r) = true) by (by destruct (valid (strictly strict r))).
  rewrite Hv. trans (errors r = [] ∧ (strict = true → warnings r = [])).
  - rewrite <-Hr. unfold strictly. destruct strict; cbn [valid]; [|naive_solver]. destruct (warnings r); naive_solver.
  - split; [intros H3; by exists r|]. by intros (r' & [= <-] & H3).
Qed.
End properties.

(** But the program also loads settings that the tool does not find. *)
Example loaded_secret_not_found :
  secret_found " JWT_SECRET = secret" "JWT_SECRET" = false ∧
  read_line (H := ascii_names) " JWT_SECRET = secret" = Some ("JWT_SECRET", "secret").
Proof. vm_compute. by split. Qed.


(** ** The key that is checked is not the key that is read *)

(** The four parameters that the tool asks for, and no others, are not enough to start: the
    program reads its key at another path, outside [dev], where those of [prod] count too. *)
Theorem validated_parameters_do_not_load `{Crypto} (src : ConfigSources) (params : gmap string string) :
  let env_normalized := normalize_env_for_ssm (environment_of (cfg_env src)) in
  cfg_env_local src = false → cfg_ssm src = Ok tt → env_normalized ≠ "dev" →
  cfg_by_path src (rust_path env_normalized "") = Ok params →
  (∀ path, is_Some (params !! path) ↔ path ∈ (expected_paths env_normalized).*2) →
  config_load src = Err (EncryptionKeyMissing (encryption_key_path env_normalized)).
Proof.
  intros env_normalized Hlocal Hssm Hdev Hpath Hparams. unfold config_load. fold env_normalized. unfold load_params.
  rewrite Hlocal, Hssm, Hpath. unfold extended. destruct (String.eqb_spec env_normalized "dev") as [|_]; [done|]. cbn [mbind Result_bind map_err].
  assert (Hhas : ∀ name, name ∈ ["db/connection_url"; "auth/jwt_secret"] → is_Some (params !! rust_path env_normalized name)).
  { intros name Hin. apply Hparams. unfold expected_paths. cbn [fmap list_fmap snd].
    repeat (apply elem_of_cons in Hin as [->|Hin]; [repeat (first [by left|right])|]). by apply elem_of_nil in Hin. }
  destruct (Hhas "db/connection_url") as [url Hurl]; [by left|]. destruct (Hhas "auth/jwt_secret") as [jwt Hjwt]; [right; by left|].
  unfold either_source. rewrite Hlocal, Hurl. unfold jwt_parameter. rewrite Hjwt. cbn [first_of ok_or mbind Result_bind].
  unfold encryption_key_text, encryption_key_path. rewrite Hlocal.
  destruct (params !! rust_path env_normalized "encryption/api_key_key") as [key|] eqn:Hkey; [|done]. exfalso.
  assert (Hin : rust_path env_normalized "encryption/api_key_key" ∈ (expected_paths env_normalized).*2) by (apply Hparams; by rewrite Hkey).
  unfold expected_paths in Hin. cbn [fmap list_fmap snd] in Hin.
  repeat (apply elem_of_cons in Hin as [Hin|Hin]; [by apply rust_path_inj in Hin|]). by apply elem_of_nil in Hin.
Qed.

(** ** What the store answers *)

Section store.
Context {L1 L2 : Type} `{!TtlStore L1, !TtlStore L2}.
Context (source : Z → string → bool → SsmReply) (delays : string → SsmDelays).
Implicit Types s : SsmState L1 L2.
Abbreviation no_redis s := (cs_redis (ssm_cache s) = None).

Lemma request_without_redis path b ms s : no_redis s → ∃ reply s', request source path b ms s = (Ok reply, s') ∧ no_redis s'.
Proof. intros Hs. unfold request, pass, eff_modify, eff_gets, later, mbind, eff_bind. eexists _, _. by split. Qed.

Lemma get_parameter_without_redis svc d path b s : no_redis s →
  ∃ v s', get_parameter source svc d path b s = (Ok v, s') ∧ no_redis s'.
Proof.
  intros Hs. assert (Hset : ∀ key value ttl s, no_redis s → ssm_redis_set key value ttl s = (Ok tt, s)).
  { intros key value ttl s0 H0. unfold ssm_redis_set, eff_gets, mbind, eff_bind. cbn. by rewrite H0. }
  assert (Hfound : ∀ value s, no_redis s → ∃ v s', found_parameter svc path b value s = (Ok v, s') ∧ no_redis s').
  { intros value s0 H0. unfold found_parameter. rewrite eff_bind_eq, Hset by done. by eexists _, _. }
  assert (Hmissing : ∀ s, no_redis s → ∃ v s', missing_parameter svc path b s = (Ok v, s') ∧ no_redis s').
  { intros s0 H0. unfold missing_parameter. rewrite eff_bind_eq, Hset by done. by eexists _, _. }
  unfold get_parameter, ssm_redis_get. rewrite !eff_bind_eq. unfold eff_gets at 1. cbn. rewrite Hs. cbn.
  unfold fetch_parameter. rewrite eff_bind_eq. destruct (request_without_redis path b (first_ms d) s Hs) as (reply & s1 & -> & H1).
  destruct reply; [by apply Hfound|by apply Hmissing| |].
  all: rewrite eff_bind_eq; unfold pass at 1, eff_modify at 1; rewrite eff_bind_eq;
    destruct (request_without_redis path b (second_ms d) (later 100 s1)) as (reply2 & s2 & -> & H2); [done|];
    (destruct reply2; [by apply Hfound|by apply Hmissing..]).
Qed.

(** The store may refuse, fail or not answer at all: the tool says that the parameter was
    not found.  Its other warnings, access denied for one, are never given. *)
Theorem refusal_reads_as_not_found (svc : SsmService) (env : option string) (vars : Env) (content : string) (found_file : bool) s :
  no_redis s →
  ∃ r s', validate_secrets source delays (Some content) found_file (Ok svc) env vars true true s = (Ok r, s') ∧ valid r = true ∧
    warnings r = warnings (local_secrets env vars found_file content) ++ (missing_parameter_warning <$> missing_ssm_params r).
Proof.
  intros Hs. unfold validate_secrets. cbn [negb]. rewrite andb_false_r. rewrite eff_bind_eq. unfold fallible, eff_lift. cbn [ok_or map_err].
  set (r0 := local_secrets env vars found_file content).
  assert (H : ∀ paths r s, no_redis s → valid r = true →
    warnings r = warnings r0 ++ (missing_parameter_warning <$> missing_ssm_params r) →
    ∃ r' s', check_parameters source delays svc paths r s = (Ok r', s') ∧ valid r' = true ∧
      warnings r' = warnings r0 ++ (missing_parameter_warning <$> missing_ssm_params r')).
  { induction paths as [|path paths IH]; intros r s0 H0 Hv Hw; cbn [check_parameters]; [by exists r, s0|].
    rewrite eff_bind_eq. unfold catch at 1. destruct (get_parameter_without_redis svc (delays path) path false s0 H0) as (v & s1 & -> & H1).
    destruct v as [v|]; apply IH; [done..| |]; [done|]. cbn [warnings missing_ssm_params warn]. by rewrite Hw, fmap_app, app_assoc. }
  apply H; [done|done|]. by rewrite app_nil_r.
Qed.
End store.

(** ** Duplicates, benches and binaries *)

(** A package is reported exactly when two lines give it different versions. *)
Theorem duplicates_reported_iff (stdout : string) :
  str_trim stdout ≠ "" →
  let rows := omap tree_line (str_lines stdout) in
  ∃ r, validate_cargo_duplicates (Some (true, stdout)) = Ok r ∧ valid r = true ∧
    ∀ package, (∃ w, w ∈ warnings r ∧ duplicate_warning rows package = Some w) ↔
      ∃ v1 v2, v1 ≠ v2 ∧ (package, v1) ∈ rows ∧ (package, v2) ∈ rows.
Proof.
  intros Hne rows. unfold validate_cargo_duplicates. cbn [ok_or mbind Result_bind negb].
  destruct (String.eqb_spec (str_trim stdout) "") as [|_]; [done|]. fold rows. eexists. split; [done|]. split; [done|].
  cbn [warnings warn default_result app]. intros package.
  assert (Hv : ∀ v, v ∈ versions_of rows package ↔ (package, v) ∈ rows).
  { intros v. unfold versions_of. rewrite elem_of_remove_dups, list_elem_of_fmap. setoid_rewrite elem_of_list_filter_bool.
    split; [|intros Hin; exists (package, v); split_and!; [done|done|apply String.eqb_refl]].
    intros ([p v'] & -> & [Hin Hp]). cbn in Hp. by apply String.eqb_eq in Hp as ->. }
  assert (Hnd : NoDup (versions_of rows package)) by apply NoDup_remove_dups.
  unfold duplicate_warning. split.
  - intros (w & _ & Hw). destruct (versions_of rows package) as [|v1 [|v2 vs]]; [done..|]. exists v1, v2.
    rewrite <-!Hv. apply NoDup_cons in Hnd as [Hn _]. split_and!; [intros ->; apply Hn; by left|by left|right; by left].
  - intros (v1 & v2 & Hvs & H1 & H2). pose proof H1 as Hp. rewrite <-Hv in H1, H2.
    destruct (versions_of rows package) as [|u1 [|u2 us]] eqn:E; [by apply elem_of_nil in H1| |].
    { apply list_elem_of_singleton in H1, H2. congruence. }
    eexists. split; [|done]. apply list_elem_of_omap. exists package. split.
    + apply elem_of_remove_dups, list_elem_of_fmap. by exists (package, v1).
    + unfold duplicate_warning. by rewrite E.
Qed.

(** The lines of a tree start with its drawing, which is taken for the package. *)
Example tree_drawing_is_a_package :
  let rows := omap tree_line ["├── rand v0.8.5"; "├── syn v2.0.1"] in
  duplicate_warning rows "├──" =
    Some (with_remediation "Package '├──' has multiple versions: rand, syn"
      "Run 'cargo tree --duplicates' to see dependency tree, then update Cargo.toml to use single version") ∧
  duplicate_warning rows "rand" = None.
Proof. vm_compute. by split. Qed.

(** A manifest is valid exactly when each declared bench has its file, at its path or at
    [benches/<name>.rs]. *)
Theorem cargo_toml_valid_iff `{Toml T} (files : string → option string) (path_exists : string → bool) (path : FilePath)
    (content : string) (parsed : T) :
  files (path_text path) = Some content → toml_from_str content = Some parsed →
  ∃ r, validate_cargo_toml (T := T) files path_exists path = Ok r ∧ warnings r = [] ∧
    (valid r = true ↔ ∀ name file, (name, file) ∈ declared_benches parsed → path_exists (join_path (path_dir path) file) = true).
Proof.
  intros Hf Hp. unfold validate_cargo_toml, read_file. rewrite Hf. cbn [ok_or mbind Result_bind]. rewrite Hp. cbn [ok_or mbind Result_bind].
  eexists. split; [done|]. split; [done|]. cbn [valid add_errors default_result].
  assert (Hall : omap (missing_bench path_exists path) (declared_benches parsed) = [] ↔
    ∀ name file, (name, file) ∈ declared_benches parsed → path_exists (join_path (path_dir path) file) = true).
  { split.
    - intros Hnil name file Hin. destruct (path_exists (join_path (path_dir path) file)) eqn:E; [done|]. exfalso.
      assert (Hw : ∃ w, w ∈ omap (missing_bench path_exists path) (declared_benches parsed)).
      { eexists. apply list_elem_of_omap. exists (name, file). split; [done|]. unfold missing_bench. cbn [snd]. by rewrite E. }
      destruct Hw as [w Hw]. rewrite Hnil in Hw. by apply elem_of_nil in Hw.
    - intros Ha. apply elem_of_nil_inv. intros w ([name file] & Hin & Hw)%list_elem_of_omap. unfold missing_bench in Hw. cbn [snd] in Hw.
      by rewrite (Ha _ _ Hin) in Hw. }
  rewrite <-Hall. by destruct (omap (missing_bench path_exists path) (declared_benches parsed)).
Qed.

(** A binary of another stage of the build is not found, by its path in [target/release] or,
    as in the repository's own Dockerfile, by another one. *)
Example staged_binaries_not_found :
  mjoin (copied_binaries <$> ["COPY --from=builder /app/binaries/leadsnebula-api /app/leadsnebula-api";
                               "COPY --from=builder /app/target/release/create-user /app/create-user";
                               "COPY target/release/run-migrations /app/run-migrations"]) = ["run-migrations"].
Proof. vm_compute. reflexivity. Qed.

(** ** Reference documents *)

(** A parser that knows one text, on [json] values. *)
Definition json_toml (text : string) (document : json) : Toml json := {|
  toml_from_str := λ s, if String.eqb s text then Some document else None;
  toml_get := jget; toml_as_str := as_str; toml_as_array := as_array;
  toml_is_table := λ v, bool_decide (is_Some (as_object v)) |}.
Definition json_yaml (text : string) (document : json) : Yaml json := {|
  yaml_from_str := λ s, if String.eqb s text then Some document else None;
  yaml_get := jget; yaml_as_str := as_str; yaml_is_null := λ v, match v with JNull => true | _ => false end;
  yaml_as_mapping := λ v, fmap (M := list) (λ f, (JString f.1, f.2)) <$> as_object v;
  yaml_as_sequence := as_array |}.

Definition named (fields : list (string * string)) : json := json_object ((λ f, (f.1, JString f.2)) <$> fields).
Definition sample_manifest : json := json_object [("bench", JArray [named [("name", "hashing")]; named [("name", "routing"); ("path", "b/routing.rs")]])].
Definition sample_path : FilePath := {| path_text := "core/Cargo.toml"; path_dir := "core" |}.

Lemma cargo_toml_valid_iff_witness :
  ∃ r, validate_cargo_toml (H := json_toml "manifest" sample_manifest) (const (Some "manifest"))
         (String.eqb "core/benches/hashing.rs") sample_path = Ok r ∧ valid r ≠ true.
Proof.
  destruct (cargo_toml_valid_iff (H := json_toml "manifest" sample_manifest) (const (Some "manifest"))
    (String.eqb "core/benches/hashing.rs") sample_path "manifest" sample_manifest) as (r & Hr & _ & Hv); [reflexivity..|].
  exists r. split; [exact Hr|]. intros Hvalid. apply Hv with (name := "routing") (file := "b/routing.rs") in Hvalid; [by vm_compute in Hvalid|].
  vm_compute. right. by left.
Defined.

(** A workflow that pushes without the permission, with a report to nowhere. *)
Definition sample_workflow : json := json_object [("jobs", json_object [("coverage",
  json_object [("steps", JArray [named [("run", "cargo llvm-cov clean")]; named [("run", "cargo llvm-cov --lcov")]])])])].
Example workflow_warnings :
  (fmap (M := list) message <$> (warnings <$> match validate_github_workflow (H := json_yaml "uses ghcr.io" sample_workflow) (const (Some "uses ghcr.io")) sample_path with
                        | Ok r => Some r | Err _ => None end)) =
  Some ["Workflow pushes to GHCR but missing packages: write permission";
        "Job 'coverage' uses cargo llvm-cov without --lcov --output-path"].
Proof. vm_compute. reflexivity. Qed.
