(* ===== verification/Health.v ===== *)
(** * Health, counters and guards

    [crates/api/src/routes/health.rs]: what the endpoints for probes answer; the counters of
    [crates/core/src/redis.rs] on a store that can count; and the guard of
    [crates/core/src/services/database.rs] for test data. *)

From stdpp Require Import base list strings gmap pretty.
From Stdlib Require Import Ascii String ZArith Lia.
From S2P Require Import Prelude Float64 Platform Json Cache Config.

Open Scope string_scope.
Open Scope list_scope.

(** ** Probes *)

(** What a question with a time limit comes to. *)
Inductive Probe : Type :=
  | Replied (reply : Result string unit)
  | NoReply.

Section health.
Context `{Platform} (now : DateTime).

Definition liveness_check : Z * json :=
  (200%Z, json_object [("status", JString "alive"); ("timestamp", JString (to_rfc3339 now))]).

Definition poke_endpoint (database : Probe) : Z * json :=
  match database with
  | Replied (Ok _) => (200%Z, json_object [("ok", JBool true)])
  | _ => (503%Z, json_object [("ok", JBool false)])
  end.

Definition database_check (database : Probe) : string * string :=
  match database with
  | Replied (Ok _) => ("healthy", "ok")
  | Replied (Err e) => ("unhealthy", "error: " +:+ e)
  | NoReply => ("unhealthy", "error: connection timeout")
  end.

(** [None]: there is no Redis. *)
Definition redis_check (redis : option Probe) : string :=
  match redis with
  | Some (Replied (Ok _)) => "ok"
  | Some (Replied (Err e)) => "warning: " +:+ e
  | Some NoReply => "warning: connection timeout"
  | None => "not configured"
  end.

Definition health_check (database : Probe) (redis : option Probe) : Z * json :=
  let '(status, check) := database_check database in
  (if String.eqb status "healthy" then 200%Z else 503%Z,
   json_object [("status", JString status); ("timestamp", JString (to_rfc3339 now));
                ("checks", json_object [("database", JString check); ("redis", JString (redis_check redis))])]).

(** [num_idle < (pool_size / 10)], under the comment that says ten percent. *)
Definition auction_time_high (pool_size num_idle : Z) : bool := (0 <? pool_size)%Z && (num_idle <? pool_size / 10)%Z.
Definition db_pool_exhausted (pool_size num_idle : Z) : bool := (num_idle =? 0)%Z && (0 <? pool_size)%Z.

(** [redis.ping()], without a time limit. *)
Definition redis_status (redis : option (Result string unit)) : string :=
  match redis with Some (Ok _) => "connected" | Some (Err _) => "disconnected" | None => "not_configured" end.

Definition performance_note : string :=
  "Request-level metrics (ping_auction_time, post_time, cache_hit_rate) are tracked per-request via DiagnosticMetrics. Aggregate metrics can be collected from logs or by storing DiagnosticMetrics in AppState.".

Definition metrics_endpoint (pool_size num_idle : Z) (redis : option (Result string unit)) : Z * json :=
  let redis_configured := bool_decide (is_Some redis) in
  (200%Z, json_object [
    ("timestamp", JString (to_rfc3339 now));
    ("metrics", json_object [
      ("database", json_object [("pool_size", json_of_u64 pool_size); ("idle_connections", json_of_u64 num_idle);
                                ("active_connections", json_of_u64 (Z.max 0 (pool_size - num_idle)))]);
      ("cache", json_object [("configured", JBool redis_configured); ("status", JString (redis_status redis))]);
      ("performance", json_object [("note", JString performance_note)])]);
    ("format", JString "json");
    ("version", JString "1.0");
    ("monitoring", json_object [
      ("health_endpoint", JString "/health");
      ("metrics_endpoint", JString "/metrics");
      ("alerting_thresholds", json_object [("auction_time_ms", json_of_i32 200);
        ("cache_hit_rate_percent", json_of_f64 (f64_of_Z 90)); ("db_query_time_ms", json_of_i32 100)]);
      ("alerts", json_object [
        ("auction_time_high", JBool (auction_time_high pool_size num_idle));
        ("cache_miss_rate_high", JBool (negb redis_configured || negb (String.eqb (redis_status redis) "connected")));
        ("db_pool_exhausted", JBool (db_pool_exhausted pool_size num_idle))])])]).
End health.

(** ** The counters *)

(** A store that counts: [INCR] keeps the expiry of a key, and fails on a value that is not
    a number; [EXPIRE] sets it, when there is the key. *)
Class CountingStore (St : Type) : Type := {
  ts_incr : Z → string → St → Result string Z * St;
  ts_expire : Z → string → Z → St → St
}.

Section counters.
Context {L1 L2 St : Type} `{!TtlStore L1, !TtlStore L2, !CountingStore L2} `{!HasCache L1 L2 St}.
Abbreviation counted := (eff St Failure).

(** [EXISTS]. *)
Definition redis_exists (redis : L2) (key : string) : counted bool :=
  _ ← redis_outcome ""; _ ← redis_outcome "";
  found ← eff_gets (λ s, ts_get (clock s) (prefix_key (cache_of s) key) redis);
  mret (bool_decide (is_Some found)).

(** [INCR]; the client is shared: the store is the one of the moment. *)
Definition count_up (key : string) : counted Z := λ s,
  match cs_redis (cache_of s) with
  | Some redis =>
      let '(r, redis') := ts_incr (clock s) (prefix_key (cache_of s) key) redis in
      (map_err Failed r, with_cache (set_redis (Some redis') (cache_of s)) s)
  | None => (Err (Failed "not configured"), s)
  end.
Definition redis_increment (key : string) : counted Z :=
  _ ← redis_outcome ""; _ ← redis_outcome "";
  count_up key.

(** [EXPIRE] on the first increment. *)
Definition redis_increment_with_ttl (key : string) (ttl_seconds : Z) : counted Z :=
  result ← redis_increment key;
  _ ← (if (result =? 1)%Z && (0 <? ttl_seconds)%Z then
         _ ← redis_outcome ""; _ ← redis_outcome "";
         eff_modify (λ s, with_cache (set_redis (ts_expire (clock s) (prefix_key (cache_of s) key) (1000 * ttl_seconds)
                                                   <$> cs_redis (cache_of s)) (cache_of s)) s)
       else mret tt);
  mret result.
End counters.

(** ** The database *)

(** The same clean-up of the URL as the settings have. *)
Definition strip_channel_binding (url : string) : string :=
  match split_once "?" url with
  | Some (base, query) =>
      match List.filter not_channel_binding (split_char "&" query) with
      | [] => base
      | params => base +:+ "?" +:+ str_join "&" params
      end
  | None => url
  end.

Definition looks_like_ephemeral (database_url : string) : bool :=
  str_contains "ci-" database_url || str_contains "ci-local-" database_url || str_contains "ephemeral" database_url
  || str_contains "_test" database_url || str_contains "/test" database_url.

Definition require_ephemeral_db_for_test_data (env : Env) (database_url : string) : bool :=
  bool_decide (is_Some (env !! "EPHEMERAL_DB")) && looks_like_ephemeral database_url.

(** ** Properties *)

(** The service is healthy exactly when the database answers: Redis never counts. *)
Theorem health_is_the_database `{Platform} (now : DateTime) (database : Probe) (redis : option Probe) :
  ((health_check now database redis).1 = 200%Z ↔ database = Replied (Ok tt)) ∧
  ((health_check now database redis).1 = 200%Z ∨ (health_check now database redis).1 = 503%Z) ∧
  (health_check now database redis).1 = (poke_endpoint database).1.
Proof. destruct database as [[[]|e]|]; simpl; split_and!; try done; try (by left); by right. Qed.

(** The alert under ten percent is given when one connection more would still be within
    ten percent: never for a pool of less than ten, even with none idle, and later than at
    ten percent for any size that ten does not divide. *)
Theorem idle_alert_iff (pool_size num_idle : Z) :
  (0 ≤ pool_size)%Z → (0 ≤ num_idle)%Z →
  (auction_time_high pool_size num_idle = true ↔ (10 * (num_idle + 1) ≤ pool_size)%Z) ∧
  (auction_time_high pool_size num_idle = true → (10 * num_idle < pool_size)%Z).
Proof.
  intros Hp Hn. unfold auction_time_high. rewrite andb_true_iff, !Z.ltb_lt.
  pose proof (Z.div_mod pool_size 10). pose proof (Z.mod_pos_bound pool_size 10). lia.
Qed.
Example exhausted_pool_is_no_alert : auction_time_high 9 0 = false ∧ auction_time_high 19 1 = false.
Proof. by split. Qed.

(** The second of the five patterns is idle: the first one matches more. *)
Lemma prefix_shorter p q s : String.prefix (p +:+ q) s = true → String.prefix p s = true.
Proof.
  revert s. induction p as [|a p IH]; intros s; [by destruct s|]. rewrite string_app_cons. destruct s as [|b s]; [done|]. cbn.
  destruct (ascii_dec a b); [apply IH|done].
Qed.
Lemma contains_shorter p q s : str_contains (p +:+ q) s = true → str_contains p s = true.
Proof.
  induction s as [|a s IH]; cbn [str_contains]; rewrite !orb_true_iff; intros [Hp|Hs]; [left; by eapply prefix_shorter|done|left; by eapply prefix_shorter|right; auto].
Qed.
Theorem guard_patterns (env : Env) (database_url : string) :
  require_ephemeral_db_for_test_data env database_url = true ↔
  is_Some (env !! "EPHEMERAL_DB") ∧ ∃ p, p ∈ ["ci-"; "ephemeral"; "_test"; "/test"] ∧ str_contains p database_url = true.
Proof.
  unfold require_ephemeral_db_for_test_data, looks_like_ephemeral.
  rewrite andb_true_iff, bool_decide_eq_true, !orb_true_iff.
  pose proof (contains_shorter "ci-" "local-" database_url) as Hci.
  split; intros [Henv H]; (split; [exact Henv|]).
  - destruct H as [[[[H|H]|H]|H]|H];
      [exists "ci-"|exists "ci-"; apply Hci in H|exists "ephemeral"|exists "_test"|exists "/test"]; (split; [set_solver|exact H]).
  - destruct H as (p & Hp & H). repeat (apply elem_of_cons in Hp as [->|Hp]; [tauto|]). by apply elem_of_nil in Hp.
Qed.

(** ** A counter whose expiry is lost *)

(** The reference store counts. *)
#[export] Instance ttl_map_counts : CountingStore ttl_map := {|
  ts_incr := λ now k m,
    match ts_get now k m with
    | None => (Ok 1%Z, <[k := ("1", None)]> m)
    | Some v =>
        match read_digits 0 0 v with
        | (n, S _, EmptyString) => (Ok (n + 1)%Z, <[k := (pretty (n + 1)%Z, m !! k ≫= snd)]> m)
        | _ => (Err "ERR value is not an integer or out of range", m)
        end
    end;
  ts_expire := λ now k ms m, match ts_get now k m with Some v => <[k := (v, Some (now + ms)%Z)]> m | None => m end
|}.

(** A counter of one minute whose first [EXPIRE] failed: the caller gets the error, the
    count stays, and no later increment gives it an expiry, so it counts for ever. *)
Example lost_expiry :
  let s0 : timed_cache := sample_cache [None; None; Some "timed out"] 0 in
  let r1 := redis_increment_with_ttl "hits" 60 s0 in
  let r2 := redis_increment_with_ttl "hits" 60 (r1.2.1, 86400000%Z) in
  r1.1 = Err (Failed "timed out") ∧ r2.1 = Ok 2%Z.
Proof. vm_compute. by split. Qed.
