(* ===== verification/Tools.v ===== *)
(** * Two small tools

    [crates/utils/src/bin/manage_instances.rs], which empties an instance and makes a test
    instance, and [cleanup-deleted-buyers.rs], which deletes the buyers that are marked as
    deleted; on the named tables of [Cleanup.v].  What the database does to an [INSERT] is a
    parameter with laws ([Insertion]). *)

From stdpp Require Import base list strings gmap.
From Stdlib Require Import Ascii String ZArith Lia.
From S2P Require Import Prelude Float64 Platform Json Models Store Cache Config LeadReports ReportClaims Cleanup CleanupClaims Health.

Open Scope string_scope.
Open Scope list_scope.

(** ** Statements *)

(** What the database does to [INSERT INTO t] of a row. *)
Class Insertion : Type := { insertion : string → DbRow → Tables → Result string Tables }.

Inductive ToolError : Type :=
  | BadInstanceId
  | InDatabase (e : CleanError)
  | BackupFailed (e : string)
  | NotEphemeral
  | ScriptFailed (e : string).

Record ManageArgs : Type := {
  ma_instance_id : string;
  ma_rename : option string;
  ma_test_user_email : string;
  ma_test_instance_name : string;
  ma_run_tests : bool
}.

(** What the tool draws and meets: the identifiers, and the outcomes of its calls outside
    the database. *)
Record ManageReplies : Type := {
  mr_instance : option Uuid;
  mr_backup : Result string unit;
  mr_user_id : Uuid;
  mr_test_instance_id : Uuid;
  mr_script : Result string unit
}.

Section tools.
Context `{Deletion, Insertion}.
Abbreviation cleaning := (eff CleanWorld CleanError).
Abbreviation tool := (eff CleanWorld ToolError).

(** [?] on a statement. *)
Definition in_database {A} (m : cleaning A) : tool A := λ w, let '(r, w') := m w in (map_err InDatabase r, w').

(** A statement of its own that changes the tables. *)
Definition execute_now (f : Tables → Result string Tables) : cleaning unit := λ w,
  match cw_outcomes w with
  | Some e :: rest => (Err (Sql e), set_clean_outcomes rest w)
  | outcomes =>
      match f (cw_db w) with
      | Err e => (Err (Sql e), set_clean_outcomes (tail outcomes) w)
      | Ok db => (Ok tt, {| cw_db := db; cw_tx := cw_tx w; cw_aborted := cw_aborted w; cw_outcomes := tail outcomes |})
      end
  end.

Definition delete_now (t : string) (p : DbRow → bool) : cleaning unit :=
  execute_now (λ db, '(_, db) ← deleting t p db; mret db).

(** ** [cleanup-deleted-buyers] *)

Definition is_deleted (r : DbRow) : bool := bool_decide (is_Some (r !! "deleted_at")).

Definition cleanup_deleted_buyers : cleaning unit :=
  deleted ← on_pool ["buyers"] (keys_where "id" "buyers" is_deleted);
  _ ← for_each (λ id, delete_now "campaigns" (among "buyer_id" [id])) deleted;
  for_each (λ id, delete_now "buyers" (among "id" [id])) deleted.

(** ** [manage_instances] *)

(** The transaction. *)
Definition empty_instance (instance : Uuid) : cleaning unit :=
  in_transaction (
    exists_api_keys ← table_exists "api_keys";
    _ ← (if (exists_api_keys : bool) then
           _ ← on_tx (λ tx,
                 publishers ← query ["publishers"] (keys_where "id" "publishers" (among "instance_id" [instance])) tx;
                 deleting "api_keys" (among "publisher_id" publishers) tx);
           mret tt
         else mret tt);
    _ ← delete_any "publishers" "instance_id" [instance];
    _ ← delete_any "campaigns" "instance_id" [instance];
    _ ← delete_any "ping_trees" "instance_id" [instance];
    _ ← delete_any "buyers" "instance_id" [instance];
    mret tt).

(** [UPDATE instances SET name = $1 WHERE id = $2]. *)
Definition rename_instance (instance : Uuid) (name : string) : cleaning unit :=
  execute_now (λ db, _ ← query ["instances"] (const tt) db;
    mret (alter (fmap (λ r : DbRow, if among "id" [instance] r then <["name" := Text name]> r else r)) "instances" db)).

(** [INSERT ... ON CONFLICT (email) DO NOTHING]. *)
Definition insert_unless_email (t email : string) (row : DbRow) : cleaning unit :=
  execute_now (λ db,
    _ ← query [t] (const tt) db;
    if existsb (λ r, bool_decide (cell_text (r !! "email") = Some email)) (rows_of t db) then Ok db else insertion t row db).
Definition insert_row (t : string) (row : DbRow) : cleaning unit :=
  execute_now (λ db, _ ← query [t] (const tt) db; insertion t row db).

Definition row_of (cells : list (string * Cell)) : DbRow := list_to_map cells.

Definition create_test_instance (args : ManageArgs) (d : ManageReplies) : cleaning unit :=
  found ← eff_try (on_pool [] (λ db, bool_decide (is_Some (db !! "instance_users"))));
  let email := ma_test_user_email args in
  let instance owner := row_of [("id", Id (mr_test_instance_id d)); ("name", Text (ma_test_instance_name args)); (owner, Id (mr_user_id d))] in
  if (result_or false found : bool) then
    _ ← insert_unless_email "instance_users" email
          (row_of [("id", Id (mr_user_id d)); ("email", Text email); ("status", Text "active")]);
    insert_row "instances" (instance "instance_user_id")
  else
    _ ← insert_unless_email "users" email
          (row_of [("id", Id (mr_user_id d)); ("email", Text email); ("name", Text "Test User"); ("status", Text "active")]);
    insert_row "instances" (instance "owner_id").

Definition manage_instances (env : Env) (database_url : string) (args : ManageArgs) (d : ManageReplies) : tool unit :=
  instance ← eff_lift (ok_or BadInstanceId (mr_instance d));
  _ ← in_database (on_pool ["publishers"] (λ db, List.filter (among "instance_id" [instance]) (rows_of "publishers" db)));
  _ ← eff_lift (map_err BackupFailed (mr_backup d));
  _ ← in_database (empty_instance instance);
  _ ← (match ma_rename args with Some name => in_database (rename_instance instance name) | None => mret tt end);
  _ ← (if require_ephemeral_db_for_test_data env database_url then mret tt else eff_err NotEphemeral);
  _ ← in_database (create_test_instance args d);
  if ma_run_tests args then eff_lift (map_err ScriptFailed (mr_script d)) else mret tt.
End tools.

(** ** Properties *)

(** An [INSERT] that succeeds adds the row, with columns it did not give, to its table. *)
Class InsertionLaws `{Insertion} : Prop := {
  insertion_row t row db db' : insertion t row db = Ok db' →
    ∃ row' rows, row ⊆ row' ∧ db !! t = Some rows ∧ db' = <[t := rows ++ [row']]> db
}.

Section deletions.
Context {D : Deletion} {HD : DeletionLaws}.
Abbreviation cleaning := (eff CleanWorld CleanError).
Implicit Types w : CleanWorld.

Lemma execute_now_cases f w :
  (∃ e w', execute_now f w = (Err (Sql e), w') ∧ cw_db w' = cw_db w) ∨
  (∃ db w', f (cw_db w) = Ok db ∧ execute_now f w = (Ok tt, w') ∧ cw_db w' = db).
Proof.
  unfold execute_now. destruct w as [db tx aborted [|[e|] o]]; cbn; [| |]; try (left; by eexists _, _);
    (destruct (f db) as [db'|e'] eqn:Hf; [right|left]; by eexists _, _).
Qed.

Lemma delete_now_Ok t p w w' : delete_now t p w = (Ok tt, w') → deletion t p (cw_db w) = Ok (cw_db w').
Proof.
  unfold delete_now. intros Hrun. set (f := λ db, '(_, db) ← deleting t p db; mret db) in Hrun.
  destruct (execute_now_cases f w) as [(e & w1 & Heq & _)|(db & w1 & Hf & Heq & <-)]; rewrite Heq in Hrun; [done|].
  injection Hrun as ->. unfold f, deleting in Hf. destruct (query [t] _ (cw_db w)) as [n|]; [|done]. cbn in Hf.
  destruct (deletion t p (cw_db w)) as [tx|]; [|done]. by injection Hf as <-.
Qed.

Lemma on_pool_Ok {A} ts (f : Tables → A) w a w' : on_pool ts f w = (Ok a, w') → a = f (cw_db w) ∧ cw_db w' = cw_db w.
Proof.
  unfold on_pool. destruct w as [db tx aborted [|[e|] o]]; cbn; [|done|].
  all: destruct (query ts f db) as [b|] eqn:Hq; cbn; intros [= <- <-]; split; [|done]; by destruct (query_Ok _ _ _ _ Hq).
Qed.

Lemma bind_Ok {S E A B} (m : eff S E A) (k : A → eff S E B) s b s' :
  (m ≫= k) s = (Ok b, s') → ∃ a s1, m s = (Ok a, s1) ∧ k a s1 = (Ok b, s').
Proof. rewrite eff_bind_eq. destruct (m s) as [[a|e] s1]; [eauto|done]. Qed.

(** *** Deleted buyers *)

Lemma among_one col u r : among col [u] r = bool_decide (cell_id (r !! col) = Some u).
Proof. unfold among. destruct (cell_id (r !! col)) as [v|]; [apply bool_decide_ext; set_solver|by rewrite bool_decide_false]. Qed.

Lemma among_cons col u us r : among col (u :: us) r = among col [u] r || among col us r.
Proof.
  unfold among. destruct (cell_id (r !! col)) as [v|]; [|done].
  rewrite (bool_decide_ext (v ∈ u :: us) (v ∈ [u] ∨ v ∈ us)) by set_solver. apply bool_decide_or.
Qed.

Lemma filter_filter (p q : DbRow → bool) rows : List.filter p (List.filter q rows) = List.filter (λ r, q r && p r) rows.
Proof. induction rows as [|r rows IH]; [done|]. cbn. destruct (q r); cbn; [destruct (p r)|]; by rewrite ?IH. Qed.

(** One deletion after the other is that of all. *)
Lemma delete_each_Ok t col ids w w' : for_each (λ id, delete_now t (among col [id])) ids w = (Ok tt, w') →
  cw_db w' !! t = List.filter (λ r, negb (among col ids r)) <$> cw_db w !! t ∧
  ∀ t', kept_by t t' → cw_db w' !! t' = cw_db w !! t'.
Proof.
  revert w. induction ids as [|id ids IH]; intros w; cbn [for_each].
  - intros [= ->]. split; [|done]. destruct (cw_db w' !! t) as [rows|]; [|done]. cbn. f_equal.
    symmetry. apply filter_all. intros r _. unfold among. by destruct (cell_id (r !! col)).
  - intros (a & w1 & Hd & Hrest)%bind_Ok. destruct a. apply delete_now_Ok in Hd. destruct (IH _ Hrest) as [Hrows Hkept]. split.
    + rewrite Hrows, (deletion_rows _ _ _ _ Hd), <-option_fmap_compose. destruct (cw_db w !! t) as [rows|]; [|done]. cbn.
      f_equal. rewrite filter_filter. apply List.filter_ext. intros r. by rewrite (among_cons col id ids), negb_orb.
    + intros t' Ht'. rewrite Hkept by done. by eapply deletion_kept.
Qed.

(** When the tool succeeds, the buyers marked as deleted are gone with their campaigns;
    every other buyer is there, with its campaigns. *)
Theorem deleted_buyers_are_gone w w' :
  keyed "id" (rows_of "buyers" (cw_db w)) → cleanup_deleted_buyers w = (Ok tt, w') →
  rows_of "buyers" (cw_db w') = List.filter (λ r, negb (is_deleted r)) (rows_of "buyers" (cw_db w)) ∧
  rows_of "campaigns" (cw_db w') =
    List.filter (λ r, negb (among "buyer_id" (keys_where "id" "buyers" is_deleted (cw_db w)) r)) (rows_of "campaigns" (cw_db w)).
Proof.
  intros Hk Hrun. unfold cleanup_deleted_buyers in Hrun.
  apply bind_Ok in Hrun as (ids & w1 & [-> Hdb1]%on_pool_Ok & Hrun). set (ids := keys_where _ _ _ _) in Hrun.
  apply bind_Ok in Hrun as ([] & w2 & Hc & Hb). destruct (delete_each_Ok _ _ _ _ _ Hc) as [Hcamp Hck].
  destruct (delete_each_Ok _ _ _ _ _ Hb) as [Hbuy Hbk]. rewrite Hdb1 in Hcamp, Hck.
  assert (Hkb : kept_by "campaigns" "buyers") by (split_and!; [unfold core_tables; set_solver|done|done]).
  assert (Hkc : kept_by "buyers" "campaigns") by (split_and!; [unfold core_tables; set_solver|done|done]).
  unfold rows_of. rewrite Hbuy, (Hck _ Hkb), (Hbk _ Hkc), Hcamp. split.
  - unfold rows_of in Hk. destruct (cw_db w !! "buyers") as [rows|] eqn:Er; [|done]. cbn in *. apply filter_negb_ext.
    intros r Hr. unfold ids, keys_where, rows_of. rewrite Er. cbn. by apply among_keys.
  - by destruct (cw_db w !! "campaigns").
Qed.

(** *** Emptied instances *)

(** What succeeds does so in a transaction that goes on. *)
Definition ends_alive {A} (m : cleaning A) : Prop := ∀ w a w', m w = (Ok a, w') → cw_aborted w' = false.

Lemma alive_on_tx {A} (f : Tables → Result string (A * Tables)) : ends_alive (on_tx f).
Proof.
  intros w a w' Hrun. destruct (on_tx_cases f w) as [(e & w1 & Heq & _)|(_ & b & tx & w1 & _ & Heq & _ & _ & Ha)]; rewrite Heq in Hrun;
    [done|by injection Hrun as _ <-].
Qed.
Lemma alive_bind {A B} (m : cleaning A) (k : A → cleaning B) : (∀ a, ends_alive (k a)) → ends_alive (m ≫= k).
Proof. intros Hk w b w' (a & w1 & _ & Hrun)%bind_Ok. by apply Hk in Hrun. Qed.
Lemma alive_then_ret {A B} (m : cleaning A) (b : A → B) : ends_alive m → ends_alive (a ← m; mret (b a)).
Proof. intros Hm w b' w' (a & w1 & Hrun & Hret)%bind_Ok. injection Hret as _ <-. by apply Hm in Hrun. Qed.

(** A transaction that ends well with such a statement is committed. *)
Lemma in_transaction_Ok {A} P (body : cleaning A) Q w a w' :
  tx_spec P body Q → ends_alive body → P (cw_db w) → in_transaction body w = (Ok a, w') → Q a (cw_db w').
Proof.
  intros Hbody Halive Hp Hrun. pose proof (in_transaction_spec P body Q w Hbody Hp) as Hspec. rewrite Hrun in Hspec.
  unfold in_transaction in Hrun. apply bind_Ok in Hrun as ([] & w1 & _ & Hrun). apply bind_Ok in Hrun as (b & w2 & Hb & Hrun).
  apply bind_Ok in Hrun as ([] & w3 & Hc & Hret). injection Hret as <- <-. apply Halive in Hb.
  unfold commit_tx in Hc. destruct (cw_outcomes w2) as [|[e|] o]; [|done|]; injection Hc as <-; cbn in *; by rewrite Hb in Hspec |- *.
Qed.

Definition instance_tables : list string := ["publishers"; "campaigns"; "ping_trees"; "buyers"].

(** The tables [finished] are without the rows of the instance, the others are as they were. *)
Definition emptied (u : Uuid) (db : Tables) (finished : list string) (tx : Tables) : Prop := ∀ t, t ∈ instance_tables →
  tx !! t = if bool_decide (t ∈ finished) then List.filter (λ r, negb (among "instance_id" [u] r)) <$> db !! t else db !! t.

Lemma instance_kept t t' : t ∈ "api_keys" :: instance_tables → t' ∈ instance_tables → t' ≠ t → kept_by t t'.
Proof.
  intros Ht Ht' Hne. split_and!; [|done|intros ->; unfold instance_tables in Ht; set_solver]. unfold instance_tables, core_tables in *. set_solver.
Qed.

Lemma tx_empty_table u db finished t : t ∈ instance_tables → t ∉ finished →
  tx_spec (emptied u db finished) (delete_any t "instance_id" [u]) (λ _, emptied u db (t :: finished)).
Proof.
  intros Ht Hf. apply tx_delete. intros tx tx' Hp _ Hd t' Ht'. destruct (decide (t' = t)) as [->|Hne].
  - rewrite (deletion_rows _ _ _ _ Hd), (Hp t) by done. rewrite bool_decide_false, bool_decide_true by (done || by left). done.
  - rewrite (deletion_kept _ t' _ _ _ Hd) by (apply instance_kept; [by right|done..]). rewrite (Hp t') by done.
    by rewrite (bool_decide_ext (t' ∈ t :: finished) (t' ∈ finished)) by set_solver.
Qed.

Lemma tx_empty_keys u db p : tx_spec (emptied u db []) (on_tx (λ tx,
    publishers ← query ["publishers"] (keys_where "id" "publishers" (among "instance_id" [u])) tx;
    deleting "api_keys" (p publishers) tx)) (λ _, emptied u db []).
Proof.
  apply tx_on_tx. intros tx n tx' Hp Hf t Ht. destruct (query ["publishers"] _ tx); [|done]. cbn in Hf. unfold deleting in Hf.
  destruct (query ["api_keys"] _ tx); [|done]. cbn in Hf. destruct (deletion _ _ tx) eqn:Hd; [|done]. injection Hf as _ <-.
  rewrite (deletion_kept _ t _ _ _ Hd); [by apply Hp|]. apply instance_kept; [by left|done|]. intros ->. unfold instance_tables in Ht. set_solver.
Qed.

Lemma empty_instance_Ok u w w' : empty_instance u w = (Ok tt, w') → emptied u (cw_db w) instance_tables (cw_db w').
Proof.
  unfold empty_instance. intros Hrun.
  apply (in_transaction_Ok (emptied u (cw_db w) []) _ (λ _, emptied u (cw_db w) instance_tables)) in Hrun; [done|..].
  - apply (tx_bind _ (λ _, emptied u (cw_db w) [])).
    { eapply tx_post, tx_exists. by intros b tx [? _]. }
    intros b. apply (tx_bind _ (λ _, emptied u (cw_db w) [])).
    { destruct b; [|by apply tx_ret]. apply (tx_bind _ (λ _, emptied u (cw_db w) [])); [apply tx_empty_keys|intros _; by apply tx_ret]. }
    intros _. apply (tx_bind _ (λ _, emptied u (cw_db w) ["publishers"])); [apply tx_empty_table; unfold instance_tables; set_solver|].
    intros _. apply (tx_bind _ (λ _, emptied u (cw_db w) ["campaigns"; "publishers"])); [apply tx_empty_table; unfold instance_tables; set_solver|].
    intros _. apply (tx_bind _ (λ _, emptied u (cw_db w) ["ping_trees"; "campaigns"; "publishers"])); [apply tx_empty_table; unfold instance_tables; set_solver|].
    intros _. apply (tx_bind _ (λ _, emptied u (cw_db w) ["buyers"; "ping_trees"; "campaigns"; "publishers"])); [apply tx_empty_table; unfold instance_tables; set_solver|].
    intros _. apply tx_ret. intros tx Htx t Ht. rewrite (Htx t Ht). rewrite (bool_decide_ext _ (t ∈ instance_tables)); [done|]. unfold instance_tables. set_solver.
  - do 5 (apply alive_bind; intros ?). apply (alive_then_ret _ (λ _, tt)), alive_on_tx.
  - intros t Ht. by rewrite bool_decide_false by set_solver.
Qed.

End deletions.

Section claims.
Context {D : Deletion} {HD : DeletionLaws} {I : Insertion} {HI : InsertionLaws}.
Abbreviation cleaning := (eff CleanWorld CleanError).
Abbreviation tool := (eff CleanWorld ToolError).

Lemma in_database_Ok {A} (m : cleaning A) w a w' : in_database m w = (Ok a, w') → m w = (Ok a, w').
Proof. unfold in_database. destruct (m w) as [[b|e] w1]; [|done]. by intros [= <- <-]. Qed.
Lemma in_database_Err {A} (m : cleaning A) w e w' : in_database m w = (Err e, w') → ∃ e', e = InDatabase e'.
Proof. unfold in_database. destruct (m w) as [[b|e1] w1]; [done|]. intros [= <- <-]. eauto. Qed.

Lemma rename_keeps_others u name w w' t : rename_instance u name w = (Ok tt, w') → t ≠ "instances" → cw_db w' !! t = cw_db w !! t.
Proof.
  unfold rename_instance. intros Hrun Ht. set (f := λ db, _ ← query ["instances"] _ db; _) in Hrun.
  destruct (execute_now_cases f w) as [(e & w1 & Heq & _)|(db & w1 & Hf & Heq & <-)]; rewrite Heq in Hrun; [done|]. injection Hrun as ->.
  unfold f in Hf. destruct (query ["instances"] _ (cw_db w)); [|done]. injection Hf as <-. by rewrite lookup_alter_ne.
Qed.

(** A bind that fails does so in its first part or after it. *)
Lemma bind_Err {S E A B} (m : eff S E A) (k : A → eff S E B) s e s' :
  (m ≫= k) s = (Err e, s') → m s = (Err e, s') ∨ ∃ a s1, m s = (Ok a, s1) ∧ k a s1 = (Err e, s').
Proof. rewrite eff_bind_eq. destruct (m s) as [[a|e1] s1]; [eauto|]. intros [= <- <-]. by left. Qed.

(** The guard that keeps test data out of real databases comes last: when it refuses one,
    the publishers, campaigns, ping trees and buyers of the instance are gone already.  With
    a guard that refuses the tool never ends well. *)
Theorem refused_after_deletion (env : Env) (database_url : string) (args : ManageArgs) (d : ManageReplies) w :
  require_ephemeral_db_for_test_data env database_url = false →
  ∃ e w', manage_instances env database_url args d w = (Err e, w') ∧
    (e = NotEphemeral → ∃ u, mr_instance d = Some u ∧
       ∀ t, t ∈ instance_tables → cw_db w' !! t = List.filter (λ r, negb (among "instance_id" [u] r)) <$> cw_db w !! t).
Proof.
  intros Hguard. destruct (manage_instances env database_url args d w) as [r w'] eqn:Hrun. unfold manage_instances in Hrun. rewrite Hguard in Hrun.
  destruct r as [[]|e].
  { do 5 apply bind_Ok in Hrun as (? & ? & _ & Hrun). by apply bind_Ok in Hrun as (? & ? & ? & _). }
  exists e, w'. split; [done|]. intros ->. destruct (mr_instance d) as [u|]; [|done]. cbn [ok_or] in Hrun. exists u. split; [done|].
  apply bind_Err in Hrun as [Hrun|(u' & w0 & Hu & Hrun)]; [done|]. injection Hu as <- <-.
  apply bind_Err in Hrun as [Hrun|(rows & w1 & Hpool & Hrun)]; [by apply in_database_Err in Hrun as [? ?]|].
  apply in_database_Ok, on_pool_Ok in Hpool as [_ Hdb1].
  apply bind_Err in Hrun as [Hrun|(x & w2 & Hb & Hrun)]; [unfold eff_lift in Hrun; by destruct (mr_backup d)|].
  unfold eff_lift in Hb. injection Hb as Hb <-.
  apply bind_Err in Hrun as [Hrun|(y & w3 & He & Hrun)]; [by apply in_database_Err in Hrun as [? ?]|].
  destruct y. apply in_database_Ok, empty_instance_Ok in He. rewrite Hdb1 in He.
  assert (Hfinal : ∀ t, t ∈ instance_tables → cw_db w' !! t = cw_db w3 !! t); [|intros t Ht; rewrite Hfinal by done; rewrite (He t Ht); by rewrite bool_decide_true].
  intros t Ht. apply bind_Err in Hrun as [Hrun|(z & w4 & Hr & Hrun)].
  - destruct (ma_rename args); [by apply in_database_Err in Hrun as [? ?]|done].
  - assert (Hw4 : cw_db w4 !! t = cw_db w3 !! t).
    { destruct (ma_rename args) as [name|]; [|by injection Hr as _ <-]. destruct z. apply in_database_Ok in Hr.
      eapply rename_keeps_others; [exact Hr|]. intros ->. unfold instance_tables in Ht. set_solver. }
    apply bind_Err in Hrun as [Hrun|(? & ? & Hbad & _)]; [|done]. injection Hrun as <-. exact Hw4.
Qed.

(** A second test instance has no owner: the user of the address is there, so none is
    made, and the instance that is made, if the database lets it, is that of a user that
    was drawn but never inserted. *)
Theorem second_test_instance_has_no_owner (args : ManageArgs) (d : ManageReplies) w w' (r : DbRow) :
  r ∈ rows_of "instance_users" (cw_db w) → cell_text (r !! "email") = Some (ma_test_user_email args) →
  (∀ r, r ∈ rows_of "instance_users" (cw_db w) → cell_id (r !! "id") ≠ Some (mr_user_id d)) →
  cw_outcomes w = [] → create_test_instance args d w = (Ok tt, w') →
  ∃ instance, instance ∈ rows_of "instances" (cw_db w') ∧ instance !! "instance_user_id" = Some (Id (mr_user_id d)) ∧
    ∀ r, r ∈ rows_of "instance_users" (cw_db w') → cell_id (r !! "id") ≠ Some (mr_user_id d).
Proof.
  intros Hr Hemail Hfresh Ho Hrun. unfold create_test_instance in Hrun.
  assert (Hthere : is_Some (cw_db w !! "instance_users")).
  { unfold rows_of in Hr. destruct (cw_db w !! "instance_users"); [done|by apply elem_of_nil in Hr]. }
  rewrite eff_bind_eq in Hrun. unfold eff_try at 1, on_pool at 1 in Hrun. rewrite Ho in Hrun.
  cbn [tail query List.find map_err result_or] in Hrun. rewrite bool_decide_true in Hrun by done. cbv iota in Hrun.
  set (w1 := set_clean_outcomes [] w) in Hrun. apply bind_Ok in Hrun as ([] & w2 & Hu & Hi).
  assert (H2 : cw_db w2 = cw_db w).
  { unfold insert_unless_email in Hu. set (f := λ db, _ ← query _ _ db; _) in Hu.
    destruct (execute_now_cases f w1) as [(e & w3 & Heq & _)|(db & w3 & Hf & Heq & <-)]; rewrite Heq in Hu; [done|]. injection Hu as ->.
    unfold f in Hf. change (cw_db w1) with (cw_db w) in Hf. destruct (query ["instance_users"] _ (cw_db w)); [|done]. cbn [mbind Result_bind] in Hf.
    replace (existsb _ _) with true in Hf; [by injection Hf|]. symmetry. apply existsb_exists. exists r.
    split; [by apply list_elem_of_In|by rewrite bool_decide_true]. }
  unfold insert_row in Hi. set (f := λ db, _ ← query ["instances"] _ db; _) in Hi.
  destruct (execute_now_cases f w2) as [(e & w3 & Heq & _)|(db & w3 & Hf & Heq & <-)]; rewrite Heq in Hi; [done|]. injection Hi as ->.
  unfold f in Hf. rewrite H2 in Hf. destruct (query ["instances"] _ (cw_db w)); [|done]. cbn [mbind Result_bind] in Hf.
  apply insertion_row in Hf as (row' & rows & Hsub & Hrows & ->). exists row'. split_and!.
  - unfold rows_of. rewrite lookup_insert_eq. cbn. apply elem_of_app. right. by apply list_elem_of_singleton.
  - eapply lookup_weaken; [|exact Hsub]. reflexivity.
  - intros r' Hr'. apply Hfresh. unfold rows_of in *. by rewrite lookup_insert_ne in Hr'.
Qed.
End claims.

(** ** Witnesses *)

Definition reference_insertion : Insertion := {|
  insertion := λ t row db, match db !! t with Some rows => Ok (<[t := rows ++ [row]]> db) | None => Err (no_relation t) end |}.
Lemma reference_insertion_laws : InsertionLaws (H := reference_insertion).
Proof.
  constructor. cbn [insertion reference_insertion]. intros t row db db'. destruct (db !! t) as [rows|]; [|done]. intros [= <-]. by exists row, rows.
Qed.

Definition sample_manage_args : ManageArgs := {|
  ma_instance_id := "10"; ma_rename := None; ma_test_user_email := clean_email; ma_test_instance_name := "Test Instance";
  ma_run_tests := false |}.
Definition sample_manage_replies : ManageReplies := {|
  mr_instance := Some 10%N; mr_backup := Ok tt; mr_user_id := 77%N; mr_test_instance_id := 78%N; mr_script := Ok tt |}.
Definition shop : CleanWorld := sample_clean_world [owned_row 100 10; owned_row 200 20].
Definition manage_shop (env : Env) (database_url : string) :=
  manage_instances (H := reference_deletion) (H0 := reference_insertion) env database_url sample_manage_args sample_manage_replies shop.

(** A real database: refused, and its publisher, campaign, tree and buyer are gone. *)
Lemma refused_after_deletion_witness :
  (manage_shop ∅ "postgres://db.leadsnebula.com/main").1 = Err NotEphemeral ∧
  cw_db (manage_shop ∅ "postgres://db.leadsnebula.com/main").2 !! "publishers" = Some [owned_row 200 20].
Proof.
  assert (Hcode : (manage_shop ∅ "postgres://db.leadsnebula.com/main").1 = Err NotEphemeral) by (vm_compute; reflexivity).
  split; [exact Hcode|]. destruct (refused_after_deletion (HD := reference_deletion_laws) (HI := reference_insertion_laws) ∅ "postgres://db.leadsnebula.com/main" sample_manage_args sample_manage_replies
    shop) as (e & w' & Hrun & Hgone); [vm_compute; reflexivity|].
  unfold manage_shop in *. rewrite Hrun in *. injection Hcode as ->. destruct (Hgone eq_refl) as (u & Hu & Ht). injection Hu as <-.
  cbn [snd]. rewrite (Ht "publishers") by (by left). vm_compute. reflexivity.
Defined.

Lemma second_test_instance_has_no_owner_witness :
  ∃ instance : DbRow, instance !! "instance_user_id" = Some (Id 77%N) ∧
    ∀ r, r ∈ rows_of "instance_users"
           (cw_db (create_test_instance (H0 := reference_insertion) sample_manage_args sample_manage_replies shop).2) →
         cell_id (r !! "id") ≠ Some 77%N.
Proof.
  destruct (second_test_instance_has_no_owner (HI := reference_insertion_laws) sample_manage_args sample_manage_replies shop
    (create_test_instance (H0 := reference_insertion) sample_manage_args sample_manage_replies shop).2 (sample_user_row 1 clean_email))
    as (instance & _ & Ho & Hnone).
  - vm_compute. left.
  - reflexivity.
  - intros r Hr. unfold rows_of in Hr. change (default [] (cw_db shop !! "instance_users")) with [sample_user_row 1 clean_email; testimony] in Hr.
    repeat (apply elem_of_cons in Hr as [->|Hr]; [vm_compute; discriminate|]). by apply elem_of_nil in Hr.
  - reflexivity.
  - vm_compute. reflexivity.
  - by exists instance.
Defined.

(** The buyer that is marked goes with its campaign, the other keeps its own. *)
Definition marked_buyers : CleanWorld := {|
  cw_db := list_to_map [
    ("buyers", [sample_row [("id", Id 1%N)]; sample_row [("id", Id 2%N); ("deleted_at", Text "2026-01-01")]]);
    ("campaigns", [sample_row [("id", Id 11%N); ("buyer_id", Id 1%N)]; sample_row [("id", Id 12%N); ("buyer_id", Id 2%N)]])];
  cw_tx := ∅; cw_aborted := false; cw_outcomes := [] |}.
Lemma deleted_buyers_are_gone_witness :
  rows_of "campaigns" (cw_db (cleanup_deleted_buyers (H := reference_deletion) marked_buyers).2) =
    [sample_row [("id", Id 11%N); ("buyer_id", Id 1%N)]].
Proof.
  destruct (deleted_buyers_are_gone (HD := reference_deletion_laws) marked_buyers
    (cleanup_deleted_buyers (H := reference_deletion) marked_buyers).2) as [_ Hc].
  - apply keyed_check. vm_compute. reflexivity.
  - vm_compute. reflexivity.
  - rewrite Hc. vm_compute. reflexivity.
Defined.
