(* ===== verification/Shutdown.v ===== *)
(** * The end of the server

    [crates/api/src/main.rs]: what the server does from its start to its end, with the
    requests in progress and the write-behind queue of [Batcher.v].  At a signal the queue
    is flushed, in up to three attempts; only after that the listener is closed and the
    requests in progress are waited for. *)

From stdpp Require Import base list strings gmap.
From Stdlib Require Import ZArith Lia.
From S2P Require Import Prelude Float64 Platform Json Models Metrics Samples Store WriteBehind Batcher Encryption Config.

Open Scope string_scope.
Open Scope list_scope.

(** ** The start *)

Inductive ServerMode : Type :=
  | FullServer (state : AppState)
  | MinimalServer.

(** [timeout(30 s, AppState::new())]; a state that fails or takes longer leaves a server
    with [/live] alone. *)
Definition server_mode (app_state_result : option (Result StartError AppState)) : ServerMode :=
  match app_state_result with
  | Some (Ok state) => FullServer state
  | _ => MinimalServer
  end.

(** ** The server with its state *)

Inductive ServerPhase : Type :=
  | Serving
  (** The signal came; [flush] is called for the n-th time. *)
  | Flushing (attempt : nat)
  (** [shutdown_tx.send(())]: no new requests; the flush succeeded or not. *)
  | Draining (flush_success : bool)
  | Stopped.

Record ServerState : Type := {
  sv_queue : BatcherState;
  (** The requests in progress: the tasks each will still hand to the queue. *)
  sv_requests : list (list BackgroundTask);
  sv_phase : ServerPhase;
  (** All tasks handed to [enqueue] so far, oldest first. *)
  sv_handed : list BackgroundTask;
  sv_answered : nat
}.

Inductive ServerEvent : Type :=
  | Accept (tasks : list BackgroundTask)
  | Work (i : nat)
  | Answer (i : nat)
  | BatcherRecv
  | BatcherTick
  | ShutdownSignal
  | FlushReturns
  | FlushTimesOut
  | ServerStops.

Definition with_queue (q : BatcherState) (s : ServerState) : ServerState := {|
  sv_queue := q; sv_requests := sv_requests s; sv_phase := sv_phase s; sv_handed := sv_handed s; sv_answered := sv_answered s |}.
Definition in_phase (p : ServerPhase) (s : ServerState) : ServerState := {|
  sv_queue := sv_queue s; sv_requests := sv_requests s; sv_phase := p; sv_handed := sv_handed s; sv_answered := sv_answered s |}.

Section server.
Context `{Platform} (codec : Codec).

Definition server_start (w : World) : ServerState := {|
  sv_queue := WriteBehindQueue_new w; sv_requests := []; sv_phase := Serving; sv_handed := []; sv_answered := 0 |}.

(** [axum::serve] takes requests until the shutdown is signalled to it. *)
Definition accepting (p : ServerPhase) : bool := match p with Serving | Flushing _ => true | _ => false end.
(** The process runs. *)
Definition running (p : ServerPhase) : bool := match p with Stopped => false | _ => true end.

(** A request hands its next task to the queue, whose error is only logged. *)
Definition work (i : nat) (s : ServerState) : option ServerState :=
  match sv_requests s !! i with
  | Some (t :: rest) => Some {|
      sv_queue := enqueue_task t (sv_queue s); sv_requests := <[i := rest]> (sv_requests s); sv_phase := sv_phase s;
      sv_handed := sv_handed s ++ [t]; sv_answered := sv_answered s |}
  | _ => None
  end.

Definition answer (i : nat) (s : ServerState) : option ServerState :=
  match sv_requests s !! i with
  | Some [] => Some {|
      sv_queue := sv_queue s; sv_requests := delete i (sv_requests s); sv_phase := sv_phase s;
      sv_handed := sv_handed s; sv_answered := S (sv_answered s) |}
  | _ => None
  end.

(** [for attempt in 1..=3] around [flush]: a new attempt raises the flag again. *)
Definition flush_times_out (attempt : nat) (s : ServerState) : ServerState :=
  if (attempt <? 3)%nat then in_phase (Flushing (S attempt)) (with_queue (signal_shutdown (sv_queue s)) s)
  else in_phase (Draining false) s.

(** One event of the server; [None] when it cannot happen.  The senders of the queue live
    until the end. *)
Definition server_step (e : ServerEvent) (s : ServerState) : option ServerState :=
  if running (sv_phase s) then
    match e with
    | Accept tasks =>
        if accepting (sv_phase s) then Some {|
          sv_queue := sv_queue s; sv_requests := sv_requests s ++ [tasks]; sv_phase := sv_phase s;
          sv_handed := sv_handed s; sv_answered := sv_answered s |}
        else None
    | Work i => work i s
    | Answer i => answer i s
    | BatcherRecv => (λ q, with_queue q s) <$> batcher_step codec Recv (sv_queue s)
    | BatcherTick => (λ q, with_queue q s) <$> batcher_step codec Tick (sv_queue s)
    | ShutdownSignal =>
        match sv_phase s with
        | Serving => Some (in_phase (Flushing 1) (with_queue (signal_shutdown (sv_queue s)) s))
        | _ => None
        end
    | FlushReturns =>
        match sv_phase s with
        | Flushing _ => if bs_finished (sv_queue s) then Some (in_phase (Draining true) s) else None
        | _ => None
        end
    | FlushTimesOut =>
        match sv_phase s with
        | Flushing attempt => if bs_finished (sv_queue s) then None else Some (flush_times_out attempt s)
        | _ => None
        end
    | ServerStops =>
        match sv_phase s, sv_requests s with
        | Draining _, [] => Some (in_phase Stopped s)
        | _, _ => None
        end
    end
  else None.

Fixpoint server_run (events : list ServerEvent) (s : ServerState) : option ServerState :=
  match events with
  | [] => Some s
  | e :: events => s' ← server_step e s; server_run events s'
  end.

(** ** Lemmas *)

(** What a run keeps: the queue's own invariant; what was handed is what the queue took
    and then what came after its end; a flush that returned found the end. *)
Record server_inv (w0 : World) (s : ServerState) : Prop := {
  si_queue : batcher_inv codec w0 (sv_queue s);
  si_handed : ∃ dropped, sv_handed s = bs_sent (sv_queue s) ++ dropped ∧ (bs_finished (sv_queue s) = false → dropped = []);
  si_ended : sv_phase s = Draining true → bs_finished (sv_queue s) = true
}.

Lemma server_run_app e1 e2 s : server_run (e1 ++ e2) s = s' ← server_run e1 s; server_run e2 s'.
Proof. revert s. induction e1 as [|e e1 IH]; intros s; simpl; [done|]. by destruct (server_step e s); simpl. Qed.

(** A branch of the batcher sends nothing, and does not undo its end. *)
Lemma branch_keeps e q q' : e = Recv ∨ e = Tick → batcher_step codec e q = Some q' →
  bs_sent q' = bs_sent q ∧ bs_finished q = false.
Proof.
  assert (Hflush : ∀ q, bs_sent (flush_current codec q) = bs_sent q) by (intros q0; by destruct (flush_current_fields codec q0) as (_ & _ & ? & _)).
  intros [->| ->]; simpl; destruct (bs_finished q); try done.
  - destruct (bs_channel q) as [|t rest].
    + destruct (bs_open q); [done|]. intros [= <-]. cbn [bs_sent finish]. by rewrite Hflush.
    + intros [= <-]. by destruct (receive_fields codec t rest q) as (_ & _ & ->).
  - intros [= <-]. destruct (bs_shutdown_flag _); cbn [bs_sent finish]; by rewrite !Hflush.
Qed.

Lemma branch_inv w0 e q' s : server_inv w0 s → e = Recv ∨ e = Tick → batcher_step codec e (sv_queue s) = Some q' →
  server_inv w0 (with_queue q' s).
Proof.
  intros [I1 (dropped & I2 & I3) I4] He Hq. destruct (branch_keeps _ _ _ He Hq) as [Hsent Hopen]. split; cbn [with_queue sv_queue sv_handed sv_phase].
  - by eapply step_inv.
  - exists []. split; [by rewrite Hsent, I2, I3|done].
  - intros Hp. by rewrite I4 in Hopen.
Qed.

Lemma signal_inv w0 q : batcher_inv codec w0 q → batcher_inv codec w0 (signal_shutdown q).
Proof. intros Hq. by eapply (step_inv codec w0 SignalShutdown). Qed.

Lemma enqueue_inv w0 t q : batcher_inv codec w0 q → batcher_inv codec w0 (enqueue_task t q).
Proof.
  intros [H1 H2 H3 H4 H5]. unfold enqueue_task. destruct (bs_finished q) eqn:Ef; [by split; rewrite ?Ef|].
  split; cbn; rewrite ?Ef; try done. by rewrite H1, <-!app_assoc.
Qed.

Lemma server_step_inv w0 e s s' : server_inv w0 s → server_step e s = Some s' → server_inv w0 s'.
Proof.
  intros Hinv. unfold server_step. destruct (running (sv_phase s)); [|done].
  destruct e as [tasks|i|i| | | | | |].
  - destruct (accepting _); [|done]. intros [= <-]. by destruct Hinv.
  - unfold work. destruct (sv_requests s !! i) as [[|t rest]|]; [done| |done]. intros [= <-].
    destruct Hinv as [I1 (dropped & I2 & I3) I4]; split; cbn [sv_queue sv_handed sv_phase].
    + by apply enqueue_inv.
    + unfold enqueue_task. destruct (bs_finished (sv_queue s)) eqn:Ef.
      * exists (dropped ++ [t]). split; [by rewrite I2, app_assoc|by rewrite Ef].
      * exists []. split; [|done]. cbn [bs_sent]. by rewrite I2, I3, !app_nil_r.
    + intros Hp. pose proof (I4 Hp) as Hended. unfold enqueue_task. by rewrite Hended.
  - unfold answer. destruct (sv_requests s !! i) as [[|t rest]|]; [|done..]. intros [= <-]. by destruct Hinv.
  - intros (q & Hq & ->)%fmap_Some. apply branch_inv with (e := Recv); auto.
  - intros (q & Hq & ->)%fmap_Some. apply branch_inv with (e := Tick); auto.
  - destruct (sv_phase s); try done. intros [= <-]. destruct Hinv as [I1 I2 _]. split; [by apply signal_inv|exact I2|done].
  - destruct (sv_phase s); try done. destruct (bs_finished (sv_queue s)) eqn:Ef; [|done]. intros [= <-]. by destruct Hinv.
  - destruct (sv_phase s) as [|attempt| |]; try done. destruct (bs_finished (sv_queue s)); [done|]. intros [= <-].
    unfold flush_times_out. destruct Hinv as [I1 I2 _]. destruct (attempt <? 3)%nat; (split; [|exact I2|done]); [by apply signal_inv|done].
  - destruct (sv_phase s); try done. destruct (sv_requests s); [|done]. intros [= <-]. destruct Hinv as [I1 I2 _]. by split.
Qed.

Lemma server_run_inv w0 events s s' : server_inv w0 s → server_run events s = Some s' → server_inv w0 s'.
Proof.
  revert s. induction events as [|e events IH]; simpl; intros s Hi; [by intros [= <-]|].
  intros (s1 & Hs1 & Hrun)%bind_Some. eapply IH; [|done]. by eapply server_step_inv.
Qed.

Lemma server_start_inv w0 : server_inv w0 (server_start w0).
Proof. split; [apply new_inv|by exists []|done]. Qed.



(** The first request does its work and is answered. *)
Lemma first_request_ends tasks rest s : running (sv_phase s) = true → sv_requests s = tasks :: rest →
  ∃ s', server_run (replicate (length tasks) (Work 0) ++ [Answer 0]) s = Some s' ∧ sv_requests s' = rest ∧
    sv_phase s' = sv_phase s ∧ sv_handed s' = sv_handed s ++ tasks ∧ sv_answered s' = S (sv_answered s).
Proof.
  revert s. induction tasks as [|t tasks IH]; intros s Hr Hs; simpl.
  - unfold server_step. rewrite Hr. unfold answer. rewrite Hs. simpl. eexists. split; [done|]. cbn. by rewrite app_nil_r.
  - unfold server_step at 1. rewrite Hr. unfold work. rewrite Hs. simpl. edestruct IH as (s' & Hrun & H1 & H2 & H3 & H4);
      [..|exists s'; split; [exact Hrun|]]; [exact Hr|reflexivity|]. cbn in *. split_and!; [done..| |done]. by rewrite H3, <-app_assoc.
Qed.

(** A server that drains can always come to its end, with every request answered. *)
Lemma draining_ends b s : sv_phase s = Draining b →
  ∃ events s', server_run events s = Some s' ∧ sv_phase s' = Stopped ∧
    sv_handed s' = sv_handed s ++ concat (sv_requests s) ∧ sv_answered s' = (sv_answered s + length (sv_requests s))%nat.
Proof.
  intros Hp. remember (sv_requests s) as requests eqn:Hr. symmetry in Hr. revert s Hp Hr.
  induction requests as [|tasks requests IH]; intros s Hp Hr.
  - exists [ServerStops]. simpl. unfold server_step. rewrite Hp, Hr. simpl. eexists. split; [done|]. cbn. split_and!; [done|by rewrite app_nil_r|lia].
  - destruct (first_request_ends tasks requests s) as (s1 & Hrun1 & Hr1 & Hp1 & Hh1 & Ha1); [by rewrite Hp|done|].
    destruct (IH s1) as (events & s' & Hrun & Hstop & Hh & Ha); [by rewrite Hp1|done|].
    exists ((replicate (length tasks) (Work 0) ++ [Answer 0]) ++ events), s'. rewrite server_run_app, Hrun1. split; [exact Hrun|].
    split_and!; [done|by rewrite Hh, Hh1, <-app_assoc|rewrite Ha, Ha1; simpl; lia].
Qed.

(** Before the signal the loop of the batcher runs. *)
Lemma flush_current_flags q :
  bs_shutdown_flag (flush_current codec q) = bs_shutdown_flag q ∧ bs_open (flush_current codec q) = bs_open q ∧
  bs_finished (flush_current codec q) = bs_finished q.
Proof. by destruct (flush_current_fields codec q) as (_ & -> & _ & -> & ->). Qed.

Lemma receive_flags t rest q :
  bs_shutdown_flag (receive codec t rest q) = bs_shutdown_flag q ∧ bs_open (receive codec t rest q) = bs_open q.
Proof.
  unfold receive. cbv zeta. case_match; [|done]. match goal with |- context [flush_current codec ?x] => destruct (flush_current_flags x) as (-> & -> & _) end.
  done.
Qed.

Definition loop_runs (s : ServerState) : Prop :=
  bs_open (sv_queue s) = true ∧ (sv_phase s = Serving → bs_shutdown_flag (sv_queue s) = false ∧ bs_finished (sv_queue s) = false) ∧
  (∀ n, sv_phase s = Flushing n → bs_shutdown_flag (sv_queue s) = true).

Lemma branch_flags e q q' : e = Recv ∨ e = Tick → batcher_step codec e q = Some q' → bs_open q = true →
  bs_open q' = true ∧ bs_shutdown_flag q' = bs_shutdown_flag q ∧ (bs_shutdown_flag q = false → bs_finished q = false → bs_finished q' = false).
Proof.
  intros [->| ->]; simpl; destruct (bs_finished q) eqn:Ef; try done.
  - destruct (bs_channel q) as [|t rest]; [by destruct (bs_open q)|]. intros [= <-] Ho. destruct (receive_flags t rest q) as [-> ->].
    destruct (receive_fields codec t rest q) as (_ & -> & _). by rewrite Ho, Ef.
  - intros [= <-] Ho. destruct (flush_current_flags q) as (Hf & Hop & Hfin). rewrite Hf.
    destruct (bs_shutdown_flag q) eqn:Eflag; cbn [bs_open bs_shutdown_flag bs_finished finish]; [|by rewrite Hf, Hop, Hfin].
    destruct (flush_current_flags (flush_current codec q)) as (-> & -> & _). by rewrite Hf, Hop.
Qed.

Lemma loop_runs_step e s s' : loop_runs s → server_step e s = Some s' → loop_runs s'.
Proof.
  intros (Ho & Hs & Hflush). assert (Hbranch : ∀ e q, e = Recv ∨ e = Tick → batcher_step codec e (sv_queue s) = Some q → loop_runs (with_queue q s)).
  { intros e0 q He Hq. destruct (branch_flags _ _ _ He Hq Ho) as (H1 & H2 & H3). unfold loop_runs. cbn [sv_phase sv_queue with_queue]. rewrite H2.
    split_and!; [done| |done]. intros Hp. destruct (Hs Hp) as [Hflag Hfin]. auto. }
  unfold server_step. destruct (running (sv_phase s)); [|done]. destruct e as [tasks|i|i| | | | | |].
  - destruct (accepting _); [|done]. by intros [= <-].
  - unfold work. destruct (sv_requests s !! i) as [[|t rest]|]; [done| |done]. intros [= <-].
    unfold loop_runs. cbn [sv_queue sv_phase]. unfold enqueue_task. by destruct (bs_finished (sv_queue s)) eqn:Ef; cbn; rewrite ?Ef.
  - unfold answer. destruct (sv_requests s !! i) as [[|t rest]|]; [|done..]. by intros [= <-].
  - intros (q & Hq & ->)%fmap_Some. apply (Hbranch Recv); auto.
  - intros (q & Hq & ->)%fmap_Some. apply (Hbranch Tick); auto.
  - destruct (sv_phase s); try done. by intros [= <-].
  - destruct (sv_phase s); try done. destruct (bs_finished _); [|done]. by intros [= <-].
  - destruct (sv_phase s) as [|attempt| |]; try done. destruct (bs_finished _); [done|]. intros [= <-].
    unfold flush_times_out. by destruct (attempt <? 3)%nat.
  - destruct (sv_phase s); try done. destruct (sv_requests s); [|done]. by intros [= <-].
Qed.

Lemma loop_runs_run events s s' : loop_runs s → server_run events s = Some s' → loop_runs s'.
Proof.
  revert s. induction events as [|e events IH]; simpl; intros s Hl; [by intros [= <-]|].
  intros (s1 & Hs1 & Hrun)%bind_Some. eapply IH; [|done]. by eapply loop_runs_step.
Qed.

(** Nothing is under way: what was handed is in the batch or flushed. *)
Definition idle (handed : list BackgroundTask) (s : ServerState) : Prop :=
  sv_requests s = [] ∧ bs_channel (sv_queue s) = [] ∧ bs_sent (sv_queue s) = handed ∧ sv_handed s = handed.

Lemma branch_idle e q q' : e = Recv ∨ e = Tick → batcher_step codec e q = Some q' → bs_open q = true → bs_channel q = [] → bs_channel q' = [].
Proof.
  intros [->| ->]; simpl; destruct (bs_finished q); try done; intros Hq Ho Hc.
  - by rewrite Hc, Ho in Hq.
  - injection Hq as <-. assert (Hflush : ∀ q, bs_channel (flush_current codec q) = bs_channel q) by (intros q0; by destruct (flush_current_fields codec q0) as (-> & _)).
    destruct (bs_shutdown_flag _); cbn [bs_channel finish]; by rewrite !Hflush.
Qed.

Lemma idle_run handed events s s' : (∀ tasks, Accept tasks ∉ events) → idle handed s → loop_runs s →
  server_run events s = Some s' → idle handed s'.
Proof.
  revert s. induction events as [|e events IH]; simpl; intros s Hno Hi Hl; [by intros [= <-]|].
  intros (s1 & Hs1 & Hrun)%bind_Some.
  apply (IH s1); [set_solver| |by eapply loop_runs_step|done]. destruct Hi as (I1 & I2 & I3 & I4), Hl as (Ho & _).
  assert (Hbranch : ∀ e q, e = Recv ∨ e = Tick → batcher_step codec e (sv_queue s) = Some q → idle handed (with_queue q s)).
  { intros e0 q He Hq. destruct (branch_keeps _ _ _ He Hq) as [Hsent _]. split_and!; [done|by eapply branch_idle|cbn; congruence|done]. }
  unfold server_step in Hs1. destruct (running (sv_phase s)); [|done]. destruct e as [tasks|i|i| | | | | |].
  - exfalso. apply (Hno tasks). by left.
  - unfold work in Hs1. by rewrite I1 in Hs1.
  - unfold answer in Hs1. by rewrite I1 in Hs1.
  - apply fmap_Some in Hs1 as (q & Hq & ->). apply (Hbranch Recv); auto.
  - apply fmap_Some in Hs1 as (q & Hq & ->). apply (Hbranch Tick); auto.
  - destruct (sv_phase s); try done. injection Hs1 as <-. by split_and!.
  - destruct (sv_phase s); try done. destruct (bs_finished _); [|done]. injection Hs1 as <-. by split_and!.
  - destruct (sv_phase s) as [|attempt| |]; try done. destruct (bs_finished _); [done|]. injection Hs1 as <-.
    unfold flush_times_out. destruct (attempt <? 3)%nat; by split_and!.
  - destruct (sv_phase s); try done. destruct (sv_requests s) eqn:Er; [|done]. injection Hs1 as <-. by split_and!.
Qed.

(** The attempts that are left. *)
Definition attempts_left (p : ServerPhase) : nat := match p with Serving => 3 | Flushing n => 4 - n | _ => 0 end.
Definition is_timeout (e : ServerEvent) : bool := match e with FlushTimesOut => true | _ => false end.
Definition started (p : ServerPhase) : Prop := match p with Flushing n => (1 ≤ n ≤ 3)%nat | _ => True end.

Lemma attempts_step e s s' : started (sv_phase s) → server_step e s = Some s' →
  started (sv_phase s') ∧ ((if is_timeout e then 1 else 0) + attempts_left (sv_phase s') ≤ attempts_left (sv_phase s))%nat.
Proof.
  intros Hst. unfold server_step. destruct (running (sv_phase s)); [|done]. destruct e as [tasks|i|i| | | | | |]; simpl.
  - destruct (accepting _); [|done]. by intros [= <-].
  - unfold work. destruct (sv_requests s !! i) as [[|t rest]|]; [done| |done]. by intros [= <-].
  - unfold answer. destruct (sv_requests s !! i) as [[|t rest]|]; [|done..]. by intros [= <-].
  - by intros (q & Hq & ->)%fmap_Some.
  - by intros (q & Hq & ->)%fmap_Some.
  - destruct (sv_phase s); try done. intros [= <-]. cbn. lia.
  - destruct (sv_phase s); try done. destruct (bs_finished _); [|done]. intros [= <-]. cbn. lia.
  - destruct (sv_phase s) as [|attempt| |]; try done. destruct (bs_finished _); [done|]. intros [= <-].
    unfold flush_times_out. simpl in Hst. destruct (Nat.ltb_spec attempt 3); cbn; lia.
  - destruct (sv_phase s); try done. destruct (sv_requests s); [|done]. intros [= <-]. cbn. lia.
Qed.

Lemma attempts_run events s s' : started (sv_phase s) → server_run events s = Some s' →
  started (sv_phase s') ∧ (length (List.filter is_timeout events) + attempts_left (sv_phase s') ≤ attempts_left (sv_phase s))%nat.
Proof.
  revert s. induction events as [|e events IH]; simpl; intros s Hst; [by intros [= <-]|].
  intros (s1 & Hs1 & Hrun)%bind_Some. destruct (attempts_step _ _ _ Hst Hs1) as [Hst1 Hle1]. destruct (IH s1 Hst1 Hrun) as [Hst' Hle].
  split; [done|]. destruct (is_timeout e); simpl; lia.
Qed.

(** A flush can always return: one tick ends the loop. *)
Lemma flushing_returns n s : loop_runs s → sv_phase s = Flushing n →
  ∃ events s', server_run events s = Some s' ∧ sv_phase s' = Draining true ∧ sv_requests s' = sv_requests s ∧
    sv_answered s' = sv_answered s ∧ sv_handed s' = sv_handed s.
Proof.
  intros (_ & _ & Hflushing) Hp. pose proof (Hflushing n Hp) as Hflag. destruct (bs_finished (sv_queue s)) eqn:Ef.
  - exists [FlushReturns]. simpl. unfold server_step. rewrite Hp, Ef. simpl. by eexists.
  - set (q' := finish (flush_current codec (flush_current codec (sv_queue s)))).
    assert (Htick : server_step BatcherTick s = Some (with_queue q' s)).
    { unfold server_step. rewrite Hp. simpl. rewrite Ef. simpl. destruct (flush_current_flags (sv_queue s)) as (-> & _ & _). by rewrite Hflag. }
    exists [BatcherTick; FlushReturns]. cbn [server_run]. rewrite Htick. cbn [mbind option_bind].
    unfold server_step. cbn [sv_phase sv_queue with_queue]. rewrite Hp. by eexists.
Qed.

Lemma loop_runs_start w0 : loop_runs (server_start w0).
Proof. by split_and!. Qed.

(** ** Properties *)

(** Every task handed to the queue is flushed, waits in the batch or in the channel, or
    came after the end of the batcher and is dropped: once, and in order; the database is
    the result of the flushed batches. *)
Theorem server_accounts_for_every_task (w0 : World) (events : list ServerEvent) (s : ServerState) :
  server_run events (server_start w0) = Some s →
  ∃ dropped,
    sv_handed s = concat (bs_flushed (sv_queue s)) ++ bs_batch (sv_queue s) ++ bs_channel (sv_queue s) ++ dropped ∧
    (dropped ≠ [] → bs_finished (sv_queue s) = true) ∧ (bs_finished (sv_queue s) = true → bs_batch (sv_queue s) = []) ∧
    bs_world (sv_queue s) = (for_each (flush_batch codec) (bs_flushed (sv_queue s)) w0).2.
Proof.
  intros Hrun. destruct (server_run_inv w0 _ _ _ (server_start_inv w0) Hrun) as [[Q1 _ _ Q4 Q5] (dropped & Hh & Hd) _].
  exists dropped. split_and!; [by rewrite Hh, Q1, <-!app_assoc| |done|done].
  intros Hne. destruct (bs_finished (sv_queue s)); [done|]. by rewrite Hd in Hne.
Qed.


(** A server that is idle at the signal, with every task out of the channel, and gets no
    more requests loses nothing when its flush returns. *)
Theorem idle_shutdown_loses_nothing (w0 : World) (before after : list ServerEvent) (s s' : ServerState) :
  server_run before (server_start w0) = Some s → sv_phase s = Serving → sv_requests s = [] → bs_channel (sv_queue s) = [] →
  (∀ tasks, Accept tasks ∉ after) → server_run (ShutdownSignal :: after) s = Some s' → sv_phase s' = Draining true →
  concat (bs_flushed (sv_queue s')) = sv_handed s'.
Proof.
  intros Hrun Hp Hr Hc Hno Hafter Hp'. pose proof (loop_runs_run _ _ _ (loop_runs_start w0) Hrun) as Hl.
  pose proof (server_run_inv w0 _ _ _ (server_start_inv w0) Hrun) as Hi.
  destruct Hl as (Ho & Hs & Hf). destruct (Hs Hp) as [Hflag Hfin].
  assert (Hidle : idle (sv_handed s) s).
  { split_and!; [done..| |done]. destruct Hi as [_ (dropped & -> & Hd) _]. by rewrite Hd, app_nil_r. }
  destruct (idle_run (sv_handed s) (ShutdownSignal :: after) s s') as (_ & Hc' & Hs' & Hh'); [|done|by split_and!|done|].
  { intros tasks [Hbad|Hin]%elem_of_cons; [done|by apply (Hno tasks)]. }
  destruct (server_run_inv w0 _ _ _ Hi Hafter) as [[Q1 _ _ _ Q5] _ Hend]. specialize (Hend Hp').
  rewrite Q1, Q5, Hc', !app_nil_r in Hs' by done. congruence.
Qed.

(** A shutdown gives up on the flush after three attempts at most; and from any moment after the
    signal the server can come to its end, with every request in progress answered. *)
Theorem shutdown_completes (w0 : World) (events : list ServerEvent) (s : ServerState) :
  server_run events (server_start w0) = Some s →
  (length (List.filter is_timeout events) ≤ 3)%nat ∧
  (sv_phase s ≠ Serving → ∃ rest s', server_run rest s = Some s' ∧ sv_phase s' = Stopped ∧
     (sv_phase s ≠ Stopped → sv_answered s' = (sv_answered s + length (sv_requests s))%nat)).
Proof.
  intros Hrun. destruct (attempts_run events (server_start w0) s I Hrun) as [_ Hle]. split; [simpl in Hle; lia|]. intros Hne.
  destruct (sv_phase s) as [|n|b|] eqn:Hp; [done| | |].
  - destruct (flushing_returns n s (loop_runs_run _ _ _ (loop_runs_start w0) Hrun) Hp) as (e1 & s1 & Hrun1 & Hp1 & Hr1 & Ha1 & _).
    destruct (draining_ends true s1 Hp1) as (e2 & s2 & Hrun2 & Hp2 & _ & Ha2). exists (e1 ++ e2), s2.
    rewrite server_run_app, Hrun1. split_and!; [exact Hrun2|done|]. intros _. by rewrite Ha2, Ha1, Hr1.
  - destruct (draining_ends b s Hp) as (e2 & s2 & Hrun2 & Hp2 & _ & Ha2). by exists e2, s2.
  - exists [], s. split_and!; [done..|]. done.
Qed.
End server.

(** ** Witnesses *)

#[local] Existing Instance reference_platform.

Definition served (events : list ServerEvent) : ServerState :=
  default (server_start sample_world) (server_run sample_codec events (server_start sample_world)).

(** A request comes before the signal and hands its task over after the flush. *)
Definition late_request : list ServerEvent := [Accept [sample_task]; ShutdownSignal; BatcherTick; FlushReturns].


Lemma server_accounts_for_every_task_witness :
  ∃ dropped, [sample_task] = [] ++ dropped ∧ sv_phase (served (late_request ++ [Work 0; Answer 0; ServerStops])) = Stopped.
Proof.
  destruct (server_accounts_for_every_task sample_codec sample_world (late_request ++ [Work 0; Answer 0; ServerStops])
    (served (late_request ++ [Work 0; Answer 0; ServerStops]))) as (dropped & Hh & _).
  - vm_compute. reflexivity.
  - exists dropped. split; [exact Hh|vm_compute; reflexivity].
Defined.

Lemma idle_shutdown_loses_nothing_witness :
  concat (bs_flushed (sv_queue (served [Accept [sample_task]; Work 0; Answer 0; BatcherRecv; ShutdownSignal; BatcherTick; FlushReturns]))) = [sample_task].
Proof.
  rewrite (idle_shutdown_loses_nothing sample_codec sample_world [Accept [sample_task]; Work 0; Answer 0; BatcherRecv] [BatcherTick; FlushReturns]
    (served [Accept [sample_task]; Work 0; Answer 0; BatcherRecv])
    (served [Accept [sample_task]; Work 0; Answer 0; BatcherRecv; ShutdownSignal; BatcherTick; FlushReturns])).
  - vm_compute. reflexivity.
  - vm_compute. reflexivity.
  - vm_compute. reflexivity.
  - vm_compute. reflexivity.
  - vm_compute. reflexivity.
  - intros tasks [Hbad|[Hbad|Hbad%elem_of_nil]%elem_of_cons]%elem_of_cons; done.
  - vm_compute. reflexivity.
  - vm_compute. reflexivity.
Defined.

Lemma shutdown_completes_witness :
  ∃ rest s', server_run sample_codec rest (served [Accept [sample_task]; ShutdownSignal; FlushTimesOut]) = Some s' ∧
    sv_phase s' = Stopped ∧ sv_answered s' = 1%nat.
Proof.
  destruct (shutdown_completes sample_codec sample_world [Accept [sample_task]; ShutdownSignal; FlushTimesOut]
    (served [Accept [sample_task]; ShutdownSignal; FlushTimesOut])) as [_ Hend].
  - vm_compute. reflexivity.
  - destruct Hend as (rest & s' & Hrun & Hp & Ha); [vm_compute; discriminate|].
    exists rest, s'. split_and!; [exact Hrun|exact Hp|]. apply Ha. vm_compute. discriminate.
Defined.
